(* ===== verification/_CoqProject ===== *)
-Q . S2P
Prelude.v
Store.v
Keys.v
Triples.v
Json.v
Tax.v
Catalogue.v
Coupons.v
PaymentModels.v
Pricing.v
Db.v
Dates.v
Pagination.v
Orders.v
Invoices.v
Affiliates.v
Payments.v
Gateways.v
ReturnUrl.v
Refunds.v
Subscriptions.v
Webhooks.v
Idempotency.v
RateLimit.v
Reports.v
Checkout.v
Events.v
Security.v
AuthDb.v
Accounts.v
Tokens.v
Mfa.v
AuthRoutes.v
Entitlements.v
Jobs.v
Stages.v
Pipeline.v
Flags.v
Reviews.v
Shelves.v
Taxonomy.v
Templating.v
Channels.v
Notify.v
NotifyEvents.v
BookCatalogue.v
Http.v
Storage.v
SearchDocs.v
SearchIndex.v
SearchQuery.v
SearchStats.v
AiBudget.v
AiGenerate.v
AiChat.v
Gateway.v
Workers.v
OAuth.v
AuthAdmin.v
PaymentRoutes.v
