(* ===== verification/Prelude.v ===== *)
(** * KnowledgeOS: a verification library for the platform's Python services

    ** The program

    The platform sells and lends digital books.  Its services (src/apps/) are
    separate processes that share one library (src/packages/core-py/), keep
    their own PostgreSQL schema, call each other over signed HTTP requests and
    announce what happened on a Redis stream:
    - payment prices a cart, takes the money through a gateway, settles the
      order exactly once, issues the invoice, credits the affiliate, refunds,
      and announces [payment.completed];
    - books owns the catalogue and the readers' shelves, and turns a paid order
      into entitlements by consuming those announcements;
    - automation turns an uploaded file into a published book, stage by stage;
    - notifications turns events into messages, unless the reader refused them;
    - auth signs people in and issues the tokens every service checks;
    - admin holds the feature flags the other services ask for;
    - search keeps an index of the catalogue in step with the announcements and
      answers queries from it;
    - ai writes summaries, answers and recommendations with language models,
      within a budget per user and for the platform;
    - gateway is the public edge: it authenticates, limits, caches and forwards
      to the services above;
    - workers runs the services' maintenance on a schedule, one replica at a
      time.

    ** How the code is modelled

    The definitions are translated from the source and keep its names.  A
    method that reads and writes is a computation [M S A := S -> result A * S]
    (below): it returns a value or raises an exception of the code's own
    classes, and threads the store it works on.  A guard is [raise_when], an
    early return is a branch, [try]/[except] is a match on the outcome.

    - Tables (Store.v) are finite maps from primary keys to rows, with the
      statements the services issue.  Unique constraints, checks and foreign
      keys are part of the write that would violate them.  Keys.v has the facts
      about look-ups by a unique key, Triples.v the program logic.
    - Transactions: [in_transaction] commits what returned and rolls back what
      raised; webhooks commit and roll back explicitly ([session]).
    - Savepoints: opening one flushes what was added before it, so a conflict
      on a row added earlier breaks the surrounding transaction, and one on a
      row added inside is undone with the savepoint.  Each file says which of
      the two its code does.
    - Sessions do not autoflush (core-py/knowledgeos_core/db.py): a query does
      not see a row that was added and not flushed.  Notify.v models a batch
      with pending rows for that reason.
    - Races: code that reads, decides and then writes is given the function
      [race] of what other transactions commit in between.  Theorems quantify
      over it, under the invariants every other writer keeps.
    - Events between processes are lists: what was published, delivered, read
      by whom, acknowledged.
    - Text is a list of ASCII bytes; amounts and times are integers (minor
      units; microseconds since the epoch).  [uuid4] is a parameter or the
      identifier a request carries.

    Parameters, because their code is not under src/: hash functions, HMAC,
    bcrypt, Fernet, JWT signing, TOTP, the JSON library where its bytes matter,
    the network and the providers' answers, document and image processing, the
    database's collation, the clock and the random generators.  What the code
    relies on (a signature verifies what was signed, a digest does not collide
    on the tokens in play) is a named hypothesis of the theorems that use it.

    ** Files

    Shared
    - Prelude.v: exceptions, results, the monad, Python numbers and text.
    - Store.v, Keys.v, Triples.v: tables, unique keys, program logic.
    - Json.v: decoded JSON and the conversions the services apply to it.
    - Dates.v: calendar dates of [datetime].

    Core library (src/packages/core-py/knowledgeos_core/)
    - Pagination.v (pagination.py): offset pages partition the rows, keyset
      pages visit every row once, cursors round-trip, search terms are literal.
    - Idempotency.v (idempotency.py): an operation under a key runs once.
    - RateLimit.v (ratelimit.py): the sliding window admits no more than its limit.
    - Events.v (events.py): no event of the consumer group is lost; poison
      events are parked; duplicates are possible and are the handlers' matter.
    - Security.v (security.py, deps.py): principals, key cache, signatures.
    - Http.v (http.py): signed calls between services, retries and the circuit
      breaker; Storage.v (storage.py): object keys and upload limits.

    Payment (src/apps/payment/)
    - PaymentModels.v, Db.v (models.py, settings.py): rows and statements.
    - Tax.v, Catalogue.v, Coupons.v, Pricing.v (services of those names): a
      quote adds up, taxes reconcile to the minor unit, a coupon is not oversold.
    - Orders.v, Payments.v, Invoices.v, Affiliates.v, Refunds.v,
      Subscriptions.v: the order's life, settlement exactly once, consecutive
      invoice numbers, commissions, the refund ledger, memberships.
    - Gateways.v (services/providers/), Webhooks.v: signatures fail closed, a
      delivery is processed once.
    - Checkout.v (routers/checkout.py), ReturnUrl.v (deps.py), Reports.v: the
      composed routes, the idempotent creation of an order.
    - PaymentRoutes.v (routers/admin.py, billing.py): a refund is committed and
      then announced, settling by hand is settling, a customer's billing pages
      show that customer's rows.

    Auth (src/apps/auth/)
    - AuthDb.v (models.py), Accounts.v, Tokens.v, Mfa.v (services of those
      names), AuthRoutes.v (routers/): a refresh token is exchanged once, its
      reuse ends the family, ended sessions stay ended, answers do not tell
      which accounts exist.
    - OAuth.v (services/oauth.py): which account a provider's answer signs in
      to, the signed state, unlinking.
    - AuthAdmin.v (services/maintenance.py, directory.py): the retention sweep
      spares what is in use; the directory's pages are complete.

    Books (src/apps/books/)
    - Entitlements.v: the consumer refines the set of granted (user, book)
      pairs; a paid order gives access.
    - Reviews.v, Shelves.v, Taxonomy.v: rating columns are the average of the
      approved reviews, reading progress is the reader's own history, the tree
      holds every category.
    - BookCatalogue.v: the catalogue stays sound under races, and the public
      feed lists every published book once.

    Automation (src/apps/automation/)
    - Jobs.v, Stages.v, Pipeline.v: a job settles within its attempts, finished
      stages are not repeated, originals are never overwritten.

    Admin (src/apps/admin/)
    - Flags.v: flags stay typed, the audit log explains the table.

    Notifications (src/apps/notifications/)
    - Templating.v: values add no markup; the best template is found.
    - Channels.v: providers and their registry.
    - Notify.v, NotifyEvents.v: a refusal is respected, an event is sent once,
      retries are bounded, an unsubscribe link silences.

    Search (src/apps/search/)
    - SearchDocs.v (services/documents.py): the documents events and catalogue
      rows become.
    - SearchIndex.v (services/indexer.py, catalogue.py): the index refines the
      set of published books through any order of events; a rebuild restores it.
    - SearchQuery.v (services/query.py): what a request asks the engine; a
      result is inside the filters.
    - SearchStats.v (services/analytics.py, trending.py): recording never fails
      a search, a report adds up, trending terms rank by their decayed counts.

    AI (src/apps/ai/)
    - AiBudget.v (services/budget.py): no charge of a user is lost.
    - AiGenerate.v (services/generator.py, providers.py): the ledger adds up to
      the budget, spending stops at the ceiling.
    - AiChat.v (services/chat.py, moderation.py, routers/): a chat is its
      owner's, recommendations are books on sale.

    Gateway and workers (src/apps/gateway/, src/apps/workers/)
    - Gateway.v: cached pages are shared only by callers who would see the same,
      identity headers come from the token alone.
    - Workers.v: a job runs on one replica at a time, a call is made once, a
      scheduler that stopped is seen.

    ** Bounds and fuel

    Recursion is structural wherever the code iterates over a list.  Fuel is
    used where the code loops on a condition, and each use comes with the
    amount that is enough: cursors are followed for one step per row plus one
    ([Pagination.walk_all], [BookCatalogue.public_feed_complete]); LIKE patterns
    are matched with the length of pattern and text ([Pagination.like]); the
    insert attempts of an invoice are the code's own bound; a category chain is
    climbed for the code's own MAX_CATEGORY_DEPTH; a job is run for its
    maximum number of attempts.  Integers are unbounded in Python and in the
    model; the columns' 32-bit limits are not modelled, except where a theorem
    says so.

    ** Properties

    A theorem that states a property of the program is preceded by a comment
    that starts with its number.  Its hypotheses are discharged on a concrete
    run in the lemma named after it with the suffix [_witness].  The examples
    next to them are runs on small stores: most show what a component does, and
    some that code and documentation disagree.

    ** Not modelled

    - Framework wiring: application factories, dependency declarations,
      logging, metrics, health checks, ASGI middleware, settings classes whose
      fields nothing branches on.
    - Database migrations: generated schema changes; the constraints they
      create are the ones the rows' writes enforce.
    - I/O whose behaviour is a library's: the HTTP, Redis, SMTP and S3 clients,
      document and image processing, the texts of the system prompts.
    - The search engine's index settings, the admin dashboard (concurrent calls without state), the
      gateway's merged API document and readiness probes.
    - Loading of signing keys (environment and files), bulk import of books from
      a spreadsheet, and the scripts under src/scripts/.
 *)

From Stdlib Require Export ZArith Lia Ascii String.
From stdpp Require Export base tactics option list list_numbers numbers strings pretty gmap fin_maps sorting.

#[global] Open Scope string_scope.
#[global] Open Scope list_scope.
#[global] Open Scope Z_scope.

(** ** Platform conventions

    UUIDs are 128-bit numbers; the model never inspects them except to print
    and parse them (Json.v).  A [datetime] is a number of microseconds. *)
Abbreviation uuid := N (only parsing).
Abbreviation datetime := Z (only parsing).

Definition SECOND : Z := 1000000.
Definition DAY : Z := 86400 * SECOND.

(** ** Errors (packages/core-py/knowledgeos_core/errors.py) *)

Inductive error_class :=
  | AppError
  | BadRequestError
  | ValidationError
  | UnauthorizedError
  | ForbiddenError
  | NotFoundError
  | ConflictError
  | PayloadTooLargeError
  | UnsupportedMediaTypeError
  | RateLimitedError
  | PaymentRequiredError
  | ServiceUnavailableError
  | UpstreamError.

#[export] Instance error_class_eq_dec : EqDecision error_class.
Proof. solve_decision. Defined.

(** The class attribute [status_code] of each error class. *)
Definition status_code (c : error_class) : Z :=
  match c with
  | AppError => 500
  | BadRequestError => 400
  | ValidationError => 422
  | UnauthorizedError => 401
  | ForbiddenError => 403
  | NotFoundError => 404
  | ConflictError => 409
  | PayloadTooLargeError => 413
  | UnsupportedMediaTypeError => 415
  | RateLimitedError => 429
  | PaymentRequiredError => 402
  | ServiceUnavailableError => 503
  | UpstreamError => 502
  end.

(** The class attribute [code] of each error class. *)
Definition default_code (c : error_class) : string :=
  match c with
  | AppError => "internal_error"
  | BadRequestError => "bad_request"
  | ValidationError => "validation_error"
  | UnauthorizedError => "unauthorized"
  | ForbiddenError => "forbidden"
  | NotFoundError => "resource_not_found"
  | ConflictError => "conflict"
  | PayloadTooLargeError => "payload_too_large"
  | UnsupportedMediaTypeError => "unsupported_media_type"
  | RateLimitedError => "rate_limited"
  | PaymentRequiredError => "payment_required"
  | ServiceUnavailableError => "service_unavailable"
  | UpstreamError => "upstream_error"
  end.

(** A Python exception: a platform error with its machine-readable code, or
    one of the built-in and library exceptions the services can meet. *)
Inductive exn :=
  | AppErr (c : error_class) (code : string)
  | RuntimeErr
  | ValueErr
  | KeyErr
  | TypeErr
  | AttributeErr
  | IntegrityErr
  | DataErr
  | PendingRollbackErr
  | StaleDataErr
  | StageSkipped (reason : string)
  | MultipleResultsFound
  | TimeoutErr                                    (* httpx.TimeoutException *)
  | UpstreamStatus (code : string) (status : Z).  (* UpstreamError with the status of the answer *)

#[export] Instance exn_eq_dec : EqDecision exn.
Proof. solve_decision. Defined.

(** [AppError.__init__]: [self.code = code or self.code]. *)
Definition app_error (c : error_class) (code : string) : exn :=
  AppErr c (if decide (code = "") then default_code c else code).

(** ** Results and the state-and-error monad

    A service method is a function of the store it works on: it returns a
    value or raises, and in both cases leaves a store behind (an exception
    does not undo the writes made before it; the rollback, where there is
    one, is explicit). *)

Inductive result (A : Type) :=
  | Ok (a : A)
  | Raise (e : exn).
Arguments Ok {A} a.
Arguments Raise {A} e.

#[export] Instance result_eq_dec {A} `{EqDecision A} : EqDecision (result A).
Proof. solve_decision. Defined.

#[export] Instance result_ret : MRet result := fun A a => Ok a.
#[export] Instance result_bind : MBind result := fun A B k m =>
  match m with Ok a => k a | Raise e => Raise e end.
#[export] Instance result_fmap : FMap result := fun A B f m =>
  match m with Ok a => Ok (f a) | Raise e => Raise e end.

Lemma result_bind_ok {A B} (r : result A) (k : A -> result B) b : r ≫= k = Ok b -> exists a, r = Ok a /\ k a = Ok b.
Proof. destruct r; [by eauto|done]. Qed.

Definition is_ok {A} (r : result A) : bool :=
  match r with Ok _ => true | Raise _ => false end.

Definition opt_result {A} (e : exn) (o : option A) : result A :=
  match o with Some a => Ok a | None => Raise e end.

Definition M (S A : Type) : Type := S -> result A * S.

#[export] Instance M_ret {S} : MRet (M S) := fun A a s => (Ok a, s).
#[export] Instance M_bind {S} : MBind (M S) := fun A B k m s =>
  match m s with
  | (Ok a, s') => k a s'
  | (Raise e, s') => (Raise e, s')
  end.

Definition raise {S A} (e : exn) : M S A := fun s => (Raise e, s).
Definition get {S} : M S S := fun s => (Ok s, s).
Definition put {S} (s' : S) : M S unit := fun _ => (Ok tt, s').
Definition modify {S} (f : S -> S) : M S unit := fun s => (Ok tt, f s).
Definition gets {S A} (f : S -> A) : M S A := fun s => (Ok (f s), s).
Definition of_result {S A} (r : result A) : M S A := fun s => (r, s).
Definition raise_when {S} (b : bool) (e : exn) : M S unit :=
  if b then raise e else mret tt.

(** [lift get set m] runs a computation of a component's store inside a larger
    store that contains it. *)
Definition lift {S T A} (proj : T -> S) (inj : S -> T -> T) (m : M S A) : M T A :=
  fun t => let '(r, s) := m (proj t) in (r, inj s t).

(** A [for] loop over a list, for its effects. *)
Fixpoint for_each {S A} (f : A -> M S unit) (l : list A) : M S unit :=
  match l with
  | [] => mret tt
  | x :: l' => _ ← f x; for_each f l'
  end.

(** A [for] loop that threads an accumulator. *)
Fixpoint for_acc {S A B} (f : B -> A -> M S B) (acc : B) (l : list A) : M S B :=
  match l with
  | [] => mret acc
  | x :: l' => acc' ← f acc x; for_acc f acc' l'
  end.

(** ** Reasoning about the monad *)

Lemma bind_ok {S A B} (m : M S A) (k : A -> M S B) s a s' :
  m s = (Ok a, s') -> (m ≫= k) s = k a s'.
Proof. intros H. unfold mbind, M_bind. by rewrite H. Qed.

Lemma bind_raise {S A B} (m : M S A) (k : A -> M S B) s e s' :
  m s = (Raise e, s') -> (m ≫= k) s = (Raise e, s').
Proof. intros H. unfold mbind, M_bind. by rewrite H. Qed.

Lemma bind_inv {S A B} (m : M S A) (k : A -> M S B) s r s' :
  (m ≫= k) s = (r, s') ->
  (exists a s1, m s = (Ok a, s1) /\ k a s1 = (r, s')) \/
  (exists e, m s = (Raise e, s') /\ r = Raise e).
Proof.
  unfold mbind, M_bind. destruct (m s) as [[a|e] s1] eqn:Hm; intros Hk.
  - left. eauto.
  - right. exists e. by simplify_eq.
Qed.

Lemma bind_ok_inv {S A B} (m : M S A) (k : A -> M S B) s b s' :
  (m ≫= k) s = (Ok b, s') ->
  exists a s1, m s = (Ok a, s1) /\ k a s1 = (Ok b, s').
Proof. intros [?|(e & _ & ?)]%bind_inv; [done|congruence]. Qed.

Lemma of_result_inv {S A} (r : result A) (w : S) r' w' : of_result r w = (r', w') -> r' = r /\ w' = w.
Proof. unfold of_result. by intros [= <- <-]. Qed.

Lemma raise_when_cases {S} b e (w : S) r w' : raise_when b e w = (r, w') -> w' = w /\ (match r with Ok _ => b = false | Raise e' => e' = e end).
Proof. unfold raise_when. destruct b; intros [= <- <-]; done. Qed.

(** [preserves I m]: every run of [m], whether it returns or raises, leaves a
    store that satisfies [I] when it starts in one. *)
Definition preserves {S A} (I : S -> Prop) (m : M S A) : Prop :=
  forall s r s', I s -> m s = (r, s') -> I s'.

(** [never_raises I m]: from a store satisfying [I], [m] returns a value. *)
Definition never_raises {S A} (I : S -> Prop) (m : M S A) : Prop :=
  forall s, I s -> exists a s', m s = (Ok a, s').

Create HintDb store discriminated.

Section preserves.
Context {S : Type} (I : S -> Prop).

Lemma preserves_ret {A} (a : A) : preserves I (mret a).
Proof. intros s r s' HI [= <- <-]. done. Qed.

Lemma preserves_raise {A} e : preserves I (raise e : M S A).
Proof. intros s r s' HI [= <- <-]. done. Qed.

Lemma preserves_gets {A} (f : S -> A) : preserves I (gets f).
Proof. intros s r s' HI [= <- <-]. done. Qed.

Lemma preserves_get : preserves I get.
Proof. intros s r s' HI [= <- <-]. done. Qed.

Lemma preserves_of_result {A} (r : result A) : preserves I (of_result r).
Proof. intros s r' s' HI [= <- <-]. done. Qed.

Lemma preserves_raise_when b e : preserves I (raise_when b e).
Proof. destruct b; [apply preserves_raise|apply preserves_ret]. Qed.

Lemma preserves_modify (f : S -> S) : (forall s, I s -> I (f s)) -> preserves I (modify f).
Proof. intros Hf s r s' HI [= <- <-]. auto. Qed.

Lemma preserves_bind {A B} (m : M S A) (k : A -> M S B) :
  preserves I m -> (forall a, preserves I (k a)) -> preserves I (m ≫= k).
Proof.
  intros Hm Hk s r s' HI [(a & s1 & H1 & H2)|(e & H1 & ->)]%bind_inv.
  - eapply Hk, H2. eapply Hm, H1. done.
  - eapply Hm, H1. done.
Qed.

Lemma preserves_for_each {A} (f : A -> M S unit) l :
  (forall x, preserves I (f x)) -> preserves I (for_each f l).
Proof.
  intros Hf. induction l as [|x l IH]; [apply preserves_ret|].
  apply preserves_bind; [apply Hf|intros _; apply IH].
Qed.

Lemma preserves_for_acc {A B} (f : B -> A -> M S B) l :
  (forall b x, preserves I (f b x)) -> forall acc, preserves I (for_acc f acc l).
Proof.
  intros Hf. induction l as [|x l IH]; intros acc; [apply preserves_ret|].
  apply preserves_bind; [apply Hf|intros b; apply IH].
Qed.
End preserves.

#[export] Hint Resolve preserves_ret preserves_raise preserves_gets preserves_get
  preserves_of_result preserves_raise_when preserves_modify preserves_bind
  preserves_for_each preserves_for_acc : store.

(** Unfold a run of the monad one step, in a hypothesis or in the goal. *)
Ltac run_step H :=
  lazymatch type of H with
  | (_ ≫= _) _ = (Ok _, _) =>
      let a := fresh "a" in let s := fresh "s" in let H1 := fresh "Hrun" in
      apply bind_ok_inv in H as (a & s & H1 & H)
  end.

(** Decide a boolean test that occurs in a hypothesis or in the goal. *)
Ltac case_if_hyp H :=
  match type of H with
  | context [if ?b then _ else _] => destruct b eqn:?
  end.

Ltac split_ifs :=
  repeat match goal with
  | |- context [if ?b then _ else _] => destruct b eqn:?
  end.

(** Turn boolean comparisons in the context into propositions for [lia]. *)
Ltac bool_to_prop :=
  repeat match goal with
  | H : (_ && _)%bool = true |- _ => apply andb_true_iff in H as [??]
  | H : (_ || _)%bool = false |- _ => apply orb_false_iff in H as [??]
  | H : negb _ = true |- _ => apply negb_true_iff in H
  | H : negb _ = false |- _ => apply negb_false_iff in H
  | H : bool_decide _ = true |- _ => apply bool_decide_eq_true in H
  | H : bool_decide _ = false |- _ => apply bool_decide_eq_false in H
  end.

Ltac zbool := bool_to_prop; lia.
Ltac zbool_or :=
  bool_to_prop;
  repeat match goal with
  | H : (_ && _)%bool = false |- _ => apply andb_false_iff in H as [H|H]; bool_to_prop
  | H : (_ || _)%bool = true |- _ => apply orb_true_iff in H as [H|H]; bool_to_prop
  end; try lia.

(** ** Python numbers and sequences *)

(** [sum(xs)] *)
Definition zsum (l : list Z) : Z := foldr Z.add 0 l.
#[global] Arguments zsum : simpl never.

Lemma zsum_nil : zsum [] = 0.
Proof. done. Qed.
Lemma zsum_cons x l : zsum (x :: l) = x + zsum l.
Proof. done. Qed.

Lemma zsum_app l1 l2 : zsum (l1 ++ l2) = zsum l1 + zsum l2.
Proof. induction l1 as [|x l1 IH]; simpl; [done|]. rewrite !zsum_cons. lia. Qed.

Lemma zsum_nonneg l : Forall (fun x => 0 <= x) l -> 0 <= zsum l.
Proof. induction 1 as [|x l Hx _ IH]; [done|]. rewrite zsum_cons. lia. Qed.

Lemma zsum_perm l1 l2 : l1 ≡ₚ l2 -> zsum l1 = zsum l2.
Proof. induction 1; rewrite ?zsum_cons; lia. Qed.

#[export] Instance zsum_proper : Proper ((≡ₚ) ==> (=)) zsum.
Proof. intros l1 l2. apply zsum_perm. Qed.

Lemma zsum_map_le {A} (f g : A -> Z) l :
  (forall x, x ∈ l -> f x <= g x) -> zsum (map f l) <= zsum (map g l).
Proof.
  induction l as [|x l IH]; intros H; [done|].
  cbn [map]. rewrite !zsum_cons.
  assert (f x <= g x) by (apply H; constructor).
  assert (zsum (map f l) <= zsum (map g l)) by (apply IH; intros y Hy; apply H; by constructor).
  lia.
Qed.

(** [list(dict.fromkeys(l))]: the first occurrence of each element, in order. *)
Section fromkeys.
Context {A : Type} `{!EqDecision A}.

Definition fromkeys_step (seen : list A) (x : A) : list A :=
  if decide (x ∈ seen) then seen else seen ++ [x].
Definition fromkeys (l : list A) : list A := foldl fromkeys_step [] l.

Lemma fromkeys_acc l seen x : x ∈ foldl fromkeys_step seen l <-> x ∈ seen \/ x ∈ l.
Proof.
  revert seen. induction l as [|y l IH]; intros seen; simpl; [set_solver|].
  rewrite IH. unfold fromkeys_step. case_decide; set_solver.
Qed.

Lemma elem_of_fromkeys l x : x ∈ fromkeys l <-> x ∈ l.
Proof. unfold fromkeys. rewrite fromkeys_acc. set_solver. Qed.

Lemma NoDup_fromkeys_acc l seen : NoDup seen -> NoDup (foldl fromkeys_step seen l).
Proof.
  revert seen. induction l as [|y l IH]; intros seen H; simpl; [done|].
  apply IH. unfold fromkeys_step. case_decide; [done|].
  apply NoDup_app. split; [done|]. split; [set_solver|]. apply NoDup_singleton.
Qed.

Lemma NoDup_fromkeys l : NoDup (fromkeys l).
Proof. apply NoDup_fromkeys_acc, NoDup_nil_2. Qed.

Lemma fromkeys_NoDup_acc l seen :
  NoDup (seen ++ l) -> foldl fromkeys_step seen l = seen ++ l.
Proof.
  revert seen. induction l as [|y l IH]; intros seen H; simpl; [by rewrite app_nil_r|].
  assert (y ∉ seen) by (apply NoDup_app in H as (_ & H & _); intros ?; eapply H; [done|constructor]).
  unfold fromkeys_step. rewrite decide_False by done.
  rewrite IH by (by rewrite <- app_assoc). by rewrite <- app_assoc.
Qed.

(** A list without repetition is left as it is. *)
Lemma fromkeys_NoDup l : NoDup l -> fromkeys l = l.
Proof. intros H. unfold fromkeys. by rewrite fromkeys_NoDup_acc. Qed.
End fromkeys.

(** Python's [or] on optional strings: [None] and the empty string are false. *)
Definition truthy (o : option string) : bool :=
  match o with Some s => negb (String.eqb s "") | None => false end.
Definition str_or (o1 o2 : option string) : option string := if truthy o1 then o1 else o2.

(** ** ASCII strings: [upper], [lower], [strip], [startswith], [in] *)

Definition ascii_upper (c : ascii) : ascii :=
  let n := N_of_ascii c in
  if ((97 <=? n) && (n <=? 122))%N then ascii_of_N (n - 32) else c.
Definition ascii_lower (c : ascii) : ascii :=
  let n := N_of_ascii c in
  if ((65 <=? n) && (n <=? 90))%N then ascii_of_N (n + 32) else c.

(** [str.isspace] on ASCII. *)
Definition is_space (c : ascii) : bool :=
  let n := N_of_ascii c in
  (((9 <=? n) && (n <=? 13)) || ((28 <=? n) && (n <=? 32)))%N.

Fixpoint smap (f : ascii -> ascii) (s : string) : string :=
  match s with "" => "" | String c s' => String (f c) (smap f s') end.
Definition upper : string -> string := smap ascii_upper.
Definition lower : string -> string := smap ascii_lower.

Fixpoint lstrip (s : string) : string :=
  match s with
  | "" => ""
  | String c s' => if is_space c then lstrip s' else s
  end.
Fixpoint rstrip (s : string) : string :=
  match s with
  | "" => ""
  | String c s' =>
      match rstrip s' with
      | "" => if is_space c then "" else String c ""
      | t => String c t
      end
  end.
Definition strip (s : string) : string := rstrip (lstrip s).

Definition startswith (p s : string) : bool := String.prefix p s.

(** [sub in s] *)
Fixpoint contains (sub s : string) : bool :=
  startswith sub s ||
  match s with "" => false | String _ s' => contains sub s' end.

(** [s[:n]] for a non-negative [n]. *)
Fixpoint stake (n : nat) (s : string) : string :=
  match n, s with
  | S n', String c s' => String c (stake n' s')
  | _, _ => ""
  end.

Definition is_alnum (c : ascii) : bool :=
  let n := N_of_ascii c in
  (((48 <=? n) && (n <=? 57)) || ((65 <=? n) && (n <=? 90)) || ((97 <=? n) && (n <=? 122)))%N.
Fixpoint sall (p : ascii -> bool) (s : string) : bool :=
  match s with "" => true | String c s' => p c && sall p s' end.
(** [s.isalnum()]: non-empty and alphanumeric throughout. *)
Definition isalnum (s : string) : bool := negb (String.eqb s "") && sall is_alnum s.
Fixpoint sfilter (p : ascii -> bool) (s : string) : string :=
  match s with "" => "" | String c s' => if p c then String c (sfilter p s') else sfilter p s' end.

Lemma ascii_upper_idem c : ascii_upper (ascii_upper c) = ascii_upper c.
Proof. destruct c as [[] [] [] [] [] [] [] []]; reflexivity. Qed.
Lemma ascii_lower_idem c : ascii_lower (ascii_lower c) = ascii_lower c.
Proof. destruct c as [[] [] [] [] [] [] [] []]; reflexivity. Qed.

Lemma smap_idem f s : (forall c, f (f c) = f c) -> smap f (smap f s) = smap f s.
Proof. intros Hf. induction s as [|c s IH]; simpl; [done|]. by rewrite Hf, IH. Qed.

Lemma upper_idem s : upper (upper s) = upper s.
Proof. apply smap_idem, ascii_upper_idem. Qed.
Lemma lower_idem s : lower (lower s) = lower s.
Proof. apply smap_idem, ascii_lower_idem. Qed.

Lemma stake_length n s : (String.length (stake n s) <= n)%nat.
Proof. revert s. induction n as [|n IH]; intros [|c s]; simpl; [lia..|]. specialize (IH s). lia. Qed.

Lemma stake_all n s : (String.length s <= n)%nat -> stake n s = s.
Proof. revert s. induction n as [|n IH]; intros [|c s]; simpl; [done|lia|done|]. intros H. by rewrite IH by lia. Qed.

Lemma rstrip_idem s : rstrip (rstrip s) = rstrip s.
Proof.
  induction s as [|c s IH]; [done|]. cbn [rstrip]. destruct (rstrip s) as [|d t].
  - destruct (is_space c) eqn:Hc; [done|]. cbn [rstrip]. by rewrite Hc.
  - cbn [rstrip] in *. by rewrite IH.
Qed.

Lemma rstrip_cons c s : is_space c = false -> rstrip (String c s) = String c (rstrip s).
Proof. intros Hc. cbn [rstrip]. rewrite Hc. by destruct (rstrip s). Qed.

Lemma lstrip_cases s : lstrip s = "" \/ exists c r, lstrip s = String c r /\ is_space c = false.
Proof.
  induction s as [|c s IH]; [by left|]. cbn [lstrip]. destruct (is_space c) eqn:Hc; [done|]. right. eauto.
Qed.

Lemma strip_idem s : strip (strip s) = strip s.
Proof.
  unfold strip. destruct (lstrip_cases s) as [->|(c & r & -> & Hc)]; [done|].
  rewrite rstrip_cons by done. cbn [lstrip]. by rewrite Hc, rstrip_cons, rstrip_idem.
Qed.

Lemma lower_space c : is_space (ascii_lower c) = is_space c.
Proof. destruct c as [[] [] [] [] [] [] [] []]; reflexivity. Qed.

Lemma strip_lower s : strip (lower s) = lower (strip s).
Proof.
  unfold strip, lower. assert (Hl : forall t, lstrip (smap ascii_lower t) = smap ascii_lower (lstrip t)).
  { induction t as [|c t IH]; [done|]. cbn [smap lstrip]. rewrite lower_space. by destruct (is_space c). }
  rewrite Hl. generalize (lstrip s). intros t. induction t as [|c t IH]; [done|].
  cbn [smap rstrip]. rewrite IH, lower_space. destruct (rstrip t); cbn [smap]; [by destruct (is_space c)|done].
Qed.

Create Rewrite HintDb text.
#[export] Hint Rewrite upper_idem lower_idem strip_idem strip_lower : text.

(** ** String enums: a value per member, parsed back by value *)
Class StrEnum (A : Type) := {
  members : list A;
  enum_value : A -> string;
  members_complete : forall a, a ∈ members;
  enum_value_inj : Inj (=) (=) enum_value;
}.

(** [E(value)]: the member with that value, or ValueError. *)
Definition parse_enum {A} `{StrEnum A} (s : string) : option A :=
  List.find (fun a => String.eqb (enum_value a) s) members.

Lemma parse_enum_value {A} `{StrEnum A} (a : A) : parse_enum (enum_value a) = Some a.
Proof.
  unfold parse_enum. destruct (List.find _ members) as [b|] eqn:E.
  - apply List.find_some in E as [_ Hb]. apply String.eqb_eq in Hb.
    f_equal. by apply enum_value_inj.
  - exfalso. pose proof (members_complete a) as Hin. apply list_elem_of_In in Hin.
    pose proof (List.find_none _ _ E _ Hin) as Hf. cbn in Hf. by rewrite String.eqb_refl in Hf.
Qed.

Lemma parse_enum_inv {A} `{StrEnum A} s (a : A) : parse_enum s = Some a -> enum_value a = s.
Proof. intros [_ Hb]%List.find_some. by apply String.eqb_eq. Qed.

Ltac solve_str_enum :=
  solve [ intros []; set_solver | intros [] []; simpl; intros; congruence ].

(** ** Text: [split], [partition] *)

Fixpoint split_char (c : ascii) (s : string) : list string :=
  match s with
  | "" => [""]
  | String d s' =>
      if (d =? c)%char then "" :: split_char c s'
      else match split_char c s' with
           | w :: ws => String d w :: ws
           | [] => [String d ""]
           end
  end.

(** [key, _, value = s.partition("=")] *)
Fixpoint partition_char (c : ascii) (s : string) : string * string :=
  match s with
  | "" => ("", "")
  | String d s' =>
      if (d =? c)%char then ("", s')
      else let '(k, v) := partition_char c s' in (String d k, v)
  end.

Lemma append_String c s t : append (String c s) t = String c (append s t).
Proof. reflexivity. Qed.

Lemma append_nil t : append "" t = t.
Proof. reflexivity. Qed.

Lemma append_assoc (s t u : string) : append (append s t) u = append s (append t u).
Proof. induction s as [|c s IH]; [done|]. rewrite !append_String. by rewrite IH. Qed.

Lemma sall_append p a b : sall p (append a b) = sall p a && sall p b.
Proof. induction a as [|c a IH]; [done|]. rewrite append_String. cbn. by rewrite IH, andb_assoc. Qed.

(** The parts of a text joined by a separator that none of them contains. *)
Lemma split_char_none c s : sall (fun d => negb (d =? c)%char) s = true -> split_char c s = [s].
Proof.
  induction s as [|d s IH]; [done|]. cbn [sall split_char]. intros [Hd Hs]%andb_true_iff.
  apply negb_true_iff in Hd. by rewrite Hd, (IH Hs).
Qed.
Lemma split_char_append c s t : sall (fun d => negb (d =? c)%char) s = true ->
  split_char c (append s (String c t)) = s :: split_char c t.
Proof.
  induction s as [|d s IH]; cbn [sall]; [intros _; change (append "" (String c t)) with (String c t); cbn [split_char]; by rewrite Ascii.eqb_refl|].
  intros [Hd Hs]%andb_true_iff. apply negb_true_iff in Hd. rewrite append_String. cbn [split_char]. by rewrite Hd, (IH Hs).
Qed.
