(* ===== verification/Store.v ===== *)
(** * The relational store the services work on

    A service reads and writes tables through SQLAlchemy.  A table is a finite
    map from primary keys to rows; a [Row] knows its own key (the ORM's
    identity map: an object is the row with its key).  The statements the
    services issue become: [select] (a WHERE clause), [one_or_none], [save]
    (flush a changed or new row), [insert_unique] (an INSERT under a unique
    constraint, which fails with IntegrityError), [update_where] (a bulk
    UPDATE, returning the row count) and [remove]. *)

From S2P Require Import Prelude.

(** A row type: the primary key column. *)
Class Row (V : Type) := row_id : V -> uuid.

Abbreviation table V := (gmap N V).

Section tables.
Context {V : Type} `{!Row V}.
Implicit Types (t : table V) (v w : V) (P : V -> bool).

(** Every row is stored under its own primary key. *)
Definition keyed t : Prop := map_Forall (fun k v => row_id v = k) t.

Definition save v t : table V := <[row_id v := v]> t.
Definition remove v t : table V := delete (row_id v) t.

(** [SELECT ... WHERE P], in primary-key order. *)
Definition rows t : list V := map snd (map_to_list t).
Definition select P t : list V := List.filter P (rows t).
Definition count P t : Z := Z.of_nat (length (select P t)).

(** [UPDATE ... SET f WHERE P]; the second component is [rowcount]. *)
Definition update_where P (f : V -> V) t : table V * Z :=
  ((fun v => if P v then f v else v) <$> t, count P t).

(** [scalars().one_or_none()] *)
Definition one_or_none (l : list V) : result (option V) :=
  match l with
  | [] => Ok None
  | [v] => Ok (Some v)
  | _ => Raise MultipleResultsFound
  end.

(** [ORDER BY le LIMIT 1] *)
Definition first_by (le : V -> V -> bool) (l : list V) : option V :=
  head (merge_sort (fun v w => Is_true (le v w)) l).

Lemma elem_of_rows v t : v ∈ rows t <-> exists k, t !! k = Some v.
Proof.
  unfold rows. rewrite list_elem_of_fmap. split.
  - intros ([k w] & -> & Hk%elem_of_map_to_list). eauto.
  - intros (k & Hk). exists (k, v). split; [done|]. by apply elem_of_map_to_list.
Qed.

Lemma elem_of_select v P t : v ∈ select P t <-> (exists k, t !! k = Some v) /\ P v = true.
Proof.
  unfold select. rewrite list_elem_of_In, filter_In, <- list_elem_of_In, elem_of_rows. done.
Qed.

Lemma keyed_lookup t k v : keyed t -> t !! k = Some v -> row_id v = k.
Proof. intros H Hk. by apply (H k v). Qed.

Lemma keyed_empty : keyed ∅.
Proof. apply map_Forall_empty. Qed.

Lemma keyed_save t v : keyed t -> keyed (save v t).
Proof. intros H. by apply map_Forall_insert_2. Qed.

Lemma keyed_remove t v : keyed t -> keyed (remove v t).
Proof. intros H. by apply map_Forall_delete. Qed.

Lemma keyed_update t P f :
  (forall v, row_id (f v) = row_id v) -> keyed t -> keyed (update_where P f t).1.
Proof.
  intros Hf H k v. simpl. rewrite lookup_fmap_Some. intros (w & <- & Hw).
  destruct (P w); [rewrite Hf|]; by apply (H k w).
Qed.

Lemma lookup_update_where t P f k :
  (update_where P f t).1 !! k = (fun v => if P v then f v else v) <$> t !! k.
Proof. simpl. apply lookup_fmap. Qed.

Lemma lookup_save t v k :
  save v t !! k = if decide (row_id v = k) then Some v else t !! k.
Proof. unfold save. by rewrite lookup_insert. Qed.

Lemma lookup_save_same t v : save v t !! row_id v = Some v.
Proof. rewrite lookup_save. by rewrite decide_True. Qed.

Lemma lookup_save_other t v k : row_id v <> k -> save v t !! k = t !! k.
Proof. intros. rewrite lookup_save. by rewrite decide_False. Qed.

Lemma elem_of_select_keyed v P t :
  keyed t -> v ∈ select P t -> t !! row_id v = Some v /\ P v = true.
Proof.
  intros Hk [[k Hv] HP]%elem_of_select. by rewrite (keyed_lookup t k v Hk Hv).
Qed.

Lemma one_or_none_Some l v : one_or_none l = Ok (Some v) -> l = [v].
Proof. destruct l as [|w [|]]; simpl; congruence. Qed.

Lemma one_or_none_None l : one_or_none l = Ok None -> l = [].
Proof. destruct l as [|w [|]]; simpl; congruence. Qed.

Lemma first_by_elem le l v : first_by le l = Some v -> v ∈ l.
Proof.
  unfold first_by. intros H%head_Some_elem_of.
  by rewrite (merge_sort_Permutation _ l) in H.
Qed.

Lemma first_by_nil le l : first_by le l = None <-> l = [].
Proof.
  unfold first_by. split; [|by intros ->].
  destruct (merge_sort _ l) as [|w l'] eqn:E; [|done]. intros _.
  apply Permutation_nil. by rewrite <- E, merge_sort_Permutation.
Qed.

(** The first row of the order is a least row of the selection. *)
Lemma first_by_least le l v w :
  (forall a b, le a b = true \/ le b a = true) ->
  (forall a b c, le a b = true -> le b c = true -> le a c = true) ->
  first_by le l = Some v -> w ∈ l -> le v w = true.
Proof.
  intros Htot Htr Hv Hw. unfold first_by in Hv.
  set (R := fun v w => Is_true (le v w)) in *.
  assert (Htotal : Total R) by (intros a b; unfold R; rewrite !Is_true_true; apply Htot).
  assert (Htrans : Transitive R).
  { intros a b c. unfold R. rewrite !Is_true_true. apply Htr. }
  pose proof (StronglySorted_merge_sort R l) as Hs.
  rewrite <- (merge_sort_Permutation R l) in Hw.
  destruct (merge_sort R l) as [|x l'] eqn:E; [done|]. simpl in Hv. simplify_eq.
  apply StronglySorted_inv in Hs as [_ Hall].
  apply elem_of_cons in Hw as [->|Hw].
  - destruct (Htot v v); done.
  - rewrite Forall_forall in Hall. apply Is_true_true, Hall. done.
Qed.
End tables.

#[export] Hint Resolve keyed_empty keyed_save keyed_remove : store.

#[global] Arguments update_where : simpl never.

(** An UPDATE whose WHERE clause selects one row by its key. *)
Lemma update_where_key {V} `{!Row V} (P : V -> bool) f k (t : table V) :
  keyed t -> (forall v, P v = true -> row_id v = k) -> (forall v, t !! k = Some v -> P v = true) ->
  (update_where P f t).1 = alter f k t.
Proof.
  intros Hk HP Hv. apply map_eq. intros i. rewrite lookup_update_where, lookup_alter.
  case_decide as E; subst; destruct (t !! i) as [v|] eqn:Hi; simpl; try done.
  - by rewrite (Hv v).
  - destruct (P v) eqn:Ep; [|done]. apply HP in Ep. by rewrite (keyed_lookup t i v Hk Hi) in Ep.
Qed.

(** An UPDATE whose WHERE clause matches no row changes nothing. *)
Lemma update_where_none {V} (P : V -> bool) f (t : table V) :
  (forall k v, t !! k = Some v -> P v = false) -> (update_where P f t).1 = t.
Proof.
  intros H. apply map_eq. intros i. rewrite lookup_update_where.
  destruct (t !! i) as [v|] eqn:Hi; simpl; [by rewrite (H i v Hi)|done].
Qed.

(** ** Counting rows *)

Section counting.
Context {V : Type} `{!Row V}.
Implicit Types (t : table V) (v : V) (P : V -> bool).

Definition bool_Z (b : bool) : Z := if b then 1 else 0.

Lemma filter_perm (P : V -> bool) (l1 l2 : list V) :
  l1 ≡ₚ l2 -> List.filter P l1 ≡ₚ List.filter P l2.
Proof.
  induction 1; simpl; repeat case_match; eauto using Permutation_skip, Permutation_swap, Permutation_trans.
Qed.

Lemma rows_insert t k v : t !! k = None -> rows (<[k:=v]> t) ≡ₚ v :: rows t.
Proof. intros H. unfold rows. by rewrite (map_to_list_insert t k v H). Qed.

Lemma count_insert_fresh t k v P :
  t !! k = None -> count P (<[k:=v]> t) = count P t + bool_Z (P v).
Proof.
  intros H. unfold count, select.
  rewrite (Permutation_length (filter_perm P _ _ (rows_insert t k v H))). simpl.
  destruct (P v); simpl; lia.
Qed.

Lemma count_delete t k v P :
  t !! k = Some v -> count P (delete k t) = count P t - bool_Z (P v).
Proof.
  intros H. pose proof (count_insert_fresh (delete k t) k v P (lookup_delete_eq t k)) as E.
  rewrite insert_delete_id in E by done. lia.
Qed.

Lemma count_insert t k v w P :
  t !! k = Some w -> count P (<[k:=v]> t) = count P t - bool_Z (P w) + bool_Z (P v).
Proof.
  intros H. rewrite <- insert_delete_eq.
  rewrite count_insert_fresh by apply lookup_delete_eq. by rewrite (count_delete t k w).
Qed.

Lemma count_nonneg t P : 0 <= count P t.
Proof. unfold count. lia. Qed.

Lemma count_pos t P k v : t !! k = Some v -> P v = true -> 0 < count P t.
Proof.
  intros H HP. unfold count.
  destruct (select P t) eqn:E; [|simpl; lia].
  assert (v ∈ select P t) by (apply elem_of_select; eauto). rewrite E in *. set_solver.
Qed.

Lemma count_nonzero t P : count P t <> 0 -> exists k v, t !! k = Some v /\ P v = true.
Proof.
  unfold count. destruct (select P t) as [|v l] eqn:E; [done|]. intros _.
  assert (Hv : v ∈ select P t) by (rewrite E; constructor).
  apply elem_of_select in Hv as [[k Hk] HP]. eauto.
Qed.

Lemma count_zero t P : (forall k v, t !! k = Some v -> P v = false) -> count P t = 0.
Proof.
  intros H. unfold count. destruct (select P t) as [|v l] eqn:E; [done|exfalso].
  assert (Hv : v ∈ select P t) by (rewrite E; constructor).
  apply elem_of_select in Hv as [[k Hk] HP]. rewrite (H k v Hk) in HP. done.
Qed.

Lemma NoDup_rows t : keyed t -> NoDup (rows t).
Proof.
  intros Hk. unfold rows. apply NoDup_fmap_2_strong; [|apply NoDup_map_to_list].
  intros [i x] [j y] Hx%elem_of_map_to_list Hy%elem_of_map_to_list. simpl. intros ->.
  f_equal. by rewrite <- (Hk i y Hx), <- (Hk j y Hy).
Qed.

(** A query that only one row matches returns it. *)
Lemma NoDup_all_eq (l : list V) v : NoDup l -> v ∈ l -> (forall w, w ∈ l -> w = v) -> l = [v].
Proof.
  intros Hnd Hv Hall. destruct l as [|x l]; [set_solver|].
  assert (x = v) as -> by (apply Hall; constructor). f_equal.
  destruct l as [|y l]; [done|exfalso].
  assert (y = v) as -> by (apply Hall; set_solver).
  apply NoDup_cons in Hnd as [Hn _]. apply Hn. constructor.
Qed.

Lemma NoDup_select t P : keyed t -> NoDup (select P t).
Proof.
  intros Hk. unfold select. apply NoDup_ListNoDup, List.NoDup_filter, NoDup_ListNoDup.
  by apply NoDup_rows.
Qed.

Lemma select_singleton t P v k :
  keyed t -> t !! k = Some v -> P v = true ->
  (forall i w, t !! i = Some w -> P w = true -> w = v) -> select P t = [v].
Proof.
  intros Hk Hv HP Hall. apply NoDup_all_eq; [by apply NoDup_select| |].
  - apply elem_of_select. eauto.
  - intros w [[i Hi] Hw]%elem_of_select. eauto.
Qed.

Lemma select_nil t P : (forall k v, t !! k = Some v -> P v = false) -> select P t = [].
Proof.
  intros H. destruct (select P t) as [|v l] eqn:E; [done|exfalso].
  assert (Hv : v ∈ select P t) by (rewrite E; constructor).
  apply elem_of_select in Hv as [[k Hk] HP]. rewrite (H k v Hk) in HP. done.
Qed.
End counting.

(** ** Unique constraints *)

Section unique.
Context {V K : Type} `{!Row V} `{!EqDecision K}.
Variable (col : V -> option K).   (** the constrained columns; [None] is SQL NULL *)
Implicit Types (t : table V).

(** No two rows share a non-null value of the constrained columns. *)
Definition unique_on t : Prop :=
  forall i j v w k, t !! i = Some v -> t !! j = Some w ->
    col v = Some k -> col w = Some k -> i = j.

(** Another row already holds the value [v] has in the constrained columns. *)
Definition conflicts v t : bool :=
  existsb (fun w => bool_decide (row_id w <> row_id v) &&
                    match col v with Some k => bool_decide (col w = Some k) | None => false end)
          (rows t).

(** INSERT (or flush of a changed row) under the constraint. *)
Definition insert_unique v t : result (table V) :=
  if conflicts v t then Raise IntegrityErr else Ok (save v t).

Lemma conflicts_false v t :
  keyed t -> conflicts v t = false <->
  (forall k i w, col v = Some k -> t !! i = Some w -> col w = Some k -> i = row_id v).
Proof.
  intros Hk. unfold conflicts. split.
  - intros H k i w Hv Hi Hw.
    destruct (decide (i = row_id v)) as [|Hne]; [done|exfalso].
    assert (existsb (fun w => bool_decide (row_id w <> row_id v) &&
              match col v with Some k => bool_decide (col w = Some k) | None => false end)
              (rows t) = true); [|congruence].
    apply existsb_exists. exists w. split.
    + apply list_elem_of_In, elem_of_rows. eauto.
    + rewrite Hv, (keyed_lookup t i w Hk Hi). by rewrite !bool_decide_true.
  - intros H. apply not_true_iff_false. intros (w & Hw & Hc)%existsb_exists.
    apply list_elem_of_In, elem_of_rows in Hw as (i & Hi).
    destruct (col v) as [k|] eqn:Hv; [|by rewrite andb_false_r in Hc].
    apply andb_true_iff in Hc as [Hne Heq].
    apply bool_decide_eq_true in Hne. apply bool_decide_eq_true in Heq.
    apply Hne. rewrite (keyed_lookup t i w Hk Hi). by apply (H k i w).
Qed.

Lemma unique_empty : unique_on ∅.
Proof. intros i j v w k Hi. by rewrite lookup_empty in Hi. Qed.

Lemma unique_single v : unique_on (save v ∅).
Proof.
  intros i j x y k Hi Hj _ _. unfold save in Hi, Hj. rewrite lookup_insert_Some, lookup_empty in Hi, Hj. naive_solver.
Qed.

Lemma insert_unique_preserves v t t' :
  keyed t -> unique_on t -> insert_unique v t = Ok t' -> keyed t' /\ unique_on t'.
Proof.
  unfold insert_unique. intros Hk Hu H. destruct (conflicts v t) eqn:Hc; simplify_eq.
  rewrite conflicts_false in Hc by done.
  split; [by apply keyed_save|].
  intros i j a b k. rewrite !lookup_save. intros Hi Hj Ha Hb.
  repeat case_decide; simplify_eq; eauto.
  - symmetry. eauto.
Qed.

(** Saving a row whose constrained value did not change keeps uniqueness. *)
Lemma unique_save_same v w t :
  keyed t -> unique_on t -> t !! row_id v = Some w -> col v = col w -> unique_on (save v t).
Proof.
  intros Hk Hu Hw Hc i j a b k. rewrite !lookup_save. intros Hi Hj Ha Hb.
  repeat case_decide; simplify_eq; eauto.
  - eapply Hu; eauto. congruence.
  - eapply Hu; eauto. congruence.
Qed.

Lemma unique_remove v t : unique_on t -> unique_on (remove v t).
Proof.
  intros Hu i j a b k. unfold remove. intros [_ Hi]%lookup_delete_Some [_ Hj]%lookup_delete_Some.
  eauto.
Qed.

Lemma unique_update t P f :
  (forall v, col (f v) = col v) -> unique_on t -> unique_on (update_where P f t).1.
Proof.
  intros Hf Hu i j a b k. simpl. rewrite !lookup_fmap_Some.
  intros (v & <- & Hv) (w & <- & Hw).
  destruct (P v), (P w); rewrite ?Hf; eauto.
Qed.

(** A query by the full unique key never sees two rows. *)
Lemma select_unique t (P : V -> bool) k :
  keyed t -> unique_on t -> (forall v, P v = true -> col v = Some k) ->
  exists o, one_or_none (select P t) = Ok o.
Proof.
  intros Hk Hu HP. destruct (select P t) as [|v [|w l]] eqn:E; simpl; eauto.
  exfalso.
  pose proof (NoDup_select t P Hk) as Hnd.
  rewrite E in Hnd. apply NoDup_cons in Hnd as [Hnin _].
  assert (v ∈ select P t /\ w ∈ select P t) as [Hv Hw] by (rewrite E; split; set_solver).
  apply elem_of_select_keyed in Hv as [Hv Pv]; [|done].
  apply elem_of_select_keyed in Hw as [Hw Pw]; [|done].
  assert (row_id v = row_id w) by (eapply Hu; eauto).
  apply Hnin. rewrite H in Hv. simplify_eq. by constructor.
Qed.
End unique.

#[export] Hint Resolve unique_empty unique_remove : store.

Lemma insert_unique_ok {V K} `{!Row V} `{!EqDecision K} (col : V -> option K) v t t' :
  insert_unique col v t = Ok t' -> t' = save v t.
Proof. unfold insert_unique. destruct (conflicts col v t); by intros; simplify_eq. Qed.

(** ** Changing one row in place *)

Lemma lookup_alter_cases {V} (f : V -> V) k (t : table V) i v :
  alter f k t !! i = Some v ->
  exists w, t !! i = Some w /\ ((i = k /\ v = f w) \/ (i <> k /\ v = w)).
Proof.
  rewrite lookup_alter. case_decide; [intros (w & Hw & ->)%fmap_Some_1|]; subst; eauto 6.
Qed.

Lemma lookup_alter_is_Some {V} (f : V -> V) k (t : table V) i :
  is_Some (alter f k t !! i) <-> is_Some (t !! i).
Proof. rewrite lookup_alter. case_decide; subst; by rewrite ?fmap_is_Some. Qed.

Lemma unique_alter {V K} `{!Row V} (col : V -> option K) f k (t : table V) :
  (forall v, col (f v) = col v) -> unique_on col t -> unique_on col (alter f k t).
Proof.
  intros Hf Hu i j a b x (v & Hv & [[-> ->]|[_ ->]])%lookup_alter_cases
    (w & Hw & [[-> ->]|[_ ->]])%lookup_alter_cases; rewrite ?Hf; eauto.
Qed.

Lemma keyed_alter {V} `{!Row V} f k (t : table V) :
  (forall v, row_id (f v) = row_id v) -> keyed t -> keyed (alter f k t).
Proof.
  intros Hf Hk i v (w & Hw & [[-> ->]|[_ ->]])%lookup_alter_cases; rewrite ?Hf; by apply (Hk _ w).
Qed.

(** Deleting the rows of a list one by one. *)
Lemma lookup_delete_rows {V} `{!Row V} (l : list V) (t : table V) k v :
  foldl (fun t r => delete (row_id r) t) t l !! k = Some v <->
  t !! k = Some v /\ ~ (exists r, r ∈ l /\ row_id r = k).
Proof.
  revert t. induction l as [|r l IH]; intros t; simpl; [set_solver|].
  rewrite IH, lookup_delete_Some. set_solver.
Qed.

(** ** Sums over the rows of a table *)

Definition table_sum {V} (f : V -> Z) (t : table V) : Z := zsum (map f (rows t)).

Lemma table_sum_insert_fresh {V} (f : V -> Z) (t : table V) k v :
  t !! k = None -> table_sum f (<[k:=v]> t) = table_sum f t + f v.
Proof.
  intros H. unfold table_sum, rows.
  rewrite (zsum_perm _ (map f (map snd ((k, v) :: map_to_list t)))) by (by rewrite map_to_list_insert).
  cbn [map snd]. rewrite zsum_cons. lia.
Qed.

Lemma table_sum_delete {V} (f : V -> Z) (t : table V) k v :
  t !! k = Some v -> table_sum f (delete k t) = table_sum f t - f v.
Proof.
  intros H. pose proof (table_sum_insert_fresh f (delete k t) k v (lookup_delete_eq t k)) as E.
  rewrite insert_delete_id in E by done. lia.
Qed.

Lemma table_sum_insert {V} (f : V -> Z) (t : table V) k v w :
  t !! k = Some w -> table_sum f (<[k:=v]> t) = table_sum f t - f w + f v.
Proof.
  intros H. rewrite <- insert_delete_eq, table_sum_insert_fresh by apply lookup_delete_eq.
  by rewrite (table_sum_delete f t k w).
Qed.

Lemma table_sum_ext {V} (f g : V -> Z) (t : table V) :
  (forall k v, t !! k = Some v -> f v = g v) -> table_sum f t = table_sum g t.
Proof.
  intros H. unfold table_sum, rows. f_equal. apply map_ext_in. intros v Hv.
  apply list_elem_of_In, list_elem_of_fmap in Hv as ([k w] & -> & Hw%elem_of_map_to_list).
  by apply (H k).
Qed.

Lemma table_sum_zero {V} (f : V -> Z) (t : table V) :
  (forall k v, t !! k = Some v -> f v = 0) -> table_sum f t = 0.
Proof.
  intros H. rewrite (table_sum_ext f (fun _ => 0) t H). unfold table_sum.
  induction (rows t) as [|v l IH]; [done|]. cbn [map]. rewrite zsum_cons. lia.
Qed.

Lemma table_sum_nonneg {V} (f : V -> Z) (t : table V) :
  (forall k v, t !! k = Some v -> 0 <= f v) -> 0 <= table_sum f t.
Proof.
  intros H. apply zsum_nonneg, Forall_forall. intros x (v & -> & Hv)%list_elem_of_fmap.
  apply list_elem_of_fmap in Hv as ([k w] & -> & Hw%elem_of_map_to_list). by apply (H k).
Qed.

Lemma table_sum_le {V} (f : V -> Z) (t : table V) k v :
  (forall k v, t !! k = Some v -> 0 <= f v) -> t !! k = Some v -> f v <= table_sum f t.
Proof.
  intros H Hv. pose proof (table_sum_delete f t k v Hv) as E.
  assert (0 <= table_sum f (delete k t)); [|lia].
  apply table_sum_nonneg. intros i w [_ Hw]%lookup_delete_Some. by apply (H i).
Qed.

Lemma alter_insert {V} (f : V -> V) k (t : table V) v :
  t !! k = Some v -> alter f k t = <[k := f v]> t.
Proof.
  intros H. apply map_eq. intros i. destruct (decide (i = k)) as [->|].
  - by rewrite lookup_alter_eq, lookup_insert_eq, H.
  - by rewrite lookup_alter_ne, lookup_insert_ne.
Qed.

(** ** Fresh primary keys

    [uuid4()] is modelled by the least key above every key of the table, so
    that a new row never overwrites an old one. *)
Definition fresh_id {V} (t : table V) : uuid :=
  N.succ (foldr N.max 0%N (map fst (map_to_list t))).

Lemma fresh_id_None {V} (t : table V) : t !! fresh_id t = None.
Proof.
  destruct (t !! fresh_id t) as [v|] eqn:H; [exfalso|done].
  apply elem_of_map_to_list in H.
  assert (forall l : list (N * V), (fresh_id t, v) ∈ l -> (fresh_id t <= foldr N.max 0 (map fst l))%N)
    as Hle.
  { induction l as [|[k w] l IH]; simpl; [set_solver|].
    intros [?|?]%elem_of_cons; simplify_eq; [lia|]. specialize (IH H0). lia. }
  specialize (Hle _ H). unfold fresh_id in *. lia.
Qed.

(** ** Transactions

    The session sees its own uncommitted writes; [commit] makes them durable
    and [rollback] returns to the last commit. *)
Record session (D : Type) := Session { committed : D; working : D }.
Arguments Session {D}.
Arguments committed {D}.
Arguments working {D}.

Definition commit {D} : M (session D) unit :=
  modify (fun s => Session (working s) (working s)).
Definition rollback {D} : M (session D) unit :=
  modify (fun s => Session (committed s) (committed s)).

(** Run a store computation on the session's working copy. *)
Definition in_session {D A} (m : M D A) : M (session D) A :=
  lift working (fun w s => Session (committed s) w) m.

(** ** New rows and transactions *)

(** INSERT of a new row: its primary key and its constrained columns are free. *)
Definition insert_new {V K} `{!Row V} `{!EqDecision K} (col : V -> option K) (v : V) (t : table V) : result (table V) :=
  if bool_decide (is_Some (t !! row_id v)) then Raise IntegrityErr else insert_unique col v t.

Lemma insert_new_ok {V K} `{!Row V} `{!EqDecision K} (col : V -> option K) v t t' :
  insert_new col v t = Ok t' -> t !! row_id v = None /\ insert_unique col v t = Ok t' /\ t' = save v t.
Proof.
  unfold insert_new. case_bool_decide as Hd; [done|]. intros H.
  split; [by apply eq_None_not_Some|]. split; [done|]. by eapply insert_unique_ok.
Qed.

(** [Database.session]: one transaction per request, committed when the handler
    returns and rolled back as a unit when it raises. *)
Definition in_transaction {S A} (m : M S A) : M S A := fun s =>
  match m s with
  | (Ok a, s') => (Ok a, s')
  | (Raise e, _) => (Raise e, s)
  end.

Lemma in_transaction_ok {S A} (m : M S A) s a s' : in_transaction m s = (Ok a, s') -> m s = (Ok a, s').
Proof. unfold in_transaction. destruct (m s) as [[b|e] s1]; congruence. Qed.

Lemma in_transaction_raise {S A} (m : M S A) s e s1 : m s = (Raise e, s1) -> in_transaction m s = (Raise e, s).
Proof. intros H. unfold in_transaction. by rewrite H. Qed.

Lemma in_transaction_inv {S A} (m : M S A) s r s' :
  in_transaction m s = (r, s') -> (exists a, r = Ok a /\ m s = (Ok a, s')) \/ (exists e, r = Raise e /\ s' = s).
Proof. unfold in_transaction. destruct (m s) as [[b|e] s1]; intros [= <- <-]; eauto. Qed.

Lemma preserves_in_transaction {S A} (I : S -> Prop) (m : M S A) :
  preserves I m -> preserves I (in_transaction m).
Proof. intros Hm s r s' HI [(a & -> & H)|(e & -> & ->)]%in_transaction_inv; [by eapply Hm|done]. Qed.

#[export] Hint Resolve preserves_in_transaction : store.

(** ** Savepoints *)

(** [begin_nested()] ... [commit()] / [rollback()]: an IntegrityError inside the
    savepoint undoes the writes made since it was opened. *)
Definition savepoint {S A} (m : M S A) (on_conflict : M S A) : M S A := fun s =>
  match m s with
  | (Raise IntegrityErr, _) => on_conflict s
  | r => r
  end.

Lemma savepoint_inv {S A} (m c : M S A) s r s' :
  savepoint m c s = (r, s') ->
  (m s = (r, s') /\ r <> Raise IntegrityErr) \/
  (exists s1, m s = (Raise IntegrityErr, s1) /\ c s = (r, s')).
Proof.
  unfold savepoint. destruct (m s) as [[a|e] s1] eqn:E; [intros [= <- <-]; left; done|].
  destruct (decide (e = IntegrityErr)) as [->|Hne].
  - intros H. right. eauto.
  - destruct e; try done; intros [= <- <-]; left; done.
Qed.

Lemma preserves_savepoint {S A} (I : S -> Prop) (m c : M S A) :
  preserves I m -> preserves I c -> preserves I (savepoint m c).
Proof.
  intros Hm Hc s r s' HI [[H _]|(s1 & _ & H)]%savepoint_inv; [by eapply Hm|by eapply Hc].
Qed.

#[export] Hint Resolve preserves_savepoint : store.

Create HintDb keeps discriminated.

(** ** Parts of the store kept by a computation

    [keeps proj m]: the computation leaves the part [proj] of the store as it was. *)
Definition keeps {S A B} (proj : S -> B) (m : M S A) : Prop :=
  forall s r s', m s = (r, s') -> proj s' = proj s.

Section keeps.
Context {S B : Type} (proj : S -> B).

Lemma keeps_ret {A} (a : A) : keeps proj (mret a).
Proof. by intros s r s' [= <- <-]. Qed.
Lemma keeps_raise {A} e : keeps proj (raise e : M S A).
Proof. by intros s r s' [= <- <-]. Qed.
Lemma keeps_get : keeps proj get.
Proof. by intros s r s' [= <- <-]. Qed.
Lemma keeps_gets {A} (f : S -> A) : keeps proj (gets f).
Proof. by intros s r s' [= <- <-]. Qed.
Lemma keeps_of_result {A} (x : result A) : keeps proj (of_result x).
Proof. by intros s r s' [= <- <-]. Qed.
Lemma keeps_raise_when b e : keeps proj (raise_when b e).
Proof. destruct b; [apply keeps_raise|apply keeps_ret]. Qed.
Lemma keeps_modify (f : S -> S) : (forall s, proj (f s) = proj s) -> keeps proj (modify f).
Proof. intros Hf s r s' [= <- <-]. apply Hf. Qed.
Lemma keeps_bind {A C} (m : M S A) (k : A -> M S C) :
  keeps proj m -> (forall a, keeps proj (k a)) -> keeps proj (m ≫= k).
Proof.
  intros Hm Hk s r s' [(a & s1 & H1 & H2)|(e & H1 & ->)]%bind_inv.
  - rewrite (Hk _ _ _ _ H2). by eapply Hm.
  - by eapply Hm.
Qed.
Lemma keeps_savepoint {A} (m c : M S A) : keeps proj m -> keeps proj c -> keeps proj (savepoint m c).
Proof. intros Hm Hc s r s' [[H _]|(s1 & _ & H)]%savepoint_inv; eauto. Qed.
Lemma keeps_for_each {A} (f : A -> M S unit) l : (forall x, keeps proj (f x)) -> keeps proj (for_each f l).
Proof.
  intros Hf. induction l as [|x l IH]; [apply keeps_ret|].
  apply keeps_bind; [apply Hf|intros _; apply IH].
Qed.
End keeps.

Ltac keeps_core :=
  match goal with
  | |- keeps _ (mret _) => apply keeps_ret
  | |- keeps _ (raise _) => apply keeps_raise
  | |- keeps _ get => apply keeps_get
  | |- keeps _ (gets _) => apply keeps_gets
  | |- keeps _ (of_result _) => apply keeps_of_result
  | |- keeps _ (raise_when _ _) => apply keeps_raise_when
  | |- keeps _ (modify _) => apply keeps_modify; intros ?; reflexivity
  | |- keeps _ (savepoint _ _) => apply keeps_savepoint
  | |- keeps _ (for_each _ _) => apply keeps_for_each; intros ?
  | |- keeps _ (_ ≫= _) => apply keeps_bind; [|intros ?]
  | |- keeps _ (if ?b then _ else _) => destruct b
  | |- keeps _ (match ?x with _ => _ end) => destruct x
  end.

(** What a computation keeps, an invariant of that part is preserved. *)
Lemma preserves_keeps {S A B} (proj : S -> B) (I : S -> Prop) (m : M S A) :
  keeps proj m -> (forall s s', proj s' = proj s -> I s -> I s') -> preserves I m.
Proof. intros Hm HI s r s' Hs H. apply Hm in H. eauto. Qed.
