(* ===== verification/Keys.v ===== *)
(** * Looking a row up by a unique key

    Services find rows by the columns of a unique constraint.  Under the
    constraint, the query has at most one row, and a write of one row changes
    what is found under its own key and nothing else. *)

From S2P Require Import Prelude Store.

Section by_key.
Context {V K : Type} `{!Row V} `{!EqDecision K}.
(** [P k v]: the WHERE clause; [col]: the constrained columns. *)
Context (col : V -> option K) (P : K -> V -> bool).
Hypothesis (HP : forall k v, P k v = true <-> col v = Some k).
Implicit Types (t : table V) (v w : V) (k : K).

Definition by_key k t : option V := head (select (P k) t).

Lemma by_key_Some k t v : keyed t -> unique_on col t ->
  by_key k t = Some v <-> t !! row_id v = Some v /\ col v = Some k.
Proof.
  intros Hk Hu. unfold by_key. split.
  - intros H. assert (Hin : v ∈ select (P k) t) by (destruct (select _ _); [done|]; simplify_eq/=; by left).
    apply elem_of_select_keyed in Hin as [Hv Hp]; [|done]. split; [done|]. by apply HP.
  - intros [Hv Hc]. rewrite (select_singleton t (P k) v (row_id v) Hk Hv); [done|by apply HP|].
    intros j w Hw Hp%HP. assert (j = row_id v) as -> by (by apply (Hu j (row_id v) w v k)). congruence.
Qed.

Lemma by_key_None k t : keyed t -> unique_on col t ->
  by_key k t = None <-> forall i v, t !! i = Some v -> col v <> Some k.
Proof.
  intros Hk Hu. split.
  - intros H i v Hv Hc. assert (by_key k t = Some v); [|congruence].
    apply by_key_Some; [done..|]. split; [|done]. by rewrite (keyed_lookup t i v Hk Hv).
  - intros H. destruct (by_key k t) as [v|] eqn:E; [|done].
    apply by_key_Some in E as [Hv Hc]; [|done..]. by destruct (H _ _ Hv).
Qed.

(** The query by the key, as [one_or_none] answers it. *)
Lemma one_by_key k t : keyed t -> unique_on col t -> one_or_none (select (P k) t) = Ok (by_key k t).
Proof.
  intros Hk Hu. destruct (select_unique col t (P k) k Hk Hu) as [o E]; [by intros v ?%HP|].
  unfold by_key. destruct (select _ _) as [|v [|w l]]; cbn in E; by simplify_eq/=.
Qed.

Lemma by_key_ext k t t' : keyed t -> unique_on col t -> keyed t' -> unique_on col t' ->
  (forall v, col v = Some k -> t !! row_id v = Some v <-> t' !! row_id v = Some v) -> by_key k t = by_key k t'.
Proof.
  intros Hk Hu Hk' Hu' H. apply option_eq. intros v. rewrite !by_key_Some by done. naive_solver.
Qed.

(** A row may be saved under its key when no other row has the key. *)
Lemma unique_save_key t v k : keyed t -> unique_on col t -> col v = Some k ->
  (forall i w, t !! i = Some w -> col w = Some k -> i = row_id v) -> unique_on col (save v t).
Proof.
  intros Hk Hu Hv H. apply (insert_unique_preserves col v t); [done..|]. unfold insert_unique.
  rewrite (proj2 (conflicts_false col v t Hk)); [done|]. intros k' i w Hv' Hw Hc. apply (H i w Hw). congruence.
Qed.

Section write.
Context t (Hk : keyed t) (Hu : unique_on col t).

Lemma by_key_save v k : col v = Some k ->
  (by_key k t = None /\ t !! row_id v = None \/ exists w, by_key k t = Some w /\ row_id w = row_id v) ->
  keyed (save v t) /\ unique_on col (save v t) /\ by_key k (save v t) = Some v /\
  forall k', k' <> k -> by_key k' (save v t) = by_key k' t.
Proof.
  intros Hv H. assert (Hks : keyed (save v t)) by by apply keyed_save.
  assert (Hus : unique_on col (save v t)).
  { apply (unique_save_key t v k); [done..|]. intros i w Hw Hc. destruct H as [[Hn _]|(w' & Hw' & Hid)].
    - rewrite by_key_None in Hn by done. by destruct (Hn i w Hw).
    - apply by_key_Some in Hw' as [Hw' Hc']; [|done..]. rewrite <- Hid. by apply (Hu i (row_id w') w w' k). }
  assert (Hold : forall w, t !! row_id v = Some w -> col w = Some k).
  { intros w Hw. destruct H as [[_ Hn]|(w' & Hw' & Hid)]; [congruence|].
    apply by_key_Some in Hw' as [Hw' Hc']; [|done..]. congruence. }
  split_and!; [done..| |].
  - apply by_key_Some; [done..|]. split; [apply lookup_save_same|done].
  - intros k' Hne. apply by_key_ext; [done..|]. intros w Hw. rewrite lookup_save.
    case_decide as Hd; [|done]. split; [intros [= ->]; congruence|]. intros Hin.
    rewrite <- Hd in Hin. apply Hold in Hin. congruence.
Qed.

Lemma by_key_remove v k : by_key k t = Some v ->
  keyed (remove v t) /\ unique_on col (remove v t) /\ by_key k (remove v t) = None /\
  forall k', k' <> k -> by_key k' (remove v t) = by_key k' t.
Proof.
  intros H. pose proof (proj1 (by_key_Some _ _ _ Hk Hu) H) as [Hv Hc].
  assert (Hks : keyed (remove v t)) by by apply keyed_remove.
  assert (Hus : unique_on col (remove v t)) by by apply unique_remove.
  split_and!; [done..| |].
  - apply by_key_None; [done..|]. intros i w Hw Hcw. unfold remove in Hw.
    apply lookup_delete_Some in Hw as [Hne Hw]. apply Hne. symmetry. by apply (Hu i (row_id v) w v k).
  - intros k' Hne. apply by_key_ext; [done..|]. intros w Hcw. unfold remove.
    rewrite lookup_delete_Some. split; [tauto|]. intros Hw. split; [|done]. intros He. rewrite <- He in Hw. congruence.
Qed.

(** INSERT of a new row under the constraint. *)
Lemma insert_new_by_key v k t' : col v = Some k -> insert_new col v t = Ok t' ->
  t' = save v t /\ t !! row_id v = None /\ by_key k t = None.
Proof.
  intros Hv H. apply insert_new_ok in H as (Hn & Hi & ->). split; [done|]. split; [done|].
  apply by_key_None; [done..|]. intros i w Hw Hc. unfold insert_unique in Hi.
  destruct (conflicts col v t) eqn:E; [done|]. rewrite conflicts_false in E by done.
  assert (i = row_id v) by (by apply (E k i w)). congruence.
Qed.

Lemma insert_new_free v k : col v = Some k -> t !! row_id v = None -> by_key k t = None ->
  insert_new col v t = Ok (save v t).
Proof.
  intros Hv Hn Hb. unfold insert_new. rewrite bool_decide_eq_false_2 by (by rewrite Hn; intros [? [=]]).
  unfold insert_unique. rewrite (proj2 (conflicts_false col v t Hk)); [done|].
  intros k' i w Hv' Hw Hc. rewrite by_key_None in Hb by done. destruct (Hb i w Hw). congruence.
Qed.
End write.
End by_key.
