(* ===== verification/Triples.v ===== *)
(** * Triples for the state-and-error monad

    [triple P m Q E]: from a store satisfying [P], a value [m] returns and the
    store it leaves satisfy [Q], an exception and the store it leaves satisfy
    [E].  With [never] for [E] the computation cannot raise. *)

From S2P Require Import Prelude Store.

Definition triple {S A} (P : S -> Prop) (m : M S A) (Q : A -> S -> Prop) (E : exn -> S -> Prop) : Prop :=
  forall s, P s -> match m s with (Ok a, s') => Q a s' | (Raise e, s') => E e s' end.

Definition never {S} : exn -> S -> Prop := fun _ _ => False.

Section rules.
Context {S : Type}.
Implicit Types (P : S -> Prop) (E : exn -> S -> Prop).

Lemma triple_ok {A} P (m : M S A) Q s : triple P m Q never -> P s -> exists a s', m s = (Ok a, s') /\ Q a s'.
Proof. intros H HP. specialize (H s HP). destruct (m s) as [[a|e] s']; [eauto|done]. Qed.

Lemma triple_result {A} P (m : M S A) Q E s a s' : triple P m Q E -> P s -> m s = (Ok a, s') -> Q a s'.
Proof. intros H HP Hm. specialize (H s HP). by rewrite Hm in H. Qed.

Lemma triple_invariant {A} (I : S -> Prop) (m : M S A) s r s' :
  triple I m (fun _ => I) (fun _ => I) -> I s -> m s = (r, s') -> I s'.
Proof. intros H HI Hm. specialize (H s HI). rewrite Hm in H. by destruct r. Qed.

Lemma triple_ret {A} (a : A) P Q E : (forall s, P s -> Q a s) -> triple P (mret a) Q E.
Proof. intros H s HP. by apply H. Qed.

Lemma triple_raise {A} e P (Q : A -> S -> Prop) E : (forall s, P s -> E e s) -> triple P (raise e) Q E.
Proof. intros H s HP. by apply H. Qed.

Lemma triple_gets {A} (f : S -> A) P Q E : (forall s, P s -> Q (f s) s) -> triple P (gets f) Q E.
Proof. intros H s HP. by apply H. Qed.

Lemma triple_modify (f : S -> S) P Q E : (forall s, P s -> Q tt (f s)) -> triple P (modify f) Q E.
Proof. intros H s HP. by apply H. Qed.

Lemma triple_of_result {A} (r : result A) P Q E :
  (forall s, P s -> match r with Ok a => Q a s | Raise e => E e s end) -> triple P (of_result r) Q E.
Proof. intros H s HP. unfold of_result. by apply H. Qed.

Lemma triple_bind {A B} (m : M S A) (k : A -> M S B) P R Q E :
  triple P m R E -> (forall a, triple (R a) (k a) Q E) -> triple P (m ≫= k) Q E.
Proof.
  intros Hm Hk s HP. specialize (Hm s HP). unfold mbind, M_bind. destruct (m s) as [[a|e] s']; [|done]. by apply Hk.
Qed.

(** A step that keeps an invariant, before the rest. *)
Lemma triple_step {A B} (m : M S A) (k : A -> M S B) P Q E :
  triple P m (fun _ => P) E -> (forall a, triple P (k a) Q E) -> triple P (m ≫= k) Q E.
Proof. intros Hm Hk. exact (triple_bind m k P (fun _ => P) Q E Hm Hk). Qed.

Lemma triple_pre {A} (m : M S A) P P' Q E : (forall s, P' s -> P s) -> triple P m Q E -> triple P' m Q E.
Proof. intros HP Hm s Hs. apply Hm. auto. Qed.

Lemma triple_post {A} (m : M S A) P Q Q' E :
  (forall a s, Q a s -> Q' a s) -> triple P m Q E -> triple P m Q' E.
Proof. intros HQ Hm s Hs. specialize (Hm s Hs). destruct (m s) as [[a|e] s']; auto. Qed.

Lemma triple_conseq {A} (m : M S A) P P' Q Q' E E' : (forall s, P' s -> P s) -> (forall a s, Q a s -> Q' a s) ->
  (forall e s, E e s -> E' e s) -> triple P m Q E -> triple P' m Q' E'.
Proof. intros HP HQ HE Hm s Hs. specialize (Hm s (HP s Hs)). destruct (m s) as [[a|e] s']; auto. Qed.

(** Facts about values, and cases, move in and out of the precondition. *)
Lemma triple_pure {A} (m : M S A) (F : Prop) P Q E : (F -> triple P m Q E) -> triple (fun s => F /\ P s) m Q E.
Proof. intros H s [HF HP]. by apply H. Qed.

Lemma triple_exists {A B} (m : M S A) (P : B -> S -> Prop) Q E :
  (forall b, triple (P b) m Q E) -> triple (fun s => exists b, P b s) m Q E.
Proof. intros H s [b HP]. by apply (H b). Qed.

Lemma triple_for_each {A} (f : A -> M S unit) l P E :
  (forall x, x ∈ l -> triple P (f x) (fun _ => P) E) -> triple P (for_each f l) (fun _ => P) E.
Proof.
  induction l as [|x l IH]; intros Hf; cbn [for_each]; [by apply triple_ret|].
  eapply triple_bind; [apply Hf; left|]. intros []. apply IH. intros y Hy. apply Hf. by right.
Qed.

Lemma triple_for_acc {A B} (f : B -> A -> M S B) l P E :
  (forall b x, x ∈ l -> triple P (f b x) (fun _ => P) E) -> forall b, triple P (for_acc f b l) (fun _ => P) E.
Proof.
  induction l as [|x l IH]; intros Hf acc; cbn [for_acc]; [by apply triple_ret|].
  eapply triple_bind; [apply Hf; left|]. intros b'. apply IH. intros b'' y Hy. apply Hf. by right.
Qed.

Lemma triple_lift {T A} (proj : T -> S) (inj : S -> T -> T) (m : M S A) (P : T -> Prop) (Q : A -> T -> Prop)
    (E : exn -> T -> Prop) :
  (forall t, P t -> triple (fun s => s = proj t) m (fun a s => Q a (inj s t)) (fun e s => E e (inj s t))) ->
  triple P (lift proj inj m) Q E.
Proof.
  intros H t HP. specialize (H t HP (proj t) eq_refl). unfold lift. by destruct (m (proj t)) as [[a|e] s'].
Qed.
End rules.

Create HintDb triples discriminated.
#[export] Hint Resolve triple_ret triple_raise triple_gets triple_modify triple_of_result : triples.

(** ** Relations between the store before and after

    [moves R m]: whatever happens, the store [m] leaves is related to the one
    it started from.  For a preorder this is closed under sequencing. *)
Definition moves {S A} (R : S -> S -> Prop) (m : M S A) : Prop := forall s r s', m s = (r, s') -> R s s'.

Section moves.
Context {S : Type} (R : S -> S -> Prop) `{!PreOrder R}.

Lemma moves_ret {A} (a : A) : moves R (mret a).
Proof. by intros s r s' [= <- <-]. Qed.
Lemma moves_raise {A} e : moves R (raise e : M S A).
Proof. by intros s r s' [= <- <-]. Qed.
Lemma moves_get : moves R get.
Proof. by intros s r s' [= <- <-]. Qed.
Lemma moves_of_result {A} (x : result A) : moves R (of_result x).
Proof. by intros s r s' [= <- <-]. Qed.
Lemma moves_raise_when b e : moves R (raise_when b e).
Proof. destruct b; [apply moves_raise|apply moves_ret]. Qed.
Lemma moves_modify (f : S -> S) : (forall s, R s (f s)) -> moves R (modify f).
Proof. intros Hf s r s' [= <- <-]. apply Hf. Qed.
Lemma moves_bind {A B} (m : M S A) (k : A -> M S B) :
  moves R m -> (forall a, moves R (k a)) -> moves R (m ≫= k).
Proof.
  intros Hm Hk s r s' [(a & s1 & H1 & H2)|(e & H1 & ->)]%bind_inv; [|by eapply Hm].
  transitivity s1; [by eapply Hm|by eapply Hk].
Qed.
(** A step whose continuation depends on the store it read. *)
Lemma moves_get_bind {A} (k : S -> M S A) : (forall s r s', k s s = (r, s') -> R s s') -> moves R (get ≫= k).
Proof. intros Hk s r s' H. by apply (Hk s r s'). Qed.
Lemma moves_for_acc {A B} (f : B -> A -> M S B) l : (forall b x, moves R (f b x)) -> forall b, moves R (for_acc f b l).
Proof.
  intros Hf. induction l as [|x l IH]; intros b; cbn [for_acc]; [apply moves_ret|].
  apply moves_bind; [apply Hf|apply IH].
Qed.
Lemma moves_for_each {A} (f : A -> M S unit) l : (forall x, moves R (f x)) -> moves R (for_each f l).
Proof.
  intros Hf. induction l as [|x l IH]; cbn [for_each]; [apply moves_ret|].
  apply moves_bind; [apply Hf|intros _; apply IH].
Qed.
Lemma moves_savepoint {A} (m c : M S A) : moves R m -> moves R c -> moves R (savepoint m c).
Proof. intros Hm Hc s r s' [[H _]|(s1 & _ & H)]%savepoint_inv; [by eapply Hm|by eapply Hc]. Qed.
End moves.
