(* ===== verification/Json.v ===== *)
(** * Python values the services exchange: integers and UUIDs as text, JSON

    [int(s, base)], [str(n)], [uuid.UUID(s)], [str(u)] and the dynamic values
    a decoded JSON document holds, with the operations the services apply to
    them ([dict.get], truth value, [str], [int]).  Text is ASCII; JSON numbers
    are integers (every number the platform puts on the wire is an amount in
    minor units, a count or a percentage). *)

From S2P Require Import Prelude.

(** ** Digits *)

Definition digit_value (c : ascii) : option Z :=
  let n := Z.of_N (N_of_ascii c) in
  if (48 <=? n) && (n <=? 57) then Some (n - 48)
  else if (97 <=? n) && (n <=? 102) then Some (n - 87)
  else if (65 <=? n) && (n <=? 70) then Some (n - 55)
  else None.

(** The digit characters of [int(s, base)], with single underscores between
    digits; [after_digit] says whether the previous character was a digit. *)
Fixpoint parse_digits (base acc : Z) (after_digit : bool) (s : string) : option Z :=
  match s with
  | "" => if after_digit then Some acc else None
  | String "_" s' => if after_digit then parse_digits base acc false s' else None
  | String c s' =>
      match digit_value c with
      | Some d => if d <? base then parse_digits base (acc * base + d) true s' else None
      | None => None
      end
  end.

(** [int(s, base)] for base 10 or 16; [None] is ValueError. *)
Definition py_int (base : Z) (s : string) : option Z :=
  let s := strip s in
  let '(neg, s) :=
    match s with
    | String "-" s' => (true, s')
    | String "+" s' => (false, s')
    | _ => (false, s)
    end in
  let s :=
    match s with
    | String "0" (String ("x" | "X") s') =>
        if base =? 16 then match s' with String "_" s'' => s'' | _ => s' end else s
    | _ => s
    end in
  (if neg then Z.opp else id) <$> parse_digits base 0 false s.

(** [str(n)] *)
Definition py_str_int (n : Z) : string := pretty n.

(** ** UUIDs *)

Fixpoint replace_all (fuel : nat) (sub s : string) : string :=
  match fuel with
  | O => s
  | S fuel' =>
      match s with
      | "" => ""
      | String c s' =>
          if startswith sub s && negb (String.eqb sub "")
          then replace_all fuel' sub (String.substring (String.length sub) (String.length s) s)
          else String c (replace_all fuel' sub s')
      end
  end.

(** [s.replace(sub, "")]: the fuel is one step per character. *)
Definition erase (sub s : string) : string := replace_all (S (String.length s)) sub s.

Definition is_brace (c : ascii) : bool := (c =? "{")%char || (c =? "}")%char.
Fixpoint lstrip_braces (s : string) : string :=
  match s with "" => "" | String c s' => if is_brace c then lstrip_braces s' else s end.
Fixpoint rstrip_braces (s : string) : string :=
  match s with
  | "" => ""
  | String c s' =>
      match rstrip_braces s' with
      | "" => if is_brace c then "" else String c ""
      | t => String c t
      end
  end.

(** [uuid.UUID(s)]; [None] is ValueError. *)
Definition uuid_of_string (s : string) : option uuid :=
  let hex := erase "-" (rstrip_braces (lstrip_braces (erase "uuid:" (erase "urn:" s)))) in
  if negb (Nat.eqb (String.length hex) 32) then None
  else
    n ← py_int 16 hex;
    if (0 <=? n) && (n <? 2 ^ 128) then Some (Z.to_N n) else None.

Definition hex_digit (n : N) : ascii :=
  ascii_of_N (if (n <? 10)%N then n + 48 else n + 87)%N.

(** The [k] low hexadecimal digits of [n], most significant first. *)
Fixpoint hex_digits (k : nat) (n : N) (rest : string) : string :=
  match k with
  | O => rest
  | S k' => hex_digits k' (n / 16)%N (String (hex_digit (n mod 16)%N) rest)
  end.

(** [str(u)]: 8-4-4-4-12 hexadecimal digits. *)
Definition string_of_uuid (u : uuid) : string :=
  hex_digits 8 (u / 16 ^ 24)%N (String "-"
  (hex_digits 4 (u / 16 ^ 20)%N (String "-"
  (hex_digits 4 (u / 16 ^ 16)%N (String "-"
  (hex_digits 4 (u / 16 ^ 12)%N (String "-"
  (hex_digits 12 u "")))))))).

Example uuid_roundtrip_example :
  uuid_of_string (string_of_uuid 255211775190703847597530955573826158592) =
  Some 255211775190703847597530955573826158592%N.
Proof. vm_compute. reflexivity. Qed.

(** ** JSON values *)

Inductive json :=
  | JNull
  | JBool (b : bool)
  | JInt (n : Z)
  | JStr (s : string)
  | JList (l : list json)
  | JObj (fields : list (string * json)).

(** [bool(v)] *)
Definition jtruthy (v : json) : bool :=
  match v with
  | JNull => false
  | JBool b => b
  | JInt n => negb (n =? 0)
  | JStr s => negb (String.eqb s "")
  | JList l => negb (Nat.eqb (length l) 0)
  | JObj l => negb (Nat.eqb (length l) 0)
  end.

(** [v or w] *)
Definition jor (v w : json) : json := if jtruthy v then v else w.

Definition fields_get (k : string) (l : list (string * json)) : option json :=
  snd <$> List.find (fun kv => String.eqb (fst kv) k) l.

(** [v.get(k)] on a dict; [None] where the attribute does not exist. *)
Definition jget (k : string) (v : json) : json :=
  match v with
  | JObj l => default JNull (fields_get k l)
  | _ => JNull
  end.
Definition jget_default (k : string) (d v : json) : json :=
  match v with
  | JObj l => default d (fields_get k l)
  | _ => d
  end.

(** [v.get(k)], [v.get(k, d)] where [v] may be anything: only a dict has [get]. *)
Definition dict_get (k : string) (v : json) : result json :=
  match v with JObj l => Ok (default JNull (fields_get k l)) | _ => Raise AttributeErr end.
Definition dict_get_default (k : string) (d v : json) : result json :=
  match v with JObj l => Ok (default d (fields_get k l)) | _ => Raise AttributeErr end.

(** [repr] of a string: single quotes unless the text has one and no double
    quote; backslash and control characters escaped. *)
Definition hex2 (c : ascii) : string := hex_digits 2 (N_of_ascii c) "".
Definition repr_char (quote c : ascii) : string :=
  let n := N_of_ascii c in
  if (c =? quote)%char || (n =? 92)%N then String (ascii_of_N 92) (String c "")
  else if (n =? 9)%N then String (ascii_of_N 92) "t"
  else if (n =? 10)%N then String (ascii_of_N 92) "n"
  else if (n =? 13)%N then String (ascii_of_N 92) "r"
  else if ((n <? 32) || (126 <? n))%N then String (ascii_of_N 92) ("x" +:+ hex2 c)
  else String c "".
Fixpoint repr_chars (quote : ascii) (s : string) : string :=
  match s with "" => "" | String c s' => repr_char quote c +:+ repr_chars quote s' end.
Definition dquote : ascii := ascii_of_N 34.
Definition squote : ascii := ascii_of_N 39.
Definition repr_string (s : string) : string :=
  let q := if contains (String squote "") s && negb (contains (String dquote "") s)
           then dquote else squote in
  String q (repr_chars q s +:+ String q "").

Fixpoint repr (v : json) : string :=
  match v with
  | JNull => "None"
  | JBool b => if b then "True" else "False"
  | JInt n => py_str_int n
  | JStr s => repr_string s
  | JList l => "[" +:+ String.concat ", " (map repr l) +:+ "]"
  | JObj l => "{" +:+ String.concat ", " (map (fun kv => repr_string kv.1 +:+ ": " +:+ repr kv.2) l)
                  +:+ "}"
  end.

(** [str(v)]: the text itself for a string, [repr] otherwise. *)
Definition jstr (v : json) : string :=
  match v with JStr s => s | _ => repr v end.

(** [int(v)]: ValueError or TypeError are [None]. *)
Definition jint (v : json) : option Z :=
  match v with
  | JInt n => Some n
  | JBool b => Some (if b then 1 else 0)
  | JStr s => py_int 10 s
  | _ => None
  end.

(** [str(v) if v else None] *)
Definition jstr_or_none (v : json) : option string :=
  if jtruthy v then Some (jstr v) else None.

(** A field holding an optional string, as the model of [v.get(k)] where the
    code passes the value on as text. *)
Definition jopt_str (v : json) : option string :=
  match v with JNull => None | _ => Some (jstr v) end.

(** ** Reading back a printed UUID *)

Lemma sall_impl (P Q : ascii -> bool) s :
  (forall c, P c = true -> Q c = true) -> sall P s = true -> sall Q s = true.
Proof.
  intros HPQ. induction s as [|c s IH]; [done|]. simpl. intros [Hc Hs]%andb_true_iff.
  by rewrite (HPQ c Hc), IH.
Qed.

(** Erasing text whose first character does not occur changes nothing. *)
Lemma erase_absent c sub s :
  sall (fun d => negb (d =? c)%char) s = true -> erase (String c sub) s = s.
Proof.
  unfold erase. generalize (S (String.length s)) as fuel. intros fuel. revert s.
  induction fuel as [|fuel IH]; intros [|d s]; try done. simpl.
  intros [Hd Hs]%andb_true_iff. unfold startswith. simpl.
  destruct (ascii_dec c d) as [->|]; [by rewrite Ascii.eqb_refl in Hd|]. simpl. f_equal. by apply IH.
Qed.

Lemma substring_all s : String.substring 0 (String.length s) s = s.
Proof. induction s as [|c s IH]; [done|]. simpl. by rewrite IH. Qed.

Lemma substring_over s : forall n, (String.length s <= n)%nat -> String.substring 0 n s = s.
Proof.
  induction s as [|c s IH]; intros [|n] H; simpl in *; try done; [lia|]. f_equal. apply IH. lia.
Qed.

(** Erasing one character is filtering it out. *)
Lemma erase_char c s : erase (String c "") s = sfilter (fun d => negb (d =? c)%char) s.
Proof.
  unfold erase. assert (H : (String.length s < S (String.length s))%nat) by lia. revert H.
  generalize (S (String.length s)) as fuel. intros fuel. revert s.
  induction fuel as [|fuel IH]; intros [|d s] H; simpl in *; try done; try lia.
  unfold startswith. simpl. destruct (ascii_dec c d) as [->|Hne].
  - rewrite Ascii.eqb_refl. simpl. rewrite substring_over by lia.
    replace (String.prefix "" s) with true by (by destruct s). apply IH. lia.
  - destruct (Ascii.eqb_spec d c); [congruence|]. simpl. f_equal. apply IH. lia.
Qed.

Lemma lstrip_braces_id s : sall (fun c => negb (is_brace c)) s = true -> lstrip_braces s = s.
Proof. destruct s as [|c s]; [done|]. simpl. intros [Hc _]%andb_true_iff. by destruct (is_brace c). Qed.

Lemma rstrip_braces_id s : sall (fun c => negb (is_brace c)) s = true -> rstrip_braces s = s.
Proof.
  induction s as [|c s IH]; [done|]. simpl. intros [Hc Hs]%andb_true_iff. rewrite IH by done.
  destruct s; [by destruct (is_brace c)|done].
Qed.

Lemma lstrip_id s : sall (fun c => negb (is_space c)) s = true -> lstrip s = s.
Proof. destruct s as [|c s]; [done|]. simpl. intros [Hc _]%andb_true_iff. by destruct (is_space c). Qed.

Lemma rstrip_id s : sall (fun c => negb (is_space c)) s = true -> rstrip s = s.
Proof.
  induction s as [|c s IH]; [done|]. simpl. intros [Hc Hs]%andb_true_iff. rewrite IH by done.
  destruct s; [by destruct (is_space c)|done].
Qed.

Lemma strip_id s : sall (fun c => negb (is_space c)) s = true -> strip s = s.
Proof. intros H. unfold strip. by rewrite lstrip_id, rstrip_id. Qed.

(** *** Hexadecimal digits *)

Definition is_hex (c : ascii) : bool :=
  let n := N_of_ascii c in (((48 <=? n) && (n <=? 57)) || ((97 <=? n) && (n <=? 102)))%N.

Lemma hex_digit_cases (P : ascii -> Prop) n : (n < 16)%N ->
  Forall P (map hex_digit [0; 1; 2; 3; 4; 5; 6; 7; 8; 9; 10; 11; 12; 13; 14; 15]%N) -> P (hex_digit n).
Proof.
  intros Hn H. rewrite Forall_forall in H. apply H. apply list_elem_of_fmap_2.
  repeat (apply elem_of_cons; match goal with |- ?x = ?y \/ _ => destruct (decide (x = y)); [by left|right] end).
  lia.
Qed.

Ltac hex_cases := apply hex_digit_cases; [apply N.mod_lt; lia|repeat constructor].

Lemma hex_digits_all (P : ascii -> bool) k : forall n rest,
  (forall c, is_hex c = true -> P c = true) -> sall P rest = true -> sall P (hex_digits k n rest) = true.
Proof.
  induction k as [|k IH]; intros n rest HP Hr; [done|]. simpl. apply IH; [done|]. simpl.
  rewrite Hr, andb_true_r. apply HP. revert n. intros n. hex_cases.
Qed.

Lemma hex_digits_split a b : forall n rest,
  hex_digits (a + b) n rest = hex_digits a (n / 16 ^ N.of_nat b) (hex_digits b n rest).
Proof.
  induction b as [|b IH]; intros n rest.
  - rewrite Nat.add_0_r. by rewrite N.div_1_r.
  - rewrite Nat.add_succ_r. cbn [hex_digits]. rewrite IH. f_equal.
    rewrite N.Div0.div_div. f_equal. rewrite Nat2N.inj_succ, N.pow_succ_r'. done.
Qed.

Lemma sfilter_hex (P : ascii -> bool) k : forall n rest,
  (forall c, is_hex c = true -> P c = true) ->
  sfilter P (hex_digits k n rest) = hex_digits k n (sfilter P rest).
Proof.
  induction k as [|k IH]; intros n rest HP; [done|]. cbn [hex_digits]. rewrite IH by done.
  f_equal. simpl. assert (P (hex_digit (n mod 16)) = true) as ->; [|done].
  apply HP. hex_cases.
Qed.

Lemma hex_digits_length k : forall n rest,
  String.length (hex_digits k n rest) = (k + String.length rest)%nat.
Proof. induction k as [|k IH]; intros n rest; [done|]. cbn [hex_digits]. rewrite IH. simpl. lia. Qed.

Lemma parse_digit_char acc b n rest : (n < 16)%N ->
  parse_digits 16 acc b (String (hex_digit n) rest) =
  parse_digits 16 (acc * 16 + Z.of_N n) true rest.
Proof.
  intros Hn. assert (H : forall k, (k < 16)%N ->
      digit_value (hex_digit k) = Some (Z.of_N k) /\ hex_digit k <> "_"%char).
  { intros k Hk.
    assert (Hall : forallb (fun i => bool_decide (digit_value (hex_digit (N.of_nat i)) = Some (Z.of_N (N.of_nat i)))
              && negb (hex_digit (N.of_nat i) =? "_")%char) (seq 0 16) = true) by (vm_compute; reflexivity).
    rewrite forallb_forall in Hall. specialize (Hall (N.to_nat k)). rewrite N2Nat.id, in_seq in Hall.
    specialize (Hall ltac:(lia)). apply andb_true_iff in Hall as [H1 H2].
    apply bool_decide_eq_true in H1. split; [done|]. by destruct (Ascii.eqb_spec (hex_digit k) "_"). }
  destruct (H n Hn) as [Hd Hu]. revert Hd Hu. generalize (hex_digit n). intros c Hd Hu.
  transitivity (match digit_value c with
    | Some d => if d <? 16 then parse_digits 16 (acc * 16 + d) true rest else None | None => None end).
  - destruct c as [[] [] [] [] [] [] [] []]; try reflexivity. by destruct Hu.
  - rewrite Hd. by rewrite (proj2 (Z.ltb_lt _ _)) by lia.
Qed.

Lemma parse_hex_digits k : forall acc b n rest,
  parse_digits 16 acc b (hex_digits k n rest) =
  parse_digits 16 (acc * 16 ^ Z.of_nat k + Z.of_N (n mod 16 ^ N.of_nat k)) (b || negb (Nat.eqb k 0)) rest.
Proof.
  induction k as [|k IH]; intros acc b n rest.
  - cbn [hex_digits]. rewrite N.mod_1_r, orb_false_r. f_equal. lia.
  - cbn [hex_digits]. rewrite IH, parse_digit_char by (apply N.mod_lt; lia).
    rewrite orb_true_r. f_equal.
    rewrite Nat2N.inj_succ, N.pow_succ_r', N.Div0.mod_mul_r, Nat2Z.inj_succ, Z.pow_succ_r by lia. lia.
Qed.

Lemma dashed_hex u :
  sfilter (fun d => negb (d =? "-")%char) (string_of_uuid u) = hex_digits 32 u "".
Proof.
  assert (Hp : forall c, is_hex c = true -> negb (c =? "-")%char = true).
  { intros c. destruct (Ascii.eqb_spec c "-") as [->|]; [done|done]. }
  assert (Hd : forall r, sfilter (fun d => negb (d =? "-")%char) (String "-" r) =
                         sfilter (fun d => negb (d =? "-")%char) r) by reflexivity.
  unfold string_of_uuid. do 4 (rewrite sfilter_hex by exact Hp; rewrite Hd).
  rewrite sfilter_hex by exact Hp. change (sfilter _ "") with "".
  change 32%nat with (8 + (4 + (4 + (4 + 12))))%nat. rewrite !hex_digits_split. reflexivity.
Qed.

Lemma uuid_text_all u (P : ascii -> bool) :
  (forall c, is_hex c = true -> P c = true) -> P "-"%char = true -> sall P (string_of_uuid u) = true.
Proof.
  intros HP Hd. unfold string_of_uuid.
  assert (Hs : forall r, sall P r = true -> sall P (String "-" r) = true) by (intros r Hr; cbn; by rewrite Hd).
  do 4 (apply hex_digits_all; [exact HP|]; apply Hs). by apply hex_digits_all.
Qed.

Lemma is_hex_not (P : ascii -> bool) c :
  forallb P (list_ascii_of_string "0123456789abcdef") = true -> is_hex c = true -> P c = true.
Proof.
  intros HP Hc. rewrite forallb_forall in HP. apply HP. revert Hc. clear.
  destruct c as [[] [] [] [] [] [] [] []]; try discriminate; intros _; cbn; tauto.
Qed.

(** Digits are read without a sign and without a prefix. *)
Lemma py_int_unsigned d1 d2 r :
  is_hex d1 = true -> is_hex d2 = true -> strip (String d1 (String d2 r)) = String d1 (String d2 r) ->
  py_int 16 (String d1 (String d2 r)) = id <$> parse_digits 16 0 false (String d1 (String d2 r)).
Proof.
  intros H1 H2 Hs. unfold py_int. rewrite Hs. clear Hs.
  destruct d1 as [[] [] [] [] [] [] [] []]; try discriminate; try reflexivity.
  destruct d2 as [[] [] [] [] [] [] [] []]; try discriminate; reflexivity.
Qed.

Lemma py_int_hex u : (u < 2 ^ 128)%N -> py_int 16 (hex_digits 32 u "") = Some (Z.of_N u).
Proof.
  intros Hu. pose proof (parse_hex_digits 32 0 false u "") as Hp.
  assert (Hs : strip (hex_digits 32 u "") = hex_digits 32 u "").
  { apply strip_id, hex_digits_all; [intros c; by apply (is_hex_not (fun c => negb (is_space c)))|done]. }
  revert Hp Hs. change 32%nat with (1 + (1 + 30))%nat. rewrite hex_digits_split, (hex_digits_split 1 30).
  generalize (hex_digits 30 u ""). intros r. cbn [hex_digits]. intros Hp Hs.
  rewrite py_int_unsigned; [|hex_cases|hex_cases|exact Hs].
  rewrite Hp, N.mod_small by exact Hu. reflexivity.
Qed.

Lemma string_of_uuid_length u : String.length (string_of_uuid u) = 36%nat.
Proof. unfold string_of_uuid. repeat (rewrite hex_digits_length; cbn [String.length]). reflexivity. Qed.

(** [uuid.UUID(str(u)) == u] *)
Lemma uuid_roundtrip u : (u < 2 ^ 128)%N -> uuid_of_string (string_of_uuid u) = Some u.
Proof.
  intros Hu. unfold uuid_of_string.
  assert (Hch : forall (P : ascii -> bool), forallb P (list_ascii_of_string "0123456789abcdef-") = true ->
            sall P (string_of_uuid u) = true).
  { intros P HP. apply uuid_text_all.
    - intros c. apply is_hex_not. rewrite forallb_forall in *. intros x Hx. apply HP. cbn in *. tauto.
    - rewrite forallb_forall in HP. apply HP. cbn. tauto. }
  rewrite (erase_absent "u" "rn:"), (erase_absent "u" "uid:") by (by apply Hch).
  rewrite lstrip_braces_id, rstrip_braces_id by (by apply Hch).
  rewrite erase_char, dashed_hex, hex_digits_length. cbn [String.length Nat.add Nat.eqb negb].
  rewrite py_int_hex by done. cbn [mbind option_bind].
  rewrite (proj2 (Z.leb_le 0 _)), (proj2 (Z.ltb_lt _ _)) by lia. cbn. by rewrite N2Z.id.
Qed.

(** ** Reading back a printed number *)

Definition is_digit (c : ascii) : bool :=
  let n := N_of_ascii c in ((48 <=? n) && (n <=? 57))%N.

Lemma pretty_char k : (k < 10)%N ->
  digit_value (pretty_N_char k) = Some (Z.of_N k) /\ is_digit (pretty_N_char k) = true /\
  pretty_N_char k <> "_"%char.
Proof.
  intros H.
  assert (Hall : forallb (fun i => bool_decide (digit_value (pretty_N_char (N.of_nat i)) = Some (Z.of_N (N.of_nat i)))
     && is_digit (pretty_N_char (N.of_nat i)) && negb (pretty_N_char (N.of_nat i) =? "_")%char)
     (seq 0 10) = true) by (vm_compute; reflexivity).
  rewrite forallb_forall in Hall. specialize (Hall (N.to_nat k)). rewrite N2Nat.id, in_seq in Hall.
  specialize (Hall ltac:(lia)). rewrite !andb_true_iff in Hall. destruct Hall as [[H1 H2] H3].
  apply bool_decide_eq_true in H1. split; [done|]. split; [done|].
  by destruct (Ascii.eqb_spec (pretty_N_char k) "_").
Qed.

Lemma parse_decimal_char acc b k rest : (k < 10)%N ->
  parse_digits 10 acc b (String (pretty_N_char k) rest) = parse_digits 10 (acc * 10 + Z.of_N k) true rest.
Proof.
  intros Hk. destruct (pretty_char k Hk) as (Hd & _ & Hu). revert Hd Hu.
  generalize (pretty_N_char k). intros c Hd Hu.
  transitivity (match digit_value c with
    | Some d => if d <? 10 then parse_digits 10 (acc * 10 + d) true rest else None | None => None end).
  - destruct c as [[] [] [] [] [] [] [] []]; try reflexivity. by destruct Hu.
  - rewrite Hd. by rewrite (proj2 (Z.ltb_lt _ _)) by lia.
Qed.

Lemma parse_decimal x : forall b s, (0 < x)%N ->
  parse_digits 10 0 b (pretty_N_go x s) = parse_digits 10 (Z.of_N x) true s.
Proof.
  induction (N.lt_wf_0 x) as [x _ IH]. intros b s Hx. rewrite pretty_N_go_step by done.
  assert (Hm : (x mod 10 < 10)%N) by (apply N.mod_lt; lia).
  pose proof (N.div_mod x 10 ltac:(lia)) as Hdm.
  destruct (decide (x / 10 = 0)%N) as [E|E].
  - rewrite E, pretty_N_go_0, parse_decimal_char by done. f_equal. lia.
  - rewrite IH, parse_decimal_char by (try apply N.div_lt; lia). f_equal. lia.
Qed.

Lemma pretty_go_all (P : ascii -> bool) x : forall s,
  (forall c, is_digit c = true -> P c = true) -> sall P s = true -> sall P (pretty_N_go x s) = true.
Proof.
  induction (N.lt_wf_0 x) as [x _ IH]. intros s HP Hs.
  destruct (decide (x = 0)%N) as [->|Hx]; [by rewrite pretty_N_go_0|].
  rewrite pretty_N_go_step by lia. apply IH; [apply N.div_lt; lia|done|].
  cbn [sall]. rewrite Hs, andb_true_r. apply HP, pretty_char, N.mod_lt. lia.
Qed.

Lemma parse_pretty n : 0 <= n -> forall b, parse_digits 10 0 b (py_str_int n) = Some n.
Proof.
  intros Hn b. unfold py_str_int. destruct n as [|p|p]; [by destruct b| |lia].
  change (parse_digits 10 0 b (pretty_N_go (Npos p) "") = Some (Z.pos p)).
  by rewrite parse_decimal.
Qed.

Lemma pretty_all (P : ascii -> bool) n :
  0 <= n -> (forall c, is_digit c = true -> P c = true) -> sall P (py_str_int n) = true.
Proof.
  intros Hn HP. unfold py_str_int. destruct n as [|p|p]; [|by apply (pretty_go_all P (Npos p))|lia].
  cbn. rewrite andb_true_r. by apply HP.
Qed.

(** A text of digits is read as its digits. *)
Lemma py_int_digits s : sall is_digit s = true -> py_int 10 s = parse_digits 10 0 false s.
Proof.
  intros Hs. unfold py_int. rewrite strip_id.
  - destruct s as [|c s]; [done|]. cbn [sall] in Hs. apply andb_prop in Hs as [Hc _].
    destruct c as [[] [] [] [] [] [] [] []]; try discriminate Hc;
      destruct s as [|d s]; try (by destruct (parse_digits _ _ _ _)).
    destruct d as [[] [] [] [] [] [] [] []]; by destruct (parse_digits _ _ _ _).
  - revert Hs. clear. induction s as [|c s IH]; [done|]. cbn [sall]. intros [Hc Hs]%andb_prop.
    rewrite IH, andb_true_r by done. destruct c as [[] [] [] [] [] [] [] []]; try discriminate Hc; done.
Qed.

(** [int(str(n)) == n] *)
Lemma py_int_pretty n : 0 <= n -> py_int 10 (py_str_int n) = Some n.
Proof. intros Hn. rewrite py_int_digits by (by apply pretty_all). by apply parse_pretty. Qed.
