(* ===== verification/Tax.v ===== *)
(** * Indian GST (apps/payment/services/tax.py)

    The pure tax computation: how an amount is split into a taxable base and
    the CGST/SGST/IGST lines.  All amounts are integers of the minor unit and
    [//] is floor division. *)

From S2P Require Import Prelude.

(** Anything else is an export of services. *)
Definition INDIA : string := "IN".

Record TaxResult := mkTaxResult {
  percent : Z;
  taxable_minor : Z;
  cgst_minor : Z;
  sgst_minor : Z;
  igst_minor : Z;
  total_minor : Z;
  place_of_supply : option string;
  intra_state : bool;
}.

Definition gross_minor (t : TaxResult) : Z := taxable_minor t + total_minor t.

(** [_split]: (cgst, sgst, igst). *)
Definition split (tax_minor : Z) (intra_state : bool) : Z * Z * Z :=
  if negb intra_state then (0, 0, tax_minor)
  else let cgst := tax_minor / 2 in (cgst, tax_minor - cgst, 0).

(** [(country or INDIA).upper() != INDIA] *)
Definition is_export (country : string) : bool :=
  negb (String.eqb (upper (if String.eqb country "" then INDIA else country)) INDIA).

Definition compute_tax (amount_minor percent : Z) (seller_state_code : string)
    (place_of_supply : option string) (country : string) (inclusive : bool) : TaxResult :=
  if (amount_minor <=? 0) || (percent <=? 0) || is_export country then
    {| percent := 0; taxable_minor := Z.max 0 amount_minor;
       cgst_minor := 0; sgst_minor := 0; igst_minor := 0; total_minor := 0;
       place_of_supply := place_of_supply; intra_state := false |}
  else
    let supply_state :=
      upper (match place_of_supply with
             | Some s => if truthy place_of_supply then s else seller_state_code
             | None => seller_state_code
             end) in
    let intra_state := String.eqb supply_state (upper seller_state_code) in
    let '(taxable, tax) :=
      if inclusive then
        let taxable := (amount_minor * 100 + (100 + percent) / 2) / (100 + percent) in
        (taxable, amount_minor - taxable)
      else (amount_minor, (amount_minor * percent + 50) / 100) in
    let '(cgst, sgst, igst) := split tax intra_state in
    {| percent := percent; taxable_minor := taxable;
       cgst_minor := cgst; sgst_minor := sgst; igst_minor := igst; total_minor := tax;
       place_of_supply := Some supply_state; intra_state := intra_state |}.

(** ** The rounded division both directions use *)

(** [(a + d // 2) // d] is the integer nearest to [a / d]. *)
Lemma round_div_spec a d : 0 < d ->
  let q := (a + d / 2) / d in 2 * a - d <= 2 * d * q <= 2 * a + d.
Proof.
  intros Hd q. subst q.
  pose proof (Z.div_mod (a + d / 2) d ltac:(lia)).
  pose proof (Z.mod_pos_bound (a + d / 2) d Hd).
  pose proof (Z.div_mod d 2 ltac:(lia)). pose proof (Z.mod_pos_bound d 2 ltac:(lia)).
  nia.
Qed.

Lemma round_div_nonneg a d : 0 <= a -> 0 < d -> 0 <= (a + d / 2) / d.
Proof. intros. apply Z.div_pos; [|lia]. pose proof (Z.div_pos d 2 ltac:(lia)). lia. Qed.

(** Extracting a non-negative tax leaves a base between 0 and the gross. *)
Lemma inclusive_base_bounds amount p : 0 <= amount -> 0 <= p ->
  0 <= (amount * 100 + (100 + p) / 2) / (100 + p) <= amount.
Proof.
  intros Ha Hp. split; [apply round_div_nonneg; lia|].
  apply Z.lt_succ_r, Z.div_lt_upper_bound; [lia|].
  pose proof (Z.div_mod (100 + p) 2 ltac:(lia)). pose proof (Z.mod_pos_bound (100 + p) 2 ltac:(lia)).
  nia.
Qed.

Lemma split_sum tax b : let '(c, s, i) := split tax b in c + s + i = tax.
Proof. unfold split. destruct b; simpl; lia. Qed.

Lemma split_shape tax b : 0 <= tax ->
  let '(c, s, i) := split tax b in
  0 <= c /\ 0 <= s /\ 0 <= i /\
  (if b then i = 0 /\ c <= s <= c + 1 else c = 0 /\ s = 0).
Proof.
  intros Ht. unfold split. destruct b; simpl; [|lia].
  pose proof (Z.div_mod tax 2 ltac:(lia)). pose proof (Z.mod_pos_bound tax 2 ltac:(lia)). lia.
Qed.

(** Take [compute_tax] apart: the untaxed branch, or the two directions with
    the split of the tax they give. *)
Lemma compute_tax_cases amount p seller pos country inclusive t :
  compute_tax amount p seller pos country inclusive = t ->
  (((amount <=? 0) || (p <=? 0) || is_export country = true) /\
   percent t = 0 /\ taxable_minor t = Z.max 0 amount /\ total_minor t = 0 /\
   cgst_minor t = 0 /\ sgst_minor t = 0 /\ igst_minor t = 0) \/
  (0 < amount /\ 0 < p /\ is_export country = false /\ percent t = p /\
   split (total_minor t) (intra_state t) = (cgst_minor t, sgst_minor t, igst_minor t) /\
   if inclusive
   then taxable_minor t = (amount * 100 + (100 + p) / 2) / (100 + p) /\
        total_minor t = amount - taxable_minor t
   else taxable_minor t = amount /\ total_minor t = (amount * p + 50) / 100).
Proof.
  intros <-. unfold compute_tax.
  destruct ((amount <=? 0) || (p <=? 0) || is_export country)%bool eqn:E; [by left|right].
  bool_to_prop.
  destruct inclusive;
    match goal with |- context [split ?a ?b] => destruct (split a b) as [[c s] i] eqn:Hs end;
    simpl; rewrite Hs; repeat split; try done; lia.
Qed.

(** Every amount the computation returns is non-negative. *)
Lemma compute_tax_nonneg amount p seller pos country inclusive :
  let t := compute_tax amount p seller pos country inclusive in
  0 <= taxable_minor t /\ 0 <= total_minor t.
Proof.
  intros t. destruct (compute_tax_cases amount p seller pos country inclusive t eq_refl)
    as [(_ & _ & -> & -> & _)|(Ha & Hp & _ & _ & _ & H)]; [lia|].
  destruct inclusive; destruct H as [H1 H2].
  - pose proof (inclusive_base_bounds amount p ltac:(lia) ltac:(lia)). lia.
  - rewrite H1, H2. split; [lia|]. apply Z.div_pos; nia.
Qed.

(** Base plus tax is the gross the computation started from. *)
Lemma compute_tax_gross amount p seller pos country :
  gross_minor (compute_tax amount p seller pos country true) = Z.max 0 amount.
Proof.
  unfold gross_minor.
  destruct (compute_tax_cases amount p seller pos country true _ eq_refl)
    as [(_ & _ & -> & -> & _)|(Ha & Hp & _ & _ & _ & _ & ->)]; lia.
Qed.

Lemma compute_tax_base_exclusive amount p seller pos country :
  taxable_minor (compute_tax amount p seller pos country false) = Z.max 0 amount.
Proof.
  destruct (compute_tax_cases amount p seller pos country false _ eq_refl)
    as [(_ & _ & -> & _)|(Ha & Hp & _ & _ & _ & -> & _)]; lia.
Qed.

(** ** Properties *)

(** The tax split always reconciles.  Whatever the amount, rate, place of
    supply and direction, CGST + SGST + IGST is exactly the tax, no part is
    negative, and with inclusive prices base + tax is exactly the (clamped)
    gross; with exclusive prices the base is exactly the amount.  An
    intra-state split puts nothing in IGST and halves the tax to within one
    unit (the odd unit going to SGST); otherwise everything is IGST. *)
Theorem tax_reconciles amount p seller pos country inclusive :
  let t := compute_tax amount p seller pos country inclusive in
  cgst_minor t + sgst_minor t + igst_minor t = total_minor t /\
  0 <= cgst_minor t /\ 0 <= sgst_minor t /\ 0 <= igst_minor t /\
  (if intra_state t then igst_minor t = 0 /\ cgst_minor t <= sgst_minor t <= cgst_minor t + 1
   else cgst_minor t = 0 /\ sgst_minor t = 0) /\
  (if inclusive then taxable_minor t + total_minor t = Z.max 0 amount
   else taxable_minor t = Z.max 0 amount).
Proof.
  intros t.
  assert (Hdir : if inclusive then taxable_minor t + total_minor t = Z.max 0 amount
                 else taxable_minor t = Z.max 0 amount)
    by (destruct inclusive; [apply compute_tax_gross|apply compute_tax_base_exclusive]).
  destruct (compute_tax_nonneg amount p seller pos country inclusive) as [_ Hn]. fold t in Hn.
  destruct (compute_tax_cases amount p seller pos country inclusive t eq_refl)
    as [(_ & _ & _ & ? & ? & ? & ?)|(_ & _ & _ & _ & Hs & _)].
  - destruct (intra_state t), inclusive; lia.
  - pose proof (split_sum (total_minor t) (intra_state t)) as H1.
    pose proof (split_shape (total_minor t) (intra_state t) Hn) as H2.
    rewrite Hs in H1, H2. destruct (intra_state t), inclusive; lia.
Qed.

(** Rounding happens once and to the nearest unit.  For a taxed amount the
    extracted base is a nearest integer to amount * 100 / (100 + rate), and the
    added tax a nearest integer to amount * rate / 100; and for rates up to
    100% the two directions agree to within one unit: adding tax to an
    extracted base gives back the gross up to 1. *)
Theorem tax_rounds_to_nearest amount p seller pos country
    (Ha : 0 < amount) (Hp : 0 < p <= 100) (Hc : is_export country = false) :
  let incl := compute_tax amount p seller pos country true in
  let excl := compute_tax amount p seller pos country false in
  let back := compute_tax (taxable_minor incl) p seller pos country false in
  2 * Z.abs (taxable_minor incl * (100 + p) - amount * 100) <= 100 + p /\
  2 * Z.abs (total_minor excl * 100 - amount * p) <= 100 /\
  (0 < taxable_minor incl -> Z.abs (gross_minor back - amount) <= 1).
Proof.
  intros incl excl back.
  destruct (compute_tax_cases amount p seller pos country true incl eq_refl)
    as [(H & _)|(_ & _ & _ & _ & _ & Hi & _)]; [rewrite Hc in H; zbool|].
  destruct (compute_tax_cases amount p seller pos country false excl eq_refl)
    as [(H & _)|(_ & _ & _ & _ & _ & _ & He)]; [rewrite Hc in H; zbool|].
  pose proof (round_div_spec (amount * 100) (100 + p) ltac:(lia)) as R1. cbv zeta in R1.
  pose proof (round_div_spec (amount * p) 100 ltac:(lia)) as R2. cbv zeta in R2.
  rewrite <- Hi in R1. change (100 / 2) with 50 in R2. rewrite <- He in R2.
  split; [lia|split; [lia|]]. intros Hpos.
  destruct (compute_tax_cases (taxable_minor incl) p seller pos country false back eq_refl)
    as [(H & _)|(_ & _ & _ & _ & _ & Hb1 & Hb2)]; [rewrite Hc in H; zbool|].
  pose proof (round_div_spec (taxable_minor incl * p) 100 ltac:(lia)) as R3. cbv zeta in R3.
  change (100 / 2) with 50 in R3. rewrite <- Hb2 in R3.
  unfold gross_minor. rewrite Hb1. lia.
Qed.

(** The rupee figure of the module's documentation: 499.00 inclusive of 18%. *)
Lemma tax_rounds_to_nearest_witness :
  taxable_minor (compute_tax 49900 18 "GJ" None "IN" true) = 42288 /\
  Z.abs (gross_minor (compute_tax 42288 18 "GJ" None "IN" false) - 49900) <= 1.
Proof.
  split; [reflexivity|].
  apply (tax_rounds_to_nearest 49900 18 "GJ" None "IN"); [lia|lia|reflexivity|reflexivity].
Defined.
