(* ===== verification/Catalogue.v ===== *)
(** * Reading the catalogue (apps/payment/services/catalogue.py)

    How the payment service obtains prices: a short-lived cache in front of a
    call to the books service.  The call and the cache server are code outside
    the service: [post_json] is whatever the books service answers, and the
    cache is a store of decoded entries that may also be unreachable. *)

From S2P Require Import Prelude Json.

Record CatalogueBook := mkBook {
  b_id : uuid;
  b_slug : string;
  b_title : string;
  b_price_minor : Z;
  b_currency : string;
  b_status : string;
  b_category_ids : list uuid;
}.

#[export] Instance CatalogueBook_eq_dec : EqDecision CatalogueBook.
Proof. solve_decision. Defined.

Definition is_purchasable (b : CatalogueBook) : bool := String.eqb (b_status b) "published".

(** [item.get("categories", [])], iterated: an absent field is the empty list,
    anything that is not a list cannot be iterated as dicts. *)
Definition parse_categories (v : json) : result (list uuid) :=
  match jget_default "categories" (JList []) v with
  | JList l =>
      foldr (fun c acc =>
        rest ← acc;
        match c with
        | JObj _ =>
            if jtruthy (jget "id" c)
            then u ← opt_result ValueErr (uuid_of_string (jstr (jget "id" c))); Ok (u :: rest)
            else Ok rest
        | _ => Raise AttributeErr
        end) (Ok []) l
  | _ => Raise TypeErr
  end.

Definition parse (item : json) : result CatalogueBook :=
  let price := match jget "effective_price_minor" item with
               | JNull => jget_default "price_minor" (JInt 0) item
               | p => p
               end in
  match item with
  | JObj fields =>
      id_field ← opt_result KeyErr (fields_get "id" fields);
      id ← opt_result ValueErr (uuid_of_string (jstr id_field));
      price ← opt_result ValueErr (jint price);
      category_ids ← parse_categories item;
      Ok {| b_id := id;
            b_slug := jstr (jget_default "slug" (JStr "") item);
            b_title := jstr (jget_default "title" (JStr "") item);
            b_price_minor := price;
            b_currency := jstr (jget_default "currency" (JStr "INR") item);
            b_status := jstr (jget_default "status" (JStr "") item);
            b_category_ids := category_ids |}
  | _ => Raise AttributeErr
  end.

(** The document [_store] writes for a book. *)
Definition store_entry (b : CatalogueBook) : json :=
  JObj [("id", JStr (string_of_uuid (b_id b)));
        ("slug", JStr (b_slug b));
        ("title", JStr (b_title b));
        ("price_minor", JInt (b_price_minor b));
        ("effective_price_minor", JInt (b_price_minor b));
        ("currency", JStr (b_currency b));
        ("status", JStr (b_status b));
        ("categories",
           JList (map (fun c => JObj [("id", JStr (string_of_uuid c))]) (b_category_ids b)))].

(** The price cache: book id to entry; [None] is an entry that does not decode. *)
Abbreviation price_cache := (gmap N (option json)).

Section client.
(** The Redis client: absent, and reachable for reads and for writes. *)
Context (redis read_ok write_ok : bool).
(** The books service: absent, or its answers to the two internal calls. *)
Context (services : option (list uuid -> result json)).
Context (entitlements_check : option (uuid -> list uuid -> result json)).

Definition cached_step (c : price_cache) (found : gmap N CatalogueBook) (id : uuid)
    : gmap N CatalogueBook :=
  match c !! id with
  | Some (Some entry) =>
      match parse entry with Ok b => <[id := b]> found | Raise _ => found end
  | _ => found
  end.

Definition cached (book_ids : list uuid) : M price_cache (gmap N CatalogueBook) :=
  gets (fun c => if negb redis || negb read_ok then ∅ else foldl (cached_step c) ∅ book_ids).

Definition store (books : list CatalogueBook) : M price_cache unit :=
  modify (fun c =>
    if negb redis || negb write_ok then c
    else foldl (fun c b => <[b_id b := Some (store_entry b)]> c) c books).

(** [for item in (payload or {}).get("items", [])] *)
Definition payload_items (payload : json) : result (list json) :=
  items ← dict_get_default "items" (JList []) (jor payload (JObj []));
  match items with JList l => Ok l | _ => Raise TypeErr end.

Fixpoint parse_all (l : list json) : result (list CatalogueBook) :=
  match l with
  | [] => Ok []
  | i :: l' => b ← parse i; bs ← parse_all l'; Ok (b :: bs)
  end.

(** [resolved.update({book.id: book for book in fetched})] *)
Definition update_books (resolved : gmap N CatalogueBook) (fetched : list CatalogueBook)
    : gmap N CatalogueBook :=
  foldl (fun m b => <[b_id b := b]> m) resolved fetched.

Definition missing_from (resolved : gmap N CatalogueBook) (ids : list uuid) : list uuid :=
  List.filter (fun id => bool_decide (resolved !! id = None)) ids.

Definition fetch (book_ids : list uuid) : M price_cache (gmap N CatalogueBook) :=
  if bool_decide (book_ids = []) then mret ∅ else
  let unique := fromkeys book_ids in
  resolved ← cached unique;
  let missing := missing_from resolved unique in
  if bool_decide (missing = []) then mret resolved else
  match services with
  | None => raise (app_error NotFoundError "")
  | Some post_json =>
      payload ← of_result (post_json missing);
      items ← of_result (payload_items payload);
      fetched ← of_result (parse_all items);
      _ ← store fetched;
      let resolved := update_books resolved fetched in
      if bool_decide (missing_from resolved unique = []) then mret resolved
      else raise (app_error NotFoundError "")
  end.

Definition require_purchasable (book_ids : list uuid) : M price_cache (gmap N CatalogueBook) :=
  books ← fetch book_ids;
  _ ← raise_when (existsb (fun kv => negb (is_purchasable kv.2)) (map_to_list books))
                 (app_error BadRequestError "book_not_purchasable");
  mret books.

(** Best-effort: any failure of the call is "owns nothing". *)
Definition owned_book_ids (user_id : uuid) (book_ids : list uuid) : result (gset N) :=
  match entitlements_check with
  | None => Ok ∅
  | Some post_json =>
      if bool_decide (book_ids = []) then Ok ∅ else
      match post_json user_id book_ids with
      | Raise _ => Ok ∅
      | Ok payload =>
          owned ← dict_get_default "owned_book_ids" (JList []) (jor payload (JObj []));
          match owned with
          | JList l =>
              foldr (fun b acc =>
                rest ← acc;
                u ← opt_result ValueErr (uuid_of_string (jstr b));
                Ok ({[ u ]} ∪ rest)) (Ok ∅) l
          | _ => Raise TypeErr
          end
      end
  end.

(** ** Lemmas *)

Lemma missing_from_nil resolved ids :
  missing_from resolved ids = [] -> forall id, id ∈ ids -> is_Some (resolved !! id).
Proof.
  intros H id Hid. apply not_eq_None_Some. intros Hn.
  assert (id ∈ missing_from resolved ids).
  { unfold missing_from. apply list_elem_of_In, filter_In. split; [by apply list_elem_of_In|].
    by apply bool_decide_eq_true. }
  rewrite H in *. set_solver.
Qed.

(** The books a successful fetch returns: every requested one is there. *)
Lemma fetch_complete book_ids c books c' :
  fetch book_ids c = (Ok books, c') ->
  forall id, id ∈ book_ids -> is_Some (books !! id).
Proof.
  unfold fetch. case_bool_decide as Hnil; [subst; intros _ id Hid; set_solver|].
  intros H id Hid. apply elem_of_fromkeys in Hid.
  run_step H. injection Hrun as <- <-.
  case_if_hyp H; bool_to_prop.
  - injection H as <- <-. eapply missing_from_nil; eauto.
  - destruct services as [post|]; [|discriminate].
    run_step H. run_step H. run_step H. run_step H.
    case_if_hyp H; [|discriminate]. bool_to_prop.
    injection H as <- <-. eapply missing_from_nil; eauto.
Qed.

Lemma require_purchasable_inv book_ids c books c' :
  require_purchasable book_ids c = (Ok books, c') ->
  fetch book_ids c = (Ok books, c') /\
  (forall id b, books !! id = Some b -> is_purchasable b = true).
Proof.
  unfold require_purchasable. intros H.
  run_step H. run_step H. unfold raise_when in Hrun0.
  case_if_hyp Hrun0; [discriminate|]. injection Hrun0 as <- <-. injection H as <- <-.
  split; [done|]. intros id b Hb.
  destruct (is_purchasable b) eqn:Hp; [done|exfalso].
  apply not_true_iff_false in Heqb. apply Heqb. apply existsb_exists.
  exists (id, b). simpl. rewrite Hp. split; [|done].
  by apply list_elem_of_In, elem_of_map_to_list.
Qed.
End client.
