(* ===== verification/Coupons.v ===== *)
(** * Coupons (apps/payment/services/coupons.py)

    Validation of a code against a cart, and redemption: the conditional
    UPDATE that cannot oversell a usage limit.  The store holds the tables
    [coupons] and [coupon_redemptions]. *)

From S2P Require Import Prelude Store Catalogue.

Inductive CouponType := PERCENT | FIXED.

#[export] Instance CouponType_eq_dec : EqDecision CouponType.
Proof. solve_decision. Defined.

Record Coupon := mkCoupon {
  cp_id : uuid;
  cp_code : string;
  cp_description : option string;
  cp_coupon_type : CouponType;
  cp_value : Z;
  cp_max_discount_minor : option Z;
  cp_min_order_minor : Z;
  cp_currency : option string;
  cp_usage_limit : option Z;
  cp_usage_count : Z;
  cp_per_user_limit : Z;
  cp_valid_from : option datetime;
  cp_valid_until : option datetime;
  cp_is_active : bool;
  cp_applicable_book_ids : list uuid;
  cp_applicable_category_ids : list uuid;
}.

Record CouponRedemption := mkRedemption {
  rd_id : uuid;
  rd_coupon_id : uuid;
  rd_order_id : uuid;
  rd_user_id : uuid;
  rd_discount_minor : Z;
}.

#[export] Instance Coupon_row : Row Coupon := cp_id.
#[export] Instance CouponRedemption_row : Row CouponRedemption := rd_id.
#[export] Instance Coupon_eq_dec : EqDecision Coupon.
Proof. solve_decision. Defined.

Definition with_usage_count (n : Z) (c : Coupon) : Coupon :=
  {| cp_id := cp_id c; cp_code := cp_code c; cp_description := cp_description c;
     cp_coupon_type := cp_coupon_type c; cp_value := cp_value c;
     cp_max_discount_minor := cp_max_discount_minor c; cp_min_order_minor := cp_min_order_minor c;
     cp_currency := cp_currency c; cp_usage_limit := cp_usage_limit c; cp_usage_count := n;
     cp_per_user_limit := cp_per_user_limit c; cp_valid_from := cp_valid_from c;
     cp_valid_until := cp_valid_until c; cp_is_active := cp_is_active c;
     cp_applicable_book_ids := cp_applicable_book_ids c;
     cp_applicable_category_ids := cp_applicable_category_ids c |}.

Definition set_inactive (c : Coupon) : Coupon :=
  {| cp_id := cp_id c; cp_code := cp_code c; cp_description := cp_description c;
     cp_coupon_type := cp_coupon_type c; cp_value := cp_value c;
     cp_max_discount_minor := cp_max_discount_minor c; cp_min_order_minor := cp_min_order_minor c;
     cp_currency := cp_currency c; cp_usage_limit := cp_usage_limit c;
     cp_usage_count := cp_usage_count c;
     cp_per_user_limit := cp_per_user_limit c; cp_valid_from := cp_valid_from c;
     cp_valid_until := cp_valid_until c; cp_is_active := false;
     cp_applicable_book_ids := cp_applicable_book_ids c;
     cp_applicable_category_ids := cp_applicable_category_ids c |}.

Record CouponStore := mkCouponStore {
  coupons : table Coupon;
  redemptions : table CouponRedemption;
}.

Definition set_coupons (t : table Coupon) (s : CouponStore) : CouponStore :=
  {| coupons := t; redemptions := redemptions s |}.
Definition set_redemptions (t : table CouponRedemption) (s : CouponStore) : CouponStore :=
  {| coupons := coupons s; redemptions := t |}.

(** The unique constraints of the two tables. *)
Definition code_col (c : Coupon) : option string := Some (cp_code c).
Definition redemption_col (r : CouponRedemption) : option (uuid * uuid) :=
  Some (rd_coupon_id r, rd_order_id r).

(** The check constraints of [coupons]. *)
Definition coupon_checks (c : Coupon) : bool :=
  (0 <=? cp_value c) && match cp_usage_limit c with Some l => 0 <? l | None => true end.

(** The sentences of [CouponEvaluation.reason]. *)
Inductive reason :=
  | NotRecognised
  | NoLongerActive
  | NotActiveYet
  | Expired
  | WrongCurrency
  | FullyRedeemed
  | AlreadyUsed
  | MinimumOrder
  | NothingEligible
  | NoDiscount.

Record CouponEvaluation := mkEvaluation {
  ev_valid : bool;
  ev_discount_minor : Z;
  ev_coupon : option Coupon;
  ev_reason : option reason;
}.

(** [code.strip().upper()] *)
Definition normalise_code (code : string) : string := upper (strip code).

(** ** Lookup *)

Definition find (code : string) : M CouponStore (option Coupon) :=
  s ← get;
  of_result (one_or_none (select (fun c => String.eqb (cp_code c) (normalise_code code)) (coupons s))).

Definition get_coupon (coupon_id : uuid) : M CouponStore Coupon :=
  s ← get;
  match coupons s !! coupon_id with
  | Some c => mret c
  | None => raise (app_error NotFoundError "")
  end.

(** ** Evaluation *)

(** [sum(lines.values())] *)
Definition lines_total (lines : gmap N Z) : Z := zsum (map snd (map_to_list lines)).

Definition line_eligible (c : Coupon) (books : gmap N CatalogueBook) (book_id : uuid) : bool :=
  bool_decide (book_id ∈ cp_applicable_book_ids c) ||
  match books !! book_id with
  | Some b => existsb (fun k => bool_decide (k ∈ cp_applicable_category_ids c)) (b_category_ids b)
  | None => false
  end.

Definition eligible_subtotal (c : Coupon) (lines : gmap N Z) (books : gmap N CatalogueBook) : Z :=
  if bool_decide (cp_applicable_book_ids c = []) && bool_decide (cp_applicable_category_ids c = [])
  then lines_total lines
  else foldl (fun total kv => if line_eligible c books kv.1 then total + kv.2 else total)
             0 (map_to_list lines).

Definition discount_for (c : Coupon) (eligible_minor : Z) : Z :=
  if eligible_minor <=? 0 then 0 else
  let discount :=
    match cp_coupon_type c with
    | PERCENT =>
        let d := eligible_minor * cp_value c / 100 in
        match cp_max_discount_minor c with Some m => Z.min d m | None => d end
    | FIXED => cp_value c
    end in
  Z.max 0 (Z.min discount eligible_minor).

Definition user_redemptions (coupon_id user_id : uuid) (s : CouponStore) : Z :=
  count (fun r => (rd_coupon_id r =? coupon_id)%N && (rd_user_id r =? user_id)%N) (redemptions s).

(** [evaluate]: the reasons in the order of the early returns. *)
Definition evaluate (now : datetime) (code : option string) (user_id : option uuid)
    (lines : gmap N Z) (books : gmap N CatalogueBook) (currency : string)
    : M CouponStore CouponEvaluation :=
  let refuse c r := mret (mkEvaluation false 0 c (Some r)) in
  match code with
  | None | Some "" => mret (mkEvaluation false 0 None None)
  | Some code =>
      found ← find code;
      match found with
      | None => refuse None NotRecognised
      | Some c =>
          let refuse := refuse (Some c) in
          if negb (cp_is_active c) then refuse NoLongerActive else
          if (match cp_valid_from c with Some t => now <? t | None => false end)
          then refuse NotActiveYet else
          if (match cp_valid_until c with Some t => t <? now | None => false end)
          then refuse Expired else
          if (match cp_currency c with
              | Some k => truthy (Some k) && negb (String.eqb (upper k) (upper currency))
              | None => false end)
          then refuse WrongCurrency else
          if (match cp_usage_limit c with Some l => l <=? cp_usage_count c | None => false end)
          then refuse FullyRedeemed else
          s ← get;
          if (match user_id with
              | Some u => negb (cp_per_user_limit c =? 0) &&
                          (cp_per_user_limit c <=? user_redemptions (cp_id c) u s)
              | None => false end)
          then refuse AlreadyUsed else
          if lines_total lines <? cp_min_order_minor c then refuse MinimumOrder else
          let eligible := eligible_subtotal c lines books in
          if eligible <=? 0 then refuse NothingEligible else
          let discount := discount_for c eligible in
          if discount <=? 0 then refuse NoDiscount else
          mret (mkEvaluation true discount (Some c) None)
      end
  end.

#[global] Arguments evaluate : simpl never.

(** ** Redemption *)

(** [coupon] is the object the checkout holds: its usage limit is the one that
    was read, its counter may be stale. *)
Definition redeem (coupon : Coupon) (order_id user_id : uuid) (discount_minor : Z)
    : M CouponStore CouponRedemption :=
  let bump c := with_usage_count (cp_usage_count c + 1) c in
  s ← get;
  _ ← (match cp_usage_limit coupon with
       | Some limit =>
           let '(t, rowcount) :=
             update_where (fun c => (cp_id c =? cp_id coupon)%N && (cp_usage_count c <? limit))
                          bump (coupons s) in
           _ ← modify (set_coupons t);
           raise_when (rowcount =? 0) (app_error ConflictError "coupon_exhausted")
       | None =>
           modify (set_coupons (update_where (fun c => (cp_id c =? cp_id coupon)%N) bump (coupons s)).1)
       end);
  s ← get;
  let redemption := {| rd_id := fresh_id (redemptions s); rd_coupon_id := cp_id coupon;
                       rd_order_id := order_id; rd_user_id := user_id;
                       rd_discount_minor := discount_minor |} in
  match coupons s !! cp_id coupon, insert_unique redemption_col redemption (redemptions s) with
  | Some _, Ok t => _ ← modify (set_redemptions t); mret redemption
  | _, _ => raise (app_error ConflictError "coupon_already_redeemed")
  end.

Definition release_one (r : CouponRedemption) : M CouponStore unit :=
  modify (fun s =>
    {| coupons := (update_where (fun c => (cp_id c =? rd_coupon_id r)%N && (0 <? cp_usage_count c))
                     (fun c => with_usage_count (cp_usage_count c - 1) c) (coupons s)).1;
       redemptions := remove r (redemptions s) |}).

Definition release (order_id : uuid) : M CouponStore unit :=
  s ← get;
  for_each release_one (select (fun r => (rd_order_id r =? order_id)%N) (redemptions s)).

(** ** Administration *)

Record CouponCreate := mkCouponCreate {
  cc_code : string;
  cc_description : option string;
  cc_coupon_type : CouponType;
  cc_value : Z;
  cc_max_discount_minor : option Z;
  cc_min_order_minor : Z;
  cc_currency : option string;
  cc_usage_limit : option Z;
  cc_per_user_limit : Z;
  cc_valid_from : option datetime;
  cc_valid_until : option datetime;
  cc_is_active : bool;
  cc_applicable_book_ids : list uuid;
  cc_applicable_category_ids : list uuid;
}.

(** [CouponCreate._normalise_code]; [None] is the validator's ValueError. *)
Definition validate_code (value : string) : option string :=
  let code := normalise_code value in
  if isalnum (sfilter (fun c => negb ((c =? "-")%char || (c =? "_")%char)) code)
  then Some code else None.

(** [CouponCreate._check_value] *)
Definition check_value (p : CouponCreate) : bool :=
  negb (bool_decide (cc_coupon_type p = PERCENT) &&
        negb ((0 <=? cc_value p) && (cc_value p <=? 100))) &&
  match cc_valid_from p, cc_valid_until p with
  | Some f, Some u => f <? u
  | _, _ => true
  end.

Definition create (payload : CouponCreate) : M CouponStore Coupon :=
  existing ← find (cc_code payload);
  match existing with
  | Some _ => raise (app_error ConflictError "")
  | None =>
      s ← get;
      let coupon :=
        {| cp_id := fresh_id (coupons s); cp_code := cc_code payload;
           cp_description := cc_description payload; cp_coupon_type := cc_coupon_type payload;
           cp_value := cc_value payload; cp_max_discount_minor := cc_max_discount_minor payload;
           cp_min_order_minor := cc_min_order_minor payload; cp_currency := cc_currency payload;
           cp_usage_limit := cc_usage_limit payload; cp_usage_count := 0;
           cp_per_user_limit := cc_per_user_limit payload; cp_valid_from := cc_valid_from payload;
           cp_valid_until := cc_valid_until payload; cp_is_active := cc_is_active payload;
           cp_applicable_book_ids := cc_applicable_book_ids payload;
           cp_applicable_category_ids := cc_applicable_category_ids payload |} in
      _ ← raise_when (negb (coupon_checks coupon)) IntegrityErr;
      t ← of_result (insert_unique code_col coupon (coupons s));
      _ ← modify (set_coupons t);
      mret coupon
  end.

(** The flush writes the changed column of the row, not the whole object. *)
Definition deactivate (coupon : Coupon) : M CouponStore unit :=
  modify (fun s =>
    set_coupons (update_where (fun c => (cp_id c =? cp_id coupon)%N) set_inactive (coupons s)).1 s).

(** ** Discounts *)

Lemma discount_for_bounds c e : 0 <= discount_for c e <= Z.max 0 e.
Proof.
  unfold discount_for. destruct (e <=? 0) eqn:E; [zbool|].
  destruct (cp_coupon_type c); repeat case_match; zbool.
Qed.

Lemma discount_for_percent c e :
  cp_coupon_type c = PERCENT -> 0 <= cp_value c <= 100 -> 0 <= e ->
  (forall m, cp_max_discount_minor c = Some m -> 0 <= m) ->
  100 * discount_for c e <= e * cp_value c /\
  (forall m, cp_max_discount_minor c = Some m -> discount_for c e <= m).
Proof.
  intros Ht Hv He Hm. unfold discount_for. rewrite Ht.
  pose proof (Z.mul_div_le (e * cp_value c) 100 ltac:(lia)).
  destruct (e <=? 0) eqn:E.
  - bool_to_prop. split; [nia|]. intros m Hm'. by apply Hm.
  - bool_to_prop. assert (0 <= e * cp_value c / 100) by (apply Z.div_pos; nia).
    destruct (cp_max_discount_minor c) as [m|] eqn:Em.
    + specialize (Hm m eq_refl). split; [lia|]. intros m' [= <-]. lia.
    + split; [lia|]. discriminate.
Qed.

Lemma foldl_select_le {A} (f : A -> bool) (g : A -> Z) (l : list A) acc :
  Forall (fun x => 0 <= g x) l ->
  acc <= foldl (fun t x => if f x then t + g x else t) acc l <= acc + zsum (map g l).
Proof.
  intros H. revert acc. induction H as [|x l Hx _ IH]; intros acc; simpl; rewrite ?zsum_nil, ?zsum_cons; [lia|].
  destruct (f x); [specialize (IH (acc + g x))|specialize (IH acc)]; lia.
Qed.

Definition lines_nonneg (lines : gmap N Z) : Prop := map_Forall (fun _ v => 0 <= v) lines.

Lemma eligible_subtotal_bounds c lines books :
  lines_nonneg lines -> 0 <= eligible_subtotal c lines books <= lines_total lines.
Proof.
  intros H. assert (Hl : Forall (fun kv : N * Z => 0 <= kv.2) (map_to_list lines)).
  { apply Forall_forall. intros [k v] Hk%elem_of_map_to_list. by apply (H k v). }
  unfold eligible_subtotal, lines_total. case_match.
  - split; [|done]. apply zsum_nonneg, Forall_map. exact Hl.
  - pose proof (foldl_select_le (fun kv : N * Z => line_eligible c books kv.1) snd
      (map_to_list lines) 0 Hl). lia.
Qed.

(** ** What [find] and [evaluate] do to the store *)

Lemma find_unchanged code s r s' : find code s = (r, s') -> s' = s.
Proof. unfold find. cbv [get mbind M_bind of_result]. by intros [= _ <-]. Qed.

Lemma find_found code s c s' :
  keyed (coupons s) -> find code s = (Ok (Some c), s') ->
  coupons s !! cp_id c = Some c /\ cp_code c = normalise_code code.
Proof.
  unfold find. cbv [get mbind M_bind of_result]. intros Hk [= H%one_or_none_Some _].
  assert (Hc : c ∈ [c]) by constructor. rewrite <- H in Hc.
  apply elem_of_select_keyed in Hc as [Hc Hp]; [|done].
  split; [done|]. by apply String.eqb_eq.
Qed.

Lemma find_returns code s :
  keyed (coupons s) -> unique_on code_col (coupons s) -> exists o, find code s = (Ok o, s).
Proof.
  intros Hk Hu. unfold find. cbv [get mbind M_bind of_result].
  destruct (select_unique code_col (coupons s)
    (fun c => String.eqb (cp_code c) (normalise_code code)) (normalise_code code) Hk Hu) as [o ->].
  - intros c Hc%String.eqb_eq. unfold code_col. by rewrite Hc.
  - by exists o.
Qed.

(** The facts an accepted evaluation rests on. *)
Record accepted (now : datetime) (user_id : option uuid) (lines : gmap N Z)
    (books : gmap N CatalogueBook) (currency : string) (s : CouponStore)
    (c : Coupon) (discount : Z) : Prop := Accepted {
  acc_active : cp_is_active c = true;
  acc_from : forall t, cp_valid_from c = Some t -> t <= now;
  acc_until : forall t, cp_valid_until c = Some t -> now <= t;
  acc_currency : forall k, cp_currency c = Some k -> k <> "" -> upper k = upper currency;
  acc_limit : forall l, cp_usage_limit c = Some l -> cp_usage_count c < l;
  acc_per_user : forall u, user_id = Some u -> cp_per_user_limit c <> 0 ->
                 user_redemptions (cp_id c) u s < cp_per_user_limit c;
  acc_minimum : cp_min_order_minor c <= lines_total lines;
  acc_discount : discount = discount_for c (eligible_subtotal c lines books);
  acc_positive : 0 < discount <= eligible_subtotal c lines books;
}.

Lemma evaluate_valid_inv now code user_id lines books currency s ev s' :
  evaluate now code user_id lines books currency s = (Ok ev, s') -> ev_valid ev = true ->
  exists k c, code = Some k /\ find k s = (Ok (Some c), s) /\ s' = s /\
    ev_coupon ev = Some c /\ accepted now user_id lines books currency s c (ev_discount_minor ev).
Proof.
  unfold evaluate. intros H Hv.
  destruct code as [[|a k]|]; [injection H as <- <-; done| |injection H as <- <-; done].
  run_step H. rename Hrun into Hfind.
  pose proof (find_unchanged _ _ _ _ Hfind) as ->.
  destruct a0 as [c|]; [|injection H as <- <-; done].
  repeat lazymatch type of H with
  | (get ≫= _) _ = _ => cbv [get mbind M_bind] in H
  | context [if ?b then _ else _] =>
      destruct b eqn:?; [injection H as <- <-; discriminate Hv|]
  end.
  injection H as <- <-. simpl in *.
  exists (String a k), c. repeat split; try done; bool_to_prop; try done; try lia.
  - intros t Ht. rewrite Ht in *. lia.
  - intros t Ht. rewrite Ht in *. lia.
  - intros u Hu Hne. rewrite Hu in *. apply String.eqb_neq in Hne. rewrite Hne in *. simpl in *.
    bool_to_prop. by apply String.eqb_eq.
  - intros l Hl. rewrite Hl in *. lia.
  - intros u Hu Hne. rewrite Hu in *. zbool_or.
  - pose proof (discount_for_bounds c (eligible_subtotal c lines books)). lia.
Qed.

Lemma evaluate_unchanged now code user_id lines books currency s r s' :
  evaluate now code user_id lines books currency s = (r, s') -> s' = s.
Proof.
  unfold evaluate. destruct code as [[|a k]|]; [by intros [= _ <-]| |by intros [= _ <-]].
  intros [(o & s1 & Hf & H)|(e & Hf & _)]%bind_inv;
    pose proof (find_unchanged _ _ _ _ Hf) as ->; [|done].
  destruct o as [c|]; [|by injection H].
  cbv [get mbind M_bind mret M_ret] in H. repeat case_match; by injection H.
Qed.

(** ** The redemption ledger *)

Definition redeemed (id : uuid) (s : CouponStore) : Z :=
  count (fun r => (rd_coupon_id r =? id)%N) (redemptions s).

(** The counter of a coupon is the number of its redemption rows, and never
    exceeds its limit; the unique constraints hold. *)
Record CouponInv (s : CouponStore) : Prop := {
  ci_keyed : keyed (coupons s);
  ci_rkeyed : keyed (redemptions s);
  ci_code : unique_on code_col (coupons s);
  ci_pair : unique_on redemption_col (redemptions s);
  ci_coupon : forall k r, redemptions s !! k = Some r -> is_Some (coupons s !! rd_coupon_id r);
  ci_ledger : forall id c, coupons s !! id = Some c -> cp_usage_count c = redeemed id s;
  ci_limit : forall id c l, coupons s !! id = Some c -> cp_usage_limit c = Some l ->
               cp_usage_count c <= l;
}.

(** The coupon object a checkout holds carries the usage limit of its row. *)
Definition limit_current (c : Coupon) (s : CouponStore) : Prop :=
  forall c', coupons s !! cp_id c = Some c' -> cp_usage_limit c' = cp_usage_limit c.

Definition bump (c : Coupon) : Coupon := with_usage_count (cp_usage_count c + 1) c.
Definition unbump (c : Coupon) : Coupon := with_usage_count (cp_usage_count c - 1) c.

Lemma coupon_key t k c : keyed t -> t !! k = Some c -> cp_id c = k.
Proof. apply keyed_lookup. Qed.

(** What a successful redemption did. *)
Lemma redeem_ok_inv c oid uid d s r s' :
  keyed (coupons s) -> redeem c oid uid d s = (Ok r, s') ->
  coupons s' = alter bump (cp_id c) (coupons s) /\
  (forall l, cp_usage_limit c = Some l ->
     exists c0, coupons s !! cp_id c = Some c0 /\ cp_usage_count c0 < l) /\
  r = {| rd_id := fresh_id (redemptions s); rd_coupon_id := cp_id c; rd_order_id := oid;
         rd_user_id := uid; rd_discount_minor := d |} /\
  is_Some (coupons s !! cp_id c) /\
  insert_unique redemption_col r (redemptions s) = Ok (redemptions s').
Proof.
  unfold redeem. intros Hk H. cbv [get mbind M_bind] in H.
  destruct (cp_usage_limit c) as [l|] eqn:El.
  - set (P := fun c' => (cp_id c' =? cp_id c)%N && (cp_usage_count c' <? l)) in *.
    fold bump in H.
    assert (HP : count P (coupons s) <> 0 ->
      exists c0, coupons s !! cp_id c = Some c0 /\ P c0 = true /\ cp_usage_count c0 < l).
    { intros (k & c0 & H0 & Hp)%count_nonzero. exists c0. unfold P in *.
      pose proof (coupon_key _ _ _ Hk H0) as Hid.
      apply andb_true_iff in Hp as Hp'. destruct Hp' as [H1 H2]. apply N.eqb_eq in H1.
      repeat split; [congruence|done|lia]. }
    unfold modify, raise_when in H.
    destruct (update_where P bump (coupons s)) as [t n] eqn:Eu.
    assert (n = count P (coupons s)) as -> by (unfold update_where in Eu; congruence).
    destruct (count P (coupons s) =? 0) eqn:Ec; [discriminate|].
    bool_to_prop. apply Z.eqb_neq in Ec. destruct (HP Ec) as (c0 & H0 & Hp & Hlt).
    assert (Ht : t = alter bump (cp_id c) (coupons s)).
    { replace t with (update_where P bump (coupons s)).1 by (by rewrite Eu).
      apply update_where_key; [done| |].
      - unfold P. intros v Hv. bool_to_prop. by apply N.eqb_eq.
      - intros v Hv. congruence. }
    simpl in H. rewrite Ht, lookup_alter_eq, H0 in H. simpl in H.
    destruct (insert_unique _ _ (redemptions s)) as [t'|e] eqn:Ei; [|discriminate].
    injection H as <- <-. simpl. rewrite Ei.
    split; [done|]. split; [|by eauto]. intros l' [= <-]. eauto.
  - assert (Ht : (update_where (fun c' => (cp_id c' =? cp_id c)%N) bump (coupons s)).1 =
                 alter bump (cp_id c) (coupons s)).
    { apply update_where_key; [done| |].
      - intros v Hv. by apply N.eqb_eq.
      - intros v Hv. apply N.eqb_eq. by rewrite (coupon_key _ _ _ Hk Hv). }
    unfold modify in H. fold bump in H. rewrite Ht in H. simpl in H.
    rewrite lookup_alter_eq in H.
    destruct (coupons s !! cp_id c) as [c0|] eqn:H0; [|discriminate]. simpl in H.
    destruct (insert_unique _ _ (redemptions s)) as [t|e] eqn:Ei; [|discriminate].
    injection H as <- <-. simpl. rewrite Ei. by eauto.
Qed.

Lemma redeem_preserves c oid uid d s r s' :
  CouponInv s -> limit_current c s -> redeem c oid uid d s = (Ok r, s') -> CouponInv s'.
Proof.
  intros [Hk Hrk Hc Hp Href Hl Hlim] Hcur (Hcs & Hlt & -> & Hex & Hins)%redeem_ok_inv; [|done].
  destruct (insert_unique_preserves redemption_col _ _ _ Hrk Hp Hins) as [Hrk' Hp'].
  apply insert_unique_ok in Hins as Hrs.
  assert (Hcnt : forall id, redeemed id s' = redeemed id s + bool_Z (cp_id c =? id)%N).
  { intros id. unfold redeemed. rewrite Hrs. unfold save. rewrite count_insert_fresh; [done|].
    apply fresh_id_None. }
  constructor; try done.
  - rewrite Hcs. by apply keyed_alter.
  - rewrite Hcs. by apply unique_alter.
  - intros k r. rewrite Hcs, Hrs, lookup_save, lookup_alter_is_Some. case_decide; [|apply Href].
    by intros [= <-].
  - intros id c' H. rewrite Hcs in H. rewrite Hcnt.
    apply lookup_alter_cases in H as (c0 & H0 & [[-> ->]|[Hne ->]]); simpl; rewrite (Hl _ _ H0).
    + by rewrite N.eqb_refl.
    + apply not_eq_sym, N.eqb_neq in Hne. rewrite Hne. simpl. lia.
  - intros id c' l H Hl'. rewrite Hcs in H.
    apply lookup_alter_cases in H as (c0 & H0 & [[-> ->]|[Hne ->]]); simpl in *; [|by eapply Hlim].
    rewrite (Hcur c0 H0) in Hl'. destruct (Hlt l Hl') as (c1 & H1 & ?). simplify_eq. lia.
Qed.

(** Releasing a redemption of the table: one row less, one use less. *)
Lemma release_one_eq r s :
  CouponInv s -> redemptions s !! rd_id r = Some r ->
  release_one r s =
    (Ok tt, {| coupons := alter unbump (rd_coupon_id r) (coupons s);
               redemptions := delete (rd_id r) (redemptions s) |}).
Proof.
  intros [Hk _ _ _ _ Hl _] Hr. unfold release_one, modify. do 2 f_equal.
  apply update_where_key; [done| |].
  - intros v Hv. bool_to_prop. by apply N.eqb_eq.
  - intros v Hv. rewrite <- (coupon_key _ _ _ Hk Hv), N.eqb_refl.
    rewrite (Hl _ _ Hv). apply Z.ltb_lt. unfold redeemed.
    apply (count_pos _ _ _ _ Hr), N.eqb_refl.
Qed.

Lemma release_one_preserves r s u s' :
  CouponInv s -> redemptions s !! rd_id r = Some r -> release_one r s = (u, s') -> CouponInv s'.
Proof.
  intros Hinv Hr. rewrite (release_one_eq r s Hinv Hr). intros [= <- <-].
  destruct Hinv as [Hk Hrk Hc Hp Href Hl Hlim].
  assert (Hcnt : forall id, count (fun r => (rd_coupon_id r =? id)%N) (delete (rd_id r) (redemptions s)) =
            redeemed id s - bool_Z (rd_coupon_id r =? id)%N).
  { intros id. unfold redeemed. by rewrite (count_delete _ _ r). }
  constructor; simpl.
  - by apply keyed_alter.
  - by apply keyed_remove.
  - by apply unique_alter.
  - by apply unique_remove.
  - intros k q [_ Hq]%lookup_delete_Some. rewrite lookup_alter_is_Some. by eapply Href.
  - intros id c' H. unfold redeemed. simpl. rewrite Hcnt.
    apply lookup_alter_cases in H as (c0 & H0 & [[-> ->]|[Hne ->]]); simpl; rewrite (Hl _ _ H0).
    + by rewrite N.eqb_refl.
    + apply not_eq_sym, N.eqb_neq in Hne. rewrite Hne. simpl. lia.
  - intros id c' l H Hl'.
    apply lookup_alter_cases in H as (c0 & H0 & [[-> ->]|[Hne ->]]); simpl in *;
      specialize (Hlim _ _ _ H0 Hl'); lia.
Qed.

Lemma release_loop l s u s' :
  CouponInv s -> NoDup l -> (forall r, r ∈ l -> redemptions s !! rd_id r = Some r) ->
  for_each release_one l s = (u, s') ->
  CouponInv s' /\ u = Ok tt /\
  redemptions s' = foldl (fun t r => delete (rd_id r) t) (redemptions s) l.
Proof.
  revert s. induction l as [|r l IH]; intros s Hinv Hnd Hin; simpl.
  { intros [= <- <-]. done. }
  apply NoDup_cons in Hnd as [Hr Hnd].
  assert (Hr0 : redemptions s !! rd_id r = Some r) by (apply Hin; constructor).
  erewrite bind_ok by (by apply release_one_eq). intros H.
  apply IH in H as (H1 & H2 & H3); [done| |done|].
  - eapply release_one_preserves, release_one_eq; done.
  - intros q Hq. simpl. rewrite lookup_delete_ne; [apply Hin; by constructor|].
    intros E. apply Hr. assert (Hq0 : redemptions s !! rd_id q = Some q) by (apply Hin; by constructor).
    rewrite <- E, Hr0 in Hq0. by simplify_eq.
Qed.

Lemma release_preserves oid s u s' :
  CouponInv s -> release oid s = (u, s') ->
  CouponInv s' /\ u = Ok tt /\
  redemptions s' = foldl (fun t r => delete (rd_id r) t) (redemptions s)
                     (select (fun r => (rd_order_id r =? oid)%N) (redemptions s)).
Proof.
  intros Hinv H. unfold release in H. cbv [get mbind M_bind] in H.
  eapply release_loop in H; [done|done| |].
  - apply NoDup_select, Hinv.
  - intros r Hr. apply elem_of_select_keyed in Hr as [Hr _]; [done|apply Hinv].
Qed.

Lemma create_preserves p s r s' : CouponInv s -> create p s = (r, s') -> CouponInv s'.
Proof.
  intros Hinv H. unfold create in H.
  apply bind_inv in H as [(o & s1 & Hf & H)|(e & Hf & _)];
    pose proof (find_unchanged _ _ _ _ Hf) as ->; [|done].
  destruct o as [c|]; [by injection H as _ <-|].
  cbv [get mbind M_bind of_result modify mret M_ret] in H.
  unfold raise_when in H. case_if_hyp H; [by injection H as _ <-|]. simpl in H.
  destruct (insert_unique code_col _ (coupons s)) as [t|e] eqn:Ei; [|by injection H as _ <-].
  injection H as _ <-. destruct Hinv as [Hk Hrk Hc Hp Href Hl Hlim].
  destruct (insert_unique_preserves code_col _ _ _ Hk Hc Ei) as [Hk' Hc'].
  apply insert_unique_ok in Ei as ->.
  constructor; simpl; try done.
  - intros k q Hq. rewrite lookup_save. case_decide; [done|]. by eapply Href.
  - intros id c. unfold redeemed. simpl. rewrite lookup_save. case_decide as E; [|apply Hl].
    intros [= <-]. simpl. symmetry. rewrite <- E. apply count_zero. intros k q Hq.
    apply N.eqb_neq. intros Heq. destruct (Href _ _ Hq) as [c0 Hc0].
    rewrite Heq in Hc0. cbn in Hc0. by rewrite fresh_id_None in Hc0.
  - intros id c l. rewrite lookup_save. case_decide; [|apply Hlim].
    intros [= <-]. simpl. intros Hlm. unfold coupon_checks in Heqb. simpl in Heqb.
    rewrite Hlm in Heqb. zbool.
Qed.

Lemma deactivate_preserves c s r s' : CouponInv s -> deactivate c s = (r, s') -> CouponInv s'.
Proof.
  intros [Hk Hrk Hc Hp Href Hl Hlim] H.
  assert (Hs : s' = set_coupons (update_where (fun c0 => (cp_id c0 =? cp_id c)%N)
                                   set_inactive (coupons s)).1 s) by (by injection H as _ <-).
  clear H. subst s'.
  set (t := (update_where (fun c0 => (cp_id c0 =? cp_id c)%N) set_inactive (coupons s)).1).
  assert (Ht : forall k c', t !! k = Some c' -> exists c0, coupons s !! k = Some c0 /\
            cp_usage_count c' = cp_usage_count c0 /\ cp_usage_limit c' = cp_usage_limit c0).
  { intros k c'. unfold t. rewrite lookup_update_where.
    intros (c0 & H0 & ->)%fmap_Some_1. exists c0. case_match; done. }
  constructor; simpl; try done.
  - by apply keyed_update.
  - by apply unique_update.
  - intros k q Hq. unfold t. rewrite lookup_update_where, fmap_is_Some. by eapply Href.
  - intros id c' (c0 & H0 & -> & _)%Ht. by apply Hl.
  - intros id c' l (c0 & H0 & -> & ->)%Ht. by eapply Hlim.
Qed.

(** The steps transactions take on the coupon tables, in any interleaving. *)
Inductive coupon_step : CouponStore -> CouponStore -> Prop :=
  | step_redeem c oid uid d r s s' :
      limit_current c s -> redeem c oid uid d s = (Ok r, s') -> coupon_step s s'
  | step_release oid u s s' : release oid s = (u, s') -> coupon_step s s'
  | step_create p r s s' : create p s = (r, s') -> coupon_step s s'
  | step_deactivate c u s s' : deactivate c s = (u, s') -> coupon_step s s'.

Lemma coupon_step_preserves s s' : CouponInv s -> coupon_step s s' -> CouponInv s'.
Proof.
  intros Hinv Hstep. destruct Hstep.
  - eapply redeem_preserves; eauto.
  - eapply release_preserves; eauto.
  - eapply create_preserves; eauto.
  - eapply deactivate_preserves; eauto.
Qed.

Lemma coupon_reachable_inv s s' : CouponInv s -> rtc coupon_step s s' -> CouponInv s'.
Proof. intros Hinv H. induction H; eauto using coupon_step_preserves. Qed.

Lemma empty_coupon_inv : CouponInv (mkCouponStore ∅ ∅).
Proof. constructor; simpl; auto with store; intros *; by rewrite lookup_empty. Qed.

Lemma set_coupons_self s : set_coupons (coupons s) s = s.
Proof. by destruct s. Qed.

Lemma unbump_bump c : unbump (bump c) = c.
Proof.
  destruct c; unfold unbump, bump, with_usage_count; simpl. f_equal. lia.
Qed.

Lemma evaluate_complete now k user_id lines books currency s c d :
  k <> "" -> find k s = (Ok (Some c), s) -> accepted now user_id lines books currency s c d ->
  evaluate now (Some k) user_id lines books currency s = (Ok (mkEvaluation true d (Some c) None), s).
Proof.
  intros Hk Hf [Ha Hfr Hu Hcu Hl Hpu Hm Hd Hp].
  unfold evaluate. destruct k as [|a k]; [done|]. rewrite (bind_ok _ _ _ _ _ Hf). rewrite Ha. simpl.
  assert (Hb1 : match cp_valid_from c with Some t => now <? t | None => false end = false).
  { destruct (cp_valid_from c) eqn:E; [|done]. specialize (Hfr _ eq_refl). lia. }
  assert (Hb2 : match cp_valid_until c with Some t => t <? now | None => false end = false).
  { destruct (cp_valid_until c) eqn:E; [|done]. specialize (Hu _ eq_refl). lia. }
  assert (Hb3 : match cp_currency c with
     | Some k => truthy (Some k) && negb (String.eqb (upper k) (upper currency)) | None => false end = false).
  { destruct (cp_currency c) as [x|] eqn:E; [|done]. simpl. destruct (String.eqb_spec x ""); [done|].
    rewrite (Hcu x eq_refl n), String.eqb_refl. done. }
  assert (Hb4 : match cp_usage_limit c with Some l => l <=? cp_usage_count c | None => false end = false).
  { destruct (cp_usage_limit c) eqn:E; [|done]. specialize (Hl _ eq_refl). lia. }
  assert (Hb5 : match user_id with
     | Some u => negb (cp_per_user_limit c =? 0) && (cp_per_user_limit c <=? user_redemptions (cp_id c) u s)
     | None => false end = false).
  { destruct user_id as [u|]; [|done]. apply andb_false_iff.
    destruct (Z.eqb_spec (cp_per_user_limit c) 0); [by left|right]. specialize (Hpu u eq_refl n). lia. }
  cbv [truthy] in *. rewrite Hb1, Hb2, Hb3, Hb4. cbv [get mbind M_bind]. rewrite Hb5.
  rewrite <- Hd.
  destruct (Z.ltb_spec (lines_total lines) (cp_min_order_minor c)); [lia|].
  destruct (Z.leb_spec (eligible_subtotal c lines books) 0); [lia|].
  destruct (Z.leb_spec d 0); [lia|done].
Qed.

(** Under the unique constraint, evaluation returns, and a valid answer is
    bounded by the cart. *)
Lemma evaluate_returns now k user_id lines books currency s :
  CouponInv s -> lines_nonneg lines -> k <> "" ->
  exists ev, evaluate now (Some k) user_id lines books currency s = (Ok ev, s) /\
    (ev_valid ev = true -> 0 < ev_discount_minor ev <= lines_total lines) /\
    (ev_valid ev = false -> ev_discount_minor ev = 0).
Proof.
  intros Hinv Hlines Hk.
  destruct (find_returns k s (ci_keyed s Hinv) (ci_code s Hinv)) as [o Hf].
  destruct (evaluate now (Some k) user_id lines books currency s) as [r s'] eqn:E.
  pose proof (evaluate_unchanged _ _ _ _ _ _ _ _ _ E) as ->.
  assert (exists ev, r = Ok ev /\ (ev_valid ev = false -> ev_discount_minor ev = 0)) as (ev & -> & H0).
  { unfold evaluate in E. destruct k as [|a k]; [done|]. rewrite (bind_ok _ _ _ _ _ Hf) in E.
    destruct o as [c|]; [|by injection E as <-; eexists; split].
    cbv [get mbind M_bind mret M_ret] in E. repeat case_match; injection E as <-; by eexists; split. }
  exists ev. split; [done|]. split; [|done]. intros Hv.
  destruct (evaluate_valid_inv _ _ _ _ _ _ _ _ _ E Hv) as (k' & c & _ & _ & _ & _ & Hacc).
  pose proof (acc_positive _ _ _ _ _ _ _ _ Hacc).
  pose proof (eligible_subtotal_bounds c lines books Hlines). lia.
Qed.

(** ** Properties *)

(** Coupon evaluation never raises and never writes, and it accepts a code
    exactly when the coupon exists under the normalised code, is active,
    inside its validity window, in the payment currency, below its total and
    per-user limits, over its minimum order, and gives a positive discount;
    the discount is then the one computed on the eligible subtotal only, and
    never more than that subtotal nor than the cart.  A refusal carries no
    discount. *)
Theorem evaluate_accepts_iff now k user_id lines books currency s
    (Hinv : CouponInv s) (Hlines : lines_nonneg lines) (Hk : k <> "") :
  exists ev, evaluate now (Some k) user_id lines books currency s = (Ok ev, s) /\
    (ev_valid ev = true <->
       exists c d, coupons s !! cp_id c = Some c /\ cp_code c = normalise_code k /\
                   accepted now user_id lines books currency s c d) /\
    (ev_valid ev = true -> 0 < ev_discount_minor ev <= lines_total lines) /\
    (ev_valid ev = false -> ev_discount_minor ev = 0).
Proof.
  destruct (evaluate_returns now k user_id lines books currency s Hinv Hlines Hk) as (ev & E & Hpos & H0).
  destruct (find_returns k s (ci_keyed s Hinv) (ci_code s Hinv)) as [o Hf].
  exists ev. split; [done|]. split; [|done]. split.
  - intros Hv. destruct (evaluate_valid_inv _ _ _ _ _ _ _ _ _ E Hv) as (k' & c & [= <-] & Hfc & _ & _ & Hacc).
    destruct (find_found _ _ _ _ (ci_keyed s Hinv) Hfc). eauto.
  - intros (c & d & Hc & Hcode & Hacc).
    assert (o = Some c) as ->.
    { destruct o as [c'|].
      - destruct (find_found _ _ _ _ (ci_keyed s Hinv) Hf) as [Hc' Hcode']. f_equal.
        assert (cp_id c' = cp_id c) as Eid.
        { eapply (ci_code s Hinv); [exact Hc'|exact Hc| |reflexivity]. unfold code_col. congruence. }
        congruence.
      - unfold find in Hf. cbv [get mbind M_bind of_result] in Hf. injection Hf as Hf%one_or_none_None.
        assert (Hin : c ∈ @nil Coupon); [|set_solver]. rewrite <- Hf.
        apply elem_of_select. split; [eauto|]. by apply String.eqb_eq. }
    rewrite (evaluate_complete _ _ _ _ _ _ _ _ _ Hk Hf Hacc) in E. by injection E as <-.
Qed.


(** A coupon at its limit cannot be redeemed: the conditional UPDATE
    matches no row, the redemption raises a conflict with code
    coupon_exhausted, and the store is exactly as it was. *)
Theorem redeem_exhausted c oid uid d s l
    (Hinv : CouponInv s) (Hl : cp_usage_limit c = Some l) (Hfull : l <= redeemed (cp_id c) s) :
  redeem c oid uid d s = (Raise (AppErr ConflictError "coupon_exhausted"), s).
Proof.
  unfold redeem. rewrite Hl. cbv [get mbind M_bind]. fold bump.
  set (P := fun c' => (cp_id c' =? cp_id c)%N && (cp_usage_count c' <? l)).
  assert (HP : forall k v, coupons s !! k = Some v -> P v = false).
  { intros k v Hv. unfold P. apply andb_false_iff.
    destruct (N.eqb_spec (cp_id v) (cp_id c)) as [E|]; [right|by left].
    rewrite (ci_ledger s Hinv k v Hv), <- (coupon_key _ _ _ (ci_keyed s Hinv) Hv), E. lia. }
  destruct (update_where P bump (coupons s)) as [t n] eqn:Eu.
  assert (t = coupons s) as -> by (rewrite <- (update_where_none P bump _ HP); by rewrite Eu).
  assert (n = 0) as -> by (rewrite <- (count_zero (coupons s) P HP); unfold update_where in Eu; congruence).
  unfold modify. rewrite set_coupons_self. done.
Qed.

Lemma release_nothing oid s u s' :
  (forall k q, redemptions s !! k = Some q -> rd_order_id q <> oid) -> release oid s = (u, s') -> s' = s.
Proof.
  intros Hnew. unfold release. cbv [get mbind M_bind].
  rewrite select_nil; [by intros [= _ <-]|]. intros k q Hq. by apply N.eqb_neq, (Hnew k q).
Qed.

Lemma release_undoes_redeem c oid uid d s r s1
    (Hinv : CouponInv s) (Hcur : limit_current c s)
    (Hnew : forall k q, redemptions s !! k = Some q -> rd_order_id q <> oid)
    (Hred : redeem c oid uid d s = (Ok r, s1)) :
  release oid s1 = (Ok tt, s).
Proof.
  pose proof (redeem_preserves _ _ _ _ _ _ _ Hinv Hcur Hred) as Hinv1.
  apply redeem_ok_inv in Hred as (Hcs & _ & Hr & _ & Hrs%insert_unique_ok); [|apply Hinv].
  assert (Hr1 : redemptions s1 !! rd_id r = Some r) by (rewrite Hrs; apply lookup_save_same).
  assert (Hsel : select (fun r => (rd_order_id r =? oid)%N) (redemptions s1) = [r]).
  { apply (select_singleton _ _ _ (rd_id r)); [apply Hinv1|done|by rewrite Hr; apply N.eqb_refl|].
    intros k q. rewrite Hrs, lookup_save. case_decide as E; [by intros [= <-]|].
    intros Hq Hp%N.eqb_eq. exfalso. by apply (Hnew k q Hq). }
  unfold release. cbv [get mbind M_bind]. rewrite Hsel. simpl.
  rewrite (bind_ok _ _ _ _ _ (release_one_eq r s1 Hinv1 Hr1)).
  unfold mret, M_ret. do 2 f_equal. destruct s as [cs rs]; simpl in *. f_equal.
  - rewrite Hcs, Hr. simpl. apply map_eq. intros i.
    destruct (decide (i = cp_id c)) as [->|]; [|by rewrite !lookup_alter_ne].
    rewrite !lookup_alter_eq. destruct (cs !! cp_id c) as [c0|]; [|done].
    change (Some (unbump (bump c0)) = Some c0). by rewrite unbump_bump.
  - rewrite Hrs. unfold save. rewrite delete_insert_id; [done|]. rewrite Hr. simpl. apply fresh_id_None.
Qed.

(** Releasing an order's coupon undoes its redemption.  For an order with
    no earlier redemption, redeeming and then releasing gives back exactly the
    store there was: an abandoned checkout consumes nothing. *)
Theorem redeem_release_roundtrip c oid uid d s r s1
    (Hinv : CouponInv s) (Hcur : limit_current c s)
    (Hnew : forall k q, redemptions s !! k = Some q -> rd_order_id q <> oid)
    (Hred : redeem c oid uid d s = (Ok r, s1)) :
  release oid s1 = (Ok tt, s).
Proof. by eapply release_undoes_redeem. Qed.

(** ** The properties on a concrete coupon *)

Definition sample_coupon : CouponCreate :=
  {| cc_code := "WELCOME"; cc_description := None; cc_coupon_type := FIXED; cc_value := 9900;
     cc_max_discount_minor := None; cc_min_order_minor := 0; cc_currency := None;
     cc_usage_limit := Some 1; cc_per_user_limit := 1; cc_valid_from := None; cc_valid_until := None;
     cc_is_active := true; cc_applicable_book_ids := []; cc_applicable_category_ids := [] |}.

Definition sample_store : CouponStore := (create sample_coupon (mkCouponStore ∅ ∅)).2.
Definition the_coupon : Coupon :=
  {| cp_id := 1; cp_code := "WELCOME"; cp_description := None; cp_coupon_type := FIXED;
     cp_value := 9900; cp_max_discount_minor := None; cp_min_order_minor := 0; cp_currency := None;
     cp_usage_limit := Some 1; cp_usage_count := 0; cp_per_user_limit := 1; cp_valid_from := None;
     cp_valid_until := None; cp_is_active := true; cp_applicable_book_ids := [];
     cp_applicable_category_ids := [] |}.
Definition redeemed_store : CouponStore := (redeem the_coupon 5 7 9900 sample_store).2.

Lemma sample_store_steps : rtc coupon_step (mkCouponStore ∅ ∅) sample_store.
Proof.
  apply rtc_once, (step_create sample_coupon (create sample_coupon (mkCouponStore ∅ ∅)).1).
  apply surjective_pairing.
Qed.

Lemma sample_store_inv : CouponInv sample_store.
Proof. apply (coupon_reachable_inv _ _ empty_coupon_inv sample_store_steps). Qed.

Lemma the_coupon_current : limit_current the_coupon sample_store.
Proof. intros c H. vm_compute in H. by injection H as <-. Qed.

Lemma redeemed_ok : exists r, redeem the_coupon 5 7 9900 sample_store = (Ok r, redeemed_store).
Proof. eexists. vm_compute. reflexivity. Qed.

Lemma evaluate_accepts_iff_witness :
  exists ev, evaluate 0 (Some " welcome ") (Some 7%N) {[ 11%N := 49900 ]} ∅ "INR" sample_store
               = (Ok ev, sample_store) /\
    (ev_valid ev = true -> 0 < ev_discount_minor ev <= 49900) /\
    ev_valid ev = true /\ ev_discount_minor ev = 9900.
Proof.
  destruct (evaluate_accepts_iff 0 " welcome " (Some 7%N) {[ 11%N := 49900 ]} ∅ "INR" sample_store
              sample_store_inv) as (ev & E & _ & H & _).
  - by apply map_Forall_singleton.
  - discriminate.
  - exists ev. split; [exact E|]. split; [exact H|].
    assert (E' : evaluate 0 (Some " welcome ") (Some 7%N) {[ 11%N := 49900 ]} ∅ "INR" sample_store =
                 (Ok (mkEvaluation true 9900 (Some the_coupon) None), sample_store))
      by (vm_compute; reflexivity).
    rewrite E' in E. injection E as <-. split; reflexivity.
Defined.


Lemma redeem_exhausted_witness :
  redeem the_coupon 6 8 9900 redeemed_store = (Raise (AppErr ConflictError "coupon_exhausted"), redeemed_store).
Proof.
  assert (Hi : CouponInv redeemed_store).
  { destruct redeemed_ok as [r Hr]. eapply redeem_preserves; [exact sample_store_inv|exact the_coupon_current|exact Hr]. }
  apply (redeem_exhausted the_coupon 6 8 9900 redeemed_store 1 Hi).
  - reflexivity.
  - vm_compute. discriminate.
Defined.

Lemma redeem_release_roundtrip_witness : release 5 redeemed_store = (Ok tt, sample_store).
Proof.
  destruct redeemed_ok as [r Hr].
  apply (redeem_release_roundtrip the_coupon 5 7 9900 sample_store r redeemed_store);
    [exact sample_store_inv|exact the_coupon_current| |exact Hr].
  intros k q H. exfalso. change (redemptions sample_store) with (∅ : table CouponRedemption) in H.
  by rewrite lookup_empty in H.
Defined.
