(* ===== verification/PaymentModels.v ===== *)
(** * Rows and settings of the payment service

    The enums of packages/core-py/knowledgeos_core/schemas.py and
    apps/payment/schemas.py, the rows of apps/payment/models.py and the
    settings of apps/payment/settings.py.  The columns an order never changes
    after its creation are grouped in [OrderCols]; [Order] holds the key and
    the columns the lifecycle writes. *)

From S2P Require Import Prelude Store Json.

Inductive OrderStatus :=
  | PENDING | AWAITING_PAYMENT | PAID | FAILED | CANCELLED | REFUNDED | PARTIALLY_REFUNDED.
Inductive PaymentProvider := RAZORPAY | STRIPE | MANUAL.

Module PaymentStatus.
Inductive t := PENDING | AUTHORIZED | CAPTURED | FAILED | REFUNDED | PARTIALLY_REFUNDED | DISPUTED.
End PaymentStatus.
Module RefundStatus.
Inductive t := PENDING | PROCESSING | SUCCEEDED | FAILED.
End RefundStatus.
Module SubscriptionStatus.
Inductive t := PENDING | TRIALING | ACTIVE | PAST_DUE | CANCELLED | EXPIRED.
End SubscriptionStatus.
Module AffiliateConversionStatus.
Inductive t := PENDING | APPROVED | PAID | REVERSED.
End AffiliateConversionStatus.

#[export] Instance OrderStatus_eq_dec : EqDecision OrderStatus.
Proof. solve_decision. Defined.
#[export] Instance PaymentProvider_eq_dec : EqDecision PaymentProvider.
Proof. solve_decision. Defined.
#[export] Instance PaymentStatus_eq_dec : EqDecision PaymentStatus.t.
Proof. solve_decision. Defined.
#[export] Instance RefundStatus_eq_dec : EqDecision RefundStatus.t.
Proof. solve_decision. Defined.
#[export] Instance SubscriptionStatus_eq_dec : EqDecision SubscriptionStatus.t.
Proof. solve_decision. Defined.
#[export] Instance AffiliateConversionStatus_eq_dec : EqDecision AffiliateConversionStatus.t.
Proof. solve_decision. Defined.

Definition provider_value (p : PaymentProvider) : string :=
  match p with RAZORPAY => "razorpay" | STRIPE => "stripe" | MANUAL => "manual" end.

#[export, refine] Instance PaymentProvider_enum : StrEnum PaymentProvider :=
  {| members := [RAZORPAY; STRIPE; MANUAL]; enum_value := provider_value |}.
Proof. all: solve_str_enum. Defined.

(** ** Settings *)
Record Settings := mkSettings {
  default_currency : string;
  gst_percent : Z;
  seller_state_code : string;
  prices_include_tax : bool;
  invoice_prefix : string;
  seller_legal_name : string;
  seller_gstin : option string;
  razorpay_key_id : option string;
  razorpay_key_secret : option string;
  razorpay_webhook_secret : option string;
  stripe_secret_key : option string;
  stripe_publishable_key : option string;
  stripe_webhook_secret : option string;
  stripe_signature_tolerance : Z;
  order_ttl_seconds : Z;
  max_order_items : Z;
  affiliate_commission_bps : Z;
  affiliate_hold_days : Z;
  allowed_return_origins : list string;
  max_webhook_body_bytes : Z;
  frontend_url : string;
}.

Definition razorpay_enabled (s : Settings) : bool :=
  truthy (razorpay_key_id s) && truthy (razorpay_key_secret s).
Definition stripe_enabled (s : Settings) : bool := truthy (stripe_secret_key s).
Definition enabled_providers (s : Settings) : list PaymentProvider :=
  (if razorpay_enabled s then [RAZORPAY] else []) ++ (if stripe_enabled s then [STRIPE] else []).
(** First configured gateway. *)
Definition default_provider (s : Settings) : option PaymentProvider := head (enabled_providers s).

(** The defaults of the class, as used by the witnesses. *)
Definition default_settings : Settings :=
  {| default_currency := "INR"; gst_percent := 18; seller_state_code := "GJ"; prices_include_tax := true;
     invoice_prefix := "KOS"; seller_legal_name := "KnowledgeOS"; seller_gstin := None;
     razorpay_key_id := None; razorpay_key_secret := None; razorpay_webhook_secret := None;
     stripe_secret_key := None; stripe_publishable_key := None; stripe_webhook_secret := None; stripe_signature_tolerance := 300;
     order_ttl_seconds := 3600; max_order_items := 50; affiliate_commission_bps := 500;
     affiliate_hold_days := 14;
     allowed_return_origins := ["http://localhost:3000"]; max_webhook_body_bytes := 1048576;
     frontend_url := "http://localhost:3000" |}.

(** ** Orders *)

Record OrderItem := mkOrderItem {
  it_book_id : uuid;
  it_title : string;
  it_slug : string;
  it_quantity : Z;
  it_unit_price_minor : Z;
  it_line_total_minor : Z;
}.

Record OrderCols := mkOrderCols {
  oc_user_id : uuid;
  oc_order_number : string;
  oc_subtotal_minor : Z;
  oc_discount_minor : Z;
  oc_tax_minor : Z;
  oc_total_minor : Z;
  oc_currency : string;
  oc_cgst_minor : Z;
  oc_sgst_minor : Z;
  oc_igst_minor : Z;
  oc_tax_percent : Z;
  oc_place_of_supply : option string;
  oc_coupon_id : option uuid;
  oc_coupon_code : option string;
  oc_affiliate_code : option string;
  oc_idempotency_key : option string;
  oc_billing_name : option string;
  oc_billing_email : option string;
  oc_billing_address : list (string * json);
  oc_expires_at : option datetime;
  oc_created_at : datetime;
  oc_items : list OrderItem;
}.

Record Order := mkOrder {
  o_id : uuid;
  o_cols : OrderCols;
  o_status : OrderStatus;
  o_refunded_minor : Z;
  o_provider : option PaymentProvider;
  o_provider_order_id : option string;
  o_checkout_url : option string;
  o_paid_at : option datetime;
  o_cancelled_at : option datetime;
  o_failure_reason : option string;
}.
#[export] Instance Order_row : Row Order := o_id.

Definition o_total_minor (o : Order) : Z := oc_total_minor (o_cols o).
Definition o_user_id (o : Order) : uuid := oc_user_id (o_cols o).
Definition o_items (o : Order) : list OrderItem := oc_items (o_cols o).

Definition is_paid (o : Order) : bool :=
  bool_decide (o_status o = PAID \/ o_status o = PARTIALLY_REFUNDED).
Definition refundable_minor (o : Order) : Z := Z.max 0 (o_total_minor o - o_refunded_minor o).

(** The check constraints of [orders]. *)
Definition order_checks (o : Order) : bool :=
  (0 <=? oc_subtotal_minor (o_cols o)) && (0 <=? oc_discount_minor (o_cols o)) &&
  (0 <=? oc_tax_minor (o_cols o)) && (0 <=? o_total_minor o) &&
  (0 <=? o_refunded_minor o) && (o_refunded_minor o <=? o_total_minor o).
Definition item_checks (i : OrderItem) : bool :=
  (0 <? it_quantity i) && (0 <=? it_unit_price_minor i).

(** ** Payments and refunds *)

Record Payment := mkPayment {
  p_id : uuid;
  p_order_id : uuid;
  p_user_id : uuid;
  p_provider : PaymentProvider;
  p_provider_payment_id : string;
  p_status : PaymentStatus.t;
  p_amount_minor : Z;
  p_currency : string;
  p_method : option string;
  p_raw_payload : json;
  p_failure_code : option string;
  p_failure_message : option string;
  p_captured_at : option datetime;
  p_created_at : datetime;
}.
#[export] Instance Payment_row : Row Payment := p_id.

(** UNIQUE (provider, provider_payment_id) *)
Definition payment_col (p : Payment) : option (PaymentProvider * string) :=
  Some (p_provider p, p_provider_payment_id p).

Record Refund := mkRefund {
  rf_id : uuid;
  rf_order_id : uuid;
  rf_payment_id : option uuid;
  rf_provider : PaymentProvider;
  rf_provider_refund_id : option string;
  rf_amount_minor : Z;
  rf_currency : string;
  rf_status : RefundStatus.t;
  rf_reason : option string;
  rf_actor_id : option uuid;
  rf_processed_at : option datetime;
  rf_raw_payload : json;
  rf_created_at : datetime;
}.
#[export] Instance Refund_row : Row Refund := rf_id.

(** UNIQUE (provider, provider_refund_id), null ids exempt *)
Definition refund_col (r : Refund) : option (PaymentProvider * string) :=
  id ← rf_provider_refund_id r; Some (rf_provider r, id).

(** ** Affiliates *)

Record AffiliateAccount := mkAccount {
  aa_id : uuid;
  aa_user_id : uuid;
  aa_code : string;
  aa_commission_bps : Z;
  aa_is_active : bool;
  aa_total_earned_minor : Z;
  aa_total_paid_minor : Z;
}.
#[export] Instance AffiliateAccount_row : Row AffiliateAccount := aa_id.

Record AffiliateConversion := mkConversion {
  ac_id : uuid;
  ac_account_id : uuid;
  ac_order_id : uuid;
  ac_order_total_minor : Z;
  ac_commission_minor : Z;
  ac_currency : string;
  ac_status : AffiliateConversionStatus.t;
  ac_reversed_at : option datetime;
  ac_created_at : datetime;
}.
#[export] Instance AffiliateConversion_row : Row AffiliateConversion := ac_id.
Definition conversion_col (c : AffiliateConversion) : option uuid := Some (ac_order_id c).
Definition account_code_col (a : AffiliateAccount) : option string := Some (aa_code a).
Definition account_user_col (a : AffiliateAccount) : option uuid := Some (aa_user_id a).

(** ** Invoices *)

Record Invoice := mkInvoice {
  iv_id : uuid;
  iv_order_id : uuid;
  iv_user_id : uuid;
  iv_invoice_number : string;
  iv_subtotal_minor : Z;
  iv_discount_minor : Z;
  iv_tax_minor : Z;
  iv_total_minor : Z;
  iv_currency : string;
  iv_cgst_minor : Z;
  iv_sgst_minor : Z;
  iv_igst_minor : Z;
  iv_tax_percent : Z;
  iv_place_of_supply : option string;
  iv_billing_snapshot : list (string * json);
  iv_line_items : list (string * Z * Z * Z);
  iv_issued_at : datetime;
}.
#[export] Instance Invoice_row : Row Invoice := iv_id.
Definition invoice_number_col (i : Invoice) : option string := Some (iv_invoice_number i).

(** ** Subscriptions *)

Record SubscriptionPlan := mkPlan {
  pl_id : uuid;
  pl_code : string;
  pl_name : string;
  pl_description : option string;
  pl_price_minor : Z;
  pl_currency : string;
  pl_interval : string;
  pl_trial_days : Z;
  pl_is_active : bool;
  pl_provider_plan_ids : list (string * string);
}.
#[export] Instance SubscriptionPlan_row : Row SubscriptionPlan := pl_id.
Definition plan_col (p : SubscriptionPlan) : option string := Some (pl_code p).

Record Subscription := mkSubscription {
  su_id : uuid;
  su_user_id : uuid;
  su_plan_id : uuid;
  su_provider : PaymentProvider;
  su_provider_subscription_id : option string;
  su_status : SubscriptionStatus.t;
  su_current_period_start : option datetime;
  su_current_period_end : option datetime;
  su_cancel_at_period_end : bool;
  su_cancelled_at : option datetime;
  su_trial_ends_at : option datetime;
  su_created_at : datetime;
}.
#[export] Instance Subscription_row : Row Subscription := su_id.
(** UNIQUE (provider, provider_subscription_id), null ids exempt *)
Definition subscription_col (s : Subscription) : option (PaymentProvider * string) :=
  id ← su_provider_subscription_id s; Some (su_provider s, id).

(** ** Webhook deliveries *)

Record WebhookEvent := mkWebhookEvent {
  we_id : uuid;
  we_provider : PaymentProvider;
  we_event_id : string;
  we_event_type : string;
  we_signature_valid : bool;
  we_processed : bool;
  we_processed_at : option datetime;
  we_error : option exn;
  we_payload : json;
  we_created_at : datetime;
}.
#[export] Instance WebhookEvent_row : Row WebhookEvent := we_id.
(** UNIQUE (provider, event_id) *)
Definition webhook_col (w : WebhookEvent) : option (PaymentProvider * string) :=
  Some (we_provider w, we_event_id w).
