(* ===== verification/Pricing.v ===== *)
(** * Pricing a cart (apps/payment/services/pricing.py)

    Composes the catalogue, the coupon tables and the tax computation into a
    priced cart, and proves the module's invariant. *)

From S2P Require Import Prelude Store Json Tax Catalogue Coupons PaymentModels.

Record OrderItemIn := mkItemIn { oi_book_id : uuid; oi_quantity : Z }.

Record BillingAddress := mkBilling {
  ba_line1 : option string;
  ba_line2 : option string;
  ba_city : option string;
  ba_state : option string;
  ba_state_code : option string;
  ba_postal_code : option string;
  ba_country : string;
  ba_gstin : option string;
}.

Definition json_opt (o : option string) : json := match o with Some s => JStr s | None => JNull end.

(** [billing.model_dump(mode="json")] *)
Definition billing_dump (b : BillingAddress) : list (string * json) :=
  [("line1", json_opt (ba_line1 b)); ("line2", json_opt (ba_line2 b)); ("city", json_opt (ba_city b));
   ("state", json_opt (ba_state b)); ("state_code", json_opt (ba_state_code b));
   ("postal_code", json_opt (ba_postal_code b)); ("country", JStr (ba_country b));
   ("gstin", json_opt (ba_gstin b))].

Record QuoteLine := mkQuoteLine {
  ql_book_id : uuid;
  ql_title : string;
  ql_slug : string;
  ql_quantity : Z;
  ql_unit_price_minor : Z;
  ql_line_total_minor : Z;
  ql_already_owned : bool;
}.

Record PricedCart := mkCart {
  pc_lines : list QuoteLine;
  pc_subtotal_minor : Z;
  pc_discount_minor : Z;
  pc_taxable_minor : Z;
  pc_tax : TaxResult;
  pc_total_minor : Z;
  pc_currency : string;
  pc_tax_inclusive : bool;
  pc_coupon_id : option uuid;
  pc_coupon_code : option string;
  pc_coupon_message : option reason;
  pc_coupon_applied : bool;
  pc_books : gmap N CatalogueBook;
}.

Definition assert_consistent (c : PricedCart) : result unit :=
  let expected := pc_subtotal_minor c - pc_discount_minor c +
                  (if pc_tax_inclusive c then 0 else total_minor (pc_tax c)) in
  if negb (expected =? pc_total_minor c) then Raise RuntimeErr
  else if negb (pc_taxable_minor c + total_minor (pc_tax c) =? pc_total_minor c) then Raise RuntimeErr
  else Ok tt.

(** [QuoteRequest._no_duplicate_books], [OrderCreate._no_duplicate_books] *)
Definition no_duplicate_books (items : list OrderItemIn) : bool :=
  Nat.eqb (length (fromkeys (map oi_book_id items))) (length items).

(** The line loop: the quote lines, in order, and the dict of line totals,
    keyed by book (a later line for the same book overwrites). *)
Fixpoint price_lines (books : gmap N CatalogueBook) (owned : gset N) (items : list OrderItemIn)
    (lines : list QuoteLine) (totals : gmap N Z) : result (list QuoteLine * gmap N Z) :=
  match items with
  | [] => Ok (lines, totals)
  | item :: items' =>
      match books !! oi_book_id item with
      | None => Raise KeyErr
      | Some book =>
          let line_total := b_price_minor book * oi_quantity item in
          price_lines books owned items'
            (lines ++ [{| ql_book_id := b_id book; ql_title := b_title book; ql_slug := b_slug book;
                          ql_quantity := oi_quantity item; ql_unit_price_minor := b_price_minor book;
                          ql_line_total_minor := line_total;
                          ql_already_owned := bool_decide (b_id book ∈ owned) |}])
            (<[b_id book := line_total]> totals)
      end
  end.

Section quote.
Context (settings : Settings) (now : datetime).
Context (redis read_ok write_ok : bool).
Context (services : option (list uuid -> result json)).
Context (entitlements_check : option (uuid -> list uuid -> result json)).

(** From the line totals and the coupon's answer to the cart. *)
Definition finish_cart (lines : list QuoteLine) (subtotal : Z) (ev : option CouponEvaluation)
    (coupon_code : option string) (billing : option BillingAddress) (currency : string)
    (books : gmap N CatalogueBook) : PricedCart :=
  let '(discount, coupon_id, applied, message) :=
    match ev with
    | None => (0, None, false, None)
    | Some e =>
        match ev_valid e, ev_coupon e with
        | true, Some c => (ev_discount_minor e, Some (cp_id c), true, None)
        | _, _ => (0, None, false, ev_reason e)
        end
    end in
  let payable := Z.max 0 (subtotal - discount) in
  let tax := compute_tax payable (gst_percent settings) (seller_state_code settings)
               (b ← billing; ba_state_code b)
               (match billing with Some b => ba_country b | None => "IN" end)
               (prices_include_tax settings) in
  let '(total, taxable) :=
    if prices_include_tax settings then (payable, taxable_minor tax)
    else (payable + total_minor tax, payable) in
  {| pc_lines := lines; pc_subtotal_minor := subtotal; pc_discount_minor := discount;
     pc_taxable_minor := taxable; pc_tax := tax; pc_total_minor := total;
     pc_currency := currency; pc_tax_inclusive := prices_include_tax settings;
     pc_coupon_id := coupon_id;
     pc_coupon_code := (if truthy coupon_code then normalise_code <$> coupon_code else None);
     pc_coupon_message := message; pc_coupon_applied := applied; pc_books := books |}.

Definition mismatched (books : gmap N CatalogueBook) (currency : string) : bool :=
  existsb (fun kv => negb (String.eqb (upper (b_currency kv.2)) currency)) (map_to_list books).

(** [PricingService.quote] on the price cache and the coupon tables. *)
Definition quote (items : list OrderItemIn) (user_id : option uuid) (currency : string)
    (coupon_code : option string) (billing : option BillingAddress)
    (exclude_owned purchasable_only : bool) : M (price_cache * CouponStore) PricedCart :=
  _ ← raise_when (bool_decide (items = [])) (app_error BadRequestError "");
  _ ← raise_when (max_order_items settings <? Z.of_nat (length items)) (app_error BadRequestError "");
  let book_ids := map oi_book_id items in
  books ← lift fst (fun c st => (c, st.2))
    (if purchasable_only
     then require_purchasable redis read_ok write_ok services book_ids
     else fetch redis read_ok write_ok services book_ids);
  _ ← raise_when (mismatched books currency) (app_error BadRequestError "currency_mismatch");
  owned ← (match user_id with
           | Some u => if exclude_owned
                       then of_result (owned_book_ids entitlements_check u book_ids)
                       else mret ∅
           | None => mret ∅
           end);
  '(lines, totals) ← of_result (price_lines books owned items [] ∅);
  let subtotal := lines_total totals in
  ev ← (if truthy coupon_code
        then e ← lift snd (fun c st => (st.1, c))
                   (evaluate now coupon_code user_id totals books currency);
             mret (Some e)
        else mret None);
  let cart := finish_cart lines subtotal ev coupon_code billing currency books in
  _ ← of_result (assert_consistent cart);
  mret cart.

(** ** Lemmas *)

Lemma assert_consistent_ok c :
  assert_consistent c = Ok tt <->
  pc_subtotal_minor c - pc_discount_minor c +
    (if pc_tax_inclusive c then 0 else total_minor (pc_tax c)) = pc_total_minor c /\
  pc_taxable_minor c + total_minor (pc_tax c) = pc_total_minor c.
Proof. unfold assert_consistent. repeat case_match; zbool_or; split; try done; lia. Qed.

(** A cart finished with a discount between 0 and the subtotal adds up. *)
Lemma finish_cart_consistent lines subtotal ev code billing currency books :
  0 <= subtotal ->
  (forall e, ev = Some e -> ev_valid e = true -> 0 <= ev_discount_minor e <= subtotal) ->
  let c := finish_cart lines subtotal ev code billing currency books in
  assert_consistent c = Ok tt /\ 0 <= pc_discount_minor c <= subtotal /\
  pc_subtotal_minor c = subtotal /\ pc_lines c = lines /\ pc_currency c = currency /\
  pc_tax_inclusive c = prices_include_tax settings /\
  0 <= total_minor (pc_tax c) /\ 0 <= pc_total_minor c.
Proof.
  intros Hs Hev c.
  assert (Hd : 0 <= pc_discount_minor c <= subtotal).
  { unfold c, finish_cart. destruct ev as [e|].
    - specialize (Hev e eq_refl). destruct (ev_valid e), (ev_coupon e);
        case_match; simpl; try lia; by apply Hev.
    - case_match; simpl; lia. }
  rewrite assert_consistent_ok. unfold c, finish_cart in *.
  destruct (match ev with None => _ | Some _ => _ end) as [[[d i] a] m].
  set (t := compute_tax _ _ _ _ _ _) in *.
  pose proof (compute_tax_nonneg (Z.max 0 (subtotal - d)) (gst_percent settings)
    (seller_state_code settings) (b ← billing; ba_state_code b)
    (match billing with Some b => ba_country b | None => "IN" end) (prices_include_tax settings))
    as Hn. fold t in Hn. cbv zeta in Hn.
  destruct (prices_include_tax settings) eqn:Hi; simpl in *.
  - pose proof (compute_tax_gross (Z.max 0 (subtotal - d)) (gst_percent settings)
      (seller_state_code settings) (b ← billing; ba_state_code b)
      (match billing with Some b => ba_country b | None => "IN" end)) as Hg.
    fold t in Hg. unfold gross_minor in Hg. repeat split; try done; lia.
  - repeat split; try done; lia.
Qed.

(** What the line loop produces: one line per item, priced from the
    catalogue, and non-negative totals. *)
Definition line_of (books : gmap N CatalogueBook) (item : OrderItemIn) (l : QuoteLine) : Prop :=
  exists b, books !! oi_book_id item = Some b /\ ql_book_id l = b_id b /\
    ql_quantity l = oi_quantity item /\ ql_unit_price_minor l = b_price_minor b /\
    ql_line_total_minor l = b_price_minor b * oi_quantity item.

Lemma price_lines_spec books owned items : forall lines totals,
  (forall i, i ∈ items -> is_Some (books !! oi_book_id i)) ->
  exists new totals', price_lines books owned items lines totals = Ok (lines ++ new, totals') /\
    Forall2 (line_of books) items new.
Proof.
  induction items as [|i items IH]; intros lines totals Hin; simpl.
  - exists [], totals. by rewrite app_nil_r.
  - destruct (Hin i) as [b Hb]; [constructor|]. rewrite Hb.
    edestruct IH as (new & totals' & -> & Hnew); [set_solver|].
    eexists (_ :: new), totals'. rewrite <- app_assoc. split; [done|].
    constructor; [|done]. exists b. done.
Qed.

Lemma price_lines_nonneg books owned items : forall lines totals r,
  (forall k b, books !! k = Some b -> 0 <= b_price_minor b) ->
  Forall (fun i => 0 <= oi_quantity i) items -> lines_nonneg totals ->
  price_lines books owned items lines totals = Ok r -> lines_nonneg r.2.
Proof.
  induction items as [|i items IH]; intros lines totals r Hp Hq Ht; simpl.
  - by intros [= <-].
  - apply Forall_cons in Hq as [Hi Hq].
    destruct (books !! oi_book_id i) as [b|] eqn:Hb; [|done].
    apply IH; [done|done|]. apply map_Forall_insert_2; [|done].
    specialize (Hp _ _ Hb). nia.
Qed.

(** With distinct books (each filed under its own id) the dict sums to the lines. *)
Lemma price_lines_sum books owned items : forall lines totals r,
  (forall k b, books !! k = Some b -> b_id b = k) ->
  NoDup (map oi_book_id items) -> (forall i, i ∈ items -> totals !! oi_book_id i = None) ->
  price_lines books owned items lines totals = Ok r ->
  lines_total r.2 = lines_total totals +
    (zsum (map ql_line_total_minor r.1) - zsum (map ql_line_total_minor lines)).
Proof.
  induction items as [|i items IH]; intros lines totals r Hid Hnd Hnone; simpl.
  - intros [= <-]. simpl. lia.
  - apply NoDup_cons in Hnd as [Hi Hnd].
    destruct (books !! oi_book_id i) as [b|] eqn:Hb; [|done]. pose proof (Hid _ _ Hb) as Eb.
    assert (Hn : forall j, j ∈ items ->
              <[b_id b := b_price_minor b * oi_quantity i]> totals !! oi_book_id j = None).
    { intros j Hj. rewrite Eb, lookup_insert_ne; [apply Hnone; by constructor|].
      intros E. apply Hi. rewrite E. by apply list_elem_of_fmap_2. }
    intros H. rewrite (IH _ _ _ Hid Hnd Hn H).
    unfold lines_total. rewrite Eb, (map_to_list_insert totals) by (apply Hnone; constructor).
    simpl. rewrite zsum_cons, map_app, zsum_app. simpl. rewrite zsum_cons, zsum_nil. lia.
Qed.

Definition read_books (purchasable_only : bool) (book_ids : list uuid) :=
  if purchasable_only
  then require_purchasable redis read_ok write_ok services book_ids
  else fetch redis read_ok write_ok services book_ids.

Lemma read_books_complete p ids c books c' :
  read_books p ids c = (Ok books, c') -> forall id, id ∈ ids -> is_Some (books !! id).
Proof.
  unfold read_books. destruct p; intros H.
  - apply require_purchasable_inv in H as [H _]. by eapply fetch_complete.
  - by eapply fetch_complete.
Qed.

Definition read_owned (user_id : option uuid) (exclude_owned : bool) (ids : list uuid)
    : result (gset N) :=
  match user_id with
  | Some u => if exclude_owned then owned_book_ids entitlements_check u ids else Ok ∅
  | None => Ok ∅
  end.

(** The quote after its reads: what is left is pure, but for the coupon. *)
Lemma quote_after_reads items user_id currency coupon_code billing ex po c s books c' owned :
  items <> [] -> Z.of_nat (length items) <= max_order_items settings ->
  read_books po (map oi_book_id items) c = (Ok books, c') ->
  mismatched books currency = false ->
  read_owned user_id ex (map oi_book_id items) = Ok owned ->
  quote items user_id currency coupon_code billing ex po (c, s) =
    ('(lines, totals) ← of_result (price_lines books owned items [] ∅);
     ev ← (if truthy coupon_code
           then e ← lift snd (fun c st => (st.1, c))
                      (evaluate now coupon_code user_id totals books currency);
                mret (Some e)
           else mret None);
     let cart := finish_cart lines (lines_total totals) ev coupon_code billing currency books in
     _ ← of_result (assert_consistent cart);
     mret cart) (c', s).
Proof.
  intros Hne Hlen Hb Hm Ho. unfold quote.
  rewrite bool_decide_eq_false_2 by done.
  assert ((max_order_items settings <? Z.of_nat (length items)) = false) as -> by lia.
  cbv [raise_when]. cbv [mbind M_bind mret M_ret]. fold (read_books po).
  unfold lift at 1. simpl. unfold read_books in Hb. rewrite Hb, Hm. simpl.
  unfold read_owned in Ho. destruct user_id as [u|]; [destruct ex|]; simplify_eq; try done.
  unfold of_result. by rewrite Ho.
Qed.
End quote.

(** ** Properties *)

(** C21: Pricing always adds up, and never trips its own assertion.  Once the
    catalogue answers with non-negative prices in the cart's currency, quoting
    a non-empty cart within the item limit succeeds without writing to the
    coupon tables; there is one line per item, priced at the catalogue's price
    times the quantity; the discount lies between 0 and the subtotal;
    subtotal - discount (+ tax when prices exclude it) = total = taxable + tax;
    and when every book appears once the subtotal is the sum of the lines. *)
Theorem quote_consistent settings now redis read_ok write_ok services owned_call
    items user_id currency coupon_code billing ex po c s books c' owned
    (Hne : items <> []) (Hlen : Z.of_nat (length items) <= max_order_items settings)
    (Hbooks : read_books redis read_ok write_ok services po (map oi_book_id items) c = (Ok books, c'))
    (Hcur : mismatched books currency = false)
    (Howned : read_owned owned_call user_id ex (map oi_book_id items) = Ok owned)
    (Hprice : forall k b, books !! k = Some b -> 0 <= b_price_minor b)
    (Hqty : Forall (fun i => 0 <= oi_quantity i) items)
    (Hinv : CouponInv s) :
  exists cart,
    quote settings now redis read_ok write_ok services owned_call
      items user_id currency coupon_code billing ex po (c, s) = (Ok cart, (c', s)) /\
    Forall2 (line_of books) items (pc_lines cart) /\
    0 <= pc_discount_minor cart <= pc_subtotal_minor cart /\ 0 <= pc_total_minor cart /\
    pc_subtotal_minor cart - pc_discount_minor cart +
      (if prices_include_tax settings then 0 else total_minor (pc_tax cart)) = pc_total_minor cart /\
    pc_taxable_minor cart + total_minor (pc_tax cart) = pc_total_minor cart /\
    ((forall k b, books !! k = Some b -> b_id b = k) -> NoDup (map oi_book_id items) ->
     pc_subtotal_minor cart = zsum (map ql_line_total_minor (pc_lines cart))).
Proof.
  rewrite (quote_after_reads settings now _ _ _ _ _ items user_id currency coupon_code billing
    ex po c s books c' owned Hne Hlen Hbooks Hcur Howned).
  destruct (price_lines_spec books owned items [] ∅) as (lines & totals & Hpl & Hlines).
  { intros i Hi. eapply read_books_complete; [exact Hbooks|]. by apply list_elem_of_fmap_2. }
  cbn [app] in Hpl.
  pose proof (price_lines_nonneg _ _ _ _ _ _ Hprice Hqty (map_Forall_empty _) Hpl) as Hnn. simpl in Hnn.
  assert (Hsum : 0 <= lines_total totals).
  { apply zsum_nonneg, Forall_map, Forall_forall. intros [k v] Hk%elem_of_map_to_list. by apply (Hnn k v). }
  assert (Hev : exists o, (if truthy coupon_code
      then e ← lift snd (fun c st => (st.1, c))
                 (evaluate now coupon_code user_id totals books currency);
           mret (Some e)
      else mret None) (c', s) = (Ok o, (c', s)) /\
      forall e, o = Some e -> ev_valid e = true -> 0 <= ev_discount_minor e <= lines_total totals).
  { destruct (truthy coupon_code) eqn:Ht; [|by exists None].
    destruct coupon_code as [k|]; [|done]. assert (k <> "") by (by intros ->).
    destruct (evaluate_returns now k user_id totals books currency s Hinv Hnn) as (e & He & Hd & _); [done|].
    exists (Some e). cbv [mbind M_bind lift mret M_ret]. simpl. rewrite He. split; [done|].
    intros e' [= <-] Hv. specialize (Hd Hv). lia. }
  destruct Hev as (o & Hrun & Hd).
  destruct (finish_cart_consistent settings lines (lines_total totals) o coupon_code billing
    currency books Hsum Hd) as (Hac & Hdisc & Hsub & Hli & _ & Hinc & _ & Htot).
  eexists. cbv [mbind M_bind of_result] in Hrun |- *. rewrite Hpl. simpl in Hrun |- *. rewrite Hrun.
  rewrite Hac. split; [reflexivity|]. rewrite Hli, Hsub.
  apply assert_consistent_ok in Hac as [H1 H2]. rewrite Hinc, Hsub in H1.
  do 5 (split; [done|]). intros Hid Hnd.
  pose proof (price_lines_sum _ _ _ _ _ _ Hid Hnd (fun i _ => lookup_empty _) Hpl) as Hs.
  cbn [fst snd map] in Hs. rewrite Hs, zsum_nil.
  unfold lines_total. rewrite map_to_list_empty. cbn [map]. rewrite zsum_nil. lia.
Qed.

(** A catalogue of two published books, answered by the books service. *)
Definition sample_book (id price : Z) : json :=
  JObj [("id", JStr (string_of_uuid (Z.to_N id))); ("title", JStr "T"); ("slug", JStr "t");
        ("price_minor", JInt price); ("currency", JStr "INR"); ("status", JStr "published")].
Definition sample_services (ids : list uuid) : result json :=
  Ok (JObj [("items", JList [sample_book 1 49900; sample_book 2 10100])]).

Lemma quote_consistent_witness :
  exists cart,
    quote default_settings 0 false false false (Some sample_services) None
      [mkItemIn 1 2; mkItemIn 2 1] None "INR" None None true true (∅, mkCouponStore ∅ ∅) =
      (Ok cart, (∅, mkCouponStore ∅ ∅)) /\
    pc_total_minor cart = 109900.
Proof.
  destruct (require_purchasable false false false (Some sample_services) [1%N; 2%N] ∅)
    as [[books|e] c'] eqn:E; [|exfalso; vm_compute in E; discriminate].
  assert (E' : (Ok books, c') = (Ok (list_to_map [(1%N, mkBook 1 "t" "T" 49900 "INR" "published" []);
                            (2%N, mkBook 2 "t" "T" 10100 "INR" "published" [])]), ∅)).
  { rewrite <- E. vm_compute. reflexivity. }
  injection E' as -> ->.
  edestruct (quote_consistent default_settings 0 false false false (Some sample_services) None
    [mkItemIn 1 2; mkItemIn 2 1] None "INR" None None true true ∅ (mkCouponStore ∅ ∅))
    as (cart & Hq & H).
  - discriminate.
  - vm_compute. discriminate.
  - exact E.
  - vm_compute. reflexivity.
  - reflexivity.
  - intros k b [[_ <-]|[_ [[_ <-]|[_ Hb]]%lookup_insert_Some]]%lookup_insert_Some;
      [vm_compute; discriminate..|]. by rewrite lookup_empty in Hb.
  - repeat constructor; vm_compute; discriminate.
  - apply empty_coupon_inv.
  - exists cart. split; [exact Hq|].
    assert (Hv : (quote default_settings 0 false false false (Some sample_services) None
      [mkItemIn 1 2; mkItemIn 2 1] None "INR" None None true true (∅, mkCouponStore ∅ ∅)).1 = Ok cart)
      by (rewrite Hq; reflexivity).
    assert (Ht : pc_total_minor <$> (quote default_settings 0 false false false (Some sample_services)
      None [mkItemIn 1 2; mkItemIn 2 1] None "INR" None None true true (∅, mkCouponStore ∅ ∅)).1
      = Ok 109900) by (vm_compute; reflexivity).
    rewrite Hv in Ht. by injection Ht.
Defined.

(** A cart that names the same book twice: the dict of line totals keeps only
    the last line, so the subtotal is less than the lines shown. *)
Example duplicate_book_undercounted :
  (fun c => (pc_subtotal_minor c, map ql_line_total_minor (pc_lines c))) <$>
    (quote default_settings 0 false false false (Some sample_services) None
      [mkItemIn 1 2; mkItemIn 1 1] None "INR" None None true true (∅, mkCouponStore ∅ ∅)).1
  = Ok (49900, [99800; 49900]).
Proof. vm_compute. reflexivity. Qed.
