(* ===== verification/Db.v ===== *)
(** * The payment service's database

    The tables of the schema [payments] in one record, and the statements the
    services issue against it.  A service method that receives an ORM object
    receives it here as a value, and a flush writes the changed columns of that
    object to the row with its key: a stale object is thus a value that differs
    from the stored row, as in a second transaction. *)

From S2P Require Import Prelude Store Json Coupons PaymentModels.

Record Db := mkDb {
  orders : table Order;
  coupon_store : CouponStore;
  payments : table Payment;
  refunds : table Refund;
  invoices : table Invoice;
  accounts : table AffiliateAccount;
  conversions : table AffiliateConversion;
  plans : table SubscriptionPlan;
  subscriptions : table Subscription;
  webhook_events : table WebhookEvent;
}.

Definition empty_db : Db := mkDb ∅ (mkCouponStore ∅ ∅) ∅ ∅ ∅ ∅ ∅ ∅ ∅ ∅.

Definition set_orders x d := mkDb x (coupon_store d) (payments d) (refunds d) (invoices d)
  (accounts d) (conversions d) (plans d) (subscriptions d) (webhook_events d).
Definition set_coupon_store x d := mkDb (orders d) x (payments d) (refunds d) (invoices d)
  (accounts d) (conversions d) (plans d) (subscriptions d) (webhook_events d).
Definition set_payments x d := mkDb (orders d) (coupon_store d) x (refunds d) (invoices d)
  (accounts d) (conversions d) (plans d) (subscriptions d) (webhook_events d).
Definition set_refunds x d := mkDb (orders d) (coupon_store d) (payments d) x (invoices d)
  (accounts d) (conversions d) (plans d) (subscriptions d) (webhook_events d).
Definition set_invoices x d := mkDb (orders d) (coupon_store d) (payments d) (refunds d) x
  (accounts d) (conversions d) (plans d) (subscriptions d) (webhook_events d).
Definition set_accounts x d := mkDb (orders d) (coupon_store d) (payments d) (refunds d) (invoices d)
  x (conversions d) (plans d) (subscriptions d) (webhook_events d).
Definition set_conversions x d := mkDb (orders d) (coupon_store d) (payments d) (refunds d) (invoices d)
  (accounts d) x (plans d) (subscriptions d) (webhook_events d).
Definition set_plans x d := mkDb (orders d) (coupon_store d) (payments d) (refunds d) (invoices d)
  (accounts d) (conversions d) x (subscriptions d) (webhook_events d).
Definition set_subscriptions x d := mkDb (orders d) (coupon_store d) (payments d) (refunds d) (invoices d)
  (accounts d) (conversions d) (plans d) x (webhook_events d).
Definition set_webhook_events x d := mkDb (orders d) (coupon_store d) (payments d) (refunds d) (invoices d)
  (accounts d) (conversions d) (plans d) (subscriptions d) x.

(** Run a coupon operation on the database. *)
Definition on_coupons {A} (m : M CouponStore A) : M Db A := lift coupon_store set_coupon_store m.

(** Write changed columns of the row with key [k]. *)
Definition update_orders k f : M Db unit := modify (fun d => set_orders (alter f k (orders d)) d).
Definition update_payments k f : M Db unit := modify (fun d => set_payments (alter f k (payments d)) d).
Definition update_refunds k f : M Db unit := modify (fun d => set_refunds (alter f k (refunds d)) d).
Definition update_accounts k f : M Db unit := modify (fun d => set_accounts (alter f k (accounts d)) d).
Definition update_conversions k f : M Db unit :=
  modify (fun d => set_conversions (alter f k (conversions d)) d).
Definition update_subscriptions k f : M Db unit :=
  modify (fun d => set_subscriptions (alter f k (subscriptions d)) d).
Definition update_webhook_events k f : M Db unit :=
  modify (fun d => set_webhook_events (alter f k (webhook_events d)) d).

(** INSERT under a unique constraint. *)
Definition insert_into {V K} `{!Row V} `{!EqDecision K} (tbl : Db -> table V)
    (set : table V -> Db -> Db) (col : V -> option K) (v : V) : M Db unit := fun d =>
  match insert_unique col v (tbl d) with
  | Ok t => (Ok tt, set t d)
  | Raise e => (Raise e, d)
  end.

Definition insert_payment := insert_into payments set_payments payment_col.
Definition insert_invoice := insert_into invoices set_invoices invoice_number_col.
Definition insert_conversion := insert_into conversions set_conversions conversion_col.
Definition insert_webhook := insert_into webhook_events set_webhook_events webhook_col.
Definition insert_subscription := insert_into subscriptions set_subscriptions subscription_col.

Lemma insert_into_inv {V K} `{!Row V} `{!EqDecision K} tbl set (col : V -> option K) v d r d' :
  insert_into tbl set col v d = (r, d') ->
  (r = Ok tt /\ conflicts col v (tbl d) = false /\ d' = set (save v (tbl d)) d) \/
  (r = Raise IntegrityErr /\ conflicts col v (tbl d) = true /\ d' = d).
Proof.
  unfold insert_into, insert_unique. destruct (conflicts col v (tbl d)); intros [= <- <-]; auto.
Qed.

Lemma on_coupons_inv {A} (m : M CouponStore A) d r d' :
  on_coupons m d = (r, d') ->
  exists s', m (coupon_store d) = (r, s') /\ d' = set_coupon_store s' d.
Proof. unfold on_coupons, lift. destruct (m _) as [r' s']. intros [= <- <-]. eauto. Qed.

Lemma keeps_insert_into {V K B} `{!Row V} `{!EqDecision K} (proj : Db -> B) tbl set
    (col : V -> option K) v :
  (forall t d, proj (set t d) = proj d) -> keeps proj (insert_into tbl set col v).
Proof.
  intros H d r d' [(_ & _ & ->)|(_ & _ & ->)]%insert_into_inv; [apply H|done].
Qed.

Lemma keeps_on_coupons {A B} (proj : Db -> B) (m : M CouponStore A) :
  (forall t d, proj (set_coupon_store t d) = proj d) -> keeps proj (on_coupons m).
Proof. intros H d r d' (s & _ & ->)%on_coupons_inv. apply H. Qed.

Ltac keeps_step :=
  match goal with
  | |- keeps _ (update_orders _ _) => apply keeps_modify; intros ?; reflexivity
  | |- keeps _ (update_payments _ _) => apply keeps_modify; intros ?; reflexivity
  | |- keeps _ (update_refunds _ _) => apply keeps_modify; intros ?; reflexivity
  | |- keeps _ (update_accounts _ _) => apply keeps_modify; intros ?; reflexivity
  | |- keeps _ (update_conversions _ _) => apply keeps_modify; intros ?; reflexivity
  | |- keeps _ (update_subscriptions _ _) => apply keeps_modify; intros ?; reflexivity
  | |- keeps _ (update_webhook_events _ _) => apply keeps_modify; intros ?; reflexivity
  | |- keeps _ (insert_payment _) => apply keeps_insert_into; reflexivity
  | |- keeps _ (insert_invoice _) => apply keeps_insert_into; reflexivity
  | |- keeps _ (insert_conversion _) => apply keeps_insert_into; reflexivity
  | |- keeps _ (insert_webhook _) => apply keeps_insert_into; reflexivity
  | |- keeps _ (insert_subscription _) => apply keeps_insert_into; reflexivity
  | |- keeps _ (on_coupons _) => apply keeps_on_coupons; reflexivity
  | _ => keeps_core
  end.
Ltac keeps_tac := repeat keeps_step; try solve [eauto with keeps].
