(* ===== verification/Dates.v ===== *)
(** * Calendar dates of Python's [datetime]

    Year, month and day (proleptic Gregorian, UTC) of a [datetime], the two
    renderings the services use, and the decimal formats of f-strings.  These
    are library functions the program calls; the theorems that use them are in
    [Orders.v] and [Invoices.v]. *)

From S2P Require Import Prelude.

(** Day number of a moment, and a day of the era of 400 years that starts on
    March 1st. *)
Definition day_of (t : datetime) : Z := t / DAY.

Definition year_of_era (doe : Z) : Z := (doe - doe / 1460 + doe / 36524 - doe / 146096) / 365.
Definition day_of_year (doe : Z) : Z :=
  let yoe := year_of_era doe in doe - (365 * yoe + yoe / 4 - yoe / 100).

Definition civil (t : datetime) : Z * Z * Z :=
  let z := day_of t + 719468 in
  let doe := z mod 146097 in
  let doy := day_of_year doe in
  let mp := (5 * doy + 2) / 153 in
  let month := if mp <? 10 then mp + 3 else mp - 9 in
  (year_of_era doe + z / 146097 * 400 + (if month <=? 2 then 1 else 0),
   month, doy - (153 * mp + 2) / 5 + 1).

Definition year (t : datetime) : Z := (civil t).1.1.
Definition month (t : datetime) : Z := (civil t).1.2.
Definition day (t : datetime) : Z := (civil t).2.

(** Decimal digits, and zero padding to a width ([:06d], [%m]). *)
Definition str_of_Z (n : Z) : string := pretty n.
Fixpoint zeros (n : nat) : string := match n with O => "" | S n => String "0" (zeros n) end.
Definition zero_pad (width : nat) (n : Z) : string :=
  let s := str_of_Z n in append (zeros (width - String.length s)) s.

(** [f"{moment:%Y%m%d}"] *)
Definition yyyymmdd (t : datetime) : string :=
  append (zero_pad 4 (year t)) (append (zero_pad 2 (month t)) (zero_pad 2 (day t))).

(** [s[-n:]] *)
Definition last_chars (n : nat) (s : string) : string :=
  String.substring (String.length s - n) n s.

Example civil_epoch : civil 0 = (1970, 1, 1).
Proof. reflexivity. Qed.
Example civil_leap : civil (19782 * DAY + 3600 * SECOND) = (2024, 2, 29).
Proof. reflexivity. Qed.
Example civil_new_year : civil (20454 * DAY - 1) = (2025, 12, 31).
Proof. reflexivity. Qed.
Example yyyymmdd_sample : yyyymmdd (20669 * DAY) = "20260804".
Proof. reflexivity. Qed.

(** Every day of the era falls in a year of at most 366 days. *)
Lemma day_of_year_bounds doe : 0 <= doe < 146097 -> 0 <= day_of_year doe <= 365.
Proof.
  unfold day_of_year, year_of_era. intros H. Z.to_euclidean_division_equations. lia.
Qed.

Lemma month_bounds t : 1 <= month t <= 12.
Proof.
  unfold month, civil. cbn [fst snd].
  pose proof (day_of_year_bounds ((day_of t + 719468) mod 146097)
    (Z.mod_pos_bound _ 146097 ltac:(lia))) as H.
  set (d := day_of_year _) in *.
  assert (0 <= (5 * d + 2) / 153 <= 11).
  { split; [apply Z.div_pos; lia|]. assert ((5 * d + 2) / 153 < 12); [|lia].
    apply Z.div_lt_upper_bound; lia. }
  destruct (_ <? _) eqn:E; zbool.
Qed.

(** [t.isoformat()] of an aware UTC datetime. *)
Definition isoformat (t : datetime) : string :=
  let us := t mod DAY in
  let s := us / SECOND in
  append (zero_pad 4 (year t)) (append "-" (append (zero_pad 2 (month t)) (append "-"
  (append (zero_pad 2 (day t)) (append "T" (append (zero_pad 2 (s / 3600)) (append ":"
  (append (zero_pad 2 (s / 60 mod 60)) (append ":" (append (zero_pad 2 (s mod 60))
  (append (if us mod SECOND =? 0 then "" else append "." (zero_pad 6 (us mod SECOND))) "+00:00"))))))))))).

Example isoformat_sample : isoformat (20669 * DAY + 45296 * SECOND + 1500) = "2026-08-04T12:34:56.001500+00:00".
Proof. reflexivity. Qed.
