(* ===== verification/Pagination.v ===== *)
(** * Pagination (packages/core-py/knowledgeos_core/pagination.py)

    Offset pages and their envelope, the URL-safe text of a cursor, and the
    keyset query shape the services' list endpoints share: newest first on
    [(sort column, id)], one row beyond the page to answer "is there more?". *)

From S2P Require Import Prelude Store Json.

(** ** Offset pages *)

Definition MAX_PAGE_SIZE : Z := 100.
Definition DEFAULT_PAGE_SIZE : Z := 20.

Record PageParams := mkPageParams { pg_page : Z; pg_limit : Z }.

(** The bounds declared on the two fields. *)
Definition page_params_ok (p : PageParams) : bool :=
  (1 <=? pg_page p) && (pg_page p <=? 10000) && (1 <=? pg_limit p) && (pg_limit p <=? MAX_PAGE_SIZE).

Definition offset (p : PageParams) : Z := (pg_page p - 1) * pg_limit p.

Record PageMeta := mkPageMeta {
  pm_page : Z; pm_limit : Z; pm_total : Z; pm_pages : Z; pm_has_next : bool; pm_has_prev : bool;
}.
Record Page (T : Type) := mkPage { page_items : list T; page_meta : PageMeta }.
Arguments mkPage {T}. Arguments page_items {T}. Arguments page_meta {T}.

Definition create_page {T} (items : list T) (total : Z) (params : PageParams) : Page T :=
  let pages := if total =? 0 then 0 else (total + pg_limit params - 1) / pg_limit params in
  mkPage items {| pm_page := pg_page params; pm_limit := pg_limit params; pm_total := total;
                  pm_pages := pages; pm_has_next := pg_page params <? pages;
                  pm_has_prev := 1 <? pg_page params |}.

(** [.offset(o).limit(n)] of the statement's rows. *)
Definition slice {T} (o n : Z) (rows : list T) : list T := take (Z.to_nat n) (drop (Z.to_nat o) rows).

(** [paginate]: the page's rows and the COUNT of the unpaged statement. *)
Definition paginate {T} (rows : list T) (params : PageParams) : list T * Z :=
  let total := Z.of_nat (length rows) in
  if total =? 0 then ([], 0) else (slice (offset params) (pg_limit params) rows, total).

(** ORDER BY of a time column, newest first; ties keep the order they come in. *)
Definition later_first {A} (time : A -> Z) (a b : A) : Prop := time b <= time a.
#[export] Instance later_first_dec {A} (time : A -> Z) a b : Decision (later_first time a b).
Proof. unfold later_first. apply _. Defined.
Definition latest_first {A} (time : A -> Z) (l : list A) : list A := merge_sort (later_first time) l.

(** ** Sorting from user input: only whitelisted columns *)

Inductive sort_key := SortKey (column : string) (ascending : bool).

Definition apply_sorting (sort_by sort_order tiebreaker : string) (allowed columns : list string)
    : result (list sort_key) :=
  if bool_decide (sort_by ∉ allowed) then Raise (app_error BadRequestError "") else
  let asc := String.eqb sort_order "asc" in
  Ok (SortKey sort_by asc ::
      (if negb (String.eqb sort_by tiebreaker) && bool_decide (tiebreaker ∈ columns)
       then [SortKey tiebreaker asc] else [])).

(** ** Searching: LIKE patterns built from user input *)

Definition backslash : ascii := "092"%char.

(** The three [replace] calls: every wildcard, and the escape itself, is escaped. *)
Fixpoint replace_char (c : ascii) (by_ : string) (s : string) : string :=
  match s with
  | "" => ""
  | String d s' => if (d =? c)%char then append by_ (replace_char c by_ s') else String d (replace_char c by_ s')
  end.
Definition escape_term (term : string) : string :=
  replace_char "_" (String backslash "_")
    (replace_char "%" (String backslash "%")
      (replace_char backslash (String backslash (String backslash "")) term)).
Definition search_pattern (term : string) : string := append "%" (append (escape_term term) "%").

(** SQL's [s LIKE p ESCAPE '\']. *)
Fixpoint like (fuel : nat) (p s : string) : bool :=
  match fuel with
  | O => false
  | S fuel =>
      match p with
      | "" => String.eqb s ""
      | String c p' =>
          if (c =? "%")%char then
            like fuel p' s || match s with "" => false | String _ s' => like fuel p s' end
          else if (c =? "_")%char then
            match s with "" => false | String _ s' => like fuel p' s' end
          else if (c =? backslash)%char then
            match p', s with
            | String e p'', String d s' => (e =? d)%char && like fuel p'' s'
            | _, _ => false
            end
          else match s with "" => false | String d s' => (c =? d)%char && like fuel p' s' end
      end
  end.

(** [column.ilike(pattern, escape='\')] *)
Definition ilike (fuel : nat) (p s : string) : bool := like fuel (lower p) (lower s).
Definition apply_search (fuel : nat) (term : string) (columns : list string) : bool :=
  if String.eqb term "" then true
  else bool_decide (columns = []) || existsb (ilike fuel (search_pattern term)) columns.

(** ** The text of a cursor: unpadded URL-safe base64 *)

Definition b64_char (n : N) : ascii :=
  match String.get (N.to_nat n) "ABCDEFGHIJKLMNOPQRSTUVWXYZabcdefghijklmnopqrstuvwxyz0123456789-_" with
  | Some c => c
  | None => "="%char
  end.
(** The sextet of a character; the URL-safe alphabet is translated to the
    standard one first, so both spellings of 62 and 63 are read. *)
Definition b64_value (c : ascii) : option N :=
  let n := N_of_ascii c in
  if ((65 <=? n) && (n <=? 90))%N then Some (n - 65)%N
  else if ((97 <=? n) && (n <=? 122))%N then Some (n - 71)%N
  else if ((48 <=? n) && (n <=? 57))%N then Some (n + 4)%N
  else if ((n =? 45) || (n =? 43))%N then Some 62%N
  else if ((n =? 95) || (n =? 47))%N then Some 63%N
  else None.

Fixpoint b64_encode (bytes : list N) : string :=
  match bytes with
  | [] => ""
  | [a] => String (b64_char (a / 4)) (String (b64_char (a mod 4 * 16)) "")
  | [a; b] =>
      String (b64_char (a / 4)) (String (b64_char (a mod 4 * 16 + b / 16))
        (String (b64_char (b mod 16 * 4)) ""))
  | a :: b :: c :: rest =>
      String (b64_char (a / 4)) (String (b64_char (a mod 4 * 16 + b / 16))
        (String (b64_char (b mod 16 * 4 + c / 64)) (String (b64_char (c mod 64)) (b64_encode rest))))
  end%N.

(** The bytes an unfinished group of sextets stands for. *)
Definition b64_flush (quad : list N) : list N :=
  match quad with
  | [a; b] => [a * 4 + b / 16]
  | [a; b; c] => [a * 4 + b / 16; b mod 16 * 16 + c / 4]
  | _ => []
  end%N.

(** [binascii.a2b_base64]: characters outside the alphabet are skipped, a
    complete padding ends the data, and an unfinished group is an error. *)
Fixpoint a2b (s : string) (quad : list N) (pads : nat) : option (list N) :=
  match s with
  | "" => if bool_decide (quad = []) then Some [] else None
  | String ch s' =>
      if (ch =? "=")%char then
        if (2 <=? length quad)%nat then
          if (4 <=? length quad + S pads)%nat then Some (b64_flush quad)
          else a2b s' quad (S pads)
        else a2b s' quad pads
      else
        match b64_value ch, quad with
        | None, _ => a2b s' quad pads
        | Some d, [a; b; c] =>
            bs ← a2b s' [] 0; Some (b64_flush [a; b; c] ++ (c mod 4 * 64 + d)%N :: bs)
        | Some d, _ => a2b s' (quad ++ [d]) 0
        end
  end.

Fixpoint pad (n : nat) : string := match n with O => "" | S n => String "=" (pad n) end.

(** [urlsafe_b64decode(cursor + "=" * (-len(cursor) % 4))] *)
Definition b64_decode (s : string) : option (list N) :=
  a2b (append s (pad (Z.to_nat (- Z.of_nat (String.length s) mod 4)))) [] 0.

Section cursor.
(** The JSON library: [orjson.dumps] and [orjson.loads] on bytes. *)
Context (dumps : json -> list N) (loads : list N -> option json).

Definition encode_cursor (payload : list (string * json)) : string :=
  b64_encode (dumps (JObj payload)).

Definition decode_cursor (cursor : string) : result (list (string * json)) :=
  match bytes ← b64_decode cursor; loads bytes with
  | Some (JObj fields) => Ok fields
  | _ => Raise (app_error BadRequestError "")
  end.
End cursor.

(** ** Keyset pages *)

Definition cursor_key : Type := Z * N.

(** [or_(col < v, and_(col == v, id < i))] *)
Definition before (c k : cursor_key) : bool :=
  (k.1 <? c.1) || ((k.1 =? c.1) && (k.2 <? c.2)%N).

Section keyset.
Context {A : Type} (key : A -> cursor_key).

Definition after_cursor (c : option cursor_key) (x : A) : bool :=
  match c with Some c => before c (key x) | None => true end.

(** ORDER BY col DESC, id DESC *)
Definition newest_first (x y : A) : Prop :=
  before (key x) (key y) = true \/ key x = key y.
#[global] Instance newest_first_dec x y : Decision (newest_first x y).
Proof. unfold newest_first. apply _. Defined.

(** Rows, the next cursor, and whether there is more. *)
Definition keyset_page (rows : list A) (c : option cursor_key) (limit : nat)
    : list A * option cursor_key * bool :=
  let fetched := take (limit + 1) (merge_sort newest_first (List.filter (after_cursor c) rows)) in
  let has_more := (limit <? length fetched)%nat in
  let page := take limit fetched in
  (page, if has_more then key <$> last page else None, has_more).

(** A client that follows the cursors until there is no more. *)
Fixpoint walk (fuel : nat) (rows : list A) (c : option cursor_key) (limit : nat) : list (list A) :=
  match fuel with
  | O => []
  | S fuel =>
      let '(page, next, more) := keyset_page rows c limit in
      page :: match next with Some _ => walk fuel rows next limit | None => [] end
  end.
End keyset.

(** ** Round trip of a cursor *)

Lemma b64_char_ok n : (n < 64)%N -> b64_value (b64_char n) = Some n /\ (b64_char n =? "=")%char = false.
Proof.
  intros H.
  assert (Hall : forallb (fun k => bool_decide (b64_value (b64_char (N.of_nat k)) = Some (N.of_nat k)) &&
            negb (b64_char (N.of_nat k) =? "=")%char) (seq 0 64) = true) by (vm_compute; reflexivity).
  rewrite forallb_forall in Hall. specialize (Hall (N.to_nat n)).
  rewrite N2Nat.id in Hall. rewrite in_seq in Hall.
  specialize (Hall ltac:(lia)). apply andb_true_iff in Hall as [H1 H2].
  apply bool_decide_eq_true in H1. by apply negb_true_iff in H2.
Qed.

(** One more character of the alphabet. *)
Lemma a2b_char n s quad pads : (n < 64)%N ->
  a2b (String (b64_char n) s) quad pads =
  match quad with
  | [a; b; c] => bs ← a2b s [] 0; Some (b64_flush [a; b; c] ++ (c mod 4 * 64 + n)%N :: bs)
  | _ => a2b s (quad ++ [n]) 0
  end.
Proof.
  intros H. destruct (b64_char_ok n H) as [Hv He].
  cbn [a2b]. rewrite He, Hv. by repeat case_match.
Qed.

Lemma div_mod_join (a k : N) : (0 < k)%N -> (a / k * k + a mod k)%N = a.
Proof. intros H. pose proof (N.div_mod a k ltac:(lia)). lia. Qed.

Lemma sextet_small a b : (a < 256 -> b < 256 ->
  a / 4 < 64 /\ a mod 4 * 16 + b / 16 < 64 /\ b mod 16 * 4 + a / 64 < 64 /\ a mod 64 < 64 /\
  a mod 4 * 16 < 64 /\ b mod 16 * 4 < 64)%N.
Proof.
  intros Ha Hb.
  pose proof (N.Div0.div_lt_upper_bound a 4 64). pose proof (N.Div0.div_lt_upper_bound b 16 16).
  pose proof (N.Div0.div_lt_upper_bound a 64 4).
  pose proof (N.mod_lt a 4). pose proof (N.mod_lt b 16). pose proof (N.mod_lt a 64). lia.
Qed.

(** The sextets of bytes [a], [b] determine them again. *)
Lemma first_byte a b : (b < 256 -> a / 4 * 4 + (a mod 4 * 16 + b / 16) / 16 = a)%N.
Proof.
  intros Hb. rewrite N.div_add_l by lia.
  rewrite (N.div_small (b / 16)) by (apply N.Div0.div_lt_upper_bound; lia).
  rewrite N.add_0_r. by apply div_mod_join.
Qed.

Lemma second_byte a b c : (b < 256 -> c < 256 ->
  (a mod 4 * 16 + b / 16) mod 16 * 16 + (b mod 16 * 4 + c / 64) / 4 = b)%N.
Proof.
  intros Hb Hc. rewrite (N.add_comm (a mod 4 * 16)), N.Div0.mod_add, N.div_add_l by lia.
  rewrite (N.mod_small (b / 16)) by (apply N.Div0.div_lt_upper_bound; lia).
  rewrite (N.div_small (c / 64)) by (apply N.Div0.div_lt_upper_bound; lia).
  rewrite N.add_0_r. apply div_mod_join. lia.
Qed.

Lemma third_byte b c : (c < 256 -> (b mod 16 * 4 + c / 64) mod 4 * 64 + c mod 64 = c)%N.
Proof.
  intros Hc. rewrite (N.add_comm _ (c / 64)), N.Div0.mod_add.
  rewrite (N.mod_small (c / 64)) by (apply N.Div0.div_lt_upper_bound; lia).
  apply div_mod_join. lia.
Qed.

(** Groups of three bytes. *)
Lemma triples_ind (P : list N -> Prop) :
  P [] -> (forall a, P [a]) -> (forall a b, P [a; b]) ->
  (forall a b c l, P l -> P (a :: b :: c :: l)) -> forall l, P l.
Proof.
  intros H0 H1 H2 H3. fix IH 1. intros [|a [|b [|c l]]]; [apply H0|apply H1|apply H2|apply H3, IH].
Qed.

Definition padding_of (bytes : list N) : nat :=
  match (length bytes mod 3)%nat with O => 0 | 1 => 2 | _ => 1 end%nat.

Lemma b64_encode_length bytes :
  (String.length (b64_encode bytes) + padding_of bytes = 4 * ((length bytes + 2) / 3))%nat.
Proof.
  induction bytes as [|a|a b|a b c l IH] using triples_ind; try reflexivity.
  cbn [b64_encode String.length length] in *. unfold padding_of in *.
  cbn [length] in *. replace (S (S (S (length l)))) with (length l + 1 * 3)%nat by lia.
  rewrite Nat.Div0.mod_add.
  replace (length l + 1 * 3 + 2)%nat with (length l + 2 + 1 * 3)%nat by lia.
  rewrite Nat.div_add by lia. lia.
Qed.

Lemma padding_of_spec bytes :
  Z.to_nat (- Z.of_nat (String.length (b64_encode bytes)) mod 4) = padding_of bytes.
Proof.
  pose proof (b64_encode_length bytes) as H.
  assert (Hp : (padding_of bytes < 4)%nat) by (unfold padding_of; repeat case_match; lia).
  replace (- Z.of_nat (String.length (b64_encode bytes)))
    with (Z.of_nat (padding_of bytes) + (- Z.of_nat ((length bytes + 2) / 3)) * 4) by lia.
  rewrite Z.mod_add, Z.mod_small by lia. lia.
Qed.

Lemma a2b_encode bytes :
  Forall (fun b => (b < 256)%N) bytes ->
  a2b (append (b64_encode bytes) (pad (padding_of bytes))) [] 0 = Some bytes.
Proof.
  induction bytes as [|a|a b|a b c l IH] using triples_ind; intros H; [done|..].
  - apply Forall_cons in H as [Ha _].
    destruct (sextet_small a 0 Ha ltac:(lia)) as (? & ? & ? & ? & ? & ?).
    change (padding_of [a]) with 2%nat. cbn [b64_encode].
    rewrite !append_String, append_nil, !a2b_char by lia.
    cbn. do 2 f_equal. pose proof (first_byte a 0 ltac:(lia)) as E. by rewrite N.add_0_r in E.
  - apply Forall_cons in H as [Ha [Hb _]%Forall_cons].
    destruct (sextet_small a b Ha Hb) as (? & ? & ? & ? & ? & ?).
    change (padding_of [a; b]) with 1%nat. cbn [b64_encode].
    rewrite !append_String, append_nil, !a2b_char by lia.
    cbn. do 2 f_equal; [by apply first_byte|]. f_equal.
    pose proof (second_byte a b 0 Hb ltac:(lia)) as E. by rewrite N.add_0_r in E.
  - apply Forall_cons in H as [Ha [Hb [Hc Hl]%Forall_cons]%Forall_cons].
    destruct (sextet_small a b Ha Hb) as (? & ? & _ & _ & _ & _).
    destruct (sextet_small c b Hc Hb) as (_ & _ & ? & ? & _ & _).
    cbn [b64_encode]. rewrite !append_String, !a2b_char by lia. cbn [app].
    assert (Ep : padding_of (a :: b :: c :: l) = padding_of l).
    { unfold padding_of. cbn [length]. replace (S (S (S (length l)))) with (length l + 1 * 3)%nat by lia.
      by rewrite Nat.Div0.mod_add. }
    rewrite Ep, IH by done. cbn. f_equal.
    by rewrite first_byte, second_byte, third_byte.
Qed.

Lemma b64_decode_encode bytes :
  Forall (fun b => (b < 256)%N) bytes -> b64_decode (b64_encode bytes) = Some bytes.
Proof. intros H. unfold b64_decode. rewrite padding_of_spec. by apply a2b_encode. Qed.

(** A pagination cursor survives its trip through the client: decoding
    the URL-safe, unpadded text [encode_cursor] produces gives back the payload
    whenever the JSON library reads back the bytes it wrote; the padding
    restored by the decoder is exactly the one that was stripped. *)
Theorem cursor_roundtrip dumps loads (payload : list (string * json))
    (Hbytes : Forall (fun b => (b < 256)%N) (dumps (JObj payload)))
    (Hjson : loads (dumps (JObj payload)) = Some (JObj payload)) :
  decode_cursor loads (encode_cursor dumps payload) = Ok payload.
Proof.
  unfold decode_cursor, encode_cursor. rewrite b64_decode_encode by done.
  cbn. by rewrite Hjson.
Qed.

Lemma cursor_roundtrip_witness :
  let dumps := fun j => match j with JObj [("o", JInt n)] => [123; Z.to_N n; 125]%N | _ => [] end in
  let loads := fun l => match l with [123; n; 125]%N => Some (JObj [("o", JInt (Z.of_N n))]) | _ => None end in
  encode_cursor dumps [("o", JInt 40)] = "eyh9" /\
  decode_cursor loads (encode_cursor dumps [("o", JInt 40)]) = Ok [("o", JInt 40)].
Proof.
  intros dumps loads. split; [vm_compute; reflexivity|].
  apply (cursor_roundtrip dumps loads).
  - repeat constructor.
  - reflexivity.
Defined.

(** ** LIKE patterns *)

Lemma replace_char_append c b s t :
  replace_char c b (append s t) = append (replace_char c b s) (replace_char c b t).
Proof.
  induction s as [|d s IH]; [done|]. rewrite append_String. cbn [replace_char].
  destruct (d =? c)%char; rewrite IH; [by rewrite append_assoc|by rewrite append_String].
Qed.

Definition is_wildcard (c : ascii) : bool :=
  (c =? "%")%char || (c =? "_")%char || (c =? backslash)%char.

Lemma escape_term_cons c t :
  escape_term (String c t) =
  if is_wildcard c then String backslash (String c (escape_term t)) else String c (escape_term t).
Proof.
  unfold escape_term, is_wildcard. cbn [replace_char].
  destruct (Ascii.eqb_spec c backslash) as [->|Hb]; [reflexivity|].
  cbn [replace_char].
  destruct (Ascii.eqb_spec c "%") as [->|Hp]; [reflexivity|].
  cbn [replace_char].
  by destruct (Ascii.eqb_spec c "_") as [->|Hu].
Qed.

Lemma like_any s : forall fuel, (String.length s + 2 <= fuel)%nat -> like fuel "%" s = true.
Proof.
  induction s as [|d s IH]; intros [|[|fuel]] H; cbn [String.length] in H; try lia; [done|].
  change (like (S fuel) "" (String d s) || like (S fuel) "%" s = true).
  apply orb_true_iff. right. apply IH. lia.
Qed.

Lemma like_escaped t : forall s fuel,
  (String.length t + String.length s + 3 <= fuel)%nat ->
  like fuel (append (escape_term t) "%") s = startswith t s.
Proof.
  induction t as [|c t IH]; intros s fuel H.
  - change (append (escape_term "") "%") with "%". rewrite like_any by (cbn in H; lia). by destruct s.
  - rewrite escape_term_cons. destruct fuel as [|fuel]; [lia|]. cbn [String.length] in H.
    assert (Hp : forall d s', startswith (String c t) (String d s') = (c =? d)%char && startswith t s').
    { intros d s'. unfold startswith. cbn [String.prefix].
      destruct (Ascii.eqb_spec c d), (ascii_dec c d); done. }
    destruct (is_wildcard c) eqn:W; rewrite !append_String; destruct s as [|d s]; cbn [String.length] in H.
    + done.
    + rewrite Hp. change (((c =? d)%char && like fuel (append (escape_term t) "%") s) =
        ((c =? d)%char && startswith t s)). by rewrite IH by lia.
    + unfold is_wildcard in W. bool_to_prop. cbn [like]. by rewrite H0, H2, H1.
    + unfold is_wildcard in W. bool_to_prop. cbn [like]. rewrite H0, H2, H1, Hp. by rewrite IH by lia.
Qed.

Lemma like_search t : forall s fuel,
  (String.length t + 2 * String.length s + 4 <= fuel)%nat ->
  like fuel (search_pattern t) s = contains t s.
Proof.
  unfold search_pattern. rewrite append_String, append_nil.
  induction s as [|d s IH]; intros [|fuel] H; try lia; cbn [String.length] in H.
  - change (like fuel (append (escape_term t) "%") "" || false = startswith t "" || false).
    by rewrite like_escaped by (cbn; lia).
  - change (like fuel (append (escape_term t) "%") (String d s) ||
            like fuel (String "%" (append (escape_term t) "%")) s =
            startswith t (String d s) || contains t s).
    rewrite like_escaped by (cbn [String.length]; lia). rewrite IH by lia. done.
Qed.

Lemma lower_append s t : lower (append s t) = append (lower s) (lower t).
Proof. induction s as [|c s IH]; [done|]. rewrite append_String. cbn. by rewrite IH. Qed.

Lemma lower_escape t : lower (escape_term t) = escape_term (lower t).
Proof.
  induction t as [|c t IH]; [done|].
  change (lower (String c t)) with (String (ascii_lower c) (lower t)).
  rewrite !escape_term_cons, <- IH.
  destruct c as [[] [] [] [] [] [] [] []]; reflexivity.
Qed.

Lemma lower_length s : String.length (lower s) = String.length s.
Proof. induction s as [|c s IH]; [done|]. cbn. by rewrite IH. Qed.

(** A search term is matched literally: whatever wildcards or escapes the
    user types, the pattern built from it selects exactly the rows one of whose
    searched columns contains the term, ignoring case. *)
Theorem search_is_literal fuel term (columns : list string)
    (Hcols : columns <> []) (Hterm : term <> "")
    (Hfuel : Forall (fun s => (String.length term + 2 * String.length s + 4 <= fuel)%nat) columns) :
  apply_search fuel term columns = existsb (fun s => contains (lower term) (lower s)) columns.
Proof.
  unfold apply_search. destruct (String.eqb_spec term ""); [done|].
  rewrite bool_decide_false by done. cbn [orb].
  induction Hfuel as [|s l Hs Hl IH]; [done|]. cbn [existsb]. f_equal.
  - unfold ilike, search_pattern. rewrite !lower_append, lower_escape.
    apply (like_search (lower term)). rewrite !lower_length. done.
  - destruct l; [done|]. by apply IH.
Qed.

Lemma search_is_literal_witness :
  apply_search 100 "100%" ["Save 100% now"; "x"] = true /\
  apply_search 100 "100%" ["Save 1000 now"; "x"] = false.
Proof.
  split; (etransitivity; [apply (search_is_literal 100 "100%");
    [discriminate|discriminate|repeat constructor; vm_compute; lia]|vm_compute; reflexivity]).
Defined.

(** ** Offset pages *)

Lemma ceil_div_lt a b p : 0 < b -> (p < (a + b - 1) / b <-> p * b < a).
Proof.
  intros Hb. pose proof (Z.div_mod (a + b - 1) b ltac:(lia)).
  pose proof (Z.mod_pos_bound (a + b - 1) b Hb). split; intros H1; nia.
Qed.

Lemma elem_of_slice {A} o n (l : list A) x : x ∈ slice o n l -> x ∈ l.
Proof.
  unfold slice. intros H. rewrite <- (take_drop (Z.to_nat o) l). apply elem_of_app. right.
  rewrite <- (take_drop (Z.to_nat n) (drop (Z.to_nat o) l)). apply elem_of_app. by left.
Qed.

Lemma elem_of_page {A} (time : A -> Z) (scan : list A -> list A) o n (l : list A) x :
  (forall l x, x ∈ scan l -> x ∈ l) -> x ∈ slice o n (latest_first time (scan l)) -> x ∈ l.
Proof. intros Hscan H%elem_of_slice. apply Hscan. unfold latest_first in H. by rewrite merge_sort_Permutation in H. Qed.

Lemma concat_slices {T} (rows : list T) (n : nat) k :
  concat (map (fun i => take n (drop (i * n) rows)) (seq 0 k)) = take (k * n) rows.
Proof.
  induction k as [|k IH]; [done|].
  rewrite seq_S, map_app, concat_app, IH. cbn [map concat]. rewrite app_nil_r.
  replace (S k * n)%nat with (k * n + n)%nat by lia. by rewrite take_take_drop.
Qed.

(** Offset pages partition the result: every page but the last says there
    is a next one exactly when rows remain, and the pages 1 to [pages], in
    order, concatenate to the full result, no row skipped or repeated. *)
Theorem pages_partition {T} (rows : list T) (limit : Z) (Hlimit : 1 <= limit) :
  let params p := {| pg_page := p; pg_limit := limit |} in
  let page p := create_page (paginate rows (params p)).1 (paginate rows (params p)).2 (params p) in
  let pages := pm_pages (page_meta (page 1)) in
  (forall p, 1 <= p -> pm_has_next (page_meta (page p)) = true <-> p * limit < Z.of_nat (length rows)) /\
  concat (map (fun i => page_items (page (Z.of_nat i))) (seq 1 (Z.to_nat pages))) = rows.
Proof.
  intros params page pages. unfold pages, page, params, create_page, paginate. cbn [pg_limit pg_page].
  destruct (Z.of_nat (length rows) =? 0) eqn:E; cbn.
  { bool_to_prop. split; [intros; split; lia|].
    destruct rows; [done|apply Z.eqb_eq in E; cbn [length] in E; lia]. }
  rewrite E. bool_to_prop. split.
  - intros p Hp. cbn. rewrite Z.ltb_lt. apply ceil_div_lt. lia.
  - set (n := Z.to_nat limit). set (k := Z.to_nat _).
    rewrite <- seq_shift, map_map.
    rewrite (map_ext_in _ (fun i => take n (drop (i * n) rows))).
    2:{ intros i _. unfold slice, offset, n. cbn. do 2 f_equal. nia. }
    rewrite concat_slices. apply take_ge. unfold k, n.
    pose proof (ceil_div_lt (Z.of_nat (length rows)) limit
      ((Z.of_nat (length rows) + limit - 1) / limit) ltac:(lia)) as Hc. nia.
Qed.

Lemma pages_partition_witness :
  let params p := {| pg_page := p; pg_limit := 2 |} in
  let page p := create_page (paginate [7; 8; 9] (params p)).1 (paginate [7; 8; 9] (params p)).2 (params p) in
  page_items (page 2) = [9] /\
  concat (map (fun i => page_items (page (Z.of_nat i))) (seq 1 2)) = [7; 8; 9].
Proof.
  intros params page. split; [vm_compute; reflexivity|].
  exact (proj2 (pages_partition [7; 8; 9] 2 ltac:(lia))).
Defined.

(** ** Keyset pages *)

Section keyset_lemmas.
Context {A : Type} (key : A -> cursor_key).
  Implicit Types (rows : list A).

Lemma before_spec c k :
  before c k = true <-> k.1 < c.1 \/ (k.1 = c.1 /\ (k.2 < c.2)%N).
Proof. unfold before. by rewrite orb_true_iff, andb_true_iff, Z.ltb_lt, Z.eqb_eq, N.ltb_lt. Qed.

Lemma before_irrefl c : before c c = false.
Proof. apply not_true_iff_false. rewrite before_spec. lia. Qed.

Lemma before_trans a b c : before a b = true -> before b c = true -> before a c = true.
Proof. rewrite !before_spec. lia. Qed.

Lemma before_total a b : before a b = true \/ a = b \/ before b a = true.
Proof.
  rewrite !before_spec. destruct a as [a i], b as [b j]. cbn.
  destruct (decide (a = b)) as [->|]; [|lia].
  destruct (decide (i = j)) as [->|]; [auto|lia].
Qed.

#[local] Instance newest_first_trans : Transitive (newest_first key).
Proof.
  unfold newest_first. intros x y z [H1|H1] [H2|H2].
  - left. by eapply before_trans.
  - left. by rewrite <- H2.
  - left. by rewrite H1.
  - right. by rewrite H1.
Qed.

#[local] Instance newest_first_total : Total (newest_first key).
Proof. intros x y. unfold newest_first. destruct (before_total (key x) (key y)) as [|[|]]; auto. Qed.

Lemma StronglySorted_List_filter (R : A -> A -> Prop) (P : A -> bool) l :
  StronglySorted R l -> StronglySorted R (List.filter P l).
Proof.
  induction 1 as [|x l Hs IH Hx]; [constructor|]. simpl. destruct (P x); [|done].
  constructor; [done|]. rewrite Forall_forall in *. intros y Hy.
  apply Hx. apply list_elem_of_In, filter_In in Hy as [Hy _]. by apply list_elem_of_In.
Qed.

(** Sorting commutes with selecting, when no two rows share a key. *)
Lemma sort_filter (P : A -> bool) rows :
  NoDup (map key rows) ->
  merge_sort (newest_first key) (List.filter P rows) =
  List.filter P (merge_sort (newest_first key) rows).
Proof.
  intros Hnd. set (R := newest_first key).
  assert (Hperm : merge_sort R (List.filter P rows) ≡ₚ List.filter P (merge_sort R rows)).
  { rewrite merge_sort_Permutation. apply filter_perm. symmetry. apply merge_sort_Permutation. }
  apply (StronglySorted_unique_strong R); [|apply StronglySorted_merge_sort; apply _| |done].
  - intros x y Hx Hy [H1|H1] [H2|H2];
      [pose proof (before_trans _ _ _ H1 H2) as H; by rewrite before_irrefl in H
      |rewrite H2, before_irrefl in H1; done|rewrite H1, before_irrefl in H2; done|].
    rewrite merge_sort_Permutation in Hx. rewrite <- Hperm, merge_sort_Permutation in Hy.
    apply list_elem_of_In, filter_In in Hx as [Hx _]. apply list_elem_of_In, filter_In in Hy as [Hy _].
    apply list_elem_of_In in Hx, Hy.
    apply list_elem_of_lookup in Hx as [i Hi]. apply list_elem_of_lookup in Hy as [j Hj].
    assert (i = j) as ->; [|by simplify_eq].
    apply (NoDup_lookup _ _ _ (key x) Hnd); rewrite list_lookup_fmap; [by rewrite Hi|by rewrite Hj, H1].
  - apply StronglySorted_List_filter, StronglySorted_merge_sort; apply _.
Qed.

(** In a sorted list, the rows after the key of [x] are those after [x]. *)
Lemma after_suffix p x q :
  NoDup (map key (p ++ x :: q)) -> StronglySorted (newest_first key) (p ++ x :: q) ->
  List.filter (after_cursor key (Some (key x))) (p ++ x :: q) = q.
Proof.
  intros Hnd (Hpq & Hp & Hxq)%StronglySorted_app. rewrite List.filter_app.
  apply StronglySorted_inv in Hxq as [_ Hx].
  rewrite map_app in Hnd. apply NoDup_app in Hnd as (_ & Hdis & Hnd).
  apply NoDup_cons in Hnd as [Hnx _].
  assert (Hnil : List.filter (after_cursor key (Some (key x))) p = []).
  { clear Hdis. induction p as [|y p IH]; [done|]. simpl.
    assert (before (key x) (key y) = false) as ->.
    { apply not_true_iff_false. intros Hb. destruct (Hpq y x) as [H|H]; [constructor|constructor| |].
      - pose proof (before_trans _ _ _ Hb H) as E. by rewrite before_irrefl in E.
      - by rewrite H, before_irrefl in Hb. }
    apply IH; [|by apply StronglySorted_inv in Hp as []].
    intros; apply Hpq; [by constructor|done]. }
  rewrite Hnil. simpl. rewrite before_irrefl. cbn [app].
  apply forallb_filter_id, forallb_forall. intros y Hy. apply list_elem_of_In in Hy.
  rewrite Forall_forall in Hx. destruct (Hx y Hy) as [H|H]; [done|].
  exfalso. apply Hnx. rewrite H. by apply list_elem_of_fmap_2.
Qed.

(** Following the cursors from after a prefix lists the rest. *)
Lemma walk_from rows limit : (0 < limit)%nat -> NoDup (map key rows) ->
  forall fuel p q c,
    merge_sort (newest_first key) rows = p ++ q -> c = key <$> last p -> (length q < fuel)%nat ->
    concat (walk key fuel rows c limit) = q.
Proof.
  intros Hl Hnd fuel. set (L := merge_sort (newest_first key) rows).
  assert (HL : NoDup (map key L)) by (unfold L; by rewrite merge_sort_Permutation).
  assert (Hs : StronglySorted (newest_first key) L) by (apply StronglySorted_merge_sort; apply _).
  induction fuel as [|fuel IH]; intros p q c Heq Hc Hf; [lia|]. cbn [walk].
  unfold keyset_page. rewrite sort_filter by done. fold L.
  assert (Hq : List.filter (after_cursor key c) L = q).
  { destruct (last p) as [x|] eqn:Hlast; subst c.
    - apply last_Some in Hlast as [p' ->]. rewrite <- app_assoc in Heq. cbn [app] in Heq.
      rewrite Heq in *. by apply after_suffix.
    - apply last_None in Hlast. rewrite Hlast in Heq. rewrite Heq. cbn [app fmap option_fmap option_map].
      apply forallb_filter_id, forallb_forall. done. }
  rewrite Hq, take_take, Nat.min_l, length_take by lia.
  destruct (limit <? _)%nat eqn:Hm.
  - apply Nat.ltb_lt in Hm.
    destruct (last (take limit q)) as [x|] eqn:Hlast.
    2:{ apply last_None in Hlast. apply (f_equal length) in Hlast.
        rewrite length_take in Hlast. cbn in Hlast. lia. }
    cbn [fmap option_fmap option_map concat].
    rewrite (IH (p ++ take limit q) (drop limit q)).
    + apply take_drop.
    + by rewrite <- app_assoc, take_drop.
    + rewrite last_app, Hlast. done.
    + rewrite length_drop. lia.
  - cbn [concat]. rewrite app_nil_r. apply Nat.ltb_ge in Hm. apply take_ge. lia.
Qed.

(** A client that follows the cursors sees every row once, newest first. *)
Lemma walk_all rows limit :
  (0 < limit)%nat -> NoDup (map key rows) ->
  concat (walk key (S (length rows)) rows None limit) = merge_sort (newest_first key) rows.
Proof.
  intros Hl Hnd. apply (walk_from rows limit Hl Hnd _ [] _ None); [done|done|].
  rewrite merge_sort_Permutation. lia.
Qed.

Lemma page_subset rows c limit x :
  x ∈ (keyset_page key rows c limit).1.1 -> x ∈ rows.
Proof.
  unfold keyset_page. cbn. intros H.
  rewrite take_take in H. apply elem_of_take in H as (i & H & _). apply list_elem_of_lookup_2 in H.
  rewrite merge_sort_Permutation in H. by apply list_elem_of_In, filter_In in H as [H%list_elem_of_In _].
Qed.
End keyset_lemmas.
