(* ===== verification/Orders.v ===== *)
(** * Order lifecycle (apps/payment/services/orders.py)

    Creation of an order from a priced cart, the transitions of its state
    machine, the sweep that expires abandoned checkouts, and the reads.  A
    method that changes an order takes the object the session holds and
    returns the changed object; what it flushes are the columns it assigned. *)

From S2P Require Import Prelude Store Json Tax Catalogue Coupons PaymentModels Pricing Db Dates Pagination.

(** Statuses from which a customer may still walk away. *)
Definition CANCELLABLE : list OrderStatus := [PENDING; AWAITING_PAYMENT].
(** Statuses that mean money moved. *)
Definition SETTLED : list OrderStatus := [PAID; PARTIALLY_REFUNDED; REFUNDED].

Definition settled (o : Order) : bool := bool_decide (o_status o ∈ SETTLED).
Definition cancellable (o : Order) : bool := bool_decide (o_status o ∈ CANCELLABLE).

(** ** The assignments of each transition *)

Definition set_gateway (p : PaymentProvider) (poid : string) (url : option string) (o : Order) : Order :=
  {| o_id := o_id o; o_cols := o_cols o; o_status := AWAITING_PAYMENT;
     o_refunded_minor := o_refunded_minor o; o_provider := Some p; o_provider_order_id := Some poid;
     o_checkout_url := url; o_paid_at := o_paid_at o; o_cancelled_at := o_cancelled_at o;
     o_failure_reason := o_failure_reason o |}.
Definition set_cancelled (now : datetime) (reason : option string) (o : Order) : Order :=
  {| o_id := o_id o; o_cols := o_cols o; o_status := CANCELLED;
     o_refunded_minor := o_refunded_minor o; o_provider := o_provider o;
     o_provider_order_id := o_provider_order_id o; o_checkout_url := o_checkout_url o;
     o_paid_at := o_paid_at o; o_cancelled_at := Some now; o_failure_reason := reason |}.
Definition set_failed (reason : option string) (o : Order) : Order :=
  {| o_id := o_id o; o_cols := o_cols o; o_status := FAILED;
     o_refunded_minor := o_refunded_minor o; o_provider := o_provider o;
     o_provider_order_id := o_provider_order_id o; o_checkout_url := o_checkout_url o;
     o_paid_at := o_paid_at o; o_cancelled_at := o_cancelled_at o; o_failure_reason := reason |}.
Definition set_paid (now : datetime) (o : Order) : Order :=
  {| o_id := o_id o; o_cols := o_cols o; o_status := PAID;
     o_refunded_minor := o_refunded_minor o; o_provider := o_provider o;
     o_provider_order_id := o_provider_order_id o; o_checkout_url := o_checkout_url o;
     o_paid_at := Some now; o_cancelled_at := o_cancelled_at o; o_failure_reason := None |}.
Definition set_refunded (refunded : Z) (st : OrderStatus) (o : Order) : Order :=
  {| o_id := o_id o; o_cols := o_cols o; o_status := st;
     o_refunded_minor := refunded; o_provider := o_provider o;
     o_provider_order_id := o_provider_order_id o; o_checkout_url := o_checkout_url o;
     o_paid_at := o_paid_at o; o_cancelled_at := o_cancelled_at o;
     o_failure_reason := o_failure_reason o |}.

(** Assign to the object and flush the assigned columns to its row. *)
Definition assign (o : Order) (f : Order -> Order) : M Db Order :=
  _ ← update_orders (o_id o) f; mret (f o).

(** ** Order numbers *)

Definition order_alphabet : string := "23456789ABCDEFGHJKMNPQRSTVWXYZ".
(** [secrets.choice(alphabet)], by the index the generator drew. *)
Definition choose (i : nat) : string := String.substring (i mod 30) 1 order_alphabet.
Definition generate_order_number (prefix : string) (now : datetime) (draws : list nat) : string :=
  append prefix (append "-" (append (yyyymmdd now)
    (append "-" (String.concat "" (map choose (take 8 draws)))))).

(** ** Reads *)

Definition get_order (order_id : uuid) : M Db Order :=
  d ← get;
  match orders d !! order_id with
  | Some o => mret o
  | None => raise (app_error NotFoundError "")
  end.

Definition get_for_user (order_id user_id : uuid) : M Db Order :=
  o ← get_order order_id;
  if negb (o_user_id o =? user_id)%N then raise (app_error NotFoundError "") else mret o.

Definition get_by_number (order_number : string) : M Db Order :=
  d ← get;
  found ← of_result (one_or_none
    (select (fun o => String.eqb (oc_order_number (o_cols o)) order_number) (orders d)));
  match found with Some o => mret o | None => raise (app_error NotFoundError "") end.

Definition newest (a b : Order) : bool := oc_created_at (o_cols b) <=? oc_created_at (o_cols a).

(** The disjunction of the conditions, newest first, LIMIT 1.  The provider is not a condition. *)
Definition references (provider_order_id : option string) (order_id : option uuid) (o : Order) : bool :=
  match order_id with Some i => (o_id o =? i)%N | None => false end ||
  match provider_order_id with
  | Some p => truthy (Some p) && bool_decide (o_provider_order_id o = Some p)
  | None => false
  end.
Definition find_by_provider_reference (provider : PaymentProvider) (provider_order_id : option string)
    (order_id : option uuid) : M Db (option Order) :=
  if negb (truthy provider_order_id) && bool_decide (order_id = None) then mret None else
  gets (fun d => first_by newest (select (references provider_order_id order_id) (orders d))).

Definition find_by_idempotency_key (key : string) (user_id : uuid) : M Db (option Order) :=
  d ← get;
  of_result (one_or_none
    (select (fun o => bool_decide (oc_idempotency_key (o_cols o) = Some key) && (o_user_id o =? user_id)%N)
            (orders d))).

Definition order_key (o : Order) : cursor_key := (oc_created_at (o_cols o), o_id o).

Definition listed (user_id : uuid) (status : option OrderStatus) (o : Order) : bool :=
  (o_user_id o =? user_id)%N &&
  match status with Some s => bool_decide (o_status o = s) | None => true end.

(** The cursor is the pair its text decodes to. *)
Definition list_for_user (user_id : uuid) (cursor : option cursor_key) (limit : nat)
    (status : option OrderStatus) (d : Db) : list Order * option cursor_key * bool :=
  keyset_page order_key (select (listed user_id status) (orders d)) cursor limit.

(** ** Creation *)

Record OrderCreate := mkOrderCreate {
  or_items : list OrderItemIn;
  or_coupon_code : option string;
  or_provider : option PaymentProvider;
  or_currency : string;
  or_billing_name : option string;
  or_billing_email : option string;
  or_billing : option BillingAddress;
  or_affiliate_code : option string;
  or_return_url : option string;
}.

Definition item_of_line (l : QuoteLine) : OrderItem :=
  {| it_book_id := ql_book_id l; it_title := ql_title l; it_slug := ql_slug l;
     it_quantity := ql_quantity l; it_unit_price_minor := ql_unit_price_minor l;
     it_line_total_minor := ql_line_total_minor l |}.

Definition order_number_col (o : Order) : option string := Some (oc_order_number (o_cols o)).
Definition idempotency_col (o : Order) : option string := oc_idempotency_key (o_cols o).

Section orders.
Context (settings : Settings).

Definition new_order (now : datetime) (draws : list nat) (id user_id : uuid) (payload : OrderCreate)
    (cart : PricedCart) (idempotency_key billing_email : option string) : Order :=
  {| o_id := id;
     o_cols :=
       {| oc_user_id := user_id;
          oc_order_number := generate_order_number (invoice_prefix settings) now draws;
          oc_subtotal_minor := pc_subtotal_minor cart;
          oc_discount_minor := pc_discount_minor cart;
          oc_tax_minor := total_minor (pc_tax cart);
          oc_total_minor := pc_total_minor cart;
          oc_currency := pc_currency cart;
          oc_cgst_minor := cgst_minor (pc_tax cart);
          oc_sgst_minor := sgst_minor (pc_tax cart);
          oc_igst_minor := igst_minor (pc_tax cart);
          oc_tax_percent := percent (pc_tax cart);
          oc_place_of_supply := place_of_supply (pc_tax cart);
          oc_coupon_id := pc_coupon_id cart;
          oc_coupon_code := (if pc_coupon_applied cart then pc_coupon_code cart else None);
          oc_affiliate_code := or_affiliate_code payload;
          oc_idempotency_key := idempotency_key;
          oc_billing_name := or_billing_name payload;
          oc_billing_email := str_or billing_email (or_billing_email payload);
          oc_billing_address := match or_billing payload with Some b => billing_dump b | None => [] end;
          oc_expires_at := Some (now + order_ttl_seconds settings * SECOND);
          oc_created_at := now;
          oc_items := map item_of_line (pc_lines cart) |};
     o_status := PENDING; o_refunded_minor := 0; o_provider := None; o_provider_order_id := None;
     o_checkout_url := None; o_paid_at := None; o_cancelled_at := None; o_failure_reason := None |}.

(** The constraints the flush of a new order meets. *)
Definition order_accepted (o : Order) (t : table Order) : bool :=
  order_checks o && forallb item_checks (o_items o) &&
  negb (conflicts order_number_col o t) && negb (conflicts idempotency_col o t).

(** [create]; the caller's transaction is rolled back by the conflict branch,
    so that branch leaves the last committed state [before]. *)
Definition create (now : datetime) (draws : list nat) (before : Db) (user_id : uuid)
    (payload : OrderCreate) (cart : PricedCart) (idempotency_key billing_email : option string)
    : M Db Order :=
  _ ← of_result (assert_consistent cart);
  d ← get;
  let o := new_order now draws (fresh_id (orders d)) user_id payload cart idempotency_key billing_email in
  if negb (order_accepted o (orders d)) then
    _ ← put before; raise (app_error ConflictError "order_create_conflict")
  else
    _ ← modify (set_orders (save o (orders d)));
    _ ← (match pc_coupon_id cart with
         | Some cid =>
             if pc_coupon_applied cart then
               coupon ← on_coupons (get_coupon cid);
               _ ← on_coupons (redeem coupon (o_id o) user_id (pc_discount_minor cart));
               mret tt
             else mret tt
         | None => mret tt
         end);
    mret o.

(** ** Transitions *)

(** [gateway.create_order] answers with the gateway's order id, the checkout
    URL and the client secret, or raises. *)
Definition attach_gateway
    (resolve : option PaymentProvider -> Z -> result PaymentProvider)
    (create_order : PaymentProvider -> Order -> option string ->
                    result (string * option string * option string))
    (o : Order) (requested_provider : option PaymentProvider) (return_url : option string)
    : M Db (Order * option string * option string) :=
  gateway ← of_result (resolve requested_provider (o_total_minor o));
  '(provider_order_id, checkout_url, client_secret) ← of_result (create_order gateway o return_url);
  o' ← assign o (set_gateway gateway provider_order_id checkout_url);
  mret (o', checkout_url, client_secret).

Definition cancel (now : datetime) (o : Order) (reason : option string) : M Db Order :=
  _ ← raise_when (settled o) (app_error ConflictError "order_already_paid");
  _ ← raise_when (negb (cancellable o)) (app_error ConflictError "order_not_cancellable");
  o' ← assign o (set_cancelled now reason);
  _ ← on_coupons (release (o_id o));
  mret o'.

(** [(reason or "")[:500] or None] *)
Definition failure_text (reason : option string) : option string :=
  let s := stake 500 (default "" reason) in if String.eqb s "" then None else Some s.

Definition mark_failed (o : Order) (reason : option string) : M Db Order :=
  if settled o then mret o else assign o (set_failed (failure_text reason)).

(** True only the first time. *)
Definition mark_paid (now : datetime) (o : Order) : M Db (bool * Order) :=
  if settled o then mret (false, o)
  else o' ← assign o (set_paid now); mret (true, o').

Definition refund_status (o : Order) (refunded : Z) : OrderStatus :=
  if o_total_minor o <=? refunded then REFUNDED else PARTIALLY_REFUNDED.

Definition apply_refund (o : Order) (amount_minor : Z) : M Db Order :=
  _ ← raise_when (amount_minor <=? 0) (app_error BadRequestError "");
  _ ← raise_when (refundable_minor o <? amount_minor) (app_error BadRequestError "refund_exceeds_remaining");
  let refunded := o_refunded_minor o + amount_minor in
  let st := refund_status o refunded in
  _ ← raise_when (negb (order_checks (set_refunded refunded st o))) IntegrityErr;
  assign o (set_refunded refunded st).

(** ** Housekeeping *)

Definition stale_at (now : datetime) (o : Order) : bool :=
  cancellable o && match oc_expires_at (o_cols o) with Some t => t <? now | None => false end.

Definition expire_one (now : datetime) (o : Order) : M Db unit :=
  _ ← assign o (set_cancelled now (Some "Expired before payment."));
  on_coupons (release (o_id o)).

(** [scan] is the order in which the database returns rows the query does
    not order. *)
Definition expire_stale (scan : list Order -> list Order) (now : datetime) (batch : nat) : M Db Z :=
  d ← get;
  let stale := take batch (scan (select (stale_at now) (orders d))) in
  _ ← for_each (expire_one now) stale;
  mret (Z.of_nat (length stale)).

Definition require_owner (o : Order) (user_id : uuid) : result unit :=
  if negb (o_user_id o =? user_id)%N then Raise (app_error ForbiddenError "") else Ok tt.
End orders.

(** ** The state machine *)

(** One transition of an order: what each operation assigns, and when. *)
Inductive moved (o : Order) : Order -> Prop :=
  | mv_gateway p poid url : o_status o = PENDING -> moved o (set_gateway p poid url o)
  | mv_cancel now reason : cancellable o = true -> moved o (set_cancelled now reason o)
  | mv_fail reason : settled o = false -> moved o (set_failed reason o)
  | mv_pay now : settled o = false -> moved o (set_paid now o)
  | mv_refund a : is_paid o = true -> 0 < a <= refundable_minor o ->
      moved o (set_refunded (o_refunded_minor o + a) (refund_status o (o_refunded_minor o + a)) o).

(** What holds of every stored order: the constraints, and the reading of the
    status as a summary of the money that moved. *)
Record order_ok (o : Order) : Prop := {
  ok_checks : order_checks o = true;
  ok_status : match o_status o with
              | PARTIALLY_REFUNDED => 0 < o_refunded_minor o < o_total_minor o
              | REFUNDED => 0 < o_refunded_minor o /\ o_refunded_minor o = o_total_minor o
              | _ => o_refunded_minor o = 0
              end;
  ok_paid_at : settled o = true -> is_Some (o_paid_at o);
}.

Lemma settled_status o : settled o = true <-> o_status o = PAID \/ o_status o = PARTIALLY_REFUNDED \/ o_status o = REFUNDED.
Proof. unfold settled, SETTLED. rewrite bool_decide_eq_true. set_solver. Qed.

Lemma cancellable_status o : cancellable o = true <-> o_status o = PENDING \/ o_status o = AWAITING_PAYMENT.
Proof. unfold cancellable, CANCELLABLE. rewrite bool_decide_eq_true. set_solver. Qed.

Lemma is_paid_status o : is_paid o = true <-> o_status o = PAID \/ o_status o = PARTIALLY_REFUNDED.
Proof. unfold is_paid. by rewrite bool_decide_eq_true. Qed.

Lemma unsettled_refunded o : order_ok o -> settled o = false -> o_refunded_minor o = 0.
Proof.
  intros [_ Hs _] Hn. destruct (o_status o) eqn:E; try done;
    assert (settled o = true) by (apply settled_status; rewrite E; auto); congruence.
Qed.

Lemma moved_cols o o' : moved o o' -> o_id o' = o_id o /\ o_cols o' = o_cols o.
Proof. by intros []. Qed.

Lemma order_checks_bounds o :
  order_checks o = true -> 0 <= o_refunded_minor o <= o_total_minor o.
Proof. unfold order_checks. intros. zbool. Qed.

Lemma moved_ok o o' : order_ok o -> moved o o' -> order_ok o'.
Proof.
  intros Hok Hm. pose proof (order_checks_bounds o (ok_checks o Hok)) as Hb.
  destruct Hm as [p poid url Hs|now reason Hc|reason Hs|now Hs|a Hp Ha].
  - destruct Hok as [Hch Hst Hpaid]. rewrite Hs in Hst. constructor; [exact Hch|exact Hst|].
    intros [|[|]]%settled_status; done.
  - assert (o_refunded_minor o = 0).
    { destruct Hok as [_ Hst _]. apply cancellable_status in Hc as [E|E]; by rewrite E in Hst. }
    constructor; [apply Hok|done|]. intros [|[|]]%settled_status; done.
  - constructor; [apply Hok|cbn; by apply unsettled_refunded|]. intros [|[|]]%settled_status; done.
  - constructor; [apply Hok|cbn; by apply unsettled_refunded|]. intros _. by eexists.
  - assert (Hr : 0 <= o_refunded_minor o /\ o_refunded_minor o < o_total_minor o).
    { unfold refundable_minor in Ha. lia. }
    unfold refundable_minor in Ha. constructor.
    + pose proof (ok_checks o Hok) as Hch. unfold order_checks, o_total_minor in *. cbn.
      rewrite !andb_true_iff, !Z.leb_le in *. lia.
    + unfold refund_status, o_total_minor in *. cbn in *. destruct (_ <=? _) eqn:E; lia.
    + intros _. apply Hok. apply is_paid_status in Hp as [E|E]; apply settled_status; auto.
Qed.

(** A settled order stays settled, and a refund is never taken back. *)
Lemma moved_settled o o' : order_ok o -> moved o o' ->
  (settled o = true -> settled o' = true) /\ o_refunded_minor o <= o_refunded_minor o'.
Proof.
  intros Hok Hm. split.
  - intros Hs. destruct Hm as [p poid url H|now reason H|reason H|now H|a Hp Ha].
    + apply settled_status in Hs as [E|[E|E]]; rewrite E in H; discriminate.
    + apply settled_status in Hs. apply cancellable_status in H. destruct Hs as [E|[E|E]], H as [F|F]; rewrite E in F; discriminate.
    + congruence.
    + congruence.
    + apply settled_status. cbn. unfold refund_status. destruct (_ <=? _); auto.
  - destruct Hm; cbn; lia.
Qed.

Lemma moves_ok o o' : order_ok o -> rtc moved o o' -> order_ok o'.
Proof. intros Hok H. induction H; eauto using moved_ok. Qed.

Lemma moves_cols o o' : rtc moved o o' -> o_id o' = o_id o /\ o_cols o' = o_cols o.
Proof.
  induction 1 as [|o o1 o' H1 _ [IH1 IH2]]; [done|].
  apply moved_cols in H1 as [H1 H2]. split; congruence.
Qed.

Lemma moves_settled o o' : order_ok o -> rtc moved o o' ->
  (settled o = true -> settled o' = true) /\ o_refunded_minor o <= o_refunded_minor o'.
Proof.
  intros Hok H. induction H as [|o o1 o' H1 _ IH]; [split; [done|lia]|].
  destruct (moved_settled _ _ Hok H1). destruct (IH (moved_ok _ _ Hok H1)). split; [auto|lia].
Qed.

(** ** The invariant of the order tables *)

Record OrdersInv (d : Db) : Prop := {
  oi_keyed : keyed (orders d);
  oi_rows : map_Forall (fun _ o => order_ok o) (orders d);
  oi_number : unique_on order_number_col (orders d);
  oi_idem : unique_on idempotency_col (orders d);
  oi_coupons : CouponInv (coupon_store d);
  oi_redeemed : forall k r, redemptions (coupon_store d) !! k = Some r ->
                  is_Some (orders d !! rd_order_id r);
}.

(** The rows of [t'] are those of [t], moved, and new sound ones. *)
Definition evolves (d d' : Db) : Prop :=
  forall k o, orders d !! k = Some o -> exists o', orders d' !! k = Some o' /\ rtc moved o o'.

#[export] Instance evolves_preorder : PreOrder evolves.
Proof.
  split.
  - intros d k o H. exists o. split; [done|apply rtc_refl].
  - intros d1 d2 d3 H12 H23 k o H. destruct (H12 k o H) as (o2 & H2 & M2).
    destruct (H23 k o2 H2) as (o3 & H3 & M3). exists o3. split; [done|by etransitivity].
Qed.

(** Assigning to a fresh object is one move of its row. *)
Lemma assign_eq o f d : assign o f d = (Ok (f o), set_orders (alter f (o_id o) (orders d)) d).
Proof. reflexivity. Qed.

Lemma alter_save o f d :
  orders d !! o_id o = Some o -> o_id (f o) = o_id o ->
  alter f (o_id o) (orders d) = save (f o) (orders d).
Proof.
  intros Ho Hf. unfold save, row_id, Order_row. rewrite Hf. apply map_eq. intros i.
  destruct (decide (i = o_id o)) as [->|Hne].
  - by rewrite lookup_alter_eq, lookup_insert_eq, Ho.
  - by rewrite lookup_alter_ne, lookup_insert_ne by done.
Qed.

Lemma assign_moved o f d :
  OrdersInv d -> orders d !! o_id o = Some o -> moved o (f o) ->
  let d' := set_orders (alter f (o_id o) (orders d)) d in
  OrdersInv d' /\ evolves d d' /\ orders d' !! o_id o = Some (f o).
Proof.
  intros Hinv Ho Hm d'. destruct (moved_cols _ _ Hm) as [Hid Hcols].
  assert (Hd' : orders d' = save (f o) (orders d)) by (by apply alter_save).
  assert (Hl : forall k, orders d' !! k = if decide (o_id o = k) then Some (f o) else orders d !! k).
  { intros k. rewrite Hd', lookup_save. unfold row_id, Order_row. by rewrite Hid. }
  destruct Hinv as [Hk Hr Hn Hi Hc Hrd]. split; [|split].
  - constructor; try done.
    + rewrite Hd'. by apply keyed_save.
    + intros k v. rewrite Hl. case_decide; [|by apply Hr]. intros [= <-].
      eapply moved_ok; [|done]. by eapply Hr.
    + rewrite Hd'. apply (unique_save_same _ _ o); try done; unfold row_id, Order_row, order_number_col.
      * by rewrite Hid.
      * by rewrite Hcols.
    + rewrite Hd'. apply (unique_save_same _ _ o); try done; unfold row_id, Order_row, idempotency_col.
      * by rewrite Hid.
      * by rewrite Hcols.
    + intros k r H. rewrite Hl. case_decide; [by eexists|]. by eapply Hrd.
  - intros k v Hv. rewrite Hl. case_decide as E; [|exists v; split; [done|apply rtc_refl]].
    subst k. assert (v = o) as -> by congruence. exists (f o). split; [done|by apply rtc_once].
  - rewrite Hl. by rewrite decide_True.
Qed.

(** Releasing coupons keeps the invariant and every order. *)
Lemma release_keeps oid d u d' :
  OrdersInv d -> on_coupons (release oid) d = (u, d') ->
  OrdersInv d' /\ u = Ok tt /\ orders d' = orders d /\
  (forall k r, redemptions (coupon_store d') !! k = Some r <->
               redemptions (coupon_store d) !! k = Some r /\ rd_order_id r <> oid).
Proof.
  intros [Hk Hr Hn Hi Hc Hrd] (s' & Hrel & ->)%on_coupons_inv.
  pose proof (ci_rkeyed _ Hc) as Hrk.
  apply release_preserves in Hrel as (Hc' & -> & Hrs); [|done]. cbn.
  set (P := fun r => (rd_order_id r =? oid)%N) in *.
  assert (Hdel : forall k r, redemptions s' !! k = Some r <->
            redemptions (coupon_store d) !! k = Some r /\ rd_order_id r <> oid).
  { intros k r. rewrite Hrs. etransitivity; [apply (lookup_delete_rows (V := CouponRedemption))|]. split.
    - intros [H Hno]. split; [done|]. intros E. apply Hno. exists r.
      split; [|by apply (Hrk k r)]. apply elem_of_select. split; [eauto|].
      unfold P. by apply N.eqb_eq.
    - intros [H Hne]. split; [done|]. intros (q & [Hq HP]%elem_of_select_keyed & Hid); [|done].
      assert (E : Some q = Some r) by (rewrite <- H, <- Hid; symmetry; exact Hq).
      injection E as ->. unfold P in HP. by apply N.eqb_eq in HP. }
  split; [|done]. constructor; try done. cbn. intros k r [H _]%Hdel. by eapply Hrd.
Qed.

(** What a successful creation did. *)
Lemma create_inv st now draws before uid p cart key email d o d' :
  create st now draws before uid p cart key email d = (Ok o, d') ->
  assert_consistent cart = Ok tt /\
  o = new_order st now draws (fresh_id (orders d)) uid p cart key email /\
  order_accepted o (orders d) = true /\
  let d1 := set_orders (save o (orders d)) d in
  (d' = d1 /\ (pc_coupon_applied cart = false \/ pc_coupon_id cart = None)) \/
  (exists cid c r s', pc_coupon_id cart = Some cid /\ pc_coupon_applied cart = true /\
     coupons (coupon_store d) !! cid = Some c /\
     redeem c (o_id o) uid (pc_discount_minor cart) (coupon_store d) = (Ok r, s') /\
     d' = set_coupon_store s' d1).
Proof.
  unfold create. intros H. run_step H. injection Hrun as Ha <-. destruct a.
  apply bind_ok_inv in H as (d0 & s0 & [= <- <-] & H).
  set (o1 := new_order _ _ _ _ _ _ _ _ _) in *.
  destruct (order_accepted o1 (orders d)) eqn:Hacc; cbn [negb] in H.
  2:{ apply bind_ok_inv in H as (? & ? & _ & H). discriminate. }
  apply bind_ok_inv in H as ([] & s1 & [= <-] & H).
  apply bind_ok_inv in H as ([] & s2 & Hc & [= <- <-]).
  split; [done|]. split; [done|]. split; [done|].
  destruct (pc_coupon_id cart) as [cid|]; [|left; injection Hc as <-; auto].
  destruct (pc_coupon_applied cart); [|left; injection Hc as <-; auto].
  right. run_step Hc. run_step Hc. injection Hc as <-.
  apply on_coupons_inv in Hrun as (s' & Hg & ->). unfold get_coupon in Hg.
  apply bind_ok_inv in Hg as (cs & ? & [= <- <-] & Hg). cbn in Hg.
  destruct (coupons (coupon_store d) !! cid) as [c|] eqn:Hcid; [|discriminate].
  injection Hg as <- <-. apply on_coupons_inv in Hrun0 as (s'' & Hr & ->).
  exists cid, c, a0, s''. done.
Qed.

Lemma new_order_ok st now draws id uid p cart key email :
  order_checks (new_order st now draws id uid p cart key email) = true ->
  order_ok (new_order st now draws id uid p cart key email).
Proof. intros H. constructor; [done|done|]. intros [|[|]]%settled_status; done. Qed.

Lemma unique_save_new {K} `{!EqDecision K} (col : Order -> option K) o t :
  keyed t -> unique_on col t -> conflicts col o t = false -> unique_on col (save o t).
Proof.
  intros Hk Hu Hc. apply (insert_unique_preserves col o t (save o t) Hk Hu).
  unfold insert_unique. by rewrite Hc.
Qed.

Lemma save_order_inv o d :
  OrdersInv d -> orders d !! o_id o = None -> order_ok o ->
  conflicts order_number_col o (orders d) = false -> conflicts idempotency_col o (orders d) = false ->
  OrdersInv (set_orders (save o (orders d)) d) /\ evolves d (set_orders (save o (orders d)) d).
Proof.
  intros [Hk Hr Hn Hi Hc Hrd] Hnone Hok Hcn Hci. split.
  - constructor; try done; cbn.
    + by apply keyed_save.
    + by apply map_Forall_insert_2.
    + by apply unique_save_new.
    + by apply unique_save_new.
    + intros k r H. rewrite lookup_save. case_decide; [done|]. by eapply Hrd.
  - intros k v Hv. exists v. cbn. rewrite lookup_save_other; [split; [done|apply rtc_refl]|].
    unfold row_id, Order_row. intros E. congruence.
Qed.

(** Redeeming for an order that is there keeps the invariant. *)
Lemma redeem_keeps_orders d cid c oid uid amount r s' :
  OrdersInv d -> coupons (coupon_store d) !! cid = Some c -> is_Some (orders d !! oid) ->
  redeem c oid uid amount (coupon_store d) = (Ok r, s') ->
  OrdersInv (set_coupon_store s' d) /\ limit_current c (coupon_store d).
Proof.
  intros [Hk Hr Hn Hi Hc Hrd] Hcid Ho Hred.
  assert (Hcur : limit_current c (coupon_store d)).
  { intros c' Hc'. pose proof (coupon_key _ _ _ (ci_keyed _ Hc) Hcid) as E. rewrite E in Hc'. congruence. }
  split; [|done]. constructor; try done; cbn; [by eapply redeem_preserves|].
  apply redeem_ok_inv in Hred as (_ & _ & -> & _ & Hins%insert_unique_ok); [|apply Hc].
  intros k q. rewrite Hins, lookup_save. case_decide; [|by apply Hrd]. intros [= <-]. done.
Qed.

Lemma order_accepted_inv o t : order_accepted o t = true ->
  order_checks o = true /\ conflicts order_number_col o t = false /\ conflicts idempotency_col o t = false.
Proof. unfold order_accepted. intros. by bool_to_prop. Qed.

Lemma create_keeps st now draws before uid p cart key email d o d' :
  OrdersInv d -> create st now draws before uid p cart key email d = (Ok o, d') ->
  OrdersInv d' /\ evolves d d' /\ orders d' !! o_id o = Some o /\ o_status o = PENDING /\
  orders d !! o_id o = None.
Proof.
  intros Hinv (_ & Ho & (Hch & Hcn & Hci)%order_accepted_inv & Hd)%create_inv. cbv zeta in Hd.
  assert (Hnone : orders d !! o_id o = None) by (rewrite Ho; apply fresh_id_None).
  assert (Hok : order_ok o) by (rewrite Ho in *; by apply new_order_ok).
  assert (Hst : o_status o = PENDING) by (rewrite Ho; reflexivity).
  destruct (save_order_inv o d Hinv Hnone Hok Hcn Hci) as [Hinv1 Hev].
  assert (Hl : save o (orders d) !! o_id o = Some o) by apply (lookup_save_same (orders d) o).
  destruct Hd as [[-> _]|(cid & c & r & s' & _ & _ & Hcid & Hred & ->)].
  - done.
  - destruct (redeem_keeps_orders (set_orders (save o (orders d)) d) cid c _ _ _ _ _ Hinv1 Hcid
                ltac:(by eexists) Hred) as [H2 _]. done.
Qed.

(** Each transition on a fresh object is one move, and the row is the object. *)
Lemma attach_gateway_inv resolve co o p url d r d' :
  attach_gateway resolve co o p url d = (r, d') ->
  (exists pr poid u secret, r = Ok (set_gateway pr poid u o, u, secret) /\
     d' = set_orders (alter (set_gateway pr poid u) (o_id o) (orders d)) d) \/
  (d' = d /\ exists e, r = Raise e).
Proof.
  unfold attach_gateway. intros [(pr & s1 & Hr & H)|(e & Hr & ->)]%bind_inv; injection Hr as Hr <-; [|eauto].
  apply bind_inv in H as [([[poid u] secret] & s2 & Hc & H)|(e & Hc & ->)]; injection Hc as Hc <-; [|eauto].
  left. exists pr, poid, u, secret. unfold mbind, M_bind in H. rewrite assign_eq in H. by injection H as <- <-.
Qed.

Lemma cancel_inv now o reason d r d' :
  cancel now o reason d = (r, d') ->
  (cancellable o = true /\ settled o = false /\
     exists d1 u, d1 = set_orders (alter (set_cancelled now reason) (o_id o) (orders d)) d /\
       on_coupons (release (o_id o)) d1 = (u, d') /\ (u = Ok tt -> r = Ok (set_cancelled now reason o))) \/
  (cancellable o = false /\ d' = d /\ r = Raise (AppErr ConflictError
     (if settled o then "order_already_paid" else "order_not_cancellable"))).
Proof.
  assert (Hdis : settled o = true -> cancellable o = false).
  { intros Hs%settled_status. apply not_true_iff_false. rewrite cancellable_status.
    destruct Hs as [E|[E|E]]; rewrite E; intros [|]; done. }
  unfold cancel, raise_when. destruct (settled o) eqn:Hs.
  { cbv [mbind M_bind raise]. intros [= <- <-]. right. auto. }
  destruct (cancellable o) eqn:Hc; cbn [negb].
  2:{ cbv [mbind M_bind raise mret M_ret]. intros [= <- <-]. right. auto. }
  intros H. left. split; [done|]. split; [done|].
  cbv [mbind M_bind mret M_ret] in H. rewrite assign_eq in H. cbv beta iota in H.
  destruct (on_coupons (release (o_id o)) _) as [[u|e] d2] eqn:E; injection H as <- <-.
  - eexists _, (Ok u). split; [done|]. split; [exact E|]. done.
  - eexists _, (Raise e). split; [done|]. split; [exact E|]. done.
Qed.

Lemma cancel_keeps now o reason d r d' :
  OrdersInv d -> orders d !! o_id o = Some o -> cancel now o reason d = (r, d') ->
  OrdersInv d' /\ evolves d d' /\
  (cancellable o = true -> r = Ok (set_cancelled now reason o) /\
     orders d' !! o_id o = Some (set_cancelled now reason o) /\
     forall k q, redemptions (coupon_store d') !! k = Some q <->
                 redemptions (coupon_store d) !! k = Some q /\ rd_order_id q <> o_id o).
Proof.
  intros Hinv Ho [(Hc & _ & d1 & u & -> & Hrel & Hr)|(Hc & -> & _)]%cancel_inv; [|by rewrite Hc].
  destruct (assign_moved o (set_cancelled now reason) d Hinv Ho (mv_cancel o now reason Hc)) as (H1 & H2 & H3).
  destruct (release_keeps _ _ _ _ H1 Hrel) as (H4 & Hu & H5 & H6).
  split; [done|]. split; [|intros _].
  - intros k v Hv. rewrite H5. by apply H2.
  - split; [by apply Hr|]. split; [by rewrite H5|done].
Qed.

Lemma mark_failed_keeps o reason d r d' :
  OrdersInv d -> orders d !! o_id o = Some o -> mark_failed o reason d = (r, d') ->
  OrdersInv d' /\ evolves d d'.
Proof.
  unfold mark_failed. intros Hinv Ho. destruct (settled o) eqn:Hs.
  - intros [= <- <-]. done.
  - rewrite assign_eq. intros [= <- <-].
    destruct (assign_moved o (set_failed (failure_text reason)) d Hinv Ho (mv_fail o _ Hs)) as (? & ? & ?).
    done.
Qed.

Lemma mark_paid_inv now o d r d' :
  mark_paid now o d = (r, d') ->
  (settled o = true /\ r = Ok (false, o) /\ d' = d) \/
  (settled o = false /\ r = Ok (true, set_paid now o) /\
     d' = set_orders (alter (set_paid now) (o_id o) (orders d)) d).
Proof.
  unfold mark_paid. destruct (settled o); [intros [= <- <-]; auto|].
  cbv [mbind M_bind]. rewrite assign_eq. intros [= <- <-]. auto.
Qed.

Lemma mark_paid_keeps now o d r d' :
  OrdersInv d -> orders d !! o_id o = Some o -> mark_paid now o d = (r, d') ->
  OrdersInv d' /\ evolves d d' /\
  exists b o', r = Ok (b, o') /\ orders d' !! o_id o = Some o' /\ settled o' = true.
Proof.
  intros Hinv Ho [(Hs & -> & ->)|(Hs & -> & ->)]%mark_paid_inv.
  - split; [done|]. split; [done|]. eauto.
  - destruct (assign_moved o (set_paid now) d Hinv Ho (mv_pay o now Hs)) as (? & ? & ?).
    split; [done|]. split; [done|]. do 2 eexists. split; [done|]. split; [done|].
    apply settled_status. auto.
Qed.

Lemma apply_refund_inv o a d r d' :
  apply_refund o a d = (r, d') ->
  (0 < a <= refundable_minor o /\
     r = Ok (set_refunded (o_refunded_minor o + a) (refund_status o (o_refunded_minor o + a)) o) /\
     d' = set_orders (alter (set_refunded (o_refunded_minor o + a)
                               (refund_status o (o_refunded_minor o + a))) (o_id o) (orders d)) d) \/
  (d' = d /\ exists e, r = Raise e).
Proof.
  unfold apply_refund, raise_when. intros H.
  destruct (a <=? 0) eqn:E1; [injection H as <- <-; eauto|].
  destruct (refundable_minor o <? a) eqn:E2; [injection H as <- <-; eauto|].
  cbv zeta in H. destruct (order_checks _) eqn:E3.
  - cbv [mbind M_bind mret M_ret negb] in H. rewrite assign_eq in H. injection H as <- <-.
    left. split; [lia|done].
  - cbv [mbind M_bind mret M_ret negb raise] in H. injection H as <- <-. eauto.
Qed.

Lemma apply_refund_keeps o a d r d' :
  OrdersInv d -> orders d !! o_id o = Some o -> is_paid o = true -> apply_refund o a d = (r, d') ->
  OrdersInv d' /\ evolves d d'.
Proof.
  intros Hinv Ho Hp [(Ha & -> & ->)|(-> & _)]%apply_refund_inv; [|done].
  destruct (assign_moved o _ d Hinv Ho (mv_refund o a Hp Ha)) as (? & ? & ?). done.
Qed.

(** *** The expiry sweep *)

Lemma expire_one_keeps now o d u d' :
  OrdersInv d -> orders d !! o_id o = Some o -> cancellable o = true ->
  expire_one now o d = (u, d') ->
  OrdersInv d' /\ evolves d d' /\ u = Ok tt /\
  orders d' = <[o_id o := set_cancelled now (Some "Expired before payment.") o]> (orders d) /\
  (forall k q, redemptions (coupon_store d') !! k = Some q <->
     redemptions (coupon_store d) !! k = Some q /\ rd_order_id q <> o_id o).
Proof.
  intros Hinv Ho Hc H. unfold expire_one, mbind, M_bind in H. rewrite assign_eq in H.
  destruct (assign_moved o _ d Hinv Ho (mv_cancel o now (Some "Expired before payment.") Hc)) as (H1 & H2 & _).
  destruct (release_keeps _ _ _ _ H1 H) as (H4 & -> & H5 & H6).
  split; [done|]. split; [intros k v Hv; rewrite H5; by apply H2|]. split; [done|].
  split; [|done]. rewrite H5. by apply (alter_save o).
Qed.

Lemma expire_loop now l : forall d u d',
  OrdersInv d -> NoDup (map o_id l) ->
  (forall o, o ∈ l -> orders d !! o_id o = Some o /\ cancellable o = true) ->
  for_each (expire_one now) l d = (u, d') ->
  OrdersInv d' /\ evolves d d' /\ u = Ok tt /\
  (forall k, orders d' !! k =
     match List.find (fun o => (o_id o =? k)%N) l with
     | Some o => Some (set_cancelled now (Some "Expired before payment.") o)
     | None => orders d !! k
     end) /\
  (forall k q, redemptions (coupon_store d') !! k = Some q <->
     redemptions (coupon_store d) !! k = Some q /\ ~ rd_order_id q ∈ map o_id l).
Proof.
  induction l as [|o l IH]; intros d u d' Hinv Hnd Hin; cbn [for_each].
  { intros [= <- <-]. split; [done|]. split; [done|]. split; [done|]. split; [done|]. set_solver. }
  apply NoDup_cons in Hnd as [Hno Hnd].
  destruct (Hin o ltac:(constructor)) as [Ho Hc]. intros H.
  destruct (expire_one now o d) as [u1 d1] eqn:E1.
  destruct (expire_one_keeps now o d u1 d1 Hinv Ho Hc E1) as (H1 & H2 & -> & H3 & H4).
  rewrite (bind_ok _ _ _ _ _ E1) in H.
  destruct (IH d1 u d' H1 Hnd) as (H5 & H6 & H7 & H8 & H9); [|done|].
  { intros v Hv. destruct (Hin v ltac:(by right)) as [Hv1 Hv2]. split; [|done].
    rewrite H3, lookup_insert_ne; [done|]. intros E. apply Hno. rewrite E. by apply list_elem_of_fmap_2. }
  split; [done|]. split; [by etransitivity|]. split; [done|]. split.
  - intros k. rewrite H8, H3. cbn [List.find]. destruct (N.eqb_spec (o_id o) k) as [<-|Hne].
    + destruct (List.find _ l) as [v|] eqn:Ef; [|by rewrite lookup_insert_eq].
      apply find_some in Ef as [Hv Ev%N.eqb_eq]. exfalso. apply Hno. rewrite <- Ev.
      apply list_elem_of_fmap_2. by apply list_elem_of_In.
    + destruct (List.find _ l); [done|]. by rewrite lookup_insert_ne.
  - intros k q. rewrite H9, H4. cbn [map]. set_solver.
Qed.

Lemma NoDup_map_key (l : list Order) t :
  keyed t -> NoDup l -> (forall o, o ∈ l -> t !! o_id o = Some o) -> NoDup (map o_id l).
Proof.
  intros Hk Hnd Hin. apply NoDup_fmap_2_strong; [|done]. intros a b Ha Hb E.
  apply Hin in Ha, Hb. rewrite E, Hb in Ha. by simplify_eq.
Qed.

Lemma stale_rows d now batch scan : OrdersInv d -> (forall l, scan l ≡ₚ l) ->
  let stale := take batch (scan (select (stale_at now) (orders d))) in
  NoDup (map o_id stale) /\
  forall o, o ∈ stale -> orders d !! o_id o = Some o /\ stale_at now o = true.
Proof.
  intros Hinv Hscan stale.
  assert (Hin : forall o, o ∈ stale -> orders d !! o_id o = Some o /\ stale_at now o = true).
  { intros o (i & Hi & _)%elem_of_take. apply list_elem_of_lookup_2 in Hi. rewrite Hscan in Hi.
    apply elem_of_select_keyed in Hi; [done|apply Hinv]. }
  split; [|done]. apply (NoDup_map_key _ (orders d)); [apply Hinv| |intros o Ho; by apply Hin].
  apply (sublist_NoDup _ (scan (select (stale_at now) (orders d)))); [|apply sublist_take].
  rewrite Hscan. apply NoDup_select, Hinv.
Qed.

Lemma expire_stale_inv scan now batch d r d' :
  OrdersInv d -> (forall l, scan l ≡ₚ l) -> expire_stale scan now batch d = (r, d') ->
  let stale := take batch (scan (select (stale_at now) (orders d))) in
  OrdersInv d' /\ evolves d d' /\ r = Ok (Z.of_nat (length stale)) /\
  (forall k, orders d' !! k =
     match List.find (fun o => (o_id o =? k)%N) stale with
     | Some o => Some (set_cancelled now (Some "Expired before payment.") o)
     | None => orders d !! k
     end) /\
  (forall k q, redemptions (coupon_store d') !! k = Some q <->
     redemptions (coupon_store d) !! k = Some q /\ ~ rd_order_id q ∈ map o_id stale).
Proof.
  intros Hinv Hscan H stale. unfold expire_stale in H. cbv [get] in H.
  apply bind_inv in H as [(d0 & s0 & [= <- <-] & H)|(e & Hx & _)]; [|discriminate].
  cbv zeta in H. fold stale in H. destruct (stale_rows d now batch scan Hinv Hscan) as [Hnd Hin].
  destruct (for_each (expire_one now) stale d) as [u d1] eqn:Hl.
  assert (Hpre : forall o, o ∈ stale -> orders d !! o_id o = Some o /\ cancellable o = true).
  { intros o Ho. destruct (Hin o Ho) as [Ho1 Ho2]. split; [done|]. unfold stale_at in Ho2. by bool_to_prop. }
  destruct (expire_loop now stale d u d1 Hinv Hnd Hpre Hl) as (H1 & H2 & -> & H3 & H4).
  unfold mbind, M_bind in H. rewrite Hl in H. injection H as <- <-. done.
Qed.

(** ** The transactions of the order tables

    Each committed transaction loads the order it changes (so the object is
    the row); a method that raises is rolled back by the session. *)
Inductive order_step (st : Settings) : Db -> Db -> Prop :=
  | st_create now draws before uid p cart key email o d d' :
      create st now draws before uid p cart key email d = (Ok o, d') -> order_step st d d'
  | st_attach resolve co o p url r d d' :
      orders d !! o_id o = Some o -> o_status o = PENDING ->
      attach_gateway resolve co o p url d = (Ok r, d') -> order_step st d d'
  | st_cancel now o reason r d d' :
      orders d !! o_id o = Some o -> cancel now o reason d = (r, d') -> order_step st d d'
  | st_failed o reason r d d' :
      orders d !! o_id o = Some o -> mark_failed o reason d = (r, d') -> order_step st d d'
  | st_paid now o r d d' :
      orders d !! o_id o = Some o -> mark_paid now o d = (r, d') -> order_step st d d'
  | st_refund o a r d d' :
      orders d !! o_id o = Some o -> is_paid o = true ->
      apply_refund o a d = (r, d') -> order_step st d d'
  | st_expire scan now batch r d d' :
      (forall l, scan l ≡ₚ l) -> expire_stale scan now batch d = (r, d') -> order_step st d d'.

Lemma order_step_keeps st d d' : OrdersInv d -> order_step st d d' -> OrdersInv d' /\ evolves d d'.
Proof.
  intros Hinv H. destruct H as [now draws before uid p cart key email o d d' H
    |resolve co o p url r d d' Ho Hs H|now o reason r d d' Ho H|o reason r d d' Ho H
    |now o r d d' Ho H|o a r d d' Ho Hp H|scan now batch r d d' Hscan H].
  - by destruct (create_keeps _ _ _ _ _ _ _ _ _ _ _ _ Hinv H) as (? & ? & _).
  - apply attach_gateway_inv in H as [(pr & poid & u & secret & _ & ->)|(_ & e & He)]; [|done].
    by destruct (assign_moved o _ d Hinv Ho (mv_gateway o pr poid u Hs)) as (? & ? & _).
  - by destruct (cancel_keeps _ _ _ _ _ _ Hinv Ho H) as (? & ? & _).
  - by eapply mark_failed_keeps.
  - by destruct (mark_paid_keeps _ _ _ _ _ Hinv Ho H) as (? & ? & _).
  - by eapply apply_refund_keeps.
  - by destruct (expire_stale_inv _ _ _ _ _ _ Hinv Hscan H) as (? & ? & _).
Qed.

Lemma order_steps_keep st d d' : OrdersInv d -> rtc (order_step st) d d' -> OrdersInv d' /\ evolves d d'.
Proof.
  intros Hinv H. induction H as [|d d1 d' H1 _ IH]; [done|].
  destruct (order_step_keeps _ _ _ Hinv H1) as [Hinv1 E1]. destruct (IH Hinv1) as [? ?].
  split; [done|by etransitivity].
Qed.

Lemma empty_orders_inv : OrdersInv empty_db.
Proof.
  constructor; cbn; auto with store; try apply empty_coupon_inv; try (intros *; by rewrite lookup_empty).
  apply map_Forall_empty.
Qed.

(** ** Properties *)

(** C4: Money that moved is never forgotten.  Along any sequence of committed
    transactions on the order tables, every order stays where it is with the
    same buyer, lines and amounts; the refunded amount never decreases and
    never exceeds the total; and an order that was paid stays paid or refunded:
    no late failure, cancellation, expiry or gateway attachment un-pays it. *)
Theorem settled_never_downgraded st d d' k o
    (Hinv : OrdersInv d) (Hsteps : rtc (order_step st) d d') (Ho : orders d !! k = Some o) :
  exists o', orders d' !! k = Some o' /\ o_cols o' = o_cols o /\
    o_refunded_minor o <= o_refunded_minor o' <= o_total_minor o' /\
    (settled o = true -> settled o' = true).
Proof.
  destruct (order_steps_keep st d d' Hinv Hsteps) as [Hinv' Hev].
  destruct (Hev k o Ho) as (o' & Ho' & Hm). exists o'. split; [done|].
  destruct (moves_cols _ _ Hm) as [_ Hc]. pose proof (oi_rows d Hinv k o Ho) as Hok.
  destruct (moves_settled _ _ Hok Hm) as [Hs Hr]. split; [done|].
  pose proof (order_checks_bounds o' (ok_checks _ (oi_rows d' Hinv' k o' Ho'))). split; [lia|done].
Qed.

(** An order is settled once.  When [mark_paid] returns True the order was
    not settled before and is stored as PAID with the payment time; and in
    every later state of the tables, [mark_paid] on the stored order returns
    False and writes nothing, so the side effects of payment run once. *)
Theorem mark_paid_exactly_once st now now' d d1 d2 o o' o2
    (Hinv : OrdersInv d) (Ho : orders d !! o_id o = Some o)
    (Hpay : mark_paid now o d = (Ok (true, o'), d1))
    (Hsteps : rtc (order_step st) d1 d2) (Ho2 : orders d2 !! o_id o = Some o2) :
  settled o = false /\ o_status o' = PAID /\ o_paid_at o' = Some now /\
  orders d1 !! o_id o = Some o' /\ mark_paid now' o2 d2 = (Ok (false, o2), d2).
Proof.
  destruct (mark_paid_keeps now o d _ d1 Hinv Ho Hpay) as (Hinv1 & _ & b & o1 & [= <- <-] & Hl & Hs1).
  apply mark_paid_inv in Hpay as [(_ & [=] & _)|(Hs & [= ->] & _)].
  repeat (split; [done|]).
  destruct (order_steps_keep st d1 d2 Hinv1 Hsteps) as [_ Hev].
  destruct (Hev _ _ Hl) as (o2' & Ho2' & Hm). assert (o2' = o2) as -> by congruence.
  destruct (moves_settled _ _ (oi_rows d1 Hinv1 _ _ Hl) Hm) as [Hset _].
  unfold mark_paid. by rewrite Hset.
Qed.

(** The state machine.  In every reachable state the status of an order is
    an accurate summary of its money: nothing refunded before REFUNDED or
    PARTIALLY_REFUNDED, a partial refund strictly between zero and the total,
    REFUNDED exactly at the total, a payment time on every settled order; and
    order numbers and idempotency keys are unique. *)
Theorem order_status_accurate st d (Hsteps : rtc (order_step st) empty_db d) :
  map_Forall (fun _ o => order_ok o) (orders d) /\
  unique_on order_number_col (orders d) /\ unique_on idempotency_col (orders d).
Proof.
  destruct (order_steps_keep st _ _ empty_orders_inv Hsteps) as [[_ ? ? ? _ _] _]. done.
Qed.

(** C27: The expiry sweep does its job.  Given a batch large enough, no order is
    left that is unpaid, still open and past its deadline: each such order is
    CANCELLED, its coupon redemption is gone, and every other order and every
    other redemption is untouched. *)
Theorem expire_stale_sweeps scan now batch d r d'
    (Hinv : OrdersInv d) (Hscan : forall l, scan l ≡ₚ l)
    (Hbatch : (length (select (stale_at now) (orders d)) <= batch)%nat)
    (Hrun : expire_stale scan now batch d = (r, d')) :
  r = Ok (count (stale_at now) (orders d)) /\
  (forall k o, orders d !! k = Some o -> stale_at now o = false -> orders d' !! k = Some o) /\
  (forall k o, orders d !! k = Some o -> stale_at now o = true ->
     orders d' !! k = Some (set_cancelled now (Some "Expired before payment.") o)) /\
  (forall k q o, redemptions (coupon_store d) !! k = Some q -> orders d !! rd_order_id q = Some o ->
     redemptions (coupon_store d') !! k = if stale_at now o then None else Some q).
Proof.
  destruct (expire_stale_inv _ _ _ _ _ _ Hinv Hscan Hrun) as (_ & _ & Hr & Hrows & Hreds).
  rewrite take_ge in * by (by rewrite Hscan). set (l := scan _) in *.
  assert (Hl : forall o, o ∈ l <-> orders d !! o_id o = Some o /\ stale_at now o = true).
  { intros o. unfold l. rewrite Hscan. split.
    - intros H. apply elem_of_select_keyed in H; [done|apply Hinv].
    - intros [H1 H2]. apply elem_of_select. eauto. }
  pose proof (oi_keyed d Hinv) as Hk.
  assert (Hfind : forall k o, orders d !! k = Some o ->
            List.find (fun o => (o_id o =? k)%N) l = if stale_at now o then Some o else None).
  { intros k o Ho. pose proof (Hk k o Ho) as Eid. unfold row_id, Order_row in Eid.
    destruct (List.find _ l) as [v|] eqn:Ef.
    - apply find_some in Ef as [Hv%list_elem_of_In Ev%N.eqb_eq]. apply Hl in Hv as [Hv Hst].
      rewrite Ev, Ho in Hv. injection Hv as <-. by rewrite Hst.
    - destruct (stale_at now o) eqn:Hst; [exfalso|done].
      pose proof (find_none _ _ Ef o) as Hn. cbn in Hn. rewrite Eid, N.eqb_refl in Hn.
      discriminate Hn. apply list_elem_of_In, Hl. by rewrite Eid. }
  split; [|split; [|split]].
  - rewrite Hr. unfold count, l. by rewrite Hscan.
  - intros k o Ho Hst. rewrite Hrows, (Hfind k o Ho), Hst. done.
  - intros k o Ho Hst. by rewrite Hrows, (Hfind k o Ho), Hst.
  - intros k q o Hq Ho. destruct (stale_at now o) eqn:Hst.
    + destruct (redemptions (coupon_store d') !! k) as [q'|] eqn:E; [exfalso|done].
      apply Hreds in E as [E Hno]. rewrite Hq in E. injection E as <-. apply Hno.
      pose proof (Hk _ _ Ho) as Eid. unfold row_id, Order_row in Eid. rewrite <- Eid.
      apply list_elem_of_fmap_2, Hl. by rewrite Eid.
    + apply Hreds. split; [done|]. intros (v & Ev & Hv)%list_elem_of_fmap. apply Hl in Hv as [Hv Hst'].
      rewrite <- Ev, Ho in Hv. injection Hv as <-. congruence.
Qed.

(** ** The properties on a concrete checkout *)

Definition sample_tax : TaxResult :=
  compute_tax 49900 18 "GJ" (Some "GJ") "IN" true.
Definition sample_cart : PricedCart :=
  {| pc_lines := [mkQuoteLine 11 "Rocq by Example" "rocq-by-example" 1 49900 49900 false];
     pc_subtotal_minor := 49900; pc_discount_minor := 0; pc_taxable_minor := taxable_minor sample_tax;
     pc_tax := sample_tax; pc_total_minor := 49900; pc_currency := "INR"; pc_tax_inclusive := true;
     pc_coupon_id := None; pc_coupon_code := None; pc_coupon_message := None;
     pc_coupon_applied := false; pc_books := ∅ |}.
Definition sample_payload : OrderCreate :=
  {| or_items := [mkItemIn 11 1]; or_coupon_code := None; or_provider := None; or_currency := "INR";
     or_billing_name := Some "Asha"; or_billing_email := None; or_billing := None;
     or_affiliate_code := None; or_return_url := None |}.

Definition sample_create : result Order * Db :=
  create default_settings 0 [1; 2; 3; 4; 5; 6; 7; 8]%nat empty_db 7 sample_payload sample_cart
    (Some "key-1") (Some "asha@example.com") empty_db.
Definition sample_order : Order :=
  new_order default_settings 0 [1; 2; 3; 4; 5; 6; 7; 8]%nat (fresh_id (orders empty_db)) 7 sample_payload
    sample_cart (Some "key-1") (Some "asha@example.com").
Definition sample_db : Db := set_orders (save sample_order ∅) empty_db.
Definition paid_db : Db := set_orders (save (set_paid 60 sample_order) ∅) empty_db.

Lemma sample_create_eq : sample_create = (Ok sample_order, sample_db).
Proof. vm_compute. reflexivity. Qed.

Lemma sample_inv : OrdersInv sample_db.
Proof. by destruct (create_keeps _ _ _ _ _ _ _ _ _ _ _ _ empty_orders_inv sample_create_eq) as (? & _). Qed.

Lemma sample_pay : mark_paid 60 sample_order sample_db = (Ok (true, set_paid 60 sample_order), paid_db).
Proof. vm_compute. reflexivity. Qed.

Lemma sample_late_failure :
  mark_failed (set_paid 60 sample_order) (Some "declined") paid_db = (Ok (set_paid 60 sample_order), paid_db).
Proof. vm_compute. reflexivity. Qed.

Lemma sample_steps : rtc (order_step default_settings) sample_db paid_db.
Proof.
  apply rtc_once, (st_paid _ 60 sample_order (Ok (true, set_paid 60 sample_order))); [reflexivity|].
  apply sample_pay.
Qed.

Lemma settled_never_downgraded_witness :
  exists o', orders paid_db !! 1%N = Some o' /\ o_cols o' = o_cols sample_order /\
    o_refunded_minor sample_order <= o_refunded_minor o' <= o_total_minor o' /\
    (settled sample_order = true -> settled o' = true).
Proof.
  apply (settled_never_downgraded default_settings sample_db paid_db 1 sample_order).
  - exact sample_inv.
  - exact sample_steps.
  - reflexivity.
Defined.

Lemma mark_paid_exactly_once_witness :
  settled sample_order = false /\ o_status (set_paid 60 sample_order) = PAID /\
  o_paid_at (set_paid 60 sample_order) = Some 60 /\
  orders paid_db !! o_id sample_order = Some (set_paid 60 sample_order) /\
  mark_paid 99 (set_paid 60 sample_order) paid_db = (Ok (false, set_paid 60 sample_order), paid_db).
Proof.
  apply (mark_paid_exactly_once default_settings 60 99 sample_db paid_db paid_db sample_order
           (set_paid 60 sample_order) (set_paid 60 sample_order)).
  - exact sample_inv.
  - reflexivity.
  - exact sample_pay.
  - apply rtc_once, (st_failed _ (set_paid 60 sample_order) (Some "declined")
      (Ok (set_paid 60 sample_order))); [reflexivity|exact sample_late_failure].
  - reflexivity.
Defined.

Lemma order_status_accurate_witness :
  map_Forall (fun _ o => order_ok o) (orders sample_db) /\
  unique_on order_number_col (orders sample_db) /\ unique_on idempotency_col (orders sample_db).
Proof.
  apply (order_status_accurate default_settings).
  apply rtc_once, (st_create _ 0 [1; 2; 3; 4; 5; 6; 7; 8]%nat empty_db 7 sample_payload sample_cart
    (Some "key-1") (Some "asha@example.com") sample_order).
  exact sample_create_eq.
Defined.

Lemma expire_stale_sweeps_witness :
  orders (expire_stale id (2 * 3600 * SECOND) 200 sample_db).2 !! 1%N =
    Some (set_cancelled (2 * 3600 * SECOND) (Some "Expired before payment.") sample_order).
Proof.
  destruct (expire_stale_sweeps id (2 * 3600 * SECOND) 200 sample_db
    (expire_stale id (2 * 3600 * SECOND) 200 sample_db).1
    (expire_stale id (2 * 3600 * SECOND) 200 sample_db).2 sample_inv) as (_ & _ & H & _).
  - intros l. reflexivity.
  - vm_compute. lia.
  - apply surjective_pairing.
  - apply H; reflexivity.
Defined.

(** ** More properties of checkout and history *)

(** An abandoned checkout consumes nothing.  Creating an order that redeems
    a coupon and then cancelling it leaves the coupon tables exactly as they
    were before the checkout: the use is returned. *)
Theorem cancel_returns_coupon st now now' draws before uid p cart key email reason d o d1 r d2
    (Hinv : OrdersInv d)
    (Hcreate : create st now draws before uid p cart key email d = (Ok o, d1))
    (Hcancel : cancel now' o reason d1 = (r, d2)) :
  r = Ok (set_cancelled now' reason o) /\ coupon_store d2 = coupon_store d /\
  orders d2 = <[o_id o := set_cancelled now' reason o]> (orders d).
Proof.
  destruct (create_keeps _ _ _ _ _ _ _ _ _ _ _ _ Hinv Hcreate) as (Hinv1 & _ & Ho1 & Hst & Hnone).
  assert (Hcan : cancellable o = true) by (apply cancellable_status; auto).
  destruct (cancel_keeps _ _ _ _ _ _ Hinv1 Ho1 Hcancel) as (_ & _ & Hok).
  destruct (Hok Hcan) as [-> _]. split; [done|].
  apply create_inv in Hcreate as (_ & _ & _ & Hd). cbv zeta in Hd.
  apply cancel_inv in Hcancel as [(_ & _ & d3 & u & -> & Hrel & _)|(Hc & _)]; [|congruence].
  apply on_coupons_inv in Hrel as (s' & Hrel & ->). cbn [coupon_store orders set_coupon_store set_orders] in *.
  assert (Hord : alter (set_cancelled now' reason) (o_id o) (orders d1) =
                 <[o_id o := set_cancelled now' reason o]> (orders d)).
  { assert (E : orders d1 = <[o_id o := o]> (orders d)).
    { by destruct Hd as [[-> _]|(cid & c & q & s1 & _ & _ & _ & _ & ->)]. }
    rewrite E. apply map_eq. intros i. destruct (decide (i = o_id o)) as [->|].
    - by rewrite lookup_alter_eq, !lookup_insert_eq.
    - by rewrite lookup_alter_ne, !lookup_insert_ne. }
  split; [|done].
  pose proof (oi_coupons d Hinv) as Hc.
  assert (Hnew : forall k q, redemptions (coupon_store d) !! k = Some q -> rd_order_id q <> o_id o).
  { intros k q Hq E. destruct (oi_redeemed d Hinv k q Hq) as [v Hv]. rewrite E in Hv. congruence. }
  destruct Hd as [[-> _]|(cid & c & q & s1 & Hcid & Happ & Hfound & Hred & ->)]; cbn [coupon_store set_coupon_store set_orders] in Hrel.
  - apply (release_nothing _ _ _ _ Hnew Hrel).
  - assert (Hcur : limit_current c (coupon_store d)).
    { intros c' Hc'. pose proof (coupon_key _ _ _ (ci_keyed _ Hc) Hfound) as E. rewrite E in Hc'. congruence. }
    rewrite (release_undoes_redeem _ _ _ _ _ _ _ Hc Hcur Hnew Hred) in Hrel. by injection Hrel as _ <-.
Qed.

Definition coupon_db : Db :=
  set_coupon_store sample_store empty_db.
Definition coupon_cart : PricedCart :=
  {| pc_lines := pc_lines sample_cart; pc_subtotal_minor := 49900; pc_discount_minor := 9900;
     pc_taxable_minor := taxable_minor (compute_tax 40000 18 "GJ" None "IN" true);
     pc_tax := compute_tax 40000 18 "GJ" None "IN" true; pc_total_minor := 40000;
     pc_currency := "INR"; pc_tax_inclusive := true; pc_coupon_id := Some 1%N;
     pc_coupon_code := Some "WELCOME"; pc_coupon_message := None; pc_coupon_applied := true;
     pc_books := ∅ |}.
Definition coupon_checkout : result Order * Db :=
  create default_settings 0 [1]%nat coupon_db 7 sample_payload coupon_cart None None coupon_db.

Lemma coupon_db_inv : OrdersInv coupon_db.
Proof.
  assert (Hc : CouponInv (coupon_store coupon_db)) by exact sample_store_inv.
  pose proof empty_orders_inv as [? ? ? ? _ _]. constructor; try done.
Qed.

Lemma cancel_returns_coupon_witness :
  exists o d1, coupon_checkout = (Ok o, d1) /\ coupon_store d1 <> coupon_store coupon_db /\
    coupon_store (cancel 9 o None d1).2 = coupon_store coupon_db.
Proof.
  destruct coupon_checkout as [[o|e] d1] eqn:E; [|vm_compute in E; discriminate].
  exists o, d1. split; [done|]. split.
  - intros H. apply (f_equal (fun s => (redemptions s) !! 1%N)) in H.
    unfold coupon_checkout in E. vm_compute in E. injection E as <- <-. discriminate H.
  - apply (cancel_returns_coupon default_settings 0 9 [1]%nat coupon_db 7 sample_payload coupon_cart
             None None None coupon_db o d1 (cancel 9 o None d1).1); [exact coupon_db_inv|exact E|].
    apply surjective_pairing.
Defined.

(** A client of the order history that follows the cursors. *)
Fixpoint history (fuel : nat) (user_id : uuid) (cursor : option cursor_key) (limit : nat)
    (status : option OrderStatus) (d : Db) : list (list Order) :=
  match fuel with
  | O => []
  | S fuel =>
      let '(rows, next, has_more) := list_for_user user_id cursor limit status d in
      rows :: match next with Some _ => history fuel user_id next limit status d | None => [] end
  end.

Lemma history_walk fuel user_id status limit d : forall cursor,
  history fuel user_id cursor limit status d =
  walk order_key fuel (select (listed user_id status) (orders d)) cursor limit.
Proof.
  induction fuel as [|fuel IH]; intros cursor; [done|]. cbn [history walk]. unfold list_for_user.
  destruct (keyset_page _ _ _ _) as [[rows next] more]. destruct next; [|done]. by rewrite IH.
Qed.

Lemma NoDup_order_keys user_id status d :
  OrdersInv d -> NoDup (map order_key (select (listed user_id status) (orders d))).
Proof.
  intros Hinv. apply NoDup_fmap_2_strong; [|apply NoDup_select, Hinv].
  intros a b Ha Hb [= _ E].
  apply elem_of_select_keyed in Ha as [Ha _]; [|apply Hinv].
  apply elem_of_select_keyed in Hb as [Hb _]; [|apply Hinv].
  unfold row_id, Order_row in *. rewrite E, Hb in Ha. by simplify_eq.
Qed.

(** The order history is complete.  Following the cursors from the first
    page to the last shows every order of the user with the asked status
    exactly once, newest first, whatever the page size; nobody else's order
    is ever shown. *)
Theorem history_complete user_id status limit d (Hinv : OrdersInv d) (Hlimit : (0 < limit)%nat) :
  let rows := select (listed user_id status) (orders d) in
  let shown := concat (history (S (length rows)) user_id None limit status d) in
  shown ≡ₚ rows /\ shown = merge_sort (newest_first order_key) rows /\
  forall o, o ∈ shown -> o_user_id o = user_id /\ orders d !! o_id o = Some o.
Proof.
  intros rows shown.
  assert (Hs : shown = merge_sort (newest_first order_key) rows).
  { unfold shown. rewrite history_walk. by apply walk_all; [|apply NoDup_order_keys]. }
  assert (Hp : shown ≡ₚ rows) by (rewrite Hs; apply merge_sort_Permutation).
  split; [done|]. split; [done|]. intros o Ho. rewrite Hp in Ho.
  apply elem_of_select_keyed in Ho as [Ho Hl]; [|apply Hinv]. split; [|done].
  unfold listed in Hl. bool_to_prop. by apply N.eqb_eq.
Qed.

Lemma history_complete_witness :
  concat (history 2 7 None 1 None sample_db) = [sample_order].
Proof.
  destruct (history_complete 7 None 1 sample_db sample_inv ltac:(lia)) as (_ & H & _).
  etransitivity; [exact H|]. vm_compute. reflexivity.
Defined.

(** Two refunds that both loaded the order before either was flushed: each
    passes the check, the second write overwrites the first, and the amount
    recorded stays below the total although more than the total was sent. *)
Example concurrent_refunds_exceed_total :
  let o := set_paid 60 sample_order in
  let '(r1, d1) := apply_refund o 30000 paid_db in
  let '(r2, d2) := apply_refund o 30000 d1 in
  is_ok r1 = true /\ is_ok r2 = true /\ o_total_minor o = 49900 /\
  (o_refunded_minor <$> orders d2 !! o_id o) = Some 30000.
Proof. vm_compute. auto. Qed.
