(* ===== verification/Invoices.v ===== *)
(** * Invoices (apps/payment/services/invoices.py)

    The serial number of an invoice counts the invoices of its financial year;
    the unique constraint arbitrates between concurrent issuances and the
    loser recounts.  [race i] is what other transactions commit between the
    count and the insert of attempt [i]. *)

From S2P Require Import Prelude Store Json Coupons PaymentModels Db Dates Pagination Orders.

Definition MAX_SERIAL_ATTEMPTS : nat := 5.

(** The Indian financial year: April 1 to March 31. *)
Definition financial_year (moment : datetime) : Z * Z :=
  let y := year moment in if 4 <=? month moment then (y, y + 1) else (y - 1, y).

(** [s LIKE prefix || '%'], with enough steps for the two texts. *)
Definition like_prefix (prefix s : string) : bool :=
  like (String.length prefix + String.length s + 3) (append prefix "%") s.

Section invoices.
Context (settings : Settings).

Definition year_prefix (start end_ : Z) : string :=
  append (invoice_prefix settings) (append "/" (append (str_of_Z start)
    (append "-" (append (last_chars 2 (str_of_Z end_)) "/")))).
Definition prefix (moment : datetime) : string :=
  let '(start, end_) := financial_year moment in year_prefix start end_.

Definition used (p : string) (d : Db) : Z :=
  count (fun i => like_prefix p (iv_invoice_number i)) (invoices d).

Definition next_number (moment : datetime) (d : Db) : string :=
  append (prefix moment) (zero_pad 6 (used (prefix moment) d + 1)).

Definition billing_snapshot (o : Order) : list (string * json) :=
  let named := ["name"; "email"; "seller_name"; "seller_gstin"; "seller_state_code"] in
  List.filter (fun kv => negb (bool_decide (kv.1 ∈ named))) (oc_billing_address (o_cols o)) ++
  [("name", match oc_billing_name (o_cols o) with Some s => JStr s | None => JNull end);
   ("email", match oc_billing_email (o_cols o) with Some s => JStr s | None => JNull end);
   ("seller_name", JStr (seller_legal_name settings));
   ("seller_gstin", match seller_gstin settings with Some s => JStr s | None => JNull end);
   ("seller_state_code", JStr (seller_state_code settings))].

Definition line_items (o : Order) : list (string * Z * Z * Z) :=
  map (fun i => (it_title i, it_quantity i, it_unit_price_minor i, it_line_total_minor i)) (o_items o).

Definition new_invoice (issued_at : datetime) (o : Order) (id : uuid) (number : string) : Invoice :=
  {| iv_id := id; iv_order_id := o_id o; iv_user_id := o_user_id o; iv_invoice_number := number;
     iv_subtotal_minor := oc_subtotal_minor (o_cols o);
     iv_discount_minor := oc_discount_minor (o_cols o);
     iv_tax_minor := oc_tax_minor (o_cols o);
     iv_total_minor := o_total_minor o;
     iv_currency := oc_currency (o_cols o);
     iv_cgst_minor := oc_cgst_minor (o_cols o);
     iv_sgst_minor := oc_sgst_minor (o_cols o);
     iv_igst_minor := oc_igst_minor (o_cols o);
     iv_tax_percent := oc_tax_percent (o_cols o);
     iv_place_of_supply := oc_place_of_supply (o_cols o);
     iv_billing_snapshot := billing_snapshot o; iv_line_items := line_items o;
     iv_issued_at := issued_at |}.

(** One attempt in its savepoint; the last one lets the conflict escape. *)
Fixpoint attempts (race : nat -> Db -> Db) (issued_at : datetime) (o : Order) (n : nat) : M Db Invoice :=
  match n with
  | O => raise RuntimeErr
  | S n' =>
      number ← gets (next_number issued_at);
      _ ← modify (race (MAX_SERIAL_ATTEMPTS - n)%nat);
      d ← get;
      let invoice := new_invoice issued_at o (fresh_id (invoices d)) number in
      savepoint (_ ← insert_invoice invoice; mret invoice)
                (match n' with O => raise IntegrityErr | S _ => attempts race issued_at o n' end)
  end.

Definition for_order (race : nat -> Db -> Db) (now : datetime) (o : Order) : M Db Invoice :=
  d ← get;
  existing ← of_result (one_or_none (select (fun i => (iv_order_id i =? o_id o)%N) (invoices d)));
  match existing with
  | Some i => mret i
  | None => attempts race now o MAX_SERIAL_ATTEMPTS
  end.

Definition get_invoice_for_user (invoice_id user_id : uuid) : M Db Invoice :=
  d ← get;
  match invoices d !! invoice_id with
  | Some i => if negb (iv_user_id i =? user_id)%N then raise (app_error NotFoundError "") else mret i
  | None => raise (app_error NotFoundError "")
  end.

(** Newest first, LIMIT and OFFSET; the query orders by the time alone, so
    ties come in the order [scan] of the database. *)
Definition list_invoices (scan : list Invoice -> list Invoice) (user_id : uuid) (limit offset : Z) (d : Db)
    : list Invoice * Z :=
  let mine := fun i => (iv_user_id i =? user_id)%N in
  (slice offset limit (latest_first iv_issued_at (scan (select mine (invoices d)))),
   count mine (invoices d)).
End invoices.

(** ** Serial numbers *)

Definition serial (p : string) (i : nat) : string := append p (zero_pad 6 (Z.of_nat i)).

Lemma zeros_parse k b s :
  parse_digits 10 0 b (append (zeros k) s) = parse_digits 10 0 (b || negb (Nat.eqb k 0)) s.
Proof.
  revert b. induction k as [|k IH]; intros b; [by rewrite orb_false_r|].
  cbn [zeros]. rewrite append_String.
  change (parse_digits 10 0 b (String "0" (append (zeros k) s))) with
    (parse_digits 10 (0 * 10 + 0) true (append (zeros k) s)).
  rewrite IH. by rewrite orb_true_r.
Qed.

Lemma parse_zero_pad w n : 0 <= n -> parse_digits 10 0 false (zero_pad w n) = Some n.
Proof. intros Hn. unfold zero_pad. rewrite zeros_parse. by apply parse_pretty. Qed.

Lemma append_inj p s t : append p s = append p t -> s = t.
Proof. induction p as [|c p IH]; [done|]. rewrite !append_String. by intros [= H%IH]. Qed.

Lemma serial_inj p i j : serial p i = serial p j -> i = j.
Proof.
  intros H%append_inj. apply (f_equal (parse_digits 10 0 false)) in H.
  rewrite !parse_zero_pad in H by lia. injection H as H. lia.
Qed.

(** Two texts up to a dash. *)
Lemma dash_split u v x y :
  sall (fun c => negb (c =? "-")%char) u = true -> sall (fun c => negb (c =? "-")%char) v = true ->
  startswith (append u (String "-" x)) (append v (String "-" y)) = true -> u = v.
Proof.
  revert v. induction u as [|c u IH]; intros [|d v]; cbn [sall]; try done.
  - intros _ [Hd _]%andb_true_iff. rewrite append_nil, append_String. unfold startswith. cbn [String.prefix].
    destruct (ascii_dec "-" d) as [<-|]; done.
  - intros [Hc _]%andb_true_iff _. rewrite append_nil, append_String. unfold startswith. cbn [String.prefix].
    destruct (ascii_dec c "-") as [->|]; done.
  - intros [Hc Hu]%andb_true_iff [Hd Hv]%andb_true_iff. rewrite !append_String. unfold startswith. cbn [String.prefix].
    destruct (ascii_dec c d) as [->|]; [|done]. intros H. f_equal. by apply IH.
Qed.

Lemma startswith_append p s t : startswith (append p s) (append p t) = startswith s t.
Proof.
  induction p as [|c p IH]; [done|]. rewrite !append_String. unfold startswith in *. cbn [String.prefix].
  by destruct (ascii_dec c c).
Qed.

Lemma startswith_self p s : startswith p (append p s) = true.
Proof.
  induction p as [|c p IH]; [by destruct s|]. rewrite append_String. unfold startswith in *. cbn [String.prefix].
  by destruct (ascii_dec c c).
Qed.

Lemma like_prefix_plain p s : escape_term p = p -> like_prefix p s = startswith p s.
Proof. intros H. unfold like_prefix. rewrite <- H at 2. apply like_escaped. lia. Qed.

Lemma escape_append s t : escape_term (append s t) = append (escape_term s) (escape_term t).
Proof. unfold escape_term. by rewrite !replace_char_append. Qed.

Lemma escape_plain s : sall (fun c => negb (is_wildcard c)) s = true -> escape_term s = s.
Proof.
  induction s as [|c s IH]; [done|]. cbn [sall]. intros [Hc Hs]%andb_true_iff.
  rewrite escape_term_cons, IH by done. by destruct (is_wildcard c).
Qed.

Lemma sall_substring (P : ascii -> bool) s : forall n m, sall P s = true -> sall P (String.substring n m s) = true.
Proof.
  induction s as [|c s IH]; intros [|n] [|m]; cbn [String.substring sall]; try done;
    intros [Hc Hs]%andb_true_iff; try (by apply IH).
  rewrite Hc. by apply IH.
Qed.

Lemma digit_not (P : ascii -> bool) c :
  forallb P (list_ascii_of_string "0123456789") = true -> is_digit c = true -> P c = true.
Proof.
  intros HP Hc. rewrite forallb_forall in HP. apply HP. revert Hc. clear.
  destruct c as [[] [] [] [] [] [] [] []]; try discriminate; intros _; cbn; tauto.
Qed.

Section serials.
Context (st : Settings).
  (** The configured prefix has no LIKE wildcard; calendar years are positive. *)
Context (Hplain : escape_term (invoice_prefix st) = invoice_prefix st).

Definition in_era (t : datetime) : Prop := 1 <= year t.

Lemma prefix_eq t : prefix st t = year_prefix st (financial_year t).1 (financial_year t).2.
Proof. unfold prefix. by destruct (financial_year t). Qed.

Lemma financial_year_spec t :
  (financial_year t).2 = (financial_year t).1 + 1 /\ (in_era t -> 0 <= (financial_year t).1).
Proof. unfold financial_year, in_era. destruct (4 <=? month t); cbn; lia. Qed.

Lemma prefix_plain t : in_era t -> escape_term (prefix st t) = prefix st t.
Proof.
  intros He. destruct (financial_year_spec t) as [E H0]. specialize (H0 He).
  rewrite prefix_eq, E. unfold year_prefix. rewrite !escape_append, Hplain.
  rewrite (escape_plain (str_of_Z _)) by
    (apply pretty_all; [lia|intros c; by apply (digit_not (fun c => negb (is_wildcard c)))]).
  rewrite (escape_plain (last_chars _ _)); [done|].
  apply sall_substring, pretty_all; [lia|intros c; by apply (digit_not (fun c => negb (is_wildcard c)))].
Qed.

(** The label of another year is never the beginning of a number. *)
Lemma prefix_disjoint t1 t2 s : in_era t1 -> in_era t2 ->
  startswith (prefix st t1) (append (prefix st t2) s) = true -> prefix st t1 = prefix st t2.
Proof.
  intros H1 H2. destruct (financial_year_spec t1) as [E1 P1], (financial_year_spec t2) as [E2 P2].
  rewrite !prefix_eq, E1, E2. unfold year_prefix. rewrite !append_assoc, startswith_append.
  change (append "/" ?x) with (String "/" x). rewrite !append_String.
  intros H. assert ((financial_year t1).1 = (financial_year t2).1) as ->; [|done].
  apply (inj py_str_int). eapply dash_split; [| |].
  - apply pretty_all; [auto|intros c; by apply (digit_not (fun c => negb (c =? "-")%char))].
  - apply pretty_all; [auto|intros c; by apply (digit_not (fun c => negb (c =? "-")%char))].
  - unfold startswith in *. cbn [String.prefix] in H. exact H.
Qed.

(** Every number is a serial of some year's label, and the serials in use of
    each label are 1, 2, ..., n. *)
Definition numbers (p : string) (d : Db) : list string :=
  map iv_invoice_number (select (fun i => startswith p (iv_invoice_number i)) (invoices d)).

Record InvoicesInv (d : Db) : Prop := {
  ii_keyed : keyed (invoices d);
  ii_unique : unique_on invoice_number_col (invoices d);
  ii_order : unique_on (fun i => Some (iv_order_id i)) (invoices d);
  ii_serials : forall t, in_era t ->
    numbers (prefix st t) d ≡ₚ map (serial (prefix st t)) (seq 1 (length (numbers (prefix st t) d)));
}.

Lemma used_numbers t d : in_era t -> used (prefix st t) d = Z.of_nat (length (numbers (prefix st t) d)).
Proof.
  intros He. unfold used, numbers, count. rewrite length_map. do 2 f_equal.
  unfold select. apply filter_ext. intros i. by apply like_prefix_plain, prefix_plain.
Qed.

Lemma next_number_serial t d : in_era t ->
  next_number st t d = serial (prefix st t) (S (length (numbers (prefix st t) d))).
Proof. intros He. unfold next_number, serial. rewrite used_numbers by done. do 2 f_equal. lia. Qed.

Lemma numbers_save p i d :
  invoices d !! iv_id i = None ->
  numbers p (set_invoices (save i (invoices d)) d) ≡ₚ
    (if startswith p (iv_invoice_number i) then [iv_invoice_number i] else []) ++ numbers p d.
Proof.
  intros Hn. unfold numbers, select. cbn.
  rewrite (filter_perm _ _ _ (rows_insert (invoices d) (row_id i) i Hn)). cbn.
  by destruct (startswith p (iv_invoice_number i)).
Qed.

(** Inserting the next serial keeps the numbers consecutive. *)
Lemma insert_serial t i d :
  InvoicesInv d -> in_era t -> invoices d !! iv_id i = None ->
  (forall k v, invoices d !! k = Some v -> iv_order_id v <> iv_order_id i) ->
  iv_invoice_number i = serial (prefix st t) (S (length (numbers (prefix st t) d))) ->
  conflicts invoice_number_col i (invoices d) = false ->
  InvoicesInv (set_invoices (save i (invoices d)) d).
Proof.
  intros [Hk Hu Ho Hs] He Hn Hord Hnum Hc. constructor; cbn.
  - by apply keyed_save.
  - apply (insert_unique_preserves invoice_number_col i (invoices d)); try done.
    unfold insert_unique. by rewrite Hc.
  - intros a b x y k. rewrite !lookup_save. unfold row_id, Invoice_row. intros Ha Hb Hx Hy.
    destruct (decide (iv_id i = a)) as [<-|], (decide (iv_id i = b)) as [<-|]; [done|..].
    + injection Ha as <-. exfalso. apply (Hord _ _ Hb). congruence.
    + injection Hb as <-. exfalso. apply (Hord _ _ Ha). congruence.
    + by apply (Ho a b x y k).
  - intros t' He'. rewrite (numbers_save _ _ _ Hn).
    destruct (startswith (prefix st t') (iv_invoice_number i)) eqn:Hst; [|by apply Hs].
    assert (prefix st t' = prefix st t) as E.
    { rewrite Hnum in Hst. by eapply prefix_disjoint. }
    rewrite E in *. cbn [app length]. rewrite seq_S, map_app, <- (Hs t He), Hnum. cbn [map].
    by rewrite Permutation_app_comm.
Qed.

(** A serial already counted is a conflict. *)
Lemma stale_serial_conflicts t n i d :
  InvoicesInv d -> in_era t -> (1 <= n <= length (numbers (prefix st t) d))%nat ->
  iv_invoice_number i = serial (prefix st t) n -> invoices d !! iv_id i = None ->
  conflicts invoice_number_col i (invoices d) = true.
Proof.
  intros Hinv He Hlen Hnum Hn. apply not_false_iff_true. rewrite conflicts_false by apply Hinv.
  intros H.
  assert (Hin : serial (prefix st t) n ∈ numbers (prefix st t) d).
  { rewrite (ii_serials d Hinv t He). apply list_elem_of_fmap_2, list_elem_of_In, in_seq. lia. }
  unfold numbers in Hin. apply list_elem_of_fmap in Hin as (v & Ev & Hv).
  apply elem_of_select_keyed in Hv as [Hv _]; [|apply Hinv].
  assert (iv_id v = iv_id i) as Eid.
  { apply (H (serial (prefix st t) n) (iv_id v) v); unfold invoice_number_col; [by rewrite Hnum|exact Hv|by rewrite Ev]. }
  unfold row_id, Invoice_row in Hv. rewrite Eid in Hv. congruence.
Qed.
End serials.

(** ** Issuing *)

Section issuing.
Context (st : Settings).
Context (Hplain : escape_term (invoice_prefix st) = invoice_prefix st).

Definition no_invoice (o : Order) (d : Db) : Prop :=
  forall k v, invoices d !! k = Some v -> iv_order_id v <> o_id o.

(** What other transactions may commit meanwhile: invoices of other orders,
    under the same rules. *)
Definition other_issuances (o : Order) (t : datetime) (race : nat -> Db -> Db) : Prop :=
  forall i d, InvoicesInv st d -> no_invoice o d ->
    InvoicesInv st (race i d) /\ no_invoice o (race i d) /\
    (length (numbers (prefix st t) d) <= length (numbers (prefix st t) (race i d)))%nat.

Lemma insert_invoice_run i d :
  insert_invoice i d =
  (if conflicts invoice_number_col i (invoices d) then Raise IntegrityErr else Ok tt,
   if conflicts invoice_number_col i (invoices d) then d else set_invoices (save i (invoices d)) d).
Proof. unfold insert_invoice, insert_into, insert_unique. by destruct (conflicts _ _ _). Qed.

(** One unfolding of the retry loop. *)
Lemma attempts_step race t o n d :
  attempts st race t o (S n) d =
  let d1 := race (MAX_SERIAL_ATTEMPTS - S n)%nat d in
  let i := new_invoice st t o (fresh_id (invoices d1)) (next_number st t d) in
  if conflicts invoice_number_col i (invoices d1)
  then (match n with O => (Raise IntegrityErr, d1) | S _ => attempts st race t o n d1 end)
  else (Ok i, set_invoices (save i (invoices d1)) d1).
Proof.
  cbn [attempts]. unfold gets, modify, get, mbind, M_bind, mret, M_ret, savepoint.
  rewrite insert_invoice_run. destruct (conflicts _ _ _); [|done]. by destruct n.
Qed.

Lemma fresh_number_free t i d : InvoicesInv st d -> in_era t ->
  iv_invoice_number i = serial (prefix st t) (S (length (numbers (prefix st t) d))) ->
  conflicts invoice_number_col i (invoices d) = false.
Proof.
  intros Hinv He Hnum. rewrite conflicts_false by apply Hinv. intros k j w [= <-] Hj [= Hw]. exfalso.
  assert (Hin : iv_invoice_number w ∈ numbers (prefix st t) d).
  { unfold numbers. apply list_elem_of_fmap_2, elem_of_select. split; [eauto|].
    rewrite Hw, Hnum. apply startswith_self. }
  rewrite (ii_serials st d Hinv t He), Hw, Hnum in Hin. apply list_elem_of_fmap in Hin as (n & En & Hn).
  apply serial_inj in En. apply list_elem_of_In, in_seq in Hn. lia.
Qed.

(** The loop: an invoice is issued under the next serial of the state it is
    inserted in, or every attempt lost its race. *)
Lemma attempts_spec race t o n : forall d r d',
  InvoicesInv st d -> in_era t -> no_invoice o d -> other_issuances o t race -> n <> O ->
  attempts st race t o n d = (r, d') ->
  InvoicesInv st d' /\
  ((exists i, r = Ok i /\ invoices d' !! iv_id i = Some i /\ iv_order_id i = o_id o /\
      iv_invoice_number i = serial (prefix st t) (length (numbers (prefix st t) d'))) \/
   (r = Raise IntegrityErr /\ no_invoice o d')).
Proof.
  induction n as [|n IH]; intros d r d' Hinv He Hno Hrace Hn; [done|].
  rewrite attempts_step. cbv zeta. set (d1 := race _ d).
  destruct (Hrace (MAX_SERIAL_ATTEMPTS - S n)%nat d Hinv Hno) as (Hinv1 & Hno1 & Hle). fold d1 in Hinv1, Hno1, Hle.
  set (i := new_invoice st t o (fresh_id (invoices d1)) (next_number st t d)).
  assert (Hnum : iv_invoice_number i = serial (prefix st t) (S (length (numbers (prefix st t) d))))
    by (by apply next_number_serial).
  assert (Hfresh : invoices d1 !! iv_id i = None) by apply fresh_id_None.
  destruct (conflicts invoice_number_col i (invoices d1)) eqn:Hc.
  - destruct n as [|n]; [intros [= <- <-]; auto|]. intros H. by apply (IH d1 r d').
  - intros [= <- <-].
    assert (Hlen : length (numbers (prefix st t) d1) = length (numbers (prefix st t) d)).
    { destruct (decide (length (numbers (prefix st t) d) < length (numbers (prefix st t) d1))%nat) as [Hlt|]; [|lia].
      rewrite (stale_serial_conflicts st t (S (length (numbers (prefix st t) d))) i d1 Hinv1 He) in Hc;
        try done; lia. }
    rewrite <- Hlen in Hnum.
    split; [by apply (insert_serial st t)|]. left. exists i. split; [done|].
    split; [apply (lookup_save_same (invoices d1) i)|]. split; [done|].
    assert (Hst : startswith (prefix st t) (iv_invoice_number i) = true) by (rewrite Hnum; apply startswith_self).
    by rewrite (Permutation_length (numbers_save (prefix st t) i d1 Hfresh)), Hst.
Qed.

(** Some attempt that no other transaction disturbs succeeds. *)
Lemma attempts_succeed race t o n : forall d,
  InvoicesInv st d -> in_era t -> no_invoice o d -> other_issuances o t race ->
  (exists k, (MAX_SERIAL_ATTEMPTS - n <= k < MAX_SERIAL_ATTEMPTS)%nat /\ forall d, race k d = d) ->
  (n <= MAX_SERIAL_ATTEMPTS)%nat ->
  exists i d', attempts st race t o n d = (Ok i, d').
Proof.
  induction n as [|n IH]; intros d Hinv He Hno Hrace (k & Hk & Hquiet) Hn; [lia|].
  rewrite attempts_step. cbv zeta.
  destruct (decide (k = MAX_SERIAL_ATTEMPTS - S n)%nat) as [<-|Hne].
  - rewrite Hquiet. set (i := new_invoice _ _ _ _ _). rewrite (fresh_number_free t); eauto.
    by apply next_number_serial.
  - destruct (Hrace (MAX_SERIAL_ATTEMPTS - S n)%nat d Hinv Hno) as (Hinv1 & Hno1 & _).
    destruct (conflicts _ _ _); [|eauto].
    destruct n as [|n]; [lia|]. apply IH; try done; [|lia]. exists k. split; [lia|done].
Qed.

Lemma find_invoice o d :
  InvoicesInv st d ->
  (exists i, invoices d !! iv_id i = Some i /\ iv_order_id i = o_id o /\
     one_or_none (select (fun i => (iv_order_id i =? o_id o)%N) (invoices d)) = Ok (Some i)) \/
  (no_invoice o d /\ one_or_none (select (fun i => (iv_order_id i =? o_id o)%N) (invoices d)) = Ok None).
Proof.
  intros Hinv. set (P := fun i => (iv_order_id i =? o_id o)%N).
  destruct (select_unique (fun i => Some (iv_order_id i)) (invoices d) P (o_id o)) as [[i|] E];
    [apply Hinv|apply Hinv|intros v Hv; f_equal; by apply N.eqb_eq| |].
  - left. exists i. pose proof (one_or_none_Some _ _ E) as Hs.
    assert (Hi : i ∈ select P (invoices d)) by (rewrite Hs; constructor).
    apply elem_of_select_keyed in Hi as [Hi Hp]; [|apply Hinv]. split; [done|]. split; [by apply N.eqb_eq|done].
  - right. split; [|done]. intros k v Hv Ho. apply one_or_none_None in E.
    assert (Hi : v ∈ select P (invoices d)) by (apply elem_of_select; split; [eauto|by apply N.eqb_eq]).
    rewrite E in Hi. set_solver.
Qed.

Lemma for_order_spec race now o d r d' :
  InvoicesInv st d -> in_era now -> other_issuances o now race -> for_order st race now o d = (r, d') ->
  InvoicesInv st d' /\
  ((exists i, r = Ok i /\ invoices d' !! iv_id i = Some i /\ iv_order_id i = o_id o) \/
   (r = Raise IntegrityErr /\ no_invoice o d')).
Proof.
  intros Hinv He Hrace H. unfold for_order in H. cbv [get mbind M_bind of_result] in H.
  destruct (find_invoice o d Hinv) as [(i & Hi & Ho & E)|[Hno E]]; rewrite E in H.
  - injection H as <- <-. eauto 6.
  - apply attempts_spec in H as [H1 [(i & -> & H2 & H3 & _)|[-> H3]]]; try done; eauto 6.
Qed.

Lemma for_order_again race now o i d :
  InvoicesInv st d -> invoices d !! iv_id i = Some i -> iv_order_id i = o_id o ->
  for_order st race now o d = (Ok i, d).
Proof.
  intros Hinv Hi Ho. unfold for_order. cbv [get mbind M_bind of_result].
  destruct (find_invoice o d Hinv) as [(j & Hj & Hoj & E)|[Hno _]]; [|by destruct (Hno _ _ Hi)].
  rewrite E. assert (iv_id j = iv_id i) as Eid by (eapply (ii_order st d Hinv); eauto; cbn; congruence).
  rewrite Eid, Hi in Hj. by injection Hj as <-.
Qed.
End issuing.

(** ** Properties *)

(** Invoices are numbered consecutively within a financial year.  Issuing
    the invoice of an order, however many other invoices are committed between
    its counts and its inserts, keeps the numbers of every financial year
    exactly 1, 2, ..., n without gap or repetition and never gives an order a
    second invoice; it returns an invoice as soon as one of its five attempts
    is not overtaken, and the new invoice carries the next serial. *)
Theorem invoices_consecutive st race now o d
    (Hplain : escape_term (invoice_prefix st) = invoice_prefix st)
    (Hinv : InvoicesInv st d) (Hera : in_era now) (Hno : no_invoice o d)
    (Hrace : other_issuances st o now race)
    (Hquiet : exists k, (k < MAX_SERIAL_ATTEMPTS)%nat /\ forall d, race k d = d) :
  exists i d', for_order st race now o d = (Ok i, d') /\ InvoicesInv st d' /\
    invoices d' !! iv_id i = Some i /\ iv_order_id i = o_id o /\
    iv_invoice_number i = serial (prefix st now) (length (numbers (prefix st now) d')).
Proof.
  destruct Hquiet as (k & Hk & Hq).
  destruct (attempts_succeed st Hplain race now o MAX_SERIAL_ATTEMPTS d) as (i & d' & E); try done.
  { exists k. split; [lia|done]. }
  exists i, d'. assert (Hrun : for_order st race now o d = (Ok i, d')).
  { unfold for_order. cbv [get mbind M_bind of_result].
    destruct (find_invoice st Hplain o d Hinv) as [(j & Hj & Hoj & _)|[_ Ef]]; [by destruct (Hno _ _ Hj)|].
    by rewrite Ef. }
  split; [done|]. apply (attempts_spec st Hplain) in E as [H1 [(j & [= <-] & H2 & H3 & H4)|[[=] _]]]; try done.
Qed.

(** An order has one invoice.  Once an order's invoice exists, asking for
    it again, from a redelivered webhook or a replay, returns that invoice and
    writes nothing. *)
Theorem invoice_idempotent st race race' now now' o d i d'
    (Hplain : escape_term (invoice_prefix st) = invoice_prefix st)
    (Hinv : InvoicesInv st d) (Hera : in_era now) (Hrace : other_issuances st o now race)
    (Hfirst : for_order st race now o d = (Ok i, d')) :
  for_order st race' now' o d' = (Ok i, d') /\ iv_order_id i = o_id o.
Proof.
  destruct (for_order_spec st Hplain _ _ _ _ _ _ Hinv Hera Hrace Hfirst)
    as [Hinv' [(j & [= <-] & Hj & Ho)|[[=] _]]].
  split; [by apply (for_order_again st Hplain)|done].
Qed.

Lemma empty_invoices_inv st : InvoicesInv st empty_db.
Proof.
  constructor; [apply keyed_empty|apply unique_empty|apply unique_empty|]. intros t _. reflexivity.
Qed.

Definition no_race : nat -> Db -> Db := fun _ d => d.

Lemma no_race_ok st o t : other_issuances st o t no_race.
Proof. intros i d H1 H2. split; [done|]. split; [done|]. unfold no_race. lia. Qed.

Lemma invoices_consecutive_witness :
  exists i d', for_order default_settings no_race (20669 * DAY) sample_order empty_db = (Ok i, d') /\
    iv_invoice_number i = "KOS/2026-27/000001".
Proof.
  destruct (invoices_consecutive default_settings no_race (20669 * DAY) sample_order empty_db)
    as (i & d' & E & _ & _ & _ & Hn).
  - reflexivity.
  - apply empty_invoices_inv.
  - unfold in_era. vm_compute. discriminate.
  - intros k v H. exfalso. change (invoices empty_db) with (∅ : table Invoice) in H. by rewrite lookup_empty in H.
  - apply no_race_ok.
  - exists 0%nat. split; [unfold MAX_SERIAL_ATTEMPTS; lia|reflexivity].
  - exists i, d'. split; [exact E|].
    vm_compute in E. injection E as <- _. reflexivity.
Defined.

Lemma invoice_idempotent_witness :
  let first := for_order default_settings no_race (20669 * DAY) sample_order empty_db in
  exists i, first.1 = Ok i /\ for_order default_settings no_race 0 sample_order first.2 = (Ok i, first.2).
Proof.
  intros first. destruct first as [[i|e] d'] eqn:E; [|exfalso; unfold first in E; vm_compute in E; discriminate].
  exists i. split; [reflexivity|].
  destruct (invoice_idempotent default_settings no_race no_race (20669 * DAY) 0 sample_order empty_db i d')
    as [H _]; [reflexivity|apply empty_invoices_inv| |apply no_race_ok|exact E|exact H].
  unfold in_era. vm_compute. discriminate.
Defined.
