(* ===== verification/Affiliates.v ===== *)
(** * Affiliates (apps/payment/services/affiliates.py)

    Accounts, the commission recorded when an order is paid, its reversal when
    the order is refunded, and its approval once the refund window has closed. *)

From S2P Require Import Prelude Store Json Coupons PaymentModels Db Pagination Orders.

Notation CStatus := AffiliateConversionStatus.t (only parsing).

(** [secrets.token_urlsafe(6)] is the token the generator drew. *)
Definition generate_affiliate_code (token : string) : string :=
  stake 8 (erase "-" (erase "_" (lower token))).

Definition set_earned (n : Z) (a : AffiliateAccount) : AffiliateAccount :=
  {| aa_id := aa_id a; aa_user_id := aa_user_id a; aa_code := aa_code a;
     aa_commission_bps := aa_commission_bps a; aa_is_active := aa_is_active a;
     aa_total_earned_minor := n; aa_total_paid_minor := aa_total_paid_minor a |}.

Definition set_conversion (st : CStatus) (reversed_at : option datetime) (c : AffiliateConversion)
    : AffiliateConversion :=
  {| ac_id := ac_id c; ac_account_id := ac_account_id c; ac_order_id := ac_order_id c;
     ac_order_total_minor := ac_order_total_minor c; ac_commission_minor := ac_commission_minor c;
     ac_currency := ac_currency c; ac_status := st; ac_reversed_at := reversed_at;
     ac_created_at := ac_created_at c |}.

(** ** Accounts *)

Definition find_by_code (code : string) : M Db (option AffiliateAccount) :=
  d ← get;
  of_result (one_or_none (select (fun a => String.eqb (aa_code a) (lower (strip code))) (accounts d))).

Definition for_user (user_id : uuid) : M Db (option AffiliateAccount) :=
  d ← get;
  of_result (one_or_none (select (fun a => (aa_user_id a =? user_id)%N) (accounts d))).

Definition get_account (account_id : uuid) : M Db AffiliateAccount :=
  d ← get;
  match accounts d !! account_id with
  | Some a => mret a
  | None => raise (app_error NotFoundError "")
  end.

(** [AffiliateRegister._normalise]; [None] is the validator's ValueError. *)
Definition normalise_affiliate_code (value : string) : option string :=
  let code := lower (strip value) in
  if isalnum (erase "_" (erase "-" code)) then Some code else None.

Section affiliates.
Context (settings : Settings).

(** [race] is what other transactions commit before the INSERT; a conflict
    rolls the session back to that committed state. *)
Definition register (race : Db -> Db) (token : string) (user_id : uuid) (code : option string)
    : M Db AffiliateAccount :=
  existing ← for_user user_id;
  match existing with
  | Some a => mret a
  | None =>
      taken ← (if truthy code then find_by_code (default "" code) else mret None);
      _ ← raise_when (negb (bool_decide (taken = None))) (app_error ConflictError "");
      _ ← modify race;
      d ← get;
      let account :=
        {| aa_id := fresh_id (accounts d); aa_user_id := user_id;
           aa_code := (if truthy code then default "" code else generate_affiliate_code token);
           aa_commission_bps := affiliate_commission_bps settings; aa_is_active := true;
           aa_total_earned_minor := 0; aa_total_paid_minor := 0 |} in
      if conflicts account_user_col account (accounts d) || conflicts account_code_col account (accounts d)
      then
        settled ← for_user user_id;
        match settled with
        | Some a => mret a
        | None => raise (app_error ConflictError "")
        end
      else
        _ ← modify (set_accounts (save account (accounts d)));
        mret account
  end.

(** ** Conversions *)

(** Basis points, floored. *)
Definition commission_for (net_minor commission_bps : Z) : Z :=
  Z.max 0 (net_minor * commission_bps / 10000).

Definition find_conversion (order_id : uuid) : M Db (option AffiliateConversion) :=
  d ← get;
  of_result (one_or_none (select (fun c => (ac_order_id c =? order_id)%N) (conversions d))).

Definition record (now : datetime) (race : Db -> Db) (o : Order) : M Db (option AffiliateConversion) :=
  if negb (truthy (oc_affiliate_code (o_cols o))) then mret None else
  found ← find_by_code (default "" (oc_affiliate_code (o_cols o)));
  match found with
  | None => mret None
  | Some account =>
      if negb (aa_is_active account) then mret None else
      if (aa_user_id account =? o_user_id o)%N then mret None else
      existing ← find_conversion (o_id o);
      match existing with
      | Some c => mret (Some c)
      | None =>
          let net := Z.max 0 (o_total_minor o - oc_tax_minor (o_cols o)) in
          let commission := commission_for net (aa_commission_bps account) in
          _ ← modify race;
          d ← get;
          let conversion :=
            {| ac_id := fresh_id (conversions d); ac_account_id := aa_id account; ac_order_id := o_id o;
               ac_order_total_minor := o_total_minor o; ac_commission_minor := commission;
               ac_currency := oc_currency (o_cols o); ac_status := AffiliateConversionStatus.PENDING;
               ac_reversed_at := None; ac_created_at := now |} in
          savepoint
            (_ ← insert_conversion conversion;
             _ ← update_accounts (aa_id account) (set_earned (aa_total_earned_minor account + commission));
             mret (Some conversion))
            (mret None)
      end
  end.

Definition reverse (now : datetime) (order_id : uuid) : M Db unit :=
  found ← find_conversion order_id;
  match found with
  | None => mret tt
  | Some c =>
      if bool_decide (ac_status c = AffiliateConversionStatus.REVERSED) then mret tt else
      _ ← update_conversions (ac_id c) (set_conversion AffiliateConversionStatus.REVERSED (Some now));
      d ← get;
      match accounts d !! ac_account_id c with
      | Some a =>
          update_accounts (aa_id a)
            (set_earned (Z.max 0 (aa_total_earned_minor a - ac_commission_minor c)))
      | None => mret tt
      end
  end.

Definition matured (cutoff : datetime) (c : AffiliateConversion) : bool :=
  bool_decide (ac_status c = AffiliateConversionStatus.PENDING) && (ac_created_at c <? cutoff).

Definition approve_one (c : AffiliateConversion) : M Db unit :=
  update_conversions (ac_id c) (set_conversion AffiliateConversionStatus.APPROVED (ac_reversed_at c)).

Definition approve_matured (scan : list AffiliateConversion -> list AffiliateConversion)
    (now : datetime) (batch : nat) : M Db Z :=
  let cutoff := now - affiliate_hold_days settings * DAY in
  d ← get;
  let rows := take batch (scan (select (matured cutoff) (conversions d))) in
  _ ← for_each approve_one rows;
  mret (Z.of_nat (length rows)).

Definition conversions_for (scan : list AffiliateConversion -> list AffiliateConversion)
    (account_id : uuid) (limit offset : Z) (d : Db) : list AffiliateConversion * Z :=
  let mine := fun c => (ac_account_id c =? account_id)%N in
  (slice offset limit (latest_first ac_created_at (scan (select mine (conversions d)))),
   count mine (conversions d)).
End affiliates.

(** ** The commission ledger *)

(** What a conversion counts for in its account's earnings. *)
Definition earned_by (account_id : uuid) (c : AffiliateConversion) : Z :=
  if (ac_account_id c =? account_id)%N && negb (bool_decide (ac_status c = AffiliateConversionStatus.REVERSED))
  then ac_commission_minor c else 0.

Record AffiliatesInv (d : Db) : Prop := {
  ai_keyed : keyed (accounts d);
  ai_ckeyed : keyed (conversions d);
  ai_user : unique_on account_user_col (accounts d);
  ai_code : unique_on account_code_col (accounts d);
  ai_order : unique_on conversion_col (conversions d);
  ai_nonneg : map_Forall (fun _ c => 0 <= ac_commission_minor c) (conversions d);
  ai_account : map_Forall (fun _ c => is_Some (accounts d !! ac_account_id c)) (conversions d);
  ai_ledger : forall k a, accounts d !! k = Some a ->
    aa_total_earned_minor a = table_sum (earned_by k) (conversions d);
}.

Lemma commission_bounds net bps :
  0 <= net -> 0 <= bps <= 10000 ->
  0 <= commission_for net bps <= net /\ 10000 * commission_for net bps <= net * bps.
Proof.
  intros Hn Hb. unfold commission_for.
  pose proof (Z.div_pos (net * bps) 10000 ltac:(nia) ltac:(lia)).
  pose proof (Z.mul_div_le (net * bps) 10000 ltac:(lia)). nia.
Qed.

Lemma earned_nonneg d k : AffiliatesInv d ->
  forall i c, conversions d !! i = Some c -> 0 <= earned_by k c.
Proof. intros Hinv i c Hc. unfold earned_by. destruct (_ && _); [by apply (ai_nonneg d Hinv i)|done]. Qed.

(** Changing one row of the accounts table. *)
Lemma update_accounts_run k f d :
  update_accounts k f d = (Ok tt, set_accounts (alter f k (accounts d)) d).
Proof. reflexivity. Qed.

Lemma update_conversions_run k f d :
  update_conversions k f d = (Ok tt, set_conversions (alter f k (conversions d)) d).
Proof. reflexivity. Qed.

Lemma find_conversion_inv oid d :
  AffiliatesInv d ->
  (exists c, conversions d !! ac_id c = Some c /\ ac_order_id c = oid /\
     find_conversion oid d = (Ok (Some c), d)) \/
  ((forall k c, conversions d !! k = Some c -> ac_order_id c <> oid) /\
     find_conversion oid d = (Ok None, d)).
Proof.
  intros Hinv. unfold find_conversion. cbv [get mbind M_bind of_result].
  set (P := fun c => (ac_order_id c =? oid)%N).
  destruct (select_unique conversion_col (conversions d) P oid) as [[c|] E];
    [apply Hinv|apply Hinv|intros v Hv; unfold conversion_col; f_equal; by apply N.eqb_eq|..]; rewrite E.
  - left. exists c. apply one_or_none_Some in E.
    assert (Hi : c ∈ select P (conversions d)) by (rewrite E; constructor).
    apply elem_of_select_keyed in Hi as [Hi Hp]; [|apply Hinv]. split; [done|]. split; [by apply N.eqb_eq|done].
  - right. split; [|done]. intros k v Hv Ho. apply one_or_none_None in E.
    assert (Hi : v ∈ select P (conversions d)) by (apply elem_of_select; split; [eauto|by apply N.eqb_eq]).
    rewrite E in Hi. set_solver.
Qed.

Lemma find_by_code_inv code d r d' :
  AffiliatesInv d -> find_by_code code d = (r, d') ->
  d' = d /\ (forall a, r = Ok (Some a) -> accounts d !! aa_id a = Some a /\ aa_code a = lower (strip code)).
Proof.
  intros Hinv. unfold find_by_code. cbv [get mbind M_bind of_result]. intros [= <- <-].
  split; [done|]. intros a E%one_or_none_Some.
  assert (Hi : a ∈ select (fun a => String.eqb (aa_code a) (lower (strip code))) (accounts d))
    by (rewrite E; constructor).
  apply elem_of_select_keyed in Hi as [Hi Hp]; [|apply Hinv]. split; [done|]. by apply String.eqb_eq.
Qed.

(** The insert of a conversion together with the credit of its account. *)
Lemma credit_keeps d a c :
  AffiliatesInv d -> accounts d !! aa_id a = Some a -> conversions d !! ac_id c = None ->
  ac_account_id c = aa_id a -> ac_status c <> AffiliateConversionStatus.REVERSED ->
  0 <= ac_commission_minor c -> conflicts conversion_col c (conversions d) = false ->
  AffiliatesInv
    (set_accounts (alter (set_earned (aa_total_earned_minor a + ac_commission_minor c)) (aa_id a) (accounts d))
      (set_conversions (save c (conversions d)) d)).
Proof.
  intros [Hk Hck Hu Hc Ho Hn Ha Hl] Hacc Hfresh Hid Hst Hpos Hconf. constructor; cbn.
  - by apply keyed_alter.
  - by apply keyed_save.
  - by apply unique_alter.
  - by apply unique_alter.
  - apply (insert_unique_preserves conversion_col c (conversions d)); try done.
    unfold insert_unique. by rewrite Hconf.
  - by apply map_Forall_insert_2.
  - apply map_Forall_insert_2.
    + apply lookup_alter_is_Some. rewrite Hid. by eexists.
    + intros k v Hv. apply lookup_alter_is_Some. by apply (Ha k).
  - intros k v (w & Hw & Hcase)%lookup_alter_cases. unfold save.
    rewrite table_sum_insert_fresh by done. unfold earned_by at 2. rewrite Hid.
    rewrite (bool_decide_false (ac_status c = _)) by done. cbn [negb]. rewrite andb_true_r.
    destruct Hcase as [[-> ->]|[Hne ->]].
    + rewrite N.eqb_refl. assert (w = a) as -> by congruence. cbn. by rewrite (Hl _ _ Hw).
    + rewrite (proj2 (N.eqb_neq _ _)) by congruence. rewrite (Hl _ _ Hw). lia.
Qed.

(** Reversing a conversion and debiting its account. *)
Lemma debit_keeps now d a c :
  AffiliatesInv d -> accounts d !! ac_account_id c = Some a -> conversions d !! ac_id c = Some c ->
  ac_status c <> AffiliateConversionStatus.REVERSED ->
  ac_commission_minor c <= aa_total_earned_minor a /\
  AffiliatesInv
    (set_accounts (alter (set_earned (Z.max 0 (aa_total_earned_minor a - ac_commission_minor c)))
                     (aa_id a) (accounts d))
      (set_conversions (alter (set_conversion AffiliateConversionStatus.REVERSED (Some now)) (ac_id c)
                         (conversions d)) d)).
Proof.
  intros Hinv Hacc Hc Hst. pose proof Hinv as [Hk Hck Hu Hcd Ho Hn Ha Hl].
  assert (Hid : aa_id a = ac_account_id c) by (by apply (Hk _ a)).
  assert (He : earned_by (ac_account_id c) c = ac_commission_minor c).
  { unfold earned_by. by rewrite N.eqb_refl, bool_decide_false. }
  assert (Hle : ac_commission_minor c <= aa_total_earned_minor a).
  { rewrite (Hl _ _ Hacc), <- He. eapply table_sum_le; [by apply earned_nonneg|done]. }
  split; [done|]. constructor; cbn.
  - by apply keyed_alter.
  - by apply keyed_alter.
  - by apply unique_alter.
  - by apply unique_alter.
  - by apply unique_alter.
  - intros k v (w & Hw & [[-> ->]|[_ ->]])%lookup_alter_cases; by apply (Hn _ _ Hw).
  - intros k v (w & Hw & Hcase)%lookup_alter_cases. apply lookup_alter_is_Some.
    destruct Hcase as [[-> ->]|[_ ->]]; by apply (Ha _ _ Hw).
  - intros k v (w & Hw & Hcase)%lookup_alter_cases.
    rewrite (alter_insert _ _ _ c Hc), (table_sum_insert _ _ _ _ c Hc).
    unfold earned_by at 3. cbn. rewrite andb_false_r.
    destruct Hcase as [[-> ->]|[Hne ->]].
    + assert (w = a) as -> by congruence. cbn. rewrite Hid, He, <- (Hl _ _ Hacc). lia.
    + unfold earned_by at 2. rewrite (proj2 (N.eqb_neq _ _)) by congruence. cbn. rewrite (Hl _ _ Hw). lia.
Qed.

(** What [record] did: nothing, or one conversion credited to its account. *)
Lemma record_inv now race o d r d' :
  AffiliatesInv d -> record now race o d = (r, d') ->
  (d' = d /\ is_ok r = true /\
     forall c, r = Ok (Some c) -> conversions d !! ac_id c = Some c /\ ac_order_id c = o_id o) \/
  (exists a, let d1 := race d in
     accounts d !! aa_id a = Some a /\ aa_is_active a = true /\ aa_user_id a <> o_user_id o /\
     aa_code a = lower (strip (default "" (oc_affiliate_code (o_cols o)))) /\
     (forall k c, conversions d !! k = Some c -> ac_order_id c <> o_id o) /\
     truthy (oc_affiliate_code (o_cols o)) = true /\
     ((exists c, r = Ok (Some c) /\ ac_id c = fresh_id (conversions d1) /\ ac_account_id c = aa_id a /\
         ac_order_id c = o_id o /\ ac_status c = AffiliateConversionStatus.PENDING /\
         ac_commission_minor c =
           commission_for (Z.max 0 (o_total_minor o - oc_tax_minor (o_cols o))) (aa_commission_bps a) /\
         conflicts conversion_col c (conversions d1) = false /\
         d' = set_accounts (alter (set_earned (aa_total_earned_minor a + ac_commission_minor c)) (aa_id a)
                (accounts d1)) (set_conversions (save c (conversions d1)) d1)) \/
      (r = Ok None /\ d' = d1))).
Proof.
  intros Hinv. unfold record. destruct (truthy _) eqn:Ht; cbn [negb]; [|intros [= <- <-]; by left].
  intros [(f & s & Hf & H)|(e & Hf & ->)]%bind_inv.
  2:{ exfalso. unfold find_by_code in Hf. cbv [get mbind M_bind of_result] in Hf.
      destruct (select_unique account_code_col (accounts d)
        (fun a => String.eqb (aa_code a) (lower (strip (default "" (oc_affiliate_code (o_cols o))))))
        (lower (strip (default "" (oc_affiliate_code (o_cols o)))))) as [x Ex];
        [apply Hinv|apply Hinv|intros v Hv; unfold account_code_col; f_equal; by apply String.eqb_eq|].
      rewrite Ex in Hf. discriminate. }
  destruct (find_by_code_inv _ _ _ _ Hinv Hf) as [-> Hfound].
  destruct f as [a|]; [|injection H as <- <-; by left].
  destruct (Hfound a eq_refl) as [Ha Hcode].
  destruct (aa_is_active a) eqn:Hact; cbn [negb] in H; [|injection H as <- <-; by left].
  destruct (N.eqb_spec (aa_user_id a) (o_user_id o)); [injection H as <- <-; by left|].
  destruct (find_conversion_inv (o_id o) d Hinv) as [(c & Hc & Hoc & E)|[Hno E]];
    rewrite (bind_ok _ _ _ _ _ E) in H.
  { injection H as <- <-. left. split; [done|]. split; [done|]. by intros c' [= <-]. }
  right. exists a. cbv zeta. repeat (split; [done|]).
  cbv [modify get mbind M_bind mret M_ret savepoint] in H.
  unfold insert_conversion, insert_into, insert_unique in H.
  destruct (conflicts conversion_col _ (conversions (race d))) eqn:Hc.
  - injection H as <- <-. by right.
  - rewrite update_accounts_run in H. injection H as <- <-. left. eexists. split; [done|].
    cbn [ac_id ac_account_id ac_order_id ac_status ac_commission_minor]. repeat (split; [done|]). done.
Qed.

Lemma record_keeps now o d r d' :
  AffiliatesInv d -> record now id o d = (r, d') ->
  AffiliatesInv d' /\ is_ok r = true.
Proof.
  intros Hinv [(-> & Hr & _)|(a & Ha & _ & _ & _ & _ & _ & [(c & -> & Hid & Hac & _ & Hst & Hcm & Hconf & ->)|[-> ->]])]%record_inv;
    try done.
  split; [|done]. unfold id in *. apply credit_keeps; try done.
  - rewrite Hid. apply fresh_id_None.
  - by rewrite Hst.
  - rewrite Hcm. unfold commission_for. lia.
Qed.

Lemma reverse_inv now oid d r d' :
  AffiliatesInv d -> reverse now oid d = (r, d') ->
  (d' = d /\ r = Ok tt /\
     forall k c, conversions d !! k = Some c -> ac_order_id c = oid -> ac_status c = AffiliateConversionStatus.REVERSED) \/
  (exists a c, r = Ok tt /\ accounts d !! ac_account_id c = Some a /\ conversions d !! ac_id c = Some c /\
     ac_order_id c = oid /\ ac_status c <> AffiliateConversionStatus.REVERSED /\
     d' = set_accounts (alter (set_earned (Z.max 0 (aa_total_earned_minor a - ac_commission_minor c)))
                     (aa_id a) (accounts d))
      (set_conversions (alter (set_conversion AffiliateConversionStatus.REVERSED (Some now)) (ac_id c)
                         (conversions d)) d)).
Proof.
  intros Hinv H. unfold reverse in H.
  destruct (find_conversion_inv oid d Hinv) as [(c & Hc & Ho & E)|[Hno E]]; rewrite (bind_ok _ _ _ _ _ E) in H.
  - case_bool_decide as Hst.
    + injection H as <- <-. left. repeat (split; [done|]). intros k v Hv Hov.
      assert (k = ac_id c) as -> by (eapply (ai_order d Hinv); eauto; unfold conversion_col; congruence).
      congruence.
    + right. unfold mbind, M_bind in H. rewrite update_conversions_run in H. cbn [get accounts set_conversions] in H.
      destruct (accounts d !! ac_account_id c) as [a|] eqn:Ha.
      * rewrite update_accounts_run in H. injection H as <- <-. exists a, c. done.
      * exfalso. destruct (ai_account d Hinv _ _ Hc) as [x Hx]. congruence.
  - injection H as <- <-. left. repeat (split; [done|]). intros k c Hc Hoc. by destruct (Hno k c Hc).
Qed.

Lemma reverse_keeps now oid d r d' :
  AffiliatesInv d -> reverse now oid d = (r, d') -> AffiliatesInv d' /\ r = Ok tt.
Proof.
  intros Hinv [(-> & -> & _)|(a & c & -> & Ha & Hc & _ & Hst & ->)]%reverse_inv; try done.
  split; [|done]. by apply debit_keeps.
Qed.

(** When there is an account to credit, it is credited. *)
Lemma record_credits now o d a :
  AffiliatesInv d -> truthy (oc_affiliate_code (o_cols o)) = true ->
  accounts d !! aa_id a = Some a -> aa_is_active a = true -> aa_user_id a <> o_user_id o ->
  aa_code a = lower (strip (default "" (oc_affiliate_code (o_cols o)))) ->
  exists c r d', record now id o d = (r, d') /\ conversions d' !! ac_id c = Some c /\ ac_order_id c = o_id o.
Proof.
  intros Hinv Ht Ha Hact Hself Hcode. unfold record. rewrite Ht. cbn [negb].
  assert (Hf : find_by_code (default "" (oc_affiliate_code (o_cols o))) d = (Ok (Some a), d)).
  { unfold find_by_code. cbv [get mbind M_bind of_result].
    rewrite (select_singleton _ _ a (aa_id a)); [done|apply Hinv|done|by apply String.eqb_eq|].
    intros i w Hi Hw%String.eqb_eq.
    assert (i = aa_id a) as -> by (eapply (ai_code d Hinv); eauto; unfold account_code_col; congruence).
    congruence. }
  rewrite (bind_ok _ _ _ _ _ Hf), Hact, (proj2 (N.eqb_neq _ _)) by done. cbn [negb].
  destruct (find_conversion_inv (o_id o) d Hinv) as [(c & Hc & Hoc & E)|[Hno E]]; rewrite (bind_ok _ _ _ _ _ E).
  { exists c. do 2 eexists. split; [reflexivity|]. done. }
  cbv [modify get mbind M_bind mret M_ret savepoint id].
  unfold insert_conversion, insert_into, insert_unique. set (c := {| ac_id := _ |}).
  assert (conflicts conversion_col c (conversions d) = false) as ->.
  { apply conflicts_false; [apply Hinv|]. intros k i w [= <-] Hi [= Hw]. exfalso. by apply (Hno i w). }
  rewrite update_accounts_run. exists c. do 2 eexists. split; [reflexivity|]. cbn.
  split; [apply lookup_insert_eq|done].
Qed.

(** *** Approval *)

Lemma earned_approved k at_ c : ac_status c <> AffiliateConversionStatus.REVERSED ->
  earned_by k (set_conversion AffiliateConversionStatus.APPROVED at_ c) = earned_by k c.
Proof. intros H. unfold earned_by. cbn [ac_account_id ac_status ac_commission_minor set_conversion]. by rewrite !bool_decide_false. Qed.

Lemma approve_keeps d c :
  AffiliatesInv d -> conversions d !! ac_id c = Some c -> ac_status c <> AffiliateConversionStatus.REVERSED ->
  AffiliatesInv (set_conversions (alter (set_conversion AffiliateConversionStatus.APPROVED (ac_reversed_at c))
                                   (ac_id c) (conversions d)) d).
Proof.
  intros [Hk Hck Hu Hcd Ho Hn Ha Hl] Hc Hst. constructor; cbn; try done.
  - by apply keyed_alter.
  - by apply unique_alter.
  - intros k v (w & Hw & [[-> ->]|[_ ->]])%lookup_alter_cases; by apply (Hn _ _ Hw).
  - intros k v (w & Hw & [[-> ->]|[_ ->]])%lookup_alter_cases; by apply (Ha _ _ Hw).
  - intros k a Hka. rewrite (alter_insert _ _ _ c Hc), (table_sum_insert _ _ _ _ c Hc), (Hl _ _ Hka).
    rewrite earned_approved by done. lia.
Qed.

Lemma approve_loop l : forall d u d',
  AffiliatesInv d -> NoDup (map ac_id l) ->
  (forall c, c ∈ l -> conversions d !! ac_id c = Some c /\ ac_status c = AffiliateConversionStatus.PENDING) ->
  for_each approve_one l d = (u, d') ->
  AffiliatesInv d' /\ u = Ok tt /\ accounts d' = accounts d /\
  forall k, conversions d' !! k =
    match List.find (fun c => (ac_id c =? k)%N) l with
    | Some c => Some (set_conversion AffiliateConversionStatus.APPROVED (ac_reversed_at c) c)
    | None => conversions d !! k
    end.
Proof.
  induction l as [|c l IH]; intros d u d' Hinv Hnd Hin; cbn [for_each]; [by intros [= <- <-]|].
  apply NoDup_cons in Hnd as [Hno Hnd]. destruct (Hin c ltac:(constructor)) as [Hc Hst].
  unfold mbind, M_bind, approve_one at 1. rewrite update_conversions_run. intros H.
  apply IH in H as (H1 & H2 & H3 & H4).
  - split; [done|]. split; [done|]. split; [done|]. intros k. rewrite H4. cbn [List.find conversions set_conversions].
    rewrite (alter_insert _ _ _ c Hc). destruct (N.eqb_spec (ac_id c) k) as [<-|Hne].
    + destruct (List.find _ l) as [v|] eqn:Ef; [|by rewrite lookup_insert_eq].
      apply find_some in Ef as [Hv Ev%N.eqb_eq]. exfalso. apply Hno. rewrite <- Ev.
      apply list_elem_of_fmap_2. by apply list_elem_of_In.
    + destruct (List.find _ l); [done|]. by rewrite lookup_insert_ne.
  - apply approve_keeps; [done|done|]. by rewrite Hst.
  - done.
  - intros v Hv. destruct (Hin v ltac:(by right)) as [Hv1 Hv2]. split; [|done]. cbn.
    rewrite (alter_insert _ _ _ c Hc), lookup_insert_ne; [done|]. intros E. apply Hno. rewrite E.
    by apply list_elem_of_fmap_2.
Qed.

Lemma approve_matured_inv st scan now batch d r d' :
  AffiliatesInv d -> (forall l, scan l ≡ₚ l) -> approve_matured st scan now batch d = (r, d') ->
  let rows := take batch (scan (select (matured (now - affiliate_hold_days st * DAY)) (conversions d))) in
  AffiliatesInv d' /\ r = Ok (Z.of_nat (length rows)) /\ accounts d' = accounts d /\
  forall k, conversions d' !! k =
    match List.find (fun c => (ac_id c =? k)%N) rows with
    | Some c => Some (set_conversion AffiliateConversionStatus.APPROVED (ac_reversed_at c) c)
    | None => conversions d !! k
    end.
Proof.
  intros Hinv Hscan H rows. unfold approve_matured in H. cbv zeta in H. cbv [get] in H.
  apply bind_inv in H as [(d0 & s0 & [= <- <-] & H)|(e & Hx & _)]; [|discriminate].
  fold rows in H. set (sel := select _ (conversions d)) in *.
  assert (Hin : forall c, c ∈ rows -> conversions d !! ac_id c = Some c /\ ac_status c = AffiliateConversionStatus.PENDING).
  { intros c (i & Hi & _)%elem_of_take. apply list_elem_of_lookup_2 in Hi. rewrite Hscan in Hi.
    apply elem_of_select_keyed in Hi as [Hi Hm]; [|apply Hinv]. split; [done|].
    unfold matured in Hm. by bool_to_prop. }
  assert (Hnd : NoDup (map ac_id rows)).
  { apply NoDup_fmap_2_strong.
    - intros a b Ha%Hin Hb%Hin E. destruct Ha as [Ha _], Hb as [Hb _]. rewrite E, Hb in Ha. by simplify_eq.
    - apply (sublist_NoDup _ (scan sel)); [|apply sublist_take]. rewrite Hscan. apply NoDup_select, Hinv. }
  destruct (for_each approve_one rows d) as [u d1] eqn:Hl.
  destruct (approve_loop rows d u d1 Hinv Hnd Hin Hl) as (H1 & -> & H2 & H3).
  unfold mbind, M_bind in H. rewrite Hl in H. injection H as <- <-. done.
Qed.

Lemma register_keeps st token uid code d r d' :
  AffiliatesInv d -> register st id token uid code d = (r, d') -> AffiliatesInv d'.
Proof.
  intros Hinv. unfold register.
  assert (Hfu : forall d r d', for_user uid d = (r, d') -> d' = d).
  { intros d0 r0 d0'. unfold for_user. cbv [get mbind M_bind of_result]. by intros [= _ <-]. }
  intros [(f & s & Hf & H)|(e & Hf & ->)]%bind_inv; apply Hfu in Hf as ->; [|done].
  destruct f as [a|]; [by injection H as <- <-|].
  apply bind_inv in H as [(tk & s & Ht & H)|(e & Ht & ->)].
  2:{ destruct (truthy code); [by apply find_by_code_inv in Ht as [-> _]|by injection Ht as _ <-]. }
  assert (s = d) as ->.
  { destruct (truthy code); [by apply find_by_code_inv in Ht as [-> _]|by injection Ht as _ <-]. }
  apply bind_inv in H as [(u & s & Hw & H)|(e & Hw & ->)].
  2:{ unfold raise_when in Hw. destruct (negb _); by injection Hw as _ <-. }
  assert (s = d) as -> by (unfold raise_when in Hw; destruct (negb _); by injection Hw as _ <-).
  cbv [modify get] in H. unfold mbind at 1 2, M_bind in H. cbv [id] in H.
  set (acc := {| aa_id := _ |}) in *.
  destruct (conflicts account_user_col acc (accounts d)) eqn:C1; cbn [orb] in H.
  { apply bind_inv in H as [(x & s & Hx & H)|(e & Hx & ->)]; apply Hfu in Hx as ->; [|done].
    destruct x; by injection H as _ <-. }
  destruct (conflicts account_code_col acc (accounts d)) eqn:C2.
  { apply bind_inv in H as [(x & s & Hx & H)|(e & Hx & ->)]; apply Hfu in Hx as ->; [|done].
    destruct x; by injection H as _ <-. }
  cbv [mbind M_bind mret M_ret] in H. injection H as <- <-.
  destruct Hinv as [Hk Hck Hu Hc Ho Hn Ha Hl].
  assert (Hfr : accounts d !! aa_id acc = None) by apply fresh_id_None.
  assert (Hz : aa_total_earned_minor acc = 0) by reflexivity. clearbody acc.
  constructor; cbn [accounts conversions set_accounts]; try done.
  - by apply keyed_save.
  - apply (insert_unique_preserves account_user_col acc (accounts d)); try done. unfold insert_unique. by rewrite C1.
  - apply (insert_unique_preserves account_code_col acc (accounts d)); try done. unfold insert_unique. by rewrite C2.
  - intros k c Hc'. rewrite lookup_save. case_decide; [done|]. by apply (Ha k).
  - intros k a. rewrite lookup_save. case_decide as E; [|apply Hl]. intros [= <-]. rewrite Hz.
    symmetry. apply table_sum_zero. intros i c Hc'. unfold earned_by.
    destruct (N.eqb_spec (ac_account_id c) k) as [Ek|]; [|done].
    exfalso. destruct (Ha _ _ Hc') as [x Hx]. unfold row_id, AffiliateAccount_row in E. congruence.
Qed.

(** The committed transactions on the affiliate tables, one after another. *)
Inductive affiliate_step (st : Settings) : Db -> Db -> Prop :=
  | as_register token uid code r d d' :
      register st id token uid code d = (r, d') -> affiliate_step st d d'
  | as_record now o r d d' : record now id o d = (r, d') -> affiliate_step st d d'
  | as_reverse now oid r d d' : reverse now oid d = (r, d') -> affiliate_step st d d'
  | as_approve scan now batch r d d' :
      (forall l, scan l ≡ₚ l) -> approve_matured st scan now batch d = (r, d') -> affiliate_step st d d'.

Lemma affiliate_steps_keep st d d' : AffiliatesInv d -> rtc (affiliate_step st) d d' -> AffiliatesInv d'.
Proof.
  intros Hinv H. induction H as [|d d1 d' H1 _ IH]; [done|]. apply IH. clear IH.
  destruct H1 as [token uid code r d d1 H|now o r d d1 H|now oid r d d1 H|scan now batch r d d1 Hs H].
  - by eapply register_keeps.
  - by eapply record_keeps.
  - by eapply reverse_keeps.
  - by eapply approve_matured_inv.
Qed.

Lemma empty_affiliates_inv : AffiliatesInv empty_db.
Proof.
  constructor; cbn; auto with store; try apply keyed_empty; try apply unique_empty; try apply map_Forall_empty.
Qed.

(** ** Properties *)

(** An affiliate's lifetime earnings are exactly the commission of its
    conversions that were not reversed, in every state reached by any sequence
    of enrolments, paid orders, refunds and approvals; and no order is credited
    twice. *)
Theorem earnings_ledger st d (Hsteps : rtc (affiliate_step st) empty_db d) :
  (forall k a, accounts d !! k = Some a ->
     aa_total_earned_minor a = table_sum (earned_by k) (conversions d) /\ 0 <= aa_total_earned_minor a) /\
  unique_on conversion_col (conversions d).
Proof.
  pose proof (affiliate_steps_keep st _ _ empty_affiliates_inv Hsteps) as Hinv.
  split; [|apply Hinv]. intros k a Ha. rewrite (ai_ledger d Hinv k a Ha). split; [done|].
  apply table_sum_nonneg. by apply earned_nonneg.
Qed.

(** A refund takes the commission back exactly.  Crediting an order to its
    affiliate and then reversing it restores every account to the figures it
    had, and the commission is at most the price net of tax, rounded down from
    the account's basis points, never for the buyer's own link. *)
Theorem reverse_undoes_record now now' o d c d1 r d2
    (Hinv : AffiliatesInv d) (Hbps : forall k a, accounts d !! k = Some a -> 0 <= aa_commission_bps a <= 10000)
    (Hnew : forall k c, conversions d !! k = Some c -> ac_order_id c <> o_id o)
    (Hrec : record now id o d = (Ok (Some c), d1)) (Hrev : reverse now' (o_id o) d1 = (r, d2)) :
  accounts d2 = accounts d /\ r = Ok tt /\
  exists a, accounts d !! ac_account_id c = Some a /\ aa_user_id a <> o_user_id o /\
    let net := Z.max 0 (o_total_minor o - oc_tax_minor (o_cols o)) in
    0 <= ac_commission_minor c <= net /\ 10000 * ac_commission_minor c <= net * aa_commission_bps a.
Proof.
  pose proof (record_keeps _ _ _ _ _ Hinv Hrec) as [Hinv1 _]. pose proof Hinv as Hinv0.
  apply record_inv in Hrec as [(-> & _ & Hex)|(a & Ha & _ & Hself & _ & _ & _ & [(c' & [= <-] & Hid & Hac & Hoc & Hst & Hcm & _ & ->)|[[=] _]])]; [| |done].
  { destruct (Hex c eq_refl) as [Hc Hoc]. by destruct (Hnew _ _ Hc). }
  unfold id in *. apply reverse_inv in Hrev as [(-> & -> & Hrv)|(b & c0 & -> & Hb & Hc0 & Hoc0 & _ & ->)]; [| |done].
  { exfalso. specialize (Hrv (ac_id c) c). cbn in Hrv. unfold save in Hrv.
    rewrite (lookup_insert_eq (conversions d)) in Hrv. rewrite Hrv in Hst; done. }
  cbn in Hb, Hc0.
  assert (c0 = c) as ->.
  { rewrite lookup_save in Hc0. case_decide as E; [by injection Hc0|]. by destruct (Hnew _ _ Hc0). }
  rewrite Hac, lookup_alter_eq, Ha in Hb. injection Hb as <-.
  split; [|split; [done|]].
  - cbn. apply map_eq. intros i. destruct (decide (i = aa_id a)) as [->|Hne].
    + rewrite !lookup_alter_eq, Ha. cbn. f_equal. destruct Hinv as [_ _ _ _ _ _ _ Hl].
      specialize (Hl _ _ Ha). pose proof (table_sum_nonneg (earned_by (aa_id a)) (conversions d)) as Hn.
      specialize (Hn (earned_nonneg d _ Hinv0)). destruct a; unfold set_earned; cbn in *. f_equal. lia.
    + by rewrite !lookup_alter_ne.
  - exists a. rewrite Hac. split; [done|]. split; [done|]. cbv zeta. rewrite Hcm.
    apply commission_bounds; [lia|by eapply Hbps].
Qed.

(** Commission becomes payable only after the refund window.  The sweep
    promotes exactly the conversions that are still pending and older than the
    hold period (given a batch large enough): a reversed one stays reversed, a
    young one stays pending, and no account changes. *)
Theorem approval_respects_hold st scan now batch d r d' k c
    (Hinv : AffiliatesInv d) (Hscan : forall l, scan l ≡ₚ l)
    (Hbatch : (length (select (matured (now - affiliate_hold_days st * DAY)) (conversions d)) <= batch)%nat)
    (Hrun : approve_matured st scan now batch d = (r, d')) (Hc : conversions d !! k = Some c) :
  accounts d' = accounts d /\
  conversions d' !! k =
    Some (if bool_decide (ac_status c = AffiliateConversionStatus.PENDING) &&
             (ac_created_at c <? now - affiliate_hold_days st * DAY)
          then set_conversion AffiliateConversionStatus.APPROVED (ac_reversed_at c) c else c).
Proof.
  destruct (approve_matured_inv _ _ _ _ _ _ _ Hinv Hscan Hrun) as (_ & _ & Ha & Hk). split; [done|].
  rewrite take_ge in Hk by (by rewrite Hscan). rewrite Hk. fold (matured (now - affiliate_hold_days st * DAY) c).
  set (P := matured _) in *. set (l := scan _).
  assert (Hl : forall v, v ∈ l <-> conversions d !! ac_id v = Some v /\ P v = true).
  { intros v. unfold l. rewrite Hscan. split.
    - intros H. apply elem_of_select_keyed in H; [done|apply Hinv].
    - intros [H1 H2]. apply elem_of_select. eauto. }
  pose proof (ai_ckeyed d Hinv k c Hc) as Eid. unfold row_id, AffiliateConversion_row in Eid.
  destruct (List.find _ l) as [v|] eqn:Ef.
  - apply find_some in Ef as [Hv%list_elem_of_In Ev%N.eqb_eq]. apply Hl in Hv as [Hv HP].
    rewrite Ev, Hc in Hv. injection Hv as <-. by rewrite HP.
  - destruct (P c) eqn:HP; [exfalso|done].
    pose proof (find_none _ _ Ef c) as Hn. cbn in Hn. rewrite Eid, N.eqb_refl in Hn.
    discriminate Hn. apply list_elem_of_In, Hl. by rewrite Eid.
Qed.

(** ** The properties on a concrete referral *)

Definition affiliate_db : Db :=
  (register default_settings id "Ref_12-xY" 42 (Some "readers") empty_db).2.
Definition referred_order : Order :=
  let o := sample_order in let c := o_cols o in
  mkOrder (o_id o)
    (mkOrderCols (oc_user_id c) (oc_order_number c) (oc_subtotal_minor c) (oc_discount_minor c)
       (oc_tax_minor c) (oc_total_minor c) (oc_currency c) (oc_cgst_minor c) (oc_sgst_minor c)
       (oc_igst_minor c) (oc_tax_percent c) (oc_place_of_supply c) (oc_coupon_id c) (oc_coupon_code c)
       (Some " Readers") (oc_idempotency_key c) (oc_billing_name c) (oc_billing_email c)
       (oc_billing_address c) (oc_expires_at c) (oc_created_at c) (oc_items c))
    (o_status o) (o_refunded_minor o) (o_provider o) (o_provider_order_id o) (o_checkout_url o)
    (o_paid_at o) (o_cancelled_at o) (o_failure_reason o).
Definition credited : result (option AffiliateConversion) * Db := record 60 id referred_order affiliate_db.
Definition the_conversion : AffiliateConversion :=
  {| ac_id := 1; ac_account_id := 1; ac_order_id := 1; ac_order_total_minor := 49900;
     ac_commission_minor := 2114; ac_currency := "INR"; ac_status := AffiliateConversionStatus.PENDING;
     ac_reversed_at := None; ac_created_at := 60 |}.

Lemma affiliate_db_steps : rtc (affiliate_step default_settings) empty_db affiliate_db.
Proof.
  apply rtc_once, (as_register _ "Ref_12-xY" 42 (Some "readers")
    (register default_settings id "Ref_12-xY" 42 (Some "readers") empty_db).1).
  apply surjective_pairing.
Qed.

Lemma credited_ok : credited = (Ok (Some the_conversion), credited.2).
Proof. vm_compute. reflexivity. Qed.

Lemma earnings_ledger_witness :
  (aa_total_earned_minor <$> accounts credited.2 !! 1%N) = Some 2114 /\
  unique_on conversion_col (conversions credited.2).
Proof.
  destruct (earnings_ledger default_settings credited.2) as [_ H].
  - eapply rtc_r; [exact affiliate_db_steps|]. apply (as_record _ 60 referred_order credited.1).
    apply surjective_pairing.
  - split; [vm_compute; reflexivity|exact H].
Defined.

Lemma reverse_undoes_record_witness :
  accounts (reverse 90 1 credited.2).2 = accounts affiliate_db.
Proof.
  destruct (reverse_undoes_record 60 90 referred_order affiliate_db the_conversion credited.2
    (reverse 90 1 credited.2).1 (reverse 90 1 credited.2).2) as [H _].
  - exact (affiliate_steps_keep _ _ _ empty_affiliates_inv affiliate_db_steps).
  - intros k a H. destruct (decide (k = 1%N)) as [->|Hk].
    + vm_compute in H. injection H as <-. vm_compute. split; discriminate.
    + exfalso. assert (E : accounts affiliate_db = {[ 1%N := mkAccount 1 42 "readers" 500 true 0 0 ]})
        by (vm_compute; reflexivity).
      rewrite E, lookup_singleton_ne in H by done. discriminate.
  - intros k c H. exfalso. change (conversions affiliate_db) with (∅ : table AffiliateConversion) in H.
    by rewrite lookup_empty in H.
  - exact credited_ok.
  - apply surjective_pairing.
  - exact H.
Defined.

Lemma approval_respects_hold_witness :
  conversions (approve_matured default_settings id (15 * DAY) 500 credited.2).2 !! 1%N =
    Some (set_conversion AffiliateConversionStatus.APPROVED None the_conversion).
Proof.
  destruct (approval_respects_hold default_settings id (15 * DAY) 500 credited.2
    (approve_matured default_settings id (15 * DAY) 500 credited.2).1
    (approve_matured default_settings id (15 * DAY) 500 credited.2).2 1 the_conversion) as [_ H].
  - refine (proj1 (record_keeps 60 referred_order affiliate_db credited.1 _ _ (surjective_pairing _))).
    exact (affiliate_steps_keep _ _ _ empty_affiliates_inv affiliate_db_steps).
  - reflexivity.
  - vm_compute. lia.
  - apply surjective_pairing.
  - vm_compute. reflexivity.
  - exact H.
Defined.

(** Two orders of one affiliate settled at the same time: the second credit was
    computed from an account read before the first one committed, so one
    commission is missing from the earnings although both conversions exist. *)
Example concurrent_credit_lost :
  let other := mkOrder 2 (o_cols referred_order) PAID 0 None None None None None None in
  let race := fun d => (record 60 id other d).2 in
  let d := (record 60 race referred_order affiliate_db).2 in
  (aa_total_earned_minor <$> accounts d !! 1%N) = Some 2114 /\
  table_sum (earned_by 1) (conversions d) = 4228.
Proof. vm_compute. auto. Qed.
