(* ===== verification/Payments.v ===== *)
(** * Settlement (apps/payment/services/payments.py)

    Recording a gateway payment, settling an order with its downstream
    effects, recording a failed attempt, and the announcements published after
    the commit.  The [race] functions are what other transactions commit at the
    three points where the code reads before it inserts. *)

From S2P Require Import Prelude Store Json Coupons PaymentModels Db Dates Pagination Orders Invoices Affiliates.

Notation PStatus := PaymentStatus.t (only parsing).

(** The assignments of [record_payment] to an existing row. *)
Definition refresh_payment (now : datetime) (status : PStatus) (method failure_code failure_message : option string)
    (raw_payload : option json) (p : Payment) : Payment :=
  {| p_id := p_id p; p_order_id := p_order_id p; p_user_id := p_user_id p; p_provider := p_provider p;
     p_provider_payment_id := p_provider_payment_id p; p_status := status;
     p_amount_minor := p_amount_minor p; p_currency := p_currency p;
     p_method := str_or method (p_method p);
     p_raw_payload := match raw_payload with
                      | Some j => if jtruthy j then j else p_raw_payload p
                      | None => p_raw_payload p
                      end;
     p_failure_code := str_or failure_code (p_failure_code p);
     p_failure_message := str_or failure_message (p_failure_message p);
     p_captured_at := if bool_decide (status = PaymentStatus.CAPTURED) && bool_decide (p_captured_at p = None)
                      then Some now else p_captured_at p;
     p_created_at := p_created_at p |}.

Definition set_payment_status (st : PStatus) (p : Payment) : Payment :=
  {| p_id := p_id p; p_order_id := p_order_id p; p_user_id := p_user_id p; p_provider := p_provider p;
     p_provider_payment_id := p_provider_payment_id p; p_status := st;
     p_amount_minor := p_amount_minor p; p_currency := p_currency p; p_method := p_method p;
     p_raw_payload := p_raw_payload p; p_failure_code := p_failure_code p;
     p_failure_message := p_failure_message p; p_captured_at := p_captured_at p;
     p_created_at := p_created_at p |}.

Record SettlementResult := mkSettlement {
  sr_order : Order;
  sr_payment : option Payment;
  sr_invoice : option Invoice;
  sr_newly_paid : bool;
}.

Definition is_payment (provider : PaymentProvider) (pid : string) (p : Payment) : bool :=
  bool_decide (p_provider p = provider) && String.eqb (p_provider_payment_id p) pid.

Definition find_payment (provider : PaymentProvider) (pid : string) : M Db (option Payment) :=
  d ← get; of_result (one_or_none (select (is_payment provider pid) (payments d))).

(** What other transactions commit while one settles. *)
Record races := mkRaces {
  at_payment : Db -> Db;
  at_invoice : nat -> Db -> Db;
  at_conversion : Db -> Db;
}.
Definition alone : races := {| at_payment := id; at_invoice := no_race; at_conversion := id |}.

Section payments.
Context (settings : Settings).

Definition new_payment (now : datetime) (id : uuid) (o : Order) (provider : PaymentProvider) (pid : string)
    (status : PStatus) (amount_minor : Z) (currency : string)
    (method failure_code failure_message : option string) (raw_payload : option json) : Payment :=
  {| p_id := id; p_order_id := o_id o; p_user_id := o_user_id o; p_provider := provider;
     p_provider_payment_id := pid; p_status := status; p_amount_minor := amount_minor;
     p_currency := currency; p_method := method;
     p_raw_payload := default (JObj []) raw_payload;
     p_failure_code := failure_code; p_failure_message := failure_message;
     p_captured_at := if bool_decide (status = PaymentStatus.CAPTURED) then Some now else None;
     p_created_at := now |}.

Definition record_payment (now : datetime) (race : Db -> Db) (o : Order) (provider : PaymentProvider)
    (pid : string) (status : PStatus) (amount_minor : Z) (currency : string)
    (method failure_code failure_message : option string) (raw_payload : option json)
    : M Db (Payment * bool) :=
  existing ← find_payment provider pid;
  match existing with
  | Some p =>
      let f := refresh_payment now status method failure_code failure_message raw_payload in
      _ ← update_payments (p_id p) f;
      mret (f p, false)
  | None =>
      _ ← modify race;
      d ← get;
      let p := new_payment now (fresh_id (payments d)) o provider pid status amount_minor currency
                 method failure_code failure_message raw_payload in
      savepoint (_ ← insert_payment p; mret (p, true))
        (settled ← find_payment provider pid;
         match settled with
         | Some p => mret (p, false)
         | None => raise IntegrityErr
         end)
  end.

Definition settle (now : datetime) (race : races) (o : Order) (provider : PaymentProvider) (pid : string)
    (amount_minor : option Z) (currency method : option string) (raw_payload : option json)
    : M Db SettlementResult :=
  let charged := default (o_total_minor o) amount_minor in
  '(payment, _) ← record_payment now (at_payment race) o provider pid PaymentStatus.CAPTURED charged
      (upper (default "" (str_or currency (Some (oc_currency (o_cols o)))))) method None None raw_payload;
  '(newly_paid, o') ← mark_paid now o;
  if negb newly_paid then mret (mkSettlement o' (Some payment) None false) else
  invoice ← for_order settings (at_invoice race) now o';
  _ ← record now (at_conversion race) o';
  mret (mkSettlement o' (Some payment) (Some invoice) true).

Definition fail (now : datetime) (race : Db -> Db) (o : Order) (provider : PaymentProvider)
    (pid : option string) (reason failure_code : option string) (amount_minor : option Z)
    (raw_payload : option json) : M Db Order :=
  _ ← (if truthy pid then
         _ ← record_payment now race o provider (default "" pid) PaymentStatus.FAILED
               (default (o_total_minor o) amount_minor) (oc_currency (o_cols o)) None failure_code reason
               raw_payload;
         mret tt
       else mret tt);
  mark_failed o reason.
End payments.

(** ** Announcements *)

Definition event_item (i : OrderItem) : json :=
  JObj [("book_id", JStr (string_of_uuid (it_book_id i))); ("title", JStr (it_title i));
        ("quantity", JInt (it_quantity i)); ("unit_price_minor", JInt (it_unit_price_minor i))].

Definition opt_json (o : option string) : json := match o with Some s => JStr s | None => JNull end.

Definition order_event_payload (o : Order) : list (string * json) :=
  [("order_id", JStr (string_of_uuid (o_id o)));
   ("order_number", JStr (oc_order_number (o_cols o)));
   ("user_id", JStr (string_of_uuid (o_user_id o)));
   ("book_ids", JList (map (fun i => JStr (string_of_uuid (it_book_id i))) (o_items o)));
   ("items", JList (map event_item (o_items o)));
   ("total_minor", JInt (o_total_minor o));
   ("currency", JStr (oc_currency (o_cols o)));
   ("provider", opt_json (provider_value <$> o_provider o));
   ("email", opt_json (oc_billing_email (o_cols o)));
   ("paid_at", opt_json (isoformat <$> o_paid_at o))].

(** The event stream: what it accepted, in order; a publish may fail. *)
Definition event : Type := string * json.
Definition publisher : Type := event -> bool.

(** Publish in order until one fails; the failure is logged, not raised. *)
Fixpoint publish_all (accept : publisher) (es : list event) : list event :=
  match es with
  | [] => []
  | e :: es' => if accept e then e :: publish_all accept es' else []
  end.

Lemma publish_all_elem accept es e : e ∈ publish_all accept es -> e ∈ es.
Proof. induction es as [|e' es IH]; cbn; [done|]. destruct (accept e'); set_solver. Qed.

Definition announce_paid (pub : option publisher) (r : SettlementResult) : list event :=
  match pub with
  | None => []
  | Some accept =>
      if negb (sr_newly_paid r) then [] else
      let payload := order_event_payload (sr_order r) ++
        (match sr_invoice r with Some i => [("invoice_number", JStr (iv_invoice_number i))] | None => [] end) ++
        (match sr_payment r with Some p => [("payment_id", JStr (p_provider_payment_id p))] | None => [] end) in
      publish_all accept [("payment.succeeded", JObj payload); ("order.paid", JObj payload)]
  end.

Definition announce_failed (pub : option publisher) (o : Order) (reason : option string) : list event :=
  match pub with
  | None => []
  | Some accept =>
      publish_all accept [("payment.failed", JObj
        [("order_id", JStr (string_of_uuid (o_id o))); ("order_number", JStr (oc_order_number (o_cols o)));
         ("user_id", JStr (string_of_uuid (o_user_id o))); ("email", opt_json (oc_billing_email (o_cols o)));
         ("reason", opt_json reason)])]
  end.

Definition announce_refunded (pub : option publisher) (o : Order) (amount_minor : Z) (revoke : bool)
    : list event :=
  match pub with
  | None => []
  | Some accept =>
      publish_all accept [("order.refunded", JObj
        [("order_id", JStr (string_of_uuid (o_id o))); ("order_number", JStr (oc_order_number (o_cols o)));
         ("user_id", JStr (string_of_uuid (o_user_id o)));
         ("book_ids", JList (map (fun i => JStr (string_of_uuid (it_book_id i))) (o_items o)));
         ("amount_minor", JInt amount_minor); ("currency", JStr (oc_currency (o_cols o)));
         ("fully_refunded", JBool (bool_decide (o_status o = REFUNDED)));
         ("revoke_entitlements", JBool revoke); ("email", opt_json (oc_billing_email (o_cols o)))])]
  end.

Definition order_book_ids (o : Order) : list uuid := map it_book_id (o_items o).

(** ** Invariants of the service's tables *)

Definition payments_ok (d : Db) : Prop := keyed (payments d) /\ unique_on payment_col (payments d).

Record ServiceInv (st : Settings) (d : Db) : Prop := {
  si_orders : OrdersInv d;
  si_invoices : InvoicesInv st d;
  si_affiliates : AffiliatesInv d;
  si_payments : payments_ok d;
  si_invoiced : forall k i, invoices d !! k = Some i ->
    exists o, orders d !! iv_order_id i = Some o /\ settled o = true;
  si_credited : forall k c, conversions d !! k = Some c ->
    exists o, orders d !! ac_order_id c = Some o /\ settled o = true;
}.

(** Each invariant depends on its own tables only. *)
Lemma OrdersInv_frame d d' :
  orders d' = orders d -> coupon_store d' = coupon_store d -> OrdersInv d -> OrdersInv d'.
Proof. intros E1 E2 [? ? ? ? ? ?]. by constructor; rewrite ?E1, ?E2. Qed.

Lemma InvoicesInv_frame st d d' : invoices d' = invoices d -> InvoicesInv st d -> InvoicesInv st d'.
Proof.
  intros E [? ? ? Hs]. constructor; rewrite ?E; try done. unfold numbers in *. by rewrite E.
Qed.

Lemma AffiliatesInv_frame d d' :
  accounts d' = accounts d -> conversions d' = conversions d -> AffiliatesInv d -> AffiliatesInv d'.
Proof. intros E1 E2 [? ? ? ? ? ? ? ?]. by constructor; rewrite ?E1, ?E2. Qed.

(** Only the named table differs. *)
Definition only_payments (d d' : Db) : Prop := d' = set_payments (payments d') d.
Definition only_invoices (d d' : Db) : Prop := d' = set_invoices (invoices d') d.

Lemma ServiceInv_payments st d d' :
  only_payments d d' -> payments_ok d' -> ServiceInv st d -> ServiceInv st d'.
Proof.
  unfold only_payments. generalize (payments d'). intros t -> Hp [Ho Hi Ha _ Hv Hcr].
  constructor; try done.
  - exact (OrdersInv_frame d (set_payments t d) eq_refl eq_refl Ho).
  - exact (InvoicesInv_frame st d (set_payments t d) eq_refl Hi).
  - exact (AffiliatesInv_frame d (set_payments t d) eq_refl eq_refl Ha).
Qed.

(** ** Recording a payment *)

Lemma is_payment_key provider pid p : is_payment provider pid p = true <-> payment_col p = Some (provider, pid).
Proof.
  unfold is_payment, payment_col. rewrite andb_true_iff, bool_decide_eq_true, String.eqb_eq.
  split; [intros [<- <-]; done|by intros [= <- <-]].
Qed.

Lemma find_payment_inv provider pid d :
  payments_ok d ->
  (exists p, payments d !! p_id p = Some p /\ is_payment provider pid p = true /\
     find_payment provider pid d = (Ok (Some p), d)) \/
  ((forall k p, payments d !! k = Some p -> is_payment provider pid p = false) /\
     find_payment provider pid d = (Ok None, d)).
Proof.
  intros [Hk Hu]. unfold find_payment. cbv [get mbind M_bind of_result].
  destruct (select_unique payment_col (payments d) (is_payment provider pid) (provider, pid)) as [[p|] E];
    [done|done| |..]; rewrite ?E.
  - intros v Hv. by apply is_payment_key.
  - left. exists p. apply one_or_none_Some in E.
    assert (Hi : p ∈ select (is_payment provider pid) (payments d)) by (rewrite E; constructor).
    apply elem_of_select_keyed in Hi as [Hi Hp]; done.
  - right. split; [|done]. intros k v Hv. apply not_true_iff_false. intros Hp. apply one_or_none_None in E.
    assert (Hi : v ∈ select (is_payment provider pid) (payments d)) by (apply elem_of_select; eauto).
    rewrite E in Hi. set_solver.
Qed.

Lemma refresh_ok now status m fc fm raw p d :
  payments_ok d -> payments_ok (set_payments (alter (refresh_payment now status m fc fm raw) (p_id p) (payments d)) d).
Proof. intros [Hk Hu]. split; cbn; [by apply keyed_alter|by apply unique_alter]. Qed.

(** It always returns the one row of the payment id, whoever inserted it. *)
Lemma record_payment_inv now race o provider pid status amount cur m fc fm raw d r d' :
  payments_ok d -> payments_ok (race d) ->
  record_payment now race o provider pid status amount cur m fc fm raw d = (r, d') ->
  exists p created, r = Ok (p, created) /\ payments_ok d' /\
    payments d' !! p_id p = Some p /\ is_payment provider pid p = true /\
    ((exists q, payments d !! p_id q = Some q /\ is_payment provider pid q = true /\ created = false /\
        p = refresh_payment now status m fc fm raw q /\ only_payments d d') \/
     ((forall k q, payments d !! k = Some q -> is_payment provider pid q = false) /\
        ((created = true /\ only_payments (race d) d' /\ p_status p = status /\ p_order_id p = o_id o /\
            p_amount_minor p = amount /\ payments (race d) !! p_id p = None /\
            payments d' = save p (payments (race d))) \/
         (created = false /\ d' = race d)))).
Proof.
  intros Hok Hrok. unfold record_payment.
  destruct (find_payment_inv provider pid d Hok) as [(q & Hq & Hp & E)|[Hno E]];
    rewrite (bind_ok _ _ _ _ _ E).
  - cbv [update_payments modify mbind M_bind mret M_ret]. intros [= <- <-].
    do 2 eexists. split; [done|]. split; [by apply refresh_ok|].
    split; [by cbn; rewrite lookup_alter_eq, Hq|]. split; [exact Hp|]. left. exists q. done.
  - cbv [modify get mbind M_bind mret M_ret savepoint]. unfold insert_payment, insert_into, insert_unique.
    set (p := new_payment _ _ _ _ _ _ _ _ _ _ _ _).
    destruct (conflicts payment_col p (payments (race d))) eqn:Hc.
    + destruct (find_payment_inv provider pid (race d) Hrok) as [(q & Hq & Hp & E')|[Hno' _]].
      * rewrite E'. intros [= <- <-]. exists q, false. repeat (split; [done|]). right. split; [done|]. by right.
      * exfalso. apply not_false_iff_true in Hc. apply Hc. apply conflicts_false; [apply Hrok|].
        intros k i w Hpk Hi Hw. exfalso. assert (is_payment provider pid w = true); [|by rewrite (Hno' i w Hi) in *].
        apply is_payment_key. rewrite Hw, <- Hpk. done.
    + intros [= <- <-]. exists p, true.
      assert (Hf : payments (race d) !! p_id p = None) by apply fresh_id_None.
      split; [done|]. split.
      { apply (insert_unique_preserves payment_col p (payments (race d))); [apply Hrok|apply Hrok|].
        unfold insert_unique. by rewrite Hc. }
      split; [apply (lookup_save_same (payments (race d)) p)|]. split.
      { apply is_payment_key. done. }
      right. split; [done|]. left. split; [done|]. split; [by unfold only_payments|]. done.
Qed.

(** ** Settlement *)

Lemma attempts_frame st t o n : forall d r d',
  attempts st no_race t o n d = (r, d') -> only_invoices d d'.
Proof.
  induction n as [|n IH]; intros d r d'; [intros [= _ <-]; by destruct d|].
  rewrite attempts_step. cbv zeta. unfold no_race at 1 2 3.
  destruct (conflicts _ _ _); [|by intros [= _ <-]].
  destruct n as [|n]; [intros [= _ <-]; by destruct d|apply IH].
Qed.

(** The rows after the loop are the old ones and that of the order. *)
Lemma attempts_new st t o n : forall d r d',
  attempts st no_race t o n d = (r, d') ->
  forall k v, invoices d' !! k = Some v -> invoices d !! k = Some v \/ iv_order_id v = o_id o.
Proof.
  induction n as [|n IH]; intros d r d'; [intros [= _ <-]; auto|].
  rewrite attempts_step. cbv zeta. unfold no_race at 1 2 3.
  destruct (conflicts _ _ _).
  - destruct n as [|n]; [intros [= _ <-]; auto|apply IH].
  - intros [= _ <-] k v. cbn [invoices set_invoices]. rewrite lookup_save. case_decide; [|auto].
    intros [= <-]. by right.
Qed.

Lemma for_order_frame st now o d r d' : for_order st no_race now o d = (r, d') -> only_invoices d d'.
Proof.
  unfold for_order. cbv [get mbind M_bind of_result].
  destruct (one_or_none _) as [[i|]|e]; [intros [= _ <-]; by destruct d|apply attempts_frame|intros [= _ <-]; by destruct d].
Qed.

Lemma record_frame now o d r d' : AffiliatesInv d -> record now id o d = (r, d') ->
  orders d' = orders d /\ coupon_store d' = coupon_store d /\ invoices d' = invoices d /\
  payments d' = payments d /\
  forall k c, conversions d' !! k = Some c -> conversions d !! k = Some c \/ ac_order_id c = o_id o.
Proof.
  intros Hinv [(-> & _)|(a & _ & _ & _ & _ & _ & _ & [(c & _ & _ & _ & Hoc & _ & _ & _ & ->)|[_ ->]])]%record_inv;
    [..|done]; cbn; repeat (split; [done|]); auto.
  intros k v. rewrite lookup_save. unfold id. case_decide; [intros [= <-]; auto|auto].
Qed.

(** Marking an order paid. *)
Lemma service_mark_paid st now o d :
  ServiceInv st d -> orders d !! o_id o = Some o -> settled o = false ->
  let d' := set_orders (<[o_id o := set_paid now o]> (orders d)) d in
  mark_paid now o d = (Ok (true, set_paid now o), d') /\ ServiceInv st d' /\ no_invoice (set_paid now o) d'.
Proof.
  intros Hinv Ho Hs d'.
  assert (Hm : mark_paid now o d = (Ok (true, set_paid now o), d')).
  { unfold mark_paid. rewrite Hs. unfold mbind, M_bind. rewrite assign_eq. unfold d'.
    by rewrite (alter_insert _ _ _ o Ho). }
  destruct (mark_paid_keeps _ _ _ _ _ (si_orders st d Hinv) Ho Hm) as (Hoi & _ & _).
  destruct Hinv as [_ Hi Ha Hp Hv Hcr].
  assert (Hset : forall k v, orders d !! k = Some v -> settled v = true ->
            exists v', orders d' !! k = Some v' /\ settled v' = true).
  { intros k v Hk Hsv. unfold d'. cbn. destruct (decide (o_id o = k)) as [<-|]; [congruence|].
    rewrite lookup_insert_ne by done. eauto. }
  split; [done|]. split.
  - constructor; try done.
    + exact (InvoicesInv_frame st d d' eq_refl Hi).
    + exact (AffiliatesInv_frame d d' eq_refl eq_refl Ha).
    + intros k i Hk. destruct (Hv k i Hk) as (v & ? & ?). eauto.
    + intros k c Hk. destruct (Hcr k c Hk) as (v & ? & ?). eauto.
  - intros k i Hk Hio. destruct (Hv k i Hk) as (v & Hl & Hsv). rewrite Hio in Hl. cbn in Hl. congruence.
Qed.

(** Issuing the invoice of a settled order. *)
Lemma service_invoice st now o d :
  escape_term (invoice_prefix st) = invoice_prefix st -> in_era now ->
  ServiceInv st d -> orders d !! o_id o = Some o -> settled o = true -> no_invoice o d ->
  exists i d', for_order st no_race now o d = (Ok i, d') /\ ServiceInv st d' /\ only_invoices d d' /\
    invoices d' !! iv_id i = Some i /\ iv_order_id i = o_id o.
Proof.
  intros Hplain He Hinv Ho Hs Hno. pose proof (si_invoices st d Hinv) as Hi.
  destruct (attempts_succeed st Hplain no_race now o MAX_SERIAL_ATTEMPTS d Hi He Hno (no_race_ok st o now)
    ltac:(exists 0%nat; split; [unfold MAX_SERIAL_ATTEMPTS; lia|done]) ltac:(lia)) as (i & d' & Hat).
  assert (Hfo : for_order st no_race now o d = (Ok i, d')).
  { unfold for_order. cbv [get mbind M_bind of_result].
    destruct (find_invoice st Hplain o d Hi) as [(j & Hj & Hoj & _)|[_ ->]]; [by destruct (Hno _ _ Hj)|done]. }
  destruct (for_order_spec st Hplain _ _ _ _ _ _ Hi He (no_race_ok st o now) Hfo)
    as [Hi' [(j & [= <-] & Hj & Hoj)|[[=] _]]].
  pose proof (for_order_frame _ _ _ _ _ _ Hfo) as Hf. exists i, d'.
  split; [done|]. split; [|done]. destruct Hinv as [Hoi' _ Ha Hp Hv Hcr].
  assert (E : orders d' = orders d /\ coupon_store d' = coupon_store d /\ accounts d' = accounts d /\
              conversions d' = conversions d /\ payments d' = payments d) by (by rewrite Hf).
  destruct E as (E1 & E2 & E3 & E4 & E5). constructor; unfold payments_ok; rewrite ?E1, ?E4, ?E5; try done.
  { exact (OrdersInv_frame d d' E1 E2 Hoi'). }
  { exact (AffiliatesInv_frame d d' E3 E4 Ha). }
  intros k v Hk. destruct (attempts_new _ _ _ _ _ _ _ Hat k v) as [Hold|Hnew]; [done|by apply (Hv k)|].
  exists o. by rewrite Hnew.
Qed.

(** Crediting the affiliate of a settled order. *)
Lemma service_credit st now o d r d' :
  ServiceInv st d -> orders d !! o_id o = Some o -> settled o = true -> record now id o d = (r, d') ->
  ServiceInv st d' /\ is_ok r = true /\ orders d' = orders d /\ coupon_store d' = coupon_store d /\
  invoices d' = invoices d /\ payments d' = payments d.
Proof.
  intros [Hoi Hi Ha Hp Hv Hcr] Ho Hs H. destruct (record_keeps _ _ _ _ _ Ha H) as [Ha' Hr].
  destruct (record_frame _ _ _ _ _ Ha H) as (E1 & E2 & E3 & E4 & E5).
  split; [|done]. constructor; rewrite ?E1, ?E2, ?E3.
  - by eapply OrdersInv_frame.
  - by eapply InvoicesInv_frame.
  - done.
  - unfold payments_ok. by rewrite E4.
  - done.
  - intros k c Hc. destruct (E5 k c Hc) as [Hold|Hnew]; [by apply (Hcr k)|]. rewrite Hnew. eauto.
Qed.

Lemma settle_spec st now o provider pid am cur m raw d r d' :
  escape_term (invoice_prefix st) = invoice_prefix st ->
  ServiceInv st d -> in_era now -> orders d !! o_id o = Some o ->
  settle st now alone o provider pid am cur m raw d = (r, d') ->
  ServiceInv st d' /\
  exists p, payments d' !! p_id p = Some p /\ is_payment provider pid p = true /\
    if settled o
    then r = Ok (mkSettlement o (Some p) None false) /\ only_payments d d'
    else exists i, r = Ok (mkSettlement (set_paid now o) (Some p) (Some i) true) /\
           orders d' = <[o_id o := set_paid now o]> (orders d) /\ coupon_store d' = coupon_store d /\
           invoices d' !! iv_id i = Some i /\ iv_order_id i = o_id o /\
           exists d3 rc, AffiliatesInv d3 /\ record now id (set_paid now o) d3 = (rc, d').
Proof.
  intros Hplain Hinv He Ho H. unfold settle in H.
  apply bind_inv in H as [(pc & d1 & Hrp & H)|(e & Hrp & ->)].
  2:{ exfalso. apply record_payment_inv in Hrp as (? & ? & [=] & _); apply Hinv. }
  apply record_payment_inv in Hrp as (p & created & [= ->] & Hok1 & Hp & His & Hcase);
    [|apply Hinv|apply Hinv].
  assert (Hf1 : only_payments d d1).
  { destruct Hcase as [(q & _ & _ & _ & _ & H1)|[_ [(_ & H1 & _)|[_ ->]]]]; [done|done|]. by destruct d. }
  pose proof (ServiceInv_payments st d d1 Hf1 Hok1 Hinv) as Hinv1.
  assert (Ho1 : orders d1 !! o_id o = Some o) by (by rewrite Hf1).
  destruct (settled o) eqn:Hs.
  { unfold mbind, M_bind, mark_paid in H. rewrite Hs in H. injection H as <- <-. eauto 10. }
  destruct (service_mark_paid st now o d1 Hinv1 Ho1 Hs) as (Hm & Hinv2 & Hno).
  rewrite (bind_ok _ _ _ _ _ Hm) in H. cbn [negb] in H.
  set (d2 := set_orders _ d1) in *.
  assert (Ho2 : orders d2 !! o_id (set_paid now o) = Some (set_paid now o)) by apply lookup_insert_eq.
  assert (Hs2 : settled (set_paid now o) = true) by (apply settled_status; auto).
  destruct (service_invoice st now (set_paid now o) d2 Hplain He Hinv2 Ho2 Hs2 Hno) as (i & d3 & Hfo & Hinv3 & Hf3 & Hi & Hoi).
  rewrite (bind_ok _ _ _ _ _ Hfo) in H.
  assert (Ho3 : orders d3 !! o_id (set_paid now o) = Some (set_paid now o)) by (by rewrite Hf3).
  destruct (record now id (set_paid now o) d3) as [rc d4] eqn:Hrec.
  destruct (service_credit st now _ d3 rc d4 Hinv3 Ho3 Hs2 Hrec) as (Hinv4 & Hrc & E1 & E2 & E3 & E4).
  destruct rc as [c|]; [|done]. rewrite (bind_ok _ _ _ _ _ Hrec) in H. injection H as <- <-.
  assert (F1 : orders d1 = orders d /\ coupon_store d1 = coupon_store d) by (by rewrite Hf1).
  assert (F3 : orders d3 = orders d2 /\ coupon_store d3 = coupon_store d2 /\ payments d3 = payments d2)
    by (by rewrite Hf3).
  destruct F1 as [F1 G1], F3 as (F3 & G3 & P3).
  split; [done|]. exists p. rewrite E4, P3. split; [done|]. split; [done|]. exists i.
  rewrite E1, E2, E3, F3, G3. unfold d2. cbn [orders coupon_store set_orders]. rewrite F1, G1.
  do 5 (split; [done|]). exists d3, (Ok c). split; [apply Hinv3|done].
Qed.

(** A second credit of the same order finds nothing to do. *)
Lemma record_again now now' o o' d r d1 d2 r2 d3 :
  AffiliatesInv d -> record now id o d = (r, d1) -> o_id o' = o_id o -> o_cols o' = o_cols o ->
  accounts d2 = accounts d1 -> conversions d2 = conversions d1 -> AffiliatesInv d2 ->
  record now' id o' d2 = (r2, d3) -> d3 = d2 /\ is_ok r2 = true.
Proof.
  intros Hinv Hrec Eid Ecols Ea Ec Hinv2 Hrec2.
  apply record_inv in Hrec2 as [(-> & Hr & _)|(a & Ha & Hact & Hself & Hcode & Hno & Ht & _)]; [done| |done].
  exfalso. unfold o_user_id in Hself. rewrite Ea in Ha. rewrite Ec in Hno.
  rewrite Ecols in Hself, Hcode, Ht. setoid_rewrite Eid in Hno. change (aa_user_id a <> o_user_id o) in Hself.
  pose proof Hrec as Hpost.
  apply record_inv in Hpost as [(-> & _ & _)|(b & Hb & _ & _ & _ & _ & _ & Hcase)]; [| |done].
  - destruct (record_credits now o d a Hinv Ht Ha Hact Hself Hcode) as (c & r' & d' & Hrun & Hc & Hoc).
    rewrite Hrec in Hrun. injection Hrun as <- <-. by apply (Hno _ _ Hc).
  - destruct Hcase as [(c & _ & _ & _ & Hoc & _ & _ & _ & ->)|[_ Hd1]].
    + refine (Hno (ac_id c) c _ Hoc). cbn. apply lookup_insert_eq.
    + change (d1 = d) in Hd1. subst d1. destruct (record_credits now o d a Hinv Ht Ha Hact Hself Hcode) as (c & r' & d' & Hrun & Hc & Hoc).
      rewrite Hrec in Hrun. injection Hrun as <- <-. by apply (Hno _ _ Hc).
Qed.

(** ** Properties *)


(** A transaction that still holds the unpaid order marks the paid row again. *)
Lemma late_mark_paid st now now' o d d1 :
  ServiceInv st d1 -> orders d1 = <[o_id o := set_paid now o]> (orders d) -> settled o = false ->
  let d2 := set_orders (<[o_id o := set_paid now' o]> (orders d)) d1 in
  mark_paid now' o d1 = (Ok (true, set_paid now' o), d2) /\ InvoicesInv st d2 /\ AffiliatesInv d2.
Proof.
  intros Hinv Hord Hs d2. split; [|split].
  - unfold mark_paid. rewrite Hs. unfold mbind, M_bind. rewrite assign_eq, Hord. unfold d2. do 2 f_equal.
    by rewrite alter_insert_eq.
  - exact (InvoicesInv_frame st d1 d2 eq_refl (si_invoices st d1 Hinv)).
  - exact (AffiliatesInv_frame d1 d2 eq_refl eq_refl (si_affiliates st d1 Hinv)).
Qed.

(** Two deliveries of one confirmation that overlap leave one payment, one
    invoice and one commission.  A transaction that loaded the order unpaid and
    found no payment row, while another settled the order in between, ends
    with the payment, invoice, conversion and account tables of the other; it
    too reports the order newly paid, so the announcement is repeated and its
    consumers have to be idempotent. *)
Theorem overlapping_deliveries_settle_once st now now' o provider pid am am' cur cur' m m' raw raw' d r d1 r' d2
    (Hplain : escape_term (invoice_prefix st) = invoice_prefix st) (Hinv : ServiceInv st d)
    (Hera : in_era now) (Hera' : in_era now')
    (Ho : orders d !! o_id o = Some o) (Hunpaid : settled o = false)
    (Hnew : forall k p, payments d !! k = Some p -> is_payment provider pid p = false)
    (Hfirst : settle st now alone o provider pid am cur m raw d = (r, d1))
    (Hlate : settle st now' (mkRaces (fun _ => d1) no_race id) o provider pid am' cur' m' raw' d = (r', d2)) :
  exists p i, r = Ok (mkSettlement (set_paid now o) (Some p) (Some i) true) /\
    r' = Ok (mkSettlement (set_paid now' o) (Some p) (Some i) true) /\
    payments d2 = payments d1 /\ invoices d2 = invoices d1 /\ conversions d2 = conversions d1 /\
    accounts d2 = accounts d1 /\ orders d2 = <[o_id o := set_paid now' o]> (orders d).
Proof.
  destruct (settle_spec _ _ _ _ _ _ _ _ _ _ _ _ Hplain Hinv Hera Ho Hfirst) as (Hinv1 & p & Hp & His & Hres).
  rewrite Hunpaid in Hres. destruct Hres as (i & -> & Hord & Hcoup & Hi & Hio & d3 & rc & Ha3 & Hrec).
  exists p, i. split; [done|]. unfold settle in Hlate.
  apply bind_inv in Hlate as [(pc & d1' & Hrp & H)|(e & Hrp & ->)].
  2:{ exfalso. apply record_payment_inv in Hrp as (? & ? & [=] & _); [apply Hinv|apply Hinv1]. }
  apply record_payment_inv in Hrp as (p' & created & [= ->] & [_ Hu] & Hp' & His' & Hcase); [|apply Hinv|apply Hinv1].
  cbn [at_payment] in Hcase. apply is_payment_key in His, His'.
  assert (Hcase' : created = false /\ d1' = d1).
  { destruct Hcase as [(q & Hq & Hqp & _)|[_ [(_ & _ & _ & _ & _ & Hfr & Hsv)|Hc]]]; [by rewrite (Hnew _ _ Hq) in Hqp| |done].
    exfalso. assert (p_id p' = p_id p) as E; [|rewrite E in Hfr; congruence].
    eapply Hu; [exact Hp'| |exact His'|exact His].
    rewrite Hsv, lookup_save_other; [done|]. unfold row_id, Payment_row. intros E. rewrite E in Hfr. congruence. }
  destruct Hcase' as [-> ->].
  assert (p' = p) as ->.
  { assert (p_id p' = p_id p) as E by (eapply (proj2 (si_payments st d1 Hinv1)); eauto). congruence. }
  destruct (late_mark_paid st now now' o d d1 Hinv1 Hord Hunpaid) as (Hm & Hinvs & Haffs).
  rewrite (bind_ok _ _ _ _ _ Hm) in H. cbn [negb at_invoice at_conversion] in H.
  set (d1b := set_orders _ d1) in *.
  rewrite (bind_ok _ _ _ _ _ (for_order_again st Hplain no_race now' (set_paid now' o) i d1b Hinvs Hi Hio)) in H.
  destruct (record now' id (set_paid now' o) d1b) as [rc2 d4] eqn:Hrec2.
  destruct (record_again now now' (set_paid now o) (set_paid now' o) d3 rc d1 d1b rc2 d4) as [-> Hok2]; try done.
  destruct rc2 as [c2|]; [|done]. rewrite (bind_ok _ _ _ _ _ Hrec2) in H. by injection H as <- <-.
Qed.

(** ** The properties on a concrete payment *)

Lemma sample_service_inv {st} : ServiceInv st sample_db.
Proof.
  constructor.
  - exact sample_inv.
  - exact (InvoicesInv_frame _ empty_db sample_db eq_refl (empty_invoices_inv _)).
  - exact (AffiliatesInv_frame empty_db sample_db eq_refl eq_refl empty_affiliates_inv).
  - split; [apply keyed_empty|apply unique_empty].
  - intros k i H. exfalso. change (invoices sample_db) with (∅ : table Invoice) in H. by rewrite lookup_empty in H.
  - intros k c H. exfalso. change (conversions sample_db) with (∅ : table AffiliateConversion) in H.
    by rewrite lookup_empty in H.
Qed.

Definition sample_now : datetime := 20669 * DAY.
Definition first_delivery : result SettlementResult * Db :=
  settle default_settings sample_now alone sample_order RAZORPAY "pay_1" (Some 49900) (Some "inr")
    (Some "upi") None sample_db.
Definition second_delivery : result SettlementResult * Db :=
  settle default_settings (sample_now + 5) alone (set_paid sample_now sample_order) RAZORPAY "pay_1"
    (Some 49900) None None None first_delivery.2.
Definition overlapping_delivery : result SettlementResult * Db :=
  settle default_settings (sample_now + 5) (mkRaces (fun _ => first_delivery.2) no_race id) sample_order
    RAZORPAY "pay_1" None None None None sample_db.

Lemma sample_now_era : in_era sample_now /\ in_era (sample_now + 5).
Proof. split; unfold in_era; vm_compute; discriminate. Qed.


Lemma overlapping_deliveries_settle_once_witness :
  payments overlapping_delivery.2 = payments first_delivery.2 /\
  invoices overlapping_delivery.2 = invoices first_delivery.2.
Proof.
  destruct (overlapping_deliveries_settle_once default_settings sample_now (sample_now + 5) sample_order RAZORPAY
    "pay_1" (Some 49900) None (Some "inr") None (Some "upi") None None None sample_db
    first_delivery.1 first_delivery.2 overlapping_delivery.1 overlapping_delivery.2)
    as (p & i & _ & _ & H1 & H2 & _).
  - reflexivity.
  - exact sample_service_inv.
  - exact (proj1 sample_now_era).
  - exact (proj2 sample_now_era).
  - reflexivity.
  - reflexivity.
  - intros k q H. exfalso. change (payments sample_db) with (∅ : table Payment) in H. by rewrite lookup_empty in H.
  - apply surjective_pairing.
  - apply surjective_pairing.
  - split; [exact H1|exact H2].
Defined.

(** A late [authorized] delivery of a captured payment moves its row back. *)
Example late_authorized_downgrades_payment :
  let '(_, d) := record_payment (sample_now + 9) id (set_paid sample_now sample_order) RAZORPAY "pay_1"
                   PaymentStatus.AUTHORIZED 49900 "INR" None None None None first_delivery.2 in
  (p_status <$> payments first_delivery.2 !! 1%N) = Some PaymentStatus.CAPTURED /\
  (p_status <$> payments d !! 1%N) = Some PaymentStatus.AUTHORIZED.
Proof. vm_compute. auto. Qed.
