(* ===== verification/Gateways.v ===== *)
(** * Payment gateways (apps/payment/services/providers/)

    The registry that picks a gateway, signature verification and webhook
    normalisation of the three gateways, and the calls they make.  The hash
    [hmac] and the gateways' HTTP servers are code outside the service. *)

From S2P Require Import Prelude Store Json Coupons PaymentModels Db Pagination Orders Invoices.

(** ** Shapes (base.py) *)

Record ProviderOrder := mkProviderOrder {
  po_provider_order_id : string;
  po_checkout_url : option string;
  po_client_secret : option string;
}.

Record ProviderRefund := mkProviderRefund {
  pr_provider_refund_id : option string;
  pr_status : string;
  pr_raw : json;
}.

Record NormalisedEvent := mkEvent {
  ne_event_id : string;
  ne_event_type : string;
  ne_category : string;
  ne_provider_order_id : option string;
  ne_provider_payment_id : option string;
  ne_provider_refund_id : option string;
  ne_provider_subscription_id : option string;
  ne_order_id : option uuid;
  ne_status : option PaymentStatus.t;
  ne_amount_minor : option Z;
  ne_currency : option string;
  ne_method : option string;
  ne_failure_code : option string;
  ne_failure_message : option string;
  ne_raw : json;
}.

Definition bare_event (event_id event_type : string) (raw : json) : NormalisedEvent :=
  {| ne_event_id := event_id; ne_event_type := event_type; ne_category := "unknown";
     ne_provider_order_id := None; ne_provider_payment_id := None; ne_provider_refund_id := None;
     ne_provider_subscription_id := None; ne_order_id := None; ne_status := None;
     ne_amount_minor := None; ne_currency := None; ne_method := None; ne_failure_code := None;
     ne_failure_message := None; ne_raw := raw |}.

Definition headers := list (string * string).
(** [headers.get(k, "")] *)
Definition header (k : string) (h : headers) : string :=
  match List.find (fun kv => String.eqb kv.1 k) h with Some kv => kv.2 | None => "" end.

(** [hmac.compare_digest] *)
Definition constant_time_equals (left right : string) : bool := String.eqb left right.

Definition maybe_uuid (v : json) : option uuid := uuid_of_string (jstr v).
Definition int_or_none (v : json) : option Z := jint v.

(** [v or w] where the fallback is an empty dict. *)
Definition or_dict (v : json) : json := jor v (JObj []).

(** ** Calling a gateway *)

(** What a POST can end in: no connection, a success or a failure status, each
    with a body that may not be JSON. *)
Inductive http_reply :=
  | Unreachable
  | Success (body : result json)
  | Failure (body : result json).

(** The error body's own code, or the fallback when it has none. *)
Definition error_code (fallback : string) (or_empty : bool) (body : result json) : string :=
  match (v ← body; e ← dict_get_default "error" (JObj []) v; _ ← dict_get "message" e; Ok e) with
  | Ok e => let c := if or_empty then jor (jget "code" e) (JStr fallback)
                     else jget_default "code" (JStr fallback) e in lower (jstr c)
  | Raise _ => fallback
  end.

(** [_post]: the decoded answer, or an upstream error. *)
Definition post_result (fallback : string) (or_empty : bool) (r : http_reply) : result json :=
  match r with
  | Unreachable => Raise (app_error UpstreamError "")
  | Success body => body
  | Failure body => Raise (app_error UpstreamError (error_code fallback or_empty body))
  end.

(** A client of a gateway: path, body and idempotency key to a reply. *)
Definition http_client : Type := string -> json -> option string -> http_reply.

(** [str(data["id"])] *)
Definition data_id (data : json) : result string :=
  match data with
  | JObj l => match fields_get "id" l with Some v => Ok (jstr v) | None => Raise KeyErr end
  | _ => Raise TypeErr
  end.

Definition refund_answer (data : json) : result ProviderRefund :=
  id ← dict_get "id" data;
  Ok (mkProviderRefund (jstr_or_none id) (jstr (jget_default "status" (JStr "pending") data)) data).

(** [_flatten]: bracketed form fields, in the order they are assigned. *)
Definition bracket (prefix key : string) : string :=
  if String.eqb prefix "" then key else append prefix (append "[" (append key "]")).

Fixpoint flatten (v : json) (name : string) {struct v} : list (string * string) :=
  match v with
  | JObj fields =>
      (fix go (l : list (string * json)) : list (string * string) :=
         match l with
         | [] => []
         | (k, w) :: l' => flatten w (bracket name k) ++ go l'
         end) fields
  | JList items =>
      (fix go (i : Z) (l : list json) : list (string * string) :=
         match l with
         | [] => []
         | w :: l' =>
             let at_i := append name (append "[" (append (py_str_int i) "]")) in
             (match w with JObj _ => flatten w at_i | _ => [(at_i, jstr w)] end) ++ go (i + 1) l'
         end) 0 items
  | JBool b => [(name, if b then "true" else "false")]
  | JNull => []
  | _ => [(name, jstr v)]
  end.

(** The form as the dict the client posts. *)
Definition form (data : json) : json := JObj (map (fun kv => (kv.1, JStr kv.2)) (flatten data "")).

Example flatten_nested :
  flatten (JObj [("metadata", JObj [("order_id", JStr "x")]);
                 ("line_items", JList [JObj [("quantity", JInt 1)]]); ("live", JBool true)]) "" =
  [("metadata[order_id]", "x"); ("line_items[0][quantity]", "1"); ("live", "true")].
Proof. reflexivity. Qed.

Section gateways.
Context (settings : Settings).
(** [hmac_sha256_hex(secret, message)] *)
Context (hmac_sha256_hex : string -> string -> string).

(** ** Razorpay *)

Definition razorpay_create_order (http : http_client) (o : Order) (description : string)
    : result ProviderOrder :=
  data ← post_result "razorpay_error" false (http "/orders"
    (JObj [("amount", JInt (o_total_minor o)); ("currency", JStr (upper (oc_currency (o_cols o))));
           ("receipt", JStr (stake 40 (oc_order_number (o_cols o))));
           ("notes", JObj [("order_id", JStr (string_of_uuid (o_id o)));
                           ("order_number", JStr (oc_order_number (o_cols o)));
                           ("description", JStr (stake 250 description))])]) None);
  id ← data_id data;
  Ok (mkProviderOrder id None None).

Definition razorpay_refund (http : http_client) (provider_payment_id : string) (amount_minor : Z)
    (reason : option string) (idempotency_key : string) : result ProviderRefund :=
  data ← post_result "razorpay_error" false
    (http (append "/payments/" (append provider_payment_id "/refund"))
      (JObj [("amount", JInt amount_minor); ("speed", JStr "optimum");
             ("notes", JObj [("reason", JStr (stake 250 (default "" reason)));
                             ("idempotency_key", JStr idempotency_key)])])
      (Some idempotency_key));
  refund_answer data.

Definition razorpay_verify_webhook (body : string) (h : headers) : bool :=
  let signature := header "x-razorpay-signature" h in
  if negb (truthy (razorpay_webhook_secret settings)) || String.eqb signature "" then false
  else constant_time_equals signature
         (hmac_sha256_hex (default "" (razorpay_webhook_secret settings)) body).

Definition razorpay_verify_checkout (provider_order_id provider_payment_id signature : string) : bool :=
  if negb (truthy (razorpay_key_secret settings)) || String.eqb signature "" then false
  else constant_time_equals signature
         (hmac_sha256_hex (default "" (razorpay_key_secret settings))
            (append provider_order_id (append "|" provider_payment_id))).

Definition razorpay_status (s : string) : option PaymentStatus.t :=
  if String.eqb s "created" then Some PaymentStatus.PENDING
  else if String.eqb s "authorized" then Some PaymentStatus.AUTHORIZED
  else if String.eqb s "captured" then Some PaymentStatus.CAPTURED
  else if String.eqb s "refunded" then Some PaymentStatus.REFUNDED
  else if String.eqb s "failed" then Some PaymentStatus.FAILED
  else None.

(** [(entities.get(k, {}) or {}).get("entity", {}) or {}] *)
Definition entity (k : string) (entities : json) : result json :=
  e ← dict_get_default k (JObj []) entities;
  e ← dict_get_default "entity" (JObj []) (or_dict e);
  Ok (or_dict e).

Definition razorpay_parse_webhook (payload : json) (h : headers) : result NormalisedEvent :=
  event_type ← dict_get_default "event" (JStr "unknown") payload;
  let event_type := jstr event_type in
  entities ← dict_get_default "payload" (JObj []) payload;
  let entities := or_dict entities in
  payment ← entity "payment" entities;
  refund ← entity "refund" entities;
  subscription ← entity "subscription" entities;
  event_id ←
    (let delivery := header "x-razorpay-event-id" h in
     if negb (String.eqb delivery "") then Ok delivery else
     pid ← dict_get "id" payment;
     id ← (if jtruthy pid then Ok pid else
           rid ← dict_get "id" refund;
           if jtruthy rid then Ok rid else
           sid ← dict_get "id" subscription;
           Ok (jor sid (JStr "")));
     Ok (append event_type (append ":" (jstr id))));
  notes ← (pn ← dict_get "notes" payment;
           if jtruthy pn then Ok pn else rn ← dict_get "notes" refund; Ok (or_dict rn));
  order_ref ← dict_get "order_id" notes;
  let order_id := maybe_uuid order_ref in
  let base := bare_event event_id event_type payload in
  if startswith "refund." event_type then
    refund_id ← dict_get "id" refund;
    Ok {| ne_event_id := event_id; ne_event_type := event_type; ne_category := "refund";
          ne_provider_order_id := None;
          ne_provider_payment_id := jstr_or_none (jget "payment_id" refund);
          ne_provider_refund_id := jstr_or_none refund_id;
          ne_provider_subscription_id := None; ne_order_id := order_id; ne_status := None;
          ne_amount_minor := int_or_none (jget "amount" refund);
          ne_currency := jopt_str (jget "currency" refund); ne_method := None;
          ne_failure_code := None; ne_failure_message := None; ne_raw := payload |}
  else if startswith "subscription." event_type then
    subscription_id ← dict_get "id" subscription;
    Ok {| ne_event_id := event_id; ne_event_type := event_type; ne_category := "subscription";
          ne_provider_order_id := None; ne_provider_payment_id := None; ne_provider_refund_id := None;
          ne_provider_subscription_id := jstr_or_none subscription_id; ne_order_id := None;
          ne_status := None; ne_amount_minor := None; ne_currency := None; ne_method := None;
          ne_failure_code := None; ne_failure_message := None; ne_raw := payload |}
  else if startswith "payment." event_type || startswith "order." event_type then
    Ok {| ne_event_id := event_id; ne_event_type := event_type; ne_category := "payment";
          ne_provider_order_id := jstr_or_none (jget "order_id" payment);
          ne_provider_payment_id := jstr_or_none (jget "id" payment);
          ne_provider_refund_id := None; ne_provider_subscription_id := None; ne_order_id := order_id;
          ne_status := razorpay_status (jstr (jget_default "status" (JStr "") payment));
          ne_amount_minor := int_or_none (jget "amount" payment);
          ne_currency := jopt_str (jget "currency" payment);
          ne_method := jopt_str (jget "method" payment);
          ne_failure_code := jopt_str (jget "error_code" payment);
          ne_failure_message := jopt_str (jget "error_description" payment); ne_raw := payload |}
  else Ok base.

(** ** Stripe *)

Definition rstrip_slash (s : string) : string :=
  (fix go (s : string) : string :=
     match s with
     | "" => ""
     | String c s' =>
         match go s' with
         | "" => if (c =? "/")%char then "" else String c ""
         | t => String c t
         end
     end) s.

Definition stripe_create_order (http : http_client) (o : Order) (description : string)
    (return_url : option string) : result ProviderOrder :=
  let base := rstrip_slash (default "" (str_or return_url (Some (frontend_url settings)))) in
  let number := oc_order_number (o_cols o) in
  let oid := JStr (string_of_uuid (o_id o)) in
  let name := let d := stake 250 description in if String.eqb d "" then number else d in
  data ← post_result "stripe_error" true (http "/checkout/sessions"
    (form (JObj ([("mode", JStr "payment"); ("client_reference_id", oid);
       ("success_url", JStr (append base (append "/checkout/success?order=" number)));
       ("cancel_url", JStr (append base (append "/checkout/cancelled?order=" number)));
       ("metadata", JObj [("order_id", oid); ("order_number", JStr number)]);
       ("payment_intent_data", JObj [("metadata", JObj [("order_id", oid)])]);
       ("line_items", JList [JObj [("quantity", JInt 1);
          ("price_data", JObj [("currency", JStr (lower (oc_currency (o_cols o))));
                               ("unit_amount", JInt (o_total_minor o));
                               ("product_data", JObj [("name", JStr name)])])]])] ++
       (if truthy (oc_billing_email (o_cols o))
        then [("customer_email", JStr (default "" (oc_billing_email (o_cols o))))] else []))))
    (Some (append "order-" (string_of_uuid (o_id o)))));
  id ← data_id data;
  Ok (mkProviderOrder id (jopt_str (jget "url" data)) (jopt_str (jget "client_secret" data))).

Definition stripe_refund (http : http_client) (provider_payment_id : string) (amount_minor : Z)
    (reason : option string) (idempotency_key : string) : result ProviderRefund :=
  data ← post_result "stripe_error" true (http "/refunds"
    (form (JObj [("payment_intent", JStr provider_payment_id); ("amount", JInt amount_minor);
                 ("metadata", JObj [("reason", JStr (stake 250 (default "" reason)))])]))
    (Some idempotency_key));
  refund_answer data.

(** The loop over the header's parts: the last timestamp, all signatures. *)
Definition signature_part (acc : option string * list string) (part : string) : option string * list string :=
  let '(key, value) := partition_char "=" (strip part) in
  if String.eqb key "t" then (Some value, acc.2)
  else if String.eqb key "v1" then (acc.1, acc.2 ++ [value])
  else acc.
Definition signature_header (header : string) : option string * list string :=
  foldl signature_part (None, []) (split_char "," header).

(** [now] is [time.time()] in microseconds. *)
Definition stripe_verify_webhook (now : Z) (body : string) (h : headers) : bool :=
  let hdr := header "stripe-signature" h in
  if negb (truthy (stripe_webhook_secret settings)) || String.eqb hdr "" then false else
  let '(timestamp, signatures) := signature_header hdr in
  if negb (truthy timestamp) || bool_decide (signatures = []) then false else
  match py_int 10 (default "" timestamp) with
  | None => false
  | Some t =>
      if stripe_signature_tolerance settings * SECOND <? Z.abs (now - t * SECOND) then false else
      let expected := hmac_sha256_hex (default "" (stripe_webhook_secret settings))
                        (append (default "" timestamp) (append "." body)) in
      existsb (fun candidate => constant_time_equals candidate expected) signatures
  end.

Definition stripe_status (s : string) : option PaymentStatus.t :=
  if String.eqb s "requires_payment_method" then Some PaymentStatus.PENDING
  else if String.eqb s "requires_confirmation" then Some PaymentStatus.PENDING
  else if String.eqb s "requires_action" then Some PaymentStatus.PENDING
  else if String.eqb s "processing" then Some PaymentStatus.PENDING
  else if String.eqb s "requires_capture" then Some PaymentStatus.AUTHORIZED
  else if String.eqb s "succeeded" then Some PaymentStatus.CAPTURED
  else if String.eqb s "canceled" then Some PaymentStatus.FAILED
  else None.

(** [(obj.get("payment_method_types") or [None])[0]] *)
Definition first_method (v : json) : option string :=
  match v with
  | JList (m :: _) => jopt_str m
  | JStr (String c _) => Some (String c "")
  | _ => None
  end.

Definition stripe_parse_webhook (payload : json) (h : headers) : result NormalisedEvent :=
  event_type ← dict_get_default "type" (JStr "unknown") payload;
  let event_type := jstr event_type in
  event_id ← dict_get_default "id" (JStr "") payload;
  let event_id := jstr event_id in
  data ← dict_get "data" payload;
  obj ← dict_get "object" (or_dict data);
  let obj := or_dict obj in
  metadata ← dict_get "metadata" obj;
  meta_order ← dict_get "order_id" (or_dict metadata);
  let order_id := maybe_uuid (jor meta_order (jget "client_reference_id" obj)) in
  currency ← (match jor (jget "currency" obj) (JStr "") with
              | JStr s => Ok (if String.eqb s "" then None else Some (upper s))
              | _ => Raise AttributeErr
              end);
  if startswith "charge.refund" event_type || startswith "refund." event_type then
    Ok {| ne_event_id := event_id; ne_event_type := event_type; ne_category := "refund";
          ne_provider_order_id := None;
          ne_provider_payment_id := jstr_or_none (jget "payment_intent" obj);
          ne_provider_refund_id := jstr_or_none (jget "id" obj);
          ne_provider_subscription_id := None; ne_order_id := order_id; ne_status := None;
          ne_amount_minor := int_or_none (jget "amount" obj); ne_currency := currency;
          ne_method := None; ne_failure_code := None; ne_failure_message := None; ne_raw := payload |}
  else if startswith "customer.subscription" event_type then
    Ok {| ne_event_id := event_id; ne_event_type := event_type; ne_category := "subscription";
          ne_provider_order_id := None; ne_provider_payment_id := None; ne_provider_refund_id := None;
          ne_provider_subscription_id := jstr_or_none (jget "id" obj); ne_order_id := None;
          ne_status := None; ne_amount_minor := None; ne_currency := None; ne_method := None;
          ne_failure_code := None; ne_failure_message := None; ne_raw := payload |}
  else if startswith "checkout.session" event_type || startswith "payment_intent." event_type then
    let payment_id := jor (jget "payment_intent" obj) (jget "id" obj) in
    let amount := jor (jget "amount_total" obj) (jor (jget "amount_received" obj) (jget "amount" obj)) in
    let status :=
      if String.eqb event_type "checkout.session.completed" then
        match jget "payment_status" obj with
        | JStr s => if String.eqb s "paid" then Some PaymentStatus.CAPTURED else Some PaymentStatus.PENDING
        | _ => Some PaymentStatus.PENDING
        end
      else stripe_status (jstr (jget_default "status" (JStr "") obj)) in
    let error := or_dict (jget "last_payment_error" obj) in
    failure_code ← dict_get "code" error;
    failure_message ← dict_get "message" error;
    Ok {| ne_event_id := event_id; ne_event_type := event_type; ne_category := "payment";
          ne_provider_order_id := jstr_or_none (jget "id" obj);
          ne_provider_payment_id := jstr_or_none payment_id; ne_provider_refund_id := None;
          ne_provider_subscription_id := None; ne_order_id := order_id; ne_status := status;
          ne_amount_minor := int_or_none amount; ne_currency := currency;
          ne_method := first_method (jget "payment_method_types" obj);
          ne_failure_code := jopt_str failure_code; ne_failure_message := jopt_str failure_message;
          ne_raw := payload |}
  else Ok (bare_event event_id event_type payload).

(** ** Manual *)

Definition manual_create_order (order_id : uuid) : ProviderOrder :=
  mkProviderOrder (append "manual_" (string_of_uuid order_id)) None None.
Definition manual_verify_webhook (body : string) (h : headers) : bool := false.
Definition manual_parse_webhook (payload : json) (h : headers) : result NormalisedEvent :=
  event_id ← dict_get_default "id" (JStr "") payload;
  Ok {| ne_event_id := jstr event_id; ne_event_type := "manual.unknown"; ne_category := "unknown";
        ne_provider_order_id := None; ne_provider_payment_id := None; ne_provider_refund_id := None;
        ne_provider_subscription_id := None; ne_order_id := None; ne_status := Some PaymentStatus.PENDING;
        ne_amount_minor := None; ne_currency := None; ne_method := None; ne_failure_code := None;
        ne_failure_message := None; ne_raw := payload |}.
Definition manual_refund (idempotency_key : string) : ProviderRefund :=
  mkProviderRefund (Some (append "manual_rfnd_" idempotency_key)) "succeeded" (JObj []).

(** ** The registry *)

Definition configured (p : PaymentProvider) : bool :=
  match p with
  | MANUAL => true
  | RAZORPAY => razorpay_enabled settings
  | STRIPE => stripe_enabled settings
  end.

(** [list(self._gateways)]: insertion order. *)
Definition available : list PaymentProvider :=
  List.filter configured [MANUAL; RAZORPAY; STRIPE].
Definition public_providers : list PaymentProvider :=
  List.filter (fun p => negb (bool_decide (p = MANUAL))) available.

(** [get] of a provider given by name. *)
Definition get_gateway (provider : string) : result PaymentProvider :=
  match parse_enum provider with
  | None => Raise (app_error BadRequestError "unknown_provider")
  | Some p => if configured p then Ok p else Raise (app_error ServiceUnavailableError "")
  end.

Definition resolve (requested : option PaymentProvider) (amount_minor : Z) : result PaymentProvider :=
  if amount_minor <=? 0 then Ok MANUAL else
  match requested with
  | Some p => get_gateway (provider_value p)
  | None =>
      match default_provider settings with
      | None => Raise (app_error ServiceUnavailableError "")
      | Some p => get_gateway (provider_value p)
      end
  end.

(** [gateway.create_order] and [gateway.refund] of the gateway that was picked;
    [http] is the client of each provider. *)
Definition description_of (o : Order) : string :=
  let d := stake 250 (String.concat ", " (map it_title (o_items o))) in
  if String.eqb d "" then oc_order_number (o_cols o) else d.

Definition gateway_create_order (http : PaymentProvider -> http_client) (p : PaymentProvider) (o : Order)
    (return_url : option string) : result (string * option string * option string) :=
  r ← (match p with
       | RAZORPAY => razorpay_create_order (http RAZORPAY) o (description_of o)
       | STRIPE => stripe_create_order (http STRIPE) o (description_of o) return_url
       | MANUAL => Ok (manual_create_order (o_id o))
       end);
  Ok (po_provider_order_id r, po_checkout_url r, po_client_secret r).

Definition gateway_refund (http : PaymentProvider -> http_client) (p : PaymentProvider)
    (provider_payment_id : string) (amount_minor : Z) (reason : option string) (idempotency_key : string)
    : result ProviderRefund :=
  match p with
  | RAZORPAY => razorpay_refund (http RAZORPAY) provider_payment_id amount_minor reason idempotency_key
  | STRIPE => stripe_refund (http STRIPE) provider_payment_id amount_minor reason idempotency_key
  | MANUAL => Ok (manual_refund idempotency_key)
  end.

Definition verify_webhook (p : PaymentProvider) (now : Z) (body : string) (h : headers) : bool :=
  match p with
  | RAZORPAY => razorpay_verify_webhook body h
  | STRIPE => stripe_verify_webhook now body h
  | MANUAL => manual_verify_webhook body h
  end.

Definition parse_webhook (p : PaymentProvider) (payload : json) (h : headers) : result NormalisedEvent :=
  match p with
  | RAZORPAY => razorpay_parse_webhook payload h
  | STRIPE => stripe_parse_webhook payload h
  | MANUAL => manual_parse_webhook payload h
  end.
End gateways.

(** ** Lemmas *)

Section verification.
Context (settings : Settings) (hmac : string -> string -> string).

(** What an accepted Stripe delivery carries. *)
Lemma stripe_verify_iff now body h :
  stripe_verify_webhook settings hmac now body h = true <->
  exists secret ts t sigs,
    stripe_webhook_secret settings = Some secret /\ secret <> "" /\
    signature_header (header "stripe-signature" h) = (Some ts, sigs) /\ ts <> "" /\
    py_int 10 ts = Some t /\ Z.abs (now - t * SECOND) <= stripe_signature_tolerance settings * SECOND /\
    hmac secret (append ts (append "." body)) ∈ sigs.
Proof.
  unfold stripe_verify_webhook, constant_time_equals. split.
  - destruct (stripe_webhook_secret settings) as [secret|]; [|done]. cbn [truthy default from_option id].
    destruct (String.eqb_spec secret ""); [done|]. cbn [negb orb].
    destruct (String.eqb_spec (header "stripe-signature" h) ""); [done|].
    destruct (signature_header _) as [[ts|] sigs]; [|done]. cbn [truthy default from_option id].
    destruct (String.eqb_spec ts ""); [done|]. cbn [negb orb].
    case_bool_decide; [done|]. destruct (py_int 10 ts) as [t|] eqn:Et; [|done].
    destruct (_ <? _) eqn:Eage; [done|]. intros (c & Hc & E%String.eqb_eq)%existsb_exists. subst c.
    exists secret, ts, t, sigs. apply list_elem_of_In in Hc. repeat (split; [done|]). split; [lia|done].
  - intros (secret & ts & t & sigs & -> & Hs & Hh & Ht & Et & Hage & Hin). cbn [truthy default from_option id].
    destruct (String.eqb_spec secret ""); [done|]. cbn [negb orb].
    destruct (String.eqb_spec (header "stripe-signature" h) "") as [E|_]; [by rewrite E in Hh|].
    rewrite Hh. cbn [truthy default from_option id]. destruct (String.eqb_spec ts ""); [done|]. cbn [negb orb].
    rewrite bool_decide_false by (intros E; rewrite E in Hin; set_solver). rewrite Et.
    rewrite (proj2 (Z.ltb_ge _ _)) by lia. apply existsb_exists.
    eexists. split; [by apply list_elem_of_In|]. apply String.eqb_refl.
Qed.

Lemma razorpay_verify_iff body h :
  razorpay_verify_webhook settings hmac body h = true <->
  exists secret, razorpay_webhook_secret settings = Some secret /\ secret <> "" /\
    header "x-razorpay-signature" h <> "" /\ header "x-razorpay-signature" h = hmac secret body.
Proof.
  unfold razorpay_verify_webhook, constant_time_equals. split.
  - destruct (razorpay_webhook_secret settings) as [secret|]; [|done]. cbn [truthy default from_option id].
    destruct (String.eqb_spec secret ""); [done|]. cbn [negb orb].
    destruct (String.eqb_spec (header "x-razorpay-signature" h) ""); [done|].
    intros E%String.eqb_eq. eauto.
  - intros (secret & -> & Hs & Hh & E). cbn [truthy default from_option id].
    destruct (String.eqb_spec secret ""); [done|]. cbn [negb orb].
    destruct (String.eqb_spec (header "x-razorpay-signature" h) ""); [done|]. by apply String.eqb_eq.
Qed.

Lemma razorpay_checkout_iff oid pid sig :
  razorpay_verify_checkout settings hmac oid pid sig = true <->
  exists secret, razorpay_key_secret settings = Some secret /\ secret <> "" /\ sig <> "" /\
    sig = hmac secret (append oid (append "|" pid)).
Proof.
  unfold razorpay_verify_checkout, constant_time_equals. split.
  - destruct (razorpay_key_secret settings) as [secret|]; [|done]. cbn [truthy default from_option id].
    destruct (String.eqb_spec secret ""); [done|]. cbn [negb orb].
    destruct (String.eqb_spec sig ""); [done|]. intros E%String.eqb_eq. eauto.
  - intros (secret & -> & Hs & Hh & E). cbn [truthy default from_option id].
    destruct (String.eqb_spec secret ""); [done|]. cbn [negb orb].
    destruct (String.eqb_spec sig ""); [done|]. by apply String.eqb_eq.
Qed.

Lemma get_gateway_ok p : get_gateway settings (provider_value p) =
  if configured settings p then Ok p else Raise (app_error ServiceUnavailableError "").
Proof. unfold get_gateway. change (provider_value p) with (enum_value p). by rewrite parse_enum_value. Qed.

Lemma default_configured p : default_provider settings = Some p -> configured settings p = true /\ p <> MANUAL.
Proof.
  unfold default_provider, enabled_providers.
  destruct (razorpay_enabled settings) eqn:E1, (stripe_enabled settings) eqn:E2; cbn; intros [= <-]; cbn; auto.
Qed.
End verification.

(** ** Properties *)

(** C5: Webhook verification fails closed.  A delivery is accepted only from a
    gateway whose webhook secret is configured, and only when the raw body
    carries that gateway's signature: Razorpay's header is the HMAC of the
    body, Stripe's has a signature over the timestamp and the body, with the
    timestamp inside the tolerance.  A manual "webhook" is never accepted. *)
Theorem webhook_fails_closed settings hmac p now body h
    (Hok : verify_webhook settings hmac p now body h = true) :
  match p with
  | MANUAL => False
  | RAZORPAY => exists secret, razorpay_webhook_secret settings = Some secret /\ secret <> "" /\
      header "x-razorpay-signature" h = hmac secret body
  | STRIPE => exists secret ts t sigs, stripe_webhook_secret settings = Some secret /\ secret <> "" /\
      signature_header (header "stripe-signature" h) = (Some ts, sigs) /\ py_int 10 ts = Some t /\
      Z.abs (now - t * SECOND) <= stripe_signature_tolerance settings * SECOND /\
      hmac secret (append ts (append "." body)) ∈ sigs
  end.
Proof.
  destruct p; cbn [verify_webhook] in Hok.
  - apply razorpay_verify_iff in Hok as (s & ? & ? & _ & ?). eauto.
  - apply stripe_verify_iff in Hok as (s & ts & t & sigs & ? & ? & ? & _ & ? & ? & ?). eauto 12.
  - discriminate.
Qed.

(** A captured Stripe webhook cannot be replayed later, and a correctly
    signed fresh one is accepted: with the same headers and body, acceptance
    at a time depends only on that time being within the tolerance of the
    signed timestamp. *)
Theorem stripe_replay_window settings hmac now now' body h t
    (Hok : stripe_verify_webhook settings hmac now body h = true)
    (Ht : forall ts sigs, signature_header (header "stripe-signature" h) = (Some ts, sigs) -> py_int 10 ts = Some t) :
  stripe_verify_webhook settings hmac now' body h = true <->
  Z.abs (now' - t * SECOND) <= stripe_signature_tolerance settings * SECOND.
Proof.
  apply stripe_verify_iff in Hok as (s & ts & t' & sigs & Hs & Hne & Hh & Htn & Et & _ & Hin).
  pose proof (Ht _ _ Hh) as Et'. rewrite Et in Et'. injection Et' as ->.
  rewrite stripe_verify_iff. split.
  - intros (s2 & ts2 & t2 & sigs2 & _ & _ & Hh2 & _ & Et2 & Hage & _). rewrite Hh in Hh2.
    injection Hh2 as <- <-. rewrite Et in Et2. by injection Et2 as <-.
  - intros Hage. exists s, ts, t, sigs. done.
Qed.

(** A signature vouches for one message only.  Headers that carry a single
    signature and are accepted with two different bodies, or a checkout
    signature accepted for two payments of one gateway order, exhibit two
    messages with the same keyed hash: reusing a signature for another payload
    takes a collision of HMAC-SHA256. *)
Theorem signature_binds_message settings hmac p now now' body body' h
    (Hsingle : forall ts sigs, signature_header (header "stripe-signature" h) = (ts, sigs) -> (length sigs <= 1)%nat)
    (H1 : verify_webhook settings hmac p now body h = true)
    (H2 : verify_webhook settings hmac p now' body' h = true) :
  (body = body' \/ exists secret m m', m <> m' /\ hmac secret m = hmac secret m') /\
  forall oid pid pid' sig, razorpay_verify_checkout settings hmac oid pid sig = true ->
    razorpay_verify_checkout settings hmac oid pid' sig = true ->
    pid = pid' \/ exists secret m m', m <> m' /\ hmac secret m = hmac secret m'.
Proof.
  split.
  - destruct (decide (body = body')) as [|Hne]; [by left|right].
    destruct p; cbn [verify_webhook] in H1, H2; [| |discriminate].
    + apply razorpay_verify_iff in H1 as (s & Hs & _ & _ & E1), H2 as (s' & Hs' & _ & _ & E2).
      rewrite Hs in Hs'. injection Hs' as <-. exists s, body, body'. split; [done|congruence].
    + apply stripe_verify_iff in H1 as (s & ts & t & sigs & Hs & _ & Hh & _ & _ & _ & I1),
        H2 as (s' & ts' & t' & sigs' & Hs' & _ & Hh' & _ & _ & _ & I2).
      rewrite Hs in Hs'. injection Hs' as <-. rewrite Hh in Hh'. injection Hh' as <- <-.
      pose proof (Hsingle _ _ Hh) as Hlen. destruct sigs as [|x [|]]; cbn in Hlen; [set_solver| |lia].
      apply list_elem_of_singleton in I1, I2. rewrite <- I2 in I1. do 3 eexists. split; [|exact I1].
      intros E. apply append_inj in E. by injection E.
  - intros oid pid pid' sig (s & Hs & _ & _ & E1)%razorpay_checkout_iff (s' & Hs' & _ & _ & E2)%razorpay_checkout_iff.
    destruct (decide (pid = pid')) as [|Hne]; [by left|right].
    rewrite Hs in Hs'. injection Hs' as <-. rewrite E1 in E2. do 3 eexists. split; [|exact E2].
    intros E. apply append_inj in E. by injection E.
Qed.

(** Orders are routed to a gateway this deployment can use.  A zero-value
    order always goes to the manual gateway; any other order goes to the
    gateway asked for, or to the first configured one, and to none that lacks
    credentials: then the request fails with 503 instead. *)
Theorem resolve_routes settings requested amount :
  (amount <= 0 -> resolve settings requested amount = Ok MANUAL) /\
  (0 < amount -> forall p,
     resolve settings requested amount = Ok p <->
     configured settings p = true /\ (requested = Some p \/ requested = None /\ default_provider settings = Some p)) /\
  (forall e, resolve settings requested amount = Raise e -> e = AppErr ServiceUnavailableError "service_unavailable").
Proof.
  unfold resolve. split; [|split].
  - intros H. by rewrite (proj2 (Z.leb_le _ _)).
  - intros H p. rewrite (proj2 (Z.leb_gt _ _)) by lia. split.
    + destruct requested as [q|]; [|destruct (default_provider settings) as [q|] eqn:Ed; [|done]];
        rewrite get_gateway_ok; destruct (configured settings q) eqn:Ec; try done; intros [= <-]; auto.
    + intros [Hc [->|[-> ->]]]; rewrite get_gateway_ok; by rewrite Hc.
  - intros e. destruct (amount <=? 0); [done|].
    destruct requested as [q|]; [|destruct (default_provider settings) as [q|] eqn:Ed];
      rewrite ?get_gateway_ok; try destruct (configured settings q); try done; by intros [= <-].
Qed.

(** ** The properties on concrete deliveries *)

Definition live_settings : Settings :=
  {| default_currency := "INR"; gst_percent := 18; seller_state_code := "GJ"; prices_include_tax := true;
     invoice_prefix := "KOS"; seller_legal_name := "KnowledgeOS"; seller_gstin := None;
     razorpay_key_id := Some "rzp_live"; razorpay_key_secret := Some "ks"; razorpay_webhook_secret := Some "ws";
     stripe_secret_key := Some "sk_live"; stripe_publishable_key := Some "pk_live";
     stripe_webhook_secret := Some "whsec"; stripe_signature_tolerance := 300;
     order_ttl_seconds := 3600; max_order_items := 50; affiliate_commission_bps := 500;
     affiliate_hold_days := 14;
     allowed_return_origins := ["https://shop.example/"]; max_webhook_body_bytes := 1048576;
     frontend_url := "http://localhost:3000" |}.
(** A stand-in for the keyed hash that has no collisions. *)
Definition plain_hmac (secret message : string) : string :=
  append (string_of_uuid (N.of_nat (String.length secret))) message.
Definition sample_headers : headers :=
  [("stripe-signature", append "t=1710000000,v1=" (plain_hmac "whsec" "1710000000.{}"))].

Lemma sample_accepted :
  stripe_verify_webhook live_settings plain_hmac (1710000100 * SECOND) "{}" sample_headers = true.
Proof. vm_compute. reflexivity. Qed.

Lemma webhook_fails_closed_witness :
  exists secret ts t sigs, stripe_webhook_secret live_settings = Some secret /\ secret <> "" /\
    signature_header (header "stripe-signature" sample_headers) = (Some ts, sigs) /\ py_int 10 ts = Some t /\
    Z.abs (1710000100 * SECOND - t * SECOND) <= stripe_signature_tolerance live_settings * SECOND /\
    plain_hmac secret (append ts (append "." "{}")) ∈ sigs.
Proof.
  apply (webhook_fails_closed live_settings plain_hmac STRIPE (1710000100 * SECOND) "{}" sample_headers).
  exact sample_accepted.
Defined.

Lemma stripe_replay_window_witness :
  stripe_verify_webhook live_settings plain_hmac (1710000400 * SECOND) "{}" sample_headers = false.
Proof.
  apply not_true_iff_false. intros H.
  apply (stripe_replay_window live_settings plain_hmac (1710000100 * SECOND) (1710000400 * SECOND) "{}"
           sample_headers 1710000000 sample_accepted) in H.
  - vm_compute in H. apply H. reflexivity.
  - intros ts sigs E. vm_compute in E. injection E as <- _. vm_compute. reflexivity.
Defined.

Lemma signature_binds_message_witness :
  stripe_verify_webhook live_settings plain_hmac (1710000200 * SECOND) "{}" sample_headers = true /\
  (forall oid pid pid' sig, razorpay_verify_checkout live_settings plain_hmac oid pid sig = true ->
     razorpay_verify_checkout live_settings plain_hmac oid pid' sig = true ->
     pid = pid' \/ exists secret m m', m <> m' /\ plain_hmac secret m = plain_hmac secret m').
Proof.
  split; [vm_compute; reflexivity|].
  apply (signature_binds_message live_settings plain_hmac STRIPE (1710000100 * SECOND) (1710000200 * SECOND)
           "{}" "{}" sample_headers).
  - intros ts sigs E. vm_compute in E. injection E as _ <-. vm_compute. lia.
  - exact sample_accepted.
  - vm_compute. reflexivity.
Defined.
