(* ===== verification/Refunds.v ===== *)
(** * Refunds (apps/payment/services/refunds.py)

    A refund row is written before the gateway is called, under the key of the
    row; the payment, the order's refunded total and, for a full refund, the
    affiliate's commission follow.  The ledger theorem relates the rows to the
    orders' refunded totals. *)

From S2P Require Import Prelude Store Json Coupons PaymentModels Db Pagination Orders Affiliates Payments Gateways.

Notation RStatus := RefundStatus.t (only parsing).

(** ** Choosing the payment *)

Definition capturable (o : Order) (p : Payment) : bool :=
  (p_order_id p =? o_id o)%N &&
  bool_decide (p_status p ∈ [PaymentStatus.CAPTURED; PaymentStatus.PARTIALLY_REFUNDED]).

(** [ORDER BY amount_minor DESC, created_at DESC] *)
Definition larger_capture (p q : Payment) : bool :=
  (p_amount_minor q <? p_amount_minor p) ||
  ((p_amount_minor p =? p_amount_minor q) && (p_created_at q <=? p_created_at p)).

Definition capturable_payment (o : Order) (d : Db) : option Payment :=
  first_by larger_capture (select (capturable o) (payments d)).

(** ** The assignments to a refund row *)

Definition new_refund (now : datetime) (id : uuid) (o : Order) (payment : option Payment)
    (provider : PaymentProvider) (amount_minor : Z) (reason : option string) (actor_id : option uuid) : Refund :=
  {| rf_id := id; rf_order_id := o_id o; rf_payment_id := p_id <$> payment; rf_provider := provider;
     rf_provider_refund_id := None; rf_amount_minor := amount_minor;
     rf_currency := oc_currency (o_cols o); rf_status := RefundStatus.PENDING; rf_reason := reason;
     rf_actor_id := actor_id; rf_processed_at := None; rf_raw_payload := JObj []; rf_created_at := now |}.

Definition set_refund (provider_refund_id : option string) (status : RStatus) (processed_at : option datetime)
    (raw : json) (r : Refund) : Refund :=
  {| rf_id := rf_id r; rf_order_id := rf_order_id r; rf_payment_id := rf_payment_id r;
     rf_provider := rf_provider r; rf_provider_refund_id := provider_refund_id;
     rf_amount_minor := rf_amount_minor r; rf_currency := rf_currency r; rf_status := status;
     rf_reason := rf_reason r; rf_actor_id := rf_actor_id r; rf_processed_at := processed_at;
     rf_raw_payload := raw; rf_created_at := rf_created_at r |}.

(** Settled without a gateway. *)
Definition recorded (now : datetime) (r : Refund) : Refund :=
  set_refund (rf_provider_refund_id r) RefundStatus.SUCCEEDED (Some now) (rf_raw_payload r) r.

Definition terminal_answer (s : string) : bool :=
  bool_decide (s ∈ ["processed"; "succeeded"; "refunded"]).

(** What the gateway answered. *)
Definition answered (now : datetime) (a : ProviderRefund) (r : Refund) : Refund :=
  if terminal_answer (pr_status a)
  then set_refund (pr_provider_refund_id a) RefundStatus.SUCCEEDED (Some now) (pr_raw a) r
  else set_refund (pr_provider_refund_id a) RefundStatus.PROCESSING (rf_processed_at r) (pr_raw a) r.

Definition refunded_payment_status (amount : Z) (p : Payment) : PStatus :=
  if p_amount_minor p <=? amount then PaymentStatus.REFUNDED else PaymentStatus.PARTIALLY_REFUNDED.

(** Flush of a new or changed refund row, under UNIQUE (provider, provider_refund_id). *)
Definition flush_refund : Refund -> M Db unit := insert_into refunds set_refunds refund_col.

Section refunds.
Context (settings : Settings) (http : PaymentProvider -> http_client).

(** [id] is the primary key the row gets from [uuid4]. *)
Definition create (now : datetime) (id : uuid) (o : Order) (amount_minor : option Z)
    (reason : option string) (actor_id : option uuid) : M Db (Refund * Order) :=
  _ ← raise_when (negb (is_paid o)) (app_error ConflictError "order_not_refundable");
  let amount := default (refundable_minor o) amount_minor in
  _ ← raise_when (amount <=? 0) (app_error BadRequestError "nothing_to_refund");
  _ ← raise_when (refundable_minor o <? amount) (app_error BadRequestError "refund_exceeds_remaining");
  payment ← gets (capturable_payment o);
  let provider := default MANUAL (o_provider o) in
  let refund := new_refund now id o payment provider amount reason actor_id in
  _ ← flush_refund refund;
  refund ← (match payment with
            | None => mret (recorded now refund)
            | Some p =>
                gateway ← of_result (get_gateway settings (provider_value provider));
                answer ← of_result (gateway_refund http gateway (p_provider_payment_id p) amount reason
                                      (string_of_uuid (rf_id refund)));
                _ ← update_payments (p_id p) (set_payment_status (refunded_payment_status amount p));
                mret (answered now answer refund)
            end);
  _ ← flush_refund refund;
  o' ← apply_refund o amount;
  _ ← (if bool_decide (o_status o' = REFUNDED) then reverse now (o_id o) else mret tt);
  mret (refund, o').

(** A refund webhook; [None] when the refund is unknown. *)
Definition is_refund (provider : PaymentProvider) (rid : string) (r : Refund) : bool :=
  bool_decide (rf_provider r = provider) && bool_decide (rf_provider_refund_id r = Some rid).

Definition settled_refund (now : datetime) (succeeded : bool) (raw_payload : option json) (r : Refund) : Refund :=
  set_refund (rf_provider_refund_id r)
    (if succeeded then RefundStatus.SUCCEEDED else RefundStatus.FAILED) (Some now)
    (match raw_payload with Some j => if jtruthy j then j else rf_raw_payload r | None => rf_raw_payload r end) r.

Definition mark_settled (now : datetime) (provider : PaymentProvider) (provider_refund_id : string)
    (succeeded : bool) (raw_payload : option json) : M Db (option Refund) :=
  d ← get;
  found ← of_result (one_or_none (select (is_refund provider provider_refund_id) (refunds d)));
  match found with
  | None => mret None
  | Some r =>
      if bool_decide (rf_status r ∈ [RefundStatus.SUCCEEDED; RefundStatus.FAILED]) then mret (Some r) else
      _ ← update_refunds (rf_id r) (settled_refund now succeeded raw_payload);
      mret (Some (settled_refund now succeeded raw_payload r))
  end.

Definition get_refund (refund_id : uuid) : M Db Refund :=
  d ← get;
  match refunds d !! refund_id with
  | Some r => mret r
  | None => raise (app_error NotFoundError "")
  end.

Definition list_for_order (scan : list Refund -> list Refund) (order_id : uuid) (d : Db) : list Refund :=
  latest_first rf_created_at (scan (select (fun r => (rf_order_id r =? order_id)%N) (refunds d))).
End refunds.

(** ** The refund ledger *)

(** What a refund row counts for on an order, whatever its status. *)
Definition refunded_on (order_id : uuid) (r : Refund) : Z :=
  if (rf_order_id r =? order_id)%N then rf_amount_minor r else 0.

Record RefundsInv (d : Db) : Prop := {
  ri_keyed : keyed (refunds d);
  ri_unique : unique_on refund_col (refunds d);
  ri_amount : map_Forall (fun _ r => 0 < rf_amount_minor r) (refunds d);
  ri_order : map_Forall (fun _ r => is_Some (orders d !! rf_order_id r)) (refunds d);
  ri_ledger : forall k o, orders d !! k = Some o ->
    o_refunded_minor o = table_sum (refunded_on k) (refunds d);
}.

(** ** Lemmas *)

Lemma flush_refund_inv r d u d' :
  keyed (refunds d) -> unique_on refund_col (refunds d) -> flush_refund r d = (Ok u, d') ->
  d' = set_refunds (save r (refunds d)) d /\ keyed (refunds d') /\ unique_on refund_col (refunds d').
Proof.
  intros Hk Hu [(_ & Hc & ->)|([=] & _)]%insert_into_inv. split; [done|].
  apply (insert_unique_preserves refund_col r (refunds d)); [done|done|]. unfold insert_unique. by rewrite Hc.
Qed.

Lemma answered_same now a r :
  rf_id (answered now a r) = rf_id r /\ rf_order_id (answered now a r) = rf_order_id r /\
  rf_amount_minor (answered now a r) = rf_amount_minor r /\ rf_payment_id (answered now a r) = rf_payment_id r.
Proof. unfold answered. by destruct (terminal_answer _). Qed.

Lemma save_save {V} `{!Row V} (v w : V) (t : table V) : row_id v = row_id w -> save v (save w t) = save v t.
Proof. intros E. unfold save. rewrite E. apply insert_insert_eq. Qed.

(** The payment a refund is made against, and what becomes of it. *)
Definition payments_after (o : Order) (amount : Z) (d : Db) : table Payment :=
  match capturable_payment o d with
  | None => payments d
  | Some p => alter (set_payment_status (refunded_payment_status amount p)) (p_id p) (payments d)
  end.

(** What the gateway is asked and the row becomes. *)
Definition refund_done st http now (o : Order) (amount : Z) reason (d : Db) (r0 r : Refund) : Prop :=
  match capturable_payment o d with
  | None => r = recorded now r0
  | Some p => exists g a, get_gateway st (provider_value (default MANUAL (o_provider o))) = Ok g /\
      gateway_refund http g (p_provider_payment_id p) amount reason (string_of_uuid (rf_id r0)) = Ok a /\
      r = answered now a r0
  end.

Lemma refund_done_same st http now o amount reason d r0 r :
  refund_done st http now o amount reason d r0 r ->
  rf_id r = rf_id r0 /\ rf_order_id r = rf_order_id r0 /\ rf_amount_minor r = rf_amount_minor r0.
Proof.
  unfold refund_done. destruct (capturable_payment o d) as [p|]; [|by intros ->].
  intros (g & a & _ & _ & ->). by destruct (answered_same now a r0) as (? & ? & ? & _).
Qed.

(** What a successful creation did, up to the affiliate's reversal. *)
Lemma refund_create_inv st http now id o am reason actor d r o' d' :
  keyed (refunds d) -> unique_on refund_col (refunds d) ->
  create st http now id o am reason actor d = (Ok (r, o'), d') ->
  let amount := default (refundable_minor o) am in
  let r0 := new_refund now id o (capturable_payment o d) (default MANUAL (o_provider o)) amount reason actor in
  let total := o_refunded_minor o + amount in
  is_paid o = true /\ 0 < amount <= refundable_minor o /\
  refund_done st http now o amount reason d r0 r /\
  o' = set_refunded total (refund_status o total) o /\
  keyed (save r (refunds d)) /\ unique_on refund_col (save r (refunds d)) /\
  let d1 := set_orders (alter (set_refunded total (refund_status o total)) (o_id o) (orders d))
              (set_payments (payments_after o amount d) (set_refunds (save r (refunds d)) d)) in
  if bool_decide (o_status o' = REFUNDED) then reverse now (o_id o) d1 = (Ok tt, d') else d' = d1.
Proof.
  intros Hk Hu H amount r0 total. unfold create in H. fold amount in H.
  run_step H. destruct (is_paid o) eqn:Hp; [|discriminate]. injection Hrun as _ <-.
  run_step H. destruct (amount <=? 0) eqn:E1; [discriminate|]. injection Hrun as _ <-.
  run_step H. destruct (refundable_minor o <? amount) eqn:E2; [discriminate|]. injection Hrun as _ <-.
  run_step H. injection Hrun as <- <-. fold r0 in H.
  run_step H. apply flush_refund_inv in Hrun as (-> & Hk1 & Hu1); [|done|done].
  set (d1 := set_refunds (save r0 (refunds d)) d) in *.
  apply bind_ok_inv in H as (r1 & d2 & Hr1 & H).
  assert (Hdone : refund_done st http now o amount reason d r0 r1 /\ d2 = set_payments (payments_after o amount d) d1).
  { unfold refund_done, payments_after. destruct (capturable_payment o d) as [p|].
    - run_step Hr1. injection Hrun as Hg <-. run_step Hr1. injection Hrun as Ha <-.
      run_step Hr1. injection Hrun as _ <-. injection Hr1 as <- <-.
      split; [by do 2 eexists|reflexivity].
    - by injection Hr1 as <- <-. }
  destruct Hdone as [Hdone ->]. destruct (refund_done_same _ _ _ _ _ _ _ _ _ Hdone) as (Hid & _ & _).
  run_step H. apply flush_refund_inv in Hrun as (-> & Hk2 & Hu2); [|exact Hk1|exact Hu1].
  cbn [refunds set_refunds set_payments d1] in H, Hk2, Hu2. rewrite (save_save r1 r0) in H, Hk2, Hu2 by done.
  apply bind_ok_inv in H as (o1 & d3 & Ho1 & H).
  apply apply_refund_inv in Ho1 as [(_ & [= ->] & ->)|(_ & e & [=])].
  apply bind_ok_inv in H as ([] & d4 & Hrev & [= <- <- <-]). split; [done|]. split; [lia|]. repeat (split; [done|]).
  cbv zeta. destruct (bool_decide _); [exact Hrev|]. by injection Hrev as <-.
Qed.

(** *** The ledger under each step *)

Lemma refunds_frame d d' :
  RefundsInv d -> refunds d' = refunds d ->
  (forall k, is_Some (orders d !! k) -> is_Some (orders d' !! k)) ->
  (forall k o', orders d' !! k = Some o' ->
     (exists o, orders d !! k = Some o /\ o_refunded_minor o' = o_refunded_minor o) \/
     (orders d !! k = None /\ o_refunded_minor o' = 0)) ->
  RefundsInv d'.
Proof.
  intros [Hk Hu Ha Ho Hl] E Hdom Hrows. constructor; rewrite ?E; try done.
  - intros k r Hr. by apply Hdom, (Ho k).
  - intros k o' Ho'. destruct (Hrows k o' Ho') as [(o & Hok & ->)|[Hnone ->]]; [by apply Hl|].
    symmetry. apply table_sum_zero. intros i r Hr. unfold refunded_on.
    destruct (N.eqb_spec (rf_order_id r) k) as [<-|]; [|done]. destruct (Ho i r Hr) as [x Hx]. congruence.
Qed.

(** One order replaced by another of the same id and refunded total. *)
Lemma refunds_frame_alter f o d d' :
  RefundsInv d -> refunds d' = refunds d -> orders d' = alter f (o_id o) (orders d) ->
  (forall o, o_refunded_minor (f o) = o_refunded_minor o) -> RefundsInv d'.
Proof.
  intros Hinv E Eo Hf. apply (refunds_frame d d' Hinv E).
  - intros k. rewrite Eo. by rewrite lookup_alter_is_Some.
  - intros k o'. rewrite Eo. intros (w & Hw & [[-> ->]|[_ ->]])%lookup_alter_cases; left; eauto.
Qed.

Lemma refund_row_ledger r total s o d :
  RefundsInv d -> orders d !! o_id o = Some o -> refunds d !! rf_id r = None -> rf_order_id r = o_id o ->
  0 < rf_amount_minor r -> total = o_refunded_minor o + rf_amount_minor r ->
  keyed (save r (refunds d)) -> unique_on refund_col (save r (refunds d)) ->
  forall d', refunds d' = save r (refunds d) ->
    orders d' = alter (set_refunded total s) (o_id o) (orders d) -> RefundsInv d'.
Proof.
  intros [_ _ Ha Ho Hl] Hrow Hfresh Hro Hpos -> Hk Hu d' Er Eo.
  constructor; rewrite ?Er; try done.
  - unfold save. by apply map_Forall_insert_2.
  - intros k x. rewrite Eo, lookup_save, lookup_alter_is_Some.
    case_decide; [intros [= <-]|by apply Ho]. rewrite Hro. by eexists.
  - intros k x. rewrite Eo. unfold save, row_id, Refund_row.
    rewrite table_sum_insert_fresh by done. unfold refunded_on at 2. rewrite Hro.
    intros (w & Hw & [[-> ->]|[Hne ->]])%lookup_alter_cases.
    + rewrite N.eqb_refl. cbn. rewrite <- (Hl _ _ Hrow). lia.
    + rewrite (proj2 (N.eqb_neq _ _)) by done. rewrite (Hl _ _ Hw). lia.
Qed.

(** What the ledger theorem maintains. *)
Record LedgerInv (d : Db) : Prop := {
  li_orders : OrdersInv d;
  li_affiliates : AffiliatesInv d;
  li_refunds : RefundsInv d;
}.

(** After a reversal no conversion of the order counts. *)
Lemma reverse_leaves_none now oid d d' k c :
  AffiliatesInv d -> reverse now oid d = (Ok tt, d') -> conversions d' !! k = Some c -> ac_order_id c = oid ->
  ac_status c = AffiliateConversionStatus.REVERSED.
Proof.
  intros Hinv [(-> & _ & Hall)|(a & x & _ & _ & Hx & Hox & _ & ->)]%reverse_inv; [by apply Hall| |done].
  cbn. intros (w & Hw & [[-> ->]|[Hne ->]])%lookup_alter_cases Hoc; [done|].
  exfalso. apply Hne. eapply (ai_order d Hinv _ _ _ _ oid); [exact Hw|exact Hx|..]; unfold conversion_col; congruence.
Qed.

Lemma create_keeps_ledger st http now id o am reason actor d r o' d' :
  LedgerInv d -> orders d !! o_id o = Some o -> refunds d !! id = None ->
  create st http now id o am reason actor d = (Ok (r, o'), d') ->
  LedgerInv d' /\ orders d' !! o_id o = Some o' /\ refunds d' = save r (refunds d).
Proof.
  intros [Hoi Hai Hri] Ho Hfresh H.
  apply refund_create_inv in H as (Hp & Ham & Hdone & -> & Hk & Hu & Hfin); [|apply Hri|apply Hri].
  set (amount := default _ am) in *. set (total := o_refunded_minor o + amount) in *.
  apply refund_done_same in Hdone as (Hid & Hro & Hamt). cbn in Hid, Hro, Hamt.
  cbv zeta in Hfin. set (d1 := set_orders _ _) in Hfin.
  assert (Hm : moved o (set_refunded total (refund_status o total) o)) by (exact (mv_refund o amount Hp Ham)).
  destruct (assign_moved o _ d Hoi Ho Hm) as (Hoi1 & _ & Hrow1).
  assert (L1 : LedgerInv d1).
  { constructor.
    - refine (OrdersInv_frame _ d1 _ _ Hoi1); reflexivity.
    - exact (AffiliatesInv_frame d d1 eq_refl eq_refl Hai).
    - apply (refund_row_ledger r total (refund_status o total) o d Hri); try done; [by rewrite Hid|lia|].
      unfold total. by rewrite Hamt. }
  destruct (bool_decide _); [|subst d'; done].
  destruct (reverse_keeps _ _ _ _ _ (li_affiliates d1 L1) Hfin) as [Ha2 _].
  apply reverse_inv in Hfin as [(-> & _)|(a & c & _ & _ & _ & _ & _ & ->)]; [done| |apply L1].
  split; [|done]. constructor; [|done|].
  - refine (OrdersInv_frame d1 _ _ _ (li_orders d1 L1)); reflexivity.
  - apply (refunds_frame d1); [apply L1|done|done|]. intros k x Hx. left. eauto.
Qed.

Lemma mark_settled_inv now provider rid ok raw d r d' :
  RefundsInv d -> mark_settled now provider rid ok raw d = (r, d') ->
  (r = Ok None /\ d' = d /\ forall k x, refunds d !! k = Some x -> is_refund provider rid x = false) \/
  (exists x, refunds d !! rf_id x = Some x /\ is_refund provider rid x = true /\
     if bool_decide (rf_status x ∈ [RefundStatus.SUCCEEDED; RefundStatus.FAILED])
     then r = Ok (Some x) /\ d' = d
     else r = Ok (Some (settled_refund now ok raw x)) /\
       d' = set_refunds (alter (settled_refund now ok raw) (rf_id x) (refunds d)) d).
Proof.
  intros Hinv. unfold mark_settled. cbv [get mbind M_bind of_result].
  destruct (select_unique refund_col (refunds d) (is_refund provider rid) (provider, rid)) as [[x|] E];
    [apply Hinv|apply Hinv| |..]; rewrite ?E.
  - unfold is_refund, refund_col. intros v [E1%bool_decide_eq_true E2%bool_decide_eq_true]%andb_true_iff.
    rewrite E2, <- E1. done.
  - intros H. right. exists x. apply one_or_none_Some in E.
    assert (Hi : x ∈ select (is_refund provider rid) (refunds d)) by (rewrite E; constructor).
    apply elem_of_select_keyed in Hi as [Hi Hp]; [|apply Hinv]. split; [done|]. split; [done|].
    by case_bool_decide; injection H as <- <-.
  - intros [= <- <-]. left. do 2 (split; [done|]). intros k x Hx. apply not_true_iff_false. intros Hp.
    apply one_or_none_None in E.
    assert (Hi : x ∈ select (is_refund provider rid) (refunds d)) by (apply elem_of_select; eauto).
    rewrite E in Hi. set_solver.
Qed.

Lemma settled_refunds now ok raw x d :
  RefundsInv d -> refunds d !! rf_id x = Some x ->
  RefundsInv (set_refunds (alter (settled_refund now ok raw) (rf_id x) (refunds d)) d).
Proof.
  intros [Hk Hu Ha Hor Hl] Hx. set (f := settled_refund now ok raw).
  constructor; cbn [refunds orders set_refunds].
  - by apply keyed_alter.
  - by apply unique_alter.
  - intros k y (w & Hw & [[_ ->]|[_ ->]])%lookup_alter_cases; by apply (Ha k w).
  - intros k y (w & Hw & [[_ ->]|[_ ->]])%lookup_alter_cases; by apply (Hor k w).
  - intros k o Ho. rewrite (Hl k o Ho), (alter_insert f _ _ x Hx).
    rewrite (table_sum_insert _ _ _ _ x Hx). change (refunded_on k (f x)) with (refunded_on k x). lia.
Qed.

Lemma settled_keeps_ledger now provider rid ok raw d r d' :
  LedgerInv d -> mark_settled now provider rid ok raw d = (r, d') -> LedgerInv d'.
Proof.
  intros [Hoi Hai Hri] [(_ & -> & _)|(x & Hx & _ & H)]%mark_settled_inv; [done| |done].
  case_bool_decide; destruct H as [_ ->]; [done|]. constructor.
  - refine (OrdersInv_frame d _ _ _ Hoi); reflexivity.
  - refine (AffiliatesInv_frame d _ _ _ Hai); reflexivity.
  - by apply settled_refunds.
Qed.

(** Committed transactions on orders and refunds. *)
Inductive refund_step (st : Settings) (http : PaymentProvider -> http_client) : Db -> Db -> Prop :=
  | rs_refund now id o am reason actor r o' d d' :
      orders d !! o_id o = Some o -> refunds d !! id = None ->
      create st http now id o am reason actor d = (Ok (r, o'), d') -> refund_step st http d d'
  | rs_settled now provider rid ok raw r d d' :
      mark_settled now provider rid ok raw d = (r, d') -> refund_step st http d d'
  | rs_placed now draws before uid p cart key email o d d' :
      Orders.create st now draws before uid p cart key email d = (Ok o, d') -> refund_step st http d d'
  | rs_paid now o r d d' :
      orders d !! o_id o = Some o -> mark_paid now o d = (r, d') -> refund_step st http d d'
  | rs_failed o reason r d d' :
      orders d !! o_id o = Some o -> mark_failed o reason d = (r, d') -> refund_step st http d d'
  | rs_cancelled now o reason r d d' :
      orders d !! o_id o = Some o -> cancel now o reason d = (r, d') -> refund_step st http d d'
  | rs_expired scan now batch r d d' :
      (forall l, scan l ≡ₚ l) -> expire_stale scan now batch d = (r, d') -> refund_step st http d d'.

(** A step that writes neither refunds nor affiliates and moves no refunded total. *)
Lemma order_keeps_ledger d d' :
  LedgerInv d -> OrdersInv d' -> evolves d d' ->
  refunds d' = refunds d -> accounts d' = accounts d -> conversions d' = conversions d ->
  (forall k o', orders d' !! k = Some o' ->
     (exists o, orders d !! k = Some o /\ o_refunded_minor o' = o_refunded_minor o) \/
     (orders d !! k = None /\ o_refunded_minor o' = 0)) -> LedgerInv d'.
Proof.
  intros [Hoi Hai Hri] Hoi' Hev E1 E2 E3 Hrows. constructor; [done|by eapply AffiliatesInv_frame|].
  apply (refunds_frame d); try done. intros k [o Ho]. destruct (Hev k o Ho) as (o' & Ho' & _). by eexists.
Qed.

(** The tables a step of an order does not touch. *)
Lemma order_tables {A} (m : M Db A) d r d' :
  keeps refunds m -> keeps accounts m -> keeps conversions m -> m d = (r, d') ->
  refunds d' = refunds d /\ accounts d' = accounts d /\ conversions d' = conversions d.
Proof. intros H1 H2 H3 H. exact (conj (H1 _ _ _ H) (conj (H2 _ _ _ H) (H3 _ _ _ H))). Qed.

Lemma moved_row o f d d' :
  orders d' = alter f (o_id o) (orders d) -> (forall o, o_refunded_minor (f o) = o_refunded_minor o) ->
  forall k o', orders d' !! k = Some o' ->
    (exists o, orders d !! k = Some o /\ o_refunded_minor o' = o_refunded_minor o) \/
    (orders d !! k = None /\ o_refunded_minor o' = 0).
Proof. intros -> Hf k o' (w & Hw & [[-> ->]|[_ ->]])%lookup_alter_cases; left; eauto. Qed.

Lemma refund_step_keeps st http d d' : LedgerInv d -> refund_step st http d d' -> LedgerInv d'.
Proof.
  intros Hinv H. pose proof (li_orders d Hinv) as Hoi.
  destruct H as [now id o am reason actor r o' d d' Ho Hid H|now provider rid ok raw r d d' H
    |now draws before uid p cart key email o d d' H|now o r d d' Ho H|o reason r d d' Ho H
    |now o reason r d d' Ho H|scan now batch r d d' Hscan H].
  - by destruct (create_keeps_ledger _ _ _ _ _ _ _ _ _ _ _ _ Hinv Ho Hid H).
  - by eapply settled_keeps_ledger.
  - pose proof (create_keeps _ _ _ _ _ _ _ _ _ _ _ _ Hoi H) as (H1 & H2 & H3 & Hst & Hnone).
    apply create_inv in H as (_ & _ & _ & Hd). cbv zeta in Hd.
    assert (E : orders d' = save o (orders d) /\ refunds d' = refunds d /\ accounts d' = accounts d /\
                conversions d' = conversions d).
    { destruct Hd as [[-> _]|(cid & c & r & s' & _ & _ & _ & _ & ->)]; done. }
    destruct E as (E & E1 & E2 & E3). apply (order_keeps_ledger d); try done.
    intros k x. rewrite E, lookup_save. case_decide as Ek; [|eauto].
    intros [= <-]. right. rewrite <- Ek. split; [done|].
    pose proof (ok_status o (oi_rows d' H1 _ _ H3)) as Hr. by rewrite Hst in Hr.
  - destruct (mark_paid_keeps _ _ _ _ _ Hoi Ho H) as (H1 & H2 & _).
    apply mark_paid_inv in H as [(_ & _ & ->)|(_ & _ & ->)]; [done|].
    apply (order_keeps_ledger d); try done. by apply (moved_row o (set_paid now)).
  - destruct (mark_failed_keeps _ _ _ _ _ Hoi Ho H) as [H1 H2].
    unfold mark_failed in H. destruct (settled o); [by injection H as _ <-|].
    rewrite assign_eq in H. injection H as _ <-.
    apply (order_keeps_ledger d); try done. by apply (moved_row o (set_failed (failure_text reason))).
  - destruct (cancel_keeps _ _ _ _ _ _ Hoi Ho H) as (H1 & H2 & _).
    apply cancel_inv in H as [(_ & _ & d1 & u & -> & Hrel & _)|(_ & -> & _)]; [|done].
    apply on_coupons_inv in Hrel as (s' & _ & ->).
    apply (order_keeps_ledger d); try done. by apply (moved_row o (set_cancelled now reason)).
  - destruct (stale_rows d now batch scan Hoi Hscan) as [_ Hin].
    assert (Hkeep : refunds d' = refunds d /\ accounts d' = accounts d /\ conversions d' = conversions d).
    { eapply order_tables; [..|exact H]; unfold expire_stale, expire_one, assign; keeps_tac. }
    destruct (expire_stale_inv _ _ _ _ _ _ Hoi Hscan H) as (H1 & H2 & _ & Hl & _).
    destruct Hkeep as (E1 & E2 & E3). apply (order_keeps_ledger d); try done.
    intros k x. rewrite Hl. destruct (List.find _ _) as [o|] eqn:Ef; [|eauto].
    intros [= <-]. left. apply find_some in Ef as [Ho%list_elem_of_In Ek%N.eqb_eq].
    exists o. split; [|done]. rewrite <- Ek. by apply Hin.
Qed.

(** ** Properties *)

(** C3: The refund ledger balances.  After any sequence of committed refunds,
    refund confirmations, new orders, payments, failures, cancellations and
    expiries, the refund rows of an order add up to its refunded total, which
    is never more than what it cost; and an order counts as REFUNDED exactly
    when refund rows add up to its full, positive price. *)
Theorem refund_ledger_balances st http d d' k o
    (Hinv : LedgerInv d) (Hsteps : rtc (refund_step st http) d d') (Ho : orders d' !! k = Some o) :
  table_sum (refunded_on k) (refunds d') = o_refunded_minor o /\
  0 <= o_refunded_minor o <= o_total_minor o /\
  (o_status o = REFUNDED <-> 0 < o_refunded_minor o /\ o_refunded_minor o = o_total_minor o).
Proof.
  assert (Hinv' : LedgerInv d').
  { clear Ho. induction Hsteps as [|d1 d2 d3 H _ IH]; [done|]. by apply IH, (refund_step_keeps _ _ _ _ Hinv H). }
  pose proof (oi_rows d' (li_orders d' Hinv') _ _ Ho) as Hok.
  split; [symmetry; by apply (ri_ledger d' (li_refunds d' Hinv'))|].
  split; [apply order_checks_bounds, Hok|]. pose proof (ok_status o Hok) as Hs.
  destruct (o_status o); split; try done; lia.
Qed.

(** A refund is refused, without any change, unless the order is paid and
    the amount is positive and within what remains.  A refund that succeeds
    was sent to the order's gateway under the key of its own row when a
    captured payment exists, and only then; it is SUCCEEDED only if the
    gateway said so; it moves the payment's status and no other payment's; and
    when it completes the order's refund no conversion of the order is left
    payable. *)
Theorem refund_moves_money st http now id o am reason actor d r d'
    (Hinv : LedgerInv d) (Ho : orders d !! o_id o = Some o) (Hfresh : refunds d !! id = None)
    (H : create st http now id o am reason actor d = (r, d')) :
  let amount := default (refundable_minor o) am in
  (is_paid o = false -> r = Raise (AppErr ConflictError "order_not_refundable") /\ d' = d) /\
  (is_paid o = true -> amount <= 0 -> r = Raise (AppErr BadRequestError "nothing_to_refund") /\ d' = d) /\
  (is_paid o = true -> refundable_minor o < amount -> 0 < amount ->
     r = Raise (AppErr BadRequestError "refund_exceeds_remaining") /\ d' = d) /\
  (forall rf o', r = Ok (rf, o') ->
     rf_id rf = id /\ rf_amount_minor rf = amount /\ o_refunded_minor o' = o_refunded_minor o + amount /\
     orders d' !! o_id o = Some o' /\
     match capturable_payment o d with
     | None => rf_status rf = RefundStatus.SUCCEEDED /\ payments d' = payments d
     | Some p => exists g a,
         get_gateway st (provider_value (default MANUAL (o_provider o))) = Ok g /\
         gateway_refund http g (p_provider_payment_id p) amount reason (string_of_uuid (rf_id rf)) = Ok a /\
         rf_provider_refund_id rf = pr_provider_refund_id a /\
         (rf_status rf = RefundStatus.SUCCEEDED <-> terminal_answer (pr_status a) = true) /\
         payments d' = alter (set_payment_status (refunded_payment_status amount p)) (p_id p) (payments d)
     end /\
     (o_status o' = REFUNDED -> forall k c, conversions d' !! k = Some c -> ac_order_id c = o_id o ->
        ac_status c = AffiliateConversionStatus.REVERSED)).
Proof.
  intros amount. unfold create in H. fold amount in H.
  assert (Hgo : forall rf o', r = Ok (rf, o') -> create st http now id o am reason actor d = (Ok (rf, o'), d')).
  { intros rf o' ->. exact H. }
  split; [intros E; rewrite E in H; by injection H as <- <-|].
  split; [intros E1 E2; rewrite E1, (proj2 (Z.leb_le _ _) E2) in H; by injection H as <- <-|].
  split.
  { intros E1 E2 E3. rewrite E1, (proj2 (Z.leb_gt _ _) E3), (proj2 (Z.ltb_lt _ _) E2) in H. by injection H as <- <-. }
  clear H. intros rf o' H%Hgo.
  destruct (create_keeps_ledger _ _ _ _ _ _ _ _ _ _ _ _ Hinv Ho Hfresh H) as (Hinv' & Ho' & _).
  apply refund_create_inv in H as (Hp & Ham & Hdone & -> & Hk & Hu & Hfin); [|apply Hinv|apply Hinv].
  fold amount in Ham, Hdone, Hfin.
  destruct (refund_done_same _ _ _ _ _ _ _ _ _ Hdone) as (Hid & _ & Hamt). cbn in Hid, Hamt.
  do 4 (split; [done|]). cbv zeta in Hfin. set (d1 := set_orders _ _) in Hfin.
  assert (Hpay : payments d' = payments_after o amount d).
  { case_bool_decide; [|by subst d']. apply reverse_inv in Hfin as [(-> & _)|(a & c & _ & _ & _ & _ & _ & ->)]; [done..|].
    destruct Hinv as [_ Ha _]. refine (AffiliatesInv_frame d d1 _ _ Ha); reflexivity. }
  rewrite Hpay. unfold refund_done in Hdone. unfold payments_after. split.
  - destruct (capturable_payment o d) as [p|]; [|by rewrite Hdone].
    destruct Hdone as (g & a & Hg & Ha & ->). exists g, a. rewrite Hid. cbn in Ha. do 2 (split; [done|]).
    unfold answered. by destruct (terminal_answer _).
  - intros Hs. rewrite bool_decide_true in Hfin by done.
    assert (Ha1 : AffiliatesInv d1) by (refine (AffiliatesInv_frame d d1 _ _ (li_affiliates d Hinv)); reflexivity).
    intros k c Hc Hoc. exact (reverse_leaves_none now (o_id o) d1 d' k c Ha1 Hfin Hc Hoc).
Qed.

(** A refund confirmation is final and idempotent.  Webhooks for a refund
    that already succeeded or failed change nothing, whatever they say; a
    confirmation of one that is still processing sets its outcome once, and
    repeating it, or contradicting it, changes nothing any more; an unknown
    refund id is ignored. *)
Theorem refund_outcome_final now now' provider rid ok ok' raw raw' d r d1 r' d2
    (Hinv : RefundsInv d) (H1 : mark_settled now provider rid ok raw d = (r, d1))
    (H2 : mark_settled now' provider rid ok' raw' d1 = (r', d2)) :
  d2 = d1 /\ r' = r /\
  (r = Ok None \/ exists x, r = Ok (Some x) /\ rf_provider x = provider /\ rf_provider_refund_id x = Some rid /\
     rf_status x ∈ [RefundStatus.SUCCEEDED; RefundStatus.FAILED] /\ refunds d1 !! rf_id x = Some x).
Proof.
  assert (Hfound : forall x, refunds d1 !! rf_id x = Some x -> is_refund provider rid x = true ->
    rf_status x ∈ [RefundStatus.SUCCEEDED; RefundStatus.FAILED] -> RefundsInv d1 ->
    d2 = d1 /\ r' = Ok (Some x) /\ rf_provider x = provider /\ rf_provider_refund_id x = Some rid).
  { intros x Hx Hp Hs Hinv1. pose proof Hp as [E1%bool_decide_eq_true E2%bool_decide_eq_true]%andb_true_iff.
    apply mark_settled_inv in H2 as [(_ & _ & Hno)|(y & Hy & Hpy & H)]; [by rewrite (Hno _ _ Hx) in Hp| |done].
    apply andb_true_iff in Hpy as [F1%bool_decide_eq_true F2%bool_decide_eq_true].
    assert (rf_id y = rf_id x) as Eid.
    { eapply (ri_unique d1 Hinv1 _ _ _ _ (provider, rid)); [exact Hy|exact Hx|..]; unfold refund_col.
      - by rewrite F2, <- F1.
      - by rewrite E2, <- E1. }
    assert (y = x) as -> by congruence. rewrite bool_decide_true in H by done. by destruct H as [-> ->]. }
  assert (Hinv1 : RefundsInv d1).
  { apply mark_settled_inv in H1 as [(_ & -> & _)|(x & Hx & _ & H)]; [done| |done].
    case_bool_decide; destruct H as [_ ->]; [done|]. by eapply settled_refunds. }
  pose proof H1 as Hrun. apply mark_settled_inv in H1 as [(-> & -> & Hno)|(x & Hx & Hp & H)]; [| |done].
  - apply mark_settled_inv in H2 as [(-> & -> & _)|(y & Hy & Hpy & _)]; [auto|by rewrite (Hno _ _ Hy) in Hpy|done].
  - case_bool_decide as Hs; destruct H as [-> ->].
    + destruct (Hfound x) as (-> & -> & ? & ?); try done.
      do 2 (split; [done|]). right. by exists x.
    + destruct (Hfound (settled_refund now ok raw x)) as (-> & -> & ? & ?).
      * cbn. change (rf_id (settled_refund now ok raw x)) with (rf_id x). by rewrite lookup_alter_eq, Hx.
      * exact Hp.
      * cbn. destruct ok; set_solver.
      * done.
      * split; [done|]. split; [done|]. right. eexists. split; [done|]. do 2 (split; [done|]).
        split; [cbn; destruct ok; set_solver|]. change (rf_id (settled_refund now ok raw x)) with (rf_id x).
        cbn. by rewrite lookup_alter_eq, Hx.
Qed.

(** ** The properties on a concrete order *)

Definition no_network : PaymentProvider -> http_client := fun _ _ _ _ => Unreachable.
Definition paid_order : Order := set_paid 60 sample_order.
Definition captured : Payment :=
  new_payment 60 1 paid_order RAZORPAY "pay_1" PaymentStatus.CAPTURED 49900 "INR" None None None None.
Definition captured_db : Db := set_payments (save captured ∅) paid_db.
Definition sample_refund : result (Refund * Order) * Db :=
  create default_settings no_network 90 5 paid_order (Some 20000) (Some "changed my mind") (Some 3%N) captured_db.
Definition the_refund : Refund := answered 90 (manual_refund (string_of_uuid 5))
  (new_refund 90 5 paid_order (Some captured) MANUAL 20000 (Some "changed my mind") (Some 3%N)).
Definition refunded_order : Order := set_refunded 20000 PARTIALLY_REFUNDED paid_order.

Lemma captured_rows k o : orders captured_db !! k = Some o -> o = paid_order.
Proof.
  change (orders captured_db) with (<[1%N := paid_order]> (∅ : table Order)).
  rewrite lookup_insert. case_decide; [by intros [= <-]|]. by rewrite lookup_empty.
Qed.

Lemma captured_inv : LedgerInv captured_db.
Proof.
  constructor.
  - destruct (order_steps_keep _ _ _ sample_inv sample_steps) as [H _].
    refine (OrdersInv_frame _ _ _ _ H); reflexivity.
  - refine (AffiliatesInv_frame _ _ _ _ empty_affiliates_inv); reflexivity.
  - constructor; try done. intros k o ->%captured_rows. reflexivity.
Qed.

Lemma sample_refund_eq : sample_refund.1 = Ok (the_refund, refunded_order).
Proof. vm_compute. reflexivity. Qed.

Lemma refund_ledger_balances_witness :
  table_sum (refunded_on 1) (refunds sample_refund.2) = 20000.
Proof.
  destruct (refund_ledger_balances default_settings no_network captured_db sample_refund.2 1 refunded_order)
    as [H _].
  - exact captured_inv.
  - apply rtc_once. apply (rs_refund default_settings no_network 90 5 paid_order (Some 20000)
      (Some "changed my mind") (Some 3%N) the_refund refunded_order); [reflexivity|reflexivity|].
    rewrite <- sample_refund_eq. apply surjective_pairing.
  - vm_compute. reflexivity.
  - exact H.
Defined.

Lemma refund_moves_money_witness :
  rf_provider_refund_id the_refund = Some "manual_rfnd_00000000-0000-0000-0000-000000000005" /\
  (p_status <$> payments sample_refund.2 !! 1%N) = Some PaymentStatus.PARTIALLY_REFUNDED.
Proof.
  destruct (refund_moves_money default_settings no_network 90 5 paid_order (Some 20000) (Some "changed my mind")
    (Some 3%N) captured_db sample_refund.1 sample_refund.2) as (_ & _ & _ & H).
  - exact captured_inv.
  - reflexivity.
  - reflexivity.
  - apply surjective_pairing.
  - destruct (H the_refund refunded_order sample_refund_eq) as (_ & _ & _ & _ & Hp & _).
    destruct Hp as (g & a & Hg & Ha & -> & _ & ->). injection Hg as <-. injection Ha as <-.
    split; vm_compute; reflexivity.
Defined.

Definition processing_db : Db :=
  set_refunds (save (set_refund (Some "rfnd_1") RefundStatus.PROCESSING None (JObj []) the_refund) ∅)
    sample_refund.2.

Lemma processing_inv : RefundsInv processing_db.
Proof.
  constructor.
  - by apply keyed_save, keyed_empty.
  - apply (insert_unique_preserves refund_col (set_refund (Some "rfnd_1") RefundStatus.PROCESSING None (JObj []) the_refund) ∅);
      [apply keyed_empty|apply unique_empty|reflexivity].
  - apply map_Forall_insert_2; [vm_compute; reflexivity|apply map_Forall_empty].
  - apply map_Forall_insert_2; [by eexists|apply map_Forall_empty].
  - intros k o. change (orders processing_db) with (<[1%N := refunded_order]> (∅ : table Order)).
    rewrite lookup_insert. case_decide as E; [subst k; intros [= <-]; vm_compute; reflexivity|by rewrite lookup_empty].
Qed.

Definition confirm (now : datetime) (ok : bool) (d : Db) := mark_settled now MANUAL "rfnd_1" ok None d.

Lemma refund_outcome_final_witness :
  (confirm 120 false (confirm 100 true processing_db).2).2 = (confirm 100 true processing_db).2.
Proof.
  destruct (refund_outcome_final 100 120 MANUAL "rfnd_1" true false None None processing_db
    (confirm 100 true processing_db).1 (confirm 100 true processing_db).2
    (confirm 120 false (confirm 100 true processing_db).2).1
    (confirm 120 false (confirm 100 true processing_db).2).2) as [H _].
  - exact processing_inv.
  - apply surjective_pairing.
  - apply surjective_pairing.
  - exact H.
Defined.
