(* ===== verification/Subscriptions.v ===== *)
(** * Subscriptions (apps/payment/services/subscriptions.py)

    Plans, the life of a membership, the reconciliation of gateway webhooks and
    the sweep of lapsed memberships.  [grants] is what the rest of the platform
    sees of a membership: whether it gives access at a moment. *)

From S2P Require Import Prelude Store Json Coupons PaymentModels Db Pagination.

Notation SStatus := SubscriptionStatus.t (only parsing).

(** States in which a subscriber still has access. *)
Definition LIVE : list SStatus :=
  [SubscriptionStatus.ACTIVE; SubscriptionStatus.TRIALING; SubscriptionStatus.PAST_DUE].

Definition PROVIDER_STATUS : list (string * SStatus) :=
  [("created", SubscriptionStatus.PENDING); ("authenticated", SubscriptionStatus.PENDING);
   ("incomplete", SubscriptionStatus.PENDING); ("trialing", SubscriptionStatus.TRIALING);
   ("active", SubscriptionStatus.ACTIVE); ("past_due", SubscriptionStatus.PAST_DUE);
   ("halted", SubscriptionStatus.PAST_DUE); ("pending", SubscriptionStatus.PAST_DUE);
   ("cancelled", SubscriptionStatus.CANCELLED); ("canceled", SubscriptionStatus.CANCELLED);
   ("completed", SubscriptionStatus.EXPIRED); ("expired", SubscriptionStatus.EXPIRED);
   ("unpaid", SubscriptionStatus.EXPIRED)].

(** [PROVIDER_STATUS.get(status)] *)
Definition provider_status (status : string) : option SStatus :=
  snd <$> List.find (fun kv => String.eqb kv.1 status) PROVIDER_STATUS.

(** ** Plans *)

Record PlanCreate := mkPlanCreate {
  pn_code : string;
  pn_name : string;
  pn_description : option string;
  pn_price_minor : Z;
  pn_currency : string;
  pn_interval : string;
  pn_trial_days : Z;
  pn_is_active : bool;
  pn_provider_plan_ids : list (string * string);
}.

(** A field of an update: absent, null, or a value ([exclude_unset]). *)
Abbreviation field A := (option (option A)).

Record PlanUpdate := mkPlanUpdate {
  pu_name : field string;
  pu_description : field string;
  pu_price_minor : field Z;
  pu_interval : field string;
  pu_trial_days : field Z;
  pu_is_active : field bool;
  pu_provider_plan_ids : field (list (string * string));
}.

Definition cheaper_first (p q : SubscriptionPlan) : Prop := pl_price_minor p <= pl_price_minor q.
#[export] Instance cheaper_first_dec p q : Decision (cheaper_first p q).
Proof. unfold cheaper_first. apply _. Defined.

Definition list_plans (scan : list SubscriptionPlan -> list SubscriptionPlan) (active_only : bool) (d : Db)
    : list SubscriptionPlan :=
  merge_sort cheaper_first (scan (select (fun p => negb active_only || pl_is_active p) (plans d))).

Definition get_plan (plan_id : uuid) : M Db SubscriptionPlan :=
  d ← get;
  match plans d !! plan_id with
  | Some p => mret p
  | None => raise (app_error NotFoundError "")
  end.

Definition insert_plan := insert_into plans set_plans plan_col.

Definition create_plan (payload : PlanCreate) : M Db SubscriptionPlan :=
  d ← get;
  existing ← of_result (one_or_none (select (fun p => String.eqb (pl_code p) (pn_code payload)) (plans d)));
  _ ← raise_when (negb (bool_decide (existing = None))) (app_error ConflictError "");
  let plan :=
    {| pl_id := fresh_id (plans d); pl_code := pn_code payload; pl_name := pn_name payload;
       pl_description := pn_description payload; pl_price_minor := pn_price_minor payload;
       pl_currency := pn_currency payload; pl_interval := pn_interval payload;
       pl_trial_days := pn_trial_days payload; pl_is_active := pn_is_active payload;
       pl_provider_plan_ids := pn_provider_plan_ids payload |} in
  _ ← insert_plan plan;
  mret plan.

(** The value a NOT NULL column gets; a null fails the commit. *)
Definition not_null {A} (f : field A) (current : A) : result A :=
  match f with
  | None => Ok current
  | Some None => Raise IntegrityErr
  | Some (Some v) => Ok v
  end.

Definition update_plan (plan : SubscriptionPlan) (payload : PlanUpdate) : M Db SubscriptionPlan :=
  name ← of_result (not_null (pu_name payload) (pl_name plan));
  price ← of_result (not_null (pu_price_minor payload) (pl_price_minor plan));
  interval ← of_result (not_null (pu_interval payload) (pl_interval plan));
  trial ← of_result (not_null (pu_trial_days payload) (pl_trial_days plan));
  active ← of_result (not_null (pu_is_active payload) (pl_is_active plan));
  ids ← of_result (not_null (pu_provider_plan_ids payload) (pl_provider_plan_ids plan));
  let plan' :=
    {| pl_id := pl_id plan; pl_code := pl_code plan; pl_name := name;
       pl_description := default (pl_description plan) (pu_description payload);
       pl_price_minor := price; pl_currency := pl_currency plan; pl_interval := interval;
       pl_trial_days := trial; pl_is_active := active; pl_provider_plan_ids := ids |} in
  _ ← modify (fun d => set_plans (save plan' (plans d)) d);
  mret plan'.

(** ** Memberships *)

Definition set_subscription (st : SStatus) (start end_ : option datetime) (at_end : bool)
    (cancelled_at : option datetime) (s : Subscription) : Subscription :=
  {| su_id := su_id s; su_user_id := su_user_id s; su_plan_id := su_plan_id s; su_provider := su_provider s;
     su_provider_subscription_id := su_provider_subscription_id s; su_status := st;
     su_current_period_start := start; su_current_period_end := end_; su_cancel_at_period_end := at_end;
     su_cancelled_at := cancelled_at; su_trial_ends_at := su_trial_ends_at s; su_created_at := su_created_at s |}.

Definition get_subscription (subscription_id : uuid) : M Db Subscription :=
  d ← get;
  match subscriptions d !! subscription_id with
  | Some s => mret s
  | None => raise (app_error NotFoundError "")
  end.

Definition get_for_user (subscription_id user_id : uuid) : M Db Subscription :=
  s ← get_subscription subscription_id;
  if negb (su_user_id s =? user_id)%N then raise (app_error NotFoundError "") else mret s.

Definition live (s : Subscription) : bool := bool_decide (su_status s ∈ LIVE).

(** Live, and not past the end of its period. *)
Definition grants (now : datetime) (s : Subscription) : bool :=
  live s && match su_current_period_end s with None => true | Some t => now <? t end.

Definition newer (a b : Subscription) : bool := su_created_at b <=? su_created_at a.

Definition active_for_user (now : datetime) (user_id : uuid) (d : Db) : option Subscription :=
  first_by newer (select (fun s => (su_user_id s =? user_id)%N && grants now s) (subscriptions d)).

Definition list_for_user (scan : list Subscription -> list Subscription) (user_id : uuid) (d : Db)
    : list Subscription :=
  latest_first su_created_at (scan (select (fun s => (su_user_id s =? user_id)%N) (subscriptions d))).

Definition new_subscription (now : datetime) (id user_id : uuid) (plan : SubscriptionPlan)
    (provider : PaymentProvider) (psid : option string) : Subscription :=
  let trial_ends := if pl_trial_days plan =? 0 then None else Some (now + pl_trial_days plan * DAY) in
  {| su_id := id; su_user_id := user_id; su_plan_id := pl_id plan; su_provider := provider;
     su_provider_subscription_id := psid;
     su_status := match trial_ends with Some _ => SubscriptionStatus.TRIALING | None => SubscriptionStatus.PENDING end;
     su_current_period_start := Some now; su_current_period_end := trial_ends;
     su_cancel_at_period_end := false; su_cancelled_at := None; su_trial_ends_at := trial_ends;
     su_created_at := now |}.

Definition create (now : datetime) (user_id : uuid) (plan : SubscriptionPlan) (provider : PaymentProvider)
    (psid : option string) : M Db Subscription :=
  existing ← gets (active_for_user now user_id);
  _ ← raise_when (negb (bool_decide (existing = None))) (app_error ConflictError "subscription_exists");
  d ← get;
  let s := new_subscription now (fresh_id (subscriptions d)) user_id plan provider psid in
  _ ← insert_subscription s;
  mret s.

(** The assignments of [cancel]. *)
Definition cancelled (now : datetime) (at_period_end : bool) (s : Subscription) : Subscription :=
  if at_period_end && negb (bool_decide (su_current_period_end s = None))
  then set_subscription (su_status s) (su_current_period_start s) (su_current_period_end s) true (Some now) s
  else set_subscription SubscriptionStatus.CANCELLED (su_current_period_start s) (Some now)
         (su_cancel_at_period_end s) (Some now) s.

Definition cancel (now : datetime) (s : Subscription) (at_period_end : bool) : M Db Subscription :=
  if bool_decide (su_status s ∈ [SubscriptionStatus.CANCELLED; SubscriptionStatus.EXPIRED]) then mret s else
  _ ← update_subscriptions (su_id s) (cancelled now at_period_end);
  mret (cancelled now at_period_end s).

(** The assignments of [apply_provider_status]. *)
Definition reconciled (status : string) (start end_ : option datetime) (s : Subscription) : Subscription :=
  set_subscription (default (su_status s) (provider_status (lower status)))
    (match start with Some t => Some t | None => su_current_period_start s end)
    (match end_ with Some t => Some t | None => su_current_period_end s end)
    (su_cancel_at_period_end s) (su_cancelled_at s) s.

Definition is_subscription (provider : PaymentProvider) (psid : string) (s : Subscription) : bool :=
  bool_decide (su_provider s = provider) && bool_decide (su_provider_subscription_id s = Some psid).

Definition apply_provider_status (provider : PaymentProvider) (psid status : string)
    (start end_ : option datetime) : M Db (option Subscription) :=
  d ← get;
  found ← of_result (one_or_none (select (is_subscription provider psid) (subscriptions d)));
  match found with
  | None => mret None
  | Some s =>
      _ ← update_subscriptions (su_id s) (reconciled status start end_);
      mret (Some (reconciled status start end_ s))
  end.

Definition lapsed (now : datetime) (s : Subscription) : bool :=
  live s && su_cancel_at_period_end s &&
  match su_current_period_end s with Some t => t <? now | None => false end.

Definition set_expired (s : Subscription) : Subscription :=
  set_subscription SubscriptionStatus.EXPIRED (su_current_period_start s) (su_current_period_end s)
    (su_cancel_at_period_end s) (su_cancelled_at s) s.

Definition expire_lapsed (scan : list Subscription -> list Subscription) (now : datetime) (batch : nat) : M Db Z :=
  d ← get;
  let rows := take batch (scan (select (lapsed now) (subscriptions d))) in
  _ ← for_each (fun s => update_subscriptions (su_id s) set_expired) rows;
  mret (Z.of_nat (length rows)).

Definition count_active (d : Db) : Z := count live (subscriptions d).

(** ** Lemmas *)

Record SubscriptionsInv (d : Db) : Prop := {
  sbi_keyed : keyed (subscriptions d);
  sbi_unique : unique_on subscription_col (subscriptions d);
}.

Lemma newer_total a b : newer a b = true \/ newer b a = true.
Proof. unfold newer. lia. Qed.
Lemma newer_trans a b c : newer a b = true -> newer b c = true -> newer a c = true.
Proof. unfold newer. lia. Qed.

(** The sweep applies an idempotent assignment to the rows it read. *)
Lemma sweep_lookup f l : (forall s, f (f s) = f s) -> forall d u d',
  for_each (fun s => update_subscriptions (su_id s) f) l d = (u, d') ->
  u = Ok tt /\ d' = set_subscriptions (subscriptions d') d /\
  forall k, subscriptions d' !! k =
    if existsb (fun s => su_id s =? k)%N l then f <$> subscriptions d !! k else subscriptions d !! k.
Proof.
  intros Hf. induction l as [|s l IH]; intros d u d'; cbn [for_each].
  { intros [= <- <-]. by destruct d. }
  cbv [update_subscriptions modify mbind M_bind]. intros H. apply IH in H as (-> & Hd & Hl).
  split; [done|]. split; [by rewrite Hd|]. intros k. rewrite Hl. cbn [subscriptions set_subscriptions existsb].
  destruct (N.eqb_spec (su_id s) k) as [<-|Hne]; cbn [orb].
  - rewrite lookup_alter_eq. destruct (existsb _ l); [|done]. destruct (subscriptions d !! su_id s); cbn; [by rewrite Hf|done].
  - by rewrite lookup_alter_ne.
Qed.

Lemma lapsed_no_access now s : lapsed now s = true -> grants now s = false.
Proof.
  unfold lapsed, grants. destruct (live s), (su_cancel_at_period_end s), (su_current_period_end s); cbn; try done; lia.
Qed.

Lemma expire_lapsed_inv scan now batch d r d' :
  SubscriptionsInv d -> (forall l, scan l ≡ₚ l) -> expire_lapsed scan now batch d = (r, d') ->
  let rows := take batch (scan (select (lapsed now) (subscriptions d))) in
  r = Ok (Z.of_nat (length rows)) /\ d' = set_subscriptions (subscriptions d') d /\
  (forall s, s ∈ rows -> subscriptions d !! su_id s = Some s /\ lapsed now s = true) /\
  forall k, subscriptions d' !! k =
    if existsb (fun s => su_id s =? k)%N rows then set_expired <$> subscriptions d !! k else subscriptions d !! k.
Proof.
  intros Hinv Hscan H rows. unfold expire_lapsed in H. cbv [get] in H.
  apply bind_inv in H as [(d0 & s0 & [= <- <-] & H)|(e & Hx & _)]; [|discriminate].
  cbv zeta in H. fold rows in H.
  destruct (for_each (fun s => update_subscriptions (su_id s) set_expired) rows d) as [u d1] eqn:Hl.
  destruct (sweep_lookup set_expired rows ltac:(done) _ _ _ Hl) as (-> & Hd & Hk).
  rewrite (bind_ok _ _ _ _ _ Hl) in H. injection H as <- <-. do 2 (split; [done|]). split; [|done].
  intros s (i & Hi & _)%elem_of_take. apply list_elem_of_lookup_2 in Hi. rewrite Hscan in Hi.
  apply elem_of_select_keyed in Hi; [done|apply Hinv].
Qed.

Lemma insert_subscription_new s d u d' :
  SubscriptionsInv d -> insert_subscription s d = (Ok u, d') ->
  d' = set_subscriptions (save s (subscriptions d)) d /\ SubscriptionsInv d'.
Proof.
  intros [Hk Hu] [(_ & Hc & ->)|([=] & _)]%insert_into_inv. split; [done|].
  destruct (insert_unique_preserves subscription_col s (subscriptions d) (save s (subscriptions d)) Hk Hu); [|done].
  unfold insert_unique. by rewrite Hc.
Qed.

(** ** Properties *)

(** A membership gives access exactly while it is live and its period has
    not ended.  The query answers with the newest such membership of the user,
    a stored row, and with none only when the user has none: a missed
    cancellation webhook cannot leave access that outlives the period. *)
Theorem access_needs_unexpired_membership now user_id d (Hinv : SubscriptionsInv d) :
  match active_for_user now user_id d with
  | Some s => subscriptions d !! su_id s = Some s /\ su_user_id s = user_id /\ su_status s ∈ LIVE /\
      (forall t, su_current_period_end s = Some t -> now < t) /\
      forall k s', subscriptions d !! k = Some s' -> su_user_id s' = user_id -> grants now s' = true ->
        su_created_at s' <= su_created_at s
  | None => forall k s, subscriptions d !! k = Some s -> su_user_id s = user_id ->
      ~ su_status s ∈ LIVE \/ exists t, su_current_period_end s = Some t /\ t <= now
  end.
Proof.
  unfold active_for_user. set (P := fun s => (su_user_id s =? user_id)%N && grants now s).
  destruct (first_by newer _) as [s|] eqn:E.
  - pose proof (first_by_elem _ _ _ E) as Hs. apply elem_of_select_keyed in Hs as [Hs HP]; [|apply Hinv].
    unfold P, grants in HP. apply andb_true_iff in HP as [Hu%N.eqb_eq [Hl Hp]%andb_true_iff].
    split; [done|]. split; [done|]. split; [by apply bool_decide_eq_true in Hl|].
    split; [intros t Ht; rewrite Ht in Hp; lia|].
    intros k s' Hk Hu' Hg. assert (newer s s' = true) as H; [|unfold newer in H; lia].
    eapply first_by_least; [apply newer_total|apply newer_trans|exact E|].
    apply elem_of_select. split; [eauto|]. unfold P. by rewrite Hu', N.eqb_refl.
  - apply first_by_nil in E. intros k s Hk Hu.
    assert (HP : P s = false).
    { apply not_true_iff_false. intros HP. assert (Hin : s ∈ select P (subscriptions d)) by (apply elem_of_select; eauto).
      rewrite E in Hin. set_solver. }
    unfold P, grants in HP. rewrite Hu, N.eqb_refl in HP. cbn in HP. unfold live in HP.
    case_bool_decide; [|by left]. right. destruct (su_current_period_end s) as [t|]; [|done].
    exists t. split; [done|]. cbn in HP. lia.
Qed.

(** A membership starts as it was sold.  Someone who already has access is
    refused and nothing is stored.  Otherwise the new membership gives access
    for exactly the trial of its plan, and a plan without a trial gives none
    until the gateway reports the subscription: activating on creation would
    give a month away. *)
Theorem membership_starts_as_sold now user_id plan provider psid d r d'
    (Hinv : SubscriptionsInv d) (Htrial : 0 <= pl_trial_days plan)
    (H : create now user_id plan provider psid d = (r, d')) :
  (active_for_user now user_id d <> None -> r = Raise (AppErr ConflictError "subscription_exists") /\ d' = d) /\
  forall s, r = Ok s ->
    active_for_user now user_id d = None /\ SubscriptionsInv d' /\
    subscriptions d' = save s (subscriptions d) /\ su_user_id s = user_id /\ su_plan_id s = pl_id plan /\
    forall t, now <= t -> grants t s = (t <? now + pl_trial_days plan * DAY).
Proof.
  unfold create in H. cbv [gets mbind M_bind] in H. fold (@mbind (M Db) _) in H. split.
  - intros Ha. rewrite bool_decide_false in H by done. by injection H as <- <-.
  - intros s ->. case_bool_decide as Ha; [|discriminate]. cbn [negb raise_when mret M_ret get] in H.
    set (s0 := new_subscription _ _ _ _ _ _) in H.
    destruct (insert_subscription s0 d) as [[u|e] d1] eqn:Hi; [|discriminate]. injection H as <- <-.
    apply insert_subscription_new in Hi as [-> Hinv1]; [|done].
    repeat (split; [done|]). intros t Ht. unfold grants, live. cbn.
    destruct (Z.eqb_spec (pl_trial_days plan) 0) as [E|E]; cbn.
    + rewrite E, bool_decide_false by (unfold LIVE; set_solver). cbn. symmetry. lia.
    + by rewrite bool_decide_true by (unfold LIVE; set_solver).
Qed.

(** Cancelling ends a membership when the customer asked, not earlier and not
    later.  At the period's end, access until then is exactly what it was, and
    the first full sweep after it closes the row; immediately, there is no
    access from that moment on; cancelling a membership that is already over
    changes nothing. *)
Theorem cancellation_ends_access now s at_end d r d'
    (Hs : subscriptions d !! su_id s = Some s) (H : cancel now s at_end d = (r, d')) :
  exists s', r = Ok s' /\ subscriptions d' !! su_id s = Some s' /\
    (forall k, k <> su_id s -> subscriptions d' !! k = subscriptions d !! k) /\
    if bool_decide (su_status s ∈ [SubscriptionStatus.CANCELLED; SubscriptionStatus.EXPIRED])
    then s' = s /\ d' = d
    else su_cancelled_at s' = Some now /\
      match at_end, su_current_period_end s with
      | true, Some e => (forall t, grants t s' = grants t s) /\
          forall scan later batch n d2, SubscriptionsInv d' -> live s = true -> e < later ->
            (forall l, scan l ≡ₚ l) -> (length (select (lapsed later) (subscriptions d')) <= batch)%nat ->
            expire_lapsed scan later batch d' = (n, d2) ->
            subscriptions d2 !! su_id s = Some (set_expired s')
      | _, _ => forall t, grants t s' = false
      end.
Proof.
  unfold cancel in H. case_bool_decide as Hst.
  { injection H as <- <-. exists s. done. }
  cbv [update_subscriptions modify mbind M_bind mret M_ret] in H. injection H as <- <-.
  set (s' := cancelled now at_end s). exists s'. split; [done|].
  split; [by cbn; rewrite lookup_alter_eq, Hs|].
  split; [intros k Hk; cbn; by rewrite lookup_alter_ne|].
  assert (Hnow : s' = set_subscription SubscriptionStatus.CANCELLED (su_current_period_start s) (Some now)
            (su_cancel_at_period_end s) (Some now) s -> su_cancelled_at s' = Some now /\ forall t, grants t s' = false).
  { intros ->. done. }
  destruct at_end, (su_current_period_end s) as [e|] eqn:Ee;
    try (apply Hnow; unfold s', cancelled; by rewrite ?Ee).
  assert (E : s' = set_subscription (su_status s) (su_current_period_start s) (Some e) true (Some now) s).
  { unfold s', cancelled. by rewrite Ee. }
  split; [by rewrite E|]. split; [intros t; rewrite E; unfold grants; cbn; by rewrite Ee|].
  intros scan later batch n d2 Hinv' Hlive Hlate Hscan Hbatch Hrun.
  apply expire_lapsed_inv in Hrun as (_ & _ & _ & Hk); [|done|done]. cbn [subscriptions set_subscriptions] in *.
  rewrite Hk. rewrite take_ge by (by rewrite (Permutation_length (Hscan _))).
  rewrite lookup_alter_eq, Hs. cbn [fmap option_fmap option_map]. fold s'.
  assert (Hin : s' ∈ scan (select (lapsed later) (alter (cancelled now true) (su_id s) (subscriptions d)))).
  { rewrite Hscan. apply elem_of_select. split.
    - exists (su_id s). by rewrite lookup_alter_eq, Hs.
    - rewrite E. unfold lapsed. cbn. change (live _) with (live s). rewrite Hlive. cbn. lia. }
  assert (Hex : existsb (fun x => su_id x =? su_id s)%N
            (scan (select (lapsed later) (alter (cancelled now true) (su_id s) (subscriptions d)))) = true).
  { apply existsb_exists. exists s'. split; [by apply list_elem_of_In|]. rewrite E. apply N.eqb_refl. }
  by rewrite Hex.
Qed.

(** ** The properties on a concrete membership *)

Definition trial_plan : SubscriptionPlan :=
  {| pl_id := 1; pl_code := "reader"; pl_name := "Reader"; pl_description := None; pl_price_minor := 19900;
     pl_currency := "INR"; pl_interval := "month"; pl_trial_days := 14; pl_is_active := true;
     pl_provider_plan_ids := [] |}.
Definition trial_member : Subscription := new_subscription 0 1 7 trial_plan STRIPE None.
Definition started : result Subscription * Db := create 0 7 trial_plan STRIPE None empty_db.
Definition stopped : result Subscription * Db := cancel (3 * DAY) trial_member true started.2.

Lemma no_subscriptions : SubscriptionsInv empty_db.
Proof. constructor; [apply keyed_empty|apply unique_empty]. Qed.

Lemma started_inv : SubscriptionsInv started.2.
Proof. constructor; [by apply keyed_save, keyed_empty|]. apply (insert_unique_preserves subscription_col trial_member ∅ _ keyed_empty (unique_empty _)). reflexivity. Qed.

Lemma stopped_inv : SubscriptionsInv stopped.2.
Proof.
  destruct started_inv as [Hk Hu]. constructor.
  - apply (keyed_alter (cancelled (3 * DAY) true) 1%N); [|done].
    intros v. unfold cancelled. by destruct (_ && _).
  - apply (unique_alter subscription_col (cancelled (3 * DAY) true) 1%N); [|done].
    intros v. unfold cancelled. by destruct (_ && _).
Qed.

Lemma access_needs_unexpired_membership_witness :
  active_for_user (3 * DAY) 7 started.2 = Some trial_member /\ su_status trial_member ∈ LIVE.
Proof.
  assert (E : active_for_user (3 * DAY) 7 started.2 = Some trial_member) by (vm_compute; reflexivity).
  pose proof (access_needs_unexpired_membership (3 * DAY) 7 started.2 started_inv) as H.
  rewrite E in H. destruct H as (_ & _ & H & _). split; [exact E|exact H].
Defined.

Lemma membership_starts_as_sold_witness :
  grants (13 * DAY) trial_member = true /\ grants (14 * DAY) trial_member = false.
Proof.
  destruct (membership_starts_as_sold 0 7 trial_plan STRIPE None empty_db started.1 started.2) as [_ H].
  - exact no_subscriptions.
  - vm_compute. discriminate.
  - apply surjective_pairing.
  - destruct (H trial_member ltac:(reflexivity)) as (_ & _ & _ & _ & _ & Hg).
    split; (rewrite Hg; [reflexivity|vm_compute; discriminate]).
Defined.

Lemma cancellation_ends_access_witness :
  exists s', stopped.1 = Ok s' /\ grants (13 * DAY) s' = true /\
    subscriptions (expire_lapsed id (15 * DAY) 500 stopped.2).2 !! 1%N = Some (set_expired s').
Proof.
  destruct (cancellation_ends_access (3 * DAY) trial_member true started.2 stopped.1 stopped.2) as (s' & H1 & _ & _ & H).
  - reflexivity.
  - apply surjective_pairing.
  - exists s'. split; [exact H1|]. destruct H as (_ & Hg & Hsweep). split; [rewrite Hg; reflexivity|].
    apply (Hsweep id (15 * DAY) 500%nat (expire_lapsed id (15 * DAY) 500 stopped.2).1).
    + exact stopped_inv.
    + reflexivity.
    + reflexivity.
    + intros l. reflexivity.
    + vm_compute. lia.
    + apply surjective_pairing.
Defined.
