(* ===== verification/Webhooks.v ===== *)
(** * Webhook ingestion (apps/payment/services/webhooks.py, routers/webhooks.py)

    Verify, record, deduplicate and process one delivery in its own session
    (transactions are explicit: [commit] and [rollback] of [Store.v]), replay a
    stored one, and announce what it settled. *)

From S2P Require Import Prelude Store Json Coupons PaymentModels Db Dates Pagination Orders Invoices Affiliates Payments Gateways Refunds Subscriptions.

Definition SUCCESS_EVENTS : list string :=
  ["payment.captured"; "order.paid"; "checkout.session.completed";
   "checkout.session.async_payment_succeeded"; "payment_intent.succeeded"].
Definition FAILURE_EVENTS : list string :=
  ["payment.failed"; "checkout.session.async_payment_failed"; "checkout.session.expired";
   "payment_intent.payment_failed"; "payment_intent.canceled"].

Record WebhookOutcome := mkOutcome {
  wo_accepted : bool;
  wo_duplicate : bool;
  wo_event_id : option string;
  wo_settled_order_id : option uuid;
}.

(** [try: m except Exception as e: h(e)] *)
Definition try_except {S A} (m : M S A) (h : exn -> M S A) : M S A := fun s =>
  match m s with
  | (Raise e, s') => h e s'
  | r => r
  end.

(** [s.rsplit(".", 1)[-1]] *)
Definition last_segment (s : string) : string := List.last (split_char "." s) "".

(** [datetime.fromtimestamp(int(v), tz=UTC)], [None] where it raises: a value
    that is no integer, or a moment outside the years 1 to 9999. *)
Definition epoch (v : json) : option datetime :=
  match jint v with
  | Some t => if (-62135596800 <=? t) && (t <=? 253402300799) then Some (t * SECOND) else None
  | None => None
  end.

(** ** The rows *)

Definition new_event (now : datetime) (id : uuid) (provider : PaymentProvider) (event_id : string)
    (event : NormalisedEvent) (signature_valid : bool) (payload : json) : WebhookEvent :=
  {| we_id := id; we_provider := provider; we_event_id := event_id; we_event_type := ne_event_type event;
     we_signature_valid := signature_valid; we_processed := false; we_processed_at := None; we_error := None;
     we_payload := payload; we_created_at := now |}.

Definition set_outcome (processed : bool) (processed_at : option datetime) (error : option exn)
    (w : WebhookEvent) : WebhookEvent :=
  {| we_id := we_id w; we_provider := we_provider w; we_event_id := we_event_id w;
     we_event_type := we_event_type w; we_signature_valid := we_signature_valid w;
     we_processed := processed; we_processed_at := processed_at; we_error := error;
     we_payload := we_payload w; we_created_at := we_created_at w |}.
Definition set_processed (now : datetime) : WebhookEvent -> WebhookEvent := set_outcome true (Some now) None.
Definition set_error (e : exn) (w : WebhookEvent) : WebhookEvent :=
  set_outcome false (we_processed_at w) (Some e) w.

Definition is_event (provider : PaymentProvider) (event_id : string) (w : WebhookEvent) : bool :=
  bool_decide (we_provider w = provider) && String.eqb (we_event_id w) event_id.

Definition find_event (provider : PaymentProvider) (event_id : string) : M Db (option WebhookEvent) :=
  d ← get; of_result (one_or_none (select (is_event provider event_id) (webhook_events d))).

(** [event.event_id or f"{prefix}:{uuid4()}"] *)
Definition event_key (prefix draw : string) (event : NormalisedEvent) : string :=
  if String.eqb (ne_event_id event) "" then append prefix (append ":" draw) else ne_event_id event.

Section webhooks.
Context (settings : Settings) (hmac : string -> string -> string).

(** [_record]: the row, and whether it is new. *)
Definition record_event (now : datetime) (draw : string) (provider : PaymentProvider)
    (event : NormalisedEvent) (payload : json) (signature_valid : bool) : M Db (WebhookEvent * bool) :=
  d ← get;
  let row := new_event now (fresh_id (webhook_events d)) provider (event_key "unsigned" draw event) event
               signature_valid payload in
  savepoint (_ ← insert_webhook row; mret (row, true))
    (existing ← find_event provider (ne_event_id event);
     match existing with
     | Some w => mret (w, false)
     | None => raise IntegrityErr
     end).

Definition reload_or_recreate (now : datetime) (draw : string) (provider : PaymentProvider)
    (event : NormalisedEvent) (payload : json) : M Db WebhookEvent :=
  existing ← find_event provider (ne_event_id event);
  match existing with
  | Some w => mret w
  | None =>
      d ← get;
      let row := new_event now (fresh_id (webhook_events d)) provider (event_key "failed" draw event) event
                   true payload in
      _ ← insert_webhook row;
      mret row
  end.

(** ** Dispatch *)

Definition handle_payment (now : datetime) (race : races) (provider : PaymentProvider) (event : NormalisedEvent)
    : M Db (option uuid) :=
  found ← find_by_provider_reference provider (ne_provider_order_id event) (ne_order_id event);
  match found with
  | None => mret None
  | Some o =>
      let pid := default "" (ne_provider_payment_id event) in
      let succeeded := bool_decide (ne_event_type event ∈ SUCCESS_EVENTS) ||
                       bool_decide (ne_status event = Some PaymentStatus.CAPTURED) in
      if succeeded && truthy (ne_provider_payment_id event) then
        r ← settle settings now race o provider pid (ne_amount_minor event) (ne_currency event)
              (ne_method event) (Some (ne_raw event));
        mret (if sr_newly_paid r then Some (o_id o) else None)
      else if bool_decide (ne_event_type event ∈ FAILURE_EVENTS) ||
              bool_decide (ne_status event = Some PaymentStatus.FAILED) then
        _ ← fail now (at_payment race) o provider (ne_provider_payment_id event) (ne_failure_message event)
              (ne_failure_code event) (ne_amount_minor event) (Some (ne_raw event));
        mret None
      else
        match ne_status event with
        | Some status =>
            if truthy (ne_provider_payment_id event) then
              let amount := default 0 (ne_amount_minor event) in
              _ ← record_payment now (at_payment race) o provider pid status
                    (if amount =? 0 then o_total_minor o else amount)
                    (default "" (str_or (ne_currency event) (Some (oc_currency (o_cols o)))))
                    (ne_method event) None None (Some (ne_raw event));
              mret None
            else mret None
        | None => mret None
        end
  end.

Definition handle_refund (now : datetime) (provider : PaymentProvider) (event : NormalisedEvent) : M Db unit :=
  if negb (truthy (ne_provider_refund_id event)) then mret tt else
  _ ← mark_settled now provider (default "" (ne_provider_refund_id event))
        (negb (contains "fail" (ne_event_type event))) (Some (ne_raw event));
  mret tt.

Definition handle_subscription (provider : PaymentProvider) (event : NormalisedEvent) : M Db unit :=
  if negb (truthy (ne_provider_subscription_id event)) then mret tt else
  data ← of_result (dict_get_default "data" (JObj []) (ne_raw event));
  obj ← of_result (dict_get_default "object" (JObj []) (or_dict data));
  let obj := or_dict obj in
  status ← of_result (dict_get "status" obj);
  _ ← apply_provider_status provider (default "" (ne_provider_subscription_id event))
        (jstr (jor status (JStr (last_segment (ne_event_type event)))))
        (epoch (jget "current_period_start" obj)) (epoch (jget "current_period_end" obj));
  mret tt.

Definition process (now : datetime) (race : races) (provider : PaymentProvider) (event : NormalisedEvent)
    : M Db (option uuid) :=
  if String.eqb (ne_category event) "refund" then _ ← handle_refund now provider event; mret None
  else if String.eqb (ne_category event) "subscription" then _ ← handle_subscription provider event; mret None
  else if String.eqb (ne_category event) "payment" then handle_payment now race provider event
  else mret None.

(** ** Ingestion *)

Definition ingest (now : datetime) (race : races) (draw : string) (provider : PaymentProvider) (body : string)
    (h : headers) (payload : json) : M (session Db) WebhookOutcome :=
  gateway ← of_result (get_gateway settings (provider_value provider));
  let signature_valid := verify_webhook settings hmac gateway now body h in
  event ← of_result (parse_webhook gateway payload h);
  '(row, is_new) ← in_session (record_event now draw provider event payload signature_valid);
  let eid := Some (ne_event_id event) in
  if negb signature_valid then
    _ ← commit; mret (mkOutcome false false eid None)
  else if negb is_new && we_processed row then
    _ ← commit; mret (mkOutcome true true eid None)
  else
    try_except
      (settled ← in_session (settled ← process now race provider event;
                             _ ← update_webhook_events (we_id row) (set_processed now);
                             mret settled);
       _ ← commit;
       mret (mkOutcome true false eid settled))
      (fun e =>
         _ ← rollback;
         _ ← in_session (row ← reload_or_recreate now draw provider event payload;
                         update_webhook_events (we_id row) (set_error e));
         _ ← commit;
         mret (mkOutcome true false eid None)).

Definition replay (now : datetime) (race : races) (webhook_event_id : uuid) : M (session Db) WebhookOutcome :=
  d ← gets working;
  match webhook_events d !! webhook_event_id with
  | None => mret (mkOutcome false false None None)
  | Some row =>
      if negb (we_signature_valid row) then mret (mkOutcome false false None None) else
      gateway ← of_result (get_gateway settings (provider_value (we_provider row)));
      event ← of_result (parse_webhook gateway (we_payload row) []);
      settled ← in_session (process now race (we_provider row) event);
      _ ← in_session (update_webhook_events (we_id row) (set_processed now));
      _ ← commit;
      mret (mkOutcome true false (Some (we_event_id row)) settled)
  end.

Definition list_events (scan : list WebhookEvent -> list WebhookEvent) (provider : option PaymentProvider)
    (processed : option bool) (limit offset : Z) (d : Db) : list WebhookEvent :=
  let wanted := fun w =>
    match provider with Some p => bool_decide (we_provider w = p) | None => true end &&
    match processed with Some b => Bool.eqb (we_processed w) b | None => true end in
  slice offset limit (latest_first we_created_at (scan (select wanted (webhook_events d)))).

(** ** The route *)

Record WebhookAck := mkAck {
  ack_status : Z;
  ack_received : bool;
  ack_event_id : option string;
  ack_duplicate : bool;
}.

(** [orjson.loads] is a parameter; [None] is its decode error.  Of two headers
    with one name the last counts.  The second component of the answer is what
    was published after the commit. *)
Definition handle (loads : string -> option json) (now : datetime) (race : races)
    (draw : string) (pub : option publisher) (provider : PaymentProvider) (body : string)
    (raw_headers : headers) : M (session Db) (WebhookAck * list event) :=
  if max_webhook_body_bytes settings <? Z.of_nat (String.length body) then mret (mkAck 413 false None false, []) else
  match (if String.eqb body "" then Some (JObj []) else loads body) with
  | Some (JObj fields) =>
      let h := map (fun kv => (lower kv.1, kv.2)) (rev raw_headers) in
      outcome ← ingest now race draw provider body h (JObj fields);
      if negb (wo_accepted outcome) then mret (mkAck 401 false (wo_event_id outcome) false, []) else
      announced ←
        (match wo_settled_order_id outcome with
         | None => mret []
         | Some oid =>
             o ← in_session (get_order oid);
             mret (announce_paid pub (mkSettlement o None None true))
         end);
      mret (mkAck 200 true (wo_event_id outcome) (wo_duplicate outcome), announced)
  | _ => mret (mkAck 400 false None false, [])
  end.
End webhooks.

(** ** Lemmas *)

Record WebhooksInv (d : Db) : Prop := {
  wi_keyed : keyed (webhook_events d);
  wi_unique : unique_on webhook_col (webhook_events d);
}.

(** *** Processing writes no webhook row *)

Lemma attempts_keep_events st t o n : keeps webhook_events (attempts st no_race t o n).
Proof.
  induction n as [|n IH]; cbn [attempts]; keeps_tac.
Qed.

Lemma process_keeps_events st now provider event : keeps webhook_events (process st now alone provider event).
Proof.
  unfold process, handle_refund, handle_subscription, handle_payment, settle, fail, record_payment,
    Affiliates.record, for_order, mark_paid, mark_failed, assign, mark_settled, apply_provider_status,
    find_by_provider_reference, find_payment, find_by_code, find_conversion, alone.
  cbn [at_payment at_invoice at_conversion]. pose proof attempts_keep_events. keeps_tac.
Qed.

(** *** Recording a delivery *)

Lemma is_event_key provider eid w : is_event provider eid w = true <-> webhook_col w = Some (provider, eid).
Proof.
  unfold is_event, webhook_col. rewrite andb_true_iff, bool_decide_eq_true, String.eqb_eq.
  split; [intros [<- <-]; done|by intros [= <- <-]].
Qed.

Lemma find_event_inv provider eid d :
  WebhooksInv d ->
  (exists w, webhook_events d !! we_id w = Some w /\ is_event provider eid w = true /\
     find_event provider eid d = (Ok (Some w), d)) \/
  ((forall k w, webhook_events d !! k = Some w -> is_event provider eid w = false) /\
     find_event provider eid d = (Ok None, d)).
Proof.
  intros [Hk Hu]. unfold find_event. cbv [get mbind M_bind of_result].
  destruct (select_unique webhook_col (webhook_events d) (is_event provider eid) (provider, eid)) as [[w|] E];
    [done|done| |..]; rewrite ?E.
  - intros v Hv. by apply is_event_key.
  - left. exists w. apply one_or_none_Some in E.
    assert (Hi : w ∈ select (is_event provider eid) (webhook_events d)) by (rewrite E; constructor).
    apply elem_of_select_keyed in Hi as [Hi Hp]; done.
  - right. split; [|done]. intros k v Hv. apply not_true_iff_false. intros Hp. apply one_or_none_None in E.
    assert (Hi : v ∈ select (is_event provider eid) (webhook_events d)) by (apply elem_of_select; eauto).
    rewrite E in Hi. set_solver.
Qed.

(** The row of the event, once there is one, is what every look-up finds. *)
Lemma event_row_unique provider eid d w v k :
  WebhooksInv d -> webhook_events d !! we_id w = Some w -> webhook_events d !! k = Some v ->
  is_event provider eid w = true -> is_event provider eid v = true -> v = w.
Proof.
  intros [Hk Hu] Hw Hv Ew%is_event_key Ev%is_event_key.
  assert (k = we_id w) as -> by (eapply Hu; eauto). congruence.
Qed.

Lemma record_event_inv now draw provider event payload sig d r d' :
  WebhooksInv d -> record_event now draw provider event payload sig d = (r, d') ->
  let row := new_event now (fresh_id (webhook_events d)) provider (event_key "unsigned" draw event) event sig payload in
  (r = Ok (row, true) /\ d' = set_webhook_events (save row (webhook_events d)) d /\
     webhook_events d !! we_id row = None /\ WebhooksInv d' /\
     conflicts webhook_col row (webhook_events d) = false) \/
  (exists w, r = Ok (w, false) /\ d' = d /\ webhook_events d !! we_id w = Some w /\
     is_event provider (ne_event_id event) w = true) \/
  (r = Raise IntegrityErr /\ d' = d).
Proof.
  intros Hinv H row. unfold record_event in H. cbv [get mbind M_bind mret M_ret savepoint] in H. fold row in H.
  destruct (insert_webhook row d) as [[u|e] d1] eqn:Hins.
  - injection H as <- <-. apply insert_into_inv in Hins as [(_ & Hc & ->)|([=] & _)]. left.
    split; [done|]. split; [done|]. split; [apply fresh_id_None|]. split; [|done].
    destruct Hinv as [Hk Hu].
    destruct (insert_unique_preserves webhook_col row (webhook_events d) (save row (webhook_events d)) Hk Hu); [|done].
    unfold insert_unique. by rewrite Hc.
  - apply insert_into_inv in Hins as [([=] & _)|([= ->] & _ & ->)].
    destruct (find_event_inv provider (ne_event_id event) d Hinv) as [(w & Hw & Hp & E)|[_ E]]; rewrite E in H;
      injection H as <- <-; [right; left; eauto|auto].
Qed.

(** A delivery of an event that is already on record is not recorded again. *)
Lemma record_event_known now draw provider event payload sig d w :
  WebhooksInv d -> ne_event_id event <> "" -> webhook_events d !! we_id w = Some w ->
  is_event provider (ne_event_id event) w = true ->
  record_event now draw provider event payload sig d = (Ok (w, false), d).
Proof.
  intros Hinv Hne Hw Hp. destruct (record_event _ _ _ _ _ _ d) as [r d'] eqn:H.
  assert (Ek : event_key "unsigned" draw event = ne_event_id event).
  { unfold event_key. by destruct (String.eqb_spec (ne_event_id event) ""). }
  unfold record_event in H. cbv [get mbind M_bind mret M_ret savepoint] in H. rewrite Ek in H.
  set (row := new_event _ _ _ _ _ _ _) in H.
  destruct (insert_webhook row d) as [[u|e] d1] eqn:Hins; apply insert_into_inv in Hins as [(Hr & Hc & ->)|(Hr & _ & ->)]; try done.
  - exfalso. rewrite conflicts_false in Hc by apply Hinv.
    assert (E : we_id w = row_id row).
    { apply (Hc (provider, ne_event_id event) _ w); [done|exact Hw|by apply is_event_key]. }
    change (row_id row) with (fresh_id (webhook_events d)) in E. rewrite E in Hw.
    pose proof (fresh_id_None (webhook_events d)). congruence.
  - injection Hr as ->. destruct (find_event_inv provider (ne_event_id event) d Hinv) as [(v & Hv & Hpv & E)|[Hno _]].
    + rewrite E in H. assert (v = w) as -> by (by eapply event_row_unique). congruence.
    + by rewrite (Hno _ _ Hw) in Hp.
Qed.

Lemma alter_event_inv f k d :
  (forall w, we_id (f w) = we_id w) -> (forall w, webhook_col (f w) = webhook_col w) ->
  WebhooksInv d -> WebhooksInv (set_webhook_events (alter f k (webhook_events d)) d).
Proof. intros H1 H2 [Hk Hu]. split; cbn; [by apply keyed_alter|by apply unique_alter]. Qed.

Lemma update_events_run k f d :
  update_webhook_events k f d = (Ok tt, set_webhook_events (alter f k (webhook_events d)) d).
Proof. reflexivity. Qed.

Lemma in_session_run {A} (m : M Db A) c d r d' : m d = (r, d') -> in_session m (Session c d) = (r, Session c d').
Proof. intros H. unfold in_session, lift. cbn [working committed]. by rewrite H. Qed.

(** The gateway a configured provider is. *)
Lemma ingest_unfold st hmac now race draw provider body h payload event d :
  configured st provider = true -> parse_webhook provider payload h = Ok event ->
  ingest st hmac now race draw provider body h payload (Session d d) =
  let sig := verify_webhook st hmac provider now body h in
  match record_event now draw provider event payload sig d with
  | (Raise e, d1) => (Raise e, Session d d1)
  | (Ok (row, is_new), d1) =>
      if negb sig then (Ok (mkOutcome false false (Some (ne_event_id event)) None), Session d1 d1)
      else if negb is_new && we_processed row
      then (Ok (mkOutcome true true (Some (ne_event_id event)) None), Session d1 d1)
      else match process st now race provider event d1 with
           | (Ok settled, d2) =>
               let d3 := set_webhook_events (alter (set_processed now) (we_id row) (webhook_events d2)) d2 in
               (Ok (mkOutcome true false (Some (ne_event_id event)) settled), Session d3 d3)
           | (Raise e, d2) =>
               match reload_or_recreate now draw provider event payload d with
               | (Ok w, d3) =>
                   let d4 := set_webhook_events (alter (set_error e) (we_id w) (webhook_events d3)) d3 in
                   (Ok (mkOutcome true false (Some (ne_event_id event)) None), Session d4 d4)
               | (Raise e', d3) => (Raise e', Session d d3)
               end
           end
  end.
Proof.
  intros Hc Hp. unfold ingest. rewrite get_gateway_ok, Hc.
  cbv [try_except mbind M_bind of_result in_session lift commit rollback modify mret M_ret working committed].
  rewrite Hp.
  destruct (record_event _ _ _ _ _ _ d) as [[[row is_new]|e] d1]; [|reflexivity].
  destruct (negb (verify_webhook _ _ _ _ _ _)); [reflexivity|].
  destruct (negb is_new && we_processed row); [reflexivity|].
  destruct (process _ _ _ _ _ d1) as [[settled|e] d2]; [reflexivity|].
  destruct (reload_or_recreate _ _ _ _ _ d) as [[w|e'] d3]; reflexivity.
Qed.

Lemma insert_webhook_fresh w d :
  WebhooksInv d -> webhook_events d !! we_id w = None ->
  (forall k v, webhook_events d !! k = Some v -> is_event (we_provider w) (we_event_id w) v = false) ->
  insert_webhook w d = (Ok tt, set_webhook_events (save w (webhook_events d)) d).
Proof.
  intros Hinv Hfresh Hno. destruct (insert_webhook w d) as [r d'] eqn:H.
  pose proof H as [(-> & _ & ->)|(-> & Hc & _)]%insert_into_inv; [done|]. exfalso.
  apply not_false_iff_true in Hc. apply Hc, conflicts_false; [apply Hinv|].
  intros k i v [= <-] Hv Hcol. apply is_event_key in Hcol. by rewrite (Hno _ _ Hv) in Hcol.
Qed.

(** After the rollback the evidence row exists, and is the only one written. *)
Lemma reload_inv now draw provider event payload d :
  WebhooksInv d -> ne_event_id event <> "" ->
  exists w t, reload_or_recreate now draw provider event payload d = (Ok w, set_webhook_events t d) /\
    t !! we_id w = Some w /\ is_event provider (ne_event_id event) w = true /\
    forall k, k <> we_id w -> t !! k = webhook_events d !! k.
Proof.
  intros Hinv Hne. unfold reload_or_recreate.
  destruct (find_event_inv provider (ne_event_id event) d Hinv) as [(w & Hw & Hp & E)|[Hno E]];
    rewrite (bind_ok _ _ _ _ _ E).
  - exists w, (webhook_events d). split; [by destruct d|]. done.
  - rewrite (bind_ok get _ d d d eq_refl). cbv zeta. set (w := new_event _ _ _ _ _ _ _).
    assert (Ek : we_event_id w = ne_event_id event).
    { cbn. unfold event_key. by destruct (String.eqb_spec (ne_event_id event) ""). }
    exists w, (save w (webhook_events d)). unfold mbind, M_bind.
    rewrite insert_webhook_fresh; [|done|apply fresh_id_None|by rewrite Ek].
    split; [done|]. split; [apply (lookup_save_same (webhook_events d) w)|].
    split; [apply is_event_key; unfold webhook_col; by rewrite Ek|].
    intros k Hk. by rewrite lookup_save_other.
Qed.

(** The row a successful processing marks. *)
Lemma recorded_row now draw provider event payload d row is_new d1 :
  WebhooksInv d -> ne_event_id event <> "" ->
  record_event now draw provider event payload true d = (Ok (row, is_new), d1) ->
  WebhooksInv d1 /\ webhook_events d1 !! we_id row = Some row /\ is_event provider (ne_event_id event) row = true /\
  d1 = set_webhook_events (webhook_events d1) d.
Proof.
  intros Hinv Hne [([= -> _] & -> & _ & Hinv1 & _)|[(w & [= -> _] & -> & Hw & Hp)|([=] & _)]]%record_event_inv; [| |done].
  - set (row' := new_event _ _ _ _ _ _ _) in *.
    split; [done|]. split; [apply (lookup_save_same (webhook_events d) row')|]. split; [|done].
    apply is_event_key. unfold webhook_col. cbn. unfold event_key.
    by destruct (String.eqb_spec (ne_event_id event) "").
  - split; [done|]. split; [done|]. split; [done|]. by destruct d.
Qed.

(** ** Properties *)

(** A delivery whose signature does not verify changes nothing but the audit
    trail.  It is refused; no order, payment, refund, invoice, commission,
    coupon or subscription is touched; recorded events stay as they were, and
    at most one row is added, marked unsigned and unprocessed. *)
Theorem unsigned_delivery_does_nothing st hmac now race draw provider body h payload d r s'
    (Hinv : WebhooksInv d) (Hsig : verify_webhook st hmac provider now body h = false)
    (H : ingest st hmac now race draw provider body h payload (Session d d) = (r, s')) :
  (forall out, r = Ok out -> wo_accepted out = false /\ wo_settled_order_id out = None) /\
  exists t, committed s' = set_webhook_events t d /\
    (forall k w, webhook_events d !! k = Some w -> t !! k = Some w) /\
    (forall k w, t !! k = Some w -> webhook_events d !! k = Some w \/
       we_signature_valid w = false /\ we_processed w = false).
Proof.
  assert (Hsame : exists t, d = set_webhook_events t d /\
    (forall k w, webhook_events d !! k = Some w -> t !! k = Some w) /\
    (forall k w, t !! k = Some w -> webhook_events d !! k = Some w \/
       we_signature_valid w = false /\ we_processed w = false)).
  { exists (webhook_events d). split; [by destruct d|]. auto. }
  destruct (configured st provider) eqn:Hc.
  2:{ unfold ingest in H. rewrite get_gateway_ok, Hc in H. injection H as <- <-. done. }
  destruct (parse_webhook provider payload h) as [event|e] eqn:Hp.
  2:{ unfold ingest in H. rewrite get_gateway_ok, Hc in H.
      cbv [mbind M_bind of_result] in H. rewrite Hp in H. injection H as <- <-. done. }
  rewrite (ingest_unfold _ _ _ _ _ _ _ _ _ _ _ Hc Hp), Hsig in H. cbv zeta in H.
  destruct (record_event _ _ _ _ _ _ d) as [[[row is_new]|e] d1] eqn:Hrec; cbn [negb] in H; injection H as <- <-.
  2:{ done. }
  split; [by intros out [= <-]|]. cbn [committed].
  apply record_event_inv in Hrec as [([= -> _] & -> & Hfresh & _)|[(w & _ & -> & _)|([=] & _)]]; [|done..].
  set (row' := new_event _ _ _ _ _ _ _) in *. exists (save row' (webhook_events d)). split; [done|]. split.
  - intros k w Hw. rewrite lookup_save_other; [done|]. intros E. change (we_id row' = k) in E. congruence.
  - intros k w. rewrite lookup_save. case_decide; [intros [= <-]; by right|by left].
Qed.

(** C2: A delivery is processed exactly once.  When a signed event is recorded
    and its processing returns, the delivery commits exactly the effects of
    that processing and the mark on its row; from then on every delivery of
    the same event, at any time and with any body the gateway signs, answers
    "duplicate", settles nothing and leaves the database as it is. *)
Theorem delivery_processed_once st hmac now draw provider body h payload event d row is_new d1 settled d2
    (Hinv : WebhooksInv d) (Hconf : configured st provider = true)
    (Hsig : verify_webhook st hmac provider now body h = true)
    (Hparse : parse_webhook provider payload h = Ok event) (Hid : ne_event_id event <> "")
    (Hrec : record_event now draw provider event payload true d = (Ok (row, is_new), d1))
    (Hnew : we_processed row = false)
    (Hproc : process st now alone provider event d1 = (Ok settled, d2)) :
  exists d3, ingest st hmac now alone draw provider body h payload (Session d d) =
      (Ok (mkOutcome true false (Some (ne_event_id event)) settled), Session d3 d3) /\
    d3 = set_webhook_events (webhook_events d3) d2 /\
    forall now' race' draw' body' h' payload' event',
      verify_webhook st hmac provider now' body' h' = true ->
      parse_webhook provider payload' h' = Ok event' -> ne_event_id event' = ne_event_id event ->
      ingest st hmac now' race' draw' provider body' h' payload' (Session d3 d3) =
        (Ok (mkOutcome true true (Some (ne_event_id event)) None), Session d3 d3).
Proof.
  destruct (recorded_row _ _ _ _ _ _ _ _ _ Hinv Hid Hrec) as (Hinv1 & Hrow & Hev & _).
  pose proof (process_keeps_events st now provider event _ _ _ Hproc) as Hkeep.
  set (d3 := set_webhook_events (alter (set_processed now) (we_id row) (webhook_events d2)) d2).
  exists d3. split; [|split; [done|]].
  - rewrite (ingest_unfold _ _ _ _ _ _ _ _ _ _ _ Hconf Hparse), Hsig. cbv zeta.
    rewrite Hrec. cbn [negb]. rewrite Hnew, andb_false_r, Hproc. done.
  - intros now' race' draw' body' h' payload' event' Hsig' Hparse' Eid.
    rewrite (ingest_unfold _ _ _ _ _ _ _ _ _ _ _ Hconf Hparse'), Hsig'. cbv zeta.
    assert (Hinv3 : WebhooksInv d3).
    { apply (alter_event_inv (set_processed now)); [done|done|]. destruct Hinv1. by constructor; rewrite ?Hkeep. }
    rewrite (record_event_known now' draw' provider event' payload' true d3 (set_processed now row)); [|done|..].
    + cbn. by rewrite Eid.
    + by rewrite Eid.
    + unfold d3. cbn. rewrite Hkeep. change (we_id (set_processed now row)) with (we_id row).
      by rewrite lookup_alter_eq, Hrow.
    + rewrite Eid. exact Hev.
Qed.

(** A delivery whose processing fails is all or nothing.  Whatever the
    handler had already written is rolled back: the database is what it was,
    except that the event's row is there, unprocessed and carrying the error,
    so the event can be delivered or replayed again. *)
Theorem failed_delivery_rolled_back st hmac now race draw provider body h payload event d row is_new d1 e d2
    (Hinv : WebhooksInv d) (Hconf : configured st provider = true)
    (Hsig : verify_webhook st hmac provider now body h = true)
    (Hparse : parse_webhook provider payload h = Ok event) (Hid : ne_event_id event <> "")
    (Hrec : record_event now draw provider event payload true d = (Ok (row, is_new), d1))
    (Hnew : we_processed row = false)
    (Hproc : process st now race provider event d1 = (Raise e, d2)) :
  exists w t, ingest st hmac now race draw provider body h payload (Session d d) =
      (Ok (mkOutcome true false (Some (ne_event_id event)) None),
       Session (set_webhook_events t d) (set_webhook_events t d)) /\
    t !! we_id w = Some w /\ is_event provider (ne_event_id event) w = true /\
    we_processed w = false /\ we_error w = Some e /\
    (forall k, k <> we_id w -> t !! k = webhook_events d !! k).
Proof.
  destruct (reload_inv now draw provider event payload d Hinv Hid) as (w & t & Hr & Hw & Hp & Hoth).
  exists (set_error e w), (alter (set_error e) (we_id w) t).
  rewrite (ingest_unfold _ _ _ _ _ _ _ _ _ _ _ Hconf Hparse), Hsig. cbv zeta.
  rewrite Hrec. cbn [negb]. rewrite Hnew, andb_false_r, Hproc, Hr. change (we_id (set_error e w)) with (we_id w).
  split; [done|]. split; [by rewrite lookup_alter_eq, Hw|]. split; [exact Hp|]. do 2 (split; [done|]).
  intros k Hk. rewrite lookup_alter_ne by done. by apply Hoth.
Qed.

(** Replaying cannot launder an unsigned payload.  Only a stored event whose
    signature had verified is run again; for any other id the session is left
    exactly as it was.  A replay that is accepted commits what processing the
    stored payload does and marks its row. *)
Theorem replay_needs_signature st now race k d r s'
    (H : replay st now race k (Session d d) = (r, s')) :
  match webhook_events d !! k with
  | Some row =>
      if we_signature_valid row then
        forall out, r = Ok out -> exists event d2,
          parse_webhook (we_provider row) (we_payload row) [] = Ok event /\
          process st now race (we_provider row) event d = (Ok (wo_settled_order_id out), d2) /\
          let d3 := set_webhook_events (alter (set_processed now) (we_id row) (webhook_events d2)) d2 in
          wo_accepted out = true /\ s' = Session d3 d3
      else r = Ok (mkOutcome false false None None) /\ s' = Session d d
  | None => r = Ok (mkOutcome false false None None) /\ s' = Session d d
  end.
Proof.
  unfold replay in H. cbv [gets] in H. unfold mbind at 1, M_bind at 1 in H. cbn [working] in H.
  destruct (webhook_events d !! k) as [row|]; [|by injection H as <- <-].
  destruct (we_signature_valid row); cbn [negb] in H; [|by injection H as <- <-].
  rewrite get_gateway_ok in H. destruct (configured st (we_provider row)); [|injection H as <- <-; by intros out [=]].
  cbv [mbind M_bind of_result in_session lift commit modify mret M_ret working committed] in H.
  destruct (parse_webhook (we_provider row) (we_payload row) []) as [event|e]; [|injection H as <- <-; by intros out [=]].
  destruct (process st now race (we_provider row) event d) as [[settled|e] d2] eqn:Hpr;
    injection H as <- <-; intros out [= <-].
  by exists event, d2.
Qed.

(** A successful payment event pays the order it is about, once.  The
    processing of such an event never fails; an unpaid order becomes PAID, with
    its payment and invoice on record, and is reported for announcement; an
    order that is already paid keeps its row and is not reported again, even
    when the event is another one (the gateways send both a payment and an
    order event for one payment). *)
Theorem success_event_pays_order st now provider event pid d o
    (Hplain : escape_term (invoice_prefix st) = invoice_prefix st) (Hinv : ServiceInv st d) (Hera : in_era now)
    (Hcat : ne_category event = "payment") (Hpid : ne_provider_payment_id event = Some pid) (Hne : pid <> "")
    (Hok : ne_event_type event ∈ SUCCESS_EVENTS \/ ne_status event = Some PaymentStatus.CAPTURED)
    (Hrow : orders d !! o_id o = Some o)
    (Hfind : find_by_provider_reference provider (ne_provider_order_id event) (ne_order_id event) d = (Ok (Some o), d)) :
  exists d' o', process st now alone provider event d = (Ok (if settled o then None else Some (o_id o)), d') /\
    ServiceInv st d' /\ orders d' !! o_id o = Some o' /\ settled o' = true /\
    (settled o = true -> o' = o) /\
    (settled o = false -> o' = set_paid now o /\
       (exists i, invoices d' !! iv_id i = Some i /\ iv_order_id i = o_id o) /\
       exists p, payments d' !! p_id p = Some p /\ p_provider_payment_id p = pid).
Proof.
  assert (Hrun : process st now alone provider event d =
    (r ← settle st now alone o provider pid (ne_amount_minor event) (ne_currency event) (ne_method event)
           (Some (ne_raw event));
     mret (if sr_newly_paid r then Some (o_id o) else None)) d).
  { unfold process. rewrite Hcat. cbn [String.eqb Ascii.eqb Bool.eqb]. unfold handle_payment.
    rewrite (bind_ok _ _ _ _ _ Hfind), Hpid. cbn [truthy default from_option id].
    destruct (String.eqb_spec pid ""); [done|]. cbn [negb]. rewrite andb_true_r.
    assert (bool_decide (ne_event_type event ∈ SUCCESS_EVENTS) ||
            bool_decide (ne_status event = Some PaymentStatus.CAPTURED) = true) as ->; [|done].
    apply orb_true_iff. rewrite !bool_decide_eq_true. exact Hok. }
  destruct (settle st now alone o provider pid (ne_amount_minor event) (ne_currency event) (ne_method event)
    (Some (ne_raw event)) d) as [r d'] eqn:Hs.
  destruct (settle_spec _ _ _ _ _ _ _ _ _ _ _ _ Hplain Hinv Hera Hrow Hs) as (Hinv' & p & Hp & His & Hres).
  rewrite Hrun. unfold mbind, M_bind. rewrite Hs. exists d'. destruct (settled o) eqn:Hset.
  - destruct Hres as [-> Hf]. exists o. split; [done|]. split; [done|]. by rewrite Hf.
  - destruct Hres as (i & -> & Hord & _ & Hi & Hio & _). exists (set_paid now o).
    split; [done|]. split; [done|]. split; [rewrite Hord; apply lookup_insert_eq|].
    split; [apply settled_status; auto|]. split; [done|]. intros _. split; [done|]. split; [by exists i|].
    exists p. split; [done|]. apply is_payment_key in His. by injection His as _ ->.
Qed.

(** ** The properties on concrete deliveries *)

Definition captured_payload : json :=
  JObj [("event", JStr "payment.captured");
        ("payload", JObj [("payment", JObj [("entity",
           JObj [("id", JStr "pay_1"); ("status", JStr "captured"); ("amount", JInt 49900);
                 ("currency", JStr "INR"); ("method", JStr "upi");
                 ("notes", JObj [("order_id", JStr (string_of_uuid 1))])])])])].
Definition signed_headers : headers :=
  [("x-razorpay-signature", plain_hmac "ws" "{}"); ("x-razorpay-event-id", "evt_1")].
Definition captured_event : NormalisedEvent :=
  {| ne_event_id := "evt_1"; ne_event_type := "payment.captured"; ne_category := "payment";
     ne_provider_order_id := None; ne_provider_payment_id := Some "pay_1"; ne_provider_refund_id := None;
     ne_provider_subscription_id := None; ne_order_id := Some 1%N; ne_status := Some PaymentStatus.CAPTURED;
     ne_amount_minor := Some 49900; ne_currency := Some "INR"; ne_method := Some "upi"; ne_failure_code := None;
     ne_failure_message := None; ne_raw := captured_payload |}.

Definition deliver (now : datetime) (s : session Db) : result WebhookOutcome * session Db :=
  ingest live_settings plain_hmac now alone "d" RAZORPAY "{}" signed_headers captured_payload s.
Definition fresh_session (d : Db) : session Db := Session d d.
Definition sample_recorded : result (WebhookEvent * bool) * Db :=
  record_event sample_now "d" RAZORPAY captured_event captured_payload true sample_db.
Definition the_event : WebhookEvent := new_event sample_now 1 RAZORPAY "evt_1" captured_event true captured_payload.

Lemma sample_webhooks : WebhooksInv sample_db.
Proof. constructor; [apply keyed_empty|apply unique_empty]. Qed.

Lemma captured_signed now : verify_webhook live_settings plain_hmac RAZORPAY now "{}" signed_headers = true.
Proof. vm_compute. reflexivity. Qed.

Lemma captured_parsed : parse_webhook RAZORPAY captured_payload signed_headers = Ok captured_event.
Proof. vm_compute. reflexivity. Qed.

Lemma captured_recorded : sample_recorded.1 = Ok (the_event, true).
Proof. vm_compute. reflexivity. Qed.

Lemma unsigned_delivery_does_nothing_witness :
  let d := (ingest live_settings plain_hmac sample_now alone "d" RAZORPAY "{...}" signed_headers captured_payload
              (fresh_session sample_db)).2 in
  orders (committed d) = orders sample_db /\ payments (committed d) = ∅.
Proof.
  destruct (unsigned_delivery_does_nothing live_settings plain_hmac sample_now alone "d" RAZORPAY "{...}"
    signed_headers captured_payload sample_db
    (ingest live_settings plain_hmac sample_now alone "d" RAZORPAY "{...}" signed_headers captured_payload
       (fresh_session sample_db)).1
    (ingest live_settings plain_hmac sample_now alone "d" RAZORPAY "{...}" signed_headers captured_payload
       (fresh_session sample_db)).2) as (_ & t & E & _).
  - exact sample_webhooks.
  - vm_compute. reflexivity.
  - apply surjective_pairing.
  - cbv zeta. rewrite E. split; reflexivity.
Defined.

Lemma delivery_processed_once_witness :
  exists d3, deliver sample_now (fresh_session sample_db) =
      (Ok (mkOutcome true false (Some "evt_1") (Some 1%N)), Session d3 d3) /\
    deliver (sample_now + 60) (Session d3 d3) = (Ok (mkOutcome true true (Some "evt_1") None), Session d3 d3).
Proof.
  destruct (delivery_processed_once live_settings plain_hmac sample_now "d" RAZORPAY "{}" signed_headers
    captured_payload captured_event sample_db the_event true sample_recorded.2 (Some 1%N)
    (process live_settings sample_now alone RAZORPAY captured_event sample_recorded.2).2) as (d3 & H1 & _ & H2).
  - exact sample_webhooks.
  - reflexivity.
  - exact (captured_signed _).
  - exact captured_parsed.
  - discriminate.
  - rewrite <- captured_recorded. apply surjective_pairing.
  - reflexivity.
  - assert ((process live_settings sample_now alone RAZORPAY captured_event sample_recorded.2).1 = Ok (Some 1%N)) as <-
      by (vm_compute; reflexivity). apply surjective_pairing.
  - exists d3. split; [exact H1|]. apply (H2 (sample_now + 60) alone "d" "{}" signed_headers captured_payload captured_event).
    + exact (captured_signed _).
    + exact captured_parsed.
    + reflexivity.
Defined.

Lemma success_event_pays_order_witness :
  exists d', process live_settings sample_now alone RAZORPAY captured_event sample_db = (Ok (Some 1%N), d') /\
    orders d' !! 1%N = Some (set_paid sample_now sample_order).
Proof.
  destruct (success_event_pays_order live_settings sample_now RAZORPAY captured_event "pay_1" sample_db sample_order)
    as (d' & o' & H & _ & Hrow & _ & _ & Hpaid).
  - reflexivity.
  - exact sample_service_inv.
  - exact (proj1 sample_now_era).
  - reflexivity.
  - reflexivity.
  - discriminate.
  - right. reflexivity.
  - reflexivity.
  - vm_compute. reflexivity.
  - exists d'. split; [exact H|]. destruct (Hpaid eq_refl) as [-> _]. exact Hrow.
Defined.

(** Other transactions that take every serial the settlement tries. *)
Definition other_order : Order :=
  {| o_id := 99; o_cols := o_cols sample_order; o_status := PAID; o_refunded_minor := 0; o_provider := None;
     o_provider_order_id := None; o_checkout_url := None; o_paid_at := None; o_cancelled_at := None;
     o_failure_reason := None |}.
Definition take_serial (i : nat) (d : Db) : Db :=
  set_invoices (save (new_invoice live_settings sample_now other_order (fresh_id (invoices d))
                        (next_number live_settings sample_now d)) (invoices d)) d.
Definition contended : races := mkRaces id take_serial id.
Definition contended_delivery : result WebhookOutcome * session Db :=
  ingest live_settings plain_hmac sample_now contended "d" RAZORPAY "{}" signed_headers captured_payload
    (fresh_session sample_db).

Lemma failed_delivery_rolled_back_witness :
  orders (committed contended_delivery.2) = orders sample_db /\
  exists w, is_event RAZORPAY "evt_1" w = true /\ we_error w = Some IntegrityErr /\
    webhook_events (committed contended_delivery.2) !! we_id w = Some w.
Proof.
  destruct (failed_delivery_rolled_back live_settings plain_hmac sample_now contended "d" RAZORPAY "{}"
    signed_headers captured_payload captured_event sample_db the_event true sample_recorded.2 IntegrityErr
    (process live_settings sample_now contended RAZORPAY captured_event sample_recorded.2).2)
    as (w & t & H & Hw & Hev & _ & He & _).
  - exact sample_webhooks.
  - reflexivity.
  - exact (captured_signed _).
  - exact captured_parsed.
  - discriminate.
  - rewrite <- captured_recorded. apply surjective_pairing.
  - reflexivity.
  - assert ((process live_settings sample_now contended RAZORPAY captured_event sample_recorded.2).1 =
            Raise IntegrityErr) as <- by (vm_compute; reflexivity). apply surjective_pairing.
  - unfold contended_delivery, fresh_session. rewrite H. split; [reflexivity|]. exists w.
    split; [exact Hev|]. split; [exact He|exact Hw].
Defined.

Definition replay_db : Db :=
  set_webhook_events (save (set_error IntegrityErr the_event) ∅) sample_db.
Definition replayed : result WebhookOutcome * session Db :=
  replay live_settings sample_now alone 1 (Session replay_db replay_db).

Lemma replay_needs_signature_witness :
  exists event d2, process live_settings sample_now alone RAZORPAY event replay_db = (Ok (Some 1%N), d2).
Proof.
  pose proof (replay_needs_signature live_settings sample_now alone 1 replay_db replayed.1 replayed.2
    ltac:(apply surjective_pairing)) as H.
  change (webhook_events replay_db !! 1%N) with (Some (set_error IntegrityErr the_event)) in H. cbn beta iota in H.
  destruct (H (mkOutcome true false (Some "evt_1") (Some 1%N))) as (event & d2 & _ & Hp & _).
  - vm_compute. reflexivity.
  - exists event, d2. exact Hp.
Defined.

(** ** What the reconciliation of Razorpay's subscription events comes to *)

(** The status is read where Stripe puts it; Razorpay's event names for a
    started membership are not in the table, so the row keeps its status. *)
Definition member : Subscription :=
  {| su_id := 1; su_user_id := 7; su_plan_id := 1; su_provider := RAZORPAY;
     su_provider_subscription_id := Some "sub_1"; su_status := SubscriptionStatus.PENDING;
     su_current_period_start := None; su_current_period_end := None; su_cancel_at_period_end := false;
     su_cancelled_at := None; su_trial_ends_at := None; su_created_at := 0 |}.
Definition member_db : Db := set_subscriptions (save member ∅) empty_db.
Definition started_payload (name : string) : json :=
  JObj [("event", JStr name);
        ("payload", JObj [("subscription", JObj [("entity",
           JObj [("id", JStr "sub_1"); ("status", JStr "active")])])])].

Example razorpay_activation_ignored :
  Forall (fun name =>
    exists event, parse_webhook RAZORPAY (started_payload name) [("x-razorpay-event-id", "e")] = Ok event /\
      (process live_settings 0 alone RAZORPAY event member_db).1 = Ok None /\
      (su_status <$> subscriptions (process live_settings 0 alone RAZORPAY event member_db).2 !! 1%N) =
        Some SubscriptionStatus.PENDING)
    ["subscription.activated"; "subscription.charged"; "subscription.resumed"].
Proof. repeat constructor; (eexists; split; [vm_compute; reflexivity|split; vm_compute; reflexivity]). Qed.

(** A completed Checkout Session that is not paid yet still settles its order. *)
Definition unpaid_session : json :=
  JObj [("id", JStr "evt_2"); ("type", JStr "checkout.session.completed");
        ("data", JObj [("object", JObj [("id", JStr "cs_1"); ("payment_status", JStr "unpaid");
           ("client_reference_id", JStr (string_of_uuid 1)); ("amount_total", JInt 49900)])])].

Example unpaid_session_settles :
  exists event, parse_webhook STRIPE unpaid_session [] = Ok event /\ ne_status event = Some PaymentStatus.PENDING /\
    (o_status <$> orders (process live_settings sample_now alone STRIPE event sample_db).2 !! 1%N) = Some PAID.
Proof. eexists. split; [vm_compute; reflexivity|]. split; vm_compute; reflexivity. Qed.
