(* ===== verification/Idempotency.v ===== *)
(** * Idempotency keys (packages/core-py/knowledgeos_core/idempotency.py)

    The reservation protocol over Redis: SET NX, GET and DEL on one string key
    per actor, with expiry.  Redis is a map from keys to records with the
    moment they expire; [race] is what other clients do between the two
    commands of [begin]. *)

From S2P Require Import Prelude Store Json Pagination Invoices.

Inductive idem_state :=
  | InProgress
  | Completed (status_code : Z) (body : json) (headers : list (string * string)).

Record idem_record := mkIdem { ir_state : idem_state; ir_fingerprint : string }.

Record IdempotentReplay := mkReplay {
  ir_status_code : Z;
  ir_body : json;
  ir_headers : list (string * string);
}.

(** Each record with the moment it expires. *)
Abbreviation redis := (gmap string (idem_record * Z)).

(** [GET]: what is still there at a moment. *)
Definition redis_get (now : Z) (k : string) (s : redis) : option idem_record :=
  match s !! k with
  | Some (r, expires) => if now <? expires then Some r else None
  | None => None
  end.

Section store.
Context (service : string) (ttl : Z).

Definition redis_key (scope key actor : string) : string :=
  append "kos:idem:" (append service (append ":" (append scope (append ":" (append actor (append ":" key)))))).

(** [SET ... NX] happens at [now], [GET] at [later]. *)
Definition begin (now later : Z) (race : redis -> redis) (scope key actor request_fingerprint : string)
    : M redis (option IdempotentReplay) :=
  let k := redis_key scope key actor in
  s ← get;
  match redis_get now k s with
  | None =>
      _ ← put (<[k := (mkIdem InProgress request_fingerprint, now + ttl)]> s);
      mret None
  | Some _ =>
      _ ← modify race;
      s ← get;
      match redis_get later k s with
      | None => mret None
      | Some record =>
          if negb (String.eqb (ir_fingerprint record) request_fingerprint)
          then raise (app_error ConflictError "idempotency_key_reuse")
          else match ir_state record with
               | InProgress => raise (app_error ConflictError "idempotency_in_progress")
               | Completed status body headers => mret (Some (mkReplay status body headers))
               end
      end
  end.

Definition complete (now : Z) (scope key actor request_fingerprint : string) (status_code : Z) (body : json)
    (headers : list (string * string)) : M redis unit :=
  modify (insert (redis_key scope key actor)
            (mkIdem (Completed status_code body headers) request_fingerprint, now + ttl)).

Definition release (scope key actor : string) : M redis unit :=
  modify (delete (redis_key scope key actor)).

(** ** Lemmas *)

Lemma append_colon_inj a b x y :
  sall (fun c => negb (c =? ":")%char) a = true -> sall (fun c => negb (c =? ":")%char) b = true ->
  append a (append ":" x) = append b (append ":" y) -> a = b /\ x = y.
Proof.
  revert b. induction a as [|c a IH]; intros [|d b]; cbn [sall]; rewrite ?append_String, ?append_nil.
  - intros _ _ [= H]. split; [done|exact H].
  - intros _ [Hd _]%andb_true_iff [= <- _]. discriminate.
  - intros [Hc _]%andb_true_iff _ [= -> _]. discriminate.
  - intros [_ Ha]%andb_true_iff [_ Hb]%andb_true_iff [= -> H]. by destruct (IH b Ha Hb H) as [-> ->].
Qed.

(** Keys of two actors, or of two client keys, never meet. *)
Lemma redis_key_inj scope key actor key' actor' :
  sall (fun c => negb (c =? ":")%char) actor = true -> sall (fun c => negb (c =? ":")%char) actor' = true ->
  redis_key scope key actor = redis_key scope key' actor' -> actor = actor' /\ key = key'.
Proof.
  intros Ha Hb H. unfold redis_key in H. apply append_inj, append_inj in H.
  do 3 apply append_inj in H. by apply append_colon_inj in H.
Qed.

(** The key is taken, by that request, until [until] at least. *)
Definition held (k fp : string) (until : Z) (s : redis) : Prop :=
  exists r expires, s !! k = Some (r, expires) /\ until <= expires /\ ir_fingerprint r = fp.

Lemma held_get k fp until now s : held k fp until s -> now < until ->
  exists r, redis_get now k s = Some r /\ ir_fingerprint r = fp.
Proof.
  intros (r & e & Hs & He & Hf) Hn. exists r. unfold redis_get. rewrite Hs.
  by rewrite (proj2 (Z.ltb_lt _ _)) by lia.
Qed.

(** Commands of other requests, and of the holder until it gives up. *)
Inductive redis_step (k fp : string) (until : Z) : redis -> redis -> Prop :=
  | is_set_nx now k' fp' s :
      now < until -> redis_get now k' s = None ->
      redis_step k fp until s (<[k' := (mkIdem InProgress fp', now + ttl)]> s)
  | is_complete now st body hs s :
      until <= now + ttl ->
      redis_step k fp until s (<[k := (mkIdem (Completed st body hs) fp, now + ttl)]> s)
  | is_other k' v s : k' <> k -> redis_step k fp until s (<[k' := v]> s)
  | is_delete k' s : k' <> k -> redis_step k fp until s (delete k' s).

Lemma redis_step_held k fp until s s' : held k fp until s -> redis_step k fp until s s' -> held k fp until s'.
Proof.
  intros Hh Hstep. revert Hh. destruct Hstep as [now k' fp' t Hn Hnone|now st body hs t Hn|k' v t Hne|k' t Hne];
    intros (r & e & Hs & He & Hf).
  - exists r, e. split; [|done]. rewrite lookup_insert_ne; [done|]. intros ->.
    unfold redis_get in Hnone. rewrite Hs, (proj2 (Z.ltb_lt _ _)) in Hnone by lia. done.
  - exists (mkIdem (Completed st body hs) fp), (now + ttl). by rewrite lookup_insert_eq.
  - exists r, e. by rewrite lookup_insert_ne.
  - exists r, e. by rewrite lookup_delete_ne.
Qed.

Lemma redis_steps_held k fp until s s' : held k fp until s -> rtc (redis_step k fp until) s s' -> held k fp until s'.
Proof. intros Hh Hsteps. induction Hsteps; eauto using redis_step_held. Qed.
End store.

(** ** Properties *)

(** C10: An operation under an idempotency key runs once.  When [begin] answers
    "proceed" on a free key, then whatever commands other requests issue, and
    whether or not the operation has completed, no other [begin] for that key
    is told to proceed before the key expires: it gets the stored response of
    the same request, or 409 while the operation is in flight or when the body
    differs.  A released key is free again. *)
Theorem idempotent_operation_runs_once service ttl now scope key actor fp race0 s0 s1
    (Hfree : redis_get now (redis_key service scope key actor) s0 = None)
    (Hbegin : begin service ttl now now race0 scope key actor fp s0 = (Ok None, s1)) :
  let k := redis_key service scope key actor in
  let until := now + ttl in
  forall s t t' fp' race r s',
    rtc (redis_step ttl k fp until) s1 s -> t <= t' < until ->
    (forall s, rtc (redis_step ttl k fp until) s (race s)) ->
    begin service ttl t t' race scope key actor fp' s = (r, s') ->
    rtc (redis_step ttl k fp until) s1 s' /\
    (r = Raise (AppErr ConflictError "idempotency_key_reuse") /\ fp' <> fp \/
     r = Raise (AppErr ConflictError "idempotency_in_progress") /\ fp' = fp \/
     exists st body hs e, r = Ok (Some (mkReplay st body hs)) /\ fp' = fp /\
       s' !! k = Some (mkIdem (Completed st body hs) fp, e)) /\
    redis_get t k (release service scope key actor s').2 = None.
Proof.
  intros k until s t t' fp' race r s' Hsteps Ht Hrace H.
  assert (Hheld1 : held k fp until s1).
  { unfold begin in Hbegin. fold k in Hbegin, Hfree. cbv [get mbind M_bind put mret M_ret] in Hbegin.
    rewrite Hfree in Hbegin. injection Hbegin as <-. eexists _, _. rewrite lookup_insert_eq.
    split; [reflexivity|]. split; [unfold until; lia|done]. }
  pose proof (redis_steps_held _ _ _ _ _ _ Hheld1 Hsteps) as Hheld.
  destruct (held_get k fp until t s Hheld ltac:(lia)) as (r0 & Hr0 & _).
  unfold begin in H. fold k in H. cbv [get mbind M_bind modify] in H. rewrite Hr0 in H.
  destruct (held_get k fp until t' (race s)) as (r1 & Hr1 & Hfp); [by eapply redis_steps_held|lia|].
  rewrite Hr1 in H.
  assert (Hs' : s' = race s /\
    (r = Raise (AppErr ConflictError "idempotency_key_reuse") /\ fp' <> fp \/
     r = Raise (AppErr ConflictError "idempotency_in_progress") /\ fp' = fp \/
     exists st body hs e, r = Ok (Some (mkReplay st body hs)) /\ fp' = fp /\
       s' !! k = Some (mkIdem (Completed st body hs) fp, e))).
  { rewrite Hfp in H. destruct (String.eqb_spec fp fp') as [<-|Hne]; cbn [negb] in H.
    - destruct (ir_state r1) as [|st body hs] eqn:Es; injection H as <- <-; split; try done; [by auto|].
      right. right. unfold redis_get in Hr1. destruct (race s !! k) as [[r2 e]|]; [|done].
      destruct (_ <? _); [|done]. injection Hr1 as ->. exists st, body, hs, e. do 2 (split; [done|]).
      destruct r1 as [st1 fp1]. cbn in Es, Hfp. by subst.
    - injection H as <- <-. split; [done|]. left. done. }
  destruct Hs' as [-> Hcases]. split; [by etransitivity|]. split; [done|].
  unfold release. cbv [modify]. cbn [snd]. unfold redis_get. fold k. by rewrite lookup_delete_eq.
Qed.

(** ** The property on a concrete key *)

Definition no_keys : redis := ∅.
Definition reserved : result (option IdempotentReplay) * redis :=
  begin "payment" 86400 100 100 id "orders" "k1" "user" "fp" no_keys.
Definition answered_redis : redis :=
  (complete "payment" 86400 130 "orders" "k1" "user" "fp" 201 (JObj [("order_id", JStr "1")]) [] reserved.2).2.

Lemma idempotent_operation_runs_once_witness :
  (begin "payment" 86400 200 200 id "orders" "k1" "user" "fp" answered_redis).1 =
    Ok (Some (mkReplay 201 (JObj [("order_id", JStr "1")]) [])) /\
  (begin "payment" 86400 200 200 id "orders" "k1" "user" "fp2" answered_redis).1 =
    Raise (AppErr ConflictError "idempotency_key_reuse").
Proof.
  assert (Hstep : rtc (redis_step 86400 (redis_key "payment" "orders" "k1" "user") "fp" (100 + 86400))
            reserved.2 answered_redis) by (apply rtc_once, is_complete; lia).
  destruct (idempotent_operation_runs_once "payment" 86400 100 "orders" "k1" "user" "fp" id no_keys reserved.2
    ltac:(vm_compute; reflexivity) ltac:(vm_compute; reflexivity) answered_redis 200 200 "fp2" id
    (begin "payment" 86400 200 200 id "orders" "k1" "user" "fp2" answered_redis).1
    (begin "payment" 86400 200 200 id "orders" "k1" "user" "fp2" answered_redis).2) as (_ & H & _).
  - exact Hstep.
  - lia.
  - intros s. apply rtc_refl.
  - apply surjective_pairing.
  - split; [vm_compute; reflexivity|].
    destruct H as [[H _]|[[_ [=]]|(st & body & hs & e & _ & [=] & _)]]. exact H.
Defined.
