(* ===== verification/RateLimit.v ===== *)
(** * Rate limiting (packages/core-py/knowledgeos_core/ratelimit.py)

    The sliding-window script on the sorted set of one bucket: members with
    their scores (milliseconds), and the moment the key expires. *)

From S2P Require Import Prelude Store Json Dates Pagination Invoices Idempotency.

Record RateLimitPolicy := mkPolicy { limit : Z; window_seconds : Z; scope : string }.
Definition window_ms (p : RateLimitPolicy) : Z := window_seconds p * 1000.

Definition POLICIES : list (string * RateLimitPolicy) :=
  [("anonymous", mkPolicy 60 60 "anonymous"); ("authenticated", mkPolicy 600 60 "authenticated");
   ("login", mkPolicy 1000000 60 "login"); ("register", mkPolicy 1000000 60 "register");
   ("password_reset", mkPolicy 1000000 60 "password_reset"); ("ai", mkPolicy 30 60 "ai");
   ("search", mkPolicy 120 60 "search"); ("upload", mkPolicy 20 3600 "upload");
   ("checkout", mkPolicy 20 300 "checkout"); ("webhook", mkPolicy 1000 60 "webhook")].

Record RateLimitResult := mkLimitResult {
  rl_allowed : bool;
  rl_limit : Z;
  rl_remaining : Z;
  rl_reset_seconds : Z;
}.

(** One bucket: the sorted set, and when the key expires. *)
Abbreviation zset := (gmap string Z).
Record bucket := mkBucket { entries : zset; expires_at : option Z }.
Definition empty_bucket : bucket := mkBucket ∅ None.

(** The key as the script finds it (Redis expires it on the same clock). *)
Definition current (now : Z) (b : bucket) : zset :=
  match expires_at b with
  | Some t => if t <? now then ∅ else entries b
  | None => entries b
  end.

(** ZREMRANGEBYSCORE key 0 (now - window), ZCARD, ZADD of [member:i]. *)
Definition prune (now window : Z) (z : zset) : zset :=
  filter (fun kv => ~ (0 <= kv.2 <= now - window)) z.
Definition zcard (z : zset) : Z := Z.of_nat (size z).
Definition member_name (member : string) (i : nat) : string :=
  append member (append ":" (str_of_Z (Z.of_nat i))).
Fixpoint zadd (now : Z) (member : string) (n : nat) (z : zset) : zset :=
  match n with
  | O => z
  | S n' => <[member_name member n := now]> (zadd now member n' z)
  end.
(** The score of [ZRANGE key 0 0 WITHSCORES]. *)
Definition oldest (z : zset) : option Z :=
  match map_to_list z with
  | [] => None
  | kv :: l => Some (foldr Z.min kv.2 (map snd l))
  end.

(** The script: (allowed, remaining, reset in ms). *)
Definition sliding_window (now window limit : Z) (cost : nat) (member : string) (b : bucket)
    : (bool * Z * Z) * bucket :=
  let z := prune now window (current now b) in
  let used := zcard z in
  if limit <? used + Z.of_nat cost then
    ((false, limit - used, match oldest z with Some o => o + window - now | None => window end),
     mkBucket z (if bool_decide (z = ∅) then None else expires_at b))
  else
    ((true, limit - used - Z.of_nat cost, window),
     mkBucket (zadd now member cost z)
       (if bool_decide (zadd now member cost z = ∅) then None else Some (now + window))).

(** [None] is a failing backend. *)
Definition check (enabled : bool) (p : RateLimitPolicy) (now_ms : Z) (cost : nat) (member : string)
    (b : option bucket) : RateLimitResult * option bucket :=
  let unlimited := mkLimitResult true (limit p) (limit p) 0 in
  if negb enabled then (unlimited, b) else
  match b with
  | None => (unlimited, None)
  | Some b =>
      let '((allowed, remaining, reset_ms), b') :=
        sliding_window now_ms (window_ms p) (limit p) cost member b in
      (mkLimitResult allowed (limit p) remaining (Z.max 1 (reset_ms / 1000)), Some b')
  end.

Definition enforce (enabled : bool) (p : RateLimitPolicy) (now_ms : Z) (cost : nat) (member : string)
    (b : option bucket) : result RateLimitResult * option bucket :=
  let '(r, b') := check enabled p now_ms cost member b in
  (if rl_allowed r then Ok r else Raise (app_error RateLimitedError ""), b').

(** ** Runs of one bucket *)

Record request := mkRequest { rq_time : Z; rq_cost : nat; rq_member : string }.

(** The requests let through, latest first. *)
Fixpoint admitted (p : RateLimitPolicy) (rs : list request) (b : bucket) : list request * bucket :=
  match rs with
  | [] => ([], b)
  | r :: rs' =>
      let '(log, b1) := admitted p rs' b in
      let '(v, b2) := check true p (rq_time r) (rq_cost r) (rq_member r) (Some b1) in
      (if rl_allowed v then r :: log else log, default b1 b2)
  end.

(** Units let through in the half-open window that ends at [t]. *)
Definition units (p : RateLimitPolicy) (t : Z) (log : list request) : Z :=
  zsum (map (fun r => Z.of_nat (rq_cost r))
    (List.filter (fun r => (t - window_ms p <? rq_time r) && (rq_time r <=? t)) log)).

(** ** Lemmas *)

Lemma prune_prune t now w z : t <= now -> prune now w (prune t w z) = prune now w z.
Proof. intros H. unfold prune. rewrite map_filter_filter. apply map_filter_ext. intros i x _. cbn. lia. Qed.

Lemma prune_empty now w : prune now w ∅ = ∅.
Proof. apply map_filter_empty. Qed.

(** What [prune] leaves of an insertion depends on what it leaves of the map. *)
Lemma prune_insert now w k t z1 z2 : prune now w z1 = prune now w z2 ->
  prune now w (<[k := t]> z1) = prune now w (<[k := t]> z2).
Proof.
  intros H. unfold prune. rewrite !map_filter_insert. unfold prune in H.
  destruct (decide _); [by rewrite H|]. rewrite !map_filter_delete. by rewrite H.
Qed.

Lemma prune_zadd now w t m n z1 z2 : prune now w z1 = prune now w z2 ->
  prune now w (zadd t m n z1) = prune now w (zadd t m n z2).
Proof. induction n; cbn [zadd]; auto using prune_insert. Qed.

Lemma prune_all now w z : map_Forall (fun _ s => 0 <= s <= now - w) z -> prune now w z = ∅.
Proof. intros H. apply map_empty. intros k. apply map_lookup_filter_None. right. intros s Hk. specialize (H k s Hk). cbn in *. lia. Qed.

Lemma zadd_scores (P : Z -> Prop) t m n z : P t -> map_Forall (fun _ s => P s) z ->
  map_Forall (fun _ s => P s) (zadd t m n z).
Proof. intros Ht Hz. induction n; cbn [zadd]; [done|]. by apply map_Forall_insert_2. Qed.

(** Every unit ever let through, as one sorted set. *)
Definition full_log (log : list request) : zset :=
  foldr (fun r z => zadd (rq_time r) (rq_member r) (rq_cost r) z) ∅ log.

Definition well_formed (rs : list request) : Prop :=
  StronglySorted (fun r r' => rq_time r' <= rq_time r) rs /\
  Forall (fun r => 0 <= rq_time r /\ sall (fun c => negb (c =? ":")%char) (rq_member r) = true) rs /\
  NoDup (map rq_member rs).

Lemma well_formed_cons r rs : well_formed (r :: rs) ->
  well_formed rs /\ Forall (fun r' => rq_time r' <= rq_time r) rs /\ 0 <= rq_time r /\
  sall (fun c => negb (c =? ":")%char) (rq_member r) = true /\ rq_member r ∉ map rq_member rs.
Proof.
  intros (Hs & Hf & Hn). apply StronglySorted_inv in Hs as [Hs Ht]. apply Forall_cons in Hf as [[H0 Hm] Hf].
  cbn [map] in Hn. apply NoDup_cons in Hn as [Hi Hn]. done.
Qed.

Lemma cons_well_formed r rs log : well_formed (r :: rs) -> log ⊆ rs -> well_formed log -> well_formed (r :: log).
Proof.
  intros (_ & Ht & H0 & Hm & Hi)%well_formed_cons Hsub (Hs & Hf & Hn). rewrite Forall_forall in Ht. split_and!.
  - constructor; [done|]. apply Forall_forall. auto.
  - by constructor.
  - cbn [map]. constructor; [|done]. intros (r' & Heq & Hr')%list_elem_of_fmap. apply Hi.
    rewrite Heq. apply list_elem_of_fmap. eauto.
Qed.

Lemma admitted_subset p rs b : (admitted p rs b).1 ⊆ rs.
Proof.
  induction rs as [|r rs IH]; cbn [admitted]; [done|]. destruct (admitted p rs b) as [log b1].
  destruct (check _ _ _ _ _ _) as [v b2]. cbn in *. destruct (rl_allowed v); set_solver.
Qed.

Lemma admitted_well_formed p rs b : well_formed rs -> well_formed (admitted p rs b).1.
Proof.
  induction rs as [|r rs IH]; [done|]. intros Hwf. pose proof (proj1 (well_formed_cons _ _ Hwf)) as Hw.
  pose proof (admitted_subset p rs b) as Hsub. specialize (IH Hw).
  cbn [admitted]. destruct (admitted p rs b) as [log b1].
  destruct (check _ _ _ _ _ _) as [v b2]. cbn in *. destruct (rl_allowed v); [|done].
  by eapply cons_well_formed.
Qed.

Lemma full_log_scores (P : Z -> Prop) log : Forall (fun r => P (rq_time r)) log ->
  map_Forall (fun _ s => P s) (full_log log).
Proof. induction 1; [apply map_Forall_empty|]. by apply zadd_scores. Qed.

Lemma full_log_key k log s : full_log log !! k = Some s ->
  exists r i, r ∈ log /\ k = member_name (rq_member r) i.
Proof.
  induction log as [|r log IH]; [done|]. cbn [full_log foldr]. fold (full_log log).
  induction (rq_cost r) as [|n IHn]; cbn [zadd].
  - intros (r' & i & Hr & ->)%IH. exists r', i. split; [by right|done].
  - intros [[<- _]|[_ H]]%lookup_insert_Some; [|by apply IHn]. exists r, (S n). split; [left|done].
Qed.

Lemma member_name_inj m m' i i' :
  sall (fun c => negb (c =? ":")%char) m = true -> sall (fun c => negb (c =? ":")%char) m' = true ->
  member_name m i = member_name m' i' -> m = m' /\ i = i'.
Proof.
  intros Hm Hm' H. apply append_colon_inj in H as [-> H]; [|done..]. split; [done|].
  unfold str_of_Z in H. apply (inj pretty) in H. lia.
Qed.

Lemma zcard_prune_zadd t now m n z w :
  0 <= t -> t <= now -> (forall i, prune now w z !! member_name m i = None) ->
  sall (fun c => negb (c =? ":")%char) m = true ->
  zcard (prune now w (zadd t m n z)) = (if now - w <? t then Z.of_nat n else 0) + zcard (prune now w z).
Proof.
  intros H0 Ht Hfresh Hm. destruct (Z.ltb_spec (now - w) t) as [Hlt|Hge].
  - enough (H : size (prune now w (zadd t m n z)) = (n + size (prune now w z))%nat /\
              forall i, (n < i)%nat -> prune now w (zadd t m n z) !! member_name m i = None)
      by (unfold zcard; lia).
    induction n as [|n [IHs IHf]]; cbn [zadd]; [auto|].
    assert (Hins : prune now w (<[member_name m (S n) := t]> (zadd t m n z)) =
              <[member_name m (S n) := t]> (prune now w (zadd t m n z)))
      by (apply map_filter_insert_True; cbn; lia).
    rewrite Hins, map_size_insert_None by (apply IHf; lia). split; [lia|].
    intros i Hi. rewrite lookup_insert_ne; [apply IHf; lia|].
    intros [_ Heq]%member_name_inj; [lia|done..].
  - enough (H : prune now w (zadd t m n z) = prune now w z) by (rewrite H; lia).
    induction n as [|n IHn]; cbn [zadd]; [done|].
    rewrite <- IHn. apply map_filter_insert_not'; [cbn; lia|].
    intros y Hy Hkeep.
    enough (prune now w (zadd t m n z) !! member_name m (S n) = Some y) as Hsome
      by (rewrite IHn, Hfresh in Hsome; discriminate).
    by apply map_lookup_filter_Some.
Qed.

(** The cardinality the script reads is the number of units in the window. *)
Lemma zcard_units p now log : well_formed log -> Forall (fun r => rq_time r <= now) log ->
  zcard (prune now (window_ms p) (full_log log)) = units p now log.
Proof.
  induction log as [|r log IH]; intros Hwf Hle; [done|].
  apply well_formed_cons in Hwf as (Hw & Ht & H0 & Hm & Hi). apply Forall_cons in Hle as [Hr Hle].
  cbn [full_log foldr]. fold (full_log log). rewrite zcard_prune_zadd, (IH Hw Hle); try done.
  - unfold units. cbn [List.filter]. rewrite (proj2 (Z.leb_le _ _) Hr), andb_true_r.
    destruct (_ <? _); [|done]. cbn [map zsum foldr]. done.
  - intros i. apply map_lookup_filter_None. left. apply eq_None_not_Some. intros [s Hs].
    apply full_log_key in Hs as (r' & i' & Hr' & Heq). apply member_name_inj in Heq as [Heq _]; [|done|].
    + apply Hi. rewrite Heq. by apply list_elem_of_fmap_2.
    + destruct Hw as (_ & Hf & _). rewrite Forall_forall in Hf. by apply Hf.
Qed.

(** The bucket answers every later question as the full log does. *)
Definition represents (p : RateLimitPolicy) (T : Z) (log : list request) (b : bucket) : Prop :=
  forall now, T <= now ->
    prune now (window_ms p) (current now b) = prune now (window_ms p) (full_log log).

Lemma represents_later p T T' log b : T <= T' -> represents p T log b -> represents p T' log b.
Proof. intros HT H now Hn. apply H. lia. Qed.

Lemma current_rejected t now w b : t <= now ->
  let z := prune t w (current t b) in
  prune now w (current now (mkBucket z (if bool_decide (z = ∅) then None else expires_at b))) =
  prune now w (current now b).
Proof.
  intros Ht z. rewrite <- (prune_prune t now w (current now b)) by done.
  assert (Hz : match expires_at b with Some e => now <= e | None => True end ->
             current now b = current t b).
  { unfold current. destruct (expires_at b) as [e|]; [|done]. intros He.
    by rewrite !(proj2 (Z.ltb_ge _ _)) by lia. }
  unfold current at 1. cbn [expires_at entries]. destruct (bool_decide_reflect (z = ∅)) as [He|Hne].
  - destruct (expires_at b) as [e|] eqn:Hexp; [destruct (Z.ltb_spec e now)|].
    + unfold current. rewrite Hexp, (proj2 (Z.ltb_lt _ _)) by done. by rewrite He, !prune_empty.
    + rewrite Hz by done. fold z. by rewrite He, prune_empty.
    + rewrite Hz by done. fold z. by rewrite He, prune_empty.
  - destruct (expires_at b) as [e|] eqn:Hexp; [destruct (Z.ltb_spec e now)|].
    + unfold current. rewrite Hexp, (proj2 (Z.ltb_lt _ _)) by done. by rewrite !prune_empty.
    + rewrite Hz by done. fold z. unfold z. by rewrite !prune_prune.
    + rewrite Hz by done. fold z. unfold z. by rewrite !prune_prune.
Qed.

Lemma current_allowed t now w m n z1 z2 : 0 <= t <= now -> map_Forall (fun _ s => 0 <= s <= t) z2 ->
  prune now w z1 = prune now w z2 ->
  prune now w (current now (mkBucket (zadd t m n z1)
    (if bool_decide (zadd t m n z1 = ∅) then None else Some (t + w)))) = prune now w (zadd t m n z2).
Proof.
  intros Ht Hz2 Hz. unfold current. cbn [expires_at entries].
  destruct (bool_decide _); [by apply prune_zadd|].
  destruct (Z.ltb_spec (t + w) now); [|by apply prune_zadd].
  rewrite prune_empty. symmetry. apply prune_all.
  apply (zadd_scores (fun s => 0 <= s <= now - w)); [lia|].
  intros k s Hk. specialize (Hz2 k s Hk). cbn in *. lia.
Qed.

(** One call of the script against a bucket that represents a log. *)
Lemma check_represents p log b r :
  well_formed (r :: log) -> represents p (rq_time r) log b ->
  let '(v, b') := check true p (rq_time r) (rq_cost r) (rq_member r) (Some b) in
  let used := units p (rq_time r) log in
  rl_allowed v = (used + Z.of_nat (rq_cost r) <=? limit p) /\
  rl_remaining v = limit p - used - (if rl_allowed v then Z.of_nat (rq_cost r) else 0) /\
  1 <= rl_reset_seconds v /\
  exists b1, b' = Some b1 /\ represents p (rq_time r) (if rl_allowed v then r :: log else log) b1.
Proof.
  intros Hwf Hrep. apply well_formed_cons in Hwf as (Hw & Ht & H0 & Hm & Hi).
  cbn [check negb]. unfold sliding_window. set (z := prune _ _ (current _ b)).
  assert (Hz : zcard z = units p (rq_time r) log) by (unfold z; rewrite Hrep by lia; by apply zcard_units).
  rewrite Hz. destruct (Z.ltb_spec (limit p) (units p (rq_time r) log + Z.of_nat (rq_cost r))) as [Hlt|Hge];
    cbn [rl_allowed rl_remaining rl_reset_seconds]; (split; [lia|]); (split; [lia|]); (split; [lia|]);
    eexists; (split; [reflexivity|]); intros now Hnow.
  - rewrite <- Hrep by lia. unfold z. by apply current_rejected.
  - cbn [full_log foldr]. fold (full_log log). apply current_allowed; [lia| |].
    + destruct Hw as (_ & Hf & _). apply full_log_scores. rewrite Forall_forall in *.
      intros r' Hr'. specialize (Hf r' Hr'). specialize (Ht r' Hr'). cbn in *. lia.
    + unfold z. rewrite prune_prune by done. rewrite <- (prune_prune (rq_time r) now) by done.
      rewrite Hrep by lia. by apply prune_prune.
Qed.

Lemma represents_empty p T : represents p T [] empty_bucket.
Proof. intros now _. done. Qed.

(** Along a run every bucket represents what was let through. *)
Lemma admitted_represents p rs : well_formed rs ->
  forall T, match rs with r :: _ => rq_time r <= T | [] => True end ->
  represents p T (admitted p rs empty_bucket).1 (admitted p rs empty_bucket).2.
Proof.
  induction rs as [|r rs IH]; intros Hwf T HT; [apply represents_empty|].
  pose proof (proj1 (well_formed_cons _ _ Hwf)) as Hw.
  pose proof (admitted_subset p rs empty_bucket) as Hsub.
  pose proof (admitted_well_formed p rs empty_bucket Hw) as Hwl.
  assert (Hrep : represents p (rq_time r) (admitted p rs empty_bucket).1 (admitted p rs empty_bucket).2).
  { apply (IH Hw). apply well_formed_cons in Hwf as (_ & Ht & _). destruct rs; [done|].
    by apply Forall_cons in Ht as [Ht _]. }
  cbn [admitted]. destruct (admitted p rs empty_bucket) as [log b1]. cbn [fst snd] in *.
  pose proof (check_represents p log b1 r (cons_well_formed _ _ _ Hwf Hsub Hwl) Hrep) as Hc.
  destruct (check _ _ _ _ _ _) as [v b2]. destruct Hc as (_ & _ & _ & b3 & -> & Hrep').
  cbn [default fst snd from_option id]. by eapply represents_later.
Qed.

Lemma units_mono p t t' log : t' <= t -> Forall (fun r => rq_time r <= t') log -> units p t log <= units p t' log.
Proof.
  intros Ht. unfold units. induction 1 as [|r log Hr Hlog IH]; [done|]. cbn [List.filter].
  rewrite (proj2 (Z.leb_le (rq_time r) t)), (proj2 (Z.leb_le (rq_time r) t')), !andb_true_r by lia.
  destruct (Z.ltb_spec (t - window_ms p) (rq_time r)), (Z.ltb_spec (t' - window_ms p) (rq_time r));
    cbn [map zsum foldr]; unfold zsum in *; cbn [foldr]; lia.
Qed.

Lemma units_cons p t r log :
  units p t (r :: log) =
    (if (t - window_ms p <? rq_time r) && (rq_time r <=? t) then Z.of_nat (rq_cost r) else 0) + units p t log.
Proof. unfold units. cbn [List.filter]. destruct (_ && _); [by cbn [map zsum foldr]|done]. Qed.

Lemma admitted_units p rs : 0 <= limit p -> well_formed rs ->
  forall t, units p t (admitted p rs empty_bucket).1 <= limit p.
Proof.
  intros Hlim. induction rs as [|r rs IH]; intros Hwf t; [done|].
  pose proof (well_formed_cons _ _ Hwf) as (Hw & Ht & _).
  pose proof (admitted_subset p rs empty_bucket) as Hsub.
  pose proof (admitted_well_formed p rs empty_bucket Hw) as Hwl.
  assert (Hrep : represents p (rq_time r) (admitted p rs empty_bucket).1 (admitted p rs empty_bucket).2).
  { apply (admitted_represents p rs Hw). destruct rs; [done|]. by apply Forall_cons in Ht as [Ht _]. }
  specialize (IH Hw). cbn [admitted]. destruct (admitted p rs empty_bucket) as [log b1]. cbn [fst snd] in *.
  pose proof (check_represents p log b1 r (cons_well_formed _ _ _ Hwf Hsub Hwl) Hrep) as Hc.
  destruct (check _ _ _ _ _ _) as [v b2]. destruct Hc as (Hall & _). cbn [fst].
  destruct (rl_allowed v); [|done]. symmetry in Hall. apply Z.leb_le in Hall. rewrite units_cons.
  destruct (Z.ltb_spec (t - window_ms p) (rq_time r)), (Z.leb_spec (rq_time r) t); cbn [andb]; rewrite ?Z.add_0_l; try done.
  enough (units p t log <= units p (rq_time r) log) by lia. apply units_mono; [done|].
  rewrite Forall_forall in *. auto.
Qed.

(** ** Properties *)

(** C11: The limit is a sliding-window limit.  In every run of a bucket (calls
    in the order of their clocks, each with a member name of its own) no
    window of [window_seconds], wherever it starts, lets through more than
    [limit] units; the next call is let through exactly when its cost still
    fits in the window that ends now, so no budget is lost to refused calls
    or to the key's expiry; the answer carries the units that are left and
    [enforce] raises 429 exactly on a refusal.  Without its backend the
    limiter lets every call through. *)
Theorem rate_limit_enforced p rs log b
    (Hlimit : 0 <= limit p) (Hrs : well_formed rs) (Hrun : admitted p rs empty_bucket = (log, b)) :
  (forall t, units p t log <= limit p) /\
  (forall r, well_formed (r :: rs) ->
    let used := units p (rq_time r) log in
    let '(v, b') := check true p (rq_time r) (rq_cost r) (rq_member r) (Some b) in
    (rl_allowed v = true <-> used + Z.of_nat (rq_cost r) <= limit p) /\
    rl_remaining v = limit p - used - (if rl_allowed v then Z.of_nat (rq_cost r) else 0) /\
    1 <= rl_reset_seconds v /\
    (enforce true p (rq_time r) (rq_cost r) (rq_member r) (Some b)).1 =
      (if rl_allowed v then Ok v else Raise (AppErr RateLimitedError "rate_limited")) /\
    rl_allowed (check true p (rq_time r) (rq_cost r) (rq_member r) None).1 = true).
Proof.
  pose proof (admitted_units p rs Hlimit Hrs) as Hunits. rewrite Hrun in Hunits. split; [exact Hunits|].
  intros r Hwf. pose proof (admitted_subset p rs empty_bucket) as Hsub.
  pose proof (admitted_well_formed p rs empty_bucket Hrs) as Hwl.
  assert (Hrep : represents p (rq_time r) log b).
  { pose proof (admitted_represents p rs Hrs (rq_time r)) as H. rewrite Hrun in H. apply H.
    apply well_formed_cons in Hwf as (_ & Ht & _). destruct rs; [done|]. by apply Forall_cons in Ht as [Ht _]. }
  rewrite Hrun in Hsub, Hwl.
  pose proof (check_represents p log b r (cons_well_formed _ _ _ Hwf Hsub Hwl) Hrep) as Hc.
  unfold enforce. destruct (check true p (rq_time r) _ _ (Some b)) as [v b'].
  destruct Hc as (Hall & Hrem & Hreset & _). split; [rewrite Hall; apply Z.leb_le|]. done.
Qed.

(** ** The property on a concrete run *)

Definition two_per_second : RateLimitPolicy := mkPolicy 2 1 "test".
Definition three_calls : list request :=
  [mkRequest 1500 1 "1500-3"; mkRequest 900 1 "900-2"; mkRequest 100 1 "100-1"].

Lemma rate_limit_enforced_witness :
  map rq_time (admitted two_per_second three_calls empty_bucket).1 = [1500; 900; 100] /\
  rl_allowed (check true two_per_second 1600 1 "1600-4"
    (Some (admitted two_per_second three_calls empty_bucket).2)).1 = false /\
  (forall t, units two_per_second t (admitted two_per_second three_calls empty_bucket).1 <= 2).
Proof.
  split; [vm_compute; reflexivity|]. split; [vm_compute; reflexivity|].
  refine (proj1 (rate_limit_enforced two_per_second three_calls _
    (admitted two_per_second three_calls empty_bucket).2 _ _ _)).
  - vm_compute. discriminate.
  - split_and!.
    + repeat constructor; vm_compute; discriminate.
    + repeat constructor; vm_compute; discriminate.
    + apply (bool_decide_unpack _). vm_compute. exact I.
  - apply surjective_pairing.
Defined.
