(* ===== verification/Reports.v ===== *)
(** * Revenue reporting (apps/payment/services/reports.py)

    The aggregate the database computes over the orders of a period. *)

From S2P Require Import Prelude Store Json Tax Coupons PaymentModels Pricing Db Orders.

Definition PAID_STATES : list OrderStatus := [PAID; PARTIALLY_REFUNDED; REFUNDED].

Record RevenueSummary := mkRevenue {
  rv_gross_minor : Z;
  rv_refunded_minor : Z;
  rv_net_minor : Z;
  rv_tax_minor : Z;
  rv_discount_minor : Z;
  rv_order_count : Z;
  rv_paid_order_count : Z;
  rv_currency : string;
  rv_period_start : option datetime;
  rv_period_end : option datetime;
}.

Definition in_period (since until : option datetime) (o : Order) : bool :=
  match since with Some t => t <=? oc_created_at (o_cols o) | None => true end &&
  match until with Some t => oc_created_at (o_cols o) <=? t | None => true end.

Definition paid (o : Order) : bool := bool_decide (o_status o ∈ PAID_STATES).

(** [coalesce(sum(case((paid, x), else_=0)), 0)] *)
Definition sum_paid (x : Order -> Z) (rows : list Order) : Z :=
  zsum (map (fun o => if paid o then x o else 0) rows).

Definition revenue (currency : string) (since until : option datetime) (d : Db) : RevenueSummary :=
  let rows := select (in_period since until) (orders d) in
  let gross := sum_paid o_total_minor rows in
  let refunded := sum_paid o_refunded_minor rows in
  let tax := sum_paid (fun o => oc_tax_minor (o_cols o)) rows in
  {| rv_gross_minor := gross; rv_refunded_minor := refunded;
     rv_net_minor := Z.max 0 (gross - refunded - tax); rv_tax_minor := tax;
     rv_discount_minor := sum_paid (fun o => oc_discount_minor (o_cols o)) rows;
     rv_order_count := Z.of_nat (length rows);
     rv_paid_order_count := sum_paid (fun _ => 1) rows;
     rv_currency := currency; rv_period_start := since; rv_period_end := until |}.

(** ** Lemmas *)

Lemma sum_paid_split x (P P1 P2 : Order -> bool) l :
  (forall o, P o = P1 o || P2 o) -> (forall o, P1 o && P2 o = false) ->
  sum_paid x (List.filter P l) = sum_paid x (List.filter P1 l) + sum_paid x (List.filter P2 l).
Proof.
  intros Hor Hand. unfold sum_paid. induction l as [|o l IH]; [done|]. cbn [List.filter].
  specialize (Hor o). specialize (Hand o). rewrite Hor.
  destruct (P1 o), (P2 o); cbn [orb andb] in *; try done; cbn [map]; rewrite ?zsum_cons; lia.
Qed.

Lemma count_split (P P1 P2 : Order -> bool) (l : list Order) :
  (forall o, P o = P1 o || P2 o) -> (forall o, P1 o && P2 o = false) ->
  Z.of_nat (length (List.filter P l)) =
    Z.of_nat (length (List.filter P1 l)) + Z.of_nat (length (List.filter P2 l)).
Proof.
  intros Hor Hand. induction l as [|o l IH]; [done|]. cbn [List.filter].
  specialize (Hor o). specialize (Hand o). rewrite Hor.
  destruct (P1 o), (P2 o); cbn [orb andb] in *; try done; cbn [length]; lia.
Qed.

Lemma sum_paid_le x y l : (forall o, o ∈ l -> x o <= y o) -> sum_paid x l <= sum_paid y l.
Proof. intros H. apply zsum_map_le. intros o Ho. specialize (H o Ho). destruct (paid o); lia. Qed.

Lemma sum_paid_settled x l : sum_paid x l = zsum (map x (List.filter settled l)).
Proof.
  unfold sum_paid. induction l as [|o l IH]; [done|]. cbn [map List.filter]. rewrite zsum_cons, IH.
  change (paid o) with (settled o). destruct (settled o); cbn [map]; rewrite ?zsum_cons; lia.
Qed.

Lemma sum_paid_0 l : sum_paid (fun _ => 0) l = 0.
Proof. unfold sum_paid. induction l as [|o l IH]; [done|]. cbn [map]. rewrite zsum_cons, IH. by destruct (paid o). Qed.

Lemma sum_paid_count l : sum_paid (fun _ => 1) l <= Z.of_nat (length l).
Proof.
  unfold sum_paid. induction l as [|o l IH]; [done|]. cbn [map length]. rewrite zsum_cons.
  destruct (paid o); lia.
Qed.

(** A period is its part up to an instant and the rest. *)
Lemma in_period_split since until mid :
  (forall t, since = Some t -> t <= mid) -> (forall t, until = Some t -> mid < t) ->
  (forall o, in_period since until o = in_period since (Some mid) o || in_period (Some (mid + 1)) until o) /\
  (forall o, in_period since (Some mid) o && in_period (Some (mid + 1)) until o = false).
Proof.
  intros Hs Hu. unfold in_period. split; intros o; apply eq_bool_prop_intro;
    destruct since as [s|]; destruct until as [u|]; try specialize (Hs _ eq_refl); try specialize (Hu _ eq_refl);
    rewrite ?orb_True, ?andb_True, ?Is_true_true, ?Z.leb_le; cbn; try lia.
Qed.

(** ** Properties *)

(** The revenue report adds up.  Over sound orders every figure is the sum
    over the settled orders of the period, unpaid orders counting only in the
    order count; what was refunded lies between nothing and the gross; the net
    is never negative nor more than gross less refunds; and splitting a period
    at any instant splits every additive figure into the two reports. *)
Theorem revenue_adds_up currency since until mid d (Hinv : OrdersInv d)
    (Hsince : forall t, since = Some t -> t <= mid) (Huntil : forall t, until = Some t -> mid < t) :
  let r := revenue currency since until d in
  let r1 := revenue currency since (Some mid) d in
  let r2 := revenue currency (Some (mid + 1)) until d in
  rv_gross_minor r = zsum (map o_total_minor (List.filter settled (select (in_period since until) (orders d)))) /\
  0 <= rv_refunded_minor r <= rv_gross_minor r /\ 0 <= rv_tax_minor r /\
  0 <= rv_net_minor r <= rv_gross_minor r - rv_refunded_minor r /\
  0 <= rv_paid_order_count r <= rv_order_count r /\
  rv_gross_minor r = rv_gross_minor r1 + rv_gross_minor r2 /\
  rv_refunded_minor r = rv_refunded_minor r1 + rv_refunded_minor r2 /\
  rv_tax_minor r = rv_tax_minor r1 + rv_tax_minor r2 /\
  rv_discount_minor r = rv_discount_minor r1 + rv_discount_minor r2 /\
  rv_order_count r = rv_order_count r1 + rv_order_count r2 /\
  rv_paid_order_count r = rv_paid_order_count r1 + rv_paid_order_count r2.
Proof.
  cbv zeta. unfold revenue. cbn. set (rows := select (in_period since until) (orders d)).
  assert (Hrow : forall o, o ∈ rows -> 0 <= o_refunded_minor o /\ o_refunded_minor o <= o_total_minor o /\
            0 <= oc_tax_minor (o_cols o)).
  { intros o [[k Ho] _]%elem_of_select. pose proof (ok_checks o (oi_rows d Hinv _ _ Ho)) as H.
    unfold order_checks in H. zbool. }
  assert (H1 : sum_paid (fun _ => 0) rows <= sum_paid o_refunded_minor rows) by (apply sum_paid_le; apply Hrow).
  assert (H2 : sum_paid o_refunded_minor rows <= sum_paid o_total_minor rows) by (apply sum_paid_le; apply Hrow).
  assert (H3 : sum_paid (fun _ => 0) rows <= sum_paid (fun o => oc_tax_minor (o_cols o)) rows)
    by (apply sum_paid_le; apply Hrow).
  assert (H4 : sum_paid (fun _ => 0) rows <= sum_paid (fun _ => 1) rows) by (apply sum_paid_le; lia).
  assert (H5 : sum_paid (fun _ => 1) rows <= Z.of_nat (length rows)) by apply sum_paid_count.
  rewrite sum_paid_0 in *.
  split; [apply sum_paid_settled|]. do 4 (split; [lia|]).
  pose proof (in_period_split since until mid Hsince Huntil) as [Hor Hand].
  unfold rows, select. repeat split; auto using sum_paid_split, count_split.
Qed.

(** ** The property on two orders *)

Lemma revenue_adds_up_witness :
  rv_gross_minor (revenue "INR" None None paid_db) =
    rv_gross_minor (revenue "INR" None (Some 0) paid_db) + rv_gross_minor (revenue "INR" (Some 1) None paid_db) /\
  rv_gross_minor (revenue "INR" None None paid_db) = 49900 /\
  0 <= rv_net_minor (revenue "INR" None None paid_db).
Proof.
  destruct (revenue_adds_up "INR" None None 0 paid_db) as (_ & _ & _ & [Hnet _] & _ & Hg & _).
  - apply (mark_paid_keeps 60 sample_order sample_db (Ok (true, set_paid 60 sample_order)) paid_db sample_inv); [reflexivity|exact sample_pay].
  - discriminate.
  - discriminate.
  - split; [exact Hg|]. split; [vm_compute; reflexivity|exact Hnet].
Defined.

(** A full refund gives the tax back too, but the report takes it off again:
    with a second order of the same value the net is short by the tax. *)
Definition with_second_order (o : Order) : Db :=
  set_orders (save (set_paid 60 (mkOrder 2 (o_cols sample_order) PENDING 0 None None None None None None))
                (save o ∅)) empty_db.
Definition refunded_order : Order :=
  set_refunded (o_total_minor sample_order) REFUNDED (set_paid 60 sample_order).

Example refunded_tax_subtracted_twice :
  rv_net_minor (revenue "INR" None None paid_db) = 49900 - 7612 /\
  rv_net_minor (revenue "INR" None None (with_second_order refunded_order)) = 49900 - 2 * 7612.
Proof. split; vm_compute; reflexivity. Qed.
