(* ===== verification/Checkout.v ===== *)
(** * Checkout (apps/payment/routers/checkout.py)

    The customer-facing routes: what one request does to the database session,
    to the price cache and to the idempotency keys in Redis, and what it
    publishes.  A request runs inside [Database.session]
    (packages/core-py/knowledgeos_core/db.py), which commits when the handler
    returns and rolls back when it raises. *)

From S2P Require Import Prelude Store Json Tax Catalogue Coupons PaymentModels Pricing Db Dates Pagination Orders Invoices Affiliates Payments Gateways ReturnUrl Webhooks Idempotency.

(** ** The stores a request works on *)

Record World := mkWorld { w_session : session Db; w_prices : price_cache; w_keys : redis }.

Definition on_session {A} (m : M (session Db) A) : M World A :=
  lift w_session (fun s w => mkWorld s (w_prices w) (w_keys w)) m.
Definition on_keys {A} (m : M redis A) : M World A :=
  lift w_keys (fun k w => mkWorld (w_session w) (w_prices w) k) m.
Definition on_db {A} (m : M Db A) : M World A := on_session (in_session m).
(** The pricing service works on the price cache and on the coupon tables. *)
Definition on_pricing {A} (m : M (price_cache * CouponStore) A) : M World A :=
  lift (fun w => (w_prices w, coupon_store (working (w_session w))))
    (fun pc w => mkWorld (Session (committed (w_session w)) (set_coupon_store pc.2 (working (w_session w))))
                   pc.1 (w_keys w)) m.

(** [Database.session]: one session per request. *)
Definition in_request {A} (m : M World A) : M World A :=
  try_except (a ← m; _ ← on_session commit; mret a)
    (fun e => _ ← on_session rollback; raise e).

(** ** Requests and responses *)

Record Principal := mkPrincipal { user_id : string; email : option string }.

(** [uuid.UUID(principal.user_id)] *)
Definition user_uuid (p : Principal) : result uuid :=
  match uuid_of_string (user_id p) with Some u => Ok u | None => Raise ValueErr end.

Record PaymentVerifyRequest := mkVerify {
  pv_order_id : uuid;
  pv_provider : PaymentProvider;
  pv_provider_order_id : string;
  pv_provider_payment_id : string;
  pv_signature : string;
}.

Record CheckoutSession := mkCheckoutSession {
  cs_order : Order;
  cs_provider : PaymentProvider;
  cs_provider_order_id : option string;
  cs_publishable_key : option string;
  cs_checkout_url : option string;
  cs_client_secret : option string;
  cs_amount_minor : Z;
  cs_currency : string;
  cs_expires_at : option datetime;
}.

Record TaxBreakdown := mkBreakdown {
  tb_percent : Z;
  tb_cgst_minor : Z;
  tb_sgst_minor : Z;
  tb_igst_minor : Z;
  tb_total_minor : Z;
  tb_place_of_supply : option string;
}.

Record QuoteResponse := mkQuoteResponse {
  qr_lines : list QuoteLine;
  qr_subtotal_minor : Z;
  qr_discount_minor : Z;
  qr_taxable_minor : Z;
  qr_tax : TaxBreakdown;
  qr_total_minor : Z;
  qr_currency : string;
  qr_coupon_code : option string;
  qr_coupon_applied : bool;
  qr_coupon_message : option reason;
}.

Definition tax_out (c : PricedCart) : TaxBreakdown :=
  let t := pc_tax c in
  mkBreakdown (percent t) (cgst_minor t) (sgst_minor t) (igst_minor t) (total_minor t) (place_of_supply t).
Definition quote_out (c : PricedCart) : QuoteResponse :=
  mkQuoteResponse (pc_lines c) (pc_subtotal_minor c) (pc_discount_minor c) (pc_taxable_minor c) (tax_out c)
    (pc_total_minor c) (pc_currency c) (pc_coupon_code c) (pc_coupon_applied c) (pc_coupon_message c).

Record CouponValidateResponse := mkCouponAnswer {
  cv_valid : bool;
  cv_code : string;
  cv_discount_minor : Z;
  cv_subtotal_minor : Z;
  cv_total_minor : Z;
  cv_reason : option reason;
}.

Record ProvidersResponse := mkProviders {
  pr_providers : list PaymentProvider;
  pr_default : option PaymentProvider;
  pr_currency : string;
  pr_razorpay_key_id : option string;
  pr_stripe_publishable_key : option string;
}.

Definition str_json (o : option string) : json := match o with Some s => JStr s | None => JNull end.

(** [payload.model_dump(mode="json")] *)
Definition order_create_dump (p : OrderCreate) : json :=
  JObj [("items", JList (map (fun i => JObj [("book_id", JStr (string_of_uuid (oi_book_id i)));
                                              ("quantity", JInt (oi_quantity i))]) (or_items p)));
        ("coupon_code", str_json (or_coupon_code p));
        ("provider", str_json (provider_value <$> or_provider p));
        ("currency", JStr (or_currency p));
        ("billing_name", str_json (or_billing_name p));
        ("billing_email", str_json (or_billing_email p));
        ("billing", match or_billing p with Some b => JObj (billing_dump b) | None => JNull end);
        ("affiliate_code", str_json (or_affiliate_code p));
        ("return_url", str_json (or_return_url p))].

Section checkout.
Context (settings : Settings).
(** The catalogue and the entitlement service, and whether the cache answers. *)
Context (cache read_ok write_ok : bool).
Context (services : option (list uuid -> result json)).
Context (entitlements_check : option (uuid -> list uuid -> result json)).
(** The gateways' HTTP clients and the keyed hash. *)
Context (http : PaymentProvider -> http_client) (hmac : string -> string -> string).
(** SHA-256 and [orjson.dumps] with sorted keys; the library's check of a
    network location. *)
Context (sha256_hex : string -> string) (dumps : json -> string) (netloc_ok : string -> bool).
(** The service name and the retention of its idempotency keys. *)
Context (service : string) (ttl : Z).

Definition publishable_key (provider : option PaymentProvider) : option string :=
  match provider with
  | Some RAZORPAY => razorpay_key_id settings
  | Some STRIPE => stripe_publishable_key settings
  | _ => None
  end.

Definition list_providers : ProvidersResponse :=
  mkProviders (public_providers settings) (default_provider settings) (default_currency settings)
    (razorpay_key_id settings) (stripe_publishable_key settings).

Definition price (now : datetime) (items : list OrderItemIn) (user : option uuid) (currency : string)
    (coupon_code : option string) (billing : option BillingAddress) : M World PricedCart :=
  on_pricing (quote settings now cache read_ok write_ok services entitlements_check items user currency
                coupon_code billing true true).

(** [user_uuid(principal) if principal else None] *)
Definition optional_user (p : option Principal) : result (option uuid) :=
  match p with None => Ok None | Some p => Some <$> user_uuid p end.

Definition quote_route (now : datetime) (items : list OrderItemIn) (coupon_code : option string) (currency : string)
    (billing : option BillingAddress) (principal : option Principal) : M World QuoteResponse :=
  user ← of_result (optional_user principal);
  cart ← price now items user currency coupon_code billing;
  mret (quote_out cart).

Definition validate_coupon (now : datetime) (code : string) (items : list OrderItemIn) (currency : string)
    (principal : option Principal) : M World CouponValidateResponse :=
  user ← of_result (optional_user principal);
  cart ← price now items user currency (Some code) None;
  mret (mkCouponAnswer (pc_coupon_applied cart) (upper (strip code)) (pc_discount_minor cart)
          (pc_subtotal_minor cart) (pc_total_minor cart) (pc_coupon_message cart)).

(** ** Orders *)

Definition fingerprint (payload : json) : string := sha256_hex (dumps payload).

Definition session_of (o : Order) (checkout_url client_secret : option string) : CheckoutSession :=
  mkCheckoutSession o (default MANUAL (o_provider o)) (o_provider_order_id o) (publishable_key (o_provider o))
    checkout_url client_secret (o_total_minor o) (oc_currency (o_cols o)) (oc_expires_at (o_cols o)).

Definition owns_everything (c : PricedCart) : bool :=
  negb (bool_decide (pc_lines c = [])) && forallb ql_already_owned (pc_lines c).

(** The body of the [try]. *)
Definition open_order (now : datetime) (draws : list nat) (user : uuid) (payload : OrderCreate)
    (key billing_email return_url : option string) : M World (Order * option string * option string) :=
  cart ← price now (or_items payload) (Some user) (or_currency payload) (or_coupon_code payload) (or_billing payload);
  _ ← raise_when (owns_everything cart) (app_error BadRequestError "already_owned");
  before ← gets (fun w => committed (w_session w));
  o ← on_db (create settings now draws before user payload cart key billing_email);
  r ← on_db (attach_gateway (resolve settings) (gateway_create_order settings http) o (or_provider payload) return_url);
  _ ← on_session commit;
  mret r.

(** [idempotency.begin], [complete] and [release] with the route's arguments;
    nothing happens without a key. *)
Definition reserve (now later : datetime) (race : redis -> redis) (user : uuid) (payload : OrderCreate)
    (key : string) : M World unit :=
  reservation ← on_keys (begin service ttl now later race "orders" key (string_of_uuid user)
                           (fingerprint (order_create_dump payload)));
  match reservation with
  | Some _ => raise (app_error ConflictError "idempotent_replay_pending")
  | None => mret tt
  end.

Definition store_answer (now : datetime) (user : uuid) (payload : OrderCreate) (key : option string) (o : Order)
    : M World unit :=
  match key with
  | Some k => if truthy key
              then on_keys (complete service ttl now "orders" k (string_of_uuid user)
                              (fingerprint (order_create_dump payload)) 201
                              (JObj [("order_id", JStr (string_of_uuid (o_id o)))]) [])
              else mret tt
  | None => mret tt
  end.

Definition drop_reservation (user : uuid) (key : option string) : M World unit :=
  match key with
  | Some k => if truthy key then on_keys (Idempotency.release service "orders" k (string_of_uuid user)) else mret tt
  | None => mret tt
  end.

(** A zero-value order, and every manual one, is settled at once. *)
Definition settles_at_once (o : Order) : bool :=
  (o_total_minor o =? 0) || bool_decide (o_provider o = Some MANUAL).

Definition settle_free (now : datetime) (race : races) (pub : option publisher) (o : Order)
    : M World (Order * list event) :=
  if settles_at_once o then
    result ← on_db (settle settings now race o MANUAL (append "free_" (string_of_uuid (o_id o)))
                      (Some (o_total_minor o)) None None None);
    _ ← on_session commit;
    mret (sr_order result, announce_paid pub result)
  else mret (o, []).

(** The order an earlier request with this key created. *)
Definition replayed (key : option string) (user : uuid) : M World (option Order) :=
  match key with
  | Some k => if truthy key then on_db (find_by_idempotency_key k user) else mret None
  | None => mret None
  end.

Definition reserve_key (now later : datetime) (race : redis -> redis) (user : uuid) (payload : OrderCreate)
    (key : option string) : M World unit :=
  match key with
  | Some k => if truthy key then reserve now later race user payload k else mret tt
  | None => mret tt
  end.

Definition create_order (now later : datetime) (key_race : redis -> redis) (race : races) (draws : list nat)
    (pub : option publisher) (payload : OrderCreate) (principal : Principal) (key : option string)
    : M World (CheckoutSession * list event) :=
  user ← of_result (user_uuid principal);
  return_url ← of_result (safe_return_url settings netloc_ok (or_return_url payload));
  existing ← replayed key user;
  match existing with
  | Some o => mret (session_of o (o_checkout_url o) None, [])
  | None =>
      _ ← reserve_key now later key_race user payload key;
      '(o, checkout_url, client_secret) ←
        try_except (open_order now draws user payload key (email principal) return_url)
          (fun e => _ ← on_session rollback; _ ← drop_reservation user key; raise e);
      _ ← store_answer now user payload key o;
      '(o', events) ← settle_free now race pub o;
      mret (session_of o' checkout_url client_secret, events)
  end.

Definition list_orders (principal : Principal) (status : option OrderStatus) (cursor : option cursor_key)
    (limit : nat) : M World (list Order) :=
  user ← of_result (user_uuid principal);
  d ← gets (fun w => working (w_session w));
  mret (list_for_user user cursor limit status d).1.1.

Definition get_order_route (order_id : uuid) (principal : Principal) : M World Order :=
  user ← of_result (user_uuid principal);
  on_db (get_for_user order_id user).

Definition cancel_order (now : datetime) (order_id : uuid) (reason : option string) (principal : Principal)
    : M World Order :=
  user ← of_result (user_uuid principal);
  o ← on_db (get_for_user order_id user);
  o' ← on_db (cancel now o reason);
  _ ← on_session commit;
  mret o'.

(** ** Client-side confirmation *)

(** [getattr(gateway, "verify_checkout", None)] *)
Definition verify_checkout (p : PaymentProvider) : option (string -> string -> string -> bool) :=
  match p with RAZORPAY => Some (razorpay_verify_checkout settings hmac) | _ => None end.

Definition verify_payment (now : datetime) (race : races) (pub : option publisher)
    (payload : PaymentVerifyRequest) (principal : Principal) : M World (Order * list event) :=
  user ← of_result (user_uuid principal);
  o ← on_db (get_for_user (pv_order_id payload) user);
  gateway ← of_result (get_gateway settings (provider_value (pv_provider payload)));
  match verify_checkout gateway with
  | None => raise (app_error BadRequestError "verification_unsupported")
  | Some verify =>
      _ ← raise_when (negb (verify (pv_provider_order_id payload) (pv_provider_payment_id payload)
                              (pv_signature payload)))
            (app_error BadRequestError "invalid_payment_signature");
      _ ← raise_when (truthy (o_provider_order_id o) &&
                      negb (bool_decide (o_provider_order_id o = Some (pv_provider_order_id payload))))
            (app_error BadRequestError "order_reference_mismatch");
      result ← on_db (settle settings now race o (pv_provider payload) (pv_provider_payment_id payload)
                        None None None None);
      _ ← on_session commit;
      mret (sr_order result, announce_paid pub result)
  end.
End checkout.

(** ** Lemmas: the parts of the world *)

Lemma on_db_inv {A} (m : M Db A) w r w' : on_db m w = (r, w') ->
  exists d', m (working (w_session w)) = (r, d') /\
    w' = mkWorld (Session (committed (w_session w)) d') (w_prices w) (w_keys w).
Proof.
  unfold on_db, on_session, in_session, lift. destruct (m _) as [r' d']. intros [= <- <-]. eauto.
Qed.

Lemma on_keys_inv {A} (m : M redis A) w r w' : on_keys m w = (r, w') ->
  exists k', m (w_keys w) = (r, k') /\ w' = mkWorld (w_session w) (w_prices w) k'.
Proof. unfold on_keys, lift. destruct (m _) as [r' k']. intros [= <- <-]. eauto. Qed.

Lemma commit_eq w : on_session commit w =
  (Ok tt, mkWorld (Session (working (w_session w)) (working (w_session w))) (w_prices w) (w_keys w)).
Proof. reflexivity. Qed.

Lemma rollback_eq w : on_session rollback w =
  (Ok tt, mkWorld (Session (committed (w_session w)) (committed (w_session w))) (w_prices w) (w_keys w)).
Proof. reflexivity. Qed.

Lemma try_except_inv {S A} (m : M S A) h s r s' : try_except m h s = (r, s') ->
  (exists a, r = Ok a /\ m s = (Ok a, s')) \/
  (exists e s1, m s = (Raise e, s1) /\ h e s1 = (r, s')).
Proof. unfold try_except. destruct (m s) as [[a|e] s1] eqn:E; [intros [= <- <-]|]; eauto 10. Qed.

(** Quoting reads the coupon tables and writes only the price cache. *)
Lemma keeps_lift_fst {X Y A} (m : M X A) : keeps (S := X * Y) snd (lift fst (fun c st => (c, st.2)) m).
Proof. intros s r s'. unfold lift. destruct (m _). by intros [= <- <-]. Qed.

Lemma keeps_lift_evaluate {X} now code user lines books cur :
  keeps (S := X * CouponStore) snd (lift snd (fun c st => (st.1, c)) (evaluate now code user lines books cur)).
Proof.
  intros s r s'. unfold lift. destruct (evaluate _ _ _ _ _ _ _) as [x t] eqn:E. intros [= <- <-].
  by apply evaluate_unchanged in E.
Qed.

Lemma quote_keeps_coupons st now c ro wo sv ec items user cur code billing ex po :
  keeps snd (quote st now c ro wo sv ec items user cur code billing ex po).
Proof.
  unfold quote. repeat first [apply keeps_lift_fst | apply keeps_lift_evaluate | keeps_step].
Qed.

Section spec.
Context (settings : Settings) (cache read_ok write_ok : bool).
Context (services : option (list uuid -> result json)).
Context (entitlements_check : option (uuid -> list uuid -> result json)).
Context (http : PaymentProvider -> http_client) (hmac : string -> string -> string).
Context (sha256_hex : string -> string) (dumps : json -> string) (netloc_ok : string -> bool).
Context (service : string) (ttl : Z).

Lemma price_inv now items user cur code billing w r w' :
  price settings cache read_ok write_ok services entitlements_check now items user cur code billing w = (r, w') ->
  w_session w' = w_session w /\ w_keys w' = w_keys w.
Proof.
  unfold price, on_pricing, lift. destruct (quote _ _ _ _ _ _ _ _ _ _ _ _ _ _ _) as [r' pc] eqn:E.
  intros [= <- <-]. apply quote_keeps_coupons in E. cbn in *. rewrite E. split; [|done].
  destruct w as [[c d] p k]. cbn. by destruct d.
Qed.

(** What opening an order adds to the database. *)
Record opened (user : uuid) (payload : OrderCreate) (key : option string) (d d' : Db) (o : Order) : Prop := {
  op_new : orders d !! o_id o = None;
  op_orders : orders d' = <[o_id o := o]> (orders d);
  op_rest : d' = set_coupon_store (coupon_store d') (set_orders (orders d') d);
  op_user : o_user_id o = user;
  op_key : oc_idempotency_key (o_cols o) = key;
  op_status : o_status o = AWAITING_PAYMENT;
  op_provider : exists p, resolve settings (or_provider payload) (o_total_minor o) = Ok p /\ o_provider o = Some p;
  op_inv : OrdersInv d';
}.

Lemma create_rest now draws before user p cart key email d r d' :
  create settings now draws before user p cart key email d = (Ok r, d') ->
  o_user_id r = user /\ oc_idempotency_key (o_cols r) = key /\
  orders d' = save r (orders d) /\ d' = set_coupon_store (coupon_store d') (set_orders (orders d') d).
Proof.
  intros (_ & -> & _ & [[-> _]|(cid & c & q & s' & _ & _ & _ & _ & ->)])%create_inv; by destruct d.
Qed.

Lemma open_order_ok now draws user payload key email return_url w o url secret w' :
  OrdersInv (working (w_session w)) ->
  open_order settings cache read_ok write_ok services entitlements_check http now draws user payload key email
    return_url w = (Ok (o, url, secret), w') ->
  let d := working (w_session w') in
  opened user payload key (working (w_session w)) d o /\ o_checkout_url o = url /\
  committed (w_session w') = d /\ w_keys w' = w_keys w.
Proof.
  intros Hinv H. unfold open_order in H.
  apply bind_ok_inv in H as (cart & w1 & Hp & H). apply price_inv in Hp as [Es Ek].
  apply bind_ok_inv in H as ([] & w2 & Hr & H).
  unfold raise_when in Hr. destruct (owns_everything cart); [discriminate|]. injection Hr as <-.
  apply bind_ok_inv in H as (before & w3 & [= <- <-] & H).
  apply bind_ok_inv in H as (o1 & w4 & (d1 & Hcr & ->)%on_db_inv & H).
  apply bind_ok_inv in H as (res & w5 & (d2 & Hat & ->)%on_db_inv & H).
  apply bind_ok_inv in H as ([] & w6 & [= <-] & [= -> <-]).
  cbn [w_session w_prices w_keys working committed] in *. rewrite Es in *.
  pose proof (create_keeps _ _ _ _ _ _ _ _ _ _ _ _ Hinv Hcr) as (Hinv1 & _ & Ho & Hst & Hnew).
  apply create_rest in Hcr as (Hu & Hk & Hord & Hrest).
  unfold attach_gateway in Hat. apply bind_ok_inv in Hat as (pr & ? & [= Hres <-] & Hat).
  apply bind_ok_inv in Hat as ([[poid url'] secret'] & ? & [= _ <-] & Hat).
  cbv [mbind M_bind] in Hat. rewrite assign_eq in Hat. injection Hat as <- <- <- <-.
  cbn [o_checkout_url set_gateway]. split; [|done].
  destruct (assign_moved _ (set_gateway pr poid url') _ Hinv1 Ho (mv_gateway _ _ _ _ Hst)) as (Hinv2 & _ & _).
  assert (Hsave : alter (set_gateway pr poid url') (o_id o1) (orders d1) =
            <[o_id o1 := set_gateway pr poid url' o1]> (orders (working (w_session w)))).
  { rewrite alter_save by done. rewrite Hord. unfold save, row_id, Order_row. by rewrite insert_insert_eq. }
  constructor; cbn; try done.
  - assert (Hset : forall t, set_orders t d1 =
              set_coupon_store (coupon_store d1) (set_orders t (working (w_session w))))
      by (intros t; rewrite Hrest at 1; reflexivity).
    apply Hset.
  - eauto.
Qed.

(** A raise inside the [try] leaves the committed state and the keys alone. *)
Lemma open_order_raise now draws user payload key email return_url w e w' :
  open_order settings cache read_ok write_ok services entitlements_check http now draws user payload key email
    return_url w = (Raise e, w') ->
  committed (w_session w') = committed (w_session w) /\ w_keys w' = w_keys w.
Proof.
  intros H. unfold open_order in H.
  apply bind_inv in H as [(cart & w1 & [<- <-]%price_inv & H)|(? & [<- <-]%price_inv & _)]; [|done].
  apply bind_inv in H as [(u & w2 & Hr & H)|(? & Hr & _)]; unfold raise_when in Hr;
    (destruct (owns_everything cart); [|]); cbv [raise mret M_ret] in Hr; try discriminate Hr;
    [injection Hr as _ <-|by injection Hr as _ <-].
  apply bind_inv in H as [(before & w3 & [= _ <-] & H)|(? & [=] & _)].
  apply bind_inv in H as [(o1 & w4 & (d1 & _ & ->)%on_db_inv & H)|(? & (d1 & _ & ->)%on_db_inv & _)]; [|done].
  apply bind_inv in H as [(res & w5 & (d2 & _ & ->)%on_db_inv & H)|(? & (d2 & _ & ->)%on_db_inv & _)]; [|done].
  cbn in H. discriminate.
Qed.

Lemma opened_evolves user payload key d d' o : opened user payload key d d' o -> evolves d d'.
Proof.
  intros [Hnew Hord _ _ _ _ _ _] k v Hv. rewrite Hord. exists v. split; [|apply rtc_refl].
  rewrite lookup_insert_ne; [done|]. intros <-. congruence.
Qed.

Lemma opened_service user payload key d d' o :
  opened user payload key d d' o -> ServiceInv settings d -> ServiceInv settings d'.
Proof.
  intros Hop [Ho Hi Ha Hp Hv Hc].
  assert (Hl : forall k v, orders d !! k = Some v -> orders d' !! k = Some v).
  { intros k v Hk. rewrite (op_orders _ _ _ _ _ _ Hop). rewrite lookup_insert_ne; [done|]. intros <-.
    by rewrite (op_new _ _ _ _ _ _ Hop) in Hk. }
  pose proof (op_rest _ _ _ _ _ _ Hop) as Hr.
  assert (E : invoices d' = invoices d /\ accounts d' = accounts d /\ conversions d' = conversions d /\
              payments d' = payments d) by (by rewrite Hr).
  destruct E as (E1 & E2 & E3 & E4). constructor; unfold payments_ok; rewrite ?E1, ?E3, ?E4; try done.
  - apply Hop.
  - by eapply InvoicesInv_frame.
  - by eapply AffiliatesInv_frame.
  - intros k i Hk. destruct (Hv k i Hk) as (v & Hlv & Hs). eauto.
  - intros k c Hk. destruct (Hc k c Hk) as (v & Hlv & Hs). eauto.
Qed.

(** The settlement of an order that was just opened. *)
Record settled_free (now : datetime) (pub : option publisher) (o : Order) (d d' : Db) (ev : list event) : Prop := {
  sf_orders : orders d' = <[o_id o := set_paid now o]> (orders d);
  sf_coupons : coupon_store d' = coupon_store d;
  sf_paid : exists p i, payments d' !! p_id p = Some p /\
      is_payment MANUAL (append "free_" (string_of_uuid (o_id o))) p = true /\
      invoices d' !! iv_id i = Some i /\ iv_order_id i = o_id o /\
      ev = announce_paid pub (mkSettlement (set_paid now o) (Some p) (Some i) true);
}.

Lemma settle_free_ok now pub o w r w' :
  escape_term (invoice_prefix settings) = invoice_prefix settings -> in_era now ->
  ServiceInv settings (working (w_session w)) -> orders (working (w_session w)) !! o_id o = Some o ->
  settled o = false -> settles_at_once o = true ->
  settle_free settings now alone pub o w = (r, w') ->
  exists d' ev, r = Ok (set_paid now o, ev) /\ ServiceInv settings d' /\
    settled_free now pub o (working (w_session w)) d' ev /\
    w' = mkWorld (Session d' d') (w_prices w) (w_keys w).
Proof.
  intros Hplain He Hinv Ho Hs Hfree H. unfold settle_free in H. rewrite Hfree in H.
  apply bind_inv in H as [(res & w1 & (d1 & Hset & ->)%on_db_inv & H)|(e & (d1 & Hset & ->)%on_db_inv & ->)].
  - apply settle_spec in Hset as (Hinv1 & p & Hp & Hisp & Hcase); try done. rewrite Hs in Hcase.
    destruct Hcase as (i & [= ->] & Hord & Hcs & Hi & Hio & _). cbn in H. injection H as <- <-.
    do 2 eexists. split; [done|]. split; [done|]. split; [|done]. constructor; try done. by exists p, i.
  - exfalso. apply settle_spec in Hset as (_ & p & _ & _ & Hcase); try done. rewrite Hs in Hcase.
    by destruct Hcase as (i & [=] & _).
Qed.

Abbreviation route now later kr race draws pub payload principal key :=
  (create_order settings cache read_ok write_ok services entitlements_check http sha256_hex dumps netloc_ok
     service ttl now later kr race draws pub payload principal key).
Abbreviation reserving now later kr user payload k :=
  (begin service ttl now later kr "orders" k (string_of_uuid user)
     (fingerprint sha256_hex dumps (order_create_dump payload))).

Definition key_given (key : option string) : option string := if truthy key then key else None.

Lemma find_by_idempotency_key_eq k user d :
  find_by_idempotency_key k user d = (one_or_none (select (fun o =>
    bool_decide (oc_idempotency_key (o_cols o) = Some k) && (o_user_id o =? user)%N) (orders d)), d).
Proof. reflexivity. Qed.

Lemma world_eta w : mkWorld (Session (committed (w_session w)) (working (w_session w))) (w_prices w) (w_keys w) = w.
Proof. by destruct w as [[] ? ?]. Qed.

Lemma replayed_inv key user w r w' : replayed key user w = (r, w') -> w' = w.
Proof.
  unfold replayed. destruct key as [k|]; [|by intros [= _ <-]]. destruct (truthy _); [|by intros [= _ <-]].
  intros (d' & H & ->)%on_db_inv. rewrite find_by_idempotency_key_eq in H. injection H as _ <-. apply world_eta.
Qed.

(** The reservation touches the key only. *)
Lemma reserve_key_inv now later kr user payload key w r w' :
  reserve_key sha256_hex dumps service ttl now later kr user payload key w = (r, w') ->
  w_session w' = w_session w /\
  match key_given key with
  | None => r = Ok tt /\ w' = w
  | Some k =>
      w_keys w' = (reserving now later kr user payload k (w_keys w)).2 /\
      (r = Ok tt <-> (reserving now later kr user payload k (w_keys w)).1 = Ok None)
  end.
Proof.
  unfold reserve_key, key_given. destruct key as [k|]; [|intros [= <- <-]; done].
  destruct (truthy (Some k)); [|intros [= <- <-]; done].
  unfold reserve. intros [(a & w1 & (k' & Hb & ->)%on_keys_inv & H)|(e & (k' & Hb & ->)%on_keys_inv & ->)]%bind_inv;
    rewrite Hb; cbn [fst snd].
  - destruct a; injection H as <- <-; (split; [done|]); (split; [done|]); done.
  - split; [done|]. split; [done|]. by split.
Qed.

Lemma store_answer_inv now user payload key o w r w' :
  store_answer sha256_hex dumps service ttl now user payload key o w = (r, w') ->
  r = Ok tt /\ w_session w' = w_session w.
Proof.
  unfold store_answer. destruct key as [k|]; [|by intros [= <- <-]].
  destruct (truthy _); [|by intros [= <- <-]]. intros (k' & [= <- <-] & ->)%on_keys_inv. done.
Qed.

Lemma drop_reservation_eq user key w :
  drop_reservation service user key w = (Ok tt, mkWorld (w_session w) (w_prices w)
    (match key_given key with
     | Some k => delete (redis_key service "orders" k (string_of_uuid user)) (w_keys w)
     | None => w_keys w
     end)).
Proof.
  unfold drop_reservation, key_given. destruct key as [k|]; [|by destruct w]. destruct (truthy (Some k)); [done|by destruct w].
Qed.

(** The two ways [create_order] succeeds. *)
Lemma create_order_ok now later kr draws pub payload principal key w cs ev w' :
  escape_term (invoice_prefix settings) = invoice_prefix settings -> in_era now ->
  ServiceInv settings (working (w_session w)) ->
  route now later kr alone draws pub payload principal key w = (Ok (cs, ev), w') ->
  exists user, user_uuid principal = Ok user /\
  ((exists o, replayed key user w = (Ok (Some o), w) /\ cs = session_of settings o (o_checkout_url o) None /\
      ev = [] /\ w' = w) \/
   (exists o d1 secret, replayed key user w = (Ok None, w) /\
      opened user payload key (working (w_session w)) d1 o /\ ServiceInv settings (working (w_session w')) /\
      committed (w_session w') = working (w_session w') /\
      if settles_at_once o
      then cs = session_of settings (set_paid now o) (o_checkout_url o) secret /\
           settled_free now pub o d1 (working (w_session w')) ev
      else cs = session_of settings o (o_checkout_url o) secret /\ ev = [] /\ working (w_session w') = d1)).
Proof.
  intros Hplain He Hinv H. unfold create_order in H.
  apply bind_ok_inv in H as (user & w1 & [= Hu <-] & H).
  apply bind_ok_inv in H as (url & w1 & [= _ <-] & H).
  apply bind_ok_inv in H as (existing & w1 & Hrep & H). pose proof (replayed_inv _ _ _ _ _ Hrep) as ->.
  exists user. split; [done|]. destruct existing as [o|]; [injection H as <- <- <-; left; eauto|]. right.
  apply bind_ok_inv in H as ([] & w1 & [Es _]%reserve_key_inv & H).
  apply bind_ok_inv in H as ([[o url'] secret] & w2 & Htry & H).
  apply try_except_inv in Htry as [(a & [= <-] & Htry)|(e & w3 & _ & Htry)].
  2:{ exfalso. apply bind_ok_inv in Htry as (? & ? & _ & Htry).
      apply bind_ok_inv in Htry as (? & ? & _ & Htry). discriminate. }
  apply open_order_ok in Htry as (Hop & Hurl & Hcom & _); [|rewrite Es; apply Hinv]. rewrite Es in Hop.
  apply bind_ok_inv in H as ([] & w3 & [_ Es3]%store_answer_inv & H).
  pose proof (opened_service _ _ _ _ _ _ Hop Hinv) as Hinv1.
  assert (Hs : settled o = false).
  { apply not_true_iff_false. rewrite settled_status, (op_status _ _ _ _ _ _ Hop). intros [|[|]]; done. }
  assert (Ho : orders (working (w_session w2)) !! o_id o = Some o)
    by (rewrite (op_orders _ _ _ _ _ _ Hop); apply lookup_insert_eq).
  apply bind_ok_inv in H as ([o' ev'] & w4 & Hset & [= <- <- <-]).
  exists o, (working (w_session w2)), secret. split; [done|]. split; [done|]. rewrite Hurl.
  destruct (settles_at_once o) eqn:Hfree.
  - apply settle_free_ok in Hset as (d' & ev2 & [= -> ->] & Hinv' & Hsf & ->); rewrite ?Es3; try done.
    rewrite Es3 in Hsf. done.
  - unfold settle_free in Hset. rewrite Hfree in Hset. injection Hset as <- <- <-. by rewrite Es3.
Qed.

(** The ways it raises. *)
Lemma create_order_raise now later kr race draws pub payload principal key w e w' :
  OrdersInv (working (w_session w)) ->
  route now later kr race draws pub payload principal key w = (Raise e, w') ->
  (w' = w) \/
  (exists user, user_uuid principal = Ok user /\
   ((exists k, key_given key = Some k /\ (reserving now later kr user payload k (w_keys w)).1 <> Ok None /\
       w_session w' = w_session w /\ w_keys w' = (reserving now later kr user payload k (w_keys w)).2) \/
    (w_session w' = Session (committed (w_session w)) (committed (w_session w)) /\
       match key_given key with
       | Some k => w_keys w' !! redis_key service "orders" k (string_of_uuid user) = None
       | None => w_keys w' = w_keys w
       end) \/
    (exists o, opened user payload key (working (w_session w)) (committed (w_session w')) o /\
       settles_at_once o = true))).
Proof.
  intros Hinv H. unfold create_order in H.
  apply bind_inv in H as [(user & w1 & [= Hu <-] & H)|(? & [= _ <-] & _)]; [|by left].
  apply bind_inv in H as [(url & w1 & [= _ <-] & H)|(? & [= _ <-] & _)]; [|by left].
  apply bind_inv in H as [(existing & w1 & Hrep%replayed_inv & H)|(? & ->%replayed_inv & _)]; [subst w1|by left].
  destruct existing as [o|]; [discriminate|]. right. exists user. split; [done|].
  apply bind_inv in H as [([] & w1 & [Es Hk]%reserve_key_inv & H)|(e' & [Es Hk]%reserve_key_inv & Ee)].
  2:{ left. destruct (key_given key) as [k|]; [|by destruct Hk]. exists k. destruct Hk as [Hk Hiff].
      split; [done|]. split; [|done]. intros E. by discriminate (proj2 Hiff E). }
  right. apply bind_inv in H as [([[o url'] secret] & w2 & Htry & H)|(e' & Htry & Ee)].
  - right. apply try_except_inv in Htry as [(a & [= <-] & Htry)|(e' & w3 & _ & Htry)].
    2:{ exfalso. apply bind_ok_inv in Htry as (? & ? & _ & Htry).
        apply bind_ok_inv in Htry as (? & ? & _ & Htry). discriminate. }
    apply open_order_ok in Htry as (Hop & Hurl & Hcom & _); [|by rewrite Es]. rewrite Es in Hop.
    apply bind_inv in H as [([] & w3 & [_ Es3]%store_answer_inv & H)|(? & [[=] _]%store_answer_inv & _)].
    apply bind_inv in H as [([? ?] & ? & _ & H)|(? & Hset & _)]; [discriminate|].
    unfold settle_free in Hset. destruct (settles_at_once o) eqn:Hfree; [|discriminate].
    apply bind_inv in Hset as [(? & ? & _ & Hset)|(? & (d' & _ & ->)%on_db_inv & _)]; [discriminate|].
    exists o. cbn. by rewrite Es3, Hcom.
  - left. apply try_except_inv in Htry as [(a & [=] & _)|(e3 & w3 & Hopen & Htry)].
    apply open_order_raise in Hopen as [Hc Hks]. cbv [mbind M_bind] in Htry.
    rewrite rollback_eq, drop_reservation_eq in Htry. cbn [w_session w_prices w_keys committed] in Htry.
    injection Htry as _ <-. cbn. rewrite Hc, Es, Hks. split; [done|].
    destruct (key_given key); [apply lookup_delete_eq|]. by destruct Hk as [_ ->].
Qed.

(** ** Lemmas: looking an order up *)

Lemma find_own_key k user d i o : OrdersInv d -> orders d !! i = Some o ->
  oc_idempotency_key (o_cols o) = Some k -> o_user_id o = user ->
  find_by_idempotency_key k user d = (Ok (Some o), d).
Proof.
  intros [Hk _ _ Hi _ _] Ho Hkey Hu. rewrite find_by_idempotency_key_eq. f_equal.
  set (P := fun _ => _).
  assert (HP : forall v, P v = true -> idempotency_col v = Some k)
    by (intros v [Hv _]%andb_true_iff; by apply bool_decide_eq_true in Hv).
  destruct (select_unique idempotency_col (orders d) P k Hk Hi HP) as [[v|] E]; rewrite E.
  - apply one_or_none_Some in E.
    assert (Hin : o ∈ select P (orders d)).
    { apply elem_of_select. split; [eauto|]. unfold P. by rewrite bool_decide_true, Hu, N.eqb_refl. }
    rewrite E in Hin. apply list_elem_of_singleton in Hin. by subst.
  - apply one_or_none_None in E.
    assert (Hin : o ∈ select P (orders d)).
    { apply elem_of_select. split; [eauto|]. unfold P. by rewrite bool_decide_true, Hu, N.eqb_refl. }
    rewrite E in Hin. set_solver.
Qed.

Lemma find_key_inv k user d o : keyed (orders d) -> find_by_idempotency_key k user d = (Ok (Some o), d) ->
  orders d !! o_id o = Some o /\ oc_idempotency_key (o_cols o) = Some k /\ o_user_id o = user.
Proof.
  intros Hk. rewrite find_by_idempotency_key_eq. intros [= E%one_or_none_Some].
  assert (Hin : o ∈ select (fun o => bool_decide (oc_idempotency_key (o_cols o) = Some k) &&
            (o_user_id o =? user)%N) (orders d)) by (rewrite E; constructor).
  apply elem_of_select_keyed in Hin as [Ho [Hkey Hu]%andb_true_iff]; [|done].
  apply bool_decide_eq_true in Hkey. apply N.eqb_eq in Hu. done.
Qed.

Lemma get_for_user_eq i user d :
  get_for_user i user d =
    (match orders d !! i with
     | Some o => if (o_user_id o =? user)%N then Ok o else Raise (app_error NotFoundError "")
     | None => Raise (app_error NotFoundError "")
     end, d).
Proof.
  unfold get_for_user, get_order. cbv [get mbind M_bind]. destruct (orders d !! i) as [o|]; [|done].
  cbv [mret M_ret]. destruct (o_user_id o =? user)%N; done.
Qed.

Lemma on_db_get_for_user i user w :
  on_db (get_for_user i user) w =
    (match orders (working (w_session w)) !! i with
     | Some o => if (o_user_id o =? user)%N then Ok o else Raise (app_error NotFoundError "")
     | None => Raise (app_error NotFoundError "")
     end, w).
Proof. unfold on_db, on_session, in_session, lift. rewrite get_for_user_eq. by rewrite world_eta. Qed.

(** What a payment confirmation has to show. *)
Record confirms (user : uuid) (payload : PaymentVerifyRequest) (d : Db) (o : Order) : Prop := {
  cf_order : orders d !! pv_order_id payload = Some o;
  cf_owner : o_user_id o = user;
  cf_provider : pv_provider payload = RAZORPAY;
  cf_enabled : razorpay_enabled settings = true;
  cf_signed : razorpay_verify_checkout settings hmac (pv_provider_order_id payload)
                (pv_provider_payment_id payload) (pv_signature payload) = true;
  cf_reference : truthy (o_provider_order_id o) = true -> o_provider_order_id o = Some (pv_provider_order_id payload);
}.

(** The checks before the settlement. *)
Lemma verify_payment_eq now race pub payload principal w :
  (exists user o, user_uuid principal = Ok user /\ confirms user payload (working (w_session w)) o /\
     verify_payment settings hmac now race pub payload principal w =
       (result ← on_db (settle settings now race o RAZORPAY (pv_provider_payment_id payload) None None None None);
        _ ← on_session commit;
        mret (sr_order result, announce_paid pub result)) w) \/
  ((forall user o, user_uuid principal = Ok user -> ~ confirms user payload (working (w_session w)) o) /\
     exists e, verify_payment settings hmac now race pub payload principal w = (Raise e, w)).
Proof.
  unfold verify_payment. destruct (user_uuid principal) as [user|e] eqn:Hu; [|right; split; [done|by exists e]].
  cbv [of_result mbind M_bind]. rewrite on_db_get_for_user.
  destruct (orders (working (w_session w)) !! pv_order_id payload) as [o|] eqn:Ho.
  2:{ right. split; [|by eexists]. intros user' o' _ [Hc _ _ _ _ _]. congruence. }
  destruct (N.eqb_spec (o_user_id o) user) as [Hown|Hown].
  2:{ right. split; [|by eexists]. intros user' o' [= <-] [Hc Hc' _ _ _ _]. congruence. }
  rewrite get_gateway_ok. destruct (configured settings (pv_provider payload)) eqn:Hen.
  2:{ right. split; [|by eexists]. intros user' o' _ [_ _ Hp Hr _ _]. by rewrite Hp in Hen; cbn in Hen; congruence. }
  destruct (pv_provider payload) eqn:Hprov; cbn [verify_checkout];
    [|right; split; [|by eexists]; intros user' o' _ [_ _ Hp _ _ _]; congruence..].
  unfold raise_when. destruct (razorpay_verify_checkout _ _ _ _ _) eqn:Hsig; cbn [negb].
  2:{ right. split; [|by eexists]. intros user' o' _ [_ _ _ _ Hs _]. congruence. }
  destruct (truthy (o_provider_order_id o)) eqn:Ht; cbn [andb].
  - destruct (bool_decide_reflect (o_provider_order_id o = Some (pv_provider_order_id payload))) as [Href|Href]; cbn [negb].
    + left. exists user, o. split; [done|]. split; [|done]. by constructor.
    + right. split; [|by eexists]. intros user' o' _ [Hc _ _ _ _ Hr]. rewrite Hc in Ho. injection Ho as ->. auto.
  - left. exists user, o. split; [done|]. split; [|done]. constructor; try done. by rewrite Ht.
Qed.

(** ** Properties *)


(** C7: A checkout is all or nothing.  When a request to create an order fails,
    its transaction leaves no trace in the database, and with an idempotency
    key either nothing happened in Redis, or the key was refused because
    another request holds it, or the reservation is released so the customer
    can try again.  The one exception is an order that needs no gateway whose
    settlement fails: that order stays committed, awaiting payment. *)
Theorem failed_checkout_leaves_nothing now later kr race draws pub payload principal key w e w'
    (Hfresh : committed (w_session w) = working (w_session w))
    (Hinv : OrdersInv (working (w_session w)))
    (Hrun : in_request (route now later kr race draws pub payload principal key) w = (Raise e, w')) :
  working (w_session w') = committed (w_session w') /\
  ((committed (w_session w') = committed (w_session w) /\
    forall user k, user_uuid principal = Ok user -> key_given key = Some k ->
      w_keys w' = w_keys w \/
      (reserving now later kr user payload k (w_keys w)).1 <> Ok None /\
        w_keys w' = (reserving now later kr user payload k (w_keys w)).2 \/
      w_keys w' !! redis_key service "orders" k (string_of_uuid user) = None) \/
   (exists user o, opened user payload key (committed (w_session w)) (committed (w_session w')) o /\
      settles_at_once o = true)).
Proof.
  unfold in_request in Hrun. apply try_except_inv in Hrun as [(? & [=] & _)|(e' & w1 & Hrun & H)].
  apply bind_inv in Hrun as [(? & ? & _ & Hrun)|(? & Hrun & _)]; [discriminate|].
  apply bind_inv in H as [([] & w2 & Hroll & H)|(? & Hroll & _)]; rewrite rollback_eq in Hroll; [|discriminate].
  injection Hroll as <-. injection H as _ <-. cbn [w_session w_keys working committed]. split; [done|].
  apply create_order_raise in Hrun as [->|(user & Hu & Hcase)]; [| |done].
  { left. split; [done|]. by left. }
  destruct Hcase as [(k & Hk & Hne & Es & Ek)|[[Es Hk]|(o & Hop & Hs)]].
  - left. rewrite Es. split; [done|]. intros user' k' Hu' Hk'. right. left.
    assert (user' = user) as -> by congruence. assert (k' = k) as -> by congruence. done.
  - left. rewrite Es. split; [done|]. intros user' k' Hu' Hk'. right. right.
    assert (user' = user) as -> by congruence. by rewrite Hk' in Hk.
  - right. exists user, o. by rewrite Hfresh.
Qed.

(** A new order is either paid at once or waits for its gateway.  A request
    that creates an order commits exactly one new row, with the gateway that
    the requested provider and the total resolve to, and shows that row to the
    customer.  If the total is zero, or the gateway is the manual one, the
    order is PAID, with its payment and invoice, and announced as any other
    payment; otherwise it is AWAITING_PAYMENT, nothing is paid or invoiced and
    nothing is published. *)
Theorem new_order_paid_or_awaiting now later kr draws pub payload principal key w cs ev w' user
    (Hplain : escape_term (invoice_prefix settings) = invoice_prefix settings) (He : in_era now)
    (Hinv : ServiceInv settings (working (w_session w)))
    (Hu : user_uuid principal = Ok user) (Hnew : replayed key user w = (Ok None, w))
    (Hrun : route now later kr alone draws pub payload principal key w = (Ok (cs, ev), w')) :
  let d := working (w_session w) in
  let d' := working (w_session w') in
  let o := cs_order cs in
  committed (w_session w') = d' /\ ServiceInv settings d' /\
  orders d !! o_id o = None /\ orders d' = <[o_id o := o]> (orders d) /\ o_user_id o = user /\
  (exists p, resolve settings (or_provider payload) (o_total_minor o) = Ok p /\ o_provider o = Some p) /\
  if (o_total_minor o =? 0) || bool_decide (o_provider o = Some MANUAL)
  then o_status o = PAID /\
    exists p i, payments d' !! p_id p = Some p /\
      is_payment MANUAL (append "free_" (string_of_uuid (o_id o))) p = true /\
      invoices d' !! iv_id i = Some i /\ iv_order_id i = o_id o /\
      ev = announce_paid pub (mkSettlement o (Some p) (Some i) true)
  else o_status o = AWAITING_PAYMENT /\ payments d' = payments d /\ invoices d' = invoices d /\ ev = [].
Proof.
  apply create_order_ok in Hrun as (user' & Hu' & Hcase); try done.
  assert (user' = user) as -> by congruence. cbv zeta.
  destruct Hcase as [(o & Hrep & _)|(o & d1 & secret & _ & Hop & Hinv' & Hc & Hcase)]; [congruence|].
  split; [done|]. split; [done|]. destruct (settles_at_once o) eqn:Hs.
  - destruct Hcase as [-> [Hord _ (p & i & Hp & Hip & Hi & Hio & Hev)]]. cbn [cs_order session_of].
    change (o_id (set_paid now o)) with (o_id o). change (o_total_minor (set_paid now o)) with (o_total_minor o).
    change (o_provider (set_paid now o)) with (o_provider o). change (o_user_id (set_paid now o)) with (o_user_id o).
    unfold settles_at_once in Hs. rewrite Hs. split; [apply Hop|]. split.
    { rewrite Hord, (op_orders _ _ _ _ _ _ Hop). apply insert_insert_eq. }
    do 2 (split; [apply Hop|]). split; [done|]. by exists p, i.
  - destruct Hcase as (-> & -> & Hd). cbn [cs_order session_of]. unfold settles_at_once in Hs. rewrite Hs, Hd.
    split; [apply Hop|]. split; [apply Hop|]. do 2 (split; [apply Hop|]). split; [apply Hop|].
    by rewrite (op_rest _ _ _ _ _ _ Hop).
Qed.

(** A browser cannot confirm a payment it cannot sign.  The confirmation is
    accepted exactly when the order is the caller's own, the gateway is an
    enabled Razorpay, the signature is the keyed hash of the gateway's order
    and payment ids, and the gateway's order id is the one opened for this
    order; the order is then settled in the committed state, and announced
    only if it was not settled before.  Anything else changes nothing. *)
Theorem confirmation_needs_signature now pub payload principal w r w'
    (Hplain : escape_term (invoice_prefix settings) = invoice_prefix settings) (He : in_era now)
    (Hinv : ServiceInv settings (working (w_session w)))
    (Hrun : verify_payment settings hmac now alone pub payload principal w = (r, w')) :
  let d := working (w_session w) in
  let d' := working (w_session w') in
  match r with
  | Raise _ => w' = w /\ forall user o, user_uuid principal = Ok user -> ~ confirms user payload d o
  | Ok (o', ev) =>
      committed (w_session w') = d' /\ ServiceInv settings d' /\
      exists user o, user_uuid principal = Ok user /\ confirms user payload d o /\
        orders d' !! pv_order_id payload = Some o' /\ settled o' = true /\
        if settled o then o' = o /\ ev = [] /\ only_payments d d' else o' = set_paid now o
  end.
Proof.
  cbv zeta. destruct (verify_payment_eq now alone pub payload principal w) as [(user & o & Hu & Hc & Heq)|[Hno (e & Heq)]].
  2:{ rewrite Heq in Hrun. by injection Hrun as <- <-. }
  rewrite Heq in Hrun. pose proof (cf_order _ _ _ _ Hc) as Ho.
  assert (Hid : o_id o = pv_order_id payload) by (apply (oi_keyed _ (si_orders _ _ Hinv) _ _ Ho)).
  apply bind_inv in Hrun as [(res & w1 & (d1 & Hset & ->)%on_db_inv & H)|(e & (d1 & Hset & ->)%on_db_inv & ->)];
    apply settle_spec in Hset as (Hinv1 & p & Hp & Hisp & Hcase); try done; try (by rewrite Hid).
  - cbn in H. injection H as <- <-. cbn [w_session committed working]. split; [done|]. split; [done|].
    exists user, o. do 2 (split; [done|]). destruct (settled o) eqn:Hs.
    + destruct Hcase as [[= ->] Hf]. cbn [sr_order]. rewrite Hf. cbn [orders set_payments]. split; [done|].
      split; [done|]. split; [done|]. split; [by destruct pub|]. by rewrite <- Hf.
    + destruct Hcase as (i & [= ->] & Hord & _). cbn [sr_order]. rewrite Hord, Hid.
      split; [apply lookup_insert_eq|]. split; [apply settled_status; auto|done].
  - exfalso. destruct (settled o); [by destruct Hcase|]. by destruct Hcase as (i & [=] & _).
Qed.
End spec.

(** ** The properties on concrete requests *)

Lemma empty_service_inv st : ServiceInv st empty_db.
Proof.
  constructor.
  - exact empty_orders_inv.
  - apply empty_invoices_inv.
  - exact empty_affiliates_inv.
  - split; [apply keyed_empty|apply unique_empty].
  - intros k i H. exfalso. change (invoices empty_db) with (∅ : table Invoice) in H. by rewrite lookup_empty in H.
  - intros k c H. exfalso. change (conversions empty_db) with (∅ : table AffiliateConversion) in H.
    by rewrite lookup_empty in H.
Qed.

Definition catalogue_with_free (ids : list uuid) : result json :=
  Ok (JObj [("items", JList [sample_book 1 49900; sample_book 2 0])]).
Definition answering_http (p : PaymentProvider) : http_client :=
  fun _ _ _ => Success (Ok (JObj [("id", JStr "order_G1")])).
Definition buyer : Principal := mkPrincipal (string_of_uuid 7) (Some "asha@example.com").
Definition cart_of (book : uuid) : OrderCreate :=
  mkOrderCreate [mkItemIn book 1] None None "INR" None None None None (Some "https://shop.example/thanks").
Definition empty_world : World := mkWorld (Session empty_db empty_db) ∅ ∅.
Definition some_draws : list nat := [1; 2; 3; 4; 5; 6; 7; 8]%nat.

Definition place (payload : OrderCreate) (key : option string) : M World (CheckoutSession * list event) :=
  create_order live_settings false false false (Some catalogue_with_free) None answering_http id (fun _ => "json")
    (fun _ => true) "payment" 86400 sample_now sample_now id alone some_draws (Some (fun _ => true)) payload buyer key.

Definition free_placed := place (cart_of 2) (Some "k1") empty_world.
Definition paid_placed := place (cart_of 1) (Some "k1") empty_world.

Definition seen (r : result (CheckoutSession * list event)) : option (OrderStatus * PaymentProvider * Z * list string) :=
  match r with
  | Ok (cs, ev) => Some (o_status (cs_order cs), cs_provider cs, cs_amount_minor cs, map fst ev)
  | Raise _ => None
  end.

Example free_order : seen free_placed.1 = Some (PAID, MANUAL, 0, ["payment.succeeded"; "order.paid"]).
Proof. vm_compute. reflexivity. Qed.
Example paid_order : seen paid_placed.1 = Some (AWAITING_PAYMENT, RAZORPAY, 49900, []).
Proof. vm_compute. reflexivity. Qed.

(** A customer who asks for the manual gateway is given the book. *)
Example manual_request_is_paid :
  seen (place (mkOrderCreate [mkItemIn 1 1] None (Some MANUAL) "INR" None None None None None) None empty_world).1 =
    Some (PAID, MANUAL, 49900, ["payment.succeeded"; "order.paid"]).
Proof. vm_compute. reflexivity. Qed.

Lemma paid_ok : exists cs ev w1, paid_placed = (Ok (cs, ev), w1).
Proof. destruct paid_placed as [[[cs ev]|e] w1] eqn:E; [eauto|]. exfalso. vm_compute in E. discriminate. Qed.
Lemma free_ok : exists cs ev w1, free_placed = (Ok (cs, ev), w1).
Proof. destruct free_placed as [[[cs ev]|e] w1] eqn:E; [eauto|]. exfalso. vm_compute in E. discriminate. Qed.
Lemma placed_inv payload key cs ev w1 : place payload key empty_world = (Ok (cs, ev), w1) ->
  ServiceInv live_settings (working (w_session w1)).
Proof.
  intros H. apply create_order_ok in H as (u & _ & [(o & _ & _ & _ & ->)|(o & d1 & sec & _ & _ & Hs & _)]).
  - apply empty_service_inv.
  - exact Hs.
  - reflexivity.
  - exact (proj1 sample_now_era).
  - apply empty_service_inv.
Qed.


Definition gateway_down : result (CheckoutSession * list event) * World :=
  in_request (create_order live_settings false false false (Some catalogue_with_free) None
    (fun _ _ _ _ => Unreachable) id (fun _ => "json") (fun _ => true) "payment" 86400 sample_now sample_now id
    alone some_draws (Some (fun _ => true)) (cart_of 1) buyer (Some "k1")) empty_world.

Lemma failed_checkout_leaves_nothing_witness :
  exists e, gateway_down.1 = Raise e /\
    working (w_session gateway_down.2) = committed (w_session gateway_down.2) /\
    orders (committed (w_session gateway_down.2)) = ∅ /\ w_keys gateway_down.2 = ∅.
Proof.
  destruct gateway_down as [[r|e] w'] eqn:E; [exfalso; vm_compute in E; discriminate|].
  destruct (failed_checkout_leaves_nothing live_settings false false false (Some catalogue_with_free) None
    (fun _ _ _ _ => Unreachable) id (fun _ => "json") (fun _ => true) "payment" 86400 sample_now sample_now id
    alone some_draws (Some (fun _ => true)) (cart_of 1) buyer (Some "k1") empty_world e w' eq_refl
    empty_orders_inv E) as [Hw _].
  exists e. split; [reflexivity|]. split; [exact Hw|].
  assert (Ew : w' = gateway_down.2) by (rewrite E; reflexivity). rewrite Ew.
  split; vm_compute; reflexivity.
Defined.

Lemma new_order_paid_or_awaiting_witness :
  exists cs ev w1, free_placed = (Ok (cs, ev), w1) /\ o_status (cs_order cs) = PAID /\
    orders (working (w_session w1)) = {[ o_id (cs_order cs) := cs_order cs ]} /\
    committed (w_session w1) = working (w_session w1).
Proof.
  destruct free_ok as (cs & ev & w1 & E). exists cs, ev, w1. split; [exact E|].
  destruct (new_order_paid_or_awaiting live_settings false false false (Some catalogue_with_free) None answering_http
    id (fun _ => "json") (fun _ => true) "payment" 86400 sample_now sample_now id some_draws (Some (fun _ => true))
    (cart_of 2) buyer (Some "k1") empty_world cs ev w1 7%N eq_refl (proj1 sample_now_era) (empty_service_inv _))
    as (Hc & _ & _ & Ho & _ & _ & Hs).
  - vm_compute. reflexivity.
  - vm_compute. reflexivity.
  - exact E.
  - assert (Ht : seen free_placed.1 = Some (PAID, MANUAL, 0, ["payment.succeeded"; "order.paid"]))
      by exact free_order.
    rewrite E in Ht. cbn [fst seen] in Ht. injection Ht as Hst _ _ _.
    split; [exact Hst|]. split; [rewrite Ho; apply insert_empty|exact Hc].
Defined.

Definition confirmation : PaymentVerifyRequest :=
  mkVerify 1 RAZORPAY "order_G1" "pay_1" (plain_hmac "ks" "order_G1|pay_1").
Definition confirm (c : PaymentVerifyRequest) (w : World) : result (Order * list event) * World :=
  verify_payment live_settings plain_hmac sample_now alone (Some (fun _ => true)) c buyer w.

Lemma confirmation_needs_signature_witness :
  exists o ev, (confirm confirmation paid_placed.2).1 = Ok (o, ev) /\ settled o = true /\
    orders (working (w_session (confirm confirmation paid_placed.2).2)) !! 1%N = Some o.
Proof.
  destruct paid_ok as (cs & ev0 & w1 & E). pose proof (placed_inv _ _ _ _ _ E) as Hinv.
  assert (Ew : w1 = paid_placed.2) by (rewrite E; reflexivity). rewrite Ew in Hinv.
  pose proof (confirmation_needs_signature live_settings plain_hmac sample_now (Some (fun _ => true)) confirmation
    buyer paid_placed.2 (confirm confirmation paid_placed.2).1 (confirm confirmation paid_placed.2).2 eq_refl
    (proj1 sample_now_era) Hinv (surjective_pairing _)) as H.
  destruct (confirm confirmation paid_placed.2) as [[[o ev]|e] w'] eqn:Ec;
    [|exfalso; vm_compute in Ec; discriminate].
  destruct H as (_ & _ & user & o1 & _ & _ & Ho & Hs & _).
  exists o, ev. split; [reflexivity|]. split; [exact Hs|exact Ho].
Defined.

Example forged_confirmation :
  (confirm (mkVerify 1 RAZORPAY "order_G1" "pay_1" "forged") paid_placed.2).1 =
    Raise (AppErr BadRequestError "invalid_payment_signature") /\
  (confirm (mkVerify 1 RAZORPAY "order_G2" "pay_1" (plain_hmac "ks" "order_G2|pay_1")) paid_placed.2).1 =
    Raise (AppErr BadRequestError "order_reference_mismatch").
Proof. split; vm_compute; reflexivity. Qed.

(** The key is unique across customers, and an empty header is stored as a key:
    the second request is refused for ever. *)
Definition other_buyer : Principal := mkPrincipal (string_of_uuid 8) None.
Definition place_as (who : Principal) (key : option string) (draws : list nat) : M World (CheckoutSession * list event) :=
  create_order live_settings false false false (Some catalogue_with_free) None answering_http id (fun _ => "json")
    (fun _ => true) "payment" 86400 sample_now sample_now id alone draws None (cart_of 1) who key.

Example key_shared_by_customers :
  (place_as other_buyer (Some "k1") [2; 2; 2]%nat paid_placed.2).1 =
    Raise (AppErr ConflictError "order_create_conflict") /\
  is_ok (place_as other_buyer (Some "k2") [2; 2; 2]%nat paid_placed.2).1 = true.
Proof. split; vm_compute; reflexivity. Qed.

Example empty_key_collides :
  is_ok (place_as buyer (Some "") [1; 1; 1]%nat empty_world).1 = true /\
  (place_as buyer (Some "") [2; 2; 2]%nat (place_as buyer (Some "") [1; 1; 1]%nat empty_world).2).1 =
    Raise (AppErr ConflictError "order_create_conflict").
Proof. split; vm_compute; reflexivity. Qed.
