(* ===== verification/Events.v ===== *)
(** * The event bus (packages/core-py/knowledgeos_core/events.py)

    The envelope and its wire form, and one consumer group on the Redis stream:
    what has been delivered and not acknowledged, what was parked, and the
    state the handlers work on.  Text is ASCII; orjson is a parameter. *)

From S2P Require Import Prelude Store Json Dates.

(** ** The envelope *)

Record Event := mkEnvelope {
  e_type : string;
  e_payload : json;
  e_id : string;
  e_source : string;
  e_correlation_id : option string;
  e_occurred_at : string;
  e_version : Z;
}.

Abbreviation wire := (list (string * string)).

Section envelope.
Context (dumps : json -> string) (loads : string -> option json).
(** What [__post_init__] draws: a UUID, the time, the request in progress. *)
Context (fresh_id stamp : string) (request_id : option string).

Definition post_init (e : Event) : Event :=
  {| e_type := e_type e; e_payload := e_payload e;
     e_id := if String.eqb (e_id e) "" then fresh_id else e_id e;
     e_source := e_source e;
     e_correlation_id := match e_correlation_id e with None => request_id | c => c end;
     e_occurred_at := if String.eqb (e_occurred_at e) "" then stamp else e_occurred_at e;
     e_version := e_version e |}.

Definition to_fields (e : Event) : wire :=
  [("id", e_id e); ("type", e_type e); ("source", e_source e); ("version", str_of_Z (e_version e));
   ("occurred_at", e_occurred_at e); ("correlation_id", default "" (e_correlation_id e));
   ("payload", dumps (e_payload e))].

Definition field (k : string) (fields : wire) : option string :=
  snd <$> List.find (fun kv => String.eqb kv.1 k) fields.

(** [fields.get(key, b"").decode() or default] *)
Definition get_field (k d : string) (fields : wire) : string :=
  let v := default "" (field k fields) in if String.eqb v "" then d else v.

(** A version that is not a number is a ValueError. *)
Definition from_fields (fields : wire) : result Event :=
  let raw := default "{}" (field "payload" fields) in
  let payload := match loads raw with Some v => v | None => JObj [("_malformed", JStr raw)] end in
  match py_int 10 (get_field "version" "1" fields) with
  | None => Raise ValueErr
  | Some version =>
      Ok (post_init
        {| e_type := get_field "type" "" fields; e_payload := payload; e_id := get_field "id" "" fields;
           e_source := get_field "source" "" fields;
           e_correlation_id := (let c := get_field "correlation_id" "" fields in
                                if String.eqb c "" then None else Some c);
           e_occurred_at := get_field "occurred_at" "" fields; e_version := version |})
  end.
End envelope.

(** ** One consumer group *)

Section bus.
Context {S : Type}.

(** Entries with their ids; the last id delivered to the group; the pending
    list, each entry with the consumer that holds it and the number of
    deliveries; the dead letters, each with the id of
    the entry it was; the handlers' state.  [b_handled] is a history variable:
    the entries acknowledged because their handlers returned. *)
Record bus := mkBus {
  b_stream : list (N * wire);
  b_last : N;
  b_pending : gmap N (string * Z);
  b_dead : list (N * wire);
  b_handled : list N;
  b_app : S;
}.

Definition set_pending p b := mkBus (b_stream b) (b_last b) p (b_dead b) (b_handled b) (b_app b).
Definition set_app s b := mkBus (b_stream b) (b_last b) (b_pending b) (b_dead b) (b_handled b) s.
Definition xack (i : N) (b : bus) : bus := set_pending (delete i (b_pending b)) b.
Definition handled (i : N) (b : bus) : bus :=
  mkBus (b_stream b) (b_last b) (b_pending b) (b_dead b) (b_handled b ++ [i]) (b_app b).
Definition park (i : N) (fields : wire) (b : bus) : bus :=
  mkBus (b_stream b) (b_last b) (b_pending b) (b_dead b ++ [(i, fields)]) (b_handled b) (b_app b).

(** XADD, under an id that Redis makes larger than every id in the stream. *)
Definition xadd (i : N) (fields : wire) (b : bus) : bus :=
  mkBus (b_stream b ++ [(i, fields)]) (b_last b) (b_pending b) (b_dead b) (b_handled b) (b_app b).

Definition handler : Type := Event -> M S unit.
Context (handlers : list (string * list handler)).
(** [Event.from_fields] and [to_fields]; [str(exc)]; the group's name. *)
Context (decode : wire -> result Event) (encode : Event -> wire) (describe : exn -> string) (group : string).
Context (max_attempts : Z).

(** [on]: append to the list of the event type. *)
Definition on (k : string) (h : handler) : list (string * list handler) :=
  (fix go l :=
     match l with
     | [] => [(k, [h])]
     | kv :: l => if String.eqb kv.1 k then (kv.1, kv.2 ++ [h]) :: l else kv :: go l
     end) handlers.

Definition registered (k : string) : list handler :=
  match List.find (fun kv => String.eqb kv.1 k) handlers with Some kv => kv.2 | None => [] end.

(** [publish], where Redis either answers with the entry's id or raises. *)
Definition publish (answer : result N) (e : Event) : M bus string := fun b =>
  match answer with
  | Ok i => (Ok (e_id e), xadd i (encode e) b)
  | Raise x => (Raise x, b)
  end.

(** Every handler of the type, then those of ["*"]; the first exception stops. *)
Definition dispatch (e : Event) : M S unit :=
  for_each (fun h => h e) (registered (e_type e) ++ registered "*").

(** [_handle_message]: the envelope is decoded outside the [try]. *)
Definition handle_message (i : N) (fields : wire) : M bus unit := fun b =>
  match decode fields with
  | Raise x => (Raise x, b)
  | Ok e =>
      match dispatch e (b_app b) with
      | (Ok _, s) => (Ok tt, xack i (handled i (set_app s b)))
      | (Raise x, s) =>
          let b := set_app s b in
          let attempts := from_option snd 1 (b_pending b !! i) in
          if max_attempts <=? attempts
          then (Ok tt, xack i (park i (encode e ++ [("error", stake 2000 (describe x)); ("group", group)]) b))
          else (Ok tt, b)
      end
  end.

(** XREADGROUP [>]: up to [count] entries after the last one delivered, each
    pending with one delivery. *)
Definition fresh_entries (count : nat) (b : bus) : list (N * wire) :=
  take count (List.filter (fun kv => (b_last b <? kv.1)%N) (b_stream b)).
Definition read_group (who : string) (count : nat) (b : bus) : list (N * wire) * bus :=
  let got := fresh_entries count b in
  (got, mkBus (b_stream b) (foldl N.max (b_last b) (map fst got))
          (foldl (fun p kv => <[kv.1 := (who, 1)]> p) (b_pending b) got) (b_dead b) (b_handled b) (b_app b)).

(** XAUTOCLAIM: up to [count] pending entries that are idle, from the oldest
    on, each with one delivery more and held by the claimer. *)
Definition idle_entries (idle : N -> bool) (count : nat) (b : bus) : list (N * wire) :=
  take count (List.filter (fun kv => bool_decide (is_Some (b_pending b !! kv.1)) && idle kv.1) (b_stream b)).
Definition claim_idle (who : string) (idle : N -> bool) (count : nat) (b : bus) : list (N * wire) * bus :=
  let got := idle_entries idle count b in
  (got, set_pending (foldl (fun p kv => alter (fun d => (who, d.2 + 1)) kv.1 p) (b_pending b) got) b).

Definition handle_all (batch : list (N * wire)) : M bus unit :=
  for_each (fun kv => handle_message kv.1 kv.2) batch.

(** The two halves of [_loop]; an exception ends the tick and is logged. *)
Definition read_new (who : string) (count : nat) (b : bus) : result unit * bus :=
  let '(got, b) := read_group who count b in handle_all got b.
Definition reclaim_stalled (who : string) (idle : N -> bool) (count : nat) (b : bus) : result unit * bus :=
  let '(got, b) := claim_idle who idle count b in
  handle_all (List.filter (fun kv => negb (bool_decide (kv.2 = []))) got) b.

(** [stop]: XGROUP DELCONSUMER, which drops what the consumer holds from the
    pending list. *)
Definition stop (who : string) (b : bus) : bus :=
  set_pending (filter (fun kv => kv.2.1 <> who) (b_pending b)) b.

(** ** Steps of the group

    Replicas interleave: one may still hold an entry that another has
    reclaimed, and any replica may die between reading and acknowledging.  So
    reading, claiming and handling are steps of their own, and whatever was
    delivered once can be handled at any later time. *)

Inductive bus_step : bus -> bus -> Prop :=
  | bs_add i fields b :
      Forall (fun kv => (kv.1 < i)%N) (b_stream b) -> (b_last b < i)%N -> bus_step b (xadd i fields b)
  | bs_read who count b : bus_step b (read_group who count b).2
  | bs_claim who idle count b : bus_step b (claim_idle who idle count b).2
  | bs_handle i fields b :
      (i, fields) ∈ b_stream b -> (i <= b_last b)%N -> bus_step b (handle_message i fields b).2.

Definition empty_bus (s : S) : bus := mkBus [] 0 ∅ [] [] s.

(** Where an entry can be: not read yet, pending, handled or parked. *)
Record bus_ok (b : bus) : Prop := {
  bo_sorted : StronglySorted N.lt (map fst (b_stream b));
  bo_kept : forall i, i ∈ map fst (b_stream b) -> (i <= b_last b)%N ->
              is_Some (b_pending b !! i) \/ i ∈ b_handled b \/ i ∈ map fst (b_dead b);
  bo_handled : forall i, i ∈ b_handled b -> exists fields e s s',
      (i, fields) ∈ b_stream b /\ decode fields = Ok e /\ dispatch e s = (Ok tt, s');
  bo_parked : forall i w, (i, w) ∈ b_dead b -> exists fields e s s' x,
      (i, fields) ∈ b_stream b /\ decode fields = Ok e /\ dispatch e s = (Raise x, s') /\
      w = encode e ++ [("error", stake 2000 (describe x)); ("group", group)];
}.

Lemma empty_bus_ok s : bus_ok (empty_bus s).
Proof. constructor; cbn; try set_solver. constructor. Qed.

Lemma handle_message_inv i fields b r b' : handle_message i fields b = (r, b') ->
  (b' = b /\ exists x, decode fields = Raise x /\ r = Raise x) \/
  (exists e u s', r = Ok tt /\ decode fields = Ok e /\ dispatch e (b_app b) = (Ok u, s') /\
     b' = xack i (handled i (set_app s' b))) \/
  (exists e x s', r = Ok tt /\ decode fields = Ok e /\ dispatch e (b_app b) = (Raise x, s') /\
     if max_attempts <=? from_option snd 1 (b_pending b !! i)
     then b' = xack i (park i (encode e ++ [("error", stake 2000 (describe x)); ("group", group)]) (set_app s' b))
     else b' = set_app s' b).
Proof.
  unfold handle_message. destruct (decode fields) as [e|x]; [|intros [= <- <-]; left; eauto].
  destruct (dispatch e (b_app b)) as [[u|x] s'] eqn:Hd; cbn [b_pending set_app].
  - intros [= <- <-]. right. left. eauto 10.
  - destruct (_ <=? _) eqn:Hm; intros [= <- <-]; right; right; exists e, x, s'; rewrite ?Hm; done.
Qed.

Lemma foldl_insert_lookup who (got : list (N * wire)) (p : gmap N (string * Z)) i :
  foldl (fun p kv => <[kv.1 := (who, 1)]> p) p got !! i = if decide (i ∈ map fst got) then Some (who, 1) else p !! i.
Proof.
  revert p. induction got as [|kv got IH]; intros p; cbn [foldl map]; [done|]. rewrite IH.
  destruct (decide (i ∈ map fst got)), (decide (i ∈ kv.1 :: map fst got)) as [Hin|Hin]; try done.
  - exfalso. apply Hin. by right.
  - apply elem_of_cons in Hin as [->|?]; [by rewrite lookup_insert_eq|done].
  - rewrite lookup_insert_ne; [done|]. intros <-. apply Hin. left.
Qed.

Lemma foldl_alter_lookup who (got : list (N * wire)) (p : gmap N (string * Z)) i : NoDup (map fst got) ->
  foldl (fun p kv => alter (fun d => (who, d.2 + 1)) kv.1 p) p got !! i =
  if decide (i ∈ map fst got) then (fun d => (who, d.2 + 1)) <$> p !! i else p !! i.
Proof.
  revert p. induction got as [|kv got IH]; intros p Hn; cbn [foldl map]; [done|].
  cbn [map] in Hn. apply NoDup_cons in Hn as [Hni Hn]. rewrite IH by done.
  destruct (decide (i = kv.1)) as [->|Hne].
  - rewrite decide_False by done. rewrite decide_True by left. by rewrite lookup_alter_eq.
  - rewrite lookup_alter_ne by done.
    destruct (decide (i ∈ map fst got)), (decide (i ∈ kv.1 :: map fst got)) as [Hin|Hin]; try done.
    + exfalso. apply Hin. by right.
    + by apply elem_of_cons in Hin as [|].
Qed.

Lemma foldl_max_le (l : list N) m : (m <= foldl N.max m l)%N /\ Forall (fun i => (i <= foldl N.max m l)%N) l.
Proof.
  revert m. induction l as [|i l IH]; intros m; cbn [foldl]; [split; [lia|constructor]|].
  destruct (IH (N.max m i)) as [H1 H2]. split; [lia|]. constructor; [lia|done].
Qed.

Lemma sorted_filter (P : N * wire -> bool) l :
  StronglySorted N.lt (map fst l) -> StronglySorted N.lt (map fst (List.filter P l)).
Proof.
  induction l as [|kv l IH]; [done|]. cbn [map List.filter]. intros [Hs Hf]%StronglySorted_inv.
  destruct (P kv); [|auto]. cbn [map]. constructor; [auto|].
  rewrite Forall_forall in *. intros i (kw & -> & Hw)%list_elem_of_fmap. apply Hf, list_elem_of_fmap_2.
  apply list_elem_of_In in Hw. apply filter_In in Hw as [Hw _]. by apply list_elem_of_In.
Qed.

(** What the prefix of a sorted list leaves out is larger. *)
Lemma sorted_take_lt count (l : list (N * wire)) i j : StronglySorted N.lt (map fst l) ->
  i ∈ map fst l -> i ∉ map fst (take count l) -> j ∈ map fst (take count l) -> (j < i)%N.
Proof.
  revert count. induction l as [|kv l IH]; intros [|count] Hs; cbn [take map];
    try (by intros []%not_elem_of_nil); [by intros _ _ []%not_elem_of_nil|].
  apply StronglySorted_inv in Hs as [Hs Hf]. rewrite Forall_forall in Hf. cbn [map].
  intros [->|Hi]%elem_of_cons Hni Hj; [exfalso; apply Hni; left|].
  apply elem_of_cons in Hj as [->|Hj]; [by apply Hf|].
  apply (IH count); try done. intros Hin. apply Hni. by right.
Qed.

Lemma foldl_max_cases l m : foldl N.max m l = m \/ foldl N.max m l ∈ l.
Proof.
  revert m. induction l as [|i l IH]; intros m; cbn [foldl]; [by left|].
  destruct (IH (N.max m i)) as [->|H]; [|right; by right].
  destruct (N.max_spec m i) as [[_ ->]|[_ ->]]; [right; left|by left].
Qed.

Lemma elem_of_filter_List {A} (P : A -> bool) l x : x ∈ List.filter P l <-> x ∈ l /\ P x = true.
Proof. by rewrite !list_elem_of_In, filter_In. Qed.

Lemma read_group_ok who count b : bus_ok b -> bus_ok (read_group who count b).2.
Proof.
  intros [Hs Hk Hh Hp]. unfold read_group. cbn [snd]. set (got := fresh_entries count b).
  constructor; cbn; try done. intros i Hi Hle. rewrite foldl_insert_lookup.
  destruct (decide (i ∈ map fst got)) as [|Hni]; [left; by eexists|].
  apply Hk; [done|]. destruct (N.le_gt_cases i (b_last b)) as [|Hgt]; [done|exfalso].
  assert (Hfil : i ∈ map fst (List.filter (fun kv => (b_last b <? kv.1)%N) (b_stream b))).
  { apply list_elem_of_fmap in Hi as (kv & -> & Hkv). apply list_elem_of_fmap_2, elem_of_filter_List.
    split; [done|]. by apply N.ltb_lt. }
  destruct (foldl_max_cases (map fst got) (b_last b)) as [E|Hin]; [rewrite E in Hle; lia|].
  unfold got, fresh_entries in *. pose proof (sorted_take_lt count _ i _ (sorted_filter _ _ Hs) Hfil Hni Hin). lia.
Qed.

Lemma claim_idle_ok who idle count b : bus_ok b -> bus_ok (claim_idle who idle count b).2.
Proof.
  intros [Hs Hk Hh Hp]. unfold claim_idle. cbn [snd]. constructor; cbn; try done.
  intros i Hi Hle. destruct (Hk i Hi Hle) as [Hpend|]; [left|by right].
  generalize (idle_entries idle count b). intros got. revert Hpend. generalize (b_pending b).
  induction got as [|kv got IH]; intros p Hpend; cbn [foldl]; [done|]. apply IH. by apply lookup_alter_is_Some.
Qed.

Lemma handle_message_ok i fields b : bus_ok b -> (i, fields) ∈ b_stream b -> bus_ok (handle_message i fields b).2.
Proof.
  intros Hok Hin. destruct (handle_message i fields b) as [r b'] eqn:H. cbn [snd].
  destruct Hok as [Hs Hk Hh Hp].
  apply handle_message_inv in H as [[-> _]|[(e & [] & s' & _ & Hd & He & ->)|(e & x & s' & _ & Hd & He & H)]];
    [by constructor| |].
  - constructor; cbn; try done.
    + intros j Hj Hle. destruct (decide (i = j)) as [->|Hne].
      { right. left. apply elem_of_app. right. by constructor. }
      rewrite lookup_delete_ne by done.
      destruct (Hk j Hj Hle) as [|[|]]; [by left|right; left; apply elem_of_app; by left|right; by right].
    + intros j [Hj| ->%list_elem_of_singleton]%elem_of_app; [by apply Hh|]. exists fields, e, (b_app b), s'. done.
  - destruct (_ <=? _); subst b'; [|by constructor]. constructor; cbn; try done.
    + intros j Hj Hle. rewrite map_app. destruct (decide (i = j)) as [->|Hne].
      { right. right. apply elem_of_app. right. by constructor. }
      rewrite lookup_delete_ne by done.
      destruct (Hk j Hj Hle) as [|[|]]; [by left|right; by left|right; right; apply elem_of_app; by left].
    + intros j w [Hj|[= -> ->]%list_elem_of_singleton]%elem_of_app; [by apply Hp|].
      exists fields, e, (b_app b), s', x. done.
Qed.

Lemma sorted_snoc l i : StronglySorted N.lt l -> Forall (fun j => (j < i)%N) l -> StronglySorted N.lt (l ++ [i]).
Proof.
  induction 1 as [|j l Hs IH Hf]; intros Hi; cbn; [repeat constructor|].
  apply Forall_cons in Hi as [Hj Hi]. constructor; [auto|]. apply Forall_app. split; [done|by constructor].
Qed.

Lemma bus_step_ok b b' : bus_ok b -> bus_step b b' -> bus_ok b'.
Proof.
  intros Hok Hstep. destruct Hstep as [i fields b Hlt Hlast|who count b|who idle count b|i fields b Hin Hle].
  - destruct Hok as [Hs Hk Hh Hp]. constructor; cbn.
    + rewrite map_app. apply sorted_snoc; [done|]. by apply Forall_map.
    + intros j. rewrite map_app. intros [Hj| ->%list_elem_of_singleton]%elem_of_app Hle; [by apply Hk|]. cbn in Hle. lia.
    + intros j Hj. destruct (Hh j Hj) as (f & e & s & s' & Hf & H). exists f, e, s, s'. split; [apply elem_of_app; by left|done].
    + intros j w Hj. destruct (Hp j w Hj) as (f & e & s & s' & x & Hf & H). exists f, e, s, s', x. split; [apply elem_of_app; by left|done].
  - by apply read_group_ok.
  - by apply claim_idle_ok.
  - by apply handle_message_ok.
Qed.

Lemma bus_steps_ok b b' : bus_ok b -> rtc bus_step b b' -> bus_ok b'.
Proof. intros Hok H. induction H; eauto using bus_step_ok. Qed.

(** ** A message whose handlers never succeed *)

Lemma handle_message_other i j fields b : i <> j ->
  b_pending (handle_message j fields b).2 !! i = b_pending b !! i /\
  (i ∈ map fst (b_dead (handle_message j fields b).2) <-> i ∈ map fst (b_dead b)) /\
  b_stream (handle_message j fields b).2 = b_stream b.
Proof.
  intros Hne. destruct (handle_message j fields b) as [r b'] eqn:H. cbn [snd].
  apply handle_message_inv in H as [[-> _]|[(e & u & s' & _ & _ & _ & ->)|(e & x & s' & _ & _ & _ & H)]]; [done| |].
  - cbn. by rewrite lookup_delete_ne.
  - destruct (_ <=? _); subst b'; [|done]. cbn. rewrite lookup_delete_ne by done. split; [done|]. split; [|done].
    rewrite map_app, elem_of_app. cbn. split; [intros [| ->%list_elem_of_singleton]; done|by left].
Qed.

Lemma handle_all_other i batch b : i ∉ map fst batch ->
  b_pending (handle_all batch b).2 !! i = b_pending b !! i /\
  (i ∈ map fst (b_dead (handle_all batch b).2) <-> i ∈ map fst (b_dead b)) /\
  b_stream (handle_all batch b).2 = b_stream b.
Proof.
  revert b. induction batch as [|kv batch IH]; intros b Hni; [done|].
  cbn [map] in Hni. apply not_elem_of_cons in Hni as [Hne Hni].
  destruct (handle_message_other i kv.1 kv.2 b Hne) as (H1 & H2 & H3).
  unfold handle_all in *. cbn [for_each]. unfold mbind, M_bind.
  destruct (handle_message kv.1 kv.2 b) as [[u|x] b1]; cbn [snd] in *; [|done].
  destruct (IH b1 Hni) as (H4 & H5 & H6). by rewrite H4, H5, H6.
Qed.

Context (i : N) (fields : wire) (e : Event).
Hypothesis Hdecodes : decode fields = Ok e.
Hypothesis Hfails : forall s, exists x s', dispatch e s = (Raise x, s').

Lemma handle_poison d b : b_pending b !! i = Some d ->
  exists b', handle_message i fields b = (Ok tt, b') /\ b_stream b' = b_stream b /\
    if max_attempts <=? d.2 then b_pending b' !! i = None /\ i ∈ map fst (b_dead b')
    else b_pending b' !! i = Some d.
Proof.
  intros Hn. destruct (Hfails (b_app b)) as (x & s' & Hd). unfold handle_message. rewrite Hdecodes, Hd.
  cbn [b_pending set_app]. rewrite Hn. cbn [from_option]. destruct (max_attempts <=? d.2).
  - eexists. split; [done|]. split; [done|]. cbn. split; [apply lookup_delete_eq|].
    rewrite map_app, elem_of_app. right. by constructor.
  - eexists. split; [done|]. done.
Qed.

Lemma handle_message_decodes j w b : is_ok (decode w) = true -> exists b', handle_message j w b = (Ok tt, b').
Proof.
  intros Hk. destruct (handle_message j w b) as [r b1] eqn:H. exists b1.
  apply handle_message_inv in H as [(_ & x & Hx & _)|[(? & ? & ? & -> & _)|(? & ? & ? & -> & _)]]; [|done..].
  by rewrite Hx in Hk.
Qed.

Lemma handle_all_cons j w batch b b1 :
  handle_message j w b = (Ok tt, b1) -> handle_all ((j, w) :: batch) b = handle_all batch b1.
Proof. intros H. unfold handle_all. cbn [for_each fst snd]. unfold mbind, M_bind. by rewrite H. Qed.

Lemma handle_all_poison d batch b :
  NoDup (map fst batch) -> (i, fields) ∈ batch -> b_pending b !! i = Some d ->
  Forall (fun kv => is_ok (decode kv.2) = true) batch ->
  let b' := (handle_all batch b).2 in b_stream b' = b_stream b /\
  if max_attempts <=? d.2 then b_pending b' !! i = None /\ i ∈ map fst (b_dead b')
  else b_pending b' !! i = Some d.
Proof.
  revert b. induction batch as [|[j w] batch IH]; intros b Hnd Hin Hn Hdec; [by apply not_elem_of_nil in Hin|].
  cbn [map fst] in Hnd. apply NoDup_cons in Hnd as [Hni Hnd]. apply Forall_cons in Hdec as [Hw Hdec]. cbn [snd] in Hw.
  apply elem_of_cons in Hin as [[= <- <-]|Hin].
  - destruct (handle_poison d b Hn) as (b1 & H & Hst & Hb1). rewrite (handle_all_cons _ _ _ _ _ H).
    destruct (handle_all_other i batch b1 Hni) as (H1 & H2 & H3). cbv zeta. rewrite H1, H3. split; [done|]. destruct (_ <=? _); [|done]. by rewrite H2.
  - assert (Hne : i <> j) by (intros ->; apply Hni; change j with (j, fields).1; by apply list_elem_of_fmap_2).
    destruct (handle_message_decodes j w b Hw) as [b1 Hb1]. rewrite (handle_all_cons _ _ _ _ _ Hb1).
    destruct (handle_message_other i j w b Hne) as (H1 & _ & H3). rewrite Hb1 in *. cbn [snd] in *.
    destruct (IH b1 Hnd Hin ltac:(by rewrite H1) Hdec) as [Hs Hr]. cbv zeta. rewrite Hs, H3. done.
Qed.

Lemma handle_all_shrinks batch b :
  dom (b_pending (handle_all batch b).2) ⊆ dom (b_pending b) /\
  (forall j, j ∈ map fst (b_dead b) -> j ∈ map fst (b_dead (handle_all batch b).2)).
Proof.
  revert b. induction batch as [|[j w] batch IH]; intros b; [done|]. unfold handle_all in *. cbn [for_each fst snd].
  unfold mbind, M_bind. destruct (handle_message j w b) as [r b1] eqn:H.
  assert (Hb1 : dom (b_pending b1) ⊆ dom (b_pending b) /\
                forall k, k ∈ map fst (b_dead b) -> k ∈ map fst (b_dead b1)).
  { apply handle_message_inv in H as [[-> _]|[(? & ? & ? & _ & _ & _ & ->)|(? & ? & ? & _ & _ & _ & H)]];
      [done|cbn; rewrite dom_delete_L; set_solver|].
    destruct (_ <=? _); subst b1; [|done]. cbn. rewrite dom_delete_L. split; [set_solver|].
    intros k Hk. rewrite map_app. apply elem_of_app. by left. }
  destruct r as [u|x]; cbn [snd]; [|done]. destruct (IH b1) as [H1 H2], Hb1 as [H3 H4].
  split; [by etrans|auto].
Qed.

Lemma claim_dom who (got : list (N * wire)) (p : gmap N (string * Z)) :
  dom (foldl (fun p kv => alter (fun d => (who, d.2 + 1)) kv.1 p) p got) = dom p.
Proof.
  revert p. induction got as [|kv got IH]; intros p; cbn [foldl]; [done|]. rewrite IH. apply dom_alter_L.
Qed.

Lemma sorted_NoDup l : StronglySorted N.lt l -> NoDup l.
Proof.
  induction 1 as [|k l Hs IH Hf]; [constructor|]. constructor; [|done].
  intros Hin. rewrite Forall_forall in Hf. specialize (Hf k Hin). lia.
Qed.

Lemma entry_unique (l : list (N * wire)) k f g : NoDup (map fst l) -> (k, f) ∈ l -> (k, g) ∈ l -> f = g.
Proof.
  intros Hn Hf Hg. apply (elem_of_list_to_map_1 (M := gmap N) l k f Hn) in Hf.
  apply (elem_of_list_to_map_1 (M := gmap N) l k g Hn) in Hg. congruence.
Qed.

(** A sweep claims every idle entry when it may claim as many as are pending. *)
Lemma idle_entries_all idle count b : StronglySorted N.lt (map fst (b_stream b)) ->
  (size (b_pending b) <= count)%nat ->
  idle_entries idle count b =
    List.filter (fun kv => bool_decide (is_Some (b_pending b !! kv.1)) && idle kv.1) (b_stream b).
Proof.
  intros Hs Hc. unfold idle_entries. apply take_ge. etrans; [|exact Hc].
  set (l := List.filter _ _). rewrite <- (length_map fst l), <- size_dom.
  assert (Hn : NoDup (map fst l)) by (apply sorted_NoDup, sorted_filter, Hs).
  rewrite <- (size_list_to_set (C := gset N) _ Hn). apply subseteq_size. intros j.
  rewrite elem_of_list_to_set, elem_of_dom. intros (kv & -> & Hkv)%list_elem_of_fmap.
  apply elem_of_filter_List in Hkv as [_ [Hp _]%andb_prop]. by apply bool_decide_eq_true in Hp.
Qed.

(** One sweep: the entry has one delivery more, or is parked. *)
Lemma reclaim_poison who idle count d b : StronglySorted N.lt (map fst (b_stream b)) ->
  (size (b_pending b) <= count)%nat -> idle i = true -> fields <> [] -> (i, fields) ∈ b_stream b ->
  Forall (fun kv => is_ok (decode kv.2) = true) (b_stream b) -> b_pending b !! i = Some d ->
  let b' := (reclaim_stalled who idle count b).2 in
  b_stream b' = b_stream b /\ dom (b_pending b') ⊆ dom (b_pending b) /\
  if max_attempts <=? d.2 + 1 then b_pending b' !! i = None /\ i ∈ map fst (b_dead b')
  else b_pending b' !! i = Some (who, d.2 + 1).
Proof.
  intros Hs Hc Hidle Hf Hin Hdec Hd. unfold reclaim_stalled, claim_idle.
  rewrite idle_entries_all by done. set (got := List.filter _ (b_stream b)).
  assert (Hgot : (i, fields) ∈ got) by (apply elem_of_filter_List; split; [done|]; cbn; by rewrite Hd, Hidle).
  assert (Hnd : NoDup (map fst got)) by (apply sorted_NoDup, sorted_filter, Hs).
  set (b1 := set_pending _ b). set (batch := List.filter _ got).
  assert (Hb1 : b_pending b1 !! i = Some (who, d.2 + 1)).
  { cbn. rewrite foldl_alter_lookup by done. rewrite decide_True, Hd; [done|].
    change i with (i, fields).1. by apply list_elem_of_fmap_2. }
  assert (Hb : NoDup (map fst batch)) by (apply sorted_NoDup, sorted_filter, sorted_filter, Hs).
  assert (Hbatch : (i, fields) ∈ batch).
  { apply elem_of_filter_List. split; [done|]. cbn. by rewrite bool_decide_eq_false_2. }
  assert (Hall : Forall (fun kv => is_ok (decode kv.2) = true) batch).
  { apply Forall_forall. intros kv [[Hkv _]%elem_of_filter_List _]%elem_of_filter_List.
    rewrite Forall_forall in Hdec. auto. }
  destruct (handle_all_poison (who, d.2 + 1) batch b1 Hb Hbatch Hb1 Hall) as [H1 H2]. cbv zeta.
  split; [exact H1|]. split; [|exact H2]. etrans; [apply handle_all_shrinks|]. cbn. by rewrite claim_dom.
Qed.

(** Once it is out of the pending list no sweep takes it up again. *)
Lemma reclaim_parked who idle count b : b_pending b !! i = None ->
  let b' := (reclaim_stalled who idle count b).2 in
  b_pending b' !! i = None /\ (i ∈ map fst (b_dead b) -> i ∈ map fst (b_dead b')).
Proof.
  intros Hn. unfold reclaim_stalled, claim_idle. set (b1 := set_pending _ b). set (batch := List.filter _ _).
  destruct (handle_all_shrinks batch b1) as [H1 H2]. cbv zeta. split; [|exact (H2 i)].
  apply not_elem_of_dom. intros Hin. apply H1 in Hin. cbn in Hin. rewrite claim_dom in Hin.
  by apply elem_of_dom in Hin as [? Hin]; rewrite Hn in Hin.
Qed.

(** Sweeps of the reclaim loop, each by some replica. *)
Fixpoint sweeps (whos : list string) (idle : N -> bool) (count : nat) (b : bus) : bus :=
  match whos with
  | [] => b
  | who :: whos => sweeps whos idle count (reclaim_stalled who idle count b).2
  end.

Lemma sweeps_parked whos idle count b : b_pending b !! i = None ->
  b_pending (sweeps whos idle count b) !! i = None /\
  (i ∈ map fst (b_dead b) -> i ∈ map fst (b_dead (sweeps whos idle count b))).
Proof.
  revert b. induction whos as [|who whos IH]; intros b Hn; cbn [sweeps]; [done|].
  destruct (reclaim_parked who idle count b Hn) as [H1 H2]. destruct (IH _ H1) as [H3 H4]. auto.
Qed.

Lemma sweeps_poison whos idle count d b : StronglySorted N.lt (map fst (b_stream b)) ->
  (size (b_pending b) <= count)%nat -> idle i = true -> fields <> [] -> (i, fields) ∈ b_stream b ->
  Forall (fun kv => is_ok (decode kv.2) = true) (b_stream b) -> b_pending b !! i = Some d ->
  whos <> [] -> max_attempts - d.2 <= Z.of_nat (length whos) ->
  b_pending (sweeps whos idle count b) !! i = None /\ i ∈ map fst (b_dead (sweeps whos idle count b)).
Proof.
  revert d b. induction whos as [|who whos IH]; intros d b Hs Hc Hi Hf Hin Hdec Hd Hl Hm; cbn [length] in *; [done|].
  cbn [sweeps]. destruct (reclaim_poison who idle count d b) as (H1 & H2 & H3); try done.
  destruct (max_attempts <=? d.2 + 1) eqn:Hle.
  - destruct H3 as [H3 H4]. destruct (sweeps_parked whos idle count _ H3) as [H5 H6]. auto.
  - apply Z.leb_gt in Hle. eapply IH; rewrite ?H1; try done; cbn [snd]; [|intros ->; cbn in Hm; lia|lia].
    etrans; [|exact Hc]. rewrite <- !size_dom. by apply subseteq_size.
Qed.
End bus.
Arguments bus S : clear implicits.
Arguments handler S : clear implicits.
Arguments empty_bus {S}.
Arguments stop {S}.
Arguments read_group {S}.

(** ** Properties *)

(** the envelope survives the wire — what [from_fields] rebuilds from
    [to_fields] is the event, field by field, the payload included, for an
    event that [__post_init__] completed (an id, a time, and a correlation id
    that is not empty; a publisher outside a request has none, and a consumer
    outside a request adds none). *)
Theorem envelope_roundtrip dumps loads fresh_id stamp request_id e :
  loads (dumps (e_payload e)) = Some (e_payload e) ->
  e_id e <> "" -> e_occurred_at e <> "" -> 0 <= e_version e ->
  (match e_correlation_id e with Some c => c <> "" | None => request_id = None end) ->
  from_fields loads fresh_id stamp request_id (to_fields dumps e) = Ok e.
Proof.
  intros Hload Hid Hat Hv Hc. destruct e as [ty p ident src c at_ v]. cbn in *.
  assert (Hs : str_of_Z v <> "").
  { intros E. pose proof (py_int_pretty v Hv) as Hp. change (py_str_int v) with (str_of_Z v) in Hp. by rewrite E in Hp. }
  assert (Hd : forall s : string, s <> "" -> String.eqb s "" = false) by (intros s; by apply String.eqb_neq).
  assert (Hdef : forall s : string, (if String.eqb s "" then "" else s) = s) by (intros s; by destruct s).
  unfold from_fields, to_fields, get_field. cbn. rewrite Hload, !Hdef, (Hd _ Hs). change (str_of_Z v) with (py_str_int v). rewrite py_int_pretty by done.
  unfold post_init. cbn. rewrite (Hd _ Hid), (Hd _ Hat). do 2 f_equal.
  destruct c as [c|]; cbn; [by rewrite (Hd _ Hc)|by rewrite Hc].
Qed.


(** a poison message is parked — an entry that some handler refuses
    whatever the state, among entries that can be decoded, is on the dead
    letter stream and off the pending list after [max_attempts] deliveries:
    that is after as many sweeps of the reclaim loop as are missing from its
    count, when each may claim as much as is pending. *)
Theorem poison_event_parked {S} (handlers : list (string * list (handler S))) decode encode describe group max_attempts
    (s0 : S) b i fields e who n whos idle count :
  rtc (bus_step handlers decode encode describe group max_attempts) (empty_bus s0) b ->
  (i, fields) ∈ b_stream b -> fields <> [] -> b_pending b !! i = Some (who, n) ->
  decode fields = Ok e -> (forall s, exists x s', dispatch handlers e s = (Raise x, s')) ->
  Forall (fun kv => is_ok (decode kv.2) = true) (b_stream b) ->
  (size (b_pending b) <= count)%nat -> idle i = true ->
  whos <> [] -> max_attempts - n <= Z.of_nat (length whos) ->
  let b' := sweeps handlers decode encode describe group max_attempts whos idle count b in
  b_pending b' !! i = None /\ i ∈ map fst (b_dead b').
Proof.
  intros Hr Hin Hf Hn He Hfail Hdec Hc Hi Hw Hm. apply bus_steps_ok in Hr as [Hs _ _ _]; [|apply empty_bus_ok].
  by apply (sweeps_poison _ _ _ _ _ _ i fields e He Hfail whos idle count (who, n)).
Qed.

(** ** Witnesses and samples *)

Definition toy_dumps (_ : json) : string := "{}".
Definition toy_loads (_ : string) : option json := Some (JObj []).
Definition sample_event : Event := mkEnvelope "order.paid" (JObj []) "e-1" "payment" (Some "req-7") "2025-01-01" 1.
Definition sample_wire : wire := to_fields toy_dumps sample_event.
Definition sample_decode : wire -> result Event := from_fields toy_loads "e-0" "2025-01-02" None.
Definition sample_describe (_ : exn) : string := "boom".
(** A handler that counts and one that always refuses. *)
Definition counting : handler Z := fun _ n => (Ok tt, n + 1).
Definition refusing : handler Z := fun _ n => (Raise ValueErr, n).
Definition sample_step (h : handler Z) : bus Z -> bus Z -> Prop := bus_step (on [] "order.paid" h) sample_decode (to_fields toy_dumps) sample_describe "books" 5.
(** One entry published and read by replica [r1]. *)
Definition delivered_bus : bus Z := (read_group "r1" 20 (xadd 1 sample_wire (empty_bus 0))).2.

Lemma delivered_reachable h : rtc (sample_step h) (empty_bus 0) delivered_bus.
Proof.
  apply rtc_l with (xadd 1 sample_wire (empty_bus 0)); [by apply bs_add|].
  eapply rtc_l; [apply (bs_read _ _ _ _ _ _ "r1" 20)|]. apply rtc_refl.
Qed.

Lemma envelope_roundtrip_witness : sample_decode sample_wire = Ok sample_event.
Proof. exact (envelope_roundtrip toy_dumps toy_loads "e-0" "2025-01-02" None sample_event eq_refl
  ltac:(done) ltac:(done) ltac:(done) ltac:(done)). Defined.


Lemma poison_event_parked_witness :
  let b' := sweeps (on [] "order.paid" refusing) sample_decode (to_fields toy_dumps) sample_describe "books" 5
    ["r1"; "r2"; "r1"; "r2"] (fun _ => true) 20 delivered_bus in
  b_pending b' !! 1%N = None /\ 1%N ∈ map fst (b_dead b').
Proof.
  refine (poison_event_parked _ _ _ _ _ _ 0 delivered_bus 1 sample_wire sample_event "r1" 1
    ["r1"; "r2"; "r1"; "r2"] (fun _ => true) 20 (delivered_reachable refusing) _ _ _ _ _ _ _ _ _ _).
  - by left.
  - done.
  - by vm_compute.
  - by vm_compute.
  - intros s. exists ValueErr, s. by vm_compute.
  - by repeat constructor.
  - apply Nat.leb_le. by vm_compute.
  - done.
  - done.
  - apply Z.leb_le. by vm_compute.
Defined.

(** A replica that stops drops its pending entries: what it read and had not
    acknowledged is neither pending, handled nor parked, and no later read or
    sweep of another replica brings it back. *)
Example stop_loses_entry :
  let b := stop "r1" (read_new (on [] "order.paid" refusing) sample_decode (to_fields toy_dumps) sample_describe
             "books" 5 "r1" 20 (xadd 1 sample_wire (empty_bus 0))).2 in
  let later := (read_new (on [] "order.paid" counting) sample_decode (to_fields toy_dumps) sample_describe "books" 5 "r2" 20
    (sweeps (on [] "order.paid" counting) sample_decode (to_fields toy_dumps) sample_describe "books" 5
       ["r2"; "r2"; "r2"; "r2"; "r2"; "r2"] (fun _ => true) 20 b)).2 in
  map_to_list (b_pending later) = [] /\ b_handled later = [] /\ b_dead later = [] /\ b_app later = 0.
Proof. by vm_compute. Qed.

(** An entry whose version is not a number is never parked, and the entries
    reclaimed after it are never handled. *)
Example malformed_version_blocks :
  let bad : wire := [("type", "order.paid"); ("version", "v2")] in
  let b := (read_group "r1" 20 (xadd 2 sample_wire (xadd 1 bad (empty_bus 0)))).2 in
  let later := sweeps (on [] "order.paid" counting) sample_decode (to_fields toy_dumps) sample_describe "books" 5
    (repeat "r2" 20) (fun _ => true) 20 b in
  b_pending later !! 1%N = Some ("r2", 21) /\ b_pending later !! 2%N = Some ("r2", 21) /\
  b_dead later = [] /\ b_app later = 0.
Proof. by vm_compute. Qed.
