(* ===== verification/Security.v ===== *)
(** * Who is calling (packages/core-py/knowledgeos_core/security.py, deps.py)

    Password hashes, the principal of a verified access token with its
    permission check, the cache of the auth service's public keys, and the
    signature of internal requests.  bcrypt, SHA-256, base64, HMAC and the JWT
    library are parameters. *)

From S2P Require Import Prelude Store Json.

(** ** Passwords *)

Definition BCRYPT_ROUNDS : Z := 12.
Definition BCRYPT_MAX_BYTES : nat := 72.

Section passwords.
(** [sha256(raw).digest()] and its base64; [bcrypt.hashpw] with a salt of
    [BCRYPT_ROUNDS] rounds; [bcrypt.checkpw], [None] where it raises. *)
Context (sha256_b64 : string -> string) (bcrypt_hash : string -> string -> string)
        (bcrypt_check : string -> string -> option bool).

Definition prepare_password (password : string) : string :=
  if (BCRYPT_MAX_BYTES <? String.length password)%nat then sha256_b64 password else password.

Definition hash_password (salt password : string) : string := bcrypt_hash salt (prepare_password password).

Definition verify_password (password hashed : string) : bool :=
  default false (bcrypt_check (prepare_password password) hashed).
End passwords.

Definition needs_rehash (hashed : string) : bool :=
  match split_char "$" hashed with
  | _ :: _ :: rounds :: _ => match py_int 10 rounds with Some n => n <? BCRYPT_ROUNDS | None => true end
  | _ => true
  end.

(** ** The principal *)

Record Principal := mkPrincipal {
  user_id : string;
  email : option string;
  roles : list string;
  permissions : list string;
  session_id : option string;
  token_id : option string;
  is_service : bool;
}.

Definition has_role (wanted : list string) (p : Principal) : bool :=
  existsb (fun r => bool_decide (r ∈ roles p)) wanted.

(** [permission.split(":", 1)[0]] *)
Definition resource_of (permission : string) : string := (partition_char ":" permission).1.

Definition has_permission (permission : string) (p : Principal) : bool :=
  bool_decide ("superadmin" ∈ roles p) || bool_decide (permission ∈ permissions p) ||
  bool_decide (append (resource_of permission) ":*" ∈ permissions p) || bool_decide ("*" ∈ permissions p).

Definition require_role (wanted : list string) (p : Principal) : result unit :=
  if has_role wanted p then Ok tt else Raise (app_error ForbiddenError "").
Definition require_permission (permission : string) (p : Principal) : result unit :=
  if has_permission permission p then Ok tt else Raise (app_error ForbiddenError "").

(** The owner of the resource, or a caller with the permission. *)
Definition require_self_or_permission (permission : string) (target : option string) (p : Principal) : result Principal :=
  if (match target with Some t => String.eqb t (user_id p) | None => false end) then Ok p
  else _ ← require_permission permission p; Ok p.

(** ** Verifying an access token *)

(** The cached keys, when they were fetched and when an unknown key last forced
    a fetch; times are monotonic seconds. *)
Record JWKSCache := mkJWKS { keys : gmap string json; fetched_at : Z; last_forced_refresh : Z }.

Inductive decoded := Claims (c : json) | Expired | Rejected.

Section verifier.
(** The answer of the JWKS endpoint, at the [n]th fetch of a call. *)
Context (ttl : Z) (answer : nat -> result (list json)).

(** [{key["kid"]: key for key in ... if "kid" in key}] *)
Definition index_keys (l : list json) : gmap string json :=
  foldl (fun m key => match key with
                      | JObj fields => match fields_get "kid" fields with Some (JStr kid) => <[kid := key]> m | _ => m end
                      | _ => m
                      end) ∅ l.

Definition fetch (n : nat) (now : Z) : M JWKSCache unit := fun c =>
  match answer n with
  | Raise e => (Raise e, c)
  | Ok l =>
      let found := index_keys l in
      if bool_decide (found = ∅) then (Raise (app_error UnauthorizedError ""), c)
      else (Ok tt, mkJWKS found now (last_forced_refresh c))
  end.

(** [now] is read once, [later] at the end of each fetch. *)
Definition get_key (now later : Z) (kid : string) : M JWKSCache json :=
  c ← get;
  _ ← (if bool_decide (keys c = ∅) || (ttl <? now - fetched_at c) then fetch 0 later else mret tt);
  c ← get;
  _ ← (if bool_decide (keys c !! kid = None) && (10 <? now - last_forced_refresh c)
       then _ ← modify (fun c => mkJWKS (keys c) (fetched_at c) now); fetch 1 later
       else mret tt);
  c ← get;
  match keys c !! kid with
  | Some key => mret key
  | None => raise (app_error UnauthorizedError "")
  end.

(** [jwt.get_unverified_header]; [jwt.decode] of a token under a key, accepted
    algorithms, audience, issuer and leeway. *)
Context (unverified_header : string -> option json)
        (jwt_decode : json -> list string -> string -> string -> Z -> string -> decoded).
Context (algorithms : list string) (audience issuer : string) (leeway : Z).

Definition str_list (v : json) : list string :=
  match v with JList l => omap (fun x => match x with JStr s => Some s | _ => None end) l | _ => [] end.
Definition opt_str (v : json) : option string := match v with JStr s => Some s | _ => None end.

Definition principal_of (claims : json) : Principal :=
  mkPrincipal (jstr (jget "sub" claims)) (opt_str (jget "email" claims)) (str_list (jget "roles" claims))
    (str_list (jget "permissions" claims)) (opt_str (jget "sid" claims)) (opt_str (jget "jti" claims)) false.

Definition verify (now later : Z) (token : string) : M JWKSCache Principal :=
  match unverified_header token with
  | None => raise (app_error UnauthorizedError "")
  | Some header =>
      match jget "kid" header with
      | JStr kid =>
          if String.eqb kid "" then raise (app_error UnauthorizedError "")
          else if negb (match jget "alg" header with JStr a => bool_decide (a ∈ algorithms) | _ => false end)
          then raise (app_error UnauthorizedError "")
          else
            key ← get_key now later kid;
            match jwt_decode key algorithms audience issuer leeway token with
            | Expired => raise (app_error UnauthorizedError "token_expired")
            | Rejected => raise (app_error UnauthorizedError "")
            | Claims claims =>
                match jget "typ" claims with
                | JStr "access" => mret (principal_of claims)
                | _ => raise (app_error UnauthorizedError "")
                end
            end
      | _ => raise (app_error UnauthorizedError "")
      end
  end.

(** [get_current_principal] and [get_optional_principal], in a service that
    verifies tokens; the credentials of the Authorization header. *)
Definition get_current_principal now later (credentials : option string) : M JWKSCache Principal :=
  match credentials with
  | Some t => if String.eqb t "" then raise (app_error UnauthorizedError "") else verify now later t
  | None => raise (app_error UnauthorizedError "")
  end.

Definition get_optional_principal now later (credentials : option string) : M JWKSCache (option Principal) := fun c =>
  if truthy credentials then
    match get_current_principal now later credentials c with
    | (Ok p, c') => (Ok (Some p), c')
    | (Raise (AppErr UnauthorizedError _), c') => (Ok None, c')
    | (Raise e, c') => (Raise e, c')
    end
  else (Ok None, c).
End verifier.

(** ** Internal requests *)

Section internal.
(** [hmac.new(secret, payload, sha256).hexdigest()]; [sha256(body).hexdigest()]. *)
Context (hmac : string -> string -> string) (sha256 : string -> string).

Definition hash_body (body : string) : string := if String.eqb body "" then "" else sha256 body.

Definition internal_payload (method path body_hash : string) (ts : Z) : string :=
  append (py_str_int ts) (append "." (append (upper method) (append "." (append path (append "." body_hash))))).

(** A timestamp of zero counts as none. *)
Definition sign_internal_request (secret method path body_hash : string) (timestamp : option Z) (now : datetime)
    : string * string :=
  let ts := match timestamp with Some t => if t =? 0 then now / SECOND else t | None => now / SECOND end in
  (py_str_int ts, hmac secret (internal_payload method path body_hash ts)).

Definition verify_internal_request (secret method path timestamp signature body_hash : string) (max_age : Z)
    (now : datetime) : bool :=
  match py_int 10 timestamp with
  | None => false
  | Some ts =>
      if max_age * SECOND <? Z.abs (now - ts * SECOND) then false
      else String.eqb (sign_internal_request secret method path body_hash (Some ts) now).2 signature
  end.

(** The three headers, the body; the answer is the calling service's name. *)
Definition require_internal_caller (secret method path body : string) (timestamp signature service : option string)
    (now : datetime) : result string :=
  if negb (truthy timestamp && truthy signature && truthy service) then Raise (app_error UnauthorizedError "")
  else if verify_internal_request secret method path (default "" timestamp) (default "" signature) (hash_body body) 300 now
  then Ok (default "" service) else Raise (app_error ForbiddenError "").
End internal.

(** ** Lemmas *)

Definition no_char (c : ascii) (s : string) : bool := sall (fun d => negb (d =? c)%char) s.

(** A text splits at the first [c], and at the last. *)
Lemma append_first_inj c s1 s2 r1 r2 : no_char c s1 = true -> no_char c s2 = true ->
  append s1 (String c r1) = append s2 (String c r2) -> s1 = s2 /\ r1 = r2.
Proof.
  unfold no_char. revert s2. induction s1 as [|d s1 IH]; intros [|d2 s2] H1 H2 H; cbn [append sall] in *.
  - by injection H.
  - injection H as <- _. by rewrite Ascii.eqb_refl in H2.
  - injection H as -> _. by rewrite Ascii.eqb_refl in H1.
  - injection H as <- H. apply andb_prop in H1 as [_ H1]. apply andb_prop in H2 as [_ H2].
    by destruct (IH s2 H1 H2 H) as [-> ->].
Qed.

Lemma no_char_app c s t : no_char c (append s (String c t)) = false.
Proof.
  unfold no_char. induction s as [|d s IH].
  - change (append "" (String c t)) with (String c t). cbn [sall]. by rewrite Ascii.eqb_refl.
  - change (append (String d s) (String c t)) with (String d (append s (String c t))). cbn [sall].
    by rewrite IH, andb_false_r.
Qed.

Lemma append_last_inj c s1 s2 r1 r2 : no_char c r1 = true -> no_char c r2 = true ->
  append s1 (String c r1) = append s2 (String c r2) -> s1 = s2 /\ r1 = r2.
Proof.
  intros H1 H2. revert s2. induction s1 as [|d s1 IH]; intros [|d2 s2] H; cbn in H.
  - by injection H.
  - injection H as <- ->. by rewrite no_char_app in H1.
  - injection H as -> <-. by rewrite no_char_app in H2.
  - injection H as <- H. by destruct (IH s2 H) as [-> ->].
Qed.

Lemma is_digit_no_dot c : is_digit c = true -> negb (c =? ".")%char = true.
Proof. by destruct c as [[] [] [] [] [] [] [] []]. Qed.

Lemma py_str_int_no_dot n : no_char "." (py_str_int n) = true.
Proof.
  destruct (Z.le_gt_cases 0 n) as [Hn|Hn]; [by apply pretty_all; [|apply is_digit_no_dot]|].
  destruct n as [|p|p]; [lia..|]. change (py_str_int (Z.neg p)) with (String "-" (py_str_int (Z.pos p))).
  unfold no_char. cbn [sall]. rewrite pretty_all; [done|lia|apply is_digit_no_dot].
Qed.

Lemma no_char_smap c f s : (forall d, (f d =? c)%char = true -> (d =? c)%char = true) ->
  no_char c s = true -> no_char c (smap f s) = true.
Proof.
  intros Hf. unfold no_char. induction s as [|d s IH]; cbn; [done|]. intros [Hd Hs]%andb_prop.
  rewrite IH, andb_true_r by done. apply negb_true_iff in Hd. apply negb_true_iff, not_true_iff_false.
  intros H%Hf. congruence.
Qed.

Lemma upper_no_dot s : no_char "." s = true -> no_char "." (upper s) = true.
Proof. apply no_char_smap. by intros [[] [] [] [] [] [] [] []]. Qed.

Lemma internal_payload_inj m p b ts m' p' b' ts' :
  no_char "." m = true -> no_char "." m' = true -> no_char "." b = true -> no_char "." b' = true ->
  internal_payload m p b ts = internal_payload m' p' b' ts' -> upper m = upper m' /\ p = p' /\ b = b' /\ ts = ts'.
Proof.
  intros Hm Hm' Hb Hb' H. unfold internal_payload in H.
  apply append_first_inj in H as [Ht H]; [|apply py_str_int_no_dot..].
  apply append_first_inj in H as [Hu H]; [|by apply upper_no_dot..].
  apply append_last_inj in H as [Hp Hbody]; [|done..].
  split; [done|]. split; [done|]. split; [done|]. by apply (inj pretty) in Ht.
Qed.

(** A request signed for its own method, path and body is accepted within five minutes. *)
Lemma signed_accepted hmac sha256 secret method path body wall service now :
  (forall k m, hmac k m <> "") -> service <> "" -> SECOND <= wall -> Z.abs (now - wall / SECOND * SECOND) <= 300 * SECOND ->
  let s := sign_internal_request hmac secret method path (hash_body sha256 body) None wall in
  require_internal_caller hmac sha256 secret method path body (Some s.1) (Some s.2) (Some service) now = Ok service.
Proof.
  intros Hhmac Hsv Hw Hnow s. assert (Hpos : 1 <= wall / SECOND) by (apply Z.div_le_lower_bound; unfold SECOND in *; lia).
  assert (Hts : String.eqb (py_str_int (wall / SECOND)) "" = false).
  { apply String.eqb_neq. intros E. pose proof (py_int_pretty (wall / SECOND) ltac:(lia)) as Hp. by rewrite E in Hp. }
  unfold s, sign_internal_request, require_internal_caller, truthy. cbn [fst snd].
  rewrite Hts, (proj2 (String.eqb_neq _ _) (Hhmac _ _)), (proj2 (String.eqb_neq _ _) Hsv). cbn [negb andb default from_option id].
  unfold verify_internal_request. rewrite py_int_pretty by lia.
  replace (300 * SECOND <? Z.abs (now - wall / SECOND * SECOND)) with false by lia.
  unfold sign_internal_request. replace (wall / SECOND =? 0) with false by lia. cbn [snd]. by rewrite String.eqb_refl.
Qed.

(** ** Properties *)

(** a signed internal request authorises that request and no other — when
    a service accepts a call with a signature made for some method, path and
    body, the call has that method (up to case), that path and that body, its
    timestamp is the one that was signed and is at most five minutes away.
    HMAC and the digest are assumed not to collide on the texts concerned. *)
Theorem internal_signature_binds_request hmac sha256 secret m p body m' p' body' ts sig service signed now
    (Hhmac : forall a b, hmac secret a = hmac secret b -> a = b)
    (Hsha : sha256 body' = sha256 body -> body' = body)
    (Hne : sha256 body <> "" /\ sha256 body' <> "")
    (Hhex : no_char "." (sha256 body) = true /\ no_char "." (sha256 body') = true)
    (Hnow : 300 * SECOND < now) (Hm : no_char "." m = true) (Hm' : no_char "." m' = true)
    (Hsig : (sign_internal_request hmac secret m p (hash_body sha256 body) None signed).2 = sig)
    (Hok : require_internal_caller hmac sha256 secret m' p' body' (Some ts) (Some sig) (Some service) now = Ok service) :
  upper m' = upper m /\ p' = p /\ body' = body /\ py_int 10 ts = Some (signed / SECOND) /\
  Z.abs (now - signed / SECOND * SECOND) <= 300 * SECOND.
Proof.
  unfold require_internal_caller, verify_internal_request in Hok. cbn [default from_option id] in Hok.
  destruct (negb _); [done|]. destruct (py_int 10 ts) as [t|] eqn:Ht; [|done].
  destruct (300 * SECOND <? Z.abs (now - t * SECOND)) eqn:Hage; [done|]. apply Z.ltb_ge in Hage. cbv iota in Hok.
  destruct (String.eqb _ _) eqn:He; [|done]. apply String.eqb_eq in He. rewrite <- Hsig in He.
  unfold sign_internal_request in He. cbn [snd] in He. apply Hhmac in He.
  assert (Hdot : forall b, no_char "." (sha256 b) = true -> no_char "." (hash_body sha256 b) = true)
    by (intros b Hb; unfold hash_body; by destruct (String.eqb b "")).
  destruct Hhex as [Hx Hx'], Hne as [Hn Hn'].
  apply internal_payload_inj in He as (Hu & -> & Hb & Hts); [|done|done|by apply Hdot|by apply Hdot].
  split; [done|]. split; [done|]. split.
  - unfold hash_body in Hb. destruct (String.eqb_spec body' "") as [->|], (String.eqb_spec body "") as [->|]; auto;
      symmetry in Hb; congruence.
  - destruct (Z.eqb_spec t 0) as [->|]; subst; [lia|done].
Qed.

(** ** Witnesses *)

Definition toy_hmac (secret payload : string) : string := append secret payload.
Definition toy_sha (b : string) : string := append "h" b.

Lemma toy_hmac_inj secret a b : toy_hmac secret a = toy_hmac secret b -> a = b.
Proof.
  unfold toy_hmac. induction secret as [|c s IH]; [done|].
  change (append (String c s) a) with (String c (append s a)).
  change (append (String c s) b) with (String c (append s b)). intros [= H]. auto.
Qed.

Lemma internal_signature_binds_request_witness :
  upper "get" = upper "GET" /\ "/internal/users/1" = "/internal/users/1" /\ "" = "" /\
  py_int 10 "1700000000" = Some (1700000000 * SECOND / SECOND) /\
  Z.abs (1700000060 * SECOND - 1700000000 * SECOND / SECOND * SECOND) <= 300 * SECOND.
Proof.
  refine (internal_signature_binds_request toy_hmac toy_sha "s3cret" "GET" "/internal/users/1" "" "get" "/internal/users/1" ""
    "1700000000" (toy_hmac "s3cret" "1700000000.GET./internal/users/1.") "payment" (1700000000 * SECOND) (1700000060 * SECOND)
    (toy_hmac_inj "s3cret") _ _ _ _ _ _ _ _).
  - done.
  - by split.
  - by split.
  - by vm_compute.
  - done.
  - done.
  - by vm_compute.
  - by vm_compute.
Defined.
