(* ===== verification/AuthDb.v ===== *)
(** * The auth service's rows (apps/auth/models.py, settings.py)

    Users, sessions, refresh tokens, the one-time tokens, the second factor and
    the audit trail, in one record; and the roles with the permissions they
    grant (packages/core-py/knowledgeos_core/schemas.py).  A digest is what
    [hash_token] returns: only digests are stored. *)

From S2P Require Import Prelude Store Json.

(** ** Roles and permissions *)

Module UserRole.
Inductive t := USER | AUTHOR | MODERATOR | ADMIN | SUPERADMIN.
End UserRole.

#[export] Instance UserRole_enum : StrEnum UserRole.t.
Proof.
  refine {| members := [UserRole.USER; UserRole.AUTHOR; UserRole.MODERATOR; UserRole.ADMIN; UserRole.SUPERADMIN];
            enum_value := fun r => match r with
              | UserRole.USER => "user" | UserRole.AUTHOR => "author" | UserRole.MODERATOR => "moderator"
              | UserRole.ADMIN => "admin" | UserRole.SUPERADMIN => "superadmin" end |}; solve_str_enum.
Defined.

Inductive Permission :=
  | BOOKS_READ | BOOKS_WRITE | BOOKS_DELETE | BOOKS_PUBLISH | USERS_READ | USERS_WRITE | USERS_DELETE
  | ORDERS_READ | ORDERS_REFUND | REVIEWS_MODERATE | AUTOMATION_RUN | AUTOMATION_READ | ANALYTICS_READ
  | SETTINGS_WRITE | AI_USE.

Definition all_permissions : list Permission :=
  [BOOKS_READ; BOOKS_WRITE; BOOKS_DELETE; BOOKS_PUBLISH; USERS_READ; USERS_WRITE; USERS_DELETE;
   ORDERS_READ; ORDERS_REFUND; REVIEWS_MODERATE; AUTOMATION_RUN; AUTOMATION_READ; ANALYTICS_READ;
   SETTINGS_WRITE; AI_USE].

Definition permission_value (p : Permission) : string :=
  match p with
  | BOOKS_READ => "books:read" | BOOKS_WRITE => "books:write" | BOOKS_DELETE => "books:delete"
  | BOOKS_PUBLISH => "books:publish" | USERS_READ => "users:read" | USERS_WRITE => "users:write"
  | USERS_DELETE => "users:delete" | ORDERS_READ => "orders:read" | ORDERS_REFUND => "orders:refund"
  | REVIEWS_MODERATE => "reviews:moderate" | AUTOMATION_RUN => "automation:run"
  | AUTOMATION_READ => "automation:read" | ANALYTICS_READ => "analytics:read"
  | SETTINGS_WRITE => "settings:write" | AI_USE => "ai:use"
  end.

Definition ROLE_PERMISSIONS (r : UserRole.t) : list Permission :=
  match r with
  | UserRole.USER => [BOOKS_READ; AI_USE]
  | UserRole.AUTHOR => [BOOKS_READ; BOOKS_WRITE; AI_USE; AUTOMATION_RUN; AUTOMATION_READ]
  | UserRole.MODERATOR => [BOOKS_READ; BOOKS_WRITE; REVIEWS_MODERATE; USERS_READ; AI_USE]
  | UserRole.ADMIN => [BOOKS_READ; BOOKS_WRITE; BOOKS_DELETE; BOOKS_PUBLISH; USERS_READ; USERS_WRITE;
      ORDERS_READ; ORDERS_REFUND; REVIEWS_MODERATE; AUTOMATION_RUN; AUTOMATION_READ; ANALYTICS_READ; AI_USE]
  | UserRole.SUPERADMIN => all_permissions
  end.

(** ** Settings *)

Record AuthSettings := {
  access_token_ttl : Z;
  refresh_token_ttl : Z;
  mfa_challenge_ttl : Z;
  email_verification_ttl : Z;
  password_reset_ttl : Z;
  token_retention_days : Z;
  audit_retention_days : Z;
  login_max_attempts : Z;
  login_lockout_seconds : Z;
  totp_period : Z;
  recovery_code_count : nat;
  jwt_issuer : string;
  jwt_audience : string;
}.

(** ** Rows *)

(** Columns that only the profile form changes. *)
Record Profile := mkProfile { full_name : option string; avatar_url : option string; locale : option string }.

Record User := mkUser {
  u_id : uuid;
  u_email : string;
  u_email_verified_at : option datetime;
  u_password_hash : option string;
  u_password_changed_at : option datetime;
  u_profile : Profile;
  u_roles : list string;
  u_extra_permissions : list string;
  u_is_active : bool;
  u_banned_at : option datetime;
  u_ban_reason : option string;
  u_failed_login_attempts : Z;
  u_locked_until : option datetime;
  u_mfa_enabled : bool;
  u_last_login_at : option datetime;
  u_last_login_ip : option string;
  u_created_at : datetime;
  u_deleted_at : option datetime;
}.

Definition is_email_verified (u : User) : bool := bool_decide (is_Some (u_email_verified_at u)).

Record Session := mkSession {
  s_id : uuid;
  s_user_id : uuid;
  s_ip_address : option string;
  s_user_agent : option string;
  s_device_label : option string;
  s_auth_method : string;
  s_last_seen_at : option datetime;
  s_expires_at : datetime;
  s_created_at : datetime;
  s_revoked_at : option datetime;
  s_revoked_reason : option string;
}.

Record RefreshToken := mkRefresh {
  rt_id : uuid;
  rt_user_id : uuid;
  rt_session_id : uuid;
  rt_family_id : uuid;
  rt_parent_id : option uuid;
  rt_token_hash : string;
  rt_csrf_hash : string;
  rt_expires_at : datetime;
  rt_created_at : datetime;
  rt_used_at : option datetime;
  rt_revoked_at : option datetime;
  rt_revoked_reason : option string;
}.

Record EmailVerificationToken := mkEmailToken {
  et_id : uuid;
  et_user_id : uuid;
  et_token_hash : string;
  et_purpose : string;
  et_email : string;
  et_expires_at : datetime;
  et_used_at : option datetime;
}.

Record PasswordResetToken := mkResetToken {
  pt_id : uuid;
  pt_user_id : uuid;
  pt_token_hash : string;
  pt_expires_at : datetime;
  pt_used_at : option datetime;
  pt_requested_ip : option string;
}.

Record TotpSecret := mkTotp {
  ts_id : uuid;
  ts_user_id : uuid;
  ts_secret_encrypted : string;
  ts_confirmed_at : option datetime;
  ts_last_used_step : option Z;
}.

Record RecoveryCode := mkRecovery {
  rc_id : uuid;
  rc_user_id : uuid;
  rc_code_hash : string;
  rc_used_at : option datetime;
}.

Record AuditLog := mkAudit {
  al_user_id : option uuid;
  al_actor_id : option uuid;
  al_action : string;
  al_status : string;
  al_ip_address : option string;
  al_user_agent : option string;
  al_meta : list (string * json);
  al_created_at : datetime;
}.

#[export] Instance User_row : Row User := u_id.
#[export] Instance Session_row : Row Session := s_id.
#[export] Instance RefreshToken_row : Row RefreshToken := rt_id.
#[export] Instance EmailVerificationToken_row : Row EmailVerificationToken := et_id.
#[export] Instance PasswordResetToken_row : Row PasswordResetToken := pt_id.
#[export] Instance TotpSecret_row : Row TotpSecret := ts_id.
#[export] Instance RecoveryCode_row : Row RecoveryCode := rc_id.

(** Unique columns. *)
Definition email_col (u : User) : option string := Some (u_email u).
Definition token_hash_col (t : RefreshToken) : option string := Some (rt_token_hash t).
Definition email_token_col (t : EmailVerificationToken) : option string := Some (et_token_hash t).
Definition reset_token_col (t : PasswordResetToken) : option string := Some (pt_token_hash t).
Definition totp_user_col (t : TotpSecret) : option uuid := Some (ts_user_id t).
Definition no_col {V} (_ : V) : option uuid := None.

(** ** The database *)

Record AuthDb := mkAuthDb {
  users : table User;
  sessions : table Session;
  refresh_tokens : table RefreshToken;
  email_tokens : table EmailVerificationToken;
  reset_tokens : table PasswordResetToken;
  totp_secrets : table TotpSecret;
  recovery_codes : table RecoveryCode;
  audit_logs : list AuditLog;
}.

Definition empty_auth : AuthDb := mkAuthDb ∅ ∅ ∅ ∅ ∅ ∅ ∅ [].

Definition set_users x d := mkAuthDb x (sessions d) (refresh_tokens d) (email_tokens d) (reset_tokens d)
  (totp_secrets d) (recovery_codes d) (audit_logs d).
Definition set_sessions x d := mkAuthDb (users d) x (refresh_tokens d) (email_tokens d) (reset_tokens d)
  (totp_secrets d) (recovery_codes d) (audit_logs d).
Definition set_refresh_tokens x d := mkAuthDb (users d) (sessions d) x (email_tokens d) (reset_tokens d)
  (totp_secrets d) (recovery_codes d) (audit_logs d).
Definition set_email_tokens x d := mkAuthDb (users d) (sessions d) (refresh_tokens d) x (reset_tokens d)
  (totp_secrets d) (recovery_codes d) (audit_logs d).
Definition set_reset_tokens x d := mkAuthDb (users d) (sessions d) (refresh_tokens d) (email_tokens d) x
  (totp_secrets d) (recovery_codes d) (audit_logs d).
Definition set_totp_secrets x d := mkAuthDb (users d) (sessions d) (refresh_tokens d) (email_tokens d)
  (reset_tokens d) x (recovery_codes d) (audit_logs d).
Definition set_recovery_codes x d := mkAuthDb (users d) (sessions d) (refresh_tokens d) (email_tokens d)
  (reset_tokens d) (totp_secrets d) x (audit_logs d).
Definition set_audit_logs x d := mkAuthDb (users d) (sessions d) (refresh_tokens d) (email_tokens d)
  (reset_tokens d) (totp_secrets d) (recovery_codes d) x.

(** INSERT of a new row into a table. *)
Definition add_row {V K} `{!Row V} `{!EqDecision K} (tbl : AuthDb -> table V)
    (set : table V -> AuthDb -> AuthDb) (col : V -> option K) (v : V) : M AuthDb unit := fun d =>
  match insert_new col v (tbl d) with
  | Ok t => (Ok tt, set t d)
  | Raise e => (Raise e, d)
  end.

Definition add_user := add_row users set_users email_col.
Definition add_session := add_row sessions set_sessions no_col.
Definition add_refresh_token := add_row refresh_tokens set_refresh_tokens token_hash_col.
Definition add_email_token := add_row email_tokens set_email_tokens email_token_col.
Definition add_reset_token := add_row reset_tokens set_reset_tokens reset_token_col.
Definition add_totp_secret := add_row totp_secrets set_totp_secrets totp_user_col.
Definition add_recovery_code := add_row recovery_codes set_recovery_codes (@no_col RecoveryCode).

(** Write changed columns of the row with key [k]. *)
Definition update_users k f : M AuthDb unit := modify (fun d => set_users (alter f k (users d)) d).
Definition update_sessions k f : M AuthDb unit := modify (fun d => set_sessions (alter f k (sessions d)) d).
Definition update_refresh_tokens k f : M AuthDb unit :=
  modify (fun d => set_refresh_tokens (alter f k (refresh_tokens d)) d).
Definition update_email_tokens k f : M AuthDb unit := modify (fun d => set_email_tokens (alter f k (email_tokens d)) d).
Definition update_reset_tokens k f : M AuthDb unit := modify (fun d => set_reset_tokens (alter f k (reset_tokens d)) d).
Definition update_totp_secrets k f : M AuthDb unit := modify (fun d => set_totp_secrets (alter f k (totp_secrets d)) d).
Definition update_recovery_codes k f : M AuthDb unit :=
  modify (fun d => set_recovery_codes (alter f k (recovery_codes d)) d).

(** [UPDATE ... SET f WHERE P] *)
Definition update_all_sessions P f : M AuthDb unit :=
  modify (fun d => set_sessions (update_where P f (sessions d)).1 d).
Definition update_all_tokens P f : M AuthDb unit :=
  modify (fun d => set_refresh_tokens (update_where P f (refresh_tokens d)).1 d).

Lemma add_row_inv {V K} `{!Row V} `{!EqDecision K} tbl set (col : V -> option K) v d r d' :
  add_row tbl set col v d = (r, d') ->
  (r = Ok tt /\ tbl d !! row_id v = None /\ d' = set (save v (tbl d)) d) \/ (r = Raise IntegrityErr /\ d' = d).
Proof.
  unfold add_row. destruct (insert_new col v (tbl d)) as [t|e] eqn:E; intros [= <- <-].
  - apply insert_new_ok in E as (Hn & _ & ->). by left.
  - right. split; [|done]. revert E. unfold insert_new, insert_unique. repeat case_match; congruence.
Qed.

Lemma keeps_add_row {V K B} `{!Row V} `{!EqDecision K} (proj : AuthDb -> B) tbl set (col : V -> option K) v :
  (forall t d, proj (set t d) = proj d) -> keeps proj (add_row tbl set col v).
Proof. intros H d r d' [(_ & _ & ->)|(_ & ->)]%add_row_inv; [apply H|done]. Qed.

Ltac keeps_auth_step :=
  match goal with
  | |- keeps _ (add_user _) => apply keeps_add_row; reflexivity
  | |- keeps _ (add_session _) => apply keeps_add_row; reflexivity
  | |- keeps _ (add_refresh_token _) => apply keeps_add_row; reflexivity
  | |- keeps _ (add_email_token _) => apply keeps_add_row; reflexivity
  | |- keeps _ (add_reset_token _) => apply keeps_add_row; reflexivity
  | |- keeps _ (add_totp_secret _) => apply keeps_add_row; reflexivity
  | |- keeps _ (add_recovery_code _) => apply keeps_add_row; reflexivity
  | |- keeps _ (update_users _ _) => apply keeps_modify; intros ?; reflexivity
  | |- keeps _ (update_sessions _ _) => apply keeps_modify; intros ?; reflexivity
  | |- keeps _ (update_refresh_tokens _ _) => apply keeps_modify; intros ?; reflexivity
  | |- keeps _ (update_email_tokens _ _) => apply keeps_modify; intros ?; reflexivity
  | |- keeps _ (update_reset_tokens _ _) => apply keeps_modify; intros ?; reflexivity
  | |- keeps _ (update_totp_secrets _ _) => apply keeps_modify; intros ?; reflexivity
  | |- keeps _ (update_recovery_codes _ _) => apply keeps_modify; intros ?; reflexivity
  | |- keeps _ (update_all_sessions _ _) => apply keeps_modify; intros ?; reflexivity
  | |- keeps _ (update_all_tokens _ _) => apply keeps_modify; intros ?; reflexivity
  | _ => keeps_core
  end.
Ltac keeps_auth := repeat keeps_auth_step; try solve [eauto with keeps].

(** ** Samples *)

Definition sample_settings : AuthSettings :=
  {| access_token_ttl := 900; refresh_token_ttl := 2592000; mfa_challenge_ttl := 300; email_verification_ttl := 86400;
     password_reset_ttl := 3600; token_retention_days := 45; audit_retention_days := 365; login_max_attempts := 5;
     login_lockout_seconds := 900; totp_period := 30; recovery_code_count := 10; jwt_issuer := "knowledgeos";
     jwt_audience := "knowledgeos-api" |}.
Definition sample_time : datetime := 1700000000 * SECOND.
Definition sample_user : User :=
  mkUser 7 "ada@example.com" None (Some "$2b$12$correct horse") None (mkProfile None None None) ["user"] [] true None None
    0 None false None None sample_time None.
