(* ===== verification/Accounts.v ===== *)
(** * Accounts (apps/auth/services/accounts.py)

    Registration, login, email verification, password reset and change, bans
    and the audit trail.  A user the code mutates is the value it becomes; its
    columns are written to the row with its key. *)

From S2P Require Import Prelude Store Json Security AuthDb.

(** [user_agent] and the other keyword arguments of [record_audit] that are
    left out are [None]. *)
Definition record_audit now (user actor : option uuid) (action status : string) (ip agent : option string)
    (meta : list (string * json)) : M AuthDb unit :=
  modify (fun d => set_audit_logs (audit_logs d ++
    [mkAudit user actor action status ip
       (let a := stake 400 (default "" agent) in if String.eqb a "" then None else Some a) meta now]) d).

(** ** Columns a method writes *)

Definition set_attempts n locked u := mkUser (u_id u) (u_email u) (u_email_verified_at u) (u_password_hash u)
  (u_password_changed_at u) (u_profile u) (u_roles u) (u_extra_permissions u) (u_is_active u) (u_banned_at u)
  (u_ban_reason u) n locked (u_mfa_enabled u) (u_last_login_at u) (u_last_login_ip u) (u_created_at u) (u_deleted_at u).
Definition set_hash hash u := mkUser (u_id u) (u_email u) (u_email_verified_at u) (Some hash)
  (u_password_changed_at u) (u_profile u) (u_roles u) (u_extra_permissions u) (u_is_active u) (u_banned_at u)
  (u_ban_reason u) (u_failed_login_attempts u) (u_locked_until u) (u_mfa_enabled u) (u_last_login_at u)
  (u_last_login_ip u) (u_created_at u) (u_deleted_at u).
Definition set_password_changed now u := mkUser (u_id u) (u_email u) (u_email_verified_at u) (u_password_hash u)
  (Some now) (u_profile u) (u_roles u) (u_extra_permissions u) (u_is_active u) (u_banned_at u)
  (u_ban_reason u) (u_failed_login_attempts u) (u_locked_until u) (u_mfa_enabled u) (u_last_login_at u)
  (u_last_login_ip u) (u_created_at u) (u_deleted_at u).
Definition set_last_login now ip u := mkUser (u_id u) (u_email u) (u_email_verified_at u) (u_password_hash u)
  (u_password_changed_at u) (u_profile u) (u_roles u) (u_extra_permissions u) (u_is_active u) (u_banned_at u)
  (u_ban_reason u) (u_failed_login_attempts u) (u_locked_until u) (u_mfa_enabled u) (Some now) ip
  (u_created_at u) (u_deleted_at u).
Definition set_verified now u := mkUser (u_id u) (u_email u) (Some now) (u_password_hash u)
  (u_password_changed_at u) (u_profile u) (u_roles u) (u_extra_permissions u) (u_is_active u) (u_banned_at u)
  (u_ban_reason u) (u_failed_login_attempts u) (u_locked_until u) (u_mfa_enabled u) (u_last_login_at u)
  (u_last_login_ip u) (u_created_at u) (u_deleted_at u).
Definition set_banned at_ reason active u := mkUser (u_id u) (u_email u) (u_email_verified_at u) (u_password_hash u)
  (u_password_changed_at u) (u_profile u) (u_roles u) (u_extra_permissions u) active at_ reason
  (u_failed_login_attempts u) (u_locked_until u) (u_mfa_enabled u) (u_last_login_at u)
  (u_last_login_ip u) (u_created_at u) (u_deleted_at u).
Definition set_mfa on_ u := mkUser (u_id u) (u_email u) (u_email_verified_at u) (u_password_hash u)
  (u_password_changed_at u) (u_profile u) (u_roles u) (u_extra_permissions u) (u_is_active u) (u_banned_at u)
  (u_ban_reason u) (u_failed_login_attempts u) (u_locked_until u) on_ (u_last_login_at u)
  (u_last_login_ip u) (u_created_at u) (u_deleted_at u).

Definition use_email_token now t := mkEmailToken (et_id t) (et_user_id t) (et_token_hash t) (et_purpose t) (et_email t)
  (et_expires_at t) (Some now).
Definition use_reset_token now t := mkResetToken (pt_id t) (pt_user_id t) (pt_token_hash t) (pt_expires_at t) (Some now)
  (pt_requested_ip t).

(** [setattr] on a loaded user: write the row, go on with the new value. *)
Definition assign_user (u : User) (f : User -> User) : M AuthDb User := _ ← update_users (u_id u) f; mret (f u).

Definition normalise_email (e : string) : string := lower (strip e).

Section accounts.
Context (settings : AuthSettings).
Context (hash_token : string -> string).
(** [hash_password] with the salt that is drawn; [verify_password]. *)
Context (hash_password : string -> string -> string) (verify_password : string -> string -> bool).

Definition is_blank (o : option string) : bool := negb (truthy o).

(** ** Lookup *)

Definition get_by_email (e : string) : M AuthDb (option User) :=
  rows ← gets (fun d => select (fun u => String.eqb (lower (u_email u)) (normalise_email e) &&
                                         bool_decide (u_deleted_at u = None)) (users d));
  of_result (one_or_none rows).

Definition get_by_id (k : uuid) : M AuthDb User :=
  u ← gets (fun d => users d !! k);
  match u with
  | Some u => if bool_decide (is_Some (u_deleted_at u)) then raise (app_error NotFoundError "") else mret u
  | None => raise (app_error NotFoundError "")
  end.

(** ** Email verification *)

(** [tid] and [raw] are drawn. *)
Definition issue_verification_token now tid raw (u : User) (e purpose : string) : M AuthDb string :=
  _ ← add_email_token (mkEmailToken tid (u_id u) (hash_token raw) purpose (normalise_email e)
        (now + email_verification_ttl settings * SECOND) None);
  mret raw.

Definition verify_email now (raw : string) : M AuthDb User :=
  rows ← gets (fun d => select (fun t => String.eqb (et_token_hash t) (hash_token raw)) (email_tokens d));
  record ← of_result (one_or_none rows);
  match record with
  | None => raise (app_error UnauthorizedError "")
  | Some t =>
      if bool_decide (is_Some (et_used_at t)) || (et_expires_at t <? now) then raise (app_error UnauthorizedError "")
      else
        u ← get_by_id (et_user_id t);
        _ ← update_email_tokens (et_id t) (use_email_token now);
        u ← (if is_email_verified u then mret u else assign_user u (set_verified now));
        _ ← record_audit now (Some (u_id u)) None "email.verified" "success" None None [];
        mret u
  end.

(** ** Registration *)

Record RegisterDraws := mkRegisterDraws { rd_user : uuid; rd_salt : string; rd_token_id : uuid; rd_raw : string }.

Definition new_user now dr (e password : string) (name locale : option string) : User :=
  mkUser (rd_user dr) e None (Some (hash_password (rd_salt dr) password)) (Some now) (mkProfile name None locale)
    ["user"] [] true None None 0 None false None None now None.

Definition register now dr (e password : string) (name locale ip : option string) : M AuthDb (User * option string) :=
  let e := normalise_email e in
  existing ← get_by_email e;
  match existing with
  | Some u =>
      _ ← record_audit now (Some (u_id u)) None "register.duplicate" "blocked" ip None [];
      mret (u, None)
  | None =>
      let u := new_user now dr e password name locale in
      _ ← add_user u;
      raw ← issue_verification_token now (rd_token_id dr) (rd_raw dr) u e "email_verify";
      _ ← record_audit now (Some (u_id u)) None "register" "success" ip None [];
      mret (u, Some raw)
  end.

(** ** Login *)

Definition register_failed_attempt now (u : User) ip : M AuthDb unit :=
  let n := u_failed_login_attempts u + 1 in
  let locked := if login_max_attempts settings <=? n then Some (now + login_lockout_seconds settings * SECOND)
                else u_locked_until u in
  _ ← update_users (u_id u) (set_attempts n locked);
  record_audit now (Some (u_id u)) None "login" "failure" ip None [("attempts", JInt n)].

(** The checks behind the dummy verification and the padding of the response
    time, which change nothing. *)
Definition authenticate now salt (e password : string) ip : M AuthDb User :=
  let generic := app_error UnauthorizedError "" in
  user ← get_by_email e;
  match user with
  | None => raise generic
  | Some u =>
      if (match u_locked_until u with Some t => now <? t | None => false end) then
        _ ← record_audit now (Some (u_id u)) None "login" "locked" ip None [];
        raise (app_error UnauthorizedError "account_locked")
      else if bool_decide (is_Some (u_banned_at u)) then raise (app_error UnauthorizedError "account_banned")
      else if is_blank (u_password_hash u) then raise generic
      else
        let hashed := default "" (u_password_hash u) in
        if negb (verify_password password hashed) then
          _ ← register_failed_attempt now u ip;
          raise generic
        else if negb (u_is_active u) || bool_decide (is_Some (u_deleted_at u)) then raise generic
        else
          u ← (if needs_rehash hashed then assign_user u (set_hash (hash_password salt password)) else mret u);
          assign_user u (fun u => set_last_login now ip (set_attempts 0 None u))
  end.

(** ** Password reset and change *)

Definition request_password_reset now tid raw (e : string) ip : M AuthDb (option (User * string)) :=
  user ← get_by_email e;
  match user with
  | None => mret None
  | Some u =>
      if negb (u_is_active u) then mret None
      else
        _ ← add_reset_token (mkResetToken tid (u_id u) (hash_token raw)
              (now + password_reset_ttl settings * SECOND) None ip);
        _ ← record_audit now (Some (u_id u)) None "password.reset_requested" "success" ip None [];
        mret (Some (u, raw))
  end.

Definition reset_password now salt (raw new_password : string) : M AuthDb User :=
  rows ← gets (fun d => select (fun t => String.eqb (pt_token_hash t) (hash_token raw)) (reset_tokens d));
  record ← of_result (one_or_none rows);
  match record with
  | None => raise (app_error UnauthorizedError "")
  | Some t =>
      if bool_decide (is_Some (pt_used_at t)) || (pt_expires_at t <? now) then raise (app_error UnauthorizedError "")
      else
        u ← get_by_id (pt_user_id t);
        _ ← update_reset_tokens (pt_id t) (use_reset_token now);
        u ← assign_user u (fun u => set_attempts 0 None (set_password_changed now
              (set_hash (hash_password salt new_password) u)));
        _ ← record_audit now (Some (u_id u)) None "password.reset" "success" None None [];
        mret u
  end.

Definition change_password now salt (u : User) (current new : string) : M AuthDb unit :=
  let hashed := default "" (u_password_hash u) in
  if is_blank (u_password_hash u) || negb (verify_password current hashed) then
    _ ← record_audit now (Some (u_id u)) None "password.change" "failure" None None [];
    raise (app_error UnauthorizedError "")
  else if verify_password new hashed then raise (app_error ConflictError "")
  else
    _ ← assign_user u (fun u => set_password_changed now (set_hash (hash_password salt new) u));
    record_audit now (Some (u_id u)) None "password.change" "success" None None [].

(** ** Moderation *)

Definition set_ban now (u : User) (banned : bool) (reason : option string) (actor : option uuid) : M AuthDb unit :=
  _ ← assign_user u (set_banned (if banned then Some now else None) (if banned then reason else None) (negb banned));
  record_audit now (Some (u_id u)) actor (if banned then "user.banned" else "user.unbanned") "success" None None
    (match reason with Some r => if String.eqb r "" then [] else [("reason", JStr r)] | None => [] end).

(** ** What the account methods leave alone *)

Lemma get_by_email_inv e d r d' : get_by_email e d = (r, d') -> d' = d.
Proof. unfold get_by_email. by intros [= _ <-]. Qed.

Lemma get_by_id_inv k d r d' : get_by_id k d = (r, d') ->
  d' = d /\ match r with
            | Ok u => users d !! k = Some u /\ u_deleted_at u = None
            | Raise e => e = app_error NotFoundError ""
            end.
Proof.
  unfold get_by_id. intros [(uo & d1 & [= <- <-] & H)|(e & [=] & _)]%bind_inv.
  destruct (users d !! k) as [u|]; [|by injection H as <- <-].
  case_bool_decide as Hd; injection H as <- <-; [done|]. split; [done|]. split; [done|]. by apply eq_None_not_Some.
Qed.

Section keeps.
Context {B : Type} (proj : AuthDb -> B).
Hypothesis Husers : forall x d, proj (set_users x d) = proj d.
Hypothesis Haudit : forall x d, proj (set_audit_logs x d) = proj d.

Lemma keeps_get_by_email e : keeps proj (get_by_email e).
Proof. unfold get_by_email. keeps_auth. Qed.
Lemma keeps_get_by_id k : keeps proj (get_by_id k).
Proof. unfold get_by_id. keeps_auth. Qed.
Lemma keeps_record_audit now user actor action status ip agent meta :
  keeps proj (record_audit now user actor action status ip agent meta).
Proof. unfold record_audit. apply keeps_modify. intros d. apply Haudit. Qed.
Lemma keeps_assign_user u f : keeps proj (assign_user u f).
Proof.
  unfold assign_user, update_users. apply keeps_bind; [|intros _; apply keeps_ret].
  apply keeps_modify. intros d. apply Husers.
Qed.

Lemma keeps_authenticate now salt e password ip : keeps proj (authenticate now salt e password ip).
Proof.
  unfold authenticate, register_failed_attempt, update_users.
  repeat first [ apply keeps_get_by_email | apply keeps_record_audit | apply keeps_assign_user
               | apply keeps_modify; intros ?; apply Husers | keeps_core ].
Qed.

Lemma keeps_change_password now salt u current new : keeps proj (change_password now salt u current new).
Proof.
  unfold change_password. repeat first [ apply keeps_record_audit | apply keeps_assign_user | keeps_core ].
Qed.

Lemma keeps_set_ban now u banned reason actor : keeps proj (set_ban now u banned reason actor).
Proof. unfold set_ban. repeat first [ apply keeps_record_audit | apply keeps_assign_user | keeps_core ]. Qed.

Hypothesis Hreset : forall x d, proj (set_reset_tokens x d) = proj d.

Lemma keeps_reset_password now salt raw new : keeps proj (reset_password now salt raw new).
Proof.
  unfold reset_password. unfold update_reset_tokens.
  repeat first [ apply keeps_get_by_id | apply keeps_record_audit | apply keeps_assign_user
               | apply keeps_modify; intros ?; apply Hreset | keeps_core ].
Qed.
End keeps.
End accounts.
