(* ===== verification/Tokens.v ===== *)
(** * Access and refresh tokens (apps/auth/services/tokens.py)

    Sessions, the rotation of refresh tokens with reuse detection, and
    revocation.  Parameters: the digest of a token, the signature of the claims
    and what the random generators draw. *)

From S2P Require Import Prelude Store Json AuthDb.

(** ** Permissions in a token *)

(** [sorted(set(l))] *)
Definition sorted_set (l : list string) : list string :=
  merge_sort (fun a b => Is_true (String.leb a b)) (fromkeys l).

(** An unknown role is logged and grants nothing. *)
Definition granted_by (role_name : string) : list string :=
  match parse_enum role_name with
  | Some role => map permission_value (ROLE_PERMISSIONS role)
  | None => []
  end.

Definition resolve_permissions (u : User) : list string :=
  sorted_set (concat (map granted_by (u_roles u)) ++ u_extra_permissions u).

Lemma elem_of_sorted_set l x : x ∈ sorted_set l <-> x ∈ l.
Proof. unfold sorted_set. by rewrite merge_sort_Permutation, elem_of_fromkeys. Qed.

Lemma elem_of_permissions u p : p ∈ resolve_permissions u <->
  (exists name role, name ∈ u_roles u /\ parse_enum name = Some role /\ p ∈ map permission_value (ROLE_PERMISSIONS role)) \/
  p ∈ u_extra_permissions u.
Proof.
  unfold resolve_permissions. rewrite elem_of_sorted_set, elem_of_app. apply or_iff_compat_r.
  rewrite list_elem_of_In, in_concat. split.
  - intros (l & Hl & Hp). apply in_map_iff in Hl as (name & <- & Hn). unfold granted_by in Hp.
    destruct (parse_enum name) as [role|] eqn:E; [|done]. exists name, role. by rewrite !list_elem_of_In.
  - intros (name & role & Hn & Hr & Hp). exists (granted_by name). split.
    + apply in_map. by apply list_elem_of_In.
    + unfold granted_by. rewrite Hr. by apply list_elem_of_In.
Qed.

Record IssuedTokens := mkIssued {
  access_token : string;
  expires_in : Z;
  refresh_token : string;
  csrf_token : string;
  issued_user_id : uuid;
  issued_session_id : uuid;
  refresh_expires_at : datetime;
}.

(** What one issue draws: row id, refresh token, CSRF value, access token id. *)
Record TokenDraws := mkDraws { td_id : uuid; td_refresh : string; td_csrf : string; td_jti : uuid }.

Definition set_used now t := mkRefresh (rt_id t) (rt_user_id t) (rt_session_id t) (rt_family_id t) (rt_parent_id t)
  (rt_token_hash t) (rt_csrf_hash t) (rt_expires_at t) (rt_created_at t) (Some now) (rt_revoked_at t) (rt_revoked_reason t).
Definition set_token_revoked now reason t := mkRefresh (rt_id t) (rt_user_id t) (rt_session_id t) (rt_family_id t)
  (rt_parent_id t) (rt_token_hash t) (rt_csrf_hash t) (rt_expires_at t) (rt_created_at t) (rt_used_at t)
  (Some now) (Some reason).
Definition set_seen now s := mkSession (s_id s) (s_user_id s) (s_ip_address s) (s_user_agent s) (s_device_label s)
  (s_auth_method s) (Some now) (s_expires_at s) (s_created_at s) (s_revoked_at s) (s_revoked_reason s).
Definition set_session_revoked now reason s := mkSession (s_id s) (s_user_id s) (s_ip_address s) (s_user_agent s)
  (s_device_label s) (s_auth_method s) (s_last_seen_at s) (s_expires_at s) (s_created_at s) (Some now) (Some reason).

(** [(user_agent or "")[:400] or None] *)
Definition trim_agent (agent : option string) : option string :=
  let a := stake 400 (default "" agent) in if String.eqb a "" then None else Some a.

Section tokens.
Context (settings : AuthSettings).
(** [hash_token]; [jwt.encode] with the active key. *)
Context (hash_token : string -> string) (jwt_encode : json -> string).

Definition access_claims (u : User) (session_id jti : uuid) (now : datetime) : json :=
  JObj [("sub", JStr (string_of_uuid (u_id u))); ("email", JStr (u_email u));
        ("roles", JList (map JStr (u_roles u))); ("permissions", JList (map JStr (resolve_permissions u)));
        ("sid", JStr (string_of_uuid session_id)); ("jti", JStr (string_of_uuid jti)); ("typ", JStr "access");
        ("iss", JStr (jwt_issuer settings)); ("aud", JStr (jwt_audience settings));
        ("iat", JInt (now / SECOND)); ("nbf", JInt (now / SECOND));
        ("exp", JInt ((now + access_token_ttl settings * SECOND) / SECOND))].

Definition mint_access_token u session_id jti now : string * Z :=
  (jwt_encode (access_claims u session_id jti now), access_token_ttl settings).

Definition challenge_claims (user_id jti : uuid) (now : datetime) : json :=
  JObj [("sub", JStr (string_of_uuid user_id)); ("typ", JStr "mfa_challenge"); ("jti", JStr (string_of_uuid jti));
        ("iss", JStr (jwt_issuer settings)); ("aud", JStr (jwt_audience settings));
        ("iat", JInt (now / SECOND)); ("exp", JInt ((now + mfa_challenge_ttl settings * SECOND) / SECOND))].

Definition mint_mfa_challenge user_id jti now : string * Z :=
  (jwt_encode (challenge_claims user_id jti now), mfa_challenge_ttl settings).

(** [jwt.decode] with the active key: the claims of a genuine unexpired token. *)
Definition read_mfa_challenge (jwt_decode : string -> option json) (token : string) : result uuid :=
  let invalid := app_error UnauthorizedError "" in
  match jwt_decode token with
  | None => Raise invalid
  | Some claims =>
      typ ← dict_get "typ" claims;
      match typ with
      | JStr "mfa_challenge" =>
          match jget "sub" claims with
          | JStr s => match uuid_of_string s with Some u => Ok u | None => Raise ValueErr end
          | _ => Raise KeyErr
          end
      | _ => Raise invalid
      end
  end.

(** ** Issuing *)

Definition new_token later dr (u : User) (s : Session) family (parent : option RefreshToken) : RefreshToken :=
  mkRefresh (td_id dr) (u_id u) (s_id s) family (rt_id <$> parent) (hash_token (td_refresh dr)) (hash_token (td_csrf dr))
    (later + refresh_token_ttl settings * SECOND) later None None None.

Definition issue_pair later dr u s family parent : M AuthDb IssuedTokens :=
  let record := new_token later dr u s family parent in
  _ ← add_refresh_token record;
  let '(access, ttl) := mint_access_token u (s_id s) (td_jti dr) later in
  mret (mkIssued access ttl (td_refresh dr) (td_csrf dr) (u_id u) (s_id s) (rt_expires_at record)).

Definition new_session now sid (u : User) ip agent label method : Session :=
  mkSession sid (u_id u) ip (trim_agent agent) label method (Some now)
    (now + refresh_token_ttl settings * SECOND) now None None.

(** [sid] and [family] are fresh UUIDs. *)
Definition start_session now later dr sid family u ip agent label method : M AuthDb IssuedTokens :=
  let s := new_session now sid u ip agent label method in
  _ ← add_session s;
  issue_pair later dr u s family None.

(** ** Revocation *)

Definition revoke_family now family reason : M AuthDb unit :=
  update_all_tokens (fun t => bool_decide (rt_family_id t = family) && bool_decide (rt_revoked_at t = None))
    (set_token_revoked now reason).

Definition revoke_session now sid reason : M AuthDb unit :=
  _ ← update_all_sessions (fun s => bool_decide (s_id s = sid) && bool_decide (s_revoked_at s = None))
        (set_session_revoked now reason);
  update_all_tokens (fun t => bool_decide (rt_session_id t = sid) && bool_decide (rt_revoked_at t = None))
    (set_token_revoked now reason).

Definition revoke_all_sessions now user_id reason : M AuthDb unit :=
  _ ← update_all_sessions (fun s => bool_decide (s_user_id s = user_id) && bool_decide (s_revoked_at s = None))
        (set_session_revoked now reason);
  update_all_tokens (fun t => bool_decide (rt_user_id t = user_id) && bool_decide (rt_revoked_at t = None))
    (set_token_revoked now reason).

(** ** Rotation *)

Definition find_token (h : string) : M AuthDb (option RefreshToken) :=
  rows ← gets (fun d => select (fun t => String.eqb (rt_token_hash t) h) (refresh_tokens d));
  of_result (one_or_none rows).

(** The rest of [rotate] once the row is loaded. *)
Definition rotate_record now later dr (csrf : option string) (record : RefreshToken) : M AuthDb IssuedTokens :=
  if bool_decide (is_Some (rt_used_at record)) then
    _ ← revoke_family now (rt_family_id record) "reuse_detected";
    raise (app_error UnauthorizedError "refresh_token_reused")
  else if bool_decide (is_Some (rt_revoked_at record)) then raise (app_error UnauthorizedError "")
  else if rt_expires_at record <? now then raise (app_error UnauthorizedError "")
  else if (match csrf with Some c => negb (String.eqb (hash_token c) (rt_csrf_hash record)) | None => false end)
  then raise (app_error UnauthorizedError "csrf_mismatch")
  else
    db_session ← gets (fun d => sessions d !! rt_session_id record);
    match db_session with
    | None => raise (app_error UnauthorizedError "")
    | Some s =>
        if bool_decide (is_Some (s_revoked_at s)) then raise (app_error UnauthorizedError "")
        else if s_expires_at s <? now then raise (app_error UnauthorizedError "")
        else
          user ← gets (fun d => users d !! rt_user_id record);
          match user with
          | None => raise (app_error UnauthorizedError "")
          | Some u =>
              if negb (u_is_active u) || bool_decide (is_Some (u_deleted_at u))
              then raise (app_error UnauthorizedError "")
              else if bool_decide (is_Some (u_banned_at u)) then raise (app_error UnauthorizedError "account_banned")
              else
                _ ← update_refresh_tokens (rt_id record) (set_used now);
                _ ← update_sessions (s_id s) (set_seen now);
                issue_pair later dr u (set_seen now s) (rt_family_id record) (Some record)
          end
    end.

Definition rotate now later dr (raw : string) (csrf : option string) : M AuthDb IssuedTokens :=
  record ← find_token (hash_token raw);
  match record with
  | None => raise (app_error UnauthorizedError "")
  | Some t => rotate_record now later dr csrf t
  end.

(** ** Lemmas: what rotation does *)

Lemma find_token_inv h d r d' : find_token h d = (r, d') ->
  d' = d /\ match r with
            | Ok (Some t) => select (fun t => String.eqb (rt_token_hash t) h) (refresh_tokens d) = [t]
            | Ok None => select (fun t => String.eqb (rt_token_hash t) h) (refresh_tokens d) = []
            | Raise _ => True
            end.
Proof.
  unfold find_token. intros [= <- <-]. split; [done|].
  destruct (one_or_none _) as [[t|]|] eqn:E; [by apply one_or_none_Some|by apply one_or_none_None|done].
Qed.

Lemma issue_pair_inv later dr u s family parent d r d' : issue_pair later dr u s family parent d = (r, d') ->
  (exists issued, r = Ok issued /\ refresh_tokens d !! td_id dr = None /\ issued_user_id issued = u_id u /\
     refresh_token issued = td_refresh dr /\ csrf_token issued = td_csrf dr /\
     issued_session_id issued = s_id s /\
     access_token issued = jwt_encode (access_claims u (s_id s) (td_jti dr) later) /\
     d' = set_refresh_tokens (save (new_token later dr u s family parent) (refresh_tokens d)) d) \/
  (exists e, r = Raise e /\ d' = d).
Proof.
  unfold issue_pair. intros [([] & d1 & H1 & H)|(e & H1 & ->)]%bind_inv.
  - apply add_row_inv in H1 as [(_ & Hn & ->)|([=] & _)]. injection H as <- <-. left. eexists. split; [reflexivity|]. done.
  - apply add_row_inv in H1 as [([=] & _)|(_ & ->)]. right. eauto.
Qed.

(** What a loaded token must satisfy to be exchanged. *)
Record exchangeable now (csrf : option string) (t : RefreshToken) (s : Session) (u : User) (d : AuthDb) : Prop := {
  ex_unused : rt_used_at t = None;
  ex_unrevoked : rt_revoked_at t = None;
  ex_unexpired : now <= rt_expires_at t;
  ex_csrf : forall c, csrf = Some c -> hash_token c = rt_csrf_hash t;
  ex_session : sessions d !! rt_session_id t = Some s;
  ex_session_live : s_revoked_at s = None /\ now <= s_expires_at s;
  ex_user : users d !! rt_user_id t = Some u;
  ex_user_active : u_is_active u = true /\ u_deleted_at u = None /\ u_banned_at u = None;
}.

Lemma not_is_Some_None {A} (o : option A) : bool_decide (is_Some o) = false -> o = None.
Proof. intros H%bool_decide_eq_false. by apply eq_None_not_Some. Qed.

Lemma rotate_record_inv now later dr csrf t d r d' : rotate_record now later dr csrf t d = (r, d') ->
  (exists issued s u, r = Ok issued /\ exchangeable now csrf t s u d /\
     refresh_tokens d !! td_id dr = None /\ issued_user_id issued = u_id u /\
     refresh_token issued = td_refresh dr /\ issued_session_id issued = s_id s /\
     access_token issued = jwt_encode (access_claims u (s_id s) (td_jti dr) later) /\
     refresh_tokens d' = save (new_token later dr u (set_seen now s) (rt_family_id t) (Some t))
                           (alter (set_used now) (rt_id t) (refresh_tokens d)) /\
     sessions d' = alter (set_seen now) (s_id s) (sessions d) /\ users d' = users d) \/
  (exists e, r = Raise e).
Proof.
  unfold rotate_record.
  destruct (bool_decide (is_Some (rt_used_at t))) eqn:Hu; [intros [= <- _]; eauto|].
  destruct (bool_decide (is_Some (rt_revoked_at t))) eqn:Hr; [intros [= <- _]; eauto|].
  destruct (rt_expires_at t <? now) eqn:He; [intros [= <- _]; eauto|].
  destruct (match csrf with Some c => _ | None => _ end) eqn:Hc; [intros [= <- _]; eauto|].
  intros [(so & d1 & [= <- <-] & H)|(e & [=] & _)]%bind_inv.
  destruct (sessions d !! rt_session_id t) as [s|] eqn:Hs; [|injection H as <- _; eauto].
  destruct (bool_decide (is_Some (s_revoked_at s))) eqn:Hsr; [injection H as <- _; eauto|].
  destruct (s_expires_at s <? now) eqn:Hse; [injection H as <- _; eauto|].
  apply bind_inv in H as [(uo & d1 & [= <- <-] & H)|(e & [=] & _)].
  destruct (users d !! rt_user_id t) as [u|] eqn:Hus; [|injection H as <- _; eauto].
  destruct (negb (u_is_active u) || _) eqn:Ha; [injection H as <- _; eauto|].
  destruct (bool_decide (is_Some (u_banned_at u))) eqn:Hb; [injection H as <- _; eauto|].
  apply bind_inv in H as [([] & d1 & [= <-] & H)|(e & [=] & _)].
  apply bind_inv in H as [([] & d2 & [= <-] & H)|(e & [=] & _)].
  apply issue_pair_inv in H as [(issued & -> & Hn & H1 & H2 & _ & H3 & H4 & ->)|(e & -> & _)]; [|eauto].
  apply orb_false_iff in Ha as [Ha Hd]. apply negb_false_iff in Ha.
  left. exists issued, s, u. split; [done|]. split; [constructor; try done; try (by apply not_is_Some_None)|].
  - by apply Z.ltb_ge.
  - intros c ->. by apply negb_false_iff, String.eqb_eq in Hc.
  - split; [by apply not_is_Some_None|by apply Z.ltb_ge].
  - split; [done|]. split; by apply not_is_Some_None.
  - cbn in Hn. rewrite lookup_alter_None in Hn. done.
Qed.

(** ** Spent tokens and families

    [spent h]: every token with the digest [h] was consumed or revoked.
    [linear]: a family has at most one token that was not consumed. *)

Definition spent (h : string) (d : AuthDb) : Prop :=
  forall i t, refresh_tokens d !! i = Some t -> rt_token_hash t = h -> is_Some (rt_used_at t) \/ is_Some (rt_revoked_at t).

Definition linear (d : AuthDb) : Prop :=
  keyed (refresh_tokens d) /\
  forall i j a b, refresh_tokens d !! i = Some a -> refresh_tokens d !! j = Some b ->
    rt_family_id a = rt_family_id b -> rt_used_at a = None -> rt_used_at b = None -> i = j.

Lemma rotate_spent now later dr raw csrf d : spent (hash_token raw) d ->
  exists e d', rotate now later dr raw csrf d = (Raise e, d').
Proof.
  intros Hs. unfold rotate. destruct (find_token (hash_token raw) d) as [r d1] eqn:E.
  apply find_token_inv in E as E'. destruct E' as [-> Hr]. unfold mbind, M_bind. rewrite E.
  destruct r as [[t|]|e]; [|eexists _, _; reflexivity..].
  destruct (rotate_record now later dr csrf t d) as [r d2] eqn:E2.
  apply rotate_record_inv in E2 as [(issued & s & u & -> & [Hu Hrv _ _ _ _ _ _] & _)|(e & ->)]; [|eauto].
  assert (Hin : t ∈ select (fun t => String.eqb (rt_token_hash t) (hash_token raw)) (refresh_tokens d)) by (rewrite Hr; left).
  apply elem_of_select in Hin as [(i & Hi) Hh]. apply String.eqb_eq in Hh.
  destruct (Hs i t Hi Hh) as [[? H]|[? H]]; congruence.
Qed.

(** A bulk change that only revokes. *)
Lemma spent_update h P f d :
  (forall t, rt_token_hash (f t) = rt_token_hash t /\ rt_used_at (f t) = rt_used_at t /\ is_Some (rt_revoked_at (f t))) ->
  spent h d -> spent h (set_refresh_tokens (update_where P f (refresh_tokens d)).1 d).
Proof.
  intros Hf Hs i t. cbn [refresh_tokens set_refresh_tokens]. rewrite lookup_update_where.
  intros (w & Hw & ->)%fmap_Some_1.
  destruct (P w); [|by apply (Hs i)]. intros _. right. apply Hf.
Qed.

Lemma linear_update P f d :
  (forall t, rt_id (f t) = rt_id t /\ rt_family_id (f t) = rt_family_id t /\ rt_used_at (f t) = rt_used_at t) ->
  linear d -> linear (set_refresh_tokens (update_where P f (refresh_tokens d)).1 d).
Proof.
  intros Hf [Hk Hl]. split; cbn [refresh_tokens set_refresh_tokens].
  { apply keyed_update; [|done]. intros t. apply Hf. }
  assert (Hg : forall w, rt_family_id (if P w then f w else w) = rt_family_id w /\
                         rt_used_at (if P w then f w else w) = rt_used_at w)
    by (intros w; destruct (P w); [split; apply Hf|done]).
  intros i j a b. rewrite !lookup_update_where. intros (v & Hv & ->)%fmap_Some_1 (w & Hw & ->)%fmap_Some_1.
  destruct (Hg v) as [-> ->], (Hg w) as [-> ->]. by apply Hl.
Qed.

Lemma revoke_all_tokens_inv (I : AuthDb -> Prop) now P reason :
  (forall d, I d -> I (set_refresh_tokens (update_where P (set_token_revoked now reason) (refresh_tokens d)).1 d)) ->
  preserves I (update_all_tokens P (set_token_revoked now reason)).
Proof. intros H. unfold update_all_tokens. by apply preserves_modify. Qed.

Lemma spent_other h d d' : refresh_tokens d' = refresh_tokens d -> spent h d -> spent h d'.
Proof. unfold spent. by intros ->. Qed.
Lemma linear_other d d' : refresh_tokens d' = refresh_tokens d -> linear d -> linear d'.
Proof. unfold linear. by intros ->. Qed.

Lemma revoke_family_inv h now family reason :
  preserves (spent h) (revoke_family now family reason) /\ preserves linear (revoke_family now family reason).
Proof.
  split; apply revoke_all_tokens_inv; intros d; [apply spent_update|apply linear_update]; by intros t; eauto.
Qed.

Lemma revoke_session_inv h now sid reason :
  preserves (spent h) (revoke_session now sid reason) /\ preserves linear (revoke_session now sid reason).
Proof.
  split; (apply preserves_bind; [apply preserves_modify; intros d|intros _; apply revoke_all_tokens_inv; intros d]);
    [by apply spent_other|apply spent_update|by apply linear_other|apply linear_update]; by intros t; eauto.
Qed.

Lemma revoke_all_inv h now user reason :
  preserves (spent h) (revoke_all_sessions now user reason) /\ preserves linear (revoke_all_sessions now user reason).
Proof.
  split; (apply preserves_bind; [apply preserves_modify; intros d|intros _; apply revoke_all_tokens_inv; intros d]);
    [by apply spent_other|apply spent_update|by apply linear_other|apply linear_update]; by intros t; eauto.
Qed.

(** Every token of the user is revoked afterwards. *)
Lemma revoke_all_spent now user reason h d :
  (forall i t, refresh_tokens d !! i = Some t -> rt_token_hash t = h -> rt_user_id t = user) ->
  spent h (revoke_all_sessions now user reason d).2.
Proof.
  intros Hu. unfold revoke_all_sessions. unfold mbind, M_bind. cbn [update_all_sessions modify update_all_tokens snd].
  intros i t. cbn [refresh_tokens set_refresh_tokens set_sessions]. rewrite lookup_update_where.
  intros (w & Hw & ->)%fmap_Some_1. destruct (bool_decide (rt_user_id w = user) && _) eqn:E; [intros _; right; by eexists|].
  intros Hh. rewrite (Hu i w Hw Hh), bool_decide_eq_true_2 in E by done. cbn in E. right.
  by apply not_eq_None_Some, (bool_decide_eq_false _).
Qed.

Lemma issue_pair_spent h later dr u s family parent : hash_token (td_refresh dr) <> h ->
  preserves (spent h) (issue_pair later dr u s family parent).
Proof.
  intros Hne d r d' Hs [(issued & _ & _ & _ & _ & _ & _ & _ & ->)|(e & _ & ->)]%issue_pair_inv; [|done].
  intros i t. cbn [refresh_tokens set_refresh_tokens]. rewrite lookup_save. case_decide; [by intros [= <-]|apply Hs].
Qed.

Lemma start_session_spent h now later dr sid family u ip agent label method : hash_token (td_refresh dr) <> h ->
  preserves (spent h) (start_session now later dr sid family u ip agent label method).
Proof.
  intros Hne. apply preserves_bind; [|intros _; by apply issue_pair_spent].
  apply (preserves_keeps refresh_tokens); [keeps_auth|apply spent_other].
Qed.

Lemma rotate_spent_keeps h now later dr raw csrf : hash_token (td_refresh dr) <> h ->
  preserves (spent h) (rotate now later dr raw csrf).
Proof.
  intros Hne. unfold rotate. apply preserves_bind; [unfold find_token; eauto with store|]. intros [t|]; [|apply preserves_raise].
  unfold rotate_record. destruct (bool_decide (is_Some (rt_used_at t))).
  { apply preserves_bind; [apply revoke_family_inv|intros _; apply preserves_raise]. }
  do 2 (destruct (_ : bool); [apply preserves_raise|]).
  destruct (match csrf with Some c => _ | None => _ end); [apply preserves_raise|].
  apply preserves_bind; [apply preserves_gets|]. intros [se|]; [|apply preserves_raise].
  do 2 (destruct (_ : bool); [apply preserves_raise|]).
  apply preserves_bind; [apply preserves_gets|]. intros [us|]; [|apply preserves_raise].
  do 2 (destruct (_ : bool); [apply preserves_raise|]).
  apply preserves_bind.
  { apply preserves_modify. intros d Hs i w (v & Hv & [[-> ->]|[_ ->]])%lookup_alter_cases; [by left; eexists|by apply (Hs i)]. }
  intros _. apply preserves_bind; [apply preserves_modify; intros d; by apply spent_other|].
  intros _. by apply issue_pair_spent.
Qed.

(** ** Families stay chains *)

Definition fresh_family (family : uuid) (d : AuthDb) : Prop :=
  map_Forall (fun _ t => rt_family_id t <> family) (refresh_tokens d).

Lemma start_session_linear now later dr sid family u ip agent label method d a d' :
  linear d -> fresh_family family d ->
  start_session now later dr sid family u ip agent label method d = (Ok a, d') -> linear d'.
Proof.
  intros [Hk Hl] Hf H. apply bind_ok_inv in H as ([] & d1 & H1 & H).
  apply add_row_inv in H1 as [(_ & _ & ->)|([=] & _)].
  apply issue_pair_inv in H as [(issued & _ & _ & _ & _ & _ & _ & _ & ->)|(e & [=] & _)].
  split; cbn [refresh_tokens set_refresh_tokens set_sessions]; [by apply keyed_save|].
  intros i j x y. rewrite !lookup_save. intros Hx Hy Hfam Hux Huy.
  destruct (decide (_ = i)) as [Hi|Hi], (decide (_ = j)) as [Hj|Hj]; simplify_eq; try done.
  - by destruct (Hf j y Hy).
  - by destruct (Hf i x Hx).
  - by eapply Hl.
Qed.

Lemma rotate_linear now later dr raw csrf d issued d' :
  linear d -> rotate now later dr raw csrf d = (Ok issued, d') -> linear d'.
Proof.
  intros [Hk Hl] H. unfold rotate in H. apply bind_ok_inv in H as (ro & d1 & H1 & H).
  apply find_token_inv in H1 as [-> Hsel]. destruct ro as [t|]; [|done].
  assert (Hin : t ∈ select (fun t => String.eqb (rt_token_hash t) (hash_token raw)) (refresh_tokens d)) by (rewrite Hsel; left).
  apply elem_of_select_keyed in Hin as [Ht _]; [|done]. change (row_id t) with (rt_id t) in Ht.
  apply rotate_record_inv in H as [(iss & s & u & _ & Hex & Hnew & _ & _ & _ & _ & Hr & _)|(e & [=])].
  assert (Hold : forall i x, alter (set_used now) (rt_id t) (refresh_tokens d) !! i = Some x -> rt_used_at x = None ->
            refresh_tokens d !! i = Some x /\ i <> rt_id t).
  { intros i x (w & Hw & [[-> ->]|[Hne ->]])%lookup_alter_cases Hu; [done|by split]. }
  unfold linear. rewrite Hr. split.
  { apply keyed_save. intros i x (w & Hw & [[-> ->]|[_ ->]])%lookup_alter_cases; [exact (Hk _ w Hw)|by apply Hk]. }
  intros i j x y. rewrite !lookup_save. intros Hx Hy Hfam Hux Huy.
  destruct (decide (_ = i)) as [Hi|Hi], (decide (_ = j)) as [Hj|Hj]; simplify_eq; try done.
  - apply Hold in Hy as [Hy Hne]; [|done]. cbn in Hfam. exfalso. apply Hne.
    by apply (Hl j (rt_id t) y t); [..|apply Hex].
  - apply Hold in Hx as [Hx Hne]; [|done]. cbn in Hfam. exfalso. apply Hne.
    by apply (Hl i (rt_id t) x t); [..|apply Hex].
  - apply Hold in Hx as [Hx _]; [|done]. apply Hold in Hy as [Hy _]; [|done]. by eapply Hl.
Qed.
End tokens.
