(* ===== verification/Mfa.v ===== *)
(** * The second factor (apps/auth/services/mfa.py)

    TOTP enrolment and verification with replay protection, and single-use
    recovery codes.  Parameters: the TOTP generator and its [verify], Fernet,
    and the digest of a recovery code. *)

From S2P Require Import Prelude Store Json AuthDb Accounts.

Definition TOTP_VALID_WINDOW : Z := 1.

Definition set_step step t := mkTotp (ts_id t) (ts_user_id t) (ts_secret_encrypted t) (ts_confirmed_at t) (Some step).
Definition set_confirmed now step t := mkTotp (ts_id t) (ts_user_id t) (ts_secret_encrypted t) (Some now) (Some step).
Definition set_secret enc t := mkTotp (ts_id t) (ts_user_id t) enc None None.
Definition use_code now c := mkRecovery (rc_id c) (rc_user_id c) (rc_code_hash c) (Some now).

Definition is_digit_text (s : string) : bool := negb (String.eqb s "") && sall is_digit s.

(** [code.strip().replace(" ", "").replace("-", "").upper()] *)
Definition clean_code (code : string) : string := upper (erase "-" (erase " " (strip code))).

Section mfa.
Context (settings : AuthSettings) (hash_token : string -> string).
(** The code of a secret at a time step, and [totp.verify(code, for_time, valid_window)];
    Fernet, where [decrypt] is [None] on InvalidToken. *)
Context (totp_at : string -> Z -> string) (totp_verify : string -> string -> datetime -> Z -> bool)
        (encrypt : string -> string) (decrypt : string -> option string).

(** ** Rows of a user *)

Definition get_secret_row (user : uuid) : M AuthDb (option TotpSecret) :=
  rows ← gets (fun d => select (fun t => bool_decide (ts_user_id t = user)) (totp_secrets d));
  of_result (one_or_none rows).

Definition recovery_rows (user : uuid) (unused_only : bool) : M AuthDb (list RecoveryCode) :=
  gets (fun d => select (fun c => bool_decide (rc_user_id c = user) &&
                                  (negb unused_only || bool_decide (rc_used_at c = None))) (recovery_codes d)).

Definition count_unused_recovery_codes (user : uuid) : M AuthDb Z :=
  rows ← recovery_rows user true; mret (Z.of_nat (length rows)).

(** ** TOTP *)

(** The first step of the window whose code is [code]; refused when it is not
    after the last one accepted. *)
Fixpoint match_step (secret code : string) (last : option Z) (candidates : list Z) : option Z :=
  match candidates with
  | [] => None
  | c :: rest =>
      if String.eqb (totp_at secret c) code then
        if (match last with Some l => c <=? l | None => false end) then None else Some c
      else match_step secret code last rest
  end.

Definition window (now : datetime) : list Z :=
  let step := now / SECOND / totp_period settings in
  [step - TOTP_VALID_WINDOW; step; step + TOTP_VALID_WINDOW].

Definition verify_totp now (row : TotpSecret) (code : string) : option Z :=
  if negb (is_digit_text code) then None
  else
    match decrypt (ts_secret_encrypted row) with
    | None => None
    | Some secret =>
        if negb (totp_verify secret code now TOTP_VALID_WINDOW) then None
        else match_step secret code (ts_last_used_step row) (window now)
    end.

(** ** Recovery codes *)

Definition delete_all (rows : list RecoveryCode) : M AuthDb unit :=
  for_each (fun c => modify (fun d => set_recovery_codes (remove c (recovery_codes d)) d)) rows.

(** The codes and row ids that are drawn, [recovery_code_count] of them. *)
Definition regenerate_recovery_codes (draws : list (uuid * string)) (u : User) : M AuthDb (list string) :=
  rows ← recovery_rows (u_id u) false;
  _ ← delete_all rows;
  let drawn := take (recovery_code_count settings) draws in
  _ ← for_each (fun dr => add_recovery_code (mkRecovery dr.1 (u_id u) (hash_token (erase "-" dr.2)) None)) drawn;
  mret (map snd drawn).

Definition consume_recovery_code now (user : uuid) (code : string) : M AuthDb bool :=
  rows ← gets (fun d => select (fun c => bool_decide (rc_user_id c = user) &&
      String.eqb (rc_code_hash c) (hash_token (erase "-" code)) && bool_decide (rc_used_at c = None)) (recovery_codes d));
  row ← of_result (one_or_none rows);
  match row with
  | None => mret false
  | Some c => _ ← update_recovery_codes (rc_id c) (use_code now); mret true
  end.

(** ** Enrolment and verification *)

(** [secret] and the row id are drawn; the provisioning URI is a rendering of
    the secret and is left out. *)
Definition begin_enrolment (tid : uuid) (secret : string) (u : User) : M AuthDb string :=
  if u_mfa_enabled u then raise (app_error ConflictError "")
  else
    existing ← get_secret_row (u_id u);
    _ ← match existing with
        | Some row => update_totp_secrets (ts_id row) (set_secret (encrypt secret))
        | None => add_totp_secret (mkTotp tid (u_id u) (encrypt secret) None None)
        end;
    mret secret.

Definition confirm_enrolment now draws (u : User) (code : string) : M AuthDb (list string) :=
  row ← get_secret_row (u_id u);
  match row with
  | None => raise (app_error ConflictError "")
  | Some row =>
      match verify_totp now row code with
      | None => raise (app_error UnauthorizedError "")
      | Some step =>
          _ ← update_totp_secrets (ts_id row) (set_confirmed now step);
          u ← assign_user u (set_mfa true);
          regenerate_recovery_codes draws u
      end
  end.

Definition disable (u : User) : M AuthDb unit :=
  row ← get_secret_row (u_id u);
  _ ← match row with
      | Some row => modify (fun d => set_totp_secrets (remove row (totp_secrets d)) d)
      | None => mret tt
      end;
  rows ← recovery_rows (u_id u) false;
  _ ← delete_all rows;
  update_users (u_id u) (set_mfa false).

(** The accepted step of the user's confirmed secret. *)
Definition accepted_step now (row : option TotpSecret) (code : string) : option (TotpSecret * Z) :=
  match row with
  | Some r => if bool_decide (is_Some (ts_confirmed_at r)) then (fun s => (r, s)) <$> verify_totp now r code else None
  | None => None
  end.

Definition verify now (u : User) (code : string) : M AuthDb string :=
  let cleaned := clean_code code in
  row ← get_secret_row (u_id u);
  match accepted_step now row cleaned with
  | Some (r, step) => _ ← update_totp_secrets (ts_id r) (set_step step); mret "totp"
  | None =>
      used ← consume_recovery_code now (u_id u) cleaned;
      if (used : bool) then mret "recovery_code" else raise (app_error UnauthorizedError "")
  end.

(** ** Lemmas *)

Lemma match_step_spec secret code last cands s : match_step secret code last cands = Some s ->
  s ∈ cands /\ totp_at secret s = code /\ (forall l, last = Some l -> l < s).
Proof.
  induction cands as [|c cands IH]; cbn [match_step]; [done|].
  destruct (String.eqb_spec (totp_at secret c) code) as [Hc|_].
  - destruct (match last with Some l => _ | None => _ end) eqn:Hl; [done|]. intros [= <-].
    split; [left|]. split; [done|]. intros l ->. by apply Z.leb_gt in Hl.
  - intros (H1 & H2 & H3)%IH. split; [by right|done].
Qed.

Lemma verify_totp_inv now row code s : verify_totp now row code = Some s ->
  exists secret, decrypt (ts_secret_encrypted row) = Some secret /\ totp_at secret s = code /\
    s ∈ window now /\ (forall l, ts_last_used_step row = Some l -> l < s).
Proof.
  unfold verify_totp. destruct (negb _); [done|]. destruct (decrypt _) as [secret|]; [|done].
  destruct (negb _); [done|]. intros (H1 & H2 & H3)%match_step_spec. eauto.
Qed.

Lemma get_secret_row_inv user d r d' : get_secret_row user d = (r, d') ->
  d' = d /\ match r with
            | Ok (Some t) => select (fun t => bool_decide (ts_user_id t = user)) (totp_secrets d) = [t]
            | _ => True
            end.
Proof.
  unfold get_secret_row. intros [= <- <-]. split; [done|].
  destruct (one_or_none _) as [[t|]|] eqn:E; try done. by apply one_or_none_Some.
Qed.

Lemma selected_row {V} `{!Row V} P (t : table V) v : keyed t -> select P t = [v] ->
  t !! row_id v = Some v /\ P v = true /\ (forall i w, t !! i = Some w -> P w = true -> w = v).
Proof.
  intros Hk Hs. assert (Hv : v ∈ select P t) by (rewrite Hs; left).
  apply elem_of_select_keyed in Hv as [Hv HP]; [|done]. split; [done|]. split; [done|].
  intros i w Hi Hw. assert (Hin : w ∈ select P t) by (apply elem_of_select; eauto).
  rewrite Hs in Hin. by apply elem_of_cons in Hin as [|[]%not_elem_of_nil].
Qed.

Lemma consume_inv now user code d r d' : consume_recovery_code now user code d = (r, d') ->
  (exists c, r = Ok true /\ d' = set_recovery_codes (alter (use_code now) (rc_id c) (recovery_codes d)) d /\
     select (fun c => bool_decide (rc_user_id c = user) && String.eqb (rc_code_hash c) (hash_token (erase "-" code)) &&
               bool_decide (rc_used_at c = None)) (recovery_codes d) = [c]) \/
  (r = Ok false /\ d' = d /\
     select (fun c => bool_decide (rc_user_id c = user) && String.eqb (rc_code_hash c) (hash_token (erase "-" code)) &&
               bool_decide (rc_used_at c = None)) (recovery_codes d) = []) \/
  (exists e, r = Raise e /\ d' = d).
Proof.
  unfold consume_recovery_code. intros [(rows & d1 & [= <- <-] & H)|(e & [=] & _)]%bind_inv.
  apply bind_inv in H as [(row & d1 & [= E <-] & H)|(e & [= E <-] & ->)]; [|eauto].
  destruct row as [c|].
  - injection H as <- <-. left. exists c. split; [done|]. split; [done|]. by apply one_or_none_Some.
  - injection H as <- <-. right. left. split; [done|]. split; [done|]. by apply one_or_none_None.
Qed.

Lemma verify_inv now u code d r d' : verify now u code d = (r, d') ->
  (exists t s secret, r = Ok "totp" /\ select (fun t => bool_decide (ts_user_id t = u_id u)) (totp_secrets d) = [t] /\
     decrypt (ts_secret_encrypted t) = Some secret /\ totp_at secret s = clean_code code /\ s ∈ window now /\
     (forall l, ts_last_used_step t = Some l -> l < s) /\ is_Some (ts_confirmed_at t) /\
     d' = set_totp_secrets (alter (set_step s) (ts_id t) (totp_secrets d)) d) \/
  (exists c, r = Ok "recovery_code" /\
     d' = set_recovery_codes (alter (use_code now) (rc_id c) (recovery_codes d)) d /\
     select (fun c => bool_decide (rc_user_id c = u_id u) && String.eqb (rc_code_hash c) (hash_token (erase "-" (clean_code code))) &&
               bool_decide (rc_used_at c = None)) (recovery_codes d) = [c]) \/
  (exists e, r = Raise e /\ d' = d).
Proof.
  unfold verify. intros [(row & d1 & H1 & H)|(e & H1 & ->)]%bind_inv; apply get_secret_row_inv in H1 as [-> Hrow]; [|eauto].
  destruct (accepted_step now row (clean_code code)) as [[t s]|] eqn:Ha.
  - injection H as <- <-. left. unfold accepted_step in Ha. destruct row as [t'|]; [|done].
    case_bool_decide as Hc; [|done]. destruct (verify_totp now t' _) as [s'|] eqn:Hv; [|done].
    injection Ha as -> ->. apply verify_totp_inv in Hv as (secret & ? & ? & ? & ?). exists t, s, secret. eauto 10.
  - right. apply bind_inv in H as [(b & d1 & H1 & H)|(e & H1 & ->)]; apply consume_inv in H1.
    + destruct H1 as [(c & [= ->] & -> & Hc)|[([= ->] & -> & _)|(e & [=] & _)]]; injection H as <- <-; eauto 6.
    + destruct H1 as [(c & [=] & _)|[([=] & _)|(e' & _ & ->)]]. eauto.
Qed.

Lemma regenerate_keeps_totp draws u : keeps totp_secrets (regenerate_recovery_codes draws u).
Proof. unfold regenerate_recovery_codes, recovery_rows, delete_all. keeps_auth. Qed.

(** Every code of the user with this digest is used. *)
Definition code_spent user h d : Prop :=
  keyed (recovery_codes d) /\
  forall i c, recovery_codes d !! i = Some c -> rc_user_id c = user -> rc_code_hash c = h -> is_Some (rc_used_at c).

Definition avoids (h : string) (draws : list (uuid * string)) : Prop :=
  Forall (fun dr => hash_token (erase "-" dr.2) <> h) draws.

Lemma add_recovery_code_spent user h id owner raw :
  hash_token (erase "-" raw) <> h ->
  preserves (code_spent user h) (add_recovery_code (mkRecovery id owner (hash_token (erase "-" raw)) None)).
Proof.
  intros Hne d r d' [Hk Hs] [(_ & _ & ->)|(_ & ->)]%add_row_inv; [|by split]. split; [by apply keyed_save|].
  intros i c. cbn [recovery_codes set_recovery_codes]. rewrite lookup_save.
  case_decide; [by intros [= <-]|apply Hs].
Qed.

Lemma preserves_for_each_Forall {S A} (I : S -> Prop) (P : A -> Prop) (f : A -> M S unit) l :
  Forall P l -> (forall x, P x -> preserves I (f x)) -> preserves I (for_each f l).
Proof.
  intros Hl Hf. induction Hl as [|x l Hx _ IH]; [apply preserves_ret|]. cbn [for_each].
  apply preserves_bind; [by apply Hf|intros _; apply IH].
Qed.

Lemma regenerate_spent user h draws u : avoids h draws ->
  preserves (code_spent user h) (regenerate_recovery_codes draws u).
Proof.
  intros Ha. unfold regenerate_recovery_codes. apply preserves_bind; [apply preserves_gets|]. intros rows.
  apply preserves_bind.
  - unfold delete_all. apply preserves_for_each. intros c. apply preserves_modify. intros d [Hk Hs].
    split; [by apply keyed_remove|]. intros i c'. cbn [recovery_codes set_recovery_codes]. unfold remove. rewrite lookup_delete_Some. intros [_ H]. by apply (Hs i).
  - intros _. cbv zeta. apply preserves_bind; [|intros _; apply preserves_ret].
    eapply (preserves_for_each_Forall _ (fun dr => hash_token (erase "-" dr.2) <> h)).
    + apply Forall_forall. intros dr Hdr%elem_of_take. destruct Hdr as (j & Hj & _).
      unfold avoids in Ha. rewrite Forall_forall in Ha. apply Ha. by eapply list_elem_of_lookup_2.
    + intros dr Hdr. by apply add_recovery_code_spent.
Qed.

Lemma confirm_inv now draws u code d r d' : confirm_enrolment now draws u code d = (r, d') ->
  d' = d \/ exists t s d1, select (fun t => bool_decide (ts_user_id t = u_id u)) (totp_secrets d) = [t] /\
    verify_totp now t code = Some s /\
    d1 = set_users (alter (set_mfa true) (u_id u) (users d))
           (set_totp_secrets (alter (set_confirmed now s) (ts_id t) (totp_secrets d)) d) /\
    regenerate_recovery_codes draws (set_mfa true u) d1 = (r, d').
Proof.
  unfold confirm_enrolment.
  intros [(row & d1 & H1 & H)|(e & H1 & ->)]%bind_inv; apply get_secret_row_inv in H1 as [-> Hrow]; [|by left].
  destruct row as [t|]; [|injection H as _ <-; by left].
  destruct (verify_totp now t code) as [s|] eqn:Hv; [|injection H as _ <-; by left].
  right. exists t, s. eexists. split; [exact Hrow|]. split; [done|]. split; [reflexivity|]. exact H.
Qed.

(** ** Histories

    Anything that happens to the second factors and the recovery codes of all
    users, except replacing or removing a confirmed secret ([disable]); [avoid]
    is a digest no newly drawn recovery code has. *)

Inductive mfa_step (avoid : string) : AuthDb -> AuthDb -> Prop :=
  | ms_verify now u code d : mfa_step avoid d (in_transaction (verify now u code) d).2
  | ms_confirm now draws u code d :
      avoids avoid draws -> mfa_step avoid d (in_transaction (confirm_enrolment now draws u code) d).2
  | ms_regenerate draws u d :
      avoids avoid draws -> mfa_step avoid d (in_transaction (regenerate_recovery_codes draws u) d).2
  | ms_elsewhere d d' :
      totp_secrets d' = totp_secrets d -> recovery_codes d' = recovery_codes d -> mfa_step avoid d d'.

(** The user's secret is row [k], and steps up to [n] were accepted. *)
Definition stepped user k enc n d : Prop :=
  keyed (totp_secrets d) /\
  exists t l, totp_secrets d !! k = Some t /\ ts_user_id t = user /\ ts_secret_encrypted t = enc /\
    ts_last_used_step t = Some l /\ n <= l.

Lemma stepped_alter user k enc n d t s f db :
  (forall t, ts_id (f t) = ts_id t /\ ts_user_id (f t) = ts_user_id t /\
             ts_secret_encrypted (f t) = ts_secret_encrypted t /\ ts_last_used_step (f t) = Some s) ->
  stepped user k enc n d -> totp_secrets d !! ts_id t = Some t -> (forall l, ts_last_used_step t = Some l -> l < s) ->
  totp_secrets db = alter f (ts_id t) (totp_secrets d) -> stepped user k enc n db.
Proof.
  intros Hf [Hk (w & l & Hw & Hu & He & Hl & Hn)] Ht Hs Hdb. unfold stepped. rewrite Hdb. split.
  - intros i v (w' & Hw' & [[-> ->]|[_ ->]])%lookup_alter_cases.
    + unfold row_id, TotpSecret_row. rewrite (proj1 (Hf w')). by apply (Hk (ts_id t)).
    + by apply Hk.
  - destruct (decide (k = ts_id t)) as [->|Hne].
    + assert (w = t) as -> by congruence. destruct (Hf t) as (_ & H1 & H2 & H3). exists (f t), s.
      rewrite lookup_alter_eq, Hw. split; [done|]. split; [congruence|]. split; [congruence|]. split; [done|].
      specialize (Hs l Hl). lia.
    + exists w, l. by rewrite lookup_alter_ne.
Qed.

Lemma mfa_step_stepped avoid user k enc n d d' : stepped user k enc n d -> mfa_step avoid d d' -> stepped user k enc n d'.
Proof.
  intros Hst Hstep. destruct Hstep as [now u code d|now draws u code d _|draws u d _|d d' Ht _].
  - destruct (verify now u code d) as [r d1] eqn:E. unfold in_transaction. rewrite E.
    apply verify_inv in E as [(t & s & secret & -> & Hsel & _ & _ & _ & Hs & _ & ->)|[(c & -> & -> & _)|(e & -> & ->)]]; [|done|done].
    apply selected_row in Hsel as (Ht & _ & _); [|apply Hst].
    by eapply (stepped_alter _ _ _ _ _ t s (set_step s)).
  - destruct (confirm_enrolment now draws u code d) as [[a|e] d1] eqn:E; unfold in_transaction; rewrite E; [|done]. cbn [snd].
    apply confirm_inv in E as [->|(t & s & d2 & Hsel & Hv & -> & Hreg)]; [done|].
    apply verify_totp_inv in Hv as (_ & _ & _ & _ & Hs). apply selected_row in Hsel as (Ht & _ & _); [|apply Hst].
    apply regenerate_keeps_totp in Hreg.
    by eapply (stepped_alter _ _ _ _ _ t s (set_confirmed now s)).
  - destruct (regenerate_recovery_codes draws u d) as [[a|e] d1] eqn:E; unfold in_transaction; rewrite E; [|done]. cbn [snd].
    apply regenerate_keeps_totp in E. unfold stepped. by rewrite E.
  - unfold stepped. by rewrite Ht.
Qed.

Lemma mfa_step_spent avoid user d d' : code_spent user avoid d -> mfa_step avoid d d' -> code_spent user avoid d'.
Proof.
  intros Hsp Hstep. destruct Hstep as [now u code d|now draws u code d Ha|draws u d Ha|d d' _ Hc].
  - destruct (verify now u code d) as [r d1] eqn:E. unfold in_transaction. rewrite E.
    apply verify_inv in E as [(t & s & secret & -> & _ & _ & _ & _ & _ & _ & ->)|[(c & -> & -> & _)|(e & -> & ->)]]; [done| |done].
    destruct Hsp as [Hk Hs]. cbn [snd]. split; cbn.
    + intros i v (w & Hw & [[-> ->]|[_ ->]])%lookup_alter_cases; [exact (Hk (rc_id c) w Hw)|by apply Hk].
    + intros i v (w & Hw & [[-> ->]|[_ ->]])%lookup_alter_cases; cbn; [by eexists|by apply (Hs i)].
  - destruct (confirm_enrolment now draws u code d) as [[a|e] d1] eqn:E; unfold in_transaction; rewrite E; [|done]. cbn [snd].
    apply confirm_inv in E as [->|(t & s & d2 & _ & _ & -> & Hreg)]; [done|].
    by eapply (regenerate_spent user avoid draws _ Ha); [|exact Hreg].
  - destruct (regenerate_recovery_codes draws u d) as [[a|e] d1] eqn:E; unfold in_transaction; rewrite E; [|done]. cbn [snd].
    by eapply (regenerate_spent user avoid draws _ Ha); [|exact E].
  - unfold code_spent. by rewrite Hc.
Qed.
End mfa.

(** ** Properties *)

(** a one-time password is accepted once — after a TOTP code was accepted,
    whatever is then verified, confirmed or regenerated for any user, a later
    TOTP acceptance for the same user (of the same code or of another) is for
    a strictly later time step; both steps are within one step of their moment
    and each code is the one its step generates. *)
Theorem totp_step_single_use settings hash_token totp_at totp_verify decrypt avoid now1 now2 u c1 c2 d d1 d2 d3 :
  keyed (totp_secrets d) ->
  verify settings hash_token totp_at totp_verify decrypt now1 u c1 d = (Ok "totp", d1) ->
  rtc (mfa_step settings hash_token totp_at totp_verify decrypt avoid) d1 d2 ->
  verify settings hash_token totp_at totp_verify decrypt now2 u c2 d2 = (Ok "totp", d3) ->
  exists secret s1 s2, s1 < s2 /\ totp_at secret s1 = clean_code c1 /\ totp_at secret s2 = clean_code c2 /\
    s1 ∈ window settings now1 /\ s2 ∈ window settings now2.
Proof.
  intros Hk H1 Hsteps H2.
  apply verify_inv in H1 as [(t & s1 & secret & _ & Hsel & Hdec & Hat & Hw & _ & _ & ->)|[(? & [=] & _)|(? & [=] & _)]].
  apply selected_row in Hsel as (Ht & Hu & _); [|done]. apply bool_decide_eq_true in Hu.
  assert (Hst : stepped (u_id u) (ts_id t) (ts_secret_encrypted t) s1 (set_totp_secrets (alter (set_step s1) (ts_id t) (totp_secrets d)) d)).
  { split.
    - intros i v (w & Hi & [[-> ->]|[_ ->]])%lookup_alter_cases; [exact (Hk _ w Hi)|by apply Hk].
    - exists (set_step s1 t), s1. cbn. change (row_id t) with (ts_id t) in Ht. rewrite lookup_alter_eq, Ht. split; [done|]. split; [done|]. split; [done|]. split; [done|lia]. }
  assert (Hst2 : stepped (u_id u) (ts_id t) (ts_secret_encrypted t) s1 d2).
  { clear -Hst Hsteps. induction Hsteps; eauto using mfa_step_stepped. }
  destruct Hst2 as [Hk2 (t2 & l & Ht2 & Hu2 & He2 & Hl & Hle)].
  apply verify_inv in H2 as [(t' & s2 & secret2 & _ & Hsel2 & Hdec2 & Hat2 & Hw2 & Hs2 & _ & _)|[(? & [=] & _)|(? & [=] & _)]].
  apply selected_row in Hsel2 as (_ & _ & Hall); [|done].
  assert (t2 = t') as -> by (apply (Hall _ _ Ht2); by apply bool_decide_eq_true).
  assert (secret2 = secret) as -> by congruence. exists secret, s1, s2. specialize (Hs2 l Hl). split; [lia|done].
Qed.

(** a recovery code works once — after a code let the user in, and
    whatever is verified, confirmed or regenerated since (no newly drawn code
    having the same digest), the same code is not accepted as a recovery code
    again. *)
Theorem recovery_code_single_use settings hash_token totp_at totp_verify decrypt now1 now2 u c d d1 d2 d3 m :
  keyed (recovery_codes d) ->
  verify settings hash_token totp_at totp_verify decrypt now1 u c d = (Ok "recovery_code", d1) ->
  rtc (mfa_step settings hash_token totp_at totp_verify decrypt (hash_token (erase "-" (clean_code c)))) d1 d2 ->
  verify settings hash_token totp_at totp_verify decrypt now2 u c d2 = (Ok m, d3) -> m = "totp".
Proof.
  intros Hk H1 Hsteps H2. set (h := hash_token (erase "-" (clean_code c))) in *.
  apply verify_inv in H1 as [(? & ? & ? & [=] & _)|[(rc & _ & -> & Hsel)|(? & [=] & _)]].
  apply selected_row in Hsel as (Hrc & HP & Hall); [|done].
  set (d1 := set_recovery_codes _ d) in *.
  assert (Hsp : code_spent (u_id u) h d1).
  { split; cbn [d1 recovery_codes set_recovery_codes].
    - intros i v (w & Hi & [[-> ->]|[_ ->]])%lookup_alter_cases; [exact (Hk _ w Hi)|by apply Hk].
    - intros i v (w & Hi & [[-> ->]|[Hne ->]])%lookup_alter_cases Hu Hh; cbn; [by eexists|].
      destruct (decide (rc_used_at w = None)) as [Hn|Hn]; [exfalso|by apply not_eq_None_Some].
      assert (w = rc) as ->; [|by apply Hne; symmetry; apply (keyed_lookup _ _ _ Hk Hi)].
      apply (Hall i); [done|]. fold h. by rewrite Hu, Hh, Hn, String.eqb_refl, !bool_decide_eq_true_2. }
  assert (Hsp2 : code_spent (u_id u) h d2).
  { clear -Hsp Hsteps. induction Hsteps; eauto using mfa_step_spent. }
  destruct Hsp2 as [Hk2 Hs2].
  apply verify_inv in H2 as [(? & ? & ? & [= ->] & _)|[(rc2 & [= ->] & _ & Hsel)|(? & [=] & _)]]; [done|exfalso].
  apply selected_row in Hsel as (Hrc2 & HP2 & _); [|done].
  apply andb_prop in HP2 as [[Hu2 Hh2]%andb_prop Hn2]. apply bool_decide_eq_true in Hu2, Hn2. apply String.eqb_eq in Hh2.
  destruct (Hs2 _ _ Hrc2 Hu2 Hh2) as [? Hx]. congruence.
Qed.

(** ** Witnesses *)

Definition toy_totp (secret : string) (step : Z) : string := py_str_int step.
Definition toy_digest (s : string) : string := append "#" s.
Definition mfa_db : AuthDb :=
  set_recovery_codes {[ 31%N := mkRecovery 31 7 "#56666666" None ]}
    (set_totp_secrets {[ 21%N := mkTotp 21 7 "SECRET" (Some 0) None ]}
      (set_users {[ 7%N := set_mfa true sample_user ]} empty_auth)).
Definition toy_verify := verify sample_settings toy_digest toy_totp (fun _ _ _ _ => true) Some.

Lemma totp_step_single_use_witness :
  let d1 := (toy_verify sample_time sample_user "56666666" mfa_db).2 in
  (exists secret s1 s2, s1 < s2 /\ toy_totp secret s1 = clean_code "56666666" /\ toy_totp secret s2 = clean_code "56666667" /\
    s1 ∈ window sample_settings sample_time /\ s2 ∈ window sample_settings (sample_time + 30 * SECOND)) /\
  (toy_verify (sample_time + 1) sample_user "56666665" d1).1 = Raise (app_error UnauthorizedError "").
Proof.
  split; [|by vm_compute].
  refine (totp_step_single_use sample_settings toy_digest toy_totp (fun _ _ _ _ => true) Some "" sample_time
    (sample_time + 30 * SECOND) sample_user "56666666" "56666667" mfa_db
    (toy_verify sample_time sample_user "56666666" mfa_db).2 (toy_verify sample_time sample_user "56666666" mfa_db).2
    (toy_verify (sample_time + 30 * SECOND) sample_user "56666667"
       (toy_verify sample_time sample_user "56666666" mfa_db).2).2 _ _ (rtc_refl _ _) _).
  - by apply map_Forall_singleton.
  - by vm_compute.
  - by vm_compute.
Defined.

(** A code that is also a recovery code: the recovery code first, later the step's. *)
Lemma recovery_code_single_use_witness :
  let early := sample_time - 120 * SECOND in
  (toy_verify early sample_user "56666-666" mfa_db).1 = Ok "recovery_code" /\
  (toy_verify sample_time sample_user "56666-666" (toy_verify early sample_user "56666-666" mfa_db).2).1 = Ok "totp" /\
  (toy_verify (early + 1) sample_user "56666-666" (toy_verify early sample_user "56666-666" mfa_db).2).1 =
    Raise (app_error UnauthorizedError "").
Proof.
  intros early. split; [by vm_compute|]. split; [|by vm_compute].
  set (d1 := (toy_verify early sample_user "56666-666" mfa_db).2).
  assert (H : exists m d3, toy_verify sample_time sample_user "56666-666" d1 = (Ok m, d3)).
  { do 2 eexists. vm_compute. reflexivity. }
  destruct H as (m & d3 & H). rewrite H.
  refine (f_equal Ok (recovery_code_single_use sample_settings toy_digest toy_totp (fun _ _ _ _ => true) Some early sample_time
    sample_user "56666-666" mfa_db d1 d1 d3 m _ _ (rtc_refl _ _) H)).
  - by apply map_Forall_singleton.
  - by vm_compute.
Defined.
