(* ===== verification/AuthRoutes.v ===== *)
(** * Routes of the auth service (apps/auth/routers/, deps.py)

    Each request runs in one transaction ([in_transaction]): what it wrote is
    committed when it returns and rolled back when it raises.  The routes carry
    the composition of the account, token and second-factor services. *)

From S2P Require Import Prelude Store Json Security AuthDb Accounts Tokens Mfa.

(** What a sign-in answers: tokens, or the challenge of the second factor. *)
Inductive SignIn :=
  | SignedIn (issued : IssuedTokens) (user : User)
  | MfaRequired (challenge : string) (expires_in : Z).

Section routes.
Context (settings : AuthSettings) (hash_token : string -> string) (jwt_encode : json -> string)
        (jwt_decode : string -> option json).
Context (hash_password : string -> string -> string) (verify_password : string -> string -> bool).
Context (totp_at : string -> Z -> string) (totp_verify : string -> string -> datetime -> Z -> bool)
        (encrypt : string -> string) (decrypt : string -> option string).
(** [publisher.publish]: Redis answers or the call raises; [Ok] without a publisher. *)
Context (publish : string -> list (string * json) -> result unit).

(** [uuid.UUID(s)] *)
Definition parse_uuid (s : string) : result uuid :=
  match uuid_of_string s with Some u => Ok u | None => Raise ValueErr end.

Definition get_authed_user (p : Principal) : M AuthDb User :=
  k ← of_result (parse_uuid (user_id p));
  u ← get_by_id k;
  if negb (u_is_active u) || bool_decide (is_Some (u_banned_at u))
  then raise (app_error UnauthorizedError "account_inactive") else mret u.

(** ** Registration and login *)

(** The response says the same whether or not the address is registered. *)
Definition register_route now dr (e password : string) name locale ip : M AuthDb string :=
  reg ← register settings hash_token hash_password now dr e password name locale ip;
  _ ← match reg with
      | (u, Some raw) => of_result (publish "user.registered"
          [("user_id", JStr (string_of_uuid (u_id u))); ("email", JStr (u_email u)); ("verification_token", JStr raw)])
      | (_, None) => mret tt
      end;
  mret "Check your inbox".

Record LoginDraws := mkLoginDraws { ld_salt : string; ld_session : uuid; ld_family : uuid; ld_tokens : TokenDraws; ld_jti : uuid }.

Definition login now later dr (e password : string) ip agent label : M AuthDb SignIn :=
  u ← authenticate settings hash_password verify_password now (ld_salt dr) e password ip;
  if u_mfa_enabled u then
    let '(challenge, ttl) := mint_mfa_challenge settings jwt_encode (u_id u) (ld_jti dr) now in
    mret (MfaRequired challenge ttl)
  else
    issued ← start_session settings hash_token jwt_encode now later (ld_tokens dr) (ld_session dr) (ld_family dr) u
               ip agent label "password";
    _ ← record_audit now (Some (u_id u)) None "login" "success" ip agent [];
    _ ← of_result (publish "user.logged_in" [("user_id", JStr (string_of_uuid (u_id u)))]);
    mret (SignedIn issued u).

Definition login_mfa now later dr (challenge code : string) ip agent : M AuthDb SignIn :=
  k ← of_result (read_mfa_challenge jwt_decode challenge);
  u ← get_by_id k;
  if negb (u_is_active u) || bool_decide (is_Some (u_banned_at u)) then raise (app_error UnauthorizedError "")
  else
    method ← verify settings hash_token totp_at totp_verify decrypt now u code;
    issued ← start_session settings hash_token jwt_encode now later (ld_tokens dr) (ld_session dr) (ld_family dr) u
               ip agent None (append "password+" method);
    u ← assign_user u (set_last_login now ip);
    _ ← record_audit now (Some (u_id u)) None "login.mfa" "success" ip agent [("method", JStr method)];
    mret (SignedIn issued u).

(** ** Refresh and logout *)

(** The cookie, the CSRF header and the token of the body. *)
Definition refresh now later dr (cookie header body : option string) : M AuthDb SignIn :=
  let raw := match cookie with Some _ => cookie | None => body end in
  let from_cookie := bool_decide (is_Some cookie) in
  if is_blank raw then raise (app_error UnauthorizedError "")
  else
    let csrf := if from_cookie then header else None in
    if from_cookie && is_blank csrf then raise (app_error UnauthorizedError "csrf_missing")
    else
      issued ← rotate settings hash_token jwt_encode now later dr (default "" raw) csrf;
      u ← get_by_id (issued_user_id issued);
      mret (SignedIn issued u).

Definition logout now (p : Principal) : M AuthDb unit :=
  _ ← (if truthy (session_id p)
       then sid ← of_result (parse_uuid (default "" (session_id p))); revoke_session now sid "logout"
       else mret tt);
  k ← of_result (parse_uuid (user_id p));
  record_audit now (Some k) None "logout" "success" None None [].

Definition logout_all now (p : Principal) : M AuthDb unit :=
  u ← get_authed_user p;
  _ ← revoke_all_sessions now (u_id u) "logout_all";
  record_audit now (Some (u_id u)) None "logout.all" "success" None None [].

(** [DELETE /sessions/{id}] *)
Definition revoke_session_route now (sid : uuid) (p : Principal) : M AuthDb unit :=
  u ← get_authed_user p;
  row ← gets (fun d => sessions d !! sid);
  match row with
  | Some s =>
      if bool_decide (s_user_id s = u_id u) then
        _ ← revoke_session now sid "user_revoked";
        record_audit now (Some (u_id u)) None "session.revoked" "success" None None
          [("session_id", JStr (string_of_uuid sid))]
      else raise (app_error NotFoundError "")
  | None => raise (app_error NotFoundError "")
  end.

(** ** Email verification and passwords *)

Definition verify_email_route now (raw : string) : M AuthDb unit :=
  u ← verify_email hash_token now raw;
  of_result (publish "user.verified" [("user_id", JStr (string_of_uuid (u_id u))); ("email", JStr (u_email u))]).

Definition resend_verification now tid raw (e : string) : M AuthDb string :=
  user ← get_by_email e;
  _ ← match user with
      | Some u =>
          if is_email_verified u then mret tt
          else
            raw ← issue_verification_token settings hash_token now tid raw u (u_email u) "email_verify";
            of_result (publish "user.registered"
              [("user_id", JStr (string_of_uuid (u_id u))); ("email", JStr (u_email u)); ("verification_token", JStr raw);
               ("resend", JBool true)])
      | None => mret tt
      end;
  mret "If that address needs confirming".

Definition forgot_password now tid raw (e : string) ip : M AuthDb string :=
  asked ← request_password_reset settings hash_token now tid raw e ip;
  _ ← match asked with
      | Some (u, raw) => of_result (publish "password.reset_requested"
          [("user_id", JStr (string_of_uuid (u_id u))); ("email", JStr (u_email u)); ("reset_token", JStr raw)])
      | None => mret tt
      end;
  mret "If an account exists".

Definition reset_password_route now salt (raw new_password : string) : M AuthDb unit :=
  u ← reset_password hash_token hash_password now salt raw new_password;
  revoke_all_sessions now (u_id u) "password_reset".

Definition change_password_route now salt (p : Principal) (current new : string) : M AuthDb unit :=
  u ← get_authed_user p;
  _ ← change_password hash_password verify_password now salt u current new;
  revoke_all_sessions now (u_id u) "password_change".

(** ** The second factor *)

Definition mfa_enroll tid secret (p : Principal) : M AuthDb string :=
  u ← get_authed_user p; begin_enrolment encrypt tid secret u.

Definition mfa_confirm now draws (p : Principal) (code : string) : M AuthDb (list string) :=
  u ← get_authed_user p;
  codes ← confirm_enrolment settings hash_token totp_at totp_verify decrypt now draws u code;
  _ ← record_audit now (Some (u_id u)) None "mfa.enabled" "success" None None [];
  mret codes.

Definition mfa_disable now (p : Principal) (password : string) : M AuthDb unit :=
  u ← get_authed_user p;
  if is_blank (u_password_hash u) || negb (verify_password password (default "" (u_password_hash u))) then
    _ ← record_audit now (Some (u_id u)) None "mfa.disable" "failure" None None [];
    raise (app_error UnauthorizedError "")
  else
    _ ← disable u;
    record_audit now (Some (u_id u)) None "mfa.disabled" "success" None None [].

Definition mfa_regenerate now draws (p : Principal) : M AuthDb (list string) :=
  u ← get_authed_user p;
  if negb (u_mfa_enabled u) then raise (app_error UnauthorizedError "")
  else
    codes ← regenerate_recovery_codes settings hash_token draws u;
    _ ← record_audit now (Some (u_id u)) None "mfa.recovery_regenerated" "success" None None [];
    mret codes.

(** ** Moderation *)

(** [POST /internal/users/{id}/ban]; the denylist entry in Redis is a command
    that follows the writes. *)
Definition internal_ban_user now (k : uuid) (reason : string) : M AuthDb unit :=
  u ← get_by_id k;
  _ ← set_ban now u true (Some reason) None;
  revoke_all_sessions now (u_id u) "banned".

Definition internal_unban_user now (k : uuid) : M AuthDb unit :=
  u ← get_by_id k;
  if bool_decide (u_banned_at u = None) then raise (app_error NotFoundError "")
  else set_ban now u false None None.

(** [POST /v1/admin/users/{id}/ban], for a caller with [users:write]. *)
Definition ban_user now (k : uuid) (reason : string) (actor : Principal) : M AuthDb unit :=
  _ ← of_result (require_permission "users:write" actor);
  actor_id ← of_result (parse_uuid (user_id actor));
  if bool_decide (actor_id = k) then raise (app_error ForbiddenError "cannot_ban_self")
  else
    u ← get_by_id k;
    if bool_decide ("superadmin" ∈ u_roles u) && negb (bool_decide ("superadmin" ∈ roles actor))
    then raise (app_error ForbiddenError "insufficient_role")
    else set_ban now u true (Some reason) (Some actor_id).

Definition unban_user now (k : uuid) (actor : Principal) : M AuthDb unit :=
  _ ← of_result (require_permission "users:write" actor);
  u ← get_by_id k;
  actor_id ← of_result (parse_uuid (user_id actor));
  set_ban now u false None (Some actor_id).

(** ** Lemmas: signing in *)

Lemma get_by_email_ok e d u d' : get_by_email e d = (Ok (Some u), d') ->
  d' = d /\ (exists k, users d !! k = Some u) /\ lower (u_email u) = normalise_email e /\ u_deleted_at u = None.
Proof.
  intros H. apply get_by_email_inv in H as E. subst d'. split; [done|]. unfold get_by_email in H.
  apply bind_ok_inv in H as (rows & d1 & [= <- <-] & H). injection H as H. apply one_or_none_Some in H.
  assert (Hin : u ∈ select (fun u => String.eqb (lower (u_email u)) (normalise_email e) &&
                              bool_decide (u_deleted_at u = None)) (users d)) by (rewrite H; left).
  apply elem_of_select in Hin as [Hk [He Hd]%andb_prop]. apply String.eqb_eq in He.
  by apply bool_decide_eq_true in Hd.
Qed.

(** Who [authenticate] lets in. *)
Record authenticated now (e password : string) (u : User) (d : AuthDb) : Prop := {
  au_row : exists k, users d !! k = Some u;
  au_email : lower (u_email u) = normalise_email e;
  au_password : exists hashed, u_password_hash u = Some hashed /\ verify_password password hashed = true;
  au_active : u_is_active u = true /\ u_deleted_at u = None /\ u_banned_at u = None;
  au_unlocked : forall t, u_locked_until u = Some t -> t <= now;
}.

Lemma authenticate_ok now salt e password ip d u' d' :
  authenticate settings hash_password verify_password now salt e password ip d = (Ok u', d') ->
  exists u, authenticated now e password u d /\ u_id u' = u_id u /\ u_mfa_enabled u' = u_mfa_enabled u /\
    refresh_tokens d' = refresh_tokens d /\ sessions d' = sessions d.
Proof.
  intros H.
  assert (Hkr : refresh_tokens d' = refresh_tokens d) by (by eapply keeps_authenticate; [..|exact H]).
  assert (Hks : sessions d' = sessions d) by (by eapply keeps_authenticate; [..|exact H]).
  unfold authenticate in H. apply bind_ok_inv in H as ([u|] & d1 & H1 & H); [|done].
  apply get_by_email_ok in H1 as (-> & Hrow & He & Hdel).
  destruct (match u_locked_until u with Some t => now <? t | None => false end) eqn:Hl; [done|].
  destruct (bool_decide (is_Some (u_banned_at u))) eqn:Hb; [done|].
  destruct (is_blank (u_password_hash u)) eqn:Hblank; [done|]. cbv zeta in H.
  destruct (verify_password password _) eqn:Hv; [|done]. cbn [negb] in H.
  destruct (u_is_active u) eqn:Ha; [|done]. destruct (bool_decide (is_Some (u_deleted_at u))); [done|].
  cbn [negb orb] in H. apply bind_ok_inv in H as (u1 & d1 & H1 & H).
  assert (Hu1 : u_id u1 = u_id u /\ u_mfa_enabled u1 = u_mfa_enabled u)
    by (destruct (needs_rehash _); [by injection H1 as <- <-|by injection H1 as <- <-]).
  injection H as <- <-. exists u. split; [|by destruct Hu1].
  constructor; try done.
  - destruct (u_password_hash u) as [hashed|]; [|done]. by exists hashed.
  - split; [done|]. split; [done|]. by apply not_is_Some_None.
  - intros t Ht. rewrite Ht in Hl. by apply Z.ltb_ge.
Qed.

Lemma login_ok now later dr e password ip agent label d a d' :
  login now later dr e password ip agent label d = (Ok a, d') ->
  exists u u' d1, authenticated now e password u d /\ u_id u' = u_id u /\ refresh_tokens d1 = refresh_tokens d /\
    sessions d1 = sessions d /\
    match a with
    | SignedIn issued v => v = u' /\ u_mfa_enabled u = false /\
        exists d2, start_session settings hash_token jwt_encode now later (ld_tokens dr) (ld_session dr) (ld_family dr) u'
          ip agent label "password" d1 = (Ok issued, d2) /\
          refresh_tokens d' = refresh_tokens d2 /\ sessions d' = sessions d2
    | MfaRequired c _ => u_mfa_enabled u = true /\ d' = d1 /\
        c = jwt_encode (challenge_claims settings (u_id u) (ld_jti dr) now)
    end.
Proof.
  intros H. unfold login in H. apply bind_ok_inv in H as (u' & d1 & H1 & H).
  apply authenticate_ok in H1 as (u & Hau & Hid & Hm & Hr & Hs). exists u, u', d1.
  do 4 (split; [done|]). rewrite Hm in H. destruct (u_mfa_enabled u).
  - cbn in H. injection H as <- <-. by rewrite Hid.
  - apply bind_ok_inv in H as (issued & d2 & H1 & H). apply bind_ok_inv in H as ([] & d3 & [= <-] & H).
    apply bind_ok_inv in H as ([] & d4 & [= _ <-] & H). injection H as <- <-. split; [done|]. split; [done|]. by exists d2.
Qed.

Lemma start_session_ok now later dr sid family u ip agent label method d issued d' :
  start_session settings hash_token jwt_encode now later dr sid family u ip agent label method d = (Ok issued, d') ->
  issued_user_id issued = u_id u /\ issued_session_id issued = sid /\ refresh_token issued = td_refresh dr /\
  access_token issued = jwt_encode (access_claims settings u sid (td_jti dr) later) /\
  sessions d' = save (new_session settings now sid u ip agent label method) (sessions d).
Proof.
  intros H. apply bind_ok_inv in H as ([] & d1 & H1 & H).
  apply add_row_inv in H1 as [(_ & _ & ->)|([=] & _)].
  apply issue_pair_inv in H as [(i & [= <-] & _ & H1 & H2 & _ & H3 & H4 & ->)|(e & [=] & _)]. done.
Qed.

(** ** Requests, in any order *)

(** A digest that no newly drawn refresh token has, and a family id in use nowhere. *)
Definition fresh_draws (avoid : string) (dr : LoginDraws) (d : AuthDb) : Prop :=
  hash_token (td_refresh (ld_tokens dr)) <> avoid /\ fresh_family (ld_family dr) d.

(** Rows at most removed, and those that stay at most cut off from a removed
    parent ([ON DELETE SET NULL]). *)
Definition orphan (t : RefreshToken) : RefreshToken := mkRefresh (rt_id t) (rt_user_id t) (rt_session_id t) (rt_family_id t) None
  (rt_token_hash t) (rt_csrf_hash t) (rt_expires_at t) (rt_created_at t) (rt_used_at t) (rt_revoked_at t) (rt_revoked_reason t).
Definition pruned_from (m m' : table RefreshToken) : Prop :=
  forall k t', m' !! k = Some t' -> exists t, m !! k = Some t /\ (t' = t \/ t' = orphan t).

(** Every route that writes refresh tokens or sessions; [as_session] is the
    session of an OAuth sign-in; elsewhere tokens are at most pruned. *)
Inductive auth_step (avoid : string) (d : AuthDb) : AuthDb -> Prop :=
  | as_login now later dr e password ip agent label : fresh_draws avoid dr d ->
      auth_step avoid d (in_transaction (login now later dr e password ip agent label) d).2
  | as_login_mfa now later dr challenge code ip agent : fresh_draws avoid dr d ->
      auth_step avoid d (in_transaction (login_mfa now later dr challenge code ip agent) d).2
  | as_session now later dr u ip agent label method : fresh_draws avoid dr d ->
      auth_step avoid d (in_transaction (start_session settings hash_token jwt_encode now later (ld_tokens dr) (ld_session dr)
        (ld_family dr) u ip agent label method) d).2
  | as_refresh now later dr cookie header body : hash_token (td_refresh dr) <> avoid ->
      auth_step avoid d (in_transaction (refresh now later dr cookie header body) d).2
  | as_logout now p : auth_step avoid d (in_transaction (logout now p) d).2
  | as_logout_all now p : auth_step avoid d (in_transaction (logout_all now p) d).2
  | as_revoke now sid p : auth_step avoid d (in_transaction (revoke_session_route now sid p) d).2
  | as_reset now salt raw new : auth_step avoid d (in_transaction (reset_password_route now salt raw new) d).2
  | as_change now salt p current new :
      auth_step avoid d (in_transaction (change_password_route now salt p current new) d).2
  | as_ban now k reason : auth_step avoid d (in_transaction (internal_ban_user now k reason) d).2
  | as_elsewhere d' : pruned_from (refresh_tokens d) (refresh_tokens d') -> auth_step avoid d d'.

(** An invariant of the refresh tokens that revocation preserves is preserved
    by the routes that only revoke. *)
Section revoking.
Context (I : AuthDb -> Prop).
Hypothesis Hother : forall d d', refresh_tokens d' = refresh_tokens d -> I d -> I d'.
Hypothesis Hsession : forall now sid reason, preserves I (revoke_session now sid reason).
Hypothesis Hall : forall now user reason, preserves I (revoke_all_sessions now user reason).

Lemma kept {A} (m : M AuthDb A) : keeps refresh_tokens m -> preserves I m.
Proof. intros H. by eapply preserves_keeps. Qed.

Lemma kept_authed p : preserves I (get_authed_user p).
Proof.
  apply kept. unfold get_authed_user. apply keeps_bind; [apply keeps_of_result|]. intros k.
  apply keeps_bind; [by apply keeps_get_by_id|]. intros u. keeps_auth.
Qed.

Lemma kept_audit now user actor action status ip agent meta :
  preserves I (record_audit now user actor action status ip agent meta).
Proof. apply kept. by apply keeps_record_audit. Qed.

Lemma logout_inv now p : preserves I (logout now p).
Proof.
  unfold logout. apply preserves_bind.
  - destruct (truthy _); [|apply preserves_ret]. apply preserves_bind; [apply preserves_of_result|]. intros sid. apply Hsession.
  - intros _. apply preserves_bind; [apply preserves_of_result|]. intros k. apply kept_audit.
Qed.

Lemma logout_all_inv now p : preserves I (logout_all now p).
Proof.
  apply preserves_bind; [apply kept_authed|]. intros u. apply preserves_bind; [apply Hall|]. intros _. apply kept_audit.
Qed.

Lemma revoke_route_inv now sid p : preserves I (revoke_session_route now sid p).
Proof.
  apply preserves_bind; [apply kept_authed|]. intros u. apply preserves_bind; [apply preserves_gets|].
  intros [s|]; [|apply preserves_raise]. destruct (bool_decide _); [|apply preserves_raise].
  apply preserves_bind; [apply Hsession|]. intros _. apply kept_audit.
Qed.

Lemma reset_route_inv now salt raw new : preserves I (reset_password_route now salt raw new).
Proof.
  apply preserves_bind; [|intros u; apply Hall]. apply kept. by apply keeps_reset_password.
Qed.

Lemma change_route_inv now salt p current new : preserves I (change_password_route now salt p current new).
Proof.
  apply preserves_bind; [apply kept_authed|]. intros u. apply preserves_bind; [|intros _; apply Hall].
  apply kept. by apply keeps_change_password.
Qed.

Lemma internal_ban_inv now k reason : preserves I (internal_ban_user now k reason).
Proof.
  apply preserves_bind; [apply kept; by apply keeps_get_by_id|]. intros u.
  apply preserves_bind; [apply kept; by apply keeps_set_ban|]. intros _. apply Hall.
Qed.
End revoking.

Lemma verify_keeps now u code : keeps refresh_tokens (verify settings hash_token totp_at totp_verify decrypt now u code).
Proof. unfold verify, get_secret_row, consume_recovery_code. keeps_auth. Qed.

Lemma login_mfa_ok now later dr challenge code ip agent d a d' :
  login_mfa now later dr challenge code ip agent d = (Ok a, d') ->
  exists k u u' d1 d2 issued method, a = SignedIn issued u' /\ u_id u' = u_id u /\
    read_mfa_challenge jwt_decode challenge = Ok k /\ users d !! k = Some u /\
    u_is_active u = true /\ u_banned_at u = None /\
    verify settings hash_token totp_at totp_verify decrypt now u code d = (Ok method, d1) /\
    start_session settings hash_token jwt_encode now later (ld_tokens dr) (ld_session dr) (ld_family dr) u
      ip agent None (append "password+" method) d1 = (Ok issued, d2) /\
    refresh_tokens d1 = refresh_tokens d /\ refresh_tokens d' = refresh_tokens d2.
Proof.
  intros H. unfold login_mfa in H. apply bind_ok_inv in H as (k & d1 & [= Hk <-] & H).
  apply bind_ok_inv in H as (u & d1 & H1 & H). apply get_by_id_inv in H1 as [-> [Hu _]].
  destruct (u_is_active u) eqn:Ha; [|done]. destruct (bool_decide (is_Some (u_banned_at u))) eqn:Hb; [done|].
  cbn [negb orb] in H. apply bind_ok_inv in H as (method & d1 & H1 & H). apply bind_ok_inv in H as (issued & d2 & H2 & H).
  apply bind_ok_inv in H as (u' & d3 & [= <- <-] & H). apply bind_ok_inv in H as ([] & d4 & [= <-] & H).
  injection H as <- <-. apply verify_keeps in H1 as Hr. apply not_is_Some_None in Hb.
  exists k, u, (set_last_login now ip u), d1, d2, issued, method. done.
Qed.

Lemma refresh_request_ok now later dr cookie header body d a d' :
  refresh now later dr cookie header body d = (Ok a, d') ->
  exists raw csrf issued u, (match cookie with Some _ => cookie | None => body end) = Some raw /\
    csrf = (if bool_decide (is_Some cookie) then header else None) /\
    (is_Some cookie -> truthy header = true) /\ a = SignedIn issued u /\
    rotate settings hash_token jwt_encode now later dr raw csrf d = (Ok issued, d').
Proof.
  unfold refresh. destruct (match cookie with Some _ => cookie | None => body end) as [raw|] eqn:Er; [|done].
  destruct (is_blank (Some raw)); [done|]. destruct (bool_decide (is_Some cookie)) eqn:Hc.
  - cbn [andb]. destruct (is_blank header) eqn:Hb; [done|]. intros H.
    apply bind_ok_inv in H as (issued & d1 & H1 & H). apply bind_ok_inv in H as (u & d2 & H2 & H).
    apply get_by_id_inv in H2 as [-> _]. injection H as <- <-. exists raw, header, issued, u.
    split; [done|]. split; [done|]. split; [|done]. intros _. by apply negb_false_iff in Hb.
  - cbn [andb]. intros H. apply bind_ok_inv in H as (issued & d1 & H1 & H). apply bind_ok_inv in H as (u & d2 & H2 & H).
    apply get_by_id_inv in H2 as [-> _]. injection H as <- <-. exists raw, None, issued, u.
    split; [done|]. split; [done|]. split; [|done]. intros Hs. by apply bool_decide_eq_false in Hc.
Qed.

Lemma spent_pruned h d d' : pruned_from (refresh_tokens d) (refresh_tokens d') -> spent h d -> spent h d'.
Proof. intros Hp Hs i t (t0 & Ht & [->| ->])%Hp Hh; exact (Hs i t0 Ht Hh). Qed.

Lemma linear_pruned d d' : pruned_from (refresh_tokens d) (refresh_tokens d') -> linear d -> linear d'.
Proof.
  intros Hp [Hk Hl]. split.
  - intros i t (t0 & Ht & [->| ->])%Hp; exact (Hk i t0 Ht).
  - intros i j a b (a0 & Ha & [->| ->])%Hp (b0 & Hb & [->| ->])%Hp; exact (Hl i j a0 b0 Ha Hb).
Qed.

Lemma kept_spent {A} h (m : M AuthDb A) : keeps refresh_tokens m -> preserves (spent h) m.
Proof. apply kept, spent_other. Qed.

Lemma login_spent h now later dr e password ip agent label : hash_token (td_refresh (ld_tokens dr)) <> h ->
  preserves (spent h) (login now later dr e password ip agent label).
Proof.
  intros Hne. apply preserves_bind; [apply kept_spent; by apply keeps_authenticate|]. intros u.
  destruct (u_mfa_enabled u); [apply preserves_ret|].
  apply preserves_bind; [by apply start_session_spent|]. intros issued.
  apply preserves_bind; [apply kept_audit, spent_other|]. intros _.
  apply preserves_bind; [apply preserves_of_result|]. intros _. apply preserves_ret.
Qed.

Lemma login_mfa_spent h now later dr challenge code ip agent : hash_token (td_refresh (ld_tokens dr)) <> h ->
  preserves (spent h) (login_mfa now later dr challenge code ip agent).
Proof.
  intros Hne. apply preserves_bind; [apply preserves_of_result|]. intros k.
  apply preserves_bind; [apply kept_spent; by apply keeps_get_by_id|]. intros u.
  destruct (_ || _); [apply preserves_raise|].
  apply preserves_bind; [apply kept_spent, verify_keeps|]. intros method.
  apply preserves_bind; [by apply start_session_spent|]. intros issued.
  apply preserves_bind; [apply kept_spent; by apply keeps_assign_user|]. intros u'.
  apply preserves_bind; [apply kept_audit, spent_other|]. intros _. apply preserves_ret.
Qed.

Lemma refresh_spent h now later dr cookie header body : hash_token (td_refresh dr) <> h ->
  preserves (spent h) (refresh now later dr cookie header body).
Proof.
  intros Hne. unfold refresh. do 2 (destruct (_ : bool); [apply preserves_raise|]).
  apply preserves_bind; [by apply rotate_spent_keeps|]. intros issued.
  apply preserves_bind; [apply kept_spent; by apply keeps_get_by_id|]. intros u. apply preserves_ret.
Qed.

Lemma preserves_request {A} (I : AuthDb -> Prop) (m : M AuthDb A) d : preserves I m -> I d -> I (in_transaction m d).2.
Proof. intros Hm HI. destruct (in_transaction m d) as [r d'] eqn:E. by eapply preserves_in_transaction. Qed.

Lemma auth_step_spent h d d' : auth_step h d d' -> spent h d -> spent h d'.
Proof.
  intros Hstep Hs.
  destruct Hstep as [now later dr e password ip agent label [Hne _]|now later dr challenge code ip agent [Hne _]
    |now later dr u ip agent label method [Hne _]|now later dr cookie header body Hne
    |now p|now p|now sid p|now salt raw new|now salt p current new|now k reason|d' Hsub];
    try (apply preserves_request; [|done]).
  - by apply login_spent.
  - by apply login_mfa_spent.
  - by apply start_session_spent.
  - by apply refresh_spent.
  - apply logout_inv; [apply spent_other|intros; by apply revoke_session_inv].
  - apply logout_all_inv; [apply spent_other|intros; by apply revoke_all_inv].
  - apply revoke_route_inv; [apply spent_other|intros; by apply revoke_session_inv].
  - apply reset_route_inv; [apply spent_other|intros; by apply revoke_all_inv].
  - apply change_route_inv; [apply spent_other|intros; by apply revoke_all_inv].
  - apply internal_ban_inv; [apply spent_other|intros; by apply revoke_all_inv].
  - by eapply spent_pruned.
Qed.

Lemma fresh_family_other family d d' :
  refresh_tokens d' = refresh_tokens d -> fresh_family family d -> fresh_family family d'.
Proof. unfold fresh_family. by intros ->. Qed.

Lemma linear_request {A} (m : M AuthDb A) d :
  (forall a d', m d = (Ok a, d') -> linear d') -> linear d -> linear (in_transaction m d).2.
Proof. intros Hm Hl. unfold in_transaction. destruct (m d) as [[a|e] d1]; [by eapply Hm|done]. Qed.

Lemma auth_step_linear avoid d d' : auth_step avoid d d' -> linear d -> linear d'.
Proof.
  intros Hstep Hl.
  destruct Hstep as [now later dr e password ip agent label [_ Hf]|now later dr challenge code ip agent [_ Hf]
    |now later dr u ip agent label method [_ Hf]|now later dr cookie header body _
    |now p|now p|now sid p|now salt raw new|now salt p current new|now k reason|d' Hsub].
  - apply linear_request; [intros a d' H|done].
    apply login_ok in H as (u & u' & d1 & _ & _ & Hr & _ & H). destruct a as [issued v|c ttl].
    + destruct H as (_ & _ & d2 & H & Hr2 & _). apply (linear_other _ _ Hr2).
      eapply start_session_linear; [| |exact H]; [by eapply linear_other|by eapply fresh_family_other].
    + destruct H as (_ & -> & _). by eapply linear_other.
  - apply linear_request; [intros a d' H|done].
    apply login_mfa_ok in H as (k & u & u' & d1 & d2 & issued & method & _ & _ & _ & _ & _ & _ & _ & H & Hr & Hr2).
    apply (linear_other _ _ Hr2).
    eapply start_session_linear; [| |exact H]; [by eapply linear_other|by eapply fresh_family_other].
  - apply linear_request; [intros a d' H|done]. by eapply start_session_linear.
  - apply linear_request; [intros a d' H|done]. apply refresh_request_ok in H as (raw & csrf & issued & u & _ & _ & _ & _ & H).
    by eapply rotate_linear.
  - apply preserves_request; [|done]. apply logout_inv; [apply linear_other|intros; by apply (revoke_session_inv "")].
  - apply preserves_request; [|done]. apply logout_all_inv; [apply linear_other|intros; by apply (revoke_all_inv "")].
  - apply preserves_request; [|done]. apply revoke_route_inv; [apply linear_other|intros; by apply (revoke_session_inv "")].
  - apply preserves_request; [|done]. apply reset_route_inv; [apply linear_other|intros; by apply (revoke_all_inv "")].
  - apply preserves_request; [|done]. apply change_route_inv; [apply linear_other|intros; by apply (revoke_all_inv "")].
  - apply preserves_request; [|done]. apply internal_ban_inv; [apply linear_other|intros; by apply (revoke_all_inv "")].
  - by eapply linear_pruned.
Qed.

Lemma auth_steps_spent h d d' : rtc (auth_step h) d d' -> spent h d -> spent h d'.
Proof. induction 1; eauto using auth_step_spent. Qed.
Lemma auth_steps_linear avoid d d' : rtc (auth_step avoid) d d' -> linear d -> linear d'.
Proof. induction 1; eauto using auth_step_linear. Qed.

(** A spent token is refused, however it is presented, and the refusal leaves
    nothing behind. *)
Lemma refresh_refused now later dr cookie header body raw d :
  (match cookie with Some _ => cookie | None => body end) = Some raw -> spent (hash_token raw) d ->
  exists e, in_transaction (refresh now later dr cookie header body) d = (Raise e, d).
Proof.
  intros Hraw Hs. unfold in_transaction. destruct (refresh now later dr cookie header body d) as [[a|e] d1] eqn:E; [|eauto].
  apply refresh_request_ok in E as (raw' & csrf & issued & u & Hraw' & _ & _ & _ & H).
  destruct (rotate_spent settings hash_token jwt_encode now later dr raw csrf d Hs) as (e & d2 & H2).
  assert (raw' = raw) as -> by congruence. congruence.
Qed.

(** ** Requests that end every session of a user *)

Inductive ends_sessions (d : AuthDb) (user : uuid) : AuthDb -> Prop :=
  | es_reset now salt raw new t d' :
      select (fun t => String.eqb (pt_token_hash t) (hash_token raw)) (reset_tokens d) = [t] -> pt_user_id t = user ->
      in_transaction (reset_password_route now salt raw new) d = (Ok tt, d') -> ends_sessions d user d'
  | es_change now salt p current new d' : parse_uuid (user_id p) = Ok user ->
      in_transaction (change_password_route now salt p current new) d = (Ok tt, d') -> ends_sessions d user d'
  | es_logout_all now p d' : parse_uuid (user_id p) = Ok user ->
      in_transaction (logout_all now p) d = (Ok tt, d') -> ends_sessions d user d'
  | es_ban now reason d' :
      in_transaction (internal_ban_user now user reason) d = (Ok tt, d') -> ends_sessions d user d'.

Definition owned_by h user d : Prop :=
  forall i t, refresh_tokens d !! i = Some t -> rt_token_hash t = h -> rt_user_id t = user.

Lemma revoked_all_spent now user reason h d r d' : owned_by h user d ->
  revoke_all_sessions now user reason d = (r, d') -> spent h d'.
Proof. intros Ho H. pose proof (revoke_all_spent now user reason h d Ho) as Hs. by rewrite H in Hs. Qed.

Lemma get_authed_inv p d u d' : get_authed_user p d = (Ok u, d') ->
  d' = d /\ exists k, parse_uuid (user_id p) = Ok k /\ users d !! k = Some u.
Proof.
  intros H. apply bind_ok_inv in H as (k & d1 & [= Hk <-] & H). apply bind_ok_inv in H as (u' & d1 & H1 & H).
  apply get_by_id_inv in H1 as [-> [Hu _]]. destruct (_ || _); [done|]. injection H as <- <-. eauto.
Qed.

Lemma owned_by_other h user d d' : refresh_tokens d' = refresh_tokens d -> owned_by h user d -> owned_by h user d'.
Proof. unfold owned_by. by intros ->. Qed.

Lemma reset_password_inv now salt raw new d u d' :
  reset_password hash_token hash_password now salt raw new d = (Ok u, d') ->
  exists t v, select (fun t => String.eqb (pt_token_hash t) (hash_token raw)) (reset_tokens d) = [t] /\
    pt_used_at t = None /\ now <= pt_expires_at t /\ users d !! pt_user_id t = Some v /\ u_id u = u_id v /\
    refresh_tokens d' = refresh_tokens d /\
    reset_tokens d' = alter (use_reset_token now) (pt_id t) (reset_tokens d) /\
    users d' = alter (fun u => set_attempts 0 None (set_password_changed now (set_hash (hash_password salt new) u)))
                 (u_id v) (users d).
Proof.
  intros H. unfold reset_password in H. apply bind_ok_inv in H as (rows & d1 & [= <- <-] & H).
  apply bind_ok_inv in H as (record & d1 & [= E <-] & H). destruct record as [t|]; [|done]. apply one_or_none_Some in E.
  destruct (bool_decide (is_Some (pt_used_at t))) eqn:Hu; [done|]. destruct (pt_expires_at t <? now) eqn:He; [done|].
  cbn [orb] in H. apply bind_ok_inv in H as (v & d1 & H1 & H). apply get_by_id_inv in H1 as [-> [Hv _]].
  apply bind_ok_inv in H as ([] & d1 & [= <-] & H). apply bind_ok_inv in H as (u1 & d2 & [= <- <-] & H).
  apply bind_ok_inv in H as ([] & d3 & [= <-] & H). injection H as <- <-. exists t, v.
  split; [done|]. split; [by apply not_is_Some_None|]. split; [by apply Z.ltb_ge|]. done.
Qed.

Lemma ends_sessions_spent h user d d' : keyed (users d) -> owned_by h user d -> ends_sessions d user d' -> spent h d'.
Proof.
  intros Hk Ho [now salt raw new t d1 Ht <- H%in_transaction_ok|now salt p current new d1 Hp H%in_transaction_ok
    |now p d1 Hp H%in_transaction_ok|now reason d1 H%in_transaction_ok].
  - apply bind_ok_inv in H as (u & d2 & H1 & H).
    apply reset_password_inv in H1 as (t' & v & Ht' & _ & _ & Hv & Hid & Hr & _ & _).
    assert (t' = t) as -> by congruence. rewrite Hid, (keyed_lookup _ _ _ Hk Hv : u_id v = pt_user_id t) in H.
    eapply revoked_all_spent; [by eapply owned_by_other|exact H].
  - apply bind_ok_inv in H as (u & d2 & H1 & H). apply get_authed_inv in H1 as [-> (k & Hk' & Hu)].
    assert (k = user) as -> by congruence. apply bind_ok_inv in H as ([] & d3 & H1 & H).
    rewrite (keyed_lookup _ _ _ Hk Hu : u_id u = user) in H. eapply revoked_all_spent; [|exact H].
    eapply owned_by_other; [|exact Ho]. by eapply keeps_change_password; [..|exact H1].
  - apply bind_ok_inv in H as (u & d2 & H1 & H). apply get_authed_inv in H1 as [-> (k & Hk' & Hu)].
    assert (k = user) as -> by congruence. apply bind_ok_inv in H as ([] & d3 & H1 & H). injection H as <-.
    rewrite (keyed_lookup _ _ _ Hk Hu : u_id u = user) in H1.
    apply (spent_other _ d3); [done|]. by eapply revoked_all_spent.
  - apply bind_ok_inv in H as (u & d2 & H1 & H). apply get_by_id_inv in H1 as [-> [Hu _]].
    apply bind_ok_inv in H as ([] & d3 & H1 & H). rewrite (keyed_lookup _ _ _ Hk Hu : u_id u = user) in H.
    eapply revoked_all_spent; [|exact H]. eapply owned_by_other; [|exact Ho]. by eapply keeps_set_ban; [..|exact H1].
Qed.
End routes.

(** ** Properties *)


(** a chain of refresh tokens does not fork — whatever requests were
    served, one after the other, starting from an empty service, every login's
    family of refresh tokens has at most one token that was not exchanged. *)
Theorem rotation_chain_linear settings hash_token jwt_encode jwt_decode hash_password verify_password totp_at
    totp_verify decrypt publish avoid d i j a b
    (Hreach : rtc (auth_step settings hash_token jwt_encode jwt_decode hash_password verify_password totp_at totp_verify
                     decrypt publish avoid) empty_auth d)
    (Ha : refresh_tokens d !! i = Some a) (Hb : refresh_tokens d !! j = Some b)
    (Hfam : rt_family_id a = rt_family_id b) (Hua : rt_used_at a = None) (Hub : rt_used_at b = None) : a = b.
Proof.
  assert (Hl : linear empty_auth) by (split; [apply keyed_empty|intros ? ? ? ? Hx; cbn in Hx; by rewrite lookup_empty in Hx]).
  apply auth_steps_linear in Hreach as [_ Hlin]; [|done]. assert (i = j) as -> by (by eapply Hlin). congruence.
Qed.


(** C13: signing in takes the password and, where it is on, the second factor
    — a login that answers names a user with that address who is active, not
    banned, not locked and whose hash verifies the password; it answers with
    tokens of that user and a new session only when the user has no second
    factor, and otherwise with a challenge, having written no session and no
    refresh token. *)
Theorem login_needs_credentials settings hash_token jwt_encode hash_password verify_password publish
    now later dr e password ip agent label d a d'
    (Hok : in_transaction (login settings hash_token jwt_encode hash_password verify_password publish
                             now later dr e password ip agent label) d = (Ok a, d')) :
  exists u, authenticated verify_password now e password u d /\
    match a with
    | SignedIn issued _ => u_mfa_enabled u = false /\ issued_user_id issued = u_id u /\
        exists s, sessions d' !! issued_session_id issued = Some s /\ s_user_id s = u_id u /\ s_revoked_at s = None
    | MfaRequired c _ => u_mfa_enabled u = true /\ c = jwt_encode (challenge_claims settings (u_id u) (ld_jti dr) now) /\
        sessions d' = sessions d /\ refresh_tokens d' = refresh_tokens d
    end.
Proof.
  apply in_transaction_ok, login_ok in Hok as (u & u' & d1 & Hau & Hid & Hr & Hs & H). exists u. split; [done|].
  destruct a as [issued v|c ttl].
  - destruct H as (-> & Hm & d2 & H & _ & Hs2). split; [done|].
    apply start_session_ok in H as (H1 & H2 & _ & _ & H3). split; [congruence|].
    rewrite Hs2, H3, H2. eexists. split; [rewrite lookup_save, decide_True by done; reflexivity|]. by split.
  - by destruct H as (Hm & -> & Hc).
Qed.

Lemma str_list_map l : str_list (JList (map JStr l)) = l.
Proof. cbn. induction l as [|s l IH]; [done|]. cbn. by rewrite IH. Qed.

(** The claims of the two kinds of token of a user. *)
Definition minted settings (u : User) sid jti at_ (claims : json) : Prop :=
  claims = access_claims settings u sid jti at_ \/ claims = challenge_claims settings (u_id u) jti at_.

(** what the auth service signs is what the other services read — a token
    minted for a user and a session is verified, with the published key, as a
    principal with that user's id, roles and session, who has every permission
    one of the roles grants and every extra permission; the challenge of a
    second factor signed with the same key is refused. *)
Theorem minted_token_authorises settings jwt_encode ttl answer unverified_header jwt_decode algorithms leeway
    (u : User) sid jti at_ now later kid key c
    (Hheader : forall claims, minted settings u sid jti at_ claims -> exists h alg, unverified_header (jwt_encode claims) = Some h /\ jget "kid" h = JStr kid /\
       jget "alg" h = JStr alg /\ alg ∈ algorithms)
    (Hkid : kid <> "") (Hkey : keys c !! kid = Some key) (Hcached : now - fetched_at c <= ttl)
    (Hdecode : forall claims, minted settings u sid jti at_ claims -> jwt_decode key algorithms (jwt_audience settings) (jwt_issuer settings) leeway
       (jwt_encode claims) = Claims claims) :
  let check := Security.verify ttl answer unverified_header jwt_decode algorithms (jwt_audience settings)
                 (jwt_issuer settings) leeway now later in
  (exists p, check (mint_access_token settings jwt_encode u sid jti at_).1 c = (Ok p, c) /\
     user_id p = string_of_uuid (u_id u) /\ roles p = u_roles u /\ session_id p = Some (string_of_uuid sid) /\
     (forall name role perm, name ∈ u_roles u -> parse_enum name = Some role -> perm ∈ ROLE_PERMISSIONS role ->
        has_permission (permission_value perm) p = true) /\
     (forall perm, perm ∈ u_extra_permissions u -> has_permission perm p = true)) /\
  check (mint_mfa_challenge settings jwt_encode (u_id u) jti at_).1 c = (Raise (app_error UnauthorizedError ""), c).
Proof.
  assert (Hget : get_key ttl answer now later kid c = (Ok key, c)).
  { unfold get_key, mbind, M_bind, get. rewrite bool_decide_eq_false_2 by (intros E; by rewrite E, lookup_empty in Hkey).
    replace (ttl <? now - fetched_at c) with false by (symmetry; by apply Z.ltb_ge).
    cbn [orb]. unfold mret, M_ret. rewrite (bool_decide_eq_false_2 (keys c !! kid = None)) by congruence.
    cbn [andb]. by rewrite Hkey. }
  assert (Hcheck : forall claims, minted settings u sid jti at_ claims -> Security.verify ttl answer unverified_header jwt_decode algorithms (jwt_audience settings)
      (jwt_issuer settings) leeway now later (jwt_encode claims) c =
      (match jget "typ" claims with JStr "access" => mret (principal_of claims)
       | _ => raise (app_error UnauthorizedError "") end) c).
  { intros claims Hcl. destruct (Hheader claims Hcl) as (h & alg & Hh & Hk & Ha & Hin). unfold Security.verify.
    rewrite Hh, Hk, Ha. replace (String.eqb kid "") with false by (symmetry; by apply String.eqb_neq).
    rewrite bool_decide_eq_true_2 by done. cbn [negb]. unfold mbind at 1, M_bind. rewrite Hget, Hdecode by done. done. }
  cbv zeta. unfold mint_access_token, mint_mfa_challenge. cbn [fst].
  rewrite !Hcheck by (first [by left|by right]). split; [|done].
  eexists. split; [reflexivity|]. unfold principal_of. split; [done|]. split; [apply str_list_map|]. split; [done|].
  assert (Hp : forall perm, perm ∈ resolve_permissions u ->
    has_permission perm (principal_of (access_claims settings u sid jti at_)) = true).
  { intros perm Hin. unfold has_permission. rewrite (bool_decide_eq_true_2 (perm ∈ _)).
    - by rewrite orb_true_r.
    - change (permissions _) with (str_list (JList (map JStr (resolve_permissions u)))). by rewrite str_list_map. }
  split; intros; apply Hp, elem_of_permissions; [left|by right].
  eexists _, _. split; [done|]. split; [done|]. by apply list_elem_of_fmap_2.
Qed.

(** ** Which addresses have an account *)

(** Addresses are stored normalised, one account each; nobody is deleted. *)
Record accounts_ok (d : AuthDb) : Prop := {
  ao_keyed : keyed (users d);
  ao_normal : forall i u, users d !! i = Some u -> normalise_email (u_email u) = u_email u /\ lower (u_email u) = u_email u;
  ao_unique : unique_on email_col (users d);
  ao_kept : forall i u, users d !! i = Some u -> u_deleted_at u = None;
}.

Lemma get_by_email_total e d : accounts_ok d ->
  exists o, get_by_email e d = (Ok o, d) /\
    match o with
    | Some u => users d !! u_id u = Some u /\ u_email u = normalise_email e
    | None => forall i u, users d !! i = Some u -> u_email u <> normalise_email e
    end.
Proof.
  intros [Hk Hn Hu Hd]. unfold get_by_email.
  set (P := fun u => String.eqb (lower (u_email u)) (normalise_email e) && bool_decide (u_deleted_at u = None)).
  assert (HP : forall i u, users d !! i = Some u -> P u = true <-> u_email u = normalise_email e).
  { intros i u Hi. unfold P. rewrite (proj2 (Hn i u Hi)), (bool_decide_eq_true_2 _ (Hd i u Hi)), andb_true_r.
    apply String.eqb_eq. }
  change (exists o, (rows ← gets (fun d => select P (users d)); of_result (one_or_none rows)) d = (Ok o, d) /\ match o with
    | Some u => users d !! u_id u = Some u /\ u_email u = normalise_email e
    | None => forall i u, users d !! i = Some u -> u_email u <> normalise_email e end).
  unfold mbind, M_bind, gets, of_result. cbn.
  destruct (select P (users d)) as [|u [|v l]] eqn:E.
  - exists None. split; [done|]. intros i u Hi He. apply (HP i u Hi) in He.
    assert (Hin : u ∈ select P (users d)) by (apply elem_of_select; eauto). rewrite E in Hin. by apply not_elem_of_nil in Hin.
  - exists (Some u). split; [done|]. assert (Hin : u ∈ select P (users d)) by (rewrite E; left).
    apply elem_of_select_keyed in Hin as [Hi Hpu]; [|done]. split; [done|]. by apply (HP _ u Hi).
  - exfalso. assert (Hnd : NoDup (select P (users d))) by (by apply NoDup_select).
    assert (Hu1 : u ∈ select P (users d)) by (rewrite E; left).
    assert (Hv1 : v ∈ select P (users d)) by (rewrite E; right; left).
    apply elem_of_select_keyed in Hu1 as [Hi Hpu], Hv1 as [Hj Hpv]; [|done..].
    apply (HP _ _ Hi) in Hpu. apply (HP _ _ Hj) in Hpv.
    assert (Hid : row_id u = row_id v) by (apply (Hu _ _ u v (u_email u) Hi Hj eq_refl); unfold email_col; congruence).
    rewrite Hid in Hi. assert (u = v) as -> by congruence. rewrite E in Hnd. apply NoDup_cons in Hnd as [Hnd _]. apply Hnd. left.
Qed.

Lemma add_row_total {V K} `{!Row V} `{!EqDecision K} tbl set (col : V -> option K) v d :
  tbl d !! row_id v = None -> (forall i w k, tbl d !! i = Some w -> col v = Some k -> col w <> Some k) ->
  add_row tbl set col v d = (Ok tt, set (save v (tbl d)) d).
Proof.
  intros Hn Hc. unfold add_row, insert_new. rewrite bool_decide_eq_false_2 by (intros [? ?]; congruence).
  unfold insert_unique. replace (conflicts col v (tbl d)) with false; [done|]. symmetry. unfold conflicts.
  apply not_true_iff_false. intros (w & Hw & [_ H]%andb_prop)%existsb_exists.
  apply list_elem_of_In, elem_of_rows in Hw as (i & Hi). destruct (col v) as [k|] eqn:E; [|done].
  apply bool_decide_eq_true in H. by apply (Hc i w k).
Qed.

Lemma normalise_idem e : normalise_email (normalise_email e) = normalise_email e.
Proof. unfold normalise_email. rewrite strip_lower. by autorewrite with text. Qed.

Section hidden.
Context (settings : AuthSettings) (hash_token : string -> string) (jwt_encode : json -> string)
        (hash_password : string -> string -> string) (verify_password : string -> string -> bool)
        (publish : string -> list (string * json) -> result unit).
Context (now later : datetime) (d : AuthDb).
Hypothesis Hok : accounts_ok d.
Hypothesis Hpublish : forall topic payload, publish topic payload = Ok tt.

Lemma register_answer dr e password name locale ip :
  users d !! rd_user dr = None -> email_tokens d !! rd_token_id dr = None ->
  (forall i t, email_tokens d !! i = Some t -> et_token_hash t <> hash_token (rd_raw dr)) ->
  (in_transaction (register_route settings hash_token hash_password publish now dr e password name locale ip) d).1 =
    Ok "Check your inbox".
Proof.
  intros Hu Ht Hh. destruct (get_by_email_total (normalise_email e) d Hok) as (o & He & Ho).
  rewrite normalise_idem in Ho.
  assert (Hreg : exists res d', register settings hash_token hash_password now dr e password name locale ip d = (Ok res, d')).
  { unfold register. cbv zeta. rewrite (bind_ok _ _ _ _ _ He). destruct o as [u|]; [by eexists _, _|].
    erewrite bind_ok; [|apply add_row_total; [done|]].
    2: { intros i u k Hi [= <-] [= H]. by apply (Ho i u Hi). }
    erewrite bind_ok; [by eexists _, _|]. unfold issue_verification_token. erewrite bind_ok; [reflexivity|].
    apply add_row_total; [done|]. intros i t k Hi [= <-] [= H]. by apply (Hh i t Hi). }
  destruct Hreg as ([u raw] & d' & Hreg). unfold in_transaction, register_route. rewrite (bind_ok _ _ _ _ _ Hreg).
  destruct raw as [raw|]; unfold mbind, M_bind, of_result; [by rewrite Hpublish|done].
Qed.

Lemma forgot_answer tid raw e ip :
  reset_tokens d !! tid = None -> (forall i t, reset_tokens d !! i = Some t -> pt_token_hash t <> hash_token raw) ->
  (in_transaction (forgot_password settings hash_token publish now tid raw e ip) d).1 = Ok "If an account exists".
Proof.
  intros Ht Hh. destruct (get_by_email_total e d Hok) as (o & He & _).
  assert (Hask : exists res d', request_password_reset settings hash_token now tid raw e ip d = (Ok res, d')).
  { unfold request_password_reset. rewrite (bind_ok _ _ _ _ _ He). destruct o as [u|]; [|by eexists _, _].
    destruct (negb (u_is_active u)); [by eexists _, _|]. erewrite bind_ok; [by eexists _, _|].
    apply add_row_total; [done|]. intros i t k Hi [= <-] [= H]. by apply (Hh i t Hi). }
  destruct Hask as (res & d' & Hask). unfold in_transaction, forgot_password. rewrite (bind_ok _ _ _ _ _ Hask).
  destruct res as [[u raw']|]; unfold mbind, M_bind, of_result; [by rewrite Hpublish|done].
Qed.

(** No account with the address, or one that is neither locked nor banned and
    has another password or none. *)
Definition refuses (e password : string) : Prop := forall i u, users d !! i = Some u -> u_email u = normalise_email e ->
  (forall t, u_locked_until u = Some t -> t <= now) /\ u_banned_at u = None /\
  (forall hashed, u_password_hash u = Some hashed -> hashed <> "" -> verify_password password hashed = false).

Lemma login_answer dr e password ip agent label : refuses e password ->
  in_transaction (login settings hash_token jwt_encode hash_password verify_password publish now later dr e password ip
    agent label) d = (Raise (app_error UnauthorizedError ""), d).
Proof.
  intros Hr. destruct (get_by_email_total e d Hok) as (o & He & Ho).
  assert (Hau : exists d', authenticate settings hash_password verify_password now (ld_salt dr) e password ip d =
                          (Raise (app_error UnauthorizedError ""), d')).
  { unfold authenticate. cbv zeta. rewrite (bind_ok _ _ _ _ _ He). destruct o as [u|]; [|by eexists].
    destruct Ho as [Hu Hem]. destruct (Hr _ _ Hu Hem) as (Hl & Hb & Hv).
    replace (match u_locked_until u with Some t => now <? t | None => false end) with false
      by (destruct (u_locked_until u) as [t|]; [symmetry; apply Z.ltb_ge; by apply Hl|done]).
    rewrite (bool_decide_eq_false_2 (is_Some (u_banned_at u))) by (rewrite Hb; by intros [? ?]).
    destruct (is_blank (u_password_hash u)) eqn:Hbl; [by eexists|].
    destruct (u_password_hash u) as [hashed|]; [|done]. cbn [default from_option id].
    rewrite (Hv hashed eq_refl) by (intros ->; done). cbn [negb]. by eexists. }
  destruct Hau as [d' Hau]. eapply in_transaction_raise. unfold login. by rewrite (bind_raise _ _ _ _ _ Hau).
Qed.
End hidden.


(** ** Witnesses and samples *)

Definition toy_encode (claims : json) : string :=
  match jget "typ" claims with JStr s => append s (jstr (jget "sub" claims)) | _ => "" end.
Definition toy_hash_password (salt password : string) : string := append "$2b$12$" password.
Definition toy_verify_password (password hashed : string) : bool := String.eqb hashed (append "$2b$12$" password).
Definition no_publisher (_ : string) (_ : list (string * json)) : result unit := Ok tt.
Definition draws_of (n : N) (raw : string) : LoginDraws :=
  mkLoginDraws "salt" (100 + n)%N (200 + n)%N (mkDraws (300 + n)%N raw (append "csrf-" raw) (400 + n)%N) (500 + n)%N.
Definition one_user : AuthDb := set_users {[ 7%N := sample_user ]} empty_auth.

Definition toy_login now n raw password :=
  in_transaction (login sample_settings toy_digest toy_encode toy_hash_password toy_verify_password no_publisher now now
    (draws_of n raw) "Ada@Example.com " password None None None).
Definition toy_refresh now n new cookie header :=
  in_transaction (refresh sample_settings toy_digest toy_encode now now (ld_tokens (draws_of n new)) cookie header None).
Definition toy_step avoid := auth_step sample_settings toy_digest toy_encode (fun _ => None) toy_hash_password
  toy_verify_password toy_totp (fun _ _ _ _ => true) Some no_publisher avoid.
(** Signed in with the token [A]; refreshed into [B]. *)
Definition signed_in : AuthDb := (toy_login sample_time 1 "A" "correct horse" one_user).2.
Definition refreshed : AuthDb := (toy_refresh (sample_time + 1) 2 "B" (Some "A") (Some "csrf-A") signed_in).2.

Ltac solve_keyed := unfold keyed; eapply bool_decide_unpack; vm_compute; exact I.


Lemma refreshed_reachable : rtc (toy_step "#none") empty_auth refreshed.
Proof.
  eapply rtc_l with one_user; [by apply as_elsewhere|].
  eapply rtc_l with signed_in.
  { refine (as_login _ _ _ _ _ _ _ _ _ _ "#none" one_user sample_time sample_time (draws_of 1 "A") "Ada@Example.com " "correct horse"
      None None None _). split; [by vm_compute|]. unfold fresh_family. eapply bool_decide_unpack. vm_compute. exact I. }
  eapply rtc_l with refreshed; [|apply rtc_refl].
  refine (as_refresh _ _ _ _ _ _ _ _ _ _ "#none" signed_in (sample_time + 1) (sample_time + 1) (ld_tokens (draws_of 2 "B"))
    (Some "A") (Some "csrf-A") None _). by vm_compute.
Qed.

Lemma rotation_chain_linear_witness :
  exists a, refresh_tokens refreshed !! 302%N = Some a /\ rt_parent_id a = Some 301%N /\
    forall j b, refresh_tokens refreshed !! j = Some b -> rt_family_id a = rt_family_id b -> rt_used_at b = None -> a = b.
Proof.
  destruct (refresh_tokens refreshed !! 302%N) as [a|] eqn:Ha; [|vm_compute in Ha; discriminate].
  assert (Hua : rt_used_at a = None /\ rt_parent_id a = Some 301%N) by (vm_compute in Ha; by injection Ha as <-).
  destruct Hua as [Hua Hpa]. exists a. split; [done|]. split; [done|]. intros j b Hb Hfam Hub.
  exact (rotation_chain_linear sample_settings toy_digest toy_encode (fun _ => None) toy_hash_password toy_verify_password
    toy_totp (fun _ _ _ _ => true) Some no_publisher "#none" refreshed 302 j a b refreshed_reachable Ha Hb Hfam Hua Hub).
Defined.

Definition ada : Principal := mkPrincipal (string_of_uuid 7) None ["user"] [] None None false.
Definition admin : Principal := mkPrincipal (string_of_uuid 9) None ["superadmin"] [] None None false.


Lemma login_needs_credentials_witness :
  exists issued v d', toy_login sample_time 1 "A" "correct horse" one_user = (Ok (SignedIn issued v), d') /\
  exists u, authenticated toy_verify_password sample_time "Ada@Example.com " "correct horse" u one_user /\
    u_mfa_enabled u = false /\ issued_user_id issued = u_id u /\
    exists s, sessions d' !! issued_session_id issued = Some s /\ s_user_id s = u_id u /\ s_revoked_at s = None.
Proof.
  destruct (toy_login sample_time 1 "A" "correct horse" one_user) as [[[issued v|c ttl]|e] d'] eqn:E;
    [|vm_compute in E; discriminate..].
  exists issued, v, d'. split; [done|].
  exact (login_needs_credentials sample_settings toy_digest toy_encode toy_hash_password toy_verify_password no_publisher
    sample_time sample_time (draws_of 1 "A") "Ada@Example.com " "correct horse" None None None one_user (SignedIn issued v) d' E).
Defined.

Definition toy_key : json := JObj [("kid", JStr "k1")].
Definition toy_header : json := JObj [("kid", JStr "k1"); ("alg", JStr "RS256")].
Definition toy_jwks : JWKSCache := mkJWKS {[ "k1" := toy_key ]} 0 0.
Definition toy_decode (u : User) (_ : json) (_ : list string) (_ _ : string) (_ : Z) (token : string) : decoded :=
  if startswith "access" token then Claims (access_claims sample_settings u 101 5 sample_time)
  else Claims (challenge_claims sample_settings (u_id u) 5 sample_time).

Lemma minted_token_authorises_witness :
  let check := Security.verify 600 (fun _ => Ok []) (fun _ => Some toy_header) (toy_decode sample_user) ["RS256"]
                 "knowledgeos-api" "knowledgeos" 10 30 30 in
  (exists p, check (mint_access_token sample_settings toy_encode sample_user 101 5 sample_time).1 toy_jwks = (Ok p, toy_jwks) /\
     user_id p = string_of_uuid 7 /\ has_permission "books:read" p = true /\ has_permission "books:write" p = false) /\
  check (mint_mfa_challenge sample_settings toy_encode 7 5 sample_time).1 toy_jwks =
    (Raise (app_error UnauthorizedError ""), toy_jwks).
Proof.
  intros check.
  destruct (minted_token_authorises sample_settings toy_encode 600 (fun _ => Ok []) (fun _ => Some toy_header)
    (toy_decode sample_user) ["RS256"] 10 sample_user 101 5 sample_time 30 30 "k1" toy_key toy_jwks)
    as [(p & Hp & Hid & Hr & Hs & Hperm & _) Hc].
  - intros claims _. exists toy_header, "RS256". split; [done|]. split; [done|]. split; [done|]. by left.
  - done.
  - done.
  - by vm_compute.
  - intros claims [-> | ->]; by vm_compute.
  - split; [|exact Hc]. exists p. split; [exact Hp|]. split; [exact Hid|]. split.
    + apply (Hperm "user" UserRole.USER BOOKS_READ); [by left|done|by left].
    + vm_compute in Hp. injection Hp as <-. by vm_compute.
Defined.

Lemma one_user_ok : accounts_ok one_user.
Proof.
  assert (H : forall i u, users one_user !! i = Some u -> i = 7%N /\ u = sample_user)
    by (intros i u; unfold one_user; cbn; by intros [<- <-]%lookup_singleton_Some).
  constructor.
  - solve_keyed.
  - intros i u [_ ->]%H. by vm_compute.
  - intros i j u v k [-> _]%H [-> _]%H. done.
  - by intros i u [_ ->]%H.
Qed.


(** ** What the transaction undoes *)

(** A thief exchanges the stolen token [A] for [B].  The owner's [A] is then
    recognised as reused, but the revocation of the family is rolled back with
    the refused request, and [B] goes on being exchanged. *)
Example stolen_family_survives :
  let '(answer, d) := toy_refresh (sample_time + 2) 3 "C" (Some "A") (Some "csrf-A") refreshed in
  answer = Raise (app_error UnauthorizedError "refresh_token_reused") /\
  rt_revoked_at <$> refresh_tokens d !! 302%N = Some None /\
  is_ok (toy_refresh (sample_time + 3) 4 "D" (Some "B") (Some "csrf-B") d).1 = true.
Proof. by vm_compute. Qed.

(** A hundred wrong passwords leave no trace: the count of failures is rolled
    back with each refused login, and the account is never locked. *)
Example lockout_never_counts :
  let guess d := (toy_login sample_time 1 "A" "guess" d).2 in
  let d := Nat.iter 100 guess one_user in
  u_failed_login_attempts <$> users d !! 7%N = Some 0 /\ length (audit_logs d) = 0%nat /\
  is_ok (toy_login sample_time 1 "A" "correct horse" d).1 = true.
Proof. by vm_compute. Qed.

(** The console's ban leaves the sessions alone: once it is lifted, the old
    refresh token works. *)
Example console_ban_keeps_sessions :
  let banned := (in_transaction (ban_user (sample_time + 1) 7 "spam" admin) signed_in).2 in
  let unbanned := (in_transaction (unban_user (sample_time + 2) 7 admin) banned).2 in
  (s_revoked_at <$> sessions banned !! 101%N) = Some None /\
  is_ok (toy_refresh (sample_time + 3) 3 "C" (Some "A") (Some "csrf-A") banned).1 = false /\
  is_ok (toy_refresh (sample_time + 3) 3 "C" (Some "A") (Some "csrf-A") unbanned).1 = true.
Proof. by vm_compute. Qed.

(** A banned account is recognised without its password. *)
Example ban_reveals_account :
  let banned := (in_transaction (internal_ban_user (sample_time + 1) 7 "spam") one_user).2 in
  (toy_login (sample_time + 2) 1 "A" "guess" banned).1 = Raise (app_error UnauthorizedError "account_banned") /\
  (in_transaction (login sample_settings toy_digest toy_encode toy_hash_password toy_verify_password no_publisher
     sample_time sample_time (draws_of 1 "A") "nobody@example.com" "guess" None None None) banned).1 =
    Raise (app_error UnauthorizedError "").
Proof. by vm_compute. Qed.

(** Two requests that both loaded the token before either exchanged it fork
    the family: two tokens are live. *)
Example overlapping_refreshes_fork :
  let token := default (mkRefresh 0 0 0 0 None "" "" 0 0 None None None) (refresh_tokens signed_in !! 301%N) in
  let exchange n raw d := (rotate_record sample_settings toy_digest toy_encode (sample_time + 1) (sample_time + 1)
    (ld_tokens (draws_of n raw)) (Some "csrf-A") token d).2 in
  let d := exchange 3%N "C" (exchange 2%N "B" signed_in) in
  length (select (fun t => bool_decide (rt_family_id t = 201%N) && bool_decide (rt_used_at t = None) &&
                           bool_decide (rt_revoked_at t = None)) (refresh_tokens d)) = 2%nat.
Proof. by vm_compute. Qed.
