(* ===== verification/Entitlements.v ===== *)
(** * Entitlements (apps/books/services/entitlements.py, services/events.py)

    Who may open which book: the checks, the grants, the consumer that turns a
    paid order into grants, and the routes that use them.  [race] is what other
    workers commit between a look-up and the insert that follows it.

    Rows are added to the session before the savepoint is opened.  Opening it
    flushes them first, so that a conflict breaks the surrounding transaction
    (services/payments.py and services/webhooks.py of the payment service say
    so and open it earlier): every later statement, and the commit, fails. *)

From S2P Require Import Prelude Store Json PaymentModels Pagination Orders Invoices Payments Events.

(** ** Rows (apps/books/models.py, schemas.py) *)

Module BookStatus.
Inductive t := DRAFT | PROCESSING | PENDING_REVIEW | PUBLISHED | UNPUBLISHED | REJECTED | ARCHIVED.
End BookStatus.
Module BookFormat.
Inductive t := PDF | EPUB | MOBI | AUDIOBOOK.
End BookFormat.
Module EntitlementSource.
Inductive t := PURCHASE | SUBSCRIPTION | FREE | GIFT | ADMIN.
End EntitlementSource.

#[export] Instance BookStatus_eq_dec : EqDecision BookStatus.t.
Proof. solve_decision. Defined.
#[export] Instance BookFormat_eq_dec : EqDecision BookFormat.t.
Proof. solve_decision. Defined.
#[export] Instance EntitlementSource_eq_dec : EqDecision EntitlementSource.t.
Proof. solve_decision. Defined.

Definition format_value (f : BookFormat.t) : string :=
  match f with
  | BookFormat.PDF => "pdf" | BookFormat.EPUB => "epub" | BookFormat.MOBI => "mobi" | BookFormat.AUDIOBOOK => "audiobook"
  end.

Record Book := mkBook {
  b_id : uuid;
  b_slug : string;
  b_status : BookStatus.t;
  b_price_minor : Z;
  b_discount_price_minor : option Z;
  b_formats : list string;
  b_pdf_key : option string;
  b_epub_key : option string;
  b_mobi_key : option string;
  b_download_count : Z;
  b_deleted_at : option datetime;
}.

Definition effective_price_minor (b : Book) : Z :=
  match b_discount_price_minor b with
  | Some p => if p <? b_price_minor b then p else b_price_minor b
  | None => b_price_minor b
  end.
Definition is_free (b : Book) : bool := effective_price_minor b =? 0.

Definition available_formats (b : Book) : list string :=
  (if truthy (b_pdf_key b) then ["pdf"] else []) ++ (if truthy (b_epub_key b) then ["epub"] else []) ++
  (if truthy (b_mobi_key b) then ["mobi"] else []) ++
  (if bool_decide ("audiobook" ∈ b_formats b) then ["audiobook"] else []).

Definition file_key_for (f : BookFormat.t) (b : Book) : option string :=
  match f with
  | BookFormat.PDF => b_pdf_key b | BookFormat.EPUB => b_epub_key b | BookFormat.MOBI => b_mobi_key b
  | BookFormat.AUDIOBOOK => None
  end.

Record Entitlement := mkEnt {
  e_id : uuid;
  e_user_id : uuid;
  e_book_id : uuid;
  e_source : EntitlementSource.t;
  e_external_ref : string;
  e_order_id : option uuid;
  e_can_read : bool;
  e_can_download : bool;
  e_granted_at : datetime;
  e_expires_at : option datetime;
  e_revoked_at : option datetime;
  e_note : option string;
}.

#[export] Instance Book_row : Row Book := b_id.
#[export] Instance Entitlement_row : Row Entitlement := e_id.

(** The unique key of a grant. *)
Definition grant_key : Type := uuid * uuid * EntitlementSource.t * string.
Definition key_of (e : Entitlement) : grant_key := (e_user_id e, e_book_id e, e_source e, e_external_ref e).
Definition key_col (e : Entitlement) : option grant_key := Some (key_of e).

(** Books, grants and the ledger of processed events. *)
Record BooksDb := mkBooks {
  books : table Book;
  entitlements : table Entitlement;
  processed_events : gmap string string;
  broken : bool;  (* the transaction failed and was not rolled back *)
}.

Definition set_books x d := mkBooks x (entitlements d) (processed_events d) (broken d).
Definition set_entitlements x d := mkBooks (books d) x (processed_events d) (broken d).
Definition set_processed x d := mkBooks (books d) (entitlements d) x (broken d).
Definition set_broken x d := mkBooks (books d) (entitlements d) (processed_events d) x.

(** A statement, or the commit, needs a transaction that has not failed. *)
Definition statement : M BooksDb unit := fun d => (if broken d then Raise PendingRollbackErr else Ok tt, d).

(** [session.add(row)], then [begin_nested()] inside a [try]: the row is
    inserted before the savepoint exists. *)
Definition add_then_savepoint {A} (insert : M BooksDb A) (on_conflict : M BooksDb A) : M BooksDb A := fun d =>
  match insert d with
  | (Raise IntegrityErr, _) => on_conflict (set_broken true d)
  | r => r
  end.

Record AccessOut := mkAccess {
  ac_book_id : uuid;
  has_access : bool;
  can_download : bool;
  ac_source : option EntitlementSource.t;
  ac_expires_at : option datetime;
}.

Section entitlements.
Context (free_books_readable : bool).

(** ** Checks *)

Definition active (now : datetime) (e : Entitlement) : bool :=
  bool_decide (e_revoked_at e = None) && match e_expires_at e with Some t => now <? t | None => true end.

(** [ORDER BY can_download DESC, granted_at DESC] *)
Definition stronger (a b : Entitlement) : bool :=
  if Bool.eqb (e_can_download a) (e_can_download b) then e_granted_at b <=? e_granted_at a else e_can_download a.

Definition find_active now user book : M BooksDb (option Entitlement) :=
  gets (fun d => first_by stronger (select (fun e => bool_decide (e_user_id e = user) &&
    bool_decide (e_book_id e = book) && active now e) (entitlements d))).

Definition free_access (b : Book) : option AccessOut :=
  if negb free_books_readable || negb (is_free b) then None
  else Some (mkAccess (b_id b) true true (Some EntitlementSource.FREE) None).

Definition access now user (b : Book) : M BooksDb AccessOut :=
  ent ← find_active now user (b_id b);
  mret match ent with
       | Some e => mkAccess (b_id b) (e_can_read e) (e_can_download e) (Some (e_source e)) (e_expires_at e)
       | None => match free_access b with Some a => a | None => mkAccess (b_id b) false false None None end
       end.

Definition require_read now user b : M BooksDb AccessOut :=
  a ← access now user b;
  if has_access a then mret a
  else match ac_source a with
       | None => raise (app_error PaymentRequiredError "")
       | Some _ => raise (app_error ForbiddenError "")
       end.

Definition require_download now user b : M BooksDb AccessOut :=
  a ← require_read now user b;
  if can_download a then mret a else raise (app_error ForbiddenError "").

Definition owned_subset now user (ids : list uuid) : M BooksDb (gset uuid) :=
  gets (fun d => list_to_set (map e_book_id (select (fun e => bool_decide (e_user_id e = user) &&
    bool_decide (e_book_id e ∈ ids) && active now e) (entitlements d)))).

(** ** Grants *)

Definition find_grant (k : grant_key) : M BooksDb (option Entitlement) :=
  _ ← statement;
  rows ← gets (fun d => select (fun e => bool_decide (key_of e = k)) (entitlements d));
  of_result (one_or_none rows).

Definition reinstate now e := mkEnt (e_id e) (e_user_id e) (e_book_id e) (e_source e) (e_external_ref e) (e_order_id e)
  (e_can_read e) (e_can_download e) now (e_expires_at e) None (e_note e).
Definition set_revoked now reason e := mkEnt (e_id e) (e_user_id e) (e_book_id e) (e_source e) (e_external_ref e)
  (e_order_id e) (e_can_read e) (e_can_download e) (e_granted_at e) (e_expires_at e) (Some now)
  (str_or reason (e_note e)).

Definition update_entitlements k f : M BooksDb unit :=
  modify (fun d => set_entitlements (alter f k (entitlements d)) d).

(** INSERT under the unique key and the foreign key to the book. *)
Definition add_entitlement (e : Entitlement) : M BooksDb unit := fun d =>
  if bool_decide (books d !! e_book_id e = None) then (Raise IntegrityErr, d)
  else match insert_new key_col e (entitlements d) with
       | Ok t => (Ok tt, set_entitlements t d)
       | Raise x => (Raise x, d)
       end.

Record Grant := mkGrant {
  g_user : uuid;
  g_book : uuid;
  g_source : EntitlementSource.t;
  g_ref : string;
  g_order : option uuid;
  g_expires : option datetime;
  g_download : bool;
  g_note : option string;
}.
Definition grant_key_of (g : Grant) : grant_key := (g_user g, g_book g, g_source g, g_ref g).
Definition new_entitlement now eid (g : Grant) : Entitlement :=
  mkEnt eid (g_user g) (g_book g) (g_source g) (g_ref g) (g_order g) true (g_download g) now (g_expires g) None (g_note g).

(** The row, and whether it was created; [eid] is drawn. *)
Definition grant now (race : BooksDb -> BooksDb) eid (g : Grant) : M BooksDb (Entitlement * bool) :=
  existing ← find_grant (grant_key_of g);
  match existing with
  | Some e =>
      if bool_decide (is_Some (e_revoked_at e)) then
        _ ← update_entitlements (e_id e) (reinstate now); mret (reinstate now e, false)
      else mret (e, false)
  | None =>
      let e := new_entitlement now eid g in
      _ ← modify race;
      add_then_savepoint (_ ← add_entitlement e; mret (e, true))
        (found ← find_grant (grant_key_of g);
         match found with Some f => mret (f, false) | None => raise IntegrityErr end)
  end.

Definition get_entitlement eid : M BooksDb Entitlement :=
  e ← gets (fun d => entitlements d !! eid);
  match e with Some e => mret e | None => raise (app_error NotFoundError "") end.

Definition revoke now (e : Entitlement) (reason : option string) : M BooksDb Entitlement :=
  if bool_decide (e_revoked_at e = None)
  then _ ← update_entitlements (e_id e) (set_revoked now reason); mret (set_revoked now reason e)
  else mret e.

(** ** The library, newest grant first *)

Definition grant_order (eb : Entitlement * Book) : Z * uuid := (e_granted_at eb.1, e_id eb.1).

Definition shelf now user d : list (Entitlement * Book) :=
  omap (fun e => match books d !! e_book_id e with
                 | Some b => if bool_decide (b_deleted_at b = None) then Some (e, b) else None
                 | None => None
                 end)
    (select (fun e => bool_decide (e_user_id e = user) && active now e && e_can_read e) (entitlements d)).

Definition library now user cursor limit : M BooksDb (list (Entitlement * Book) * option cursor_key * bool) :=
  gets (fun d => keyset_page grant_order (shelf now user d) cursor limit).

Definition load_grantable_book k : M BooksDb (option Book) :=
  gets (fun d => match books d !! k with
                 | Some b => if bool_decide (is_Some (b_deleted_at b)) || bool_decide (b_status b = BookStatus.ARCHIVED)
                             then None else Some b
                 | None => None
                 end).

(** ** Events *)

Definition ENTITLEMENT_EVENTS : list string := ["payment.succeeded"; "order.paid"].

Record GrantRequest := mkGrantRequest {
  gr_user_id : uuid;
  gr_book_ids : list uuid;
  gr_external_ref : string;
  gr_order_id : option uuid;
}.

Definition as_uuid (v : json) : option uuid := uuid_of_string (jstr v).

(** What [for x in v] yields, strings excluded. *)
Definition iterated (v : json) : list json :=
  match v with JList l => l | JObj l => map (fun kv => JStr kv.1) l | _ => [] end.

Definition truthy_list (v : json) : list json := if jtruthy v then [v] else [].

Definition collect_book_ids (payload : json) : list uuid :=
  let candidates :=
    iterated (jget "book_ids" payload) ++ truthy_list (jget "book_id" payload) ++
    concat (map (fun item => match item with JObj _ => truthy_list (jget "book_id" item) | _ => [] end)
                (iterated (jget "items" payload))) in
  fromkeys (omap as_uuid candidates).

Definition external_ref_of (payload : json) : string :=
  stake 255 (jstr (jor (jget "order_id" payload) (jor (jget "payment_id" payload)
    (jor (jget "reference" payload) (JStr ""))))).

Definition parse_grant (payload : json) : result (option GrantRequest) :=
  user ← dict_get "user_id" payload;
  Ok match as_uuid user with
     | None => None
     | Some u =>
         match collect_book_ids payload with
         | [] => None
         | ids => Some (mkGrantRequest u ids (external_ref_of payload) (as_uuid (jget "order_id" payload)))
         end
     end.

Definition add_processed (ev : Event) : M BooksDb unit := fun d =>
  match processed_events d !! Events.e_id ev with
  | Some _ => (Raise IntegrityErr, d)
  | None => (Ok tt, set_processed (<[Events.e_id ev := e_type ev]> (processed_events d)) d)
  end.

Definition claim (race : BooksDb -> BooksDb) (ev : Event) : M BooksDb bool :=
  seen ← gets (fun d => processed_events d !! Events.e_id ev);
  match seen with
  | Some _ => mret false
  | None =>
      _ ← modify race;
      add_then_savepoint (_ ← add_processed ev; mret true) (mret false)
  end.

Definition purchase (r : GrantRequest) (book : uuid) : Grant :=
  mkGrant (gr_user_id r) book EntitlementSource.PURCHASE (gr_external_ref r) (gr_order_id r) None true None.

(** [new_id] draws the id of the row for a book. *)
Definition grant_book now (new_id : uuid -> uuid) (r : GrantRequest) (created : Z) (book : uuid) : M BooksDb Z :=
  b ← load_grantable_book book;
  match b with
  | None => mret created
  | Some _ => res ← grant now id (new_id book) (purchase r book); mret (if (res : Entitlement * bool).2 then created + 1 else created)
  end.

Definition handle now race new_id (ev : Event) : M BooksDb Z :=
  claimed ← claim race ev;
  if negb claimed then mret 0
  else
    r ← of_result (parse_grant (e_payload ev));
    match r with
    | None => mret 0
    | Some r => for_acc (grant_book now new_id r) 0 (gr_book_ids r)
    end.

(** [_grant]: one session per event, committed or rolled back; what others
    committed meanwhile stays. *)
Definition consume now race new_id : handler BooksDb := fun ev d =>
  match (_ ← handle now race new_id ev; statement) d with
  | (Ok _, d') => (Ok tt, d')
  | (Raise e, _) => (Raise e, race d)
  end.

Definition register_consumers now race new_id (handlers : list (string * list (handler BooksDb))) :=
  foldl (fun hs k => on hs k (consume now race new_id)) handlers ENTITLEMENT_EVENTS.

(** ** Routes *)

(** [CatalogueService.get_by_id]: by default a published book. *)
Definition get_book (include_unpublished : bool) (k : uuid) : M BooksDb Book :=
  b ← gets (fun d => books d !! k);
  match b with
  | Some b =>
      if bool_decide (b_deleted_at b = None) && (include_unpublished || bool_decide (b_status b = BookStatus.PUBLISHED))
      then mret b else raise (app_error NotFoundError "")
  | None => raise (app_error NotFoundError "")
  end.

Definition check_access now user k : M BooksDb AccessOut := b ← get_book false k; access now user b.

Definition DOWNLOAD_PREFERENCE : list BookFormat.t := [BookFormat.PDF; BookFormat.EPUB; BookFormat.MOBI].

Record DownloadTicket := mkTicket { dt_book_id : uuid; dt_format : BookFormat.t; dt_url : string; dt_filename : string }.

Definition set_downloads n b := mkBook (b_id b) (b_slug b) (b_status b) (b_price_minor b) (b_discount_price_minor b)
  (b_formats b) (b_pdf_key b) (b_epub_key b) (b_mobi_key b) n (b_deleted_at b).

(** [storage.signed_download_url]: the URL of a key and a file name. *)
Definition download_book now (signed_url : string -> string -> result string) user k (format : option BookFormat.t)
    : M BooksDb DownloadTicket :=
  b ← get_book false k;
  _ ← require_download now user b;
  let chosen := match format with
                | Some f => Some f
                | None => List.find (fun f => bool_decide (format_value f ∈ available_formats b)) DOWNLOAD_PREFERENCE
                end in
  match chosen with
  | None => raise (app_error NotFoundError "")
  | Some f =>
      if negb (truthy (file_key_for f b)) then raise (app_error NotFoundError "")
      else
        let filename := append (b_slug b) (append "." (format_value f)) in
        url ← of_result (signed_url (default "" (file_key_for f b)) filename);
        _ ← modify (fun d => set_books (alter (fun b => set_downloads (b_download_count b + 1) b) k (books d)) d);
        mret (mkTicket (b_id b) f url filename)
  end.

Definition grant_entitlement now race eid (g : Grant) : M BooksDb Entitlement :=
  res ← grant now race eid g; mret (res : Entitlement * bool).1.

(** The call passes the entitlement by position to a keyword-only parameter. *)
Definition revoke_entitlement (eid : uuid) : M BooksDb unit :=
  _ ← get_entitlement eid; raise TypeErr.
End entitlements.

(** ** The abstract promise: a set of processed events and a set of live grants *)

Definition source_code (s : EntitlementSource.t) : nat :=
  match s with
  | EntitlementSource.PURCHASE => 0 | EntitlementSource.SUBSCRIPTION => 1 | EntitlementSource.FREE => 2
  | EntitlementSource.GIFT => 3 | EntitlementSource.ADMIN => 4
  end.
Definition source_of (n : nat) : option EntitlementSource.t :=
  match n with
  | 0%nat => Some EntitlementSource.PURCHASE | 1%nat => Some EntitlementSource.SUBSCRIPTION
  | 2%nat => Some EntitlementSource.FREE | 3%nat => Some EntitlementSource.GIFT
  | 4%nat => Some EntitlementSource.ADMIN | _ => None
  end.
#[export] Instance EntitlementSource_countable : Countable EntitlementSource.t.
Proof. apply (inj_countable source_code source_of). by intros []. Defined.

Record GrantSet := mkGrantSet { seen : gset string; live : gset grant_key }.

Definition live_keys (t : table Entitlement) : gset grant_key :=
  list_to_set (map key_of (select (fun e => bool_decide (e_revoked_at e = None)) t)).

Definition abstract (d : BooksDb) : GrantSet := mkGrantSet (dom (processed_events d)) (live_keys (entitlements d)).

Definition grantable (d : BooksDb) (k : uuid) : bool :=
  match books d !! k with
  | Some b => negb (bool_decide (is_Some (b_deleted_at b)) || bool_decide (b_status b = BookStatus.ARCHIVED))
  | None => false
  end.

Definition granted_keys (ok : uuid -> bool) (ev : Event) : gset grant_key :=
  match parse_grant (e_payload ev) with
  | Ok (Some r) => list_to_set (map (fun k => grant_key_of (purchase r k)) (List.filter ok (gr_book_ids r)))
  | _ => ∅
  end.

(** An event seen before changes nothing; a new one adds its grants. *)
Definition deliver (ok : uuid -> bool) (ev : Event) (s : GrantSet) : GrantSet :=
  if decide (Events.e_id ev ∈ seen s) then s
  else mkGrantSet ({[Events.e_id ev]} ∪ seen s) (live s ∪ granted_keys ok ev).

Record ent_ok (d : BooksDb) : Prop := {
  en_keyed : keyed (entitlements d);
  en_unique : unique_on key_col (entitlements d);
  en_usable : broken d = false;
}.

Lemma elem_of_live_keys k t : k ∈ live_keys t <-> exists i e, t !! i = Some e /\ e_revoked_at e = None /\ key_of e = k.
Proof.
  unfold live_keys. rewrite elem_of_list_to_set, list_elem_of_fmap. split.
  - intros (e & -> & [(i & Hi) Hr]%elem_of_select). apply bool_decide_eq_true in Hr. eauto.
  - intros (i & e & Hi & Hr & <-). exists e. split; [done|]. apply elem_of_select.
    split; [eauto|]. by apply bool_decide_eq_true.
Qed.

Lemma find_grant_spec k d : ent_ok d ->
  exists o, find_grant k d = (Ok o, d) /\
    match o with
    | Some e => entitlements d !! e_id e = Some e /\ key_of e = k
    | None => forall i e, entitlements d !! i = Some e -> key_of e <> k
    end.
Proof.
  intros [Hk Hu Hb]. unfold find_grant.
  rewrite (bind_ok _ _ d tt d) by (unfold statement; by rewrite Hb). unfold mbind, M_bind, gets, of_result.
  destruct (select (fun e => bool_decide (key_of e = k)) (entitlements d)) as [|e [|e' l]] eqn:E.
  - exists None. split; [done|]. intros i e Hi He.
    assert (Hin : e ∈ select (fun e => bool_decide (key_of e = k)) (entitlements d))
      by (apply elem_of_select; split; [eauto|by apply bool_decide_eq_true]).
    rewrite E in Hin. by apply not_elem_of_nil in Hin.
  - exists (Some e). split; [done|].
    assert (Hin : e ∈ select (fun e => bool_decide (key_of e = k)) (entitlements d)) by (rewrite E; left).
    apply elem_of_select_keyed in Hin as [Hi He]; [|done]. by apply bool_decide_eq_true in He.
  - exfalso. pose proof (NoDup_select (entitlements d) (fun e => bool_decide (key_of e = k)) Hk) as Hnd.
    rewrite E in Hnd.
    assert (H1 : e ∈ select (fun e => bool_decide (key_of e = k)) (entitlements d)) by (rewrite E; left).
    assert (H2 : e' ∈ select (fun e => bool_decide (key_of e = k)) (entitlements d)) by (rewrite E; right; left).
    apply elem_of_select_keyed in H1 as [H1 K1%bool_decide_eq_true], H2 as [H2 K2%bool_decide_eq_true]; [|done..].
    assert (Hid : row_id e = row_id e') by (apply (Hu _ _ e e' k H1 H2); unfold key_col; congruence).
    rewrite Hid in H1. assert (e = e') as -> by congruence. apply NoDup_cons in Hnd as [Hnd _]. apply Hnd. left.
Qed.

Lemma live_keys_known e (t : table Entitlement) : t !! e_id e = Some e -> e_revoked_at e = None -> live_keys t = live_keys t ∪ {[key_of e]}.
Proof.
  intros He Hr. assert (key_of e ∈ live_keys t) by (apply elem_of_live_keys; eauto).
  apply set_eq. intros k. rewrite elem_of_union, elem_of_singleton. split; [by left|by intros [?| ->]].
Qed.

Lemma live_keys_save e (t : table Entitlement) : t !! e_id e = None -> e_revoked_at e = None ->
  live_keys (save e t) = live_keys t ∪ {[key_of e]}.
Proof.
  intros Hf Hr. apply set_eq. intros k. rewrite elem_of_union, elem_of_singleton, !elem_of_live_keys. split.
  - intros (i & x & Hi & Hx & <-). rewrite lookup_save in Hi. case_decide; [injection Hi as <-; by right|left; eauto].
  - intros [(i & x & Hi & Hx & <-)| ->].
    + exists i, x. rewrite lookup_save_other; [done|]. intros Hid. change (row_id e) with (e_id e) in Hid. congruence.
    + exists (e_id e), e. split; [apply lookup_save_same|done].
Qed.

(** A row of the table after a grant was reinstated. *)
Lemma lookup_reinstate now e (t : table Entitlement) i x : t !! e_id e = Some e ->
  alter (reinstate now) (e_id e) t !! i = Some x ->
  exists w, t !! i = Some w /\ key_of x = key_of w /\ e_id x = e_id w /\
    (x = reinstate now e \/ i <> e_id e /\ x = w).
Proof.
  intros He (w & Hw & [[-> ->]|[Hne ->]])%lookup_alter_cases; [|exists w; eauto 10].
  assert (w = e) as -> by congruence. exists e. eauto 10.
Qed.

Lemma live_keys_reinstate now e (t : table Entitlement) : t !! e_id e = Some e -> is_Some (e_revoked_at e) ->
  live_keys (alter (reinstate now) (e_id e) t) = live_keys t ∪ {[key_of e]}.
Proof.
  intros He [r Hr]. apply set_eq. intros k. rewrite elem_of_union, elem_of_singleton, !elem_of_live_keys. split.
  - intros (i & x & (w & Hw & Kw & _ & [-> |[_ ->]])%lookup_reinstate & Hx & <-); [by right|left; eauto|done].
  - intros [(i & x & Hi & Hx & <-)| ->].
    + exists i, x. rewrite lookup_alter_ne; [done|]. intros <-. congruence.
    + exists (e_id e), (reinstate now e). by rewrite lookup_alter_eq, He.
Qed.

Lemma reinstate_ent_ok now e d : ent_ok d -> entitlements d !! e_id e = Some e ->
  ent_ok (set_entitlements (alter (reinstate now) (e_id e) (entitlements d)) d).
Proof.
  intros [Hk Hu Hbr] He. split; cbn; [..|done].
  - intros i x (w & Hw & _ & Hid & _)%lookup_reinstate; [|done]. unfold row_id, Entitlement_row. rewrite Hid. exact (Hk i w Hw).
  - intros i j x y k (w & Hw & Kw & _)%lookup_reinstate (v & Hv & Kv & _)%lookup_reinstate Hx Hy; [|done..].
    apply (Hu i j w v k Hw Hv); unfold key_col in *; congruence.
Qed.

Lemma insert_grant_ok e d : ent_ok d -> entitlements d !! e_id e = None ->
  (forall i w, entitlements d !! i = Some w -> key_of w <> key_of e) ->
  insert_new key_col e (entitlements d) = Ok (save e (entitlements d)).
Proof.
  intros [Hk Hu _] Hf Ho. unfold insert_new.
  rewrite bool_decide_eq_false_2 by (change (row_id e) with (e_id e); rewrite Hf; by intros [? ?]).
  unfold insert_unique. replace (conflicts key_col e (entitlements d)) with false; [done|]. symmetry.
  apply conflicts_false; [done|]. intros k i w Hx Hi Hw. exfalso.
  apply (Ho i w Hi). unfold key_col in *. congruence.
Qed.

(** What a grant leaves: a live row under the key asked for, every other row
    as it was. *)
Record granted (now : datetime) (eid : uuid) (g : Grant) (d : BooksDb) (e : Entitlement) (d' : BooksDb) : Prop := {
  gd_ok : ent_ok d';
  gd_books : books d' = books d;
  gd_seen : processed_events d' = processed_events d;
  gd_row : entitlements d' !! e_id e = Some e;
  gd_key : key_of e = grant_key_of g;
  gd_live : e_revoked_at e = None;
  gd_from : e = new_entitlement now eid g \/
    exists w, entitlements d !! e_id e = Some w /\ (e = w \/ e = reinstate now w);
  gd_rest : forall i, i <> e_id e -> entitlements d' !! i = entitlements d !! i;
  gd_keys : live_keys (entitlements d') = live_keys (entitlements d) ∪ {[grant_key_of g]};
}.

Lemma grant_spec now eid g d : ent_ok d -> is_Some (books d !! g_book g) -> entitlements d !! eid = None ->
  exists e c d', grant now id eid g d = (Ok (e, c), d') /\ granted now eid g d e d'.
Proof.
  intros Hok Hb Hf. destruct (find_grant_spec (grant_key_of g) d Hok) as (o & Hfind & Ho).
  unfold grant. rewrite (bind_ok _ _ _ _ _ Hfind). destruct o as [e|].
  - destruct Ho as [He Hkey]. destruct (bool_decide (is_Some (e_revoked_at e))) eqn:Hr.
    + apply bool_decide_eq_true in Hr.
      eexists _, false, _. split; [done|].
      constructor; cbn; rewrite ?lookup_alter_eq, ?He; try done.
      * by apply reinstate_ent_ok.
      * right. exists e. auto.
      * intros i Hne. by apply lookup_alter_ne.
      * rewrite <- Hkey. by apply live_keys_reinstate.
    + apply bool_decide_eq_false, eq_None_not_Some in Hr. exists e, false, d. split; [done|].
      constructor; try done; [right; exists e; auto|rewrite <- Hkey; by apply live_keys_known].
  - set (e := new_entitlement now eid g).
    pose proof (insert_grant_ok e d Hok Hf Ho) as Hc.
    exists e, true, (set_entitlements (save e (entitlements d)) d). split.
    { erewrite bind_ok by reflexivity. unfold add_then_savepoint. erewrite bind_ok; [reflexivity|]. unfold add_entitlement, id.
      rewrite bool_decide_eq_false_2 by (intros E; cbn in E; rewrite E in Hb; by destruct Hb). by rewrite Hc. }
    constructor; try done.
    + destruct Hok as [Hk Hu ?]. split; [by apply keyed_save| |done]. by eapply insert_unique_preserves; [..|eapply insert_new_ok].
    + apply lookup_save_same.
    + by left.
    + intros i Hne. apply lookup_save_other. by intros <-.
    + by apply (live_keys_save e).
Qed.

(** A property of rows that a new grant has and a reinstated one keeps. *)
Definition all_rows (P : Entitlement -> Prop) (d : BooksDb) : Prop := forall i e, entitlements d !! i = Some e -> P e.

Lemma granted_rows (P : Entitlement -> Prop) now eid g d e d' : (forall w, P w -> P (reinstate now w)) ->
  P (new_entitlement now eid g) -> granted now eid g d e d' -> all_rows P d -> all_rows P d'.
Proof.
  intros Hre Hnew Hg Hall i x Hx. destruct (decide (i = e_id e)) as [->|Hne].
  - rewrite (gd_row _ _ _ _ _ _ Hg) in Hx. injection Hx as <-.
    destruct (gd_from _ _ _ _ _ _ Hg) as [-> |(w & Hw & [-> | ->])]; [done|by eapply Hall|apply Hre; by eapply Hall].
  - rewrite (gd_rest _ _ _ _ _ _ Hg i Hne) in Hx. by eapply Hall.
Qed.

(** Ids drawn for other books stay unused. *)
Lemma granted_fresh now eid g d e d' i : granted now eid g d e d' -> i <> eid ->
  entitlements d !! i = None -> entitlements d' !! i = None.
Proof.
  intros Hg Hi Hn. destruct (decide (i = e_id e)) as [->|Hne]; [|by rewrite (gd_rest _ _ _ _ _ _ Hg i Hne)].
  destruct (gd_from _ _ _ _ _ _ Hg) as [-> |(w & Hw & _)]; [done|congruence].
Qed.

Lemma load_grantable_spec k d : exists o, load_grantable_book k d = (Ok o, d) /\
  if grantable d k then is_Some o /\ is_Some (books d !! k) else o = None.
Proof.
  unfold load_grantable_book, grantable, gets. destruct (books d !! k) as [b|]; [|by eexists].
  destruct (bool_decide (is_Some (b_deleted_at b)) || bool_decide (b_status b = BookStatus.ARCHIVED)); eexists; cbn; eauto.
Qed.

Definition purchase_keys (ok : uuid -> bool) (r : GrantRequest) (ids : list uuid) : gset grant_key :=
  list_to_set (map (fun k => grant_key_of (purchase r k)) (List.filter ok ids)).

(** What [grant_book], or a loop of it, leaves. *)
Record books_granted (P : Entitlement -> Prop) (r : GrantRequest) (ids : list uuid) (d d' : BooksDb) : Prop := {
  bg_ok : ent_ok d';
  bg_books : books d' = books d;
  bg_seen : processed_events d' = processed_events d;
  bg_keys : live_keys (entitlements d') = live_keys (entitlements d) ∪ purchase_keys (grantable d) r ids;
  bg_rows : all_rows P d';
}.

Lemma grantable_books d d' : books d' = books d -> grantable d' = grantable d.
Proof. unfold grantable. by intros ->. Qed.

Section consumer.
Context (now : datetime) (new_id : uuid -> uuid) (P : Entitlement -> Prop) (r : GrantRequest).
Context (Hre : forall w, P w -> P (reinstate now w)).
Context (Hnew : forall k, P (new_entitlement now (new_id k) (purchase r k))).

Lemma grant_book_spec acc k d : ent_ok d -> entitlements d !! new_id k = None -> all_rows P d ->
  exists n d', grant_book now new_id r acc k d = (Ok n, d') /\ books_granted P r [k] d d' /\
    (forall i, i <> new_id k -> entitlements d !! i = None -> entitlements d' !! i = None).
Proof.
  intros Hok Hf Hall. destruct (load_grantable_spec k d) as (o & Hl & Ho). unfold grant_book. rewrite (bind_ok _ _ _ _ _ Hl).
  destruct (grantable d k) eqn:Hg.
  - destruct Ho as [[b ->] Hb]. destruct (grant_spec now (new_id k) (purchase r k) d Hok Hb Hf) as (e & c & d' & Hrun & Hd).
    rewrite (bind_ok _ _ _ _ _ Hrun). eexists _, d'. split; [done|]. split; [|by eauto using granted_fresh].
    constructor; try by eapply Hd.
    + rewrite (gd_keys _ _ _ _ _ _ Hd). unfold purchase_keys. cbn. rewrite Hg. cbn. by rewrite union_empty_r_L.
    + by eapply granted_rows.
  - subst o. exists acc, d. split; [done|]. split; [|done]. constructor; try done.
    unfold purchase_keys. cbn. rewrite Hg. cbn. by rewrite union_empty_r_L.
Qed.

Lemma grant_books_spec ids : NoDup (map new_id ids) -> forall acc d, ent_ok d ->
  (forall k, k ∈ ids -> entitlements d !! new_id k = None) -> all_rows P d ->
  exists n d', for_acc (grant_book now new_id r) acc ids d = (Ok n, d') /\ books_granted P r ids d d'.
Proof.
  induction ids as [|k ids IH]; intros Hnd acc d Hok Hf Hall; cbn [for_acc].
  - exists acc, d. split; [done|]. constructor; try done. unfold purchase_keys. cbn. by rewrite union_empty_r_L.
  - apply NoDup_cons in Hnd as [Hk Hnd].
    destruct (grant_book_spec acc k d Hok ltac:(apply Hf; left) Hall) as (n & d1 & Hrun & Hd1 & Hfresh).
    rewrite (bind_ok _ _ _ _ _ Hrun).
    destruct (IH Hnd n d1) as (n' & d2 & Hrun2 & Hd2); [apply Hd1| |apply Hd1|].
    { intros k' Hk'. apply Hfresh; [|apply Hf; by right]. intros E. apply Hk. rewrite <- E. by apply list_elem_of_fmap_2. }
    exists n', d2. split; [done|]. pose proof (grantable_books _ _ (bg_books _ _ _ _ _ Hd1)) as Hg.
    constructor; try by eapply Hd2.
    + by rewrite (bg_books _ _ _ _ _ Hd2), (bg_books _ _ _ _ _ Hd1).
    + by rewrite (bg_seen _ _ _ _ _ Hd2), (bg_seen _ _ _ _ _ Hd1).
    + rewrite (bg_keys _ _ _ _ _ Hd2), (bg_keys _ _ _ _ _ Hd1), Hg. unfold purchase_keys. cbn.
      destruct (grantable d k); cbn; rewrite ?union_empty_r_L, ?union_assoc_L; done.
Qed.
End consumer.

(** The ids drawn for the rows of an event are distinct and unused. *)
Definition draws (new_id : uuid -> uuid) (d : BooksDb) (ev : Event) : Prop :=
  forall r, parse_grant (e_payload ev) = Ok (Some r) ->
    NoDup (map new_id (gr_book_ids r)) /\ forall k, k ∈ gr_book_ids r -> entitlements d !! new_id k = None.

Definition is_object (v : json) : bool := match v with JObj _ => true | _ => false end.

Lemma parse_grant_object v : is_object v = true -> exists o, parse_grant v = Ok o.
Proof. destruct v as [| | | | |fields]; try done. intros _. unfold parse_grant. eexists. reflexivity. Qed.

(** The three ways a claim ends: seen before, lost to another worker (and the
    transaction with it), or won. *)
Lemma claim_spec race ev d : claim race ev d =
  if decide (Events.e_id ev ∈ seen (abstract d)) then (Ok false, d)
  else if decide (Events.e_id ev ∈ seen (abstract (race d))) then (Ok false, set_broken true (race d))
  else (Ok true, set_processed (<[Events.e_id ev := e_type ev]> (processed_events (race d))) (race d)).
Proof.
  unfold claim. erewrite bind_ok by reflexivity. cbv beta. unfold abstract. cbn [seen].
  destruct (processed_events d !! Events.e_id ev) as [t|] eqn:E.
  - by rewrite decide_True by (apply elem_of_dom; eauto).
  - rewrite decide_False by (by apply not_elem_of_dom). erewrite bind_ok by reflexivity.
    unfold add_then_savepoint, add_processed, mbind, M_bind.
    destruct (processed_events (race d) !! Events.e_id ev) as [t'|] eqn:E'.
    + by rewrite decide_True by (apply elem_of_dom; eauto).
    + by rewrite decide_False by (by apply not_elem_of_dom).
Qed.

Lemma abstract_eq d g : dom (processed_events d) = seen g -> live_keys (entitlements d) = live g -> abstract d = g.
Proof. intros. destruct g. unfold abstract. cbn in *. congruence. Qed.

Lemma abstract_ext g g' : (forall x, x ∈ seen g <-> x ∈ seen g') -> (forall k, k ∈ live g <-> k ∈ live g') -> g = g'.
Proof. destruct g, g'; cbn. intros H1%set_eq H2%set_eq. by subst. Qed.

Section delivery.
Context (now : datetime) (race : BooksDb -> BooksDb) (new_id : uuid -> uuid) (ev : Event) (d : BooksDb).

Lemma consume_seen : broken d = false -> Events.e_id ev ∈ seen (abstract d) -> consume now race new_id ev d = (Ok tt, d).
Proof.
  intros Hb Hs. pose proof (claim_spec race ev d) as Hc. rewrite decide_True in Hc by done.
  unfold consume, handle, statement. erewrite bind_ok by (rewrite (bind_ok _ _ _ _ _ Hc); reflexivity). by rewrite Hb.
Qed.

Lemma consume_lost : Events.e_id ev ∉ seen (abstract d) -> Events.e_id ev ∈ seen (abstract (race d)) ->
  consume now race new_id ev d = (Raise PendingRollbackErr, race d).
Proof.
  intros Hs Hr. pose proof (claim_spec race ev d) as Hc. rewrite decide_False, decide_True in Hc by done.
  unfold consume, handle, statement. by erewrite bind_ok by (rewrite (bind_ok _ _ _ _ _ Hc); reflexivity).
Qed.

Definition claimed_db : BooksDb :=
  set_processed (<[Events.e_id ev := e_type ev]> (processed_events (race d))) (race d).

Lemma handle_won : Events.e_id ev ∉ seen (abstract d) -> Events.e_id ev ∉ seen (abstract (race d)) ->
  handle now race new_id ev d =
    (r ← of_result (parse_grant (e_payload ev));
     match r with None => mret 0 | Some r => for_acc (grant_book now new_id r) 0 (gr_book_ids r) end) claimed_db.
Proof.
  intros Hs Hr. pose proof (claim_spec race ev d) as Hc. rewrite !decide_False in Hc by done.
  unfold handle. by rewrite (bind_ok _ _ _ _ _ Hc).
Qed.

Lemma consume_malformed : Events.e_id ev ∉ seen (abstract d) -> Events.e_id ev ∉ seen (abstract (race d)) ->
  is_object (e_payload ev) = false -> consume now race new_id ev d = (Raise AttributeErr, race d).
Proof.
  intros Hs Hr Hobj. unfold consume. pose proof (handle_won Hs Hr) as Hrun.
  destruct (e_payload ev); try done; by rewrite (bind_raise _ _ _ _ _ Hrun).
Qed.

(** What a claimed, well-formed event does. *)
Lemma consume_won (P : Entitlement -> Prop) :
  Events.e_id ev ∉ seen (abstract d) -> Events.e_id ev ∉ seen (abstract (race d)) ->
  ent_ok (race d) -> draws new_id (race d) ev -> all_rows P (race d) ->
  is_object (e_payload ev) = true -> (forall w, P w -> P (reinstate now w)) ->
  (forall r, parse_grant (e_payload ev) = Ok (Some r) -> forall k, P (new_entitlement now (new_id k) (purchase r k))) ->
  exists d', consume now race new_id ev d = (Ok tt, d') /\ ent_ok d' /\ all_rows P d' /\ books d' = books (race d) /\
    abstract d' = deliver (grantable (race d)) ev (abstract (race d)).
Proof.
  intros Hs Hr Hok Hdraw Hall Hobj Hre Hnew. destruct (parse_grant_object _ Hobj) as [o Ho].
  pose proof (handle_won Hs Hr) as Hrun. unfold consume, deliver. rewrite (decide_False (P := _ ∈ seen _)) by done.
  assert (Hd1 : ent_ok claimed_db) by (by destruct Hok).
  rewrite Ho in Hrun. unfold granted_keys. rewrite Ho. destruct o as [r|].
  - destruct (Hdraw r Ho) as [Hnd Hf].
    destruct (grant_books_spec now new_id P r Hre (Hnew r Ho) _ Hnd 0 claimed_db Hd1 Hf Hall) as (n & d2 & Hloop & Hd2).
    assert (Hh : handle now race new_id ev d = (Ok n, d2)) by (rewrite Hrun; erewrite bind_ok by reflexivity; exact Hloop).
    exists d2. rewrite (bind_ok _ _ _ _ _ Hh). destruct Hd2 as [Hok2 Hb2 Hp2 Hk2 Hall2]. unfold statement.
    rewrite (en_usable _ Hok2). split; [done|]. split; [done|]. split; [done|]. split; [done|].
    apply abstract_eq; cbn; [|done]. rewrite Hp2. cbn. by rewrite dom_insert_L.
  - assert (Hh : handle now race new_id ev d = (Ok 0, claimed_db)) by done.
    exists claimed_db. rewrite (bind_ok _ _ _ _ _ Hh). unfold statement. rewrite (en_usable _ Hd1).
    split; [done|]. split; [done|]. split; [done|]. split; [done|].
    apply abstract_eq; cbn; [by rewrite dom_insert_L|by rewrite union_empty_r_L].
Qed.
End delivery.

(** ** What the consumer promises *)

(** Handling a delivery that no other worker interferes with. *)
Lemma consume_alone now new_id ev d d' (P : Entitlement -> Prop) : ent_ok d -> draws new_id d ev -> all_rows P d ->
  (forall w, P w -> P (reinstate now w)) ->
  (forall r, parse_grant (e_payload ev) = Ok (Some r) -> forall k, P (new_entitlement now (new_id k) (purchase r k))) ->
  consume now id new_id ev d = (Ok tt, d') ->
  ent_ok d' /\ all_rows P d' /\ books d' = books d /\ abstract d' = deliver (grantable d) ev (abstract d).
Proof.
  intros Hok Hdraw Hall Hre Hnew Hrun. destruct (decide (Events.e_id ev ∈ seen (abstract d))) as [Hs|Hs].
  - rewrite consume_seen in Hrun by (done || apply Hok). injection Hrun as <-. unfold deliver. by rewrite decide_True.
  - destruct (is_object (e_payload ev)) eqn:Hobj; [|by rewrite consume_malformed in Hrun].
    destruct (consume_won now id new_id ev d P) as (d1 & Hrun' & H); try done.
    rewrite Hrun in Hrun'. by injection Hrun' as <-.
Qed.

(** Events handled one after the other, each with its clock and its draws. *)
Inductive consumed : list Event -> BooksDb -> BooksDb -> Prop :=
  | consumed_nil d : consumed [] d d
  | consumed_cons now new_id ev evs d d1 d2 : draws new_id d ev -> consume now id new_id ev d = (Ok tt, d1) ->
      consumed evs d1 d2 -> consumed (ev :: evs) d d2.

Lemma consumed_deliver evs d d' : consumed evs d d' -> ent_ok d ->
  abstract d' = foldl (fun s ev => deliver (grantable d) ev s) (abstract d) evs.
Proof.
  induction 1 as [|now new_id ev evs d d1 d2 Hdraw Hrun _ IH]; intros Hok; [done|].
  destruct (consume_alone now new_id ev d d1 (fun _ => True) Hok Hdraw) as (Hok1 & _ & Hb & Ha); try done.
  cbn [foldl]. rewrite <- Ha, IH by done. by rewrite (grantable_books _ _ Hb).
Qed.

(** The id of an event identifies it. *)
Definition ids_identify (evs : list Event) : Prop :=
  forall a b, a ∈ evs -> b ∈ evs -> Events.e_id a = Events.e_id b -> a = b.

Lemma deliver_all_seen ok evs s x :
  x ∈ seen (foldl (fun s ev => deliver ok ev s) s evs) <-> x ∈ seen s \/ exists ev, ev ∈ evs /\ x = Events.e_id ev.
Proof.
  revert s. induction evs as [|ev evs IH]; intros s; cbn; [set_solver|]. rewrite IH. clear IH. unfold deliver.
  destruct (decide (Events.e_id ev ∈ seen s)) as [Hs|Hs]; cbn.
  - split; [intros [?|(w & ? & ->)]; [by left|right; exists w; set_solver]|].
    intros [?|(w & [-> |?]%elem_of_cons & ->)]; eauto.
  - rewrite elem_of_union, elem_of_singleton. split.
    + intros [[-> |?]|(w & ? & ->)]; [right; exists ev; set_solver|by left|right; exists w; set_solver].
    + intros [?|(w & [-> |?]%elem_of_cons & ->)]; eauto.
Qed.

Lemma deliver_all_live ok evs s k : ids_identify evs ->
  k ∈ live (foldl (fun s ev => deliver ok ev s) s evs) <->
  k ∈ live s \/ exists ev, ev ∈ evs /\ Events.e_id ev ∉ seen s /\ k ∈ granted_keys ok ev.
Proof.
  revert s. induction evs as [|ev evs IH]; intros s Hid; cbn; [set_solver|].
  rewrite IH by (intros a b Ha Hb; apply Hid; by right). unfold deliver.
  destruct (decide (Events.e_id ev ∈ seen s)) as [Hs|Hs]; cbn.
  - split; [intros [?|(w & ? & ? & ?)]; [by left|right; exists w; set_solver]|].
    intros [?|(w & [-> |?]%elem_of_cons & ? & ?)]; [by left|done|eauto].
  - rewrite elem_of_union. split.
    + intros [[?|?]|(w & ? & Hw & ?)]; [by left|right; exists ev; set_solver|right; exists w; set_solver].
    + intros [?|(w & Hin & Hw & Hk)]; [by left; left|].
      destruct (decide (Events.e_id w = Events.e_id ev)) as [E|Hne].
      * apply Hid in E as ->; [by left; right|done|by left].
      * right. exists w. apply elem_of_cons in Hin as [->|Hin]; [done|]. set_solver.
Qed.

(** however often and in whatever order the events of a stream reach the
    consumer, the events processed and the grants in force come out the same. *)
Theorem deliveries_any_order evs evs' d d1 d2 : ent_ok d -> consumed evs d d1 -> consumed evs' d d2 ->
  (forall ev, ev ∈ evs <-> ev ∈ evs') -> ids_identify evs -> abstract d1 = abstract d2.
Proof.
  intros Hok H1 H2 Hsame Hid. assert (Hid' : ids_identify evs') by (intros a b; rewrite <- !Hsame; apply Hid).
  rewrite (consumed_deliver _ _ _ H1 Hok), (consumed_deliver _ _ _ H2 Hok).
  set (f := fun s ev => deliver (grantable d) ev s). apply abstract_ext; intros x; subst f.
  - rewrite !deliver_all_seen. split; intros [?|(w & Hw%Hsame & ->)]; eauto.
  - rewrite !deliver_all_live by done. split; intros [?|(w & Hw%Hsame & ?)]; eauto.
Qed.


(** ** From a settled order to the reader's shelf *)

(** A row gives what it says; one bought with the order has no end. *)
Definition well_granted (ref : string) (e : Entitlement) : Prop :=
  e_can_read e = true /\
  (e_source e = EntitlementSource.PURCHASE -> e_external_ref e = ref -> e_expires_at e = None /\ e_can_download e = true).

Lemma stronger_total a b : stronger a b = true \/ stronger b a = true.
Proof. unfold stronger. destruct (e_can_download a), (e_can_download b); cbn; auto; rewrite !Z.leb_le; lia. Qed.

Lemma stronger_trans a b c : stronger a b = true -> stronger b c = true -> stronger a c = true.
Proof.
  unfold stronger. destruct (e_can_download a), (e_can_download b), (e_can_download c); cbn; try done;
    rewrite !Z.leb_le; lia.
Qed.

(** A live purchase opens the book, whatever other grants there are. *)
Lemma purchase_opens_book frb now user (b : Book) ref d : all_rows (well_granted ref) d ->
  (user, b_id b, EntitlementSource.PURCHASE, ref) ∈ live_keys (entitlements d) ->
  exists a, access frb now user b d = (Ok a, d) /\ has_access a = true /\ can_download a = true.
Proof.
  intros Hall (i & e & He & Hr & [= <- Hb Hs Href])%elem_of_live_keys.
  destruct (Hall i e He) as [_ Hlast]. destruct (Hlast Hs Href) as [Hx Hdl].
  unfold access, find_active. erewrite bind_ok by reflexivity. cbv beta.
  set (P := fun w => bool_decide (e_user_id w = e_user_id e) && bool_decide (e_book_id w = b_id b) && active now w).
  assert (Hin : e ∈ select P (entitlements d)).
  { apply elem_of_select. split; [eauto|]. unfold P, active. by rewrite Hr, Hx, Hb, !bool_decide_eq_true_2. }
  destruct (first_by stronger (select P (entitlements d))) as [w|] eqn:E.
  - pose proof (first_by_least _ _ _ _ stronger_total stronger_trans E Hin) as Hst.
    apply first_by_elem, elem_of_select in E as [[j Hj] _]. destruct (Hall j w Hj) as [Hread _].
    eexists. split; [done|]. split; [done|]. cbn. unfold stronger in Hst. rewrite Hdl in Hst.
    by destruct (e_can_download w).
  - apply first_by_nil in E. rewrite E in Hin. by apply not_elem_of_nil in Hin.
Qed.

(** Rows stay well granted while events are consumed. *)
Lemma consumed_well_granted ref evs d d' : consumed evs d d' -> ent_ok d -> all_rows (well_granted ref) d ->
  all_rows (well_granted ref) d'.
Proof.
  induction 1 as [|now new_id ev evs d d1 d2 Hdraw Hrun _ IH]; intros Hok Hall; [done|].
  destruct (consume_alone now new_id ev d d1 (well_granted ref) Hok Hdraw Hall) as (Hok1 & Hall1 & _); try done.
  by apply IH.
Qed.

(** What the settled order says to the consumer. *)
Lemma announced_grant pub r t v : (t, v) ∈ announce_paid pub r ->
  let o := sr_order r in
  (o_id o < 2 ^ 128)%N -> (o_user_id o < 2 ^ 128)%N -> (forall i, i ∈ o_items o -> (it_book_id i < 2 ^ 128)%N) ->
  forall i, i ∈ o_items o ->
  exists g, parse_grant v = Ok (Some g) /\ gr_user_id g = o_user_id o /\
    gr_external_ref g = string_of_uuid (o_id o) /\ it_book_id i ∈ gr_book_ids g.
Proof.
  intros Hin o Hoid Huser Hbooks i Hi. unfold announce_paid in Hin. destruct pub as [accept|]; [|by apply not_elem_of_nil in Hin].
  destruct (negb (sr_newly_paid r)); [by apply not_elem_of_nil in Hin|]. apply publish_all_elem in Hin.
  assert (exists rest, v = JObj (order_event_payload o ++ rest)) as [rest ->].
  { apply elem_of_cons in Hin as [[= _ ->]|[[= _ ->]|?%not_elem_of_nil]%elem_of_cons]; [| |done]; by eexists. }
  assert (Hk : it_book_id i ∈ collect_book_ids (JObj (order_event_payload o ++ rest))).
  { unfold collect_book_ids. apply elem_of_fromkeys, list_elem_of_omap. exists (JStr (string_of_uuid (it_book_id i))).
    split; [|by apply uuid_roundtrip, Hbooks]. apply elem_of_app. left. apply list_elem_of_fmap. by exists i. }
  set (v := JObj _) in *.
  assert (Hparse : parse_grant v = Ok match as_uuid (JStr (string_of_uuid (o_user_id o))) with
    | None => None
    | Some u => match collect_book_ids v with
                | [] => None
                | ids => Some (mkGrantRequest u ids (external_ref_of v) (as_uuid (jget "order_id" v)))
                end
    end) by reflexivity.
  assert (Href : external_ref_of v = string_of_uuid (o_id o)).
  { change (external_ref_of v) with (stake 255 (jstr (jor (JStr (string_of_uuid (o_id o)))
      (jor (jget "payment_id" v) (jor (jget "reference" v) (JStr "")))))).
    pose proof (string_of_uuid_length (o_id o)) as Hlen. unfold jor at 1, jtruthy.
    destruct (string_of_uuid (o_id o)) as [|c s] eqn:Es; [done|]. change (negb (String.eqb (String c s) "")) with true.
    cbv iota. cbn [jstr]. apply stake_all. lia. }
  unfold as_uuid at 1 in Hparse. cbn [jstr] in Hparse. rewrite uuid_roundtrip in Hparse by done.
  destruct (collect_book_ids v) as [|k ks] eqn:Ec; [by apply not_elem_of_nil in Hk|].
  eexists. split; [exact Hparse|]. done.
Qed.


(** ** Concrete runs *)

Definition sample_book : Book :=
  mkBook 11 "the-book" BookStatus.PUBLISHED 20000 None ["pdf"] (Some "books/11.pdf") None None 0 None.
Definition other_book : Book :=
  mkBook 12 "the-other-book" BookStatus.PUBLISHED 20000 None ["pdf"] (Some "books/12.pdf") None None 0 None.
Definition shop : BooksDb := mkBooks (save other_book (save sample_book ∅)) ∅ ∅ false.

(** Reader 7 buys books 11 and 12 with order 5; the event comes under two ids. *)
Definition bought (eid : string) : Event :=
  mkEnvelope "order.paid" (JObj [("order_id", JStr (string_of_uuid 5)); ("user_id", JStr (string_of_uuid 7));
    ("book_ids", JList [JStr (string_of_uuid 11); JStr (string_of_uuid 12)])]) eid "payment" None "" 1.
(** Reader 8 buys book 12 with order 6. *)
Definition bought_other : Event :=
  mkEnvelope "order.paid" (JObj [("order_id", JStr (string_of_uuid 6)); ("user_id", JStr (string_of_uuid 8));
    ("items", JList [JObj [("book_id", JStr (string_of_uuid 12))]])]) "e-9" "payment" None "" 1.

Definition draw (n : N) (k : uuid) : uuid := (n + k)%N.
Definition received (n : N) (ev : Event) (d : BooksDb) : BooksDb := (consume (Z.of_N n) id (draw n) ev d).2.

Lemma shop_ok : ent_ok shop.
Proof. split; [apply keyed_empty|apply unique_empty|done]. Qed.

Lemma bought_draws n eid d : entitlements d !! draw n 11 = None -> entitlements d !! draw n 12 = None ->
  draws (draw n) d (bought eid).
Proof.
  intros H1 H2 r Hr. vm_compute in Hr. injection Hr as <-. split.
  - apply NoDup_cons. split; [|apply NoDup_singleton]. rewrite list_elem_of_singleton. unfold draw. lia.
  - intros k [-> |[-> |?%not_elem_of_nil]%elem_of_cons]%elem_of_cons; done.
Qed.

(** Another replica handles the same event between the look-up and the insert. *)
Definition replica (d : BooksDb) : BooksDb := received 500 (bought "e-1") d.
Lemma replica_ok : ent_ok (replica shop).
Proof.
  assert (Hd : draws (draw 500) shop (bought "e-1")) by (by apply bought_draws).
  refine (proj1 (consume_alone 500 (draw 500) (bought "e-1") shop (replica shop) (fun _ => True) shop_ok Hd _ _ _ _));
    [done..|by vm_compute].
Qed.


Lemma bought_other_draws n d : entitlements d !! draw n 12 = None -> draws (draw n) d bought_other.
Proof.
  intros H r Hr. vm_compute in Hr. injection Hr as <-. split; [apply NoDup_singleton|].
  by intros k ->%list_elem_of_singleton.
Qed.

Lemma shop_stream : consumed [bought "e-1"; bought_other; bought "e-1"] shop
  (received 300 (bought "e-1") (received 200 bought_other (received 100 (bought "e-1") shop))).
Proof.
  eapply (consumed_cons 100 (draw 100)); [by apply bought_draws|by vm_compute|].
  eapply (consumed_cons 200 (draw 200)); [by apply bought_other_draws|by vm_compute|].
  eapply (consumed_cons 300 (draw 300)); [by apply bought_draws|by vm_compute|apply consumed_nil].
Qed.

Lemma shop_ids : ids_identify [bought "e-1"; bought_other; bought "e-1"].
Proof.
  intros a b Ha Hb. repeat (apply elem_of_cons in Ha as [-> |Ha]); try by apply not_elem_of_nil in Ha.
  all: repeat (apply elem_of_cons in Hb as [-> |Hb]); try by apply not_elem_of_nil in Hb.
  all: by vm_compute.
Qed.

Lemma deliveries_any_order_witness :
  let there := received 300 (bought "e-1") (received 200 bought_other (received 100 (bought "e-1") shop)) in
  let back := received 200 (bought "e-1") (received 100 bought_other shop) in
  abstract there = abstract back /\ size (live (abstract back)) = 3%nat.
Proof.
  intros there back. split; [|by vm_compute].
  refine (deliveries_any_order [bought "e-1"; bought_other; bought "e-1"] [bought_other; bought "e-1"] shop there back
    shop_ok shop_stream _ _ shop_ids).
  - eapply (consumed_cons 100 (draw 100)); [by apply bought_other_draws|by vm_compute|].
    eapply (consumed_cons 200 (draw 200)); [by apply bought_draws|by vm_compute|apply consumed_nil].
  - intros ev. rewrite !elem_of_cons. tauto.
Defined.

(** The order of Orders.v, settled, and the event it announces. *)
Definition settled_order : SettlementResult := mkSettlement (set_paid 60 sample_order) None None true.
Definition announced : Event :=
  mkEnvelope "order.paid" (JObj (order_event_payload (set_paid 60 sample_order))) "e-1" "payment" None "" 1.


(** Two replicas of the consumer take one event, or two purchases of a book
    meet: the loser's transaction is broken, although its code goes on. *)
Example losing_a_race_breaks_the_transaction :
  (claim replica (bought "e-1") shop).1 = Ok false /\
  (consume 50 replica (draw 100) (bought "e-1") shop).1 = Raise PendingRollbackErr /\
  (grant_entitlement 50 replica 900 (mkGrant 7 11 EntitlementSource.PURCHASE (string_of_uuid 5) None None true None) shop).1
    = Raise PendingRollbackErr.
Proof. vm_compute. auto. Qed.

(** Taking access back fails before anything is changed. *)
Example revocation_never_happens :
  revoke_entitlement 111 (received 100 (bought "e-1") shop) = (Raise TypeErr, received 100 (bought "e-1") shop).
Proof. vm_compute. reflexivity. Qed.

(** A refunded order reaches no handler of the books service. *)
Example refund_reaches_nobody :
  map fst (register_consumers 0 id (draw 100) []) = ["payment.succeeded"; "order.paid"].
Proof. reflexivity. Qed.

(** A buyer loses a book when it is unpublished. *)
Definition unpublish (b : Book) : Book := mkBook (b_id b) (b_slug b) BookStatus.UNPUBLISHED (b_price_minor b)
  (b_discount_price_minor b) (b_formats b) (b_pdf_key b) (b_epub_key b) (b_mobi_key b) (b_download_count b) (b_deleted_at b).
Example unpublished_book_is_lost :
  let d := received 100 (bought "e-1") shop in
  (exists a, (check_access false 200 7 11 d).1 = Ok a /\ has_access a = true) /\
  (check_access false 200 7 11 (set_books (alter unpublish 11%N (books d)) d)).1 = Raise (app_error NotFoundError "").
Proof. vm_compute. eauto. Qed.

(** A grant that has run out is returned as it is when it is made again. *)
Example expired_grant_not_renewed :
  let g expires := mkGrant 7 11 EntitlementSource.ADMIN "" None expires true None in
  let d := (grant_entitlement 50 id 900 (g (Some 60)) shop).2 in
  exists e, (grant_entitlement 70 id 901 (g None) d).1 = Ok e /\ e_expires_at e = Some 60 /\
    (access false 71 7 sample_book (grant_entitlement 70 id 901 (g None) d).2).1 = Ok (mkAccess 11 false false None None).
Proof. vm_compute. eauto. Qed.
