(* ===== verification/Jobs.v ===== *)
(** * Pipeline jobs (apps/automation/services/jobs.py, services/events.py, models.py)

    The rows of a job and of its stages, every operation of [JobService], and
    the consumer that queues a job for a new book.  An operation takes the job
    as the session holds it and writes the columns it assigns to the row in the
    database, which another session may have changed meanwhile. *)

From S2P Require Import Prelude Store Triples Json PaymentModels Events.

Module Stage.
Inductive t := COLLECT | VALIDATE | EXTRACT_METADATA | GENERATE_DESCRIPTION | SEO | TAGS | THUMBNAIL | CONVERT
  | COMPRESS | WATERMARK | UPLOAD | INDEX | PUBLISH.
End Stage.
Module StageStatus.
Inductive t := PENDING | RUNNING | SUCCEEDED | FAILED | SKIPPED.
End StageStatus.
Module JobStatus.
Inductive t := QUEUED | RUNNING | SUCCEEDED | FAILED | RETRYING | DEAD_LETTERED | CANCELLED.
End JobStatus.
Module SourceKind.
Inductive t := UPLOAD | IMPORT | EVENT | MANUAL | REPROCESS.
End SourceKind.

Definition PIPELINE : list Stage.t :=
  [Stage.COLLECT; Stage.VALIDATE; Stage.EXTRACT_METADATA; Stage.GENERATE_DESCRIPTION; Stage.SEO; Stage.TAGS;
   Stage.THUMBNAIL; Stage.CONVERT; Stage.COMPRESS; Stage.WATERMARK; Stage.UPLOAD; Stage.INDEX; Stage.PUBLISH].

(** The index of a stage in the pipeline. *)
Definition POSITION (s : Stage.t) : nat :=
  match s with
  | Stage.COLLECT => 0 | Stage.VALIDATE => 1 | Stage.EXTRACT_METADATA => 2 | Stage.GENERATE_DESCRIPTION => 3
  | Stage.SEO => 4 | Stage.TAGS => 5 | Stage.THUMBNAIL => 6 | Stage.CONVERT => 7 | Stage.COMPRESS => 8
  | Stage.WATERMARK => 9 | Stage.UPLOAD => 10 | Stage.INDEX => 11 | Stage.PUBLISH => 12
  end.

#[export] Instance Stage_eq_dec : EqDecision Stage.t.
Proof. solve_decision. Defined.
#[export] Instance Stage_countable : Countable Stage.t.
Proof. apply (inj_countable POSITION (fun n => PIPELINE !! n)). by intros []. Defined.
#[export] Instance StageStatus_eq_dec : EqDecision StageStatus.t.
Proof. solve_decision. Defined.
#[export] Instance JobStatus_eq_dec : EqDecision JobStatus.t.
Proof. solve_decision. Defined.

Definition REQUIRED_STAGES : list Stage.t :=
  [Stage.COLLECT; Stage.VALIDATE; Stage.EXTRACT_METADATA; Stage.UPLOAD; Stage.INDEX; Stage.PUBLISH].
Definition AI_STAGES : list Stage.t := [Stage.GENERATE_DESCRIPTION; Stage.SEO; Stage.TAGS].

Record JobOptions := mkOptions {
  only_stages : option (list Stage.t);
  skip_stages : list Stage.t;
  force_ai_refresh : bool;
  auto_publish_option : option bool;
  watermark_option : option bool;
  locale : string;
}.
Definition no_options : JobOptions := mkOptions None [] false None None "en".

Record JobCreate := mkJobCreate {
  jc_book_id : uuid;
  jc_source_key : string;
  jc_original_filename : option string;
  jc_source : SourceKind.t;
  jc_priority : Z;
  jc_options : JobOptions;
}.

(** [source_key]: at most 500 characters, no [..], not absolute. *)
Definition no_traversal (k : string) : bool := negb (contains ".." k || startswith "/" k).
Definition job_create_ok (p : JobCreate) : bool :=
  bool_decide (1 <= String.length (jc_source_key p) <= 500)%nat && no_traversal (jc_source_key p) &&
  match jc_original_filename p with Some f => bool_decide (String.length f <= 255)%nat | None => true end &&
  bool_decide (-10 <= jc_priority p <= 10).

(** What a job was asked to do, and where it stands. *)
Record JobSpec := mkSpec {
  jp_request : JobCreate;
  jp_requested_by : option uuid;
  jp_correlation_id : option string;
  jp_import_id : option uuid;
  jp_created_at : datetime;
}.

Record AutomationJob := mkJob {
  j_id : uuid;
  j_spec : JobSpec;
  j_status : JobStatus.t;
  j_current_stage : option Stage.t;
  j_attempts : Z;
  j_result : gmap string json;
  j_error : option string;
  j_dead_lettered_at : option datetime;
  j_heartbeat_at : option datetime;
  j_next_attempt_at : option datetime;
  j_started_at : option datetime;
  j_finished_at : option datetime;
}.

Definition j_source_key (j : AutomationJob) : string := jc_source_key (jp_request (j_spec j)).
Definition j_book_id (j : AutomationJob) : uuid := jc_book_id (jp_request (j_spec j)).
Definition j_options (j : AutomationJob) : JobOptions := jc_options (jp_request (j_spec j)).

Definition is_terminal (j : AutomationJob) : bool :=
  bool_decide (j_status j ∈ [JobStatus.SUCCEEDED; JobStatus.FAILED; JobStatus.DEAD_LETTERED; JobStatus.CANCELLED]).

Record JobStage := mkStage {
  js_position : nat;
  js_status : StageStatus.t;
  js_attempts : Z;
  js_duration_ms : option Z;
  js_output : gmap string json;
  js_error : option string;
  js_started_at : option datetime;
  js_finished_at : option datetime;
}.
Definition fresh_stage (s : Stage.t) (status : StageStatus.t) : JobStage :=
  mkStage (POSITION s) status 0 None ∅ None None None.

#[export] Instance Job_row : Row AutomationJob := j_id.

(** Stage rows by their unique key, the job and the stage. *)
Record JobsDb := mkJobsDb {
  jobs : table AutomationJob;
  job_stages : gmap (uuid * Stage.t) JobStage;
  job_events : gset string;
}.
Definition set_jobs x d := mkJobsDb x (job_stages d) (job_events d).
Definition set_job_stages x d := mkJobsDb (jobs d) x (job_events d).
Definition set_job_events x d := mkJobsDb (jobs d) (job_stages d) x.

Record AutomationSettings := mkAutomation {
  max_attempts : Z;
  retry_base_seconds : Z;
  retry_max_seconds : Z;
  stale_job_seconds : Z;
  job_retention_days : Z;
  ai_enabled : bool;
  auto_publish : bool;
  watermark_enabled : bool;
  max_source_bytes : Z;
  accepted_formats : list string;
}.
Definition default_automation : AutomationSettings := mkAutomation 5 30 3600 3600 90 true false true (500 * 1024 * 1024) ["pdf"; "epub"].

(** ** Assigning columns *)

Definition set_status x j := mkJob (j_id j) (j_spec j) x (j_current_stage j) (j_attempts j) (j_result j) (j_error j)
  (j_dead_lettered_at j) (j_heartbeat_at j) (j_next_attempt_at j) (j_started_at j) (j_finished_at j).
Definition set_current_stage x j := mkJob (j_id j) (j_spec j) (j_status j) x (j_attempts j) (j_result j) (j_error j)
  (j_dead_lettered_at j) (j_heartbeat_at j) (j_next_attempt_at j) (j_started_at j) (j_finished_at j).
Definition set_attempts x j := mkJob (j_id j) (j_spec j) (j_status j) (j_current_stage j) x (j_result j) (j_error j)
  (j_dead_lettered_at j) (j_heartbeat_at j) (j_next_attempt_at j) (j_started_at j) (j_finished_at j).
Definition set_result x j := mkJob (j_id j) (j_spec j) (j_status j) (j_current_stage j) (j_attempts j) x (j_error j)
  (j_dead_lettered_at j) (j_heartbeat_at j) (j_next_attempt_at j) (j_started_at j) (j_finished_at j).
Definition set_error x j := mkJob (j_id j) (j_spec j) (j_status j) (j_current_stage j) (j_attempts j) (j_result j) x
  (j_dead_lettered_at j) (j_heartbeat_at j) (j_next_attempt_at j) (j_started_at j) (j_finished_at j).
Definition set_dead_lettered x j := mkJob (j_id j) (j_spec j) (j_status j) (j_current_stage j) (j_attempts j) (j_result j)
  (j_error j) x (j_heartbeat_at j) (j_next_attempt_at j) (j_started_at j) (j_finished_at j).
Definition set_heartbeat x j := mkJob (j_id j) (j_spec j) (j_status j) (j_current_stage j) (j_attempts j) (j_result j)
  (j_error j) (j_dead_lettered_at j) x (j_next_attempt_at j) (j_started_at j) (j_finished_at j).
Definition set_next_attempt x j := mkJob (j_id j) (j_spec j) (j_status j) (j_current_stage j) (j_attempts j) (j_result j)
  (j_error j) (j_dead_lettered_at j) (j_heartbeat_at j) x (j_started_at j) (j_finished_at j).
Definition set_started x j := mkJob (j_id j) (j_spec j) (j_status j) (j_current_stage j) (j_attempts j) (j_result j)
  (j_error j) (j_dead_lettered_at j) (j_heartbeat_at j) (j_next_attempt_at j) x (j_finished_at j).
Definition set_finished x j := mkJob (j_id j) (j_spec j) (j_status j) (j_current_stage j) (j_attempts j) (j_result j)
  (j_error j) (j_dead_lettered_at j) (j_heartbeat_at j) (j_next_attempt_at j) (j_started_at j) x.

(** ** Queries *)

Definition ACTIVE : list JobStatus.t := [JobStatus.QUEUED; JobStatus.RUNNING; JobStatus.RETRYING].
Definition job_active (j : AutomationJob) : bool := bool_decide (j_status j ∈ ACTIVE).

(** The partial unique index: one live job per source file. *)
Definition active_source (j : AutomationJob) : option string := if job_active j then Some (j_source_key j) else None.

Definition active_for_source (k : string) : M JobsDb (option AutomationJob) :=
  gets (fun d => head (select (fun j => bool_decide (j_source_key j = k) && job_active j) (jobs d))).

Definition get_job (k : uuid) : M JobsDb AutomationJob :=
  j ← gets (fun d => jobs d !! k);
  match j with Some j => mret j | None => raise (app_error NotFoundError "") end.

Definition stage_status (d : JobsDb) (k : uuid) (s : Stage.t) : option StageStatus.t := js_status <$> job_stages d !! (k, s).

(** [stages]: the history in the order of the pipeline. *)
Definition stages (k : uuid) (d : JobsDb) : list (Stage.t * JobStage) :=
  omap (fun s => pair s <$> job_stages d !! (k, s)) PIPELINE.

Definition due (now : datetime) (j : AutomationJob) : bool :=
  bool_decide (j_status j ∈ [JobStatus.QUEUED; JobStatus.RETRYING]) &&
  match j_next_attempt_at j with Some t => t <=? now | None => true end.

(** [ORDER BY priority DESC, created_at] *)
Definition queue_order (a b : AutomationJob) : bool :=
  let pa := jc_priority (jp_request (j_spec a)) in
  let pb := jc_priority (jp_request (j_spec b)) in
  (pb <? pa) || ((pa =? pb) && (jp_created_at (j_spec a) <=? jp_created_at (j_spec b))).

Definition claim_due now (limit : nat) : M JobsDb (list AutomationJob) :=
  gets (fun d => take limit (merge_sort (fun a b => Is_true (queue_order a b)) (select (due now) (jobs d)))).

(** [ORDER BY created_at DESC LIMIT limit OFFSET offset], and the count. *)
Definition newest_first (a b : AutomationJob) : bool := jp_created_at (j_spec b) <=? jp_created_at (j_spec a).
Definition list_jobs (limit offset : nat) (status : option JobStatus.t) (book : option uuid)
    : M JobsDb (list AutomationJob * nat) :=
  gets (fun d =>
    let found := select (fun j => match status with Some s => bool_decide (j_status j = s) | None => true end &&
                                  match book with Some b => bool_decide (j_book_id j = b) | None => true end) (jobs d) in
    (take limit (drop offset (merge_sort (fun a b => Is_true (newest_first a b)) found)), length found)).

(** ** Writing *)

(** UPDATE of the columns that [f] assigns, under the partial index. *)
Definition write (j : AutomationJob) (f : AutomationJob -> AutomationJob) : M JobsDb AutomationJob := fun d =>
  match jobs d !! j_id j with
  | None => (Raise StaleDataErr, d)
  | Some row =>
      match insert_unique active_source (f row) (jobs d) with
      | Ok t => (Ok (f j), set_jobs t d)
      | Raise e => (Raise e, d)
      end
  end.

(** [stage_row], created where it is missing, and the columns assigned to it. *)
Definition write_stage (k : uuid) (s : Stage.t) (f : JobStage -> JobStage) : M JobsDb unit :=
  modify (fun d => set_job_stages
    (<[(k, s) := f (default (fresh_stage s StageStatus.PENDING) (job_stages d !! (k, s)))]> (job_stages d)) d).

Section service.
Context (settings : AutomationSettings).

Definition stage_selected (s : Stage.t) (o : JobOptions) : bool :=
  match only_stages o with
  | Some (_ :: _ as only) => bool_decide (s ∈ only)
  | _ => negb (bool_decide (s ∈ skip_stages o))
  end.

Definition new_job (k : uuid) (spec : JobSpec) : AutomationJob :=
  mkJob k spec JobStatus.QUEUED None 0 ∅ None None None None None None.

Definition add_job (j : AutomationJob) : M JobsDb unit := fun d =>
  match insert_new active_source j (jobs d) with
  | Ok t => (Ok tt, set_jobs t d)
  | Raise e => (Raise e, d)
  end.

Definition add_stage (k : uuid) (o : JobOptions) (s : Stage.t) : M JobsDb unit :=
  modify (fun d => set_job_stages (<[(k, s) := fresh_stage s
    (if stage_selected s o then StageStatus.PENDING else StageStatus.SKIPPED)]> (job_stages d)) d).

(** [k] is the id drawn; [race] what others commit after the check. *)
Definition create_job (race : JobsDb -> JobsDb) (k : uuid) (spec : JobSpec) : M JobsDb AutomationJob :=
  existing ← active_for_source (jc_source_key (jp_request spec));
  match existing with
  | Some _ => raise (app_error ConflictError "job_already_running")
  | None =>
      let j := new_job k spec in
      _ ← modify race;
      _ ← add_job j;
      _ ← for_each (add_stage k (jc_options (jp_request spec))) PIPELINE;
      mret j
  end.

(** ** Lifecycle *)

Definition mark_running now (j : AutomationJob) : M JobsDb AutomationJob :=
  write j (fun r =>
    let r := set_error None (set_heartbeat (Some now) (set_attempts (j_attempts j + 1) (set_status JobStatus.RUNNING r))) in
    if bool_decide (j_started_at j = None) then set_started (Some now) r else r).

Definition heartbeat now (j : AutomationJob) : M JobsDb AutomationJob := write j (set_heartbeat (Some now)).

Definition stage_started now (r : JobStage) : JobStage :=
  mkStage (js_position r) StageStatus.RUNNING (js_attempts r + 1) (js_duration_ms r) (js_output r) None (Some now)
    (js_finished_at r).
Definition stage_succeeded now duration output (r : JobStage) : JobStage :=
  mkStage (js_position r) StageStatus.SUCCEEDED (js_attempts r) (Some duration) output None (js_started_at r) (Some now).
Definition stage_skipped now reason (r : JobStage) : JobStage :=
  mkStage (js_position r) StageStatus.SKIPPED (js_attempts r) (js_duration_ms r) (js_output r) (Some reason)
    (js_started_at r) (Some now).
Definition stage_failed now duration error (r : JobStage) : JobStage :=
  mkStage (js_position r) StageStatus.FAILED (js_attempts r) (Some duration) (js_output r) (Some (stake 4000 error))
    (js_started_at r) (Some now).
Definition stage_reopened (r : JobStage) : JobStage :=
  mkStage (js_position r) StageStatus.PENDING (js_attempts r) None ∅ None None None.

Definition begin_stage now (j : AutomationJob) (s : Stage.t) : M JobsDb AutomationJob :=
  _ ← write_stage (j_id j) s (stage_started now);
  write j (fun r => set_heartbeat (Some now) (set_current_stage (Some s) r)).

Definition complete_stage now (j : AutomationJob) (s : Stage.t) (output : gmap string json) (duration : Z)
    : M JobsDb AutomationJob :=
  _ ← write_stage (j_id j) s (stage_succeeded now duration output);
  let merged := if bool_decide (output = ∅) then j_result j else output ∪ j_result j in
  write j (fun r => set_heartbeat (Some now) (if bool_decide (output = ∅) then r else set_result merged r)).

Definition skip_stage now (j : AutomationJob) (s : Stage.t) (reason : string) : M JobsDb unit :=
  write_stage (j_id j) s (stage_skipped now reason).

Definition fail_stage now (j : AutomationJob) (s : Stage.t) (error : string) (duration : Z) : M JobsDb unit :=
  write_stage (j_id j) s (stage_failed now duration error).

Definition succeed now (j : AutomationJob) : M JobsDb AutomationJob :=
  write j (fun r => set_next_attempt None (set_error None (set_finished (Some now)
    (set_current_stage None (set_status JobStatus.SUCCEEDED r))))).

Definition retry_delay (attempts : Z) : Z :=
  Z.min (retry_base_seconds settings * 2 ^ Z.max 0 (attempts - 1)) (retry_max_seconds settings).

(** [jitter]: [random.uniform(0.5, 1.5)] in millionths.  True when the job will
    be tried again. *)
Definition schedule_retry now (jitter : Z) (j : AutomationJob) (error : string) : M JobsDb (AutomationJob * bool) :=
  if max_attempts settings <=? j_attempts j then
    j ← write j (fun r => set_next_attempt None (set_current_stage None (set_finished (Some now)
          (set_dead_lettered (Some now) (set_status JobStatus.DEAD_LETTERED (set_error (Some (stake 4000 error)) r))))));
    mret (j, false)
  else
    j ← write j (fun r => set_next_attempt (Some (now + retry_delay (j_attempts j) * jitter))
          (set_status JobStatus.RETRYING (set_error (Some (stake 4000 error)) r)));
    mret (j, true).

Definition fail_terminally now (j : AutomationJob) (error : string) : M JobsDb AutomationJob :=
  write j (fun r => set_next_attempt None (set_finished (Some now) (set_error (Some (stake 4000 error))
    (set_status JobStatus.FAILED r)))).

Definition cancel now (j : AutomationJob) : M JobsDb AutomationJob :=
  if is_terminal j then raise (app_error ConflictError "")
  else write j (fun r => set_next_attempt None (set_finished (Some now) (set_current_stage None
         (set_status JobStatus.CANCELLED r)))).

(** [UPDATE job_stages ... WHERE job_id = k AND position >= cutoff] *)
Definition reopen_from (k : uuid) (cutoff : nat) : M JobsDb unit :=
  modify (fun d => set_job_stages (map_imap (fun ks r =>
    Some (if bool_decide (ks.1 = k) && bool_decide (cutoff <= js_position r)%nat then stage_reopened r else r))
    (job_stages d)) d).

Definition prepare_retry (j : AutomationJob) (from_stage : option Stage.t) (reset_attempts : bool) : M JobsDb AutomationJob :=
  if job_active j then raise (app_error ConflictError "")
  else
    _ ← match from_stage with Some s => reopen_from (j_id j) (POSITION s) | None => mret tt end;
    write j (fun r =>
      let r := set_status JobStatus.QUEUED r in
      let r := if reset_attempts then set_attempts 0 r else r in
      set_current_stage None (set_next_attempt None (set_finished None (set_error None (set_dead_lettered None r))))).

(** ** Sweeps *)

Definition stale now (j : AutomationJob) : bool :=
  bool_decide (j_status j = JobStatus.RUNNING) &&
  match j_heartbeat_at j with Some t => t <? now - stale_job_seconds settings * SECOND | None => true end.

Definition requeue_stale now : M JobsDb nat :=
  rows ← gets (fun d => select (stale now) (jobs d));
  _ ← for_each (fun j => _ ← write j (fun r => set_next_attempt None (set_current_stage None
                              (set_status JobStatus.QUEUED r))); mret tt) rows;
  mret (length rows).

Definition prunable now (j : AutomationJob) : bool :=
  match j_finished_at j with Some t => t <? now - job_retention_days settings * DAY | None => false end &&
  bool_decide (j_status j ∈ [JobStatus.SUCCEEDED; JobStatus.CANCELLED]).

(** A job goes with its stages. *)
Definition delete_job (k : uuid) (d : JobsDb) : JobsDb :=
  set_job_stages (filter (fun kv => kv.1.1 <> k) (job_stages d)) (set_jobs (delete k (jobs d)) d).
Definition prune now : M JobsDb nat :=
  rows ← gets (fun d => select (prunable now) (jobs d));
  _ ← for_each (fun j => modify (delete_job (j_id j))) rows;
  mret (length rows).

(** ** Jobs queued by [book.created] *)

Definition HANDLED : list string := ["book.created"].

Definition claim_event (race : JobsDb -> JobsDb) (ev : Event) : M JobsDb bool :=
  _ ← modify race;
  savepoint (d ← get;
             if bool_decide (Events.e_id ev ∈ job_events d) then raise IntegrityErr
             else _ ← put (set_job_events ({[Events.e_id ev]} ∪ job_events d) d); mret true)
    (mret false).

(** [str(key).rsplit("/", 1)[-1]] *)
Definition base_name (k : string) : string := List.last (split_char "/" k) "".

Definition event_request (source_key book_id : json) : result JobCreate :=
  b ← opt_result ValueErr (uuid_of_string (jstr book_id));
  let p := mkJobCreate b (jstr source_key) (Some (base_name (jstr source_key))) SourceKind.EVENT 0 no_options in
  if job_create_ok p then Ok p else Raise ValueErr.

Definition except_conflict (m : M JobsDb unit) : M JobsDb unit := fun d =>
  match m d with
  | (Raise (AppErr ConflictError _), d') => (Ok tt, d')
  | r => r
  end.

Definition handle_event now race (k : uuid) (ev : Event) : M JobsDb unit :=
  if negb (bool_decide (e_type ev ∈ HANDLED)) then mret tt
  else
    let payload := jor (e_payload ev) (JObj []) in
    source ← of_result (dict_get "source_key" payload);
    let source_key := jor source (jget "pdf_key" payload) in
    let book_id := jor (jget "book_id" payload) (jget "id" payload) in
    if negb (jtruthy source_key) || negb (jtruthy book_id) then mret tt
    else
      claimed ← claim_event race ev;
      if negb claimed then mret tt
      else
        p ← of_result (event_request source_key book_id);
        except_conflict (_ ← create_job id k (mkSpec p None (e_correlation_id ev) None now); mret tt).

Definition consume_event now race k : handler JobsDb := fun ev => in_transaction (handle_event now race k ev).
End service.

(** ** Lemmas *)

(** Rows lie under their keys and no source has two live jobs. *)
Definition jobs_ok (d : JobsDb) : Prop := keyed (jobs d) /\ unique_on active_source (jobs d).

Lemma terminal_or_active j : is_terminal j = negb (job_active j).
Proof. unfold is_terminal, job_active. by destruct (j_status j). Qed.

(** An assignment of columns keeps the identity and the request of a job. *)
Definition assigns (f : AutomationJob -> AutomationJob) : Prop := forall r, j_id (f r) = j_id r /\ j_spec (f r) = j_spec r.

Lemma active_source_assigned f j : assigns f -> job_active j = true ->
  active_source (f j) = None \/ active_source (f j) = active_source j.
Proof.
  intros Hf Hj. unfold active_source. rewrite Hj. destruct (job_active (f j)); [right|by left].
  unfold j_source_key. by rewrite (proj2 (Hf j)).
Qed.

Lemma no_conflict (v w : AutomationJob) (t : table AutomationJob) : keyed t -> unique_on active_source t ->
  t !! j_id v = Some w -> (active_source v = None \/ active_source v = active_source w) ->
  conflicts active_source v t = false.
Proof.
  intros Hk Hu Hw Hv. apply conflicts_false; [done|]. intros k i x Hvk Hi Hx.
  destruct Hv as [Hv|Hv]; [congruence|]. apply (Hu i (j_id v) x w k Hi Hw Hx). congruence.
Qed.

(** The session's job is the row of the database, and [rows] are its stages. *)
Record current (k : uuid) (j : AutomationJob) (rows : Stage.t -> option JobStage) (d : JobsDb) : Prop := {
  cu_ok : jobs_ok d;
  cu_id : j_id j = k;
  cu_row : jobs d !! k = Some j;
  cu_stages : forall s, job_stages d !! (k, s) = rows s;
}.

Definition with_row (s : Stage.t) (r : JobStage) (rows : Stage.t -> option JobStage) : Stage.t -> option JobStage :=
  fun x => if decide (x = s) then Some r else rows x.

Lemma write_current k j f rows : assigns f -> job_active j = true ->
  triple (current k j rows) (write j f) (fun j' d => j' = f j /\ current k (f j) rows d) never.
Proof.
  intros Hf Hj d [[Hk Hu] <- Hrow Hst]. pose proof (Hf j) as [Hid Hspec].
  assert (Hins : insert_unique active_source (f j) (jobs d) = Ok (save (f j) (jobs d))).
  { unfold insert_unique. rewrite (no_conflict (f j) j); rewrite ?Hid; auto using active_source_assigned. }
  unfold write. rewrite Hrow, Hins. destruct (insert_unique_preserves _ _ _ _ Hk Hu Hins) as [Hk' Hu'].
  split; [done|]. constructor; cbn; [by split|done| |done].
  unfold save. change (row_id (f j)) with (j_id (f j)). rewrite Hid. apply lookup_insert_eq.
Qed.

Lemma write_stage_current k j s f rows :
  triple (current k j rows) (write_stage (j_id j) s f) (fun _ => current k j
    (with_row s (f (default (fresh_stage s StageStatus.PENDING) (rows s))) rows)) never.
Proof.
  apply triple_modify. intros d [Hok <- Hrow Hst]. constructor; try done. intros x. cbn. unfold with_row.
  rewrite Hst. case_decide as Hx; [subst x; apply lookup_insert_eq|].
  rewrite lookup_insert_ne by congruence. apply Hst.
Qed.

(** Every operation keeps the rows in order, whatever it returns. *)
Lemma write_ok j f : assigns f -> triple jobs_ok (write j f) (fun _ => jobs_ok) (fun _ => jobs_ok).
Proof.
  intros Hf d [Hk Hu]. unfold write. destruct (jobs d !! j_id j) as [row|]; [|done].
  destruct (insert_unique active_source (f row) (jobs d)) as [t|e] eqn:Hi; [|done].
  destruct (insert_unique_preserves _ _ _ _ Hk Hu Hi) as [? ?]. by split.
Qed.

Lemma assigns_compose f g : assigns f -> assigns g -> assigns (fun r => f (g r)).
Proof. intros Hf Hg r. destruct (Hf (g r)) as [-> ->]. apply Hg. Qed.

(** ** What the program does not do *)

Definition some_request : JobCreate := mkJobCreate 11 "uploads/11.pdf" None SourceKind.UPLOAD 0
  (mkOptions (Some [Stage.SEO]) [] false None None "en").
Definition lost_job : AutomationJob :=
  set_heartbeat (Some 0) (set_attempts 7 (set_status JobStatus.RUNNING (new_job 1 (mkSpec some_request None None None 0)))).

(** A job that kills its worker is handed out for ever: the sweep that rescues
    it does not look at its attempts. *)
Example lost_job_is_requeued :
  let d := (requeue_stale default_automation (10000 * SECOND) (mkJobsDb (save lost_job ∅) ∅ ∅)).2 in
  exists j, jobs d !! 1%N = Some j /\ due (10000 * SECOND) j = true /\ max_attempts default_automation < j_attempts j.
Proof. eexists. split; [vm_compute; reflexivity|]. split; vm_compute; reflexivity. Qed.

(** The history says COLLECT is left out of a job limited to other stages; the
    runner executes it. *)
Example collect_marked_skipped :
  stage_status (create_job id 1 (mkSpec some_request None None None 0) (mkJobsDb ∅ ∅ ∅)).2 1 Stage.COLLECT =
    Some StageStatus.SKIPPED.
Proof. vm_compute. reflexivity. Qed.

(** Requeueing a failed job while a newer one for the same file is live meets
    the index, not a conflict. *)
Example retry_meets_the_index :
  let failed := set_status JobStatus.FAILED (new_job 1 (mkSpec some_request None None None 0)) in
  let newer := new_job 2 (mkSpec some_request None None None 5) in
  (prepare_retry failed None true (mkJobsDb (save newer (save failed ∅)) ∅ ∅)).1 = Raise IntegrityErr.
Proof. vm_compute. reflexivity. Qed.
