(* ===== verification/Stages.v ===== *)
(** * Pipeline stages (apps/automation/services/stages.py, clients.py)

    Every stage as a function of what it may touch: the accumulated result,
    the bytes in memory, object storage and the sibling services.  Documents
    and images are read and rewritten by [library] (services/documents.py and
    media.py over third-party parsers), and the other services answer as
    [services] says; both are parameters. *)

From S2P Require Import Prelude Store Triples Json Jobs.

Definition bytes : Type := string.

(** A file to store: its content type and its bytes. *)
Definition upload_file : Type := string * bytes.

Record Derived := mkDerived { dv_data : bytes; dv_width : json; dv_height : json }.
Record Inspection := mkInspection { in_document : json; in_warnings : list string }.

Record AiOutput := mkAiOutput {
  ai_description : option string;
  ai_summary : option string;
  ai_meta_title : option string;
  ai_meta_description : option string;
  ai_keywords : list string;
  ai_tags : list string;
  ai_cost_usd : json;
  ai_failed : list string;
}.
Definition ai_empty (o : AiOutput) : bool :=
  negb (truthy (ai_description o) || truthy (ai_summary o) || truthy (ai_meta_title o) ||
        negb (Nat.eqb (length (ai_keywords o)) 0) || negb (Nat.eqb (length (ai_tags o)) 0)).

Record Library := mkLibrary {
  sniff_format : bytes -> string;
  assert_archive_safe : bytes -> result unit;
  checksum : bytes -> string;
  inspect_epub : bytes -> result Inspection;
  inspect_pdf : bytes -> result Inspection;
  render_pdf_cover : bytes -> result (option bytes);
  resize_cover : bytes -> result Derived;
  resize_thumbnail : bytes -> result Derived;
  build_sample_pdf : bytes -> result (option bytes);
  compress_pdf : bytes -> result (option bytes);   (* [None]: not worth it *)
  compression_ratio : bytes -> bytes -> json;
  watermark_pdf : bytes -> result bytes;
}.

Inductive storage_op := HEAD | GET | PUT.

Record Services := mkServices {
  storage_fault : storage_op -> string -> option exn;
  etag : bytes -> json;
  generate : list string -> json -> bool -> option AiOutput;
  books_update : gmap string json -> option exn;
  books_publish : option exn;
  search_index : bool;
  books_get : option json;
}.

(** What a job leaves outside its own database. *)
Record Outside := mkOutside {
  objects : gmap string upload_file;
  patches : list (uuid * gmap string json);
  published_books : list uuid;
  announced : list (string * json);
}.
Definition set_objects x o := mkOutside x (patches o) (published_books o) (announced o).
Definition set_patches x o := mkOutside (objects o) x (published_books o) (announced o).
Definition set_published x o := mkOutside (objects o) (patches o) x (announced o).
Definition set_announced x o := mkOutside (objects o) (patches o) (published_books o) x.

(** [result] without, and [c_pending] with, the entry [_pending_uploads],
    whose values are bytes. *)
Record StageContext := mkContext {
  c_job_id : uuid;
  c_book_id : uuid;
  c_source_key : string;
  c_original_filename : option string;
  c_options : JobOptions;
  c_result : gmap string json;
  c_pending : option (list (string * upload_file));
  c_payload : option bytes;
}.
Definition set_payload x c := mkContext (c_job_id c) (c_book_id c) (c_source_key c) (c_original_filename c) (c_options c)
  (c_result c) (c_pending c) (Some x).

Record Output := mkOutput { o_fields : gmap string json; o_pending : option (list (string * upload_file)) }.
Definition output (l : list (string * json)) : Output := mkOutput (list_to_map l) None.

Definition stage : Type := M (StageContext * Outside) Output.

Definition unprocessable (code : string) : exn := app_error BadRequestError code.

Definition ctx : M (StageContext * Outside) StageContext := gets fst.
Definition keep_payload (b : bytes) : M (StageContext * Outside) unit := modify (fun co => (set_payload b co.1, co.2)).

Definition require_payload : M (StageContext * Outside) bytes :=
  c ← ctx; match c_payload c with Some b => mret b | None => raise RuntimeErr end.

(** [ctx.result.get(k)] *)
Definition rget (k : string) (c : StageContext) : json := default JNull (c_result c !! k).
Definition format_of (c : StageContext) : json := jget "format" (rget "validation" c).
Definition is_pdf (c : StageContext) : bool := match format_of c with JStr f => String.eqb f "pdf" | _ => false end.

Definition artefact_key (c : StageContext) (name extension : string) : string :=
  append "private/derived/" (append (string_of_uuid (c_book_id c)) (append "/" (append (string_of_uuid (c_job_id c))
    (append "/" (append name (append "." extension)))))).
Definition public_key (c : StageContext) (name extension : string) : string :=
  append "public/books/" (append (string_of_uuid (c_book_id c)) (append "/" (append name (append "." extension)))).

Definition size_of (b : bytes) : json := JInt (Z.of_nat (String.length b)).

Section stages.
Context (settings : AutomationSettings) (library : Library) (services : Services).

(** ** Object storage *)

Definition storage {A} (op : storage_op) (k : string) (m : M (StageContext * Outside) A) : M (StageContext * Outside) A :=
  match storage_fault services op k with Some e => raise e | None => m end.
Definition stored (k : string) : M (StageContext * Outside) upload_file :=
  o ← gets (fun co => objects co.2 !! k);
  match o with Some f => mret f | None => raise (app_error NotFoundError "") end.
Definition put_bytes (k : string) (f : upload_file) : M (StageContext * Outside) unit :=
  storage PUT k (modify (fun co => (co.1, set_objects (<[k := f]> (objects co.2)) co.2))).

(** ** Ingest *)

Definition collect : stage :=
  c ← ctx;
  head ← storage HEAD (c_source_key c) (stored (c_source_key c));
  let size := Z.of_nat (String.length head.2) in
  if max_source_bytes settings <? size then raise (unprocessable "source_too_large")
  else if size =? 0 then raise (unprocessable "source_empty")
  else
    f ← storage GET (c_source_key c) (stored (c_source_key c));
    _ ← keep_payload f.2;
    mret (output [("source", JObj [("size_bytes", size_of f.2); ("content_type", JStr head.1); ("etag", etag services head.2)])]).

(** [filename.rsplit(".", 1)[-1].lower()] *)
Definition extension_of (filename : option string) : string :=
  match filename with
  | Some f => if String.eqb f "" || negb (contains "." f) then "" else lower (List.last (split_char "." f) "")
  | None => ""
  end.

Definition validate : stage :=
  payload ← require_payload;
  c ← ctx;
  let detected := sniff_format library payload in
  if negb (bool_decide (detected ∈ accepted_formats settings)) then raise (unprocessable "unsupported_format")
  else
    let claimed := extension_of (c_original_filename c) in
    let warnings := if negb (String.eqb claimed "") && negb (String.eqb claimed detected)
                    then [append "extension_mismatch:" (append claimed (append "!=" detected))] else [] in
    _ ← (if String.eqb detected "epub" then of_result (assert_archive_safe library payload) else mret tt);
    mret (output [("validation", JObj [("format", JStr detected);
      ("claimed_extension", if String.eqb claimed "" then JNull else JStr claimed);
      ("checksum", JStr (checksum library payload)); ("warnings", JList (map JStr warnings))])]).

Definition extract_metadata : stage :=
  payload ← require_payload;
  c ← ctx;
  let fmt := jor (format_of c) (JStr (sniff_format library payload)) in
  i ← of_result (if String.eqb (jstr fmt) "epub" then inspect_epub library payload else inspect_pdf library payload);
  mret (output [("document", in_document i); ("warnings", JList (map JStr (in_warnings i)))]).

(** ** Enrichment *)

(** [[x.get("name") for x in (v or []) if x.get("name")]] *)
Definition names (v : json) : result (list json) :=
  match jor v (JList []) with
  | JList l => foldr (fun x acc => rest ← acc; n ← dict_get "name" x; Ok (if jtruthy n then n :: rest else rest)) (Ok []) l
  | JObj _ | JStr _ => Raise AttributeErr
  | _ => Raise TypeErr
  end.

Definition ai_context (c : StageContext) : result json :=
  let document := rget "document" c in
  let book := rget "book" c in
  authors ← names (jget "authors" book);
  categories ← names (jget "categories" book);
  let authors := match authors with
                 | [] => if jtruthy (jget "author" document) then [jget "author" document] else []
                 | _ => authors
                 end in
  Ok (JObj [("title", jor (jget "title" book) (jor (jget "title" document) (JStr "Untitled")));
            ("subtitle", jget "subtitle" book); ("authors", JList (take 20 authors)); ("categories", JList (take 20 categories));
            ("language", jor (jget "language" book) (jor (jget "language" document) (JStr "en")));
            ("excerpt", jor (jget "excerpt" document) (JStr "")); ("existing_description", jget "description" book);
            ("page_count", jget "page_count" document)]).

Definition opt_str (o : option string) : json := match o with Some s => JStr s | None => JNull end.

Definition enrich (kinds : list string) (key : string) : stage :=
  c ← ctx;
  if jtruthy (jget "text_empty" (rget "document" c)) && negb (jtruthy (jget "description" (rget "book" c)))
  then raise (StageSkipped "no_source_text")
  else
    context ← of_result (ai_context c);
    match (if ai_enabled settings then generate services kinds context (force_ai_refresh (c_options c)) else None) with
    | None => raise (StageSkipped "ai_unavailable")
    | Some o =>
        if ai_empty o then raise (StageSkipped "ai_returned_nothing")
        else mret (output [(key, JObj [("description", opt_str (ai_description o)); ("summary", opt_str (ai_summary o));
          ("meta_title", opt_str (ai_meta_title o)); ("meta_description", opt_str (ai_meta_description o));
          ("keywords", JList (map JStr (ai_keywords o))); ("tags", JList (map JStr (ai_tags o)));
          ("cost_usd", ai_cost_usd o); ("failed_kinds", JList (map JStr (ai_failed o)))])])
    end.

Definition generate_description : stage := enrich ["description"; "summary"] "copy".
Definition seo : stage := enrich ["seo"] "seo".
Definition tags : stage := enrich ["tags"] "taxonomy".

(** ** Transform *)

Definition image_info (d : Derived) : json :=
  JObj [("bytes", size_of (dv_data d)); ("width", dv_width d); ("height", dv_height d)].

Definition thumbnail : stage :=
  payload ← require_payload;
  c ← ctx;
  if negb (is_pdf c) then raise (StageSkipped "cover_extraction_supports_pdf_only")
  else
    extracted ← of_result (render_pdf_cover library payload);
    match extracted with
    | None => raise (StageSkipped "no_cover_image_in_source")
    | Some image =>
        cover ← of_result (resize_cover library image);
        thumb ← of_result (resize_thumbnail library image);
        mret (mkOutput {[ "images" := JObj [("cover", image_info cover); ("thumbnail", image_info thumb)] ]}
                (Some [(public_key c "cover" "jpg", ("image/jpeg", dv_data cover));
                       (public_key c "thumbnail" "jpg", ("image/jpeg", dv_data thumb))]))
    end.

Definition convert : stage :=
  payload ← require_payload;
  c ← ctx;
  if negb (is_pdf c) then raise (StageSkipped "sample_generation_supports_pdf_only")
  else
    sample ← of_result (build_sample_pdf library payload);
    match sample with
    | None => raise (StageSkipped "book_too_short_for_sample")
    | Some s => mret (mkOutput {[ "sample" := JObj [("bytes", size_of s)] ]}
                        (Some [(artefact_key c "sample" "pdf", ("application/pdf", s))]))
    end.

Definition compress : stage :=
  payload ← require_payload;
  c ← ctx;
  if negb (is_pdf c) then raise (StageSkipped "compression_supports_pdf_only")
  else
    outcome ← of_result (compress_pdf library payload);
    match outcome with
    | None => raise (StageSkipped "compression_gain_below_threshold")
    | Some data =>
        _ ← keep_payload data;
        mret (output [("compression", JObj [("original_bytes", size_of payload); ("compressed_bytes", size_of data);
                                           ("ratio", compression_ratio library payload data)])])
    end.

Definition watermark : stage :=
  c ← ctx;
  if negb (default (watermark_enabled settings) (watermark_option (c_options c)))
  then raise (StageSkipped "watermarking_disabled")
  else
    payload ← require_payload;
    if negb (is_pdf c) then raise (StageSkipped "watermarking_supports_pdf_only")
    else
      stamped ← of_result (watermark_pdf library payload);
      if String.eqb stamped payload then raise (StageSkipped "watermark_not_applied")
      else
        _ ← keep_payload stamped;
        mret (output [("watermark", JObj [("applied", JBool true); ("bytes", size_of stamped)])]).

(** ** Publish *)

(** [d[k] = v] on a dict in insertion order. *)
Definition dict_set {A} (k : string) (v : A) (d : list (string * A)) : list (string * A) :=
  if bool_decide (k ∈ map fst d) then map (fun kv => if String.eqb kv.1 k then (k, v) else kv) d else d ++ [(k, v)].

Definition mem (k : string) (d : list (string * upload_file)) : bool := bool_decide (k ∈ map fst d).

Definition artefact_keys (c : StageContext) (pending : list (string * upload_file)) (fmt : string) (transformed : bool)
    : list (string * json) :=
  let cover := public_key c "cover" "jpg" in
  let thumb := public_key c "thumbnail" "jpg" in
  let sample := artefact_key c "sample" "pdf" in
  (if mem cover pending then [("cover_key", JStr cover)] else []) ++
  (if mem thumb pending then [("thumbnail_key", JStr thumb)] else []) ++
  (if mem sample pending then [("sample_key", JStr sample)] else []) ++
  (if transformed then [(append fmt "_key", JStr (artefact_key c "distribution" fmt))] else []).

Definition is_transformed (c : StageContext) : bool := jtruthy (rget "compression" c) || jtruthy (rget "watermark" c).

Definition to_upload (c : StageContext) (fmt : string) : list (string * upload_file) :=
  let pending := default [] (c_pending c) in
  match c_payload c with
  | Some data =>
      if is_transformed c
      then dict_set (artefact_key c "distribution" fmt)
             (if String.eqb fmt "pdf" then "application/pdf" else "application/epub+zip", data) pending
      else pending
  | None => pending
  end.

Definition upload : stage :=
  c ← ctx;
  let fmt := jstr (jor (format_of c) (JStr "pdf")) in
  let pending := to_upload c fmt in
  _ ← for_each (fun kf => put_bytes kf.1 kf.2) pending;
  mret (mkOutput (list_to_map [("uploads", JObj (map (fun kf => (kf.1, size_of kf.2.2)) pending));
                               ("keys", JObj (artefact_keys c pending fmt (is_transformed c)))])
          (Some [])).

(** [v[:n]] of a string or list *)
Definition jslice (n : nat) (v : json) : json :=
  match v with JStr s => JStr (stake n s) | JList l => JList (take n l) | _ => v end.
Definition patch_field (k : string) (v : json) : list (string * json) := if jtruthy v then [(k, v)] else [].

Definition is_digit (a : ascii) : bool := ((48 <=? N_of_ascii a) && (N_of_ascii a <=? 57))%N.

Definition build_catalogue_update (c : StageContext) : list (string * json) :=
  let document := rget "document" c in
  let copy := rget "copy" c in
  let seo_out := rget "seo" c in
  let digits := sfilter is_digit (jstr (jget "isbn13" document)) in
  let base :=
    patch_field "description" (jslice 50000 (jget "description" copy)) ++
    patch_field "ai_summary" (jslice 20000 (jget "summary" copy)) ++
    patch_field "meta_title" (jslice 255 (jget "meta_title" seo_out)) ++
    patch_field "meta_description" (jslice 500 (jget "meta_description" seo_out)) ++
    patch_field "ai_tags" (jslice 10 (jget "tags" (rget "taxonomy" c))) ++
    patch_field "page_count" (jget "page_count" document) ++
    (if jtruthy (jget "isbn13" document) && Nat.eqb (String.length digits) 13 then [("isbn13", JStr digits)] else []) in
  match rget "keys" c with
  | JObj keys => foldl (fun d kv => dict_set kv.1 kv.2 d) base keys
  | _ => base
  end.

Definition index : stage :=
  c ← ctx;
  let patch := build_catalogue_update c in
  _ ← (match patch with
       | [] => mret tt
       | _ => match books_update services (list_to_map patch) with
              | Some e => raise e
              | None => modify (fun co => (co.1, set_patches (patches co.2 ++ [(c_book_id c, list_to_map patch)]) co.2))
              end
       end);
  mret (output [("catalogue_update", JList (map JStr (merge_sort (fun a b => Is_true (String.leb a b)) (map fst patch))));
                ("indexed", JBool (search_index services))]).

Definition publish : stage :=
  c ← ctx;
  if negb (default (auto_publish settings) (auto_publish_option (c_options c)))
  then mret (output [("published", JBool false); ("reason", JStr "awaiting_review")])
  else match books_publish services with
       | Some e => raise e
       | None => _ ← modify (fun co => (co.1, set_published (published_books co.2 ++ [c_book_id c]) co.2));
                 mret (output [("published", JBool true)])
       end.

Definition HANDLERS (s : Stage.t) : stage :=
  match s with
  | Stage.COLLECT => collect | Stage.VALIDATE => validate | Stage.EXTRACT_METADATA => extract_metadata
  | Stage.GENERATE_DESCRIPTION => generate_description | Stage.SEO => seo | Stage.TAGS => tags
  | Stage.THUMBNAIL => thumbnail | Stage.CONVERT => convert | Stage.COMPRESS => compress | Stage.WATERMARK => watermark
  | Stage.UPLOAD => upload | Stage.INDEX => index | Stage.PUBLISH => publish
  end.
End stages.

(** ** Where the stages write *)

(** Keys of derived artefacts; every other key is somebody's original. *)
Definition derived (key : string) : bool := startswith "private/derived/" key || startswith "public/books/" key.

Definition derived_only (pending : list (string * upload_file)) : Prop := forall kf, kf ∈ pending -> derived kf.1 = true.

(** Originals are as in [before], and what waits for its upload is derived. *)
Definition originals_kept (before : gmap string upload_file) (co : StageContext * Outside) : Prop :=
  derived_only (default [] (c_pending co.1)) /\
  forall key, derived key = false -> objects co.2 !! key = before !! key.

Definition output_derived (o : Output) : Prop := derived_only (default [] (o_pending o)).

Lemma artefact_derived c name ext : derived (artefact_key c name ext) = true.
Proof. reflexivity. Qed.
Lemma public_derived c name ext : derived (public_key c name ext) = true.
Proof. reflexivity. Qed.

Lemma elem_of_dict_set {A} k (v : A) d x : x ∈ dict_set k v d -> x = (k, v) \/ x ∈ d.
Proof.
  unfold dict_set. case_bool_decide.
  - intros ([k' w] & -> & Hw)%list_elem_of_fmap. destruct (String.eqb _ _); auto.
  - intros [?| ->%list_elem_of_singleton]%elem_of_app; auto.
Qed.

Lemma to_upload_derived c fmt : derived_only (default [] (c_pending c)) -> derived_only (to_upload c fmt).
Proof.
  intros Hp kf. unfold to_upload. destruct (c_payload c); [|apply Hp]. destruct (is_transformed c); [|apply Hp].
  intros [-> |Hin]%elem_of_dict_set; [apply artefact_derived|by apply Hp].
Qed.

Section writes.
Context (settings : AutomationSettings) (library : Library) (services : Services) (before : gmap string upload_file).

Abbreviation I := (originals_kept before).
Abbreviation kept m := (triple I m (fun _ => I) (fun _ => I)).
Abbreviation well m := (triple I m (fun o co => output_derived o /\ I co) (fun _ => I)).

Ltac walk := repeat first
  [ progress cbv beta
  | apply triple_step; [|intros ?]
  | match goal with
    | |- triple _ (if ?b then _ else _) _ _ => destruct b
    | |- triple _ (match ?x with _ => _ end) _ _ => destruct x
    end
  | apply triple_raise; by intros
  | apply triple_of_result; intros ? ?; by destruct (_ : result _)
  | apply triple_gets; by intros ].

Lemma well_output l : well (mret (output l)).
Proof. apply triple_ret. intros co Hco. split; [|done]. intros kf Hkf. by apply not_elem_of_nil in Hkf. Qed.

Lemma kept_payload b : kept (keep_payload b).
Proof. apply triple_modify. intros [c o] [Hp Ho]. by split. Qed.

Lemma put_derived k f : derived k = true -> kept (put_bytes services k f).
Proof.
  intros Hk. unfold put_bytes, storage. destruct (storage_fault services PUT k); [by apply triple_raise; intros|].
  apply triple_modify. intros [c o] [Hp Ho]. split; [done|]. intros key Hkey. cbn.
  rewrite lookup_insert_ne by congruence. by apply Ho.
Qed.

Lemma upload_derived : well (upload services).
Proof.
  unfold upload. eapply triple_bind.
  { apply (triple_gets _ _ (fun c co => derived_only (default [] (c_pending c)) /\ I co)). by intros [c o] [Hp Ho]. }
  intros c. apply triple_pure. intros Hp. cbv zeta. apply triple_step.
  - apply triple_for_each. intros kf Hkf. apply put_derived. by eapply to_upload_derived.
  - intros []. apply triple_ret. intros co Hco. split; [|done]. intros kf Hkf. by apply not_elem_of_nil in Hkf.
Qed.

Lemma pending_output fields pending : derived_only pending -> well (mret (mkOutput fields (Some pending))).
Proof. intros Hp. by apply triple_ret. Qed.

Lemma handlers_derived s : well (HANDLERS settings library services s).
Proof.
  destruct s; cbn [HANDLERS]; [..|apply upload_derived| |].
  all: unfold collect, validate, extract_metadata, generate_description, seo, tags, enrich, thumbnail, convert, compress,
    watermark, index, publish, require_payload, ctx; walk.
  all: try apply well_output; try apply kept_payload; unfold storage, stored; walk.
  all: try by apply triple_ret.
  all: try (apply triple_modify; by intros [c o] [Hp Ho]).
  all: apply pending_output; intros kf.
  - by intros [-> |[-> |[]%not_elem_of_nil]%elem_of_cons]%elem_of_cons.
  - by intros ->%list_elem_of_singleton.
Qed.
End writes.

(** ** What the catalogue is told to serve *)

Lemma puts_stored services l (D : gset string) : triple (fun co => D ⊆ dom (objects co.2))
  (for_each (fun kf => put_bytes services kf.1 kf.2) l)
  (fun _ co => list_to_set (map fst l) ∪ D ⊆ dom (objects co.2)) (fun _ _ => True).
Proof.
  revert D. induction l as [|[k f] l IH]; intros D; cbn [for_each map fst snd].
  - apply triple_ret. intros co H. cbn. by rewrite union_empty_l_L.
  - eapply (triple_bind _ _ _ (fun _ co => {[k]} ∪ D ⊆ dom (objects co.2))).
    + unfold put_bytes, storage. destruct (storage_fault services PUT k); [by apply triple_raise|].
      apply triple_modify. intros co H. cbn. rewrite dom_insert_L. set_solver.
    + intros []. eapply triple_post; [|apply IH]. intros [] co H. cbn. set_solver.
Qed.

Lemma dict_set_has {A} k (v : A) d : k ∈ map fst (dict_set k v d).
Proof.
  unfold dict_set. case_bool_decide as Hin; [|rewrite map_app; apply elem_of_app; right; left].
  apply list_elem_of_fmap in Hin as ([k' w] & Hk & Hw). apply list_elem_of_fmap.
  exists (k, v). split; [done|]. apply list_elem_of_fmap. exists (k', w). split; [|done].
  cbn in Hk |- *. subst k'. by rewrite String.eqb_refl.
Qed.

(** The artefacts an upload reports to the catalogue. *)
Definition reported (o : Output) : list (string * json) :=
  match o_fields o !! "keys" with Some (JObj keys) => keys | _ => [] end.

(** every artefact that an upload reports to the catalogue is in storage when
    the stage returns, provided the source was collected in this run. *)
Theorem reported_keys_exist services c o out c' o' name key : c_payload c <> None ->
  upload services (c, o) = (Ok out, (c', o')) -> (name, JStr key) ∈ reported out -> key ∈ dom (objects o').
Proof.
  intros Hpay Hup Hkey. unfold upload in Hup. erewrite bind_ok in Hup by reflexivity. cbv beta zeta in Hup. cbn [fst] in Hup.
  set (fmt := jstr _) in Hup. set (pending := to_upload c fmt) in Hup.
  pose proof (puts_stored services pending ∅ (c, o) ltac:(set_solver)) as Hput.
  destruct (for_each _ pending (c, o)) as [[[]|e] [c1 o1]] eqn:Hrun;
    [rewrite (bind_ok _ _ _ _ _ Hrun) in Hup|by rewrite (bind_raise _ _ _ _ _ Hrun) in Hup].
  injection Hup as <- <- <-. cbn in Hput. change (reported _) with (artefact_keys c pending fmt (is_transformed c)) in Hkey.
  assert (Hin : key ∈ map fst pending).
  { unfold artefact_keys in Hkey. rewrite !elem_of_app in Hkey.
    assert (Hmem : forall k0 n0, (name, JStr key) ∈ (if mem k0 pending then [(n0, JStr k0)] else []) -> key ∈ map fst pending).
    { intros k0 n0. destruct (mem k0 pending) eqn:E; [|by intros H%not_elem_of_nil].
      intros [= _ ->]%list_elem_of_singleton. by apply bool_decide_eq_true in E. }
    destruct Hkey as [H|[H|[H|H]]]; [by eapply Hmem..|].
    destruct (is_transformed c) eqn:Ht; [|by apply not_elem_of_nil in H]. apply list_elem_of_singleton in H. injection H as _ ->.
    unfold pending, to_upload. destruct (c_payload c); [|done]. rewrite Ht. apply dict_set_has. }
  apply Hput. set_solver.
Qed.

(** ** A concrete upload *)

Definition pdf : string := "%PDF-1.7 a book that can be made smaller".
Definition storage_with (fault : storage_op -> string -> option exn) : Services :=
  mkServices fault (fun _ => JNull) (fun _ _ _ => None) (fun _ => None) None true None.
Definition all_well : Services := storage_with (fun _ _ => None).
Definition original : string := "uploads/11.pdf".
Definition storage_of_original : Outside := mkOutside {[ original := ("application/pdf", pdf) ]} [] [] [].
Definition cover_key : string := "public/books/00000000-0000-0000-0000-00000000000b/cover.jpg".
Definition sample_key : string :=
  "private/derived/00000000-0000-0000-0000-00000000000b/00000000-0000-0000-0000-000000000001/sample.pdf".
Definition distribution_key : string :=
  "private/derived/00000000-0000-0000-0000-00000000000b/00000000-0000-0000-0000-000000000001/distribution.pdf".

(** A context as UPLOAD finds it. *)
Definition stamped_context : StageContext :=
  mkContext 1 11 original None no_options {[ "watermark" := JObj [("applied", JBool true)] ]}
    (Some [(sample_key, ("application/pdf", "ten pages"))]) (Some "stamped").

Lemma reported_keys_exist_witness :
  let r := upload all_well (stamped_context, storage_of_original) in
  distribution_key ∈ dom (objects r.2.2) /\ sample_key ∈ dom (objects r.2.2).
Proof.
  intros r. assert (Hkeys : reported <$> r.1 = Ok [("sample_key", JStr sample_key); ("pdf_key", JStr distribution_key)])
    by (vm_compute; reflexivity).
  destruct r as [[out|e] [c' o']] eqn:Hr; [|discriminate]. injection Hkeys as Hkeys.
  assert (Hp : c_payload stamped_context <> None) by done.
  split.
  - apply (reported_keys_exist all_well stamped_context storage_of_original out c' o' "pdf_key" distribution_key Hp Hr).
    rewrite Hkeys. right. left.
  - apply (reported_keys_exist all_well stamped_context storage_of_original out c' o' "sample_key" sample_key Hp Hr).
    rewrite Hkeys. left.
Defined.
