(* ===== verification/Pipeline.v ===== *)
(** * The pipeline runner (apps/automation/services/pipeline.py, routers, tasks.py)

    One run of a job: which stages it executes, what it does with their
    outcomes, and how the job ends.  [during] is what other sessions commit to
    the jobs database while a stage executes. *)

From S2P Require Import Prelude Store Triples Json Jobs Stages.

Abbreviation World := (JobsDb * Outside)%type.

Record RunOutcome := mkRun {
  ro_status : JobStatus.t;
  ro_completed : list Stage.t;
  ro_skipped : list Stage.t;
  ro_failed : list Stage.t;
  ro_error : option string;
}.

(** The clock, the random draw and the neighbours of one run. *)
Record Conditions := mkConditions {
  services_of : Services;
  starts : datetime;
  began : Stage.t -> datetime;
  ended : Stage.t -> datetime;
  elapsed : Stage.t -> Z;
  settles : datetime;
  jitter : Z;
  during : Stage.t -> JobsDb -> JobsDb;
}.

(** What the loop carries from stage to stage. *)
Record RunState := mkRunState {
  rs_job : AutomationJob;
  rs_ctx : StageContext;
  rs_completed : list Stage.t;
  rs_skipped : list Stage.t;
  rs_failed : list Stage.t;
}.

Definition add_skipped s j st := mkRunState j (rs_ctx st) (rs_completed st) (rs_skipped st ++ [s]) (rs_failed st).
Definition add_failed s c st := mkRunState (rs_job st) c (rs_completed st) (rs_skipped st) (rs_failed st ++ [s]).
Definition add_completed s j c st := mkRunState j c (rs_completed st ++ [s]) (rs_skipped st) (rs_failed st).
Definition with_job j st := mkRunState j (rs_ctx st) (rs_completed st) (rs_skipped st) (rs_failed st).

Definition on_jobs {A} (m : M JobsDb A) : M World A := lift fst (fun d w => (d, w.2)) m.

(** [ctx.result.update(output)] *)
Definition updated (o : Output) (c : StageContext) : StageContext :=
  mkContext (c_job_id c) (c_book_id c) (c_source_key c) (c_original_filename c) (c_options c)
    (o_fields o ∪ c_result c) (match o_pending o with Some p => Some p | None => c_pending c end) (c_payload c).

(** The keys that do not start with an underscore. *)
Definition persistent (o : Output) : gmap string json := filter (fun kv => startswith "_" kv.1 = false) (o_fields o).

Definition is_terminal_error (e : exn) : bool := match e with AppErr BadRequestError _ => true | _ => false end.

Section runner.
Context (settings : AutomationSettings) (library : Library) (describe : exn -> string) (publisher : bool).
Context (env : Conditions).

(** The reason to skip a stage. *)
Definition should_run (s : Stage.t) (o : JobOptions) : option string :=
  if (match only_stages o with Some (_ :: _ as only) => negb (bool_decide (s ∈ only)) | _ => false end) &&
     negb (bool_decide (s = Stage.COLLECT)) then Some "not_in_only_stages"
  else if bool_decide (s ∈ skip_stages o) then Some "skipped_by_request"
  else if bool_decide (s ∈ AI_STAGES) && negb (ai_enabled settings) then Some "ai_disabled"
  else None.

Definition completed_stages (k : uuid) (d : JobsDb) : list Stage.t :=
  List.filter (fun s => bool_decide (stage_status d k s = Some StageStatus.SUCCEEDED)) PIPELINE.

(** [HANDLERS[stage](ctx)]: what it returned or raised, and the context and the
    outside world it leaves; the other sessions have moved on meanwhile. *)
Definition execute (s : Stage.t) (c : StageContext) : M World (result Output * StageContext) := fun w =>
  let '(r, (c', o')) := HANDLERS settings library (services_of env) s (c, w.2) in
  (Ok (r, c'), (during env s w.1, o')).

Definition emit (t : string) (payload : json) : M World unit :=
  if publisher then modify (fun w => (w.1, set_announced (announced w.2 ++ [(t, payload)]) w.2)) else mret tt.

Definition emit_failed (j : AutomationJob) (s : string) (error : string) : M World unit :=
  emit "automation.job_failed" (JObj [("job_id", JStr (string_of_uuid (j_id j))); ("book_id", JStr (string_of_uuid (j_book_id j)));
    ("stage", JStr s); ("error", JStr (stake 500 error)); ("attempts", JInt (j_attempts j))]).

Definition emit_completed (j : AutomationJob) (c : StageContext) : M World unit :=
  emit "automation.job_completed" (JObj [("job_id", JStr (string_of_uuid (j_id j))); ("book_id", JStr (string_of_uuid (j_book_id j)));
    ("published", JBool (match rget "published" c with JBool b => b | _ => false end));
    ("page_count", jget "page_count" (rget "document" c)); ("format", format_of c)]).

Definition stage_name (s : Stage.t) : string :=
  match s with
  | Stage.COLLECT => "collect" | Stage.VALIDATE => "validate" | Stage.EXTRACT_METADATA => "extract_metadata"
  | Stage.GENERATE_DESCRIPTION => "generate_description" | Stage.SEO => "seo" | Stage.TAGS => "tags"
  | Stage.THUMBNAIL => "thumbnail" | Stage.CONVERT => "convert" | Stage.COMPRESS => "compress"
  | Stage.WATERMARK => "watermark" | Stage.UPLOAD => "upload" | Stage.INDEX => "index" | Stage.PUBLISH => "publish"
  end.

Definition stopped (status : JobStatus.t) (s : Stage.t) (error : string) (st : RunState) : RunOutcome :=
  mkRun status (rs_completed st) (rs_skipped st) (rs_failed st ++ [s]) (Some error).

(** A stage raised [e]: what follows for the job. *)
Definition on_error (s : Stage.t) (e : exn) (st : RunState) : M World (RunState + RunOutcome) :=
  let error := describe e in
  _ ← on_jobs (fail_stage (ended env s) (rs_job st) s error (elapsed env s));
  if negb (bool_decide (s ∈ REQUIRED_STAGES)) then mret (inl (add_failed s (rs_ctx st) st))
  else if is_terminal_error e then
    j ← on_jobs (fail_terminally (settles env) (rs_job st) error);
    _ ← emit_failed j (stage_name s) error;
    mret (inr (stopped JobStatus.FAILED s error st))
  else
    jr ← on_jobs (schedule_retry settings (settles env) (jitter env) (rs_job st) error);
    _ ← (if jr.2 : bool then mret tt else emit_failed jr.1 (stage_name s) error);
    mret (inr (stopped (j_status jr.1) s error st)).

(** One turn of the loop. *)
Definition run_stage (st : RunState) (s : Stage.t) : M World (RunState + RunOutcome) :=
  if bool_decide (s ∈ rs_completed st) && negb (bool_decide (s = Stage.COLLECT)) then mret (inl st)
  else
    match should_run s (c_options (rs_ctx st)) with
    | Some reason =>
        _ ← on_jobs (skip_stage (ended env s) (rs_job st) s reason);
        mret (inl (add_skipped s (rs_job st) st))
    | None =>
        j ← on_jobs (begin_stage (began env s) (rs_job st) s);
        rc ← execute s (rs_ctx st);
        let c := (rc : result Output * StageContext).2 in
        let st := mkRunState j c (rs_completed st) (rs_skipped st) (rs_failed st) in
        match rc.1 with
        | Raise (StageSkipped reason) =>
            _ ← on_jobs (skip_stage (ended env s) j s reason);
            mret (inl (add_skipped s j st))
        | Raise e => on_error s e st
        | Ok o =>
            j' ← on_jobs (complete_stage (ended env s) j s (persistent o) (elapsed env s));
            mret (inl (add_completed s j' (updated o c) st))
        end
    end.

Fixpoint run_stages (st : RunState) (l : list Stage.t) : M World (RunState + RunOutcome) :=
  match l with
  | [] => mret (inl st)
  | s :: l' =>
      r ← run_stage st s;
      match r with inl st' => run_stages st' l' | inr o => mret (inr o) end
  end.

Definition in_order (l : list Stage.t) : list Stage.t := List.filter (fun s => bool_decide (s ∈ l)) PIPELINE.

Definition initial_context (j : AutomationJob) : StageContext :=
  let fetched := match books_get (services_of env) with
                 | Some b => if jtruthy b then <["book" := b]> (j_result j) else j_result j
                 | None => j_result j
                 end in
  mkContext (j_id j) (j_book_id j) (j_source_key j) (jc_original_filename (jp_request (j_spec j))) (j_options j)
    fetched None None.

Definition run (j : AutomationJob) : M World RunOutcome :=
  if is_terminal j then
    completed ← gets (fun w => completed_stages (j_id j) w.1);
    mret (mkRun (j_status j) completed [] [] (Some "already finished"))
  else
    j ← on_jobs (mark_running (starts env) j);
    completed ← gets (fun w => completed_stages (j_id j) w.1);
    r ← run_stages (mkRunState j (initial_context j) completed [] []) PIPELINE;
    match r with
    | inr o => mret o
    | inl st =>
        j ← on_jobs (succeed (settles env) (rs_job st));
        _ ← emit_completed j (rs_ctx st);
        mret (mkRun JobStatus.SUCCEEDED (in_order (rs_completed st)) (rs_skipped st) (rs_failed st) None)
    end.

(** POST /jobs/{id}/run *)
Definition run_job_now (k : uuid) : M World RunOutcome :=
  j ← on_jobs (get_job k);
  if is_terminal j then raise (app_error ConflictError "") else run j.
End runner.

(** The Celery task: the job as the database has it, and no publisher. *)
Definition run_job settings library describe env (k : uuid) : M World RunOutcome :=
  j ← on_jobs (get_job k); run settings library describe false env j.

(** [drain]: each job in a [try]; the number of runs that returned. *)
Section drain.
Context (settings : AutomationSettings) (library : Library) (describe : exn -> string) (publisher : bool).

Definition attempt (env : Conditions) (j : AutomationJob) : M World nat := fun w =>
  match run settings library describe publisher env j w with
  | (Ok _, w') => (Ok 1%nat, w')
  | (Raise _, w') => (Ok 0%nat, w')
  end.

Definition drain (now : datetime) (env : uuid -> Conditions) (limit : nat) : M World nat :=
  due ← on_jobs (claim_due now limit);
  for_acc (fun n j => ran ← attempt (env (j_id j)) j; mret (n + ran)%nat) 0%nat due.
End drain.

(** ** How a run ends *)

(** A stage of a finished job: done, left out, or failed without being needed. *)
Definition settled (rows : Stage.t -> option JobStage) (s : Stage.t) : Prop :=
  exists r, rows s = Some r /\
    (js_status r = StageStatus.SUCCEEDED \/ js_status r = StageStatus.SKIPPED \/
     js_status r = StageStatus.FAILED /\ s ∉ REQUIRED_STAGES).

Definition row_done (rows : Stage.t -> option JobStage) (s : Stage.t) : Prop :=
  exists r, rows s = Some r /\ js_status r = StageStatus.SUCCEEDED.

(** Other sessions leave the job alone and keep the tables in order. *)
Definition undisturbed (k : uuid) (env : Conditions) : Prop := forall s d,
  (jobs_ok d -> jobs_ok (during env s d)) /\ jobs (during env s d) !! k = jobs d !! k /\
  forall s', job_stages (during env s d) !! (k, s') = job_stages d !! (k, s').

Section correctness.
Context (settings : AutomationSettings) (library : Library) (describe : exn -> string) (publisher : bool).
Context (env : Conditions) (k : uuid) (n : Z) (Hquiet : undisturbed k env).

(** The stages as the run finds them. *)
Context (before : Stage.t -> option JobStage).

(** Stages done before the run are as they were, but for COLLECT. *)
Definition kept (rows : Stage.t -> option JobStage) : Prop :=
  forall s, s <> Stage.COLLECT -> row_done before s -> rows s = before s.

(** How far a run has come with its job at the [n]-th attempt. *)
Record progress (finished : list Stage.t) (st : RunState) (rows : Stage.t -> option JobStage) : Prop := {
  pr_active : job_active (rs_job st) = true;
  pr_attempts : j_attempts (rs_job st) = n;
  pr_completed : forall s, s ∈ rs_completed st -> s <> Stage.COLLECT -> row_done rows s;
  pr_finished : forall s, s ∈ finished -> settled rows s;
  pr_known : forall s, row_done before s -> s ∈ rs_completed st;
  pr_kept : kept rows;
}.

(** A job at rest after its [n]-th attempt: it waits for a retry or has failed for good. *)
Definition rests (j : AutomationJob) : Prop :=
  match j_status j with
  | JobStatus.FAILED => True
  | JobStatus.DEAD_LETTERED => max_attempts settings <= n
  | JobStatus.RETRYING => n < max_attempts settings /\
      j_next_attempt_at j = Some (settles env + retry_delay settings n * jitter env)
  | _ => False
  end.

Definition halted (o : RunOutcome) (w : World) : Prop := exists j rows,
  current k j rows w.1 /\ kept rows /\ j_status j = ro_status o /\ j_attempts j = n /\ rests j.

Lemma on_jobs_triple {A} (m : M JobsDb A) P Q E :
  triple P m Q E -> triple (fun w : World => P w.1) (on_jobs m) (fun a w => Q a w.1) (fun e w => E e w.1).
Proof. intros Hm [d o] HP. specialize (Hm d HP). unfold on_jobs, lift. cbn. by destruct (m d) as [[a|e] d']. Qed.

Lemma with_row_same s r rows : with_row s r rows s = Some r.
Proof. unfold with_row. by rewrite decide_True. Qed.
Lemma with_row_other s r rows x : x <> s -> with_row s r rows x = rows x.
Proof. intros. unfold with_row. by rewrite decide_False. Qed.

(** Rewriting the row of one stage leaves the others settled and done. *)
Lemma settled_with_row s r rows x : settled rows x -> x = s \/ settled (with_row s r rows) x.
Proof.
  intros (q & Hq & Hs). destruct (decide (x = s)) as [->|Hne]; [by left|right].
  exists q. by rewrite with_row_other.
Qed.

Lemma done_with_row s r rows x : x <> s -> row_done rows x -> row_done (with_row s r rows) x.
Proof. intros Hne (q & Hq & Hs). exists q. by rewrite with_row_other. Qed.

Lemma emit_triple t payload (P : World -> Prop) : (forall w o, P w -> P (w.1, o)) ->
  triple P (emit publisher t payload) (fun _ => P) never.
Proof. intros HP. unfold emit. destruct publisher; [apply triple_modify; auto|by apply triple_ret]. Qed.

(** The job and its stages in the whole world. *)
Definition cur (j : AutomationJob) (rows : Stage.t -> option JobStage) (w : World) : Prop := current k j rows w.1.

Lemma write_cur j f rows : assigns f -> job_active j = true ->
  triple (cur j rows) (on_jobs (write j f)) (fun j' w => j' = f j /\ cur (f j) rows w) never.
Proof. intros Hf Hj. exact (on_jobs_triple _ _ _ _ (write_current k j f rows Hf Hj)). Qed.

Lemma stage_cur j s f rows : triple (cur j rows) (on_jobs (write_stage (j_id j) s f))
  (fun _ => cur j (with_row s (f (default (fresh_stage s StageStatus.PENDING) (rows s))) rows)) never.
Proof. exact (on_jobs_triple _ _ _ _ (write_stage_current k j s f rows)). Qed.

Lemma begin_cur j s rows : job_active j = true ->
  triple (cur j rows) (on_jobs (begin_stage (began env s) j s))
    (fun j' w => j' = set_heartbeat (Some (began env s)) (set_current_stage (Some s) j) /\
       cur j' (with_row s (stage_started (began env s) (default (fresh_stage s StageStatus.PENDING) (rows s))) rows) w) never.
Proof.
  intros Hj. eapply (on_jobs_triple _ _ (fun j' d => j' = _ /\ current k j' _ d) never). unfold begin_stage.
  eapply triple_bind; [apply write_stage_current|]. intros [].
  eapply triple_post; [|apply write_current; [by intros q|done]]. intros j' d [-> Hd]. by split.
Qed.

Lemma complete_cur j s o duration rows : job_active j = true ->
  triple (cur j rows) (on_jobs (complete_stage (ended env s) j s o duration))
    (fun j' w => job_active j' = true /\ j_attempts j' = j_attempts j /\
       cur j' (with_row s (stage_succeeded (ended env s) duration o
                 (default (fresh_stage s StageStatus.PENDING) (rows s))) rows) w) never.
Proof.
  intros Hj. eapply (on_jobs_triple _ _ (fun j' d => job_active j' = true /\ j_attempts j' = _ /\ current k j' _ d) never).
  unfold complete_stage. eapply triple_bind; [apply write_stage_current|]. intros [].
  eapply triple_post; [|apply write_current; [intros q; by destruct (bool_decide _)|done]].
  intros j' d [-> Hd]. by destruct (bool_decide _).
Qed.

Lemma execute_cur s c j rows : triple (cur j rows) (execute settings library env s c) (fun _ => cur j rows) never.
Proof.
  intros [d o] [Hok Hid Hrow Hst]. unfold execute.
  destruct (HANDLERS settings library (services_of env) s (c, _)) as [r [c' o']].
  destruct (Hquiet s d) as (Hok' & Hrow' & Hst'). constructor; cbn; [auto|done|by rewrite Hrow'|]. intros x. by rewrite Hst'.
Qed.

Lemma retry_cur error j rows : job_active j = true -> j_attempts j = n ->
  triple (cur j rows) (on_jobs (schedule_retry settings (settles env) (jitter env) j error))
    (fun jb w => cur jb.1 rows w /\ j_attempts jb.1 = n /\ rests jb.1) never.
Proof.
  intros Hj Hn. eapply (on_jobs_triple _ _ (fun jb d => current k jb.1 rows d /\ j_attempts jb.1 = n /\ rests jb.1) never).
  unfold schedule_retry. rewrite Hn. destruct (Z.leb_spec (max_attempts settings) n).
  all: eapply triple_bind; [apply write_current; [by intros q|done]|]; intros j'; cbn beta; apply triple_pure; intros ->.
  all: by apply triple_ret.
Qed.

Definition open (s : Stage.t) (st : RunState) : Prop := s ∉ rs_completed st \/ s = Stage.COLLECT.

Lemma kept_with_row s q st rows : open s st -> (forall x, row_done before x -> x ∈ rs_completed st) -> kept rows ->
  kept (with_row s q rows).
Proof.
  intros Ho Hb Hk x Hne Hx. rewrite with_row_other; [by apply Hk|]. intros ->. destruct Ho as [Ho|Ho]; [|done].
  by apply Ho, Hb.
Qed.

Lemma progress_touch finished st rows s r st' : progress finished st rows -> s ∉ finished -> open s st ->
  job_active (rs_job st') = true -> j_attempts (rs_job st') = n -> rs_completed st' = rs_completed st ->
  progress finished st' (with_row s r rows).
Proof.
  intros [_ _ Hc Hf Hb Hk] Hs Ho Ha Hn Hsame. constructor; try done; [..|by rewrite Hsame|by eapply kept_with_row]; intros x Hx.
  - rewrite Hsame in Hx. intros Hne. apply done_with_row; [|by apply Hc]. intros ->. by destruct Ho.
  - destruct (settled_with_row s r rows x (Hf x Hx)) as [->|H]; done.
Qed.

Lemma progress_settle finished st rows s r st' : progress finished st rows -> open s st ->
  job_active (rs_job st') = true -> j_attempts (rs_job st') = n ->
  (forall x, x ∈ rs_completed st' -> x ∈ rs_completed st \/ x = s /\ js_status r = StageStatus.SUCCEEDED) ->
  (forall x, x ∈ rs_completed st -> x ∈ rs_completed st') -> settled (with_row s r rows) s -> progress (finished ++ [s]) st' (with_row s r rows).
Proof.
  intros [_ _ Hc Hf Hb Hk] Ho Ha Hn Hsub Hsup Hs. constructor; try done; [..|by auto|by eapply kept_with_row]; intros x Hx.
  - intros Hne. destruct (decide (x = s)) as [->|Hxs].
    + destruct (Hsub s Hx) as [Hin|[_ Hr]]; [by destruct Ho|]. exists r. by rewrite with_row_same.
    + apply done_with_row; [done|]. destruct (Hsub x Hx) as [Hin|[? _]]; [by apply Hc|done].
  - apply elem_of_app in Hx as [Hx| ->%list_elem_of_singleton]; [|done].
    destruct (settled_with_row s r rows x (Hf x Hx)) as [->|H]; done.
Qed.

Lemma progress_app finished st rows s : progress finished st rows -> settled rows s -> progress (finished ++ [s]) st rows.
Proof.
  intros [Ha Hn Hc Hf Hb Hk] Hs. constructor; try done. intros x [Hx| ->%list_elem_of_singleton]%elem_of_app; [by apply Hf|done].
Qed.

(** What a turn of the loop, or the loop, leaves. *)
Definition turned (finished : list Stage.t) (r : RunState + RunOutcome) (w : World) : Prop :=
  match r with
  | inl st => exists rows, progress finished st rows /\ current k (rs_job st) rows w.1
  | inr o => halted o w
  end.

Lemma on_error_triple finished s e st rows : progress finished st rows -> s ∉ finished -> open s st ->
  triple (cur (rs_job st) rows) (on_error settings describe publisher env s e st) (turned (finished ++ [s])) never.
Proof.
  intros Hp Hs Ho. pose proof (pr_active _ _ _ Hp) as Hact. pose proof (pr_attempts _ _ _ Hp) as Hn.
  unfold on_error, fail_stage. eapply triple_bind; [apply stage_cur|]. intros []. cbn beta. set (r := stage_failed _ _ _ _).
  destruct (bool_decide (s ∈ REQUIRED_STAGES)) eqn:Hreq; cbn [negb].
  2:{ apply bool_decide_eq_false in Hreq. apply triple_ret. intros w Hw. exists (with_row s r rows).
      split; [|done]. eapply progress_settle; try done; cbn; [by left|]. exists r. rewrite with_row_same. auto. }
  destruct (is_terminal_error e).
  - eapply triple_bind; [apply write_cur; [by intros q|done]|]. intros j. cbn beta. apply triple_pure. intros ->.
    eapply triple_bind; [apply (emit_triple _ _ (cur _ _)); by intros|]. intros []. apply triple_ret.
    intros w Hw. eexists _, _. split; [exact Hw|]. split; [|done]. eapply kept_with_row; [done|apply Hp..].
  - eapply triple_bind; [by apply retry_cur|]. intros [j b]. cbn [fst snd].
    eapply (triple_bind _ _ _ (fun _ w => cur j _ w /\ j_attempts j = n /\ rests j)).
    + destruct b; [by apply triple_ret|]. apply emit_triple. by intros.
    + intros []. apply triple_ret. intros w [Hw [Hj Hr]]. eexists j, _. split; [exact Hw|].
      split; [eapply kept_with_row; [done|apply Hp..]|done].
Qed.

Abbreviation step := (run_stage settings library describe publisher env).
Abbreviation steps := (run_stages settings library describe publisher env).

Lemma skip_cur finished s st rows reason (j := rs_job st) : progress finished st rows -> open s st ->
  triple (cur j rows) (_ ← on_jobs (skip_stage (ended env s) j s reason); mret (inl (add_skipped s j st)))
    (turned (finished ++ [s])) never.
Proof.
  intros Hp Ho. eapply triple_bind; [apply stage_cur|]. intros []. apply triple_ret. intros w Hw.
  eexists. split; [|exact Hw]. eapply progress_settle; try done; try apply Hp; [by left|].
  eexists. rewrite with_row_same. split; [done|]. by right; left.
Qed.

Lemma run_stage_triple finished s st rows : progress finished st rows -> s ∉ finished ->
  triple (cur (rs_job st) rows) (step st s) (turned (finished ++ [s])) never.
Proof.
  intros Hp Hs. unfold run_stage. pose proof (pr_active _ _ _ Hp) as Hact.
  destruct (bool_decide (s ∈ rs_completed st) && negb (bool_decide (s = Stage.COLLECT))) eqn:Hskip.
  { apply andb_true_iff in Hskip as [Hin%bool_decide_eq_true Hne%negb_true_iff%bool_decide_eq_false].
    apply triple_ret. intros w Hw. exists rows. split; [|done]. apply progress_app; [done|].
    destruct (pr_completed _ _ _ Hp s Hin Hne) as (q & Hq & Hd). exists q. auto. }
  assert (Ho : open s st).
  { apply andb_false_iff in Hskip as [H%bool_decide_eq_false|H%negb_false_iff%bool_decide_eq_true]; [by left|by right]. }
  destruct (should_run settings s (c_options (rs_ctx st))) as [reason|]; [by apply skip_cur|].
  eapply triple_bind; [by apply begin_cur|]. intros j. cbn beta. apply triple_pure. intros ->.
  set (r := stage_started _ _). set (j := set_heartbeat _ _).
  eapply triple_bind; [apply execute_cur|]. intros [res c]. cbn [fst snd]. set (st' := mkRunState _ _ _ _ _).
  assert (Hp' : progress finished st' (with_row s r rows)) by (eapply progress_touch; [done..|apply Hp|done]).
  destruct res as [o|e]; [|destruct e]; try by apply (on_error_triple finished s _ st').
  - eapply triple_bind; [by apply complete_cur|]. intros j'. cbn beta. apply triple_pure. intros Hact'. apply triple_pure.
    intros Hn. apply triple_ret. intros w Hw. eexists. split; [|exact Hw]. eapply progress_settle; try done.
    + cbn. rewrite Hn. apply Hp.
    + intros x [Hx| ->%list_elem_of_singleton]%elem_of_app; [by left|by right].
    + intros x Hx. apply elem_of_app. by left.
    + eexists. rewrite with_row_same. split; [done|]. by left.
  - by apply (skip_cur finished s st').
Qed.

Lemma run_stages_triple l finished st rows : progress finished st rows -> NoDup (finished ++ l) ->
  triple (cur (rs_job st) rows) (steps st l) (turned (finished ++ l)) never.
Proof.
  revert finished st rows. induction l as [|s l IH]; intros finished st rows Hp Hnd; cbn [run_stages].
  - apply triple_ret. intros w Hw. rewrite app_nil_r. by exists rows.
  - assert (Hs : s ∉ finished) by (apply NoDup_app in Hnd as (_ & Hd & _); intros Hin; apply (Hd s Hin); left).
    eapply triple_bind; [by apply run_stage_triple|]. intros [st'|o]; [|by apply triple_ret].
    cbn [turned]. apply triple_exists. intros rows'. apply triple_pure. intros Hp'.
    rewrite (cons_middle s finished l), app_assoc in *. by apply IH.
Qed.

Lemma pipeline_complete s : s ∈ PIPELINE.
Proof. apply (bool_decide_unpack _). by destruct s; vm_compute. Qed.
Lemma pipeline_nodup : NoDup PIPELINE.
Proof. apply (bool_decide_unpack _). vm_compute. exact I. Qed.

Lemma elem_of_completed s d j rows : current k j rows d -> s ∈ completed_stages k d <-> row_done rows s.
Proof.
  intros [_ _ _ Hst]. unfold completed_stages, row_done. rewrite list_elem_of_In, filter_In, <- list_elem_of_In.
  rewrite bool_decide_eq_true. unfold stage_status. rewrite Hst. split.
  - intros [_ H]. destruct (rows s) as [r|]; [|done]. exists r. cbn in H. naive_solver.
  - intros (r & -> & <-). split; [apply pipeline_complete|done].
Qed.

(** The job succeeded: every stage is settled. *)
Definition succeeded (o : RunOutcome) (w : World) : Prop := ro_status o = JobStatus.SUCCEEDED /\
  exists j rows, cur j rows w /\ j_status j = JobStatus.SUCCEEDED /\ j_attempts j = n /\
    j_finished_at j = Some (settles env) /\ (forall s, settled rows s) /\ kept rows.

Lemma run_triple j : job_active j = true -> j_attempts j + 1 = n ->
  triple (cur j before) (run settings library describe publisher env j) (fun o w => succeeded o w \/ halted o w) never.
Proof.
  intros Hj Hn. unfold run. rewrite terminal_or_active, Hj. cbn [negb]. unfold mark_running.
  eapply triple_bind; [apply write_cur; [intros q; by destruct (bool_decide _)|done]|].
  intros j1. cbn beta. set (j1' := if bool_decide _ then _ else _). apply triple_pure. intros ->.
  assert (Hact1 : job_active j1' = true /\ j_attempts j1' = n) by (subst j1'; by destruct (bool_decide _)).
  destruct Hact1 as [Hact1 Hn1].
  eapply (triple_bind _ _ _ (fun completed w => (forall s, s ∈ completed <-> row_done before s) /\ cur j1' before w)).
  { apply triple_gets. intros w Hw. split; [|done]. intros s. rewrite (cu_id _ _ _ _ Hw).
    exact (elem_of_completed s w.1 j1' before Hw). }
  intros completed. apply triple_pure. intros Hc.
  eapply triple_bind; [apply (run_stages_triple PIPELINE [] (mkRunState j1' _ completed [] []) before); [|apply pipeline_nodup]|].
  { constructor; try done; [by intros s Hs _; apply Hc|by intros s Hs; apply not_elem_of_nil in Hs|by intros s Hs; apply Hc]. }
  intros [st|o]; [|apply triple_ret; intros w Hw; by right].
  cbn [turned app]. apply triple_exists. intros rows'. apply triple_pure. intros Hp.
  eapply triple_bind; [apply write_cur; [by intros q|apply Hp]|]. intros j2. cbn beta. apply triple_pure. intros ->.
  eapply triple_bind; [apply (emit_triple _ _ (cur _ _)); by intros|]. intros []. apply triple_ret. intros w Hw. left.
  split; [done|]. eexists _, rows'. split; [exact Hw|]. cbn. split; [done|]. split; [apply Hp|]. split; [done|].
  split; [|apply Hp]. intros s. apply (pr_finished _ _ _ Hp), pipeline_complete.
Qed.
End correctness.

(** The stages of a job in the database. *)
Definition history (k : uuid) (d : JobsDb) : Stage.t -> option JobStage := fun s => job_stages d !! (k, s).

(** A job of an orderly database, ready to run. *)
Definition ready (j : AutomationJob) (d : JobsDb) : Prop :=
  jobs_ok d /\ jobs d !! j_id j = Some j /\ job_active j = true.

Lemma ready_current j d : ready j d -> current (j_id j) j (history (j_id j) d) d.
Proof. intros (Hok & Hrow & _). by constructor. Qed.

Lemma run_spec settings library describe publisher env j w : ready j w.1 -> undisturbed (j_id j) env ->
  exists o w', run settings library describe publisher env j w = (Ok o, w') /\
    (succeeded env (j_id j) (j_attempts j + 1) (history (j_id j) w.1) o w' \/
     halted settings env (j_id j) (j_attempts j + 1) (history (j_id j) w.1) o w').
Proof.
  intros Hr Hq. pose proof (ready_current j w.1 Hr) as Hc. destruct Hr as (_ & _ & Hact).
  exact (triple_ok _ _ _ w (run_triple settings library describe publisher env (j_id j) (j_attempts j + 1) Hq
    (history (j_id j) w.1) j Hact eq_refl) Hc).
Qed.

(** a run of a live job always returns, with the status the database then
    holds; it is one attempt more.  A job reported as succeeded has every stage
    done, left out, or failed where it was not required; one that failed for
    good or ran out of attempts is terminal; any other waits for its retry. *)
Theorem run_settles_or_waits settings library describe publisher env j w : ready j w.1 -> undisturbed (j_id j) env ->
  exists o w' j', run settings library describe publisher env j w = (Ok o, w') /\
    jobs w'.1 !! j_id j = Some j' /\ j_status j' = ro_status o /\ j_attempts j' = j_attempts j + 1 /\ jobs_ok w'.1 /\
    match ro_status o with
    | JobStatus.SUCCEEDED => j_finished_at j' = Some (settles env) /\ forall s, settled (history (j_id j) w'.1) s
    | JobStatus.FAILED => True
    | JobStatus.DEAD_LETTERED => max_attempts settings <= j_attempts j'
    | JobStatus.RETRYING => j_attempts j' < max_attempts settings
    | _ => False
    end.
Proof.
  intros Hr Hq. destruct (run_spec settings library describe publisher env j w Hr Hq) as (o & w' & Hrun & Hend).
  destruct Hend as [(Ho & j' & rows & [Hok Hid Hrow Hst] & Hs & Hn & Hf & Hall & _)
                   |(j' & rows & [Hok Hid Hrow Hst] & _ & Hs & Hn & Hrest)]; exists o, w', j'.
  - rewrite Ho. do 5 (split; [by rewrite ?Hs|]). split; [done|]. intros s. destruct (Hall s) as (q & Hq' & Hd).
    exists q. unfold history. by rewrite Hst.
  - do 5 (split; [done|]). unfold rests in Hrest. rewrite Hs in Hrest. rewrite Hn.
    destruct (ro_status o); try done. by destruct Hrest.
Qed.

(** what a job has done stays done: a run does not touch the record of a
    stage that succeeded before, COLLECT excepted, so neither its output nor its
    count of attempts changes. *)
Theorem finished_stages_not_repeated settings library describe publisher env j w s row :
  ready j w.1 -> undisturbed (j_id j) env -> s <> Stage.COLLECT ->
  job_stages w.1 !! (j_id j, s) = Some row -> js_status row = StageStatus.SUCCEEDED ->
  exists o w', run settings library describe publisher env j w = (Ok o, w') /\ job_stages w'.1 !! (j_id j, s) = Some row.
Proof.
  intros Hr Hq Hne Hrow Hs. destruct (run_spec settings library describe publisher env j w Hr Hq) as (o & w' & Hrun & Hend).
  exists o, w'. split; [done|]. assert (Hd : row_done (history (j_id j) w.1) s) by (by exists row).
  destruct Hend as [(_ & j' & rows & [_ _ _ Hst] & _ & _ & _ & _ & Hk)|(j' & rows & [_ _ _ Hst] & Hk & _)];
    rewrite Hst, (Hk s Hne Hd); exact Hrow.
Qed.

(** a retry is put off by the delay of the attempt, give or take half of it;
    the delay doubles with every attempt up to the limit of the settings; and
    until then no sweep picks the job up. *)
Theorem retry_waits_its_turn settings library describe publisher env j w o w' :
  ready j w.1 -> undisturbed (j_id j) env -> 0 <= retry_base_seconds settings -> 0 <= retry_max_seconds settings ->
  500000 <= jitter env <= 1500000 ->
  run settings library describe publisher env j w = (Ok o, w') -> ro_status o = JobStatus.RETRYING ->
  let delay := Z.min (retry_base_seconds settings * 2 ^ Z.max 0 (j_attempts j)) (retry_max_seconds settings) in
  exists j' t, jobs w'.1 !! j_id j = Some j' /\ j_next_attempt_at j' = Some t /\
    delay * SECOND <= 2 * (t - settles env) <= 3 * (delay * SECOND) /\
    forall now limit due_jobs d, now < t -> claim_due now limit w'.1 = (Ok due_jobs, d) -> j' ∉ due_jobs.
Proof.
  intros Hr Hq Hb Hm Hj Hrun Ho delay.
  destruct (run_spec settings library describe publisher env j w Hr Hq) as (o1 & w1 & Hrun1 & Hend).
  rewrite Hrun in Hrun1. injection Hrun1 as <- <-.
  destruct Hend as [(Hs & _)|(j' & rows & [Hok Hid Hrow Hst] & _ & Hs & Hn & Hrest)]; [congruence|].
  unfold rests in Hrest. rewrite Hs, Ho in Hrest. destruct Hrest as [_ Hnext].
  assert (Hdelay : retry_delay settings (j_attempts j + 1) = delay)
    by (unfold retry_delay, delay; do 4 f_equal; lia).
  rewrite Hdelay in Hnext. assert (0 <= delay) by (unfold delay; apply Z.min_glb; [apply Z.mul_nonneg_nonneg; [done|]|done]; lia).
  exists j', (settles env + delay * jitter env). split; [done|]. split; [done|]. split; [unfold SECOND; nia|].
  intros now limit due_jobs d Hnow [= <- _] Hin. apply elem_of_take in Hin as (i & Hin%list_elem_of_lookup_2 & _).
  rewrite merge_sort_Permutation in Hin.
  apply elem_of_select in Hin as [_ Hdue]. unfold due in Hdue. rewrite Hnext in Hdue.
  apply andb_true_iff in Hdue as [_ Hle%Z.leb_le]. lia.
Qed.

(** ** Repeated runs *)

(** The job is picked up once under each of the conditions, in turn. *)
Definition picked_up settings library describe (k : uuid) (envs : list Conditions) : M World unit :=
  for_each (fun env => _ ← run_job settings library describe env k; mret tt) envs.

(** The row of a job that has settled, or that can be picked up [left] times at most. *)
Definition within settings (left : Z) (j : AutomationJob) (w : World) : Prop :=
  jobs_ok w.1 /\ jobs w.1 !! j_id j = Some j /\
  (is_terminal j = true \/ j_attempts j < max_attempts settings /\ max_attempts settings <= j_attempts j + left).

Lemma run_job_within settings library describe env left j w :
  undisturbed (j_id j) env -> within settings left j w ->
  exists o w' j', run_job settings library describe env (j_id j) w = (Ok o, w') /\ j_id j' = j_id j /\
    within settings (left - 1) j' w'.
Proof.
  intros Hq (Hok & Hrow & Hleft). unfold run_job.
  assert (Hget : on_jobs (get_job (j_id j)) w = (Ok j, w)).
  { destruct w as [d o]. cbn in *. unfold on_jobs, lift, get_job, mbind, M_bind, gets. cbn. by rewrite Hrow. }
  rewrite (bind_ok _ _ _ _ _ Hget). destruct (is_terminal j) eqn:Ht.
  - unfold run. rewrite Ht. eexists _, w, j. split; [reflexivity|]. split; [done|].
    split; [done|]. split; [done|]. by left.
  - assert (Hact : job_active j = true) by (rewrite terminal_or_active in Ht; by destruct (job_active j)).
    destruct (run_spec settings library describe false env j w) as (o & w' & Hrun & Hend); [done..|].
    destruct Hleft as [?|[Hlt Hle]]; [done|].
    destruct Hend as [(_ & j' & rows & [Hok' Hid Hrow' _] & Hs & _)|(j' & rows & [Hok' Hid Hrow' _] & _ & _ & Hn & Hrest)];
      exists o, w', j'; (split; [done|]); (split; [done|]); (split; [done|]); rewrite Hid; (split; [done|]).
    + left. unfold is_terminal. by rewrite Hs.
    + unfold rests in Hrest. unfold is_terminal. destruct (j_status j'); try done; [by left| |by left].
      right. destruct Hrest. lia.
Qed.


(** ** Originals *)

Section originals.
Context (settings : AutomationSettings) (library : Library) (describe : exn -> string) (publisher : bool) (env : Conditions).
Context (before : gmap string upload_file).

Definition intact (w : World) : Prop := forall key, derived key = false -> objects w.2 !! key = before !! key.
Definition safe (c : StageContext) (w : World) : Prop := originals_kept before (c, w.2).

Lemma on_jobs_safe {A} c (m : M JobsDb A) : triple (safe c) (on_jobs m) (fun _ => safe c) (fun _ => intact).
Proof.
  intros [d o] [Hp Ho]. unfold on_jobs, lift. cbn. destruct (m d) as [[a|e] d']; [by split|exact Ho].
Qed.

Lemma emit_safe c t payload : triple (safe c) (emit publisher t payload) (fun _ => safe c) (fun _ => intact).
Proof. unfold emit. destruct publisher; [apply triple_modify|apply triple_ret]; by intros. Qed.

Lemma execute_safe s c : triple (safe c) (execute settings library env s c)
  (fun rc w => safe rc.2 w /\ match rc.1 with Ok o => output_derived o | Raise _ => True end) (fun _ => intact).
Proof.
  intros [d o] Hs. unfold execute. cbn [fst snd].
  pose proof (handlers_derived settings library (services_of env) before s (c, o) Hs) as Hh.
  destruct (HANDLERS settings library (services_of env) s (c, o)) as [[out|e] [c' o']]; [by destruct Hh|by split].
Qed.

Lemma updated_safe o c w : safe c w -> output_derived o -> safe (updated o c) w.
Proof. intros [Hp Ho] Hd. split; [|done]. cbn in *. unfold output_derived in Hd. by destruct (o_pending o). Qed.

Definition still_safe (r : RunState + RunOutcome) (w : World) : Prop :=
  match r with inl st => safe (rs_ctx st) w | inr _ => intact w end.

Lemma on_error_safe s e st :
  triple (safe (rs_ctx st)) (on_error settings describe publisher env s e st) still_safe (fun _ => intact).
Proof.
  unfold on_error. cbv zeta. apply triple_step; [apply on_jobs_safe|intros []].
  destruct (negb _); [by apply triple_ret|]. destruct (is_terminal_error e).
  - apply triple_step; [apply on_jobs_safe|intros j]. apply triple_step; [apply emit_safe|intros []].
    apply triple_ret. by intros w [_ Ho].
  - apply triple_step; [apply on_jobs_safe|intros [j b]]. apply triple_step; [|intros []; apply triple_ret; by intros w [_ Ho]].
    destruct b; [by apply triple_ret|apply emit_safe].
Qed.

Lemma run_stage_safe st s : triple (safe (rs_ctx st)) (run_stage settings library describe publisher env st s)
  still_safe (fun _ => intact).
Proof.
  unfold run_stage. destruct (_ && _); [by apply triple_ret|]. destruct (should_run settings s _) as [reason|].
  { apply triple_step; [apply on_jobs_safe|intros []]. by apply triple_ret. }
  apply triple_step; [apply on_jobs_safe|intros j]. eapply triple_bind; [apply execute_safe|]. intros [r c]. cbn [fst snd].
  destruct r as [o|e]; cbv zeta.
  - eapply triple_bind; [eapply triple_pre; [|apply (on_jobs_safe (updated o c))]; intros w [Hs Hd]; by apply updated_safe|].
    intros j'. by apply triple_ret.
  - eapply (triple_pre _ (safe c)); [by intros w [Hs _]|].
    destruct e; try apply (on_error_safe s _ (mkRunState j c _ _ _)).
    apply triple_step; [apply on_jobs_safe|intros []]. by apply triple_ret.
Qed.

Lemma run_stages_safe l : forall st, triple (safe (rs_ctx st)) (run_stages settings library describe publisher env st l)
  still_safe (fun _ => intact).
Proof.
  induction l as [|s l IH]; intros st; cbn [run_stages]; [by apply triple_ret|].
  eapply triple_bind; [apply run_stage_safe|]. intros [st'|o]; [apply IH|by apply triple_ret].
Qed.

Lemma run_intact j : triple intact (run settings library describe publisher env j) (fun _ => intact) (fun _ => intact).
Proof.
  assert (Hj : forall A (m : M JobsDb A), triple intact (on_jobs m) (fun _ => intact) (fun _ => intact)).
  { intros A m [d o] Ho. unfold on_jobs, lift. cbn. by destruct (m d) as [[a|e] d']. }
  unfold run. destruct (is_terminal j); [apply triple_step; [by apply triple_gets|intros]; by apply triple_ret|].
  apply triple_step; [apply Hj|intros j1]. apply triple_step; [by apply triple_gets|intros completed].
  eapply triple_bind.
  { eapply triple_pre; [|apply run_stages_safe]. intros w Hw. split; [|exact Hw].
    intros kf Hkf. by apply not_elem_of_nil in Hkf. }
  intros [st|o]; [|by apply triple_ret]. eapply (triple_pre _ intact); [by intros w [_ Ho]|].
  apply triple_step; [apply Hj|intros j2].
  apply triple_step; [|intros []; by apply triple_ret]. unfold emit_completed, emit. destruct publisher; [by apply triple_modify|by apply triple_ret].
Qed.
End originals.

(** no run, however it goes and whatever others do meanwhile, writes to an
    object outside the two prefixes of derived artefacts: the uploaded original
    is never overwritten. *)
Theorem originals_never_overwritten settings library describe publisher env j w r w' key :
  run settings library describe publisher env j w = (r, w') -> derived key = false ->
  objects w'.2 !! key = objects w.2 !! key.
Proof.
  intros Hrun Hkey. exact (triple_invariant _ _ _ _ _ (run_intact settings library describe publisher env (objects w.2) j)
    (fun key _ => eq_refl) Hrun key Hkey).
Qed.

(** ** Concrete runs *)

Definition toy_library : Library := mkLibrary (fun b => if startswith "%PDF" b then "pdf" else "unknown") (fun _ => Ok tt)
  (fun _ => "sum") (fun _ => Raise RuntimeErr)
  (fun _ => Ok (mkInspection (JObj [("page_count", JInt 120); ("text_empty", JBool true)]) []))
  (fun _ => Ok (Some "cover image")) (fun i => Ok (mkDerived i (JInt 1000) (JInt 1500)))
  (fun i => Ok (mkDerived i (JInt 400) (JInt 600)))
  (fun _ => Ok (Some "ten pages")) (fun b => Ok (Some (append "small " b))) (fun _ _ => JInt 0)
  (fun b => Ok (append "stamped " b)).
Definition puts_fail : Services := storage_with (fun op _ => match op with PUT => Some RuntimeErr | _ => None end).
Definition at_time (s : Services) (t : datetime) : Conditions :=
  mkConditions s t (fun _ => t) (fun _ => t) (fun _ => 5) t 1000000 (fun _ d => d).

Definition request : JobCreate := mkJobCreate 11 original (Some "11.pdf") SourceKind.UPLOAD 0 no_options.
Definition first_job : AutomationJob := new_job 1 (mkSpec request None None None 0).
Definition queued : World := ((create_job id 1 (mkSpec request None None None 0) (mkJobsDb ∅ ∅ ∅)).2,
  storage_of_original).
Definition toy_task (s : Services) (t : datetime) (w : World) : World :=
  (run_job default_automation toy_library (fun _ => "boom") (at_time s t) 1 w).2.

Lemma at_time_undisturbed k s t : undisturbed k (at_time s t).
Proof. by intros st d. Qed.

Lemma queued_ready : ready first_job queued.1.
Proof.
  assert (E : jobs queued.1 = save first_job ∅) by (vm_compute; reflexivity).
  unfold ready, jobs_ok. rewrite E. split; [split; [apply keyed_save, keyed_empty|apply unique_single]|].
  split; [apply lookup_save_same|done].
Qed.

Lemma run_settles_or_waits_witness :
  exists o w' j', run default_automation toy_library (fun _ => "boom") true (at_time all_well 10) first_job queued = (Ok o, w') /\
    jobs w'.1 !! 1%N = Some j' /\ ro_status o = JobStatus.SUCCEEDED /\ forall s, settled (history 1 w'.1) s.
Proof.
  destruct (run_settles_or_waits default_automation toy_library (fun _ => "boom") true (at_time all_well 10) first_job queued
    queued_ready (at_time_undisturbed _ _ _)) as (o & w' & j' & Hrun & Hrow & _ & _ & _ & Hend).
  assert (Ho : ro_status <$> (run default_automation toy_library (fun _ => "boom") true (at_time all_well 10) first_job queued).1
    = Ok JobStatus.SUCCEEDED) by (vm_compute; reflexivity).
  rewrite Hrun in Ho. injection Ho as Ho.
  rewrite Ho in Hend. exists o, w', j'. split; [exact Hrun|]. split; [exact Hrow|]. split; [exact Ho|]. apply Hend.
Defined.

(** Storage refuses writes at the first attempt: the job waits at UPLOAD. *)
Definition waiting : World := toy_task puts_fail 10 queued.
Definition waiting_job : AutomationJob := default first_job (jobs waiting.1 !! 1%N).

Lemma waiting_ready : ready waiting_job waiting.1.
Proof.
  assert (E : jobs waiting.1 = save waiting_job ∅) by (vm_compute; reflexivity).
  unfold ready, jobs_ok. rewrite E. split; [split; [apply keyed_save, keyed_empty|apply unique_single]|].
  split; [apply lookup_save_same|by vm_compute].
Qed.

Lemma waiting_id : j_id waiting_job = 1%N.
Proof. by vm_compute. Qed.

Lemma finished_stages_not_repeated_witness :
  exists row o w', job_stages waiting.1 !! (j_id waiting_job, Stage.WATERMARK) = Some row /\ js_attempts row = 1 /\
    run default_automation toy_library (fun _ => "boom") true (at_time all_well 1000) waiting_job waiting = (Ok o, w') /\
    job_stages w'.1 !! (j_id waiting_job, Stage.WATERMARK) = Some row.
Proof.
  destruct (job_stages waiting.1 !! (j_id waiting_job, Stage.WATERMARK)) as [row|] eqn:Hrow; [|vm_compute in Hrow; discriminate].
  assert (Hs : js_status row = StageStatus.SUCCEEDED /\ js_attempts row = 1) by (vm_compute in Hrow; by injection Hrow as <-).
  destruct Hs as [Hs Ha].
  destruct (finished_stages_not_repeated default_automation toy_library (fun _ => "boom") true (at_time all_well 1000)
    waiting_job waiting Stage.WATERMARK row waiting_ready (at_time_undisturbed _ _ _) ltac:(done) Hrow Hs) as (o & w' & Hrun & Hkeep).
  exists row, o, w'. split; [reflexivity|]. split; [exact Ha|]. split; [exact Hrun|exact Hkeep].
Defined.

Lemma retry_waits_its_turn_witness :
  exists j' t, jobs (run default_automation toy_library (fun _ => "boom") true (at_time puts_fail 10) first_job queued).2.1
                 !! 1%N = Some j' /\ j_next_attempt_at j' = Some t /\ 30 * SECOND <= 2 * (t - 10) <= 3 * (30 * SECOND).
Proof.
  assert (Hb : 0 <= retry_base_seconds default_automation) by done.
  assert (Hm : 0 <= retry_max_seconds default_automation) by done.
  assert (Hj : 500000 <= jitter (at_time puts_fail 10) <= 1500000) by done.
  assert (Hs : ro_status <$> (run default_automation toy_library (fun _ => "boom") true (at_time puts_fail 10) first_job queued).1
    = Ok JobStatus.RETRYING) by (vm_compute; reflexivity).
  destruct (run default_automation toy_library (fun _ => "boom") true (at_time puts_fail 10) first_job queued)
    as [[o|e] w'] eqn:Hrun; [|discriminate].
  injection Hs as Ho.
  destruct (retry_waits_its_turn default_automation toy_library (fun _ => "boom") true (at_time puts_fail 10) first_job queued
    o w' queued_ready (at_time_undisturbed _ _ _) Hb Hm Hj Hrun Ho) as (j' & t & Hrow & Ht & Hd & _).
  exists j', t. split; [exact Hrow|]. split; [exact Ht|exact Hd].
Defined.


Lemma originals_never_overwritten_witness :
  let w' := (run default_automation toy_library (fun _ => "boom") true (at_time all_well 10) first_job queued).2 in
  objects w'.2 !! original = Some ("application/pdf", pdf) /\ size (objects w'.2) = 3%nat.
Proof.
  intros w'. split; [|by vm_compute].
  refine (eq_trans (originals_never_overwritten default_automation toy_library (fun _ => "boom") true (at_time all_well 10)
    first_job queued _ w' original (surjective_pairing _) _) _); by vm_compute.
Defined.

(** ** What the program does not do *)

(** CONVERT replaces what THUMBNAIL left to upload: the cover of a book that has
    both a cover and a sample is made and thrown away. *)
Example cover_is_lost :
  let w := toy_task all_well 10 queued in
  stage_status w.1 1 Stage.THUMBNAIL = Some StageStatus.SUCCEEDED /\ stage_status w.1 1 Stage.UPLOAD = Some StageStatus.SUCCEEDED /\
  objects w.2 !! cover_key = None /\ objects w.2 !! sample_key = Some ("application/pdf", "ten pages").
Proof. vm_compute. auto. Qed.

(** After a failed upload the resumed run has the source in memory again and not
    the stamped copy: it ships the original as the distribution copy, without
    the sample, and succeeds. *)
Example resumed_run_ships_the_original :
  let w := toy_task all_well 100000000 waiting in
  stage_status w.1 1 Stage.WATERMARK = Some StageStatus.SUCCEEDED /\
  (j_status <$> jobs w.1 !! 1%N) = Some JobStatus.SUCCEEDED /\
  objects w.2 !! distribution_key = Some ("application/pdf", pdf) /\ objects w.2 !! sample_key = None.
Proof. vm_compute. auto. Qed.

(** A job cancelled while a stage executes is finished all the same. *)
Definition cancelled_during (s : Stage.t) : Conditions :=
  mkConditions all_well 10 (fun _ => 10) (fun _ => 10) (fun _ => 5) 10 1000000
    (fun s' d => if decide (s' = s) then ((j ← get_job 1; cancel 10 j) d).2 else d).
Example cancellation_is_overwritten :
  let w := (run_job default_automation toy_library (fun _ => "boom") (cancelled_during Stage.UPLOAD) 1 queued).2 in
  (j_status <$> jobs w.1 !! 1%N) = Some JobStatus.SUCCEEDED.
Proof. vm_compute. reflexivity. Qed.
