(* ===== verification/Flags.v ===== *)
(** * Feature flags (apps/admin/services/flags.py, models.py, schemas.py)

    The flag table and its audit log, every operation of [FlagService], and the
    payload validation in front of it.  SHA-256 is a parameter: a bucket is a
    function of the flag key and the user, and nothing else is used of it.  The
    audit log is the list of its rows in the order they were written; flags
    are read through their unique key. *)

From S2P Require Import Prelude Store Keys Json.

(** ** Data model *)

Record FeatureFlag := mkFlag {
  f_id : uuid;
  f_key : string;
  f_enabled : bool;
  f_description : string;
  f_rollout_percent : Z;
  f_allowlist : list string;
  f_updated_by : option uuid;
}.
#[export] Instance Flag_row : Row FeatureFlag := f_id.

(** The unique column. *)
Definition key_col (f : FeatureFlag) : option string := Some (f_key f).

Record Snapshot := mkSnapshot {
  s_enabled : bool;
  s_description : string;
  s_rollout_percent : Z;
  s_allowlist : list string;
}.

(** [before] and [after] are [{}] ([None]) where there is no flag. *)
Record FlagAudit := mkAudit {
  a_flag_key : string;
  a_action : string;
  a_before : option Snapshot;
  a_after : option Snapshot;
  a_reason : string;
  a_actor_id : option uuid;
  a_created_at : datetime;
}.

(** The two tables, and the keys of the shared cache. *)
Record FlagDb := mkFlagDb {
  flags : table FeatureFlag;
  audit_log : list FlagAudit;
  cache : gmap string string;
}.
Definition with_flags (t : table FeatureFlag) (d : FlagDb) : FlagDb := mkFlagDb t (audit_log d) (cache d).
Definition with_audits (l : list FlagAudit) (d : FlagDb) : FlagDb := mkFlagDb (flags d) l (cache d).
Definition with_cache (c : gmap string string) (d : FlagDb) : FlagDb := mkFlagDb (flags d) (audit_log d) c.

Definition CACHE_KEY : string := "flags:all".

(** ** Payloads *)

Record FlagCreate := mkCreate {
  fc_key : string;
  fc_enabled : bool;
  fc_description : string;
  fc_rollout_percent : Z;
  fc_allowlist : list uuid;
}.

Record FlagUpdate := mkUpdate {
  fu_enabled : option bool;
  fu_description : option string;
  fu_rollout_percent : option Z;
  fu_allowlist : option (list uuid);
  fu_reason : string;
}.

Definition is_lower (c : ascii) : bool := let n := N_of_ascii c in ((97 <=? n) && (n <=? 122))%N.
Definition is_digit (c : ascii) : bool := let n := N_of_ascii c in ((48 <=? n) && (n <=? 57))%N.

(** [^[a-z][a-z0-9_.-]{1,80}$] *)
Definition key_pattern (s : string) : bool :=
  match s with
  | String c r =>
      is_lower c && bool_decide (1 <= String.length r <= 80)%nat &&
      sall (fun d => is_lower d || is_digit d || (d =? "_")%char || (d =? ".")%char || (d =? "-")%char) r
  | "" => false
  end.

Definition normal_key (key : string) : string := lower (strip key).

(** [FlagCreate._valid_key], after the field is stripped and its length checked. *)
Definition valid_key (value : string) : option string :=
  let value := strip value in
  if bool_decide (2 <= String.length value <= 80)%nat && key_pattern (normal_key value)
  then Some (normal_key value) else None.

Definition rollout_ok (p : Z) : bool := (0 <=? p) && (p <=? 100).
Definition allowlist_ok {A} (l : list A) : bool := bool_decide (length l <= 200)%nat.
Definition text_ok (s : string) : bool := bool_decide (String.length s <= 500)%nat.
Definition opt_ok {A} (p : A -> bool) (o : option A) : bool := match o with Some a => p a | None => true end.

(** The request body, validated. *)
Definition flag_create (p : FlagCreate) : option FlagCreate :=
  key ← valid_key (fc_key p);
  let description := strip (fc_description p) in
  if text_ok description && rollout_ok (fc_rollout_percent p) && allowlist_ok (fc_allowlist p)
  then Some (mkCreate key (fc_enabled p) description (fc_rollout_percent p) (fc_allowlist p)) else None.

Definition flag_update_ok (p : FlagUpdate) : bool :=
  opt_ok text_ok (fu_description p) && opt_ok rollout_ok (fu_rollout_percent p) &&
  opt_ok allowlist_ok (fu_allowlist p) && text_ok (fu_reason p).
Definition flag_update (p : FlagUpdate) : option FlagUpdate :=
  let p := mkUpdate (fu_enabled p) (strip <$> fu_description p) (fu_rollout_percent p) (fu_allowlist p)
             (strip (fu_reason p)) in
  if flag_update_ok p then Some p else None.

(** ** Reading *)

Record FlagEvaluation := mkEvaluation { e_key : string; e_enabled : bool; e_reason : string }.

Section service.
(** [hashlib.sha256(text.encode()).digest()] *)
Context (sha256 : string -> list Z).

(** [int.from_bytes(digest[:4], "big") % 100] *)
Definition from_bytes (bs : list Z) : Z := foldl (fun n b => 256 * n + b) 0 bs.
Definition bucket_of (key : string) (user_id : uuid) : Z :=
  from_bytes (take 4 (sha256 (append key (append ":" (string_of_uuid user_id))))) mod 100.

Definition has_key (key : string) (f : FeatureFlag) : bool := String.eqb (f_key f) key.

Definition list_flags : M FlagDb (list FeatureFlag) :=
  gets (fun d => merge_sort (fun f g => Is_true (String.leb (f_key f) (f_key g))) (rows (flags d))).

Definition find_flag (key : string) : M FlagDb (option FeatureFlag) := fun d =>
  (one_or_none (select (has_key (normal_key key)) (flags d)), d).

Definition get_flag (key : string) : M FlagDb FeatureFlag :=
  flag ← find_flag key;
  match flag with None => raise (app_error NotFoundError "") | Some f => mret f end.

(** What one flag says for one user, the key as the caller wrote it. *)
Definition decide_flag (key : string) (user_id : option uuid) (flag : option FeatureFlag) : FlagEvaluation :=
  match flag with
  | None => mkEvaluation key false "unknown_flag"
  | Some f =>
      if negb (f_enabled f) then mkEvaluation key false "disabled" else
      if match user_id with Some u => bool_decide (string_of_uuid u ∈ f_allowlist f) | None => false end
      then mkEvaluation key true "allowlisted" else
      if 100 <=? f_rollout_percent f then mkEvaluation key true "fully_rolled_out" else
      if f_rollout_percent f <=? 0 then mkEvaluation key false "rollout_zero" else
      match user_id with
      | None => mkEvaluation key false "no_user_for_rollout"
      | Some u =>
          let bucket := bucket_of key u in
          mkEvaluation key (bucket <? f_rollout_percent f)
            (append "rollout_bucket_" (append (py_str_int bucket) (append "_of_" (py_str_int (f_rollout_percent f)))))
      end
  end.

Definition evaluate (key : string) (user_id : option uuid) : M FlagDb FlagEvaluation :=
  flag ← find_flag key; mret (decide_flag key user_id flag).

Definition evaluate_many (keys : list string) (user_id : option uuid) : M FlagDb (gmap string bool * list string) :=
  let wanted := map normal_key keys in
  d ← get;
  let found : gmap string FeatureFlag :=
    foldl (fun m f => <[f_key f := f]> m) ∅ (select (fun f => bool_decide (f_key f ∈ wanted)) (flags d)) in
  for_acc (fun '(decisions, unknown) key =>
    match found !! key with
    | None => mret (<[key := false]> decisions, unknown ++ [key])
    | Some _ => ev ← evaluate key user_id; mret (<[key := e_enabled ev]> decisions, unknown)
    end) (∅, []) wanted.
End service.

(** ** Writing *)

Definition snapshot (f : FeatureFlag) : Snapshot :=
  mkSnapshot (f_enabled f) (f_description f) (f_rollout_percent f) (f_allowlist f).

(** The CHECK constraint on [rollout_percent], and the unique key. *)
Definition insert_flag (f : FeatureFlag) (t : table FeatureFlag) : result (table FeatureFlag) :=
  if rollout_ok (f_rollout_percent f) then insert_new key_col f t else Raise IntegrityErr.
Definition flush_flag (f : FeatureFlag) : M FlagDb unit :=
  if rollout_ok (f_rollout_percent f) then modify (fun d => with_flags (save f (flags d)) d) else raise IntegrityErr.

Definition audit (now : datetime) (flag : FeatureFlag) (action : string) (before : option Snapshot) (reason : string)
    (actor_id : option uuid) : M FlagDb unit :=
  modify (fun d => with_audits (audit_log d ++
    [mkAudit (f_key flag) action before (if String.eqb action "deleted" then None else Some (snapshot flag))
       (stake 500 reason) actor_id now]) d).

(** [redis]: [None] without a client, else whether the command gets through. *)
Definition invalidate (redis : option bool) : M FlagDb unit :=
  match redis with
  | Some true => modify (fun d => with_cache (delete CACHE_KEY (cache d)) d)
  | _ => mret tt
  end.

Definition create (redis : option bool) (now : datetime) (id : uuid) (payload : FlagCreate) (actor_id : option uuid)
    : M FlagDb FeatureFlag :=
  let flag := mkFlag id (fc_key payload) (fc_enabled payload) (fc_description payload) (fc_rollout_percent payload)
                (map string_of_uuid (fc_allowlist payload)) actor_id in
  _ ← savepoint (d ← get; t ← of_result (insert_flag flag (flags d)); modify (with_flags t))
        (raise (app_error ConflictError ""));
  _ ← audit now flag "created" None "" actor_id;
  _ ← invalidate redis;
  mret flag.

Definition apply_update (payload : FlagUpdate) (actor_id : option uuid) (f : FeatureFlag) : FeatureFlag :=
  mkFlag (f_id f) (f_key f) (default (f_enabled f) (fu_enabled payload))
    (default (f_description f) (fu_description payload)) (default (f_rollout_percent f) (fu_rollout_percent payload))
    (default (f_allowlist f) (map string_of_uuid <$> fu_allowlist payload)) actor_id.

Definition update (redis : option bool) (now : datetime) (key : string) (payload : FlagUpdate) (actor_id : option uuid)
    : M FlagDb FeatureFlag :=
  flag ← get_flag key;
  let before := snapshot flag in
  let flag := apply_update payload actor_id flag in
  _ ← audit now flag "updated" (Some before) (fu_reason payload) actor_id;
  _ ← flush_flag flag;
  _ ← invalidate redis;
  mret flag.

Definition delete_flag (redis : option bool) (now : datetime) (key : string) (actor_id : option uuid) (reason : string)
    : M FlagDb unit :=
  flag ← get_flag key;
  let before := snapshot flag in
  _ ← audit now flag "deleted" (Some before) reason actor_id;
  _ ← modify (fun d => with_flags (remove flag (flags d)) d);
  invalidate redis.

(** ** The audit log *)

Definition audits (limit offset : nat) (key : option string) : M FlagDb (list FlagAudit * Z) :=
  gets (fun d =>
    let l := List.filter (fun a => if truthy key then bool_decide (Some (a_flag_key a) = key) else true) (audit_log d) in
    (take limit (drop offset (merge_sort (fun a b => Is_true (a_created_at b <=? a_created_at a)) (reverse l))), Z.of_nat (length l))).

(** [DELETE ... WHERE created_at < cutoff], and how many there were. *)
Definition prune_audits (retention_days : Z) (now : datetime) : M FlagDb Z :=
  let cutoff := now - retention_days * DAY in
  d ← get;
  let total := Z.of_nat (length (List.filter (fun a => a_created_at a <? cutoff) (audit_log d))) in
  if total =? 0 then mret 0 else
  _ ← modify (fun d => with_audits (List.filter (fun a => negb (a_created_at a <? cutoff)) (audit_log d)) d);
  mret total.

(** ** Well-typed stores *)

(** What a flag row may hold: a key a service can ask for, a percentage, user
    ids in their printed form. *)
Definition flag_typed (f : FeatureFlag) : Prop :=
  key_pattern (f_key f) = true /\ normal_key (f_key f) = f_key f /\ rollout_ok (f_rollout_percent f) = true /\
  Forall (fun e => exists u, e = string_of_uuid u) (f_allowlist f) /\ allowlist_ok (f_allowlist f) = true /\
  text_ok (f_description f) = true.
Definition audit_typed (a : FlagAudit) : Prop :=
  text_ok (a_reason a) = true /\ a_action a ∈ ["created"; "updated"; "deleted"] /\
  (a_after a = None <-> a_action a = "deleted") /\ (a_before a = None <-> a_action a = "created").

Definition flag_key_unique : table FeatureFlag -> Prop := unique_on key_col.

Record flags_typed (d : FlagDb) : Prop := {
  ft_keyed : keyed (flags d);
  ft_unique : flag_key_unique (flags d);
  ft_rows : map_Forall (fun _ f => flag_typed f) (flags d);
  ft_audits : Forall audit_typed (audit_log d);
}.

Lemma normal_key_idem key : normal_key (normal_key key) = normal_key key.
Proof. unfold normal_key. by autorewrite with text. Qed.

Lemma stake_text n s : (n <= 500)%nat -> text_ok (stake n s) = true.
Proof. intros Hn. apply bool_decide_eq_true_2. pose proof (stake_length n s). lia. Qed.

(** A validated payload is a typed flag. *)
Lemma flag_create_typed p p' id actor :
  flag_create p = Some p' ->
  flag_typed (mkFlag id (fc_key p') (fc_enabled p') (fc_description p') (fc_rollout_percent p')
                (map string_of_uuid (fc_allowlist p')) actor).
Proof.
  unfold flag_create, valid_key. destruct (_ && key_pattern _) eqn:Hk; [|done]. cbn [mbind option_bind].
  destruct (_ && allowlist_ok _) eqn:Hp; [|done]. intros [= <-]. bool_to_prop. cbn.
  repeat split; cbn; try done.
  - apply normal_key_idem.
  - apply Forall_fmap, Forall_true. intros u. by exists u.
  - unfold allowlist_ok. by rewrite length_map.
Qed.

Lemma flag_update_Some p p' : flag_update p = Some p' -> flag_update_ok p' = true.
Proof. unfold flag_update. destruct (flag_update_ok _) eqn:H; [|done]. by intros [= <-]. Qed.

Lemma apply_update_typed p actor f :
  flag_update_ok p = true -> flag_typed f -> flag_typed (apply_update p actor f).
Proof.
  unfold flag_update_ok. intros Hp (H1 & H2 & H3 & H4 & H5 & H6). bool_to_prop.
  destruct p as [en de ro al re]. cbn in *. repeat split; cbn; try done.
  - by destruct ro.
  - destruct al as [l|]; [|done]. cbn. apply Forall_fmap, Forall_true. intros u. by exists u.
  - destruct al as [l|]; [|done]. cbn. unfold allowlist_ok in *. by rewrite length_map.
  - by destruct de.
Qed.

(** ** The flag with a key *)

Lemma has_key_col key f : has_key key f = true <-> key_col f = Some key.
Proof. unfold has_key, key_col. rewrite String.eqb_eq. naive_solver. Qed.

Definition current : string -> table FeatureFlag -> option FeatureFlag := by_key has_key.

Lemma current_Some key t f : keyed t -> flag_key_unique t ->
  current key t = Some f <-> t !! f_id f = Some f /\ f_key f = key.
Proof. intros Hk Hu. unfold current. rewrite (by_key_Some key_col has_key has_key_col) by done. unfold key_col. naive_solver. Qed.

Lemma find_flag_run key d : keyed (flags d) -> flag_key_unique (flags d) ->
  find_flag key d = (Ok (current (normal_key key) (flags d)), d).
Proof.
  intros Hk Hu. unfold find_flag, current. f_equal. by apply (one_by_key key_col has_key has_key_col).
Qed.

Lemma get_flag_inv key d r d' : keyed (flags d) -> flag_key_unique (flags d) -> get_flag key d = (r, d') ->
  d' = d /\ r = opt_result (app_error NotFoundError "") (current (normal_key key) (flags d)).
Proof.
  intros Hk Hu. unfold get_flag. rewrite (bind_ok _ _ _ _ _ (find_flag_run key d Hk Hu)).
  destruct (current _ _); by intros [= <- <-].
Qed.

(** ** What one operation does *)

(** One change to one flag, and the audit row that records it. *)
Record flag_change (now : datetime) (d d' : FlagDb) (a : FlagAudit) : Prop := {
  fch_log : audit_log d' = audit_log d ++ [a];
  fch_before : a_before a = snapshot <$> current (a_flag_key a) (flags d);
  fch_after : a_after a = snapshot <$> current (a_flag_key a) (flags d');
  fch_others k : k <> a_flag_key a -> current k (flags d') = current k (flags d);
  fch_keyed : keyed (flags d');
  fch_unique : flag_key_unique (flags d');
  fch_at : a_created_at a = now;
}.

Lemma invalidate_run redis d : exists c, invalidate redis d = (Ok tt, with_cache c d).
Proof.
  destruct redis as [[]|]; unfold invalidate; [by eexists|..]; exists (cache d); by destruct d.
Qed.

Ltac flag_cbn := cbn [a_before a_flag_key a_after a_created_at a_action a_reason flags audit_log cache
  with_cache with_flags with_audits].

Section flags_store.
Context (d : FlagDb) (Hk : keyed (flags d)) (Hu : flag_key_unique (flags d)).

Lemma create_flag_inv redis now id p actor r d' : create redis now id p actor d = (r, d') ->
  (exists e, r = Raise e /\ d' = d) \/
  (exists f a, r = Ok f /\ flag_change now d d' a /\ a_action a = "created" /\ a_before a = None /\ a_after a = Some (snapshot f) /\
     a_flag_key a = f_key f /\ flags d' = save f (flags d) /\ a_reason a = "" /\
     f = mkFlag id (fc_key p) (fc_enabled p) (fc_description p) (fc_rollout_percent p)
           (map string_of_uuid (fc_allowlist p)) actor).
Proof.
  unfold create. set (f := mkFlag _ _ _ _ _ _ _).
  intros [(u & s1 & H1 & H)|(e & H1 & ->)]%bind_inv.
  2: { apply savepoint_inv in H1 as [[H1 Hne]|(s1 & _ & H1)]; [|injection H1 as <- <-; left; eauto].
       unfold mbind, M_bind, get in H1. unfold of_result in H1. destruct (insert_flag f (flags d)) eqn:E; [done|].
       injection H1 as <- <-. left; eauto. }
  apply savepoint_inv in H1 as [[H1 _]|(s2 & _ & H1)]; [|done].
  unfold mbind, M_bind, get, of_result in H1. destruct (insert_flag f (flags d)) as [t|e] eqn:E; [|done].
  injection H1 as _ <-. unfold insert_flag in E. case_match; [|done].
  apply (insert_new_by_key key_col has_key has_key_col _ Hk Hu f (f_key f)) in E as (Ht & Hn & Hn2); [|done].
  destruct (by_key_save key_col has_key has_key_col _ Hk Hu f (f_key f) eq_refl (or_introl (conj Hn2 Hn)))
    as (Hkt & Hut & Hc & Ho). fold current in *.
  erewrite bind_ok in H by reflexivity. destruct (invalidate_run redis (with_audits (audit_log d ++
    [mkAudit (f_key f) "created" None (Some (snapshot f)) (stake 500 "") actor now]) (with_flags t d))) as [c Hc'].
  erewrite bind_ok in H by exact Hc'. injection H as <- <-. right.
  exists f, (mkAudit (f_key f) "created" None (Some (snapshot f)) "" actor now).
  split; [done|]. split; [|flag_cbn; by split_and!]. subst t.
  constructor; flag_cbn; [done|by rewrite Hn2|by rewrite Hc|done..].
Qed.

Lemma update_inv redis now key p actor r d' : update redis now key p actor d = (r, d') ->
  (exists e, r = Raise e) \/
  (exists f a, current (normal_key key) (flags d) = Some f /\ r = Ok (apply_update p actor f) /\
     flag_change now d d' a /\ a_action a = "updated" /\ a_flag_key a = f_key f /\
     a_before a = Some (snapshot f) /\ a_after a = Some (snapshot (apply_update p actor f)) /\
     a_reason a = stake 500 (fu_reason p) /\ flags d' = save (apply_update p actor f) (flags d)).
Proof.
  unfold update. intros [(f & s1 & H1 & H)|(e & H1 & ->)]%bind_inv; [|left; eauto].
  apply get_flag_inv in H1 as [-> H1]; [|done..]. destruct (current _ _) as [g|] eqn:Hg; [|done].
  injection H1 as ->. pose proof (proj1 (current_Some _ _ _ Hk Hu) Hg) as [Hin Hkey].
  erewrite bind_ok in H by reflexivity. unfold flush_flag in H.
  destruct (rollout_ok _) eqn:Hro; [|left; injection H as <- _; eauto].
  erewrite bind_ok in H by reflexivity.
  set (f := apply_update p actor g) in *. change (f_key g) with (f_key f) in Hkey.
  set (a := mkAudit (f_key f) "updated" (Some (snapshot g)) (Some (snapshot f)) (stake 500 (fu_reason p)) actor now).
  destruct (invalidate_run redis (with_flags (save f (flags d)) (with_audits (audit_log d ++ [a]) d))) as [c Hc].
  erewrite bind_ok in H by exact Hc. injection H as <- <-. right.
  exists g, a. split; [done|]. split; [done|]. split; [|by split_and!].
  assert (Hsame : current (f_key f) (flags d) = Some g) by (by rewrite Hkey).
  destruct (by_key_save key_col has_key has_key_col _ Hk Hu f (f_key f) eq_refl) as (Hkt & Hut & Hcf & Ho);
    [right; by exists g|]. fold current in *.
  constructor; flag_cbn; [done|..]; unfold a; flag_cbn; [by rewrite Hsame|by rewrite Hcf|done..].
Qed.

Lemma delete_inv redis now key actor reason r d' : delete_flag redis now key actor reason d = (r, d') ->
  (exists e, r = Raise e) \/
  (exists f a, current (normal_key key) (flags d) = Some f /\ r = Ok tt /\
     flag_change now d d' a /\ a_action a = "deleted" /\ a_flag_key a = f_key f /\
     a_before a = Some (snapshot f) /\ a_after a = None /\ a_reason a = stake 500 reason /\
     flags d' = remove f (flags d)).
Proof.
  unfold delete_flag. intros [(f & s1 & H1 & H)|(e & H1 & ->)]%bind_inv; [|left; eauto].
  apply get_flag_inv in H1 as [-> H1]; [|done..]. destruct (current _ _) as [g|] eqn:Hg; [|done].
  injection H1 as ->. pose proof (proj1 (current_Some _ _ _ Hk Hu) Hg) as [Hin Hkey].
  do 2 erewrite bind_ok in H by reflexivity.
  set (a := mkAudit (f_key g) "deleted" (Some (snapshot g)) None (stake 500 reason) actor now).
  destruct (invalidate_run redis (with_flags (remove g (flags d)) (with_audits (audit_log d ++ [a]) d))) as [c Hc].
  pose proof (eq_trans (eq_sym Hc) H) as E. injection E as <- <-. right.
  exists g, a. split; [done|]. split; [done|]. split; [|by split_and!].
  assert (Hsame : current (f_key g) (flags d) = Some g) by (by rewrite Hkey).
  destruct (by_key_remove key_col has_key has_key_col _ Hk Hu g (f_key g) Hsame) as (Hkt & Hut & Hcf & Ho).
  fold current in *.
  constructor; flag_cbn; [done|..]; unfold a; flag_cbn; [by rewrite Hsame|by rewrite Hcf|done..].
Qed.
End flags_store.

(** ** Requests *)

(** The requests that change flags, and the nightly pruning; a request that
    raises is rolled back. *)
Inductive call :=
  | Create (id : uuid) (payload : FlagCreate)
  | Update (key : string) (payload : FlagUpdate)
  | Delete (key : string) (reason : string)
  | Prune (retention_days : Z).

Definition handle (redis : option bool) (now : datetime) (actor_id : option uuid) (c : call) : M FlagDb unit :=
  in_transaction
    match c with
    | Create id p =>
        match flag_create p with
        | None => raise (app_error ValidationError "")
        | Some p => _ ← create redis now id p actor_id; mret tt
        end
    | Update key p =>
        match flag_update p with
        | None => raise (app_error ValidationError "")
        | Some p => _ ← update redis now key p actor_id; mret tt
        end
    | Delete key reason => delete_flag redis now key actor_id reason
    | Prune days => _ ← prune_audits days now; mret tt
    end.

(** One request after another, each at its time, whatever each answers. *)
Definition history (redis : option bool) (d : FlagDb) (l : list (datetime * option uuid * call)) : FlagDb :=
  foldl (fun d '(now, actor, c) => (handle redis now actor c d).2) d l.

Lemma prune_inv days now d r d' : prune_audits days now d = (r, d') ->
  exists n, r = Ok n /\ flags d' = flags d /\
    audit_log d' = List.filter (fun a => negb (a_created_at a <? now - days * DAY)) (audit_log d) /\
    n = Z.of_nat (length (audit_log d)) - Z.of_nat (length (audit_log d')).
Proof.
  unfold prune_audits. erewrite bind_ok by reflexivity. set (P := fun a => a_created_at a <? now - days * DAY).
  pose proof (List.filter_length P (audit_log d)) as Hlen.
  assert (Hnil : length (List.filter P (audit_log d)) = 0%nat -> List.filter (fun a => negb (P a)) (audit_log d) = audit_log d).
  { intros H0%length_zero_iff_nil. clear Hlen. induction (audit_log d) as [|a l IH]; [done|]. cbn in *.
    destruct (P a); [done|]. cbn. f_equal. auto. }
  case_match eqn:Hn.
  - apply Z.eqb_eq in Hn. specialize (Hnil ltac:(lia)). intros [= <- <-]. exists 0. split_and!; [done|done|by rewrite <- Hnil at 1|lia].
  - erewrite bind_ok by reflexivity. intros [= <- <-]. eexists. split_and!; [done..|]. flag_cbn.
    change (fun a => negb (a_created_at a <? now - days * DAY)) with (fun a => negb (P a)). lia.
Qed.

(** What a request leaves behind, on every branch. *)
Lemma handle_cases redis now actor c d : keyed (flags d) -> flag_key_unique (flags d) ->
  let d' := (handle redis now actor c d).2 in
  d' = d \/ (exists a, flag_change now d d' a) \/
  (flags d' = flags d /\ exists cutoff, audit_log d' = List.filter (fun a => negb (a_created_at a <? cutoff)) (audit_log d)).
Proof.
  intros Hk Hu. cbv zeta. destruct (handle redis now actor c d) as [r d'] eqn:H. cbn [snd].
  apply in_transaction_inv in H as [(u & -> & H)|(e & -> & ->)]; [|by left].
  destruct c as [id p|key p|key reason|days].
  - destruct (flag_create p) as [p'|]; [|done]. apply bind_ok_inv in H as (f & s1 & H & [= <- <-]).
    apply create_flag_inv in H as [(e & [=] & _)|(f' & a & _ & H & _)]; [|done..]. right. left. eauto.
  - destruct (flag_update p) as [p'|]; [|done]. apply bind_ok_inv in H as (f & s1 & H & [= <- <-]).
    apply update_inv in H as [(e & [=])|(g & a & _ & _ & H & _)]; [|done..]. right. left. eauto.
  - apply delete_inv in H as [(e & [=])|(g & a & _ & _ & H & _)]; [|done..]. right. left. eauto.
  - apply bind_ok_inv in H as (n & s1 & H & [= <- <-]).
    apply prune_inv in H as (m & _ & Hf & Hl & _). right. right. eauto.
Qed.

(** ** The audit trail *)

Definition audits_of (k : string) (l : list FlagAudit) : list FlagAudit :=
  List.filter (fun a => String.eqb (a_flag_key a) k) l.

(** Each row takes over where the one before it left the flag. *)
Fixpoint linked (l : list FlagAudit) : Prop :=
  match l with
  | a :: (b :: _) as l' => a_after a = a_before b /\ linked l'
  | _ => True
  end.

Record trail (d : FlagDb) : Prop := {
  tr_keyed : keyed (flags d);
  tr_unique : flag_key_unique (flags d);
  tr_linked k : linked (audits_of k (audit_log d));
  tr_last k a : last (audits_of k (audit_log d)) = Some a -> a_after a = snapshot <$> current k (flags d);
}.

Lemma linked_app l a : linked l -> (forall b, last l = Some b -> a_after b = a_before a) -> linked (l ++ [a]).
Proof.
  induction l as [|b l IH]; intros H Hl; [done|]. destruct l as [|c l].
  - split; [by apply Hl|done].
  - destruct H as [H1 H2]. split; [done|]. by apply IH.
Qed.

Lemma linked_drop n l : linked l -> linked (drop n l).
Proof.
  revert l. induction n as [|n IH]; intros l H; [done|]. destruct l as [|a l]; [done|]. cbn [drop].
  apply IH. destruct l as [|b l]; [done|]. by destruct H.
Qed.

Lemma audits_of_app k l a : audits_of k (l ++ [a]) = audits_of k l ++ (if String.eqb (a_flag_key a) k then [a] else []).
Proof. unfold audits_of. rewrite List.filter_app. cbn. by destruct (String.eqb _ _). Qed.

Lemma trail_change now d d' a : trail d -> flag_change now d d' a -> trail d'.
Proof.
  intros [Hk Hu Hl Hla] [H1 H2 H3 H4 H5 H6 _]. constructor; [done..| |].
  - intros k. rewrite H1, audits_of_app. destruct (String.eqb_spec (a_flag_key a) k) as [<-|Hne]; [|by rewrite app_nil_r].
    apply linked_app; [done|]. intros b Hb. rewrite H2. by apply Hla.
  - intros k b. rewrite H1, audits_of_app. destruct (String.eqb_spec (a_flag_key a) k) as [<-|Hne].
    + rewrite last_snoc. by intros [= <-].
    + rewrite app_nil_r, H4 by done. apply Hla.
Qed.

(** In a log in order of time, pruning by age drops the oldest rows. *)
Definition in_order (l : list FlagAudit) : Prop := StronglySorted (fun a b => a_created_at a <= a_created_at b) l.

Lemma prune_drop cutoff l : in_order l ->
  exists n, List.filter (fun a => negb (a_created_at a <? cutoff)) l = drop n l.
Proof.
  induction 1 as [|a l Hs [n IH] Ha]; [by exists 0%nat|]. cbn [List.filter].
  destruct (Z.ltb_spec (a_created_at a) cutoff) as [Hlt|Hge]; cbn [negb]; [exists (S n); exact IH|].
  exists 0%nat. rewrite drop_0. f_equal. clear IH Hs. induction Ha as [|b l Hb _ IHl]; [done|]. cbn [List.filter].
  rewrite (proj2 (Z.ltb_ge _ _)) by lia. cbn. by f_equal.
Qed.

Lemma in_order_audits k l : in_order l -> in_order (audits_of k l).
Proof.
  induction 1 as [|a l Hs IH Ha]; [constructor|]. cbn. destruct (String.eqb _ _); [|done]. constructor; [done|].
  apply Forall_forall. intros b Hb. rewrite Forall_forall in Ha. apply Ha.
  apply list_elem_of_In, filter_In in Hb as [Hb _]. by apply list_elem_of_In.
Qed.

Lemma audits_of_prune k cutoff l :
  audits_of k (List.filter (fun a => negb (a_created_at a <? cutoff)) l) =
  List.filter (fun a => negb (a_created_at a <? cutoff)) (audits_of k l).
Proof.
  unfold audits_of. induction l as [|a l IH]; [done|]. cbn [List.filter].
  destruct (negb _) eqn:E1, (String.eqb _ _) eqn:E2; cbn [List.filter]; rewrite ?E1, ?E2, IH; done.
Qed.

Lemma trail_prune d d' cutoff : trail d -> in_order (audit_log d) -> flags d' = flags d ->
  audit_log d' = List.filter (fun a => negb (a_created_at a <? cutoff)) (audit_log d) -> trail d'.
Proof.
  intros [Hk Hu Hl Hla] Ho Hf Ha. constructor; rewrite ?Hf; [done..| |]; intros k; rewrite Ha, audits_of_prune;
    destruct (prune_drop cutoff (audits_of k (audit_log d))) as [n ->]; try by apply in_order_audits.
  - by apply linked_drop.
  - intros a H. apply Hla. by rewrite <- (take_drop n (audits_of k (audit_log d))), last_app, H.
Qed.

(** What a sequence of requests at increasing times keeps. *)
Definition no_later (now : datetime) (l : list FlagAudit) : Prop := Forall (fun a => a_created_at a <= now) l.

Lemma in_order_app l a : in_order l -> no_later (a_created_at a) l -> in_order (l ++ [a]).
Proof.
  induction 1 as [|b l Hs IH Hb]; intros Hn; cbn; [repeat constructor|]. apply Forall_cons in Hn as [Hb' Hn].
  constructor; [by apply IH|]. apply Forall_app. split; [done|]. by constructor.
Qed.

Lemma filter_sublist {A} (P : A -> bool) (Q : A -> Prop) l : Forall Q l -> Forall Q (List.filter P l).
Proof. induction 1; cbn; [constructor|]. destruct (P x); by try constructor. Qed.

Lemma in_order_prune cutoff l : in_order l -> in_order (List.filter (fun a => negb (a_created_at a <? cutoff)) l).
Proof. induction 1 as [|a l Hs IH Ha]; [constructor|]. cbn. destruct (negb _); [|done]. constructor; [done|]. by apply filter_sublist. Qed.

Lemma handle_trail redis now actor c d :
  trail d -> in_order (audit_log d) -> no_later now (audit_log d) ->
  let d' := (handle redis now actor c d).2 in trail d' /\ in_order (audit_log d') /\ no_later now (audit_log d').
Proof.
  intros Ht Ho Hn. cbv zeta. pose proof (handle_cases redis now actor c d (tr_keyed d Ht) (tr_unique d Ht)) as H.
  cbv zeta in H. revert H. generalize (handle redis now actor c d).2. intros d' H. destruct H as [->|[(a & Ha)|[Hf (cutoff & Hl)]]].
  - done.
  - pose proof (fch_log _ _ _ _ Ha) as Hlog. pose proof (fch_at _ _ _ _ Ha) as Hat. rewrite Hlog. split_and!.
    + by eapply trail_change.
    + apply in_order_app; [done|]. by rewrite Hat.
    + apply Forall_app. split; [done|]. constructor; [lia|constructor].
  - rewrite Hl. split_and!.
    + by eapply trail_prune.
    + by apply in_order_prune.
    + by apply filter_sublist.
Qed.

(** ** Lemmas of the batch evaluation *)

Lemma found_lookup (l : list FeatureFlag) (m : gmap string FeatureFlag) k :
  is_Some (foldl (fun m f => <[f_key f := f]> m) m l !! k) <-> is_Some (m !! k) \/ exists f, f ∈ l /\ f_key f = k.
Proof.
  revert m. induction l as [|f l IH]; intros m; cbn [foldl]; [set_solver|]. rewrite IH.
  rewrite lookup_insert_is_Some'. set_solver.
Qed.

Lemma in_wanted_current d k (wanted : list string) : keyed (flags d) -> flag_key_unique (flags d) -> k ∈ wanted ->
  is_Some (foldl (fun (m : gmap string FeatureFlag) f => <[f_key f := f]> m) ∅
    (select (fun f => bool_decide (f_key f ∈ wanted)) (flags d)) !! k) <-> is_Some (current k (flags d)).
Proof.
  intros Hk Hu Hin. rewrite found_lookup, lookup_empty. split.
  - intros [[? [=]]|(f & Hf & <-)]. apply elem_of_select_keyed in Hf as [Hf _]; [|done].
    exists f. by apply current_Some.
  - intros [f Hf]. apply current_Some in Hf as [Hf <-]; [|done..]. right. exists f. split; [|done].
    apply elem_of_select. split; [eauto|]. by apply bool_decide_eq_true_2.
Qed.

(** The decision for a key, in a given store. *)
Definition decision (sha256 : string -> list Z) (user : option uuid) (d : FlagDb) (k : string) : bool :=
  e_enabled (decide_flag sha256 k user (current (normal_key k) (flags d))).

Lemma evaluate_run sha256 key user d : keyed (flags d) -> flag_key_unique (flags d) ->
  evaluate sha256 key user d = (Ok (decide_flag sha256 key user (current (normal_key key) (flags d))), d).
Proof. intros Hk Hu. unfold evaluate. by rewrite (bind_ok _ _ _ _ _ (find_flag_run key d Hk Hu)). Qed.

Lemma many_loop sha256 user d (found : gmap string FeatureFlag) (wanted : list string)
    (dec : gmap string bool) (unk : list string) :
  keyed (flags d) -> flag_key_unique (flags d) ->
  (forall k, k ∈ wanted -> normal_key k = k /\ (is_Some (found !! k) <-> is_Some (current k (flags d)))) ->
  exists (dec' : gmap string bool) unk',
    for_acc (fun '(decisions, unknown) key =>
      match found !! key with
      | None => mret (<[key := false]> decisions, unknown ++ [key])
      | Some _ => ev ← evaluate sha256 key user; mret (<[key := e_enabled ev]> decisions, unknown)
      end) (dec, unk) wanted d = (Ok (dec', unk'), d) /\
    (forall k : string, dec' !! k = if decide (k ∈ wanted) then Some (decision sha256 user d k) else dec !! k) /\
    unk' = unk ++ List.filter (fun k => bool_decide (current k (flags d) = None)) wanted.
Proof.
  intros Hk Hu. revert dec unk. induction wanted as [|key wanted IH]; intros dec unk Hw.
  - exists dec, unk. cbn. by rewrite app_nil_r.
  - destruct (Hw key) as [Hn Hf]; [left|]. cbn [for_acc List.filter].
    assert (Hstep : exists u, (match found !! key with
      | None => mret (<[key := false]> dec, unk ++ [key])
      | Some _ => ev ← evaluate sha256 key user; mret (<[key := e_enabled ev]> dec, unk)
      end) d = (Ok (<[key := decision sha256 user d key]> dec, unk ++ u), d) /\
      u = if bool_decide (current key (flags d) = None) then [key] else []).
    { destruct (found !! key) as [g|] eqn:E.
      - exists []. rewrite (bind_ok _ _ _ _ _ (evaluate_run sha256 key user d Hk Hu)), app_nil_r.
        split; [done|]. destruct (proj1 Hf) as [f Hc]; [done|]. by rewrite Hc.
      - exists [key]. assert (Hc : current key (flags d) = None).
        { apply eq_None_not_Some. intros H%Hf. by destruct H. }
        split; [|by rewrite Hc]. unfold decision. by rewrite Hn, Hc. }
    destruct Hstep as (u & Hstep & ->). rewrite (bind_ok _ _ _ _ _ Hstep).
    destruct (IH (<[key := decision sha256 user d key]> dec) (unk ++ (if bool_decide (current key (flags d) = None) then [key] else [])))
      as (dec' & unk' & Hr & Hd & Hun); [by intros k Hin; apply Hw; right|].
    exists dec', unk'. split; [exact Hr|]. split.
    + intros k. rewrite Hd. clear -k. pose proof (elem_of_cons wanted k key) as Hin.
      destruct (decide (k ∈ wanted)), (decide (k ∈ key :: wanted)); try tauto.
      * assert (k = key) as -> by tauto. by rewrite lookup_insert_eq.
      * rewrite lookup_insert_ne; [done|]. intros ->. tauto.
    + rewrite Hun, <- app_assoc. f_equal. by destruct (bool_decide _).
Qed.

(** ** Requests keep the store well-typed *)

Lemma map_Forall_save (P : FeatureFlag -> Prop) f (t : table FeatureFlag) :
  P f -> map_Forall (fun _ => P) t -> map_Forall (fun _ => P) (save f t).
Proof. intros. by apply map_Forall_insert_2. Qed.

Lemma handle_keeps_typed redis now actor c : preserves flags_typed (handle redis now actor c).
Proof.
  intros d r d' [Hk Hu Hr Ha] H. apply in_transaction_inv in H as [(u & -> & H)|(e & -> & ->)]; [|done].
  assert (Hgrow : forall a, flag_change now d d' a -> map_Forall (fun _ f => flag_typed f) (flags d') -> audit_typed a ->
            flags_typed d').
  { intros a [Hl _ _ _ Hk' Hu' _] Hr' Hta. constructor; [done..|]. rewrite Hl. apply Forall_app. split; [done|]. by apply Forall_singleton. }
  destruct c as [id p|key p|key reason|days].
  - destruct (flag_create p) as [p'|] eqn:Hp; [|done]. apply bind_ok_inv in H as (f & s1 & H & [= <- <-]).
    apply create_flag_inv in H as [(e & [=] & _)|(f' & a & [= <-] & Hc & Hac & Hab & Haf & _ & Hf & Hre & ->)]; [|done..].
    apply (Hgrow a Hc); [rewrite Hf; apply map_Forall_save; [by eapply flag_create_typed|done]|].
    split_and!; rewrite ?Hre, ?Hac, ?Haf, ?Hab; [done|set_solver|done|done].
  - destruct (flag_update p) as [p'|] eqn:Hp; [|done]. apply flag_update_Some in Hp. apply bind_ok_inv in H as (f & s1 & H & [= <- <-]).
    apply update_inv in H as [(e & [=])|(g & a & Hg & _ & Hc & Hac & _ & Hab & Haf & Hre & Hf)]; [|done..].
    apply current_Some in Hg as [Hg _]; [|done..].
    apply (Hgrow a Hc); [rewrite Hf; apply map_Forall_save; [apply apply_update_typed; [done|by apply (Hr _ _ Hg)]|done]|].
    split_and!; rewrite ?Hre, ?Hac, ?Haf, ?Hab; [by apply stake_text|set_solver|done|done].
  - apply delete_inv in H as [(e & [=])|(g & a & Hg & _ & Hc & Hac & _ & Hab & Haf & Hre & Hf)]; [|done..].
    apply (Hgrow a Hc); [rewrite Hf; by apply map_Forall_delete|].
    split_and!; rewrite ?Hre, ?Hac, ?Haf, ?Hab; [by apply stake_text|set_solver|done|done].
  - apply bind_ok_inv in H as (n & s1 & H & [= <- <-]).
    apply prune_inv in H as (m & _ & Hf & Hl & _).
    constructor; rewrite ?Hf; [done..|]. rewrite Hl. by apply filter_sublist.
Qed.

Lemma history_typed redis l d : flags_typed d -> flags_typed (history redis d l).
Proof.
  revert d. induction l as [|[[now actor] c] l IH]; intros d Hd; [done|]. cbn. apply IH.
  destruct (handle redis now actor c d) as [r d'] eqn:E. by eapply handle_keeps_typed.
Qed.

Lemma no_flags_typed : flags_typed (mkFlagDb ∅ [] ∅).
Proof. constructor; [apply keyed_empty|apply unique_empty|apply map_Forall_empty|constructor]. Qed.

(** ** Properties *)

(** Asking for many flags at once gives, for every key asked for, the
    answer that asking for the normalised key alone gives; no other key is
    answered, the unknown keys are exactly the ones no flag has, in the order
    asked, and the call never raises. *)
Theorem evaluate_many_agrees sha256 keys user d : flags_typed d ->
  exists decisions unknown,
    evaluate_many sha256 keys user d = (Ok (decisions, unknown), d) /\
    dom decisions = list_to_set (map normal_key keys) /\
    (forall key, key ∈ keys -> exists ev, evaluate sha256 (normal_key key) user d = (Ok ev, d) /\
       decisions !! normal_key key = Some (e_enabled ev)) /\
    unknown = List.filter (fun k => bool_decide (current k (flags d) = None)) (map normal_key keys).
Proof.
  intros [Hk Hu _ _]. unfold evaluate_many. erewrite bind_ok by reflexivity.
  edestruct (many_loop sha256 user d) as (dec & unk & Hr & Hd & Hun); [done..| |exists dec, unk].
  { intros k Hin. split; [|by apply in_wanted_current].
    apply list_elem_of_In, in_map_iff in Hin as (key & <- & _). apply normal_key_idem. }
  split; [exact Hr|]. split_and!; [| |exact Hun].
  - apply set_eq. intros k. rewrite elem_of_dom, Hd, elem_of_list_to_set, lookup_empty.
    destruct (decide _) as [H|H]; [by split|]. split; [by intros []|done].
  - intros key Hin. eexists. split; [by apply evaluate_run|].
    rewrite Hd, decide_True by (apply list_elem_of_In, in_map, list_elem_of_In, Hin). done.
Qed.


(** C28: whatever requests are made, in whatever order, the stored flags are
    well-typed: keys match the pattern and are their own normal form,
    percentages lie between 0 and 100, allowlists hold at most 200 printed user
    ids, no two flags share a key, audit rows have the shape their action calls
    for. *)
Theorem flags_stay_typed redis (l : list (datetime * option uuid * call)) :
  flags_typed (history redis (mkFlagDb ∅ [] ∅) l).
Proof. apply history_typed, no_flags_typed. Qed.

(** the audit log explains the flags: after any sequence of requests at
    non-decreasing times, pruning included, each audit row of a key starts
    from the state the row before it left, and the last one left what the key
    has now (nothing, when the flag is gone). *)
Theorem audit_trail_explains_flags redis (l : list (datetime * option uuid * call)) :
  StronglySorted (fun x y => x.1.1 <= y.1.1) l ->
  let d := history redis (mkFlagDb ∅ [] ∅) l in
  forall k, linked (audits_of k (audit_log d)) /\
    forall a, last (audits_of k (audit_log d)) = Some a -> a_after a = snapshot <$> current k (flags d).
Proof.
  intros Hs d. enough (H : trail d) by (intros k; split; [apply (tr_linked d H)|apply (tr_last d H)]).
  assert (Hg : forall d0, trail d0 -> in_order (audit_log d0) ->
            Forall (fun x => no_later x.1.1 (audit_log d0)) l -> trail (history redis d0 l)).
  { clear d. induction Hs as [|[[now actor] c] l Hs IH Hx]; intros d0 Ht Ho Hn; [done|].
    apply Forall_cons in Hn as [Hn1 Hn]. destruct (handle_trail redis now actor c d0 Ht Ho Hn1) as (Ht' & Ho' & Hn').
    unfold history in *. cbn [foldl]. apply IH; [done..|]. eapply Forall_impl; [exact Hx|].
    intros x Hle. eapply Forall_impl; [exact Hn'|]. cbn in *. intros a Ha. lia. }
  apply Hg; [|constructor|by apply Forall_true; constructor].
  constructor; [apply keyed_empty|apply unique_empty|done|done].
Qed.

(** raising a rollout only adds users: a request that changes nothing but
    the percentage of a flag, upwards, leaves every flag on for every user (and
    every anonymous caller) it was on for. *)
Theorem raising_rollout_only_adds_users sha256 redis now actor key p reason d f d' :
  flags_typed d ->
  current (normal_key key) (flags d) = Some f -> f_rollout_percent f <= p ->
  handle redis now actor (Update key (mkUpdate None None (Some p) None reason)) d = (Ok tt, d') ->
  forall key' user ev, evaluate sha256 key' user d = (Ok ev, d) -> e_enabled ev = true ->
    exists ev', evaluate sha256 key' user d' = (Ok ev', d') /\ e_enabled ev' = true.
Proof.
  intros [Hk Hu _ _] Hf Hp H key' user ev. apply in_transaction_ok in H.
  unfold flag_update in H. destruct (flag_update_ok _); [|done]. apply bind_ok_inv in H as (g & s1 & H & [= <-]).
  cbn [fu_enabled fu_description fu_rollout_percent fu_allowlist fu_reason] in H. change (strip <$> None) with (@None string) in H.
  apply update_inv in H as [(e & [=])|(g' & a & Hg & _ & Hc & _ & Hak & Hab & Haf & _ & Hfl)]; [|done..].
  assert (g' = f) as -> by congruence. clear Hg.
  pose proof (fch_keyed _ _ _ _ Hc) as Hk'. pose proof (fch_unique _ _ _ _ Hc) as Hu'.
  rewrite !evaluate_run by done. intros [= <-] He. eexists. split; [done|].
  destruct (decide (normal_key key' = f_key f)) as [Hkey|Hne]; [|rewrite (fch_others _ _ _ _ Hc); [done|congruence]].
  pose proof (proj1 (current_Some _ _ _ Hk Hu) Hf) as [Hin Hfk].
  assert (Hcur : current (normal_key key') (flags s1) = Some (apply_update (mkUpdate None None (Some p) None (strip reason)) actor f)).
  { apply current_Some; [done..|]. rewrite Hfl. split; [apply lookup_save_same|done]. }
  rewrite Hkey, Hfk, Hf in He. rewrite Hcur. unfold decide_flag in *. cbn -[bucket_of] in *.
  destruct (negb (f_enabled f)); [done|]. destruct (match user with Some _ => _ | None => _ end); [done|].
  destruct (Z.leb_spec 100 (f_rollout_percent f)), (Z.leb_spec 100 p); try (cbn; lia || done).
  destruct (Z.leb_spec (f_rollout_percent f) 0), (Z.leb_spec p 0); try (cbn; lia || done).
  destruct user as [u|]; [|done]. cbn [e_enabled] in *. apply Z.ltb_lt in He. apply Z.ltb_lt. lia.
Qed.

(** ** Witnesses and examples *)

(** A digest that depends on the text: its length. *)
Definition length_digest (s : string) : list Z := [0; 0; 0; Z.of_nat (String.length s)].

Definition ada : uuid := 1%N.
Definition new_checkout : FlagCreate := mkCreate " New_Checkout " true "The new checkout" 10 [].
Definition raised (p : Z) : call := Update "new_checkout" (mkUpdate None None (Some p) None "rollout").
Definition store_with_flag : FlagDb :=
  history None (mkFlagDb ∅ [] ∅) [(0, Some ada, Create 7 new_checkout)].

Lemma store_with_flag_typed : flags_typed store_with_flag.
Proof. apply history_typed, no_flags_typed. Qed.

Lemma evaluate_many_agrees_witness :
  exists decisions unknown,
    evaluate_many length_digest [" NEW_checkout"; "dark_mode"] (Some 4%N) store_with_flag =
      (Ok (decisions, unknown), store_with_flag) /\
    dom decisions = list_to_set (map normal_key [" NEW_checkout"; "dark_mode"]) /\
    (forall key, key ∈ [" NEW_checkout"; "dark_mode"] ->
       exists ev, evaluate length_digest (normal_key key) (Some 4%N) store_with_flag = (Ok ev, store_with_flag) /\
       decisions !! normal_key key = Some (e_enabled ev)) /\
    unknown = List.filter (fun k => bool_decide (current k (flags store_with_flag) = None))
                (map normal_key [" NEW_checkout"; "dark_mode"]).
Proof. apply (evaluate_many_agrees length_digest). apply store_with_flag_typed. Defined.

Definition audited : FlagDb :=
  history (Some true) (mkFlagDb ∅ [] ∅)
    [(0, Some ada, Create 7 new_checkout); (5, Some ada, raised 50); (9, None, Prune 1)].

Lemma audit_trail_witness :
  linked (audits_of "new_checkout" (audit_log audited)) /\
  forall a, last (audits_of "new_checkout" (audit_log audited)) = Some a ->
    a_after a = snapshot <$> current "new_checkout" (flags audited).
Proof.
  apply (audit_trail_explains_flags (Some true)
    [(0, Some ada, Create 7 new_checkout); (5, Some ada, raised 50); (9, None, Prune 1)]).
  repeat constructor; cbn; lia.
Defined.

Lemma raising_rollout_witness :
  exists ev', evaluate length_digest "new_checkout" (Some 4%N)
      (handle None 5 (Some ada) (raised 60) (handle None 5 (Some ada) (raised 50) store_with_flag).2).2 =
      (Ok ev', (handle None 5 (Some ada) (raised 60) (handle None 5 (Some ada) (raised 50) store_with_flag).2).2) /\
    e_enabled ev' = true.
Proof.
  eapply (raising_rollout_only_adds_users length_digest None 5 (Some ada) "new_checkout" 60 "rollout"
           (handle None 5 (Some ada) (raised 50) store_with_flag).2).
  - apply (history_typed None [(5, Some ada, raised 50)]). apply store_with_flag_typed.
  - vm_compute. reflexivity.
  - vm_compute. discriminate.
  - vm_compute. reflexivity.
  - vm_compute. reflexivity.
  - reflexivity.
Defined.

(** The bucket is hashed from the key as the caller wrote it: two spellings of
    one flag can put the same user on both sides of the rollout. *)
Example spellings_bucket_apart :
  let d := (handle None 5 (Some ada) (raised 50) store_with_flag).2 in
  let ask key := match evaluate length_digest key (Some 4%N) d with (Ok ev, _) => e_enabled ev | _ => false end in
  (ask "new_checkout", ask " new_checkout ") = (true, false).
Proof. vm_compute. reflexivity. Qed.

(** The audit listing compares the key as written; the flag itself is found. *)
Example audit_listing_misses_spelling :
  let d := store_with_flag in
  (is_ok (get_flag "New_Checkout" d).1, (audits 50 0 (Some "New_Checkout") d).1) = (true, Ok ([], 0)).
Proof. vm_compute. reflexivity. Qed.
