(* ===== verification/Reviews.v ===== *)
(** * Reviews and ratings (apps/books/services/reviews.py, routers/engagement.py, routers/admin.py)

    Reviews, votes and moderation, and the rating columns of a book that every
    one of them keeps up to date.  A service method takes the [review] and the
    [book] objects its route has loaded, and writes the columns it assigns: the
    rating columns are computed from the object, not in the database. *)

From S2P Require Import Prelude Store Json PaymentModels Pagination Entitlements.

(** ** Rows (apps/books/models.py, schemas.py) *)

Module ReviewStatus.
Inductive t := PENDING | APPROVED | REJECTED | FLAGGED.
End ReviewStatus.
#[export] Instance ReviewStatus_eq_dec : EqDecision ReviewStatus.t.
Proof. solve_decision. Defined.

#[export] Program Instance ReviewStatus_values : StrEnum ReviewStatus.t := {
  members := [ReviewStatus.PENDING; ReviewStatus.APPROVED; ReviewStatus.REJECTED; ReviewStatus.FLAGGED];
  enum_value s := match s with
                  | ReviewStatus.PENDING => "pending" | ReviewStatus.APPROVED => "approved"
                  | ReviewStatus.REJECTED => "rejected" | ReviewStatus.FLAGGED => "flagged" end;
}.
Solve All Obligations with solve_str_enum.

Record ModerationNote := mkModNote { mn_by : uuid; mn_at : datetime; mn_note : option string }.

Record Review := mkReview {
  r_id : uuid;
  r_book_id : uuid;
  r_user_id : uuid;
  r_rating : Z;
  r_title : option string;
  r_body : option string;
  r_verified_purchase : bool;
  r_status : ReviewStatus.t;
  r_helpful_count : Z;
  r_moderated : option ModerationNote;
  r_created_at : datetime;
  r_deleted_at : option datetime;
}.
#[export] Instance Review_row : Row Review := r_id.

Definition review_key (r : Review) : option (uuid * uuid) := Some (r_book_id r, r_user_id r).

(** The rating columns of a book; the average is the float nearest to that many thousandths. *)
Record Rating := mkRating { rt_sum : Z; rt_count : Z; rt_average : Z }.
Definition unrated : Rating := mkRating 0 0 0.

(** The store of the books service with its review tables; [votes] maps
    (review, user) to [is_helpful]. *)
Record ReviewsDb := mkReviewsDb {
  shop : BooksDb;
  ratings : gmap uuid Rating;
  reviews : table Review;
  votes : gmap (uuid * uuid) bool;
}.
Definition set_shop x d := mkReviewsDb x (ratings d) (reviews d) (votes d).
Definition set_ratings x d := mkReviewsDb (shop d) x (reviews d) (votes d).
Definition set_reviews x d := mkReviewsDb (shop d) (ratings d) x (votes d).
Definition set_votes x d := mkReviewsDb (shop d) (ratings d) (reviews d) x.

Record ReviewCreate := mkReviewCreate { rc_rating : Z; rc_title : option string; rc_body : option string }.
(** A field left out is [None]; a field sent as null is [Some None]. *)
Record ReviewUpdate := mkReviewUpdate {
  ru_rating : option (option Z); ru_title : option (option string); ru_body : option (option string) }.

Definition rating_ok (n : Z) : bool := (1 <=? n) && (n <=? 5).
Definition text_within (n : nat) (o : option string) : bool :=
  match o with Some s => bool_decide (String.length s <= n)%nat | None => true end.
(** The text fields are stripped before they are checked. *)
Definition review_create (p : ReviewCreate) : ReviewCreate :=
  mkReviewCreate (rc_rating p) (strip <$> rc_title p) (strip <$> rc_body p).
Definition review_update (p : ReviewUpdate) : ReviewUpdate :=
  mkReviewUpdate (ru_rating p) (option_map (option_map strip) (ru_title p)) (option_map (option_map strip) (ru_body p)).
Definition review_create_ok (p : ReviewCreate) : bool :=
  rating_ok (rc_rating p) && text_within 255 (rc_title p) && text_within 10000 (rc_body p).
Definition review_update_ok (p : ReviewUpdate) : bool :=
  match ru_rating p with Some (Some n) => rating_ok n | _ => true end &&
  text_within 255 (default None (ru_title p)) && text_within 10000 (default None (ru_body p)).

(** ** The average: [round(sum / count, 3)] *)

(** The integer nearest to [a / b], halves to even. *)
Definition nearest_even (a b : Z) : Z :=
  let q := a / b in
  let r := a mod b in
  if 2 * r <? b then q else if b <? 2 * r then q + 1 else if Z.even q then q else q + 1.

(** [n / d] as a double: [m * 2^-e] with [m] of 53 bits ([n], [d] positive). *)
Definition float_div (n d : Z) : Z * Z :=
  let e := 53 - (Z.log2 n - Z.log2 d) in
  let e := if 2 ^ 53 <=? n * 2 ^ e / d then e - 1 else e in
  (nearest_even (n * 2 ^ e) d, e).

(** [round(x, 3)] is correctly rounded from the exact value of the double. *)
Definition average (sum count : Z) : Z :=
  if (count =? 0) || (sum =? 0) then 0
  else let '(m, e) := float_div sum count in nearest_even (1000 * m) (2 ^ e).

Definition recalculate (b : Rating) : Rating :=
  mkRating (rt_sum b) (rt_count b) (if negb (rt_count b =? 0) then average (rt_sum b) (rt_count b) else 0).

Definition apply_rating_delta (b : Rating) (sum_delta count_delta : Z) : Rating :=
  recalculate (mkRating (Z.max 0 (rt_sum b + sum_delta)) (Z.max 0 (rt_count b + count_delta)) (rt_average b)).

Example averages : (average 9 2, average 14 3, average 1 16, average 1 2000) = (4500, 4667, 62, 1).
Proof. reflexivity. Qed.

(** ** The service *)

(** A loaded book: its key and its rating columns as they were read. *)
Definition loaded : Type := uuid * Rating.

Definition rate (b : loaded) (sum_delta count_delta : Z) : M ReviewsDb loaded :=
  let r := apply_rating_delta b.2 sum_delta count_delta in
  _ ← modify (fun d => set_ratings (<[b.1 := r]> (ratings d)) d); mret (b.1, r).
Definition write (r : Review) : M ReviewsDb unit := modify (fun d => set_reviews (save r (reviews d)) d).

Definition get_review (review_id : uuid) : M ReviewsDb Review :=
  r ← gets (fun d => reviews d !! review_id);
  match r with
  | Some r => if bool_decide (r_deleted_at r = None) then mret r else raise (app_error NotFoundError "")
  | None => raise (app_error NotFoundError "")
  end.

Definition get_own (review_id user_id : uuid) : M ReviewsDb Review :=
  r ← get_review review_id;
  if bool_decide (r_user_id r = user_id) then mret r else raise (app_error ForbiddenError "").

Definition for_user (book_id user_id : uuid) : M ReviewsDb (option Review) := fun d =>
  (one_or_none (select (fun r => bool_decide (r_book_id r = book_id /\ r_user_id r = user_id)) (reviews d)), d).

Definition approved (r : Review) : bool := bool_decide (r_status r = ReviewStatus.APPROVED).

Definition rewritten (p : ReviewCreate) (status : ReviewStatus.t) (verified : bool) (r : Review) : Review :=
  mkReview (r_id r) (r_book_id r) (r_user_id r) (rc_rating p) (rc_title p) (rc_body p) verified status 0
    (r_moderated r) (r_created_at r) None.
Definition edited (rating : Z) (title body : option string) (status : ReviewStatus.t) (r : Review) : Review :=
  mkReview (r_id r) (r_book_id r) (r_user_id r) rating title body (r_verified_purchase r) status (r_helpful_count r)
    (r_moderated r) (r_created_at r) (r_deleted_at r).
Definition removed (now : datetime) (r : Review) : Review :=
  mkReview (r_id r) (r_book_id r) (r_user_id r) (r_rating r) (r_title r) (r_body r) (r_verified_purchase r)
    (r_status r) (r_helpful_count r) (r_moderated r) (r_created_at r) (Some now).
Definition judged (status : ReviewStatus.t) (n : ModerationNote) (r : Review) : Review :=
  mkReview (r_id r) (r_book_id r) (r_user_id r) (r_rating r) (r_title r) (r_body r) (r_verified_purchase r)
    status (r_helpful_count r) (Some n) (r_created_at r) (r_deleted_at r).
Definition with_helpful (n : Z) (r : Review) : Review :=
  mkReview (r_id r) (r_book_id r) (r_user_id r) (r_rating r) (r_title r) (r_body r) (r_verified_purchase r)
    (r_status r) n (r_moderated r) (r_created_at r) (r_deleted_at r).

Section service.
Context (require_moderation : bool).   (* [settings.reviews_require_moderation] *)

Definition first_status : ReviewStatus.t :=
  if require_moderation then ReviewStatus.PENDING else ReviewStatus.APPROVED.

(** [race]: the reviews other workers commit after the look-up. *)
Definition create (race : table Review -> table Review) (now : datetime) (id : uuid) (book : loaded) (user_id : uuid)
    (payload : ReviewCreate) (verified_purchase : bool) : M ReviewsDb Review :=
  existing ← for_user book.1 user_id;
  match existing with
  | Some r =>
      if bool_decide (r_deleted_at r = None) then raise (app_error ConflictError "") else
      let r := rewritten payload first_status verified_purchase r in
      _ ← write r;
      _ ← (if approved r then rate book (rc_rating payload) 1 else mret book);
      mret r
  | None =>
      let r := mkReview id book.1 user_id (rc_rating payload) (rc_title payload) (rc_body payload) verified_purchase
                 first_status 0 None now None in
      _ ← modify (fun d => set_reviews (race (reviews d)) d);
      d ← get;
      t ← of_result (match insert_new review_key r (reviews d) with
                     | Raise IntegrityErr => Raise (app_error ConflictError "") | x => x end);
      _ ← modify (set_reviews t);
      _ ← (if approved r then rate book (rc_rating payload) 1 else mret book);
      mret r
  end.

Definition update (review : Review) (book : loaded) (payload : ReviewUpdate) : M ReviewsDb Review :=
  let new_rating := match ru_rating payload with Some (Some n) => n | _ => r_rating review end in
  book ← (if negb (new_rating =? r_rating review) && approved review
          then rate book (new_rating - r_rating review) 0 else mret book);
  let review := edited new_rating (default (r_title review) (ru_title payload))
                  (default (r_body review) (ru_body payload)) (r_status review) review in
  review ← (if require_moderation && approved review
            then _ ← rate book (- r_rating review) (-1);
                 mret (edited (r_rating review) (r_title review) (r_body review) ReviewStatus.PENDING review)
            else mret review);
  _ ← write review;
  mret review.
End service.

Definition delete_review (now : datetime) (review : Review) (book : loaded) : M ReviewsDb unit :=
  _ ← (if approved review then rate book (- r_rating review) (-1) else mret book);
  write (removed now review).

Definition moderate (now : datetime) (review : Review) (book : loaded) (status : ReviewStatus.t) (note : option string)
    (moderator_id : uuid) : M ReviewsDb Review :=
  let was_counted := approved review in
  let will_count := bool_decide (status = ReviewStatus.APPROVED) in
  _ ← (if was_counted && negb will_count then rate book (- r_rating review) (-1)
       else if will_count && negb was_counted then rate book (r_rating review) 1 else mret book);
  let review := judged status (mkModNote moderator_id now note) review in
  _ ← write review;
  mret review.

Definition vote (review : Review) (user_id : uuid) (is_helpful : bool) : M ReviewsDb Review :=
  _ ← raise_when (bool_decide (r_user_id review = user_id)) (app_error ForbiddenError "");
  existing ← gets (fun d => votes d !! (r_id review, user_id));
  let shift n := Z.max 0 (r_helpful_count review + (if is_helpful then n else - n)) in
  let cast := modify (fun d => set_votes (<[(r_id review, user_id) := is_helpful]> (votes d)) d) in
  match existing with
  | None => let review := with_helpful (shift 1) review in _ ← cast; _ ← write review; mret review
  | Some v =>
      if Bool.eqb v is_helpful then mret review else
      let review := with_helpful (shift 2) review in _ ← cast; _ ← write review; mret review
  end.

(** ** Listings *)

Definition sort_column (sort_by : string) : option (Review -> Z) :=
  if String.eqb sort_by "created_at" then Some r_created_at
  else if String.eqb sort_by "helpful_count" then Some r_helpful_count else None.

Definition visible_to (viewer : option uuid) (include_all : bool) (r : Review) : bool :=
  include_all || approved r || match viewer with Some u => bool_decide (r_user_id r = u) | None => false end.

(** The cursor with the ordering it was issued for. *)
Definition list_for_book (book_id : uuid) (cursor : option (string * cursor_key)) (limit : nat) (sort_by : string)
    (viewer : option uuid) (include_all : bool)
    : M ReviewsDb (list Review * option (string * cursor_key) * bool) :=
  match sort_column sort_by with
  | None => raise (app_error BadRequestError "")
  | Some col =>
      _ ← raise_when (match cursor with Some (s, _) => negb (String.eqb s sort_by) | None => false end)
            (app_error BadRequestError "");
      gets (fun d =>
        let '(rows, next, more) := keyset_page (fun r => (col r, r_id r))
          (select (fun r => bool_decide (r_book_id r = book_id) && bool_decide (r_deleted_at r = None) &&
                            visible_to viewer include_all r) (reviews d)) (snd <$> cursor) limit in
        (rows, pair sort_by <$> next, more))
  end.

(** Oldest first. *)
Definition older (a b : Review) : Prop :=
  r_created_at a < r_created_at b \/ r_created_at a = r_created_at b /\ (r_id a <= r_id b)%N.
#[export] Instance older_dec a b : Decision (older a b).
Proof. unfold older. apply _. Defined.

Definition queued (status : option ReviewStatus.t) (book_id : option uuid) (r : Review) : bool :=
  bool_decide (r_deleted_at r = None) && bool_decide (r_status r = default ReviewStatus.PENDING status) &&
  match book_id with Some b => bool_decide (r_book_id r = b) | None => true end.

Definition moderation_queue (limit offset : nat) (status : option ReviewStatus.t) (book_id : option uuid)
    : M ReviewsDb (list Review * Z) :=
  gets (fun d => (take limit (drop offset (merge_sort older (select (queued status book_id) (reviews d)))),
                  count (queued status book_id) (reviews d))).

Definition moderation_counts : M ReviewsDb (list (string * Z)) :=
  gets (fun d => map (fun s => (enum_value s, count (queued (Some s) None) (reviews d))) members).

(** ** Routes *)

Definition rating_of (k : uuid) (d : ReviewsDb) : Rating := default unrated (ratings d !! k).

Definition load_book (include_unpublished : bool) (k : uuid) : M ReviewsDb loaded :=
  _ ← lift shop set_shop (get_book include_unpublished k);
  gets (fun d => (k, rating_of k d)).

Inductive request :=
  | CreateReview (id book_id user_id : uuid) (payload : ReviewCreate)
  | UpdateReview (review_id user_id : uuid) (payload : ReviewUpdate)
  | DeleteReview (review_id user_id : uuid)
  | VoteReview (review_id user_id : uuid) (is_helpful : bool)
  | ModerateReview (review_id : uuid) (status : ReviewStatus.t) (note : option string) (moderator_id : uuid).

Section requests.
Context (require_moderation free_books_readable : bool).

(** The moderation route passes [payload] and [actor_id] to a method that takes
    [status], [note] and [moderator_id]: the call raises before it starts.
    [calls_fixed] is the route with the arguments the method expects. *)
Definition respond (calls_fixed : bool) (now : datetime) (q : request) : M ReviewsDb Review :=
  match q with
  | CreateReview id book_id user_id payload =>
      let payload := review_create payload in
      _ ← raise_when (negb (review_create_ok payload)) (app_error ValidationError "");
      book ← load_book false book_id;
      b ← lift shop set_shop (get_book false book_id);
      access ← lift shop set_shop (access free_books_readable now user_id b);
      create require_moderation (fun t => t) now id book user_id payload (has_access access)
  | UpdateReview review_id user_id payload =>
      let payload := review_update payload in
      _ ← raise_when (negb (review_update_ok payload)) (app_error ValidationError "");
      review ← get_own review_id user_id;
      book ← load_book true (r_book_id review);
      update require_moderation review book payload
  | DeleteReview review_id user_id =>
      review ← get_own review_id user_id;
      book ← load_book true (r_book_id review);
      _ ← delete_review now review book;
      mret review
  | VoteReview review_id user_id is_helpful =>
      review ← get_review review_id;
      vote review user_id is_helpful
  | ModerateReview review_id status note moderator_id =>
      review ← get_review review_id;
      book ← load_book true (r_book_id review);
      if calls_fixed then moderate now review book status note moderator_id else raise TypeErr
  end.

(** One transaction per request. *)
Definition serve (calls_fixed : bool) (d : ReviewsDb) (q : datetime * request) : ReviewsDb :=
  (in_transaction (respond calls_fixed q.1 q.2) d).2.
End requests.

(** ** The aggregate *)

Definition counted (k : uuid) (r : Review) : bool :=
  bool_decide (r_book_id r = k) && approved r && bool_decide (r_deleted_at r = None).
Definition stars (k : uuid) (r : Review) : Z := if counted k r then r_rating r else 0.
Definition voices (k : uuid) (r : Review) : Z := bool_Z (counted k r).

Definition reference_rating (k : uuid) (t : table Review) : Rating :=
  recalculate (mkRating (table_sum (stars k) t) (table_sum (voices k) t) 0).

Record exact (d : ReviewsDb) : Prop := {
  ex_keyed : keyed (reviews d);
  ex_unique : unique_on review_key (reviews d);
  ex_rated : map_Forall (fun _ r => rating_ok (r_rating r) = true) (reviews d);
  ex_rating k : rating_of k d = reference_rating k (reviews d);
}.

Lemma stars_nonneg k (t : table Review) : map_Forall (fun _ r => rating_ok (r_rating r) = true) t -> 0 <= table_sum (stars k) t.
Proof.
  intros H. apply table_sum_nonneg. intros i r Hr. specialize (H i r Hr). unfold stars, rating_ok in *.
  destruct (counted k r); zbool.
Qed.
Lemma voices_nonneg k (t : table Review) : 0 <= table_sum (voices k) t.
Proof. apply table_sum_nonneg. intros i r _. unfold voices, bool_Z. destruct (counted k r); lia. Qed.

Lemma rate_run b ds dc d :
  rate b ds dc d = (Ok (b.1, apply_rating_delta b.2 ds dc), set_ratings (<[b.1 := apply_rating_delta b.2 ds dc]> (ratings d)) d).
Proof. reflexivity. Qed.

(** Two deltas in a row are one, when the first does not fall below zero. *)
Lemma apply_twice b s1 c1 s2 c2 : 0 <= rt_sum b + s1 -> 0 <= rt_count b + c1 ->
  apply_rating_delta (apply_rating_delta b s1 c1) s2 c2 = apply_rating_delta b (s1 + s2) (c1 + c2).
Proof. intros H1 H2. unfold apply_rating_delta, recalculate. cbn. by rewrite (Z.max_r 0 (rt_sum b + s1)), (Z.max_r 0 (rt_count b + c1)), !Z.add_assoc by done. Qed.

Lemma apply_zero k t : map_Forall (fun _ r => rating_ok (r_rating r) = true) t ->
  apply_rating_delta (reference_rating k t) 0 0 = reference_rating k t.
Proof.
  intros H. pose proof (stars_nonneg k t H). pose proof (voices_nonneg k t).
  unfold apply_rating_delta, reference_rating, recalculate. cbn. by rewrite !Z.add_0_r, !Z.max_r by lia.
Qed.

Definition opt_sum {A} (f : A -> Z) (o : option A) : Z := match o with Some a => f a | None => 0 end.

Lemma table_sum_save {V} `{!Row V} (f : V -> Z) (t : table V) v :
  table_sum f (save v t) = table_sum f t - opt_sum f (t !! row_id v) + f v.
Proof.
  unfold save. destruct (t !! row_id v) as [w|] eqn:E; cbn.
  - rewrite (table_sum_insert f t _ v w E). lia.
  - rewrite (table_sum_insert_fresh f t _ v E). lia.
Qed.

Lemma other_book k r : r_book_id r <> k -> stars k r = 0 /\ voices k r = 0.
Proof. intros H. unfold stars, voices, counted. by rewrite bool_decide_eq_false_2. Qed.

(** Writing one review together with the rating it changes. *)
Lemma exact_save d d' r :
  exact d -> rating_ok (r_rating r) = true ->
  match reviews d !! r_id r with
  | Some o => review_key o = review_key r
  | None => forall i w, reviews d !! i = Some w -> review_key w <> review_key r
  end ->
  reviews d' = save r (reviews d) ->
  (forall k, rating_of k d' = if decide (k = r_book_id r)
     then apply_rating_delta (rating_of k d) (stars k r - opt_sum (stars k) (reviews d !! r_id r))
            (voices k r - opt_sum (voices k) (reviews d !! r_id r))
     else rating_of k d) ->
  exact d'.
Proof.
  intros [Hk Hu Hr Hx] Hok Hold Ht Hrt.
  assert (Hr' : map_Forall (fun _ r => rating_ok (r_rating r) = true) (save r (reviews d))).
  { by apply map_Forall_insert_2. }
  constructor; rewrite ?Ht; [by apply keyed_save| |done|].
  - destruct (reviews d !! r_id r) as [o|] eqn:E; [by eapply unique_save_same|].
    apply (insert_unique_preserves review_key r (reviews d)); [done..|]. unfold insert_unique.
    rewrite (proj2 (conflicts_false review_key r _ Hk)); [done|]. intros k i w Hv Hi Hw.
    destruct (Hold i w Hi). congruence.
  - intros k. rewrite Hrt. pose proof (stars_nonneg k _ Hr'). pose proof (voices_nonneg k (save r (reviews d))).
    unfold reference_rating in *. rewrite !table_sum_save in *. case_decide as Hd.
    + rewrite Hx. unfold apply_rating_delta, recalculate. cbn [rt_sum rt_count].
      change (row_id r) with (r_id r) in *.
      rewrite !Z.max_r by lia. by rewrite !Z.add_sub_assoc, !(Z.add_sub_swap _ (_ r)).
    + destruct (other_book k r) as [-> ->]; [congruence|].
      assert (Ho : opt_sum (stars k) (reviews d !! row_id r) = 0 /\ opt_sum (voices k) (reviews d !! row_id r) = 0).
      { change (row_id r) with (r_id r). destruct (reviews d !! r_id r) as [o|]; [|done].
        injection Hold as Hb _. apply other_book. congruence. }
      destruct Ho as [-> ->]. by rewrite !Z.sub_0_r, !Z.add_0_r.
Qed.

(** ** Each operation keeps the aggregate exact *)

Lemma lift_reads {A} (m : M BooksDb A) d r d' :
  keeps (fun s => s) m -> lift shop set_shop m d = (r, d') -> d' = d /\ m (shop d) = (r, shop d).
Proof.
  intros Hm. unfold lift. destruct (m (shop d)) as [a s] eqn:E. intros [= <- <-].
  assert (s = shop d) as -> by (by apply (Hm _ _ _ E)). by destruct d.
Qed.

Lemma get_book_reads inc k : keeps (fun s => s) (get_book inc k).
Proof. unfold get_book. repeat keeps_core. Qed.

Lemma access_reads free now user b : keeps (fun s => s) (access free now user b).
Proof. unfold access, find_active. repeat keeps_core. Qed.

Lemma load_book_inv inc k d b d' : load_book inc k d = (Ok b, d') -> d' = d /\ b = (k, rating_of k d).
Proof.
  unfold load_book. intros (u & s & H & [= <- <-])%bind_ok_inv.
  apply lift_reads in H as [-> _]; [done|apply get_book_reads].
Qed.

Lemma get_review_inv id d r d' : get_review id d = (Ok r, d') -> d' = d /\ reviews d !! id = Some r /\ r_deleted_at r = None.
Proof.
  unfold get_review. intros (o & s & [= <- <-] & H)%bind_ok_inv. destruct (reviews d !! id) as [x|] eqn:E; [|done].
  case_bool_decide; [|done]. by injection H as <- <-.
Qed.

Lemma get_own_inv id user d r d' : get_own id user d = (Ok r, d') ->
  d' = d /\ reviews d !! id = Some r /\ r_deleted_at r = None /\ r_user_id r = user.
Proof.
  unfold get_own. intros (x & s & [-> [Hx Hd]]%get_review_inv & H)%bind_ok_inv.
  case_bool_decide; [|done]. by injection H as <- <-.
Qed.

Section keeps_exact.
Context (d : ReviewsDb) (Hd : exact d).

Lemma stored_id id r : reviews d !! id = Some r -> reviews d !! r_id r = Some r.
Proof. intros H. by rewrite <- (keyed_lookup _ _ _ (ex_keyed d Hd) H) in H. Qed.

Lemma rating_set k b k' t : rating_of k' (set_ratings (<[k := b]> (ratings d)) t) = if decide (k' = k) then b else rating_of k' d.
Proof.
  unfold rating_of. cbn. destruct (decide (k' = k)) as [->|]; [by rewrite lookup_insert_eq|by rewrite lookup_insert_ne].
Qed.

(** The new rating of a book is the old one, moved by the difference. *)
Lemma exact_moved d' r o ds dc :
  reviews d !! r_id r = Some o -> review_key o = review_key r -> rating_ok (r_rating r) = true ->
  reviews d' = save r (reviews d) ->
  (forall k, rating_of k d' = if decide (k = r_book_id r) then apply_rating_delta (rating_of (r_book_id r) d) ds dc
             else rating_of k d) ->
  ds = stars (r_book_id r) r - stars (r_book_id r) o -> dc = voices (r_book_id r) r - voices (r_book_id r) o ->
  exact d'.
Proof.
  intros Ho Hkey Hok Ht Hr -> ->. eapply (exact_save d d' r); [done|done| |done|]; rewrite Ho; [done|].
  intros k. rewrite Hr. by destruct (decide _) as [->|].
Qed.

(** A write that moves nothing. *)
Lemma exact_still d' r o :
  reviews d !! r_id r = Some o -> review_key o = review_key r -> rating_ok (r_rating r) = true ->
  reviews d' = save r (reviews d) -> ratings d' = ratings d ->
  stars (r_book_id r) r = stars (r_book_id r) o -> voices (r_book_id r) r = voices (r_book_id r) o -> exact d'.
Proof.
  intros Ho Hkey Hok Ht Hr Hs Hv. eapply exact_moved; [done..| | |]; [|by rewrite Hs, Z.sub_diag|by rewrite Hv, Z.sub_diag].
  intros k. assert (Hsame : rating_of k d' = rating_of k d) by (unfold rating_of; by rewrite Hr). rewrite Hsame.
  destruct (decide _) as [->|]; [|done]. rewrite (ex_rating d Hd). symmetry. apply apply_zero, (ex_rated d Hd).
Qed.

Lemma counted_own r : counted (r_book_id r) r = approved r && bool_decide (r_deleted_at r = None).
Proof. unfold counted. by rewrite bool_decide_eq_true_2. Qed.

Lemma rated id r : reviews d !! id = Some r -> rating_ok (r_rating r) = true.
Proof. apply (ex_rated d Hd). Qed.

Lemma create_exact mod_ now id k user p v r d' : review_create_ok p = true ->
  create mod_ (fun t => t) now id (k, rating_of k d) user p v d = (Ok r, d') -> exact d'.
Proof.
  intros Hp. assert (Hok : rating_ok (rc_rating p) = true) by (unfold review_create_ok in Hp; by bool_to_prop).
  unfold create. intros (existing & s1 & H1 & H)%bind_ok_inv. unfold for_user in H1. injection H1 as H1 <-.
  destruct existing as [o|].
  - apply one_or_none_Some in H1.
    assert (Hin : o ∈ select (fun r => bool_decide (r_book_id r = k /\ r_user_id r = user)) (reviews d)) by (cbn in H1; rewrite H1; left).
    apply elem_of_select_keyed in Hin as [Ho [Hb Hus]%bool_decide_eq_true]; [|apply (ex_keyed d Hd)].
    destruct (bool_decide (r_deleted_at o = None)) eqn:Hdel; [done|].
    set (r' := rewritten p (first_status mod_) v o) in *. erewrite bind_ok in H by reflexivity.
    assert (Hsv : stars (r_book_id r') o = 0 /\ voices (r_book_id r') o = 0).
    { unfold stars, voices, counted. change (r_book_id r') with (r_book_id o). by rewrite Hdel, !andb_false_r. }
    destruct Hsv as [Hs0 Hv0].
    assert (Hc : counted (r_book_id r') r' = approved r') by (by rewrite counted_own, andb_true_r).
    destruct (approved r') eqn:Ha; [erewrite bind_ok in H by apply rate_run|erewrite bind_ok in H by reflexivity];
      injection H as <- <-; cbn [fst snd].
    + eapply (exact_moved _ r' o (rc_rating p) 1); [exact Ho|done|exact Hok|done| | |].
      * intros kk. rewrite <- Hb. apply (rating_set _ _ kk (set_reviews _ d)).
      * rewrite Hs0. unfold stars. by rewrite Hc, Z.sub_0_r.
      * rewrite Hv0. unfold voices. by rewrite Hc.
    + eapply (exact_still _ r' o); [exact Ho|done|exact Hok|done|done| |].
      * rewrite Hs0. unfold stars. by rewrite Hc.
      * rewrite Hv0. unfold voices. by rewrite Hc.
  - apply one_or_none_None in H1. set (r' := mkReview _ _ _ _ _ _ _ _ _ _ _ _) in *.
    erewrite bind_ok in H by reflexivity. apply bind_ok_inv in H as (d1 & s2 & [= <- <-] & H).
    change (reviews (set_reviews (reviews d) d)) with (reviews d) in H.
    apply bind_ok_inv in H as (t & s2 & H2 & H). injection H2 as H2 <-.
    destruct (insert_new review_key r' (reviews d)) as [t'|e] eqn:E; [|destruct e; done]. injection H2 as ->.
    apply insert_new_ok in E as (Hn & _ & ->). change (row_id r') with (r_id r') in Hn. erewrite bind_ok in H by reflexivity.
    assert (Hc : counted (r_book_id r') r' = approved r') by (by rewrite counted_own, andb_true_r).
    assert (Hnew : forall i w, reviews d !! i = Some w -> review_key w <> review_key r').
    { intros i w Hw [= Hb Hu]. assert (Hin : w ∈ select (fun r => bool_decide (r_book_id r = k /\ r_user_id r = user)) (reviews d)).
      { apply elem_of_select. split; [eauto|]. by apply bool_decide_eq_true_2. }
      cbn in H1. rewrite H1 in Hin. by apply not_elem_of_nil in Hin. }
    destruct (approved r') eqn:Ha; [erewrite bind_ok in H by apply rate_run|erewrite bind_ok in H by reflexivity];
      injection H as <- <-; cbn [fst snd].
    + apply (exact_save d _ r'); [done|exact Hok|by rewrite Hn|done|]. intros kk. rewrite Hn.
      etransitivity; [apply (rating_set _ _ kk (set_reviews _ d))|]. change (r_book_id r') with k.
      destruct (decide (kk = k)) as [->|]; [|done]. cbn [opt_sum]. unfold stars, voices.
      change k with (r_book_id r') at 3 4. by rewrite Hc, !Z.sub_0_r.
    + apply (exact_save d _ r'); [done|exact Hok|by rewrite Hn|done|]. intros kk. rewrite Hn.
      change (r_book_id r') with k. destruct (decide (kk = k)) as [->|]; [|done]. cbn [opt_sum]. unfold stars, voices.
      change k with (r_book_id r') at 3 4. rewrite Hc. cbn [bool_Z]. change (rating_of k _) with (rating_of k d).
      rewrite (ex_rating d Hd). symmetry. apply apply_zero, (ex_rated d Hd).
Qed.

Lemma stars_le id r : reviews d !! id = Some r -> stars (r_book_id r) r <= rt_sum (rating_of (r_book_id r) d).
Proof.
  intros Hin. rewrite (ex_rating d Hd). cbn. apply (table_sum_le (stars (r_book_id r)) (reviews d) id); [|done].
  intros i w Hw. pose proof (rated _ _ Hw). unfold stars, rating_ok in *. destruct (counted _ w); zbool.
Qed.

Lemma update_exact mod_ rid r p r' d' : review_update_ok p = true -> reviews d !! rid = Some r -> r_deleted_at r = None ->
  update mod_ r (r_book_id r, rating_of (r_book_id r) d) p d = (Ok r', d') -> exact d'.
Proof.
  intros Hp Hin Hdel. pose proof (rated _ _ Hin) as Hok. apply stored_id in Hin. unfold update.
  set (n := match ru_rating p with Some (Some n) => n | _ => r_rating r end).
  assert (Hn : rating_ok n = true).
  { unfold n. unfold review_update_ok in Hp. bool_to_prop. by destruct (ru_rating p) as [[]|]. }
  set (b := rating_of (r_book_id r) d). set (r1 := edited n _ _ (r_status r) r).
  set (d1 := if negb (n =? r_rating r) && approved r then n - r_rating r else 0).
  assert (Hfirst : exists b1 s1, (if negb (n =? r_rating r) && approved r then rate (r_book_id r, b) (n - r_rating r) 0
             else mret (r_book_id r, b)) d = (Ok (r_book_id r, b1), s1) /\ b1 = apply_rating_delta b d1 0 /\
             reviews s1 = reviews d /\ forall kk, rating_of kk s1 = if decide (kk = r_book_id r) then b1 else rating_of kk d).
  { unfold d1. destruct (negb _ && _).
    - eexists _, _. split; [apply rate_run|]. split; [done|]. split; [done|]. intros kk. apply (rating_set _ _ kk d).
    - eexists _, _. split; [reflexivity|]. unfold b. rewrite (ex_rating d Hd), apply_zero by apply (ex_rated d Hd).
      split; [done|]. split; [done|]. intros kk. destruct (decide _) as [->|]; [|done]. apply (ex_rating d Hd). }
  destruct Hfirst as (b1 & s1 & H1 & Hb1 & Hr1 & Hrt1).
  assert (Hca : forall x, r_book_id x = r_book_id r -> r_deleted_at x = None -> counted (r_book_id r) x = approved x).
  { intros x Hb Hx. rewrite <- Hb, counted_own. by rewrite Hx, andb_true_r. }
  assert (Hd1 : approved r = true -> d1 = n - r_rating r).
  { intros Ha. unfold d1. rewrite Ha, andb_true_r. destruct (Z.eqb_spec n (r_rating r)); cbn; lia. }
  assert (Hd1' : approved r = false -> d1 = 0) by (intros Ha; unfold d1; by rewrite Ha, andb_false_r).
  intros (bk & s & H & H2)%bind_ok_inv. pose proof (eq_trans (eq_sym H1) H) as E. injection E as <- <-. clear H.
  change (approved r1) with (approved r) in H2.
  destruct (mod_ && approved r) eqn:Hm.
  - apply andb_true_iff in Hm as [-> Ha]. erewrite bind_ok in H2 by (erewrite bind_ok by apply rate_run; reflexivity).
    injection H2 as <- <-. set (r2 := edited _ _ _ ReviewStatus.PENDING r1). cbn [fst snd].
    eapply (exact_moved _ r2 r (d1 - n) (-1)); [exact Hin|done|exact Hn|by cbn; rewrite Hr1| | |].
    + intros kk. change (r_book_id r2) with (r_book_id r). change (r_rating r1) with n.
      unfold rating_of at 1. cbn [ratings set_ratings set_reviews].
      destruct (decide (kk = r_book_id r)) as [->|Hne]; [rewrite lookup_insert_eq|rewrite lookup_insert_ne by done].
      * cbn [default from_option id]. rewrite Hb1, apply_twice; [by f_equal; lia| |].
        -- pose proof (stars_le _ r Hin) as Hle. fold b in Hle. unfold stars in Hle.
           rewrite Hca, Ha in Hle by done. rewrite Hd1 by done. unfold rating_ok in Hn. zbool.
        -- unfold b. rewrite (ex_rating d Hd). pose proof (voices_nonneg (r_book_id r) (reviews d)). cbn. lia.
      * specialize (Hrt1 kk). rewrite decide_False in Hrt1 by done. exact Hrt1.
    + unfold stars. change (r_book_id r2) with (r_book_id r). rewrite (Hca r2), (Hca r) by done. rewrite Ha, Hd1 by done. change (approved r2) with false. ring.
    + unfold voices. change (r_book_id r2) with (r_book_id r). rewrite (Hca r2), (Hca r) by done. by rewrite Ha.
  - erewrite bind_ok in H2 by reflexivity. injection H2 as <- <-.
    eapply (exact_moved _ r1 r d1 0); [exact Hin|done|exact Hn|by cbn; rewrite Hr1| | |].
    + intros kk. change (r_book_id r1) with (r_book_id r). fold b. rewrite <- Hb1. apply Hrt1.
    + unfold stars. change (r_book_id r1) with (r_book_id r). rewrite (Hca r1), (Hca r) by done.
      change (approved r1) with (approved r). destruct (approved r); [by rewrite Hd1|by rewrite Hd1'].
    + unfold voices. change (r_book_id r1) with (r_book_id r). rewrite (Hca r1), (Hca r) by done.
      change (approved r1) with (approved r). lia.
Qed.

(** Leaving the count, or staying out of it. *)
Lemma leave_exact d' r r' :
  reviews d !! r_id r = Some r -> r_deleted_at r = None -> review_key r = review_key r' -> r_id r' = r_id r ->
  r_rating r' = r_rating r ->
  reviews d' = save r' (reviews d) ->
  (let kept := approved r' && bool_decide (r_deleted_at r' = None) in
   forall k, rating_of k d' = if decide (k = r_book_id r) then
      if Bool.eqb (approved r) kept then rating_of k d
      else if kept then apply_rating_delta (rating_of k d) (r_rating r) 1
      else apply_rating_delta (rating_of k d) (- r_rating r) (-1)
    else rating_of k d) -> exact d'.
Proof.
  intros Hin Hdel Hkey Hid Hrt Ht Hr. cbv zeta in Hr. injection Hkey as Hb Hu. pose proof (rated _ _ Hin) as Hok.
  assert (Hc : counted (r_book_id r') r = approved r) by (rewrite <- Hb, counted_own, Hdel; by rewrite andb_true_r).
  pose proof (counted_own r') as Hc'.
  eapply (exact_save d d' r'); [done|by rewrite Hrt| |done|]; rewrite Hid, Hin; [by unfold review_key; rewrite Hb, Hu|].
  intros k. rewrite Hr, Hb. destruct (decide _) as [->|]; [|done]. cbn [opt_sum].
  unfold stars, voices. rewrite Hc, Hc', Hrt.
  destruct (approved r), (approved r' && _); cbn [Bool.eqb bool_Z]; try (f_equal; lia);
    rewrite Z.sub_diag; rewrite ?Z.sub_diag; rewrite (ex_rating d Hd); symmetry; apply apply_zero, (ex_rated d Hd).
Qed.

Lemma delete_exact now id r u d' : reviews d !! id = Some r -> r_deleted_at r = None ->
  delete_review now r (r_book_id r, rating_of (r_book_id r) d) d = (Ok u, d') -> exact d'.
Proof.
  intros Hin Hdel H. apply stored_id in Hin. unfold delete_review in H.
  destruct (approved r) eqn:Ha; [erewrite bind_ok in H by apply rate_run|erewrite bind_ok in H by reflexivity];
    injection H as <- <-; cbn [fst snd];
    apply (leave_exact _ r (removed now r)); try done; cbv zeta; rewrite andb_false_r, Ha; intros k; cbn [Bool.eqb].
  - etransitivity; [apply (rating_set _ _ k (set_reviews _ d))|]. by destruct (decide _) as [->|].
  - by destruct (decide _).
Qed.

Lemma moderate_exact now id r st note who r' d' : reviews d !! id = Some r -> r_deleted_at r = None ->
  moderate now r (r_book_id r, rating_of (r_book_id r) d) st note who d = (Ok r', d') -> exact d'.
Proof.
  intros Hin Hdel H. apply stored_id in Hin. unfold moderate in H.
  set (n := judged st (mkModNote who now note) r) in *.
  assert (Hn : approved n = bool_decide (st = ReviewStatus.APPROVED)) by done.
  destruct (approved r) eqn:Ha, (bool_decide (st = ReviewStatus.APPROVED)) eqn:Hst; cbn [negb andb] in H;
    (erewrite bind_ok in H by (apply rate_run || reflexivity));
    injection H as <- <-; cbn [fst snd];
    apply (leave_exact _ r n); try done; cbv zeta; rewrite Hn, Ha; change (r_deleted_at n) with (r_deleted_at r);
    rewrite Hdel, bool_decide_eq_true_2 by done; intros k; cbn [Bool.eqb andb];
    try (by destruct (decide _));
    (etransitivity; [apply (rating_set _ _ k (set_reviews _ d))|]; by destruct (decide _) as [->|]).
Qed.

Lemma vote_exact id r user b r' d' : reviews d !! id = Some r -> r_deleted_at r = None ->
  vote r user b d = (Ok r', d') -> exact d'.
Proof.
  intros Hin Hdel H. apply stored_id in Hin. unfold vote in H.
  apply bind_ok_inv in H as (u & s & H1 & H). unfold raise_when in H1. destruct (bool_decide _); [done|].
  injection H1 as _ <-. erewrite bind_ok in H by reflexivity.
  assert (Hstill : forall n t, ratings t = ratings d -> reviews t = save (with_helpful n r) (reviews d) -> exact t).
  { intros n t Hr Ht. apply (exact_still t (with_helpful n r) r); try done. apply (rated _ _ Hin). }
  destruct (votes d !! (r_id r, user)) as [v|].
  - destruct (Bool.eqb v b); [by injection H as <- <-|].
    do 2 erewrite bind_ok in H by reflexivity. injection H as <- <-. by eapply Hstill.
  - do 2 erewrite bind_ok in H by reflexivity. injection H as <- <-. by eapply Hstill.
Qed.
End keeps_exact.

Lemma serve_exact mod_ free fixed d q : exact d -> exact (serve mod_ free fixed d q).
Proof.
  intros Hd. unfold serve. destruct (in_transaction _ d) as [r d'] eqn:E. cbn.
  apply in_transaction_inv in E as [(a & -> & H)|(e & -> & ->)]; [|done]. destruct q as [now q]. cbn in H.
  destruct q as [id k user p|id user p|id user|id user b|id st note who].
  - apply bind_ok_inv in H as (u & s & H1 & H). unfold raise_when in H1. destruct (review_create_ok _) eqn:Hp; [|done].
    injection H1 as _ <-. apply bind_ok_inv in H as (b & s & [-> ->]%load_book_inv & H).
    apply bind_ok_inv in H as (bk & s & [-> _]%lift_reads & H); [|apply get_book_reads].
    apply bind_ok_inv in H as (ac & s & [-> _]%lift_reads & H); [|apply access_reads].
    by eapply create_exact.
  - apply bind_ok_inv in H as (u & s & H1 & H). unfold raise_when in H1. destruct (review_update_ok _) eqn:Hp; [|done].
    injection H1 as _ <-. apply bind_ok_inv in H as (r & s & (-> & Hr & Hdel & _)%get_own_inv & H).
    apply bind_ok_inv in H as (b & s & [-> ->]%load_book_inv & H). by eapply update_exact.
  - apply bind_ok_inv in H as (r & s & (-> & Hr & Hdel & _)%get_own_inv & H).
    apply bind_ok_inv in H as (b & s & [-> ->]%load_book_inv & H).
    apply bind_ok_inv in H as (u & s & H & [= <- <-]). by eapply delete_exact.
  - apply bind_ok_inv in H as (r & s & (-> & Hr & Hdel)%get_review_inv & H). by eapply vote_exact.
  - apply bind_ok_inv in H as (r & s & (-> & Hr & Hdel)%get_review_inv & H).
    apply bind_ok_inv in H as (b & s & [-> ->]%load_book_inv & H). destruct fixed; [|done]. by eapply moderate_exact.
Qed.

(** ** The average lies between the lowest and the highest rating *)

Lemma nearest_even_between a b lo hi : 0 < b -> lo * b <= a <= hi * b -> lo <= nearest_even a b <= hi.
Proof.
  intros Hb [Hlo Hhi]. unfold nearest_even. pose proof (Z.div_mod a b ltac:(lia)). pose proof (Z.mod_pos_bound a b Hb).
  assert (lo <= a / b <= hi) by nia.
  assert (0 < a mod b -> a / b + 1 <= hi) by nia.
  destruct (Z.ltb_spec (2 * (a mod b)) b), (Z.ltb_spec b (2 * (a mod b))), (Z.even (a / b)); lia.
Qed.

Lemma average_between sum count : 0 < count -> count <= sum <= 5 * count -> 1000 <= average sum count <= 5000.
Proof.
  intros Hc [Hlo Hhi]. unfold average. rewrite !(proj2 (Z.eqb_neq _ _)) by lia. cbn [orb]. unfold float_div.
  set (e0 := 53 - _). assert (He0 : 1 <= e0).
  { unfold e0. assert (Z.log2 sum <= Z.log2 (2 ^ 3 * count)) by (apply Z.log2_le_mono; lia).
    rewrite Z.mul_comm, Z.log2_mul_pow2 in H by lia. lia. }
  set (e := if 2 ^ 53 <=? _ then _ else _). assert (He : 0 <= e) by (unfold e; case_match; lia).
  clearbody e. clear e0 He0. pose proof (Z.pow_pos_nonneg 2 e ltac:(lia) He) as Hp.
  destruct (nearest_even_between (sum * 2 ^ e) count (2 ^ e) (5 * 2 ^ e)) as [H1 H2]; [done|nia|].
  apply nearest_even_between; lia.
Qed.

Lemma stars_voices k (t : table Review) : map_Forall (fun _ r => rating_ok (r_rating r) = true) t ->
  table_sum (voices k) t <= table_sum (stars k) t <= 5 * table_sum (voices k) t.
Proof.
  intros H. unfold table_sum.
  assert (Hr : forall r, r ∈ rows t -> voices k r <= stars k r <= 5 * voices k r).
  { intros r [i Hi]%elem_of_rows. specialize (H i r Hi). unfold voices, stars, bool_Z, rating_ok in *.
    cbn beta in H. destruct (counted k r); [zbool|lia]. }
  clear H. induction (rows t) as [|r l IH]; [done|]. cbn [map]. rewrite !zsum_cons.
  specialize (IH ltac:(intros x Hx; apply Hr; by right)). specialize (Hr r ltac:(left)). lia.
Qed.

(** ** Properties *)

(** A store whose books have no reviews yet. *)
Definition opening (b : BooksDb) : ReviewsDb := mkReviewsDb b ∅ ∅ ∅.

(** C39: after any sequence of requests, every book's rating columns are
    exactly the sum, the number and the rounded average of the ratings of its
    approved, not deleted reviews (no clamp ever bites); where there is one
    the average lies between 1 and 5; and no user has two reviews of a book. *)
Theorem rating_columns_exact mod_ free fixed b (l : list (datetime * request)) k :
  let d := foldl (serve mod_ free fixed) (opening b) l in
  rating_of k d = reference_rating k (reviews d) /\
  (rt_count (rating_of k d) <> 0 -> 1000 <= rt_average (rating_of k d) <= 5000) /\
  unique_on review_key (reviews d).
Proof.
  intros d. assert (Hd : exact d).
  { assert (H0 : exact (opening b)).
    { constructor; [apply keyed_empty|apply unique_empty|apply map_Forall_empty|done]. }
    unfold d. revert H0. generalize (opening b). induction l as [|q l IH]; intros d0 H0; [done|].
    cbn. apply IH. by apply serve_exact. }
  split; [apply (ex_rating d Hd)|]. split; [|apply (ex_unique d Hd)].
  rewrite (ex_rating d Hd). cbn. intros Hc. rewrite (proj2 (Z.eqb_neq _ _)) by done. cbn.
  pose proof (voices_nonneg k (reviews d)). apply average_between; [lia|]. apply stars_voices, (ex_rated d Hd).
Qed.

(** A listing shows reviews of that book that are not deleted, approved or the
    viewer's own, at most [limit] of them. *)
Lemma listed_reviews book cursor limit sort_by viewer d rows next more d' :
  keyed (reviews d) ->
  list_for_book book cursor limit sort_by viewer false d = (Ok (rows, next, more), d') ->
  d' = d /\ (length rows <= limit)%nat /\
  Forall (fun r => reviews d !! r_id r = Some r /\ r_book_id r = book /\ r_deleted_at r = None /\
                   (approved r = true \/ viewer = Some (r_user_id r))) rows.
Proof.
  intros Hk. unfold list_for_book. destruct (sort_column sort_by) as [col|]; [|done].
  intros (u & s & H1 & H)%bind_ok_inv. unfold raise_when in H1. case_match; [done|]. injection H1 as _ <-.
  unfold gets in H. destruct (keyset_page _ _ _ _) as [[rs nx] mo] eqn:E. injection H as <- _ _ <-. split; [done|].
  assert (Hrs : rs = (keyset_page (fun r => (col r, r_id r)) (select (fun r => bool_decide (r_book_id r = book) &&
    bool_decide (r_deleted_at r = None) && visible_to viewer false r) (reviews d)) (snd <$> cursor) limit).1.1) by (by rewrite E).
  split; [rewrite Hrs; cbn; rewrite length_take; lia|].
  apply Forall_forall. intros r Hr. rewrite Hrs in Hr. apply page_subset, elem_of_select_keyed in Hr as [Hr Hv]; [|done].
  bool_to_prop. split_and!; [done..|]. clear E Hrs. unfold visible_to in *.
  destruct (approved r); [by left|]. cbn [orb] in *. destruct viewer as [u0|]; [|done].
  right. f_equal. symmetry. by eapply bool_decide_eq_true_1.
Qed.

(** ** Witnesses and examples *)

Definition novel : Book := mkBook 10 "novel" BookStatus.PUBLISHED 50000 None ["pdf"] (Some "books/novel.pdf") None None 0 None.
Definition bookshop : BooksDb := mkBooks {[ 10%N := novel ]} ∅ ∅ false.
Definition stars_of (n : Z) : ReviewCreate := mkReviewCreate n None None.
Definition two_reviews : list (datetime * request) :=
  [(1, CreateReview 100 10 1 (stars_of 5)); (2, CreateReview 101 10 2 (stars_of 4));
   (3, UpdateReview 101 2 (mkReviewUpdate (Some (Some 3)) None None)); (4, DeleteReview 100 1);
   (5, CreateReview 102 10 1 (stars_of 4))].

Definition reviewed : ReviewsDb := foldl (serve false true false) (opening bookshop) two_reviews.

Lemma rating_columns_witness :
  rating_of 10 reviewed = mkRating 7 2 3500 /\ rating_of 10 reviewed = reference_rating 10 (reviews reviewed).
Proof.
  split; [vm_compute; reflexivity|].
  apply (rating_columns_exact false true false bookshop two_reviews 10).
Defined.

Definition first_review : ReviewsDb := serve false true false (opening bookshop) (1, CreateReview 100 10 1 (stars_of 5)).

(** The moderation route cannot call the method it means to call. *)
Example moderation_route_raises :
  (respond false true false 5 (ModerateReview 100 ReviewStatus.REJECTED None 9) first_review).1 = Raise TypeErr.
Proof. vm_compute. reflexivity. Qed.

(** One reader who first finds a review unhelpful and then helpful counts twice. *)
Example one_voter_two_points :
  let d := foldl (serve false true false) first_review [(2, VoteReview 100 2 false); (3, VoteReview 100 2 true)] in
  (r_helpful_count <$> reviews d !! 100%N, map snd (map_to_list (votes d))) = (Some 2, [true]).
Proof. vm_compute. reflexivity. Qed.

(** A review written again starts at zero, but the old votes stand. *)
Example rewritten_review_keeps_votes :
  let d := foldl (serve false true false) first_review
    [(2, VoteReview 100 2 true); (3, DeleteReview 100 1); (4, CreateReview 103 10 1 (stars_of 2)); (5, VoteReview 100 2 true)] in
  (r_helpful_count <$> reviews d !! 100%N, votes d !! (100%N, 2%N)) = (Some 0, Some true).
Proof. vm_compute. reflexivity. Qed.

(** Two requests that loaded the book before either wrote: the second rating
    overwrites the first. *)
Example concurrent_reviews_lose_a_rating :
  let book := (10%N, unrated) in
  let d := opening bookshop in
  let '(_, d) := create false (fun t => t) 1 100 book 1 (stars_of 5) false d in
  let '(_, d) := create false (fun t => t) 1 101 book 2 (stars_of 3) false d in
  (rating_of 10 d, rt_count (reference_rating 10 (reviews d))) = (mkRating 3 1 3000, 2).
Proof. vm_compute. reflexivity. Qed.
