(* ===== verification/Shelves.v ===== *)
(** * The reader's own shelves (apps/books/services/reading.py, services/lists.py, routers/engagement.py)

    Bookmarks, reading progress, the wishlist and collections.  New rows are
    added to the session before the savepoint opens, as in [Entitlements.v]: a
    conflict breaks the surrounding transaction.  [race] is what other workers
    commit between a look-up and the insert that follows it. *)

From S2P Require Import Prelude Store Keys Json PaymentModels Pagination Entitlements.

(** ** Rows (apps/books/models.py, schemas.py) *)

Record BookmarkFields := mkBookmarkFields {
  bf_position : string; bf_page_number : option Z; bf_note : option string; bf_colour : option string }.
Record Bookmark := mkBookmark {
  bm_id : uuid; bm_user_id : uuid; bm_book_id : uuid; bm_fields : BookmarkFields; bm_created_at : datetime }.

(** Percentages are doubles: whole numbers of the smallest positive one. *)
Definition ONE_PERCENT : Z := 2 ^ 1074.
Definition FINISHED_PERCENT : Z := 98 * ONE_PERCENT.

Record ProgressUpdate := mkProgressUpdate {
  pu_position : string; pu_percent : Z; pu_page_number : option Z; pu_session_seconds : Z }.
Record ReadingProgress := mkProgress {
  rp_id : uuid;
  rp_user_id : uuid;
  rp_book_id : uuid;
  rp_position : option string;
  rp_page_number : option Z;
  rp_percent : Z;
  rp_total_reading_seconds : Z;
  rp_is_finished : bool;
  rp_finished_at : option datetime;
  rp_last_read_at : datetime;
}.

Record WishlistItem := mkWish { w_note : option string; w_created_at : datetime }.

Record CollectionFields := mkCollectionFields {
  cf_name : string; cf_slug : string; cf_description : option string; cf_is_public : bool; cf_cover_key : option string }.
Record Collection := mkCollection {
  c_id : uuid; c_user_id : uuid; c_fields : CollectionFields; c_item_count : Z; c_created_at : datetime;
  c_deleted_at : option datetime }.
Record CollectionItem := mkItem { ci_display_order : Z; ci_note : option string }.

#[export] Instance Bookmark_row : Row Bookmark := bm_id.
#[export] Instance ReadingProgress_row : Row ReadingProgress := rp_id.
#[export] Instance Collection_row : Row Collection := c_id.

Definition progress_key (p : ReadingProgress) : option (uuid * uuid) := Some (rp_user_id p, rp_book_id p).
Definition slug_key (c : Collection) : option (uuid * string) := Some (c_user_id c, cf_slug (c_fields c)).

(** [wishlist] by (user, book), [items] by (collection, book). *)
Record ShelvesDb := mkShelves {
  shop : BooksDb;
  bookmarks : table Bookmark;
  progress : table ReadingProgress;
  wishlist : gmap (uuid * uuid) WishlistItem;
  collections : table Collection;
  items : gmap (uuid * uuid) CollectionItem;
}.
Definition set_shop x d := mkShelves x (bookmarks d) (progress d) (wishlist d) (collections d) (items d).
Definition set_bookmarks x d := mkShelves (shop d) x (progress d) (wishlist d) (collections d) (items d).
Definition set_progress x d := mkShelves (shop d) (bookmarks d) x (wishlist d) (collections d) (items d).
Definition set_wishlist x d := mkShelves (shop d) (bookmarks d) (progress d) x (collections d) (items d).
Definition set_collections x d := mkShelves (shop d) (bookmarks d) (progress d) (wishlist d) x (items d).
Definition set_items x d := mkShelves (shop d) (bookmarks d) (progress d) (wishlist d) (collections d) x.

Definition use {A} (m : M BooksDb A) : M ShelvesDb A := lift shop set_shop m.

(** The foreign key to the book of a new row. *)
Definition book_exists (k : uuid) : M ShelvesDb unit := fun d =>
  (if bool_decide (is_Some (books (shop d) !! k)) then Ok tt else Raise IntegrityErr, d).

(** [session.add(row)], then [begin_nested()] inside a [try]. *)
Definition added_first {A} (insert on_conflict : M ShelvesDb A) : M ShelvesDb A := fun d =>
  match insert d with
  | (Raise IntegrityErr, _) => on_conflict (set_shop (set_broken true (shop d)) d)
  | r => r
  end.

(** ** Bookmarks *)

Definition create_bookmark (now : datetime) (id user_id book_id : uuid) (payload : BookmarkFields) : M ShelvesDb Bookmark :=
  let b := mkBookmark id user_id book_id payload now in
  _ ← use statement;
  _ ← book_exists book_id;
  d ← get;
  t ← of_result (insert_new (fun _ => @None unit) b (bookmarks d));
  _ ← modify (set_bookmarks t);
  mret b.

Definition get_own_bookmark (bookmark_id user_id : uuid) : M ShelvesDb Bookmark :=
  b ← gets (fun d => bookmarks d !! bookmark_id);
  match b with
  | None => raise (app_error NotFoundError "")
  | Some b => if bool_decide (bm_user_id b = user_id) then mret b else raise (app_error ForbiddenError "")
  end.

Definition bookmark_order (b : Bookmark) : cursor_key := (bm_created_at b, bm_id b).
Definition list_bookmarks (user_id : uuid) (book_id : option uuid) (cursor : option cursor_key) (limit : nat)
    : M ShelvesDb (list Bookmark * option cursor_key * bool) :=
  gets (fun d => keyset_page bookmark_order
    (select (fun b => bool_decide (bm_user_id b = user_id) &&
                      match book_id with Some k => bool_decide (bm_book_id b = k) | None => true end) (bookmarks d)) cursor limit).

(** The fields the client sent; [Some None] is an explicit null.  A null
    position meets the NOT NULL constraint of the column. *)
Record BookmarkUpdate := mkBookmarkUpdate {
  bu_position : option (option string); bu_page_number : option (option Z); bu_note : option (option string);
  bu_colour : option (option string) }.

Definition update_bookmark (b : Bookmark) (p : BookmarkUpdate) : M ShelvesDb Bookmark :=
  let f := bm_fields b in
  match default (Some (bf_position f)) (bu_position p) with
  | None => raise IntegrityErr
  | Some position =>
      let b := mkBookmark (bm_id b) (bm_user_id b) (bm_book_id b)
                 (mkBookmarkFields position (default (bf_page_number f) (bu_page_number p))
                    (default (bf_note f) (bu_note p)) (default (bf_colour f) (bu_colour p))) (bm_created_at b) in
      _ ← modify (fun d => set_bookmarks (save b (bookmarks d)) d);
      mret b
  end.

Definition delete_bookmark (b : Bookmark) : M ShelvesDb unit :=
  modify (fun d => set_bookmarks (remove b (bookmarks d)) d).

(** ** Reading progress *)

Definition reads_book (k : uuid * uuid) (p : ReadingProgress) : bool :=
  bool_decide (rp_user_id p = k.1) && bool_decide (rp_book_id p = k.2).

Definition get_progress (user_id book_id : uuid) : M ShelvesDb (option ReadingProgress) :=
  _ ← use statement;
  d ← get;
  of_result (one_or_none (select (reads_book (user_id, book_id)) (progress d))).

Definition mark_finished (now : datetime) (p : ReadingProgress) : ReadingProgress :=
  if (FINISHED_PERCENT <=? rp_percent p) && negb (rp_is_finished p)
  then mkProgress (rp_id p) (rp_user_id p) (rp_book_id p) (rp_position p) (rp_page_number p) (rp_percent p)
         (rp_total_reading_seconds p) true (Some now) (rp_last_read_at p)
  else p.

Definition advance (now : datetime) (u : ProgressUpdate) (p : ReadingProgress) : ReadingProgress :=
  mark_finished now
    (mkProgress (rp_id p) (rp_user_id p) (rp_book_id p) (Some (pu_position u)) (pu_page_number u)
       (Z.max (rp_percent p) (pu_percent u)) (rp_total_reading_seconds p + pu_session_seconds u)
       (rp_is_finished p) (rp_finished_at p) now).

Definition new_progress (now : datetime) (id user_id book_id : uuid) (u : ProgressUpdate) : ReadingProgress :=
  mkProgress id user_id book_id (Some (pu_position u)) (pu_page_number u) (pu_percent u) (pu_session_seconds u)
    false None now.

Definition save_progress (p : ReadingProgress) : M ShelvesDb ReadingProgress :=
  _ ← use statement; _ ← modify (fun d => set_progress (save p (progress d)) d); mret p.

Definition insert_progress (p : ReadingProgress) : M ShelvesDb unit :=
  _ ← book_exists (rp_book_id p);
  d ← get;
  t ← of_result (insert_new progress_key p (progress d));
  modify (set_progress t).

Definition sync_progress (race : ShelvesDb -> ShelvesDb) (now : datetime) (id user_id book_id : uuid) (u : ProgressUpdate)
    : M ShelvesDb ReadingProgress :=
  existing ← get_progress user_id book_id;
  match existing with
  | Some p => save_progress (advance now u p)
  | None =>
      let p := new_progress now id user_id book_id u in
      _ ← modify race;
      inserted ← added_first (_ ← insert_progress p; mret true) (mret false);
      if inserted : bool then save_progress (mark_finished now p) else
      found ← get_progress user_id book_id;
      match found with None => raise IntegrityErr | Some p => save_progress (advance now u p) end
  end.

Definition progress_order (p : ReadingProgress) : cursor_key := (rp_last_read_at p, rp_id p).
Definition list_progress (user_id : uuid) (cursor : option cursor_key) (limit : nat)
    : M ShelvesDb (list ReadingProgress * option cursor_key * bool) :=
  gets (fun d => keyset_page progress_order (select (fun p => bool_decide (rp_user_id p = user_id)) (progress d)) cursor limit).

(** ** The wishlist *)

Definition add_to_wishlist (race : ShelvesDb -> ShelvesDb) (now : datetime) (user_id book_id : uuid) (note : option string)
    : M ShelvesDb WishlistItem :=
  existing ← gets (fun d => wishlist d !! (user_id, book_id));
  match existing with
  | Some w =>
      let w := mkWish (str_or note (w_note w)) (w_created_at w) in
      _ ← modify (fun d => set_wishlist (<[(user_id, book_id) := w]> (wishlist d)) d);
      mret w
  | None =>
      let w := mkWish note now in
      _ ← modify race;
      added_first
        (_ ← book_exists book_id;
         taken ← gets (fun d => bool_decide (is_Some (wishlist d !! (user_id, book_id))));
         _ ← raise_when taken IntegrityErr;
         _ ← modify (fun d => set_wishlist (<[(user_id, book_id) := w]> (wishlist d)) d);
         mret w)
        (_ ← use statement;
         found ← gets (fun d => wishlist d !! (user_id, book_id));
         match found with Some w => mret w | None => raise IntegrityErr end)
  end.

Definition remove_from_wishlist (user_id book_id : uuid) : M ShelvesDb unit :=
  w ← gets (fun d => wishlist d !! (user_id, book_id));
  match w with
  | None => raise (app_error NotFoundError "")
  | Some _ => modify (fun d => set_wishlist (delete (user_id, book_id) (wishlist d)) d)
  end.

(** The items whose book is not deleted, latest first, with their books. *)
Definition wish_order (w : (uuid * WishlistItem) * Book) : cursor_key := (w_created_at w.1.2, w.1.1).
Definition list_wishlist (user_id : uuid) (cursor : option cursor_key) (limit : nat)
    : M ShelvesDb (list ((uuid * WishlistItem) * Book) * option cursor_key * bool) :=
  gets (fun d => keyset_page wish_order
    (omap (fun '((u, k), w) =>
       if bool_decide (u = user_id) then
         match books (shop d) !! k with
         | Some b => if bool_decide (b_deleted_at b = None) then Some ((k, w), b) else None
         | None => None
         end
       else None) (map_to_list (wishlist d))) cursor limit).

(** ** Collections *)

Definition live_collection (o : option Collection) : M ShelvesDb Collection :=
  match o with
  | Some c => if bool_decide (c_deleted_at c = None) then mret c else raise (app_error NotFoundError "")
  | None => raise (app_error NotFoundError "")
  end.

Definition create_collection (now : datetime) (id user_id : uuid) (payload : CollectionFields) : M ShelvesDb Collection :=
  let c := mkCollection id user_id payload 0 now None in
  added_first
    (d ← get; t ← of_result (insert_new slug_key c (collections d)); _ ← modify (set_collections t); mret c)
    (raise (app_error ConflictError "")).

Definition get_collection (collection_id : uuid) (viewer_id : option uuid) : M ShelvesDb Collection :=
  o ← gets (fun d => collections d !! collection_id);
  c ← live_collection o;
  if negb (cf_is_public (c_fields c)) && negb (bool_decide (Some (c_user_id c) = viewer_id))
  then raise (app_error NotFoundError "") else mret c.

Definition get_own_collection (collection_id user_id : uuid) : M ShelvesDb Collection :=
  o ← gets (fun d => collections d !! collection_id);
  c ← live_collection o;
  if bool_decide (c_user_id c = user_id) then mret c else raise (app_error ForbiddenError "").

Definition collection_order (c : Collection) : cursor_key := (c_created_at c, c_id c).
Definition list_collections (user_id : option uuid) (public_only : bool) (cursor : option cursor_key) (limit : nat)
    : M ShelvesDb (list Collection * option cursor_key * bool) :=
  gets (fun d => keyset_page collection_order
    (select (fun c => bool_decide (c_deleted_at c = None) && (negb public_only || cf_is_public (c_fields c)) &&
                      match user_id with Some u => bool_decide (c_user_id c = u) | None => true end) (collections d)) cursor limit).

(** As for bookmarks; the three required columns refuse null. *)
Record CollectionUpdate := mkCollectionUpdate {
  cu_name : option (option string); cu_slug : option (option string); cu_description : option (option string);
  cu_is_public : option (option bool); cu_cover_key : option (option string) }.

Definition with_fields (f : CollectionFields) (c : Collection) : Collection :=
  mkCollection (c_id c) (c_user_id c) f (c_item_count c) (c_created_at c) (c_deleted_at c).
Definition with_count (n : Z) (c : Collection) : Collection :=
  mkCollection (c_id c) (c_user_id c) (c_fields c) n (c_created_at c) (c_deleted_at c).
Definition set_deleted (now : datetime) (c : Collection) : Collection :=
  mkCollection (c_id c) (c_user_id c) (c_fields c) (c_item_count c) (c_created_at c) (Some now).

Definition changed_fields (p : CollectionUpdate) (f : CollectionFields) : option CollectionFields :=
  name ← default (Some (cf_name f)) (cu_name p);
  slug ← default (Some (cf_slug f)) (cu_slug p);
  is_public ← default (Some (cf_is_public f)) (cu_is_public p);
  Some (mkCollectionFields name slug (default (cf_description f) (cu_description p)) is_public
          (default (cf_cover_key f) (cu_cover_key p))).

(** Any IntegrityError of the flush is answered as a taken slug. *)
Definition update_collection (c : Collection) (p : CollectionUpdate) : M ShelvesDb Collection :=
  added_first
    (match changed_fields p (c_fields c) with
     | None => raise IntegrityErr
     | Some f =>
         let c := with_fields f c in
         d ← get; t ← of_result (insert_unique slug_key c (collections d)); _ ← modify (set_collections t); mret c
     end)
    (raise (app_error ConflictError "")).

Definition delete_collection (now : datetime) (c : Collection) : M ShelvesDb unit :=
  modify (fun d => set_collections (save (set_deleted now c) (collections d)) d).

Definition items_of (k : uuid) (t : gmap (uuid * uuid) CollectionItem) : list ((uuid * uuid) * CollectionItem) :=
  List.filter (fun i => bool_decide (i.1.1 = k)) (map_to_list t).

Definition refresh_count (c : Collection) : M ShelvesDb unit :=
  modify (fun d => set_collections (save (with_count (Z.of_nat (length (items_of (c_id c) (items d)))) c) (collections d)) d).

Definition add_collection_item (race : ShelvesDb -> ShelvesDb) (c : Collection) (book_id : uuid) (order : Z)
    (note : option string) : M ShelvesDb CollectionItem :=
  existing ← gets (fun d => items d !! (c_id c, book_id));
  let i := mkItem order note in
  match existing with
  | Some _ => _ ← modify (fun d => set_items (<[(c_id c, book_id) := i]> (items d)) d); mret i
  | None =>
      _ ← modify race;
      inserted ← added_first
        (_ ← book_exists book_id;
         taken ← gets (fun d => bool_decide (is_Some (items d !! (c_id c, book_id))));
         _ ← raise_when taken IntegrityErr;
         _ ← modify (fun d => set_items (<[(c_id c, book_id) := i]> (items d)) d);
         mret None)
        (_ ← use statement;
         found ← gets (fun d => items d !! (c_id c, book_id));
         match found with Some i => mret (Some i) | None => raise IntegrityErr end);
      match inserted : option CollectionItem with Some i => mret i | None => _ ← refresh_count c; mret i end
  end.

Definition remove_collection_item (c : Collection) (book_id : uuid) : M ShelvesDb unit :=
  i ← gets (fun d => items d !! (c_id c, book_id));
  match i with
  | None => raise (app_error NotFoundError "")
  | Some _ => _ ← modify (fun d => set_items (delete (c_id c, book_id) (items d)) d); refresh_count c
  end.

(** By display order, then title (a parameter: titles are not modelled). *)
Definition collection_books (title : Book -> string) (c : Collection) : M ShelvesDb (list Book) :=
  gets (fun d =>
    let rows := omap (fun '((_, k), i) => b ← books (shop d) !! k;
                  if bool_decide (b_deleted_at b = None) then Some (ci_display_order i, b) else None)
                  (items_of (c_id c) (items d)) in
    map snd (merge_sort (fun x y => Is_true ((x.1 <? y.1) || (x.1 =? y.1) && String.leb (title x.2) (title y.2))) rows)).

(** ** Routes *)

(** The payload has no [book_id], and the service takes one. *)
Definition create_bookmark_route (payload : BookmarkFields) : M ShelvesDb Bookmark := raise AttributeErr.

Definition sync_progress_route (free_books_readable : bool) (race : ShelvesDb -> ShelvesDb) (now : datetime)
    (id user_id book_id : uuid) (u : ProgressUpdate) : M ShelvesDb ReadingProgress :=
  b ← use (get_book false book_id);
  _ ← use (require_read free_books_readable now user_id b);
  sync_progress race now id user_id book_id u.

(** The response model reads the unloaded [items] relationship, and the route
    assigns a field it does not have; both raise ValueError. *)
Definition get_collection_route (title : Book -> string) (collection_id : uuid) (viewer_id : option uuid) : M ShelvesDb unit :=
  c ← get_collection collection_id viewer_id;
  _ ← collection_books title c;
  raise ValueErr.

(** The requests on a reader's own collections. *)
Inductive shelf_request :=
  | NewCollection (id : uuid) (payload : CollectionFields)
  | EditCollection (id : uuid) (payload : CollectionUpdate)
  | DropCollection (id : uuid)
  | AddBook (id book_id : uuid) (order : Z) (note : option string)
  | RemoveBook (id book_id : uuid).

Definition curate (now : datetime) (user_id : uuid) (q : shelf_request) : M ShelvesDb unit :=
  match q with
  | NewCollection id p => _ ← create_collection now id user_id p; mret tt
  | EditCollection id p => c ← get_own_collection id user_id; _ ← update_collection c p; mret tt
  | DropCollection id => c ← get_own_collection id user_id; delete_collection now c
  | AddBook id book order note =>
      c ← get_own_collection id user_id; _ ← add_collection_item (fun d => d) c book order note; mret tt
  | RemoveBook id book => c ← get_own_collection id user_id; remove_collection_item c book
  end.

Definition curated (d : ShelvesDb) (l : list (datetime * uuid * shelf_request)) : ShelvesDb :=
  foldl (fun d '(now, user, q) => (in_transaction (curate now user q) d).2) d l.

(** ** Counting the items *)

Definition item_number (k : uuid) (d : ShelvesDb) : Z := Z.of_nat (length (items_of k (items d))).

Record counts_exact (d : ShelvesDb) : Prop := {
  ce_keyed : keyed (collections d);
  ce_slugs : unique_on slug_key (collections d);
  ce_count k c : collections d !! k = Some c -> c_item_count c = item_number k d;
  ce_owned k b : is_Some (items d !! (k, b)) -> is_Some (collections d !! k);
}.

Lemma items_of_elem k t i : i ∈ items_of k t <-> t !! i.1 = Some i.2 /\ i.1.1 = k.
Proof.
  unfold items_of. rewrite list_elem_of_In, filter_In, <- list_elem_of_In. destruct i as [[a b] x]. cbn.
  rewrite elem_of_map_to_list, bool_decide_eq_true. done.
Qed.

Lemma items_of_NoDup k t : NoDup (items_of k t).
Proof. unfold items_of. apply NoDup_ListNoDup, List.NoDup_filter, NoDup_ListNoDup, NoDup_map_to_list. Qed.

(** The number of items of [k] depends only on which of its items there are. *)
Lemma items_of_ext k t t' : (forall b, is_Some (t !! (k, b)) <-> is_Some (t' !! (k, b))) ->
  length (items_of k t) = length (items_of k t').
Proof.
  intros H. rewrite <- (length_map fst (items_of k t)), <- (length_map fst (items_of k t')).
  assert (Hnd : forall t, NoDup (map fst (items_of k t))).
  { intros u. apply (NoDup_fmap_2_strong fst); [|apply items_of_NoDup].
    intros [p x] [q y]. rewrite !items_of_elem. cbn. intros [H1 _] [H2 _] ->. congruence. }
  apply Permutation_length, NoDup_Permutation; [done..|].
  assert (He : forall t x, x ∈ map fst (items_of k t) <-> x.1 = k /\ is_Some (t !! x)).
  { intros u x. rewrite list_elem_of_In, in_map_iff. split.
    - intros (i & <- & Hi%list_elem_of_In). apply items_of_elem in Hi as [Hi Hb]. eauto.
    - intros [Hb [i Hi]]. exists (x, i). split; [done|]. by apply list_elem_of_In, items_of_elem. }
  intros [a b]. rewrite !He. cbn. split; intros [-> Hx]; (split; [done|]); by apply H.
Qed.

Lemma get_own_collection_inv id user d c d' : get_own_collection id user d = (Ok c, d') ->
  d' = d /\ collections d !! id = Some c /\ c_user_id c = user /\ c_deleted_at c = None.
Proof.
  unfold get_own_collection, live_collection. intros (o & s & [= <- <-] & H)%bind_ok_inv.
  destruct (collections d !! id) as [x|] eqn:E; [|by apply bind_ok_inv in H as (? & ? & [=] & _)].
  case_bool_decide; [|by apply bind_ok_inv in H as (? & ? & [=] & _)].
  erewrite bind_ok in H by reflexivity. case_bool_decide; [|done]. by injection H as <- <-.
Qed.

Lemma stored_collection k c d : counts_exact d -> collections d !! k = Some c -> collections d !! c_id c = Some c.
Proof. intros Hd H. by rewrite <- (keyed_lookup _ _ _ (ce_keyed d Hd) H) in H. Qed.

(** Saving a collection over itself, with the number of its items. *)
Lemma counts_save d d' c o : counts_exact d -> collections d !! c_id c = Some o ->
  unique_on slug_key (save c (collections d)) ->
  collections d' = save c (collections d) -> c_item_count c = item_number (c_id c) d' ->
  (forall k b, k <> c_id c -> items d' !! (k, b) = items d !! (k, b)) -> counts_exact d'.
Proof.
  intros [Hk Hs Hc Ho] Hin Hu Ht Hn Hi. constructor; rewrite ?Ht.
  - by apply keyed_save.
  - done.
  - intros k x. rewrite lookup_save. change (row_id c) with (c_id c). case_decide as Hd; [by intros [= <-]; rewrite <- Hd|].
    intros Hx. rewrite (Hc k x Hx). unfold item_number. f_equal. apply items_of_ext. intros b. by rewrite Hi.
  - intros k b Hb. rewrite lookup_save. case_decide as Hd; [done|]. apply (Ho k b). by rewrite <- Hi by done.
Qed.

(** Recounting after the items of one collection changed. *)
Lemma refresh_counts d c t : counts_exact d -> collections d !! c_id c = Some c ->
  (forall k b, k <> c_id c -> t !! (k, b) = items d !! (k, b)) ->
  counts_exact (set_collections (save (with_count (Z.of_nat (length (items_of (c_id c) t))) c) (collections d)) (set_items t d)).
Proof.
  intros Hd Hc Ht. apply (counts_save d _ (with_count (Z.of_nat (length (items_of (c_id c) t))) c) c); [done|exact Hc| |done|done|exact Ht].
  by apply (unique_save_same slug_key _ c); [apply Hd..| |].
Qed.

(** A result other than an error comes from the insert: after a conflict no
    statement of the transaction succeeds. *)
Lemma added_first_ok {A} (m c : M ShelvesDb A) d a d' :
  (forall s, is_ok (c (set_shop (set_broken true (shop s)) s)).1 = false) ->
  added_first m c d = (Ok a, d') -> m d = (Ok a, d').
Proof.
  intros Hc. unfold added_first. destruct (m d) as [[x|e] s]; [done|]. destruct e; try done.
  intros H. specialize (Hc d). by rewrite H in Hc.
Qed.

Lemma curate_counts now user q d d' : counts_exact d -> curate now user q d = (Ok tt, d') -> counts_exact d'.
Proof.
  intros Hd H. destruct q as [id p|id p|id|id book order note|id book]; cbn in H.
  - apply bind_ok_inv in H as (c & s & H & [= <-]). apply added_first_ok in H; [|done].
    apply bind_ok_inv in H as (d1 & s1 & [= <- <-] & H). apply bind_ok_inv in H as (t & s1 & H1 & H).
    injection H1 as H1 <-. injection H as _ <-. set (x := mkCollection _ _ _ _ _ _) in *.
    destruct Hd as [Hk Hs Hc Ho]. pose proof (insert_new_ok _ _ _ _ H1) as (Hn & Hu & ->).
    pose proof (insert_unique_preserves _ _ _ _ Hk Hs Hu) as [Hk' Hs'].
    assert (Hnone : forall b, items d !! (id, b) = None).
    { intros b. destruct (items d !! (id, b)) eqn:E; [|done]. destruct (Ho id b) as [y Hy]; [eauto|].
      change (row_id x) with id in Hn. congruence. }
    constructor; cbn [collections items set_collections]; [done|done| |].
    + intros k c0. rewrite lookup_save. change (row_id x) with id. case_decide as Hd; [|apply Hc].
      intros [= <-]. subst k. unfold item_number. cbn [items set_collections c_item_count x].
      assert (items_of id (items d) = []) as ->; [|done].
      destruct (items_of id (items d)) as [|i l] eqn:E; [done|].
      assert (Hi : i ∈ items_of id (items d)) by (rewrite E; left). apply items_of_elem in Hi as [Hi He].
      destruct i as [[a b] z]. cbn in *. subst a. rewrite Hnone in Hi. done.
    + intros k b Hb. rewrite lookup_save. case_decide; [done|]. by apply (Ho k b).
  - apply bind_ok_inv in H as (c & s & (-> & Hc & Hus & _)%get_own_collection_inv & H).
    apply bind_ok_inv in H as (c' & s & H & [= <-]). apply added_first_ok in H; [|done].
    destruct (changed_fields p (c_fields c)) as [f|]; [|done].
    apply bind_ok_inv in H as (d1 & s1 & [= <- <-] & H). apply bind_ok_inv in H as (t & s1 & H1 & H).
    injection H1 as H1 <-. injection H as _ <-. pose proof (insert_unique_ok _ _ _ _ H1) as ->.
    pose proof (insert_unique_preserves _ _ _ _ (ce_keyed d Hd) (ce_slugs d Hd) H1) as [_ Hs'].
    pose proof (stored_collection _ _ _ Hd Hc) as Hc'.
    apply (counts_save d _ (with_fields f c) c); [done|exact Hc'|exact Hs'|done| |done].
    apply (ce_count d Hd _ _ Hc').
  - apply bind_ok_inv in H as (c & s & (-> & Hc & Hus & _)%get_own_collection_inv & H). injection H as <-.
    pose proof (stored_collection _ _ _ Hd Hc) as Hc'.
    apply (counts_save d _ (set_deleted now c) c); [done|exact Hc'| |done| |done].
    + by apply (unique_save_same slug_key _ c); [apply Hd..| |].
    + apply (ce_count d Hd _ _ Hc').
  - apply bind_ok_inv in H as (c & s & (-> & Hc & Hus & _)%get_own_collection_inv & H).
    pose proof (stored_collection _ _ _ Hd Hc) as Hc'.
    apply bind_ok_inv in H as (i & s & H & [= <-]). unfold add_collection_item in H.
    apply bind_ok_inv in H as (o & s1 & [= <- <-] & H). destruct (items d !! (c_id c, book)) as [x|] eqn:Hx.
    + erewrite bind_ok in H by reflexivity. injection H as _ <-.
      apply (counts_save d _ c c); [done|exact Hc'|by apply (unique_save_same slug_key _ c); [apply Hd..| |]| | |].
      * cbn. symmetry. by apply insert_id.
      * rewrite (ce_count d Hd _ _ Hc'). unfold item_number. f_equal. apply items_of_ext. intros b. cbn [items set_items].
        destruct (decide (b = book)) as [->|]; [by rewrite lookup_insert_eq, Hx|by rewrite lookup_insert_ne by congruence].
      * intros k b Hne. cbn [items set_items]. by rewrite lookup_insert_ne by congruence.
    + erewrite bind_ok in H by reflexivity.
      apply bind_ok_inv in H as (o & s1 & H1 & H).
      apply added_first_ok in H1; [|done].
      apply bind_ok_inv in H1 as (u & s2 & H1 & H2). unfold book_exists in H1. injection H1 as _ <-.
      erewrite bind_ok in H2 by reflexivity. rewrite Hx in H2. do 2 erewrite bind_ok in H2 by reflexivity.
      injection H2 as <- <-. erewrite bind_ok in H by reflexivity. injection H as _ <-.
      apply (refresh_counts d c); [done..|]. intros k b Hne. by rewrite lookup_insert_ne by congruence.
  - apply bind_ok_inv in H as (c & s & (-> & Hc & Hus & _)%get_own_collection_inv & H).
    pose proof (stored_collection _ _ _ Hd Hc) as Hc'. unfold remove_collection_item in H.
    apply bind_ok_inv in H as (o & s1 & [= <- <-] & H). destruct (items d !! _); [|done].
    erewrite bind_ok in H by reflexivity. injection H as <-.
    apply (refresh_counts d c); [done..|]. intros k b Hne. by rewrite lookup_delete_ne by congruence.
Qed.

(** ** Syncing progress *)

(** What one reader's syncs of one book add up to. *)
Record ProgressView := mkView {
  v_position : option string; v_page : option Z; v_percent : Z; v_seconds : Z; v_finished_at : option datetime;
  v_is_finished : bool; v_last_read_at : datetime }.
Definition view (p : ReadingProgress) : ProgressView :=
  mkView (rp_position p) (rp_page_number p) (rp_percent p) (rp_total_reading_seconds p) (rp_finished_at p)
    (rp_is_finished p) (rp_last_read_at p).

Record Sync := mkSync { sy_at : datetime; sy_id : uuid; sy_user : uuid; sy_book : uuid; sy_update : ProgressUpdate }.

Definition zmax (l : list Z) : Z := foldr Z.max 0 l.

(** The furthest percentage, the total time, the moment the finishing
    percentage was first reached, and the last position. *)
Definition expected (own : list Sync) : option ProgressView :=
  match last own with
  | None => None
  | Some s =>
      let finishing := List.filter (fun s => FINISHED_PERCENT <=? pu_percent (sy_update s)) own in
      Some (mkView (Some (pu_position (sy_update s))) (pu_page_number (sy_update s))
              (zmax (map (fun s => pu_percent (sy_update s)) own))
              (zsum (map (fun s => pu_session_seconds (sy_update s)) own))
              (sy_at <$> head finishing) (negb (bool_decide (finishing = []))) (sy_at s))
  end.

Definition of_reader (user book : uuid) (s : Sync) : bool := bool_decide (sy_user s = user) && bool_decide (sy_book s = book).

Definition sync (s : Sync) : M ShelvesDb ReadingProgress :=
  sync_progress (fun d => d) (sy_at s) (sy_id s) (sy_user s) (sy_book s) (sy_update s).

(** The field bounds of [ProgressUpdate]. *)
Definition update_ok (u : ProgressUpdate) : bool :=
  (0 <=? pu_percent u) && (pu_percent u <=? 100 * ONE_PERCENT) && (0 <=? pu_session_seconds u) && (pu_session_seconds u <=? 86400).

Lemma reads_book_col k p : reads_book k p = true <-> progress_key p = Some k.
Proof.
  unfold reads_book, progress_key. rewrite andb_true_iff, !bool_decide_eq_true. destruct k as [a b]. cbn.
  split; [intros [-> ->]; done|intros [= -> ->]; done].
Qed.

Definition progress_of (k : uuid * uuid) (d : ShelvesDb) : option ReadingProgress := by_key reads_book k (progress d).

(** A store whose transaction works, with readers' progress under its key. *)
Record sound (d : ShelvesDb) : Prop := {
  so_keyed : keyed (progress d);
  so_unique : unique_on progress_key (progress d);
  so_open : broken (shop d) = false;
}.

Lemma use_statement d : broken (shop d) = false -> use statement d = (Ok tt, d).
Proof. intros H. unfold use, lift, statement. rewrite H. by destruct d. Qed.

Lemma get_progress_run user book d : sound d -> get_progress user book d = (Ok (progress_of (user, book) d), d).
Proof.
  intros [Hk Hu Ho]. unfold get_progress. rewrite (bind_ok _ _ _ _ _ (use_statement d Ho)).
  erewrite bind_ok by reflexivity. unfold of_result. f_equal. apply (one_by_key progress_key reads_book reads_book_col); done.
Qed.

Lemma save_progress_run p d : broken (shop d) = false ->
  save_progress p d = (Ok p, set_progress (save p (progress d)) d).
Proof. intros Ho. unfold save_progress. by rewrite (bind_ok _ _ _ _ _ (use_statement d Ho)). Qed.

Lemma mark_finished_keys now p : rp_id (mark_finished now p) = rp_id p /\ progress_key (mark_finished now p) = progress_key p.
Proof. unfold mark_finished. by destruct (_ && _). Qed.

(** One sync: what it writes, and that it writes nothing else. *)
Lemma sync_run d s : sound d -> is_Some (books (shop d) !! sy_book s) -> progress d !! sy_id s = None ->
  let k := (sy_user s, sy_book s) in
  exists p d', sync s d = (Ok p, d') /\ sound d' /\ shop d' = shop d /\
    p = match progress_of k d with
        | Some q => advance (sy_at s) (sy_update s) q
        | None => mark_finished (sy_at s) (new_progress (sy_at s) (sy_id s) (sy_user s) (sy_book s) (sy_update s))
        end /\
    progress_of k d' = Some p /\ (forall k', k' <> k -> progress_of k' d' = progress_of k' d) /\
    dom (progress d') ⊆ {[ sy_id s ]} ∪ dom (progress d).
Proof.
  intros Hs Hb Hfresh k. pose proof Hs as [Hk Hu Ho]. unfold sync, sync_progress.
  rewrite (bind_ok _ _ _ _ _ (get_progress_run (sy_user s) (sy_book s) d Hs)). fold k.
  destruct (progress_of k d) as [q|] eqn:Hq.
  - rewrite save_progress_run by done. set (p := advance _ _ q).
    pose proof (proj1 (by_key_Some progress_key reads_book reads_book_col k _ q Hk Hu) Hq) as [Hin Hc].
    destruct (mark_finished_keys (sy_at s) (mkProgress (rp_id q) (rp_user_id q) (rp_book_id q) (Some (pu_position (sy_update s)))
      (pu_page_number (sy_update s)) (Z.max (rp_percent q) (pu_percent (sy_update s)))
      (rp_total_reading_seconds q + pu_session_seconds (sy_update s)) (rp_is_finished q) (rp_finished_at q) (sy_at s))) as [Hid Hkey].
    destruct (by_key_save progress_key reads_book reads_book_col _ Hk Hu p k) as (Hk' & Hu' & Hp & Hother).
    { unfold p, advance. by rewrite Hkey. }
    { right. exists q. split; [done|]. symmetry. exact Hid. }
    eexists _, _. split; [done|]. split_and!; try done. cbn.
    unfold save. rewrite dom_insert. change (row_id p) with (rp_id p). unfold p, advance. rewrite Hid. cbn.
    apply union_subseteq. split; [|set_solver]. apply singleton_subseteq_l. apply elem_of_union_r, elem_of_dom. by eexists.
  - erewrite bind_ok by reflexivity. set (n := new_progress _ _ _ _ _).
    assert (Hins : insert_new progress_key n (progress d) = Ok (save n (progress d))).
    { apply (insert_new_free progress_key reads_book reads_book_col _ Hk Hu n k); done. }
    destruct (by_key_save progress_key reads_book reads_book_col _ Hk Hu n k) as (Hk1 & Hu1 & Hp1 & Ho1); [done|by left|].
    assert (Hadd : added_first (_ ← insert_progress n; mret true) (mret false) d = (Ok true, set_progress (save n (progress d)) d)).
    { unfold added_first, insert_progress, book_exists. change (rp_book_id n) with (sy_book s).
      unfold mbind, M_bind, get, of_result, modify. rewrite bool_decide_eq_true_2 by done. by rewrite Hins. }
    rewrite (bind_ok _ _ _ _ _ Hadd). set (d1 := set_progress (save n (progress d)) d).
    rewrite save_progress_run by done. destruct (mark_finished_keys (sy_at s) n) as [Hid Hkey]. set (p := mark_finished _ n) in *.
    destruct (by_key_save progress_key reads_book reads_book_col _ Hk1 Hu1 p k) as (Hk' & Hu' & Hp & Hother).
    { by rewrite Hkey. }
    { right. exists n. split; [done|]. symmetry. exact Hid. }
    eexists _, _. split; [done|]. split_and!; try done.
    + intros k' Hne. etransitivity; [by apply Hother|by apply Ho1].
    + cbn. unfold save. rewrite !dom_insert. change (row_id p) with (rp_id p). rewrite Hid. set_solver.
Qed.

Definition syncs (d : ShelvesDb) (l : list Sync) : ShelvesDb := foldl (fun d s => (sync s d).2) d l.

(** One more sync of a reader is one more step of the summary. *)
Definition advance_view (s : Sync) (o : option ProgressView) : ProgressView :=
  let u := sy_update s in
  let percent := Z.max (from_option v_percent 0 o) (pu_percent u) in
  let was := from_option v_is_finished false o in
  let now_finished := (FINISHED_PERCENT <=? percent) && negb was in
  mkView (Some (pu_position u)) (pu_page_number u) percent (from_option v_seconds 0 o + pu_session_seconds u)
    (if now_finished then Some (sy_at s) else o ≫= v_finished_at) (was || now_finished) (sy_at s).

Lemma zmax_app l x : 0 <= x -> zmax (l ++ [x]) = Z.max (zmax l) x.
Proof. unfold zmax. intros Hx. induction l as [|y l IH]; cbn [foldr app]; [lia|]. rewrite IH. lia. Qed.

Lemma zmax_reaches l x : 0 < x -> x <= zmax l <-> exists y, y ∈ l /\ x <= y.
Proof.
  unfold zmax. intros Hx. induction l as [|z l IH]; cbn [foldr].
  - split; [lia|]. intros (y & Hy & _). by apply not_elem_of_nil in Hy.
  - split.
    + intros H. destruct (Z.le_gt_cases x z); [exists z; split; [left|done]|].
      destruct (proj1 IH) as (y & Hy & Hle); [lia|]. exists y. split; [by right|done].
    + intros (y & [->|Hy]%elem_of_cons & Hle); [lia|]. enough (x <= foldr Z.max 0 l) by lia. apply IH. eauto.
Qed.

Lemma finished_positive : 0 < FINISHED_PERCENT.
Proof. reflexivity. Qed.

Definition finishes (s : Sync) : bool := FINISHED_PERCENT <=? pu_percent (sy_update s).

Lemma finishes_max l :
  (FINISHED_PERCENT <=? zmax (map (fun s => pu_percent (sy_update s)) l)) = negb (bool_decide (List.filter finishes l = [])).
Proof.
  pose proof (zmax_reaches (map (fun s => pu_percent (sy_update s)) l) _ finished_positive) as Hz.
  destruct (List.filter finishes l) as [|s fl] eqn:E.
  - rewrite bool_decide_eq_true_2 by done. apply Z.leb_gt, Z.nle_gt. intros (y & Hy & Hle)%Hz.
    apply list_elem_of_fmap in Hy as (s & -> & Hs).
    assert (Hin : In s (List.filter finishes l)); [|by rewrite E in Hin].
    apply filter_In. split; [by apply list_elem_of_In|]. by apply Z.leb_le.
  - rewrite bool_decide_eq_false_2 by done. apply Z.leb_le, Hz.
    assert (Hin : In s (List.filter finishes l)) by (rewrite E; by left).
    apply filter_In in Hin as [Hin Hle%Z.leb_le]. exists (pu_percent (sy_update s)). split; [|done].
    by apply list_elem_of_In, (in_map (fun s => pu_percent (sy_update s))).
Qed.

(** The fields of the summary of any list of syncs. *)
Lemma expected_fields own :
  from_option v_percent 0 (expected own) = zmax (map (fun s => pu_percent (sy_update s)) own) /\
  from_option v_seconds 0 (expected own) = zsum (map (fun s => pu_session_seconds (sy_update s)) own) /\
  from_option v_is_finished false (expected own) = negb (bool_decide (List.filter finishes own = [])) /\
  (expected own ≫= v_finished_at) = sy_at <$> head (List.filter finishes own).
Proof.
  unfold expected. destruct (last own) as [s|] eqn:E; [done|]. apply last_None in E as ->. done.
Qed.

Lemma expected_app own s : update_ok (sy_update s) = true -> expected (own ++ [s]) = Some (advance_view s (expected own)).
Proof.
  intros Hs. unfold update_ok in Hs. bool_to_prop.
  destruct (expected_fields own) as (Hp & Hsec & Hfin & Hat). unfold advance_view. rewrite Hp, Hsec, Hfin, Hat.
  unfold expected. rewrite last_snoc. change (fun s => FINISHED_PERCENT <=? pu_percent (sy_update s)) with finishes.
  rewrite !map_app, List.filter_app. cbn [map List.filter]. rewrite zsum_app, zmax_app, zsum_cons, zsum_nil, Z.add_0_r by lia.
  assert (Hmax : forall a, (FINISHED_PERCENT <=? Z.max a (pu_percent (sy_update s))) = (FINISHED_PERCENT <=? a) || finishes s).
  { intros a. unfold finishes. destruct (Z.leb_spec FINISHED_PERCENT a), (Z.leb_spec FINISHED_PERCENT (pu_percent (sy_update s)));
      cbn; (apply Z.leb_le; lia) || (apply Z.leb_gt; lia). }
  rewrite Hmax, finishes_max. do 2 f_equal.
  - destruct (List.filter finishes own), (finishes s); done.
  - destruct (List.filter finishes own), (finishes s); done.
Qed.

Lemma advance_view_advance s q :
  view (advance (sy_at s) (sy_update s) q) = advance_view s (Some (view q)).
Proof.
  unfold advance, mark_finished, advance_view. cbn [rp_percent rp_is_finished from_option v_percent v_is_finished view v_seconds].
  change (v_is_finished (view q)) with (rp_is_finished q).
  destruct (rp_is_finished q), (FINISHED_PERCENT <=? _); done.
Qed.

Lemma advance_view_new s : update_ok (sy_update s) = true ->
  view (mark_finished (sy_at s) (new_progress (sy_at s) (sy_id s) (sy_user s) (sy_book s) (sy_update s))) = advance_view s None.
Proof.
  intros Hs. unfold update_ok in Hs. bool_to_prop. unfold mark_finished, advance_view, new_progress.
  cbn [rp_percent rp_is_finished from_option]. rewrite Z.max_r, Z.add_0_l by lia. by destruct (FINISHED_PERCENT <=? _).
Qed.

(** whatever syncs of whatever readers and books are served, in whatever
    order, each reader's progress in each book is what their own syncs of it
    add up to: the furthest percentage (a device that is behind never drags it
    back), the sum of the session times, the first moment 98 percent was
    reached, and the position of the last sync; and every sync succeeds. *)
Theorem progress_is_own_history b (l : list Sync) user book :
  broken b = false -> Forall (fun s => update_ok (sy_update s) = true) l ->
  Forall (fun s => is_Some (books b !! sy_book s)) l -> NoDup (map sy_id l) ->
  let d := syncs (mkShelves b ∅ ∅ ∅ ∅ ∅) l in
  exists p, get_progress user book d = (Ok p, d) /\ view <$> p = expected (List.filter (of_reader user book) l).
Proof.
  intros Hopen Hok Hbooks Hnd d.
  enough (H : sound d /\ shop d = b /\ dom (progress d) ⊆ list_to_set (map sy_id l) /\
    forall k, view <$> progress_of k d = expected (List.filter (of_reader k.1 k.2) l)).
  { destruct H as (Hs & _ & _ & H). exists (progress_of (user, book) d). split; [by apply get_progress_run|apply H]. }
  unfold d. clear d user book. induction l as [|s l IH] using rev_ind.
  - split_and!; [split; [apply keyed_empty|apply unique_empty|done]|done|set_solver|done].
  - apply Forall_app in Hok as [Hok [Hs _]%Forall_cons]. apply Forall_app in Hbooks as [Hbooks [Hb _]%Forall_cons].
    rewrite map_app in Hnd. apply NoDup_app in Hnd as (Hnd & Hnew & _).
    destruct (IH Hok Hbooks Hnd) as (Hsound & Hshop & Hdom & Hview). clear IH.
    unfold syncs. rewrite foldl_app. fold (syncs (mkShelves b ∅ ∅ ∅ ∅ ∅) l). set (d := syncs _ l) in *. cbn [foldl].
    destruct (sync_run d s Hsound) as (p & d' & Hr & Hs' & Hsh & Hp & Hpk & Hother & Hdom').
    { fold d. rewrite Hshop. exact Hb. }
    { apply not_elem_of_dom. intros Hin%Hdom%elem_of_list_to_set. apply (Hnew _ Hin). left. }
    rewrite Hr. cbn [snd]. split_and!; [done|congruence| |].
    + rewrite map_app, list_to_set_app_L. set_solver.
    + intros [u k]. rewrite List.filter_app. cbn [List.filter fst snd].
      destruct (of_reader u k s) eqn:Eo.
      * unfold of_reader in Eo. bool_to_prop. subst u k. rewrite Hpk, expected_app by done. cbn. f_equal.
        rewrite Hp. specialize (Hview (sy_user s, sy_book s)). cbn in Hview. rewrite <- Hview.
        destruct (progress_of _ d); [apply advance_view_advance|by apply advance_view_new].
      * rewrite app_nil_r, Hother, Hview; [done|]. intros [= -> ->]. unfold of_reader in Eo.
        by rewrite !bool_decide_eq_true_2 in Eo.
Qed.

(** After any sequence of requests on collections, the number shown with a
    collection is the number of books in it. *)
Theorem item_counts_exact b (l : list (datetime * uuid * shelf_request)) :
  let d := curated (mkShelves b ∅ ∅ ∅ ∅ ∅) l in
  forall k c, collections d !! k = Some c -> c_item_count c = Z.of_nat (length (items_of k (items d))).
Proof.
  intros d. enough (H : counts_exact d) by apply (ce_count d H).
  assert (H0 : counts_exact (mkShelves b ∅ ∅ ∅ ∅ ∅)).
  { constructor; [apply keyed_empty|apply unique_empty|done|]. intros k x Hx. cbn in Hx. rewrite lookup_empty in Hx. by destruct Hx. }
  unfold d. revert H0. generalize (mkShelves b ∅ ∅ ∅ ∅ ∅). induction l as [|[[now user] q] l IH]; intros d0 H0; [done|].
  cbn. apply IH. destruct (in_transaction _ d0) as [r d1] eqn:E. cbn.
  apply in_transaction_inv in E as [([] & -> & H)|(e & -> & ->)]; [by eapply curate_counts|done].
Qed.

(** ** Witnesses and examples *)

Definition essay : Book := mkBook 10 "essay" BookStatus.PUBLISHED 0 None ["pdf"] (Some "books/essay.pdf") None None 0 None.
Definition library_of_one : BooksDb := mkBooks {[ 10%N := essay ]} ∅ ∅ false.
Definition read_to (at_ : datetime) (id user : uuid) (percent : Z) : Sync :=
  mkSync at_ id user 10 (mkProgressUpdate "p" (percent * ONE_PERCENT) None 60).

(** Two devices of one reader, and another reader. *)
Definition three_syncs : list Sync := [read_to 1 100 1 98; read_to 2 101 2 10; read_to 3 102 1 40].

Definition synced : ShelvesDb := syncs (mkShelves library_of_one ∅ ∅ ∅ ∅ ∅) three_syncs.

Lemma progress_witness :
  (exists p, get_progress 1 10 synced = (Ok p, synced) /\ view <$> p = expected (List.filter (of_reader 1 10) three_syncs)) /\
  expected (List.filter (of_reader 1 10) three_syncs) = Some (mkView (Some "p") None (98 * ONE_PERCENT) 120 (Some 1) true 3).
Proof.
  split; [|vm_compute; reflexivity]. apply (progress_is_own_history library_of_one three_syncs 1 10).
  - reflexivity.
  - repeat constructor.
  - repeat constructor; vm_compute; eexists; reflexivity.
  - apply (bool_decide_unpack _). vm_compute. exact I.
Defined.

Definition favourites : CollectionFields := mkCollectionFields "Favourites" "favourites" None false None.
Definition curating : list (datetime * uuid * shelf_request) :=
  [(1, 1%N, NewCollection 50 favourites); (2, 1%N, AddBook 50 10 0 None); (3, 1%N, AddBook 50 10 1 None);
   (4, 2%N, RemoveBook 50 10)].

Lemma item_counts_witness :
  let d := curated (mkShelves library_of_one ∅ ∅ ∅ ∅ ∅) curating in
  exists c, collections d !! 50%N = Some c /\ c_item_count c = Z.of_nat (length (items_of 50 (items d))) /\ c_item_count c = 1.
Proof.
  eexists. split; [vm_compute; reflexivity|]. split; [|reflexivity].
  apply (item_counts_exact library_of_one curating). vm_compute. reflexivity.
Defined.

Definition reader_shelves : ShelvesDb := mkShelves library_of_one ∅ ∅ ∅ ∅ ∅.

(** Two devices sync a book for the first time at once: the second request
    fails, where the code means to fall through to the update. *)
Example second_device_fails :
  (sync_progress (fun d => (sync (read_to 1 100 1 5) d).2) 2 101 1 10 (mkProgressUpdate "q" ONE_PERCENT None 30) reader_shelves).1
  = Raise PendingRollbackErr.
Proof. vm_compute. reflexivity. Qed.

(** Two taps on the heart at once: the second request fails. *)
Example second_tap_fails :
  (add_to_wishlist (fun d => (add_to_wishlist (fun d => d) 1 1 10 None d).2) 2 1 10 None reader_shelves).1
  = Raise PendingRollbackErr.
Proof. vm_compute. reflexivity. Qed.

(** A book that does not exist is a server error, not a missing book. *)
Example unknown_book_on_wishlist :
  (add_to_wishlist (fun d => d) 2 1 99 None reader_shelves).1 = Raise PendingRollbackErr.
Proof. vm_compute. reflexivity. Qed.

Definition with_collection : ShelvesDb := curated reader_shelves [(1, 1%N, NewCollection 50 favourites)].

(** A null name is answered as a slug that is already taken. *)
Example null_name_reported_as_slug_conflict :
  (curate 2 1 (EditCollection 50 (mkCollectionUpdate (Some None) None None None None)) with_collection).1
  = Raise (app_error ConflictError "").
Proof. vm_compute. reflexivity. Qed.

(** The slug of a deleted collection stays taken. *)
Example deleted_collection_keeps_slug :
  let d := curated with_collection [(2, 1%N, DropCollection 50)] in
  ((get_own_collection 50 1 d).1, (curate 3 1 (NewCollection 51 favourites) d).1)
  = (Raise (app_error NotFoundError ""), Raise (app_error ConflictError "")).
Proof. vm_compute. reflexivity. Qed.

(** Opening a collection never works. *)
Example collection_detail_raises :
  (get_collection_route b_slug 50 (Some 1%N) with_collection).1 = Raise ValueErr.
Proof. vm_compute. reflexivity. Qed.
