(* ===== verification/Taxonomy.v ===== *)
(** * Authors, publishers and the category tree (apps/books/services/taxonomy.py, services/cache.py)

    Reference data with unique slugs, and the tree of categories: the cycle
    check in front of a change of parent, the assembly of the tree from the flat
    rows, and the cache it is served from.  [CategoryNode] objects are shared
    and mutated while the tree is linked, so a node is modelled by its id and
    the tree is read off the finished links. *)

From S2P Require Import Prelude Store Keys Json Pagination.

(** ** Rows (apps/books/models.py) *)

Record Author := mkAuthor {
  au_id : uuid; au_name : string; au_slug : string; au_bio : option string; au_avatar_key : option string;
  au_website : option string; au_socials : gmap string string; au_is_featured : bool;
  au_created_at : datetime; au_deleted_at : option datetime }.

Record Publisher := mkPublisher {
  pb_id : uuid; pb_name : string; pb_slug : string; pb_description : option string; pb_website : option string;
  pb_logo_key : option string; pb_contact_email : option string;
  pb_created_at : datetime; pb_deleted_at : option datetime }.

Record Category := mkCategory {
  ct_id : uuid; ct_name : string; ct_slug : string; ct_description : option string; ct_icon : option string;
  ct_parent_id : option uuid; ct_display_order : Z; ct_is_active : bool;
  ct_created_at : datetime; ct_deleted_at : option datetime }.

#[export] Instance Author_row : Row Author := au_id.
#[export] Instance Publisher_row : Row Publisher := pb_id.
#[export] Instance Category_row : Row Category := ct_id.

(** What the three have in common. *)
Class Entity (V : Type) `{Row V} := {
  slug_of : V -> string;
  name_of : V -> string;
  deleted_of : V -> option datetime;
  with_deleted : datetime -> V -> V;
}.

#[export] Instance Author_entity : Entity Author := {
  slug_of := au_slug; name_of := au_name; deleted_of := au_deleted_at;
  with_deleted now a := mkAuthor (au_id a) (au_name a) (au_slug a) (au_bio a) (au_avatar_key a) (au_website a)
                          (au_socials a) (au_is_featured a) (au_created_at a) (Some now) }.
#[export] Instance Publisher_entity : Entity Publisher := {
  slug_of := pb_slug; name_of := pb_name; deleted_of := pb_deleted_at;
  with_deleted now p := mkPublisher (pb_id p) (pb_name p) (pb_slug p) (pb_description p) (pb_website p) (pb_logo_key p)
                          (pb_contact_email p) (pb_created_at p) (Some now) }.
#[export] Instance Category_entity : Entity Category := {
  slug_of := ct_slug; name_of := ct_name; deleted_of := ct_deleted_at;
  with_deleted now c := mkCategory (ct_id c) (ct_name c) (ct_slug c) (ct_description c) (ct_icon c) (ct_parent_id c)
                          (ct_display_order c) (ct_is_active c) (ct_created_at c) (Some now) }.

(** A node of the tree, as the API returns it. *)
Inductive CategoryNode := mkNode (row : Category) (children : list CategoryNode).

(** The tables, the links from books, and the cached tree.  [author_links] and
    [category_links] are the (book, author) and (book, category) rows. *)
Record TaxDb := mkTax {
  authors : table Author;
  publishers : table Publisher;
  categories : table Category;
  author_links : gset (uuid * uuid);
  category_links : gset (uuid * uuid);
  publisher_links : gset (uuid * uuid);
  tree_cache : option (list CategoryNode);
}.
Definition set_authors x d := mkTax x (publishers d) (categories d) (author_links d) (category_links d) (publisher_links d) (tree_cache d).
Definition set_publishers x d := mkTax (authors d) x (categories d) (author_links d) (category_links d) (publisher_links d) (tree_cache d).
Definition set_categories x d := mkTax (authors d) (publishers d) x (author_links d) (category_links d) (publisher_links d) (tree_cache d).
Definition set_tree x d := mkTax (authors d) (publishers d) (categories d) (author_links d) (category_links d) (publisher_links d) x.

(** ** Shared helpers *)

Section shared.
Context {V : Type} `{Entity V}.
Context (tbl : TaxDb -> table V) (set_tbl : table V -> TaxDb -> TaxDb).

Definition slug_col (v : V) : option string := Some (slug_of v).

Definition get_entity (k : uuid) : M TaxDb V :=
  o ← gets (fun d => tbl d !! k);
  match o with
  | Some v => if bool_decide (deleted_of v = None) then mret v else raise (app_error NotFoundError "")
  | None => raise (app_error NotFoundError "")
  end.

Definition by_slug (slug : string) : M TaxDb V :=
  d ← get;
  o ← of_result (one_or_none (select (fun v => String.eqb (slug_of v) slug && bool_decide (deleted_of v = None)) (tbl d)));
  match o with Some v => mret v | None => raise (app_error NotFoundError "") end.

(** Deleted rows keep their slug. *)
Definition assert_slug_free (slug : option string) (exclude : option uuid) : M TaxDb unit :=
  taken ← gets (fun d => select (fun v => bool_decide (Some (slug_of v) = slug) &&
                                 match exclude with Some k => negb (bool_decide (row_id v = k)) | None => true end) (tbl d));
  raise_when (negb (bool_decide (taken = []))) (app_error ConflictError "").

(** [session.add] and [_flush]: any IntegrityError is a taken slug. *)
Definition add_entity (v : V) : M TaxDb unit :=
  d ← get;
  match insert_new slug_col v (tbl d) with
  | Ok t => modify (set_tbl t)
  | Raise _ => raise (app_error ConflictError "")
  end.
(** The changed object, or [None] when a required column became null. *)
Definition flush_entity (o : option V) : M TaxDb V :=
  d ← get;
  match o with
  | None => raise (app_error ConflictError "")
  | Some v =>
      match insert_unique slug_col v (tbl d) with
      | Ok t => _ ← modify (set_tbl t); mret v
      | Raise _ => raise (app_error ConflictError "")
      end
  end.

Definition delete_entity (links : TaxDb -> gset (uuid * uuid)) (now : datetime) (v : V) : M TaxDb unit :=
  linked ← gets (fun d => existsb (fun l => bool_decide (l.2 = row_id v)) (elements (links d)));
  _ ← raise_when linked (app_error ConflictError "");
  modify (fun d => set_tbl (save (with_deleted now v) (tbl d)) d).

(** [le column]: the order of a sortable column. *)
Definition paged (le : string -> V -> V -> bool) (allowed : list string) (params : PageParams) (search : option string)
    (sort_by sort_order : string) (extra : V -> bool) : M TaxDb (list V * Z) :=
  keys ← of_result (apply_sorting sort_by sort_order "id" allowed ["id"]);
  gets (fun d =>
    let keep v := bool_decide (deleted_of v = None) && extra v &&
                  match search with
                  | Some s => if truthy (Some s) then apply_search (String.length (name_of v) + String.length (search_pattern s)) s [name_of v] else true
                  | None => true
                  end in
    let asc := String.eqb sort_order "asc" in
    let before a b := if asc then le sort_by a b else le sort_by b a in
    paginate (merge_sort (fun a b => Is_true (before a b && (negb (before b a) || if asc then (row_id a <=? row_id b)%N else (row_id b <=? row_id a)%N)))
      (select keep (tbl d))) params).
End shared.

(** A field of a PATCH: left out, null, or a value; null is refused by a
    required column. *)
Definition nullable {A} (old : option A) (new : option (option A)) : option A := default old new.
Definition required {A} (old : A) (new : option (option A)) : option A := default (Some old) new.

(** ** Authors and publishers *)

Record AuthorUpdate := mkAuthorUpdate {
  aup_name : option (option string); aup_slug : option (option string); aup_bio : option (option string);
  aup_avatar_key : option (option string); aup_website : option (option string);
  aup_socials : option (option (gmap string string)); aup_is_featured : option (option bool) }.

Definition patch_author (p : AuthorUpdate) (a : Author) : option Author :=
  name ← required (au_name a) (aup_name p);
  slug ← required (au_slug a) (aup_slug p);
  socials ← required (au_socials a) (aup_socials p);
  featured ← required (au_is_featured a) (aup_is_featured p);
  Some (mkAuthor (au_id a) name slug (nullable (au_bio a) (aup_bio p)) (nullable (au_avatar_key a) (aup_avatar_key p))
          (nullable (au_website a) (aup_website p)) socials featured (au_created_at a) (au_deleted_at a)).

Definition author_le (col : string) (a b : Author) : bool :=
  if String.eqb col "name" then String.leb (au_name a) (au_name b) else au_created_at a <=? au_created_at b.

Definition list_authors params search (featured_only : bool) sort_by sort_order : M TaxDb (list Author * Z) :=
  paged authors author_le ["name"; "created_at"] params search sort_by sort_order
    (fun a => negb featured_only || au_is_featured a).
Definition get_author : uuid -> M TaxDb Author := get_entity authors.
Definition get_author_by_slug : string -> M TaxDb Author := by_slug authors.
(** [author]: the row built from the payload. *)
Definition create_author (author : Author) : M TaxDb Author :=
  _ ← assert_slug_free authors (Some (au_slug author)) None;
  _ ← add_entity authors set_authors author;
  mret author.
Definition update_author (a : Author) (p : AuthorUpdate) : M TaxDb Author :=
  _ ← (match aup_slug p with Some s => assert_slug_free authors s (Some (au_id a)) | None => mret tt end);
  flush_entity authors set_authors (patch_author p a).
Definition delete_author (now : datetime) (a : Author) : M TaxDb unit := delete_entity authors set_authors author_links now a.

Record PublisherUpdate := mkPublisherUpdate {
  pup_name : option (option string); pup_slug : option (option string); pup_description : option (option string);
  pup_website : option (option string); pup_logo_key : option (option string); pup_contact_email : option (option string) }.

Definition patch_publisher (p : PublisherUpdate) (x : Publisher) : option Publisher :=
  name ← required (pb_name x) (pup_name p);
  slug ← required (pb_slug x) (pup_slug p);
  Some (mkPublisher (pb_id x) name slug (nullable (pb_description x) (pup_description p))
          (nullable (pb_website x) (pup_website p)) (nullable (pb_logo_key x) (pup_logo_key p))
          (nullable (pb_contact_email x) (pup_contact_email p)) (pb_created_at x) (pb_deleted_at x)).

Definition publisher_le (col : string) (a b : Publisher) : bool :=
  if String.eqb col "name" then String.leb (pb_name a) (pb_name b) else pb_created_at a <=? pb_created_at b.

Definition list_publishers params search sort_by sort_order : M TaxDb (list Publisher * Z) :=
  paged publishers publisher_le ["name"; "created_at"] params search sort_by sort_order (fun _ => true).
Definition get_publisher : uuid -> M TaxDb Publisher := get_entity publishers.
Definition get_publisher_by_slug : string -> M TaxDb Publisher := by_slug publishers.
Definition create_publisher (publisher : Publisher) : M TaxDb Publisher :=
  _ ← assert_slug_free publishers (Some (pb_slug publisher)) None;
  _ ← add_entity publishers set_publishers publisher;
  mret publisher.
Definition update_publisher (x : Publisher) (p : PublisherUpdate) : M TaxDb Publisher :=
  _ ← (match pup_slug p with Some s => assert_slug_free publishers s (Some (pb_id x)) | None => mret tt end);
  flush_entity publishers set_publishers (patch_publisher p x).
Definition delete_publisher (now : datetime) (x : Publisher) : M TaxDb unit :=
  delete_entity publishers set_publishers publisher_links now x.

(** ** Categories *)

Definition MAX_CATEGORY_DEPTH : nat := 5.

Record CategoryUpdate := mkCategoryUpdate {
  cup_name : option (option string); cup_slug : option (option string); cup_description : option (option string);
  cup_icon : option (option string); cup_parent_id : option (option uuid); cup_display_order : option (option Z);
  cup_is_active : option (option bool) }.

Definition patch_category (p : CategoryUpdate) (c : Category) : option Category :=
  name ← required (ct_name c) (cup_name p);
  slug ← required (ct_slug c) (cup_slug p);
  order ← required (ct_display_order c) (cup_display_order p);
  active ← required (ct_is_active c) (cup_is_active p);
  Some (mkCategory (ct_id c) name slug (nullable (ct_description c) (cup_description p)) (nullable (ct_icon c) (cup_icon p))
          (nullable (ct_parent_id c) (cup_parent_id p)) order active (ct_created_at c) (ct_deleted_at c)).

Definition category_le (col : string) (a b : Category) : bool :=
  if String.eqb col "name" then String.leb (ct_name a) (ct_name b)
  else if String.eqb col "display_order" then ct_display_order a <=? ct_display_order b
  else ct_created_at a <=? ct_created_at b.

Definition list_categories params search sort_by sort_order : M TaxDb (list Category * Z) :=
  paged categories category_le ["name"; "display_order"; "created_at"] params search sort_by sort_order (fun _ => true).
Definition get_category : uuid -> M TaxDb Category := get_entity categories.
Definition get_category_by_slug : string -> M TaxDb Category := by_slug categories.

(** The cache: [up] when Redis is configured, enabled and answers. *)
Definition get_category_tree (up : bool) : M TaxDb (option (list CategoryNode)) :=
  gets (fun d => if up then tree_cache d else None).
Definition set_category_tree (up : bool) (t : list CategoryNode) : M TaxDb unit :=
  if up then modify (set_tree (Some t)) else mret tt.
Definition invalidate_category_tree (up : bool) : M TaxDb unit :=
  if up then modify (set_tree None) else mret tt.

Definition create_category (up : bool) (category : Category) : M TaxDb Category :=
  _ ← assert_slug_free categories (Some (ct_slug category)) None;
  _ ← (match ct_parent_id category with Some k => _ ← get_category k; mret tt | None => mret tt end);
  _ ← add_entity categories set_categories category;
  _ ← invalidate_category_tree up;
  mret category.

(** The loop of [_assert_no_cycle]: [n] more steps up from [current]. *)
Fixpoint climb (n : nat) (self : uuid) (current : option uuid) : M TaxDb unit :=
  match n with
  | O => raise (app_error BadRequestError "")
  | S n =>
      match current with
      | None => mret tt
      | Some k =>
          if bool_decide (k = self) then raise (app_error BadRequestError "") else
          parent ← get_category k;
          climb n self (ct_parent_id parent)
      end
  end.

Definition assert_no_cycle (category : Category) (parent_id : uuid) : M TaxDb unit :=
  if bool_decide (parent_id = ct_id category) then raise (app_error BadRequestError "")
  else climb (MAX_CATEGORY_DEPTH + 1) (ct_id category) (Some parent_id).

Definition update_category (up : bool) (c : Category) (p : CategoryUpdate) : M TaxDb Category :=
  _ ← (match cup_slug p with Some s => assert_slug_free categories s (Some (ct_id c)) | None => mret tt end);
  _ ← (match cup_parent_id p with Some (Some k) => assert_no_cycle c k | _ => mret tt end);
  c ← flush_entity categories set_categories (patch_category p c);
  _ ← invalidate_category_tree up;
  mret c.

Definition delete_category (up : bool) (now : datetime) (c : Category) : M TaxDb unit :=
  _ ← delete_entity categories set_categories category_links now c;
  invalidate_category_tree up.

(** ** The tree *)

(** What [_assemble] builds: the ids of the roots, and for every node the ids
    appended to its [children]. *)
Record Links := mkLinks { roots : list Category; children : gmap uuid (list Category) }.

Definition link_row (ids : gset uuid) (l : Links) (row : Category) : Links :=
  match (match ct_parent_id row with Some p => if bool_decide (p ∈ ids) then Some p else None | None => None end) with
  | None => mkLinks (roots l ++ [row]) (children l)
  | Some p => mkLinks (roots l) (<[p := default [] (children l !! p) ++ [row]]> (children l))
  end.

Definition link (rows : list Category) : Links :=
  foldl (link_row (list_to_set (map ct_id rows))) (mkLinks [] ∅) rows.

(** [node.model_dump]: the node with everything linked under it; [None] when
    [fuel] is too small for the depth below it. *)
Fixpoint dump (fuel : nat) (links : gmap uuid (list Category)) (row : Category) : option CategoryNode :=
  match fuel with
  | O => None
  | S fuel => mkNode row <$> mapM (dump fuel links) (default [] (links !! ct_id row))
  end.

Definition assemble (rows : list Category) : option (list CategoryNode) :=
  let l := link rows in mapM (dump (length rows) (children l)) (roots l).

(** ORDER BY display_order, name *)
Definition shown_before (a b : Category) : Prop :=
  Is_true ((ct_display_order a <? ct_display_order b) ||
           (ct_display_order a =? ct_display_order b) && String.leb (ct_name a) (ct_name b)).
#[export] Instance shown_before_dec a b : Decision (shown_before a b).
Proof. unfold shown_before. apply _. Defined.

Definition active_rows (t : table Category) : list Category :=
  merge_sort shown_before (select (fun c => bool_decide (ct_deleted_at c = None) && ct_is_active c) t).

Definition category_tree (up : bool) : M TaxDb (list CategoryNode) :=
  cached ← get_category_tree up;
  match cached with
  | Some t => mret t
  | None =>
      d ← get;
      match assemble (active_rows (categories d)) with
      | None => raise RuntimeErr
      | Some t => _ ← set_category_tree up t; mret t
      end
  end.

(** ** Requests *)

Inductive category_request :=
  | CreateCategory (category : Category)
  | UpdateCategory (k : uuid) (p : CategoryUpdate)
  | DeleteCategory (k : uuid)
  | ReadTree.

Definition answer (up : bool) (now : datetime) (q : category_request) : M TaxDb (list CategoryNode) :=
  match q with
  | CreateCategory c => _ ← create_category up c; mret []
  | UpdateCategory k p => c ← get_category k; _ ← update_category up c p; mret []
  | DeleteCategory k => c ← get_category k; _ ← delete_category up now c; mret []
  | ReadTree => category_tree up
  end.

Definition administer (up : bool) (d : TaxDb) (l : list (datetime * category_request)) : TaxDb :=
  foldl (fun d '(now, q) => (in_transaction (answer up now q) d).2) d l.

(** ** The tree, read off its nodes *)

Definition node_row (t : CategoryNode) : Category := match t with mkNode r _ => r end.
Fixpoint node_rows (t : CategoryNode) : list Category :=
  match t with mkNode r cs => r :: concat (map node_rows cs) end.
(** Every node has the [ch] of its id as children, in that order. *)
Fixpoint linked_as (ch : uuid -> list Category) (t : CategoryNode) : Prop :=
  match t with mkNode r cs => map node_row cs = ch (ct_id r) /\ foldr and True (map (linked_as ch) cs) end.

(** The parent a row is shown under, among the rows shown. *)
Definition shown_parent (rows : list Category) (r : Category) : option uuid :=
  match ct_parent_id r with Some p => if bool_decide (p ∈ map ct_id rows) then Some p else None | None => None end.
Definition children_of (rows : list Category) (k : uuid) : list Category :=
  List.filter (fun r => bool_decide (shown_parent rows r = Some k)) rows.
Definition roots_of (rows : list Category) : list Category :=
  List.filter (fun r => bool_decide (shown_parent rows r = None)) rows.

Lemma link_rows_spec rows (l : list Category) (acc : Links) :
  let r := foldl (link_row (list_to_set (map ct_id rows))) acc l in
  roots r = roots acc ++ List.filter (fun r => bool_decide (shown_parent rows r = None)) l /\
  forall k, default [] (children r !! k) = default [] (children acc !! k) ++
    List.filter (fun r => bool_decide (shown_parent rows r = Some k)) l.
Proof.
  revert acc. induction l as [|x l IH]; intros acc; cbn [foldl List.filter].
  - split; [by rewrite app_nil_r|]. intros k. by rewrite app_nil_r.
  - destruct (IH (link_row (list_to_set (map ct_id rows)) acc x)) as [Hr Hc]. cbv zeta. rewrite Hr. clear Hr.
    assert (Hsp : match ct_parent_id x with
                  | Some p => if bool_decide (p ∈ (list_to_set (map ct_id rows) : gset uuid)) then Some p else None
                  | None => None end = shown_parent rows x).
    { unfold shown_parent. destruct (ct_parent_id x) as [p|]; [|done].
      by rewrite (bool_decide_ext _ (p ∈ map ct_id rows)) by apply elem_of_list_to_set. }
    split; [|intros k; rewrite Hc]; unfold link_row; rewrite Hsp; destruct (shown_parent rows x) as [p|]; cbn [roots children].
    + by rewrite bool_decide_eq_false_2.
    + by rewrite bool_decide_eq_true_2, <- app_assoc.
    + destruct (decide (k = p)) as [->|Hne].
      * rewrite lookup_insert_eq, bool_decide_eq_true_2 by done. cbn [default from_option id]. by rewrite <- app_assoc.
      * rewrite lookup_insert_ne, bool_decide_eq_false_2 by congruence. done.
    + by rewrite bool_decide_eq_false_2.
Qed.

Lemma link_spec rows : roots (link rows) = roots_of rows /\ forall k, default [] (children (link rows) !! k) = children_of rows k.
Proof. destruct (link_rows_spec rows rows (mkLinks [] ∅)) as [Hr Hc]. split; [exact Hr|]. intros k. apply (Hc k). Qed.

(** ** Levels of the forest *)

Section forest.
Context (rows : list Category) (Hnd : NoDup (map ct_id rows)).

Definition below (l : list Category) : list Category := concat (map (fun r => children_of rows (ct_id r)) l).
Definition level (n : nat) : list Category := Nat.iter n below (roots_of rows).

Lemma rows_id_inj r r' : r ∈ rows -> r' ∈ rows -> ct_id r = ct_id r' -> r = r'.
Proof.
  clear -Hnd. induction rows as [|x l IH]; [intros ?%not_elem_of_nil; done|]. cbn in Hnd.
  apply NoDup_cons in Hnd as [Hx Hn]. intros [->|H1]%elem_of_cons [->|H2]%elem_of_cons He; [done|..].
  - destruct Hx. rewrite He. by apply list_elem_of_fmap_2.
  - destruct Hx. rewrite <- He. by apply list_elem_of_fmap_2.
  - by apply IH.
Qed.

Lemma elem_of_children r k : r ∈ children_of rows k <-> r ∈ rows /\ shown_parent rows r = Some k.
Proof. unfold children_of. by rewrite list_elem_of_In, filter_In, <- list_elem_of_In, bool_decide_eq_true. Qed.
Lemma elem_of_roots r : r ∈ roots_of rows <-> r ∈ rows /\ shown_parent rows r = None.
Proof. unfold roots_of. by rewrite list_elem_of_In, filter_In, <- list_elem_of_In, bool_decide_eq_true. Qed.
Lemma elem_of_below r l : r ∈ below l <-> r ∈ rows /\ exists q, q ∈ l /\ shown_parent rows r = Some (ct_id q).
Proof.
  unfold below. rewrite list_elem_of_In, in_concat. split.
  - intros (x & (q & <- & Hq)%in_map_iff & Hr). apply list_elem_of_In, elem_of_children in Hr as [Hr Hp].
    split; [done|]. exists q. by rewrite list_elem_of_In.
  - intros [Hr (q & Hq & Hp)]. exists (children_of rows (ct_id q)). split.
    + apply in_map_iff. exists q. by rewrite <- list_elem_of_In.
    + by apply list_elem_of_In, elem_of_children.
Qed.

Lemma level_rows n r : r ∈ level n -> r ∈ rows.
Proof. destruct n; cbn; [by intros [H _]%elem_of_roots|by intros [H _]%elem_of_below]. Qed.

Lemma rows_NoDup : NoDup rows.
Proof. by apply (NoDup_fmap_1 ct_id). Qed.

Lemma filter_NoDup (P : Category -> bool) : NoDup (List.filter P rows).
Proof. apply NoDup_ListNoDup, List.NoDup_filter, NoDup_ListNoDup, rows_NoDup. Qed.

Lemma below_NoDup l : NoDup l -> (forall r, r ∈ l -> r ∈ rows) -> NoDup (below l).
Proof.
  induction 1 as [|r l Hr Hl IH]; intros Hin; [constructor|]. unfold below. cbn [map concat]. fold (below l).
  apply NoDup_app. split; [apply filter_NoDup|]. split; [|apply IH; intros x Hx; apply Hin; by right].
  intros x [_ Hx]%elem_of_children [_ (q & Hq & Hx')]%elem_of_below. apply Hr.
  rewrite (rows_id_inj r q); [done|apply Hin; left|apply Hin; by right|congruence].
Qed.

Lemma level_NoDup n : NoDup (level n).
Proof. induction n as [|n IH]; [apply filter_NoDup|]. apply below_NoDup; [done|apply level_rows]. Qed.

Lemma level_unique m n r : r ∈ level m -> r ∈ level n -> m = n.
Proof.
  revert n r. induction m as [|m IH]; intros [|n] r; cbn [level Nat.iter nat_rect]; try done.
  - intros [_ H1]%elem_of_roots [_ (q & _ & H2)]%elem_of_below. congruence.
  - intros [_ (q & _ & H2)]%elem_of_below [_ H1]%elem_of_roots. congruence.
  - intros [_ (q & Hq & H2)]%elem_of_below [_ (q' & Hq' & H1)]%elem_of_below. f_equal. apply (IH n q Hq).
    rewrite (rows_id_inj q q'); [done|by eapply level_rows|by eapply level_rows|congruence].
Qed.

Definition levels (n : nat) : list Category := concat (map level (seq 0 n)).

Lemma elem_of_levels n r : r ∈ levels n <-> exists i, (i < n)%nat /\ r ∈ level i.
Proof.
  unfold levels. rewrite list_elem_of_In, in_concat. split.
  - intros (x & (i & <- & Hi)%in_map_iff & Hr). apply in_seq in Hi. exists i. split; [lia|]. by apply list_elem_of_In.
  - intros (i & Hi & Hr). exists (level i). split; [apply in_map, in_seq; lia|]. by apply list_elem_of_In.
Qed.

Lemma levels_S n : levels (S n) = levels n ++ level n.
Proof. unfold levels. rewrite seq_S, map_app, concat_app. cbn. by rewrite app_nil_r. Qed.

Lemma levels_NoDup n : NoDup (levels n).
Proof.
  induction n as [|n IH]; [constructor|]. rewrite levels_S. apply NoDup_app. split; [done|]. split; [|apply level_NoDup].
  intros r (i & Hi & Hr)%elem_of_levels Hn. pose proof (level_unique _ _ _ Hr Hn). lia.
Qed.

Lemma level_nil n : level n = [] -> level (S n) = [].
Proof. intros H. change (level (S n)) with (below (level n)). by rewrite H. Qed.

Lemma levels_length n : level n <> [] -> (n < length (levels (S n)))%nat.
Proof.
  induction n as [|n IH]; intros H; rewrite levels_S, length_app.
  - destruct (level 0); [done|]. cbn. lia.
  - specialize (IH (fun E => H (level_nil n E))). destruct (level (S n)); [done|]. cbn [length]. lia.
Qed.

(** No row is deeper than there are rows. *)
Lemma level_end : level (length rows) = [].
Proof.
  destruct (level (length rows)) as [|r l] eqn:E; [done|]. exfalso.
  pose proof (levels_length (length rows) ltac:(by rewrite E)) as Hlt.
  assert (Hle : (length (levels (S (length rows))) <= length rows)%nat); [|lia].
  apply submseteq_length, NoDup_submseteq; [apply levels_NoDup|].
  intros x (i & _ & Hx)%elem_of_levels. by eapply level_rows.
Qed.

Lemma below_app a b : below (a ++ b) = below a ++ below b.
Proof. unfold below. by rewrite map_app, concat_app. Qed.
Lemma iter_below_app n a b : Nat.iter n below (a ++ b) = Nat.iter n below a ++ Nat.iter n below b.
Proof.
  induction n as [|n IH]; [done|]. change (below (Nat.iter n below (a ++ b)) = below (Nat.iter n below a) ++ below (Nat.iter n below b)).
  by rewrite IH, below_app.
Qed.

(** The levels under a list of nodes. *)
Definition under (n : nat) (l : list Category) : list Category := concat (map (fun i => Nat.iter i below l) (seq 0 n)).

Lemma under_S n l : under (S n) l = l ++ under n (below l).
Proof.
  unfold under. cbn [seq map concat]. rewrite <- seq_shift, map_map. f_equal. f_equal. apply map_ext. intros i.
  by rewrite <- Nat.iter_succ_r.
Qed.
Lemma under_nil n : under n [] = [].
Proof. induction n as [|n IH]; [done|]. by rewrite under_S. Qed.
Lemma under_app n : forall a b, under n (a ++ b) ≡ₚ under n a ++ under n b.
Proof.
  induction n as [|n IH]; intros a b; [done|]. rewrite !under_S, below_app, IH. solve_Permutation.
Qed.

(** The dump of a list of nodes, when the levels under it end in time. *)
Lemma dump_list (links : gmap uuid (list Category)) (Hlinks : forall k, default [] (links !! k) = children_of rows k) n :
  forall l, Nat.iter n below l = [] ->
  exists ts, mapM (dump n links) l = Some ts /\ map node_row ts = l /\ Forall (linked_as (children_of rows)) ts /\
    concat (map node_rows ts) ≡ₚ under n l.
Proof.
  induction n as [|n IH]; intros l Hl.
  - cbn in Hl. subst l. by exists [].
  - rewrite Nat.iter_succ_r in Hl. induction l as [|r l IHl]; [exists []; by rewrite under_nil|].
    change (r :: l) with ([r] ++ l) in Hl. rewrite below_app, iter_below_app in Hl. apply app_eq_nil in Hl as [Hr Hl].
    assert (Hb : below [r] = children_of rows (ct_id r)) by apply app_nil_r. rewrite Hb in Hr.
    destruct (IH _ Hr) as (cs & Hcs & Hrow & Hlk & Hperm).
    destruct (IHl Hl) as (ts & Hts & Hrows & Hlks & Hperms). exists (mkNode r cs :: ts). split_and!.
    + cbn [mapM]. change (dump (S n) links r) with (mkNode r <$> mapM (dump n links) (default [] (links !! ct_id r))).
      rewrite Hlinks, Hcs. cbn [fmap option_fmap option_map mbind option_bind]. by rewrite Hts.
    + cbn. by rewrite Hrows.
    + constructor; [|done]. cbn. split; [done|]. clear -Hlk. by induction Hlk.
    + cbn [map concat node_rows]. rewrite Hperm, Hperms, !under_S. change (r :: l) with ([r] ++ l).
      rewrite below_app, under_app, Hb. solve_Permutation.
Qed.

(** The assembled tree exists, and holds the rows that have a level, once each. *)
Lemma assemble_levels : exists ts, assemble rows = Some ts /\ map node_row ts = roots_of rows /\
  Forall (linked_as (children_of rows)) ts /\ concat (map node_rows ts) ≡ₚ levels (length rows).
Proof.
  unfold assemble. destruct (link_spec rows) as [-> Hc]. apply dump_list; [done|]. apply level_end.
Qed.
End forest.

(** ** Parent chains end *)

Inductive grounded (t : table Category) : uuid -> Prop :=
  | grounded_root k c : t !! k = Some c -> ct_parent_id c = None -> grounded t k
  | grounded_child k c p : t !! k = Some c -> ct_parent_id c = Some p -> grounded t p -> grounded t k.

Definition forest (t : table Category) : Prop := forall k, is_Some (t !! k) -> grounded t k.

Lemma grounded_in t k : grounded t k -> is_Some (t !! k).
Proof. intros [k' c Hc _|k' c p Hc _ _]; by exists c. Qed.

(** A grounded row that is shown is on some level. *)
Lemma grounded_level t rows k r : grounded t k -> NoDup (map ct_id rows) ->
  (forall r, r ∈ rows -> t !! ct_id r = Some r) -> r ∈ rows -> ct_id r = k -> exists n, r ∈ level rows n.
Proof.
  intros Hg Hnd Hin. revert r. induction Hg as [k c Hc Hp|k c p Hc Hp Hg IH]; intros r Hr Hk.
  - exists 0%nat. apply elem_of_roots. split; [done|]. specialize (Hin r Hr). unfold shown_parent.
    assert (r = c) as -> by congruence. by rewrite Hp.
  - assert (r = c) as -> by (specialize (Hin r Hr); congruence).
    destruct (decide (p ∈ map ct_id rows)) as [Hs|Hn].
    + pose proof Hs as Hq. apply list_elem_of_fmap in Hq as (q & Hqp & Hq).
      destruct (IH q Hq (eq_sym Hqp)) as [n Hlev]. exists (S n). apply elem_of_below. split; [done|]. exists q. split; [done|].
      unfold shown_parent. by rewrite Hp, bool_decide_eq_true_2, Hqp.
    + exists 0%nat. apply elem_of_roots. split; [done|]. unfold shown_parent. by rewrite Hp, bool_decide_eq_false_2.
Qed.

Lemma active_rows_elem t r : keyed t -> r ∈ active_rows t <->
  t !! ct_id r = Some r /\ ct_deleted_at r = None /\ ct_is_active r = true.
Proof.
  intros Hk. unfold active_rows. rewrite merge_sort_Permutation. split.
  - intros [Hr [Hd%bool_decide_eq_true Ha]%andb_true_iff]%elem_of_select_keyed; done.
  - intros (Hr & Hd & Ha). apply elem_of_select. split; [eauto|]. by rewrite Hd, Ha.
Qed.

Lemma active_rows_ids t : keyed t -> NoDup (map ct_id (active_rows t)).
Proof.
  intros Hk. apply (NoDup_fmap_2_strong ct_id).
  - intros a b Ha Hb He. apply active_rows_elem in Ha as [Ha _], Hb as [Hb _]; [|done..]. rewrite He in Ha. congruence.
  - unfold active_rows. rewrite merge_sort_Permutation. by apply NoDup_select.
Qed.

(** The tree of a forest: every active row once, each under its parent. *)
Definition tree_of (t : table Category) (ts : list CategoryNode) : Prop :=
  let rows := active_rows t in
  concat (map node_rows ts) ≡ₚ rows /\ map node_row ts = roots_of rows /\ Forall (linked_as (children_of rows)) ts.

Lemma assemble_forest t : keyed t -> forest t -> exists ts, assemble (active_rows t) = Some ts /\ tree_of t ts.
Proof.
  intros Hk Hf. pose proof (active_rows_ids t Hk) as Hnd.
  destruct (assemble_levels (active_rows t) Hnd) as (ts & Ha & Hr & Hl & Hp). exists ts. split; [done|].
  split; [|split; [exact Hr|exact Hl]]. rewrite Hp.
  apply NoDup_Permutation; [by apply levels_NoDup|by apply rows_NoDup|]. intros r. rewrite elem_of_levels. split.
  - intros (i & _ & Hi). by eapply level_rows.
  - intros Hin. assert (Hg : grounded t (ct_id r)).
    { apply Hf. apply active_rows_elem in Hin as [Hin _]; [|done]. by exists r. }
    destruct (grounded_level t _ _ r Hg Hnd) as [n Hn]; [|done|done|].
    { intros x Hx. by apply active_rows_elem in Hx as [Hx _]. }
    exists n. split; [|done]. destruct (Nat.lt_ge_cases n (length (active_rows t))) as [Hlt|Hge]; [done|exfalso].
    assert (Hnil : level (active_rows t) n = []).
    { clear -Hge Hnd. induction Hge as [|n Hge IH]; [by apply level_end|by apply level_nil]. }
    rewrite Hnil in Hn. by apply not_elem_of_nil in Hn.
Qed.

(** ** Requests keep the forest *)

Lemma get_category_inv k d c d' : get_category k d = (Ok c, d') ->
  d' = d /\ categories d !! k = Some c /\ ct_deleted_at c = None.
Proof.
  unfold get_category, get_entity. intros (o & s & [= <- <-] & H)%bind_ok_inv.
  destruct (categories d !! k) as [x|] eqn:E; [|done]. case_bool_decide as Hd; [|done]. by injection H as <- <-.
Qed.

(** A climb that ends has met only rows other than [self]: the chain from
    [current] ends in any table that differs at [self] only. *)
Lemma climb_grounded n self current d u d' t :
  climb n self current d = (Ok u, d') -> (forall k, k <> self -> t !! k = categories d !! k) ->
  d' = d /\ forall k, current = Some k -> grounded t k.
Proof.
  intros H Ht. revert current H. induction n as [|n IH]; intros current H; [done|]. cbn in H.
  destruct current as [k|]; [|by injection H as _ <-].
  case_bool_decide as Hk; [done|]. apply bind_ok_inv in H as (c & s & (-> & Hc & _)%get_category_inv & H).
  apply IH in H as [-> Hp]. split; [done|]. intros k' [= <-]. rewrite <- Ht in Hc by done.
  destruct (ct_parent_id c) as [p|] eqn:E; [|by eapply grounded_root].
  eapply grounded_child; [done..|]. by apply Hp.
Qed.

Lemma grounded_mono t t' k : (forall k c, t !! k = Some c -> exists c', t' !! k = Some c' /\ ct_parent_id c' = ct_parent_id c) ->
  grounded t k -> grounded t' k.
Proof.
  intros H. induction 1 as [k c Hc Hp|k c p Hc Hp _ IH]; destruct (H k c Hc) as (c' & Hc' & He).
  - eapply grounded_root; [done|congruence].
  - eapply grounded_child; [done|by rewrite He|done].
Qed.

(** Replacing one row by a row whose chain ends without it. *)
Lemma forest_save t c : forest t -> (forall p, ct_parent_id c = Some p -> grounded (save c t) p) -> forest (save c t).
Proof.
  intros Hf Hp.
  assert (Hself : grounded (save c t) (ct_id c)).
  { destruct (ct_parent_id c) as [p|] eqn:E; [|eapply grounded_root; [apply lookup_save_same|done]].
    eapply grounded_child; [apply lookup_save_same|done|by apply Hp]. }
  intros k Hk. destruct (decide (k = ct_id c)) as [->|Hne]; [done|].
  assert (Hin : is_Some (t !! k)) by (rewrite lookup_save_other in Hk; [done|]; by intros <-).
  specialize (Hf k Hin). clear Hin Hk. induction Hf as [k x Hx Hx'|k x p Hx Hx' Hg IH].
  - eapply grounded_root; [|done]. rewrite lookup_save_other; [done|by intros <-].
  - eapply grounded_child; [rewrite lookup_save_other; [done|by intros <-]|done|].
    destruct (decide (p = ct_id c)) as [->|]; [done|by apply IH].
Qed.

Record tax_ok (up : bool) (d : TaxDb) : Prop := {
  to_keyed : keyed (categories d);
  to_slugs : unique_on slug_col (categories d);
  to_forest : forest (categories d);
  to_cache ts : tree_cache d = Some ts -> assemble (active_rows (categories d)) = Some ts;
  to_down : up = false -> tree_cache d = None;
}.

Lemma assert_slug_free_reads slug ex d r d' : assert_slug_free categories slug ex d = (r, d') -> d' = d.
Proof.
  unfold assert_slug_free. intros [(l & s & [= <- <-] & H)|(e & [=] & _)]%bind_inv.
  unfold raise_when in H. by destruct (negb _); injection H as _ <-.
Qed.

(** After a write, the cached tree is gone. *)
Lemma invalidated up d u d1 d' : tax_ok up d -> tree_cache d1 = tree_cache d ->
  invalidate_category_tree up d1 = (Ok u, d') -> categories d' = categories d1 /\ tree_cache d' = None.
Proof.
  unfold invalidate_category_tree. intros Hd Ht. destruct up; intros [= _ <-]; [done|].
  split; [done|]. rewrite Ht. by apply (to_down false d Hd).
Qed.

Lemma tax_write up d' : keyed (categories d') -> unique_on slug_col (categories d') -> forest (categories d') ->
  tree_cache d' = None -> tax_ok up d'.
Proof. intros Hk Hu Hf Hc. constructor; [done..| |done]. intros ts. by rewrite Hc. Qed.

Section requests_ok.
Context (up : bool) (d : TaxDb) (Hd : tax_ok up d).
Let Hk : keyed (categories d) := to_keyed up d Hd.
Let Hu : unique_on slug_col (categories d) := to_slugs up d Hd.
Let Hf : forest (categories d) := to_forest up d Hd.

Lemma create_ok c x d' : create_category up c d = (Ok x, d') -> tax_ok up d'.
Proof.
  unfold create_category. intros H.
  apply bind_ok_inv in H as (u & s1 & H1 & H). apply assert_slug_free_reads in H1 as ->.
  apply bind_ok_inv in H as (u1 & s1 & H1 & H).
  assert (s1 = d /\ forall p, ct_parent_id c = Some p -> is_Some (categories d !! p)) as [-> Hpar].
  { destruct (ct_parent_id c) as [p|]; [|injection H1 as _ <-; by split].
    apply bind_ok_inv in H1 as (y & s2 & (-> & Hy & _)%get_category_inv & [= _ <-]). split; [done|]. intros ? [= <-]. eauto. }
  apply bind_ok_inv in H as (u2 & s1 & H2 & H). unfold add_entity in H2. erewrite bind_ok in H2 by reflexivity.
  destruct (insert_new slug_col c (categories d)) as [t|] eqn:Hi; [|done]. injection H2 as _ <-.
  apply insert_new_ok in Hi as (Hn & Hi & ->). apply bind_ok_inv in H as (u3 & s1 & H3 & H).
  injection H as _ <-. destruct (invalidated up d u3 (set_categories _ d) s1 Hd eq_refl H3) as [Hcat Hnone].
  destruct (insert_unique_preserves slug_col c (categories d) _ Hk Hu Hi) as [Hk' Hu'].
  apply tax_write; rewrite ?Hcat; [done|done| |done]. cbn. apply forest_save; [done|]. intros p Hp.
  specialize (Hf p (Hpar p Hp)). apply (grounded_mono (categories d)); [|done]. intros j y Hy. exists y. split; [|done].
  rewrite lookup_save_other; [done|]. intros <-. congruence.
Qed.

Lemma patched_category p c c' : patch_category p c = Some c' ->
  ct_id c' = ct_id c /\ ct_parent_id c' = default (ct_parent_id c) (cup_parent_id p).
Proof.
  unfold patch_category. destruct (required (ct_name c) _); [|done]. destruct (required (ct_slug c) _); [|done].
  destruct (required (ct_display_order c) _); [|done]. destruct (required (ct_is_active c) _); [|done].
  cbn. by intros [= <-].
Qed.

(** A row written over itself with its parent as it was. *)
Lemma forest_same_parent k c c' : categories d !! k = Some c -> ct_id c' = k -> ct_parent_id c' = ct_parent_id c ->
  forest (save c' (categories d)).
Proof.
  intros Hc Hid Hp j Hj. apply (grounded_mono (categories d)).
  - intros i y Hy. rewrite lookup_save. change (row_id c') with (ct_id c'). rewrite Hid. case_decide as Hki; [|by exists y].
    exists c'. split; [done|]. congruence.
  - apply Hf. rewrite lookup_save in Hj. change (row_id c') with (ct_id c') in Hj. rewrite Hid in Hj. case_decide; [subst; eauto|done].
Qed.

Lemma update_ok k c p x d' : categories d !! k = Some c -> update_category up c p d = (Ok x, d') -> tax_ok up d'.
Proof.
  unfold update_category. intros Hc H.
  apply bind_ok_inv in H as (u & s1 & H1 & H).
  assert (s1 = d) as -> by (destruct (cup_slug p); [by apply assert_slug_free_reads in H1|by injection H1]). clear H1.
  apply bind_ok_inv in H as (u1 & s1 & H1 & H).
  assert (Hid : ct_id c = k) by by apply (Hk k c).
  assert (s1 = d /\ forall t q, (forall j, j <> k -> t !! j = categories d !! j) -> cup_parent_id p = Some (Some q) -> grounded t q) as [-> Hpar].
  { destruct (cup_parent_id p) as [[q|]|]; [|injection H1 as _ <-; by split..].
    unfold assert_no_cycle in H1. case_bool_decide; [done|]. rewrite Hid in H1.
    split; [by eapply (climb_grounded _ _ _ _ _ _ (categories d)) in H1 as [-> _]|].
    intros t q' Ht [= <-]. eapply climb_grounded in H1 as [_ H1]; [by apply H1|done]. }
  apply bind_ok_inv in H as (c' & s1 & H2 & H). unfold flush_entity in H2. erewrite bind_ok in H2 by reflexivity.
  destruct (patch_category p c) as [c1|] eqn:Hp; [|done]. apply patched_category in Hp as [Hid1 Hpar1]. rewrite Hid in Hid1.
  destruct (insert_unique slug_col c1 (categories d)) as [t|] eqn:Hi; [|done]. injection H2 as <- <-.
  destruct (insert_unique_preserves slug_col c1 (categories d) _ Hk Hu Hi) as [Hk' Hu'].
  apply insert_unique_ok in Hi as ->. apply bind_ok_inv in H as (u3 & s1 & H3 & H). injection H as _ <-.
  destruct (invalidated up d u3 (set_categories _ d) s1 Hd eq_refl H3) as [Hcat Hnone].
  apply tax_write; rewrite ?Hcat; [done|done| |done]. cbn.
  destruct (cup_parent_id p) as [[q|]|] eqn:Ecp; cbn in Hpar1; [apply forest_save; [done|]..|by apply (forest_same_parent k c)].
  - rewrite Hpar1. intros q' [= <-]. apply Hpar; [|done]. intros j Hj. rewrite lookup_save_other; [done|]. intros <-. by apply Hj.
  - by rewrite Hpar1.
Qed.

Lemma delete_ok k now c u d' : categories d !! k = Some c -> delete_category up now c d = (Ok u, d') -> tax_ok up d'.
Proof.
  unfold delete_category. intros Hc H.
  apply bind_ok_inv in H as (u1 & s1 & H1 & H). unfold delete_entity in H1.
  apply bind_ok_inv in H1 as (b & s2 & [= <- <-] & H1). apply bind_ok_inv in H1 as (u2 & s2 & H2 & H1).
  unfold raise_when in H2. destruct (existsb _ _); [done|]. injection H2 as _ <-. injection H1 as _ <-.
  destruct (invalidated up d u (set_categories _ d) d' Hd eq_refl H) as [Hcat Hnone].
  assert (Hid : ct_id c = k) by by apply (Hk k c). assert (Hin : categories d !! ct_id c = Some c) by (by rewrite Hid).
  apply tax_write; rewrite ?Hcat; cbn [categories set_categories]; [by apply keyed_save| | |done].
  - by apply (unique_save_same slug_col _ c).
  - by apply (forest_same_parent k c).
Qed.

Lemma read_ok ts d' : category_tree up d = (Ok ts, d') -> tax_ok up d'.
Proof.
  intros H.
  unfold category_tree in H. apply bind_ok_inv in H as (o & s & [= <- <-] & H).
  destruct (if up then tree_cache d else None) as [t|]; [by injection H as <- <-|].
  erewrite bind_ok in H by reflexivity. destruct (assemble _) as [t|] eqn:Ha; [|done].
  apply bind_ok_inv in H as (u & s & H1 & [= <- <-]). unfold set_category_tree in H1.
  destruct up; injection H1 as _ <-; [|done]. constructor; [done..| |done]; cbn. intros ? [= <-]. done.
Qed.

End requests_ok.

Lemma answer_ok up now q d ts d' : tax_ok up d -> answer up now q d = (Ok ts, d') -> tax_ok up d'.
Proof.
  intros Hd H. destruct q as [c|k p|k|]; cbn in H.
  - apply bind_ok_inv in H as (x & s & H & [= <- <-]). by eapply create_ok.
  - apply bind_ok_inv in H as (c & s & (-> & Hc & _)%get_category_inv & H).
    apply bind_ok_inv in H as (x & s & H & [= <- <-]). by eapply update_ok.
  - apply bind_ok_inv in H as (c & s & (-> & Hc & _)%get_category_inv & H).
    apply bind_ok_inv in H as (u & s & H & [= <- <-]). by eapply delete_ok.
  - by eapply read_ok.
Qed.

(** ** Properties *)

Definition no_taxonomy : TaxDb := mkTax ∅ ∅ ∅ ∅ ∅ ∅ None.

(** after any sequence of requests on categories, reading the tree answers
    (the dump of the linked nodes ends), from the cache or not, with every
    active category exactly once: at the top when it has no active parent, and
    otherwise among the children of its parent, which are all the active
    categories with that parent, in display order. *)
Theorem tree_holds_every_category up (l : list (datetime * category_request)) :
  let d := administer up no_taxonomy l in
  exists ts d', category_tree up d = (Ok ts, d') /\ tree_of (categories d) ts.
Proof.
  intros d. assert (Hd : tax_ok up d).
  { assert (H0 : tax_ok up no_taxonomy).
    { constructor; [apply keyed_empty|apply unique_empty| |done|done]. intros k Hk. cbn in Hk. rewrite lookup_empty in Hk. by destruct Hk. }
    unfold d. revert H0. generalize no_taxonomy. induction l as [|[now q] l IH]; intros d0 H0; [done|].
    cbn. apply IH. destruct (in_transaction _ d0) as [r d1] eqn:E. cbn.
    apply in_transaction_inv in E as [(ts & -> & H)|(e & -> & ->)]; [by eapply answer_ok|done]. }
  clearbody d. destruct Hd as [Hk _ Hf Hcache _].
  destruct (assemble_forest (categories d) Hk Hf) as (ts & Ha & Ht).
  unfold category_tree, get_category_tree. erewrite bind_ok by reflexivity.
  destruct (if up then tree_cache d else None) as [cached|] eqn:Ec.
  - destruct up; [|done]. exists cached, d. split; [done|]. apply Hcache in Ec. assert (cached = ts) as -> by congruence. done.
  - erewrite bind_ok by reflexivity. rewrite Ha. unfold set_category_tree.
    destruct up; (erewrite bind_ok by reflexivity); by eexists _, _.
Qed.

(** ** Examples *)

Definition category (k : uuid) (slug : string) (parent : option uuid) : Category :=
  mkCategory k slug slug None None parent 0 true 0 None.
Definition move (k : uuid) (parent : uuid) : category_request :=
  UpdateCategory k (mkCategoryUpdate None None None None (Some (Some parent)) None None).
Fixpoint chain (n : nat) : list (datetime * category_request) :=
  match n with
  | O => []
  | S m => chain m ++ [(0, CreateCategory (category (N.of_nat n) (py_str_int (Z.of_nat n))
                             (match m with O => None | S _ => Some (N.of_nat m) end)))]
  end.

(** Creating never looks at the depth: eight levels below one another. *)
Example create_is_unbounded :
  size (categories (administer true no_taxonomy (chain 8))) = 8%nat.
Proof. vm_compute. reflexivity. Qed.

(** Moving allows a sixth level, and refuses a seventh. *)
Example move_allows_six_levels :
  let d := administer true no_taxonomy (chain 6 ++ [(0, CreateCategory (category 100 "leaf" None))]) in
  (is_ok (answer true 1 (move 100 5) d).1, is_ok (answer true 1 (move 100 6) d).1) = (true, false).
Proof. vm_compute. reflexivity. Qed.

Definition two_roots : TaxDb :=
  administer true no_taxonomy [(0, CreateCategory (category 1 "a" None)); (0, CreateCategory (category 2 "b" None))].

(** Two moves checked before either is committed close a cycle; the tree still
    ends, and both categories are gone from it. *)
Example concurrent_moves_lose_categories :
  let '(_, d1) := answer true 1 (move 1 2) two_roots in
  let '(_, d2) := answer true 1 (move 2 1) two_roots in
  let merged := <[2%N := default (category 2 "" None) (categories d2 !! 2%N)]> (categories d1) in
  (length (active_rows merged), assemble (active_rows merged)) = (2%nat, Some []).
Proof. vm_compute. reflexivity. Qed.

(** The cached tree is dropped before the write is committed: a reader in
    between fills the cache with the old tree, which then stays. *)
Example reader_between_drop_and_commit :
  let warm := (category_tree true two_roots).2 in
  let '(_, written) := answer true 1 (DeleteCategory 2) warm in
  let seen_by_reader := set_tree (tree_cache written) warm in
  let after_reader := (category_tree true seen_by_reader).2 in
  let committed := set_tree (tree_cache after_reader) written in
  (map (fun t => ct_id (node_row t)) (match category_tree true committed with (Ok ts, _) => ts | _ => [] end),
   map ct_id (active_rows (categories committed))) = ([1%N; 2%N], [1%N]).
Proof. vm_compute. reflexivity. Qed.
