(* ===== verification/Templating.v ===== *)
(** * Message templates (apps/notifications/services/templates.py)

    Bodies are text with [{{ name }}] placeholders.  A body is scanned once,
    left to right, into literal characters and holes ([pieces]); rendering
    replaces each hole by its value and reports the names that have none. *)

From S2P Require Import Prelude Store Json Pagination.

(** ** Channels and rows (knowledgeos_core/schemas.py, models.py, schemas.py) *)

Module NotificationChannel.
Inductive t := EMAIL | SMS | WHATSAPP | PUSH | IN_APP.
End NotificationChannel.
#[export] Instance NotificationChannel_eq_dec : EqDecision NotificationChannel.t.
Proof. solve_decision. Defined.
#[export] Program Instance NotificationChannel_values : StrEnum NotificationChannel.t := {
  members := [NotificationChannel.EMAIL; NotificationChannel.SMS; NotificationChannel.WHATSAPP;
              NotificationChannel.PUSH; NotificationChannel.IN_APP];
  enum_value c := match c with
                  | NotificationChannel.EMAIL => "email" | NotificationChannel.SMS => "sms"
                  | NotificationChannel.WHATSAPP => "whatsapp" | NotificationChannel.PUSH => "push"
                  | NotificationChannel.IN_APP => "in_app" end;
}.
Solve All Obligations with solve_str_enum.

Record Template := mkTemplate {
  tp_id : uuid;
  tp_key : string;
  tp_channel : NotificationChannel.t;
  tp_locale : string;
  tp_category : string;
  tp_subject : option string;
  tp_body_text : string;
  tp_body_html : option string;
  tp_required_variables : option (list string);  (* JSON, which can hold null *)
  tp_is_active : bool;
  tp_description : option string;
}.
#[export] Instance Template_row : Row Template := tp_id.

(** uq_templates_key_channel_locale *)
Definition template_key_of (t : Template) : string * NotificationChannel.t * string := (tp_key t, tp_channel t, tp_locale t).
Definition template_col (t : Template) : option (string * NotificationChannel.t * string) := Some (template_key_of t).

(** ** Placeholders *)

Abbreviation variables := (list (string * json)) (only parsing).

Definition is_name_start (c : ascii) : bool := (is_alnum c && negb (is_digit c)) || (c =? "_")%char.
Definition is_name_char (c : ascii) : bool := is_alnum c || (c =? "_")%char.

(** The longest prefix whose characters satisfy [p], and the rest. *)
Fixpoint span (p : ascii -> bool) (s : string) : string * string :=
  match s with
  | "" => ("", "")
  | String c s' => if p c then let '(a, b) := span p s' in (String c a, b) else ("", s)
  end.

(** [s[n:]] *)
Fixpoint sdrop (n : nat) (s : string) : string :=
  match n, s with
  | S n', String _ s' => sdrop n' s'
  | _, _ => s
  end.

(** [PLACEHOLDER.match] at the head of the text: the name, and what follows.
    Spaces, names and braces share no character, so the greedy match is the
    only one. *)
Definition match_placeholder (s : string) : option (string * string) :=
  if startswith "{{" s then
    let '(name, s2) := span is_name_char (lstrip (sdrop 2 s)) in
    let s3 := lstrip s2 in
    match name with
    | String c _ => if is_name_start c && startswith "}}" s3 then Some (name, sdrop 2 s3) else None
    | "" => None
    end
  else None.

Inductive piece :=
  | Lit (c : ascii)
  | Hole (name raw : string).

(** The scan of [PLACEHOLDER.sub] / [findall]: each step consumes a character,
    so the length of the text is enough fuel. *)
Fixpoint scan (fuel : nat) (s : string) : list piece :=
  match fuel, s with
  | S fuel', String c s' =>
      match match_placeholder s with
      | Some (name, rest) => Hole name (stake (String.length s - String.length rest) s) :: scan fuel' rest
      | None => Lit c :: scan fuel' s'
      end
  | _, _ => []
  end.
Definition pieces (s : string) : list piece := scan (String.length s) s.

Definition hole_name (p : piece) : option string := match p with Lit _ => None | Hole n _ => Some n end.
Definition placeholders (s : string) : list string := fromkeys (omap hole_name (pieces s)).

(** [name in variables and variables[name] is not None] *)
Definition defined_value (vs : variables) (name : string) : option json :=
  match fields_get name vs with
  | Some JNull | None => None
  | Some v => Some v
  end.

Definition replace_hole (vs : variables) (p : piece) : string :=
  match p with
  | Lit c => String c ""
  | Hole name raw => match defined_value vs name with Some v => jstr v | None => raw end
  end.
Definition is_missing (vs : variables) (name : string) : bool := bool_decide (defined_value vs name = None).

Definition render (s : string) (vs : variables) : string * list string :=
  (foldr append "" (map (replace_hole vs) (pieces s)), List.filter (is_missing vs) (placeholders s)).

(** ** Messages *)

Definition quote_char : ascii := dquote.
Definition escape_html (v : json) : string :=
  replace_char quote_char "&quot;" (replace_char ">" "&gt;" (replace_char "<" "&lt;" (replace_char "&" "&amp;" (jstr v)))).

Record RenderedMessage := mkRendered {
  r_subject : option string;
  r_body_text : string;
  r_body_html : option string;
  r_missing : list string;
}.

Definition escaped (vs : variables) : variables := map (fun kv => (kv.1, JStr (escape_html kv.2))) vs.
Definition sorted_names (l : list string) : list string := merge_sort (fun a b => Is_true (String.leb a b)) (fromkeys l).

(** A part that is absent or empty is not rendered: the subject stays [None],
    the HTML body too. *)
Definition render_part (o : option string) (vs : variables) : option string * list string :=
  match o with
  | Some s => if String.eqb s "" then (None, []) else let '(out, missing) := render s vs in (Some out, missing)
  | None => (None, [])
  end.

Definition render_message (t : Template) (vs : variables) : RenderedMessage :=
  let '(subject, m1) := render_part (tp_subject t) vs in
  let '(body_text, m2) := render (tp_body_text t) vs in
  let '(body_html, m3) := render_part (tp_body_html t) (escaped vs) in
  let m4 := List.filter (is_missing vs) (from_option id [] (tp_required_variables t)) in
  mkRendered subject body_text body_html (sorted_names (m1 ++ m2 ++ m3 ++ m4)).

Example render_example :
  render "Hi {{ name }}, {{{n}} {{1x}} {{ name}}!" [("name", JStr "Ada"); ("n", JInt 3)] =
    ("Hi Ada, {3 {{1x}} Ada!", []).
Proof. vm_compute. reflexivity. Qed.
Example missing_example :
  render "{{a}} {{b}} {{ a }}" [("a", JNull)] = ("{{a}} {{b}} {{ a }}", ["a"; "b"]).
Proof. vm_compute. reflexivity. Qed.

(** ** The service *)

Record TemplateCreate := mkTemplateCreate {
  tc_key : string;
  tc_channel : NotificationChannel.t;
  tc_locale : string;
  tc_category : string;
  tc_subject : option string;
  tc_body_text : string;
  tc_body_html : option string;
  tc_required_variables : list string;
  tc_is_active : bool;
  tc_description : option string;
}.

Definition at_most (n : nat) (s : string) : bool := (String.length s <=? n)%nat.
Definition opt_at_most (n : nat) (o : option string) : bool := from_option (at_most n) true o.

(** Surrounding space is stripped before the lengths are checked; the key is
    lowered and restricted after. *)
Definition parse_template_create (p : TemplateCreate) : result TemplateCreate :=
  let p := mkTemplateCreate (strip (tc_key p)) (tc_channel p) (strip (tc_locale p)) (strip (tc_category p))
             (strip <$> tc_subject p) (strip (tc_body_text p)) (strip <$> tc_body_html p)
             (map strip (tc_required_variables p)) (tc_is_active p) (strip <$> tc_description p) in
  let key := lower (strip (tc_key p)) in
  if negb (String.eqb (tc_key p) "") && at_most 120 (tc_key p) && at_most 10 (tc_locale p) && at_most 60 (tc_category p) &&
     opt_at_most 300 (tc_subject p) && negb (String.eqb (tc_body_text p) "") && at_most (Z.to_nat 100000) (tc_body_text p) &&
     opt_at_most (Z.to_nat 500000) (tc_body_html p) && (length (tc_required_variables p) <=? 50)%nat &&
     opt_at_most 500 (tc_description p) &&
     sall (fun c => is_alnum c || bool_decide (c ∈ [".";"_";"-"]%char)) key
  then Ok (mkTemplateCreate key (tc_channel p) (tc_locale p) (tc_category p) (tc_subject p) (tc_body_text p)
             (tc_body_html p) (tc_required_variables p) (tc_is_active p) (tc_description p))
  else Raise (app_error ValidationError "").

(** A PATCH body: [None] a field that was not sent, [Some None] an explicit null. *)
Record TemplateUpdate := mkTemplateUpdate {
  tu_category : option (option string);
  tu_subject : option (option string);
  tu_body_text : option (option string);
  tu_body_html : option (option string);
  tu_required_variables : option (option (list string));
  tu_is_active : option (option bool);
  tu_description : option (option string);
}.

(** [setattr] of a nullable column. *)
Definition patch {A} (u : option A) (old : A) : A := from_option id old u.
(** [setattr] of a NOT NULL column: a null fails when the row is flushed. *)
Definition patch_required {A} (u : option (option A)) (old : A) : option A := from_option id (Some old) u.

Definition apply_template_update (u : TemplateUpdate) (t : Template) : option Template :=
  category ← patch_required (tu_category u) (tp_category t);
  body_text ← patch_required (tu_body_text u) (tp_body_text t);
  is_active ← patch_required (tu_is_active u) (tp_is_active t);
  Some (mkTemplate (tp_id t) (tp_key t) (tp_channel t) (tp_locale t) category (patch (tu_subject u) (tp_subject t))
          body_text (patch (tu_body_html u) (tp_body_html t)) (patch (tu_required_variables u) (tp_required_variables t))
          is_active (patch (tu_description u) (tp_description t))).

Definition template_of (id : uuid) (p : TemplateCreate) : Template :=
  mkTemplate id (tc_key p) (tc_channel p) (tc_locale p) (tc_category p) (tc_subject p) (tc_body_text p)
    (tc_body_html p) (Some (tc_required_variables p)) (tc_is_active p) (tc_description p).

Definition has_key (key : string) (c : NotificationChannel.t) (locale : string) (t : Template) : bool :=
  bool_decide (template_key_of t = (key, c, locale)).

(** One look-up, and its fallback to English. *)
Definition find_exact (key : string) (c : NotificationChannel.t) (locale : string) (ts : table Template)
    : result (option Template) :=
  one_or_none (select (fun t => has_key key c locale t && tp_is_active t) ts).
Definition find_template (key : string) (c : NotificationChannel.t) (locale : string) (ts : table Template)
    : result (option Template) :=
  found ← find_exact key c locale ts;
  if bool_decide (found <> None) || String.eqb locale "en" then Ok found else find_exact key c "en" ts.

Definition get_template (id : uuid) : M (table Template) Template := fun ts =>
  match ts !! id with
  | Some t => (Ok t, ts)
  | None => (Raise (app_error NotFoundError ""), ts)
  end.

Definition deactivated (t : Template) : Template :=
  mkTemplate (tp_id t) (tp_key t) (tp_channel t) (tp_locale t) (tp_category t) (tp_subject t) (tp_body_text t)
    (tp_body_html t) (tp_required_variables t) false (tp_description t).

Definition list_templates (key : option string) (active_only : bool) : M (table Template) (list Template) :=
  gets (fun ts =>
    merge_sort (fun a b => Is_true (negb (String.leb (tp_key b) (tp_key a)) || (String.eqb (tp_key a) (tp_key b) &&
                  String.leb (enum_value (tp_channel a)) (enum_value (tp_channel b)))))
      (select (fun t => (negb (truthy key) || bool_decide (Some (tp_key t) = key)) && (negb active_only || tp_is_active t)) ts)).

Section service.
(** What other requests commit between the check and the insert. *)
Context (race : table Template -> table Template).

Definition create_template (id : uuid) (p : TemplateCreate) : M (table Template) Template :=
  p ← of_result (parse_template_create p);
  ts ← get;
  clash ← of_result (one_or_none (select (has_key (tc_key p) (tc_channel p) (tc_locale p)) ts));
  _ ← raise_when (bool_decide (clash <> None)) (app_error ConflictError "");
  _ ← modify race;
  ts ← get;
  ts' ← of_result (insert_new template_col (template_of id p) ts);
  _ ← put ts';
  mret (template_of id p).

Definition update_template (id : uuid) (u : TemplateUpdate) : M (table Template) Template :=
  t ← get_template id;
  t' ← of_result (opt_result IntegrityErr (apply_template_update u t));
  _ ← modify (save t');
  mret t'.

Definition delete_template (id : uuid) : M (table Template) unit :=
  t ← get_template id;
  modify (save (deactivated t)).

Inductive template_request :=
  | CreateTemplate (id : uuid) (p : TemplateCreate)
  | UpdateTemplate (id : uuid) (u : TemplateUpdate)
  | DeleteTemplate (id : uuid).

Definition serve_template (r : template_request) : M (table Template) unit :=
  in_transaction (match r with
                  | CreateTemplate id p => _ ← create_template id p; mret tt
                  | UpdateTemplate id u => _ ← update_template id u; mret tt
                  | DeleteTemplate id => delete_template id
                  end).
End service.

(** Rendering without sending (routers/admin.py). *)
Definition preview_template (id : uuid) (vs : variables) : M (table Template) RenderedMessage :=
  t ← get_template id;
  mret (render_message t vs).

(** ** The scan covers the text *)

Definition raw_of (p : piece) : string := match p with Lit c => String c "" | Hole _ raw => raw end.
Definition joined (l : list string) : string := foldr append "" l.

Lemma span_append p s a b : span p s = (a, b) -> s = append a b.
Proof.
  revert a b. induction s as [|c s IH]; intros a b; cbn; [by intros [= <- <-]|].
  destruct (p c); [|by intros [= <- <-]]. destruct (span p s) as [x y]. intros [= <- <-].
  rewrite append_String. by rewrite <- (IH x y eq_refl).
Qed.

Lemma span_all p s a b : span p s = (a, b) -> sall p a = true.
Proof.
  revert a b. induction s as [|c s IH]; intros a b; cbn; [by intros [= <- <-]|].
  destruct (p c) eqn:Hc; [|by intros [= <- <-]]. destruct (span p s) as [x y]. intros [= <- <-].
  cbn. by rewrite Hc, (IH x y eq_refl).
Qed.

Lemma lstrip_split s : exists w, s = append w (lstrip s) /\ sall is_space w = true.
Proof.
  induction s as [|c s (w & Hs & Hw)]; [by exists ""|]. cbn. destruct (is_space c) eqn:Hc; [|by exists ""].
  exists (String c w). rewrite append_String, <- Hs. split; [done|]. cbn. by rewrite Hc.
Qed.

(** The characters a placeholder is made of. *)
Definition hole_char (c : ascii) : bool := is_name_char c || is_space c || (c =? "{")%char || (c =? "}")%char.

Lemma startswith_split p s : startswith p s = true -> s = append p (sdrop (String.length p) s).
Proof.
  unfold startswith. revert s. induction p as [|c p IH]; intros [|d s] H; cbn in *; try done.
  destruct (ascii_dec c d) as [->|]; [|done]. rewrite append_String. by rewrite <- (IH s H).
Qed.

Lemma hole_space c : is_space c = true -> hole_char c = true.
Proof. intros H. unfold hole_char. by rewrite H, orb_true_r. Qed.
Lemma hole_name_char c : is_name_char c = true -> hole_char c = true.
Proof. intros H. unfold hole_char. by rewrite H. Qed.

Lemma match_placeholder_spec s name rest : match_placeholder s = Some (name, rest) ->
  exists raw, s = append raw rest /\ sall hole_char raw = true /\ raw <> "".
Proof.
  unfold match_placeholder. destruct (startswith "{{" s) eqn:Hs; [|done]. apply startswith_split in Hs.
  cbn [String.length] in Hs. destruct (lstrip_split (sdrop 2 s)) as (w1 & H1 & Hw1).
  destruct (span _ _) as [n s2] eqn:Hn. destruct (lstrip_split s2) as (w2 & H2 & Hw2).
  destruct n as [|c n]; [done|]. destruct (is_name_start c && _) eqn:Hc; [|done].
  apply andb_true_iff in Hc as [_ He%startswith_split]. cbn [String.length] in He. intros [= <- <-].
  pose proof (span_append _ _ _ _ Hn) as Hn1. pose proof (span_all _ _ _ _ Hn) as Hn2.
  exists (append "{{" (append w1 (append (String c n) (append w2 "}}")))). split_and!; [|..|done].
  - rewrite Hs, H1, Hn1, H2, He at 1. by rewrite !append_assoc.
  - pose proof (sall_impl is_space hole_char w1 hole_space Hw1) as E1.
    pose proof (sall_impl is_space hole_char w2 hole_space Hw2) as E2.
    pose proof (sall_impl is_name_char hole_char _ hole_name_char Hn2) as E3.
    rewrite !sall_append, E1, E2, E3. reflexivity.
Qed.

Lemma raw_prefix raw rest : stake (String.length (append raw rest) - String.length rest) (append raw rest) = raw.
Proof.
  assert (Hl : String.length (append raw rest) = (String.length raw + String.length rest)%nat).
  { induction raw as [|c raw IH]; [done|]. rewrite append_String. cbn. by rewrite IH. }
  rewrite Hl. replace (String.length raw + String.length rest - String.length rest)%nat with (String.length raw) by lia.
  clear Hl. induction raw as [|c raw IH]; [by destruct rest|]. rewrite append_String. cbn. by rewrite IH.
Qed.

(** The pieces are the text, and a hole holds only placeholder characters. *)
Definition piece_ok (p : piece) : Prop := match p with Lit _ => True | Hole _ raw => sall hole_char raw = true end.

Lemma scan_spec fuel : forall s, (String.length s <= fuel)%nat ->
  joined (map raw_of (scan fuel s)) = s /\ Forall piece_ok (scan fuel s).
Proof.
  induction fuel as [|fuel IH]; intros [|c s] Hl; try (cbn in Hl; lia); [by split; [|constructor]..|].
  cbn [scan]. destruct (match_placeholder (String c s)) as [[name rest]|] eqn:Hm.
  - apply match_placeholder_spec in Hm as (raw & Hs & Hraw & Hne). rewrite Hs, raw_prefix.
    assert (Hr : (String.length rest <= fuel)%nat).
    { destruct raw as [|d raw]; [done|]. cbn in Hs. injection Hs as -> Hs. cbn in Hl. subst s.
      clear -Hl. assert (forall a b : string, (String.length b <= String.length (append a b))%nat) as Hle.
      { induction a as [|x a IHa]; intros b; [done|]. rewrite append_String. cbn. specialize (IHa b). lia. }
      specialize (Hle raw rest). lia. }
    destruct (IH rest Hr) as [Ht Hf]. cbn [map raw_of joined foldr]. unfold joined in Ht. rewrite Ht.
    split; [done|]. by constructor.
  - cbn in Hl. destruct (IH s ltac:(lia)) as [Ht Hf]. cbn [map raw_of joined foldr]. unfold joined in Ht. rewrite Ht.
    split; [done|]. by constructor.
Qed.

Lemma pieces_text s : joined (map raw_of (pieces s)) = s.
Proof. by apply scan_spec. Qed.
Lemma pieces_ok s : Forall piece_ok (pieces s).
Proof. by apply scan_spec. Qed.

(** ** Escaping *)

Fixpoint occurrences (c : ascii) (s : string) : nat :=
  match s with "" => 0 | String d s' => (if (d =? c)%char then 1 else 0) + occurrences c s' end%nat.

Lemma occurrences_append c a b : occurrences c (append a b) = (occurrences c a + occurrences c b)%nat.
Proof. induction a as [|d a IH]; [done|]. rewrite append_String. cbn. rewrite IH. lia. Qed.

Lemma occurrences_replace c d t s : d <> c -> occurrences c t = 0%nat ->
  occurrences c (replace_char d t s) = occurrences c s.
Proof.
  intros Hd Ht. induction s as [|e s IH]; cbn; [done|]. destruct (Ascii.eqb_spec e d) as [->|He].
  - rewrite occurrences_append, Ht, IH. destruct (Ascii.eqb_spec d c); [done|lia].
  - cbn. by rewrite IH.
Qed.

Lemma occurrences_replaced c t s : occurrences c t = 0%nat -> occurrences c (replace_char c t s) = 0%nat.
Proof.
  intros Ht. induction s as [|e s IH]; cbn; [done|]. destruct (Ascii.eqb_spec e c) as [->|He].
  - by rewrite occurrences_append, Ht, IH.
  - cbn. rewrite IH. destruct (Ascii.eqb_spec e c); [done|lia].
Qed.

Definition markup : list ascii := ["<"%char; ">"%char; quote_char].

Lemma escape_html_clean v c : c ∈ markup -> occurrences c (escape_html v) = 0%nat.
Proof.
  unfold escape_html, markup. rewrite !elem_of_cons, elem_of_nil. intros [->|[->|[->|[]]]];
    repeat first [apply occurrences_replaced; reflexivity | rewrite occurrences_replace; [|done|reflexivity]].
Qed.

Lemma hole_clean raw c : c ∈ markup -> sall hole_char raw = true -> occurrences c raw = 0%nat.
Proof.
  intros Hc. induction raw as [|d raw IH]; cbn [sall occurrences]; [done|]. intros [Hd Hr]%andb_true_iff. rewrite (IH Hr).
  destruct (Ascii.eqb_spec d c) as [->|]; [|lia]. exfalso. revert Hd.
  unfold markup in Hc. rewrite !elem_of_cons, elem_of_nil in Hc. by destruct Hc as [->|[->|[->|[]]]].
Qed.

Lemma fields_get_escaped vs name : fields_get name (escaped vs) = (fun v => JStr (escape_html v)) <$> fields_get name vs.
Proof.
  unfold fields_get, escaped. induction vs as [|[k v] vs IH]; cbn; [done|]. by destruct (String.eqb k name).
Qed.

Lemma piece_occurrences vs c p : c ∈ markup -> piece_ok p ->
  occurrences c (replace_hole (escaped vs) p) = occurrences c (raw_of p).
Proof.
  intros Hc Hp. destruct p as [d|name raw]; [done|]. cbn [replace_hole raw_of]. unfold defined_value.
  rewrite fields_get_escaped. destruct (fields_get name vs) as [v|]; [|done]. cbn.
  by rewrite escape_html_clean, hole_clean.
Qed.

Lemma render_occurrences s vs c : c ∈ markup -> occurrences c (render s (escaped vs)).1 = occurrences c s.
Proof.
  intros Hc. rewrite <- (pieces_text s) at 2. cbn [fst render]. pose proof (pieces_ok s) as Hok.
  induction Hok as [|p l Hp _ IH]; cbn; [done|]. rewrite !occurrences_append, IH. f_equal. by apply piece_occurrences.
Qed.

(** ** The table *)

Definition templates_ok (ts : table Template) : Prop := keyed ts /\ unique_on template_col ts.

Lemma save_template_ok t w ts : templates_ok ts -> ts !! tp_id t = Some w -> template_key_of t = template_key_of w ->
  templates_ok (save t ts).
Proof.
  intros [Hk Hu] Hw Hc. split; [by apply keyed_save|]. apply (unique_save_same template_col t w ts); [done..|].
  unfold template_col. by rewrite Hc.
Qed.

Lemma get_template_ok id ts t ts' : get_template id ts = (Ok t, ts') -> ts' = ts /\ ts !! id = Some t.
Proof. unfold get_template. destruct (ts !! id); by intros [= <- <-]. Qed.

Lemma serve_template_ok race r ts : (forall ts, templates_ok ts -> templates_ok (race ts)) ->
  templates_ok ts -> templates_ok (serve_template race r ts).2.
Proof.
  intros Hrace Hok. destruct (serve_template race r ts) as [x ts'] eqn:H. unfold serve_template in H.
  apply in_transaction_inv in H as [(a & -> & H)|(e & -> & ->)]; [|done]. destruct r as [id p|id u|id].
  - apply bind_ok_inv in H as (t & s1 & H & [= _ <-]). unfold create_template in H.
    apply bind_ok_inv in H as (p' & s2 & [= _ <-] & H). apply bind_ok_inv in H as (t1 & s2 & [= <- <-] & H).
    apply bind_ok_inv in H as (clash & s2 & [= _ <-] & H). apply bind_ok_inv in H as ([] & s2 & Hw & H).
    assert (s2 = ts) as -> by (unfold raise_when in Hw; destruct (bool_decide _); by injection Hw).
    apply bind_ok_inv in H as ([] & s2 & [= <-] & H). apply bind_ok_inv in H as (t2 & s2 & [= <- <-] & H).
    apply bind_ok_inv in H as (t3 & s2 & Hi & H). unfold of_result in Hi. injection Hi as Hi <-.
    apply bind_ok_inv in H as ([] & s3 & [= <-] & [= _ <-]). apply insert_new_ok in Hi as (_ & Hi & _).
    destruct (Hrace ts Hok) as [Hk Hu]. by apply (insert_unique_preserves template_col _ _ _ Hk Hu Hi).
  - apply bind_ok_inv in H as (t & s1 & H & [= _ <-]). unfold update_template in H.
    apply bind_ok_inv in H as (t1 & s2 & [-> Ht]%get_template_ok & H). apply bind_ok_inv in H as (t2 & s2 & Hu & H).
    unfold of_result in Hu. injection Hu as Hu <-. apply bind_ok_inv in H as ([] & s2 & [= <-] & [= _ <-]).
    unfold apply_template_update in Hu. destruct (patch_required (tu_category u) _); [|done].
    destruct (patch_required (tu_body_text u) _); [|done]. destruct (patch_required (tu_is_active u) _); [|done].
    injection Hu as <-. apply (save_template_ok _ t1); [done|cbn|done]. by pose proof (keyed_lookup ts id t1 (proj1 Hok) Ht) as <-.
  - apply bind_ok_inv in H as (t1 & s2 & [-> Ht]%get_template_ok & [= _ <-]).
    apply (save_template_ok _ t1); [done|cbn|done]. by pose proof (keyed_lookup ts id t1 (proj1 Hok) Ht) as <-.
Qed.

Lemma find_exact_spec key c locale ts : templates_ok ts -> exists found, find_exact key c locale ts = Ok found /\
  forall t, found = Some t <-> ts !! tp_id t = Some t /\ template_key_of t = (key, c, locale) /\ tp_is_active t = true.
Proof.
  intros [Hk Hu]. unfold find_exact.
  destruct (select_unique template_col ts (fun t => has_key key c locale t && tp_is_active t) (key, c, locale) Hk Hu)
    as [found Hf]; [intros t [Ht%bool_decide_eq_true _]%andb_true_iff; unfold template_col; by rewrite Ht|].
  exists found. split; [by rewrite Hf|]. intros t.
  assert (Hin : found = Some t <-> t ∈ select (fun t => has_key key c locale t && tp_is_active t) ts).
  { destruct found as [t'|]; destruct (select _ _) as [|a [|b l]]; cbn in Hf; simplify_eq; set_solver. }
  rewrite Hin. split.
  - intros [Ht [Hc Ha]%andb_true_iff]%elem_of_select_keyed; [|done]. by apply bool_decide_eq_true in Hc.
  - intros (Ht & Hc & Ha). apply elem_of_select. split; [eauto|]. unfold has_key. by rewrite Hc, bool_decide_eq_true_2, Ha.
Qed.

(** A request at a time: what other requests committed in between, and the request. *)
Definition served (history : list ((table Template -> table Template) * template_request)) (ts : table Template)
    : table Template :=
  foldl (fun ts h => (serve_template h.1 h.2 ts).2) ts history.

Lemma served_ok history ts :
  Forall (fun h => forall ts, templates_ok ts -> templates_ok (h.1 ts)) history -> templates_ok ts ->
  templates_ok (served history ts).
Proof.
  unfold served. revert ts. induction history as [|h history IH]; intros ts; [done|].
  intros [Hh Hr]%Forall_cons Hok. apply IH; [done|]. by apply serve_template_ok.
Qed.

(** Whatever templates were created, edited and deactivated before, with
    other requests in between, the look-up never fails on two matches; it
    answers the active template of the locale asked for if there is one, else
    the active English one, and nothing only when neither exists. *)
Theorem best_template_found history key c locale ts
    (Hrace : Forall (fun h => forall ts, templates_ok ts -> templates_ok (h.1 ts)) history) (Hok : templates_ok ts) :
  exists found, find_template key c locale (served history ts) = Ok found /\
    (forall t, found = Some t ->
       served history ts !! tp_id t = Some t /\ tp_key t = key /\ tp_channel t = c /\ tp_is_active t = true /\
       (tp_locale t = locale \/ tp_locale t = "en" /\ forall i u, served history ts !! i = Some u ->
          template_key_of u = (key, c, locale) -> tp_is_active u = false)) /\
    (found = None -> forall i u, served history ts !! i = Some u -> tp_key u = key -> tp_channel u = c ->
       tp_locale u = locale \/ tp_locale u = "en" -> tp_is_active u = false).
Proof.
  pose proof (served_ok history ts Hrace Hok) as Hs. revert Hs. generalize (served history ts). clear. intros ts Hs.
  unfold find_template. destruct (find_exact_spec key c locale ts Hs) as (f & -> & Hf). cbn [mbind result_bind].
  assert (Hnone : f = None -> forall i u, ts !! i = Some u -> template_key_of u = (key, c, locale) -> tp_is_active u = false).
  { intros -> i u Hu Hc. apply not_true_is_false. intros Ha. pose proof (keyed_lookup ts i u (proj1 Hs) Hu) as <-.
    pose proof (proj2 (Hf u) (conj Hu (conj Hc Ha))). done. }
  destruct f as [t|]; cbn [bool_decide]; [|destruct (String.eqb_spec locale "en") as [->|Hne]].
  - exists (Some t). split; [done|]. split; [|done]. intros t' [= <-]. destruct (proj1 (Hf t) eq_refl) as (Ht & Hc & Ha).
    unfold template_key_of in Hc. injection Hc as -> -> ->. by auto 10.
  - exists None. split; [done|]. split; [done|]. intros _ i u Hu <- <- [Hl|Hl]; apply (Hnone eq_refl i u Hu);
      unfold template_key_of; by rewrite Hl.
  - destruct (find_exact_spec key c "en" ts Hs) as (g & -> & Hg). exists g. split; [done|]. split.
    + intros t ->. destruct (proj1 (Hg t) eq_refl) as (Ht & Hc & Ha). unfold template_key_of in Hc.
      injection Hc as -> -> Hl. split_and!; [done..|]. right. split; [done|]. by apply Hnone.
    + intros -> i u Hu <- <- [Hl|Hl]; [apply (Hnone eq_refl i u Hu); unfold template_key_of; by rewrite Hl|].
      apply not_true_is_false. intros Ha. pose proof (keyed_lookup ts i u (proj1 Hs) Hu) as <-.
      assert (None = Some u) as ?; [|done]. apply Hg. split_and!; [done| |done]. unfold template_key_of. by rewrite Hl.
Qed.

(** the HTML body of a rendered message has exactly the [<], [>] and quote
    characters its template has, whatever the values substituted into it: a
    value can neither open or close a tag nor leave an attribute. *)
Theorem values_add_no_markup (t : Template) (vs : list (string * json)) :
  match r_body_html (render_message t vs), tp_body_html t with
  | Some out, Some html => Forall (fun c => occurrences c out = occurrences c html) markup
  | None, Some html => html = ""
  | None, None => True
  | Some _, None => False
  end.
Proof.
  unfold render_message. destruct (render_part (tp_subject t) vs) as [subject m1]. destruct (render (tp_body_text t) vs) as [text m2].
  unfold render_part. destruct (tp_body_html t) as [html|]; [|done]. destruct (String.eqb_spec html "") as [->|_]; [done|].
  pose proof (fun c => render_occurrences html vs c) as H. destruct (render html (escaped vs)) as [out m3]. cbn [fst r_body_html] in *.
  apply Forall_forall. exact H.
Qed.

(** ** Witnesses and examples *)

Definition receipt (id : uuid) (c : NotificationChannel.t) (locale : string) : template_request :=
  CreateTemplate id (mkTemplateCreate " Order.Receipt " c locale "order.receipt" (Some "Order {{ number }}") "Hello {{name}}."
    (Some "<p>Hello {{name}}.</p>") ["number"] true None).
Definition nothing (ts : table Template) : table Template := ts.
Definition two_receipts : list ((table Template -> table Template) * template_request) :=
  [(nothing, receipt 1 NotificationChannel.EMAIL "en"); (nothing, receipt 2 NotificationChannel.EMAIL "hi");
   (nothing, receipt 3 NotificationChannel.EMAIL "hi"); (nothing, DeleteTemplate 2)].

Lemma best_template_witness :
  exists found, find_template "order.receipt" NotificationChannel.EMAIL "hi" (served two_receipts ∅) = Ok found /\
    option_map tp_id found = Some 1%N.
Proof.
  destruct (best_template_found two_receipts "order.receipt" NotificationChannel.EMAIL "hi" ∅) as (f & Hf & _).
  - do 4 (apply Forall_cons; split; [done|]). by apply Forall_nil.
  - split; [apply keyed_empty|apply unique_empty].
  - exists f. split; [exact Hf|]. revert Hf. vm_compute. by intros [= <-].
Defined.

(** The HTML body renders a null as the word None and does not report it. *)
Example null_in_html :
  let t := mkTemplate 1 "k" NotificationChannel.EMAIL "en" "general" None "Hello." (Some "<p>{{ name }}</p>") (Some []) true None in
  render_message t [("name", JNull)] = mkRendered None "Hello." (Some "<p>None</p>") [].
Proof. vm_compute. reflexivity. Qed.
