(* ===== verification/Channels.v ===== *)
(** * Channel providers (apps/notifications/services/channels.py, settings.py)

    One function per provider from what the network answered to the
    [SendResult] the dispatcher acts on, the requests they make, and the
    registry that decides which provider serves a channel.  The SMTP library
    and the HTTP client are the parameter [Net]. *)

From S2P Require Import Prelude Store Json Pagination Templating.

Record NotifySettings := mkNotifySettings {
  from_email : string;
  from_name : string;
  reply_to_email : option string;
  support_email : string;
  frontend_url : string;
  email_provider : string;
  smtp_host : option string;
  resend_api_key : option string;
  twilio_account_sid : option string;
  twilio_auth_token : option string;
  twilio_from_number : option string;
  twilio_whatsapp_from : option string;
  fcm_server_key : option string;
  transactional_categories : list string;
  max_delivery_attempts : Z;
  retry_base_seconds : Z;
  in_app_retention : nat;
  sending_enabled : bool;
  suppression_enforced : bool;
  unsubscribe_secret : string;
  unsubscribe_url : string;
}.

Definition email_enabled (s : NotifySettings) : bool :=
  if String.eqb (email_provider s) "console" then true
  else if String.eqb (email_provider s) "resend" then truthy (resend_api_key s)
  else truthy (smtp_host s).
Definition sms_enabled (s : NotifySettings) : bool :=
  truthy (twilio_account_sid s) && truthy (twilio_auth_token s) && truthy (twilio_from_number s).
Definition whatsapp_enabled (s : NotifySettings) : bool :=
  truthy (twilio_account_sid s) && truthy (twilio_auth_token s) && truthy (twilio_whatsapp_from s).
Definition push_enabled (s : NotifySettings) : bool := truthy (fcm_server_key s).
Definition enabled_channels (s : NotifySettings) : list string :=
  ["in_app"] ++ (if email_enabled s then ["email"] else []) ++ (if sms_enabled s then ["sms"] else []) ++
  (if whatsapp_enabled s then ["whatsapp"] else []) ++ (if push_enabled s then ["push"] else []).

(** ** Messages and results *)

Record SendResult := mkSendResult {
  sr_success : bool;
  sr_provider : string;
  sr_provider_message_id : option string;
  sr_error : option string;
  sr_permanent : bool;
}.

(** The metadata values are whatever the variables held ([JNull] when absent). *)
Record Message := mkMessage {
  m_destination : string;
  m_subject : option string;
  m_body_text : string;
  m_body_html : option string;
  m_unsubscribe_url : json;
  m_action_url : json;
  m_icon : json;
}.

(** What the network did: httpx raised, or a response came back ([body] is
    [None] when it is not JSON). *)
Inductive http_outcome :=
  | HttpError (text : string)
  | Response (status : Z) (body : option json) (text : string).
(** What aiosmtplib did; it may not be installed. *)
Inductive smtp_outcome :=
  | SmtpMissing
  | SmtpSent
  | SmtpRaised (code : option Z) (text : string).

Record Email := mkEmail { em_headers : list (string * string); em_text : string; em_html : option string }.

Record Net := mkNet {
  smtp_send : Email -> smtp_outcome;
  http_post : string -> json -> http_outcome;
}.

Definition is_success (status : Z) : bool := (200 <=? status) && (status <? 300).
(** A 4xx other than 429. *)
Definition client_error (status : Z) : bool := (400 <=? status) && (status <? 500) && negb (status =? 429).

Definition sent_as (provider : string) (id : option string) : SendResult := mkSendResult true provider id None false.
Definition failed_as (provider error : string) (permanent : bool) : SendResult :=
  mkSendResult false provider None (Some error) permanent.

Section providers.
Context (settings : NotifySettings).

Definition bytes_of (s : string) : list N := map N_of_ascii (String.list_ascii_of_string s).

(** ConsoleEmailProvider: nothing leaves the process. *)
Definition console_send (m : Message) : result SendResult :=
  let digest := stake 24 (b64_encode (bytes_of (m_destination m +:+ ":" +:+ default "None" (m_subject m)))) in
  Ok (sent_as "console" (Some ("console-" +:+ digest))).

(** A header value may not hold a line break. *)
Definition one_line (s : string) : bool := sall (fun c => negb (bool_decide (c ∈ ["010"; "013"]%char))) s.

Definition smtp_build (m : Message) : option Email :=
  let headers :=
    [("From", from_name settings +:+ " <" +:+ from_email settings +:+ ">"); ("To", m_destination m);
     ("Subject", default "" (m_subject m))] ++
    (if truthy (reply_to_email settings) then [("Reply-To", default "" (reply_to_email settings))] else []) ++
    (if jtruthy (m_unsubscribe_url m)
     then [("List-Unsubscribe", "<" +:+ jstr (m_unsubscribe_url m) +:+ ">");
           ("List-Unsubscribe-Post", "List-Unsubscribe=One-Click")] else []) in
  if forallb (fun h => one_line h.2) headers
  then Some (mkEmail headers (m_body_text m) (if truthy (m_body_html m) then m_body_html m else None))
  else None.

(** SMTPEmailProvider: a 5xx reply is permanent, everything else is retried. *)
Definition smtp_result (o : smtp_outcome) : SendResult :=
  match o with
  | SmtpMissing =>
      failed_as "smtp" "aiosmtplib is not installed; set EMAIL_PROVIDER=console or install it." true
  | SmtpSent => sent_as "smtp" None
  | SmtpRaised code text =>
      failed_as "smtp" (stake 500 text) (match code with Some c => (500 <=? c) && (c <? 600) | None => false end)
  end.
Definition smtp_provider_send (net : Net) (m : Message) : result SendResult :=
  match smtp_build m with
  | Some e => Ok (smtp_result (smtp_send net e))
  | None => Ok (failed_as "smtp" "Header values may not contain linefeed or carriage return characters" false)
  end.

(** ResendEmailProvider *)
Definition resend_payload (m : Message) : json :=
  JObj ([("from", JStr (from_name settings +:+ " <" +:+ from_email settings +:+ ">"));
         ("to", JList [JStr (m_destination m)]); ("subject", JStr (default "" (m_subject m)));
         ("text", JStr (m_body_text m))] ++
        (if truthy (m_body_html m) then [("html", JStr (default "" (m_body_html m)))] else []) ++
        (if truthy (reply_to_email settings) then [("reply_to", JStr (default "" (reply_to_email settings)))] else []) ++
        (if jtruthy (m_unsubscribe_url m)
         then [("headers", JObj [("List-Unsubscribe", JStr ("<" +:+ jstr (m_unsubscribe_url m) +:+ ">"));
                                 ("List-Unsubscribe-Post", JStr "List-Unsubscribe=One-Click")])] else [])).
Definition resend_result (o : http_outcome) : result SendResult :=
  match o with
  | HttpError text => Ok (failed_as "resend" (stake 500 text) false)
  | Response status body text =>
      if is_success status then
        data ← opt_result ValueErr body;
        id ← dict_get "id" data;
        Ok (sent_as "resend" (Some (jstr (jor id (JStr "")))))
      else Ok (failed_as "resend" (stake 500 text) (client_error status))
  end.

(** TwilioProvider, for SMS and WhatsApp *)
Definition twilio_from (c : NotificationChannel.t) : string :=
  match c with
  | NotificationChannel.WHATSAPP => "whatsapp:" +:+ default "None" (twilio_whatsapp_from settings)
  | _ => default "" (twilio_from_number settings)
  end.
Definition twilio_to (c : NotificationChannel.t) (destination : string) : string :=
  if bool_decide (c = NotificationChannel.WHATSAPP) && negb (startswith "whatsapp:" destination)
  then "whatsapp:" +:+ destination else destination.
Definition twilio_payload (c : NotificationChannel.t) (m : Message) : json :=
  JObj [("From", JStr (twilio_from c)); ("To", JStr (twilio_to c (m_destination m))); ("Body", JStr (stake 1600 (m_body_text m)))].
(** The error code of the answer, 0 when it cannot be read. *)
Definition twilio_code (body : option json) : Z :=
  match body with
  | Some (JObj _ as b) => default 0 (jint (jget_default "code" (JInt 0) b))
  | _ => 0
  end.
Definition twilio_result (o : http_outcome) : result SendResult :=
  match o with
  | HttpError text => Ok (failed_as "twilio" (stake 500 text) false)
  | Response status body text =>
      if is_success status then
        data ← opt_result ValueErr body;
        id ← dict_get "sid" data;
        Ok (sent_as "twilio" (Some (jstr (jor id (JStr "")))))
      else Ok (failed_as "twilio" (stake 500 text)
                 (bool_decide (twilio_code body ∈ [21211; 21614; 21610]) || client_error status))
  end.

(** FCMProvider: a 200 can carry a failure. *)
Definition fcm_payload (m : Message) : json :=
  JObj [("to", JStr (m_destination m));
        ("notification", JObj [("title", JStr (if truthy (m_subject m) then default "" (m_subject m) else from_name settings));
                               ("body", JStr (stake 200 (m_body_text m))); ("icon", m_icon m);
                               ("click_action", m_action_url m)]);
        ("data", JObj [])].
Definition first_error (results : json) : result json :=
  match results with
  | JList (r :: _) => dict_get_default "error" (JStr "unknown") r
  | JObj _ => Raise KeyErr
  | JStr _ => Raise AttributeErr
  | _ => Raise TypeErr
  end.
Definition fcm_result (o : http_outcome) : result SendResult :=
  match o with
  | HttpError text => Ok (failed_as "fcm" (stake 500 text) false)
  | Response status body text =>
      if negb (is_success status) then Ok (failed_as "fcm" (stake 500 text) (client_error status))
      else
        data ← opt_result ValueErr body;
        failure ← dict_get_default "failure" (JInt 0) data;
        failures ← opt_result (match failure with JStr _ => ValueErr | _ => TypeErr end) (jint failure);
        results ← dict_get "results" data;
        if negb (failures =? 0) && jtruthy results then
          error ← jstr <$> first_error results;
          Ok (failed_as "fcm" error (bool_decide (error ∈ ["NotRegistered"; "InvalidRegistration"; "MismatchSenderId"])))
        else
          id ← dict_get "multicast_id" data;
          Ok (sent_as "fcm" (Some (jstr (jor id (JStr "")))))
  end.

(** ** The registry *)

Inductive provider := InAppProvider | ConsoleEmailProvider | SMTPEmailProvider | ResendEmailProvider
  | TwilioProvider (c : NotificationChannel.t) | FCMProvider.

(** [ChannelRegistry.get] *)
Definition provider_for (c : NotificationChannel.t) : option provider :=
  match c with
  | NotificationChannel.IN_APP => Some InAppProvider
  | NotificationChannel.EMAIL =>
      Some (if String.eqb (email_provider settings) "resend" && truthy (resend_api_key settings) then ResendEmailProvider
            else if String.eqb (email_provider settings) "smtp" && truthy (smtp_host settings) then SMTPEmailProvider
            else ConsoleEmailProvider)
  | NotificationChannel.SMS => if sms_enabled settings then Some (TwilioProvider NotificationChannel.SMS) else None
  | NotificationChannel.WHATSAPP => if whatsapp_enabled settings then Some (TwilioProvider NotificationChannel.WHATSAPP) else None
  | NotificationChannel.PUSH => if push_enabled settings then Some FCMProvider else None
  end.

Definition provider_send (p : provider) (net : Net) (m : Message) : result SendResult :=
  match p with
  | InAppProvider => Ok (sent_as "database" None)
  | ConsoleEmailProvider => console_send m
  | SMTPEmailProvider => smtp_provider_send net m
  | ResendEmailProvider => resend_result (http_post net "https://api.resend.com/emails" (resend_payload m))
  | TwilioProvider c =>
      twilio_result (http_post net
        ("https://api.twilio.com/2010-04-01/Accounts/" +:+ default "None" (twilio_account_sid settings) +:+ "/Messages.json")
        (twilio_payload c m))
  | FCMProvider => fcm_result (http_post net "https://fcm.googleapis.com/fcm/send" (fcm_payload m))
  end.

(** GET /channels *)
Record ChannelStatus := mkChannelStatus { cs_channels : list NotificationChannel.t; cs_sending_enabled : bool; cs_email_provider : string }.
Definition channel_status : ChannelStatus :=
  mkChannelStatus (omap parse_enum (enabled_channels settings)) (sending_enabled settings) (email_provider settings).
End providers.

(** The channels the deployment advertises are the ones with a provider, email
    apart: email always has one. *)
Lemma advertised_channels settings c : c <> NotificationChannel.EMAIL ->
  c ∈ cs_channels (channel_status settings) <-> is_Some (provider_for settings c).
Proof.
  intros Hc. unfold channel_status, cs_channels, enabled_channels, provider_for.
  destruct (email_enabled settings), (sms_enabled settings), (whatsapp_enabled settings), (push_enabled settings), c;
    try done; (split; [intros _; eauto|intros _; by apply (bool_decide_unpack _)]) || (split; [by intros ?%(bool_decide_pack _)|by intros [? ?]]).
Qed.

(** SMTP without a host is advertised as absent and served by the console, which reports success. *)
Example half_configured_email :
  let s := mkNotifySettings "a@b" "K" None "s@b" "https://k" "smtp" None None None None None None None [] 5 30 500 true true "x" "u" in
  let m := mkMessage "ada@example.com" None "hello" None JNull JNull JNull in
  bool_decide (NotificationChannel.EMAIL ∈ cs_channels (channel_status s)) = false /\
  exists id, option_map (fun p => provider_send s p (mkNet (fun _ => SmtpMissing) (fun _ _ => HttpError "")) m)
    (provider_for s NotificationChannel.EMAIL) = Some (Ok (sent_as "console" (Some id))).
Proof. split; [reflexivity|]. eexists. vm_compute. reflexivity. Qed.
