(* ===== verification/Notify.v ===== *)
(** * Sending notifications (apps/notifications/services/preferences.py, dispatcher.py)

    Who may be contacted, and the one send path.  A session works on the
    database; what a provider was asked to send ([contacts]) is outside the
    transaction and survives a rollback.  [net n] is the network at the n-th
    contact. *)

From S2P Require Import Prelude Store Triples Json Templating Channels.

(** ** Rows (apps/notifications/models.py) *)

Module DeliveryStatus.
Inductive t := QUEUED | SENDING | SENT | DELIVERED | FAILED | BOUNCED | SKIPPED.
End DeliveryStatus.
#[export] Instance DeliveryStatus_eq_dec : EqDecision DeliveryStatus.t.
Proof. solve_decision. Defined.
#[export] Program Instance DeliveryStatus_values : StrEnum DeliveryStatus.t := {
  members := [DeliveryStatus.QUEUED; DeliveryStatus.SENDING; DeliveryStatus.SENT; DeliveryStatus.DELIVERED;
              DeliveryStatus.FAILED; DeliveryStatus.BOUNCED; DeliveryStatus.SKIPPED];
  enum_value s := match s with
                  | DeliveryStatus.QUEUED => "queued" | DeliveryStatus.SENDING => "sending" | DeliveryStatus.SENT => "sent"
                  | DeliveryStatus.DELIVERED => "delivered" | DeliveryStatus.FAILED => "failed"
                  | DeliveryStatus.BOUNCED => "bounced" | DeliveryStatus.SKIPPED => "skipped" end;
}.
Solve All Obligations with solve_str_enum.

Module SuppressionReason.
Inductive t := HARD_BOUNCE | COMPLAINT | UNSUBSCRIBED | MANUAL | INVALID.
End SuppressionReason.
#[export] Program Instance SuppressionReason_values : StrEnum SuppressionReason.t := {
  members := [SuppressionReason.HARD_BOUNCE; SuppressionReason.COMPLAINT; SuppressionReason.UNSUBSCRIBED;
              SuppressionReason.MANUAL; SuppressionReason.INVALID];
  enum_value s := match s with
                  | SuppressionReason.HARD_BOUNCE => "hard_bounce" | SuppressionReason.COMPLAINT => "complaint"
                  | SuppressionReason.UNSUBSCRIBED => "unsubscribed" | SuppressionReason.MANUAL => "manual"
                  | SuppressionReason.INVALID => "invalid" end;
}.
Solve All Obligations with solve_str_enum.

Record Notification := mkNotification {
  no_id : uuid;
  no_user_id : uuid;
  no_template_key : string;
  no_category : string;
  no_title : string;
  no_body : string;
  no_action_url : option string;
  no_icon : option string;
  no_data : list (string * json);
  no_read_at : option datetime;
  no_archived_at : option datetime;
  no_created_at : datetime;
}.

Record Delivery := mkDelivery {
  dv_id : uuid;
  dv_notification_id : option uuid;
  dv_user_id : option uuid;
  dv_channel : NotificationChannel.t;
  dv_destination : string;
  dv_status : DeliveryStatus.t;
  dv_subject : option string;
  dv_body_text : string;
  dv_body_html : option string;
  dv_provider : option string;
  dv_provider_message_id : option string;
  dv_attempts : Z;
  dv_next_attempt_at : option datetime;
  dv_sent_at : option datetime;
  dv_failed_at : option datetime;
  dv_error : option string;
  dv_created_at : datetime;
}.

Record Preference := mkPreference {
  pf_id : uuid;
  pf_user_id : uuid;
  pf_category : string;
  pf_channel : NotificationChannel.t;
  pf_enabled : bool;
}.

Record Suppression := mkSuppression {
  su_id : uuid;
  su_channel : NotificationChannel.t;
  su_destination : string;
  su_reason : SuppressionReason.t;
  su_detail : option string;
  su_user_id : option uuid;
  su_created_at : datetime;
}.

Record DeviceToken := mkDevice {
  dt_id : uuid;
  dt_user_id : uuid;
  dt_token : string;
  dt_platform : string;
  dt_is_active : bool;
  dt_last_seen_at : option datetime;
}.

#[export] Instance Notification_row : Row Notification := no_id.
#[export] Instance Delivery_row : Row Delivery := dv_id.
#[export] Instance Preference_row : Row Preference := pf_id.
#[export] Instance Suppression_row : Row Suppression := su_id.
#[export] Instance DeviceToken_row : Row DeviceToken := dt_id.

(** The unique constraints. *)
Definition preference_col (p : Preference) : option (uuid * string * NotificationChannel.t) :=
  Some (pf_user_id p, pf_category p, pf_channel p).
Definition suppression_col (s : Suppression) : option (NotificationChannel.t * string) := Some (su_channel s, su_destination s).
Definition device_col (d : DeviceToken) : option string := Some (dt_token d).
Definition provider_ref (d : Delivery) : option (string * string) :=
  p ← dv_provider d; i ← dv_provider_message_id d; Some (p, i).

Record NotifyDb := mkNotifyDb {
  templates : table Template;
  notifications : table Notification;
  deliveries : table Delivery;
  preferences : table Preference;
  suppressions : table Suppression;
  devices : table DeviceToken;
  processed : gmap string string;
}.
Definition set_templates x d := mkNotifyDb x (notifications d) (deliveries d) (preferences d) (suppressions d) (devices d) (processed d).
Definition set_notifications x d := mkNotifyDb (templates d) x (deliveries d) (preferences d) (suppressions d) (devices d) (processed d).
Definition set_deliveries x d := mkNotifyDb (templates d) (notifications d) x (preferences d) (suppressions d) (devices d) (processed d).
Definition set_preferences x d := mkNotifyDb (templates d) (notifications d) (deliveries d) x (suppressions d) (devices d) (processed d).
Definition set_suppressions x d := mkNotifyDb (templates d) (notifications d) (deliveries d) (preferences d) x (devices d) (processed d).
Definition set_devices x d := mkNotifyDb (templates d) (notifications d) (deliveries d) (preferences d) (suppressions d) x (processed d).
Definition set_processed_ids x d := mkNotifyDb (templates d) (notifications d) (deliveries d) (preferences d) (suppressions d) (devices d) x.

(** What a provider was asked to send. *)
Record Contact := mkContact { ct_channel : NotificationChannel.t; ct_message : Message }.
Record World := mkWorld { w_session : session NotifyDb; contacts : list Contact }.
Definition db (w : World) : NotifyDb := working (w_session w).

Definition on_session {A} (m : M (session NotifyDb) A) : M World A :=
  lift w_session (fun s w => mkWorld s (contacts w)) m.
Definition on_db {A} (m : M NotifyDb A) : M World A := on_session (in_session m).

(** A request: its session commits when the handler returns and rolls back when it raises. *)
Definition request {A} (m : M World A) : M World A := fun w =>
  match m w with
  | (Ok a, w') => (Ok a, (on_session commit w').2)
  | (Raise e, w') => (Raise e, (on_session rollback w').2)
  end.

Section service.
Context (settings : NotifySettings).

(** ** Preferences and suppression *)

Record Decision := mkDecision { allowed : bool; reason : option string }.

Definition is_transactional (category : string) : bool := bool_decide (category ∈ transactional_categories settings).

(** [destination.strip().lower()] *)
Definition normal_address (s : string) : string := lower (strip s).

Definition preference_of (u : uuid) (category : string) (c : NotificationChannel.t) (d : NotifyDb) : result (option Preference) :=
  one_or_none (select (fun p => bool_decide (preference_col p = Some (u, category, c))) (preferences d)).
Definition suppression_for (c : NotificationChannel.t) (destination : string) (d : NotifyDb) : result (option Suppression) :=
  one_or_none (select (fun s => bool_decide (suppression_col s = Some (c, normal_address destination))) (suppressions d)).

Definition may_send (user_id : option uuid) (category : string) (c : NotificationChannel.t) (destination : option string)
    (d : NotifyDb) : result Decision :=
  if negb (sending_enabled settings) then Ok (mkDecision false (Some "sending_disabled")) else
  suppressed ← (match destination with
                | Some dest => if negb (String.eqb dest "") && suppression_enforced settings
                               then suppression_for c dest d else Ok None
                | None => Ok None
                end);
  match suppressed with
  | Some s => Ok (mkDecision false (Some ("suppressed:" +:+ enum_value (su_reason s))))
  | None =>
      if is_transactional category then Ok (mkDecision true None) else
      match user_id with
      | None => Ok (mkDecision true None)
      | Some u =>
          preference ← preference_of u category c d;
          match preference with
          | Some p => if pf_enabled p then Ok (mkDecision true None) else Ok (mkDecision false (Some "opted_out"))
          | None => Ok (mkDecision true None)
          end
      end
  end.

Record PreferenceUpdate := mkPreferenceUpdate { pu_category : string; pu_channel : NotificationChannel.t; pu_enabled : bool }.

Definition preferences_for_user (u : uuid) (d : NotifyDb) : list Preference :=
  merge_sort (fun a b => Is_true (negb (String.leb (pf_category b) (pf_category a)) ||
      (String.eqb (pf_category a) (pf_category b) && String.leb (enum_value (pf_channel a)) (enum_value (pf_channel b)))))
    (select (fun p => bool_decide (pf_user_id p = u)) (preferences d)).

(** One update of the batch: a stored row is changed, a new one waits for the
    flush.  Queries do not flush, so they do not see the rows that wait. *)
Definition set_preference (u : uuid) (acc : list PreferenceUpdate * list PreferenceUpdate) (pu : PreferenceUpdate)
    : M NotifyDb (list PreferenceUpdate * list PreferenceUpdate) :=
  if is_transactional (pu_category pu) && negb (pu_enabled pu) then mret acc else
  d ← get;
  existing ← of_result (preference_of u (pu_category pu) (pu_channel pu) d);
  match existing with
  | None => mret (acc.1 ++ [pu], acc.2 ++ [pu])
  | Some p =>
      let p := mkPreference (pf_id p) (pf_user_id p) (pf_category p) (pf_channel p) (pu_enabled pu) in
      _ ← modify (fun d => set_preferences (save p (preferences d)) d);
      mret (acc.1 ++ [pu], acc.2)
  end.
Definition add_preference (u : uuid) (pu : PreferenceUpdate) : M NotifyDb unit :=
  d ← get;
  t ← of_result (insert_new preference_col
        (mkPreference (fresh_id (preferences d)) u (pu_category pu) (pu_channel pu) (pu_enabled pu)) (preferences d));
  modify (set_preferences t).
Definition set_batch (u : uuid) (updates : list PreferenceUpdate) : M World (list PreferenceUpdate) :=
  acc ← on_db (for_acc (set_preference u) ([], []) updates);
  _ ← on_db (for_each (add_preference u) acc.2);
  _ ← on_session commit;
  mret acc.1.

Definition KNOWN_CATEGORIES : list string :=
  ["account.verify"; "account.password_reset"; "account.security"; "account.welcome"; "order.receipt"; "order.refund";
   "book.published"; "book.recommendation"; "marketing.digest"; "marketing.promotion"; "general"].

(** The categories a blanket unsubscribe covers. *)
Definition blanket_categories (u : uuid) (d : NotifyDb) : list string :=
  sorted_names (List.filter (fun c => negb (is_transactional c)) (map pf_category (preferences_for_user u d) ++ KNOWN_CATEGORIES)).
Definition disable_all (u : uuid) (c : NotificationChannel.t) : M World Z :=
  w ← get;
  let categories := blanket_categories u (db w) in
  _ ← set_batch u (map (fun category => mkPreferenceUpdate category c false) categories);
  mret (Z.of_nat (length categories)).

(** Commits. *)
Definition suppress (now : datetime) (c : NotificationChannel.t) (destination : string) (why : SuppressionReason.t)
    (detail : option string) (user_id : option uuid) : M World Suppression :=
  w ← get;
  existing ← of_result (suppression_for c destination (db w));
  match existing with
  | Some s => mret s
  | None =>
      let text := stake 1000 (default "" detail) in
      let s := mkSuppression (fresh_id (suppressions (db w))) c (normal_address destination) why
                 (if String.eqb text "" then None else Some text) user_id now in
      _ ← on_db (modify (fun d => set_suppressions (save s (suppressions d)) d));
      _ ← on_session commit;
      mret s
  end.
Definition unsuppress (c : NotificationChannel.t) (destination : string) : M World bool :=
  w ← get;
  existing ← of_result (suppression_for c destination (db w));
  match existing with
  | None => mret false
  | Some s =>
      _ ← on_db (modify (fun d => set_suppressions (remove s (suppressions d)) d));
      _ ← on_session commit;
      mret true
  end.
Definition list_suppressions (limit offset : Z) (d : NotifyDb) : list Suppression :=
  Pagination.slice offset limit (Pagination.latest_first su_created_at (rows (suppressions d))).

(** ** The send *)

Record SendRequest := mkSendRequest {
  sq_user_id : uuid;
  sq_template_key : string;
  sq_variables : list (string * json);
  sq_channels : option (list NotificationChannel.t);
  sq_email : option string;
  sq_phone : option string;
  sq_locale : string;
  sq_idempotency_key : option string;
}.

(** Surrounding space stripped, lengths checked. *)
Definition parse_send_request (q : SendRequest) : result SendRequest :=
  let q := mkSendRequest (sq_user_id q) (strip (sq_template_key q)) (sq_variables q) (sq_channels q) (strip <$> sq_email q)
             (strip <$> sq_phone q) (strip (sq_locale q)) (strip <$> sq_idempotency_key q) in
  if negb (String.eqb (sq_template_key q) "") && at_most 120 (sq_template_key q) && opt_at_most 320 (sq_email q) &&
     opt_at_most 32 (sq_phone q) && at_most 10 (sq_locale q) && opt_at_most 255 (sq_idempotency_key q)
  then Ok q else Raise (app_error ValidationError "").

(** [d.setdefault(k, v)] *)
Definition setdefault {A} (k : string) (v : A) (d : list (string * A)) : list (string * A) :=
  if bool_decide (k ∈ map fst d) then d else d ++ [(k, v)].

Definition rstrip_char (c : ascii) : string -> string :=
  fix go s := match s with
              | "" => ""
              | String d s' => match go s' with "" => if (d =? c)%char then "" else String d "" | t => String d t end
              end.

Section hmac.
(** [hmac.new(secret, text, sha256).hexdigest()] *)
Context (hmac : string -> string -> string).

Definition unsubscribe_token (secret : string) (user_id : uuid) : string :=
  string_of_uuid user_id +:+ "." +:+ stake 32 (hmac secret (string_of_uuid user_id)).
Definition verify_unsubscribe_token (secret token : string) : option uuid :=
  let '(raw_id, signature) := partition_char "." token in
  if String.eqb signature "" then None
  else if negb (String.eqb signature (stake 32 (hmac secret raw_id))) then None
  else uuid_of_string raw_id.

(** The variables every message can use besides the caller's. *)
Definition with_defaults (q : SendRequest) : list (string * json) :=
  setdefault "unsubscribe_url"
    (JStr (rstrip_char "/" (unsubscribe_url settings) +:+ "?token=" +:+ unsubscribe_token (unsubscribe_secret settings) (sq_user_id q)))
  (setdefault "frontend_url" (JStr (rstrip_char "/" (frontend_url settings)))
  (setdefault "from_name" (JStr (from_name settings))
  (setdefault "support_email" (JStr (support_email settings)) (sq_variables q)))).

Definition variable (k : string) (vs : list (string * json)) : json := default JNull (fields_get k vs).
(** [str(v or "") or None] *)
Definition text_or_none (v : json) : option string :=
  let s := jstr (jor v (JStr "")) in if String.eqb s "" then None else Some s.

Definition destination_for (c : NotificationChannel.t) (q : SendRequest) : option string :=
  match c with
  | NotificationChannel.EMAIL => if truthy (sq_email q) then sq_email q else text_or_none (variable "email" (sq_variables q))
  | NotificationChannel.SMS | NotificationChannel.WHATSAPP =>
      if truthy (sq_phone q) then sq_phone q else text_or_none (variable "phone" (sq_variables q))
  | _ => None
  end.
Definition push_tokens (u : uuid) (d : NotifyDb) : list string :=
  map dt_token (select (fun t => bool_decide (dt_user_id t = u) && dt_is_active t) (devices d)).
Definition destinations (c : NotificationChannel.t) (q : SendRequest) (d : NotifyDb) : list string :=
  match c with
  | NotificationChannel.PUSH => push_tokens (sq_user_id q) d
  | _ => match destination_for c q with Some dest => [dest] | None => [] end
  end.

Section sending.
Context (net : nat -> Net) (now : datetime).

Definition write_delivery (dv : Delivery) : M World unit :=
  on_db (modify (fun d => set_deliveries (save dv (deliveries d)) d)).

(** [provider.send(message)] *)
Definition call_provider (c : NotificationChannel.t) (p : provider) (m : Message) : M World SendResult := fun w =>
  (provider_send settings p (net (length (contacts w))) m, mkWorld (w_session w) (contacts w ++ [mkContact c m])).

Definition with_status (s : DeliveryStatus.t) (error : option string) (dv : Delivery) : Delivery :=
  mkDelivery (dv_id dv) (dv_notification_id dv) (dv_user_id dv) (dv_channel dv) (dv_destination dv) s (dv_subject dv)
    (dv_body_text dv) (dv_body_html dv) (dv_provider dv) (dv_provider_message_id dv) (dv_attempts dv)
    (dv_next_attempt_at dv) (dv_sent_at dv) (dv_failed_at dv) error (dv_created_at dv).
Definition sending (dv : Delivery) : Delivery :=
  mkDelivery (dv_id dv) (dv_notification_id dv) (dv_user_id dv) (dv_channel dv) (dv_destination dv) DeliveryStatus.SENDING
    (dv_subject dv) (dv_body_text dv) (dv_body_html dv) (dv_provider dv) (dv_provider_message_id dv) (dv_attempts dv + 1)
    (dv_next_attempt_at dv) (dv_sent_at dv) (dv_failed_at dv) (dv_error dv) (dv_created_at dv).
Definition sent (provider : string) (dv : Delivery) : Delivery :=
  mkDelivery (dv_id dv) (dv_notification_id dv) (dv_user_id dv) (dv_channel dv) (dv_destination dv) DeliveryStatus.SENT
    (dv_subject dv) (dv_body_text dv) (dv_body_html dv) (Some provider) (dv_provider_message_id dv) (dv_attempts dv)
    None (Some now) (dv_failed_at dv) None (dv_created_at dv).
Definition bounced (provider : string) (error : option string) (dv : Delivery) : Delivery :=
  mkDelivery (dv_id dv) (dv_notification_id dv) (dv_user_id dv) (dv_channel dv) (dv_destination dv) DeliveryStatus.BOUNCED
    (dv_subject dv) (dv_body_text dv) (dv_body_html dv) (Some provider) (dv_provider_message_id dv) (dv_attempts dv)
    None (dv_sent_at dv) (Some now) error (dv_created_at dv).
(** Exponential backoff. *)
Definition retry_at (attempts : Z) : datetime := now + retry_base_seconds settings * 2 ^ (attempts - 1) * SECOND.
Definition failed (provider : string) (error : option string) (dv : Delivery) : Delivery :=
  mkDelivery (dv_id dv) (dv_notification_id dv) (dv_user_id dv) (dv_channel dv) (dv_destination dv) DeliveryStatus.FAILED
    (dv_subject dv) (dv_body_text dv) (dv_body_html dv) (Some provider) (dv_provider_message_id dv) (dv_attempts dv)
    (Some (retry_at (dv_attempts dv))) (dv_sent_at dv) (dv_failed_at dv) error (dv_created_at dv).
Definition with_message_id (id : option string) (dv : Delivery) : Delivery :=
  mkDelivery (dv_id dv) (dv_notification_id dv) (dv_user_id dv) (dv_channel dv) (dv_destination dv) (dv_status dv)
    (dv_subject dv) (dv_body_text dv) (dv_body_html dv) (dv_provider dv) id (dv_attempts dv)
    (dv_next_attempt_at dv) (dv_sent_at dv) (dv_failed_at dv) (dv_error dv) (dv_created_at dv).

(** A provider id already recorded is dropped. *)
Definition set_provider_id (dv : Delivery) (id : string) : M World Delivery :=
  let dv' := with_message_id (Some (stake 191 id)) dv in
  savepoint (w ← get;
             ds ← of_result (insert_unique provider_ref dv' (deliveries (db w)));
             _ ← on_db (modify (set_deliveries ds));
             mret dv')
            (let dv' := with_message_id None dv in _ ← write_delivery dv'; mret dv').

Definition deactivate_token (token : string) : M World unit :=
  w ← get;
  device ← of_result (one_or_none (select (fun t => bool_decide (dt_token t = token)) (devices (db w))));
  match device with
  | Some t => on_db (modify (fun d => set_devices
      (save (mkDevice (dt_id t) (dt_user_id t) (dt_token t) (dt_platform t) false (dt_last_seen_at t)) (devices d)) d))
  | None => mret tt
  end.

Definition attempt_delivery (dv : Delivery) (r : RenderedMessage) (vs : list (string * json)) : M World Delivery :=
  match provider_for settings (dv_channel dv) with
  | None =>
      let dv := with_status DeliveryStatus.SKIPPED (Some "channel_unavailable") dv in
      _ ← write_delivery dv; mret dv
  | Some p =>
      let dv := sending dv in
      _ ← write_delivery dv;
      let m := mkMessage (dv_destination dv) (r_subject r) (r_body_text r) (r_body_html r) (variable "unsubscribe_url" vs)
                 (variable "action_url" vs) (variable "icon" vs) in
      result ← call_provider (dv_channel dv) p m;
      if sr_success result then
        let dv := sent (sr_provider result) dv in
        _ ← write_delivery dv;
        match sr_provider_message_id result with
        | Some id => if String.eqb id "" then mret dv else set_provider_id dv id
        | None => mret dv
        end
      else
        let text := stake 1000 (default "" (sr_error result)) in
        let error := if String.eqb text "" then None else Some text in
        if sr_permanent result || (max_delivery_attempts settings <=? dv_attempts dv) then
          let dv := bounced (sr_provider result) error dv in
          _ ← write_delivery dv;
          _ ← (if sr_permanent result && bool_decide (dv_channel dv = NotificationChannel.EMAIL)
               then _ ← suppress now (dv_channel dv) (dv_destination dv) SuppressionReason.HARD_BOUNCE error (dv_user_id dv); mret tt
               else mret tt);
          _ ← (if sr_permanent result && bool_decide (dv_channel dv = NotificationChannel.PUSH)
               then deactivate_token (dv_destination dv) else mret tt);
          mret dv
        else
          let dv := failed (sr_provider result) error dv in
          _ ← write_delivery dv;
          mret dv
  end.

Definition render_or_raise (t : Template) (vs : list (string * json)) : result RenderedMessage :=
  let r := render_message t vs in
  if bool_decide (r_missing r = []) then Ok r else Raise (app_error ValidationError "").

Definition new_delivery (id : uuid) (q : SendRequest) (c : NotificationChannel.t) (n : option Notification) (dest : string)
    (r : RenderedMessage) : Delivery :=
  mkDelivery id (no_id <$> n) (Some (sq_user_id q)) c (stake 320 dest) DeliveryStatus.QUEUED
    (let s := stake 300 (default "" (r_subject r)) in if String.eqb s "" then None else Some s)
    (r_body_text r) (r_body_html r) None None 0 None None None None now.

(** A refusal is recorded on the row; otherwise the message is attempted. *)
Definition record_delivery (decision : Decision) (dv : Delivery) (r : RenderedMessage) (vs : list (string * json))
    (acc : list Delivery) : M World (list Delivery) :=
  _ ← write_delivery dv;
  if negb (allowed decision) then
    let dv := with_status DeliveryStatus.SKIPPED (reason decision) dv in
    _ ← write_delivery dv; mret (acc ++ [dv])
  else
    dv ← attempt_delivery dv r vs; mret (acc ++ [dv]).

(** One destination of one channel. *)
Definition deliver (q : SendRequest) (c : NotificationChannel.t) (t : Template) (r : RenderedMessage)
    (vs : list (string * json)) (n : option Notification) (acc : list Delivery) (dest : string) : M World (list Delivery) :=
  w ← get;
  decision ← of_result (may_send (Some (sq_user_id q)) (tp_category t) c (Some dest) (db w));
  record_delivery decision (new_delivery (fresh_id (deliveries (db w))) q c n dest r) r vs acc.

(** The deliveries, and whether a template existed for the channel. *)
Definition dispatch_channel (q : SendRequest) (vs : list (string * json)) (n : option Notification) (c : NotificationChannel.t)
    : M World (list Delivery * bool) :=
  match provider_for settings c with
  | None => mret ([], false)
  | Some _ =>
      w ← get;
      template ← of_result (find_template (sq_template_key q) c (sq_locale q) (templates (db w)));
      match template with
      | None => mret ([], false)
      | Some t =>
          r ← of_result (render_or_raise t vs);
          dvs ← for_acc (deliver q c t r vs n) [] (destinations c q (db w));
          mret (dvs, true)
      end
  end.

Record DispatchResult := mkDispatch {
  ds_notification : option Notification;
  ds_deliveries : list Delivery;
  ds_skipped_reason : option string;
}.

(** The in-app row. Its short columns have a length. *)
Definition notify_in_app (q : SendRequest) (t : Template) (r : RenderedMessage) (vs : list (string * json)) : M World Notification :=
  w ← get;
  let title := if truthy (r_subject r) then default "" (r_subject r) else sq_template_key q in
  let n := mkNotification (fresh_id (notifications (db w))) (sq_user_id q) (sq_template_key q) (tp_category t)
             (stake 300 title) (r_body_text r) (text_or_none (variable "action_url" vs)) (text_or_none (variable "icon" vs))
             vs None None now in
  _ ← raise_when (negb (opt_at_most 1000 (no_action_url n)) || negb (opt_at_most 60 (no_icon n))) DataErr;
  _ ← on_db (modify (fun d => set_notifications (save n (notifications d)) d));
  mret n.

Definition in_app_step (q : SendRequest) (vs : list (string * json)) : M World (option Notification * option string * bool) :=
  w ← get;
  template ← of_result (find_template (sq_template_key q) NotificationChannel.IN_APP (sq_locale q) (templates (db w)));
  match template with
  | None => mret (None, None, false)
  | Some t =>
      r ← of_result (render_or_raise t vs);
      decision ← of_result (may_send (Some (sq_user_id q)) (tp_category t) NotificationChannel.IN_APP None (db w));
      if allowed decision then n ← notify_in_app q t r vs; mret (Some n, None, true)
      else mret (None, reason decision, true)
  end.

Definition send_channel (q : SendRequest) (vs : list (string * json)) (n : option Notification)
    (acc : list Delivery * bool) (c : NotificationChannel.t) : M World (list Delivery * bool) :=
  if bool_decide (c = NotificationChannel.IN_APP) then mret acc else
  r ← dispatch_channel q vs n c;
  mret (acc.1 ++ r.1, acc.2 || r.2).

Definition channels_of (q : SendRequest) : list NotificationChannel.t :=
  match sq_channels q with
  | Some (c :: cs) => c :: cs
  | _ => [NotificationChannel.IN_APP; NotificationChannel.EMAIL]
  end.

(** Commits. *)
Definition send (q : SendRequest) : M World DispatchResult :=
  let channels := channels_of q in
  let vs := with_defaults q in
  in_app ← (if bool_decide (NotificationChannel.IN_APP ∈ channels) then in_app_step q vs else mret (None, None, false));
  let '(n, skipped, found) := in_app in
  out ← for_acc (send_channel q vs n) ([], found) channels;
  _ ← raise_when (negb out.2) (app_error NotFoundError "");
  let skipped := if bool_decide (n = None) && bool_decide (out.1 = [])
                 then str_or skipped (Some "no_channel_available") else skipped in
  _ ← on_session commit;
  mret (mkDispatch n out.1 skipped).

(** ** Retries *)

Definition retry_due (dv : Delivery) : bool :=
  bool_decide (dv_status dv = DeliveryStatus.FAILED) &&
  match dv_next_attempt_at dv with Some t => t <=? now | None => false end.

Definition retry_one (dv : Delivery) : M World unit :=
  _ ← attempt_delivery dv (mkRendered (dv_subject dv) (dv_body_text dv) (dv_body_html dv) []) []; mret tt.

Definition retry_pending (batch : nat) : M World Z :=
  w ← get;
  let pending := take batch (merge_sort (fun a b => Is_true (default 0 (dv_next_attempt_at a) <=? default 0 (dv_next_attempt_at b)))
                               (select retry_due (deliveries (db w)))) in
  _ ← for_each retry_one pending;
  if bool_decide (pending = []) then mret 0 else
  _ ← on_session commit;
  mret (Z.of_nat (length pending)).
End sending.
End hmac.
End service.

(** ** What a computation does to the store *)

(** Templates and preferences stay; suppressions are only added; devices are
    only switched off. *)
Record grows (d d' : NotifyDb) : Prop := {
  gr_templates : templates d' = templates d;
  gr_preferences : preferences d' = preferences d;
  gr_suppressions : suppressions d ⊆ suppressions d';
  gr_devices : forall i t', devices d' !! i = Some t' -> dt_is_active t' = true -> devices d !! i = Some t';
}.
#[export] Instance grows_preorder : PreOrder grows.
Proof.
  split.
  - intros d. by split.
  - intros d1 d2 d3 [H1 H2 H3 H4] [K1 K2 K3 K4]. split; [congruence..| |by eauto]. by transitivity (suppressions d2).
Qed.

(** Nobody is contacted. *)
Definition quiet (w w' : World) : Prop := grows (db w) (db w') /\ contacts w' = contacts w.
#[export] Instance quiet_preorder : PreOrder quiet.
Proof.
  split; [by intros w; split|]. intros w1 w2 w3 [G1 C1] [G2 C2]. split; [by transitivity (db w2)|congruence].
Qed.

Lemma quiet_db f : (forall d, grows d (f d)) -> moves quiet (on_db (modify f)).
Proof. intros Hf w r w' [= <- <-]. split; [apply Hf|done]. Qed.
Lemma quiet_commit : moves quiet (on_session commit).
Proof. by intros w r w' [= <- <-]. Qed.
Lemma grows_deliveries x d : grows d (set_deliveries x d).
Proof. by split. Qed.
Lemma grows_notifications x d : grows d (set_notifications x d).
Proof. by split. Qed.
Lemma quiet_write dv : moves quiet (write_delivery dv).
Proof. apply quiet_db. intros d. apply grows_deliveries. Qed.

Ltac moves_core :=
  match goal with
  | |- moves _ (mret _) => apply moves_ret; apply _
  | |- moves _ (raise _) => apply moves_raise; apply _
  | |- moves _ get => apply moves_get; apply _
  | |- moves _ (of_result _) => apply moves_of_result; apply _
  | |- moves _ (raise_when _ _) => apply moves_raise_when; apply _
  | |- moves _ (savepoint _ _) => apply moves_savepoint; try apply _
  | |- moves _ (_ ≫= _) => apply moves_bind; [apply _| |intros ?]
  | |- moves _ (if ?b then _ else _) => destruct b
  | |- moves _ (match ?x with _ => _ end) => destruct x
  end.

Lemma quiet_suppress now c destination why detail u : moves quiet (suppress now c destination why detail u).
Proof.
  unfold suppress. apply moves_get_bind. intros w r w' H.
  apply bind_inv in H as [(existing & s1 & [= _ <-] & H)|(e & [= _ <-] & ->)]; [|done].
  destruct existing as [s|]; [by injection H as <- <-|].
  apply bind_inv in H as [(? & s2 & [= _ <-] & H)|(? & [=] & _)].
  apply bind_inv in H as [(? & s3 & [= _ <-] & [= _ <-])|(? & [=] & _)].
  split; [|done]. split; cbn; [done..| |done]. apply insert_subseteq, fresh_id_None.
Qed.

Lemma quiet_deactivate token : moves quiet (deactivate_token token).
Proof.
  unfold deactivate_token. apply moves_get_bind. intros w r w' H.
  apply bind_inv in H as [(device & s1 & [= _ <-] & H)|(e & [= _ <-] & ->)]; [|done].
  destruct device as [t|]; [|by injection H as <- <-]. injection H as <- <-.
  split; [|done]. split; cbn; [done..|]. intros i t' Hl. apply lookup_insert_Some in Hl as [[_ <-]|[_ Hl]]; [by cbn|done].
Qed.

Lemma quiet_set_provider_id dv id : moves quiet (set_provider_id dv id).
Proof.
  unfold set_provider_id. apply moves_savepoint; repeat first [apply quiet_write | moves_core].
  apply quiet_db. intros d. apply grows_deliveries.
Qed.

(** *** Permission *)

Section permission.
Context (settings : NotifySettings).

(** The promise to the addressee, in terms of the stored rows. *)
Record consented (d : NotifyDb) (u : uuid) (category : string) (c : NotificationChannel.t) (dest : string) : Prop := {
  co_enabled : sending_enabled settings = true;
  co_not_suppressed : suppression_enforced settings = true -> dest <> "" -> forall i s,
    suppressions d !! i = Some s -> su_channel s = c -> su_destination s <> normal_address dest;
  co_not_opted_out : category ∈ transactional_categories settings \/
    forall i p, preferences d !! i = Some p -> pf_user_id p = u -> pf_category p = category -> pf_channel p = c ->
      pf_enabled p = true;
}.

Lemma one_or_none_nil {V} `{!Row V} (P : V -> bool) (t : table V) : one_or_none (select P t) = Ok None ->
  forall i v, t !! i = Some v -> P v = false.
Proof.
  intros H%one_or_none_None i v Hv. apply not_true_is_false. intros Hp.
  assert (v ∈ select P t) as Hin by (apply elem_of_select; eauto). rewrite H in Hin. by apply elem_of_nil in Hin.
Qed.
Lemma one_or_none_one {V} `{!Row V} (P : V -> bool) (t : table V) v : one_or_none (select P t) = Ok (Some v) ->
  forall i w, t !! i = Some w -> P w = true -> w = v.
Proof.
  intros H%one_or_none_Some i w Hw Hp. assert (w ∈ select P t) as Hin by (apply elem_of_select; eauto).
  rewrite H in Hin. by apply list_elem_of_singleton in Hin.
Qed.

Lemma may_send_consented u category c dest d dec :
  may_send settings (Some u) category c (Some dest) d = Ok dec -> allowed dec = true -> consented d u category c dest.
Proof.
  unfold may_send. destruct (sending_enabled settings) eqn:He; cbn [negb]; [|by intros [= <-]].
  match goal with |- (?l ≫= _) = _ -> _ => set (look := l) end.
  assert (Hl : look = Ok None -> suppression_enforced settings = true -> dest <> "" -> forall i s,
    suppressions d !! i = Some s -> su_channel s = c -> su_destination s <> normal_address dest).
  { subst look. intros H Hs Hd i s Hi <- Hn. destruct (String.eqb_spec dest ""); [done|]. rewrite Hs in H. cbn in H.
    pose proof (one_or_none_nil _ _ H i s Hi) as Hf. unfold suppression_col in Hf. rewrite Hn in Hf. by case_bool_decide. }
  destruct look as [[s|]|e]; cbn [mbind result_bind]; [by intros [= <-]| |done].
  unfold is_transactional. case_bool_decide as Ht; [intros _ _; split; [done|by apply Hl|by left]|].
  destruct (preference_of u category c d) as [[p|]|e] eqn:Hp; cbn [mbind result_bind]; [| |done].
  - destruct (pf_enabled p) eqn:Hen; [|by intros [= <-]]. intros _ _. split; [done|by apply Hl|right].
    intros i q Hi Hu Hc Hch. pose proof (one_or_none_one _ _ _ Hp i q Hi) as ->; [done|].
    unfold preference_col. by rewrite Hu, Hc, Hch, bool_decide_eq_true_2.
  - intros _ _. split; [done|by apply Hl|right]. intros i q Hi Hu Hc Hch.
    pose proof (one_or_none_nil _ _ Hp i q Hi) as Hf. unfold preference_col in Hf.
    by rewrite Hu, Hc, Hch, bool_decide_eq_true_2 in Hf.
Qed.

Lemma consented_before d d' u category c dest : grows d d' -> consented d' u category c dest -> consented d u category c dest.
Proof.
  intros [_ Hp Hs _] [H1 H2 H3]. rewrite Hp in H3. split; [done| |done].
  intros ?? i s Hi. apply (H2 ltac:(done) ltac:(done) i). by eapply lookup_weaken.
Qed.

(** The contact is a message of the request, to an address of the addressee
    that may be contacted. *)
Definition permitted (q : SendRequest) (d : NotifyDb) (ct : Contact) : Prop :=
  exists (dest : string) (t : Template), m_destination (ct_message ct) = stake 320 dest /\
    dest ∈ destinations (ct_channel ct) q d /\
    find_template (sq_template_key q) (ct_channel ct) (sq_locale q) (templates d) = Ok (Some t) /\
    consented d (sq_user_id q) (tp_category t) (ct_channel ct) dest.

Lemma destinations_before c q d d' dest : grows d d' -> dest ∈ destinations c q d' -> dest ∈ destinations c q d.
Proof.
  intros [_ _ _ Hd]. unfold destinations. destruct c; try done. unfold push_tokens.
  rewrite !list_elem_of_fmap. intros (t & -> & [[i Ht] Hp]%elem_of_select). exists t. split; [done|].
  apply elem_of_select. split; [|done]. exists i. apply Hd; [done|]. by apply andb_true_iff in Hp as [_ ?].
Qed.

(** Since the store was [d0] and the contacts [c0], only permitted contacts were made. *)
Definition so_far (q : SendRequest) (d0 : NotifyDb) (c0 : list Contact) (w : World) : Prop :=
  grows d0 (db w) /\ exists new, contacts w = c0 ++ new /\ Forall (permitted q d0) new.

Section send.
Context (hmac : string -> string -> string) (net : nat -> Net) (now : datetime).
Context (q : SendRequest) (d0 : NotifyDb) (c0 : list Contact).
Abbreviation I := (so_far q d0 c0).

Lemma preserves_quiet {A} (m : M World A) : moves quiet m -> preserves I m.
Proof.
  intros Hm w r w' (G & new & E & F) H. destruct (Hm w r w' H) as [G' E']. split; [by transitivity (db w)|].
  exists new. by rewrite E'.
Qed.

Lemma preserves_call c p m : permitted q d0 (mkContact c m) -> preserves I (call_provider settings net c p m).
Proof.
  intros Hp w r w' (G & new & E & F) [= <- <-]. split; [done|]. exists (new ++ [mkContact c m]). cbn.
  split; [by rewrite E, app_assoc|]. apply Forall_app. split; [done|]. by constructor.
Qed.

Lemma preserves_attempt dv r vs :
  (forall m, m_destination m = dv_destination dv -> permitted q d0 (mkContact (dv_channel dv) m)) ->
  preserves I (attempt_delivery settings net now dv r vs).
Proof.
  intros Hp. unfold attempt_delivery. destruct (provider_for settings (dv_channel dv)) as [p|].
  - apply preserves_bind; [apply preserves_quiet, quiet_write|intros _].
    apply preserves_bind; [by apply preserves_call, Hp|intros res]. apply preserves_quiet.
    repeat first [apply quiet_write | apply quiet_set_provider_id | apply quiet_suppress | apply quiet_deactivate | moves_core].
  - apply preserves_quiet. repeat first [apply quiet_write | moves_core].
Qed.

Lemma preserves_record dec dv r vs acc :
  (allowed dec = true -> forall m, m_destination m = dv_destination dv -> permitted q d0 (mkContact (dv_channel dv) m)) ->
  preserves I (record_delivery settings net now dec dv r vs acc).
Proof.
  intros Hp. unfold record_delivery. apply preserves_bind; [apply preserves_quiet, quiet_write|intros _].
  destruct (allowed dec); cbn [negb].
  - apply preserves_bind; [by apply preserves_attempt, Hp|intros ?; apply preserves_ret].
  - apply preserves_quiet. repeat first [apply quiet_write | moves_core].
Qed.

Lemma preserves_deliver c t r vs n acc dest :
  dest ∈ destinations c q d0 -> find_template (sq_template_key q) c (sq_locale q) (templates d0) = Ok (Some t) ->
  preserves I (deliver settings net now q c t r vs n acc dest).
Proof.
  intros Hd Ht w x w' HI H. unfold deliver in H. apply bind_inv in H as [(? & ? & [= <- <-] & H)|(? & [=] & _)].
  apply bind_inv in H as [(dec & ? & Hdec & H)|(? & [= _ <-] & _)]; [|done]. unfold of_result in Hdec. injection Hdec as Hdec <-.
  assert (Hc : allowed dec = true -> consented d0 (sq_user_id q) (tp_category t) c dest).
  { intros Ha. eapply consented_before; [apply HI|]. by eapply may_send_consented. }
  eapply preserves_record; [|exact HI|exact H]. intros Ha m Hm. exists dest, t. auto.
Qed.

Lemma preserves_dispatch vs n c : preserves I (dispatch_channel settings net now q vs n c).
Proof.
  unfold dispatch_channel. destruct (provider_for settings c) as [p|]; [|apply preserves_ret].
  intros w x w' HI H. apply bind_inv in H as [(? & ? & [= <- <-] & H)|(? & [=] & _)].
  apply bind_inv in H as [(t & ? & Ht & H)|(? & [= _ <-] & _)]; [|done]. unfold of_result in Ht. injection Ht as Ht <-.
  rewrite (gr_templates _ _ (proj1 HI)) in Ht. destruct t as [t|]; [|by injection H as <- <-].
  eapply preserves_bind; [apply preserves_of_result| |exact HI|exact H]. intros r.
  apply preserves_bind; [|intros ?; apply preserves_ret].
  assert (Hd : forall dest, dest ∈ destinations c q (db w) -> dest ∈ destinations c q d0)
    by (intros dest; apply destinations_before, HI).
  revert Hd. generalize (destinations c q (db w)), (@nil Delivery). clear -Ht. intros l.
  induction l as [|dest l IH]; intros acc Hd; cbn [for_acc]; [apply preserves_ret|].
  apply preserves_bind; [apply preserves_deliver; [apply Hd; left|done]|]. intros acc'. apply IH. intros y Hy. apply Hd. by right.
Qed.

Lemma preserves_in_app vs : preserves I (in_app_step settings now q vs).
Proof.
  apply preserves_quiet. unfold in_app_step, notify_in_app.
  repeat first [apply quiet_db; intros ?; apply grows_notifications | moves_core].
Qed.

Lemma preserves_send : preserves I (send settings hmac net now q).
Proof.
  unfold send. apply preserves_bind; [case_bool_decide; [apply preserves_in_app|apply preserves_ret]|intros [[n skipped] found]].
  apply preserves_bind.
  - generalize (channels_of q), (@nil Delivery, found). intros l. induction l as [|c l IH]; intros acc; cbn [for_acc];
      [apply preserves_ret|]. apply preserves_bind; [|apply IH]. unfold send_channel. case_bool_decide; [apply preserves_ret|].
    apply preserves_bind; [apply preserves_dispatch|intros ?; apply preserves_ret].
  - intros out. apply preserves_quiet. repeat first [apply quiet_commit | moves_core].
Qed.
End send.
End permission.


(** ** Retries are bounded *)

Section retries.
Context (settings : NotifySettings).

Record sweep_ok (d : NotifyDb) : Prop := {
  sw_keyed : keyed (deliveries d);
  sw_attempts : forall i dv, deliveries d !! i = Some dv -> dv_status dv = DeliveryStatus.FAILED ->
    dv_attempts dv < max_delivery_attempts settings;
  sw_suppressions : keyed (suppressions d) /\ unique_on suppression_col (suppressions d);
  sw_devices : keyed (devices d) /\ unique_on device_col (devices d);
}.

(** Attempts the failed deliveries have left. *)
Definition attempts_left (dv : Delivery) : Z :=
  if decide (dv_status dv = DeliveryStatus.FAILED) then max_delivery_attempts settings - dv_attempts dv else 0.
Definition budget (d : NotifyDb) : Z := table_sum attempts_left (deliveries d).

Lemma suppression_found c dest d : sweep_ok d -> exists o, suppression_for c dest d = Ok o /\
  (o = None -> forall i s, suppressions d !! i = Some s -> suppression_col s <> Some (c, normal_address dest)).
Proof.
  intros [_ _ [Hk Hu] _]. unfold suppression_for.
  destruct (select_unique suppression_col (suppressions d)
    (fun s => bool_decide (suppression_col s = Some (c, normal_address dest))) (c, normal_address dest) Hk Hu) as [o Ho];
    [by intros s ?%bool_decide_eq_true|].
  exists o. split; [exact Ho|]. intros -> i s Hi Hs.
  pose proof (one_or_none_nil _ _ Ho i s Hi) as Hf. by apply bool_decide_eq_false in Hf.
Qed.

Lemma suppress_ok now c dest why detail u w : sweep_ok (db w) ->
  exists s w', suppress now c dest why detail u w = (Ok s, w') /\ sweep_ok (db w') /\ deliveries (db w') = deliveries (db w) /\
    contacts w' = contacts w.
Proof.
  intros Hok. unfold suppress. erewrite bind_ok by reflexivity. cbv beta.
  destruct (suppression_found c dest (db w) Hok) as (o & Ho & Hn). rewrite Ho. erewrite bind_ok by reflexivity.
  destruct o as [s|]; [by eauto 10|]. eexists _, _. split; [reflexivity|]. split; [|done].
  destruct Hok as [H1 H2 [Hk Hu] H4]. split; [done..| |done].
  change (keyed (save (mkSuppression (fresh_id (suppressions (db w))) c (normal_address dest) why
    (if String.eqb (stake 1000 (default "" detail)) "" then None else Some (stake 1000 (default "" detail))) u now) (suppressions (db w))) /\
    unique_on suppression_col (save (mkSuppression (fresh_id (suppressions (db w))) c (normal_address dest) why
    (if String.eqb (stake 1000 (default "" detail)) "" then None else Some (stake 1000 (default "" detail))) u now) (suppressions (db w)))).
  eapply (insert_unique_preserves suppression_col); [exact Hk|exact Hu|]. unfold insert_unique.
  rewrite (proj2 (conflicts_false suppression_col _ _ Hk)); [done|]. intros k i s [= <-] Hi Hs. by destruct (Hn eq_refl i s Hi).
Qed.

Lemma deactivate_ok token w : sweep_ok (db w) ->
  exists w', deactivate_token token w = (Ok tt, w') /\ sweep_ok (db w') /\ deliveries (db w') = deliveries (db w) /\
    contacts w' = contacts w.
Proof.
  intros Hok. destruct Hok as [H1 H2 H3 [Hk Hu]]. unfold deactivate_token. erewrite bind_ok by reflexivity. cbv beta.
  destruct (select_unique device_col (devices (db w)) (fun t => bool_decide (dt_token t = token)) token Hk Hu) as [o Ho];
    [intros t ?%bool_decide_eq_true; unfold device_col; congruence|].
  rewrite Ho. destruct o as [t|]; [|eexists; split; [reflexivity|]; done].
  assert (Hin : t ∈ select (fun t => bool_decide (dt_token t = token)) (devices (db w)))
    by (apply one_or_none_Some in Ho; rewrite Ho; left).
  apply elem_of_select_keyed in Hin as [Hin _]; [|done]. eexists. split; [reflexivity|]. split; [|done].
  split; [done..|]. cbn [devices]. split; [by apply keyed_save|]. by apply (unique_save_same device_col _ t).
Qed.

(** One row is being worked on; at most [n] contacts so far. *)
Section row.
Context (id : uuid) (D : table Delivery) (n : nat).

Record at_row (dv : Delivery) (w : World) : Prop := {
  ar_ok : sweep_ok (db w);
  ar_id : dv_id dv = id;
  ar_rows : deliveries (db w) = <[id := dv]> D;
  ar_contacts : (length (contacts w) <= n)%nat;
}.

Lemma write_at_row dv dv' w : at_row dv w -> dv_id dv' = id ->
  (dv_status dv' = DeliveryStatus.FAILED -> dv_attempts dv' < max_delivery_attempts settings) ->
  exists w', write_delivery dv' w = (Ok tt, w') /\ at_row dv' w'.
Proof.
  intros [[Hk Ha Hs Hd] Hid Hr Hc] Hid' Hf. eexists. split; [reflexivity|].
  assert (Hsave : save dv' (deliveries (db w)) = <[id := dv']> D).
  { rewrite Hr. unfold save. change (row_id dv') with (dv_id dv'). by rewrite Hid', insert_insert_eq. }
  split; [split; [by apply keyed_save| |done..]|done|exact Hsave|exact Hc].
  intros i x Hx. cbn [deliveries db working set_deliveries w_session] in Hx.
  change (save dv' (deliveries (db w)) !! i = Some x) in Hx.
  rewrite lookup_save in Hx. case_decide; [injection Hx as <-; exact Hf|by apply (Ha i)].
Qed.

Lemma provider_id_at_row dv pid w : at_row dv w -> dv_status dv <> DeliveryStatus.FAILED ->
  exists dv' w', set_provider_id dv pid w = (Ok dv', w') /\ at_row dv' w' /\ dv_status dv' = dv_status dv.
Proof.
  intros Hat Hst. unfold set_provider_id, savepoint. erewrite bind_ok by reflexivity. cbv beta.
  destruct (insert_unique provider_ref (with_message_id (Some (stake 191 pid)) dv) (deliveries (db w))) as [ds|e] eqn:Hi.
  - erewrite bind_ok by reflexivity. cbv beta. erewrite bind_ok by reflexivity. cbv beta.
    apply insert_unique_ok in Hi as ->. eexists _, _. split; [reflexivity|]. split; [|done].
    destruct (write_at_row dv (with_message_id (Some (stake 191 pid)) dv) w Hat (ar_id _ _ Hat)) as (w' & Hw & Hat'); [done|].
    injection Hw as <-. exact Hat'.
  - assert (e = IntegrityErr) as -> by (unfold insert_unique in Hi; destruct (conflicts _ _ _); congruence).
    destruct (write_at_row dv (with_message_id None dv) w Hat (ar_id _ _ Hat)) as (w' & Hw & Hat'); [done|].
    exists (with_message_id None dv), w'. split; [|done]. change ((_ ← write_delivery (with_message_id None dv);
      mret (with_message_id None dv)) w = (Ok (with_message_id None dv), w')). by rewrite (bind_ok _ _ _ _ _ Hw).
Qed.

(** What is left to do after the provider has answered. *)
Lemma bounce_at_row now permanent error dv w : at_row dv w ->
  exists w', (_ ← (if permanent && bool_decide (dv_channel dv = NotificationChannel.EMAIL)
               then _ ← suppress now (dv_channel dv) (dv_destination dv) SuppressionReason.HARD_BOUNCE error (dv_user_id dv); mret tt
               else mret tt);
          _ ← (if permanent && bool_decide (dv_channel dv = NotificationChannel.PUSH)
               then deactivate_token (dv_destination dv) else mret tt);
          mret dv) w = (Ok dv, w') /\ at_row dv w'.
Proof.
  intros Hat. assert (Hdead : forall w1, at_row dv w1 -> exists w2,
    (_ ← (if permanent && bool_decide (dv_channel dv = NotificationChannel.PUSH)
          then deactivate_token (dv_destination dv) else mret tt); mret dv) w1 = (Ok dv, w2) /\ at_row dv w2).
  { intros w1 [H1 H2 H3 H4]. destruct (permanent && _).
    - destruct (deactivate_ok (dv_destination dv) w1 H1) as (w2 & E & Hok & Hd & Hc). exists w2. rewrite (bind_ok _ _ _ _ _ E).
      split; [done|]. split; [done|done|congruence|by rewrite Hc].
    - exists w1. done. }
  destruct (permanent && bool_decide (dv_channel dv = NotificationChannel.EMAIL)).
  - destruct Hat as [H1 H2 H3 H4].
    destruct (suppress_ok now (dv_channel dv) (dv_destination dv) SuppressionReason.HARD_BOUNCE error (dv_user_id dv) w H1)
      as (s & w1 & E & Hok & Hd & Hc). destruct (Hdead w1) as (w2 & E2 & Hat2); [split; [done|done|congruence|by rewrite Hc]|].
    exists w2. split; [|done]. rewrite (bind_ok _ _ w tt w1); [exact E2|]. by rewrite (bind_ok _ _ _ _ _ E).
  - destruct (Hdead w Hat) as (w2 & E2 & Hat2). exists w2. split; [|done]. by rewrite (bind_ok _ _ w tt w).
Qed.
End row.

(** A row with more contacts allowed. *)
Lemma at_row_more id D n dv w : at_row id D n dv w -> at_row id D (S n) dv w.
Proof. intros [H1 H2 H3 H4]. split; [done..|lia]. Qed.

Lemma attempt_at_row id D n net now dv r vs w :
  at_row id D n dv w -> (forall p m, is_ok (provider_send settings p (net (length (contacts w))) m) = true) ->
  exists dv' w', attempt_delivery settings net now dv r vs w = (Ok dv', w') /\ at_row id D (S n) dv' w' /\
    (dv_status dv' = DeliveryStatus.FAILED -> dv_attempts dv' = dv_attempts dv + 1).
Proof.
  intros Hat Hnet. unfold attempt_delivery. destruct (provider_for settings (dv_channel dv)) as [p|].
  - destruct (write_at_row id D n dv (sending dv) w Hat (ar_id _ _ _ _ _ Hat)) as (w1 & E1 & Hat1); [done|].
    rewrite (bind_ok _ _ _ _ _ E1). assert (Hlen : contacts w1 = contacts w) by (by injection E1 as <-). clear E1.
    unfold call_provider at 1. set (m := mkMessage _ _ _ _ _ _ _). specialize (Hnet p m). rewrite <- Hlen in Hnet.
    set (w2 := mkWorld (w_session w1) (contacts w1 ++ [mkContact (dv_channel (sending dv)) m])).
    assert (Hat2 : at_row id D (S n) (sending dv) w2).
    { destruct Hat1 as [K1 K2 K3 K4]. split; [done..|]. subst w2. cbn [contacts]. rewrite length_app. cbn. lia. }
    destruct (provider_send settings p (net (length (contacts w1))) m) as [res|e] eqn:Hres; [|done].
    rewrite (bind_ok _ _ w1 res w2) by (unfold w2; by rewrite Hres). clearbody w2 m. clear Hnet Hres Hlen Hat1 w1.
    destruct (sr_success res).
    + destruct (write_at_row id D (S n) (sending dv) (sent now (sr_provider res) (sending dv)) w2 Hat2 (ar_id _ _ _ _ _ Hat2))
        as (w3 & E3 & Hat3); [done|]. rewrite (bind_ok _ _ _ _ _ E3).
      destruct (sr_provider_message_id res) as [pid|]; [destruct (String.eqb pid "")|]; [by eexists _, _| |by eexists _, _].
      destruct (provider_id_at_row id D (S n) _ pid w3 Hat3) as (dv' & w4 & E4 & Hat4 & Hst); [done|].
      exists dv', w4. split; [exact E4|]. split; [done|]. by rewrite Hst.
    + set (error := if String.eqb _ "" then _ else _). destruct (sr_permanent res || _) eqn:Hx.
      * destruct (write_at_row id D (S n) (sending dv) (bounced now (sr_provider res) error (sending dv)) w2 Hat2 (ar_id _ _ _ _ _ Hat2))
          as (w3 & E3 & Hat3); [done|]. rewrite (bind_ok _ _ _ _ _ E3).
        destruct (bounce_at_row id D (S n) now (sr_permanent res) error _ w3 Hat3) as (w4 & E4 & Hat4).
        exists (bounced now (sr_provider res) error (sending dv)), w4. split; [exact E4|]. by split.
      * apply orb_false_iff in Hx as [_ Hx%Z.leb_gt].
        destruct (write_at_row id D (S n) (sending dv) (failed settings now (sr_provider res) error (sending dv)) w2 Hat2
          (ar_id _ _ _ _ _ Hat2)) as (w3 & E3 & Hat3); [done|]. rewrite (bind_ok _ _ _ _ _ E3). by eexists _, _.
  - destruct (write_at_row id D n dv (with_status DeliveryStatus.SKIPPED (Some "channel_unavailable") dv) w Hat (ar_id _ _ _ _ _ Hat))
      as (w1 & E1 & Hat1); [done|]. rewrite (bind_ok _ _ _ _ _ E1). eexists _, _. split; [reflexivity|].
    split; [by apply at_row_more|done].
Qed.

Definition net_answers (net : nat -> Net) : Prop := forall n p m, is_ok (provider_send settings p (net n) m) = true.

Lemma retry_one_spends net now dv w : sweep_ok (db w) -> net_answers net ->
  deliveries (db w) !! dv_id dv = Some dv -> dv_status dv = DeliveryStatus.FAILED ->
  exists w', retry_one settings net now dv w = (Ok tt, w') /\ sweep_ok (db w') /\
    (forall i, i <> dv_id dv -> deliveries (db w') !! i = deliveries (db w) !! i) /\
    Z.of_nat (length (contacts w')) + budget (db w') <= Z.of_nat (length (contacts w)) + budget (db w).
Proof.
  intros Hok Hnet Hrow Hf. pose proof (sw_attempts _ Hok _ _ Hrow Hf) as Hlt.
  assert (Hat : at_row (dv_id dv) (deliveries (db w)) (length (contacts w)) dv w) by (split; [done|done|by rewrite insert_id|done]).
  destruct (attempt_at_row _ _ _ net now dv (mkRendered (dv_subject dv) (dv_body_text dv) (dv_body_html dv) []) [] w Hat)
    as (dv' & w' & E & [K1 K2 K3 K4] & Hleft); [intros p m; apply Hnet|].
  exists w'. split; [unfold retry_one; by rewrite (bind_ok _ _ _ _ _ E)|]. split; [done|].
  split; [intros i Hi; rewrite K3; by apply lookup_insert_ne|].
  unfold budget. rewrite K3, (table_sum_insert _ _ _ _ dv Hrow). unfold attempts_left. rewrite (decide_True _ _ Hf).
  destruct (decide (dv_status dv' = DeliveryStatus.FAILED)) as [Hf'|]; [specialize (Hleft Hf')|]; lia.
Qed.

Lemma sweep_spends net now l : forall w, sweep_ok (db w) -> net_answers net -> NoDup (map dv_id l) ->
  (forall dv, dv ∈ l -> deliveries (db w) !! dv_id dv = Some dv /\ dv_status dv = DeliveryStatus.FAILED) ->
  exists w', for_each (retry_one settings net now) l w = (Ok tt, w') /\ sweep_ok (db w') /\
    Z.of_nat (length (contacts w')) + budget (db w') <= Z.of_nat (length (contacts w)) + budget (db w).
Proof.
  induction l as [|dv l IH]; intros w Hok Hnet Hnd Hl; cbn [for_each]; [eexists; split; [reflexivity|]; split; [done|lia]|].
  apply NoDup_cons in Hnd as [Hni Hnd]. destruct (Hl dv ltac:(left)) as [Hrow Hf].
  destruct (retry_one_spends net now dv w Hok Hnet Hrow Hf) as (w1 & E1 & Hok1 & Hsame & Hle).
  destruct (IH w1 Hok1 Hnet Hnd) as (w2 & E2 & Hok2 & Hle2).
  { intros x Hx. destruct (Hl x ltac:(by right)) as [Hxr Hxf]. split; [|done]. rewrite Hsame; [done|].
    intros Heq. apply Hni. rewrite <- Heq. apply list_elem_of_In, in_map, list_elem_of_In, Hx. }
  exists w2. rewrite (bind_ok _ _ _ _ _ E1). split; [exact E2|]. split; [done|lia].
Qed.

Lemma map_id_NoDup {V} `{!Row V} (t : table V) l : keyed t -> NoDup l -> (forall v, v ∈ l -> t !! row_id v = Some v) ->
  NoDup (map row_id l).
Proof.
  intros Hk. induction 1 as [|v l Hni Hnd IH]; intros Hl; cbn; [constructor|]. constructor; [|apply IH; intros; apply Hl; by right].
  intros Hin. apply list_elem_of_In, in_map_iff in Hin as (w & Hw & Hin%list_elem_of_In). apply Hni.
  pose proof (Hl v ltac:(left)) as E1. pose proof (Hl w ltac:(by right)) as E2. rewrite Hw, E1 in E2. by injection E2 as ->.
Qed.

Lemma retry_pending_spends net now batch w : sweep_ok (db w) -> net_answers net ->
  exists n w', retry_pending settings net now batch w = (Ok n, w') /\ sweep_ok (db w') /\
    Z.of_nat (length (contacts w')) + budget (db w') <= Z.of_nat (length (contacts w)) + budget (db w).
Proof.
  intros Hok Hnet. unfold retry_pending. erewrite bind_ok by reflexivity. cbv beta zeta.
  set (pending := take _ _). pose proof (sw_keyed _ Hok) as Hk.
  assert (Hin : forall dv, dv ∈ pending -> deliveries (db w) !! dv_id dv = Some dv /\ dv_status dv = DeliveryStatus.FAILED).
  { intros dv Hdv. apply (subseteq_take _ _ dv) in Hdv. rewrite merge_sort_Permutation in Hdv.
    apply elem_of_select_keyed in Hdv as [Hd Hp]; [|done]. split; [done|]. by apply andb_true_iff in Hp as [?%bool_decide_eq_true _]. }
  destruct (sweep_spends net now pending w Hok Hnet) as (w1 & E1 & Hok1 & Hle); [|done|].
  { apply (map_id_NoDup (deliveries (db w))); [done| |intros dv Hdv; by apply Hin].
    unfold pending. eapply sublist_NoDup; [|apply sublist_take]. rewrite merge_sort_Permutation. by apply NoDup_select. }
  rewrite (bind_ok _ _ _ _ _ E1). case_bool_decide; [by eexists _, w1|]. by eexists _, _.
Qed.

(** The worker's sweeps: each with its network, time and batch. *)
Definition sweep : Type := (nat -> Net) * datetime * nat.
Definition sweep_once (w : World) (s : sweep) : World := (request (retry_pending settings s.1.1 s.1.2 s.2) w).2.
End retries.

(** however often the retry sweep runs, it contacts people at most as many
    times as the failed deliveries have attempts left below
    [max_delivery_attempts], provided each provider call returns a result. *)
Theorem retries_are_bounded settings sweeps w
    (Hok : sweep_ok settings (db w)) (Hnet : Forall (fun s => net_answers settings s.1.1) sweeps) :
  Z.of_nat (length (contacts (foldl (sweep_once settings) w sweeps))) <=
    Z.of_nat (length (contacts w)) + budget settings (db w).
Proof.
  assert (H : forall w, sweep_ok settings (db w) ->
    Z.of_nat (length (contacts (foldl (sweep_once settings) w sweeps))) <= Z.of_nat (length (contacts w)) + budget settings (db w)); [|by apply H].
  clear w Hok. induction sweeps as [|[[net now] batch] sweeps IH]; intros w Hok; cbn [foldl].
  - enough (0 <= budget settings (db w)) by lia. apply table_sum_nonneg. intros i dv Hi. unfold attempts_left.
    case_decide as Hf; [|done]. pose proof (sw_attempts _ _ Hok _ _ Hi Hf). lia.
  - apply Forall_cons in Hnet as [Hn Hnet].
    destruct (retry_pending_spends settings net now batch w Hok Hn) as (n & w1 & E & Hok1 & Hle).
    unfold sweep_once at 2. unfold request. cbn [fst snd]. rewrite E. cbn [snd].
    etransitivity; [apply (IH Hnet); exact Hok1|]. exact Hle.
Qed.

(** ** Witnesses and examples *)

Definition shop_settings : NotifySettings :=
  mkNotifySettings "noreply@k.dev" "K" None "support@k.dev" "https://k.dev/" "resend" None (Some "key") None None None None (Some "fcm")
    ["order.receipt"] 5 30 500 true true "secret" "https://k.dev/unsubscribe/".
Definition demo_hmac (secret text : string) : string := "0123456789abcdef0123456789abcdef".
Definition answering (o : http_outcome) (n : nat) : Net := mkNet (fun _ => SmtpMissing) (fun _ _ => o).
Definition accepted : http_outcome := Response 200 (Some (JObj [("id", JStr "m1"); ("multicast_id", JInt 1)])) "".
Definition busy : http_outcome := Response 503 None "busy".

Definition digest_template (id : uuid) (c : NotificationChannel.t) (body : string) : Template :=
  mkTemplate id "digest" c "en" "marketing.digest" (Some "News") body None (Some []) true None.
Definition shop (ts : list Template) : NotifyDb :=
  mkNotifyDb (foldr save ∅ ts) ∅ ∅ ∅ ∅ ∅ ∅.
Definition opened (d : NotifyDb) : World := mkWorld (Session d d) [].
Definition digest_to (email : string) (channels : list NotificationChannel.t) : SendRequest :=
  mkSendRequest 7 "digest" [("name", JStr "Ada")] (Some channels) (Some email) None "en" None.
Definition email_shop : NotifyDb := shop [digest_template 1 NotificationChannel.EMAIL "Hello {{ name }}."].
Definition send_digest (o : http_outcome) (now : datetime) (d : NotifyDb) : World :=
  (send shop_settings demo_hmac (answering o) now (digest_to "Ada@x.io" [NotificationChannel.EMAIL]) (opened d)).2.

Example a_digest_is_sent :
  let w := send_digest accepted 0 email_shop in
  map (fun ct => (m_destination (ct_message ct), m_body_text (ct_message ct), m_unsubscribe_url (ct_message ct))) (contacts w) =
    [("Ada@x.io", "Hello Ada.", JStr "https://k.dev/unsubscribe?token=00000000-0000-0000-0000-000000000007.0123456789abcdef0123456789abcdef")] /\
  map dv_status (rows (deliveries (db w))) = [DeliveryStatus.SENT].
Proof. vm_compute. done. Qed.

(** A failed digest, suppressed before its retry. *)
Definition failed_digest : NotifyDb := db (send_digest busy 0 email_shop).
Definition suppressed_digest : NotifyDb :=
  set_suppressions (save (mkSuppression 1 NotificationChannel.EMAIL "ada@x.io" SuppressionReason.COMPLAINT None None 1) ∅) failed_digest.
Definition one_sweep (o : http_outcome) : sweep := (answering o, 60 * SECOND, 100%nat).

(** The retry sweep asks nobody: a suppressed address, or one with sending
    switched off, is contacted again; and the message has lost its unsubscribe
    link. *)
Example retry_contacts_suppressed_address :
  let w := sweep_once shop_settings (opened suppressed_digest) (one_sweep accepted) in
  map (fun ct => (m_destination (ct_message ct), m_unsubscribe_url (ct_message ct))) (contacts w) = [("Ada@x.io", JNull)] /\
  allowed <$> may_send shop_settings (Some 7%N) "marketing.digest" NotificationChannel.EMAIL (Some "Ada@x.io") suppressed_digest = Ok false.
Proof. vm_compute. done. Qed.

Lemma retries_are_bounded_witness :
  Z.of_nat (length (contacts (foldl (sweep_once shop_settings) (opened failed_digest)
    [one_sweep busy; one_sweep busy; one_sweep accepted]))) <=
    Z.of_nat (length (contacts (opened failed_digest))) + budget shop_settings failed_digest /\
  budget shop_settings failed_digest = 4.
Proof.
  split; [|vm_compute; reflexivity]. apply (retries_are_bounded shop_settings _ (opened failed_digest)).
  - assert (Hd : map_Forall (fun i dv => dv_id dv = i /\ dv_attempts dv < 5) (deliveries failed_digest))
      by (apply (bool_decide_unpack _); vm_compute; exact I).
    split; [intros i dv Hi; by apply (Hd i)|intros i dv Hi _; by apply (Hd i)|split; [apply keyed_empty|apply unique_empty]..].
  - do 3 (apply Forall_cons; split; [intros n [] m; cbn; try reflexivity; unfold smtp_provider_send; by destruct (smtp_build _ m)|]). by apply Forall_nil.
Defined.

(** A provider that answers success with a body that is not JSON raises: the
    sweep is rolled back, and every later one sends the same message again. *)
Example unreadable_answer_repeats_the_message :
  let w := foldl (sweep_once shop_settings) (opened failed_digest) (replicate 7 (one_sweep (Response 200 None ""))) in
  length (contacts w) = 7%nat /\ map dv_attempts (rows (deliveries (db w))) = [1].
Proof. vm_compute. done. Qed.

(** A 4xx that is about the sender (an unverified domain, a revoked key) is
    taken for a dead mailbox: the customer's address is suppressed for good. *)
Example sender_error_suppresses_recipient :
  map (fun s => (su_destination s, su_detail s))
    (rows (suppressions (db (send_digest (Response 403 None "domain is not verified") 0 email_shop)))) =
  [("ada@x.io", Some "domain is not verified")].
Proof. vm_compute. done. Qed.

(** A later channel with a missing variable fails the request after the mail
    went out: no row records it. *)
Example sent_mail_leaves_no_row :
  let d := shop [digest_template 1 NotificationChannel.EMAIL "Hello {{ name }}."; digest_template 2 NotificationChannel.PUSH "{{ badge }}"] in
  let '(r, w) := request (send shop_settings demo_hmac (answering accepted) 0
    (digest_to "ada@x.io" [NotificationChannel.EMAIL; NotificationChannel.PUSH])) (opened d) in
  (is_ok r, length (contacts w), rows (deliveries (db w))) = (false, 1%nat, []).
Proof. vm_compute. done. Qed.

(** A push token may have 500 characters, a delivery keeps 320: the provider is
    given a token that does not exist, and the device is never switched off. *)
Fixpoint long_token (n : nat) : string := match n with O => "" | S n => String "a" (long_token n) end.
Example long_token_is_cut :
  let d := set_devices (save (mkDevice 1 7 (long_token 400) "web" true None) ∅)
             (shop [digest_template 1 NotificationChannel.PUSH "Hello {{ name }}."]) in
  let w := (send shop_settings demo_hmac
    (answering (Response 200 (Some (JObj [("failure", JInt 1); ("results", JList [JObj [("error", JStr "NotRegistered")]])])) ""))
    0 (digest_to "ada@x.io" [NotificationChannel.PUSH]) (opened d)).2 in
  (map (fun ct => String.length (m_destination (ct_message ct))) (contacts w), map dt_is_active (rows (devices (db w)))) = ([320%nat], [true]).
Proof. vm_compute. done. Qed.
