(* ===== verification/NotifyEvents.v ===== *)
(** * Notifications: events, inbox and routes (apps/notifications/services/events.py, services/inbox.py, routers/)

    The consumer that turns platform events into messages, the in-app list,
    and the routes over preferences, devices and delivery records. *)

From S2P Require Import Prelude Store Keys Triples Json Pagination Events Templating Channels Notify.

(** ** Events (services/events.py) *)

Definition in_app_and_email : list NotificationChannel.t := [NotificationChannel.IN_APP; NotificationChannel.EMAIL].
Definition ROUTES : list (string * (string * list NotificationChannel.t)) :=
  [("user.registered", ("account.welcome", in_app_and_email));
   ("user.verified", ("account.verified", [NotificationChannel.IN_APP]));
   ("user.password_reset_requested", ("account.password_reset", [NotificationChannel.EMAIL]));
   ("order.paid", ("order.receipt", in_app_and_email));
   ("order.refunded", ("order.refund", in_app_and_email));
   ("payment.failed", ("order.payment_failed", in_app_and_email));
   ("subscription.activated", ("subscription.activated", in_app_and_email));
   ("subscription.cancelled", ("subscription.cancelled", in_app_and_email));
   ("book.published", ("book.published", [NotificationChannel.IN_APP]));
   ("automation.job_failed", ("automation.failed", [NotificationChannel.IN_APP]));
   ("notification.requested", ("", []))].

Record Instruction := mkInstruction {
  in_user_id : uuid;
  in_template_key : string;
  in_channels : list NotificationChannel.t;
  in_variables : list (string * json);
  in_email : option string;
  in_phone : option string;
}.

(** One element of [channels]: a value that cannot be hashed is a TypeError,
    one that is no channel is skipped. *)
Definition channel_of (v : json) : result (option NotificationChannel.t) :=
  match v with
  | JStr s => Ok (parse_enum s)
  | JList _ | JObj _ => Raise TypeErr
  | _ => Ok None
  end.
Fixpoint channels_from (l : list json) : result (list NotificationChannel.t) :=
  match l with
  | [] => Ok []
  | v :: l' => c ← channel_of v; cs ← channels_from l'; Ok (match c with Some c => c :: cs | None => cs end)
  end.
(** Iterating a JSON value: a string gives its characters, a dict its keys. *)
Definition iterate (v : json) : result (list json) :=
  match v with
  | JList l => Ok l
  | JStr s => Ok (map (fun c => JStr (String c "")) (String.list_ascii_of_string s))
  | JObj l => Ok (map (fun kv => JStr kv.1) l)
  | _ => Raise TypeErr
  end.

Definition route_of (event_type : string) : option (string * list NotificationChannel.t) :=
  snd <$> List.find (fun r => String.eqb r.1 event_type) ROUTES.

(** The template and channels of the event, if it warrants a message. *)
Definition target_of (event_type : string) (payload : json) : result (option (string * list NotificationChannel.t)) :=
  if String.eqb event_type "notification.requested" then
    let template_key := jstr (jor (jget "template_key" payload) (JStr "")) in
    if String.eqb template_key "" then Ok None else
    raw ← iterate (jor (jget "channels" payload) (JList [JStr "in_app"]));
    channels ← channels_from raw;
    Ok (Some (template_key, channels))
  else
    match route_of event_type with
    | None => Ok None
    | Some (template_key, channels) => if String.eqb template_key "" then Ok None else Ok (Some (template_key, channels))
    end.

Definition is_private (k : string) : bool := startswith "_" k.

Definition build_instruction (ev : Event) : result (option Instruction) :=
  let payload := if jtruthy (e_payload ev) then e_payload ev else JObj [] in
  user ← dict_get "user_id" payload;
  match uuid_of_string (jstr user) with
  | None => Ok None
  | Some user_id =>
      target ← target_of (e_type ev) payload;
      match target with
      | None => Ok None
      | Some (template_key, channels) =>
          let fields := match payload with JObj l => l | _ => [] end in
          Ok (Some (mkInstruction user_id template_key
                      (match channels with [] => [NotificationChannel.IN_APP] | _ => channels end)
                      (setdefault "user_id" (JStr (string_of_uuid user_id)) (List.filter (fun kv => negb (is_private kv.1)) fields))
                      (text_or_none (jget "email" payload)) (text_or_none (jget "phone" payload))))
      end
  end.

Section handler.
Context (settings : NotifySettings) (hmac : string -> string -> string).

(** One run of the handler: the network, the time, and what another worker
    commits between the look-up and the insert of the ledger row. *)
Record run := mkRun { run_net : nat -> Net; run_now : datetime; run_race : NotifyDb -> NotifyDb }.

Definition ledger (w : World) (id : string) : option string := processed (db w) !! id.
Definition record_processed (ev : Event) : M World unit :=
  w ← get;
  _ ← raise_when (bool_decide (is_Some (ledger w (e_id ev)))) IntegrityErr;
  on_db (modify (fun d => set_processed_ids (<[e_id ev := e_type ev]> (processed d)) d)).

(** The row is added before the savepoint opens, so losing the race breaks the
    transaction; nothing follows in it, and closing the session rolls it back. *)
Definition claim_notice (rn : run) (ev : Event) : M World bool :=
  w ← get;
  if bool_decide (is_Some (ledger w (e_id ev))) then mret false else
  _ ← on_session (modify (fun s => Session (run_race rn (committed s)) (run_race rn (working s))));
  w ← get;
  if bool_decide (is_Some (ledger w (e_id ev))) then _ ← on_session rollback; mret false else
  _ ← record_processed ev;
  mret true.

Definition request_of (i : Instruction) : SendRequest :=
  mkSendRequest (in_user_id i) (in_template_key i) (in_variables i) (Some (in_channels i)) (in_email i) (in_phone i) "en" None.

(** [except Exception]: the transaction is rolled back and the event recorded as processed. *)
Definition send_or_record (rn : run) (ev : Event) (i : Instruction) : M World bool := fun w =>
  match (q ← of_result (parse_send_request (request_of i)); _ ← send settings hmac (run_net rn) (run_now rn) q; mret true) w with
  | (Ok b, w') => (Ok b, w')
  | (Raise _, w') => (_ ← on_session rollback; _ ← record_processed ev; _ ← on_session commit; mret false) w'
  end.

(** Whether a message was sent. *)
Definition handle_notice (rn : run) (ev : Event) : M World bool :=
  claimed ← claim_notice rn ev;
  if negb claimed then mret false else
  instruction ← of_result (build_instruction ev);
  match instruction with
  | None => _ ← on_session commit; mret false
  | Some i => send_or_record rn ev i
  end.

(** A session per event, closed whatever happens; an exception goes to the
    consumer, which leaves the entry unacknowledged. *)
Definition consume_notice (rn : run) (ev : Event) : M World bool := fun w =>
  let '(r, w') := (_ ← on_session rollback; handle_notice rn ev) w in (r, (on_session rollback w').2).

Definition consume_all (evs : list (run * Event)) (w : World) : World :=
  foldl (fun w x => (consume_notice x.1 x.2 w).2) w evs.
End handler.

(** ** The in-app list (services/inbox.py) *)

Definition inbox_order (n : Notification) : cursor_key := (no_created_at n, no_id n).

Definition unread_count (user_id : uuid) (d : NotifyDb) : Z :=
  count (fun n => bool_decide (no_user_id n = user_id) && bool_decide (no_read_at n = None) &&
                  bool_decide (no_archived_at n = None)) (notifications d).

Definition inbox_listed (user_id : uuid) (unread_only include_archived : bool) (n : Notification) : bool :=
  bool_decide (no_user_id n = user_id) && (negb unread_only || bool_decide (no_read_at n = None)) &&
  (include_archived || bool_decide (no_archived_at n = None)).
Definition list_inbox (user_id : uuid) (cursor : option cursor_key) (limit : nat) (unread_only include_archived : bool)
    (d : NotifyDb) : list Notification * option cursor_key * bool :=
  keyset_page inbox_order (select (inbox_listed user_id unread_only include_archived) (notifications d)) cursor limit.

Definition get_notification (id user_id : uuid) : M NotifyDb Notification := fun d =>
  match notifications d !! id with
  | Some n => if bool_decide (no_user_id n = user_id) then (Ok n, d) else (Raise (app_error NotFoundError ""), d)
  | None => (Raise (app_error NotFoundError ""), d)
  end.

Definition read_on (t : datetime) (n : Notification) : Notification :=
  mkNotification (no_id n) (no_user_id n) (no_template_key n) (no_category n) (no_title n) (no_body n) (no_action_url n)
    (no_icon n) (no_data n) (Some t) (no_archived_at n) (no_created_at n).
Definition archived_on (t : datetime) (n : Notification) : Notification :=
  mkNotification (no_id n) (no_user_id n) (no_template_key n) (no_category n) (no_title n) (no_body n) (no_action_url n)
    (no_icon n) (no_data n) (match no_read_at n with None => Some t | r => r end) (Some t) (no_created_at n).

(** An empty list of ids is no condition at all. *)
Definition mark_read (now : datetime) (user_id : uuid) (ids : option (list uuid)) : M NotifyDb Z := fun d =>
  let P n := bool_decide (no_user_id n = user_id) && bool_decide (no_read_at n = None) &&
             match ids with Some (i :: l) => bool_decide (no_id n ∈ i :: l) | _ => true end in
  let '(t, changed) := update_where P (read_on now) (notifications d) in
  (Ok changed, set_notifications t d).

Definition archive (now : datetime) (n : Notification) : M NotifyDb Notification :=
  let n := archived_on now n in
  _ ← modify (fun d => set_notifications (save n (notifications d)) d);
  mret n.

(** The rows beyond the newest [in_app_retention]; their deliveries go with
    them (ON DELETE CASCADE). *)
Definition prune (settings : NotifySettings) (user_id : uuid) : M NotifyDb Z := fun d =>
  let stale := drop (in_app_retention settings)
    (latest_first no_created_at (select (fun n => bool_decide (no_user_id n = user_id)) (notifications d))) in
  let ids := map no_id stale in
  (Ok (Z.of_nat (length stale)),
   set_notifications (filter (fun x => x.1 ∉ ids) (notifications d))
     (set_deliveries (filter (fun x => match dv_notification_id x.2 with Some i => bool_decide (i ∉ ids) | None => true end = true) (deliveries d)) d)).

(** ** Routes (routers/inbox.py, routers/admin.py) *)

Record PreferenceOut := mkPreferenceOut { po_category : string; po_channel : NotificationChannel.t; po_enabled : bool; po_locked : bool }.

Section routes.
Context (settings : NotifySettings) (hmac : string -> string -> string).

(** What is stored, or the default. *)
Definition effective (u : uuid) (category : string) (c : NotificationChannel.t) (d : NotifyDb) : bool :=
  match List.find (fun p => bool_decide ((pf_category p, pf_channel p) = (category, c))) (rev (preferences_for_user u d)) with
  | Some p => pf_enabled p
  | None => true
  end.
Definition get_preferences (u : uuid) (d : NotifyDb) : list PreferenceOut :=
  flat_map (fun category =>
    map (fun c => mkPreferenceOut category c (effective u category c d) (is_transactional settings category)) in_app_and_email)
    (sorted_names KNOWN_CATEGORIES).

Inductive unsubscribe_answer := EssentialCategory | UnsubscribedCategory | UnsubscribedAll (n : Z).

Definition unsubscribe (token : string) (category : option string) : M World unsubscribe_answer :=
  match verify_unsubscribe_token hmac (unsubscribe_secret settings) (strip token) with
  | None => raise (app_error BadRequestError "invalid_unsubscribe_token")
  | Some u =>
      match strip <$> category with
      | Some (String _ _ as c) =>
          if is_transactional settings c then mret EssentialCategory else
          _ ← set_batch settings u [mkPreferenceUpdate c NotificationChannel.EMAIL false];
          mret UnsubscribedCategory
      | _ => n ← disable_all settings u NotificationChannel.EMAIL; mret (UnsubscribedAll n)
      end
  end.

Definition register_device (now : datetime) (user_id : uuid) (token platform : string) : M NotifyDb DeviceToken :=
  let token := strip token in let platform := strip platform in
  _ ← raise_when (negb ((8 <=? String.length token)%nat && at_most 500 token && at_most 20 platform)) (app_error ValidationError "");
  d ← get;
  existing ← of_result (one_or_none (select (fun t => bool_decide (dt_token t = token)) (devices d)));
  let id := match existing with Some t => dt_id t | None => fresh_id (devices d) end in
  let t := mkDevice id user_id token platform true (Some now) in
  _ ← modify (fun d => set_devices (save t (devices d)) d);
  mret t.

Definition deregister_device (id user_id : uuid) : M NotifyDb unit := fun d =>
  match devices d !! id with
  | Some t =>
      if bool_decide (dt_user_id t = user_id)
      then (Ok tt, set_devices (save (mkDevice (dt_id t) (dt_user_id t) (dt_token t) (dt_platform t) false (dt_last_seen_at t)) (devices d)) d)
      else (Raise (app_error NotFoundError ""), d)
  | None => (Raise (app_error NotFoundError ""), d)
  end.

(** POST /notifications/{id}/archive *)
Definition archive_route (now : datetime) (id user_id : uuid) : M NotifyDb Notification :=
  n ← get_notification id user_id; archive now n.

Definition list_deliveries (user_id : option uuid) (status : option DeliveryStatus.t) (c : option NotificationChannel.t)
    (limit offset : Z) (d : NotifyDb) : list Delivery * Z :=
  let matching := select (fun dv => match user_id with Some u => bool_decide (dv_user_id dv = Some u) | None => true end &&
                                    match status with Some s => bool_decide (dv_status dv = s) | None => true end &&
                                    match c with Some c => bool_decide (dv_channel dv = c) | None => true end) (deliveries d) in
  (slice offset limit (latest_first dv_created_at matching), Z.of_nat (length matching)).

(** GET /stats; the rate as numerator and denominator. *)
Record DeliveryStats := mkStats {
  st_total : Z; st_sent : Z; st_delivered : Z; st_failed : Z; st_bounced : Z; st_skipped : Z;
  st_bounce_rate : Z * Z; st_by_channel : list (string * Z);
}.
Definition delivery_stats (now days : Z) (d : NotifyDb) : DeliveryStats :=
  let window dv := now - days * DAY <=? dv_created_at dv in
  let of_status s := count (fun dv => window dv && bool_decide (dv_status dv = s)) (deliveries d) in
  let total := count window (deliveries d) in
  let skipped := of_status DeliveryStatus.SKIPPED in
  let bounced := of_status DeliveryStatus.BOUNCED in
  let attempted := total - skipped in
  mkStats total (of_status DeliveryStatus.SENT) (of_status DeliveryStatus.DELIVERED) (of_status DeliveryStatus.FAILED)
    bounced skipped (if attempted =? 0 then (0, 1) else (bounced, attempted))
    (List.filter (fun x => 0 <? x.2) (map (fun c : NotificationChannel.t =>
       (enum_value c, count (fun dv => window dv && bool_decide (dv_channel dv = c)) (deliveries d))) members)).

(** POST /internal/maintenance/prune *)
Definition prune_deliveries (now days : Z) : M NotifyDb Z := fun d =>
  let old dv := dv_created_at dv <? now - days * DAY in
  (Ok (count old (deliveries d)), set_deliveries (filter (fun x => old x.2 = false) (deliveries d)) d).
End routes.

(** ** The ledger *)

(** Sending leaves the ledger of the working copy alone; what it commits has that ledger. *)
Definition ledger_kept (w w' : World) : Prop :=
  processed (db w') = processed (db w) /\
  (committed (w_session w') = committed (w_session w) \/ processed (committed (w_session w')) = processed (db w)).
#[export] Instance ledger_kept_preorder : PreOrder ledger_kept.
Proof.
  split; [by intros w; split; [|left]|]. intros w1 w2 w3 [E1 C1] [E2 C2]. split; [congruence|].
  destruct C2 as [C2|C2]; [destruct C1 as [C1|C1]; [left; congruence|right; congruence]|right; congruence].
Qed.

Lemma ledger_db f : (forall d, processed (f d) = processed d) -> moves ledger_kept (on_db (modify f)).
Proof. intros Hf w r w' [= <- <-]. split; [apply Hf|by left]. Qed.
Lemma ledger_commit : moves ledger_kept (on_session commit).
Proof. intros w r w' [= <- <-]. split; [done|by right]. Qed.
Lemma ledger_call settings net c p m : moves ledger_kept (call_provider settings net c p m).
Proof. intros w r w' [= <- <-]. split; [done|by left]. Qed.

Ltac ledger_core :=
  first [ apply ledger_db; intros ?; reflexivity | apply ledger_commit | apply ledger_call
        | apply moves_for_acc; [apply _|intros ? ?] | apply moves_for_each; [apply _|intros ?] | progress moves_core ].

Lemma ledger_write dv : moves ledger_kept (write_delivery dv).
Proof. apply ledger_db. intros ?; reflexivity. Qed.
Lemma ledger_attempt settings net now dv r vs : moves ledger_kept (attempt_delivery settings net now dv r vs).
Proof.
  unfold attempt_delivery, set_provider_id, suppress, deactivate_token.
  repeat first [apply ledger_write | ledger_core].
Qed.
Lemma ledger_dispatch settings net now q vs n c : moves ledger_kept (dispatch_channel settings net now q vs n c).
Proof.
  unfold dispatch_channel, deliver, record_delivery.
  repeat first [apply ledger_write | apply ledger_attempt | ledger_core].
Qed.
Lemma ledger_send settings hmac net now q : moves ledger_kept (send settings hmac net now q).
Proof.
  unfold send, in_app_step, notify_in_app, send_channel. repeat first [apply ledger_dispatch | ledger_core].
Qed.

(** A send that returns has committed. *)
Lemma send_commits settings hmac net now q w x w' :
  send settings hmac net now q w = (Ok x, w') -> committed (w_session w') = db w'.
Proof.
  unfold send. intros ([[n skipped] found] & w1 & _ & H)%bind_ok_inv.
  apply bind_ok_inv in H as (out & w2 & _ & H). apply bind_ok_inv in H as ([] & w3 & _ & H).
  by apply bind_ok_inv in H as ([] & w4 & [= <-] & [= _ <-]).
Qed.

Definition has (id : string) (d : NotifyDb) : Prop := is_Some (processed d !! id).
Definition run_keeps (rn : run) : Prop := forall id d, has id d -> has id (run_race rn d).

Section once.
Context (settings : NotifySettings) (hmac : string -> string -> string).

(** Sending an event's message: the event ends up in the committed ledger, and
    nothing leaves it. *)
Lemma send_or_record_ledger rn ev i w r w' : has (e_id ev) (db w) ->
  send_or_record settings hmac rn ev i w = (r, w') ->
  has (e_id ev) (committed (w_session w')) /\
  forall id, has id (committed (w_session w)) -> has id (db w) -> has id (committed (w_session w')).
Proof.
  intros Hin. unfold send_or_record.
  match goal with |- context [match ?m w with _ => _ end] => destruct (m w) as [[b|e] w1] eqn:E end.
  - intros [= <- <-]. apply bind_ok_inv in E as (q & w2 & Hq & E). unfold of_result in Hq. injection Hq as _ <-.
    apply bind_ok_inv in E as (x & w3 & E & [= <- <-]). pose proof (send_commits _ _ _ _ _ _ _ _ E) as Hc.
    destruct (ledger_send _ _ _ _ _ _ _ _ E) as [Hp _]. unfold has. rewrite Hc, Hp. auto.
  - assert (Hk : ledger_kept w w1).
    { apply bind_inv in E as [(q & w2 & Hq & E)|(? & Hq & [= <-])]; unfold of_result in Hq; injection Hq as _ <-; [|done].
      apply bind_inv in E as [(x & w3 & _ & [=])|(? & E & _)]. by eapply ledger_send. }
    assert (Hold : forall id, has id (committed (w_session w)) -> has id (db w) -> has id (committed (w_session w1))).
    { intros id Hc Hd. unfold has in *. destruct Hk as [_ [->| ->]]; done. }
    clear E. erewrite bind_ok by reflexivity. unfold record_processed. intros H.
    apply bind_inv in H as [([] & w3 & H & Hrest)|(e' & H & ->)].
    + apply bind_ok_inv in H as (? & ? & [= <- <-] & H). apply bind_ok_inv in H as ([] & w4 & Hw & [= <-]).
      unfold raise_when in Hw. destruct (bool_decide _); [done|]. injection Hw as <-. injection Hrest as _ <-. cbn. split.
      * unfold has. cbn. rewrite lookup_insert_eq. eauto.
      * intros id Hc Hd. specialize (Hold id Hc Hd). unfold has in *. cbn. destruct (decide (e_id ev = id)) as [<-|Hne];
          [rewrite lookup_insert_eq; eauto|by rewrite lookup_insert_ne].
    + apply bind_inv in H as [(? & ? & [= <- <-] & H)|(? & [=] & _)].
      apply bind_inv in H as [([] & w4 & _ & [=])|(e2 & Hw & _)]. unfold raise_when in Hw.
      case_bool_decide as Hh; [|done]. injection Hw as _ <-. cbn. split; [exact Hh|exact Hold].
Qed.

Lemma add_processed_new ev s c : ~ has (e_id ev) (working s) ->
  record_processed ev (mkWorld s c) = (Ok tt, mkWorld (Session (committed s)
    (set_processed_ids (<[e_id ev := e_type ev]> (processed (working s))) (working s))) c).
Proof.
  intros Hn. unfold record_processed. erewrite bind_ok by reflexivity. cbv beta.
  change (ledger (mkWorld s c) (e_id ev)) with (processed (working s) !! e_id ev). by rewrite bool_decide_eq_false_2.
Qed.

(** The ways a claim_notice on a new session ends. *)
Lemma claim_cases rn ev d c :
  claim_notice rn ev (mkWorld (Session d d) c) =
    if decide (has (e_id ev) d) then (Ok false, mkWorld (Session d d) c)
    else if decide (has (e_id ev) (run_race rn d)) then (Ok false, mkWorld (Session (run_race rn d) (run_race rn d)) c)
    else (Ok true, mkWorld (Session (run_race rn d)
      (set_processed_ids (<[e_id ev := e_type ev]> (processed (run_race rn d))) (run_race rn d))) c).
Proof.
  unfold claim_notice. erewrite bind_ok by reflexivity. cbv beta. change (ledger (mkWorld (Session d d) c) (e_id ev)) with (processed d !! e_id ev).
  destruct (decide (has (e_id ev) d)) as [Hd|Hd]; [by rewrite bool_decide_eq_true_2|]. rewrite bool_decide_eq_false_2 by done.
  set (w1 := mkWorld (Session (run_race rn d) (run_race rn d)) c).
  change ((if bool_decide (is_Some (processed (run_race rn d) !! e_id ev)) then _ ← on_session rollback; mret false
           else _ ← record_processed ev; mret true) w1 =
    (if decide (has (e_id ev) (run_race rn d)) then (Ok false, w1)
     else (Ok true, mkWorld (Session (run_race rn d)
       (set_processed_ids (<[e_id ev := e_type ev]> (processed (run_race rn d))) (run_race rn d))) c))).
  destruct (decide (has (e_id ev) (run_race rn d))) as [Hr|Hr]; [by rewrite bool_decide_eq_true_2|].
  rewrite bool_decide_eq_false_2 by done. by rewrite (bind_ok _ _ _ _ _ (add_processed_new ev (Session (run_race rn d) (run_race rn d)) c Hr)).
Qed.

Lemma handle_ledger rn ev d c r w' : run_keeps rn -> handle_notice settings hmac rn ev (mkWorld (Session d d) c) = (r, w') ->
  (forall id, has id d -> has id (committed (w_session w'))) /\
  (contacts w' = c \/ has (e_id ev) (committed (w_session w'))) /\
  (has (e_id ev) d -> contacts w' = c).
Proof.
  intros Hrn. unfold handle_notice. pose proof (claim_cases rn ev d c) as Hc.
  destruct (decide (has (e_id ev) d)) as [Hd|Hd]; [rewrite (bind_ok _ _ _ _ _ Hc); intros [= <- <-]; cbn; auto|].
  destruct (decide (has (e_id ev) (run_race rn d))) as [Hr|Hr]; rewrite (bind_ok _ _ _ _ _ Hc); cbn [negb].
  { intros [= <- <-]. cbn. auto. }
  set (w1 := mkWorld _ c). assert (H1 : has (e_id ev) (db w1)) by (unfold has; cbn; rewrite lookup_insert_eq; eauto).
  assert (H2 : forall id, has id d -> has id (committed (w_session w1)) /\ has id (db w1)).
  { intros id Hid%Hrn. split; [done|]. unfold has in *. cbn. destruct (decide (e_id ev = id)) as [<-|Hne];
      [rewrite lookup_insert_eq; eauto|by rewrite lookup_insert_ne]. }
  intros H. apply bind_inv in H as [(i & w2 & Hi & H)|(e & Hi & ->)]; unfold of_result in Hi; injection Hi as _ <-.
  - destruct i as [i|].
    + destruct (send_or_record_ledger rn ev i w1 r w' H1 H) as [Ha Hb].
      split; [intros id Hid; by apply Hb; apply H2|]. split; [by right|done].
    + injection H as <- <-. split; [intros id Hid; by apply H2|]. by split; [left|].
  - split; [intros id Hid; by apply H2|]. by split; [left|].
Qed.

(** What one delivery of an event does to the ledger and to the outside. *)
Lemma consume_ledger rn ev w : run_keeps rn ->
  let w' := (consume_notice settings hmac rn ev w).2 in
  (forall id, has id (committed (w_session w)) -> has id (committed (w_session w'))) /\
  (contacts w' = contacts w \/ has (e_id ev) (committed (w_session w'))) /\
  (has (e_id ev) (committed (w_session w)) -> contacts w' = contacts w).
Proof.
  intros Hrn w'. subst w'. unfold consume_notice. erewrite bind_ok by reflexivity.
  destruct (handle_notice settings hmac rn ev _) as [r w1] eqn:H.
  exact (handle_ledger rn ev (committed (w_session w)) (contacts w) r w1 Hrn H).
Qed.

Lemma consume_all_keeps evs w id : Forall (fun x => run_keeps x.1) evs -> has id (committed (w_session w)) ->
  has id (committed (w_session (consume_all settings hmac evs w))).
Proof.
  unfold consume_all. revert w. induction evs as [|x evs IH]; intros w; [done|].
  intros [Hx Hr]%Forall_cons H. apply IH; [done|]. by apply (consume_ledger x.1 x.2 w).
Qed.
End once.

(** C20: of two deliveries of one event, with any other deliveries before and
    between them and other workers racing for the ledger row, at most one
    contacts anybody: if the first one did, the second does not. *)
Theorem event_sends_once settings hmac before first between second w
    (Hid : e_id first.2 = e_id second.2)
    (Hraces : Forall (fun x => run_keeps x.1) (first :: between ++ [second])) :
  contacts (consume_all settings hmac (before ++ [first]) w) = contacts (consume_all settings hmac before w) \/
  contacts (consume_all settings hmac (before ++ first :: between ++ [second]) w) =
    contacts (consume_all settings hmac (before ++ first :: between) w).
Proof.
  apply Forall_cons in Hraces as [Hf [Hb [Hs _]%Forall_cons]%Forall_app].
  assert (Happ : forall a b v, consume_all settings hmac (a ++ b) v = consume_all settings hmac b (consume_all settings hmac a v))
    by (intros; unfold consume_all; by rewrite foldl_app).
  rewrite !(Happ before). generalize (consume_all settings hmac before w). clear w. intros w.
  rewrite app_comm_cons, (Happ (first :: between)).
  destruct (consume_ledger settings hmac first.1 first.2 w Hf) as (_ & [Hsame|Hin] & _); [by left|right].
  apply (consume_ledger settings hmac second.1 second.2); [done|]. rewrite <- Hid.
  apply (consume_all_keeps settings hmac between (consume_notice settings hmac first.1 first.2 w).2 _ Hb Hin).
Qed.

(** ** Unsubscribing *)

Section unsubscribing.
Context (settings : NotifySettings) (hmac : string -> string -> string).

Abbreviation pref_key := (uuid * string * NotificationChannel.t)%type.
Definition at_pref (k : pref_key) (p : Preference) : bool := bool_decide (preference_col p = Some k).
Definition stored (k : pref_key) (d : NotifyDb) : option Preference := by_key at_pref k (preferences d).
Definition prefs_ok (d : NotifyDb) : Prop := keyed (preferences d) /\ unique_on preference_col (preferences d).

Lemma at_pref_spec k p : at_pref k p = true <-> preference_col p = Some k.
Proof. apply bool_decide_eq_true. Qed.

Lemma preference_of_stored u category c d : prefs_ok d -> preference_of u category c d = Ok (stored (u, category, c) d).
Proof. intros [Hk Hu]. apply (one_by_key preference_col at_pref at_pref_spec); done. Qed.

(** The key is switched off. *)
Definition off (k : pref_key) (d : NotifyDb) : Prop := exists p, stored k d = Some p /\ pf_enabled p = false.

(** Writing the row of a key switches it off and touches no other key. *)
Lemma save_off p k d : prefs_ok d -> preference_col p = Some k -> pf_enabled p = false ->
  (stored k d = None /\ preferences d !! row_id p = None \/ exists w, stored k d = Some w /\ row_id w = row_id p) ->
  prefs_ok (set_preferences (save p (preferences d)) d) /\ off k (set_preferences (save p (preferences d)) d) /\
  forall k', k' <> k -> stored k' (set_preferences (save p (preferences d)) d) = stored k' d.
Proof.
  intros [Hk Hu] Hcol Hen Hcase.
  destruct (by_key_save preference_col at_pref at_pref_spec (preferences d) Hk Hu p _ Hcol Hcase) as (K1 & K2 & K3 & K4).
  split_and!; [by split|by exists p|exact K4].
Qed.

Definition switch_off (c : NotificationChannel.t) (category : string) : PreferenceUpdate := mkPreferenceUpdate category c false.
Definition unseen (u : uuid) (c : NotificationChannel.t) (d : NotifyDb) (category : string) : bool :=
  bool_decide (stored (u, category, c) d = None).

(** What stays true of [d'] after some keys of [u] on channel [c] were switched off. *)
Record silenced (u : uuid) (d d' : NotifyDb) : Prop := {
  si_ok : prefs_ok d';
  si_off : forall k, off k d -> off k d';
  si_other : forall k, k.1.1 <> u -> stored k d' = stored k d;
}.

Definition switched_off (p : Preference) : Preference := mkPreference (pf_id p) (pf_user_id p) (pf_category p) (pf_channel p) false.
Lemma set_one u c x acc d : prefs_ok d -> is_transactional settings x = false ->
  set_preference settings u acc (switch_off c x) d =
    match stored (u, x, c) d with
    | Some p => (Ok (acc.1 ++ [switch_off c x], acc.2), set_preferences (save (switched_off p) (preferences d)) d)
    | None => (Ok (acc.1 ++ [switch_off c x], acc.2 ++ [switch_off c x]), d)
    end.
Proof.
  intros Hok Ht. unfold set_preference. cbn [pu_category pu_channel pu_enabled switch_off]. rewrite Ht. cbn [andb].
  erewrite bind_ok by reflexivity. cbv beta. rewrite (preference_of_stored u x c d Hok). by destruct (stored (u, x, c) d).
Qed.

(** The rows that exist are changed, the others wait. *)
Lemma set_stored_spec u c l : forall acc d, prefs_ok d -> Forall (fun x => is_transactional settings x = false) l ->
  exists d', for_acc (set_preference settings u) acc (map (switch_off c) l) d =
      (Ok (acc.1 ++ map (switch_off c) l, acc.2 ++ map (switch_off c) (List.filter (unseen u c d) l)), d') /\
    silenced u d d' /\ (forall k, stored k d = None -> stored k d' = None) /\
    (forall x, x ∈ l -> unseen u c d x = false -> off (u, x, c) d').
Proof.
  induction l as [|x l IH]; intros acc d Hok; cbn [for_acc map List.filter].
  - intros _. exists d. rewrite !app_nil_r, <- surjective_pairing. split; [done|]. split; [by split|]. split; [done|].
    by intros x ?%elem_of_nil.
  - intros [Ht Hl]%Forall_cons. pose proof (set_one u c x acc d Hok Ht) as E1. destruct (stored (u, x, c) d) as [p|] eqn:E.
    + set (d1 := set_preferences (save (switched_off p) (preferences d)) d) in *.
      assert (Hcol : preference_col (switched_off p) = Some (u, x, c)).
      { apply (by_key_Some preference_col at_pref at_pref_spec) in E as [_ Hw]; [exact Hw|apply Hok..]. }
      destruct (save_off (switched_off p) (u, x, c) d Hok Hcol eq_refl) as (Hok1 & Hoff1 & Hsame); [right; by exists p|].
      fold d1 in Hok1, Hoff1, Hsame. rewrite (bind_ok _ _ _ _ _ E1).
      destruct (IH (acc.1 ++ [switch_off c x], acc.2) d1 Hok1 Hl) as (d2 & E2 & [S1 S2 S3] & Hnone & Hin).
      assert (Huns : forall y, unseen u c d1 y = unseen u c d y).
      { intros y. unfold unseen. apply bool_decide_ext. destruct (decide (y = x)) as [->|Hne]; [|by rewrite Hsame by congruence].
        destruct Hoff1 as (q & -> & _). by rewrite E. }
      exists d2. cbn [fst snd] in E2. rewrite E2. unfold unseen at 2. rewrite E. rewrite bool_decide_eq_false_2 by done.
      split; [by rewrite <- app_assoc, (List.filter_ext _ _ Huns)|]. split; [split; [done|..]|split].
      * intros k Hk. apply S2. destruct (decide (k = (u, x, c))) as [->|Hne]; [done|]. unfold off in *. by rewrite Hsame.
      * intros k Hk. rewrite S3 by done. apply Hsame. by intros ->.
      * intros k Hk. apply Hnone. rewrite Hsame; [done|]. intros ->. congruence.
      * intros y [->|Hy]%elem_of_cons Hs; [by apply S2|]. apply Hin; [done|]. by rewrite Huns.
    + rewrite (bind_ok _ _ _ _ _ E1). destruct (IH (acc.1 ++ [switch_off c x], acc.2 ++ [switch_off c x]) d Hok Hl) as (d2 & E2 & Hsil & Hnone & Hin).
      exists d2. cbn [fst snd] in E2. rewrite E2. unfold unseen at 2. rewrite E. rewrite bool_decide_eq_true_2 by done.
      split; [by rewrite <- !app_assoc|]. split; [done|]. split; [done|].
      intros y [->|Hy]%elem_of_cons Hs; [|by apply Hin]. unfold unseen in Hs. by rewrite E, bool_decide_eq_true_2 in Hs.
Qed.

(** The rows that wait are inserted. *)
Lemma add_unseen_spec u c l : forall d, prefs_ok d -> NoDup l -> (forall x, x ∈ l -> stored (u, x, c) d = None) ->
  exists d', for_each (add_preference u) (map (switch_off c) l) d = (Ok tt, d') /\ silenced u d d' /\
    forall x, x ∈ l -> off (u, x, c) d'.
Proof.
  induction l as [|x l IH]; intros d Hok Hnd Hl; cbn [for_each map].
  - exists d. split; [done|]. split; [by split|]. by intros x ?%elem_of_nil.
  - apply NoDup_cons in Hnd as [Hni Hnd]. set (p := mkPreference (fresh_id (preferences d)) u x c false).
    set (d1 := set_preferences (save p (preferences d)) d).
    destruct (save_off p (u, x, c) d Hok eq_refl eq_refl) as (Hok1 & Hoff1 & Hsame).
    { left. split; [apply Hl; left|apply fresh_id_None]. } fold d1 in Hok1, Hoff1, Hsame.
    assert (E1 : add_preference u (switch_off c x) d = (Ok tt, d1)).
    { unfold add_preference. erewrite bind_ok by reflexivity. cbv beta. fold p.
      rewrite (insert_new_free preference_col at_pref at_pref_spec (preferences d) (proj1 Hok) (proj2 Hok) p (u, x, c));
        [reflexivity|done|apply fresh_id_None|apply Hl; left]. }
    rewrite (bind_ok _ _ _ _ _ E1). destruct (IH d1 Hok1 Hnd) as (d2 & E2 & [S1 S2 S3] & Hin).
    { intros y Hy. rewrite Hsame; [apply Hl; by right|]. intros [= ->]. done. }
    exists d2. split; [done|]. split; [split; [done|..]|].
    + intros k Hk. apply S2. destruct (decide (k = (u, x, c))) as [->|Hne]; [done|]. unfold off in *. by rewrite Hsame.
    + intros k Hk. rewrite S3 by done. apply Hsame. by intros ->.
    + intros y [->|Hy]%elem_of_cons; [by apply S2|by apply Hin].
Qed.

Lemma set_batch_spec u c l w : prefs_ok (db w) -> NoDup l -> Forall (fun x => is_transactional settings x = false) l ->
  exists w', set_batch settings u (map (switch_off c) l) w = (Ok (map (switch_off c) l), w') /\ silenced u (db w) (db w') /\
    forall x, x ∈ l -> off (u, x, c) (db w').
Proof.
  intros Hok Hnd Hl. destruct (set_stored_spec u c l ([], []) (db w) Hok Hl) as (d1 & E1 & [S1 S2 S3] & Hnone & Hin1).
  destruct (add_unseen_spec u c (List.filter (unseen u c (db w)) l) d1 S1) as (d2 & E2 & [T1 T2 T3] & Hin2).
  { apply NoDup_ListNoDup, List.NoDup_filter, NoDup_ListNoDup, Hnd. }
  { intros x Hx. apply list_elem_of_In, filter_In in Hx as [_ Hx%bool_decide_eq_true]. by apply Hnone. }
  exists (mkWorld (Session d2 d2) (contacts w)).
  assert (F1 : on_db (for_acc (set_preference settings u) ([], []) (map (switch_off c) l)) w =
    (Ok (map (switch_off c) l, map (switch_off c) (List.filter (unseen u c (db w)) l)),
     mkWorld (Session (committed (w_session w)) d1) (contacts w))).
  { unfold on_db, on_session, in_session, lift. change (working (w_session w)) with (db w). by rewrite E1. }
  unfold set_batch. rewrite (bind_ok _ _ _ _ _ F1). cbn [fst snd].
  assert (F2 : on_db (for_each (add_preference u) (map (switch_off c) (List.filter (unseen u c (db w)) l)))
    (mkWorld (Session (committed (w_session w)) d1) (contacts w)) =
    (Ok tt, mkWorld (Session (committed (w_session w)) d2) (contacts w))).
  { unfold on_db, on_session, in_session, lift. cbn [w_session working]. by rewrite E2. }
  rewrite (bind_ok _ _ _ _ _ F2). split; [reflexivity|]. split; [split; [done|..]|].
  - intros k Hk. by apply T2, S2.
  - intros k Hk. cbn. by rewrite T3, S3.
  - intros x Hx. destruct (unseen u c (db w) x) eqn:Hs; [|by apply T2, Hin1].
    apply Hin2, list_elem_of_In, filter_In. split; [by apply list_elem_of_In|done].
Qed.

Lemma off_refused u category c dest d dec : prefs_ok d -> is_transactional settings category = false ->
  off (u, category, c) d -> may_send settings (Some u) category c dest d = Ok dec -> allowed dec = false.
Proof.
  intros Hok Ht (p & Hp & Hen). unfold may_send. destruct (sending_enabled settings); cbn [negb]; [|by intros [= <-]].
  destruct (match dest with Some _ => _ | None => _ end) as [[s|]|e]; cbn [mbind result_bind]; [by intros [= <-]| |done].
  rewrite Ht, preference_of_stored, Hp by done. cbn [mbind result_bind]. rewrite Hen. by intros [= <-].
Qed.

Lemma blanket_spec u d category : is_transactional settings category = false ->
  category ∈ KNOWN_CATEGORIES \/ (exists i p, preferences d !! i = Some p /\ pf_user_id p = u /\ pf_category p = category) ->
  category ∈ blanket_categories settings u d.
Proof.
  intros Ht H. unfold blanket_categories, sorted_names. rewrite merge_sort_Permutation, elem_of_fromkeys.
  apply list_elem_of_In, filter_In. split; [|by rewrite Ht]. apply list_elem_of_In, elem_of_app.
  destruct H as [H|(i & p & Hp & Hu & Hc)]; [by right|left]. apply list_elem_of_fmap. exists p. split; [done|].
  unfold preferences_for_user. rewrite merge_sort_Permutation. apply elem_of_select. split; [by exists i|by apply bool_decide_eq_true].
Qed.

Lemma blanket_NoDup u d : NoDup (blanket_categories settings u d).
Proof. unfold blanket_categories, sorted_names. rewrite merge_sort_Permutation. apply NoDup_fromkeys. Qed.

Lemma blanket_not_transactional u d : Forall (fun category => is_transactional settings category = false) (blanket_categories settings u d).
Proof.
  apply Forall_forall. intros category. unfold blanket_categories, sorted_names.
  rewrite merge_sort_Permutation, elem_of_fromkeys, list_elem_of_In, filter_In. intros [_ H%negb_true_iff]. done.
Qed.
End unsubscribing.

(** the unsubscribe link.  It works only with the signature of the user it
    names; after it, no email of a category the platform knows or the user has
    a preference for may be sent to that user, transactional ones apart, and
    no other user's preferences have changed. *)
Theorem unsubscribe_silences settings hmac token w n w'
    (Hok : prefs_ok (db w)) (H : unsubscribe settings hmac token None w = (Ok (UnsubscribedAll n), w')) :
  exists u raw, partition_char "." (strip token) = (raw, stake 32 (hmac (unsubscribe_secret settings) raw)) /\
    uuid_of_string raw = Some u /\
    (forall category dest dec, is_transactional settings category = false ->
       category ∈ KNOWN_CATEGORIES \/ (exists i p, preferences (db w) !! i = Some p /\ pf_user_id p = u /\ pf_category p = category) ->
       may_send settings (Some u) category NotificationChannel.EMAIL dest (db w') = Ok dec -> allowed dec = false) /\
    (forall k, k.1.1 <> u -> stored k (db w') = stored k (db w)).
Proof.
  unfold unsubscribe in H. destruct (verify_unsubscribe_token hmac _ (strip token)) as [u|] eqn:Hv; [|done].
  unfold verify_unsubscribe_token in Hv. destruct (partition_char "." (strip token)) as [raw signature].
  destruct (String.eqb signature ""); [done|].
  destruct (String.eqb signature _) eqn:Hs; cbn [negb] in Hv; [|done]. apply String.eqb_eq in Hs. subst signature.
  exists u, raw. split; [done|]. split; [done|].
  cbn [fmap option_fmap option_map] in H. unfold disable_all in H.
  apply bind_ok_inv in H as (m & w1 & H & [= _ <-]). apply bind_ok_inv in H as (? & ? & [= <- <-] & H).
  apply bind_ok_inv in H as (l & w2 & H & [= _ <-]).
  destruct (set_batch_spec settings u NotificationChannel.EMAIL (blanket_categories settings u (db w)) w Hok
    (blanket_NoDup settings u (db w)) (blanket_not_transactional settings u (db w))) as (w3 & E & [Hok' _ Hother] & Hin).
  change (set_batch settings u (map (switch_off NotificationChannel.EMAIL) (blanket_categories settings u (db w))) w = (Ok l, w2)) in H.
  rewrite E in H. injection H as _ <-. split; [|exact Hother].
  intros category dest dec Ht Hc Hm. eapply (off_refused settings u); [exact Hok'|exact Ht| |exact Hm].
  apply Hin. by apply blanket_spec.
Qed.

(** The link a message carries is accepted, and names its addressee. *)
Lemma unsubscribe_token_verified hmac secret u : (u < 2 ^ 128)%N -> stake 32 (hmac secret (string_of_uuid u)) <> "" ->
  verify_unsubscribe_token hmac secret (unsubscribe_token hmac secret u) = Some u.
Proof.
  intros Hu Hh. unfold verify_unsubscribe_token, unsubscribe_token.
  assert (Hp : forall s t, sall (fun c => negb (c =? ".")%char) s = true -> partition_char "." (s +:+ "." +:+ t) = (s, t)).
  { intros s t. induction s as [|c s IH]; intros Hs; [done|]. rewrite append_String. cbn [sall] in Hs.
    apply andb_true_iff in Hs as [Hc Hs]. cbn [partition_char]. apply negb_true_iff in Hc. by rewrite Hc, IH. }
  rewrite Hp by (apply uuid_text_all; [intros c; by apply (is_hex_not (fun c => negb (c =? ".")%char))|done]).
  destruct (String.eqb_spec (stake 32 (hmac secret (string_of_uuid u))) ""); [done|]. rewrite String.eqb_refl. cbn [negb].
  by apply uuid_roundtrip.
Qed.

(** ** Witnesses and examples *)

Definition receipt_shop : NotifyDb :=
  shop [mkTemplate 1 "order.receipt" NotificationChannel.EMAIL "en" "order.receipt" (Some "Order {{ number }}") "Thank you." None (Some ["number"]) true None;
        mkTemplate 2 "order.receipt" NotificationChannel.IN_APP "en" "order.receipt" (Some "Order {{ number }}") "Thank you." None (Some []) true None].
Definition paid_event (id : string) (payload : list (string * json)) : Event :=
  mkEnvelope "order.paid" (JObj (("user_id", JStr (string_of_uuid 7)) :: ("email", JStr "ada@x.io") :: payload)) id "payment" None "" 1.
Definition calm (o : http_outcome) : run := mkRun (answering o) 0 (fun d => d).
Definition consumed (evs : list (run * Event)) : World := consume_all shop_settings demo_hmac evs (opened receipt_shop).

Example receipt_sent :
  let w := consumed [(calm accepted, paid_event "e1" [("number", JStr "KO-1")])] in
  (map (fun ct => (m_destination (ct_message ct), m_subject (ct_message ct))) (contacts w),
   map no_title (rows (notifications (db w))), unread_count 7 (db w)) =
  ([("ada@x.io", Some "Order KO-1")], ["Order KO-1"], 1).
Proof. vm_compute. done. Qed.

Lemma event_sends_once_witness :
  contacts (consumed ([] ++ [(calm accepted, paid_event "e1" [("number", JStr "KO-1")])])) = contacts (consumed []) \/
  contacts (consumed ([] ++ (calm accepted, paid_event "e1" [("number", JStr "KO-1")]) :: [(calm busy, paid_event "e2" [])] ++
    [(calm accepted, paid_event "e1" [("number", JStr "KO-1")])])) =
  contacts (consumed ([] ++ (calm accepted, paid_event "e1" [("number", JStr "KO-1")]) :: [(calm busy, paid_event "e2" [])])).
Proof.
  apply (event_sends_once shop_settings demo_hmac [] (calm accepted, paid_event "e1" [("number", JStr "KO-1")])
    [(calm busy, paid_event "e2" [])] (calm accepted, paid_event "e1" [("number", JStr "KO-1")])).
  - reflexivity.
  - do 3 (apply Forall_cons; split; [intros id d Hd; exact Hd|]). by apply Forall_nil.
Defined.

(** A phone number over 32 characters does not fit the request: the event is
    recorded as processed and its receipt is never sent. *)
Example long_phone_loses_receipt :
  let w := consumed [(calm accepted, paid_event "e1" [("number", JStr "KO-1"); ("phone", JStr "ext. 12, ask for Ada, +44 20 7946 0000")]);
                     (calm accepted, paid_event "e1" [("number", JStr "KO-1")])] in
  (contacts w, map_to_list (processed (db w))) = ([], [("e1", "order.paid")]).
Proof. vm_compute. done. Qed.

Definition unsubscribed : World :=
  (unsubscribe shop_settings demo_hmac (unsubscribe_token demo_hmac "secret" 7) None (opened email_shop)).2.

Lemma unsubscribe_silences_witness :
  exists u raw, partition_char "." (strip (unsubscribe_token demo_hmac "secret" 7)) =
      (raw, stake 32 (demo_hmac (unsubscribe_secret shop_settings) raw)) /\
    uuid_of_string raw = Some u /\
    (forall category dest dec, is_transactional shop_settings category = false ->
       category ∈ KNOWN_CATEGORIES \/
         (exists i p, preferences (db (opened email_shop)) !! i = Some p /\ pf_user_id p = u /\ pf_category p = category) ->
       may_send shop_settings (Some u) category NotificationChannel.EMAIL dest (db unsubscribed) = Ok dec -> allowed dec = false) /\
    (forall k, k.1.1 <> u -> stored k (db unsubscribed) = stored k (db (opened email_shop))).
Proof.
  apply (unsubscribe_silences shop_settings demo_hmac (unsubscribe_token demo_hmac "secret" 7) (opened email_shop) 10 unsubscribed).
  - split; [apply keyed_empty|apply unique_empty].
  - vm_compute. reflexivity.
Defined.

(** A category that is in neither list stays on after a blanket unsubscribe. *)
Example new_category_still_sent :
  allowed <$> may_send shop_settings (Some 7%N) "marketing.partners" NotificationChannel.EMAIL (Some "ada@x.io") (db unsubscribed) = Ok true.
Proof. vm_compute. done. Qed.

(** An empty selection marks the whole inbox read. *)
Example empty_selection_reads_everything :
  let w := consumed [(calm accepted, paid_event "e1" [("number", JStr "1")]); (calm accepted, paid_event "e2" [("number", JStr "2")])] in
  let '(r, d) := mark_read 5 7 (Some []) (db w) in (unread_count 7 (db w), r, unread_count 7 d) = (2, Ok 2, 0).
Proof. vm_compute. done. Qed.

(** Two updates of one scope in one request: the second does not see the row
    the first one adds, and the flush fails. *)
Example duplicate_update_fails :
  let pu enabled := mkPreferenceUpdate "general" NotificationChannel.EMAIL enabled in
  (request (set_batch shop_settings 7 [pu true; pu false]) (opened email_shop)).1 = Raise IntegrityErr.
Proof. vm_compute. done. Qed.
