(* ===== verification/BookCatalogue.v ===== *)
(** * The book catalogue (apps/books/services/catalogue.py, routers/catalogue.py, routers/admin.py)

    Reading the catalogue under filters, by keyset pages and as facets, and
    every write to a book.  [race] is what other requests commit between a
    look-up and the flush that follows it.  A write that raises is undone with
    its transaction.  Titles compare by [collate], the database's collation. *)

From S2P Require Import Prelude Store Triples Json Pagination Entitlements Taxonomy.

#[export] Program Instance BookStatus_values : StrEnum BookStatus.t := {
  members := [BookStatus.DRAFT; BookStatus.PROCESSING; BookStatus.PENDING_REVIEW; BookStatus.PUBLISHED;
              BookStatus.UNPUBLISHED; BookStatus.REJECTED; BookStatus.ARCHIVED];
  enum_value s := match s with
                  | BookStatus.DRAFT => "draft" | BookStatus.PROCESSING => "processing"
                  | BookStatus.PENDING_REVIEW => "pending_review" | BookStatus.PUBLISHED => "published"
                  | BookStatus.UNPUBLISHED => "unpublished" | BookStatus.REJECTED => "rejected"
                  | BookStatus.ARCHIVED => "archived" end;
}.
Solve All Obligations with solve_str_enum.

Module ContributorRole.
Inductive t := AUTHOR | CO_AUTHOR | EDITOR | TRANSLATOR | ILLUSTRATOR | NARRATOR.
End ContributorRole.

(** ** Rows (apps/books/models.py) *)

(** The columns an editor writes.  [f_formats] and [f_ai_tags] are JSON and can hold null. *)
Record BookFields := mkFields {
  f_title : string;
  f_slug : string;
  f_subtitle : option string;
  f_description : option string;
  f_isbn10 : option string;
  f_isbn13 : option string;
  f_language : string;
  f_page_count : option Z;
  f_publication_date : option Z;
  f_price_minor : Z;
  f_discount_price_minor : option Z;
  f_currency : string;
  f_formats : option (list string);
  f_pdf_key : option string;
  f_epub_key : option string;
  f_mobi_key : option string;
  f_sample_key : option string;
  f_cover_key : option string;
  f_thumbnail_key : option string;
  f_meta_title : option string;
  f_meta_description : option string;
  f_og_image_key : option string;
  f_ai_summary : option string;
  f_ai_tags : option (list string);
  f_publisher_id : option uuid;
}.

Record CatalogBook := mkCatalogBook {
  cb_id : uuid;
  cb_fields : BookFields;
  cb_status : BookStatus.t;
  cb_rating_average : Z;
  cb_rating_count : Z;
  cb_view_count : Z;
  cb_download_count : Z;
  cb_published_at : option datetime;
  cb_version : Z;
  cb_created_by : option uuid;
  cb_updated_by : option uuid;
  cb_created_at : datetime;
  cb_deleted_at : option datetime;
}.

Record BookVersion := mkVersion {
  bv_id : uuid;
  bv_book_id : uuid;
  bv_version : Z;
  bv_pdf_key : option string;
  bv_epub_key : option string;
  bv_mobi_key : option string;
  bv_cover_key : option string;
  bv_changelog : option string;
  bv_file_size_bytes : option Z;
  bv_checksum : option string;
  bv_created_by : option uuid;
}.

#[export] Instance CatalogBook_row : Row CatalogBook := cb_id.
#[export] Instance BookVersion_row : Row BookVersion := bv_id.

(** The unique columns. *)
Definition slug_of_book (b : CatalogBook) : option string := Some (f_slug (cb_fields b)).
Definition isbn10_of (b : CatalogBook) : option string := f_isbn10 (cb_fields b).
Definition isbn13_of (b : CatalogBook) : option string := f_isbn13 (cb_fields b).
Definition version_key (v : BookVersion) : option (uuid * Z) := Some (bv_book_id v, bv_version v).

(** [contributors]: (book, author) to role and order; [book_categories]: (book,
    category) to [is_primary]; [announced]: the events published. *)
Record CatalogueDb := mkCatalogueDb {
  cat_books : table CatalogBook;
  contributors : gmap (uuid * uuid) (ContributorRole.t * Z);
  book_categories : gmap (uuid * uuid) bool;
  versions : table BookVersion;
  taxa : TaxDb;
  announced : list (string * uuid * BookStatus.t);
}.
Definition set_books_table x d := mkCatalogueDb x (contributors d) (book_categories d) (versions d) (taxa d) (announced d).
Definition set_contributors x d := mkCatalogueDb (cat_books d) x (book_categories d) (versions d) (taxa d) (announced d).
Definition set_book_categories x d := mkCatalogueDb (cat_books d) (contributors d) x (versions d) (taxa d) (announced d).
Definition set_versions x d := mkCatalogueDb (cat_books d) (contributors d) (book_categories d) x (taxa d) (announced d).
Definition set_announced x d := mkCatalogueDb (cat_books d) (contributors d) (book_categories d) (versions d) (taxa d) x.

Definition book_price (b : CatalogBook) : Z :=
  match f_discount_price_minor (cb_fields b) with
  | Some p => if p <? f_price_minor (cb_fields b) then p else f_price_minor (cb_fields b)
  | None => f_price_minor (cb_fields b)
  end.
Definition book_is_free (b : CatalogBook) : bool := book_price b =? 0.

(** The formats with a stored file; an audiobook is taken at its word. *)
Definition readable_formats (f : BookFields) : list string :=
  (if truthy (f_pdf_key f) then ["pdf"] else []) ++ (if truthy (f_epub_key f) then ["epub"] else []) ++
  (if truthy (f_mobi_key f) then ["mobi"] else []) ++
  (if bool_decide ("audiobook" ∈ default [] (f_formats f)) then ["audiobook"] else []).

(** ** Reading *)

Definition visible (include_unpublished : bool) (b : CatalogBook) : bool :=
  bool_decide (cb_deleted_at b = None) && (include_unpublished || bool_decide (cb_status b = BookStatus.PUBLISHED)).

Definition fetch_book (P : CatalogBook -> bool) (include_unpublished : bool) : M CatalogueDb CatalogBook :=
  d ← get;
  found ← of_result (one_or_none (select (fun b => P b && visible include_unpublished b) (cat_books d)));
  match found with Some b => mret b | None => raise (app_error NotFoundError "") end.
Definition get_book_by_id (id : uuid) (include_unpublished : bool) : M CatalogueDb CatalogBook :=
  fetch_book (fun b => bool_decide (cb_id b = id)) include_unpublished.
Definition get_by_slug (slug : string) (include_unpublished : bool) : M CatalogueDb CatalogBook :=
  fetch_book (fun b => String.eqb (f_slug (cb_fields b)) slug) include_unpublished.
Definition batch_books (ids : list uuid) (include_unpublished : bool) (d : CatalogueDb) : list CatalogBook :=
  select (fun b => bool_decide (cb_id b ∈ ids) && visible include_unpublished b) (cat_books d).
(** POST /internal/books/batch: the books and the ids not found. *)
Definition internal_batch (ids : list uuid) (include_unpublished : bool) (d : CatalogueDb) : list CatalogBook * list uuid :=
  let found := batch_books ids include_unpublished d in
  (found, List.filter (fun id => negb (bool_decide (id ∈ map cb_id found))) ids).

Record BookFilters := mkFilters {
  fl_q : option string;
  fl_category : option string;
  fl_author : option string;
  fl_publisher : option string;
  fl_language : option string;
  fl_book_format : option string;
  fl_min_price_minor : option Z;
  fl_max_price_minor : option Z;
  fl_free_only : bool;
  fl_status : option string;
}.
Definition no_filters : BookFilters := mkFilters None None None None None None None None false None.

(** FORMAT_COLUMNS *)
Definition format_column (format : string) : option (BookFields -> option string) :=
  if String.eqb format "pdf" then Some f_pdf_key else if String.eqb format "epub" then Some f_epub_key
  else if String.eqb format "mobi" then Some f_mobi_key else None.

(** A live row with the slug. *)
Definition live_slug {V} `{Entity V} (slug : string) (v : V) : bool :=
  String.eqb (slug_of v) slug && bool_decide (deleted_of v = None).
Definition linked_to {V A} `{Entity V} (links : gmap (uuid * uuid) A) (t : table V) (slug : string) (b : CatalogBook) : bool :=
  existsb (fun l => bool_decide (l.1.1 = cb_id b) &&
                    match t !! l.1.2 with Some v => live_slug slug v | None => false end) (map_to_list links).

(** [if filters.x: stmt = stmt.where(...)] *)
Definition when_set (o : option string) (P : string -> bool) : bool :=
  match o with Some s => String.eqb s "" || P s | None => true end.

Definition search_fuel (term : string) (columns : list string) : nat :=
  (foldr max 0 (map String.length columns) + String.length (search_pattern term))%nat.

(** [base_query]: the predicate, or why there is none. *)
Definition base_query (fl : BookFilters) (public : bool) (d : CatalogueDb) : result (CatalogBook -> bool) :=
  status ← (if public then Ok (Some BookStatus.PUBLISHED) else
            if truthy (fl_status fl) then Some <$> opt_result ValueErr (fl_status fl ≫= parse_enum) else Ok None);
  has_file ← (if truthy (fl_book_format fl) then opt_result (app_error BadRequestError "") (fl_book_format fl ≫= format_column)
              else Ok (fun _ => Some ""));
  Ok (fun b =>
    let f := cb_fields b in
    bool_decide (cb_deleted_at b = None) &&
    match status with Some s => bool_decide (cb_status b = s) | None => true end &&
    when_set (fl_q fl) (fun q =>
      let columns := f_title f :: match f_subtitle f with Some s => [s] | None => [] end in
      apply_search (search_fuel q columns) q columns) &&
    when_set (fl_category fl) (fun slug => linked_to (book_categories d) (categories (taxa d)) slug b) &&
    when_set (fl_author fl) (fun slug => linked_to (contributors d) (authors (taxa d)) slug b) &&
    when_set (fl_publisher fl) (fun slug =>
      match f_publisher_id f ≫= fun p => publishers (taxa d) !! p with Some p => live_slug slug p | None => false end) &&
    when_set (fl_language fl) (fun l => String.eqb (f_language f) l) &&
    bool_decide (is_Some (has_file f)) &&
    (negb (fl_free_only fl) || (f_price_minor f =? 0) || bool_decide (f_discount_price_minor f = Some 0)) &&
    match fl_min_price_minor fl with Some p => p <=? f_price_minor f | None => true end &&
    match fl_max_price_minor fl with Some p => f_price_minor f <=? p | None => true end).

(** *** Keyset pages *)

Section listing.
Context (collate : string -> Z).

(** SORTABLE; a missing [published_at] has no position. *)
Definition book_sort_column (column : string) : option (CatalogBook -> option Z) :=
  if String.eqb column "published_at" then Some cb_published_at
  else if String.eqb column "created_at" then Some (fun b => Some (cb_created_at b))
  else if String.eqb column "price_minor" then Some (fun b => Some (f_price_minor (cb_fields b)))
  else if String.eqb column "rating_average" then Some (fun b => Some (cb_rating_average b))
  else if String.eqb column "view_count" then Some (fun b => Some (cb_view_count b))
  else if String.eqb column "title" then Some (fun b => Some (collate (f_title (cb_fields b))))
  else None.

(** A cursor, and the ordering it was issued for. *)
Record BookCursor := mkCursor { cu_sort_by : string; cu_sort_order : string; cu_key : cursor_key }.

Definition book_key (column : CatalogBook -> option Z) (b : CatalogBook) : cursor_key := (default 0 (column b), cb_id b).

(** ORDER BY col ASC, id ASC, after the cursor. *)
Definition keyset_page_asc {A} (key : A -> cursor_key) (rows : list A) (c : option cursor_key) (limit : nat)
    : list A * option cursor_key * bool :=
  let after x := match c with Some c => before (key x) c | None => true end in
  let in_order x y := Is_true (before (key y) (key x) || bool_decide (key x = key y)) in
  let fetched := take (limit + 1) (merge_sort in_order (List.filter after rows)) in
  let page := take limit fetched in
  (page, if (limit <? length fetched)%nat then key <$> last page else None, (limit <? length fetched)%nat).

Definition decode_book_cursor (sort_by sort_order : string) (c : BookCursor) : result cursor_key :=
  if negb (String.eqb (cu_sort_by c) sort_by && String.eqb (cu_sort_order c) sort_order)
  then Raise (app_error BadRequestError "") else Ok (cu_key c).

Definition list_books (fl : BookFilters) (sort_by sort_order : string) (cursor : option BookCursor) (limit : nat)
    (public : bool) (d : CatalogueDb) : result (list CatalogBook * option BookCursor * bool) :=
  column ← opt_result (app_error BadRequestError "") (book_sort_column sort_by);
  descending ← (if String.eqb sort_order "desc" then Ok true else if String.eqb sort_order "asc" then Ok false
                else Raise (app_error BadRequestError ""));
  keep ← base_query fl public d;
  key ← (match cursor with Some c => k ← decode_book_cursor sort_by sort_order c; Ok (Some k) | None => Ok None end);
  let matching := select (fun b => keep b && bool_decide (is_Some (column b))) (cat_books d) in
  let page : list CatalogBook * option cursor_key * bool :=
    if (descending : bool) then keyset_page (book_key column) matching key limit
    else keyset_page_asc (book_key column) matching key limit in
  Ok (page.1.1, mkCursor sort_by sort_order <$> page.1.2, page.2).

(** A client that follows [next_cursor] until there is none. *)
Fixpoint follow (fuel : nat) (fl : BookFilters) (sort_by sort_order : string) (limit : nat) (public : bool)
    (cursor : option BookCursor) (d : CatalogueDb) : result (list CatalogBook) :=
  match fuel with
  | O => Ok []
  | S fuel =>
      page ← list_books fl sort_by sort_order cursor limit public d;
      match page.1.2 with
      | Some c => rest ← follow fuel fl sort_by sort_order limit public (Some c) d; Ok (page.1.1 ++ rest)
      | None => Ok page.1.1
      end
  end.
End listing.

(** *** Facets *)

(** PRICE_BUCKETS: value, lowest and highest price. *)
Definition PRICE_BUCKETS : list (string * Z * option Z) :=
  [("free", 0, Some 0); ("under_200", 1, Some 20000); ("200_500", 20001, Some 50000); ("over_500", 50001, None)].
Definition in_bucket (low : Z) (high : option Z) (price : Z) : bool :=
  (low <=? price) && match high with Some h => price <=? h | None => true end.

Record CatalogueFacets := mkFacets {
  fa_categories : list (string * string * Z);
  fa_languages : list (string * Z);
  fa_price_ranges : list (string * Z);
}.

(** ORDER BY count DESC, name *)
Definition by_count {A} (count : A -> Z) (name : A -> string) (l : list A) : list A :=
  merge_sort (fun a b => Is_true ((count b <? count a) || ((count a =? count b) && String.leb (name a) (name b)))) l.

Definition facets (fl : BookFilters) (public : bool) (d : CatalogueDb) : result CatalogueFacets :=
  keep ← base_query fl public d;
  let books := select keep (cat_books d) in
  let in_category c := Z.of_nat (length (List.filter (fun b => bool_decide (is_Some (book_categories d !! (cb_id b, ct_id c)))) books)) in
  let of_language l := Z.of_nat (length (List.filter (fun b => String.eqb (f_language (cb_fields b)) l) books)) in
  Ok (mkFacets
    (by_count (fun x => x.2) (fun x => x.1.2)
      (List.filter (fun x => 0 <? x.2)
        (map (fun c => (ct_slug c, ct_name c, in_category c)) (select (fun c => bool_decide (ct_deleted_at c = None)) (categories (taxa d))))))
    (by_count snd fst (map (fun l => (l, of_language l)) (fromkeys (map (fun b => f_language (cb_fields b)) books))))
    (map (fun r => (r.1.1, Z.of_nat (length (List.filter (fun b => in_bucket r.1.2 r.2 (f_price_minor (cb_fields b))) books)))) PRICE_BUCKETS)).

(** *** Related books *)

Definition better_rated (a b : CatalogBook) : bool :=
  (cb_rating_average b <? cb_rating_average a) ||
  ((cb_rating_average a =? cb_rating_average b) &&
   ((cb_rating_count b <? cb_rating_count a) || ((cb_rating_count a =? cb_rating_count b) && (cb_id b <=? cb_id a)%N))).
Definition better_average (a b : CatalogBook) : bool :=
  (cb_rating_average b <? cb_rating_average a) ||
  ((cb_rating_average a =? cb_rating_average b) && (cb_id b <=? cb_id a)%N).
Definition categories_of (id : uuid) (d : CatalogueDb) : list uuid :=
  map (fun l => l.1.2) (List.filter (fun l => bool_decide (l.1.1 = id)) (map_to_list (book_categories d))).
Definition related (b : CatalogBook) (limit : nat) (d : CatalogueDb) : list CatalogBook :=
  let other x := negb (bool_decide (cb_id x = cb_id b)) && visible false x in
  let shares x := existsb (fun c => bool_decide (c ∈ categories_of (cb_id b) d)) (categories_of (cb_id x) d) in
  match take limit (merge_sort (fun x y => Is_true (better_rated x y)) (select (fun x => other x && shares x) (cat_books d))) with
  | [] => take limit (merge_sort (fun x y => Is_true (better_average x y)) (select other (cat_books d)))
  | rows => rows
  end.

(** ** Writing

    An update writes the columns it assigns onto the row as it then is. *)

Record BookContributorIn := mkContributorIn { ci_author_id : uuid; ci_role : ContributorRole.t; ci_display_order : Z }.

(** A PATCH body that passed its schema: for each field, left out, null, or a value. *)
Record BookUpdate := mkBookUpdate {
  up_title : option (option string);
  up_slug : option (option string);
  up_subtitle : option (option string);
  up_description : option (option string);
  up_isbn10 : option (option string);
  up_isbn13 : option (option string);
  up_language : option (option string);
  up_page_count : option (option Z);
  up_publication_date : option (option Z);
  up_price_minor : option (option Z);
  up_discount_price_minor : option (option Z);
  up_currency : option (option string);
  up_formats : option (option (list string));
  up_pdf_key : option (option string);
  up_epub_key : option (option string);
  up_mobi_key : option (option string);
  up_sample_key : option (option string);
  up_cover_key : option (option string);
  up_thumbnail_key : option (option string);
  up_meta_title : option (option string);
  up_meta_description : option (option string);
  up_og_image_key : option (option string);
  up_ai_summary : option (option string);
  up_ai_tags : option (option (list string));
  up_publisher_id : option (option uuid);
  up_author_ids : option (list BookContributorIn);   (* left out and null read the same *)
  up_category_ids : option (list uuid);
}.

(** [setattr] for every field that was sent; [None] when a NOT NULL column became null. *)
Definition patch_fields (u : BookUpdate) (f : BookFields) : option BookFields :=
  title ← required (f_title f) (up_title u);
  slug ← required (f_slug f) (up_slug u);
  language ← required (f_language f) (up_language u);
  price ← required (f_price_minor f) (up_price_minor u);
  currency ← required (f_currency f) (up_currency u);
  Some (mkFields title slug (nullable (f_subtitle f) (up_subtitle u)) (nullable (f_description f) (up_description u))
    (nullable (f_isbn10 f) (up_isbn10 u)) (nullable (f_isbn13 f) (up_isbn13 u)) language
    (nullable (f_page_count f) (up_page_count u)) (nullable (f_publication_date f) (up_publication_date u))
    price (nullable (f_discount_price_minor f) (up_discount_price_minor u)) currency
    (nullable (f_formats f) (up_formats u)) (nullable (f_pdf_key f) (up_pdf_key u)) (nullable (f_epub_key f) (up_epub_key u))
    (nullable (f_mobi_key f) (up_mobi_key u)) (nullable (f_sample_key f) (up_sample_key u))
    (nullable (f_cover_key f) (up_cover_key u)) (nullable (f_thumbnail_key f) (up_thumbnail_key u))
    (nullable (f_meta_title f) (up_meta_title u)) (nullable (f_meta_description f) (up_meta_description u))
    (nullable (f_og_image_key f) (up_og_image_key u)) (nullable (f_ai_summary f) (up_ai_summary u))
    (nullable (f_ai_tags f) (up_ai_tags u)) (nullable (f_publisher_id f) (up_publisher_id u))).

(** ISBNs lose their dashes and spaces when a book is created, not when it is updated. *)
Definition digits_only (s : string) : option string :=
  let stripped := sfilter (fun c => negb ((c =? "-")%char || (c =? " ")%char)) s in
  let n := String.length stripped in
  let init := stake (n - 1) stripped in
  let check := String.substring (n - 1) 1 stripped in
  if negb (String.eqb init "") && sall is_digit init && (sall is_digit check || String.eqb (upper check) "X")
  then Some (upper stripped) else None.
Definition clean_isbn (width : nat) (o : option string) : option (option string) :=
  match o with
  | None => Some None
  | Some s => if (String.length (strip s) =? width)%nat then Some <$> digits_only (strip s) else None
  end.

(** SLUG_PATTERN: runs of lower-case letters and digits joined by single dashes. *)
Definition is_slug_char (c : ascii) : bool := is_digit c || ((97 <=? N_of_ascii c) && (N_of_ascii c <=? 122))%N.
Definition slug_ok (s : string) : bool :=
  forallb (fun part => negb (String.eqb part "") && sall is_slug_char part) (split_char "-" s).

Definition within (n : nat) (s : string) : bool := (String.length s <=? n)%nat.
Definition opt_within (n : nat) (o : option string) : bool := from_option (within n) true o.
Definition at_least (n : Z) (o : option Z) : bool := from_option (fun x => n <=? x) true o.

(** The part of [BookCreate] that constrains prices, identity and names. *)
Definition book_create_ok (f : BookFields) : bool :=
  negb (String.eqb (f_title f) "") && within 500 (f_title f) && opt_within 500 (f_subtitle f) &&
  opt_within 50000 (f_description f) && (2 <=? String.length (f_language f))%nat && within 10 (f_language f) &&
  from_option (fun n => (1 <=? n) && (n <=? 100000)) true (f_page_count f) &&
  (0 <=? f_price_minor f) && at_least 0 (f_discount_price_minor f) &&
  from_option (fun p => p <=? f_price_minor f) true (f_discount_price_minor f) &&
  negb (String.eqb (f_slug f) "") && within 255 (f_slug f) && slug_ok (f_slug f).

(** The database's own checks on a book row. *)
Definition row_checks (d : CatalogueDb) (b : CatalogBook) : bool :=
  (0 <=? f_price_minor (cb_fields b)) &&
  from_option (fun p => p <=? f_price_minor (cb_fields b)) true (f_discount_price_minor (cb_fields b)) &&
  (0 <=? cb_rating_count b) &&
  match f_publisher_id (cb_fields b) with Some p => bool_decide (is_Some (publishers (taxa d) !! p)) | None => true end.

(** Flushing a book, new or changed, under every constraint. *)
Definition put_book (b : CatalogBook) (d : CatalogueDb) : result CatalogueDb :=
  if negb (row_checks d b) then Raise IntegrityErr else
  _ ← insert_unique isbn10_of b (cat_books d);
  _ ← insert_unique isbn13_of b (cat_books d);
  t ← insert_unique slug_of_book b (cat_books d);
  Ok (set_books_table t d).
Definition flush_book (b : CatalogBook) : M CatalogueDb unit := fun d =>
  match put_book b d with Ok d' => (Ok tt, d') | Raise e => (Raise e, d) end.

(** [except IntegrityError]: whatever failed is reported as a taken slug. *)
Definition flush_or_conflict (b : CatalogBook) : M CatalogueDb unit := fun d =>
  match flush_book b d with
  | (Raise IntegrityErr, d') => (Raise (app_error ConflictError ""), d')
  | r => r
  end.

Definition assert_book_slug_free (slug : string) : M CatalogueDb unit :=
  d ← get;
  raise_when (negb (bool_decide (select (fun b => String.eqb (f_slug (cb_fields b)) slug) (cat_books d) = [])))
    (app_error ConflictError "").

(** Every author must exist; the first mention of one counts. *)
Fixpoint first_mentions (seen : list uuid) (l : list BookContributorIn) : list BookContributorIn :=
  match l with
  | [] => []
  | c :: l' => if bool_decide (ci_author_id c ∈ seen) then first_mentions seen l'
               else c :: first_mentions (ci_author_id c :: seen) l'
  end.
Definition live_in {V} `{Entity V} (t : table V) (id : uuid) : bool :=
  match t !! id with Some v => bool_decide (deleted_of v = None) | None => false end.
Definition unlink {A} (book : uuid) (links : gmap (uuid * uuid) A) : gmap (uuid * uuid) A := filter (fun l => l.1.1 <> book) links.

Definition replace_contributors (book : uuid) (l : list BookContributorIn) : M CatalogueDb unit :=
  _ ← modify (fun d => set_contributors (unlink book (contributors d)) d);
  d ← get;
  _ ← raise_when (existsb (fun c => negb (live_in (authors (taxa d)) (ci_author_id c))) l) (app_error NotFoundError "");
  modify (fun d => set_contributors
    (foldl (fun m c => <[(book, ci_author_id c) := (ci_role c, ci_display_order c)]> m) (contributors d) (first_mentions [] l)) d).

(** The first category is the primary one. *)
Definition replace_categories (book : uuid) (ids : list uuid) : M CatalogueDb unit :=
  _ ← modify (fun d => set_book_categories (unlink book (book_categories d)) d);
  d ← get;
  _ ← raise_when (existsb (fun c => negb (live_in (categories (taxa d)) c)) ids) (app_error NotFoundError "");
  modify (fun d => set_book_categories
    (foldl (fun m c => <[(book, c) := bool_decide (head ids = Some c)]> m) (book_categories d) (fromkeys ids)) d).

Definition set_cb_fields f actor b :=
  mkCatalogBook (cb_id b) f (cb_status b) (cb_rating_average b) (cb_rating_count b) (cb_view_count b) (cb_download_count b)
    (cb_published_at b) (cb_version b) (cb_created_by b) actor (cb_created_at b) (cb_deleted_at b).
Definition set_cb_status s published_at deleted_at actor b :=
  mkCatalogBook (cb_id b) (cb_fields b) s (cb_rating_average b) (cb_rating_count b) (cb_view_count b) (cb_download_count b)
    published_at (cb_version b) (cb_created_by b) actor (cb_created_at b) deleted_at.
Definition set_cb_version v f actor b :=
  mkCatalogBook (cb_id b) f (cb_status b) (cb_rating_average b) (cb_rating_count b) (cb_view_count b) (cb_download_count b)
    (cb_published_at b) v (cb_created_by b) actor (cb_created_at b) (cb_deleted_at b).
Definition downloaded (b : CatalogBook) : CatalogBook :=
  mkCatalogBook (cb_id b) (cb_fields b) (cb_status b) (cb_rating_average b) (cb_rating_count b) (cb_view_count b)
    (cb_download_count b + 1) (cb_published_at b) (cb_version b) (cb_created_by b) (cb_updated_by b) (cb_created_at b) (cb_deleted_at b).

Section writes.
Context (race : CatalogueDb -> CatalogueDb) (now : datetime).

Definition create (id : uuid) (f : BookFields) (author_ids : list BookContributorIn) (category_ids : list uuid)
    (actor_id : option uuid) : M CatalogueDb CatalogBook :=
  isbn10 ← of_result (opt_result (app_error ValidationError "") (clean_isbn 10 (f_isbn10 f)));
  isbn13 ← of_result (opt_result (app_error ValidationError "") (clean_isbn 13 (f_isbn13 f)));
  _ ← raise_when (negb (book_create_ok f)) (app_error ValidationError "");
  let f := mkFields (f_title f) (f_slug f) (f_subtitle f) (f_description f) isbn10 isbn13 (f_language f) (f_page_count f)
    (f_publication_date f) (f_price_minor f) (f_discount_price_minor f) (f_currency f) (f_formats f) (f_pdf_key f)
    (f_epub_key f) (f_mobi_key f) (f_sample_key f) (f_cover_key f) (f_thumbnail_key f) (f_meta_title f)
    (f_meta_description f) (f_og_image_key f) (f_ai_summary f) (f_ai_tags f) (f_publisher_id f) in
  _ ← assert_book_slug_free (f_slug f);
  _ ← modify race;
  d ← get;
  _ ← raise_when (bool_decide (is_Some (cat_books d !! id))) (app_error ConflictError "");
  _ ← flush_or_conflict (mkCatalogBook id f BookStatus.DRAFT 0 0 0 0 None 1 actor_id actor_id now None);
  _ ← replace_contributors id author_ids;
  _ ← replace_categories id category_ids;
  get_book_by_id id true.

Definition update (b : CatalogBook) (u : BookUpdate) (actor_id : option uuid) : M CatalogueDb CatalogBook :=
  _ ← (match up_slug u with
       | Some (Some slug) => if String.eqb slug (f_slug (cb_fields b)) then mret tt else assert_book_slug_free slug
       | _ => mret tt
       end);
  _ ← (match up_author_ids u with Some l => replace_contributors (cb_id b) l | None => mret tt end);
  _ ← (match up_category_ids u with Some l => replace_categories (cb_id b) l | None => mret tt end);
  _ ← modify race;
  d ← get;
  row ← of_result (opt_result StaleDataErr (cat_books d !! cb_id b));
  f ← of_result (opt_result (app_error ConflictError "") (patch_fields u (cb_fields row)));
  _ ← flush_or_conflict (set_cb_fields f actor_id row);
  get_book_by_id (cb_id b) true.

Definition publish_book (b : CatalogBook) (actor_id : option uuid) (published_at : option datetime) : M CatalogueDb CatalogBook :=
  _ ← raise_when (bool_decide (readable_formats (cb_fields b) = [])) (app_error ConflictError "");
  let at_ := match published_at with Some t => t | None => default now (cb_published_at b) end in
  let b := set_cb_status BookStatus.PUBLISHED (Some at_) (cb_deleted_at b) actor_id b in
  _ ← flush_book b;
  mret b.

Definition unpublish_book (b : CatalogBook) (actor_id : option uuid) : M CatalogueDb CatalogBook :=
  let b := set_cb_status BookStatus.UNPUBLISHED (cb_published_at b) (cb_deleted_at b) actor_id b in
  _ ← flush_book b;
  mret b.

Definition soft_delete (b : CatalogBook) (actor_id : option uuid) : M CatalogueDb CatalogBook :=
  let b := set_cb_status BookStatus.ARCHIVED (cb_published_at b) (Some now) actor_id b in
  _ ← flush_book b;
  mret b.

Record BookVersionCreate := mkVersionCreate {
  vc_pdf_key : option string;
  vc_epub_key : option string;
  vc_mobi_key : option string;
  vc_cover_key : option string;
  vc_changelog : option string;
  vc_file_size_bytes : option Z;
  vc_checksum : option string;
}.
(** A key that was sent replaces the book's. *)
Definition promote (p : BookVersionCreate) (f : BookFields) : BookFields :=
  let keep new old := match new with Some k => Some k | None => old end in
  mkFields (f_title f) (f_slug f) (f_subtitle f) (f_description f) (f_isbn10 f) (f_isbn13 f) (f_language f) (f_page_count f)
    (f_publication_date f) (f_price_minor f) (f_discount_price_minor f) (f_currency f) (f_formats f)
    (keep (vc_pdf_key p) (f_pdf_key f)) (keep (vc_epub_key p) (f_epub_key f)) (keep (vc_mobi_key p) (f_mobi_key f))
    (f_sample_key f) (keep (vc_cover_key p) (f_cover_key f)) (f_thumbnail_key f) (f_meta_title f) (f_meta_description f)
    (f_og_image_key f) (f_ai_summary f) (f_ai_tags f) (f_publisher_id f).
Definition add_version (id : uuid) (b : CatalogBook) (p : BookVersionCreate) (actor_id : option uuid) : M CatalogueDb BookVersion :=
  let next := cb_version b + 1 in
  let v := mkVersion id (cb_id b) next (vc_pdf_key p) (vc_epub_key p) (vc_mobi_key p) (vc_cover_key p) (vc_changelog p)
             (vc_file_size_bytes p) (vc_checksum p) actor_id in
  _ ← modify race;
  d ← get;
  t ← of_result (insert_new version_key v (versions d));
  _ ← modify (set_versions t);
  row ← of_result (opt_result StaleDataErr (cat_books d !! cb_id b));
  _ ← flush_book (set_cb_version next (promote p (cb_fields row)) actor_id row);
  mret v.

Definition increment_download_count (id : uuid) : M CatalogueDb unit :=
  modify (fun d => set_books_table (update_where (fun b => bool_decide (cb_id b = id)) downloaded (cat_books d)).1 d).

(** ** Routes (routers/admin.py) *)

Definition publish_event (name : string) (b : CatalogBook) : M CatalogueDb unit :=
  modify (fun d => set_announced (announced d ++ [(name, cb_id b, cb_status b)]) d).

Inductive book_request :=
  | CreateBook (id : uuid) (f : BookFields) (authors : list BookContributorIn) (categories : list uuid) (actor : option uuid)
  | UpdateBook (id : uuid) (u : BookUpdate) (actor : option uuid)
  | PublishBook (id : uuid) (actor : option uuid)
  | UnpublishBook (id : uuid) (actor : option uuid)
  | DeleteBook (id : uuid) (actor : option uuid)
  | AddVersion (version_id id : uuid) (p : BookVersionCreate) (actor : option uuid)
  | CountDownload (id : uuid).

Definition book_route (r : book_request) : M CatalogueDb unit :=
  match r with
  | CreateBook id f authors categories actor =>
      b ← create id f authors categories actor; publish_event "book.created" b
  | UpdateBook id u actor =>
      b ← get_book_by_id id true; b ← update b u actor; publish_event "book.updated" b
  | PublishBook id actor =>
      b ← get_book_by_id id true; b ← publish_book b actor None; publish_event "book.published" b
  | UnpublishBook id actor =>
      b ← get_book_by_id id true; b ← unpublish_book b actor; publish_event "book.unpublished" b
  | DeleteBook id actor =>
      b ← get_book_by_id id true; b ← soft_delete b actor; publish_event "book.deleted" b
  | AddVersion version_id id p actor =>
      b ← get_book_by_id id true; _ ← add_version version_id b p actor; mret tt
  | CountDownload id => b ← get_book_by_id id false; increment_download_count (cb_id b)
  end.

(** A request that raises is rolled back; what others committed meanwhile stays. *)
Definition serve_book (r : book_request) : M CatalogueDb unit := fun d =>
  match book_route r d with
  | (Ok a, d') => (Ok a, d')
  | (Raise e, _) => (Raise e, race d)
  end.
End writes.

(** The routes of other services: the same writes, made by no one in particular.
    The time an automation asks a book to be published at is not passed on. *)
Inductive internal_request :=
  | InternalPublish (id : uuid) (published_at : option datetime)
  | InternalUpdate (id : uuid) (u : BookUpdate)
  | InternalCreate (id : uuid) (f : BookFields) (authors : list BookContributorIn) (categories : list uuid).
Definition internal_route (r : internal_request) : book_request :=
  match r with
  | InternalPublish id _ => PublishBook id None
  | InternalUpdate id u => UpdateBook id u None
  | InternalCreate id f authors categories => CreateBook id f authors categories None
  end.

(** *** Reading routes (routers/catalogue.py, routers/admin.py) *)

Definition browse (collate : string -> Z) (fl : BookFilters) (sort_by sort_order : string) (cursor : option BookCursor)
    (limit : nat) (include_facets : bool) (d : CatalogueDb) :=
  page ← list_books collate fl sort_by sort_order cursor limit true d;
  if include_facets then f ← facets fl true d; Ok (page, Some f) else Ok (page, None).
Definition with_status (s : option string) (fl : BookFilters) : BookFilters :=
  mkFilters (fl_q fl) (fl_category fl) (fl_author fl) (fl_publisher fl) (fl_language fl) (fl_book_format fl)
    (fl_min_price_minor fl) (fl_max_price_minor fl) (fl_free_only fl) s.
Definition admin_list_books (collate : string -> Z) (fl : BookFilters) (status : option string) (sort_by sort_order : string)
    (cursor : option BookCursor) (limit : nat) (d : CatalogueDb) :=
  list_books collate (with_status status fl) sort_by sort_order cursor limit false d.
Definition internal_list_books (collate : string -> Z) (fl : BookFilters) (cursor : option BookCursor) (limit : nat)
    (d : CatalogueDb) : result (list CatalogBook * option BookCursor) :=
  page ← list_books collate fl "published_at" "desc" cursor limit true d; Ok page.1.
(** Only who may write books sees an unpublished one. *)
Definition book_page (may_write : bool) (slug : string) : M CatalogueDb CatalogBook := get_by_slug slug may_write.
Definition related_books (slug : string) (limit : nat) : M CatalogueDb (list CatalogBook) :=
  b ← get_by_slug slug false;
  d ← get;
  mret (related b limit d).

(** Requests one after the other, each with what others commit during it. *)
Definition serve_books (l : list ((CatalogueDb -> CatalogueDb) * datetime * book_request)) (d : CatalogueDb) : CatalogueDb :=
  foldl (fun d x => (serve_book x.1.1 x.1.2 x.2 d).2) d l.

(** ** The state stays sound *)

Definition row_ok (b : CatalogBook) : Prop :=
  0 <= f_price_minor (cb_fields b) /\
  (forall p, f_discount_price_minor (cb_fields b) = Some p -> p <= f_price_minor (cb_fields b)) /\
  (cb_status b = BookStatus.PUBLISHED -> is_Some (cb_published_at b)) /\
  1 <= cb_version b.

(** The edition [n] of a book is recorded. *)
Definition edition_recorded (t : table BookVersion) (book : uuid) (n : Z) : Prop :=
  exists i v, t !! i = Some v /\ bv_book_id v = book /\ bv_version v = n.

Record books_sound (t : table CatalogBook) : Prop := {
  bs_keyed : keyed t;
  bs_slug : unique_on slug_of_book t;
  bs_isbn10 : unique_on isbn10_of t;
  bs_isbn13 : unique_on isbn13_of t;
  bs_rows : map_Forall (fun _ b => row_ok b) t;
}.
(** A book at edition [n] has exactly the rows of editions 2 to [n], one each. *)
Record sound (d : CatalogueDb) : Prop := {
  snd_books : books_sound (cat_books d);
  snd_keyed : keyed (versions d);
  snd_once : unique_on version_key (versions d);
  snd_owned : map_Forall (fun _ v => is_Some (cat_books d !! bv_book_id v)) (versions d);
  snd_editions : forall id b n, cat_books d !! id = Some b ->
    (1 < n <= cb_version b <-> edition_recorded (versions d) id n);
}.

(** No book disappears and no edition is taken back. *)
Definition no_edition_lost (d d' : CatalogueDb) : Prop :=
  forall id b, cat_books d !! id = Some b -> exists b', cat_books d' !! id = Some b' /\ cb_version b <= cb_version b'.
Definition evolves (d d' : CatalogueDb) : Prop := sound d -> sound d' /\ no_edition_lost d d'.
(** What other requests commit meanwhile. *)
Definition well_behaved (race : CatalogueDb -> CatalogueDb) : Prop := forall d, evolves d (race d).

#[local] Instance evolves_preorder : PreOrder evolves.
Proof.
  split.
  - intros d Hs. split; [done|]. intros id b Hb. eauto with lia.
  - intros d1 d2 d3 H12 H23 Hs. destruct (H12 Hs) as [Hs2 H2]. destruct (H23 Hs2) as [Hs3 H3].
    split; [done|]. intros id b (b2 & Hb2 & ?)%H2. destruct (H3 _ _ Hb2) as (b3 & Hb3 & ?). exists b3. split; [done|lia].
Qed.

Lemma save_no_edition_lost b d d' :
  cat_books d' = save b (cat_books d) ->
  (forall b0, cat_books d !! cb_id b = Some b0 -> cb_version b0 <= cb_version b) -> no_edition_lost d d'.
Proof.
  intros E Hb id b0 H0. rewrite E. setoid_rewrite lookup_save. change (row_id b) with (cb_id b).
  case_decide; [subst; eauto|eauto with lia].
Qed.

Lemma put_book_ok b d d' :
  put_book b d = Ok d' -> d' = set_books_table (save b (cat_books d)) d /\ row_checks d b = true /\
    insert_unique isbn10_of b (cat_books d) = Ok (save b (cat_books d)) /\
    insert_unique isbn13_of b (cat_books d) = Ok (save b (cat_books d)) /\
    insert_unique slug_of_book b (cat_books d) = Ok (save b (cat_books d)).
Proof.
  unfold put_book. destruct (row_checks d b); [|done]. cbn [negb]. intros H.
  apply result_bind_ok in H as (t1 & H1 & H). apply result_bind_ok in H as (t2 & H2 & H).
  apply result_bind_ok in H as (t3 & H3 & H).
  pose proof (insert_unique_ok _ _ _ _ H1). pose proof (insert_unique_ok _ _ _ _ H2).
  pose proof (insert_unique_ok _ _ _ _ H3). by simplify_eq.
Qed.

Lemma flush_book_ok b d a d' : flush_book b d = (Ok a, d') -> put_book b d = Ok d'.
Proof. unfold flush_book. destruct (put_book b d); by intros [= <- <-]. Qed.

Lemma flush_or_conflict_ok b d a d' : flush_or_conflict b d = (Ok a, d') -> put_book b d = Ok d'.
Proof.
  unfold flush_or_conflict. destruct (flush_book b d) as [[u|e] d1] eqn:E; [intros [= _ <-]; by eapply flush_book_ok|].
  by destruct e.
Qed.

(** A flushed row is one of a sound table. *)
Lemma put_book_books b d d' :
  books_sound (cat_books d) -> put_book b d = Ok d' ->
  (cb_status b = BookStatus.PUBLISHED -> is_Some (cb_published_at b)) -> 1 <= cb_version b ->
  books_sound (save b (cat_books d)).
Proof.
  intros [Hk Hs H10 H13 Hr] (_ & Hc & E10 & E13 & Es)%put_book_ok Hp Hv.
  split; [by apply keyed_save| | | |].
  - by destruct (insert_unique_preserves _ _ _ _ Hk Hs Es).
  - by destruct (insert_unique_preserves _ _ _ _ Hk H10 E10).
  - by destruct (insert_unique_preserves _ _ _ _ Hk H13 E13).
  - apply map_Forall_insert_2; [|done]. unfold row_checks in Hc. bool_to_prop.
    split; [lia|]. split; [|by split]. intros p Hp'. rewrite Hp' in *. cbn in *. lia.
Qed.

(** Rewriting a row without touching its edition. *)
Lemma put_book_sound b b0 d d' :
  sound d -> cat_books d !! cb_id b = Some b0 -> cb_version b = cb_version b0 ->
  (cb_status b = BookStatus.PUBLISHED -> is_Some (cb_published_at b)) ->
  put_book b d = Ok d' -> sound d' /\ no_edition_lost d d'.
Proof.
  intros [Hb Hk Ho Hw He] H0 Hv Hp Hput. pose proof (put_book_ok _ _ _ Hput) as (-> & _).
  split; [|by eapply save_no_edition_lost; [done|]; intros b1 H1; simplify_eq; lia].
  split; [|done|done| |].
  - eapply put_book_books; [done|done|done|]. rewrite Hv. by apply (bs_rows _ Hb) in H0 as (_ & _ & _ & ?).
  - intros k v Hkv. cbn. rewrite lookup_save. case_decide; [done|]. by apply (Hw k v).
  - intros id b' n. cbn. rewrite lookup_save. case_decide as E; [intros [= <-]|apply He].
    change (row_id b) with (cb_id b) in E. subst id. rewrite Hv. by apply He.
Qed.

(** A new book: nothing of it is recorded yet. *)
Lemma put_new_book_sound b d d' :
  sound d -> cat_books d !! cb_id b = None -> cb_version b = 1 ->
  (cb_status b = BookStatus.PUBLISHED -> is_Some (cb_published_at b)) -> put_book b d = Ok d' -> sound d' /\ no_edition_lost d d'.
Proof.
  intros [Hb Hk Ho Hw He] H0 Hv Hp Hput. pose proof (put_book_ok _ _ _ Hput) as (-> & _).
  split; [|by eapply save_no_edition_lost; [done|]; intros b1 H1; simplify_eq].
  split; [|done|done| |].
  - eapply put_book_books; [done|done|done|lia].
  - intros k v Hkv. cbn. rewrite lookup_save. case_decide; [done|]. by apply (Hw k v).
  - intros id b' n. cbn. rewrite lookup_save. case_decide as E; [intros [= <-]|apply He].
    change (row_id b) with (cb_id b) in E. subst id. rewrite Hv. split; [lia|].
    intros (i & v & Hi & E & _). destruct (Hw i v Hi) as [x Hx]. rewrite E in Hx. congruence.
Qed.

Definition edition_tables (d : CatalogueDb) : table CatalogBook * table BookVersion := (cat_books d, versions d).

Lemma sound_tables d d' : edition_tables d' = edition_tables d -> sound d -> sound d'.
Proof. intros [= Hb Hv] []. split; by rewrite ?Hb, ?Hv. Qed.

Lemma keeps_replace_contributors b l : keeps edition_tables (replace_contributors b l).
Proof. unfold replace_contributors. repeat keeps_core. Qed.
Lemma keeps_replace_categories b l : keeps edition_tables (replace_categories b l).
Proof. unfold replace_categories. repeat keeps_core. Qed.
Lemma keeps_publish_event n b : keeps edition_tables (publish_event n b).
Proof. unfold publish_event. repeat keeps_core. Qed.

Lemma get_by_id_ok id inc d b d' :
  keyed (cat_books d) -> get_book_by_id id inc d = (Ok b, d') -> d' = d /\ cb_id b = id /\ cat_books d !! id = Some b.
Proof.
  intros Hk. unfold get_book_by_id, fetch_book. erewrite bind_ok by reflexivity. cbv beta. intros H.
  run_step H. unfold of_result in Hrun. injection Hrun as Hone <-.
  destruct a as [x|]; [|done]. injection H as <- <-.
  apply one_or_none_Some in Hone. assert (Hin : x ∈ [x]) by constructor. rewrite <- Hone in Hin.
  apply elem_of_select in Hin as [(k & Hx) Hc]. bool_to_prop.
  pose proof (keyed_lookup _ _ _ Hk Hx) as E. change (row_id x) with (cb_id x) in E. by subst.
Qed.

Lemma flush_book_cases b d r d' : flush_book b d = (r, d') -> put_book b d = Ok d' \/ (exists e, r = Raise e /\ d' = d).
Proof. unfold flush_book. destruct (put_book b d); intros [= <- <-]; eauto. Qed.
Lemma flush_or_conflict_cases b d r d' :
  flush_or_conflict b d = (r, d') -> put_book b d = Ok d' \/ (exists e, r = Raise e /\ d' = d).
Proof. unfold flush_or_conflict, flush_book. destruct (put_book b d) as [|[]]; intros [= <- <-]; eauto. Qed.

(** The unique key refuses an edition another request recorded first. *)
Lemma edition_is_next v row d t :
  sound d -> insert_new version_key v (versions d) = Ok t ->
  cat_books d !! bv_book_id v = Some row -> 1 < bv_version v <= cb_version row + 1 -> bv_version v = cb_version row + 1.
Proof.
  intros [_ Hk _ _ He] (Hfresh & Hins & _)%insert_new_ok Hrow Hn.
  destruct (decide (bv_version v = cb_version row + 1)) as [|Hne]; [done|exfalso].
  destruct (proj1 (He _ _ (bv_version v) Hrow)) as (i & w & Hi & E1 & E2); [lia|].
  unfold insert_unique in Hins. destruct (conflicts _ _ _) eqn:Hc; [done|]. rewrite conflicts_false in Hc by done.
  assert (i = row_id v) as ->; [|congruence].
  eapply (Hc _ i w); [reflexivity|done|]. unfold version_key. by rewrite E1, E2.
Qed.

Lemma edition_recorded_save v t k n : t !! row_id v = None ->
  edition_recorded (save v t) k n <-> (bv_book_id v = k /\ bv_version v = n) \/ edition_recorded t k n.
Proof.
  intros Hfresh. split.
  - intros (i & w & Hi & E1 & E2). rewrite lookup_save in Hi. case_decide; [left; by simplify_eq|right; by exists i, w].
  - intros [[<- <-]|(i & w & Hi & E)]; [exists (row_id v), v; by rewrite lookup_save_same|].
    exists i, w. rewrite lookup_save. case_decide; [congruence|done].
Qed.

Lemma new_edition_sound v row b t d d' :
  sound d -> insert_new version_key v (versions d) = Ok t -> cat_books d !! bv_book_id v = Some row ->
  1 < bv_version v <= cb_version row + 1 -> cb_id b = bv_book_id v -> cb_version b = bv_version v ->
  (cb_status b = BookStatus.PUBLISHED -> is_Some (cb_published_at b)) ->
  put_book b (set_versions t d) = Ok d' -> sound d' /\ no_edition_lost d d'.
Proof.
  intros Hs Hnew Hrow Hn Hid Hver Hp Hput. pose proof (edition_is_next _ _ _ _ Hs Hnew Hrow Hn) as Hnext.
  destruct Hs as [Hb Hk Ho Hw He]. pose proof (put_book_ok _ _ _ Hput) as (-> & _).
  apply insert_new_ok in Hnew as (Hfresh & Hins & ->).
  destruct (insert_unique_preserves _ _ _ _ Hk Ho Hins) as [Hk' Ho'].
  split; [|eapply save_no_edition_lost; [done|]; rewrite Hid; intros b1 H1; simplify_eq; lia].
  split; cbn; [exact (put_book_books b (set_versions _ d) _ Hb Hput Hp ltac:(lia))|done|done| |].
  - intros k x. rewrite !lookup_save. change (row_id b) with (cb_id b). rewrite Hid.
    case_decide; [intros [= <-]|intros Hx; apply Hw in Hx]; case_decide; eauto; congruence.
  - intros k x n. rewrite lookup_save. change (row_id b) with (cb_id b). rewrite Hid, edition_recorded_save by done.
    destruct (decide (bv_book_id v = k)) as [<-|Hne].
    + intros [= <-]. rewrite <- (He _ _ n Hrow). lia.
    + intros Hx. rewrite (He k x n Hx). naive_solver.
Qed.

Section soundness.
Context (race : CatalogueDb -> CatalogueDb) (now : datetime) (Hrace : well_behaved race).

Lemma keeps_sound {A} (m : M CatalogueDb A) : keeps edition_tables m -> moves evolves m.
Proof.
  intros H d r d' Hr Hs. apply H in Hr. split; [by eapply sound_tables|].
  injection Hr as Hb _. intros id b. rewrite Hb. eauto with lia.
Qed.

Lemma race_sound : moves evolves (modify race).
Proof. apply moves_modify, Hrace. Qed.

Lemma keeps_assert_free slug : keeps edition_tables (assert_book_slug_free slug).
Proof. unfold assert_book_slug_free. repeat keeps_core. Qed.

Lemma keeps_get_book id inc : keeps edition_tables (get_book_by_id id inc).
Proof. unfold get_book_by_id, fetch_book. repeat keeps_core. Qed.

(** What computations outside the catalogue and its own writes are made of. *)
Ltac moves_core :=
  match goal with
  | |- moves _ (_ ≫= _) => apply (moves_bind evolves); [|intros ?]
  | |- moves _ (mret _) => apply (moves_ret evolves)
  | |- moves _ (of_result _) => apply (moves_of_result evolves)
  | |- moves _ (raise_when _ _) => apply (moves_raise_when evolves)
  | |- moves _ (modify race) => apply race_sound
  | |- moves _ (assert_book_slug_free _) => apply keeps_sound, keeps_assert_free
  | |- moves _ (replace_contributors _ _) => apply keeps_sound, keeps_replace_contributors
  | |- moves _ (replace_categories _ _) => apply keeps_sound, keeps_replace_categories
  | |- moves _ (get_book_by_id _ _) => apply keeps_sound, keeps_get_book
  | |- moves _ (publish_event _ _) => apply keeps_sound, keeps_publish_event
  | |- moves _ (match ?x with _ => _ end) => destruct x
  end.

Lemma moves_from {A B} (m : M CatalogueDb A) (k : A -> M CatalogueDb B) d r d' :
  (m ≫= k) d = (r, d') -> (forall r0 d1, m d = (r0, d1) -> evolves d d1) -> (forall a, moves evolves (k a)) -> evolves d d'.
Proof.
  intros H Hm Hk. apply bind_inv in H as [(a & d1 & H1 & H2)|(e & H1 & ->)]; [|by eapply Hm].
  transitivity d1; [by eapply Hm|by eapply Hk].
Qed.

Lemma create_sound id f authors categories actor : moves evolves (create race now id f authors categories actor).
Proof.
  unfold create. do 3 (apply (moves_bind evolves); [repeat moves_core|intros ?]). cbv zeta. do 2 (apply (moves_bind evolves); [repeat moves_core|intros _]).
  apply moves_get_bind. intros d r d'. unfold raise_when. case_bool_decide as Hfree.
  { erewrite bind_raise by reflexivity. by intros [= <- <-]. }
  erewrite bind_ok by reflexivity. apply eq_None_not_Some in Hfree. intros H.
  eapply moves_from; [exact H| |intros ?; cbv beta; repeat moves_core].
  intros r0 d1 [H1|(_ & _ & ->)]%flush_or_conflict_cases Hs; [by refine (put_new_book_sound _ _ _ Hs _ _ _ H1)|by apply evolves_preorder].
Qed.

(** Assigning columns other than the edition to the row as it is. *)
Lemma flush_same_edition (flush : CatalogBook -> M CatalogueDb unit) b b0 d r d' :
  (forall b d r d', flush b d = (r, d') -> put_book b d = Ok d' \/ (exists e, r = Raise e /\ d' = d)) ->
  (sound d -> cat_books d !! cb_id b = Some b0) -> cb_version b = cb_version b0 ->
  (sound d -> cb_status b = BookStatus.PUBLISHED -> is_Some (cb_published_at b)) -> flush b d = (r, d') -> evolves d d'.
Proof. intros Hf H0 Hv Hp [H|(e & _ & ->)]%Hf Hs; [by refine (put_book_sound _ _ _ _ Hs (H0 Hs) Hv (Hp Hs) H)|by apply evolves_preorder]. Qed.

Lemma sound_lookup d k b : sound d -> cat_books d !! k = Some b -> cat_books d !! cb_id b = Some b.
Proof. intros [Hb _ _ _ _] H. by rewrite <- (keyed_lookup _ _ _ (bs_keyed _ Hb) H) in H. Qed.

Lemma published_has_date d k b : cat_books d !! k = Some b -> sound d -> cb_status b = BookStatus.PUBLISHED -> is_Some (cb_published_at b).
Proof. intros H [Hb _ _ _ _]. by apply (bs_rows _ Hb) in H as (_ & _ & ? & _). Qed.

Lemma update_sound b u actor : moves evolves (update race b u actor).
Proof.
  unfold update. do 4 (apply (moves_bind evolves); [repeat moves_core|intros _]).
  apply moves_get_bind. intros d r d'.
  destruct (cat_books d !! cb_id b) as [row|] eqn:Hrow; cbn [opt_result of_result];
    [erewrite bind_ok by reflexivity; cbv beta|by intros [= <- <-]].
  destruct (patch_fields u (cb_fields row)) as [f|] eqn:Hf; cbn [opt_result of_result];
    [erewrite bind_ok by reflexivity; cbv beta|by intros [= <- <-]].
  intros H. eapply moves_from; [exact H| |intros ?; cbv beta; repeat moves_core].
  intros r0 d1. apply (flush_same_edition _ _ row _ _ _ flush_or_conflict_cases);
    [intros Hs; exact (sound_lookup _ _ _ Hs Hrow)|done|exact (published_has_date _ _ _ Hrow)].
Qed.

(** A change of status, on the row as read. *)
Lemma status_sound s at_ deleted actor b d r d' :
  (s = BookStatus.PUBLISHED -> is_Some at_) -> cat_books d !! cb_id b = Some b ->
  flush_book (set_cb_status s at_ deleted actor b) d = (r, d') -> evolves d d'.
Proof. intros Hp Hb. by apply (flush_same_edition _ _ b _ _ _ flush_book_cases). Qed.

Lemma publish_sound b actor at_ d r d' : cat_books d !! cb_id b = Some b -> publish_book now b actor at_ d = (r, d') -> evolves d d'.
Proof.
  intros Hb. unfold publish_book, raise_when. case_bool_decide; [by intros [= <- <-]|]. erewrite bind_ok by reflexivity. cbv zeta.
  intros H1. eapply moves_from; [exact H1| |intros ?; cbv beta; repeat moves_core].
  intros r0 d1. apply status_sound; [|done]. destruct at_; eauto.
Qed.
Lemma unpublish_sound b actor d r d' : cat_books d !! cb_id b = Some b -> unpublish_book b actor d = (r, d') -> evolves d d'.
Proof.
  intros Hb H. eapply moves_from; [exact H| |intros ?; cbv beta; repeat moves_core]. intros r0 d1. by apply status_sound.
Qed.
Lemma soft_delete_sound b actor d r d' : cat_books d !! cb_id b = Some b -> soft_delete now b actor d = (r, d') -> evolves d d'.
Proof.
  intros Hb H. eapply moves_from; [exact H| |intros ?; cbv beta; repeat moves_core]. intros r0 d1. by apply status_sound.
Qed.

Lemma increment_sound id : moves evolves (increment_download_count id).
Proof.
  apply moves_modify. intros d [[Hk Hs H10 H13 Hr] Hvk Ho Hw He].
  split; [split; [split|..]|]; cbn; try done.
  - by apply keyed_update.
  - by apply unique_update.
  - by apply unique_update.
  - by apply unique_update.
  - intros k b. rewrite lookup_update_where. intros (x & Hx & ->)%fmap_Some. case_match; by apply (Hr k x).
  - intros k v Hv. rewrite lookup_update_where, fmap_is_Some. by apply (Hw k v).
  - intros k b n. rewrite lookup_update_where. intros (x & Hx & ->)%fmap_Some. rewrite <- (He k x n Hx). by case_match.
  - intros k b Hb. cbn. setoid_rewrite lookup_update_where. rewrite Hb. cbn. eexists. split; [done|]. by case_match.
Qed.

(** A new edition goes with its row, or neither is kept. *)
Lemma add_version_sound id b p actor d v d' :
  cat_books d !! cb_id b = Some b -> add_version race id b p actor d = (Ok v, d') -> evolves d d'.
Proof.
  intros Hb. unfold add_version. erewrite bind_ok by reflexivity. cbv beta. erewrite bind_ok by reflexivity. cbv beta.
  intros H Hs. destruct (Hrace d Hs) as [Hs1 Hmono]. set (d1 := race d) in *. run_step H.
  unfold of_result in Hrun. injection Hrun as Ht <-.
  erewrite bind_ok in H by reflexivity. cbv beta in H. cbn [cat_books set_versions] in H.
  destruct (Hmono _ _ Hb) as (row & Hrow & Hle). rewrite Hrow in H. cbn [opt_result of_result] in H.
  erewrite bind_ok in H by reflexivity. cbv beta in H. run_step H. injection H as <- <-. apply flush_book_ok in Hrun.
  destruct (bs_rows _ (snd_books _ Hs) _ _ Hb) as (_ & _ & _ & Hv1).
  pose proof (keyed_lookup _ _ _ (bs_keyed _ (snd_books _ Hs1)) Hrow) as Hid.
  match type of Hrun with _ = Ok ?d2 => assert (Hend : sound d2 /\ no_edition_lost d1 d2) end.
  { refine (new_edition_sound _ _ _ _ _ _ Hs1 Ht Hrow _ _ _ _ Hrun);
      [cbn; lia|exact Hid|done|exact (published_has_date _ _ _ Hrow Hs1)]. }
  destruct Hend as [Hs2 H2].
  split; [done|]. intros k x (x1 & Hx1 & ?)%Hmono. destruct (H2 _ _ Hx1) as (x2 & Hx2 & ?). exists x2. split; [done|lia].
Qed.

Lemma serve_book_evolves r d : evolves d (serve_book race now r d).2.
Proof.
  unfold serve_book. destruct (book_route race now r d) as [[[]|e] d'] eqn:H; cbn [snd]; [|apply Hrace].
  intros Hs. destruct r; cbn [book_route] in H.
  1: revert H Hs; apply (moves_bind evolves); [apply create_sound|intros ?; cbv beta; repeat moves_core].
  all: run_step H; apply get_by_id_ok in Hrun as (-> & <- & Hb); [|apply Hs].
  6: revert H Hs; apply increment_sound.
  5: run_step H; injection H as <-; by eapply add_version_sound.
  all: revert Hs; eapply moves_from; [exact H| |intros ?; cbv beta; repeat moves_core].
  - apply update_sound.
  - intros r0 d1. by apply publish_sound.
  - intros r0 d1. by apply unpublish_sound.
  - intros r0 d1. by apply soft_delete_sound.
Qed.
End soundness.


(** *** A listing *)

Section listed.
Context (collate : string -> Z).

Lemma follow_walk fl sort_by column keep limit public d :
  book_sort_column collate sort_by = Some column -> base_query fl public d = Ok keep -> forall fuel c,
  follow collate fuel fl sort_by "desc" limit public (mkCursor sort_by "desc" <$> c) d =
  Ok (concat (walk (book_key column) fuel (select (fun b => keep b && bool_decide (is_Some (column b))) (cat_books d)) c limit)).
Proof.
  intros Hc Hk. induction fuel as [|fuel IH]; intros c; [done|]. cbn [follow walk].
  assert (Hpage : list_books collate fl sort_by "desc" (mkCursor sort_by "desc" <$> c) limit public d =
    let page := keyset_page (book_key column) (select (fun b => keep b && bool_decide (is_Some (column b))) (cat_books d)) c limit in
    Ok (page.1.1, mkCursor sort_by "desc" <$> page.1.2, page.2)).
  { unfold list_books. rewrite Hc, Hk. destruct c as [k|]; [|done]. cbn. unfold decode_book_cursor.
    cbn [cu_sort_by cu_sort_order cu_key]. by rewrite String.eqb_refl. }
  rewrite Hpage. destruct (keyset_page _ _ c limit) as [[rows [k|]] more]; cbn [mbind result_bind fst snd fmap option_fmap option_map concat];
    [|by rewrite app_nil_r].
  change (Some (mkCursor sort_by "desc" k)) with (mkCursor sort_by "desc" <$> Some k). by rewrite IH.
Qed.

Lemma NoDup_book_keys column P d : keyed (cat_books d) -> NoDup (map (book_key column) (select P (cat_books d))).
Proof.
  intros Hk. apply (NoDup_fmap_1 snd). rewrite <- list_fmap_compose.
  apply NoDup_fmap_2_strong; [|by apply NoDup_select].
  intros x y Hx Hy E. apply elem_of_select_keyed in Hx as [Hx _]; [|done]. apply elem_of_select_keyed in Hy as [Hy _]; [|done].
  cbn in E. change (row_id x = row_id y) in E. congruence.
Qed.

Lemma public_base_query d : exists keep, base_query no_filters true d = Ok keep /\ forall b, keep b = visible false b.
Proof.
  eexists. split; [reflexivity|]. intros b. cbn. unfold visible. by rewrite !andb_true_r.
Qed.

(** a client that follows the cursors of the public feed sees every
    published book that is not deleted exactly once, newest first, and nothing
    else, whatever the page size. *)
Theorem public_feed_complete limit d :
  sound d -> (0 < limit)%nat -> exists feed,
    follow collate (S (length (rows (cat_books d)))) no_filters "published_at" "desc" limit true None d = Ok feed /\
    NoDup feed /\ StronglySorted (newest_first (book_key cb_published_at)) feed /\
    forall b, b ∈ feed <-> cat_books d !! cb_id b = Some b /\ cb_deleted_at b = None /\ cb_status b = BookStatus.PUBLISHED.
Proof.
  intros Hs Hl. destruct (public_base_query d) as (keep & Hq & Hkeep). pose proof (bs_keyed _ (snd_books _ Hs)) as Hk.
  pose proof (follow_walk no_filters "published_at" cb_published_at keep limit true d eq_refl Hq
    (S (length (rows (cat_books d)))) None) as Hf.
  change (mkCursor "published_at" "desc" <$> None) with (@None BookCursor) in Hf. rewrite Hf. clear Hf.
  set (P := fun b => keep b && bool_decide (is_Some (cb_published_at b))).
  set (L := merge_sort (newest_first (book_key cb_published_at)) (select P (cat_books d))).
  exists L. rewrite (walk_from (book_key cb_published_at) (select P (cat_books d)) limit Hl (NoDup_book_keys _ _ _ Hk) _ [] L None);
    [|done|done|unfold L; rewrite merge_sort_Permutation; pose proof (List.filter_length_le P (rows (cat_books d))); unfold select; lia].
  split; [done|]. split; [unfold L; rewrite merge_sort_Permutation; by apply NoDup_select|].
  split; [apply StronglySorted_merge_sort; [apply newest_first_trans|apply newest_first_total]|].
  intros b. unfold L. rewrite merge_sort_Permutation, elem_of_select.
  unfold P. rewrite andb_true_iff, Hkeep, bool_decide_eq_true. unfold visible. cbn [orb]. rewrite andb_true_iff, !bool_decide_eq_true.
  split.
  { intros ((k & Hb) & (? & ?) & _). split; [|done]. pose proof (keyed_lookup _ _ _ Hk Hb) as E.
    change (row_id b) with (cb_id b) in E. by subst. }
  intros (Hb & Hdel & Hpub). split; [eauto|]. split; [done|].
  by apply (bs_rows _ (snd_books _ Hs)) in Hb as (_ & _ & ? & _); auto.
Qed.
End listed.

(** ** At work *)

Definition plain_fields (slug : string) (price : Z) (pdf : option string) : BookFields :=
  mkFields slug slug None None None None "en" None None price None "INR" (Some []) pdf None None None None None None None None
    None None None.
Definition empty_catalogue : CatalogueDb := mkCatalogueDb ∅ ∅ ∅ ∅ no_taxonomy [].
Definition no_update : BookUpdate :=
  mkBookUpdate None None None None None None None None None None None None None None None None None None None None None None
    None None None None None.
Definition with_discount (p : option Z) : BookUpdate :=
  mkBookUpdate None None None None None None None None None None (Some p) None None None None None None None None None None
    None None None None None None.
Definition with_isbn10 (s : option string) : BookUpdate :=
  mkBookUpdate None None None None (Some s) None None None None None None None None None None None None None None None None
    None None None None None None.
Definition with_pdf (k : option string) : BookUpdate :=
  mkBookUpdate None None None None None None None None None None None None None (Some k) None None None None None None None
    None None None None None None.
Definition new_files (pdf : string) : BookVersionCreate := mkVersionCreate (Some pdf) None None None None None None.

Definition alone (d : CatalogueDb) : CatalogueDb := d.
Definition published_pair : list ((CatalogueDb -> CatalogueDb) * datetime * book_request) :=
  [(alone, 1, CreateBook 1 (plain_fields "one" 300 (Some "a")) [] [] None);
   (alone, 2, CreateBook 2 (plain_fields "two" 0 (Some "b")) [] [] None);
   (alone, 3, PublishBook 1 None); (alone, 4, PublishBook 2 None)].
Definition pair_catalogue : CatalogueDb := serve_books published_pair empty_catalogue.

Lemma empty_catalogue_sound : sound empty_catalogue.
Proof.
  split; [split|..]; try apply map_Forall_empty; try apply unique_empty.
  intros id b n. cbn. by rewrite lookup_empty.
Qed.
Lemma alone_well_behaved : well_behaved alone.
Proof. intros d. reflexivity. Qed.
Lemma pair_catalogue_sound : sound pair_catalogue.
Proof.
  pose proof empty_catalogue_sound as H0. revert H0. unfold pair_catalogue, published_pair, serve_books. cbn [foldl].
  intros H0. repeat (apply serve_book_evolves; [apply alone_well_behaved|]). exact H0.
Qed.

(** Another editor records edition 2 between the look-up and the flush: the
    second upload is refused and one row of edition 2 is kept. *)
Definition other_upload (d : CatalogueDb) : CatalogueDb := (serve_book alone 5 (AddVersion 11 1 (new_files "other") None) d).2.
Example upload_race_lost :
  fst (serve_book other_upload 6 (AddVersion 12 1 (new_files "mine") None) pair_catalogue) = Raise IntegrityErr.
Proof. by vm_compute. Qed.

Lemma public_feed_complete_witness :
  exists feed, follow (fun _ => 0) 3 no_filters "published_at" "desc" 1 true None pair_catalogue = Ok feed /\
    NoDup feed /\ StronglySorted (newest_first (book_key cb_published_at)) feed /\
    forall b, b ∈ feed <-> cat_books pair_catalogue !! cb_id b = Some b /\ cb_deleted_at b = None /\ cb_status b = BookStatus.PUBLISHED.
Proof.
  assert (E : length (rows (cat_books pair_catalogue)) = 2%nat) by by vm_compute.
  change 3%nat with (S 2). rewrite <- E.
  apply (public_feed_complete (fun _ => 0) 1 pair_catalogue); [exact pair_catalogue_sound|lia].
Defined.
Example feed_newest_first :
  (map cb_id <$> follow (fun _ => 0) 3 no_filters "published_at" "desc" 1 true None pair_catalogue) = Ok [2%N; 1%N].
Proof. by vm_compute. Qed.

(** Every price is in exactly one price range. *)
Lemma price_in_one_bucket price : 0 <= price ->
  length (List.filter (fun r => in_bucket r.1.2 r.2 price) PRICE_BUCKETS) = 1%nat.
Proof.
  intros H. unfold PRICE_BUCKETS, in_bucket. cbn [List.filter fst snd].
  repeat match goal with |- context [?a <=? ?b] => destruct (Z.leb_spec a b); cbn [andb] end; try lia; done.
Qed.

(** The free filter selects the books whose price is zero, when discounts are. *)
Lemma free_only_is_free b :
  0 <= f_price_minor (cb_fields b) -> (forall p, f_discount_price_minor (cb_fields b) = Some p -> 0 <= p <= f_price_minor (cb_fields b)) ->
  ((f_price_minor (cb_fields b) =? 0) || bool_decide (f_discount_price_minor (cb_fields b) = Some 0)) = book_is_free b.
Proof.
  intros Hp Hd. unfold book_is_free, book_price. destruct (f_discount_price_minor (cb_fields b)) as [p|] eqn:E.
  - specialize (Hd p eq_refl). destruct (Z.ltb_spec p (f_price_minor (cb_fields b))).
    + destruct (Z.eqb_spec p 0) as [->|]; [by rewrite bool_decide_true, orb_true_r|].
      rewrite bool_decide_false by congruence. rewrite orb_false_r. apply Z.eqb_neq. lia.
    + assert (p = f_price_minor (cb_fields b)) as -> by lia.
      destruct (Z.eqb_spec (f_price_minor (cb_fields b)) 0) as [->|]; [done|]. by rewrite bool_decide_false by congruence.
  - by rewrite bool_decide_false, orb_false_r by done.
Qed.

(** ... but the "free" range counts list prices only. *)
Example free_range_counts_list_price :
  let d := serve_books [(alone, 5, UpdateBook 1 (with_discount (Some 0)) None)] pair_catalogue in
  let free_books := mkFilters None None None None None None None None true None in
  match facets free_books true d with
  | Ok f => fa_price_ranges f = [("free", 1); ("under_200", 1); ("200_500", 0); ("over_500", 0)]
  | Raise _ => False
  end.
Proof. by vm_compute. Qed.

(** A discount above the price is reported as a taken slug. *)
Example bad_discount_is_slug_conflict :
  fst (serve_book alone 5 (UpdateBook 1 (with_discount (Some 301)) None) pair_catalogue) = Raise (app_error ConflictError "").
Proof. by vm_compute. Qed.

(** Dashes make two ISBNs of one, on an update only. *)
Example dashed_isbn_not_unique :
  let l := [(alone, 5, UpdateBook 1 (with_isbn10 (Some "0306406152")) None); (alone, 6, UpdateBook 2 (with_isbn10 (Some "0-306406152")) None)] in
  map isbn10_of (rows (cat_books (serve_books l pair_catalogue))) = [Some "0-306406152"; Some "0306406152"].
Proof. by vm_compute. Qed.

(** A published book can lose its only file. *)
Example published_without_file :
  let d := serve_books [(alone, 5, UpdateBook 1 (with_pdf None) None)] pair_catalogue in
  map (fun b => (cb_status b, readable_formats (cb_fields b))) (select (fun b => bool_decide (cb_id b = 1%N)) (cat_books d)) =
  [(BookStatus.PUBLISHED, [])].
Proof. by vm_compute. Qed.
