(* ===== verification/Http.v ===== *)
(** * Calls between services (packages/core-py/knowledgeos_core/http.py)

    The circuit breaker in front of every upstream, one signed call with its
    retries, and what a caller gets of the answer.  [net n] is what the n-th
    attempt to reach an upstream meets; the state counts the attempts.  Time is
    [time.monotonic()], in microseconds. *)

From S2P Require Import Prelude Store Json Security.

Module BreakerState.
Inductive t := CLOSED | OPEN | HALF_OPEN.
End BreakerState.
#[export] Instance BreakerState_eq_dec : EqDecision BreakerState.t.
Proof. solve_decision. Defined.

(** ** The circuit breaker *)

Record CircuitBreaker := mkBreaker {
  br_state : BreakerState.t;
  br_failures : Z;
  br_opened_at : datetime;
}.
Definition fresh_breaker : CircuitBreaker := mkBreaker BreakerState.CLOSED 0 0.

Section breaker.
Context (failure_threshold : Z) (recovery_timeout : Z).

Definition before_request (now : datetime) (b : CircuitBreaker) : result CircuitBreaker :=
  match br_state b with
  | BreakerState.OPEN =>
      if recovery_timeout <=? now - br_opened_at b
      then Ok (mkBreaker BreakerState.HALF_OPEN (br_failures b) (br_opened_at b))
      else Raise (app_error ServiceUnavailableError "")
  | _ => Ok b
  end.

Definition on_success (b : CircuitBreaker) : CircuitBreaker := mkBreaker BreakerState.CLOSED 0 (br_opened_at b).

Definition on_failure (now : datetime) (b : CircuitBreaker) : CircuitBreaker :=
  let failures := br_failures b + 1 in
  if bool_decide (br_state b = BreakerState.HALF_OPEN) || (failure_threshold <=? failures)
  then mkBreaker BreakerState.OPEN failures now
  else mkBreaker (br_state b) failures (br_opened_at b).
End breaker.

(** ** One call *)

Inductive content := NoContent | NotJson | JsonContent (v : json).

(** What one attempt meets.  [ReadTimeout] comes after the request was sent;
    [OtherTimeout] are httpx's connect and write timeouts. *)
Inductive attempt_outcome :=
  | Response (status : Z) (body : content)
  | ConnectError
  | ReadTimeout
  | PoolTimeout
  | OtherTimeout
  | OtherHttpError.

Record HttpRequest := mkHttpRequest {
  rq_method : string;
  rq_path : string;
  rq_body : string;
  rq_headers : list (string * string);
}.

Record ClientState := mkClient {
  breaker : CircuitBreaker;
  attempts_made : list HttpRequest;   (** latest last *)
}.
Definition set_breaker b c := mkClient b (attempts_made c).

(** [retry_if_exception_type] *)
Definition retriable (o : attempt_outcome) : bool :=
  match o with ConnectError | ReadTimeout | PoolTimeout => true | _ => false end.
Definition is_timeout (o : attempt_outcome) : bool :=
  match o with ReadTimeout | PoolTimeout | OtherTimeout => true | _ => false end.

Section client.
Context (net : nat -> attempt_outcome) (hmac : string -> string -> string) (sha256 : string -> string).
Context (service secret : string) (request_id trace_id : option string).
Context (failure_threshold recovery_timeout : Z).

Definition attempt_once (rq : HttpRequest) : M ClientState attempt_outcome := fun c =>
  (Ok (net (length (attempts_made c))), mkClient (breaker c) (attempts_made c ++ [rq])).

(** [_send]: up to three attempts. *)
Fixpoint send (stop_after : nat) (rq : HttpRequest) : M ClientState attempt_outcome :=
  match stop_after with
  | O | S O => attempt_once rq
  | S stop_after => o ← attempt_once rq; if retriable o then send stop_after rq else mret o
  end.

Definition headers (method path body : string) (extra : list (string * string)) (wall : datetime) : list (string * string) :=
  let digest := hash_body sha256 body in
  let '(timestamp, signature) := sign_internal_request hmac secret method path digest None wall in
  [("X-Internal-Timestamp", timestamp); ("X-Internal-Signature", signature); ("X-Internal-Service", service)] ++
  (if String.eqb digest "" then [] else [("X-Internal-Body-Hash", digest)]) ++
  (match request_id with Some rid => [("X-Request-ID", rid)] | None => [] end) ++
  (match trace_id with Some tid => [("X-Trace-ID", tid)] | None => [] end) ++ extra.

(** [request]: [started] and [ended] are the monotonic clock before and after
    the call, [wall] the time of day.  A caller's own [timeout] means one attempt. *)
Definition request (method path body : string) (extra : list (string * string)) (timeout : option Z)
    (started ended wall : datetime) : M ClientState attempt_outcome :=
  c ← get;
  b ← of_result (before_request recovery_timeout started (breaker c));
  _ ← modify (set_breaker b);
  let rq := mkHttpRequest method path body (headers method path body extra wall) in
  o ← (match timeout with None => send 3 rq | Some _ => attempt_once rq end);
  let failed := modify (fun c => set_breaker (on_failure failure_threshold ended (breaker c)) c) in
  match o with
  | Response status _ =>
      _ ← (if 500 <=? status then failed else modify (fun c => set_breaker (on_success (breaker c)) c));
      mret o
  | _ => _ ← failed; raise (if is_timeout o then TimeoutErr else app_error UpstreamError "")
  end.

(** [_unwrap]; the [code] of an error body that is not the platform's is ours. *)
Definition upstream_error_code (c : content) : string :=
  match c with
  | JsonContent (JObj l) =>
      match jget_default "error" (JObj []) (JObj l) with
      | JObj e => let code := jget_default "code" (JStr "upstream_error") (JObj e) in
                  if jtruthy code then jstr code else default_code UpstreamError
      | _ => "upstream_error"
      end
  | _ => "upstream_error"
  end.
Definition unwrap (status : Z) (c : content) : result json :=
  if (200 <=? status) && (status <? 300)
  then match c with NoContent => Ok JNull | NotJson => Raise ValueErr | JsonContent v => Ok v end
  else Raise (UpstreamStatus (upstream_error_code c) (if status <? 500 then status else 502)).

Definition call_json (method path body : string) (extra : list (string * string)) (timeout : option Z)
    (started ended wall : datetime) : M ClientState json :=
  o ← request method path body extra timeout started ended wall;
  match o with Response status c => of_result (unwrap status c) | _ => raise (app_error UpstreamError "") end.
(** [get_json], [post_json] *)
Definition get_json (path : string) := call_json "GET" path "" [].
Definition post_json (path body : string) := call_json "POST" path body [("Content-Type", "application/json")].
End client.

(** ** One call *)

Section calls.
Context (net : nat -> attempt_outcome) (hmac : string -> string -> string) (sha256 : string -> string).
Context (service secret : string) (request_id trace_id : option string).
Context (failure_threshold recovery_timeout : Z).
Let request' := request net hmac sha256 service secret request_id trace_id failure_threshold recovery_timeout.

(** An open circuit sends nothing. *)
Lemma open_circuit_fails_fast method path body extra timeout started ended wall c :
  br_state (breaker c) = BreakerState.OPEN -> started - br_opened_at (breaker c) < recovery_timeout ->
  request' method path body extra timeout started ended wall c = (Raise (app_error ServiceUnavailableError ""), c).
Proof.
  intros Ho Ht. unfold request', request. erewrite bind_ok by reflexivity. cbv beta.
  erewrite bind_raise; [done|]. unfold before_request, of_result. rewrite Ho.
  by destruct (Z.leb_spec recovery_timeout (started - br_opened_at (breaker c))); [lia|].
Qed.

(** The attempts of one call are at most [stop_after], all of the same request,
    and every one but the last met a condition that is retried. *)
Lemma send_attempts stop_after rq c r c' :
  send net stop_after rq c = (r, c') -> exists o k,
    r = Ok o /\ breaker c' = breaker c /\ attempts_made c' = attempts_made c ++ replicate (S k) rq /\
    (S k <= Nat.max 1 stop_after)%nat /\ o = net (length (attempts_made c) + k)%nat /\
    (forall i, (i < k)%nat -> retriable (net (length (attempts_made c) + i)%nat) = true).
Proof.
  revert c r c'. induction stop_after as [|n IH]; intros c r c' H.
  - injection H as <- <-. exists (net (length (attempts_made c))), 0%nat. rewrite Nat.add_0_r.
    repeat (split; [first [done|lia]|]). lia.
  - destruct n as [|n].
    + injection H as <- <-. exists (net (length (attempts_made c))), 0%nat. rewrite Nat.add_0_r.
      repeat (split; [first [done|lia]|]). lia.
    + cbn [send] in H. erewrite bind_ok in H by reflexivity. cbv beta in H.
      destruct (retriable (net (length (attempts_made c)))) eqn:Hr.
      * apply IH in H as (o & k & -> & Hb & Ha & Hk & -> & Hi). cbn [breaker attempts_made] in *.
        rewrite length_app in *. cbn [length] in *. eexists _, (S k). split; [done|]. split; [done|].
        split; [rewrite Ha, <- app_assoc; done|]. split; [lia|]. split; [f_equal; lia|].
        intros i Hlt. destruct i as [|i]; [by rewrite Nat.add_0_r|].
        replace (length (attempts_made c) + S i)%nat with (length (attempts_made c) + 1 + i)%nat by lia. apply Hi. lia.
      * injection H as <- <-. exists (net (length (attempts_made c))), 0%nat. rewrite Nat.add_0_r.
        repeat (split; [first [done|lia]|]). lia.
Qed.
(** What a call did to the breaker: nothing reached the upstream, or a success, or a failure. *)
Definition reported (r : result attempt_outcome) : option bool :=
  match r with
  | Ok (Response status _) => Some (status <? 500)
  | Raise (AppErr ServiceUnavailableError _) => None
  | _ => Some false
  end.
(** The failures since the last success, in the order they happened. *)
Fixpoint trailing_failures (log : list bool) : Z :=
  match log with
  | [] => 0
  | ok :: log' => if forallb negb log' then (if ok then 0 else 1) + trailing_failures log' else trailing_failures log'
  end.

Lemma trailing_snoc log ok : trailing_failures (log ++ [ok]) = if ok then 0 else trailing_failures log + 1.
Proof.
  induction log as [|b log IH]; [by destruct ok|]. cbn [app trailing_failures]. rewrite IH, forallb_app. cbn [forallb].
  destruct ok; cbn [negb]; [by rewrite andb_false_r|]. rewrite !andb_true_r. destruct (forallb negb log); lia.
Qed.

(** The breaker has counted the log. *)
Definition counted (b : CircuitBreaker) (log : list bool) : Prop :=
  br_failures b = trailing_failures log /\ (br_state b = BreakerState.CLOSED <-> br_failures b < failure_threshold).

Lemma request_reports method path body extra timeout started ended wall c r c' log :
  0 < failure_threshold -> counted (breaker c) log ->
  request' method path body extra timeout started ended wall c = (r, c') ->
  counted (breaker c') (match reported r with Some ok => log ++ [ok] | None => log end).
Proof.
  intros Hth Hcnt. pose proof Hcnt as [Hf Hs]. unfold request', request. erewrite bind_ok by reflexivity. cbv beta.
  destruct (before_request recovery_timeout started (breaker c)) as [b|e] eqn:Hb; cbn [of_result].
  2:{ intros [= <- <-]. unfold before_request in Hb. destruct (br_state (breaker c)); [done| |done].
      case_match; simplify_eq. exact Hcnt. }
  assert (Hc : br_failures b = trailing_failures log /\ (br_state b = BreakerState.CLOSED <-> br_failures b < failure_threshold)).
  { unfold before_request in Hb. destruct (br_state (breaker c)) eqn:Ho; [by simplify_eq; rewrite Ho| |by simplify_eq; rewrite Ho].
    case_match; simplify_eq. cbn. split; [done|]. rewrite <- Hs. by split. }
  clear Hb Hf Hs. destruct Hc as [Hf Hs].
  erewrite bind_ok by reflexivity. erewrite bind_ok by reflexivity. cbv beta zeta.
  intros [(o & c2 & H1 & H2)|(e & H1 & _)]%bind_inv.
  2:{ destruct timeout; [done|]. by apply send_attempts in H1 as (? & ? & ? & _). }
  assert (Hb2 : breaker c2 = b).
  { destruct timeout; [by injection H1 as _ <-|]. by apply send_attempts in H1 as (_ & _ & _ & -> & _). }
  assert (Hfail : counted (on_failure failure_threshold ended b) (log ++ [false])).
  { unfold counted. rewrite trailing_snoc, <- Hf. unfold on_failure.
    destruct (bool_decide (br_state b = BreakerState.HALF_OPEN) || (failure_threshold <=? br_failures b + 1)) eqn:E; cbn.
    - split; [done|]. split; [done|]. apply orb_true_iff in E as [E|E]; bool_to_prop; [|lia].
      intros Hlt. assert (br_state b = BreakerState.CLOSED) by (apply Hs; lia). congruence.
    - bool_to_prop. split; [done|]. rewrite Hs. lia. }
  destruct o as [status body'| | | | |];
    [|erewrite bind_ok in H2 by reflexivity; injection H2 as <- <-; cbn; by rewrite Hb2..].
  cbn [reported]. destruct (Z.leb_spec 500 status); erewrite bind_ok in H2 by reflexivity; injection H2 as <- <-; cbn; rewrite Hb2.
  - by replace (status <? 500) with false by lia.
  - replace (status <? 500) with true by lia. unfold counted. rewrite trailing_snoc. cbn. split; [done|]. split; [done|done].
Qed.

(** One call of a history: what to send and when. *)
Record Call := mkCall {
  cl_method : string; cl_path : string; cl_body : string; cl_extra : list (string * string); cl_timeout : option Z;
  cl_started : datetime; cl_ended : datetime; cl_wall : datetime;
}.
Definition place (x : Call) : M ClientState attempt_outcome :=
  request' (cl_method x) (cl_path x) (cl_body x) (cl_extra x) (cl_timeout x) (cl_started x) (cl_ended x) (cl_wall x).
(** The client after the calls, and what reached the upstream. *)
Definition place_next (s : ClientState * list bool) (x : Call) : ClientState * list bool :=
  let '(r, c') := place x s.1 in (c', match reported r with Some ok => s.2 ++ [ok] | None => s.2 end).
Definition place_all (l : list Call) : ClientState * list bool := foldl place_next (mkClient fresh_breaker [], []) l.

(** after any sequence of calls of one client, the circuit is closed exactly
    when fewer than [failure_threshold] calls that reached the upstream have
    failed since the last one that succeeded; and a call made while it is open
    and not yet due for a probe sends nothing and leaves everything as it was. *)
Theorem breaker_counts_failures l c log :
  0 < failure_threshold -> place_all l = (c, log) ->
  (br_state (breaker c) = BreakerState.CLOSED <-> trailing_failures log < failure_threshold) /\
  (forall x, br_state (breaker c) = BreakerState.OPEN -> cl_started x - br_opened_at (breaker c) < recovery_timeout ->
             place x c = (Raise (app_error ServiceUnavailableError ""), c)).
Proof.
  intros Hth H. split; [|intros x Ho Ht; by apply open_circuit_fails_fast].
  assert (Hend : counted (breaker c) log); [|destruct Hend as [<- ?]; done].
  assert (H0 : counted (breaker (mkClient fresh_breaker [])) []) by (split; [done|by split]).
  revert H H0. unfold place_all. change (breaker (mkClient fresh_breaker [])) with (breaker (mkClient fresh_breaker [], @nil bool).1).
  change (counted _ []) with (counted (breaker (mkClient fresh_breaker [], @nil bool).1) (mkClient fresh_breaker [], @nil bool).2).
  generalize (mkClient fresh_breaker [], @nil bool) as s0.
  induction l as [|x l IH]; intros s0 H H0; cbn [foldl] in H; [by simplify_eq|]. apply IH in H; [done|].
  unfold place_next. destruct (place x s0.1) as [r c1] eqn:E. cbn [fst snd]. by apply (request_reports _ _ _ _ _ _ _ _ _ _ _ s0.2) in E.
Qed.

(** the header of every attempt of a call passes the check of the service it
    is sent to, when both hold the same secret and the clocks are at most five
    minutes apart: the caller is identified by its name. *)
Theorem signed_call_accepted method path body extra timeout started ended wall c r c' rq now :
  request' method path body extra timeout started ended wall c = (r, c') ->
  rq ∈ drop (length (attempts_made c)) (attempts_made c') ->
  (forall k m, hmac k m <> "") -> service <> "" -> SECOND <= wall -> Z.abs (now - wall / SECOND * SECOND) <= 300 * SECOND ->
  let header name := snd <$> List.find (fun h => String.eqb h.1 name) (rq_headers rq) in
  require_internal_caller hmac sha256 secret (rq_method rq) (rq_path rq) (rq_body rq)
    (header "X-Internal-Timestamp") (header "X-Internal-Signature") (header "X-Internal-Service") now = Ok service.
Proof.
  intros H Hrq Hhmac Hsv Hw Hnow header.
  assert (Hh : rq = mkHttpRequest method path body (headers hmac sha256 service secret request_id trace_id method path body extra wall)).
  { unfold request', request in H. erewrite bind_ok in H by reflexivity. cbv beta in H.
    destruct (before_request _ _ _) as [b|e]; cbn [of_result] in H.
    2:{ injection H as _ <-. rewrite drop_all in Hrq. by apply not_elem_of_nil in Hrq. }
    do 2 erewrite bind_ok in H by reflexivity. cbv beta zeta in H.
    apply bind_inv in H as [(o & c2 & H1 & H2)|(e & H1 & _)].
    2:{ destruct timeout; [done|]. by apply send_attempts in H1 as (? & ? & ? & _). }
    assert (Ha : attempts_made c' = attempts_made c2).
    { destruct o; [destruct (500 <=? status)|..]; erewrite bind_ok in H2 by reflexivity; by injection H2 as _ <-. }
    assert (Hk : exists k, attempts_made c2 = attempts_made c ++ replicate k (mkHttpRequest method path body
              (headers hmac sha256 service secret request_id trace_id method path body extra wall))).
    { destruct timeout; [exists 1%nat; by injection H1 as _ <-|].
      apply send_attempts in H1 as (? & k & _ & _ & -> & _). by exists (S k). }
    destruct Hk as [k Hk]. rewrite Ha, Hk, drop_app_length in Hrq. by apply elem_of_replicate in Hrq as [-> _]. }
  clear H Hrq. subst rq. unfold header. cbn [rq_method rq_path rq_body rq_headers].
  unfold headers, sign_internal_request. cbn [app List.find fst snd fmap option_fmap option_map String.eqb Ascii.eqb eqb].
  by apply (signed_accepted hmac sha256 secret method path body wall service now).
Qed.
End calls.

(** ** At work *)

Definition down : nat -> attempt_outcome := fun _ => Response 503 NoContent.
Definition marked (secret payload : string) : string := append "s" (append secret payload).
Definition same_digest (b : string) : string := b.
Definition call_at (t : datetime) : Call := mkCall "GET" "/internal/books" "" [] None t (t + 1) (SECOND * 1000).
Definition place_down := place down marked same_digest "search" "k" None None 5 30000000.

Definition outage := place_all down marked same_digest "search" "k" None None 5 30000000 (map call_at [1; 2; 3; 4; 5; 6]).
Lemma breaker_counts_failures_witness :
  br_state (breaker outage.1) = BreakerState.OPEN /\ outage.2 = [false; false; false; false; false] /\
  place_down (call_at 7) outage.1 = (Raise (app_error ServiceUnavailableError ""), outage.1).
Proof.
  destruct (breaker_counts_failures down marked same_digest "search" "k" None None 5 30000000 (map call_at [1; 2; 3; 4; 5; 6])
    outage.1 outage.2 ltac:(lia) (surjective_pairing outage)) as [_ Hfast].
  split; [reflexivity|]. split; [reflexivity|]. apply Hfast; reflexivity.
Defined.

Definition sample_headers := headers marked same_digest "books" "k" None None "POST" "/internal/index" "{}" [] (SECOND * 1000).
Definition sample_header (name : string) : option string := snd <$> List.find (fun h => String.eqb h.1 name) sample_headers.
Lemma signed_call_accepted_witness :
  require_internal_caller marked same_digest "k" "POST" "/internal/index" "{}" (sample_header "X-Internal-Timestamp")
    (sample_header "X-Internal-Signature") (sample_header "X-Internal-Service") (SECOND * 1200) = Ok "books".
Proof.
  pose (c' := (request (fun _ => Response 200 NoContent) marked same_digest "books" "k" None None 5 30000000
    "POST" "/internal/index" "{}" [] None 1 2 (SECOND * 1000) (mkClient fresh_breaker [])).2).
  apply (signed_call_accepted (fun _ => Response 200 NoContent) marked same_digest "books" "k" None None 5 30000000
    "POST" "/internal/index" "{}" [] None 1 2 (SECOND * 1000) (mkClient fresh_breaker []) (Ok (Response 200 NoContent)) c'
    (mkHttpRequest "POST" "/internal/index" "{}" sample_headers) (SECOND * 1200));
    [reflexivity|constructor|done|done|by vm_compute|by vm_compute].
Defined.

(** The documentation promises one probe; every call made meanwhile is let through. *)
Example every_call_probes :
  let open := mkBreaker BreakerState.OPEN 5 0 in
  let half := mkBreaker BreakerState.HALF_OPEN 5 0 in
  before_request 30000000 30000000 open = Ok half /\ before_request 30000000 30000001 half = Ok half.
Proof. done. Qed.

(** A request that timed out after it was sent is sent again, twice. *)
Example timed_out_post_sent_again :
  let '(r, c) := post_json (fun _ => ReadTimeout) marked same_digest "books" "k" None None 5 30000000 "/internal/charge" "{}" None 1 2
                   (SECOND * 1000) (mkClient fresh_breaker []) in
  r = Raise TimeoutErr /\ length (attempts_made c) = 3%nat /\ br_failures (breaker c) = 1.
Proof. by vm_compute. Qed.

(** A refusal is a healthy answer: it closes the circuit. *)
Example not_found_closes :
  let '(r, c) := get_json (fun _ => Response 404 NotJson) marked same_digest "search" "k" None None 5 30000000 "/internal/books/1" None
                   30000000 30000002 (SECOND * 1000) (mkClient (mkBreaker BreakerState.OPEN 5 0) []) in
  r = Raise (UpstreamStatus "upstream_error" 404) /\ br_state (breaker c) = BreakerState.CLOSED /\ br_failures (breaker c) = 0.
Proof. by vm_compute. Qed.
