(* ===== verification/Storage.v ===== *)
(** * Object storage (packages/core-py/knowledgeos_core/storage.py)

    The names and keys of stored objects, what a presigned upload admits, and
    the object operations over an S3 bucket.  The bucket is a map from keys to
    objects; [fault] is what S3 answers instead of performing an operation;
    [presign] is the library that signs. *)

From S2P Require Import Prelude Store Json Dates.

(** ** Names *)

(** [strip(chars)] *)
Fixpoint lstrip_of (p : ascii -> bool) (s : string) : string :=
  match s with "" => "" | String c s' => if p c then lstrip_of p s' else s end.
Fixpoint rstrip_of (p : ascii -> bool) (s : string) : string :=
  match s with
  | "" => ""
  | String c s' => match rstrip_of p s' with "" => if p c then "" else String c "" | t => String c t end
  end.
Definition strip_of (p : ascii -> bool) (s : string) : string := rstrip_of p (lstrip_of p s).

(** [_SAFE_NAME]: each run of other characters becomes one dash. *)
Definition is_safe (c : ascii) : bool := is_alnum c || (c =? ".")%char || (c =? "_")%char || (c =? "-")%char.
Fixpoint dash_runs (in_run : bool) (s : string) : string :=
  match s with
  | "" => ""
  | String c s' => if is_safe c then String c (dash_runs false s')
                   else if in_run then dash_runs true s' else String "-" (dash_runs true s')
  end.

(** [name.rpartition(".")]: without a dot, everything is the last part. *)
Fixpoint rpartition_dot (s : string) : option (string * string) :=
  match s with
  | "" => None
  | String c s' =>
      match rpartition_dot s' with
      | Some (stem, ext) => Some (String c stem, ext)
      | None => if (c =? ".")%char then Some ("", s') else None
      end
  end.
(** [s[:n]] for any [n]. *)
Definition sprefix (n : Z) (s : string) : string :=
  if 0 <=? n then stake (Z.to_nat n) s else stake (Z.to_nat (Z.of_nat (String.length s) + n)) s.

Definition is_edge (c : ascii) : bool := (c =? ".")%char || (c =? "-")%char.
Definition slashes (c : ascii) : ascii := if (N_of_ascii c =? 92)%N then "/"%char else c.
Definition sanitize_filename (filename : string) (max_length : Z) : string :=
  let name := default "" (last (split_char "/" (smap slashes filename))) in
  let name := strip_of is_edge (dash_runs false name) in
  let name := if String.eqb name "" then "file" else name in
  if max_length <? Z.of_nat (String.length name) then
    let '(stem, ext) := default ("", name) (rpartition_dot name) in
    if String.eqb ext "" then sprefix max_length name
    else append (sprefix (max_length - Z.of_nat (String.length ext) - 1) stem) (append "." ext)
  else name.

Module Visibility.
Inductive t := PUBLIC | PRIVATE.
End Visibility.
Definition visibility_prefix (v : Visibility.t) : string :=
  match v with Visibility.PUBLIC => "public" | Visibility.PRIVATE => "private" end.

(** [unique] is the caller's [version] or twelve random hexadecimal digits. *)
Definition build_key (v : Visibility.t) (category owner_id filename unique : string) (now : datetime) : string :=
  String.concat "/" [visibility_prefix v; category; owner_id; str_of_Z (year now); zero_pad 2 (month now);
                     append unique (append "-" (sanitize_filename filename 120))].

(** ** Uploads *)

(** ALLOWED_UPLOAD_TYPES *)
Definition allowed_types (category : string) : option (list string) :=
  if String.eqb category "book" then Some ["application/pdf"; "application/epub+zip"; "application/x-mobipocket-ebook"]
  else if String.eqb category "cover" then Some ["image/jpeg"; "image/png"; "image/webp"; "image/avif"]
  else if String.eqb category "avatar" then Some ["image/jpeg"; "image/png"; "image/webp"]
  else if String.eqb category "audio" then Some ["audio/mpeg"; "audio/mp4"; "audio/aac"; "audio/ogg"]
  else if String.eqb category "attachment" then Some ["application/pdf"; "application/zip"; "text/plain"]
  else None.
Definition validate_content_type (category content_type : string) : result unit :=
  match allowed_types category with
  | Some types => if bool_decide (content_type ∈ types) then Ok tt else Raise (app_error UnsupportedMediaTypeError "")
  | None => Raise (app_error UnsupportedMediaTypeError "")
  end.

(** What the signed policy demands of the form the browser posts. *)
Record UploadPolicy := mkPolicy { po_key : string; po_content_type : string; po_min_bytes : Z; po_max_bytes : Z; po_expires_in : Z }.
Record UploadTarget := mkUploadTarget { ut_url : string; ut_policy : UploadPolicy }.
Definition post_accepted (po : UploadPolicy) (key content_type : string) (size age : Z) : bool :=
  String.eqb key (po_key po) && String.eqb content_type (po_content_type po) &&
  (po_min_bytes po <=? size) && (size <=? po_max_bytes po) && (age <=? po_expires_in po).

Inductive s3_error := ClientError (code : string) | BotoCoreError.
Record S3Object := mkObject { ob_bytes : string; ob_content_type : string; ob_cache_control : option string; ob_modified : datetime }.
Record StoredObject := mkStored { so_key : string; so_size : Z; so_content_type : string; so_last_modified : datetime }.
Abbreviation bucket_objects := (gmap string S3Object) (only parsing).

Record StorageSettings := mkStorageSettings {
  s3_bucket : string;
  s3_endpoint_url : option string;
  s3_public_endpoint_url : option string;
  s3_signature_ttl : Z;
}.

(** [url.replace(old, new, 1)] *)
Fixpoint replace_first (old new s : string) : string :=
  if startswith old s then append new (String.substring (String.length old) (String.length s - String.length old) s)
  else match s with "" => "" | String c s' => String c (replace_first old new s') end.
Definition strip_trailing_slash : string -> string := rstrip_of (fun c => (c =? "/")%char).

Section storage.
Context (settings : StorageSettings) (fault : string -> string -> option s3_error).
Context (presign : string -> string -> Z -> string) (guess_type : string -> option string).

(** [_call]: the exceptions of boto3 as the platform's. *)
Definition s3_exception (e : s3_error) : exn :=
  match e with
  | ClientError code => if bool_decide (code ∈ ["404"; "NoSuchKey"; "NotFound"]) then app_error NotFoundError ""
                        else app_error UpstreamError ""
  | BotoCoreError => app_error UpstreamError ""
  end.
Definition s3_call {A} (method key : string) (m : M bucket_objects A) : M bucket_objects A :=
  match fault method key with Some e => raise (s3_exception e) | None => m end.

Definition public_endpoint : option string := str_or (s3_public_endpoint_url settings) (s3_endpoint_url settings).
Definition rewrite_public (url : string) : string :=
  match s3_endpoint_url settings, public_endpoint with
  | Some internal, Some public =>
      if truthy (Some internal) && truthy (Some public) && negb (String.eqb internal public)
      then replace_first (strip_trailing_slash internal) (strip_trailing_slash public) url else url
  | _, _ => url
  end.
Definition public_url (key : string) : string :=
  String.concat "/" [strip_trailing_slash (default "" public_endpoint); s3_bucket settings; key].

Definition create_upload_target (category owner_id filename content_type : string) (v : Visibility.t) (max_bytes : Z)
    (expires_in : option Z) (unique : string) (now : datetime) : M bucket_objects UploadTarget :=
  _ ← of_result (validate_content_type category content_type);
  let ttl := match expires_in with Some t => if t =? 0 then s3_signature_ttl settings else t | None => s3_signature_ttl settings end in
  let key := build_key v category owner_id filename unique now in
  s3_call "generate_presigned_post" key
    (mret (mkUploadTarget (rewrite_public (presign "post" key ttl)) (mkPolicy key content_type 1 max_bytes ttl))).

(** ** Objects *)

Definition put_object (key data : string) (content_type : option string) (cache_seconds : Z) (now : datetime)
    : M bucket_objects StoredObject :=
  let guessed := default "application/octet-stream" (str_or content_type (str_or (guess_type key) (Some "application/octet-stream"))) in
  let cache := if cache_seconds =? 0 then None
               else Some (append "public, max-age=" (append (py_str_int cache_seconds) ", immutable")) in
  s3_call "put_object" key
    (_ ← modify (fun b => <[key := mkObject data guessed cache now]> b);
     mret (mkStored key (Z.of_nat (String.length data)) guessed now)).

(** S3 answers NoSuchKey for a missing object. *)
Definition fetch_object (method key : string) : M bucket_objects S3Object :=
  s3_call method key
    (b ← get;
     match b !! key with Some o => mret o | None => raise (s3_exception (ClientError "NoSuchKey")) end).
Definition head_object (key : string) : M bucket_objects StoredObject :=
  o ← fetch_object "head_object" key;
  mret (mkStored key (Z.of_nat (String.length (ob_bytes o))) (ob_content_type o) (ob_modified o)).
Definition exists_object (key : string) : M bucket_objects bool := fun b =>
  match head_object key b with
  | (Ok _, b') => (Ok true, b')
  | (Raise (AppErr NotFoundError _), b') => (Ok false, b')
  | (Raise e, b') => (Raise e, b')
  end.
Definition get_bytes (key : string) : M bucket_objects string := o ← fetch_object "get_object" key; mret (ob_bytes o).
(** Deleting a missing object succeeds. *)
Definition delete_object (key : string) : M bucket_objects unit := s3_call "delete_object" key (modify (delete key)).
Definition copy_object (source dest : string) : M bucket_objects unit :=
  s3_call "copy_object" dest
    (b ← get;
     match b !! source with
     | Some o => modify (fun b => <[dest := o]> b)
     | None => raise (s3_exception (ClientError "NoSuchKey"))
     end).

(** The URL and the Content-Disposition it carries. *)
Definition signed_download_url (key : string) (expires_in : option Z) (download_filename : option string)
    : M bucket_objects (string * option string) :=
  let ttl := match expires_in with Some t => if t =? 0 then s3_signature_ttl settings else t | None => s3_signature_ttl settings end in
  let disposition :=
    if truthy download_filename
    then Some (append "attachment; filename=" (String dquote (append (sanitize_filename (default "" download_filename) 120) (String dquote ""))))
    else None in
  s3_call "generate_presigned_url" key (mret (rewrite_public (presign "get" key ttl), disposition)).
End storage.

(** ** Names are safe *)

Lemma strip_of_sall (P p : ascii -> bool) s : sall P s = true -> sall P (strip_of p s) = true.
Proof.
  assert (Hr : forall s, sall P s = true -> sall P (rstrip_of p s) = true).
  { clear s. induction s as [|c s IH]; [done|]. cbn [sall rstrip_of]. intros [Hc Hs]%andb_true_iff. specialize (IH Hs).
    destruct (rstrip_of p s); [destruct (p c); [done|]; cbn; by rewrite Hc|]. cbn [sall] in *. by rewrite Hc. }
  intros H. apply Hr. induction s as [|c s IH]; [done|]. cbn [lstrip_of]. destruct (p c); [|done].
  cbn in H. apply andb_true_iff in H as [_ H]. by apply IH.
Qed.

Lemma stake_sall (P : ascii -> bool) n s : sall P s = true -> sall P (stake n s) = true.
Proof.
  revert s. induction n as [|n IH]; intros [|c s]; [done..|]. cbn [stake sall]. intros [Hc Hs]%andb_true_iff. by rewrite Hc, IH.
Qed.
Lemma sprefix_sall (P : ascii -> bool) n s : sall P s = true -> sall P (sprefix n s) = true.
Proof. intros H. unfold sprefix. case_match; by apply stake_sall. Qed.

Lemma dash_runs_safe b s : sall is_safe (dash_runs b s) = true.
Proof.
  revert b. induction s as [|c s IH]; intros b; [done|]. cbn [dash_runs]. destruct (is_safe c) eqn:Hc; [cbn; by rewrite Hc, IH|].
  destruct b; [apply IH|]. cbn [sall]. by rewrite IH.
Qed.

Lemma rpartition_sall (P : ascii -> bool) s stem ext :
  rpartition_dot s = Some (stem, ext) -> sall P s = true -> sall P stem = true /\ sall P ext = true.
Proof.
  revert stem ext. induction s as [|c s IH]; intros stem ext; [done|]. cbn [rpartition_dot sall].
  intros H [Hc Hs]%andb_true_iff. destruct (rpartition_dot s) as [[st ex]|] eqn:E.
  - injection H as <- <-. destruct (IH _ _ eq_refl Hs) as [H1 H2]. cbn. by rewrite Hc, H1.
  - destruct (c =? ".")%char; [|done]. by injection H as <- <-.
Qed.

Lemma sanitized_safe filename n : 0 < n ->
  sall is_safe (sanitize_filename filename n) = true /\ sanitize_filename filename n <> "".
Proof.
  intros Hn. unfold sanitize_filename. set (cleaned := strip_of is_edge _).
  assert (Hc : sall is_safe cleaned = true) by (apply strip_of_sall, dash_runs_safe).
  set (name := if String.eqb cleaned "" then "file" else cleaned).
  assert (Hname : sall is_safe name = true /\ name <> "").
  { unfold name. destruct (String.eqb_spec cleaned ""); by split. }
  clearbody name. destruct Hname as [Hs Hne]. destruct (Z.ltb_spec n (Z.of_nat (String.length name))) as [Hlong|]; [|done].
  assert (He : exists stem ext, default ("", name) (rpartition_dot name) = (stem, ext) /\ sall is_safe stem = true /\ sall is_safe ext = true).
  { destruct (rpartition_dot name) as [[stem ext]|] eqn:E; cbn [default from_option id]; [|by exists "", name].
    exists stem, ext. split; [done|]. by eapply rpartition_sall. }
  destruct He as (stem & ext & -> & Hst & Hex). destruct (String.eqb_spec ext "").
  - split; [by apply sprefix_sall|]. unfold sprefix. replace (0 <=? n) with true by lia.
    destruct name as [|c s]; [done|]. by destruct (Z.to_nat n) eqn:E; [lia|].
  - rewrite sall_append, sprefix_sall by done. change (append "." ext) with (String "." ext). cbn [sall]. rewrite Hex.
    split; [done|]. by destruct (sprefix _ stem).
Qed.

Definition no_slash (s : string) : bool := sall (fun c => negb (c =? "/")%char) s.
Lemma safe_no_slash s : sall is_safe s = true -> no_slash s = true.
Proof. apply sall_impl. by intros [[] [] [] [] [] [] [] []]. Qed.

Lemma str_of_Z_no_slash n : no_slash (str_of_Z n) = true.
Proof.
  unfold no_slash, str_of_Z. destruct (decide (0 <= n)).
  - apply (pretty_all _ n); [done|]. by intros [[] [] [] [] [] [] [] []].
  - destruct n as [|p|p]; [lia..|]. change (pretty (Z.neg p)) with (String "-" (pretty (Z.pos p))).
    cbn [sall]. apply (pretty_all _ (Z.pos p)); [lia|]. by intros [[] [] [] [] [] [] [] []].
Qed.
Lemma zero_pad_no_slash w n : no_slash (zero_pad w n) = true.
Proof.
  unfold zero_pad, no_slash. rewrite sall_append. apply andb_true_iff. split; [|apply str_of_Z_no_slash].
  generalize (w - String.length (str_of_Z n))%nat as k. induction k; [done|]. done.
Qed.

(** A key is six segments, the first of which is the visibility asked for. *)
Lemma key_segments v category owner_id filename unique now :
  no_slash category = true -> no_slash owner_id = true -> no_slash unique = true ->
  split_char "/" (build_key v category owner_id filename unique now) =
  [visibility_prefix v; category; owner_id; str_of_Z (year now); zero_pad 2 (month now);
   append unique (append "-" (sanitize_filename filename 120))].
Proof.
  intros Hc Ho Hu. unfold build_key. cbn [String.concat]. unfold no_slash in *.
  repeat match goal with |- context [append "/" ?x] => change (append "/" x) with (String "/" x) end.
  rewrite (split_char_append "/" (visibility_prefix v)) by (by destruct v). f_equal.
  rewrite (split_char_append "/" category) by done. f_equal.
  rewrite (split_char_append "/" owner_id) by done. f_equal.
  rewrite (split_char_append "/" (str_of_Z _)) by apply str_of_Z_no_slash. f_equal.
  rewrite (split_char_append "/" (zero_pad _ _)) by apply zero_pad_no_slash. f_equal.
  apply split_char_none. rewrite !sall_append, Hu.
  pose proof (safe_no_slash _ (proj1 (sanitized_safe filename 120 ltac:(lia)))) as Hf. unfold no_slash in Hf. by rewrite Hf.
Qed.

(** *** What an upload target admits *)

Section upload.
Context (settings : StorageSettings) (fault : string -> string -> option s3_error) (presign : string -> string -> Z -> string).

(** Whatever file name the browser sends, an upload target stores one
    object under the visibility the caller chose, in the folder of that
    category and owner, under a last segment of letters, digits, dots, dashes
    and underscores; and the signed policy admits only a content type of the
    category and a size between one byte and the maximum. *)
Theorem upload_target_confines category owner_id filename content_type v max_bytes expires_in unique now b target b' :
  no_slash category = true -> no_slash owner_id = true -> sall is_safe unique = true ->
  create_upload_target settings fault presign category owner_id filename content_type v max_bytes expires_in unique now b = (Ok target, b') ->
  b' = b /\
  (exists name, split_char "/" (po_key (ut_policy target)) =
     [visibility_prefix v; category; owner_id; str_of_Z (year now); zero_pad 2 (month now); name] /\ sall is_safe name = true) /\
  forall key type size age, post_accepted (ut_policy target) key type size age = true ->
    key = po_key (ut_policy target) /\ 1 <= size <= max_bytes /\ exists types, allowed_types category = Some types /\ type ∈ types.
Proof.
  intros Hc Ho Hu H. unfold create_upload_target in H. run_step H. unfold of_result in Hrun. injection Hrun as Hv <-.
  cbv zeta in H. unfold s3_call in H. destruct (fault _ _); [done|]. injection H as <- <-.
  split; [done|]. cbn [ut_policy po_key po_content_type po_min_bytes po_max_bytes po_expires_in]. split.
  - eexists. split; [apply key_segments; [done|done|by apply safe_no_slash]|].
    rewrite !sall_append, Hu. cbn [sall]. by destruct (sanitized_safe filename 120 ltac:(lia)) as [-> _].
  - unfold post_accepted. cbn. intros key type size age H. bool_to_prop.
    repeat match goal with E : String.eqb _ _ = true |- _ => apply String.eqb_eq in E; subst end.
    split; [done|]. split; [lia|]. unfold validate_content_type in Hv. destruct (allowed_types category) as [types|]; [|done].
    exists types. split; [done|]. case_bool_decide; done.
Qed.
End upload.

(** *** Objects *)

Section objects.
Context (fault : string -> string -> option s3_error) (guess_type : string -> option string).

(** What was put is read back, and stays until it is put again or deleted. *)
Lemma put_then_get key data content_type cache now b so b' :
  put_object fault guess_type key data content_type cache now b = (Ok so, b') ->
  fault "get_object" key = None -> get_bytes fault key b' = (Ok data, b').
Proof.
  unfold put_object, s3_call. destruct (fault "put_object" key); [done|]. intros [= _ <-] Hf.
  unfold get_bytes, fetch_object, s3_call, mbind, M_bind, get. rewrite Hf.
  cbn. by rewrite lookup_insert_eq.
Qed.

(** [exists] answers from the bucket; an outage is an error, never "no". *)
Lemma exists_object_ok key b r b' : exists_object fault key b = (r, b') ->
  (fault "head_object" key = None -> r = Ok (bool_decide (is_Some (b !! key))) /\ b' = b) /\
  (fault "head_object" key = Some BotoCoreError -> r = Raise (app_error UpstreamError "") /\ b' = b).
Proof.
  unfold exists_object, head_object, fetch_object, s3_call. destruct (fault "head_object" key) as [[]|] eqn:Hf; intros H; (split; [intros ?|intros ?]); simplify_eq; try done.
  - unfold mbind, M_bind in H; cbn in H. by injection H as <- <-.
  - unfold mbind, M_bind, get in H; cbn in H. destruct (b !! key); injection H as <- <-; done.
Qed.
End objects.

(** ** At work *)

Definition local_storage : StorageSettings := mkStorageSettings "knowledgeos" (Some "http://minio:9000") (Some "https://files.example/") 900.
Definition plain_sign (op key : string) (ttl : Z) : string := append "http://minio:9000/knowledgeos/" key.
Definition no_fault (method key : string) : option s3_error := None.
Definition sample_target := (create_upload_target local_storage no_fault plain_sign "cover" "7" "../../my cover!.png" "image/png"
  Visibility.PUBLIC 5000000 None "0123456789ab" 0 ∅).1.

Lemma upload_target_confines_witness : exists target, sample_target = Ok target /\
  ut_url target = "https://files.example/knowledgeos/public/cover/7/1970/01/0123456789ab-my-cover-.png" /\
  post_accepted (ut_policy target) (po_key (ut_policy target)) "image/svg+xml" 10 0 = false /\
  forall key type size age, post_accepted (ut_policy target) key type size age = true ->
    key = po_key (ut_policy target) /\ 1 <= size <= 5000000 /\ exists types, allowed_types "cover" = Some types /\ type ∈ types.
Proof.
  eexists. split; [vm_compute; reflexivity|]. split; [reflexivity|]. split; [reflexivity|].
  apply (upload_target_confines local_storage no_fault plain_sign "cover" "7" "../../my cover!.png" "image/png"
    Visibility.PUBLIC 5000000 None "0123456789ab" 0 ∅ _ ∅); vm_compute; reflexivity.
Defined.

(** A long name without an extension is not shortened: it grows by a leading dot. *)
Example long_name_grows :
  let long := String.concat "" (repeat "abcdefghij" 13) in
  String.length long = 130%nat /\ sanitize_filename long 120 = append "." long.
Proof. by vm_compute. Qed.
