(* ===== verification/SearchDocs.v ===== *)
(** * Search documents and their sources (apps/search/services/documents.py, meili.py, catalogue.py)

    A record of the books service rendered into an index document, what the
    search engine's answers mean to the service, and the walk over the books
    service's pages.  Ratings are numbers on the wire; the logarithms of the
    popularity score are [popularity_of]. *)

From S2P Require Import Prelude Store Json Dates Http.

Abbreviation document := (list (string * json)) (only parsing).

(** ** Price buckets *)

(** PRICE_BUCKETS *)
Definition SEARCH_BUCKETS : list (string * Z * option Z) :=
  [("free", 0, Some 0); ("under_199", 1, Some 19900); ("199_499", 19901, Some 49900); ("499_999", 49901, Some 99900); ("over_999", 99901, None)].
Definition price_bucket (price_minor : Z) : string :=
  match List.find (fun r => (r.1.2 <=? price_minor) && match r.2 with Some h => price_minor <=? h | None => true end) SEARCH_BUCKETS with
  | Some r => r.1.1
  | None => "over_999"
  end.

(** ** Times *)

(** Days since the epoch of a date (proleptic Gregorian). *)
Definition days_from_civil (y m d : Z) : Z :=
  let y := if m <=? 2 then y - 1 else y in
  let doy := (153 * (if 2 <? m then m - 3 else m + 9) + 2) / 5 + d - 1 in
  let yoe := y mod 400 in
  y / 400 * 146097 + (yoe * 365 + yoe / 4 - yoe / 100 + doy) - 719468.

(** [n] decimal digits at the head of a text. *)
Fixpoint take_digits (n : nat) (acc : Z) (s : string) : option (Z * string) :=
  match n, s with
  | O, _ => Some (acc, s)
  | S n, String c s' => if is_digit c then take_digits n (acc * 10 + Z.of_N (N_of_ascii c - 48)) s' else None
  | S _, "" => None
  end.
Definition expect (c : ascii) (s : string) : option string :=
  match s with String d s' => if (d =? c)%char then Some s' else None | "" => None end.

(** An offset at the end: none, or [+HH:MM] / [-HH:MM]. *)
Definition parse_offset (s : string) : option Z :=
  match s with
  | "" => Some 0
  | String c s' =>
      '(h, s') ← take_digits 2 0 s'; s' ← expect ":" s'; '(m, s') ← take_digits 2 0 s';
      if negb (String.eqb s' "") || negb ((h <? 24) && (m <? 60)) then None
      else if (c =? "+")%char then Some (h * 3600 + m * 60) else if (c =? "-")%char then Some (- (h * 3600 + m * 60)) else None
  end.
(** [datetime.fromisoformat] on the layouts of ISO 8601 the platform writes:
    a date, or a date and a time with optional microseconds and offset; a time
    without an offset is read as UTC, as the caller does.  The result is
    [int(moment.timestamp())]. *)
Definition iso_timestamp (s : string) : option Z :=
  '(y, s) ← take_digits 4 0 s; s ← expect "-" s; '(m, s) ← take_digits 2 0 s; s ← expect "-" s; '(d, s) ← take_digits 2 0 s;
  let day := days_from_civil y m d in
  if negb ((1 <=? y) && (1 <=? m) && (m <=? 12) && (1 <=? d) && bool_decide (civil (day * DAY) = (y, m, d))) then None else
  match s with
  | "" => Some (day * 86400)
  | String _ s =>
      '(h, s) ← take_digits 2 0 s; s ← expect ":" s; '(mi, s) ← take_digits 2 0 s; s ← expect ":" s; '(sec, s) ← take_digits 2 0 s;
      '(us, s) ← (match expect "." s with Some s => take_digits 6 0 s | None => Some (0, s) end);
      off ← parse_offset s;
      if negb ((h <? 24) && (mi <? 60) && (sec <? 60)) then None
      else Some (day * 86400 + h * 3600 + mi * 60 + sec - off + (if (0 <? us) && (day * 86400 + h * 3600 + mi * 60 + sec - off <? 0) then 1 else 0))
  end.

(** [value.replace("Z", "+00:00")] *)
Fixpoint zulu (s : string) : string :=
  match s with "" => "" | String c s' => if (c =? "Z")%char then append "+00:00" (zulu s') else String c (zulu s') end.
Definition timestamp (v : json) : json :=
  match v with
  | JNull => JNull
  | _ => match iso_timestamp (zulu (jstr v)) with Some t => JInt t | None => JNull end
  end.

(** ** Documents *)

Definition field (k : string) (d : document) : json := default JNull (fields_get k d).

Definition person (entry : json) : option (string * string * string) :=
  match entry with
  | JObj l =>
      let name := strip (jstr (jor (field "name" l) (jor (field "title" l) (JStr "")))) in
      if String.eqb name "" then None
      else Some (jstr (jget_default "id" (JStr "") (JObj l)), jstr (jget_default "slug" (JStr "") (JObj l)), name)
  | JStr s => if String.eqb (strip s) "" then None else Some ("", "", strip s)
  | _ => None
  end.
Definition people (raw : json) : list (string * string * string) :=
  match raw with JList l => omap person l | _ => [] end.
Definition person_json (p : string * string * string) : json :=
  JObj [("id", JStr p.1.1); ("slug", JStr p.1.2); ("name", JStr p.2)].
Definition texts (l : list string) : json := JList (map JStr l).
Definition name_of_publisher (raw : json) : json :=
  match raw with
  | JObj l => if jtruthy (field "name" l) then JStr (jstr (field "name" l)) else JNull
  | _ => if jtruthy raw then JStr (jstr raw) else JNull
  end.
Definition strings (raw : json) : json :=
  match raw with
  | JList l => texts (List.filter (fun s => negb (String.eqb s "")) (map (fun v => strip (jstr v)) l))
  | _ => JList []
  end.

(** [int(v or 0)], and [float(v or 0.0)] of a number. *)
Definition int_or_zero (v : json) : result Z := opt_result ValueErr (jint (jor v (JInt 0))).
Definition not_empty (l : list string) : list string := List.filter (fun s => negb (String.eqb s "")) l.

Section documents.
Context (popularity_of : Z -> Z -> Z -> Z -> json) (sha256_of : document -> string).

Definition popularity (book : document) : result json :=
  rating ← int_or_zero (field "rating_average" book);
  ratings ← int_or_zero (field "rating_count" book);
  views ← int_or_zero (field "view_count" book);
  purchases ← int_or_zero (field "purchase_count" book);
  Ok (popularity_of rating ratings views purchases).

Definition build_book_document (book : document) : result document :=
  let get k := field k book in
  let authors := people (get "authors") in
  let categories := people (get "categories") in
  price ← (match get "effective_price_minor" with
           | JNull => int_or_zero (get "price_minor")
           | v => opt_result ValueErr (jint v)
           end);
  rating_count ← int_or_zero (get "rating_count");
  review_count ← opt_result ValueErr (jint (jor (get "review_count") (JInt rating_count)));
  rating ← (match get "rating_average" with JNull => Ok 0 | v => opt_result ValueErr (jint v) end);
  popular ← popularity book;
  Ok [("id", JStr (jstr (jget_default "id" (JStr "") (JObj book))));
      ("slug", JStr (jstr (jget_default "slug" (JStr "") (JObj book))));
      ("title", JStr (jstr (jor (get "title") (JStr ""))));
      ("subtitle", get "subtitle");
      ("description", JStr (jstr (jor (get "description") (JStr ""))));
      ("summary", get "summary");
      ("authors", JList (map person_json authors));
      ("author_names", texts (map snd authors));
      ("author_slugs", texts (not_empty (map (fun p => p.1.2) authors)));
      ("author_ids", texts (not_empty (map (fun p => p.1.1) authors)));
      ("categories", JList (map person_json categories));
      ("category_names", texts (map snd categories));
      ("category_slugs", texts (not_empty (map (fun p => p.1.2) categories)));
      ("category_ids", texts (not_empty (map (fun p => p.1.1) categories)));
      ("tags", strings (jor (get "ai_tags") (get "tags")));
      ("formats", strings (jor (get "available_formats") (get "formats")));
      ("language", JStr (jstr (jor (get "language") (JStr "en"))));
      ("publisher", name_of_publisher (get "publisher"));
      ("isbn", jor (get "isbn13") (jor (get "isbn10") (get "isbn")));
      ("price_minor", JInt price);
      ("currency", JStr (jstr (jor (get "currency") (JStr "INR"))));
      ("compare_at_price_minor", match get "discount_price_minor" with JNull => get "compare_at_price_minor" | _ => get "price_minor" end);
      ("is_free", JBool (price =? 0));
      ("price_bucket", JStr (price_bucket price));
      ("rating_average", JInt rating);
      ("rating_count", JInt rating_count);
      ("review_count", JInt review_count);
      ("cover_url", get "cover_url");
      ("cover_key", get "cover_key");
      ("thumbnail_key", get "thumbnail_key");
      ("page_count", get "page_count");
      ("reading_minutes", get "reading_minutes");
      ("status", JStr (jstr (jor (get "status") (JStr "published"))));
      ("published_at", get "published_at");
      ("published_at_ts", timestamp (get "published_at"));
      ("created_at_ts", timestamp (get "created_at"));
      ("popularity", popular)].

Definition build_author_document (a : document) : result document :=
  books ← int_or_zero (field "book_count" a);
  rating ← int_or_zero (field "rating_average" a);
  Ok [("id", JStr (jstr (jget_default "id" (JStr "") (JObj a)))); ("slug", JStr (jstr (jget_default "slug" (JStr "") (JObj a))));
      ("name", JStr (jstr (jor (field "name" a) (JStr "")))); ("bio", field "bio" a); ("avatar_url", field "avatar_url" a);
      ("book_count", JInt books); ("rating_average", JInt rating);
      ("is_featured", JBool (jtruthy (jget_default "is_featured" (JBool false) (JObj a))))].

Definition build_category_document (c : document) : result document :=
  books ← int_or_zero (field "book_count" c);
  position ← int_or_zero (field "position" c);
  Ok [("id", JStr (jstr (jget_default "id" (JStr "") (JObj c)))); ("slug", JStr (jstr (jget_default "slug" (JStr "") (JObj c))));
      ("name", JStr (jstr (jor (field "name" c) (JStr "")))); ("description", field "description" c);
      ("parent_slug", field "parent_slug" c); ("icon", field "icon" c);
      ("book_count", JInt books); ("position", JInt position);
      ("is_active", JBool (jtruthy (jget_default "is_active" (JBool true) (JObj c))))].
End documents.

Definition document_id (d : document) : string := jstr (jget_default "id" (JStr "") (JObj d)).

(** ** The engine's answers (services/meili.py) *)

Definition search_unavailable : exn := app_error ServiceUnavailableError "search_unavailable".
(** [MeiliClient.request]: unreachable, late and broken are one failure; a
    missing index or document is no value; a refusal is our own mistake. *)
Definition meili_request (o : attempt_outcome) : result json :=
  match o with
  | Response status body =>
      if 500 <=? status then Raise search_unavailable
      else if status =? 404 then Ok JNull
      else if 400 <=? status then Raise (app_error UpstreamError "search_request_rejected")
      else match body with NoContent => Ok JNull | NotJson => Raise ValueErr | JsonContent v => Ok v end
  | _ => Raise search_unavailable
  end.
(** [search]: a missing index is an empty result. *)
Definition meili_search (o : attempt_outcome) : result json :=
  v ← meili_request o;
  Ok (match v with JNull => JObj [("hits", JList []); ("estimatedTotalHits", JInt 0); ("processingTimeMs", JInt 0)] | v => v end).
Definition multi_search (o : attempt_outcome) : result (list json) :=
  v ← meili_request o;
  if negb (jtruthy v) then Ok [] else
  match v with JObj l => match default (JList []) (fields_get "results" l) with JList r => Ok r | _ => Raise TypeErr end | _ => Raise AttributeErr end.

(** Whether the engine carried the request out. *)
Definition performed (o : attempt_outcome) : bool :=
  match o with Response status _ => status <? 400 | _ => false end.

(** ** The books service (services/catalogue.py) *)

(** [get_book]: a missing book is an answer. *)
Definition gateway_book (answer : result json) : result (option document) :=
  match answer with
  | Raise (UpstreamStatus code status) => if status =? 404 then Ok None else Raise (UpstreamStatus code status)
  | Raise e => Raise e
  | Ok (JObj l) => Ok (Some l)
  | Ok _ => Ok None
  end.

(** One page of [_iter_pages]: the records to yield and the cursor to go on with. *)
Definition page_step (max_documents seen : Z) (payload : json) : result (option (list json * Z * option string)) :=
  payload ← (match payload with JObj l => Ok l | v => if jtruthy v then Raise AttributeErr else Ok [] end);
  items ← (match default (JList []) (fields_get "items" payload) with JList l => Ok l | _ => Raise TypeErr end);
  if bool_decide (items = []) then Ok None else
  let items := take (Z.to_nat (max_documents - seen)) items in
  let seen := seen + Z.of_nat (length items) in
  let cursor := jopt_str (field "next_cursor" payload) in
  Ok (Some (items, seen, if truthy cursor && (seen <? max_documents) then cursor else None)).
