(* ===== verification/SearchIndex.v ===== *)
(** * The search index (apps/search/services/indexer.py, routers/admin.py)

    The ledger of what the engine was sent, the handler of book events, bulk
    writes, rebuilds and reconciliation.  The ledger is read by its unique key
    (index, document), and is a map from it; rows added in a session are
    written when it commits.  The n-th call to the engine meets [engine_answer n],
    the n-th call to the books service is answered by [book_answer n] and
    [page_answer n].  A request the engine does not answer with a success is
    taken as not carried out, and batches in flight are sent one after the
    other. *)

From S2P Require Import Prelude Store Triples Json Http SearchDocs.

(** ** Rows (apps/search/models.py) *)

Record IndexedDocument := mkIndexed {
  ix_checksum : string;
  ix_last_event_id : option string;
  ix_last_event_type : option string;
  ix_revision : Z;
  ix_indexed_at : datetime;
  ix_deleted_at : option datetime;
}.

Record ReindexRun := mkRun {
  ru_id : uuid;
  ru_index_name : string;
  ru_mode : string;
  ru_status : string;
  ru_triggered_by : string;
  ru_seen : Z;
  ru_indexed : Z;
  ru_deleted : Z;
  ru_failed : Z;
  ru_started_at : datetime;
  ru_finished_at : option datetime;
  ru_error : option exn;
}.
#[export] Instance ReindexRun_row : Row ReindexRun := ru_id.

Abbreviation index_key := (string * string)%type (only parsing).

(** The service's tables, the engine's documents, and the calls made so far. *)
Record SearchWorld := mkWorld {
  ledger : gmap (string * string) IndexedDocument;
  runs : table ReindexRun;
  engine : gmap (string * string) document;
  calls : nat;
}.
Definition set_ledger x w := mkWorld x (runs w) (engine w) (calls w).
Definition set_runs x w := mkWorld (ledger w) x (engine w) (calls w).
Definition set_engine x w := mkWorld (ledger w) (runs w) x (calls w).
Definition called w := mkWorld (ledger w) (runs w) (engine w) (S (calls w)).

Record BookEvent := mkBookEvent { be_id : string; be_type : string; be_payload : document }.
Definition UPSERT_EVENTS : list string := ["book.published"; "book.updated"].
Definition REMOVE_EVENTS : list string := ["book.unpublished"; "book.deleted"].

Record SearchSettings := mkSearchSettings {
  books_index : string;
  authors_index : string;
  categories_index : string;
  index_batch_size : Z;
  reconcile_max_documents : Z;
}.
Definition index_names (s : SearchSettings) : list string := [books_index s; authors_index s; categories_index s].

(** ** The ledger *)

Definition should_apply (l : gmap (string * string) IndexedDocument) (key : string * string) (event_id content_hash : option string)
    (force : bool) : bool :=
  force ||
  match l !! key with
  | None => true
  | Some row =>
      negb (truthy event_id && bool_decide (ix_last_event_id row = event_id)) &&
      negb (truthy content_hash && bool_decide (Some (ix_checksum row) = content_hash) && bool_decide (ix_deleted_at row = None))
  end.

(** A session's rows: those it read, changed in place, and those it added. *)
Record LedgerSession := mkSession { stored : gmap (string * string) IndexedDocument; added : list ((string * string) * IndexedDocument) }.

Definition record_row (key : string * string) (content_hash : string) (event_id event_type : option string) (deleted : bool)
    (now : datetime) (s : LedgerSession) : LedgerSession :=
  let deleted_at := if deleted then Some now else None in
  match stored s !! key with
  | None => mkSession (stored s) (added s ++ [(key, mkIndexed content_hash event_id event_type 1 now deleted_at)])
  | Some row =>
      mkSession (<[key := mkIndexed content_hash event_id event_type (ix_revision row + 1) now deleted_at]> (stored s)) (added s)
  end.

(** The flush at the commit: a second row under one key breaks uq_indexed_documents. *)
Fixpoint insert_rows (l : gmap (string * string) IndexedDocument) (rows : list ((string * string) * IndexedDocument))
    : result (gmap (string * string) IndexedDocument) :=
  match rows with
  | [] => Ok l
  | (key, row) :: rows => if bool_decide (is_Some (l !! key)) then Raise IntegrityErr else insert_rows (<[key := row]> l) rows
  end.
Definition commit_ledger (s : LedgerSession) : M SearchWorld unit :=
  l ← of_result (insert_rows (stored s) (added s));
  modify (set_ledger l).
Definition open_ledger : M SearchWorld LedgerSession := w ← get; mret (mkSession (ledger w) []).

(** Live documents of the ledger that are not among [keep_ids], marked deleted. *)
Definition stale_ids (l : gmap (string * string) IndexedDocument) (index : string) (keep_ids : list string) : list string :=
  map (fun kr => kr.1.2)
    (List.filter (fun kr => bool_decide (kr.1.1 = index) && bool_decide (ix_deleted_at kr.2 = None) && negb (bool_decide (kr.1.2 ∈ keep_ids)))
       (map_to_list l)).
Definition mark_deleted (now : datetime) (row : IndexedDocument) : IndexedDocument :=
  mkIndexed (ix_checksum row) (ix_last_event_id row) (ix_last_event_type row) (ix_revision row) (ix_indexed_at row) (Some now).
Definition mark_missing_deleted (now : datetime) (l : gmap (string * string) IndexedDocument) (index : string) (keep_ids : list string)
    : list string * gmap (string * string) IndexedDocument :=
  let stale := stale_ids l index keep_ids in
  (stale, map_imap (fun k row => Some (if bool_decide (k.1 = index) && bool_decide (k.2 ∈ stale) then mark_deleted now row else row)) l).

Section indexer.
Context (settings : SearchSettings) (engine_answer : nat -> attempt_outcome).
Context (checksum : document -> string) (build : string -> document -> result document) (now : datetime).

(** ** The engine *)

Definition meili_call (f : gmap (string * string) document -> gmap (string * string) document) : M SearchWorld unit := fun w =>
  let o := engine_answer (calls w) in
  let w := called w in
  (match meili_request o with Ok _ => Ok tt | Raise e => Raise e end, if performed o then set_engine (f (engine w)) w else w).
Definition add_documents (index : string) (docs : list document) : M SearchWorld unit :=
  meili_call (fun e => foldl (fun e d => <[(index, document_id d) := d]> e) e docs).
Definition delete_documents (index : string) (ids : list string) : M SearchWorld unit :=
  meili_call (filter (fun kd => kd.1.1 <> index \/ kd.1.2 ∉ ids)).
Definition delete_all_documents (index : string) : M SearchWorld unit := meili_call (filter (fun kd => kd.1.1 <> index)).

(** ** The books service *)

Context (catalogue : option (nat -> string -> result json)).

Definition fetch_catalogue_book (answer : nat -> string -> result json) (id : string) : M SearchWorld (option document) := fun w =>
  (gateway_book (answer (calls w) id), called w).
Definition suppress_errors (m : M SearchWorld (option document)) : M SearchWorld (option document) := fun w =>
  match m w with (Raise _, w') => (Ok None, w') | r => r end.

(** [_load_book] *)
Definition load_indexed_book (id : string) (payload : document) : M SearchWorld (option document) :=
  found ← (match catalogue with Some answer => suppress_errors (fetch_catalogue_book answer id) | None => mret None end);
  match found with
  | Some book => mret (Some book)
  | None =>
      if jtruthy (field "title" payload) && jtruthy (field "slug" payload) then mret (Some payload)
      else match catalogue with Some answer => fetch_catalogue_book answer id | None => mret None end
  end.

(** A session around [m]: what [m] wrote is kept when it commits. *)
Definition in_session {A} (m : M SearchWorld A) : M SearchWorld A := fun w =>
  match m w with
  | (Raise e, w') => (Raise e, mkWorld (ledger w) (runs w) (engine w') (calls w'))
  | r => r
  end.

(** Write the ledger row of one document and commit. *)
Definition record_one (key : string * string) (content_hash : string) (event_id event_type : option string) (deleted : bool)
    : M SearchWorld unit :=
  s ← open_ledger;
  commit_ledger (record_row key content_hash event_id event_type deleted now s).

(** ** Events *)

Definition event_book_id (ev : BookEvent) : string :=
  jstr (jor (field "book_id" (be_payload ev)) (jor (field "id" (be_payload ev)) (JStr ""))).

Definition handle_book_event (ev : BookEvent) : M SearchWorld string :=
  let book_id := event_book_id ev in
  let index := books_index settings in
  let record_with hash deleted := record_one (index, book_id) hash (Some (be_id ev)) (Some (be_type ev)) deleted in
  if String.eqb book_id "" then mret "ignored" else
  in_session (
    w ← get;
    if bool_decide (be_type ev ∈ REMOVE_EVENTS) then
      if negb (should_apply (ledger w) (index, book_id) (Some (be_id ev)) None false) then mret "duplicate" else
      _ ← delete_documents index [book_id];
      _ ← record_with "" true;
      mret "removed"
    else if negb (bool_decide (be_type ev ∈ UPSERT_EVENTS)) then mret "ignored" else
    book ← load_indexed_book book_id (be_payload ev);
    match book with
    | None =>
        _ ← delete_documents index [book_id];
        _ ← record_with "" true;
        mret "removed"
    | Some book =>
        doc ← of_result (build index book);
        if negb (should_apply (ledger w) (index, book_id) (Some (be_id ev)) (Some (checksum doc)) false) then mret "duplicate" else
        _ ← add_documents index [doc];
        _ ← record_with (checksum doc) false;
        mret "indexed"
    end).

(** ** Bulk writes *)

(** The batches of [_push_batches]. *)
Fixpoint batches (fuel : nat) (size : nat) (docs : list document) : list (list document) :=
  match fuel, docs with
  | _, [] | O, _ => []
  | S fuel, _ => take size docs :: batches fuel size (drop size docs)
  end.

(** An unavailable engine stops the work; another refusal fails the batch only. *)
Fixpoint push_all (index : string) (bs : list (list document)) (accepted : list document) (failed : Z) : M SearchWorld (list document * Z) :=
  match bs with
  | [] => mret (accepted, failed)
  | b :: bs => fun w =>
      match add_documents index b w with
      | (Ok _, w') => push_all index bs (accepted ++ b) failed w'
      | (Raise (AppErr ServiceUnavailableError code), w') => (Raise (AppErr ServiceUnavailableError code), w')
      | (Raise _, w') => push_all index bs accepted (failed + Z.of_nat (length b)) w'
      end
  end.
Definition push_batches (index : string) (docs : list document) : M SearchWorld (list document * Z) :=
  push_all index (batches (length docs) (Z.to_nat (Z.max 1 (index_batch_size settings))) docs) [] 0.

(** The documents to send, and how many were skipped. *)
Definition worth_sending (l : gmap (string * string) IndexedDocument) (index : string) (event_id : option string) (force : bool) (d : document) : bool :=
  should_apply l (index, document_id d) event_id (Some (checksum d)) force.
Definition index_documents (index : string) (docs : list document) (event_id event_type : option string) (force : bool)
    : M SearchWorld (Z * Z * Z) :=
  w ← get;
  let named := List.filter (fun d => negb (String.eqb (document_id d) "")) docs in
  let pending := List.filter (worth_sending (ledger w) index event_id force) named in
  let skipped := Z.of_nat (length named) - Z.of_nat (length pending) in
  if bool_decide (pending = []) then mret (0, skipped, 0) else
  pushed ← push_batches index pending;
  _ ← (if bool_decide (pushed.1 = []) then mret tt else
       in_session (s ← open_ledger;
                   commit_ledger (foldl (fun s d => record_row (index, document_id d) (checksum d) event_id event_type false now s) s pushed.1)));
  mret (Z.of_nat (length pushed.1), skipped, pushed.2).

(** POST /internal/documents/delete *)
Definition remove_documents (index : string) (ids : list string) : M SearchWorld Z :=
  if bool_decide (ids = []) then mret 0 else
  _ ← delete_documents index ids;
  _ ← in_session (s ← open_ledger;
                  commit_ledger (foldl (fun s i => record_row (index, i) "" None (Some "manual.delete") true now s) s ids));
  mret (Z.of_nat (length ids)).

(** POST /internal/index/books: one session for all of them. *)
Fixpoint index_each (ids : list string) (s : LedgerSession) (indexed missing : Z) : M SearchWorld (LedgerSession * Z * Z) :=
  match ids with
  | [] => mret (s, indexed, missing)
  | id :: ids =>
      let index := books_index settings in
      book ← load_indexed_book id [];
      match book with
      | None =>
          _ ← delete_documents index [id];
          index_each ids (record_row (index, id) "" None (Some "automation.index") true now s) indexed (missing + 1)
      | Some book =>
          doc ← of_result (build index book);
          _ ← add_documents index [doc];
          index_each ids (record_row (index, id) (checksum doc) None (Some "automation.index") false now s) (indexed + 1) missing
      end
  end.
Definition index_book_ids (ids : list string) : M SearchWorld (Z * Z) :=
  in_session (
    s ← open_ledger;
    r ← index_each ids s 0 0;
    _ ← commit_ledger r.1.1;
    mret (r.1.2, r.2)).

(** ** Rebuilds *)

Context (page_answer : nat -> string -> option string -> result json).

Definition source_path (index : string) : string :=
  if String.eqb index (books_index settings) then "/internal/books"
  else if String.eqb index (authors_index settings) then "/internal/authors" else "/internal/categories".

Definition build_all (index : string) (records : list json) : result (list document) :=
  mapM (fun r => match r with JObj l => build index l | _ => Raise AttributeErr end) records.

(** The totals of a run: seen, indexed, failed, and the ids to keep. *)
Record Totals := mkTotals { t_seen : Z; t_indexed : Z; t_failed : Z; t_keep : list string }.

(** [async for page in pages]: a page adds to [seen], which stops the walk at the limit. *)
Fixpoint walk_pages (fuel : nat) (index mode : string) (force : bool) (read : Z) (cursor : option string) (t : Totals) : M SearchWorld Totals :=
  match fuel with
  | O => mret t
  | S fuel =>
      payload ← (fun w => (page_answer (calls w) (source_path index) cursor, called w));
      step ← of_result (page_step (reconcile_max_documents settings) read payload);
      match step with
      | None => mret t
      | Some (records, read, next) =>
          docs ← of_result (build_all index records);
          let docs := List.filter (fun d => negb (String.eqb (document_id d) "")) docs in
          r ← index_documents index docs None (Some (append mode ".run")) (force || String.eqb mode "full");
          let t := mkTotals (t_seen t + Z.of_nat (length docs)) (t_indexed t + r.1.1) (t_failed t + r.2) (t_keep t ++ map document_id docs) in
          match next with
          | Some _ => walk_pages fuel index mode force read next t
          | None => mret t
          end
      end
  end.

(** [_execute]: seen, indexed, deleted and failed. *)
Definition execute_run (index mode : string) (force : bool) : M SearchWorld (Z * Z * Z * Z) :=
  _ ← raise_when (bool_decide (catalogue = None)) (app_error ServiceUnavailableError "catalogue_unavailable");
  _ ← (if String.eqb mode "full" then
         _ ← delete_all_documents index;
         modify (fun w => set_ledger (map_imap (fun k row => Some (if bool_decide (k.1 = index) then mark_deleted now row else row)) (ledger w)) w)
       else mret tt);
  t ← walk_pages (S (Z.to_nat (reconcile_max_documents settings))) index mode force 0 None (mkTotals 0 0 0 []);
  deleted ← (if String.eqb mode "reconcile" && negb (bool_decide (t_keep t = [])) then
               in_session (
                 w ← get;
                 let '(stale, l) := mark_missing_deleted now (ledger w) index (t_keep t) in
                 _ ← modify (set_ledger l);
                 _ ← (if bool_decide (stale = []) then mret tt else delete_documents index stale);
                 mret (Z.of_nat (length stale)))
             else mret 0);
  mret (t_seen t, t_indexed t, deleted, t_failed t).

(** [run]: whatever happens is written to the run's row. *)
Definition start_run (id : uuid) (index mode triggered_by : string) : ReindexRun :=
  mkRun id index mode "running" (stake 120 triggered_by) 0 0 0 0 now None None.
Definition finish_run (r : result (Z * Z * Z * Z)) (run : ReindexRun) : ReindexRun :=
  let '(seen, indexed, deleted, failed) := match r with Ok t => t | Raise _ => (0, 0, 0, 0) end in
  mkRun (ru_id run) (ru_index_name run) (ru_mode run) (match r with Ok _ => "succeeded" | Raise _ => "failed" end)
    (ru_triggered_by run) seen indexed deleted failed (ru_started_at run) (Some now) (match r with Ok _ => None | Raise e => Some e end).
Definition run_index (id : uuid) (index mode triggered_by : string) (force : bool) : M SearchWorld ReindexRun :=
  let run := start_run id index mode triggered_by in
  _ ← modify (fun w => set_runs (save run (runs w)) w);
  r ← (fun w => let '(r, w') := execute_run index mode force w in (Ok r, w'));
  w ← get;
  match runs w !! id with
  | Some stored_run =>
      let stored_run := finish_run r stored_run in
      _ ← modify (fun w => set_runs (save stored_run (runs w)) w);
      mret stored_run
  | None => mret run
  end.

(** ** Routes (routers/admin.py) *)

Definition resolve_indexes (requested : option string) : result (list string) :=
  match requested with
  | None => Ok (index_names settings)
  | Some name => if bool_decide (name ∈ index_names settings) then Ok [name] else Raise (app_error NotFoundError "")
  end.
(** [acquired]: the lock's answer, where there is a Redis. *)
Definition reindex (ids : list uuid) (requested : option string) (mode triggered_by : string) (force : bool) (acquired : option bool)
    : M SearchWorld (list ReindexRun) :=
  names ← of_result (resolve_indexes requested);
  _ ← raise_when (bool_decide (acquired = Some false)) (app_error ConflictError "reindex_in_progress");
  for_acc (fun acc x => r ← run_index x.1 x.2 mode triggered_by force; mret (acc ++ [r])) [] (zip ids names).
Definition push_documents (index : option string) (docs : list document) : M SearchWorld (Z * Z * Z) :=
  let index := if truthy index then default "" index else books_index settings in
  _ ← of_result (resolve_indexes (Some index));
  index_documents index docs None None false.
End indexer.

Definition builder_for (settings : SearchSettings) (popularity_of : Z -> Z -> Z -> Z -> json) (index : string) : document -> result document :=
  if String.eqb index (books_index settings) then build_book_document popularity_of
  else if String.eqb index (authors_index settings) then build_author_document else build_category_document.

(** ** The ledger of a session *)

Lemma insert_rows_insert l rows key row l' :
  insert_rows l rows = Ok l' -> is_Some (l !! key) -> insert_rows (<[key := row]> l) rows = Ok (<[key := row]> l').
Proof.
  revert l. induction rows as [|[k r] rows IH]; intros l H Hk; cbn [insert_rows] in *; [by simplify_eq|].
  case_bool_decide as Hd; [done|]. assert (k <> key) by (intros ->; done).
  rewrite bool_decide_false by (by rewrite lookup_insert_ne). rewrite insert_insert_ne by done.
  apply IH; [done|]. by rewrite lookup_insert_ne.
Qed.

Lemma insert_rows_snoc l rows key row l' :
  insert_rows l rows = Ok l' -> l' !! key = None -> insert_rows l (rows ++ [(key, row)]) = Ok (<[key := row]> l').
Proof.
  revert l. induction rows as [|[k r] rows IH]; intros l H Hk; cbn [insert_rows app] in *.
  - simplify_eq. by rewrite bool_decide_false by (rewrite Hk; by intros [? ?]).
  - case_bool_decide; [done|]. by apply IH.
Qed.

Lemma insert_rows_lookup l rows l' key : insert_rows l rows = Ok l' -> key ∉ map fst rows -> l' !! key = l !! key.
Proof.
  revert l. induction rows as [|[k r] rows IH]; intros l H Hk; cbn [insert_rows map] in *; [by simplify_eq|].
  case_bool_decide; [done|]. apply not_elem_of_cons in Hk as [Hne Hk]. rewrite (IH _ H Hk). by rewrite lookup_insert_ne.
Qed.

(** What the session holds, once committed. *)
Definition holds (s : LedgerSession) (l : gmap (string * string) IndexedDocument) : Prop :=
  insert_rows (stored s) (added s) = Ok l.

(** The row a document is recorded with. *)
Definition row_for (hash : string) (event_id event_type : option string) (deleted : bool) (now : datetime) (old : option IndexedDocument)
    : IndexedDocument :=
  mkIndexed hash event_id event_type (match old with Some r => ix_revision r + 1 | None => 1 end) now (if deleted then Some now else None).

Lemma record_row_holds key hash event_id event_type deleted now s l :
  holds s l -> key ∉ map fst (added s) ->
  holds (record_row key hash event_id event_type deleted now s) (<[key := row_for hash event_id event_type deleted now (l !! key)]> l).
Proof.
  intros H Hk. pose proof (insert_rows_lookup _ _ _ _ H Hk) as Hl. unfold holds, record_row, row_for.
  rewrite Hl. destruct (stored s !! key) as [row|] eqn:E; cbn [stored added].
  - by apply insert_rows_insert; [|rewrite E].
  - apply insert_rows_snoc; [done|]. by rewrite Hl.
Qed.

Lemma record_row_added key hash event_id event_type deleted now s k :
  k ∈ map fst (added (record_row key hash event_id event_type deleted now s)) -> k = key \/ k ∈ map fst (added s).
Proof.
  unfold record_row. destruct (stored s !! key); cbn [added]; [auto|]. rewrite map_app; cbn [map fst]; rewrite elem_of_app, list_elem_of_singleton. naive_solver.
Qed.

(** Recording a list of distinct documents. *)
Lemma record_all_holds {A} (key : A -> string * string) (hash : A -> string) event_id event_type deleted now (docs : list A) : forall s l,
  holds s l -> NoDup (map key docs) -> (forall d, d ∈ docs -> key d ∉ map fst (added s)) -> exists l',
    holds (foldl (fun s d => record_row (key d) (hash d) event_id event_type deleted now s) s docs) l' /\
    (forall d, d ∈ docs -> l' !! key d = Some (row_for (hash d) event_id event_type deleted now (l !! key d))) /\
    (forall k, k ∉ map key docs -> l' !! k = l !! k).
Proof.
  induction docs as [|d docs IH]; intros s l Hs Hnd Hfresh; [exists l; set_solver|]. cbn [foldl map] in *.
  apply NoDup_cons in Hnd as [Hd Hnd].
  pose proof (record_row_holds (key d) (hash d) event_id event_type deleted now s l Hs (Hfresh d ltac:(constructor))) as Hs1.
  destruct (IH _ _ Hs1 Hnd) as (l' & Hl' & Hin & Hout).
  { intros x Hx [E|Hadd]%record_row_added; [|by apply (Hfresh x); [by constructor|]].
    apply Hd. rewrite <- E. by apply list_elem_of_fmap_2. }
  exists l'. split; [done|]. split.
  - intros x Hx. destruct (decide (key x = key d)) as [E|Hne].
    + apply elem_of_cons in Hx as [->|Hx]; [|exfalso; apply Hd; rewrite <- E; by apply list_elem_of_fmap_2].
      rewrite Hout by done. by rewrite lookup_insert_eq.
    + apply elem_of_cons in Hx as [->|Hx]; [done|]. rewrite Hin by done. by rewrite lookup_insert_ne.
  - intros k Hk. apply not_elem_of_cons in Hk as [Hne Hk]. rewrite Hout by done. by rewrite lookup_insert_ne.
Qed.

(** ** Events *)

Section events.
Context (settings : SearchSettings) (engine_answer : nat -> attempt_outcome).
Context (checksum : document -> string) (build : string -> document -> result document) (now : datetime).
Context (answer : nat -> string -> result json).

(** The documents that ever occur. *)
Context (known : document -> Prop).

(** What the ledger says of a document is what the engine holds. *)
Definition in_step (w : SearchWorld) (key : string * string) : Prop :=
  match ledger w !! key with
  | None => engine w !! key = None
  | Some row =>
      match ix_deleted_at row with
      | None => exists d, engine w !! key = Some d /\ known d /\ checksum d = ix_checksum row
      | Some _ => engine w !! key = None
      end
  end.
Definition truthful (w : SearchWorld) : Prop := forall key, in_step w key.

(** A write is carried out exactly when it is answered with a success. *)
Context (well_answered : forall n, performed (engine_answer n) = is_ok (meili_request (engine_answer n))).

Lemma meili_call_inv f w r w' : meili_call engine_answer f w = (r, w') ->
  (r = Ok tt /\ w' = set_engine (f (engine w)) (called w)) \/ ((exists e, r = Raise e) /\ w' = called w).
Proof.
  unfold meili_call. intros H. rewrite (well_answered (calls w)) in H. destruct (meili_request (engine_answer (calls w))) as [v|e]; cbn [is_ok] in H;
    injection H as <- <-; [left|right]; eauto.
Qed.

Lemma record_one_ok key hash event_id event_type deleted w :
  record_one now key hash event_id event_type deleted w =
  (Ok tt, set_ledger (<[key := row_for hash event_id event_type deleted now (ledger w !! key)]> (ledger w)) w).
Proof.
  unfold record_one. erewrite bind_ok by reflexivity. cbv beta. unfold commit_ledger.
  assert (H : holds (mkSession (ledger w) []) (ledger w)) by done.
  pose proof (record_row_holds key hash event_id event_type deleted now _ _ H ltac:(set_solver)) as Hh. unfold holds in Hh.
  rewrite Hh. reflexivity.
Qed.

Lemma load_book_calls id payload w r w' :
  load_indexed_book (Some answer) id payload w = (r, w') -> exists n, w' = mkWorld (ledger w) (runs w) (engine w) n.
Proof.
  unfold load_indexed_book, suppress_errors, fetch_catalogue_book, mbind, M_bind. destruct (gateway_book (answer (calls w) id)) as [[book|]|e]; cbn;
    repeat case_match; intros [= <- <-]; by eexists.
Qed.

Lemma delete_documents_lookup (index id : string) (e : gmap (string * string) document) (key : string * string) :
  filter (fun kd : (string * string) * document => kd.1.1 <> index \/ kd.1.2 ∉ [id]) e !! key = if decide (key = (index, id)) then None else e !! key.
Proof.
  destruct (decide (key = (index, id))) as [->|Hne].
  - apply map_lookup_filter_None. right. intros d _ [H|H]; [done|]. apply H. constructor.
  - destruct (e !! key) as [d|] eqn:E; [|apply map_lookup_filter_None; auto].
    apply map_lookup_filter_Some. split; [done|]. cbn. destruct key as [i k]. cbn.
    destruct (decide (i = index)) as [->|]; [|auto]. right. rewrite list_elem_of_singleton. congruence.
Qed.

(** One document sent or removed, and its row written. *)
Lemma in_step_other w w' key : ledger w' !! key = ledger w !! key -> engine w' !! key = engine w !! key -> in_step w key -> in_step w' key.
Proof. unfold in_step. by intros -> ->. Qed.

Lemma remove_one_truthful w index id event_id event_type r w' : truthful w ->
  (_ ← delete_documents engine_answer index [id]; record_one now (index, id) "" event_id event_type true) w = (r, w') ->
  (r = Ok tt /\ truthful w' /\ engine w' !! (index, id) = None) \/ (exists e, r = Raise e) /\ w' = called w.
Proof.
  intros Ht H. apply bind_inv in H as [(u & w1 & H1 & H2)|(e & H1 & ->)]; apply meili_call_inv in H1 as [[E ->]|[[e' E] ->]]; try done;
    [left|right; eauto].
  rewrite record_one_ok in H2. injection H2 as <- <-. cbn [ledger engine set_engine set_ledger called].
  assert (Hgone : filter (fun kd : (string * string) * document => kd.1.1 <> index \/ kd.1.2 ∉ [id]) (engine w) !! (index, id) = None)
    by (by rewrite delete_documents_lookup, decide_True).
  split; [done|]. split; [|done]. intros key. destruct (decide (key = (index, id))) as [->|Hne].
  - unfold in_step. cbn. by rewrite lookup_insert_eq.
  - apply (in_step_other w); [..|apply Ht]; cbn; [by rewrite lookup_insert_ne|by rewrite delete_documents_lookup, decide_False].
Qed.

Lemma add_one_truthful w index doc event_id event_type r w' : truthful w -> known doc ->
  (_ ← add_documents engine_answer index [doc]; record_one now (index, document_id doc) (checksum doc) event_id event_type false) w = (r, w') ->
  (r = Ok tt /\ truthful w' /\ engine w' !! (index, document_id doc) = Some doc) \/ (exists e, r = Raise e) /\ w' = called w.
Proof.
  intros Ht Hk H. apply bind_inv in H as [(u & w1 & H1 & H2)|(e & H1 & ->)]; apply meili_call_inv in H1 as [[E ->]|[[e' E] ->]]; try done;
    [left|right; eauto].
  rewrite record_one_ok in H2. injection H2 as <- <-. cbn [ledger engine set_engine set_ledger called foldl].
  split; [done|]. split; [|by rewrite lookup_insert_eq]. intros key. destruct (decide (key = (index, document_id doc))) as [->|Hne].
  - unfold in_step. cbn. rewrite !lookup_insert_eq. cbn. eauto.
  - apply (in_step_other w); [..|apply Ht]; cbn; by rewrite lookup_insert_ne.
Qed.

(** A document built from what the books service answers carries the id asked for. *)
Context (well_identified : forall n id book doc,
  gateway_book (answer n id) = Ok (Some book) -> build (books_index settings) book = Ok doc -> document_id doc = id /\ known doc).

(** No two documents that occur have one checksum. *)
Context (no_collision : forall d d' : document, known d -> known d' -> checksum d = checksum d' -> d = d').

Definition book_event_key (ev : BookEvent) : string * string := (books_index settings, event_book_id ev).
(** The events of the books service carry an id, a slug and a status, not a record. *)
Definition bare (ev : BookEvent) : Prop := jtruthy (field "title" (be_payload ev)) && jtruthy (field "slug" (be_payload ev)) = false.

Lemma load_book_bare ev w found w' : bare ev -> load_indexed_book (Some answer) (event_book_id ev) (be_payload ev) w = (Ok found, w') ->
  exists n, gateway_book (answer n (event_book_id ev)) = Ok found.
Proof.
  unfold bare, load_indexed_book, suppress_errors, fetch_catalogue_book, mbind, M_bind. intros ->.
  destruct (gateway_book (answer (calls w) (event_book_id ev))) as [[book|]|e] eqn:E; cbn.
  - intros [= <- _]. eauto.
  - destruct (gateway_book (answer (S (calls w)) _)) eqn:E2; intros [= <- _]; eauto.
  - destruct (gateway_book (answer (S (calls w)) _)) eqn:E2; intros [= <- _]; eauto.
Qed.

Let handle := handle_book_event settings engine_answer checksum build now (Some answer).

Lemma truthful_state w w' : ledger w' = ledger w -> engine w' = engine w -> truthful w -> truthful w'.
Proof. intros Hl He Ht key. specialize (Ht key). unfold in_step in *. by rewrite Hl, He. Qed.

(** A session whose work either succeeds or only made a call. *)
Lemma in_session_cases {A} (m : M SearchWorld A) w r w' (Q : A -> SearchWorld -> Prop) :
  in_session m w = (r, w') ->
  (forall r w', m w = (r, w') -> (exists a, r = Ok a /\ Q a w') \/ (exists e, r = Raise e) /\ engine w' = engine w) ->
  (exists a, r = Ok a /\ Q a w') \/ ((exists e, r = Raise e) /\ ledger w' = ledger w /\ engine w' = engine w).
Proof.
  unfold in_session. destruct (m w) as [[a|e] w1] eqn:E; intros [= <- <-] Hm; destruct (Hm _ _ eq_refl) as [(a' & Ha & HQ)|[[e' He] Hw]];
    try done; [left; eauto|right; eauto].
Qed.

Lemma then_report {A B C} (m : M SearchWorld A) (n : M SearchWorld B) (c : C) w r w' :
  (_ ← m; _ ← n; mret c) w = (r, w') ->
  exists r0, (_ ← m; n) w = (r0, w') /\ r = match r0 with Ok _ => Ok c | Raise e => Raise e end.
Proof.
  unfold mbind, M_bind. destruct (m w) as [[a|e] w1]; [|intros [= <- <-]; by exists (Raise e)].
  destruct (n w1) as [[b|e] w2]; intros [= <- <-]; [by exists (Ok b)|by exists (Raise e)].
Qed.

Lemma should_apply_false l key event_id hash :
  should_apply l key (Some event_id) hash false = false -> exists row, l !! key = Some row /\
    (ix_last_event_id row = Some event_id \/ hash = Some (ix_checksum row) /\ ix_deleted_at row = None).
Proof.
  unfold should_apply. destruct (l !! key) as [row|]; [|done]. cbn [orb]. intros H. exists row. split; [done|].
  apply andb_false_iff in H as [H|H]; apply negb_false_iff in H; bool_to_prop; auto.
Qed.

(** What the handler leaves behind, by what it reports. *)
Definition handled (ev : BookEvent) (w : SearchWorld) (report : string) (w' : SearchWorld) : Prop :=
  truthful w' /\
  (report = "ignored" /\ (event_book_id ev = "" \/ be_type ev ∉ REMOVE_EVENTS ++ UPSERT_EVENTS) /\ engine w' = engine w \/
   report = "duplicate" /\ engine w' = engine w /\
     ((exists row, ledger w !! book_event_key ev = Some row /\ ix_last_event_id row = Some (be_id ev)) \/
      be_type ev ∉ REMOVE_EVENTS /\ exists n book doc, gateway_book (answer n (event_book_id ev)) = Ok (Some book) /\
        build (books_index settings) book = Ok doc /\ engine w !! book_event_key ev = Some doc) \/
   report = "removed" /\ engine w' !! book_event_key ev = None /\
     (be_type ev ∈ REMOVE_EVENTS \/ exists n, gateway_book (answer n (event_book_id ev)) = Ok None) \/
   report = "indexed" /\ be_type ev ∉ REMOVE_EVENTS /\ exists n book doc, gateway_book (answer n (event_book_id ev)) = Ok (Some book) /\
     build (books_index settings) book = Ok doc /\ engine w' !! book_event_key ev = Some doc).

Lemma event_cases ev w r w' : truthful w -> bare ev -> handle ev w = (r, w') ->
  (exists report, r = Ok report /\ handled ev w report w') \/ ((exists e, r = Raise e) /\ ledger w' = ledger w /\ engine w' = engine w).
Proof.
  intros Ht Hbare. unfold handle, handle_book_event.
  destruct (String.eqb_spec (event_book_id ev) "") as [|Hnon]; [intros [= <- <-]; left; eexists; split; [done|]; split; [done|]; left; auto|].
  intros H. eapply in_session_cases; [exact H|]. clear H r w'. intros r w' H. erewrite bind_ok in H by reflexivity. cbv beta zeta in H.
  case_bool_decide as Hty.
  { destruct (should_apply _ _ _ _ _) eqn:Ha; cbn [negb] in H.
    - apply then_report in H as (r0 & H & ->). apply remove_one_truthful in H as [(-> & Ht' & He)|[[e ->] ->]]; [|right; eauto|done].
      left. eexists. split; [done|]. split; [done|]. right; right; left. auto.
    - injection H as <- <-. left. eexists. split; [done|]. split; [done|]. right; left.
      apply should_apply_false in Ha as (row & Hrow & [Hr|[? _]]); [|done]. split; [done|]. split; [done|]. left. by exists row. }
  case_bool_decide as Hup; cbn [negb] in H.
  2:{ injection H as <- <-; left; eexists; split; [done|]; split; [done|]; left. rewrite not_elem_of_app. auto. }
  apply bind_inv in H as [(found & w1 & H1 & H)|(e & H1 & ->)]; pose proof (load_book_calls _ _ _ _ _ H1) as [n0 Hn0];
    [|right; subst w'; eauto].
  assert (Ht1 : truthful w1) by (subst w1; by apply (truthful_state w)).
  destruct (load_book_bare _ _ _ _ Hbare H1) as [n Hn]. clear H1.
  destruct found as [book|].
  2:{ apply then_report in H as (r0 & H & ->). apply remove_one_truthful in H as [(-> & Ht' & He)|[[e ->] ->]]; [|right; by subst w1; eauto|done].
      left. eexists. split; [done|]. split; [done|]. right; right; left. eauto. }
  apply bind_inv in H as [(doc & w2 & H2 & H)|(e & H2 & ->)]; unfold of_result in H2; injection H2 as Hdoc <-; [|right; by subst w1; eauto].
  destruct (well_identified _ _ _ _ Hn Hdoc) as [Hid Hknown].
  destruct (should_apply _ _ _ _ _) eqn:Ha; cbn [negb] in H.
  - apply then_report in H as (r0 & H & ->). rewrite <- Hid in H.
    apply add_one_truthful in H as [(-> & Ht' & He)|[[e ->] ->]]; [|right; by subst w1; eauto|done..].
    left. eexists. split; [done|]. split; [done|]. do 3 right. split; [done|]. split; [done|]. exists n, book, doc.
    split; [done|]. split; [done|]. unfold book_event_key. by rewrite <- Hid.
  - injection H as <- <-. left. eexists. split; [done|]. split; [done|]. right; left. split; [done|]. split; [by subst w1|].
    apply should_apply_false in Ha as (row & Hrow & [Hr|[Hc Hd]]); [left; by exists row|right].
    split; [done|]. exists n, book, doc. split; [done|]. split; [done|].
    specialize (Ht (book_event_key ev)). unfold in_step in Ht. unfold book_event_key in *. rewrite Hrow, Hd in Ht. destruct Ht as (d & He & Hk & Hsum).
    injection Hc as Hc. rewrite <- Hsum in Hc. apply no_collision in Hc as ->; [|done..]. done.
Qed.

(** One event after the other; one whose handling failed is delivered again later in the list. *)
Definition deliver_events (evs : list BookEvent) (w : SearchWorld) : SearchWorld := foldl (fun w ev => (handle ev w).2) w evs.

Lemma deliver_events_truthful evs w : truthful w -> Forall bare evs -> truthful (deliver_events evs w).
Proof.
  intros Ht Hb. revert w Ht. induction Hb as [|ev evs Hev _ IH]; intros w Ht; [done|]. cbn [deliver_events foldl]. apply IH.
  destruct (handle ev w) as [r w'] eqn:E. cbn [snd].
  destruct (event_cases _ _ _ _ Ht Hev E) as [(report & _ & H)|(_ & Hl & He)]; [apply H|by apply (truthful_state w)].
Qed.

End events.

(** ** Rebuilds and reconciliation *)

Section rebuild.
Context (settings : SearchSettings) (engine_answer : nat -> attempt_outcome).
Context (checksum : document -> string) (build : string -> document -> result document) (now : datetime).
Context (answer : nat -> string -> result json) (page_answer : nat -> string -> option string -> result json).
Context (accepting : forall n, performed (engine_answer n) = true /\ is_ok (meili_request (engine_answer n)) = true).
Context (known : document -> Prop).
Context (no_collision : forall d d' : document, known d -> known d' -> checksum d = checksum d' -> d = d').
Context (index : string).

(** The ledger and the engine agree on every document of the index. *)
Definition index_in_step (w : SearchWorld) : Prop := forall id, in_step checksum known w (index, id).

Lemma meili_accepts f w : meili_call engine_answer f w = (Ok tt, set_engine (f (engine w)) (called w)).
Proof.
  unfold meili_call. destruct (accepting (calls w)) as [-> H]. by destruct (meili_request _).
Qed.

Definition put_all (docs : list document) (e : gmap (string * string) document) : gmap (string * string) document :=
  foldl (fun e d => <[(index, document_id d) := d]> e) e docs.

Lemma put_all_cons d docs e : put_all (d :: docs) e = put_all docs (<[(index, document_id d) := d]> e).
Proof. done. Qed.
Lemma put_all_app a b e : put_all (a ++ b) e = put_all b (put_all a e).
Proof. apply foldl_app. Qed.

Lemma put_all_other docs e key : key ∉ map (fun d => (index, document_id d)) docs -> put_all docs e !! key = e !! key.
Proof.
  revert e. induction docs as [|d docs IH]; intros e H; [done|]. cbn [map] in H. apply not_elem_of_cons in H as [Hne H].
  rewrite put_all_cons, IH by done. by rewrite lookup_insert_ne.
Qed.

Lemma put_all_in docs e d : NoDup (map document_id docs) -> d ∈ docs -> put_all docs e !! (index, document_id d) = Some d.
Proof.
  revert e. induction docs as [|x docs IH]; intros e Hnd Hd; [by apply not_elem_of_nil in Hd|].
  cbn [map] in Hnd. apply NoDup_cons in Hnd as [Hx Hnd]. rewrite put_all_cons. apply elem_of_cons in Hd as [->|Hd]; [|by apply IH].
  rewrite (put_all_other docs); [by rewrite lookup_insert_eq|].
  intros (y & [= E] & Hy)%list_elem_of_In%in_map_iff. apply Hx. rewrite <- E. apply list_elem_of_fmap_2. by apply list_elem_of_In.
Qed.

(** The engine holds the documents, and is otherwise as it was. *)
Definition indexed_all (docs : list document) (w w' : SearchWorld) : Prop :=
  runs w' = runs w /\ index_in_step w' /\ (forall d, d ∈ docs -> engine w' !! (index, document_id d) = Some d) /\
  (forall id, id ∉ map document_id docs -> engine w' !! (index, id) = engine w !! (index, id)).

Lemma NoDup_map_inj {A B} (f : A -> B) l x y : NoDup (map f l) -> x ∈ l -> y ∈ l -> f x = f y -> x = y.
Proof.
  induction l as [|a l IH]; intros Hnd Hx Hy E; [by apply not_elem_of_nil in Hx|]. cbn [map] in Hnd. apply NoDup_cons in Hnd as [Ha Hnd].
  apply elem_of_cons in Hx as [->|Hx]; apply elem_of_cons in Hy as [->|Hy]; [done|..|by apply IH];
    exfalso; apply Ha; [rewrite E|rewrite <- E]; by apply list_elem_of_fmap_2.
Qed.

Lemma NoDup_map_filter {A B} (f : A -> B) p l : NoDup (map f l) -> NoDup (map f (List.filter p l)).
Proof.
  rewrite !NoDup_ListNoDup. induction l as [|x l IH]; intros H; [constructor|].
  cbn [map] in H. apply List.NoDup_cons_iff in H as [Hx H]. cbn [List.filter]. destruct (p x); [|by apply IH].
  cbn [map]. apply List.NoDup_cons; [|by apply IH]. intros (y & E & [Hy _]%filter_In)%in_map_iff. apply Hx. rewrite <- E. by apply in_map.
Qed.

Lemma concat_batches fuel size docs : (0 < size)%nat -> (length docs <= fuel)%nat -> concat (batches fuel size docs) = docs.
Proof.
  intros Hs. revert docs. induction fuel as [|fuel IH]; intros docs H; [destruct docs; [done|cbn in H; lia]|].
  destruct docs as [|d docs]; [done|]. cbn [batches concat]. rewrite IH; [apply take_drop|]. rewrite length_drop. cbn in *. lia.
Qed.

Lemma push_all_accepted bs : forall accepted failed w,
  exists n, push_all engine_answer index bs accepted failed w =
    (Ok (accepted ++ concat bs, failed), mkWorld (ledger w) (runs w) (put_all (concat bs) (engine w)) n).
Proof.
  induction bs as [|b bs IH]; intros accepted failed w.
  - exists (calls w). cbn. rewrite app_nil_r. by destruct w.
  - cbn [push_all concat]. unfold add_documents at 1. rewrite meili_accepts.
    destruct (IH (accepted ++ b) failed (set_engine (put_all b (engine w)) (called w))) as [n Hn].
    exists n. unfold put_all at 1 in Hn. rewrite Hn. cbn [ledger runs engine set_engine called]. by rewrite <- app_assoc, put_all_app.
Qed.

(** A document that is not worth sending is already there. *)
Lemma unsent_is_there w force d : known d -> in_step checksum known w (index, document_id d) ->
  worth_sending checksum (ledger w) index None force d = false -> engine w !! (index, document_id d) = Some d.
Proof.
  unfold worth_sending, should_apply, in_step. destruct force; [done|]. cbn [orb].
  destruct (ledger w !! (index, document_id d)) as [row|]; [|done]. cbn [truthy andb negb].
  intros Hk Ht H. apply negb_false_iff in H. bool_to_prop. match goal with E : ix_deleted_at row = None |- _ => rewrite E in Ht end.
  destruct Ht as (x & Hx & Hkx & Hsum). match goal with E : Some _ = Some _ |- _ => injection E as E; rewrite <- Hsum in E; apply no_collision in E as -> end;
    done.
Qed.

Lemma named_all docs : (forall d, d ∈ docs -> document_id d <> "") -> List.filter (fun d => negb (String.eqb (document_id d) "")) docs = docs.
Proof.
  intros H. apply forallb_filter_id, forallb_forall. intros d Hd%list_elem_of_In%H. by destruct (String.eqb_spec (document_id d) "").
Qed.

Lemma page_indexed docs event_type force w :
  (forall d, d ∈ docs -> document_id d <> "" /\ known d) -> NoDup (map document_id docs) -> index_in_step w -> exists a s w',
    index_documents settings engine_answer checksum now index docs None event_type force w = (Ok (a, s, 0), w') /\
    indexed_all docs w w'.
Proof.
  intros Hid Hnd Ht. unfold index_documents. erewrite bind_ok by reflexivity. cbv beta zeta.
  rewrite (named_all docs) by (intros d Hd; by apply Hid).
  set (pending := List.filter _ docs).
  assert (Hpend : forall d, d ∈ pending <-> d ∈ docs /\ worth_sending checksum (ledger w) index None force d = true)
    by (intros d; unfold pending; by rewrite !list_elem_of_In, filter_In).
  assert (Hrest : forall d, d ∈ docs -> worth_sending checksum (ledger w) index None force d = false -> engine w !! (index, document_id d) = Some d)
    by (intros d Hd Hn; apply (unsent_is_there w force); [by apply Hid|apply Ht|done]).
  case_bool_decide as Hempty.
  { eexists _, _, w. split; [done|]. split; [done|]. split; [done|]. split; [|done]. intros d Hd. apply Hrest; [done|].
    destruct (worth_sending _ _ _ _ _ d) eqn:E; [|done]. exfalso. apply (not_elem_of_nil d). rewrite <- Hempty. by apply Hpend. }
  assert (Hndp : NoDup (map document_id pending)) by by apply NoDup_map_filter.
  unfold push_batches. destruct (push_all_accepted (batches (length pending) (Z.to_nat (Z.max 1 (index_batch_size settings))) pending) [] 0 w) as [n Hn].
  rewrite concat_batches in Hn by lia. rewrite (bind_ok _ _ _ _ _ Hn). cbv beta. cbn [fst snd app]. rewrite bool_decide_false by done.
  set (w1 := mkWorld (ledger w) (runs w) (put_all pending (engine w)) n).
  destruct (record_all_holds (fun d => (index, document_id d)) checksum None event_type false now pending (mkSession (ledger w) []) (ledger w))
    as (l' & Hl' & Hin & Hout); [done| |intros; by apply not_elem_of_nil|].
  { apply (NoDup_fmap_1 snd). by rewrite <- list_fmap_compose. }
  assert (Hrec : in_session (s ← open_ledger; commit_ledger (foldl (fun s d => record_row (index, document_id d) (checksum d) None event_type false now s) s pending)) w1
          = (Ok tt, set_ledger l' w1)).
  { unfold in_session. erewrite bind_ok by reflexivity. cbv beta. unfold commit_ledger. unfold holds in Hl'. cbn [ledger w1] in *. rewrite Hl'. reflexivity. }
  rewrite (bind_ok _ _ _ _ _ Hrec). eexists _, _, (set_ledger l' w1). split; [reflexivity|].
  assert (Hnot : forall id, id ∉ map document_id pending -> (index, id) ∉ map (fun d => (index, document_id d)) pending).
  { intros id Hn' (d & [= <-] & Hd)%list_elem_of_In%in_map_iff. apply Hn', list_elem_of_fmap_2. by apply list_elem_of_In. }
  assert (Hpair : forall d, (index, document_id d) ∈ map (fun d => (index, document_id d)) pending -> exists x, x ∈ pending /\ document_id x = document_id d)
    by (intros d (x & [= E] & Hx)%list_elem_of_In%in_map_iff; exists x; by rewrite list_elem_of_In).
  split; [done|split; [|split]].
  - intros id. destruct (decide (id ∈ map document_id pending)) as [(d & <- & Hd)%list_elem_of_In%in_map_iff|Hn'].
    + apply list_elem_of_In in Hd. unfold in_step. cbn. rewrite (Hin d Hd). cbn. exists d.
      split; [by apply put_all_in|]. split; [by apply Hid, Hpend|done].
    + apply (in_step_other _ _ w); [..|apply Ht]; cbn; [apply Hout; auto|apply put_all_other; auto].
  - intros d Hd. cbn. destruct (worth_sending checksum (ledger w) index None force d) eqn:Hw; [by apply put_all_in; [|apply Hpend]|].
    rewrite put_all_other; [by apply Hrest|]. intros (x & [Hx Hwx]%Hpend & E)%Hpair.
    rewrite (NoDup_map_inj document_id docs x d) in Hwx by done. congruence.
  - intros id Hn'. cbn. apply put_all_other, Hnot. intros (x & <- & Hx)%list_elem_of_In%in_map_iff. apply Hn', list_elem_of_fmap_2.
    apply Hpend. by apply list_elem_of_In.
Qed.

(** The pages of the books service, as they stand while the run reads them. *)
Context (page : option string -> json).
Context (stable : forall n cursor, page_answer n (source_path settings index) cursor = Ok (page cursor)).
Let limit := reconcile_max_documents settings.

(** What the walk reads from a cursor on, having read some records already. *)
Inductive serves : Z -> option string -> list json -> Prop :=
| serves_none read cursor : page_step limit read (page cursor) = Ok None -> serves read cursor []
| serves_last read cursor records read' : page_step limit read (page cursor) = Ok (Some (records, read', None)) -> serves read cursor records
| serves_more read cursor records read' next rest :
    page_step limit read (page cursor) = Ok (Some (records, read', Some next)) -> serves read' (Some next) rest ->
    serves read cursor (records ++ rest).

(** A page that is not the last one brings the walk nearer to its limit. *)
Lemma page_step_progress read payload records read' next :
  page_step limit read payload = Ok (Some (records, read', Some next)) -> read < read' < limit.
Proof.
  unfold page_step. intros H. apply result_bind_ok in H as (l & _ & H). apply result_bind_ok in H as (items & _ & H).
  case_bool_decide as Hne; [done|]. cbv zeta in H.
  destruct (truthy _ && _) eqn:E in H; [|done]. injection H as <- <- Hc. apply andb_true_iff in E as [_ E]. apply Z.ltb_lt in E.
  split; [|done]. rewrite length_take in E |- *. destruct items; [done|]. cbn [length] in *. lia.
Qed.

(** The walk ends: whatever the pages are, either one of them is not a page or
    the walk reads some records. *)
Lemma catalogue_walk_ends : (forall read cursor, exists step, page_step limit read (page cursor) = Ok step) ->
  forall cursor, exists records, serves 0 cursor records.
Proof.
  intros Hok. assert (H : forall n read cursor, limit - read < Z.of_nat n -> exists records, serves read cursor records).
  { induction n as [|n IH]; intros read cursor Hn; (destruct (Hok read cursor) as [[[[records read'] [next|]]|] Hs];
      [|eexists; by eapply serves_last|eexists; by eapply serves_none]); pose proof (page_step_progress _ _ _ _ _ Hs); [lia|].
    destruct (IH read' (Some next)) as [rest Hrest]; [lia|]. exists (records ++ rest). by eapply serves_more. }
  intros cursor. apply (H (S (Z.to_nat limit))). lia.
Qed.

Lemma mapM_app {A B} (f : A -> result B) l k : mapM f (l ++ k) = (x ← mapM f l; y ← mapM f k; Ok (x ++ y)).
Proof.
  induction l as [|a l IH]; cbn; [by destruct (mapM f k)|]. destruct (f a); [|done]. rewrite IH. destruct (mapM f l), (mapM f k); done.
Qed.


Let walk := walk_pages settings engine_answer checksum build now page_answer.
Lemma walk_end fuel force mode read cursor t w :
  page_step limit read (page cursor) = Ok None -> walk (S fuel) index mode force read cursor t w = (Ok t, called w).
Proof.
  intros Hs. unfold walk. cbn [walk_pages]. unfold mbind, M_bind at 1. rewrite stable. unfold of_result. fold limit. rewrite Hs. done.
Qed.

Lemma walk_page fuel force mode read cursor t w records read' next docs :
  page_step limit read (page cursor) = Ok (Some (records, read', next)) -> build_all build index records = Ok docs ->
  (forall d, d ∈ docs -> document_id d <> "" /\ known d) -> NoDup (map document_id docs) -> index_in_step w ->
  exists a w1, let t' := mkTotals (t_seen t + Z.of_nat (length docs)) (t_indexed t + a) (t_failed t) (t_keep t ++ map document_id docs) in
    indexed_all docs w w1 /\
    walk (S fuel) index mode force read cursor t w = match next with Some _ => walk fuel index mode force read' next t' w1 | None => (Ok t', w1) end.
Proof.
  intros Hs Hdocs Hid Hnd Ht.
  destruct (page_indexed docs (Some (append mode ".run")) (force || String.eqb mode "full") (called w)) as (a & s & w1 & Hrun & Hall);
    [done..|].
  exists a, w1. cbv zeta. split; [exact Hall|]. unfold walk. cbn [walk_pages]. unfold mbind, M_bind at 1. rewrite stable. unfold of_result. fold limit.
  rewrite Hs. unfold M_bind at 1. cbv beta iota. rewrite Hdocs. unfold M_bind. rewrite (named_all docs) by (intros d Hd; by apply Hid). rewrite Hrun. cbn [fst snd]. rewrite Z.add_0_r. destruct next; done.
Qed.

Lemma walk_indexes read cursor records : serves read cursor records -> forall docs fuel force mode t w,
  build_all build index records = Ok docs -> (Z.to_nat (limit - read) < fuel)%nat ->
  (forall d, d ∈ docs -> document_id d <> "" /\ known d) -> NoDup (map document_id docs) -> index_in_step w ->
  exists n w', walk fuel index mode force read cursor t w =
      (Ok (mkTotals (t_seen t + Z.of_nat (length docs)) n (t_failed t) (t_keep t ++ map document_id docs)), w') /\
    indexed_all docs w w'.
Proof.
  intros Hserves. induction Hserves as [read cursor Hs|read cursor records read' Hs|read cursor records read' next rest Hs Hserves IH];
    intros docs fuel force mode t w Hdocs Hfuel Hid Hnd Ht; (destruct fuel as [|fuel]; [lia|]).
  - injection Hdocs as <-. exists (t_indexed t), (called w). rewrite (walk_end _ _ _ _ _ _ _ Hs). destruct t. cbn. rewrite Z.add_0_r, app_nil_r.
    split; [done|]. split; [done|]. split; [done|]. split; [|done]. intros d Hd. by apply not_elem_of_nil in Hd.
  - destruct (walk_page fuel force mode read cursor t w _ _ _ _ Hs Hdocs Hid Hnd Ht) as (a & w1 & Hw & Hrun). eauto.
  - unfold build_all in Hdocs. rewrite mapM_app in Hdocs. apply result_bind_ok in Hdocs as (docs1 & H1 & Hdocs).
    apply result_bind_ok in Hdocs as (docs2 & H2 & Hdocs). injection Hdocs as <-.
    rewrite map_app in Hnd. apply NoDup_app in Hnd as (Hnd1 & Hdisj & Hnd2).
    destruct (walk_page fuel force mode read cursor t w _ _ _ docs1 Hs H1) as (a & w1 & (Hr1 & Ht1 & Hin1 & Hout1) & ->); [|done..|].
    { intros d Hd. apply Hid, elem_of_app; by left. }
    pose proof (page_step_progress _ _ _ _ _ Hs).
    destruct (IH docs2 fuel force mode
      (mkTotals (t_seen t + Z.of_nat (length docs1)) (t_indexed t + a) (t_failed t) (t_keep t ++ map document_id docs1)) w1 H2) as (n & w2 & -> & Hr2 & Ht2 & Hin2 & Hout2); [lia| |done..|].
    { intros d Hd. apply Hid, elem_of_app; by right. }
    exists n, w2. cbn [t_seen t_failed t_keep]. rewrite length_app, map_app, app_assoc, Nat2Z.inj_add, Z.add_assoc. split; [done|].
    split; [congruence|]. split; [done|]. split.
    + intros d [Hd|Hd]%elem_of_app; [|by apply Hin2]. rewrite Hout2; [by apply Hin1|].
      apply Hdisj. by apply list_elem_of_fmap_2.
    + intros id Hn. rewrite map_app in Hn. apply not_elem_of_app in Hn as [Hn1 Hn2]. rewrite Hout2 by done. by apply Hout1.
Qed.

(** What a full rebuild begins with, and what a reconciliation ends with. *)
Definition reset (w : SearchWorld) : SearchWorld :=
  mkWorld (map_imap (fun k row => Some (if bool_decide (k.1 = index) then mark_deleted now row else row)) (ledger w)) (runs w)
    (filter (fun kd : (string * string) * document => kd.1.1 <> index) (engine w)) (S (calls w)).

Lemma reset_in_step w : index_in_step (reset w) /\ forall id, engine (reset w) !! (index, id) = None.
Proof.
  assert (He : forall id, engine (reset w) !! (index, id) = None) by (intros id; apply map_lookup_filter_None; right; intros d _ Hn; by apply Hn).
  split; [|done]. intros id. unfold in_step. rewrite He. cbn [ledger reset]. rewrite map_lookup_imap.
  destruct (ledger w !! (index, id)) as [row|]; cbn; [|done]. by rewrite bool_decide_true.
Qed.

Lemma elem_stale l keep id : id ∈ stale_ids l index keep <-> id ∉ keep /\ exists row, l !! (index, id) = Some row /\ ix_deleted_at row = None.
Proof.
  unfold stale_ids. rewrite list_elem_of_In, in_map_iff. split.
  - intros ([[i k] row] & <- & [Hin H]%filter_In). cbn in *. apply andb_true_iff in H as [[Hi Hd]%andb_true_iff Hk].
    bool_to_prop. subst i. apply list_elem_of_In, elem_of_map_to_list in Hin. split; [done|eauto].
  - intros (Hk & row & Hrow & Hd). exists ((index, id), row). split; [done|]. apply filter_In. cbn. split.
    + by apply list_elem_of_In, elem_of_map_to_list.
    + rewrite !bool_decide_true by done. by rewrite bool_decide_false.
Qed.

Definition without (ids : list string) (e : gmap (string * string) document) : gmap (string * string) document :=
  filter (fun kd : (string * string) * document => kd.1.1 <> index \/ kd.1.2 ∉ ids) e.
Lemma lookup_without ids e id : without ids e !! (index, id) = if bool_decide (id ∈ ids) then None else e !! (index, id).
Proof.
  unfold without. case_bool_decide as Hin.
  - apply map_lookup_filter_None. right. intros d _ [H|H]; by apply H.
  - destruct (e !! (index, id)) as [d|] eqn:E; [|apply map_lookup_filter_None; auto]. apply map_lookup_filter_Some. cbn. auto.
Qed.

(** What is left after the sweep: the kept documents, and a ledger that says so. *)
Lemma sweep keep w : index_in_step w -> exists n w',
  in_session (w ← get;
     let '(stale, l) := mark_missing_deleted now (ledger w) index keep in
     _ ← modify (set_ledger l);
     _ ← (if bool_decide (stale = []) then mret tt else delete_documents engine_answer index stale);
     mret (Z.of_nat (length stale))) w = (Ok n, w') /\
  runs w' = runs w /\ index_in_step w' /\
  (forall id, engine w' !! (index, id) = if bool_decide (id ∈ keep) then engine w !! (index, id) else None).
Proof.
  intros Ht. unfold in_session. erewrite bind_ok by reflexivity. cbv beta. unfold mark_missing_deleted.
  set (stale := stale_ids (ledger w) index keep). set (l := map_imap _ _). erewrite bind_ok by reflexivity. cbv beta.
  set (e' := without stale (engine w)).
  assert (Hdel : exists n, (if bool_decide (stale = []) then mret tt else delete_documents engine_answer index stale) (set_ledger l w)
      = (Ok tt, mkWorld l (runs w) e' n)).
  { case_bool_decide as Hs; [|eexists; apply meili_accepts]. exists (calls w). unfold e', without. rewrite Hs.
    replace (filter _ (engine w)) with (engine w); [done|]. symmetry. apply map_filter_id. intros k d _. right. apply not_elem_of_nil. }
  destruct Hdel as [n Hn]. rewrite (bind_ok _ _ _ _ _ Hn). clear Hn. eexists _, _. split; [reflexivity|]. split; [done|].
  assert (He : forall id, e' !! (index, id) = if bool_decide (id ∈ keep) then engine w !! (index, id) else None).
  { intros id. unfold e'. rewrite lookup_without. pose proof (elem_stale (ledger w) keep id) as Hst. fold stale in Hst.
    specialize (Ht id). unfold in_step in Ht. case_bool_decide as H1; case_bool_decide as H2; try done; [by apply Hst in H1 as [? _]|].
    destruct (ledger w !! (index, id)) as [row|]; [|done]. destruct (ix_deleted_at row) eqn:Hd; [done|]. destruct H1. apply Hst. eauto. }
  split; [|done]. intros id. unfold in_step. cbn [ledger engine]. unfold l. rewrite map_lookup_imap, He.
  specialize (Ht id). unfold in_step in Ht. pose proof (elem_stale (ledger w) keep id) as Hst. fold stale in Hst.
  destruct (ledger w !! (index, id)) as [row|] eqn:Er; cbn; [|by case_bool_decide].
  rewrite (bool_decide_true (index = index)) by done. cbn [andb]. case_bool_decide as H1; cbn.
  - apply Hst in H1 as [H1 _]. by rewrite bool_decide_false.
  - case_bool_decide as H2; [done|]. destruct (ix_deleted_at row) eqn:Hd; [done|]. destruct H1. apply Hst. eauto.
Qed.

Definition find_document (docs : list document) (id : string) : option document := List.find (fun d => String.eqb (document_id d) id) docs.
Lemma find_document_in docs d : NoDup (map document_id docs) -> d ∈ docs -> find_document docs (document_id d) = Some d.
Proof.
  intros Hnd Hd. unfold find_document. destruct (List.find _ docs) as [x|] eqn:E.
  - apply find_some in E as [Hx%list_elem_of_In He%String.eqb_eq]. f_equal. by eapply NoDup_map_inj.
  - apply list_elem_of_In, (find_none _ _ E) in Hd. by rewrite String.eqb_refl in Hd.
Qed.
Lemma find_document_out docs id : id ∉ map document_id docs -> find_document docs id = None.
Proof.
  intros H. unfold find_document. destruct (List.find _ docs) as [x|] eqn:E; [|done].
  apply find_some in E as [Hx%list_elem_of_In He%String.eqb_eq]. destruct H. subst id. by apply list_elem_of_fmap_2.
Qed.

Let execute := execute_run settings engine_answer checksum build now (Some answer) page_answer.
Let source := serves 0 None.

Lemma execute_rebuilds records docs mode force w :
  mode = "full" \/ mode = "reconcile" /\ index_in_step w ->
  source records -> build_all build index records = Ok docs -> docs <> [] ->
  (forall d, d ∈ docs -> document_id d <> "" /\ known d) -> NoDup (map document_id docs) ->
  exists n m w', execute index mode force w = (Ok (Z.of_nat (length docs), n, m, 0), w') /\ runs w' = runs w /\ index_in_step w' /\
    forall id, engine w' !! (index, id) = find_document docs id.
Proof.
  intros Hmode Hs Hdocs Hne Hid Hnd.
  assert (Hmem : forall w0 w1 id, indexed_all docs w0 w1 -> id ∈ map document_id docs -> engine w1 !! (index, id) = find_document docs id).
  { intros w0 w1 id (_ & _ & Hin & _) (d & <- & Hd%list_elem_of_In)%list_elem_of_In%in_map_iff. rewrite find_document_in by done. by apply Hin. }
  unfold execute, execute_run. erewrite bind_ok by reflexivity. cbv beta. destruct Hmode as [->|[-> Ht]].
  - cbn [String.eqb Ascii.eqb Bool.eqb]. unfold delete_all_documents.
    assert (Hreset : (_ ← meili_call engine_answer (filter (fun kd : (string * string) * document => kd.1.1 <> index));
      modify (fun w => set_ledger (map_imap (fun k row => Some (if bool_decide (k.1 = index) then mark_deleted now row else row)) (ledger w)) w)) w
      = (Ok tt, reset w)) by (rewrite (bind_ok _ _ _ _ _ (meili_accepts _ w)); reflexivity).
    rewrite (bind_ok _ _ _ _ _ Hreset). destruct (reset_in_step w) as [Hr Hnone].
    destruct (walk_indexes _ _ _ Hs docs (S (Z.to_nat limit)) force "full" (mkTotals 0 0 0 []) (reset w) Hdocs) as (n & w1 & Hw & Hall);
      [lia|done..|]. rewrite (bind_ok _ _ _ _ _ Hw). cbv beta. cbn. eexists _, _, w1. split; [done|]. split; [apply Hall|]. split; [apply Hall|].
    intros id. destruct (decide (id ∈ map document_id docs)) as [Hi|Hi]; [by eapply Hmem|]. rewrite find_document_out by done.
    destruct Hall as (_ & _ & _ & Hout). by rewrite Hout.
  - erewrite bind_ok by reflexivity. cbv beta.
    destruct (walk_indexes _ _ _ Hs docs (S (Z.to_nat limit)) force "reconcile" (mkTotals 0 0 0 []) w Hdocs) as (n & w1 & Hw & Hall); [lia|done..|].
    rewrite (bind_ok _ _ _ _ _ Hw). cbv beta. cbn [t_seen t_indexed t_failed t_keep app]. rewrite bool_decide_false; [|by destruct docs].
    cbn [String.eqb Ascii.eqb Bool.eqb andb negb]. destruct (sweep (map document_id docs) w1) as (m & w2 & Hsw & Hr & Ht2 & He); [apply Hall|].
    rewrite (bind_ok _ _ _ _ _ Hsw). eexists _, _, w2. split; [done|]. split; [rewrite Hr; apply Hall|]. split; [done|].
    intros id. rewrite He. case_bool_decide as Hi; [by eapply Hmem|by rewrite find_document_out].
Qed.

End rebuild.

(** ** Concrete runs *)

Definition demo_settings : SearchSettings := mkSearchSettings "books" "authors" "categories" 100 200.
Definition demo_build : string -> document -> result document := builder_for demo_settings (fun _ _ _ _ => JInt 0).
Definition demo_book : document := [("id", JStr "b1"); ("slug", JStr "dune"); ("title", JStr "Dune"); ("price_minor", JInt 49900)].
Definition demo_answer (n : nat) (id : string) : result json := if String.eqb id "b1" then Ok (JObj demo_book) else Raise (UpstreamStatus "" 404).
Definition demo_known (d : document) : Prop := demo_build "books" demo_book = Ok d.
Definition accepts (n : nat) : attempt_outcome := Response 202 NoContent.
Definition demo_checksum (d : document) : string := document_id d.
Definition no_documents : SearchWorld := mkWorld ∅ ∅ ∅ 0.
Definition demo_event (id type : string) : BookEvent := mkBookEvent id type [("book_id", JStr "b1")].
Definition demo_handle := handle_book_event demo_settings accepts demo_checksum demo_build 0 (Some demo_answer).
Definition demo_history : list BookEvent := [demo_event "e1" "book.published"; demo_event "e2" "book.unpublished"].

Lemma demo_known_same d d' : demo_known d -> demo_known d' -> d = d'.
Proof. unfold demo_known. intros -> [= <-]. done. Qed.


(** A removal delivered again after the book was published anew removes a live
    book: only the last event of a book is remembered. *)
Example late_removal_hides_live_book :
  let w := deliver_events demo_settings accepts demo_checksum demo_build 0 demo_answer
             (demo_history ++ [demo_event "e3" "book.published"; demo_event "e2" "book.unpublished"]) no_documents in
  engine w !! ("books", "b1") = None.
Proof. reflexivity. Qed.

(** A publication delivered again is dropped. *)
Example redelivered_publish_dropped :
  (demo_handle (demo_event "e2" "book.unpublished")
     (deliver_events demo_settings accepts demo_checksum demo_build 0 demo_answer demo_history no_documents)).1 = Ok "duplicate".
Proof. reflexivity. Qed.

Definition demo_page (cursor : option string) : json := JObj [("items", JList [JObj demo_book]); ("next_cursor", JNull)].
Definition demo_run answer := run_index demo_settings accepts demo_checksum demo_build 0 (Some demo_answer) answer 7%N "books" "full" "ops" false.


(** A books service that refuses the page, as it does a page of 200 records
    where it serves 100 at most: a full rebuild has emptied the index by then. *)
Example refused_rebuild_empties_index :
  let w := deliver_events demo_settings accepts demo_checksum demo_build 0 demo_answer [demo_event "e1" "book.published"] no_documents in
  let '(run, w') := demo_run (fun _ _ _ => Raise (UpstreamStatus "" 422)) w in
  is_Some (engine w !! ("books", "b1")) /\ (exists r, run = Ok r /\ ru_status r = "failed") /\ engine w' !! ("books", "b1") = None.
Proof. vm_compute. split; [by eexists|]. split; [by eexists|done]. Qed.

(** A listing that takes no notice of its cursor is read over and over, up to the limit. *)
Example unread_cursor_counts_to_limit :
  let page := JObj [("items", JList [JObj demo_book]); ("next_cursor", JStr "Mg")] in
  exists run, (demo_run (fun _ _ _ => Ok page) no_documents).1 = Ok run /\ ru_seen run = 200.
Proof. vm_compute. by eexists. Qed.
