(* ===== verification/SearchQuery.v ===== *)
(** * Queries (apps/search/services/query.py, deps.py, routers/search.py)

    Query parameters, the filter expressions built from them, pages, facets,
    autocomplete and related books.  The engine is a parameter: what it answers
    a body with, and [FilterEngine], what its documentation says a filter
    expression selects.  Ratings are in the unit the caller counts them in,
    written by [rating_text].  The checks of the response models on values that
    come from the index are not modelled. *)

From S2P Require Import Prelude Store Json Pagination Http SearchDocs.

(** ** Texts *)

(** [value.replace] of the backslash, then of the quote, between quotes. *)
Definition escaped_value (value : string) : string :=
  replace_char dquote (String backslash (String dquote "")) (replace_char backslash (String backslash (String backslash "")) value).
Definition escape_filter_value (value : string) : string := String dquote (append (escaped_value value) (String dquote "")).

(** [re.sub(r"\s+", " ", s)] *)
Fixpoint collapse (in_space : bool) (s : string) : string :=
  match s with
  | "" => ""
  | String c s' => if is_space c then (if in_space then collapse true s' else String " " (collapse true s')) else String c (collapse false s')
  end.
Definition normalise_query (text : string) : string := collapse false (lower (strip text)).

(** ** Parameters (deps.py, schemas.py) *)

Module SortOption.
Inductive t := RELEVANCE | NEWEST | OLDEST | PRICE_ASC | PRICE_DESC | RATING | POPULARITY | TITLE.
End SortOption.
Definition sort_value (s : SortOption.t) : string :=
  match s with
  | SortOption.RELEVANCE => "relevance" | SortOption.NEWEST => "newest" | SortOption.OLDEST => "oldest" | SortOption.PRICE_ASC => "price_asc"
  | SortOption.PRICE_DESC => "price_desc" | SortOption.RATING => "rating" | SortOption.POPULARITY => "popularity" | SortOption.TITLE => "title"
  end.
#[export] Instance sort_str : StrEnum SortOption.t.
Proof.
  refine {| members := [SortOption.RELEVANCE; SortOption.NEWEST; SortOption.OLDEST; SortOption.PRICE_ASC; SortOption.PRICE_DESC;
                        SortOption.RATING; SortOption.POPULARITY; SortOption.TITLE]; enum_value := sort_value |}; solve_str_enum.
Defined.

Definition FILTERABLE : list (string * string) :=
  [("category", "category_slugs"); ("author", "author_slugs"); ("language", "language"); ("format", "formats"); ("tag", "tags"); ("publisher", "publisher")].
Definition filterable (name : string) : option string := snd <$> List.find (fun kv => String.eqb kv.1 name) FILTERABLE.

Definition SORT_EXPRESSIONS (s : SortOption.t) : list string :=
  match s with
  | SortOption.RELEVANCE => []
  | SortOption.NEWEST => ["published_at_ts:desc"]
  | SortOption.OLDEST => ["published_at_ts:asc"]
  | SortOption.PRICE_ASC => ["price_minor:asc"]
  | SortOption.PRICE_DESC => ["price_minor:desc"]
  | SortOption.RATING => ["rating_average:desc"; "rating_count:desc"]
  | SortOption.POPULARITY => ["popularity:desc"]
  | SortOption.TITLE => ["title:asc"]
  end.

(** services/indexes.py: what the engine was told it may filter and sort by. *)
Definition BOOK_FILTERABLE_ATTRIBUTES : list string :=
  ["category_slugs"; "category_ids"; "author_slugs"; "author_ids"; "language"; "formats"; "tags"; "publisher"; "price_minor"; "price_bucket";
   "rating_average"; "is_free"; "status"; "published_at_ts"].
Definition BOOK_SORTABLE_ATTRIBUTES : list string :=
  ["published_at_ts"; "price_minor"; "rating_average"; "popularity"; "created_at_ts"; "title"].
Definition BOOK_DISPLAYED_ATTRIBUTES : list string :=
  ["id"; "slug"; "title"; "subtitle"; "description"; "summary"; "authors"; "categories"; "tags"; "formats"; "language"; "price_minor"; "currency";
   "compare_at_price_minor"; "is_free"; "rating_average"; "rating_count"; "review_count"; "cover_url"; "publisher"; "published_at"; "published_at_ts";
   "popularity"].

Record SearchParams := mkParams {
  sp_query : string;
  sp_filters : list (string * list string);
  sp_min_price : option Z;
  sp_max_price : option Z;
  sp_min_rating : option Z;
  sp_free_only : bool;
  sp_sort : SortOption.t;
  sp_limit : Z;
  sp_cursor : option string;
  sp_facets : bool;
  sp_semantic : option bool;
}.

(** [parsed.setdefault(name, []).append(value)] *)
Fixpoint add_filter (name value : string) (parsed : list (string * list string)) : list (string * list string) :=
  match parsed with
  | [] => [(name, [value])]
  | (k, vs) :: parsed => if String.eqb k name then (k, vs ++ [value]) :: parsed else (k, vs) :: add_filter name value parsed
  end.
Definition has_char (c : ascii) (s : string) : bool := negb (sall (fun d => negb (d =? c)%char) s).
Definition parse_filter (parsed : list (string * list string)) (item : string) : result (list (string * list string)) :=
  let '(name, value) := partition_char ":" item in
  let name := lower (strip name) in
  let value := strip value in
  if negb (has_char ":" item) || String.eqb name "" || String.eqb value "" then Raise (app_error BadRequestError "") else
  if bool_decide (filterable name = None) then Raise (app_error BadRequestError "") else
  if (120 <? Z.of_nat (String.length value)) then Raise (app_error BadRequestError "") else
  Ok (add_filter name value parsed).
Fixpoint parse_filters_from (parsed : list (string * list string)) (raw : list string) : result (list (string * list string)) :=
  match raw with
  | [] => Ok parsed
  | item :: raw => parsed ← parse_filter parsed item; parse_filters_from parsed raw
  end.
Definition _parse_filters (raw : option (list string)) : result (list (string * list string)) := parse_filters_from [] (default [] raw).

(** The parameters of a request, as the route's declarations accept them
    ([le=5] of a rating being [5 * rating_unit]). *)
Record RawParams := mkRaw {
  rq_q : string;
  rq_filter : option (list string);
  rq_sort : SortOption.t;
  rq_min_price : option Z;
  rq_max_price : option Z;
  rq_min_rating : option Z;
  rq_free_only : bool;
  rq_limit : Z;
  rq_cursor : option string;
  rq_facets : bool;
  rq_semantic : option bool;
}.
Definition opt_between (lo hi : Z) (o : option Z) : bool := match o with Some n => (lo <=? n) && (n <=? hi) | None => true end.
Definition opt_nonneg (o : option Z) : bool := match o with Some n => 0 <=? n | None => true end.
Definition raw_ok (rating_unit : Z) (r : RawParams) : bool :=
  (Z.of_nat (String.length (rq_q r)) <=? 200) && opt_nonneg (rq_min_price r) && opt_nonneg (rq_max_price r) &&
  opt_between 0 (5 * rating_unit) (rq_min_rating r) && (1 <=? rq_limit r) && (rq_limit r <=? 100) &&
  match rq_cursor r with Some c => Z.of_nat (String.length c) <=? 512 | None => true end.

Record QuerySettings := mkQuerySettings {
  search_max_limit : Z;
  autocomplete_limit : Z;
  facet_attributes : list string;
  semantic_enabled : bool;
  qs_books_index : string;
  qs_authors_index : string;
  qs_categories_index : string;
}.

Definition search_params (settings : QuerySettings) (r : RawParams) : result SearchParams :=
  if match rq_min_price r, rq_max_price r with Some lo, Some hi => hi <? lo | _, _ => false end then Raise (app_error BadRequestError "") else
  filters ← _parse_filters (rq_filter r);
  Ok (mkParams (strip (rq_q r)) filters (rq_min_price r) (rq_max_price r) (rq_min_rating r) (rq_free_only r) (rq_sort r)
       (Z.min (rq_limit r) (search_max_limit settings)) (rq_cursor r) (rq_facets r) (rq_semantic r)).

(** ** Request bodies *)

(** The engine's array form: the elements are joined by AND, a nested array by OR. *)
Inductive clause := Expr (e : string) | AnyOf (es : list string).

Record Body := mkBody {
  bo_q : string;
  bo_offset : Z;
  bo_limit : option Z;
  bo_filter : list clause;
  bo_sort : list string;
  bo_facets : list string;
  bo_hybrid : bool;
}.

Definition PUBLISHED_ONLY : string := append "status = " (escape_filter_value "published").
Definition equals (attribute value : string) : string := append attribute (append " = " (escape_filter_value value)).

Module SuggestionKind.
Inductive t := BOOK | AUTHOR | CATEGORY | QUERY.
End SuggestionKind.

Section query.
Context (settings : QuerySettings) (rating_text : Z -> string).
Context (dumps : json -> list N) (loads : list N -> option json).

Fixpoint filter_clauses (filters : list (string * list string)) : result (list clause) :=
  match filters with
  | [] => Ok []
  | (_, []) :: filters => filter_clauses filters
  | (name, values) :: filters =>
      attribute ← opt_result (app_error BadRequestError "") (filterable name);
      rest ← filter_clauses filters;
      Ok (AnyOf (map (equals attribute) values) :: rest)
  end.
Definition bound (attribute op : string) (text : Z -> string) (o : option Z) : list clause :=
  match o with Some n => [Expr (append attribute (append op (text n)))] | None => [] end.
Definition build_filter (p : SearchParams) : result (list clause) :=
  chosen ← filter_clauses (sp_filters p);
  Ok (chosen ++
      (if sp_free_only p then [Expr "is_free = true"]
       else bound "price_minor" " >= " py_str_int (sp_min_price p) ++ bound "price_minor" " <= " py_str_int (sp_max_price p)) ++
      bound "rating_average" " >= " rating_text (sp_min_rating p) ++
      [Expr PUBLISHED_ONLY]).

Definition _offset (cursor : option string) : result Z :=
  match cursor with
  | None | Some "" => Ok 0
  | Some c =>
      payload ← decode_cursor loads c;
      match field "o" payload with
      | JInt o => if o <? 0 then Raise (app_error BadRequestError "")
                  else if 5000 <? o then Raise (app_error BadRequestError "cursor_too_deep") else Ok o
      | JBool b => Ok (if b then 1 else 0)
      | _ => Raise (app_error BadRequestError "")
      end
  end.
Definition page_limit (p : SearchParams) : Z := Z.max 1 (Z.min (sp_limit p) (search_max_limit settings)).

Definition build_body (p : SearchParams) : result Body :=
  offset ← _offset (sp_cursor p);
  clauses ← build_filter p;
  Ok (mkBody (sp_query p) offset (Some (page_limit p + 1)) clauses (SORT_EXPRESSIONS (sp_sort p))
       (if sp_facets p then facet_attributes settings else []) false).

(** ** The keyword backend *)

Definition uses_semantic (p : SearchParams) : bool :=
  default (semantic_enabled settings) (sp_semantic p) && semantic_enabled settings.
(** The engine, and what it answers a body. *)
Context (engine_search : Body -> attempt_outcome).
Definition with_hybrid (b : Body) : Body :=
  mkBody (bo_q b) (bo_offset b) (bo_limit b) (bo_filter b) (bo_sort b) (bo_facets b) true.
Definition run_backend (p : SearchParams) (b : Body) : result json :=
  meili_search (engine_search (if uses_semantic p then with_hybrid b else b)).

(** ** Responses *)

Record BookHit := mkHit {
  hi_id : string;
  hi_slug : string;
  hi_title : string;
  hi_subtitle : json;
  hi_description : json;
  hi_authors : json;
  hi_categories : json;
  hi_tags : json;
  hi_formats : json;
  hi_language : json;
  hi_price_minor : Z;
  hi_currency : string;
  hi_compare_at : json;
  hi_is_free : bool;
  hi_rating_average : json;
  hi_rating_count : Z;
  hi_review_count : Z;
  hi_cover_url : json;
  hi_cover_key : json;
  hi_thumbnail_key : json;
  hi_published_at : json;
  hi_score : json;
  hi_highlights : json * json * json;
}.
(** [list(v or [])] *)
Definition list_or_empty (v : json) : json := jor v (JList []).
Definition to_hit (raw : document) : result BookHit :=
  let get k := field k raw in
  let formatted := jor (get "_formatted") (JObj []) in
  price ← int_or_zero (get "price_minor");
  ratings ← int_or_zero (get "rating_count");
  reviews ← int_or_zero (get "review_count");
  title ← dict_get "title" formatted;
  subtitle ← dict_get "subtitle" formatted;
  description ← dict_get "description" formatted;
  Ok (mkHit (jstr (jget_default "id" (JStr "") (JObj raw))) (jstr (jget_default "slug" (JStr "") (JObj raw)))
       (jstr (jget_default "title" (JStr "") (JObj raw))) (get "subtitle") (get "description") (list_or_empty (get "authors"))
       (list_or_empty (get "categories")) (list_or_empty (get "tags")) (list_or_empty (get "formats")) (get "language") price
       (jstr (jor (get "currency") (JStr "INR"))) (get "compare_at_price_minor") (jtruthy (jget_default "is_free" (JBool false) (JObj raw)))
       (get "rating_average") ratings reviews (get "cover_url") (get "cover_key") (get "thumbnail_key") (get "published_at") (get "_rankingScore")
       (title, subtitle, description)).

Record FacetValue := mkFacet { fv_value : string; fv_label : string; fv_count : Z }.
Definition PRICE_BUCKET_LABELS : list (string * string) :=
  [("free", "Free"); ("under_199", "Under ₹199"); ("199_499", "₹199 – ₹499"); ("499_999", "₹499 – ₹999"); ("over_999", "Over ₹999")].
(** [s.title()] *)
Definition is_letter (c : ascii) : bool :=
  let n := N_of_ascii c in (((65 <=? n) && (n <=? 90)) || ((97 <=? n) && (n <=? 122)))%N.
Fixpoint title_case (after_letter : bool) (s : string) : string :=
  match s with "" => "" | String c s' => String (if after_letter then ascii_lower c else ascii_upper c) (title_case (is_letter c) s') end.
Definition _label (attribute value : string) : string :=
  if String.eqb attribute "price_bucket" then default value (snd <$> List.find (fun kv => String.eqb kv.1 value) PRICE_BUCKET_LABELS)
  else if String.eqb attribute "category_slugs" || String.eqb attribute "author_slugs" then title_case false (replace_char "-" " " value)
  else value.
Definition FACET_FIELDS : list (string * string) :=
  [("category_slugs", "categories"); ("author_slugs", "authors"); ("formats", "formats"); ("tags", "tags"); ("language", "languages");
   ("price_bucket", "price_ranges")].
Definition facet_first (a b : FacetValue) : Prop := fv_count b < fv_count a \/ fv_count a = fv_count b /\ String.leb (fv_value a) (fv_value b) = true.
#[local] Instance facet_first_dec : RelDecision facet_first.
Proof. intros a b. unfold facet_first. apply _. Defined.
Definition facet_values (attribute : string) (values : document) : result (list FacetValue) :=
  entries ← mapM (fun kv => n ← opt_result ValueErr (jint kv.2); Ok (mkFacet kv.1 (_label attribute kv.1) n)) values;
  Ok (merge_sort facet_first entries).
(** The fields of the response and the values they hold; the last attribute mapped onto a field wins. *)
Definition to_facets (distribution : json) : result (list (string * list FacetValue)) :=
  distribution ← (match distribution with JObj l => Ok l | v => if jtruthy v then Raise AttributeErr else Ok [] end);
  mapM (fun '(target, attribute, values) => entries ← facet_values attribute values; Ok (target, entries))
    (omap (fun kv => match List.find (fun f => String.eqb f.1 kv.1) FACET_FIELDS, kv.2 with
                     | Some (_, target), JObj values => Some (target, kv.1, values)
                     | _, _ => None
                     end) distribution).

Record SearchResponse := mkSearchResponse {
  sr_query : string;
  sr_hits : list BookHit;
  sr_facets : list (string * list FacetValue);
  sr_estimated_total : Z;
  sr_next_cursor : option string;
  sr_has_more : bool;
  sr_semantic : bool;
}.

(** [raw.get(k, default)] of the engine's answer, and the documents among its hits. *)
Definition answer_list (raw : json) (k : string) : result (list json) :=
  v ← dict_get_default k (JList []) raw; match v with JList l => Ok l | _ => Raise TypeErr end.
Definition hit_of (v : json) : result BookHit := match v with JObj d => to_hit d | _ => Raise AttributeErr end.

Definition search (p : SearchParams) : result SearchResponse :=
  body ← build_body p;
  raw ← run_backend p body;
  hits ← answer_list raw "hits";
  let limit := page_limit p in
  let has_more := limit <? Z.of_nat (length hits) in
  let hits := take (Z.to_nat limit) hits in
  offset ← _offset (sp_cursor p);
  hits' ← mapM hit_of hits;
  facets ← to_facets (jget "facetDistribution" raw);
  total ← opt_result ValueErr (jint (jget_default "estimatedTotalHits" (JInt (Z.of_nat (length hits))) raw));
  Ok (mkSearchResponse (sp_query p) hits' facets total
       (if has_more then Some (encode_cursor dumps [("o", JInt (offset + limit))]) else None) has_more (uses_semantic p)).

(** ** Autocomplete *)

Record Suggestion := mkSuggestion {
  su_text : string;
  su_kind : SuggestionKind.t;
  su_href : string;
  su_subtitle : option string;
  su_image_url : json;
}.
Record MultiQuery := mkMulti { mq_index : string; mq_q : string; mq_limit : Z; mq_filter : list clause; mq_attributes : list string }.
Context (engine_multi : list MultiQuery -> attempt_outcome).

Definition suggest_limit (limit : option Z) : Z :=
  Z.max 1 (Z.min (match limit with Some l => if l =? 0 then autocomplete_limit settings else l | None => autocomplete_limit settings end) 20).
Definition suggest_queries (text : string) (limit : Z) : list MultiQuery :=
  let book_slots := Z.max 1 (limit / 2) in
  let other_slots := Z.max 1 ((limit - book_slots) / 2) in
  [mkMulti (qs_books_index settings) text book_slots [Expr PUBLISHED_ONLY] ["id"; "slug"; "title"; "thumbnail_key"; "author_names"];
   mkMulti (qs_authors_index settings) text other_slots [] ["id"; "slug"; "name"; "book_count"];
   mkMulti (qs_categories_index settings) text other_slots [] ["id"; "slug"; "name"; "book_count"]].

(** The hits of the last result under an index. *)
Definition hits_by_index (index : string) (results : list json) : result (list document) :=
  let step acc r := if String.eqb (jstr (jget "indexUid" r)) index then jget_default "hits" (JList []) r else acc in
  match foldl step (JList []) results with
  | JList l => mapM (fun v => match v with JObj d => Ok d | _ => Raise AttributeErr end) l
  | _ => Raise TypeErr
  end.
Definition href (section : string) (hit : document) : string := append section (jstr (jget_default "slug" (JStr "") (JObj hit))).
Definition nonempty (s : string) : option string := if String.eqb s "" then None else Some s.
Definition book_suggestion (hit : document) : Suggestion :=
  let authors := match jor (field "author_names" hit) (JList []) with JList l => take 2 (map jstr l) | _ => [] end in
  mkSuggestion (jstr (jget_default "title" (JStr "") (JObj hit))) SuggestionKind.BOOK (href "/books/" hit)
    (nonempty (String.concat ", " authors)) (field "thumbnail_key" hit).
Definition author_suggestion (hit : document) : Suggestion :=
  let count := field "book_count" hit in
  mkSuggestion (jstr (jget_default "name" (JStr "") (JObj hit))) SuggestionKind.AUTHOR (href "/authors/" hit)
    (if jtruthy count then Some (append (jstr count) " books") else None) JNull.
Definition category_suggestion (hit : document) : Suggestion :=
  mkSuggestion (jstr (jget_default "name" (JStr "") (JObj hit))) SuggestionKind.CATEGORY (href "/categories/" hit) None JNull.

(** The text searched for, and the suggestions. *)
Definition suggest (query : string) (limit : option Z) : result (string * list Suggestion) :=
  let text := strip query in
  if String.eqb text "" then Ok ("", []) else
  let limit := suggest_limit limit in
  results ← multi_search (engine_multi (suggest_queries text limit));
  books ← hits_by_index (qs_books_index settings) results;
  authors ← hits_by_index (qs_authors_index settings) results;
  categories ← hits_by_index (qs_categories_index settings) results;
  let all := map book_suggestion books ++ map author_suggestion authors ++ map category_suggestion categories in
  Ok (text, take (Z.to_nat limit) (List.filter (fun s => negb (String.eqb (su_text s) "")) all)).

(** ** Related books *)

Context (engine_document : string -> attempt_outcome).
(** [v or []], spread into a list. *)
Definition spread (v : json) : result (list json) := match jor v (JList []) with JList l => Ok l | _ => Raise TypeErr end.
Definition related_terms (d : document) : result (list json) :=
  names ← spread (field "category_names" d);
  tags ← spread (field "tags" d);
  authors ← spread (field "author_names" d);
  Ok (names ++ take 5 tags ++ take 2 authors).
Definition related_body (book_id : string) (limit : Z) (d : document) : result (Body * bool) :=
  terms ← related_terms d;
  slugs ← spread (field "category_slugs" d);
  let slugs := List.filter jtruthy slugs in
  let query := stake 200 (String.concat " " (map jstr (List.filter jtruthy terms))) in
  let chosen := if bool_decide (length slugs = 0%nat) then [] else [AnyOf (map (fun v => equals "category_slugs" (jstr v)) slugs)] in
  Ok (mkBody query 0 (Some limit) (Expr PUBLISHED_ONLY :: chosen ++ [Expr (append "id != " (escape_filter_value book_id))])
       ["popularity:desc"] [] false, negb (bool_decide (length slugs = 0%nat))).
Definition related_hits (book_id : string) (limit : Z) : result (string * list BookHit) :=
  found ← meili_request (engine_document book_id);
  match found with
  | JNull => Ok ("similar", [])
  | JObj d =>
      body ← related_body book_id limit d;
      raw ← meili_search (engine_search body.1);
      hits ← answer_list raw "hits";
      hits ← mapM hit_of hits;
      Ok (if body.2 : bool then "same_category" else "similar", hits)
  | _ => Raise AttributeErr
  end.
End query.

(** ** Filter expressions *)

(** A quoted literal, read as the engine's documentation describes it: a
    backslash takes the next character as it is, the first other quote ends it. *)
Fixpoint read_quoted (s : string) : option (string * string) :=
  match s with
  | "" => None
  | String c s' =>
      if (c =? dquote)%char then Some ("", s')
      else if (c =? backslash)%char then
        match s' with "" => None | String d s'' => '(v, r) ← read_quoted s''; Some (String d v, r) end
      else '(v, r) ← read_quoted s'; Some (String c v, r)
  end.
Definition read_literal (s : string) : option (string * string) :=
  match s with String c s' => if (c =? dquote)%char then read_quoted s' else None | "" => None end.

Lemma read_escaped d t : read_quoted (String backslash (String d t)) = ('(v, r) ← read_quoted t; Some (String d v, r)).
Proof. reflexivity. Qed.
Lemma read_plain c t : c <> dquote -> c <> backslash -> read_quoted (String c t) = ('(v, r) ← read_quoted t; Some (String c v, r)).
Proof. intros Hq Hb. cbn [read_quoted]. apply Ascii.eqb_neq in Hb, Hq. by rewrite Hq, Hb. Qed.

(** Whatever the value, it is read back whole and the literal ends where it was ended. *)
Lemma literal_roundtrip value rest : read_literal (append (escape_filter_value value) rest) = Some (value, rest).
Proof.
  unfold read_literal, escape_filter_value. rewrite append_String, append_assoc. cbn [Ascii.eqb]. rewrite Ascii.eqb_refl.
  induction value as [|c s IH]; [done|].
  assert (Hstep : escaped_value (String c s) = append (escaped_value (String c "")) (escaped_value s))
    by (unfold escaped_value; rewrite <- !replace_char_append; done).
  rewrite Hstep, append_assoc. revert IH. generalize (append (escaped_value s) (append (String dquote "") rest)). intros t IH. clear Hstep.
  unfold escaped_value. cbn [replace_char]. destruct (Ascii.eqb_spec c backslash) as [->|Hb].
  - change (replace_char dquote _ _) with (String backslash (String backslash "")). by rewrite !append_String, append_nil, read_escaped, IH.
  - cbn [replace_char]. destruct (Ascii.eqb_spec c dquote) as [->|Hq].
    + change (append (String backslash (String dquote "")) "") with (String backslash (String dquote "")).
      by rewrite !append_String, append_nil, read_escaped, IH.
    + by rewrite append_String, append_nil, read_plain, IH.
Qed.

(** Every filter a caller may name is on an attribute the engine filters by. *)
Lemma filterable_indexable name attribute : filterable name = Some attribute -> attribute ∈ BOOK_FILTERABLE_ATTRIBUTES.
Proof.
  unfold filterable. destruct (List.find _ FILTERABLE) as [[k a]|] eqn:E; intros H; [|done]. injection H as <-. apply find_some in E as [E _].
  apply list_elem_of_In. cbn in E |- *. repeat (destruct E as [[= <- <-]|E]; [tauto|]). done.
Qed.

(** The values of an attribute that may hold one text or several. *)
Definition texts_of (v : json) : list string :=
  match v with JStr s => [s] | JList l => omap (fun x => match x with JStr s => Some s | _ => None end) l | _ => [] end.

(** What the engine's documentation promises of filter expressions; [fold_text]
    is the folding under which it compares texts. *)
Class FilterEngine (rating_text : Z -> string) := {
  holds : string -> document -> bool;
  fold_text : string -> string;
  equality_selects attribute literal value d : attribute ∈ BOOK_FILTERABLE_ATTRIBUTES -> read_literal literal = Some (value, "") ->
    holds (append attribute (append " = " literal)) d = true -> exists x, x ∈ texts_of (field attribute d) /\ fold_text x = fold_text value;
  free_selects d : holds "is_free = true" d = true -> field "is_free" d = JBool true;
  lower_selects n d : holds (append "price_minor" (append " >= " (py_str_int n))) d = true -> exists m, field "price_minor" d = JInt m /\ n <= m;
  upper_selects n d : holds (append "price_minor" (append " <= " (py_str_int n))) d = true -> exists m, field "price_minor" d = JInt m /\ m <= n;
  rating_selects n d : holds (append "rating_average" (append " >= " (rating_text n))) d = true -> exists m, field "rating_average" d = JInt m /\ n <= m;
}.

Section filters.
Context (settings : QuerySettings) (rating_text : Z -> string) `{FilterEngine rating_text}.

(** Elements joined by AND, nested ones by OR. *)
Definition satisfies (cs : list clause) (d : document) : Prop :=
  Forall (fun c => match c with Expr e => holds e d = true | AnyOf es => exists e, e ∈ es /\ holds e d = true end) cs.
Definition has_value (attribute value : string) (d : document) : Prop :=
  exists x, x ∈ texts_of (field attribute d) /\ fold_text x = fold_text value.

Lemma append_empty s : append s "" = s.
Proof. induction s as [|c s IH]; [done|]. by rewrite append_String, IH. Qed.

Lemma equals_selects attribute value d : attribute ∈ BOOK_FILTERABLE_ATTRIBUTES -> holds (equals attribute value) d = true -> has_value attribute value d.
Proof.
  intros Ha Hh. eapply equality_selects; [done| |exact Hh]. pose proof (literal_roundtrip value "") as Hr.
  rewrite append_empty in Hr. exact Hr.
Qed.

(** The names of parsed filters are known, and each has a value. *)
Definition named (filters : list (string * list string)) : Prop := Forall (fun kv => filterable kv.1 <> None /\ kv.2 <> []) filters.
Lemma add_filter_named name value parsed : named parsed -> filterable name <> None -> named (add_filter name value parsed).
Proof.
  intros Hp Hn. unfold named in *. induction Hp as [|[k vs] parsed [Hk Hvs] Hp IH]; cbn [add_filter]; [by repeat constructor|].
  destruct (String.eqb k name); constructor; cbn in *; try done. split; [done|]. by destruct vs.
Qed.
Lemma parse_filters_named raw parsed filters : named parsed -> parse_filters_from parsed raw = Ok filters -> named filters.
Proof.
  revert parsed. induction raw as [|item raw IH]; intros parsed Hp Hr; [by injection Hr as <-|].
  cbn [parse_filters_from] in Hr. apply result_bind_ok in Hr as (parsed' & Hi & Hr). apply (IH parsed'); [|done].
  unfold parse_filter in Hi. destruct (partition_char ":" item) as [name value].
  destruct (_ || _); [done|]. case_bool_decide; [done|]. destruct (120 <? _); [done|]. injection Hi as <-. by apply add_filter_named.
Qed.

Lemma clauses_select filters cs d name values attribute : filter_clauses filters = Ok cs -> satisfies cs d ->
  (name, values) ∈ filters -> values <> [] -> filterable name = Some attribute -> exists v, v ∈ values /\ has_value attribute v d.
Proof.
  revert cs. induction filters as [|[k vs] filters IH]; intros cs Hc Hs Hin Hne Ha; [by apply not_elem_of_nil in Hin|].
  cbn [filter_clauses] in Hc. destruct vs as [|v vs].
  { apply elem_of_cons in Hin as [[= -> ->]|Hin]; [done|]. by apply (IH cs). }
  apply result_bind_ok in Hc as (a & Hka & Hc). apply result_bind_ok in Hc as (rest & Hrest & [= <-]).
  unfold opt_result in Hka. destruct (filterable k) as [a'|] eqn:Hk; [|done]. injection Hka as ->.
  unfold satisfies in Hs. apply Forall_cons_1 in Hs as [(e & He & Hh) Hs].
  apply elem_of_cons in Hin as [[= -> ->]|Hin]; [|by apply (IH rest)].
  rewrite Hk in Ha. injection Ha as ->. change (equals attribute v :: map (equals attribute) vs) with (map (equals attribute) (v :: vs)) in He.
  apply list_elem_of_In, in_map_iff in He as (x & <- & Hx%list_elem_of_In). exists x. split; [done|].
  apply equals_selects; [by eapply filterable_indexable|done].
Qed.

(** What the filter of a request selects. *)
Definition selected (p : SearchParams) (d : document) : Prop :=
  has_value "status" "published" d /\
  (forall name values attribute, (name, values) ∈ sp_filters p -> filterable name = Some attribute -> exists v, v ∈ values /\ has_value attribute v d) /\
  (if sp_free_only p then field "is_free" d = JBool true
   else (forall n, sp_min_price p = Some n -> exists m, field "price_minor" d = JInt m /\ n <= m) /\
        (forall n, sp_max_price p = Some n -> exists m, field "price_minor" d = JInt m /\ m <= n)) /\
  (forall n, sp_min_rating p = Some n -> exists m, field "rating_average" d = JInt m /\ n <= m).

Lemma filter_selects p cs d : named (sp_filters p) -> build_filter rating_text p = Ok cs -> satisfies cs d -> selected p d.
Proof.
  intros Hn Hb Hs. unfold build_filter in Hb. apply result_bind_ok in Hb as (chosen & Hc & [= <-]).
  unfold satisfies in Hs. rewrite !Forall_app in Hs. destruct Hs as (Hch & Hprice & Hrat & Hpub). split; [|split; [|split]].
  - apply Forall_cons_1 in Hpub as [Hpub _]. apply equals_selects; [|exact Hpub]. apply list_elem_of_In. cbn. tauto.
  - intros name values attribute Hin Ha. eapply clauses_select; [done..| |done]. unfold named in Hn. rewrite Forall_forall in Hn. by apply (Hn _ Hin).
  - destruct (sp_free_only p); [apply Forall_cons_1 in Hprice as [Hfree _]; by apply free_selects|].
    rewrite Forall_app in Hprice. destruct Hprice as [Hlo Hhi]. split; intros n En; [rewrite En in Hlo; apply Forall_cons_1 in Hlo as [Hlo _]; by apply lower_selects|].
    rewrite En in Hhi. apply Forall_cons_1 in Hhi as [Hhi _]. by apply upper_selects.
  - intros n En. rewrite En in Hrat. apply Forall_cons_1 in Hrat as [Hrat _]. by apply rating_selects.
Qed.

Context (dumps : json -> list N) (loads : list N -> option json) (engine_search : Body -> attempt_outcome).
(** The fields of a document that a hit shows, and what the engine adds to them. *)
Context (shown : Body -> document -> document).
(** The engine answers with documents its filter selects, at most as many as asked for. *)
Context (selects : forall b raw hits, meili_search (engine_search b) = Ok raw -> answer_list raw "hits" = Ok hits ->
  Forall (fun h => exists d, h = JObj (shown b d) /\ satisfies (bo_filter b) d) hits).

Lemma mapM_Forall {A B} (f : A -> result B) (P : A -> Prop) (Q : B -> Prop) l k :
  (forall x y, P x -> f x = Ok y -> Q y) -> Forall P l -> mapM f l = Ok k -> Forall Q k.
Proof.
  intros Hpq. revert k. induction l as [|x l IH]; intros k Hp Hk; [injection Hk as <-; constructor|].
  apply Forall_cons_1 in Hp as [Hx Hp]. cbn in Hk. apply result_bind_ok in Hk as (y & Hy & Hk). apply result_bind_ok in Hk as (k' & Hk' & [= <-]).
  constructor; [by eapply Hpq|by apply IH].
Qed.
Lemma mapM_length {A B} (f : A -> result B) l k : mapM f l = Ok k -> length k = length l.
Proof.
  revert k. induction l as [|x l IH]; intros k Hk; [by injection Hk as <-|].
  cbn in Hk. apply result_bind_ok in Hk as (y & _ & Hk). apply result_bind_ok in Hk as (k' & Hk' & [= <-]). cbn. by rewrite (IH k').
Qed.

(** C35: whatever a request names in its filters (any text, quotes and
    backslashes included), every hit of its answer shows a document that is
    published, that has for each filter one of the values the request gave for
    it, and that lies within the price and rating asked for; and a page has no
    more hits than the limit asked for and the service's own. *)
Theorem search_stays_in_filters raw p r :
  search_params settings raw = Ok p -> search settings rating_text dumps loads engine_search p = Ok r ->
  Forall (fun hit => exists b d, to_hit (shown b d) = Ok hit /\ selected p d) (sr_hits r) /\
  Z.of_nat (length (sr_hits r)) <= Z.max 1 (Z.min (rq_limit raw) (search_max_limit settings)).
Proof.
  intros Hp Hr. unfold search_params in Hp. match type of Hp with (if ?b then _ else _) = _ => destruct b; [done|] end.
  apply result_bind_ok in Hp as (filters & Hf & Hp).
  assert (Hn : named (sp_filters p)) by (injection Hp as <-; eapply (parse_filters_named _ []); [constructor|exact Hf]).
  assert (Hl : page_limit settings p = Z.max 1 (Z.min (rq_limit raw) (search_max_limit settings)))
    by (injection Hp as <-; unfold page_limit; cbn; lia).
  unfold search in Hr. apply result_bind_ok in Hr as (body & Hb & Hr). apply result_bind_ok in Hr as (v & Hv & Hr).
  apply result_bind_ok in Hr as (hits & Hh & Hr). cbv zeta in Hr. apply result_bind_ok in Hr as (off & Hoff & Hr).
  apply result_bind_ok in Hr as (hits' & Hm & Hr). apply result_bind_ok in Hr as (facets & _ & Hr). apply result_bind_ok in Hr as (total & _ & [= <-]).
  cbn [sr_hits]. split.
  - unfold build_body in Hb. apply result_bind_ok in Hb as (o & _ & Hb). apply result_bind_ok in Hb as (cs & Hcs & [= <-]).
    eapply mapM_Forall; [|apply Forall_take; exact (selects _ _ _ Hv Hh)|exact Hm].
    intros x y (d & -> & Hd) Hy. eexists _, d. split; [exact Hy|]. apply (filter_selects p cs); [done..|].
    by destruct (uses_semantic settings p).
  - rewrite (mapM_length _ _ _ Hm), length_take, Hl. lia.
Qed.
End filters.

(** ** Pages *)

Section pages.
Context (settings : QuerySettings) (rating_text : Z -> string) (dumps : json -> list N) (loads : list N -> option json).
(** The JSON library reads back the cursors it wrote, in bytes, never none. *)
Let cursor_of (o : Z) : json := JObj [("o", JInt o)].
Context (loads_dumps : forall o, 0 <= o <= 5000 -> loads (dumps (cursor_of o)) = Some (cursor_of o) /\
  Forall (fun b => (b < 256)%N) (dumps (cursor_of o)) /\ dumps (cursor_of o) <> []).
Context (engine_search : Body -> attempt_outcome) (p : SearchParams) (results : list json).

Definition at_cursor (c : option string) : SearchParams :=
  mkParams (sp_query p) (sp_filters p) (sp_min_price p) (sp_max_price p) (sp_min_rating p) (sp_free_only p) (sp_sort p) (sp_limit p) c
    (sp_facets p) (sp_semantic p).
(** The first 5000 of the query's results ([maxTotalHits]), the window a body
    asks for; the answer's other parts are well formed. *)
Context (windows : forall c b, build_body settings rating_text loads (at_cursor c) = Ok b ->
  exists raw facets total, run_backend settings engine_search (at_cursor c) b = Ok raw /\
    answer_list raw "hits" = Ok (slice (bo_offset b) (default 20 (bo_limit b)) (take 5000 results)) /\
    to_facets (jget "facetDistribution" raw) = Ok facets /\
    forall d, opt_result ValueErr (jint (jget_default "estimatedTotalHits" (JInt d) raw)) = Ok total).
Context (clauses : list clause) (filter_ok : build_filter rating_text p = Ok clauses).

Let limit := page_limit settings p.
Let total := Z.min 5000 (Z.of_nat (length results)).

Lemma offset_of_cursor o : 0 <= o <= 5000 -> _offset loads (Some (encode_cursor dumps [("o", JInt o)])) = Ok o.
Proof.
  intros Ho. destruct (loads_dumps o Ho) as (Hl & Hb & Hw). unfold _offset, decode_cursor, encode_cursor. fold (cursor_of o).
  destruct (b64_encode _) eqn:E.
  - destruct Hw. destruct (dumps _) as [|a [|b [|c l]]]; done.
  - rewrite <- E, b64_decode_encode by done. cbn [mbind option_bind]. rewrite Hl. cbn.
    by rewrite (proj2 (Z.ltb_ge o 0)), (proj2 (Z.ltb_ge 5000 o)) by lia.
Qed.

Lemma limit_pos : 1 <= limit.
Proof. unfold limit, page_limit. lia. Qed.

Lemma mapM_take {A B} (f : A -> result B) n l k : mapM f l = Ok k -> mapM f (take n l) = Ok (take n k).
Proof.
  revert n k. induction l as [|x l IH]; intros n k Hk; [injection Hk as <-; by rewrite !take_nil|].
  cbn in Hk. apply result_bind_ok in Hk as (y & Hy & Hk). apply result_bind_ok in Hk as (k' & Hk' & [= <-]).
  destruct n; [done|]. cbn. by rewrite Hy, (IH n k').
Qed.
Lemma mapM_drop {A B} (f : A -> result B) n l k : mapM f l = Ok k -> mapM f (drop n l) = Ok (drop n k).
Proof.
  revert n k. induction l as [|x l IH]; intros n k Hk; [injection Hk as <-; by rewrite !drop_nil|].
  destruct n; [done|]. cbn in Hk. apply result_bind_ok in Hk as (y & Hy & Hk). apply result_bind_ok in Hk as (k' & Hk' & [= <-]). cbn. by apply IH.
Qed.

(** One page: the window of the results at the offset, and a cursor exactly when more are left. *)
Lemma page_at c o hits : _offset loads c = Ok o -> 0 <= o -> mapM hit_of (take 5000 results) = Ok hits ->
  exists r, search settings rating_text dumps loads engine_search (at_cursor c) = Ok r /\ sr_hits r = slice o limit hits /\
    sr_next_cursor r = if o + limit <? total then Some (encode_cursor dumps [("o", JInt (o + limit))]) else None.
Proof.
  intros Hc Ho Hhits. set (b := mkBody (sp_query p) o (Some (limit + 1)) clauses (SORT_EXPRESSIONS (sp_sort p))
    (if sp_facets p then facet_attributes settings else []) false). pose proof limit_pos as Hlim.
  assert (Hb : build_body settings rating_text loads (at_cursor c) = Ok b).
  { unfold build_body. cbn [at_cursor sp_cursor]. rewrite Hc. cbn. unfold build_filter in *. cbn. rewrite filter_ok. done. }
  destruct (windows c b Hb) as (raw & facets & n & Hx & Hl & Hf & Hn). unfold search. rewrite Hb. cbn. rewrite Hx. cbn. rewrite Hl. cbn.
  rewrite Hc. cbn. fold (at_cursor c). change (page_limit settings (at_cursor c)) with limit. unfold slice. cbn [b bo_offset bo_limit default].
  set (W := take 5000 results) in *. rewrite take_take, Nat.min_l by lia.
  assert (Hm : mapM hit_of (take (Z.to_nat limit) (drop (Z.to_nat o) W)) = Ok (slice o limit hits)) by (apply mapM_take; by apply mapM_drop).
  rewrite Hm. cbn. rewrite Hf. cbn. rewrite Hn. cbn. eexists. split; [reflexivity|]. split; [done|]. cbn.
  rewrite length_take, length_drop. replace (length W) with (Z.to_nat total) by (unfold W, total; rewrite length_take; lia).
  destruct (Z.ltb_spec (o + limit) total); [rewrite (proj2 (Z.ltb_lt _ _)) by lia|rewrite (proj2 (Z.ltb_ge _ _)) by lia]; done.
Qed.

(** Page after page, following the cursor of each. *)
Fixpoint follow_pages (fuel : nat) (c : option string) : result (list BookHit) :=
  match fuel with
  | O => Ok []
  | S fuel =>
      r ← search settings rating_text dumps loads engine_search (at_cursor c);
      match sr_next_cursor r with
      | None => Ok (sr_hits r)
      | Some c => rest ← follow_pages fuel (Some c); Ok (sr_hits r ++ rest)
      end
  end.

Lemma follow_from hits : mapM hit_of (take 5000 results) = Ok hits -> forall fuel c o,
  _offset loads c = Ok o -> 0 <= o -> total - o < Z.of_nat fuel -> follow_pages fuel c = Ok (drop (Z.to_nat o) hits).
Proof.
  intros Hhits. assert (Hlen : Z.of_nat (length hits) = total).
  { rewrite (mapM_length _ _ _ Hhits), length_take. unfold total. lia. }
  pose proof limit_pos. induction fuel as [|fuel IH]; intros c o Hc Ho Hf.
  - cbn. rewrite drop_ge; [done|]. lia.
  - cbn [follow_pages]. destruct (page_at c o hits Hc Ho Hhits) as (r & -> & Hr & Hn). cbn. rewrite Hn, Hr. clear Hn Hr. unfold slice.
    destruct (Z.ltb_spec (o + limit) total) as [Hm|Hm].
    + rewrite (IH _ (o + limit)); [|apply offset_of_cursor; unfold total in *; lia|lia..]. cbn.
      replace (Z.to_nat (o + limit)) with (Z.to_nat o + Z.to_nat limit)%nat by lia. rewrite <- drop_drop. by rewrite take_drop.
    + rewrite take_ge; [done|]. rewrite length_drop. lia.
Qed.

(** following the cursor of each page from a search's first page ends
    without an error, and what the pages hold together is the query's results in
    their order, each of them once, up to the 5000 the engine counts to; no page
    on the way is refused as too deep. *)
Theorem search_pages_complete hits fuel : mapM hit_of (take 5000 results) = Ok hits -> total < Z.of_nat fuel -> follow_pages fuel None = Ok hits.
Proof. intros Hhits Hf. rewrite (follow_from hits Hhits fuel None 0); [done|done|lia|lia]. Qed.
End pages.

(** ** Concrete runs *)

Definition demo_query_settings : QuerySettings := mkQuerySettings 100 8 ["tags"] false "books" "authors" "categories".
Definition demo_raw (filters : list string) : RawParams :=
  mkRaw "dune" (Some filters) SortOption.RELEVANCE None None None false 2 None false None.
Definition demo_doc (id category : string) : document :=
  [("id", JStr id); ("title", JStr "Dune"); ("status", JStr "published"); ("category_slugs", JList [JStr category])].
Definition demo_tricky : string := append "sci" (String dquote " OR status = draft").
Definition demo_docs : list document := [demo_doc "b1" demo_tricky; demo_doc "b2" "poetry"; demo_doc "b3" demo_tricky; demo_doc "b4" demo_tricky].

(** An engine that understands two expressions. *)
Definition demo_holds (e : string) (d : document) : bool :=
  String.eqb e PUBLISHED_ONLY && bool_decide ("published" ∈ texts_of (field "status" d)) ||
  String.eqb e (equals "category_slugs" demo_tricky) && bool_decide (demo_tricky ∈ texts_of (field "category_slugs" d)).

Lemma demo_holds_inv e d : demo_holds e d = true ->
  e = PUBLISHED_ONLY /\ "published" ∈ texts_of (field "status" d) \/
  e = equals "category_slugs" demo_tricky /\ demo_tricky ∈ texts_of (field "category_slugs" d).
Proof. unfold demo_holds. intros [[H1%String.eqb_eq H2%bool_decide_eq_true]%andb_true_iff|[H1%String.eqb_eq H2%bool_decide_eq_true]%andb_true_iff]%orb_true_iff; auto. Qed.

#[local] Instance demo_engine : FilterEngine py_str_int.
Proof.
  refine {| holds := demo_holds; fold_text := id |}.
  - intros attribute literal value d Ha Hr [[E Hd]|[E Hd]]%demo_holds_inv; apply list_elem_of_In in Ha; cbn in Ha;
      repeat (destruct Ha as [<-|Ha]; [try discriminate E|]); try done; injection E; rewrite append_nil; intros ->; vm_compute in Hr; injection Hr as <-; eauto.
  - intros d [[E _]|[E _]]%demo_holds_inv; discriminate E.
  - intros n d [[E _]|[E _]]%demo_holds_inv; discriminate E.
  - intros n d [[E _]|[E _]]%demo_holds_inv; discriminate E.
  - intros n d [[E _]|[E _]]%demo_holds_inv; discriminate E.
Defined.

Definition demo_answer_of (hits : list document) : attempt_outcome :=
  Response 200 (JsonContent (JObj [("hits", JList (map JObj hits)); ("estimatedTotalHits", JInt (Z.of_nat (length hits)))])).
Definition demo_selected (b : Body) (d : document) : bool :=
  forallb (fun c => match c with Expr e => demo_holds e d | AnyOf es => existsb (fun e => demo_holds e d) es end) (bo_filter b).
Definition demo_search (b : Body) : attempt_outcome :=
  demo_answer_of (slice (bo_offset b) (default 20 (bo_limit b)) (List.filter (demo_selected b) demo_docs)).
Definition demo_dumps (v : json) : list N := match v with JObj [(_, JInt o)] => [Z.to_N (o / 256); Z.to_N (o mod 256)] | _ => [0%N] end.
Definition demo_loads (l : list N) : option json :=
  match l with [a; b] => Some (JObj [("o", JInt (Z.of_N a * 256 + Z.of_N b))]) | _ => None end.
Definition demo_params : SearchParams :=
  mkParams "dune" [("category", [demo_tricky])] None None None false SortOption.RELEVANCE 2 None false None.

Lemma demo_selects b raw hits : meili_search (demo_search b) = Ok raw -> answer_list raw "hits" = Ok hits ->
  Forall (fun h => exists d, h = JObj d /\ satisfies py_str_int (bo_filter b) d) hits.
Proof.
  intros [= <-] [= <-]. apply Forall_forall. intros h (d & <- & Hd)%list_elem_of_In%in_map_iff. exists d. split; [done|].
  assert (Hsel : demo_selected b d = true).
  { assert (Hin : d ∈ List.filter (demo_selected b) demo_docs) by (apply list_elem_of_In, elem_of_slice in Hd; done).
    by apply list_elem_of_In, filter_In in Hin as [_ Hin]. }
  unfold satisfies. apply Forall_forall. intros c Hc. unfold demo_selected in Hsel. rewrite forallb_forall in Hsel.
  specialize (Hsel c ltac:(by apply list_elem_of_In)). destruct c as [e|es]; [done|].
  apply existsb_exists in Hsel as (e & He%list_elem_of_In & Hh). eauto.
Qed.

Lemma search_stays_in_filters_witness : exists r,
  search demo_query_settings py_str_int demo_dumps demo_loads demo_search demo_params = Ok r /\ map hi_id (sr_hits r) = ["b1"; "b3"] /\
  Forall (fun hit => exists (b : Body) (d : document), to_hit d = Ok hit /\ selected py_str_int demo_params d) (sr_hits r).
Proof.
  eexists. split; [reflexivity|]. split; [reflexivity|].
  apply (search_stays_in_filters demo_query_settings py_str_int demo_dumps demo_loads demo_search (fun (_ : Body) d => d) demo_selects
    (demo_raw [append "Category: " demo_tricky]) demo_params); reflexivity.
Defined.

Definition demo_results : list json := map JObj (List.filter (fun d => demo_holds (equals "category_slugs" demo_tricky) d) demo_docs).
Definition demo_window (b : Body) : attempt_outcome :=
  Response 200 (JsonContent (JObj [("hits", JList (slice (bo_offset b) (default 20 (bo_limit b)) (take 5000 demo_results))); ("estimatedTotalHits", JInt 3)])).

Definition demo_hits : list BookHit := match mapM hit_of (take 5000 demo_results) with Ok l => l | Raise _ => [] end.

Lemma search_pages_complete_witness :
  follow_pages demo_query_settings py_str_int demo_dumps demo_loads demo_window demo_params 5 None = Ok demo_hits /\
  map hi_id demo_hits = ["b1"; "b3"; "b4"].
Proof.
  split; [|reflexivity].
  eapply (search_pages_complete demo_query_settings py_str_int demo_dumps demo_loads) with (results := demo_results).
  - intros o Ho. cbn. split; [|split; [|done]].
    + do 3 f_equal. rewrite !Z2N.id by (first [apply Z.mod_pos_bound; lia|apply Z.div_pos; lia]). f_equal. pose proof (Z.div_mod o 256). f_equal. lia.
    + repeat constructor; apply N2Z.inj_lt; rewrite Z2N.id; (first [apply Z.mod_pos_bound; lia|apply Z.div_pos; lia|apply Z.div_lt_upper_bound; lia]).
  - intros c b _. eexists _, _, 3. split; [reflexivity|]. split; [reflexivity|]. split; [reflexivity|]. intros d. done.
  - reflexivity.
  - reflexivity.
  - done.
Defined.

(** What the code asks of the engine that the engine was not told to do. *)
Example rating_sort_not_sortable : In "rating_count:desc" (SORT_EXPRESSIONS SortOption.RATING) /\ ~ In "rating_count" BOOK_SORTABLE_ATTRIBUTES.
Proof. split; [cbn; tauto|]. cbn. intros H. repeat destruct H as [H|H]; done. Qed.
Example related_filters_by_id : In (Expr (append "id != " (escape_filter_value "b1")))
    (match related_body "b1" 12 (demo_doc "b1" "poetry") with Ok b => bo_filter b.1 | Raise _ => [] end) /\
  ~ In "id" BOOK_FILTERABLE_ATTRIBUTES.
Proof. split; [vm_compute; tauto|]. cbn. intros H. repeat destruct H as [H|H]; done. Qed.
Example suggestion_fields_not_displayed : Forall (fun a => ~ In a BOOK_DISPLAYED_ATTRIBUTES) ["thumbnail_key"; "author_names"].
Proof. repeat constructor; cbn; intros H; repeat destruct H as [H|H]; done. Qed.
