(* ===== verification/SearchStats.v ===== *)
(** * Search analytics and trending terms (apps/search/services/analytics.py, trending.py)

    Recorded queries and clicks, the report over them, and the hourly buckets in
    Redis.  Averages, rates and decayed scores are exact fractions where the
    code has floats; [round4] is [round(score, 4)]. *)

From Stdlib Require Import QArith.
From S2P Require Import Prelude Store Json Dates Pagination Http SearchDocs SearchQuery.
#[local] Open Scope Z_scope.

(** ** Rows (models.py) *)

Record QueryRow := mkQuery {
  sq_id : uuid;
  sq_query_text : string;
  sq_normalized_query : string;
  sq_filters : json;
  sq_sort : option string;
  sq_result_count : Z;
  sq_has_results : bool;
  sq_took_ms : Z;
  sq_user_id : option uuid;
  sq_session_id : option string;
  sq_created_at : datetime;
}.
Record ClickRow := mkClick { sc_id : uuid; sc_query_id : uuid; sc_book_id : string; sc_position : Z; sc_created_at : datetime }.
#[export] Instance QueryRow_row : Row QueryRow := sq_id.
#[export] Instance ClickRow_row : Row ClickRow := sc_id.

Record StatsDb := mkStatsDb { sq_rows : table QueryRow; sc_rows : table ClickRow }.

Record StatsSettings := mkStatsSettings {
  analytics_enabled : bool;
  analytics_max_query_length : nat;
  trending_enabled : bool;
  trending_window_hours : nat;
  trending_decay_per_hour : Q;
  trending_max_terms : Z;
  trending_min_query_length : nat;
}.

(** ** Recording (analytics.py) *)

Section analytics.
Context (settings : StatsSettings).

Definition query_row (now : datetime) (id : uuid) (text : string) (filters : json) (sort : option string) (result_count took_ms : Z)
    (user : option uuid) (session : option string) : QueryRow :=
  mkQuery id (stake (analytics_max_query_length settings) text) (stake (analytics_max_query_length settings) (normalise_query text))
    (if jtruthy filters then filters else JObj []) sort result_count (0 <? result_count) took_ms user
    (if truthy session then Some (stake 64 (default "" session)) else None) now.

(** [connected]: there is a database; [fails]: its session raises.  Whatever
    is raised is logged. *)
Definition record_query (connected fails : bool) (now : datetime) (id : uuid) (query : option string) (filters : json) (sort : option string)
    (result_count took_ms : Z) (user : option uuid) (session : option string) : M StatsDb (option uuid) := fun d =>
  if negb (analytics_enabled settings) || negb connected then (Ok None, d) else
  let text := strip (default "" query) in
  if String.eqb text "" then (Ok None, d) else
  if fails then (Ok None, d) else
  let row := query_row now id text filters sort result_count took_ms user session in
  match insert_new (fun _ => @None unit) row (sq_rows d) with
  | Ok t => (Ok (Some (sq_id row)), mkStatsDb t (sc_rows d))
  | Raise _ => (Ok None, d)
  end.

Definition add_click (click : ClickRow) : M StatsDb unit := fun d =>
  match insert_new (fun _ => @None unit) click (sc_rows d) with
  | Ok t => (Ok tt, mkStatsDb (sq_rows d) t)
  | Raise e => (Raise e, d)
  end.
Definition record_click (now : datetime) (id query_id : uuid) (book_id : string) (position : Z) : M StatsDb ClickRow :=
  parent ← gets (fun d => sq_rows d !! query_id);
  _ ← raise_when (bool_decide (parent = None)) (app_error NotFoundError "");
  let click := mkClick id query_id (stake 64 book_id) position now in
  _ ← add_click click;
  mret click.

(** ** The report *)

Definition ratio (n total : Z) : Q := if total =? 0 then 0%Q else (inject_Z n / inject_Z total)%Q.
(** [coalesce(avg(x), 0)] *)
Definition mean_of (f : QueryRow -> Z) (l : list QueryRow) : Q := ratio (zsum (map f l)) (Z.of_nat (length l)).
(** [coalesce(sum(case when not has_results then 1 else 0), 0)] *)
Definition without_results (l : list QueryRow) : Z := zsum (map (fun q => if sq_has_results q then 0 else 1) l).

Record QueryStat := mkStat { qs_query : string; qs_searches : Z; qs_average_results : Q; qs_zero_result_rate : Q }.
Record AnalyticsResponse := mkReport {
  an_window_days : Z;
  an_total_searches : Z;
  an_unique_queries : Z;
  an_zero_result_searches : Z;
  an_zero_result_rate : Q;
  an_average_took_ms : Q;
  an_top_queries : list QueryStat;
  an_zero_result_queries : list QueryStat;
}.

Definition searched (name : string) (l : list QueryRow) : list QueryRow :=
  List.filter (fun q => String.eqb (sq_normalized_query q) name) l.
Definition stat_of (l : list QueryRow) (name : string) : QueryStat :=
  let rows := searched name l in
  let n := Z.of_nat (length rows) in
  mkStat name n (mean_of sq_result_count rows) (ratio (without_results rows) n).
Definition most_searched (a b : QueryStat) : Prop := qs_searches b <= qs_searches a.
#[export] Instance most_searched_dec : RelDecision most_searched.
Proof. intros a b. unfold most_searched. apply _. Defined.

(** [scan]: the order the groups come in; ORDER BY breaks no ties. *)
Definition _group (scan : list string -> list string) (top : nat) (zero_only : bool) (found : list QueryRow) : list QueryStat :=
  let rows := List.filter (fun q => negb zero_only || negb (sq_has_results q)) found in
  take top (merge_sort most_searched (map (stat_of rows) (scan (fromkeys (map sq_normalized_query rows))))).

Definition query_window (now : datetime) (days : Z) (d : StatsDb) : list QueryRow :=
  select (fun q => now - days * DAY <=? sq_created_at q) (sq_rows d).
Definition report (scan : list string -> list string) (now : datetime) (days : Z) (top : nat) (d : StatsDb) : AnalyticsResponse :=
  let rows := query_window now days d in
  let total := Z.of_nat (length rows) in
  mkReport days total (Z.of_nat (length (fromkeys (map sq_normalized_query rows)))) (without_results rows) (ratio (without_results rows) total)
    (mean_of sq_took_ms rows) (_group scan top false rows) (_group scan top true rows).

(** Clicks go with their query (ON DELETE CASCADE). *)
Definition prune_queries (now : datetime) (older_than_days : Z) : M StatsDb Z :=
  let stale q := sq_created_at q <? now - older_than_days * DAY in
  n ← gets (fun d => count stale (sq_rows d));
  _ ← modify (fun d => let kept := filter (fun kv => stale kv.2 = false) (sq_rows d) in
                       mkStatsDb kept (filter (fun kv => is_Some (kept !! sc_query_id kv.2)) (sc_rows d)));
  mret n.
End analytics.

(** ** Trending (trending.py) *)

Definition TRENDING_PREFIX : string := "kos:search:trending".
Definition trend_key (moment : datetime) : string :=
  append TRENDING_PREFIX (append ":" (append (yyyymmdd moment) (zero_pad 2 (moment / SECOND / 3600 mod 24)))).

(** A sorted set with its expiry. *)
Record bucket := mkBucket { bk_members : gmap string Z; bk_expires : datetime }.
Abbreviation buckets := (gmap string bucket) (only parsing).
Definition members_at (now : datetime) (key : string) (r : buckets) : gmap string Z :=
  match r !! key with Some b => if now <? bk_expires b then bk_members b else ∅ | None => ∅ end.

(** [ZREVRANGE key 0 n]: highest score first, then the greater member. *)
Definition rev_first (a b : string * Z) : Prop := b.2 < a.2 \/ a.2 = b.2 /\ String.leb b.1 a.1 = true.
#[local] Instance rev_first_dec : RelDecision rev_first.
Proof. intros a b. unfold rev_first. apply _. Defined.
Definition zrevrange (n : Z) (m : gmap string Z) : list (string * Z) := take (Z.to_nat (n + 1)) (merge_sort rev_first (map_to_list m)).

Section trending.
Context (settings : StatsSettings) (round4 : Q -> Q).

(** [up]: Redis answers; a failure is logged. *)
Definition record_trend (up : bool) (now : datetime) (query : string) (r : buckets) : buckets :=
  if negb (trending_enabled settings) then r else
  let term := lower (strip query) in
  if (String.length term <? trending_min_query_length settings)%nat then r else
  if negb up then r else
  let members := members_at now (trend_key now) r in
  <[trend_key now := mkBucket (<[term := default 0 (members !! term) + 1]> members)
                        (now + (Z.of_nat (trending_window_hours settings) + 2) * 3600 * SECOND)]> r.

Fixpoint power (decay : Q) (n : nat) : Q := match n with O => 1%Q | S n => (decay * power decay n)%Q end.
Definition add_entry (weight : Q) (scores : gmap string Q) (e : string * Z) : gmap string Q :=
  <[e.1 := (default 0 (scores !! e.1) + inject_Z e.2 * weight)%Q]> scores.

(** The buckets that are walked: the window, until a weight is negligible. *)
Fixpoint hours_walked (hours_ago n : nat) : list nat :=
  match n with
  | O => []
  | S n => if negb (Qle_bool (1 # 100) (power (trending_decay_per_hour settings) hours_ago)) then [] else hours_ago :: hours_walked (S hours_ago) n
  end.
Definition moment (now : datetime) (hours_ago : nat) : datetime := now - Z.of_nat hours_ago * 3600 * SECOND.
Definition merged (now : datetime) (limit : Z) (r : buckets) : gmap string Q :=
  foldl (fun scores h => foldl (add_entry (power (trending_decay_per_hour settings) h)) scores
                           (zrevrange (limit * 5) (members_at now (trend_key (moment now h)) r)))
    ∅ (hours_walked 0 (trending_window_hours settings)).

Definition ranked_before (a b : string * Q) : Prop := (b.2 < a.2)%Q \/ (a.2 == b.2)%Q /\ String.leb a.1 b.1 = true.
#[export] Instance ranked_before_dec : RelDecision ranked_before.
Proof.
  intros a b. unfold ranked_before. destruct (Qlt_le_dec (snd b) (snd a)) as [H|H]; [by left; left|].
  destruct (Qeq_dec (snd a) (snd b)) as [He|He]; [|right; intros [Hx|[Hx _]]; [by apply (Qlt_not_le _ _ Hx)|done]].
  destruct (String.leb (fst a) (fst b)) eqn:E; [left; right; done|].
  right. intros [Hx|[_ Hx]]; [by apply (Qlt_not_le _ _ Hx)|congruence].
Defined.
Definition top (up : bool) (now : datetime) (limit : option Z) (r : buckets) : list (string * Q) :=
  if negb (trending_enabled settings) then [] else
  let limit := match limit with Some n => if n =? 0 then trending_max_terms settings else n | None => trending_max_terms settings end in
  if negb up then [] else
  map (fun e => (e.1, round4 e.2)) (take (Z.to_nat limit) (merge_sort ranked_before (map_to_list (merged now limit r)))).

Definition reset (up : bool) (r : buckets) : buckets :=
  if up then filter (fun kv => startswith (append TRENDING_PREFIX ":") kv.1 = false) r else r.
End trending.

(** ** Lemmas: recording *)

(** Every click names a recorded query. *)
Definition attributed (d : StatsDb) : Prop := forall k c, sc_rows d !! k = Some c -> is_Some (sq_rows d !! sc_query_id c).

Lemma record_query_inv settings connected fails now id query filters sort n ms user session d r d' :
  record_query settings connected fails now id query filters sort n ms user session d = (r, d') ->
  (exists o, r = Ok o) /\ sc_rows d' = sc_rows d /\ (d' = d \/ exists row, sq_rows d !! sq_id row = None /\ sq_rows d' = save row (sq_rows d)).
Proof.
  unfold record_query. destruct (_ || _); [intros [= <- <-]; eauto|]. destruct (String.eqb _ _); [intros [= <- <-]; eauto|].
  destruct fails; [intros [= <- <-]; eauto|]. set (row := query_row _ _ _ _ _ _ _ _ _ _).
  destruct (insert_new _ row _) as [t|e] eqn:E; intros [= <- <-]; [|by eauto].
  apply insert_new_ok in E as (Hn & _ & ->). split; [by eexists|]. split; [done|]. right. by exists row.
Qed.

Lemma record_query_attributed settings connected fails now id query filters sort n ms user session :
  preserves attributed (record_query settings connected fails now id query filters sort n ms user session).
Proof.
  intros d r d' Ha (_ & Hc & [->|(row & Hn & Hq)])%record_query_inv; [done|]. intros k c. rewrite Hc, Hq. intros Hk.
  destruct (Ha k c Hk) as [q Hrow]. exists q. rewrite lookup_save_other; [done|]. intros He. change (row_id row) with (sq_id row) in He. congruence.
Qed.

Lemma record_click_attributed now id query_id book position : preserves attributed (record_click now id query_id book position).
Proof.
  intros d r d' Ha. unfold record_click. intros [(o & d1 & [= <- <-] & H)|(e & [=] & _)]%bind_inv.
  apply bind_inv in H as [([] & d1 & [-> Hp]%raise_when_cases & H)|(e & [-> _]%raise_when_cases & _)]; [|done].
  apply bool_decide_eq_false in Hp.
  assert (Hadd : forall r d', add_click (mkClick id query_id (stake 64 book) position now) d = (r, d') -> attributed d').
  { unfold add_click. intros r0 d0. destruct (insert_new _ _ _) as [t|e] eqn:E; intros [= <- <-]; [|done].
    apply insert_new_ok in E as (_ & _ & ->). intros k c. cbn [sc_rows sq_rows]. rewrite lookup_save. case_decide; [|by apply Ha].
    intros [= <-]. cbn. destruct (sq_rows d !! query_id); [by eexists|done]. }
  apply bind_inv in H as [([] & d1 & H1 & [= <- <-])|(e & H1 & _)]; by eapply Hadd.
Qed.

(** The sweep removes the old queries, and their clicks with them. *)
Lemma prune_queries_spec now days d :
  exists n d', prune_queries now days d = (Ok n, d') /\ n = count (fun q => sq_created_at q <? now - days * DAY) (sq_rows d) /\
    (forall k q, sq_rows d' !! k = Some q <-> sq_rows d !! k = Some q /\ now - days * DAY <= sq_created_at q) /\ attributed d'.
Proof.
  do 2 eexists. split; [reflexivity|]. split; [done|]. split.
  - intros k q. cbn [sq_rows]. rewrite map_lookup_filter_Some. cbn. by rewrite Z.ltb_ge.
  - intros k c. cbn [sc_rows sq_rows]. rewrite map_lookup_filter_Some. by intros [_ H].
Qed.

(** ** Lemmas: the report *)

Lemma searched_cons n q l : searched n (q :: l) = if String.eqb (sq_normalized_query q) n then q :: searched n l else searched n l.
Proof. reflexivity. Qed.

Lemma searched_sum (names : list string) (l : list QueryRow) :
  NoDup names -> (forall q, q ∈ l -> sq_normalized_query q ∈ names) ->
  zsum (map (fun n => Z.of_nat (length (searched n l))) names) = Z.of_nat (length l).
Proof.
  intros Hnd. induction l as [|q l IH]; intros Hin.
  - clear Hnd Hin. induction names as [|n names IH]; [done|]. cbn [map]. rewrite zsum_cons, IH. done.
  - cbn [length]. rewrite Nat2Z.inj_succ, <- IH by (intros; apply Hin; by right). clear IH.
    specialize (Hin q ltac:(by left)). revert Hin. induction names as [|n names IHn]; intros Hin; [by apply not_elem_of_nil in Hin|].
    apply NoDup_cons in Hnd as [Hn Hnd]. cbn [map]. rewrite !zsum_cons, searched_cons.
    destruct (String.eqb_spec (sq_normalized_query q) n) as [He|Hne].
    + cbn [length]. rewrite Nat2Z.inj_succ.
      rewrite (map_ext_in _ (fun n' => Z.of_nat (length (searched n' l))) names); [lia|].
      intros n' Hn'. rewrite searched_cons. destruct (String.eqb_spec (sq_normalized_query q) n') as [He'|]; [|done].
      exfalso. apply Hn. apply list_elem_of_In. congruence.
    + apply elem_of_cons in Hin as [|Hin]; [done|]. rewrite (IHn Hnd Hin). lia.
Qed.

Lemma without_results_bounds l : 0 <= without_results l <= Z.of_nat (length l).
Proof. unfold without_results. induction l as [|q l IH]; [done|]. cbn [map length]. rewrite zsum_cons. destruct (sq_has_results q); lia. Qed.

#[local] Instance most_searched_total : Total most_searched.
Proof. intros a b. unfold most_searched. lia. Qed.

Lemma zsum_stats rows names : zsum (map qs_searches (map (stat_of rows) names)) = zsum (map (fun n => Z.of_nat (length (searched n rows))) names).
Proof. by rewrite map_map. Qed.

(** The groups of a report that leaves none out. *)
Lemma group_adds_up scan top zero_only rows : (forall l, scan l ≡ₚ l) ->
  let chosen := List.filter (fun q => negb zero_only || negb (sq_has_results q)) rows in
  (length (fromkeys (map sq_normalized_query chosen)) <= top)%nat ->
  zsum (map qs_searches (_group scan top zero_only rows)) = Z.of_nat (length chosen) /\ Sorted most_searched (_group scan top zero_only rows).
Proof.
  intros Hscan chosen Htop. unfold _group. fold chosen. rewrite take_ge.
  - split; [|apply Sorted_merge_sort, _]. rewrite (zsum_perm _ (map qs_searches (map (stat_of chosen) (fromkeys (map sq_normalized_query chosen))))).
    + rewrite zsum_stats. apply searched_sum; [apply NoDup_fromkeys|]. intros q Hq. apply elem_of_fromkeys, list_elem_of_In, in_map, list_elem_of_In, Hq.
    + apply Permutation_map. rewrite merge_sort_Permutation. by apply Permutation_map.
  - by rewrite merge_sort_Permutation, length_map, Hscan.
Qed.

(** A report adds up: over a window whose groups all fit, the searches of the
    top queries are all the searches, those of the second list are the ones
    without results, and both are sorted. *)
Lemma report_adds_up scan now days top d : (forall l, scan l ≡ₚ l) -> an_unique_queries (report scan now days top d) <= Z.of_nat top ->
  let r := report scan now days top d in
  zsum (map qs_searches (an_top_queries r)) = an_total_searches r /\ Sorted most_searched (an_top_queries r) /\
  0 <= an_zero_result_searches r <= an_total_searches r /\ an_total_searches r = count (fun q => now - days * DAY <=? sq_created_at q) (sq_rows d).
Proof.
  intros Hscan Hu r. assert (Hall : forall l : list QueryRow, List.filter (fun q => negb false || negb (sq_has_results q)) l = l)
    by (intros l; induction l as [|q l IH]; [done|]; cbn in *; by rewrite IH).
  destruct (group_adds_up scan top false (query_window now days d) Hscan) as [Hs Ho]; [rewrite Hall; cbn in Hu; lia|].
  rewrite Hall in Hs. split; [exact Hs|]. split; [exact Ho|]. split; [apply without_results_bounds|done].
Qed.

(** ** Lemmas: trending *)

(** What one bucket adds to the scores. *)
Definition add_count (weight : Q) (score : option Q) (count : option Z) : option Q :=
  match count with Some c => Some (default 0 score + inject_Z c * weight)%Q | None => score end.

Lemma add_entries_lookup weight l scores t : NoDup l.*1 ->
  foldl (add_entry weight) scores l !! t = add_count weight (scores !! t) (snd <$> List.find (fun e => String.eqb e.1 t) l).
Proof.
  revert scores. induction l as [|[u c] l IH]; intros scores Hnd; [done|]. cbn [fmap list_fmap] in Hnd. apply NoDup_cons in Hnd as [Hu Hnd].
  cbn [foldl List.find fst]. rewrite IH by done. unfold add_entry. cbn [fst snd]. destruct (String.eqb_spec u t) as [->|Hne].
  - rewrite lookup_insert_eq. destruct (List.find _ l) as [[u' c']|] eqn:E; [|done].
    apply List.find_some in E as [Hin He]. apply String.eqb_eq in He. cbn in He. subst u'. exfalso. apply Hu.
    apply list_elem_of_fmap. exists (t, c'). split; [done|]. by apply list_elem_of_In.
  - by rewrite lookup_insert_ne.
Qed.

Lemma zrevrange_all n (m : gmap string Z) : Z.of_nat (size m) <= n + 1 -> zrevrange n m ≡ₚ map_to_list m.
Proof.
  intros Hn. unfold zrevrange. rewrite take_ge; [apply merge_sort_Permutation|].
  rewrite merge_sort_Permutation, length_map_to_list. lia.
Qed.

Lemma find_in_map (m : gmap string Z) l t : l ≡ₚ map_to_list m -> NoDup l.*1 /\ snd <$> List.find (fun e => String.eqb e.1 t) l = m !! t.
Proof.
  intros Hp. assert (Hnd : NoDup l.*1) by (rewrite Hp; apply NoDup_fst_map_to_list). split; [done|].
  destruct (List.find _ l) as [[u c]|] eqn:E.
  - apply List.find_some in E as [Hin He]. apply String.eqb_eq in He. cbn in He. subst u. apply list_elem_of_In in Hin.
    rewrite Hp in Hin. apply elem_of_map_to_list in Hin. by rewrite Hin.
  - symmetry. apply eq_None_not_Some. intros [c Hc]. apply elem_of_map_to_list in Hc. rewrite <- Hp in Hc.
    apply list_elem_of_In in Hc. pose proof (List.find_none _ _ E _ Hc) as Hx. cbn in Hx. by rewrite String.eqb_refl in Hx.
Qed.

(** The score of a term: its count of every hour, each with the weight of its age. *)
Definition decayed (settings : StatsSettings) (now : datetime) (r : buckets) (t : string) : option Q :=
  foldl (fun score h => add_count (power (trending_decay_per_hour settings) h) score (members_at now (trend_key (moment now h)) r !! t))
    None (hours_walked settings 0 (trending_window_hours settings)).

Definition buckets_fit (settings : StatsSettings) (now : datetime) (limit : Z) (r : buckets) : Prop :=
  forall h, h ∈ hours_walked settings 0 (trending_window_hours settings) ->
    Z.of_nat (size (members_at now (trend_key (moment now h)) r)) <= limit * 5 + 1.

Lemma merged_lookup settings now limit r t : buckets_fit settings now limit r -> merged settings now limit r !! t = decayed settings now r t.
Proof.
  unfold buckets_fit, merged, decayed. generalize (hours_walked settings 0 (trending_window_hours settings)). intros hours.
  rewrite <- (lookup_empty (M := gmap string) (A := Q) t). generalize (∅ : gmap string Q). induction hours as [|h hours IH]; intros scores Hfit; [done|].
  cbn [foldl]. rewrite IH by (intros; apply Hfit; by right). f_equal.
  destruct (find_in_map _ _ t (zrevrange_all (limit * 5) _ (Hfit h ltac:(by left)))) as [Hnd Hfind].
  by rewrite add_entries_lookup, Hfind.
Qed.

#[local] Instance ranked_before_total : Total ranked_before.
Proof.
  intros a b. unfold ranked_before. destruct (Q_dec a.2 b.2) as [[H|H]|H]; [by right; left|by left; left|].
  destruct (String.leb_total a.1 b.1) as [Hl|Hl]; [left; by right|right; right]. split; [by symmetry|done].
Qed.

(** The trending list ranks by decayed counts.  With Redis up and no hour
    with more terms than are read of it, [top] is the head of one ranking:
    every term searched in the hours walked, once, with the sum of its hourly
    counts weighted by [decay ** hours_ago], greatest score first and equal
    scores by name; with Redis down, or trending off, it is empty, and a search
    is recorded without failing. *)
Theorem trending_ranks_decayed_counts settings round4 now limit r
    (Hon : trending_enabled settings = true) (Hlimit : 1 <= limit) (Hfit : buckets_fit settings now limit r) :
  (exists ranked, top settings round4 true now (Some limit) r = map (fun e => (e.1, round4 e.2)) (take (Z.to_nat limit) ranked) /\
     NoDup ranked.*1 /\ Sorted ranked_before ranked /\
     forall t s, (t, s) ∈ ranked <-> decayed settings now r t = Some s) /\
  top settings round4 false now (Some limit) r = [] /\
  (forall query, record_trend settings false now query r = r).
Proof.
  split; [|split].
  - exists (merge_sort ranked_before (map_to_list (merged settings now limit r))). unfold top. rewrite Hon. cbn [negb].
    rewrite (proj2 (Z.eqb_neq limit 0)) by lia. split; [done|].
    split; [rewrite merge_sort_Permutation; apply NoDup_fst_map_to_list|]. split; [apply Sorted_merge_sort, _|].
    intros t s. rewrite merge_sort_Permutation, elem_of_map_to_list. by rewrite merged_lookup.
  - unfold top. by rewrite Hon.
  - intros query. unfold record_trend. by repeat case_match.
Qed.

(** ** Witnesses and examples *)

Definition sample_stats : StatsSettings := mkStatsSettings true 200 true 24 (9 # 10) 20 3.
Definition noon : datetime := 20669 * DAY + 12 * 3600 * SECOND.
Definition searches : buckets :=
  record_trend sample_stats true noon "Dune" (record_trend sample_stats true noon " dune"
    (record_trend sample_stats true (noon - 3600 * SECOND) "emma" (record_trend sample_stats true (noon - 3600 * SECOND) "ox" ∅))).

Lemma fits_by_computation settings now limit r :
  forallb (fun h => Z.of_nat (size (members_at now (trend_key (moment now h)) r)) <=? limit * 5 + 1)
    (hours_walked settings 0 (trending_window_hours settings)) = true -> buckets_fit settings now limit r.
Proof. intros H h Hh. rewrite forallb_forall in H. apply Z.leb_le, H. by apply list_elem_of_In. Qed.

Lemma trending_ranks_decayed_counts_witness :
  map (fun e => (e.1, Qred e.2)) (top sample_stats Qred true noon (Some 2) searches) = [("dune", 2%Q); ("emma", (9 # 10)%Q)] /\
  exists ranked, top sample_stats Qred true noon (Some 2) searches = map (fun e => (e.1, Qred e.2)) (take 2 ranked) /\ NoDup ranked.*1 /\
    forall t s, (t, s) ∈ ranked <-> decayed sample_stats noon searches t = Some s.
Proof.
  split; [vm_compute; reflexivity|].
  assert (Hfit : buckets_fit sample_stats noon 2 searches) by (apply fits_by_computation; vm_compute; reflexivity).
  assert (Hlimit : 1 <= 2) by lia.
  destruct (trending_ranks_decayed_counts sample_stats Qred noon 2 searches eq_refl Hlimit Hfit) as [(ranked & H1 & H2 & _ & H3) _].
  exists ranked. split; [exact H1|]. split; [exact H2|exact H3].
Defined.

(** A term below the head of every hour that leads all of them together is
    never read. *)
Definition hour_of (names : list string) : bucket := mkBucket (<["zola" := 2]> (list_to_map (map (fun n => (n, 3)) names))) (noon + DAY).
Definition crowded : buckets :=
  <[trend_key noon := hour_of ["a1"; "a2"; "a3"; "a4"; "a5"; "a6"]]>
    {[ trend_key (noon - 3600 * SECOND) := hour_of ["b1"; "b2"; "b3"; "b4"; "b5"; "b6"] ]}.
Example the_tail_can_lead :
  map fst (top sample_stats Qred true noon (Some 1) crowded) = ["a1"] /\
  (Qred <$> decayed sample_stats noon crowded "a1") = Some 3%Q /\ (Qred <$> decayed sample_stats noon crowded "zola") = Some (19 # 5)%Q.
Proof. vm_compute. done. Qed.

(** An empty query is a browse, and an anonymous search is recorded as one. *)
Example browsing_is_not_recorded :
  (record_query sample_stats true false noon 1 (Some "  ") (JObj []) None 3 12 None None (mkStatsDb ∅ ∅)).1 = Ok None /\
  (record_query sample_stats true false noon 1 (Some " Dune  Messiah ") (JObj []) None 0 12 None None (mkStatsDb ∅ ∅)) =
    (Ok (Some 1%N), mkStatsDb {[ 1%N := mkQuery 1 "Dune  Messiah" "dune messiah" (JObj []) None 0 false 12 None None noon ]} ∅).
Proof. vm_compute. done. Qed.
