(* ===== verification/AiBudget.v ===== *)
(** * The cost ceiling (apps/ai/services/budget.py)

    Money is counted in millionths of a dollar.  A day is its number; the
    code's [YYYY-MM-DD] texts compare as the numbers do.  [race] is what other
    transactions commit between an UPDATE that finds no row and the INSERT
    after it.  The second half has the statements of several transactions
    interleaved, with the row locks and the unique index of the database. *)

From S2P Require Import Prelude Store.

Record CostBudget := mkCostBudget {
  cb_day : Z;
  cb_user : option uuid;
  cb_cost : Z;
  cb_requests : Z;
  cb_input_tokens : Z;
  cb_output_tokens : Z;
}.

Record BudgetState := mkBudgetState { bs_spent : Z; bs_limit : Z }.
Definition remaining (s : BudgetState) : Z := Z.max 0 (bs_limit s - bs_spent s).
Definition exhausted (s : BudgetState) : bool := bs_limit s <=? bs_spent s.

Record BudgetSettings := mkBudgetSettings { cost_tracking_enabled : bool; daily_cost_limit : Z; user_daily_cost_limit : Z }.

Definition today (now : datetime) : Z := now / DAY.
Definition scope_row (day : Z) (user_id : option uuid) (row : CostBudget) : bool :=
  (cb_day row =? day) && bool_decide (cb_user row = user_id).

Section budget.
Context (settings : BudgetSettings).

Definition budget_row (day : Z) (user_id : option uuid) (rows : list CostBudget) : result (option CostBudget) :=
  one_or_none (List.filter (scope_row day user_id) rows).

Definition budget_state (now : datetime) (user_id : option uuid) (rows : list CostBudget) : result BudgetState :=
  row ← budget_row (today now) user_id rows;
  Ok (mkBudgetState (match row with Some r => cb_cost r | None => 0 end)
        (match user_id with Some _ => user_daily_cost_limit settings | None => daily_cost_limit settings end)).

(** [check]: the platform's ceiling, then the caller's own. *)
Definition check_budget (now : datetime) (user_id : option uuid) (rows : list CostBudget) : result unit :=
  if negb (cost_tracking_enabled settings) then Ok tt else
  platform ← budget_state now None rows;
  if exhausted platform then Raise (app_error ServiceUnavailableError "ai_budget_exhausted") else
  match user_id with
  | None => Ok tt
  | Some _ =>
      personal ← budget_state now user_id rows;
      if exhausted personal then Raise (app_error ServiceUnavailableError "ai_user_budget_exhausted") else Ok tt
  end.

Record Charge := mkCharge { ch_cost : Z; ch_input_tokens : Z; ch_output_tokens : Z }.
Definition charge_row (c : Charge) (row : CostBudget) : CostBudget :=
  mkCostBudget (cb_day row) (cb_user row) (cb_cost row + ch_cost c) (cb_requests row + 1) (cb_input_tokens row + ch_input_tokens c)
    (cb_output_tokens row + ch_output_tokens c).
Definition new_row (day : Z) (user_id : option uuid) (c : Charge) : CostBudget :=
  mkCostBudget day user_id (ch_cost c) 1 (ch_input_tokens c) (ch_output_tokens c).

(** The UPDATE, and how many rows it found. *)
Definition charge_scope (day : Z) (user_id : option uuid) (c : Charge) (rows : list CostBudget) : list CostBudget :=
  map (fun row => if scope_row day user_id row then charge_row c row else row) rows.
(** uq_cost_budgets_day_user: a null user is never equal to another. *)
Definition violates_unique (row : CostBudget) (rows : list CostBudget) : bool :=
  match cb_user row with Some _ => existsb (scope_row (cb_day row) (cb_user row)) rows | None => false end.

Definition increment (day : Z) (user_id : option uuid) (c : Charge) (race rows : list CostBudget) : list CostBudget :=
  if existsb (scope_row day user_id) rows then charge_scope day user_id c rows else
  let rows := rows ++ race in
  if violates_unique (new_row day user_id c) rows then charge_scope day user_id c rows else rows ++ [new_row day user_id c].
Definition record_spend (now : datetime) (user_id : option uuid) (c : Charge) (race rows : list CostBudget) : list CostBudget :=
  if negb (cost_tracking_enabled settings) then rows else
  let rows := increment (today now) None c race rows in
  match user_id with Some _ => increment (today now) user_id c [] rows | None => rows end.

(** ** Reports *)

Definition latest_day (a b : Z * Z * Z) : Prop := b.1.1 <= a.1.1.
#[local] Instance latest_day_dec : RelDecision latest_day.
Proof. intros a b. unfold latest_day. apply _. Defined.
Definition budget_history (now : datetime) (days : Z) (rows : list CostBudget) : list (Z * Z * Z) :=
  merge_sort latest_day
    (map (fun r => (cb_day r, cb_cost r, cb_requests r))
      (List.filter (fun r => (today (now - days * DAY) <=? cb_day r) && bool_decide (cb_user r = None)) rows)).
Definition total_spent (now : datetime) (days : Z) (rows : list CostBudget) : Z :=
  zsum (map cb_cost (List.filter (fun r => (today (now - days * DAY) <=? cb_day r) && bool_decide (cb_user r = None)) rows)).
(** Per-user rows of long ago. *)
Definition prunable_budget (now : datetime) (keep_days : Z) (r : CostBudget) : bool :=
  (cb_day r <? today (now - keep_days * DAY)) && negb (bool_decide (cb_user r = None)).
Definition prune_budgets (now : datetime) (keep_days : Z) (rows : list CostBudget) : Z * list CostBudget :=
  (Z.of_nat (length (List.filter (prunable_budget now keep_days) rows)), List.filter (fun r => negb (prunable_budget now keep_days r)) rows).
End budget.

(** ** Facts of one transaction *)

Definition scope_cost (day : Z) (user_id : option uuid) (rows : list CostBudget) : Z :=
  zsum (map cb_cost (List.filter (scope_row day user_id) rows)).
(** At most one row for the scope. *)
Definition one_row (day : Z) (user_id : option uuid) (rows : list CostBudget) : Prop :=
  (length (List.filter (scope_row day user_id) rows) <= 1)%nat.

Lemma scope_row_true day user_id row : scope_row day user_id row = true <-> cb_day row = day /\ cb_user row = user_id.
Proof. unfold scope_row. by rewrite andb_true_iff, Z.eqb_eq, bool_decide_eq_true. Qed.

Lemma scope_row_charge day user_id d u c row :
  scope_row day user_id (if scope_row d u row then charge_row c row else row) = scope_row day user_id row.
Proof. by destruct (scope_row d u row). Qed.

Lemma filter_charge day user_id d u c rows :
  List.filter (scope_row day user_id) (charge_scope d u c rows) = charge_scope d u c (List.filter (scope_row day user_id) rows).
Proof.
  unfold charge_scope. induction rows as [|row rows IH]; [done|]. cbn [map List.filter]. rewrite scope_row_charge.
  destruct (scope_row day user_id row); cbn [map]; by rewrite IH.
Qed.

Lemma filter_scope_other day user_id d u c rows : (day, user_id) <> (d, u) ->
  List.filter (scope_row day user_id) (charge_scope d u c rows) = List.filter (scope_row day user_id) rows.
Proof.
  intros Hne. rewrite filter_charge. unfold charge_scope. rewrite <- (map_id (List.filter _ rows)) at 2. apply map_ext_in.
  intros row [_ [E1 E2]%scope_row_true]%filter_In. destruct (scope_row d u row) eqn:E; [|done]. apply scope_row_true in E as [E3 E4]. congruence.
Qed.

Lemma filter_none_existsb {A} (p : A -> bool) l : existsb p l = false -> List.filter p l = [].
Proof.
  induction l as [|x l IH]; [done|]. cbn. intros [Hx Hl]%orb_false_iff. by rewrite Hx, IH.
Qed.
Lemma filter_existsb {A} (p : A -> bool) l : existsb p l = true -> List.filter p l <> [].
Proof. intros (x & Hx & Hp)%existsb_exists H. assert (In x (List.filter p l)) by by apply filter_In. by rewrite H in *. Qed.

Lemma scope_row_new day user_id c : scope_row day user_id (new_row day user_id c) = true.
Proof. unfold scope_row. cbn. by rewrite Z.eqb_refl, bool_decide_true. Qed.

(** Without a race, the one row of the scope grows by the charge and every other scope is as it was. *)
Lemma increment_scope day user_id c rows : one_row day user_id rows ->
  one_row day user_id (increment day user_id c [] rows) /\
  scope_cost day user_id (increment day user_id c [] rows) = scope_cost day user_id rows + ch_cost c.
Proof.
  unfold one_row, scope_cost, increment. intros H1. rewrite app_nil_r. destruct (existsb (scope_row day user_id) rows) eqn:E.
  - rewrite filter_charge. apply filter_existsb in E. destruct (List.filter _ rows) as [|row [|r2 l]] eqn:Ef; [done| |cbn in H1; lia].
    assert (Hrow : scope_row day user_id row = true) by (assert (Hin : In row [row]) by (by left); rewrite <- Ef in Hin; by apply filter_In in Hin as [_ ?]).
    cbn [charge_scope map]. rewrite Hrow. unfold zsum. cbn. lia.
  - assert (Hv : violates_unique (new_row day user_id c) rows = false).
    { unfold violates_unique, new_row. cbn [cb_user cb_day]. by destruct user_id. }
    rewrite Hv, List.filter_app. rewrite (filter_none_existsb _ _ E). cbn [List.filter app].
    rewrite scope_row_new. unfold zsum. cbn. lia.
Qed.

Lemma increment_other day user_id d u c rows : (day, user_id) <> (d, u) ->
  List.filter (scope_row day user_id) (increment d u c [] rows) = List.filter (scope_row day user_id) rows.
Proof.
  intros Hne. unfold increment. rewrite app_nil_r. destruct (existsb _ rows); [by apply filter_scope_other|].
  destruct (violates_unique _ rows); [by apply filter_scope_other|]. rewrite List.filter_app.
  assert (E : scope_row day user_id (new_row d u c) = false).
  { apply not_true_iff_false. intros [E1 E2]%scope_row_true. cbn in *. congruence. }
  cbn [List.filter]. by rewrite E, app_nil_r.
Qed.

(** ** Concurrent transactions charging one scope

    The rows of the scope, each with the transaction that inserted it and has
    not committed, and the one that holds its lock.  A statement waits for a
    lock another transaction holds: it has no step then. *)

Record ScopeRow := mkScopeRow { sr_cost : Z; sr_inserted_by : option nat; sr_locked_by : option nat }.
Inductive charge_pc := ToUpdate | ToInsert | ToUpdateAgain | Charged | Committed | RolledBack.
#[export] Instance charge_pc_eq_dec : EqDecision charge_pc.
Proof. solve_decision. Defined.
Record ScopeState := mkScope { sc_rows : list ScopeRow; sc_pc : list charge_pc }.

Definition seen_by (i : nat) (r : ScopeRow) : bool :=
  match sr_inserted_by r with None => true | Some j => Nat.eqb i j end.
Definition free_for (i : nat) (r : ScopeRow) : bool :=
  match sr_locked_by r with None => true | Some j => Nat.eqb i j end.

Section concurrent.
Context (unique_enforced : bool) (charge : nat -> Z).

Definition charged_row (i : nat) (r : ScopeRow) : ScopeRow :=
  if seen_by i r then mkScopeRow (sr_cost r + charge i) (sr_inserted_by r) (Some i) else r.
Definition commit_row (i : nat) (r : ScopeRow) : ScopeRow :=
  if bool_decide (sr_locked_by r = Some i) then mkScopeRow (sr_cost r) None None else r.
(** A rolled back transaction leaves the rows as they were before its statement. *)
Definition undo_row (i : nat) (r : ScopeRow) : option ScopeRow :=
  if bool_decide (sr_inserted_by r = Some i) then None
  else if bool_decide (sr_locked_by r = Some i) then Some (mkScopeRow (sr_cost r - charge i) (sr_inserted_by r) None)
  else Some r.

Inductive charge_step : ScopeState -> ScopeState -> Prop :=
| step_update s i :
    (sc_pc s) !! i = Some ToUpdate -> existsb (seen_by i) (sc_rows s) = true ->
    forallb (fun r => negb (seen_by i r) || free_for i r) (sc_rows s) = true ->
    charge_step s (mkScope (map (charged_row i) (sc_rows s)) (<[i := Charged]> (sc_pc s)))
| step_nothing s i :
    (sc_pc s) !! i = Some ToUpdate -> existsb (seen_by i) (sc_rows s) = false ->
    charge_step s (mkScope (sc_rows s) (<[i := ToInsert]> (sc_pc s)))
| step_insert s i :
    (sc_pc s) !! i = Some ToInsert -> (unique_enforced = true -> sc_rows s = []) ->
    charge_step s (mkScope (sc_rows s ++ [mkScopeRow (charge i) (Some i) (Some i)]) (<[i := Charged]> (sc_pc s)))
| step_conflict s i :
    (sc_pc s) !! i = Some ToInsert -> unique_enforced = true ->
    existsb (fun r => bool_decide (sr_inserted_by r = None)) (sc_rows s) = true ->
    charge_step s (mkScope (sc_rows s) (<[i := ToUpdateAgain]> (sc_pc s)))
| step_update_again s i :
    (sc_pc s) !! i = Some ToUpdateAgain ->
    forallb (fun r => negb (seen_by i r) || free_for i r) (sc_rows s) = true ->
    charge_step s (mkScope (map (charged_row i) (sc_rows s)) (<[i := Charged]> (sc_pc s)))
| step_commit s i :
    (sc_pc s) !! i = Some Charged ->
    charge_step s (mkScope (map (commit_row i) (sc_rows s)) (<[i := Committed]> (sc_pc s)))
| step_rollback s i p :
    (sc_pc s) !! i = Some p -> p <> Committed -> p <> RolledBack ->
    charge_step s (mkScope (omap (undo_row i) (sc_rows s)) (<[i := RolledBack]> (sc_pc s))).

Definition recorded_spend (s : ScopeState) : Z := zsum (map sr_cost (sc_rows s)).
(** The charges of the transactions that have one in the table. *)
Fixpoint charges_of (i : nat) (p : charge_pc -> bool) (pcs : list charge_pc) : Z :=
  match pcs with [] => 0 | q :: pcs => (if p q then charge i else 0) + charges_of (S i) p pcs end.
Definition in_table (p : charge_pc) : bool := match p with Charged | Committed => true | _ => false end.
Definition committed (p : charge_pc) : bool := match p with Committed => true | _ => false end.
Definition finished (p : charge_pc) : bool := match p with Committed | RolledBack => true | _ => false end.

Lemma charges_insert p k i q old pcs : pcs !! i = Some old ->
  charges_of k p (<[i := q]> pcs) =
  charges_of k p pcs + (if p q then charge (k + i)%nat else 0) - (if p old then charge (k + i)%nat else 0).
Proof.
  revert k i. induction pcs as [|x pcs IH]; intros k [|i] H; [done..| |]; cbn [charges_of] in *.
  - injection H as ->. rewrite Nat.add_0_r. cbn [charges_of insert list_insert]. lia.
  - change (<[S i := q]> (x :: pcs)) with (x :: <[i := q]> pcs). cbn [charges_of]. rewrite (IH (S k) i H), Nat.add_succ_comm. lia.
Qed.

(** [base] is what the scope had been charged before. *)
Definition charge_inv (base : Z) (s : ScopeState) : Prop :=
  (sc_rows s = [] /\ base = 0 /\ forall i p, sc_pc s !! i = Some p -> in_table p = false /\ p <> ToUpdateAgain) \/
  exists r, sc_rows s = [r] /\ sr_cost r = base + charges_of 0 in_table (sc_pc s) /\
    (forall i, sc_pc s !! i = Some Charged <-> sr_locked_by r = Some i) /\
    (forall j, sr_inserted_by r = Some j ->
       base = 0 /\ sr_locked_by r = Some j /\ forall i p, sc_pc s !! i = Some p -> p <> Committed /\ p <> ToUpdateAgain).

Lemma pc_insert i q old (pcs : list charge_pc) j x : pcs !! i = Some old ->
  (<[i := q]> pcs !! j = Some x <-> (j = i /\ x = q) \/ (j <> i /\ pcs !! j = Some x)).
Proof. intros H. rewrite list_lookup_insert_Some. apply lookup_lt_Some in H. naive_solver lia. Qed.
Lemma charges_none p k (pcs : list charge_pc) : (forall i x, pcs !! i = Some x -> p x = false) -> charges_of k p pcs = 0.
Proof.
  revert k. induction pcs as [|x pcs IH]; intros k H; [done|]. cbn [charges_of]. rewrite (H 0%nat x) by done.
  rewrite IH; [done|]. intros i y Hy. by apply (H (S i)).
Qed.

Lemma charges_ext p q k (pcs : list charge_pc) : (forall i x, pcs !! i = Some x -> p x = q x) -> charges_of k p pcs = charges_of k q pcs.
Proof.
  revert k. induction pcs as [|x pcs IH]; intros k H; [done|]. cbn [charges_of]. rewrite (H 0%nat x) by done.
  rewrite (IH (S k)); [done|]. intros i y Hy. by apply (H (S i)).
Qed.

(** A lock that is free for a transaction that holds none is free. *)
Lemma lock_free r (pcs : list charge_pc) i p : (forall j, pcs !! j = Some Charged <-> sr_locked_by r = Some j) -> pcs !! i = Some p -> p <> Charged ->
  free_for i r = true -> sr_locked_by r = None.
Proof.
  unfold free_for. intros Hlock Hi Hp Hf. destruct (sr_locked_by r) as [j|] eqn:E; [|done].
  apply Nat.eqb_eq in Hf as ->. pose proof (proj2 (Hlock j) eq_refl). congruence.
Qed.

Lemma charge_row_inv base r pcs i p : sr_cost r = base + charges_of 0 in_table pcs ->
  (forall j, pcs !! j = Some Charged <-> sr_locked_by r = Some j) ->
  pcs !! i = Some p -> p = ToUpdate \/ p = ToUpdateAgain -> sr_inserted_by r = None -> sr_locked_by r = None ->
  charge_inv base (mkScope (map (charged_row i) [r]) (<[i := Charged]> pcs)).
Proof.
  intros Hcost Hlock Hi Hp Hins Hfree. right. cbn [sc_rows sc_pc map]. eexists. split; [reflexivity|].
  unfold charged_row, seen_by. rewrite Hins. cbn. split; [|split; [|done]].
  - rewrite Hcost, (charges_insert _ _ _ _ _ _ Hi). destruct Hp as [-> | ->]; cbn; lia.
  - intros j. rewrite (pc_insert _ _ _ _ _ _ Hi). split; [intros [[-> _]|[Hne Hj]]|intros [= ->]]; [done| |by left].
    apply Hlock in Hj. congruence.
Qed.

Lemma charge_row_waits base r pcs i p q : sr_cost r = base + charges_of 0 in_table pcs ->
  (forall j, pcs !! j = Some Charged <-> sr_locked_by r = Some j) ->
  (forall j, sr_inserted_by r = Some j -> base = 0 /\ sr_locked_by r = Some j /\ forall i p, pcs !! i = Some p -> p <> Committed /\ p <> ToUpdateAgain) ->
  pcs !! i = Some p -> in_table p = false -> q = ToInsert \/ q = RolledBack \/ q = ToUpdateAgain /\ sr_inserted_by r = None ->
  charge_inv base (mkScope [r] (<[i := q]> pcs)).
Proof.
  intros Hcost Hlock Hins Hi Hp Hq. right. exists r. split; [done|]. cbn [sc_pc]. split; [|split].
  - rewrite Hcost, (charges_insert _ _ _ _ _ _ Hi), Hp. destruct Hq as [->|[->|[-> _]]]; cbn; lia.
  - intros j. rewrite <- Hlock, (pc_insert _ _ _ _ _ _ Hi). split.
    + intros [[_ ?]|[_ Hj]]; [|done]. naive_solver.
    + intros Hj. right. split; [|done]. intros ->. rewrite Hi in Hj. injection Hj as ->. done.
  - intros j Hj. destruct (Hins j Hj) as (? & ? & Hn). split; [done|]. split; [done|].
    intros k x. rewrite (pc_insert _ _ _ _ _ _ Hi). intros [[-> ->]|[_ Hk]]; [naive_solver|by eapply Hn].
Qed.

Lemma charge_row_undone base r pcs i p : sr_cost r = base + charges_of 0 in_table pcs ->
  (forall j, pcs !! j = Some Charged <-> sr_locked_by r = Some j) ->
  (forall j, sr_inserted_by r = Some j -> base = 0 /\ sr_locked_by r = Some j /\ forall i p, pcs !! i = Some p -> p <> Committed /\ p <> ToUpdateAgain) ->
  pcs !! i = Some p -> p <> Committed ->
  charge_inv base (mkScope (omap (undo_row i) [r]) (<[i := RolledBack]> pcs)).
Proof.
  intros Hcost Hlock Hins Hi Hc. cbn [omap list_omap]. unfold undo_row. destruct (decide (p = Charged)) as [->|Hp].
  - apply Hlock in Hi as Hli. case_bool_decide as Hj.
    + destruct (Hins i Hj) as (Hb & _ & Hn). left. cbn. split; [done|]. split; [done|]. intros k x. rewrite (pc_insert _ _ _ _ _ _ Hi).
      intros [[-> ->]|[Hne Hk]]; [done|]. destruct (Hn _ _ Hk). split; [|done]. destruct x; try done. apply Hlock in Hk. congruence.
    + rewrite bool_decide_true by done. right. eexists. split; [reflexivity|]. cbn. split; [|split].
      * rewrite Hcost, (charges_insert _ _ _ _ _ _ Hi). cbn. lia.
      * intros j. rewrite (pc_insert _ _ _ _ _ _ Hi). split; [|done]. intros [[_ ?]|[Hne Hk%Hlock]]; [done|congruence].
      * intros j Hj'. destruct (Hins j Hj') as (_ & ? & _). congruence.
  - assert (Hnl : sr_locked_by r <> Some i) by (intros H; apply Hlock in H; congruence).
    rewrite !bool_decide_false; [|done|by intros H; destruct (Hins i H) as (_ & ? & _)].
    eapply charge_row_waits; [done..|by destruct p|auto].
Qed.

Lemma charge_step_inv base s s' : unique_enforced = true -> charge_step s s' -> charge_inv base s -> charge_inv base s'.
Proof.
  intros Hu Hstep [(Hrows & Hb & Hpc)|(r & Hrows & Hcost & Hlock & Hins)].
  - destruct Hstep as [s i Hi Hs Hf|s i Hi Hs|s i Hi Hs|s i Hi _ Hs|s i Hi Hf|s i Hi|s i p Hi Hc Hr]; rewrite Hrows in *; cbn [sc_pc sc_rows] in *; try done;
      try (by destruct (Hpc _ _ Hi)).
    + left. cbn. split; [done|]. split; [done|]. intros j x. rewrite (pc_insert _ _ _ _ _ _ Hi). intros [[-> ->]|[_ Hj]]; [done|by eapply Hpc].
    + right. eexists. split; [reflexivity|]. cbn. split; [|split].
      * rewrite (charges_insert _ _ _ _ _ _ Hi), charges_none by (intros j x Hj; by destruct (Hpc _ _ Hj)). cbn. lia.
      * intros j. rewrite (pc_insert _ _ _ _ _ _ Hi). split; [intros [[-> _]|[_ Hj]]; [done|by destruct (Hpc _ _ Hj)]|intros [= ->]; by left].
      * intros j [= <-]. split; [done|]. split; [done|]. intros k x. rewrite (pc_insert _ _ _ _ _ _ Hi).
        intros [[-> ->]|[_ Hk]]; [done|]. destruct (Hpc _ _ Hk). split; [by intros ->|done].
    + left. cbn. split; [done|]. split; [done|]. intros j x. rewrite (pc_insert _ _ _ _ _ _ Hi). intros [[-> ->]|[_ Hj]]; [done|by eapply Hpc].
  - destruct Hstep as [s i Hi Hs Hf|s i Hi Hs|s i Hi Hs|s i Hi _ Hs|s i Hi Hf|s i Hi|s i p Hi Hc Hr]; rewrite Hrows in *; cbn [sc_pc sc_rows] in *.
    + cbn in Hs, Hf. rewrite orb_false_r in Hs. rewrite Hs, andb_true_r in Hf. cbn in Hf.
      pose proof (lock_free _ _ _ _ Hlock Hi ltac:(done) Hf) as Hfree.
      eapply charge_row_inv; [done..|by left| |done]. destruct (sr_inserted_by r) as [j|]; [|done]. destruct (Hins j eq_refl) as (_ & ? & _). congruence.
    + eapply charge_row_waits; [done..|by left].
    + by specialize (Hs Hu).
    + cbn in Hs. rewrite orb_false_r in Hs. apply bool_decide_eq_true in Hs. eapply charge_row_waits; [done..|auto].
    + assert (Hnone : sr_inserted_by r = None).
      { destruct (sr_inserted_by r) as [j|] eqn:Ej; [|done]. destruct (Hins j eq_refl) as (_ & _ & Hn). by destruct (Hn _ _ Hi). }
      cbn in Hf. unfold seen_by in Hf. rewrite Hnone, andb_true_r in Hf. cbn in Hf.
      eapply charge_row_inv; [done..|by right|done|]. by eapply lock_free.
    + apply Hlock in Hi as Hli. right. eexists. split; [reflexivity|]. unfold commit_row. rewrite bool_decide_true by done. cbn.
      split; [rewrite Hcost, (charges_insert _ _ _ _ _ _ Hi); cbn; lia|]. split; [|done].
      intros j. rewrite (pc_insert _ _ _ _ _ _ Hi). split; [|done]. intros [[_ ?]|[Hne Hj%Hlock]]; [done|congruence].
    + by eapply charge_row_undone.
Qed.

(** What the scope held before. *)
Definition start_rows (base : Z) : list ScopeRow := if base =? 0 then [] else [mkScopeRow base None None].

(** C29: Whatever the interleaving of the statements of any number of
    transactions that charge one user's day at once (lost inserts, waits for
    locks and rollbacks included), the user's row never splits in two, and when
    all have ended it holds what was charged before and the charges of the
    transactions that committed, each of them once. *)
Theorem user_spend_never_lost base n s : unique_enforced = true ->
  rtc charge_step (mkScope (start_rows base) (replicate n ToUpdate)) s ->
  (length (sc_rows s) <= 1)%nat /\
  (forallb finished (sc_pc s) = true ->
   recorded_spend s = base + charges_of 0 committed (sc_pc s) /\ forall r, r ∈ sc_rows s -> sr_inserted_by r = None /\ sr_locked_by r = None).
Proof.
  intros Hu Hreach.
  assert (Hstart : charge_inv base (mkScope (start_rows base) (replicate n ToUpdate))).
  { assert (Hpc : forall i p, replicate n ToUpdate !! i = Some p -> p = ToUpdate) by (intros i p Hp; by apply lookup_replicate in Hp as [-> _]).
    unfold start_rows. destruct (Z.eqb_spec base 0) as [->|Hb]; [left|right].
    - split; [done|]. split; [done|]. by intros i p ->%Hpc.
    - eexists. split; [reflexivity|]. cbn [sc_pc sr_cost sr_locked_by sr_inserted_by]. split; [|split; [|done]].
      + rewrite charges_none; [lia|]. by intros i p ->%Hpc.
      + intros i. split; [|done]. by intros Hi%Hpc. }
  assert (Hinv : charge_inv base s) by (clear -Hu Hreach Hstart; induction Hreach; eauto using charge_step_inv).
  destruct Hinv as [(Hrows & Hb & Hpc)|(r & Hrows & Hcost & Hlock & Hins)]; unfold recorded_spend; rewrite Hrows; (split; [cbn; lia|]); intros Hfin.
  - rewrite charges_none; [split; [unfold zsum; cbn; lia|by intros r ?%not_elem_of_nil]|]. intros i p Hp. destruct (Hpc _ _ Hp). by destruct p.
  - assert (Hnc : forall i, sc_pc s !! i <> Some Charged).
    { intros i Hi. rewrite forallb_forall in Hfin. by specialize (Hfin Charged ltac:(by eapply list_elem_of_In, list_elem_of_lookup_2)). }
    assert (Hnl : sr_locked_by r = None) by (destruct (sr_locked_by r) as [j|]; [|done]; by destruct (Hnc j); apply Hlock).
    split.
    + replace (charges_of 0 committed (sc_pc s)) with (charges_of 0 in_table (sc_pc s)); [unfold zsum; cbn; lia|].
      apply charges_ext. intros i p Hp. destruct p; try done. by destruct (Hnc i).
    + intros x ->%list_elem_of_singleton. split; [|done]. destruct (sr_inserted_by r) as [j|] eqn:E; [|done].
      destruct (Hins j eq_refl) as (_ & ? & _). congruence.
Qed.
End concurrent.

(** ** Concrete runs *)

Definition demo_charge (i : nat) : Z := 10 + Z.of_nat i.
Definition both_charged : ScopeState := mkScope [mkScopeRow 21 None None] [Committed; Committed].
Ltac charge_run := repeat (eapply rtc_l; [first
  [ by apply (step_nothing _ _ _ 0) | by apply (step_nothing _ _ _ 1) | by apply (step_insert _ _ _ 0) | by apply (step_commit _ _ _ 0)
  | by apply (step_conflict _ _ _ 1) | by apply (step_update_again _ _ _ 1) | by apply (step_insert _ _ _ 1) | by apply (step_commit _ _ _ 1)]|]);
  cbn; apply rtc_refl.

Lemma user_spend_never_lost_witness :
  rtc (charge_step true demo_charge) (mkScope (start_rows 0) (replicate 2 ToUpdate)) both_charged /\ recorded_spend both_charged = 21.
Proof.
  assert (Hrun : rtc (charge_step true demo_charge) (mkScope (start_rows 0) (replicate 2 ToUpdate)) both_charged) by charge_run.
  split; [exact Hrun|]. exact (proj1 (proj2 (user_spend_never_lost true demo_charge 0 2 both_charged eq_refl Hrun) eq_refl)).
Defined.

(** The platform's rows have no user, and no two of them are equal to the unique
    index: the first two requests of a day can leave two. *)
Example platform_row_splits : exists s, rtc (charge_step false demo_charge) (mkScope [] (replicate 2 ToUpdate)) s /\ length (sc_rows s) = 2%nat.
Proof.
  exists (mkScope [mkScopeRow 10 None None; mkScopeRow 11 None None] [Committed; Committed]). split; [|done]. charge_run.
Qed.
(** Every check of that day fails then, and with it every request. *)
Example split_row_stops_the_day :
  let rows := increment 5 None (mkCharge 10 1 1) [new_row 5 None (mkCharge 11 1 1)] [] in
  check_budget (mkBudgetSettings true 1000 100) (5 * DAY) None rows = Raise MultipleResultsFound.
Proof. reflexivity. Qed.

(** A user's own row is kept apart: the loser of the race adds to the winner's. *)
Example user_row_is_shared :
  increment 5 (Some 7%N) (mkCharge 10 1 1) [new_row 5 (Some 7%N) (mkCharge 11 1 1)] [] = [mkCostBudget 5 (Some 7%N) 21 2 2 2].
Proof. reflexivity. Qed.

(** The ceiling is read before the call and charged after it: two requests in
    flight at once pass a check that has room for one. *)
Example ceiling_is_overshot :
  let st := mkBudgetSettings true 100 100 in
  let rows := [new_row 5 None (mkCharge 99 1 1)] in
  check_budget st (5 * DAY) None rows = Ok tt /\
  scope_cost 5 None (increment 5 None (mkCharge 50 1 1) [] (increment 5 None (mkCharge 50 1 1) [] rows)) = 199.
Proof. split; reflexivity. Qed.
