(* ===== verification/AiGenerate.v ===== *)
(** * Generation (apps/ai/services/prompts.py, providers.py, generator.py)

    Prompts, providers with failover, and the path of one task: cache, ceiling,
    model, ledger.  Costs are in millionths of a dollar, prices in cents per
    million tokens.  [answer n] is what the n-th request to a model meets, the
    texts of the system prompts, the JSON library and SHA-256 are parameters;
    a Redis that fails is no Redis ([None]). *)

From S2P Require Import Prelude Store Json Pagination Http AiBudget.

Module TaskKind.
Inductive t := DESCRIPTION | SUMMARY | SEO | TAGS | CATEGORIES | CHAT | RECOMMEND | MODERATION | EMBEDDING.
End TaskKind.
#[export] Instance TaskKind_eq_dec : EqDecision TaskKind.t.
Proof. solve_decision. Defined.
#[export] Program Instance TaskKind_values : StrEnum TaskKind.t := {
  members := [TaskKind.DESCRIPTION; TaskKind.SUMMARY; TaskKind.SEO; TaskKind.TAGS; TaskKind.CATEGORIES; TaskKind.CHAT; TaskKind.RECOMMEND;
              TaskKind.MODERATION; TaskKind.EMBEDDING];
  enum_value k := match k with
                  | TaskKind.DESCRIPTION => "description" | TaskKind.SUMMARY => "summary" | TaskKind.SEO => "seo" | TaskKind.TAGS => "tags"
                  | TaskKind.CATEGORIES => "categories" | TaskKind.CHAT => "chat" | TaskKind.RECOMMEND => "recommend"
                  | TaskKind.MODERATION => "moderation" | TaskKind.EMBEDDING => "embedding" end;
}.
Solve All Obligations with solve_str_enum.

Module GenerationStatus.
Inductive t := SUCCEEDED | FAILED | BLOCKED | CACHED.
End GenerationStatus.

Record BookContext := mkBookContext {
  bc_title : string;
  bc_subtitle : option string;
  bc_authors : list string;
  bc_categories : list string;
  bc_language : string;
  bc_excerpt : option string;
  bc_existing_description : option string;
  bc_page_count : option Z;
}.

(** ** Prompts *)

(** [s.rsplit(" ", 1)[0]] *)
Fixpoint before_last_space (s : string) : option string :=
  match s with
  | "" => None
  | String c s' =>
      match before_last_space s' with
      | Some t => Some (String c t)
      | None => if (c =? " ")%char then Some "" else None
      end
  end.
Definition trim_text (text : option string) (limit : Z) : string :=
  if negb (truthy text) then "" else
  let text := strip (default "" text) in
  if Z.of_nat (String.length text) <=? limit then text
  else let cut := stake (Z.to_nat limit) text in append (default cut (before_last_space cut)) " […]".

Definition newline : string := String (ascii_of_N 10) "".
Definition line_if (b : bool) (l : string) : list string := if b then [l] else [].
Definition book_block (context : BookContext) (excerpt_limit : Z) : string :=
  String.concat newline
    ([append "Title: " (bc_title context)] ++
     line_if (truthy (bc_subtitle context)) (append "Subtitle: " (default "" (bc_subtitle context))) ++
     line_if (negb (bool_decide (bc_authors context = []))) (append "Authors: " (String.concat ", " (bc_authors context))) ++
     line_if (negb (bool_decide (bc_categories context = []))) (append "Categories: " (String.concat ", " (bc_categories context))) ++
     [append "Language: " (bc_language context)] ++
     match bc_page_count context with Some n => line_if (negb (n =? 0)) (append "Pages: " (py_str_int n)) | None => [] end ++
     line_if (truthy (bc_existing_description context))
       (append newline (append "Existing description:" (append newline (trim_text (bc_existing_description context) 4000)))) ++
     line_if (truthy (bc_excerpt context))
       (append newline (append "Excerpt:" (append newline (trim_text (bc_excerpt context) excerpt_limit))))).

(** ** Prices (providers.py) *)

Definition PRICING : list (string * (Z * Z)) :=
  [("claude-opus", (1500, 7500)); ("claude-sonnet", (300, 1500)); ("claude-haiku", (80, 400)); ("gpt-4o-mini", (15, 60)); ("gpt-4o", (250, 1000));
   ("text-embedding-3-small", (2, 0)); ("text-embedding-3-large", (13, 0)); ("llama-3.3-70b", (59, 79)); ("llama-3.1-8b", (5, 8));
   ("openai/gpt-oss-120b", (15, 75)); ("openai/gpt-oss-20b", (10, 50))].
Definition DEFAULT_PRICING : Z * Z := (500, 2000).
(** [round(x, 6)], of a cost in hundredths of a millionth: to the nearest, ties to even. *)
Definition round_half_even (n d : Z) : Z :=
  let q := n / d in
  let r := n mod d in
  if 2 * r <? d then q else if d <? 2 * r then q + 1 else if Z.even q then q else q + 1.
Definition estimate_cost (model : string) (input_tokens output_tokens : Z) : Z :=
  let rates := default DEFAULT_PRICING (snd <$> List.find (fun p => startswith p.1 model) PRICING) in
  round_half_even (input_tokens * rates.1 + output_tokens * rates.2) 100.

(** ** Providers *)

Record Completion := mkCompletion {
  co_content : string;
  co_provider : string;
  co_model : string;
  co_input_tokens : Z;
  co_output_tokens : Z;
  co_usage_missing : bool;
}.
Definition cost_usd (c : Completion) : Z := estimate_cost (co_model c) (co_input_tokens c) (co_output_tokens c).

(** [_raise_for]: 429 and 5xx are worth trying elsewhere. *)
Definition provider_code (c : content) : string :=
  match c with
  | JsonContent (JObj l) =>
      match jor (jget "error" (JObj l)) (JObj []) with
      | JObj e => jstr (jor (jget "type" (JObj e)) (jor (jget "code" (JObj e)) (JStr "provider_error")))
      | _ => "provider_error"
      end
  | _ => "provider_error"
  end.
Definition raise_for (status : Z) (c : content) : exn :=
  if (status =? 429) || (500 <=? status) then app_error ServiceUnavailableError (provider_code c) else app_error UpstreamError (provider_code c).

(** [v or {}], which must be a dictionary to be asked for a key. *)
Definition as_dict (v : json) : result json := match jor v (JObj []) with JObj l => Ok (JObj l) | _ => Raise AttributeErr end.
Definition as_list (v : json) (d : list json) : result (list json) := match jor v (JList d) with JList l => Ok l | _ => Raise TypeErr end.
Definition token_count (usage : json) (k : string) : result Z := opt_result ValueErr (jint (jget_default k (JInt 0) usage)).

Definition read_anthropic (model : string) (data : json) : result Completion :=
  blocks ← as_list (jget "content" data) [];
  texts ← mapM (fun b => t ← dict_get "type" b; Ok (match t with JStr "text" => jstr (jget_default "text" (JStr "") b) | _ => "" end)) blocks;
  usage ← as_dict (jget "usage" data);
  input ← token_count usage "input_tokens";
  output ← token_count usage "output_tokens";
  Ok (mkCompletion (String.concat "" texts) "anthropic" (jstr (jor (jget "model" data) (JStr model))) input output (negb (jtruthy (jget "usage" data)))).
Definition read_openai (model : string) (data : json) : result Completion :=
  choices ← as_list (jget "choices" data) [JObj []];
  message ← as_dict (jget "message" (hd JNull choices));
  usage ← as_dict (jget "usage" data);
  input ← token_count usage "prompt_tokens";
  output ← token_count usage "completion_tokens";
  Ok (mkCompletion (jstr (jor (jget "content" message) (JStr ""))) "openai" (jstr (jor (jget "model" data) (JStr model))) input output
        (negb (jtruthy (jget "usage" data)))).
(** One request to a provider: unreachable is an [UpstreamError]. *)
Definition complete_with (read : json -> result Completion) (o : attempt_outcome) : result Completion :=
  match o with
  | Response status c =>
      if (200 <=? status) && (status <? 300) then match c with JsonContent (JObj l) => read (JObj l) | JsonContent _ => Raise AttributeErr | _ => Raise ValueErr end
      else Raise (raise_for status c)
  | _ => Raise (app_error UpstreamError "")
  end.

Record AiSettings := mkAiSettings {
  ai_budget : BudgetSettings;
  provider_order : list string;
  anthropic_api_key : option string;
  anthropic_model : string;
  openai_api_key : option string;
  openai_model : string;
  max_input_chars : Z;
  cache_enabled : bool;
  moderation_enabled : bool;
  moderation_fail_closed : bool;
}.
Definition provider_configured (settings : AiSettings) (name : string) : bool :=
  if String.eqb name "anthropic" then truthy (anthropic_api_key settings) else String.eqb name "openai" && truthy (openai_api_key settings).
(** [ProviderRegistry.available] *)
Definition available_providers (settings : AiSettings) : list string := List.filter (provider_configured settings) (provider_order settings).

(** ** Structured output *)

Definition split_line (s : string) : string := match partition_char (ascii_of_N 10) s with (_, rest) => if existsb (fun c => (c =? ascii_of_N 10)%char) (list_ascii_of_string s) then rest else s end.
Definition ends_with (suffix s : string) : bool := String.eqb (String.substring (String.length s - String.length suffix) (String.length suffix) s) suffix && (String.length suffix <=? String.length s)%nat.
Definition fence : string := "```".
Definition unfence (text : string) : string :=
  let cleaned := strip text in
  if startswith fence cleaned then
    let cleaned := split_line cleaned in
    strip (if ends_with fence cleaned then stake (String.length cleaned - 3) cleaned else cleaned)
  else cleaned.
(** From the first opening brace to the last closing one. *)
Fixpoint from_brace (s : string) : option string :=
  match s with "" => None | String c s' => if (c =? "{")%char then Some s else from_brace s' end.
Fixpoint to_last_brace (s : string) : option string :=
  match s with
  | "" => None
  | String c s' => match to_last_brace s' with Some t => Some (String c t) | None => if (c =? "}")%char then Some "}" else None end
  end.

Section parse.
Context (loads : string -> option json).
Definition parse_json_output (text : string) : list (string * json) :=
  let cleaned := unfence text in
  match loads cleaned with
  | Some (JObj l) => l
  | _ => match (s ← from_brace cleaned; to_last_brace s) with
         | Some s => match loads s with Some (JObj l) => l | _ => [] end
         | None => []
         end
  end.
End parse.

(** ** The tables *)

Record Generation := mkGeneration {
  g_kind : TaskKind.t;
  g_status : GenerationStatus.t;
  g_user_id : option uuid;
  g_book_id : option uuid;
  g_source : option string;
  g_provider : option string;
  g_model : option string;
  g_prompt : option string;
  g_content : option string;
  g_data : list (string * json);
  g_input_tokens : Z;
  g_output_tokens : Z;
  g_cost : Z;
  g_cache_key : string;
  g_error : option exn;
  g_created_at : datetime;
}.
(** The cached copy of one fingerprint: what Redis holds of it, and the row. *)
Record CachedCopy := mkCopy { cc_kind : TaskKind.t; cc_content : option string; cc_data : list (string * json); cc_model : option string }.
Record CachedResult := mkCachedResult { cr_copy : CachedCopy; cr_book_id : option uuid; cr_hits : Z }.

Module MessageRole.
Inductive t := USER | ASSISTANT.
End MessageRole.
Record ChatMessage := mkMessage {
  m_conversation_id : uuid;
  m_role : MessageRole.t;
  m_content : string;
  m_sources : list json;
  m_input_tokens : Z;
  m_output_tokens : Z;
  m_created_at : datetime;
}.
Record Conversation := mkConversation {
  cv_id : uuid;
  cv_user_id : uuid;
  cv_title : option string;
  cv_book_id : option uuid;
  cv_message_count : Z;
  cv_updated_at : datetime;
}.
#[export] Instance Conversation_row : Row Conversation := cv_id.

Record AiDb := mkAiDb {
  budgets : list CostBudget;
  generations : list Generation;
  cached_results : gmap string CachedResult;
  conversations : table Conversation;
  messages : list ChatMessage;
}.
Definition set_budgets x d := mkAiDb x (generations d) (cached_results d) (conversations d) (messages d).
Definition add_generation g d := mkAiDb (budgets d) (generations d ++ [g]) (cached_results d) (conversations d) (messages d).
Definition set_cached x d := mkAiDb (budgets d) (generations d) x (conversations d) (messages d).
Definition set_conversations x d := mkAiDb (budgets d) (generations d) (cached_results d) x (messages d).
Definition set_messages x d := mkAiDb (budgets d) (generations d) (cached_results d) (conversations d) x.

(** The session's view, what is committed, Redis, and the requests made to
    models: the system prompt and the user turn of each. *)
Record AiWorld := mkAiWorld {
  db : AiDb;
  saved : AiDb;
  redis_copies : option (gmap string CachedCopy);
  model_calls : list (string * string);
}.
Definition set_db x w := mkAiWorld x (saved w) (redis_copies w) (model_calls w).
Definition ai_commit : M AiWorld unit := modify (fun w => mkAiWorld (db w) (db w) (redis_copies w) (model_calls w)).
Definition change (f : AiDb -> AiDb) : M AiWorld unit := modify (fun w => set_db (f (db w)) w).
(** Of a session around a request: committed at its end, rolled back on an error. *)
Definition ai_request {A} (m : M AiWorld A) : M AiWorld A := fun w =>
  match m w with
  | (Ok a, w') => (Ok a, mkAiWorld (db w') (db w') (redis_copies w') (model_calls w'))
  | (Raise e, w') => (Raise e, mkAiWorld (saved w') (saved w') (redis_copies w') (model_calls w'))
  end.

Record GenerationResult := mkGenerationResult {
  gr_kind : TaskKind.t;
  gr_status : GenerationStatus.t;
  gr_content : option string;
  gr_data : list (string * json);
  gr_model : option string;
  gr_input_tokens : Z;
  gr_output_tokens : Z;
  gr_cost : Z;
  gr_cached : bool;
}.

Definition structured (kind : TaskKind.t) : bool :=
  bool_decide (kind ∈ [TaskKind.SEO; TaskKind.TAGS; TaskKind.CATEGORIES; TaskKind.RECOMMEND; TaskKind.MODERATION]).

Definition text_le (a b : string) : Prop := String.leb a b = true.
#[export] Instance text_le_dec : RelDecision text_le.
Proof. intros a b. unfold text_le. apply _. Defined.

Section generator.
Context (settings : AiSettings) (system_prompts : TaskKind.t -> string).
Context (fingerprint : list (string * json) -> string) (loads : string -> option json).
Context (answer : nat -> attempt_outcome).

Definition cache_payload (kind : TaskKind.t) (context : BookContext) (locale : string) : list (string * json) :=
  [("kind", JStr (enum_value kind)); ("locale", JStr locale); ("title", JStr (bc_title context));
   ("subtitle", match bc_subtitle context with Some s => JStr s | None => JNull end);
   ("authors", JList (map JStr (merge_sort text_le (bc_authors context))));
   ("categories", JList (map JStr (merge_sort text_le (bc_categories context))));
   ("language", JStr (bc_language context));
   ("excerpt", JStr (stake 8000 (default "" (bc_excerpt context))));
   ("existing", JStr (stake 2000 (default "" (bc_existing_description context))))].
Definition cache_key (kind : TaskKind.t) (context : BookContext) (locale : string) : string := fingerprint (cache_payload kind context locale).

(** [prompts.build] *)
Definition build_prompt (kind : TaskKind.t) (context : BookContext) (extra : string) : string * string :=
  let user := book_block context (max_input_chars settings) in
  (system_prompts kind, if String.eqb extra "" then user else append user (append newline (append newline extra))).

(** *** Cache *)

Definition warm (key : string) (copy : CachedCopy) : M AiWorld unit :=
  modify (fun w => mkAiWorld (db w) (saved w) (insert key copy <$> redis_copies w) (model_calls w)).
Definition from_cache (key : string) : M AiWorld (option CachedCopy) :=
  if negb (cache_enabled settings) then mret None else
  w ← get;
  match (r ← redis_copies w; r !! key) with
  | Some copy => mret (Some copy)
  | None =>
      match cached_results (db w) !! key with
      | None => mret None
      | Some row =>
          _ ← change (fun d => set_cached (<[key := mkCachedResult (cr_copy row) (cr_book_id row) (cr_hits row + 1)]> (cached_results d)) d);
          _ ← warm key (cr_copy row);
          mret (Some (cr_copy row))
      end
  end.
(** A row already there wins, and the new one is dropped. *)
Definition store_copy (key : string) (copy : CachedCopy) (book_id : option uuid) : M AiWorld unit :=
  w ← get;
  match cached_results (db w) !! key with
  | Some _ => mret tt
  | None => _ ← change (fun d => set_cached (<[key := mkCachedResult copy book_id 0]> (cached_results d)) d); warm key copy
  end.

(** *** Providers in order *)

Definition reader (name : string) : json -> result Completion :=
  if String.eqb name "anthropic" then read_anthropic (anthropic_model settings) else read_openai (openai_model settings).
Definition ask_provider (name system user : string) : M AiWorld (result Completion) := fun w =>
  (Ok (complete_with (reader name) (answer (length (model_calls w)))), mkAiWorld (db w) (saved w) (redis_copies w) (model_calls w ++ [(system, user)])).
Fixpoint try_providers (names : list string) (system user : string) (last : exn) : M AiWorld (result Completion) :=
  match names with
  | [] => mret (Raise last)
  | name :: names =>
      r ← ask_provider name system user;
      match r with
      | Raise (AppErr ServiceUnavailableError code) => try_providers names system user (AppErr ServiceUnavailableError code)
      | r => mret r
      end
  end.
Definition complete_prompt (system user : string) : M AiWorld (result Completion) :=
  if bool_decide (available_providers settings = []) then mret (Raise (app_error ServiceUnavailableError "ai_unavailable"))
  else try_providers (available_providers settings) system user (app_error ServiceUnavailableError "").

(** *** One task *)

Record GenerateRequest := mkRequest {
  q_kind : TaskKind.t;
  q_context : BookContext;
  q_book_id : option uuid;
  q_user_id : option uuid;
  q_source : option string;
  q_locale : string;
  q_force_refresh : bool;
  q_extra : string;
}.

Definition cached_row (q : GenerateRequest) (key : string) (copy : CachedCopy) (now : datetime) : Generation :=
  mkGeneration (q_kind q) GenerationStatus.CACHED (q_user_id q) (q_book_id q) (q_source q) None (cc_model copy) None (cc_content copy) (cc_data copy)
    0 0 0 key None now.
Definition failed_row (q : GenerateRequest) (key prompt : string) (e : exn) (now : datetime) : Generation :=
  mkGeneration (q_kind q) GenerationStatus.FAILED (q_user_id q) (q_book_id q) (q_source q) None None (Some (stake 8000 prompt)) None []
    0 0 0 key (Some e) now.
Definition succeeded_row (q : GenerateRequest) (key prompt : string) (c : Completion) (content : option string) (data : list (string * json))
    (now : datetime) : Generation :=
  mkGeneration (q_kind q) GenerationStatus.SUCCEEDED (q_user_id q) (q_book_id q) (q_source q) (Some (co_provider c)) (Some (co_model c))
    (Some (stake 8000 prompt)) content data (co_input_tokens c) (co_output_tokens c) (cost_usd c) key None now.

Definition spend (q : GenerateRequest) (c : Completion) (now : datetime) : AiDb -> AiDb := fun d =>
  set_budgets (record_spend (ai_budget settings) now (q_user_id q) (mkCharge (cost_usd c) (co_input_tokens c) (co_output_tokens c)) [] (budgets d)) d.

(** After the cache: the ceiling, the model and the ledger. *)
Definition generate_anew (q : GenerateRequest) (key : string) (now : datetime) : M AiWorld GenerationResult :=
  w ← get;
  _ ← of_result (check_budget (ai_budget settings) now (q_user_id q) (budgets (db w)));
  _ ← raise_when (bool_decide (available_providers settings = [])) (app_error ServiceUnavailableError "ai_unavailable");
  let '(system, user_prompt) := build_prompt (q_kind q) (q_context q) (q_extra q) in
  _ ← raise_when (max_input_chars settings <? Z.of_nat (String.length user_prompt)) (app_error BadRequestError "input_too_large");
  completion ← complete_prompt system user_prompt;
  match completion with
  | Raise e => _ ← change (add_generation (failed_row q key user_prompt e now)); _ ← ai_commit; raise e
  | Ok c =>
      let data := if structured (q_kind q) then parse_json_output loads (co_content c) else [] in
      let content := if structured (q_kind q) then None else Some (strip (co_content c)) in
      _ ← change (add_generation (succeeded_row q key user_prompt c content data now));
      _ ← change (spend q c now);
      _ ← store_copy key (mkCopy (q_kind q) content data (Some (co_model c))) (q_book_id q);
      _ ← ai_commit;
      mret (mkGenerationResult (q_kind q) GenerationStatus.SUCCEEDED content data (Some (co_model c)) (co_input_tokens c) (co_output_tokens c)
              (cost_usd c) false)
  end.

Definition generate (q : GenerateRequest) (now : datetime) : M AiWorld GenerationResult :=
  let key := cache_key (q_kind q) (q_context q) (q_locale q) in
  cached ← (if q_force_refresh q then mret None else from_cache key);
  match cached with
  | Some copy =>
      _ ← change (add_generation (cached_row q key copy now));
      _ ← ai_commit;
      mret (mkGenerationResult (q_kind q) GenerationStatus.CACHED (cc_content copy) (cc_data copy) (cc_model copy) 0 0 0 true)
  | None => generate_anew q key now
  end.
End generator.

(** ** What a task leaves behind *)

Section outcomes.
Context (settings : AiSettings) (system_prompts : TaskKind.t -> string).
Context (fingerprint : list (string * json) -> string) (loads : string -> option json) (answer : nat -> attempt_outcome).
Let gen := generate settings system_prompts fingerprint loads answer.

(** A completion is what some request to a model was answered with. *)
Definition answered_by_model (c : Completion) : Prop := exists n name, complete_with (reader settings name) (answer n) = Ok c.

Lemma try_providers_calls names system user last w : exists r l,
  try_providers settings answer names system user last w = (Ok r, mkAiWorld (db w) (saved w) (redis_copies w) (model_calls w ++ l)) /\
  Forall (eq (system, user)) l /\ (forall c, r = Ok c -> answered_by_model c).
Proof.
  revert last w. induction names as [|name names IH]; intros last w.
  { exists (Raise last), []. rewrite app_nil_r. by destruct w. }
  cbn [try_providers]. erewrite bind_ok by reflexivity. cbv beta.
  set (w1 := mkAiWorld (db w) (saved w) (redis_copies w) (model_calls w ++ [(system, user)])).
  destruct (complete_with _ _) as [c|e] eqn:Ec.
  { exists (Ok c), [(system, user)]. split; [done|]. split; [by repeat constructor|]. intros c' [= <-]. by eexists _, _. }
  assert (Hstop : exists r' l, (mret (Raise e) : M AiWorld (result Completion)) w1 = (Ok r', mkAiWorld (db w) (saved w) (redis_copies w) (model_calls w ++ l)) /\
    Forall (eq (system, user)) l /\ (forall c, r' = Ok c -> answered_by_model c))
    by (exists (Raise e), [(system, user)]; split; [done|]; split; [by repeat constructor|done]).
  destruct e as [[] code| | | | | | | | | | | | |]; try exact Hstop.
  destruct (IH (AppErr ServiceUnavailableError code) w1) as (r & l & -> & Hl & Hr). exists r, ((system, user) :: l). cbn. rewrite <- app_assoc.
  split; [done|]. split; [by constructor|done].
Qed.

Lemma complete_calls system user w : exists r l,
  complete_prompt settings answer system user w = (Ok r, mkAiWorld (db w) (saved w) (redis_copies w) (model_calls w ++ l)) /\ Forall (eq (system, user)) l /\
    (forall c, r = Ok c -> answered_by_model c).
Proof.
  unfold complete_prompt. case_bool_decide; [|apply try_providers_calls].
  exists (Raise (app_error ServiceUnavailableError "ai_unavailable")), []. rewrite app_nil_r. by destruct w.
Qed.

(** A look at the cache changes nothing but the counter of hits and Redis. *)
Definition same_books (w w' : AiWorld) : Prop :=
  budgets (db w') = budgets (db w) /\ generations (db w') = generations (db w) /\ saved w' = saved w /\ model_calls w' = model_calls w /\
  conversations (db w') = conversations (db w) /\ messages (db w') = messages (db w).
Lemma from_cache_cases key w : exists o w', from_cache settings key w = (Ok o, w') /\ same_books w w' /\ (o = None -> w' = w).
Proof.
  unfold from_cache. destruct (cache_enabled settings); cbn [negb]; [|by exists None, w].
  erewrite bind_ok by reflexivity. cbv beta. destruct (r ← redis_copies w; r !! key) as [copy|]; [by exists (Some copy), w|].
  destruct (cached_results (db w) !! key) as [row|]; [|by exists None, w]. by eexists (Some _), _.
Qed.

Lemma store_copy_books key copy book w : exists w', store_copy key copy book w = (Ok tt, w') /\ same_books w w'.
Proof.
  unfold store_copy. erewrite bind_ok by reflexivity. cbv beta. destruct (cached_results (db w) !! key); by eexists.
Qed.

(** The four ways a task ends. *)
Inductive generated (q : GenerateRequest) (now : datetime) (w : AiWorld) : result GenerationResult -> AiWorld -> Prop :=
| gen_cached copy r w' : saved w' = db w' -> model_calls w' = model_calls w -> budgets (db w') = budgets (db w) ->
    generations (db w') = generations (db w) ++ [cached_row q (cache_key fingerprint (q_kind q) (q_context q) (q_locale q)) copy now] ->
    gr_cached r = true -> generated q now w (Ok r) w'
| gen_refused e : generated q now w (Raise e) w
| gen_failed e w' l prompt : saved w' = db w' -> model_calls w' = model_calls w ++ l -> budgets (db w') = budgets (db w) ->
    check_budget (ai_budget settings) now (q_user_id q) (budgets (db w)) = Ok tt ->
    Forall (fun c => c.1 = system_prompts (q_kind q) /\ Z.of_nat (String.length c.2) <= max_input_chars settings) l ->
    generations (db w') = generations (db w) ++ [failed_row q (cache_key fingerprint (q_kind q) (q_context q) (q_locale q)) prompt e now] ->
    generated q now w (Raise e) w'
| gen_succeeded r w' l prompt c content data : saved w' = db w' -> model_calls w' = model_calls w ++ l ->
    budgets (db w') = record_spend (ai_budget settings) now (q_user_id q) (mkCharge (cost_usd c) (co_input_tokens c) (co_output_tokens c)) [] (budgets (db w)) ->
    check_budget (ai_budget settings) now (q_user_id q) (budgets (db w)) = Ok tt ->
    Forall (fun c => c.1 = system_prompts (q_kind q) /\ Z.of_nat (String.length c.2) <= max_input_chars settings) l ->
    generations (db w') = generations (db w) ++
      [succeeded_row q (cache_key fingerprint (q_kind q) (q_context q) (q_locale q)) prompt c content data now] ->
    gr_cost r = cost_usd c -> answered_by_model c -> generated q now w (Ok r) w'.

Lemma generate_anew_cases q now w r w' :
  generate_anew settings system_prompts loads answer q (cache_key fingerprint (q_kind q) (q_context q) (q_locale q)) now w = (r, w') ->
  generated q now w r w'.
Proof.
  unfold generate_anew. intros H. erewrite bind_ok in H by reflexivity. cbv beta in H.
  apply bind_inv in H as [([] & w1 & H1 & H)|(e & H1 & ->)]; unfold of_result in H1; injection H1 as Hb <-; [|constructor].
  apply bind_inv in H as [(u & w1 & [-> _]%raise_when_cases & H)|(e & [-> _]%raise_when_cases & ->)]; [|constructor].
  destruct (build_prompt _ _ _ _ _) as [system prompt] eqn:Hp.
  assert (Hsys : system = system_prompts (q_kind q)) by (unfold build_prompt in Hp; by injection Hp as <- _).
  apply bind_inv in H as [(u2 & w2 & [-> Hlen]%raise_when_cases & H)|(e & [-> _]%raise_when_cases & ->)]; [|constructor].
  apply Z.ltb_ge in Hlen. rewrite Hsys in *. destruct (complete_calls (system_prompts (q_kind q)) prompt w) as (o & l & Hc & Hl & Hans).
  assert (Hcalls : Forall (fun c => c.1 = system_prompts (q_kind q) /\ Z.of_nat (String.length c.2) <= max_input_chars settings) l)
    by (eapply Forall_impl; [exact Hl|]; by intros c <-).
  rewrite (bind_ok _ _ _ _ _ Hc) in H. destruct o as [c|e].
  - erewrite bind_ok in H by reflexivity. cbv beta in H. erewrite bind_ok in H by reflexivity. cbv beta in H.
    match type of H with (store_copy ?k ?cp ?b ≫= _) ?w0 = _ => destruct (store_copy_books k cp b w0) as (w3 & Hs & Hbud & Hgen & _ & Hmc & _ & _) end.
    rewrite (bind_ok _ _ _ _ _ Hs) in H. cbv beta in H. injection H as <- <-.
    eapply gen_succeeded; [reflexivity|exact Hmc|exact Hbud|exact Hb|exact Hcalls|exact Hgen|reflexivity|by apply Hans].
  - erewrite bind_ok in H by reflexivity. cbv beta in H. injection H as <- <-.
    eapply gen_failed; [reflexivity|reflexivity|reflexivity|exact Hb|exact Hcalls|reflexivity].
Qed.

Lemma generate_cases q now w r w' : gen q now w = (r, w') -> generated q now w r w'.
Proof.
  unfold gen, generate. intros H. destruct (q_force_refresh q); [by erewrite bind_ok in H by reflexivity; apply generate_anew_cases|].
  match type of H with (from_cache _ ?k ≫= _) _ = _ => destruct (from_cache_cases k w) as (o & w1 & Hc & (Hb & Hg & _ & Hm & _ & _) & Hnone) end.
  rewrite (bind_ok _ _ _ _ _ Hc) in H. destruct o as [copy|]; [|rewrite Hnone in H by done; by apply generate_anew_cases].
  erewrite bind_ok in H by reflexivity. cbv beta in H. injection H as <- <-.
  eapply gen_cached; [reflexivity|exact Hm|exact Hb|cbn; by rewrite Hg|reflexivity].
Qed.

(** *** The ledger and the budget *)

Definition charged_to (day : Z) (user_id : option uuid) (g : Generation) : bool :=
  (today (g_created_at g) =? day) && match user_id with None => true | Some _ => bool_decide (g_user_id g = user_id) end.
Definition ledger_cost (day : Z) (user_id : option uuid) (gens : list Generation) : Z :=
  zsum (map g_cost (List.filter (charged_to day user_id) gens)).
Definition balanced (d : AiDb) : Prop := forall day user_id,
  one_row day user_id (budgets d) /\ scope_cost day user_id (budgets d) = ledger_cost day user_id (generations d).

Lemma ledger_snoc day user_id gens g :
  ledger_cost day user_id (gens ++ [g]) = ledger_cost day user_id gens + if charged_to day user_id g then g_cost g else 0.
Proof.
  unfold ledger_cost. rewrite List.filter_app, map_app. unfold zsum. rewrite foldr_app.
  assert (H : forall l a, foldr Z.add a l = foldr Z.add 0 l + a) by (induction l as [|x l IHl]; intros a; cbn; [|rewrite IHl]; lia).
  cbn [List.filter]. destruct (charged_to day user_id g); cbn; rewrite (H _ (g_cost g + 0)) || rewrite (H _ 0); lia.
Qed.

Lemma record_spend_scope now user c rows day user_id : cost_tracking_enabled (ai_budget settings) = true ->
  (forall d u, one_row d u rows) ->
  one_row day user_id (record_spend (ai_budget settings) now user c [] rows) /\
  scope_cost day user_id (record_spend (ai_budget settings) now user c [] rows) =
    scope_cost day user_id rows +
    if (today now =? day) && match user_id with None => true | Some _ => bool_decide (user = user_id) end then ch_cost c else 0.
Proof.
  intros Hen Hone. unfold record_spend. rewrite Hen. cbn [negb].
  assert (Hinc : forall d u e v rs, one_row e v rs -> one_row e v (increment d u c [] rs) /\
    scope_cost e v (increment d u c [] rs) = scope_cost e v rs + if bool_decide ((d, u) = (e, v)) then ch_cost c else 0).
  { intros d u e v rs H1. case_bool_decide as He.
    - injection He as <- <-. by apply increment_scope.
    - unfold one_row, scope_cost. rewrite increment_other by congruence. rewrite Z.add_0_r. split; [exact H1|done]. }
  destruct user as [u|].
  - destruct (Hinc (today now) None day user_id rows (Hone _ _)) as [Ha Hb].
    destruct (Hinc (today now) (Some u) day user_id _ Ha) as [Hc Hd]. split; [exact Hc|]. rewrite Hd, Hb.
    destruct (Z.eqb_spec (today now) day) as [->|Hne]; destruct user_id as [v|]; repeat case_bool_decide; cbn; simplify_eq; lia.
  - destruct (Hinc (today now) None day user_id rows (Hone _ _)) as [Ha Hb]. split; [exact Ha|]. rewrite Hb.
    destruct (Z.eqb_spec (today now) day) as [->|Hne]; destruct user_id as [v|]; repeat case_bool_decide; cbn; simplify_eq; lia.
Qed.

Definition run_tasks (tasks : list (GenerateRequest * datetime)) (w : AiWorld) : AiWorld :=
  foldl (fun w x => (ai_request (gen x.1 x.2) w).2) w tasks.

Lemma task_balanced q now w : cost_tracking_enabled (ai_budget settings) = true -> saved w = db w -> balanced (db w) ->
  let w' := (ai_request (gen q now) w).2 in saved w' = db w' /\ balanced (db w').
Proof.
  intros Hen Hs Hbal. unfold ai_request. destruct (gen q now w) as [r w'] eqn:E. apply generate_cases in E.
  assert (Hfree : forall d' g, g_cost g = 0 -> budgets d' = budgets (db w) -> generations d' = generations (db w) ++ [g] -> balanced d').
  { intros d' g Hg Hb Hgs day u. rewrite Hb, Hgs, ledger_snoc, Hg. destruct (Hbal day u). split; [done|]. destruct (charged_to day u g); lia. }
  destruct E as [copy r w' Hsv _ Hb Hg _|e|e w' l prompt Hsv _ Hb _ _ Hg|r w' l prompt c content data Hsv _ Hb _ _ Hg Hc _]; cbn; (split; [done|]);
    try (rewrite Hsv); try (by eapply Hfree; [|done..]).
  - by rewrite Hs.
  - intros day u. rewrite Hb, Hg, ledger_snoc. destruct (record_spend_scope now (q_user_id q) (mkCharge (cost_usd c) (co_input_tokens c) (co_output_tokens c))
      (budgets (db w)) day u Hen (fun d v => proj1 (Hbal d v))) as [Ha Hsc].
    split; [exact Ha|]. rewrite Hsc, (proj2 (Hbal day u)). reflexivity.
Qed.


Lemma check_budget_room now user rows : cost_tracking_enabled (ai_budget settings) = true -> (forall d u, one_row d u rows) ->
  check_budget (ai_budget settings) now user rows = Ok tt ->
  scope_cost (today now) None rows < daily_cost_limit (ai_budget settings) /\
  forall u, user = Some u -> scope_cost (today now) (Some u) rows < user_daily_cost_limit (ai_budget settings).
Proof.
  intros Hen Hone Hc. unfold check_budget in Hc. rewrite Hen in Hc. cbn [negb] in Hc.
  assert (Hst : forall u st, budget_state (ai_budget settings) now u rows = Ok st -> bs_spent st = scope_cost (today now) u rows /\
    bs_limit st = match u with Some _ => user_daily_cost_limit (ai_budget settings) | None => daily_cost_limit (ai_budget settings) end).
  { intros u st Hst. unfold budget_state, budget_row in Hst. unfold scope_cost. specialize (Hone (today now) u). unfold one_row in Hone.
    destruct (List.filter _ rows) as [|r [|r2 l]]; cbn in Hst; [| |cbn in Hone; lia]; injection Hst as <-; unfold zsum; cbn; split; try done; lia. }
  apply result_bind_ok in Hc as (st & H1 & Hc). destruct (Hst _ _ H1) as [Hs Hl]. unfold exhausted in Hc at 1. rewrite Hs, Hl in Hc.
  destruct (Z.leb_spec (daily_cost_limit (ai_budget settings)) (scope_cost (today now) None rows)); [done|]. split; [done|]. intros u ->.
  apply result_bind_ok in Hc as (st2 & H2 & Hc). destruct (Hst _ _ H2) as [Hs2 Hl2]. unfold exhausted in Hc. rewrite Hs2, Hl2 in Hc.
  destruct (Z.leb_spec (user_daily_cost_limit (ai_budget settings)) (scope_cost (today now) (Some u) rows)); [done|]. done.
Qed.

Definition limit_of (user_id : option uuid) : Z :=
  match user_id with Some _ => user_daily_cost_limit (ai_budget settings) | None => daily_cost_limit (ai_budget settings) end.

Lemma task_within_ceiling q now w m day user_id : cost_tracking_enabled (ai_budget settings) = true -> saved w = db w -> balanced (db w) ->
  (forall c, answered_by_model c -> cost_usd c <= m) ->
  let w' := (ai_request (gen q now) w).2 in
  scope_cost day user_id (budgets (db w')) <= Z.max (scope_cost day user_id (budgets (db w))) (limit_of user_id + m - 1).
Proof.
  intros Hen Hs Hbal Hm. unfold ai_request. destruct (gen q now w) as [r w'] eqn:E. apply generate_cases in E.
  destruct E as [copy r w' Hsv _ Hb Hg _|e|e w' l prompt Hsv _ Hb _ _ Hg|r w' l prompt c content data Hsv _ Hb Hroom _ Hg Hc Hans]; cbn;
    try (rewrite ?Hsv, ?Hs, ?Hb; lia).
  rewrite Hb. destruct (record_spend_scope now (q_user_id q) (mkCharge (cost_usd c) (co_input_tokens c) (co_output_tokens c))
      (budgets (db w)) day user_id Hen (fun d v => proj1 (Hbal d v))) as [_ ->]. cbn [ch_cost].
  destruct (check_budget_room _ _ _ Hen (fun d v => proj1 (Hbal d v)) Hroom) as [Hp Hu]. specialize (Hm c Hans).
  destruct (Z.eqb_spec (today now) day) as [<-|]; [|cbn; lia]. destruct user_id as [u|]; cbn [andb limit_of]; [|lia].
  case_bool_decide as Hq; [|lia]. specialize (Hu u Hq). lia.
Qed.

(** C31: However many tasks are asked for one after the other, the spend of a day
    stops at the ceiling: with no answer costing more than [m], what a day's
    counter of the platform or of a user holds is below its limit and one answer,
    unless it was above before. *)
Theorem spend_stops_at_ceiling tasks w m day user_id : cost_tracking_enabled (ai_budget settings) = true -> saved w = db w -> balanced (db w) ->
  (forall c, answered_by_model c -> cost_usd c <= m) ->
  scope_cost day user_id (budgets (db (run_tasks tasks w))) <= Z.max (scope_cost day user_id (budgets (db w))) (limit_of user_id + m - 1).
Proof.
  intros Hen Hs Hb Hm. revert w Hs Hb. induction tasks as [|[q now] tasks IH]; intros w Hs Hb; [cbn; lia|]. cbn [run_tasks foldl fst snd].
  destruct (task_balanced q now w Hen Hs Hb) as [Hs' Hb']. pose proof (task_within_ceiling q now w m day user_id Hen Hs Hb Hm) as H1.
  specialize (IH _ Hs' Hb'). cbn in H1, IH |- *. unfold run_tasks in IH. lia.
Qed.
End outcomes.

(** ** Concrete runs *)

Definition demo_ai (limit user_limit : Z) : AiSettings :=
  mkAiSettings (mkBudgetSettings true limit user_limit) ["anthropic"; "openai"] (Some "k") "claude-sonnet" (Some "k") "gpt-4o-mini" 200 true true true.
Definition demo_prompts (k : TaskKind.t) : string := enum_value k.
Definition demo_fingerprint (l : list (string * json)) : string := repr (JObj l).
Definition no_json (s : string) : option json := None.
Definition anthropic_says (text : string) : attempt_outcome :=
  Response 200 (JsonContent (JObj [("content", JList [JObj [("type", JStr "text"); ("text", JStr text)]]); ("model", JStr "claude-sonnet-4");
    ("usage", JObj [("input_tokens", JInt 1000); ("output_tokens", JInt 100)])])).
Definition empty_ai : AiWorld := mkAiWorld (mkAiDb [] [] ∅ ∅ []) (mkAiDb [] [] ∅ ∅ []) (Some ∅) [].
Definition demo_context (title : string) : BookContext := mkBookContext title None [] [] "en" None None None.
Definition demo_task (title : string) : GenerateRequest :=
  mkRequest TaskKind.SUMMARY (demo_context title) None (Some 7%N) (Some "automation") "en" false "".
Definition demo_tasks : list (GenerateRequest * datetime) :=
  [(demo_task "Dune", 0); (demo_task "Dune", 1); (demo_task "Emma", 2); (demo_task "Ulysses", 3)].
(** Each answer costs 4500 millionths of a dollar. *)
Definition demo_after := run_tasks (demo_ai 9000 1000000) demo_prompts demo_fingerprint no_json (fun _ => anthropic_says "A story.") demo_tasks empty_ai.

Lemma empty_balanced : balanced (db empty_ai).
Proof. intros day u. split; [cbn; unfold one_row; cbn; lia|done]. Qed.


Lemma spend_stops_at_ceiling_witness : scope_cost 0 None (budgets (db demo_after)) <= Z.max 0 (9000 + 4500 - 1).
Proof.
  apply (spend_stops_at_ceiling (demo_ai 9000 1000000) demo_prompts demo_fingerprint no_json (fun _ => anthropic_says "A story.") demo_tasks
    empty_ai 4500 0 None eq_refl eq_refl empty_balanced).
  intros c (n & name & Hc). unfold reader in Hc. destruct (String.eqb name "anthropic"); vm_compute in Hc; injection Hc as <-; vm_compute; discriminate.
Defined.

Definition forced (q : GenerateRequest) : GenerateRequest :=
  mkRequest (q_kind q) (q_context q) (q_book_id q) (q_user_id q) (q_source q) (q_locale q) true (q_extra q).
Definition first_then_second (n : nat) : attempt_outcome := anthropic_says (if Nat.eqb n 0 then "old" else "new").
(** A refresh pays for a new text, and the cache keeps the old one. *)
Example refresh_is_forgotten :
  map g_content (generations (db (run_tasks (demo_ai 90000 1000000) demo_prompts demo_fingerprint no_json first_then_second
    [(demo_task "Dune", 0); (forced (demo_task "Dune"), 1); (demo_task "Dune", 2)] empty_ai))) = [Some "old"; Some "new"; Some "old"].
Proof. reflexivity. Qed.

(** A provider that cannot be reached is not failed over; one that is overloaded is. *)
Example unreachable_provider_ends_it :
  let '(r, w) := generate (demo_ai 90000 1000000) demo_prompts demo_fingerprint no_json (fun _ => ConnectError) (demo_task "Dune") 0 empty_ai in
  r = Raise (app_error UpstreamError "") /\ length (model_calls w) = 1%nat.
Proof. split; reflexivity. Qed.
Example overloaded_provider_is_passed_over :
  length (model_calls (generate (demo_ai 90000 1000000) demo_prompts demo_fingerprint no_json (fun _ => Response 529 NoContent) (demo_task "Dune") 0 empty_ai).2) = 2%nat.
Proof. reflexivity. Qed.

(** An excerpt over the limit is cut to it, and then refused for its length. *)
Fixpoint repeat_text (n : nat) (s : string) : string := match n with O => "" | S n => append s (repeat_text n s) end.
Example long_excerpt_is_refused :
  (generate (demo_ai 90000 1000000) demo_prompts demo_fingerprint no_json (fun _ => anthropic_says "")
     (mkRequest TaskKind.SUMMARY (mkBookContext "Dune" None [] [] "en" (Some (repeat_text 100 "word ")) None None) None None None "en" false "")
     0 empty_ai).1 = Raise (app_error BadRequestError "input_too_large").
Proof. reflexivity. Qed.
