(* ===== verification/AiChat.v ===== *)
(** * Moderation, chat and the routes over generation (apps/ai/services/moderation.py, chat.py, routers/)

    What the search and books services answer is a parameter: [search_books] a
    question, [book_record] a book, [owned_books] a user and a book.  The score
    of a moderation is a fraction and is left out. *)

From S2P Require Import Prelude Store Json Pagination Http AiBudget AiGenerate.

(** ** Moderation *)

Definition MAX_REPEAT_RUN : Z := 60.
Fixpoint longest_run_from (c : ascii) (run longest : Z) (s : string) : Z :=
  match s with
  | "" => longest
  | String d s' => let run := if (d =? c)%char then run + 1 else 1 in longest_run_from d run (Z.max longest run) s'
  end.
Definition longest_run (s : string) : Z := match s with "" => 1 | String c s' => longest_run_from c 1 1 s' end.

Record ModerationResult := mkModeration { mo_allowed : bool; mo_flags : list string; mo_reason : option string }.

(** [[str(f) for f in v or []]] *)
Definition each_text (v : json) : result (list string) :=
  match jor v (JList []) with
  | JList l => Ok (map jstr l)
  | JStr s => Ok (map (fun c => String c "") (list_ascii_of_string s))
  | JObj l => Ok (map fst l)
  | _ => Raise TypeErr
  end.

Section chat.
Context (settings : AiSettings) (system_prompts : TaskKind.t -> string).
Context (fingerprint : list (string * json) -> string) (loads : string -> option json) (answer : nat -> attempt_outcome).
Let gen := generate settings system_prompts fingerprint loads answer.

Definition moderated (data : list (string * json)) : result ModerationResult :=
  flags ← each_text (jget "flags" (JObj data));
  let flags := take 10 flags in
  let allowed := jtruthy (jget_default "allowed" (JBool true) (JObj data)) && bool_decide (flags = []) in
  Ok (mkModeration allowed flags (if allowed then None else jstr_or_none (jget "reason" (JObj data)))).

(** [ModerationService.check] *)
Definition check_content (content context : string) (user_id : option uuid) (now : datetime) : M AiWorld ModerationResult :=
  if negb (moderation_enabled settings) then mret (mkModeration true [] None) else
  let text := strip content in
  if String.eqb text "" then mret (mkModeration false ["empty"] (Some "There is nothing here.")) else
  if MAX_REPEAT_RUN <=? longest_run text
  then mret (mkModeration false ["spam"] (Some "That looks like repeated characters rather than a comment.")) else
  fun w =>
    match gen (mkRequest TaskKind.MODERATION (mkBookContext (append "[" (append context "]")) None [] [] "en" (Some text) None None)
                 None user_id (Some "moderation") "en" false "") now w with
    | (Ok r, w') => (moderated (gr_data r), w')
    | (Raise (AppErr ServiceUnavailableError code), w') =>
        if moderation_fail_closed settings then (Raise (AppErr ServiceUnavailableError code), w') else (Ok (mkModeration true [] None), w')
    | (Raise e, w') => (Raise e, w')
    end.

(** ** Several kinds for one book (routers/internal.py) *)

Record BatchResult := mkBatch { ba_results : list (TaskKind.t * GenerationResult); ba_failed : list TaskKind.t; ba_total_cost : Z }.
(** [results[str(kind)] = ...] *)
Fixpoint put_result (kind : TaskKind.t) (r : GenerationResult) (l : list (TaskKind.t * GenerationResult)) : list (TaskKind.t * GenerationResult) :=
  match l with [] => [(kind, r)] | (k, x) :: l => if bool_decide (k = kind) then (k, r) :: l else (k, x) :: put_result kind r l end.
Fixpoint batch_from (all kinds : list TaskKind.t) (q : TaskKind.t -> GenerateRequest) (now : datetime) (b : BatchResult) : M AiWorld BatchResult :=
  match kinds with
  | [] => mret b
  | kind :: kinds => fun w =>
      match gen (q kind) now w with
      | (Ok r, w') => batch_from all kinds q now (mkBatch (put_result kind r (ba_results b)) (ba_failed b) (ba_total_cost b + gr_cost r)) w'
      | (Raise (AppErr ServiceUnavailableError _), w') =>
          (Ok (mkBatch (ba_results b) (ba_failed b ++ drop (length (ba_results b) + length (ba_failed b)) all) (ba_total_cost b)), w')
      | (Raise _, w') => batch_from all kinds q now (mkBatch (ba_results b) (ba_failed b ++ [kind]) (ba_total_cost b)) w'
      end
  end.
Definition generate_batch (kinds : list TaskKind.t) (context : BookContext) (book_id : option uuid) (caller : string) (force : bool) (now : datetime)
    : M AiWorld BatchResult :=
  batch_from kinds kinds (fun kind => mkRequest kind context book_id None (Some caller) "en" force "") now (mkBatch [] [] 0).

(** POST /internal/embeddings: [embed] is the provider's answer, the vectors
    left out: how many, the tokens and the model. *)
Definition embeddings (embed : result (Z * string)) (now : datetime) : M AiWorld Z :=
  _ ← raise_when (negb (provider_configured settings "openai")) (app_error ServiceUnavailableError "embeddings_unavailable");
  w ← get;
  _ ← of_result (check_budget (ai_budget settings) now None (budgets (db w)));
  r ← of_result embed;
  let cost := estimate_cost r.2 r.1 0 in
  _ ← change (fun d => set_budgets (record_spend (ai_budget settings) now None (mkCharge cost r.1 0) [] (budgets d)) d);
  _ ← ai_commit;
  mret cost.

(** ** Conversations *)

Definition HISTORY_TURNS : nat := 12.
Definition conversation_for_user (conversation_id user_id : uuid) : M AiWorld Conversation :=
  w ← get;
  match conversations (db w) !! conversation_id with
  | Some c => if bool_decide (cv_user_id c = user_id) then mret c else raise (app_error NotFoundError "")
  | None => raise (app_error NotFoundError "")
  end.
Definition list_conversations (user_id : uuid) (limit : nat) : M AiWorld (list Conversation) :=
  w ← get; mret (take limit (latest_first cv_updated_at (select (fun c => bool_decide (cv_user_id c = user_id)) (conversations (db w))))).
Definition of_conversation (id : uuid) (m : ChatMessage) : bool := bool_decide (m_conversation_id m = id).
Definition delete_conversation (c : Conversation) : M AiWorld unit :=
  _ ← change (fun d => set_messages (List.filter (fun m => negb (of_conversation (cv_id c) m)) (messages d)) (set_conversations (remove c (conversations d)) d));
  ai_commit.

(** *** Grounding *)

Context (search_books : string -> result json) (book_record : uuid -> result json) (owned_books : uuid -> uuid -> result json).

Definition text_or_empty (n : nat) (v : json) : result string :=
  match jor v (JStr "") with JStr s => Ok (stake n s) | _ => Raise TypeErr end.
Definition grounded_hit (hit : json) : result json :=
  id ← dict_get "id" hit;
  title ← dict_get "title" hit;
  slug ← dict_get "slug" hit;
  authors ← as_list (jget "authors" hit) [];
  names ← mapM (dict_get "name") authors;
  description ← text_or_empty 400 (jget "description" hit);
  Ok (JObj [("id", id); ("title", title); ("slug", slug); ("authors", JList names); ("description", JStr description)]).
Definition catalogue_context (question : string) : result (list json) :=
  match search_books (stake 200 question) with
  | Raise _ => Ok []
  | Ok payload =>
      payload ← as_dict payload;
      hits ← (match jget_default "hits" (JList []) payload with JList l => Ok l | _ => Raise TypeErr end);
      mapM grounded_hit hits
  end.

Definition require_book_access (book_id user_id : uuid) : result json :=
  match book_record book_id with
  | Raise _ => Raise (app_error ServiceUnavailableError "")
  | Ok access =>
      if negb (jtruthy access) then Raise (app_error NotFoundError "") else
      match owned_books user_id book_id with
      | Raise _ => Raise (app_error ServiceUnavailableError "")
      | Ok entitlement =>
          entitlement ← as_dict entitlement;
          owned ← each_text (jget "owned_book_ids" entitlement);
          if bool_decide (string_of_uuid book_id ∈ owned) then Ok access else Raise (app_error ForbiddenError "")
      end
  end.

Definition book_note (book : json) : result string :=
  title ← dict_get "title" book;
  authors ← as_list (jget "authors" book) [];
  names ← mapM (fun a => match dict_get_default "name" (JStr "") a with Ok (JStr s) => Ok s | Ok _ => Raise TypeErr | Raise e => Raise e end) authors;
  description ← text_or_empty 2000 (jget "description" book);
  Ok (String.concat newline ["The reader is asking about this specific book:"; append "Title: " (jstr title);
        append "Authors: " (String.concat ", " names); append "Description: " description]).

(** [_render_catalogue] *)
Definition render_book (ib : nat * json) : result string :=
  title ← dict_get "title" ib.2;
  authors ← as_list (jget "authors" ib.2) [];
  names ← mapM (fun a => match a with JStr s => Ok s | _ => Raise TypeErr end) (List.filter jtruthy authors);
  let authors := String.concat ", " names in
  let description := jget "description" ib.2 in
  Ok (append (py_str_int (Z.of_nat ib.1)) (append ". " (append (jstr title)
        (append (if String.eqb authors "" then "" else append " — " authors)
           (if jtruthy description then append newline (append "   " (jstr description)) else ""))))).
Definition render_catalogue (books : list json) : result string :=
  lines ← mapM render_book (zip (seq 1 (length books)) books);
  Ok (String.concat newline ("Books available in this store (you may only name books from this list):" :: lines)).

Definition role_text (r : MessageRole.t) : string := match r with MessageRole.USER => "user" | MessageRole.ASSISTANT => "assistant" end.
Definition history_block (id : uuid) (l : list ChatMessage) : string :=
  let rows := rev (take HISTORY_TURNS (latest_first m_created_at (List.filter (of_conversation id) l))) in
  if bool_decide (length rows = 0%nat) then "" else
  append "Conversation so far:" (append newline
    (String.concat newline (map (fun m => append (role_text (m_role m)) (append ": " (stake 1500 (m_content m)))) rows))).

(** What the conversation is about: the sources of the answer, and a note. *)
Definition ground (c : Conversation) (user_id : uuid) (message : string) : result (list json * string) :=
  match cv_book_id c with
  | Some book_id =>
      book ← require_book_access book_id user_id;
      note ← book_note book;
      id ← dict_get "id" book;
      title ← dict_get "title" book;
      slug ← dict_get "slug" book;
      Ok ([JObj [("id", id); ("title", title); ("slug", slug)]], note)
  | None => grounding ← catalogue_context message; Ok (grounding, "")
  end.

(** *** One turn *)

Definition open_conversation (new_id user_id : uuid) (message : string) (conversation_id book_id : option uuid) (now : datetime) : M AiWorld Conversation :=
  match conversation_id with
  | Some id => conversation_for_user id user_id
  | None =>
      let c := mkConversation new_id user_id (Some (stake 80 (strip message))) book_id 0 now in
      _ ← change (fun d => set_conversations (save c (conversations d)) d);
      mret c
  end.
Definition say (c : Conversation) (role : MessageRole.t) (content : string) (sources : list json) (input output : Z) (now : datetime) : M AiWorld ChatMessage :=
  let m := mkMessage (cv_id c) role content sources input output now in
  _ ← change (fun d => set_messages (messages d ++ [m]) d);
  mret m.

Definition ask (new_id user_id : uuid) (message : string) (conversation_id book_id : option uuid) (now later : datetime)
    : M AiWorld (Conversation * ChatMessage * list json) :=
  w ← get;
  _ ← of_result (check_budget (ai_budget settings) now (Some user_id) (budgets (db w)));
  c ← open_conversation new_id user_id message conversation_id book_id now;
  g ← of_result (ground c user_id message);
  w ← get;
  let history := history_block (cv_id c) (messages (db w)) in
  catalogue ← of_result (if bool_decide (length g.1 = 0%nat) then Ok "" else render_catalogue g.1);
  let extra := String.concat (append newline newline) (List.filter (fun s => negb (String.eqb s "")) [g.2; catalogue; history]) in
  _ ← say c MessageRole.USER (strip message) [] 0 0 now;
  r ← gen (mkRequest TaskKind.CHAT (mkBookContext "[chat]" None [] [] "en" (Some (strip message)) None None) None (Some user_id) (Some "chat")
             "en" true extra) now;
  let text := strip (default "" (gr_content r)) in
  reply ← say c MessageRole.ASSISTANT (if String.eqb text "" then "I could not answer that." else text) g.1 (gr_input_tokens r) (gr_output_tokens r) later;
  let c' := mkConversation (cv_id c) (cv_user_id c) (cv_title c) (cv_book_id c) (cv_message_count c + 2) later in
  _ ← change (fun d => set_conversations (save c' (conversations d)) d);
  _ ← ai_commit;
  mret (c', reply, g.1).

(** *** Recommendations (routers/assistant.py) *)

Record Recommendation := mkRecommendation { re_book_id : option uuid; re_title : string; re_reason : string }.
Definition id_of (book : json) : result (option uuid) :=
  if jtruthy (jget "id" book) then u ← opt_result ValueErr (uuid_of_string (jstr (jget "id" book))); Ok (Some u) else Ok None.
Definition popular (book : json) : result Recommendation :=
  id ← id_of book;
  Ok (mkRecommendation id (jstr (jget_default "title" (JStr "") book)) "Popular in the catalogue right now.").
(** The last book under a title. *)
Definition by_title (title : string) (catalogue : list json) : option json :=
  List.find (fun b => String.eqb (lower (jstr (jget_default "title" (JStr "") b))) title) (rev catalogue).
Fixpoint matched (catalogue items : list json) : result (list Recommendation) :=
  match items with
  | [] => Ok []
  | item :: items =>
      title ← dict_get_default "title" (JStr "") item;
      let title := strip (jstr title) in
      match by_title (lower title) catalogue with
      | None => matched catalogue items
      | Some book =>
          id ← id_of book;
          rest ← matched catalogue items;
          Ok (mkRecommendation id title (stake 300 (strip (jstr (jget_default "reason" (JStr "") item)))) :: rest)
      end
  end.
Definition listing (book : json) : string :=
  append "- " (append (jstr (jget "title" book)) (append " (" (append (jstr (jget "id" book)) ")"))).
Definition recommend (user_id : uuid) (prompt : option string) (limit : Z) (now : datetime) : M AiWorld (list Recommendation * bool) :=
  let query := if truthy prompt then default "" prompt else "books this reader would enjoy next" in
  catalogue ← of_result (catalogue_context query);
  if bool_decide (available_providers settings = []) || bool_decide (length catalogue = 0%nat)
  then l ← of_result (mapM popular (take (Z.to_nat limit) catalogue)); mret (l, true) else
  let extra := append "Catalogue:" (append newline (append (String.concat newline (map listing catalogue))
                 (append newline (append newline (append "Recommend at most " (append (py_str_int limit) ".")))))) in
  r ← gen (mkRequest TaskKind.RECOMMEND (mkBookContext "[recommendations]" None [] [] "en" (Some query) None None) None (Some user_id)
             (Some "recommend") "en" true extra) now;
  items ← of_result (match jget_default "recommendations" (JList []) (JObj (gr_data r)) with JList l => Ok l | _ => Raise TypeErr end);
  l ← of_result (matched catalogue (take (Z.to_nat limit) items));
  mret (l, false).

(** POST /internal/maintenance/prune: no cached copy has an expiry. *)
Definition prune_ai (days : Z) (now : datetime) : M AiWorld (Z * Z) :=
  w ← get;
  let stale c := cv_updated_at c <? now - days * DAY in
  let old := select stale (conversations (db w)) in
  _ ← change (fun d => set_messages (List.filter (fun m => negb (existsb (fun c => of_conversation (cv_id c) m) old)) (messages d))
                 (set_conversations (foldr remove (conversations d) old) d));
  _ ← ai_commit;
  w ← get;
  let '(n, l) := prune_budgets now 400 (budgets (db w)) in
  _ ← change (set_budgets l);
  _ ← ai_commit;
  mret (Z.of_nat (length old), n).

(** ** What the routes keep to *)

(** The reader's ownership of a book, as the books service answers for it. *)
Definition owns (user_id book_id : uuid) : Prop := exists entitlement owned,
  owned_books user_id book_id = Ok entitlement /\ each_text (jget "owned_book_ids" (jor entitlement (JObj []))) = Ok owned /\ string_of_uuid book_id ∈ owned.

Lemma access_means_owned book_id user_id r : require_book_access book_id user_id = Ok r -> owns user_id book_id.
Proof.
  unfold require_book_access. destruct (book_record book_id) as [access|]; [|done]. destruct (jtruthy access); cbn [negb]; [|done].
  destruct (owned_books user_id book_id) as [e|] eqn:He; [|done]. intros H.
  apply result_bind_ok in H as (d & Hd & H). apply result_bind_ok in H as (owned & Ho & H). case_bool_decide as Hin; [|done].
  exists e, owned. split; [done|]. split; [|done]. unfold as_dict in Hd. by destruct (jor e (JObj [])); try done; injection Hd as <-.
Qed.

(** The conversation a turn works on: the caller's own, with the book it is about. *)
Lemma opened new_id user_id message cid book_id now w c w1 : open_conversation new_id user_id message cid book_id now w = (Ok c, w1) ->
  model_calls w1 = model_calls w /\ cv_user_id c = user_id /\
  match cid with Some id => conversations (db w) !! id = Some c | None => cv_book_id c = book_id end.
Proof.
  unfold open_conversation, conversation_for_user. destruct cid as [id|].
  - intros H. erewrite bind_ok in H by reflexivity. cbv beta in H. destruct (conversations (db w) !! id) as [x|]; [|done].
    case_bool_decide; [|done]. by injection H as <- <-.
  - intros H. erewrite bind_ok in H by reflexivity. by injection H as <- <-.
Qed.
Lemma open_calls new_id user_id message cid book_id now w r w1 :
  open_conversation new_id user_id message cid book_id now w = (r, w1) -> model_calls w1 = model_calls w.
Proof.
  unfold open_conversation, conversation_for_user. destruct cid as [id|]; intros H; (erewrite bind_ok in H by reflexivity); cbv beta in H; [|by injection H as <- <-].
  destruct (conversations (db w) !! id) as [x|]; [case_bool_decide|]; by injection H as <- <-.
Qed.


(** A recommendation that is not marked as a fallback names a book the search
    service has just returned, under that book's title and with its id, whatever
    the model answered; and no more than asked for. *)
Theorem recommendations_are_stocked user_id prompt limit now w l w' :
  recommend user_id prompt limit now w = (Ok (l, false), w') -> 0 <= limit ->
  exists query catalogue, catalogue_context query = Ok catalogue /\ Z.of_nat (length l) <= limit /\
    forall r, r ∈ l -> exists book, In book catalogue /\ lower (jstr (jget_default "title" (JStr "") book)) = lower (re_title r) /\
      id_of book = Ok (re_book_id r).
Proof.
  unfold recommend. intros H Hlim.
  apply bind_ok_inv in H as (catalogue & w1 & [Hcat ->]%of_result_inv & H). destruct (_ || _).
  { apply bind_ok_inv in H as (x & w2 & _ & H). by injection H. }
  apply bind_ok_inv in H as (r & w2 & _ & H). apply bind_ok_inv in H as (items & w3 & [_ ->]%of_result_inv & H).
  apply bind_ok_inv in H as (x & w3 & [Hm ->]%of_result_inv & H). injection H as <- _.
  exists (if truthy prompt then default "" prompt else "books this reader would enjoy next"), catalogue. split; [done|].
  symmetry in Hm. pose proof (length_take items (Z.to_nat limit)) as Hlen. revert x Hm.
  assert (Hle : Z.of_nat (length (take (Z.to_nat limit) items)) <= limit) by lia. clear Hlen Hlim. revert Hle.
  generalize (take (Z.to_nat limit) items). intros its Hle.
  assert (Hall : forall x, matched catalogue its = Ok x -> (length x <= length its)%nat /\
    forall r, r ∈ x -> exists book, In book catalogue /\ lower (jstr (jget_default "title" (JStr "") book)) = lower (re_title r) /\ id_of book = Ok (re_book_id r)).
  { clear Hle. induction its as [|item its IH]; intros x Hx; [injection Hx as <-; split; [done|by intros r0 ?%not_elem_of_nil]|].
    cbn [matched] in Hx. apply result_bind_ok in Hx as (title & _ & Hx). cbv zeta in Hx.
    destruct (by_title _ catalogue) as [book|] eqn:Eb; [|destruct (IH x Hx) as [? ?]; split; [cbn; lia|done]].
    apply result_bind_ok in Hx as (id & Hid & Hx). apply result_bind_ok in Hx as (rest & Hrest & [= <-]).
    destruct (IH rest Hrest) as [Hl Hin]. split; [cbn; lia|]. intros r0 [->|Hr0]%elem_of_cons; [|by apply Hin].
    unfold by_title in Eb. apply find_some in Eb as [Hb He%String.eqb_eq]. apply in_rev in Hb. by exists book. }
  intros x Hx. destruct (Hall x Hx) as [Hl Hin]. split; [lia|done].
Qed.

(** Every kind of a batch of distinct kinds is answered for: it has a result or is listed as failed. *)
Lemma put_result_keys kind r l : kind ∉ map fst l -> map fst (put_result kind r l) = map fst l ++ [kind].
Proof.
  induction l as [|[k x] l IH]; intros H; [done|]. cbn [map] in H. apply not_elem_of_cons in H as [Hne H]. cbn [put_result].
  rewrite bool_decide_false by done. cbn. by rewrite IH.
Qed.
Lemma batch_covers all kinds done q now b w : NoDup all -> all = done ++ kinds -> map fst (ba_results b) ++ ba_failed b ≡ₚ done ->
  exists b' w', batch_from all kinds q now b w = (Ok b', w') /\ map fst (ba_results b') ++ ba_failed b' ≡ₚ all.
Proof.
  intros Hnd. revert done b w. induction kinds as [|kind kinds IH]; intros done b w Hall Hb; cbn [batch_from].
  { rewrite app_nil_r in Hall. subst. by exists b, w. }
  assert (Hfresh : kind ∉ map fst (ba_results b) ++ ba_failed b).
  { rewrite Hb. subst all. apply NoDup_app in Hnd as (_ & Hd & _). intros Hin. apply (Hd kind Hin). constructor. }
  assert (Hall' : all = (done ++ [kind]) ++ kinds) by (by rewrite <- app_assoc).
  destruct (gen (q kind) now w) as [[r|e] w1].
  - apply (IH _ _ _ Hall'). cbn [ba_results ba_failed]. rewrite put_result_keys; [|intros H; apply Hfresh, elem_of_app; by left].
    rewrite <- Hb. solve_Permutation.
  - assert (Hlen : (length (ba_results b) + length (ba_failed b))%nat = length done).
    { rewrite <- Hb, length_app, length_map. done. }
    assert (Hfail : exists b' w', batch_from all kinds q now (mkBatch (ba_results b) (ba_failed b ++ [kind]) (ba_total_cost b)) w1 = (Ok b', w') /\
      map fst (ba_results b') ++ ba_failed b' ≡ₚ all) by (apply (IH _ _ _ Hall'); cbn; rewrite app_assoc, Hb; done).
    destruct e as [[] code| | | | | | | | | | | | |]; try exact Hfail.
    eexists _, w1. split; [reflexivity|]. cbn [ba_results ba_failed]. rewrite Hlen, Hall, drop_app_length, app_assoc, Hb. done.
Qed.
End chat.

(** ** Reports (apps/ai/services/reporting.py, routers/admin.py) *)

Record UsageTotals := mkUsage {
  us_total : Z;
  us_cached : Z;
  us_failed : Z;
  us_blocked : Z;
  us_input_tokens : Z;
  us_output_tokens : Z;
  us_cost : Z;
  us_by_kind : list (TaskKind.t * Z);
  us_by_provider : list (string * Z);
}.
Definition billable (u : UsageTotals) : Z := Z.max 0 (us_total u - us_cached u - us_blocked u).
Definition status_is (s : GenerationStatus.t) (g : Generation) : bool :=
  match g_status g, s with
  | GenerationStatus.SUCCEEDED, GenerationStatus.SUCCEEDED | GenerationStatus.FAILED, GenerationStatus.FAILED
  | GenerationStatus.BLOCKED, GenerationStatus.BLOCKED | GenerationStatus.CACHED, GenerationStatus.CACHED => true
  | _, _ => false
  end.
Definition in_days (now : datetime) (days : Z) (g : Generation) : bool := now - days * DAY <=? g_created_at g.
Definition count_if {A} (p : A -> bool) (l : list A) : Z := Z.of_nat (length (List.filter p l)).
Definition usage (now : datetime) (days : Z) (gens : list Generation) : UsageTotals :=
  let rows := List.filter (in_days now days) gens in
  let providers := fromkeys (omap g_provider rows) in
  mkUsage (count_if (fun _ => true) rows) (count_if (status_is GenerationStatus.CACHED) rows) (count_if (status_is GenerationStatus.FAILED) rows)
    (count_if (status_is GenerationStatus.BLOCKED) rows) (zsum (map g_input_tokens rows)) (zsum (map g_output_tokens rows)) (zsum (map g_cost rows))
    (map (fun k => (k, count_if (fun g => bool_decide (g_kind g = k)) rows)) (fromkeys (map g_kind rows)))
    (map (fun p => (p, count_if (fun g => bool_decide (g_provider g = Some p)) rows)) providers).
Definition recent_failures (now : datetime) (limit : nat) (days : Z) (gens : list Generation) : list Generation :=
  take limit (latest_first g_created_at (List.filter (fun g => in_days now days g && status_is GenerationStatus.FAILED g) gens)).

(** The four statuses account for every request. *)
Lemma usage_accounts now days gens :
  us_total (usage now days gens) = us_cached (usage now days gens) + us_failed (usage now days gens) + us_blocked (usage now days gens) +
    count_if (status_is GenerationStatus.SUCCEEDED) (List.filter (in_days now days) gens).
Proof.
  cbn. unfold count_if. induction (List.filter (in_days now days) gens) as [|g l IH]; [done|]. cbn [List.filter].
  unfold status_is in *. destruct (g_status g); cbn [length]; lia.
Qed.

(** ** Concrete runs *)

Definition demo_roomy : AiSettings :=
  mkAiSettings (mkBudgetSettings true 90000 90000) ["anthropic"] (Some "k") "claude-sonnet" None "gpt-4o-mini" 4000 true true true.
Definition demo_book_json : json := JObj [("id", JStr (string_of_uuid 9)); ("title", JStr "Dune"); ("slug", JStr "dune"); ("description", JStr "Sand.")].
Definition demo_record (b : uuid) : result json := if (b =? 9)%N then Ok demo_book_json else Raise (UpstreamStatus "" 404).
Definition demo_owned (u b : uuid) : result json :=
  Ok (JObj [("owned_book_ids", if (u =? 7)%N then JList [JStr (string_of_uuid b)] else JList [])]).
Definition demo_found (q : string) : result json := Ok (JObj [("hits", JList [demo_book_json])]).
Definition demo_ask (user : uuid) (o : nat -> attempt_outcome) : M AiWorld (Conversation * ChatMessage * list json) :=
  ask demo_roomy demo_prompts demo_fingerprint no_json o demo_found demo_record demo_owned 1 user "Who is Paul?" None (Some 9%N) 10 11.


Definition demo_items : json := JObj [("recommendations", JList [JObj [("title", JStr "DUNE "); ("reason", JStr "Sand.")]; JObj [("title", JStr "No Such Book")]])].
Definition demo_recommend := recommend demo_roomy demo_prompts demo_fingerprint (fun _ => Some demo_items) (fun _ => anthropic_says "{}") demo_found 7 None 6 0.
Definition demo_recommended : list Recommendation := [mkRecommendation (Some 9%N) "DUNE" "Sand."].

Lemma recommendations_are_stocked_witness :
  exists w' query catalogue, demo_recommend empty_ai = (Ok (demo_recommended, false), w') /\ catalogue_context demo_found query = Ok catalogue /\
    Z.of_nat (length demo_recommended) <= 6.
Proof.
  assert (Hrun : demo_recommend empty_ai = (Ok (demo_recommended, false), (demo_recommend empty_ai).2)) by (vm_compute; reflexivity).
  destruct (recommendations_are_stocked demo_roomy demo_prompts demo_fingerprint (fun _ => Some demo_items) (fun _ => anthropic_says "{}") demo_found
    7 None 6 0 empty_ai demo_recommended _ Hrun ltac:(lia)) as (query & catalogue & Hcat & Hlen & _).
  exists (demo_recommend empty_ai).2, query, catalogue. split; [exact Hrun|]. split; [exact Hcat|exact Hlen].
Defined.

(** A moderation whose answer cannot be read lets the text through, and the
    verdict is cached. *)
Example unread_verdict_allows :
  let '(r, w) := check_content demo_roomy demo_prompts demo_fingerprint no_json (fun _ => anthropic_says "I cannot help with that.")
    "some abuse" "review" None 0 empty_ai in
  r = Ok (mkModeration true [] None) /\ size (cached_results (db w)) = 1%nat.
Proof. split; reflexivity. Qed.

(** A turn the model fails leaves the question in the conversation, without an
    answer and without being counted. *)
Example failed_turn_leaves_question :
  let '(r, w) := ai_request (demo_ask 7 (fun _ => Response 400 NoContent)) empty_ai in
  r = Raise (app_error UpstreamError "provider_error") /\ map m_role (messages (db w)) = [MessageRole.USER] /\
  (cv_message_count <$> conversations (db w) !! 1%N) = Some 0.
Proof. split; [|split]; reflexivity. Qed.

(** The embeddings charge the budget and record no generation. *)
Example embeddings_leave_no_generation :
  let '(_, w) := embeddings (demo_ai 90000 90000) (Ok (1000000, "text-embedding-3-small")) 0 empty_ai in
  scope_cost 0 None (budgets (db w)) = 20000 /\ generations (db w) = [].
Proof. split; reflexivity. Qed.
