(* ===== verification/Gateway.v ===== *)
(** * The gateway (apps/gateway/routes.py, cache.py, proxy.py, main.py)

    The route table, the edge cache, the headers that cross the proxy and the
    handler every public request goes through.  What Redis holds for the gateway
    is part of the world: the ban keys, the rate-limit buckets and the cached
    responses; it answers during a whole request or not at all ([mo_redis]).  A
    cached blob is kept as [from_blob] reads it back ([None] when unreadable).
    [answer n] is what the [n]-th request to an upstream meets. *)

From S2P Require Import Prelude Store Json Pagination Invoices RateLimit Security Http.

(** ** The route table (routes.py) *)

Record Route := mkRoute {
  ro_prefix : string;
  ro_upstream : string;
  ro_public : bool;
  ro_require_auth : bool;
  ro_rate_limit : string;
  ro_anonymous_rate_limit : string;
  ro_cache_ttl : Z;
  ro_vary_on_user : bool;
  ro_timeout : option Z;
  ro_stream : bool;
  ro_invalidate_on : list string;
}.

(** The keyword arguments, one after the other. *)
Definition public_route (prefix upstream : string) : Route :=
  mkRoute prefix upstream true false "authenticated" "anonymous" 0 false None false [].
Definition authed_route (prefix upstream : string) : Route :=
  mkRoute prefix upstream false true "authenticated" "anonymous" 0 false None false [].
Definition limited (signed_in anonymous : string) (r : Route) : Route :=
  mkRoute (ro_prefix r) (ro_upstream r) (ro_public r) (ro_require_auth r) signed_in anonymous (ro_cache_ttl r) (ro_vary_on_user r)
    (ro_timeout r) (ro_stream r) (ro_invalidate_on r).
Definition cached_for (ttl : Z) (invalidate_on : list string) (r : Route) : Route :=
  mkRoute (ro_prefix r) (ro_upstream r) (ro_public r) (ro_require_auth r) (ro_rate_limit r) (ro_anonymous_rate_limit r) ttl
    (ro_vary_on_user r) (ro_timeout r) (ro_stream r) invalidate_on.
Definition per_user (r : Route) : Route :=
  mkRoute (ro_prefix r) (ro_upstream r) (ro_public r) (ro_require_auth r) (ro_rate_limit r) (ro_anonymous_rate_limit r) (ro_cache_ttl r)
    true (ro_timeout r) (ro_stream r) (ro_invalidate_on r).
Definition timed (timeout : Z) (r : Route) : Route :=
  mkRoute (ro_prefix r) (ro_upstream r) (ro_public r) (ro_require_auth r) (ro_rate_limit r) (ro_anonymous_rate_limit r) (ro_cache_ttl r)
    (ro_vary_on_user r) (Some timeout) (ro_stream r) (ro_invalidate_on r).
Definition streamed (r : Route) : Route :=
  mkRoute (ro_prefix r) (ro_upstream r) (ro_public r) (ro_require_auth r) (ro_rate_limit r) (ro_anonymous_rate_limit r) (ro_cache_ttl r)
    (ro_vary_on_user r) (ro_timeout r) true (ro_invalidate_on r).

Definition ROUTES : list Route := [
  limited "login" "login" (public_route "/v1/auth/login" "auth");
  limited "register" "register" (public_route "/v1/auth/register" "auth");
  limited "password_reset" "password_reset" (public_route "/v1/auth/forgot-password" "auth");
  limited "password_reset" "password_reset" (public_route "/v1/auth/reset-password" "auth");
  limited "login" "login" (public_route "/v1/auth/refresh" "auth");
  limited "password_reset" "password_reset" (public_route "/v1/auth/verify-email" "auth");
  limited "login" "login" (public_route "/v1/auth/oauth" "auth");
  authed_route "/v1/auth" "auth";
  cached_for 300 [] (limited "anonymous" "anonymous" (public_route "/.well-known/jwks.json" "auth"));
  cached_for 120 ["book.published"; "book.updated"; "book.unpublished"; "book.deleted"] (public_route "/v1/books" "books");
  timed 60 (streamed (authed_route "/v1/books/downloads" "books"));
  cached_for 300 ["book.published"; "book.updated"] (public_route "/v1/authors" "books");
  cached_for 600 ["book.published"; "book.updated"; "book.deleted"] (public_route "/v1/categories" "books");
  cached_for 60 ["review.created"; "review.deleted"] (public_route "/v1/reviews" "books");
  per_user (cached_for 30 [] (authed_route "/v1/library" "books"));
  authed_route "/v1/wishlist" "books";
  authed_route "/v1/bookmarks" "books";
  authed_route "/v1/reading-progress" "books";
  limited "search" "search" (public_route "/v1/search" "search");
  cached_for 60 [] (limited "anonymous" "anonymous" (public_route "/v1/search/trending" "search"));
  limited "ai" "anonymous" (timed 120 (streamed (authed_route "/v1/ai" "ai")));
  limited "checkout" "anonymous" (authed_route "/v1/orders" "payment");
  limited "checkout" "anonymous" (authed_route "/v1/payments" "payment");
  cached_for 300 [] (public_route "/v1/payments/providers" "payment");
  limited "anonymous" "anonymous" (public_route "/v1/checkout" "payment");
  limited "anonymous" "anonymous" (public_route "/v1/coupons" "payment");
  timed 30 (limited "webhook" "webhook" (public_route "/v1/webhooks" "payment"));
  authed_route "/v1/subscriptions" "payment";
  cached_for 300 [] (public_route "/v1/plans" "payment");
  authed_route "/v1/invoices" "payment";
  authed_route "/v1/affiliate" "payment";
  authed_route "/v1/notifications" "notification";
  limited "anonymous" "anonymous" (public_route "/v1/notifications/unsubscribe" "notification");
  cached_for 300 [] (public_route "/v1/notifications/channels" "notification");
  timed 60 (authed_route "/v1/automation" "automation");
  timed 600 (authed_route "/v1/automation/jobs" "automation");
  timed 300 (authed_route "/v1/automation/imports" "automation");
  timed 60 (authed_route "/v1/admin" "admin");
  timed 60 (authed_route "/v1/admin/books" "books");
  authed_route "/v1/admin/moderation" "books";
  authed_route "/v1/admin/users" "auth";
  timed 60 (authed_route "/v1/admin/audit-logs" "auth");
  timed 60 (authed_route "/v1/admin/ai" "ai");
  timed 60 (authed_route "/v1/admin/orders" "payment");
  authed_route "/v1/admin/coupons" "payment";
  authed_route "/v1/admin/plans" "payment";
  authed_route "/v1/admin/invoices" "payment";
  authed_route "/v1/admin/webhooks" "payment";
  timed 60 (authed_route "/v1/admin/revenue" "payment");
  timed 300 (authed_route "/v1/admin/search" "search");
  timed 60 (authed_route "/v1/admin/notifications" "notification");
  timed 60 (authed_route "/v1/admin/automation" "automation");
  timed 900 (authed_route "/v1/admin/workers" "workers");
  timed 30 (authed_route "/v1/admin/dashboard" "admin");
  timed 30 (authed_route "/v1/admin/health-board" "admin");
  authed_route "/v1/admin/flags" "admin"].

Definition route_matches (path : string) (r : Route) : bool :=
  String.eqb path (ro_prefix r) || startswith (append (ro_prefix r) "/") path.
Definition better_route (path : string) (best : option Route) (r : Route) : option Route :=
  if route_matches path r && match best with None => true | Some b => (String.length (ro_prefix b) <? String.length (ro_prefix r))%nat end
  then Some r else best.
Definition resolve_in (routes : list Route) (path : string) : option Route := foldl (better_route path) None routes.
Definition resolve_route (path : string) : option Route := resolve_in ROUTES path.

(** As a set: the order of subscription does not matter. *)
Definition invalidation_events : list string := fromkeys (concat (map ro_invalidate_on ROUTES)).

(** ** Python dicts of headers *)

Abbreviation header_list := (list (string * string)).
Fixpoint dict_put (k v : string) (d : header_list) : header_list :=
  match d with
  | [] => [(k, v)]
  | h :: d => if String.eqb h.1 k then (k, v) :: d else h :: dict_put k v d
  end.
Definition dict_update (d l : header_list) : header_list := foldl (fun d h => dict_put h.1 h.2 d) d l.
Definition dget (k : string) (d : header_list) : option string := snd <$> List.find (fun h => String.eqb h.1 k) d.
(** [request.headers.get], [response.headers.get]: the first, whatever its case. *)
Definition header (name : string) (l : header_list) : option string := snd <$> List.find (fun h => String.eqb (lower h.1) name) l.
Definition lowered (l : header_list) : header_list := map (fun h => (lower h.1, h.2)) l.

(** ** Requests, answers and the world *)

Record Request := mkGatewayRequest {
  gq_method : string;
  gq_scheme : string;
  gq_path : string;
  gq_query : string;             (** the raw query string *)
  gq_headers : header_list;
  gq_client : option string;
  gq_body : string;
  gq_request_id : string;
}.

(** When a request arrives (wall clock in microseconds, monotonic seconds),
    whether Redis answers, and the member name its rate-limit entry gets. *)
Record Moment := mkMoment { mo_now : datetime; mo_mono : Z; mo_later : Z; mo_redis : bool; mo_member : string }.

Record UpstreamRequest := mkUpstream {
  ur_upstream : string;
  ur_method : string;
  ur_path : string;
  ur_params : header_list;
  ur_headers : header_list;
  ur_body : option string;
  ur_timeout : option Z;         (** [None]: the client's own *)
}.

(** [raw] are the bytes on the wire. *)
Inductive upstream_outcome :=
  | Answered (status : Z) (headers : header_list) (raw : string)
  | TimedOut
  | Unreachable.

Record ProxyResult := mkProxy {
  px_status : Z;
  px_headers : header_list;
  px_body : option string;
  px_stream : option string;     (** what the stream yields *)
  px_cacheable : option string;
}.

Record CachedResponse := mkCached { cr_status : Z; cr_headers : header_list; cr_body : string }.
Record HttpResponse := mkResponse { rs_status : Z; rs_headers : header_list; rs_body : string }.

Record GatewayWorld := mkGateway {
  gw_jwks : JWKSCache;
  gw_banned : gset string;
  gw_buckets : gmap string bucket;
  gw_cache : gmap string (option CachedResponse * datetime);   (** with the moment of expiry *)
  gw_calls : list UpstreamRequest;
}.
Definition set_jwks j w := mkGateway j (gw_banned w) (gw_buckets w) (gw_cache w) (gw_calls w).
Definition set_buckets b w := mkGateway (gw_jwks w) (gw_banned w) b (gw_cache w) (gw_calls w).
Definition set_cache c w := mkGateway (gw_jwks w) (gw_banned w) (gw_buckets w) c (gw_calls w).
Definition add_call u w := mkGateway (gw_jwks w) (gw_banned w) (gw_buckets w) (gw_cache w) (gw_calls w ++ [u]).

Record GatewaySettings := mkGatewaySettings {
  denylist_enabled : bool;
  rate_limit_enabled : bool;
  cache_enabled : bool;
  cache_max_body_bytes : Z;
  service_url : string -> option string;      (** [<name>_service_url] *)
  internal_api_secret : string;
  service_name : string;
}.

(** ** The edge cache (cache.py) *)

Definition CACHE_PREFIX : string := "kos:gateway:cache".
Definition CACHEABLE_STATUS : list Z := [200; 203; 404].
Definition NEVER_CACHE_HEADERS : list string := ["set-cookie"; "www-authenticate_caller"].
Definition CACHEABLE_METHODS : list string := ["GET"; "HEAD"].

Definition auth_scope (r : Route) (principal : option Principal) : option string :=
  match principal with
  | None => Some "anon"
  | Some p => if ro_vary_on_user r then Some (append "u:" (user_id p)) else None
  end.

Definition newline : string := String (ascii_of_N 10) "".
Definition cache_material (method path query scope : string) : string :=
  append method (append newline (append path (append newline (append query (append newline scope))))).

Definition is_some {A} (o : option A) : bool := match o with Some _ => true | None => false end.

(** ** The proxy's headers (proxy.py) *)

Definition HOP_BY_HOP : list string :=
  ["connection"; "keep-alive"; "proxy-authenticate_caller"; "proxy-authorization"; "proxy-connection"; "te"; "trailer"; "trailers";
   "transfer-encoding"; "upgrade"].
Definition DROP_FROM_REQUEST : list string := HOP_BY_HOP ++ ["host"; "content-length"].
Definition DROP_FROM_RESPONSE : list string := HOP_BY_HOP ++ ["content-encoding"; "content-length"].
Definition UPSTREAM_MUST_NOT_SET : list string := ["x-authenticated-user"; "x-authenticated-roles"].
Definition MULTI_VALUE_RESPONSE_HEADERS : list string := ["set-cookie"].

(** A client cannot set the headers the gateway sets itself. *)
Definition kept_headers (hs : header_list) : header_list :=
  List.filter (fun h => negb (bool_decide (lower h.1 ∈ DROP_FROM_REQUEST)) && negb (bool_decide (lower h.1 ∈ UPSTREAM_MUST_NOT_SET))) hs.
Definition build_forward_headers (rq : Request) (principal : option Principal) (internal_headers : header_list) : header_list :=
  let d := dict_update [] (lowered (kept_headers (gq_headers rq))) in
  let d := dict_put "x-request-id" (gq_request_id rq) d in
  let d := dict_put "x-forwarded-proto" (gq_scheme rq) d in
  let d := dict_put "x-forwarded-host" (default "" (header "host" (gq_headers rq))) d in
  let client_host := default "" (gq_client rq) in
  let existing := header "x-forwarded-for" (gq_headers rq) in
  let d := dict_put "x-forwarded-for" (if truthy existing then append (default "" existing) (append ", " client_host) else client_host) d in
  let d := match principal with
           | Some p => dict_put "x-authenticated-roles" (String.concat "," (roles p)) (dict_put "x-authenticated-user" (user_id p) d)
           | None => d
           end in
  dict_update d (lowered internal_headers).

Definition build_response_headers (hs : header_list) (request_id : string) : header_list :=
  List.filter (fun h => negb (bool_decide (h.1 ∈ DROP_FROM_RESPONSE))) (lowered hs) ++ [("x-request-id", request_id)].
Definition set_response_header (hs : header_list) (key value : string) : header_list :=
  List.filter (fun h => negb (String.eqb h.1 (lower key))) hs ++ [(lower key, value)].

(** The headers that may repeat are appended after the mapping of the others. *)
Definition to_response (r : ProxyResult) : HttpResponse :=
  let multi h := bool_decide (h.1 ∈ MULTI_VALUE_RESPONSE_HEADERS) in
  mkResponse (px_status r)
    (dict_update [] (List.filter (fun h => negb (multi h)) (px_headers r)) ++ List.filter multi (px_headers r))
    (match px_stream r with Some s => s | None => default "" (px_body r) end).

(** [RateLimitResult.headers] *)
Definition rate_limit_headers (r : RateLimitResult) : header_list :=
  [("X-RateLimit-Limit", py_str_int (rl_limit r)); ("X-RateLimit-Remaining", py_str_int (Z.max 0 (rl_remaining r)));
   ("X-RateLimit-Reset", py_str_int (rl_reset_seconds r))].

(** [dict.get] of the policies. *)
Definition policy_named (name : string) : RateLimitPolicy :=
  default (mkPolicy 60 60 "anonymous") (snd <$> List.find (fun p => String.eqb p.1 name) POLICIES).
Definition policy_for (r : Route) (principal : option Principal) : RateLimitPolicy :=
  policy_named (match principal with Some _ => ro_rate_limit r | None => ro_anonymous_rate_limit r end).
Definition identifier (rq : Request) (principal : option Principal) : string :=
  match principal with
  | Some p => append "user:" (user_id p)
  | None =>
      let forwarded := default "" (header "x-forwarded-for" (gq_headers rq)) in
      if String.eqb forwarded "" then append "ip:" (default "unknown" (gq_client rq))
      else append "ip:" (strip (hd "" (split_char "," forwarded)))
  end.

(** ** The handler (cache.py, proxy.py, main.py) *)

Section gateway.
Context (settings : GatewaySettings) (answer : nat -> upstream_outcome).
(** [sha256(...).hexdigest()[:40]] of the cache, and the platform's hashes. *)
Context (key_digest : string -> string) (hmac : string -> string -> string) (sha256 : string -> string).
(** httpx decoding a body by its headers; the parsed query string. *)
Context (decode_body : header_list -> string -> string) (parse_query : string -> header_list).
Context (verify_token : Z -> Z -> string -> M JWKSCache Principal).

Definition response_key (method path query scope : string) : string :=
  append CACHE_PREFIX (append ":" (key_digest (cache_material method path query scope))).

Definition cache_get (m : Moment) (key : string) : M GatewayWorld (option CachedResponse) := fun w =>
  if negb (cache_enabled settings && mo_redis m) then (Ok None, w) else
  match gw_cache w !! key with
  | Some (blob, expires_at) =>
      if expires_at <=? mo_now m then (Ok None, w) else
      match blob with
      | Some c => (Ok (Some c), w)
      | None => (Ok None, set_cache (delete key (gw_cache w)) w)
      end
  | None => (Ok None, w)
  end.

(** The headers are a dict by now. *)
Definition storable (status : Z) (hs : header_list) (body : string) (ttl : Z) : bool :=
  let cache_control := lower (default "" (match dget "cache-control" hs with Some v => Some v | None => dget "Cache-Control" hs end)) in
  cache_enabled settings && (0 <? ttl) && bool_decide (status ∈ CACHEABLE_STATUS) &&
  (Z.of_nat (String.length body) <=? cache_max_body_bytes settings) &&
  negb (existsb (fun h => bool_decide (lower h.1 ∈ NEVER_CACHE_HEADERS)) hs) &&
  negb (contains "no-store" cache_control || contains "private" cache_control).
Definition stored_headers (hs : header_list) : header_list :=
  List.filter (fun h => negb (bool_decide (lower h.1 ∈ ["x-request-id"; "x-trace-id"; "x-cache"; "date"]))) hs.
Definition cache_store (m : Moment) (key : string) (status : Z) (hs : header_list) (body : string) (ttl : Z) : M GatewayWorld unit :=
  if negb (storable status hs body ttl && mo_redis m) then mret tt
  else modify (fun w => set_cache (<[key := (Some (mkCached status (stored_headers hs) body), mo_now m + ttl * SECOND)]> (gw_cache w)) w).

(** [invalidate_all]: every key under the prefix. *)
Definition invalidate_all (redis : bool) (w : GatewayWorld) : GatewayWorld :=
  if redis then set_cache (filter (fun kv => startswith (append CACHE_PREFIX ":") kv.1 = false) (gw_cache w)) w else w.

Definition forward (rq : Request) (r : Route) (principal : option Principal) (internal_headers : header_list) (body : option string)
    : M GatewayWorld ProxyResult :=
  _ ← raise_when (negb (truthy (service_url settings (ro_upstream r)))) (app_error ServiceUnavailableError "");
  n ← gets (fun w => length (gw_calls w));
  _ ← modify (add_call (mkUpstream (ro_upstream r) (gq_method rq) (gq_path rq) (dict_update [] (parse_query (gq_query rq)))
                          (build_forward_headers rq principal internal_headers) body (ro_timeout r)));
  match answer n with
  | TimedOut => raise (UpstreamStatus "upstream_timeout" 504)
  | Unreachable => raise (app_error ServiceUnavailableError "")
  | Answered status hs raw =>
      let response_headers := build_response_headers hs (gq_request_id rq) in
      if ro_stream r then mret (mkProxy status response_headers None (Some raw) None) else
      let content := decode_body hs raw in
      mret (mkProxy status response_headers (Some content) None
              (if Z.of_nat (String.length content) <=? cache_max_body_bytes settings then Some content else None))
  end.

Definition authenticate_caller (rq : Request) (m : Moment) : M GatewayWorld (option Principal) :=
  let h := default "" (header "authorization" (gq_headers rq)) in
  if negb (startswith "bearer " (lower h)) then mret None else
  let token := strip (String.substring 7 (String.length h - 7) h) in
  if String.eqb token "" then mret None else
  p ← lift gw_jwks set_jwks (verify_token (mo_mono m) (mo_later m) token); mret (Some p).

Definition denylist_key (user_id : string) : string := append "kos:denylist:user:" user_id.
Definition assert_not_banned (m : Moment) (p : Principal) : M GatewayWorld unit :=
  if negb (denylist_enabled settings && mo_redis m) then mret tt else
  banned ← gets (fun w => bool_decide (denylist_key (user_id p) ∈ gw_banned w));
  raise_when banned (app_error UnauthorizedError "account_banned").

Definition bucket_key (p : RateLimitPolicy) (id : string) : string :=
  append "kos:ratelimit:" (append (scope p) (append ":" id)).
Definition limit_rate (rq : Request) (m : Moment) (r : Route) (principal : option Principal) : M GatewayWorld header_list :=
  if negb (rate_limit_enabled settings) then mret [] else
  let policy := policy_for r principal in
  let key := bucket_key policy (identifier rq principal) in
  b ← gets (fun w => default empty_bucket (gw_buckets w !! key));
  let '(r, b') := enforce (rate_limit_enabled settings) policy (mo_now m / 1000) 1 (mo_member m) (if mo_redis m then Some b else None) in
  _ ← modify (fun w => match b' with Some b' => set_buckets (<[key := b']> (gw_buckets w)) w | None => w end);
  result ← of_result r;
  mret (rate_limit_headers result).

(** What of the caller's identity a cached answer depends on, when the request
    may use the cache; the key it is kept under. *)
Definition cache_scope (rq : Request) (r : Route) (principal : option Principal) : option string :=
  if (0 <? ro_cache_ttl r) && bool_decide (gq_method rq ∈ CACHEABLE_METHODS) &&
     negb (contains "no-cache" (lower (default "" (header "cache-control" (gq_headers rq)))))
  then auth_scope r principal else None.
Definition material_of (rq : Request) (scope : string) : string := cache_material (gq_method rq) (gq_path rq) (gq_query rq) scope.
Definition cache_key_for (rq : Request) (r : Route) (principal : option Principal) : option string :=
  response_key (gq_method rq) (gq_path rq) (gq_query rq) <$> cache_scope rq r principal.

Definition from_hit (hit : CachedResponse) (rate_headers : header_list) (request_id : string) : HttpResponse :=
  mkResponse (cr_status hit)
    (dict_put "x-request-id" request_id (dict_put "x-cache" "HIT" (dict_update (dict_update [] (cr_headers hit)) (lowered rate_headers))))
    (cr_body hit).

Definition proxied (rq : Request) (m : Moment) (r : Route) (principal : option Principal) (rate_headers : header_list)
    (cache_key : option string) : M GatewayWorld HttpResponse :=
  let body := if bool_decide (gq_method rq ∈ ["GET"; "HEAD"]) then None else Some (gq_body rq) in
  let '(timestamp, signature) :=
    sign_internal_request hmac (internal_api_secret settings) (gq_method rq) (gq_path rq) (hash_body sha256 (default "" body)) None (mo_now m) in
  result ← forward rq r principal
    [("X-Internal-Timestamp", timestamp); ("X-Internal-Signature", signature); ("X-Internal-Service", service_name settings)] body;
  let hs := foldl (fun hs h => set_response_header hs h.1 h.2) (px_headers result) rate_headers in
  let hs := set_response_header hs "x-cache" (match cache_key with Some _ => "MISS" | None => "BYPASS" end) in
  _ ← (match cache_key, px_cacheable result with
       | Some key, Some content => cache_store m key (px_status result) (dict_update [] hs) content (ro_cache_ttl r)
       | _, _ => mret tt
       end);
  mret (to_response (mkProxy (px_status result) hs (px_body result) (px_stream result) (px_cacheable result))).

Definition gateway (rq : Request) (m : Moment) : M GatewayWorld HttpResponse :=
  r ← of_result (opt_result (app_error NotFoundError "") (resolve_route (gq_path rq)));
  principal ← authenticate_caller rq m;
  _ ← raise_when (ro_require_auth r && negb (is_some principal)) (app_error UnauthorizedError "");
  _ ← (match principal with Some p => assert_not_banned m p | None => mret tt end);
  rate_headers ← limit_rate rq m r principal;
  let cache_key := cache_key_for rq r principal in
  hit ← (match cache_key with Some key => cache_get m key | None => mret None end);
  match hit with
  | Some hit => mret (from_hit hit rate_headers (gq_request_id rq))
  | None => proxied rq m r principal rate_headers cache_key
  end.

(** What happens to a gateway: requests, events of the platform, bans. *)
Inductive gateway_step :=
  | Requested (rq : Request) (m : Moment)
  | Announced (event_type : string) (redis : bool)
  | DenylistSet (banned : gset string).
Definition gateway_next (w : GatewayWorld) (s : gateway_step) : GatewayWorld :=
  match s with
  | Requested rq m => (gateway rq m w).2
  | Announced event_type redis => if bool_decide (event_type ∈ invalidation_events) then invalidate_all redis w else w
  | DenylistSet banned => mkGateway (gw_jwks w) banned (gw_buckets w) (gw_cache w) (gw_calls w)
  end.
Definition run_gateway (l : list gateway_step) (w : GatewayWorld) : GatewayWorld := foldl gateway_next w l.
End gateway.

(** ** Lemmas *)

Lemma dget_cons k h d : dget k (h :: d) = if String.eqb h.1 k then Some h.2 else dget k d.
Proof. unfold dget. cbn. by destruct (String.eqb h.1 k). Qed.

Lemma dget_put k k' v d : dget k (dict_put k' v d) = if String.eqb k' k then Some v else dget k d.
Proof.
  induction d as [|[k0 v0] d IH]; cbn [dict_put fst]; [by rewrite dget_cons|].
  destruct (String.eqb_spec k0 k') as [->|Hne]; rewrite !dget_cons; cbn [fst snd]; [by destruct (String.eqb k' k)|].
  rewrite IH. destruct (String.eqb_spec k0 k) as [->|]; [|done]. by rewrite (proj2 (String.eqb_neq _ _)).
Qed.

Lemma dict_update_cons d h l : dict_update d (h :: l) = dict_update (dict_put h.1 h.2 d) l.
Proof. done. Qed.

Lemma dict_update_app d l l' : dict_update d (l ++ l') = dict_update (dict_update d l) l'.
Proof. unfold dict_update. by rewrite foldl_app. Qed.

Lemma dget_update k d l : (forall h, h ∈ l -> h.1 <> k) -> dget k (dict_update d l) = dget k d.
Proof.
  revert d. induction l as [|h l IH]; intros d Hl; [done|]. rewrite dict_update_cons, IH by (intros; apply Hl; by right).
  rewrite dget_put, (proj2 (String.eqb_neq _ _)); [done|]. apply Hl. by left.
Qed.

Lemma dget_update_kept k d l : dget k d <> None -> dget k (dict_update d l) <> None.
Proof.
  revert d. induction l as [|h l IH]; intros d Hd; [done|]. rewrite dict_update_cons. apply IH. rewrite dget_put. by destruct (String.eqb h.1 k).
Qed.

Lemma dget_update_in d l h : h ∈ l -> dget h.1 (dict_update d l) <> None.
Proof.
  intros (l1 & l2 & ->)%list_elem_of_split. rewrite dict_update_app, dict_update_cons. apply dget_update_kept.
  by rewrite dget_put, String.eqb_refl.
Qed.

Lemma dget_elem k d v : dget k d = Some v -> exists h, h ∈ d /\ h.1 = k.
Proof.
  unfold dget. intros H. destruct (List.find _ d) as [h|] eqn:E; [|done]. apply List.find_some in E as [Hin Heq]. exists h.
  split; [by apply list_elem_of_In|by apply String.eqb_eq].
Qed.

(** *** The route table *)

Section table.
Context (routes : list Route) (path : string).

Lemma resolve_from best : (forall b, best = Some b -> route_matches path b = true) ->
  match foldl (better_route path) best routes with
  | Some r => route_matches path r = true /\ (best = Some r \/ r ∈ routes) /\
              (forall b, best = Some b -> (String.length (ro_prefix b) <= String.length (ro_prefix r))%nat) /\
              forall r', r' ∈ routes -> route_matches path r' = true -> (String.length (ro_prefix r') <= String.length (ro_prefix r))%nat
  | None => best = None /\ forall r', r' ∈ routes -> route_matches path r' = false
  end.
Proof.
  revert best. induction routes as [|r0 l IH]; intros best Hb; cbn [foldl].
  - destruct best as [b|]; [|split; [done|intros r' ?%not_elem_of_nil; done]].
    split; [by apply Hb|]. split; [by left|]. split; [by intros ? [= ->]|]. intros r' ?%not_elem_of_nil. done.
  - unfold better_route at 2. destruct (route_matches path r0) eqn:Hm; cbn [andb].
    2:{ specialize (IH best Hb). destruct (foldl _ best l) as [r|].
        - destruct IH as (H1 & H2 & H3 & H4). split; [done|]. split; [destruct H2; [by left|right; by right]|]. split; [done|].
          intros r' [->|Hr]%elem_of_cons Hmr; [congruence|by apply H4].
        - destruct IH as [-> H]. split; [done|]. intros r' [->|Hr]%elem_of_cons; [done|by apply H]. }
    set (lt := match best with None => true | Some b => (String.length (ro_prefix b) <? String.length (ro_prefix r0))%nat end).
    destruct lt eqn:Elt.
    + specialize (IH (Some r0)). destruct (foldl _ (Some r0) l) as [r|]; [|destruct IH; [by intros ? [= <-]|done]].
      destruct IH as (H1 & H2 & H3 & H4); [by intros ? [= <-]|]. split; [done|].
      split; [right; destruct H2 as [[= ->]|]; [by left|by right]|]. specialize (H3 _ eq_refl). split.
      * intros b ->. unfold lt in Elt. apply Nat.ltb_lt in Elt. lia.
      * intros r' [->|Hr]%elem_of_cons Hmr; [done|by apply H4].
    + unfold lt in Elt. destruct best as [b|]; [|done]. apply Nat.ltb_ge in Elt. specialize (IH (Some b) Hb).
      destruct (foldl _ (Some b) l) as [r|]; [|by destruct IH]. destruct IH as (H1 & H2 & H3 & H4). specialize (H3 _ eq_refl) as H3'.
      split; [done|]. split; [destruct H2; [by left|right; by right]|]. split; [done|].
      intros r' [->|Hr]%elem_of_cons Hmr; [lia|by apply H4].
Qed.
End table.

(** Prefixes of the same text and length are the same. *)
Lemma startswith_same_length p q s : startswith p s = true -> startswith q s = true -> String.length p = String.length q -> p = q.
Proof.
  unfold startswith. revert q s. induction p as [|c p IH]; intros [|d q] [|e s]; cbn; try done.
  destruct (ascii_dec c e) as [->|]; [|done]. destruct (ascii_dec d e) as [->|]; [|done]. intros Hp Hq [= Hl]. by rewrite (IH q s).
Qed.

Lemma startswith_app_l p q s : startswith (append p q) s = true -> startswith p s = true.
Proof.
  unfold startswith. revert s. induction p as [|c p IH]; intros [|e s]; rewrite ?append_String; cbn [String.prefix]; [done..|].
  destruct (ascii_dec c e); [apply IH|done].
Qed.

Lemma startswith_refl s : startswith s s = true.
Proof. unfold startswith. induction s as [|c s IH]; [done|]. cbn. by destruct (ascii_dec c c). Qed.

Lemma route_matches_prefix path r : route_matches path r = true -> startswith (ro_prefix r) path = true.
Proof.
  unfold route_matches. intros [H|H]%orb_true_iff; [|by apply startswith_app_l in H].
  apply String.eqb_eq in H as ->. apply startswith_refl.
Qed.

Lemma route_prefixes_distinct r r' : r ∈ ROUTES -> r' ∈ ROUTES -> ro_prefix r = ro_prefix r' -> r = r'.
Proof.
  intros Hr Hr' He. apply list_elem_of_lookup in Hr as [i Hi]. apply list_elem_of_lookup in Hr' as [j Hj].
  assert (Hnd : NoDup (map ro_prefix ROUTES)) by (apply (bool_decide_eq_true_1 _); vm_compute; reflexivity).
  assert (i = j) as ->; [|congruence]. eapply NoDup_lookup; [exact Hnd| |]; rewrite list_lookup_fmap.
  - by rewrite Hi. - by rewrite Hj, He.
Qed.

(** the table answers a path with the one route whose prefix matches it and
    is longer than that of every other route that matches it, and with none
    exactly when no prefix matches; so no path under /internal is ever routed. *)
Theorem longest_prefix_wins path :
  match resolve_route path with
  | Some r => r ∈ ROUTES /\ route_matches path r = true /\
              forall r', r' ∈ ROUTES -> route_matches path r' = true -> r' <> r -> (String.length (ro_prefix r') < String.length (ro_prefix r))%nat
  | None => forall r, r ∈ ROUTES -> route_matches path r = false
  end /\ resolve_route (append "/internal" path) = None.
Proof.
  split; [|done || (by vm_compute)].
  pose proof (resolve_from ROUTES path None) as H. unfold resolve_route, resolve_in. destruct (foldl _ None ROUTES) as [r|].
  - destruct H as (Hm & [|Hr] & _ & Hmax); [done..|]. split; [done|]. split; [done|]. intros r' Hr' Hm' Hne.
    specialize (Hmax _ Hr' Hm'). destruct (decide (String.length (ro_prefix r') = String.length (ro_prefix r))) as [He|]; [|lia].
    destruct Hne. apply route_prefixes_distinct; [done..|].
    by apply (startswith_same_length _ _ path); [apply route_matches_prefix..|].
  - by destruct H.
Qed.

(** *** The handler *)

Section outcomes.
Context (settings : GatewaySettings) (answer : nat -> upstream_outcome).
Context (key_digest : string -> string) (hmac : string -> string -> string) (sha256 : string -> string).
Context (decode_body : header_list -> string -> string) (parse_query : string -> header_list).
Context (verify_token : Z -> Z -> string -> M JWKSCache Principal).
Let authenticate_caller' := authenticate_caller verify_token.
Let gateway' := gateway settings answer key_digest hmac sha256 decode_body parse_query verify_token.
Let key_of := cache_key_for key_digest.

(** The steps before the cache touch neither the cache nor the upstreams. *)
Definition edge_same (w w' : GatewayWorld) : Prop := gw_banned w' = gw_banned w /\ gw_cache w' = gw_cache w /\ gw_calls w' = gw_calls w.

Lemma authenticate_same rq m w r w' : authenticate_caller' rq m w = (r, w') -> edge_same w w'.
Proof.
  unfold authenticate_caller', authenticate_caller. destruct (negb _); [by intros [= _ <-]|]. destruct (String.eqb _ ""); [by intros [= _ <-]|].
  unfold lift. intros [(p & w1 & H1 & H)|(e & H1 & ->)]%bind_inv; [injection H as _ <-|]; destruct (verify_token _ _ _ _) as [x j]; by injection H1 as _ <-.
Qed.

Lemma not_banned_inv m p w r w' : assert_not_banned settings m p w = (r, w') -> w' = w /\
  (r = Ok tt -> denylist_enabled settings = true -> mo_redis m = true -> denylist_key (user_id p) ∉ gw_banned w).
Proof.
  unfold assert_not_banned. destruct (denylist_enabled settings && mo_redis m) eqn:E; cbn [negb].
  2:{ intros [= <- <-]. split; [done|]. intros _ Hd Hr. by rewrite Hd, Hr in E. }
  erewrite bind_ok by reflexivity. cbv beta. intros [-> Hr]%raise_when_cases. split; [done|]. intros -> _ _. by case_bool_decide.
Qed.

Lemma limit_rate_same rq m r principal w x w' : limit_rate settings rq m r principal w = (x, w') -> edge_same w w'.
Proof.
  unfold limit_rate. destruct (negb _); [by intros [= _ <-]|]. erewrite bind_ok by reflexivity. cbv beta zeta. destruct (enforce _ _ _ _ _ _) as [v b'].
  erewrite bind_ok by reflexivity. cbv beta. intros H.
  assert (w' = match b' with Some b' => set_buckets (<[bucket_key (policy_for r principal) (identifier rq principal) := b']> (gw_buckets w)) w | None => w end) as ->.
  { apply bind_inv in H as [(y & w1 & [_ ->]%of_result_inv & H)|(e & [_ ->]%of_result_inv & _)]; [by injection H as _ <-|done]. }
  by destruct b'.
Qed.

Definition may_name (hs : header_list) : Prop := Forall (fun h => lower h.1 ∉ NEVER_CACHE_HEADERS) hs.
Lemma limit_rate_names rq m r principal w hs w' : limit_rate settings rq m r principal w = (Ok hs, w') -> may_name hs.
Proof.
  unfold limit_rate. destruct (negb _); [intros [= <- _]; constructor|]. erewrite bind_ok by reflexivity. cbv beta zeta.
  destruct (enforce _ _ _ _ _ _) as [v b']. erewrite bind_ok by reflexivity. cbv beta.
  intros (x & w1 & _ & [= <- _])%bind_ok_inv. unfold may_name, rate_limit_headers.
  repeat constructor; apply (bool_decide_eq_true_1 _); vm_compute; reflexivity.
Qed.

(** What lets a request pass the edge. *)
Definition admitted_as (rq : Request) (m : Moment) (w : GatewayWorld) (r : Route) (p : option Principal) : Prop :=
  resolve_route (gq_path rq) = Some r /\ (authenticate_caller' rq m w).1 = Ok p /\ (ro_require_auth r = true -> p <> None) /\
  forall q, p = Some q -> denylist_enabled settings = true -> mo_redis m = true -> denylist_key (user_id q) ∉ gw_banned w.

Lemma gateway_edge rq m w x w' : gateway' rq m w = (x, w') ->
  (exists e, x = Raise e /\ edge_same w w') \/
  exists r p rate_headers w1, admitted_as rq m w r p /\ edge_same w w1 /\ may_name rate_headers /\
    (hit ← (match key_of rq r p with Some key => cache_get settings m key | None => mret None end);
     match hit with
     | Some hit => mret (from_hit hit rate_headers (gq_request_id rq))
     | None => proxied settings answer hmac sha256 decode_body parse_query rq m r p rate_headers (key_of rq r p)
     end) w1 = (x, w').
Proof.
  unfold gateway', gateway. intros H.
  apply bind_inv in H as [(r & w1 & [Hr ->]%of_result_inv & H)|(e & [_ ->]%of_result_inv & ->)]; [|left; by exists e].
  apply bind_inv in H as [(p & w1 & H1 & H)|(e & H1 & ->)].
  2:{ left. exists e. split; [done|]. by apply authenticate_same in H1. }
  pose proof (authenticate_same _ _ _ _ _ H1) as (Hb & Hc & Hn).
  apply bind_inv in H as [(u & w2 & [-> Hu]%raise_when_cases & H)|(e & [-> _]%raise_when_cases & ->)]; [|left; by exists e].
  apply bind_inv in H as [(v & w2 & H2 & H)|(e & H2 & ->)].
  2:{ left. exists e. split; [done|]. destruct p as [q|]; [|done]. by apply not_banned_inv in H2 as [-> _]. }
  assert (w2 = w1) as -> by (destruct p as [q|]; [by apply not_banned_inv in H2 as [-> _]|by injection H2 as _ <-]).
  apply bind_inv in H as [(hs & w3 & H3 & H)|(e & H3 & ->)].
  2:{ left. exists e. split; [done|]. apply limit_rate_same in H3 as (? & ? & ?). by repeat split; etrans. }
  right. exists r, p, hs, w3. split; [|split; [|split; [by eapply limit_rate_names|exact H]]].
  - split; [by destruct (resolve_route _); [injection Hr as ->|]|]. unfold authenticate_caller' in *. rewrite H1. split; [done|]. split.
    + intros Hauth ->. by rewrite Hauth in Hu.
    + intros q ->. apply not_banned_inv in H2 as [_ H2]. rewrite <- Hb. destruct v. by apply H2.
  - apply limit_rate_same in H3 as (? & ? & ?). by repeat split; etrans.
Qed.

Definition internal_headers_of (rq : Request) (m : Moment) : header_list :=
  let body := default "" (if bool_decide (gq_method rq ∈ ["GET"; "HEAD"]) then None else Some (gq_body rq)) in
  let s := sign_internal_request hmac (internal_api_secret settings) (gq_method rq) (gq_path rq) (hash_body sha256 body) None (mo_now m) in
  [("X-Internal-Timestamp", s.1); ("X-Internal-Signature", s.2); ("X-Internal-Service", service_name settings)].
Definition sent_for (rq : Request) (m : Moment) (r : Route) (p : option Principal) : UpstreamRequest :=
  mkUpstream (ro_upstream r) (gq_method rq) (gq_path rq) (dict_update [] (parse_query (gq_query rq)))
    (build_forward_headers rq p (internal_headers_of rq m))
    (if bool_decide (gq_method rq ∈ ["GET"; "HEAD"]) then None else Some (gq_body rq)) (ro_timeout r).

(** A cached answer that a request leaves behind. *)
Definition leaves (rq : Request) (m : Moment) (r : Route) (n : nat) (key : string) (v : option CachedResponse * datetime) : Prop :=
  exists st hs raw, answer n = Answered st hs raw /\ st ∈ CACHEABLE_STATUS /\ (forall h, h ∈ hs -> lower h.1 ∉ NEVER_CACHE_HEADERS) /\
    0 < ro_cache_ttl r /\ v.2 = mo_now m + ro_cache_ttl r * SECOND /\
    exists c, v.1 = Some c /\ cr_status c = st /\ cr_body c = decode_body hs raw.

Lemma forward_cases rq r p ih body w x w' : forward settings answer decode_body parse_query rq r p ih body w = (x, w') ->
  edge_same w w' /\ is_ok x = false \/
  gw_banned w' = gw_banned w /\ gw_cache w' = gw_cache w /\
  gw_calls w' = gw_calls w ++ [mkUpstream (ro_upstream r) (gq_method rq) (gq_path rq) (dict_update [] (parse_query (gq_query rq)))
                                 (build_forward_headers rq p ih) body (ro_timeout r)] /\
  forall px, x = Ok px -> exists st hs raw, answer (length (gw_calls w)) = Answered st hs raw /\ px_status px = st /\
    px_headers px = build_response_headers hs (gq_request_id rq) /\ forall c, px_cacheable px = Some c -> c = decode_body hs raw.
Proof.
  unfold forward. intros [(u & w1 & [-> _]%raise_when_cases & H)|(e & [-> _]%raise_when_cases & ->)]%bind_inv; [right|by left].
  do 2 (erewrite bind_ok in H by reflexivity; cbv beta in H).
  destruct (answer (length (gw_calls w))) as [st hs raw| |]; [|injection H as <- <-; done..].
  destruct (ro_stream r); injection H as <- <-; repeat split; intros px [= <-]; eexists _, _, _; do 3 (split; [reflexivity|]); [done|].
  cbn. intros c Hc. destruct (_ <=? _); [by injection Hc|done].
Qed.

Lemma set_response_header_keeps h hs key value : h ∈ hs -> h.1 <> lower key -> h ∈ set_response_header hs key value.
Proof.
  intros Hin Hne. unfold set_response_header. apply elem_of_app. left. apply list_elem_of_In, filter_In. split; [by apply list_elem_of_In|].
  by rewrite (proj2 (String.eqb_neq _ _)).
Qed.

Lemma never_cached_plain k : k ∈ NEVER_CACHE_HEADERS -> lower k = k /\ k ∉ DROP_FROM_RESPONSE /\ k <> "x-cache".
Proof.
  unfold NEVER_CACHE_HEADERS. rewrite !elem_of_cons. intros [-> |[-> |[]%not_elem_of_nil]];
    (split; [done|split; [apply (bool_decide_eq_true_1 _); vm_compute; reflexivity|done]]).
Qed.

(** No answer with one of these headers is stored. *)
Lemma storable_free hs request_id rate_headers tag st body ttl : may_name rate_headers ->
  storable settings st (dict_update [] (set_response_header
    (foldl (fun hs h => set_response_header hs h.1 h.2) (build_response_headers hs request_id) rate_headers) "x-cache" tag)) body ttl = true ->
  forall h, h ∈ hs -> lower h.1 ∉ NEVER_CACHE_HEADERS.
Proof.
  intros Hrate Hst h Hin Hk. destruct (never_cached_plain _ Hk) as (Hlow & Hdrop & Hx).
  assert (Hb : (lower h.1, h.2) ∈ build_response_headers hs request_id).
  { unfold build_response_headers. apply elem_of_app. left. apply list_elem_of_In, filter_In. split.
    - apply in_map_iff. exists h. split; [done|by apply list_elem_of_In].
    - cbn. by rewrite bool_decide_eq_false_2. }
  revert Hb Hst. generalize (build_response_headers hs request_id) as l. intros l Hb Hst.
  assert (Hf : (lower h.1, h.2) ∈ foldl (fun hs h => set_response_header hs h.1 h.2) l rate_headers).
  { clear Hst. revert l Hb. induction Hrate as [|h0 l0 Hh0 _ IH]; intros l Hb; [done|]. cbn. apply IH, set_response_header_keeps; [done|]. cbn. intros He. by rewrite <- He in Hh0. }
  apply (set_response_header_keeps _ _ "x-cache" tag) in Hf; [|done].
  apply (dget_update_in []) in Hf. cbn [fst] in Hf. destruct (dget (lower h.1) _) as [v|] eqn:E; [|done]. apply dget_elem in E as (h' & Hin' & Heq).
  unfold storable in Hst. rewrite !andb_true_iff, negb_true_iff in Hst. destruct Hst as [[_ Hex] _].
  apply not_true_iff_false in Hex. apply Hex, existsb_exists. exists h'. split; [by apply list_elem_of_In|].
  rewrite Heq, Hlow. by apply bool_decide_eq_true_2.
Qed.

Lemma cache_store_cases m key st hs body ttl w x w' : cache_store settings m key st hs body ttl w = (x, w') ->
  gw_calls w' = gw_calls w /\ gw_banned w' = gw_banned w /\
  (gw_cache w' = gw_cache w \/
   storable settings st hs body ttl = true /\
   gw_cache w' = <[key := (Some (mkCached st (stored_headers hs) body), mo_now m + ttl * SECOND)]> (gw_cache w)).
Proof.
  unfold cache_store. destruct (storable settings st hs body ttl && mo_redis m) eqn:E; cbn [negb]; intros [= _ <-]; [|by auto].
  apply andb_true_iff in E as [E _]. split; [done|]. split; [done|]. by right.
Qed.

Lemma storable_status st hs body ttl : storable settings st hs body ttl = true -> st ∈ CACHEABLE_STATUS /\ 0 < ttl.
Proof.
  unfold storable. rewrite !andb_true_iff. intros [[[[[_ Ht] Hs] _] _] _]. split; [by apply bool_decide_eq_true_1 in Hs|by apply Z.ltb_lt].
Qed.

(** What the proxy does: one call, and perhaps an entry of the cache. *)
Lemma proxied_cases rq m r p rate_headers key w x w' : may_name rate_headers ->
  proxied settings answer hmac sha256 decode_body parse_query rq m r p rate_headers key w = (x, w') ->
  gw_banned w' = gw_banned w /\
  (gw_calls w' = gw_calls w /\ is_ok x = false /\ gw_cache w' = gw_cache w \/
   gw_calls w' = gw_calls w ++ [sent_for rq m r p] /\
   (gw_cache w' = gw_cache w \/ exists k v, key = Some k /\ gw_cache w' = <[k := v]> (gw_cache w) /\ leaves rq m r (length (gw_calls w)) k v)).
Proof.
  intros Hrate. unfold proxied. intros H. destruct (sign_internal_request _ _ _ _ _ _ _) as [ts sg] eqn:Esig.
  assert (Eih : [("X-Internal-Timestamp", ts); ("X-Internal-Signature", sg); ("X-Internal-Service", service_name settings)] = internal_headers_of rq m).
  { unfold internal_headers_of. cbv zeta. by rewrite Esig. }
  rewrite Eih in H. apply bind_inv in H as [(px & w1 & H1 & H)|(e & H1 & ->)].
  2:{ apply forward_cases in H1 as [[(? & ? & ?) _]|(? & ? & Hc & _)]; (split; [done|]); [by left|right; split; [exact Hc|by left]]. }
  apply forward_cases in H1 as [[_ ?]|(Hban & Hcache & Hcalls & Hpx)]; [done|]. destruct (Hpx _ eq_refl) as (st & hs & raw & Ha & Hs & Hh & Hcb).
  cbv zeta in H. apply bind_inv in H as [(u & w2 & H2 & H)|(e & H2 & ->)].
  2:{ exfalso. destruct key, (px_cacheable px); try done. unfold cache_store in H2. by destruct (negb _). }
  injection H as _ <-. rewrite Hh in H2.
  destruct key as [k|]; [|injection H2 as _ <-; split; [done|]; right; split; [exact Hcalls|by left]].
  destruct (px_cacheable px) as [c|]; [|injection H2 as _ <-; split; [done|]; right; split; [exact Hcalls|by left]].
  apply cache_store_cases in H2 as (Hc2 & Hb2 & H2). rewrite Hc2, Hb2. split; [done|]. right. split; [exact Hcalls|].
  destruct H2 as [->|[Hst ->]]; [by left|]. right. exists k. eexists. split; [done|]. rewrite Hcache. split; [done|].
  exists st, hs, raw. pose proof (storable_free _ _ _ _ _ _ _ Hrate Hst) as Hfree. apply storable_status in Hst as [Hst Httl].
  rewrite <- Hs. split; [by rewrite Ha, Hs|]. do 4 (split; [done|]). eexists. split; [done|]. split; [done|]. by apply Hcb.
Qed.

Lemma cache_get_cases m k w x w' : cache_get settings m k w = (x, w') ->
  gw_calls w' = gw_calls w /\ gw_banned w' = gw_banned w /\ (gw_cache w' = gw_cache w \/ gw_cache w' = delete k (gw_cache w)) /\
  exists o, x = Ok o /\ forall c, o = Some c -> exists e, gw_cache w !! k = Some (Some c, e) /\ mo_now m < e.
Proof.
  unfold cache_get. destruct (negb _); [intros [= <- <-]; repeat split; [by left|by exists None]|].
  destruct (gw_cache w !! k) as [[[c|] e]|] eqn:E; [| |intros [= <- <-]; repeat split; [by left|by exists None]];
    destruct (Z.leb_spec e (mo_now m)); intros [= <- <-]; repeat split;
    try (by left); try (by right); try (by exists None).
  exists (Some c). split; [done|]. intros ? [= <-]. by exists e.
Qed.

Lemma gateway_outcome rq m w x w' : gateway' rq m w = (x, w') ->
  (gw_calls w' = gw_calls w /\ (forall k v, gw_cache w' !! k = Some v -> gw_cache w !! k = Some v) /\
   forall resp, x = Ok resp -> exists r p k c e, admitted_as rq m w r p /\ key_of rq r p = Some k /\
     gw_cache w !! k = Some (Some c, e) /\ mo_now m < e /\ rs_status resp = cr_status c /\ rs_body resp = cr_body c) \/
  exists r p, admitted_as rq m w r p /\ gw_calls w' = gw_calls w ++ [sent_for rq m r p] /\
    forall k v, gw_cache w' !! k = Some v -> gw_cache w !! k = Some v \/ key_of rq r p = Some k /\ leaves rq m r (length (gw_calls w)) k v.
Proof.
  intros [(e & -> & Hb & Hc & Hn)|(r & p & hs & w1 & Hadm & (Hb & Hc & Hn) & Hnames & H)]%gateway_edge.
  { left. split; [done|]. split; [by rewrite Hc|done]. }
  apply bind_inv in H as [(hit & w2 & H1 & H)|(e & H1 & ->)].
  2:{ destruct (key_of rq r p); [|done]. apply cache_get_cases in H1 as (_ & _ & _ & o & ? & _). done. }
  assert (H2 : gw_calls w2 = gw_calls w1 /\ (forall k v, gw_cache w2 !! k = Some v -> gw_cache w1 !! k = Some v) /\
    forall c, hit = Some c -> exists k e, key_of rq r p = Some k /\ gw_cache w1 !! k = Some (Some c, e) /\ mo_now m < e).
  { destruct (key_of rq r p) as [k|]; [|by injection H1 as <- <-]. apply cache_get_cases in H1 as (Hn1 & _ & Hc1 & o & [= ->] & Ho).
    split; [done|]. split.
    - intros k' v. destruct Hc1 as [->| ->]; [done|]. rewrite lookup_delete_Some. by intros [_ ?].
    - intros c Hcs. destruct (Ho c Hcs) as (e & ? & ?). by exists k, e. }
  destruct H2 as (Hn2 & Hc2 & Hhit). rewrite Hc in Hhit, Hc2. destruct hit as [c|].
  - injection H as <- <-. left. split; [congruence|]. split; [done|]. intros resp [= <-].
    destruct (Hhit c eq_refl) as (k & e & Hk & Hl & He). by exists r, p, k, c, e.
  - apply proxied_cases in H as [_ [(Hn3 & Hno & Hc3)|[Hn3 Hc3]]]; [| |done].
    + left. split; [congruence|]. rewrite Hc3. split; [done|]. by intros resp ->.
    + right. exists r, p. split; [done|]. split; [by rewrite Hn3, Hn2, Hn|]. intros k v Hk.
      destruct Hc3 as [Hc3|(k' & v' & Hk' & Hc3 & Hl)]; rewrite Hc3 in Hk; [left; by apply Hc2|].
      apply lookup_insert_Some in Hk as [[<- <-]|[_ Hk]]; [right|left; by apply Hc2]. split; [done|]. by rewrite <- Hn, <- Hn2.
Qed.

Lemma lowered_absent k d ih : (forall x, x ∈ ih -> lower x.1 <> k) -> dget k (dict_update d (lowered ih)) = dget k d.
Proof.
  intros Hih. apply dget_update. intros x Hx%list_elem_of_In. unfold lowered in Hx. apply in_map_iff in Hx as (y & <- & Hy).
  apply Hih. by apply list_elem_of_In.
Qed.

Lemma kept_absent k hs : k ∈ DROP_FROM_REQUEST \/ k ∈ UPSTREAM_MUST_NOT_SET -> dget k (dict_update [] (lowered (kept_headers hs))) = None.
Proof.
  intros Hk. rewrite lowered_absent; [done|]. intros x Hx%list_elem_of_In He. unfold kept_headers in Hx.
  apply filter_In in Hx as [_ [H1 H2]%andb_true_iff]. rewrite He in H1, H2. apply negb_true_iff, bool_decide_eq_false_1 in H1, H2. by destruct Hk.
Qed.

Lemma forwarded_hop h rq p ih : h ∈ HOP_BY_HOP -> (forall x, x ∈ ih -> lower x.1 <> h) -> dget h (build_forward_headers rq p ih) = None.
Proof.
  intros Hh Hih. unfold build_forward_headers. rewrite lowered_absent by done.
  assert (Hne : forall k, k ∉ HOP_BY_HOP -> String.eqb k h = false) by (intros k Hk; apply String.eqb_neq; by intros ->).
  destruct p as [q|]; rewrite !dget_put; repeat (rewrite Hne by (apply (bool_decide_eq_true_1 _); vm_compute; reflexivity));
    apply kept_absent; left; unfold DROP_FROM_REQUEST; apply elem_of_app; by left.
Qed.

Lemma forwarded_identity k rq p ih : k ∈ UPSTREAM_MUST_NOT_SET -> (forall x, x ∈ ih -> lower x.1 <> k) ->
  dget k (build_forward_headers rq p ih) =
    q ← p; Some (if String.eqb k "x-authenticated-user" then user_id q else String.concat "," (roles q)).
Proof.
  intros Hk Hih. unfold build_forward_headers. rewrite lowered_absent by done. pose proof (kept_absent k (gq_headers rq) (or_intror Hk)) as Hn.
  unfold UPSTREAM_MUST_NOT_SET in Hk. rewrite !elem_of_cons in Hk.
  destruct Hk as [-> |[-> |[]%not_elem_of_nil]]; destruct p as [q|]; rewrite !dget_put; cbn -[dict_update kept_headers]; done.
Qed.

Lemma internal_header rq p ih k v : NoDup (map (fun h => lower h.1) ih) -> (k, v) ∈ ih -> dget (lower k) (build_forward_headers rq p ih) = Some v.
Proof.
  intros Hnd (l1 & l2 & ->)%list_elem_of_split. unfold build_forward_headers, lowered. rewrite map_app, dict_update_app. cbn [map fst snd].
  rewrite dict_update_cons, dget_update; [by rewrite dget_put, String.eqb_refl|].
  rewrite map_app in Hnd. apply NoDup_app in Hnd as (_ & _ & Hnd). cbn in Hnd. apply NoDup_cons in Hnd as [Hnin _].
  intros x Hx He. apply Hnin. rewrite <- He. apply list_elem_of_In in Hx. apply in_map_iff in Hx as (y & <- & Hy).
  cbn. apply list_elem_of_In, in_map_iff. by exists y.
Qed.


(** *** Who sees whose answers *)

(** What a request looks up in the cache, in the order of a run. *)
Definition looked_up (s : gateway_step) (w : GatewayWorld) : list string :=
  match s with
  | Requested rq m =>
      match resolve_route (gq_path rq), (authenticate_caller' rq m w).1 with
      | Some r, Ok p => match cache_scope rq r p with Some scope => [material_of rq scope] | None => [] end
      | _, _ => []
      end
  | _ => []
  end.
Let run := run_gateway settings answer key_digest hmac sha256 decode_body parse_query verify_token.
Let next := gateway_next settings answer key_digest hmac sha256 decode_body parse_query verify_token.
Fixpoint materials (l : list gateway_step) (w : GatewayWorld) : list string :=
  match l with [] => [] | s :: l => looked_up s w ++ materials l (next w s) end.

(** The parts of a look-up are separated by line ends, which no part but the last has. *)
Definition one_line (rq : Request) : Prop :=
  let nl := ascii_of_N 10 in no_char nl (gq_method rq) = true /\ no_char nl (gq_path rq) = true /\ no_char nl (gq_query rq) = true.
Definition step_one_line (s : gateway_step) : Prop := match s with Requested rq _ => one_line rq | _ => True end.

Lemma materials_app l l' w : materials (l ++ l') w = materials l w ++ materials l' (run l w).
Proof. revert w. induction l as [|s l IH]; intros w; [done|]. cbn. rewrite IH. by rewrite app_assoc. Qed.

Lemma run_nil w : run [] w = w.
Proof. done. Qed.

Lemma run_app l l' w : run (l ++ l') w = run l' (run l w).
Proof. unfold run, run_gateway. by rewrite foldl_app. Qed.

(** Where an entry of the cache comes from. *)
Definition stored_by (l : list gateway_step) (w0 : GatewayWorld) (key : string) (v : option CachedResponse * datetime) : Prop :=
  exists l1 rq m l2 r p, l = l1 ++ Requested rq m :: l2 /\ admitted_as rq m (run l1 w0) r p /\ key_of rq r p = Some key /\
    leaves rq m r (length (gw_calls (run l1 w0))) key v /\
    forall e, Announced e true ∈ l2 -> e ∉ invalidation_events.

Lemma key_of_prefix rq r p key : key_of rq r p = Some key -> startswith (append CACHE_PREFIX ":") key = true.
Proof.
  unfold key_of, cache_key_for. destruct (cache_scope rq r p) as [scope|]; [|done]. cbn. intros [= <-]. unfold response_key.
  rewrite <- append_assoc. eapply startswith_app_l, startswith_refl.
Qed.

Lemma invalidate_all_keeps redis w key v : gw_cache (invalidate_all redis w) !! key = Some v ->
  gw_cache w !! key = Some v /\ (redis = true -> startswith (append CACHE_PREFIX ":") key = false).
Proof.
  unfold invalidate_all. destruct redis; [|done]. unfold set_cache. cbn [gw_cache]. intros [Hk Hp]%map_lookup_filter_Some. by split.
Qed.

Lemma next_cache s w key v : gw_cache (next w s) !! key = Some v ->
  gw_cache w !! key = Some v /\ (forall e, s = Announced e true -> e ∈ invalidation_events -> startswith (append CACHE_PREFIX ":") key = false) \/
  exists rq m r p, s = Requested rq m /\ admitted_as rq m w r p /\ key_of rq r p = Some key /\ leaves rq m r (length (gw_calls w)) key v.
Proof.
  unfold next, gateway_next. destruct s as [rq m|e redis|banned].
  - destruct (gateway _ _ _ _ _ _ _ _ rq m w) as [x w'] eqn:E. cbn [snd]. intros Hk.
    apply gateway_outcome in E as [(_ & Hc & _)|(r & p & Hadm & _ & Hc)]; [left; split; [by apply Hc|done]|].
    apply Hc in Hk as [Hk|[Hkey Hl]]; [by left|]. right. by exists rq, m, r, p.
  - case_bool_decide as He; intros Hk; left.
    + apply invalidate_all_keeps in Hk as [Hk Hp]. split; [done|]. intros e' [= <- ->] _. by apply Hp.
    + split; [done|]. by intros e' [= <- ->].
  - intros Hk. left. by split.
Qed.

Lemma cache_provenance l w0 : gw_cache w0 = ∅ -> forall key v, gw_cache (run l w0) !! key = Some v -> stored_by l w0 key v.
Proof.
  intros H0. induction l as [|s l IH] using rev_ind; intros key v Hk; [by rewrite run_nil, H0 in Hk|].
  rewrite run_app in Hk. apply (next_cache s (run l w0)) in Hk as [[Hk Hs]|(rq & m & r & p & -> & Hadm & Hkey & Hl)].
  - destruct (IH _ _ Hk) as (l1 & rq & m & l2 & r & p & -> & Ha & Hkey & Hl & Hno). exists l1, rq, m, (l2 ++ [s]), r, p.
    rewrite <- app_assoc. do 4 (split; [done|]). intros e [He|He%list_elem_of_singleton]%elem_of_app; [by apply Hno|].
    intros Hin. symmetry in He. apply key_of_prefix in Hkey. by rewrite (Hs e He Hin) in Hkey.
  - exists l, rq, m, [], r, p. do 4 (split; [done|]). by intros e ?%not_elem_of_nil.
Qed.

Lemma material_inj rq rq' scope scope' : one_line rq -> one_line rq' -> material_of rq scope = material_of rq' scope' ->
  gq_method rq = gq_method rq' /\ gq_path rq = gq_path rq' /\ gq_query rq = gq_query rq' /\ scope = scope'.
Proof.
  intros (H1 & H2 & H3) (H1' & H2' & H3'). unfold material_of, cache_material, newline.
  rewrite !append_String, !append_nil. intros (? & H)%append_first_inj; [|done..].
  apply append_first_inj in H as [? H]; [|done..]. apply append_first_inj in H as [? H]; [|done..]. done.
Qed.

Lemma looked_up_in l w0 l1 rq m l2 r p scope : l = l1 ++ Requested rq m :: l2 -> admitted_as rq m (run l1 w0) r p ->
  cache_scope rq r p = Some scope -> material_of rq scope ∈ materials l w0.
Proof.
  intros -> (Hr & Hp & _) Hs. rewrite materials_app. apply elem_of_app. right. cbn [materials]. apply elem_of_app. left.
  unfold looked_up. rewrite Hr, Hp, Hs. by left.
Qed.

Lemma same_scope rq rq1 r p p1 sc sc1 : cache_scope rq r p = Some sc -> cache_scope rq1 r p1 = Some sc1 -> sc1 = sc ->
  (user_id <$> p) = (user_id <$> p1) /\ (p <> None -> ro_vary_on_user r = true).
Proof.
  unfold cache_scope. destruct (_ && _); [|done]. destruct (_ && _); [|done]. unfold auth_scope.
  destruct p as [q|], p1 as [q1|]; [| | |done]; destruct (ro_vary_on_user r); intros [= <-] [= <-]; try done.
  intros H. cbn. split; [|done]. rewrite !append_String, !append_nil in H. injection H as H. by rewrite H.
Qed.

End outcomes.

(** ** Concrete runs *)

Definition demo_gateway : GatewaySettings :=
  mkGatewaySettings true true true 1000 (fun name => Some (append "http://" name)) "k" "gateway".
Definition demo_marked (secret payload : string) : string := append "s" (append secret payload).
Definition demo_decode (hs : header_list) (raw : string) : string :=
  match header "content-encoding" hs with Some "gzip" => append "unzipped " raw | _ => raw end.
Definition demo_params (query : string) : header_list := map (partition_char "=") (split_char "&" query).
Definition demo_verify (now later : Z) (token : string) : M JWKSCache Principal :=
  if String.eqb token "expired" then raise (app_error UnauthorizedError "token_expired")
  else mret (mkPrincipal token None ["reader"] [] None None false).
Definition demo_answer (n : nat) : upstream_outcome := Answered 200 [("Content-Type", "application/json"); ("Content-Encoding", "gzip")] "bytes".
Definition demo_edge := gateway demo_gateway demo_answer (fun s => s) demo_marked (fun s => s) demo_decode demo_params demo_verify.
Definition demo_run := run_gateway demo_gateway demo_answer (fun s => s) demo_marked (fun s => s) demo_decode demo_params demo_verify.
Definition quiet_gateway : GatewayWorld := mkGateway (mkJWKS ∅ 0 0) {["kos:denylist:user:mallory"]} ∅ ∅ [].
Definition at_second (n : Z) : Moment := mkMoment (n * SECOND) n n true (py_str_int n).
Definition get_page (path query : string) (hs : header_list) : Request := mkGatewayRequest "GET" "https" path query hs (Some "10.0.0.9") "" "rid".
Definition anonymous_page : Request := get_page "/v1/books/dune" "" [("accept", "text/html")].
Definition bearer (token : string) : header_list := [("authorization", append "Bearer " token)].

(** The second of two anonymous readers of a page is answered from the cache. *)
Definition one_visit : list gateway_step := [Requested anonymous_page (at_second 100)].
Definition second_visit := demo_edge anonymous_page (at_second 160) (demo_run one_visit quiet_gateway).
Definition second_answer : HttpResponse := match second_visit.1 with Ok r => r | Raise _ => mkResponse 0 [] "" end.


(** A reader asks for her library, claiming to be somebody else. *)
Definition impostor_page : Request :=
  get_page "/v1/library" "" (bearer "alice" ++ [("x-authenticated-user", "root"); ("connection", "x-authenticated-user")]).
Definition impostor_call := demo_edge impostor_page (at_second 100) quiet_gateway.

Example banned_user_is_stopped :
  demo_edge (get_page "/v1/books" "" (bearer "mallory")) (at_second 100) quiet_gateway =
  (Raise (app_error UnauthorizedError "account_banned"), quiet_gateway).
Proof. vm_compute. reflexivity. Qed.

(** A token that has expired closes public pages too, and the refresh of the token itself. *)
Example expired_token_closes_public_routes :
  map (fun path => (demo_edge (get_page path "" (bearer "expired")) (at_second 100) quiet_gateway).1) ["/v1/books"; "/v1/auth/refresh"] =
  [Raise (app_error UnauthorizedError "token_expired"); Raise (app_error UnauthorizedError "token_expired")].
Proof. vm_compute. reflexivity. Qed.

(** Only the last of the values a parameter is given reaches the upstream. *)
Example repeated_parameter_is_lost :
  map ur_params (gw_calls (demo_edge (get_page "/v1/search" "q=dune&filters=tags:a&filters=tags:b" []) (at_second 100) quiet_gateway).2) =
  [[("q", "dune"); ("filters", "tags:b")]].
Proof. vm_compute. reflexivity. Qed.

(** The address a caller writes is the one that is counted: every request can have a fresh limit. *)
Example caller_names_its_bucket :
  map (fun address => identifier (get_page "/v1/auth/login" "" [("x-forwarded-for", append address ", 203.0.113.7")]) None) ["1.1.1.1"; "2.2.2.2"] =
  ["ip:1.1.1.1"; "ip:2.2.2.2"].
Proof. vm_compute. reflexivity. Qed.

(** The streamed body is relayed as it came, compressed, without the header that says so. *)
Example streamed_body_stays_compressed :
  match (demo_edge (get_page "/v1/ai/usage" "" (bearer "alice")) (at_second 100) quiet_gateway).1 with
  | Ok r => (dget "content-encoding" (rs_headers r), rs_body r)
  | Raise _ => (None, "")
  end = (None, "bytes").
Proof. vm_compute. reflexivity. Qed.

(** Routes the services have and the table does not, or sends elsewhere. *)
Example unrouted_paths :
  map resolve_route ["/v1/publishers"; "/v1/collections"] = [None; None] /\
  ro_upstream <$> resolve_route "/v1/admin/entitlements" = Some "admin" /\
  (ro_prefix <$> resolve_route "/v1/books/dune/download") = Some "/v1/books".
Proof. vm_compute. done. Qed.
