(* ===== verification/Workers.v ===== *)
(** * The scheduler (apps/workers/schedule.py, services/runner.py,
    services/history.py, tasks.py, routers/admin.py)

    The table of sweeps, one run of a sweep under its lock, the history of runs
    and what the health page says.  Times are microseconds; [net token service n]
    is what the [n]-th attempt of a service's client meets in the process that
    serves [token].  Celery's beat decides when a run starts and is no part of
    the model. *)

From S2P Require Import Prelude Store Json Security Http.

(** ** The schedule (schedule.py, schemas.py, models.py) *)

Module RunOutcome.
Inductive t := SUCCEEDED | FAILED | SKIPPED_LOCKED | DISABLED | TIMED_OUT.
End RunOutcome.
#[export] Instance RunOutcome_eq_dec : EqDecision RunOutcome.t.
Proof. solve_decision. Defined.
#[export] Program Instance RunOutcome_values : StrEnum RunOutcome.t := {
  members := [RunOutcome.SUCCEEDED; RunOutcome.FAILED; RunOutcome.SKIPPED_LOCKED; RunOutcome.DISABLED; RunOutcome.TIMED_OUT];
  enum_value o := match o with
                  | RunOutcome.SUCCEEDED => "succeeded" | RunOutcome.FAILED => "failed" | RunOutcome.SKIPPED_LOCKED => "skipped_locked"
                  | RunOutcome.DISABLED => "disabled" | RunOutcome.TIMED_OUT => "timed_out" end;
}.
Solve All Obligations with solve_str_enum.

(** Timeouts and locks are in seconds; descriptions are left out. *)
Record ScheduledJob := mkScheduledJob {
  sj_name : string;
  sj_service : string;
  sj_path : string;
  sj_minute : string;
  sj_hour : string;
  sj_day_of_week : string;
  sj_method : string;
  sj_params : list (string * Z);
  sj_body : option json;
  sj_timeout : Z;
  sj_lock_ttl : Z;
  sj_critical : bool;
  sj_enabled : bool;
}.
Definition post_job (name service path minute hour : string) (timeout lock_ttl : Z) : ScheduledJob :=
  mkScheduledJob name service path minute hour "*" "POST" [] None timeout lock_ttl false true.
Definition critical_job (j : ScheduledJob) : ScheduledJob :=
  mkScheduledJob (sj_name j) (sj_service j) (sj_path j) (sj_minute j) (sj_hour j) (sj_day_of_week j) (sj_method j) (sj_params j) (sj_body j)
    (sj_timeout j) (sj_lock_ttl j) true (sj_enabled j).
Definition with_payload (params : list (string * Z)) (body : option json) (j : ScheduledJob) : ScheduledJob :=
  mkScheduledJob (sj_name j) (sj_service j) (sj_path j) (sj_minute j) (sj_hour j) (sj_day_of_week j) (sj_method j) params body
    (sj_timeout j) (sj_lock_ttl j) (sj_critical j) (sj_enabled j).

Definition SCHEDULE : list ScheduledJob := [
  critical_job (post_job "payment.expire-orders" "payment" "/internal/maintenance/expire-orders" "*/5" "*" 30 120);
  post_job "payment.expire-subscriptions" "payment" "/internal/maintenance/expire-subscriptions" "17" "*" 60 300;
  post_job "payment.approve-conversions" "payment" "/internal/maintenance/approve-conversions" "23" "2" 120 300;
  post_job "notifications.retry" "notification" "/internal/maintenance/retry" "*/10" "*" 120 300;
  post_job "notifications.prune" "notification" "/internal/maintenance/prune" "41" "3" 300 600;
  critical_job (with_payload [("limit", 5)] None (post_job "automation.drain" "automation" "/internal/maintenance/drain" "*/2" "*" 900 1800));
  post_job "automation.requeue-stale" "automation" "/internal/maintenance/requeue-stale" "*/15" "*" 60 300;
  post_job "automation.prune" "automation" "/internal/maintenance/prune" "47" "4" 300 300;
  with_payload [] (Some (JObj [("mode", JStr "reconcile")])) (post_job "search.reconcile" "search" "/internal/reindex" "13" "*" 900 1800);
  post_job "search.prune-analytics" "search" "/internal/maintenance/prune-analytics" "29" "3" 300 300;
  post_job "ai.prune" "ai" "/internal/maintenance/prune" "53" "4" 300 300;
  post_job "workers.prune-runs" "workers" "/internal/maintenance/prune" "59" "5" 60 300;
  post_job "admin.prune-flag-audits" "admin" "/internal/maintenance/prune-audits" "43" "5" 120 300;
  post_job "auth.prune" "auth" "/internal/maintenance/prune" "37" "5" 300 300].

(** [BY_NAME.get]: the names are distinct, or the module does not load. *)
Definition by_name (name : string) : option ScheduledJob := List.find (fun j => String.eqb (sj_name j) name) SCHEDULE.
Definition enabled_jobs (disabled : gset string) : list ScheduledJob :=
  List.filter (fun j => sj_enabled j && negb (bool_decide (sj_name j ∈ disabled))) SCHEDULE.

Record TaskRun := mkTaskRun {
  tr_job_name : string;
  tr_outcome : RunOutcome.t;
  tr_status_code : option Z;
  tr_duration_ms : Z;
  tr_detail : list (string * json);
  tr_error : option string;
  tr_started_at : datetime;
  tr_finished_at : option datetime;
  tr_worker_id : option string;
  tr_triggered_by : option uuid;
}.

Record WorkerSettings := mkWorkerSettings {
  disabled_job_set : gset string;
  run_retention_days : Z;
  unhealthy_after_failures : Z;
  worker_service_url : string -> option string;
  worker_secret : string;
}.

Record RunResult := mkRunResult {
  rr_job_name : string;
  rr_outcome : RunOutcome.t;
  rr_duration_ms : Z;
  rr_status_code : option Z;
  rr_detail : list (string * json);
  rr_error : option string;
}.

(** ** The lock (core-py/knowledgeos_core/redis.py) *)

(** The token of the holder, and when the key expires. *)
Abbreviation lock_table := (gmap string (string * datetime)).

(** SET NX EX *)
Definition take_lock (key token : string) (ttl : Z) (now : datetime) (locks : lock_table) : bool * lock_table :=
  let taken := (true, <[key := (token, now + ttl * SECOND)]> locks) in
  match locks !! key with
  | Some (_, expires) => if expires <=? now then taken else (false, locks)
  | None => taken
  end.
(** The release script: only the holder's token deletes the key. *)
Definition release_lock (key token : string) (now : datetime) (locks : lock_table) : lock_table :=
  match locks !! key with
  | Some (holder, expires) => if (now <? expires) && String.eqb holder token then delete key locks else locks
  | None => locks
  end.
Definition lock_key (job : ScheduledJob) : string := append "kos:workers:lock:workers:" (sj_name job).

(** ** One run (runner.py, tasks.py) *)

Record WorkerWorld := mkWorker {
  ww_clients : gmap string ClientState;
  ww_locks : lock_table;
  ww_runs : list TaskRun;
}.
Definition set_clients c w := mkWorker c (ww_locks w) (ww_runs w).
Definition set_locks l w := mkWorker (ww_clients w) l (ww_runs w).
Definition add_run r w := mkWorker (ww_clients w) (ww_locks w) (ww_runs w ++ [r]).
Definition new_client : ClientState := mkClient fresh_breaker [].

Section runner.
Context (settings : WorkerSettings) (net : string -> string -> nat -> attempt_outcome).
Context (hmac : string -> string -> string) (sha256 : string -> string) (dumps : json -> string).
(** [response.text]; [str(exc)]; the error of a Redis that does not answer. *)
Context (response_text : content -> string) (describe_error : exn -> string) (redis_error : exn) (worker_id : option string).

Definition is_scalar (v : json) : bool := match v with JInt _ | JBool _ | JStr _ => true | _ => false end.
Definition summarise (c : content) : list (string * json) :=
  match c with
  | JsonContent (JObj fields) =>
      List.filter (fun f => is_scalar f.2 && (String.length (jstr f.2) <=? 500)%nat) fields
  | JsonContent (JList l) => [("items", JInt (Z.of_nat (length l)))]
  | JsonContent v => [("value", JStr (stake 500 (jstr v)))]
  | NotJson | NoContent => [("body", JStr (stake 500 (response_text c)))]
  end.

Definition elapsed_ms (started ended : datetime) : Z := (ended - started) / 1000.

(** What the outcome of the call makes of the run. *)
Definition judge (job : ScheduledJob) (duration : Z) (r : result attempt_outcome) : RunResult :=
  match r with
  | Ok (Response status body) =>
      if 400 <=? status
      then mkRunResult (sj_name job) RunOutcome.FAILED duration (Some status) (summarise body)
             (Some (append (sj_service job) (append " returned " (append (py_str_int status) "."))))
      else mkRunResult (sj_name job) RunOutcome.SUCCEEDED duration (Some status) (summarise body) None
  | Raise TimeoutErr =>
      mkRunResult (sj_name job) RunOutcome.TIMED_OUT duration None []
        (Some (append "No response within " (append (py_str_int (sj_timeout job)) "s.")))
  | Raise e => mkRunResult (sj_name job) RunOutcome.FAILED duration None [] (Some (stake 2000 (describe_error e)))
  | Ok _ => mkRunResult (sj_name job) RunOutcome.FAILED duration None [] None    (* the client raises on every other outcome *)
  end.

(** The client's own body and headers; the query is no part of what is signed. *)
Definition call_sweep (token : string) (job : ScheduledJob) (started ended : datetime) (c : ClientState) : result attempt_outcome * ClientState :=
  request (net token (sj_service job)) hmac sha256 "workers" (worker_secret settings) None None 5 (30 * SECOND)
    (sj_method job) (sj_path job) (match sj_body job with Some b => dumps b | None => "" end)
    (match sj_body job with Some _ => [("Content-Type", "application/json")] | None => [] end)
    (Some (sj_timeout job)) started ended started c.

Definition execute_sweep (token : string) (job : ScheduledJob) (started ended : datetime) : M WorkerWorld RunResult :=
  let call : M WorkerWorld RunResult := fun w =>
    let '(r, c) := call_sweep token job started ended (default new_client (ww_clients w !! sj_service job)) in
    (Ok (judge job (elapsed_ms started ended) r), set_clients (<[sj_service job := c]> (ww_clients w)) w) in
  _ ← raise_when (negb (truthy (worker_service_url settings (sj_service job)))) (app_error ServiceUnavailableError ""); call.

(** The lock is released however the run ends. *)
Definition run_sweep (token : string) (job : ScheduledJob) (ignore_lock redis_up : bool) (started ended : datetime) : M WorkerWorld RunResult :=
  if bool_decide (sj_name job ∈ disabled_job_set settings)
  then mret (mkRunResult (sj_name job) RunOutcome.DISABLED 0 None [] None) else
  if ignore_lock then execute_sweep token job started ended else
  let locked : M WorkerWorld RunResult := fun w =>
    match take_lock (lock_key job) token (sj_lock_ttl job) started (ww_locks w) with
    | (false, _) => (Ok (mkRunResult (sj_name job) RunOutcome.SKIPPED_LOCKED 0 None [] None), w)
    | (true, locks) =>
        let '(r, w') := execute_sweep token job started ended (set_locks locks w) in
        (r, set_locks (release_lock (lock_key job) token ended (ww_locks w')) w')
    end in
  _ ← raise_when (negb redis_up) redis_error; locked.

Definition to_row (result : RunResult) (triggered_by : option uuid) (finished : datetime) : TaskRun :=
  mkTaskRun (rr_job_name result) (rr_outcome result) (rr_status_code result) (rr_duration_ms result) (rr_detail result) (rr_error result)
    (finished - Z.max 0 (rr_duration_ms result) * 1000) (Some finished) worker_id triggered_by.

(** A task of its own process: its clients are new. *)
Definition run_scheduled (token name : string) (redis_up : bool) (started ended : datetime) : M WorkerWorld (option RunResult) :=
  match by_name name with
  | None => mret None
  | Some job =>
      r ← lift (set_clients ∅) (fun w' w => set_clients (ww_clients w) w') (run_sweep token job false redis_up started ended);
      _ ← modify (add_run (to_row r None ended));
      mret (Some r)
  end.

(** An operator's run, in the process of the API. *)
Definition trigger_job (token name : string) (actor : uuid) (started ended : datetime) : M WorkerWorld RunResult :=
  job ← of_result (opt_result (app_error NotFoundError "") (by_name name));
  r ← run_sweep token job true true started ended;
  _ ← modify (add_run (to_row r (Some actor) ended));
  mret r.
End runner.

(** ** History (history.py) *)

Definition STALE_INTERVALS : Z := 3.
Definition UNHEALTHY_OUTCOMES : list RunOutcome.t := [RunOutcome.FAILED; RunOutcome.TIMED_OUT].

(** ORDER BY started_at DESC *)
Definition later_run (a b : TaskRun) : Prop := Is_true (tr_started_at b <=? tr_started_at a).
#[export] Instance later_run_dec a b : Decision (later_run a b).
Proof. unfold later_run. apply _. Defined.
Definition by_latest_start (l : list TaskRun) : list TaskRun := merge_sort later_run l.
Definition runs_of (name : string) (l : list TaskRun) : list TaskRun := List.filter (fun r => String.eqb (tr_job_name r) name) l.

Definition list_runs (limit offset : nat) (name : option string) (outcome : option RunOutcome.t) (l : list TaskRun) : list TaskRun * Z :=
  let found := List.filter (fun r => match outcome with Some o => bool_decide (tr_outcome r = o) | None => true end)
                 (if truthy name then runs_of (default "" name) l else l) in
  (take limit (drop offset (by_latest_start found)), Z.of_nat (length found)).

Definition last_run (name : string) (l : list TaskRun) : option TaskRun := head (by_latest_start (runs_of name l)).

Fixpoint failure_streak (l : list RunOutcome.t) : Z :=
  match l with
  | [] => 0
  | o :: l =>
      if bool_decide (o ∈ UNHEALTHY_OUTCOMES) then failure_streak l + 1
      else if bool_decide (o = RunOutcome.SKIPPED_LOCKED) then failure_streak l
      else 0
  end.
Definition consecutive_failures (name : string) (l : list TaskRun) : Z :=
  failure_streak (map tr_outcome (take 20 (by_latest_start (runs_of name l)))).

Record JobOut := mkJobOut {
  jo_name : string;
  jo_enabled : bool;
  jo_last_run_at : option datetime;
  jo_last_outcome : option RunOutcome.t;
  jo_last_duration_ms : option Z;
  jo_consecutive_failures : Z;
  jo_healthy : bool;
}.

Record SchedulerHealth := mkHealth {
  sh_total_jobs : Z;
  sh_enabled_jobs : Z;
  sh_unhealthy_jobs : list string;
  sh_stale_jobs : list string;
  sh_runs_last_hour : Z;
  sh_failures_last_hour : Z;
  sh_last_run_at : option datetime;
}.

Definition interval_seconds (job : ScheduledJob) : Z :=
  let minute := sj_minute job in
  if startswith "*/" minute
  then match py_int 10 (String.substring 2 (String.length minute - 2) minute) with Some n => Z.max 60 (n * 60) | None => 3600 end
  else if String.eqb minute "*" then 60
  else if String.eqb (sj_hour job) "*" then 3600 else 86400.

Section history.
Context (settings : WorkerSettings).

Definition switched_on (job : ScheduledJob) : bool := sj_enabled job && negb (bool_decide (sj_name job ∈ disabled_job_set settings)).
Definition describe (job : ScheduledJob) (l : list TaskRun) : JobOut :=
  let last := last_run (sj_name job) l in
  let failures := consecutive_failures (sj_name job) l in
  mkJobOut (sj_name job) (switched_on job) (tr_started_at <$> last) (tr_outcome <$> last) (tr_duration_ms <$> last) failures
    (failures <? unhealthy_after_failures settings).

(** [max] and [min] of a column. *)
Definition newest_start (l : list TaskRun) : option datetime :=
  match l with [] => None | r :: l => Some (foldr Z.max (tr_started_at r) (map tr_started_at l)) end.
Definition oldest_start (l : list TaskRun) : option datetime :=
  match l with [] => None | r :: l => Some (foldr Z.min (tr_started_at r) (map tr_started_at l)) end.

Definition stale_job (now : datetime) (l : list TaskRun) (job : ScheduledJob) : bool :=
  let observed_for := match oldest_start l with Some t => now - t | None => 0 end in
  let window := interval_seconds job * STALE_INTERVALS * SECOND in
  match jo_last_run_at (describe job l) with
  | None => window <? observed_for
  | Some t => window <? now - t
  end.
Definition health (now : datetime) (l : list TaskRun) : SchedulerHealth :=
  let recent := List.filter (fun r => now - 3600 * SECOND <=? tr_started_at r) l in
  let active := List.filter switched_on SCHEDULE in
  mkHealth (Z.of_nat (length SCHEDULE)) (Z.of_nat (length active))
    (map sj_name (List.filter (fun j => negb (jo_healthy (describe j l))) active))
    (map sj_name (List.filter (stale_job now l) active))
    (Z.of_nat (length recent))
    (Z.of_nat (length (List.filter (fun r => bool_decide (tr_outcome r ∈ UNHEALTHY_OUTCOMES)) recent)))
    (newest_start l).

Definition prune_runs (now : datetime) (l : list TaskRun) : Z * list TaskRun :=
  let old r := tr_started_at r <? now - run_retention_days settings * DAY in
  (Z.of_nat (length (List.filter old l)), List.filter (fun r => negb (old r)) l).
End history.

(** ** Replicas *)

(** The replicas that fire one job: the clock, the locks, and the token and
    start of every execution under way.  An execution ends within [limit] of its
    start, by itself or with its process; only the first releases the lock. *)
Record Flights := mkFlights { fl_now : datetime; fl_locks : lock_table; fl_running : list (string * datetime) }.

Inductive flight_step (job : ScheduledJob) (limit : Z) : Flights -> Flights -> Prop :=
  | flight_wait s n :
      fl_now s <= n -> (forall x, x ∈ fl_running s -> n - x.2 <= limit) ->
      flight_step job limit s (mkFlights n (fl_locks s) (fl_running s))
  | flight_fire s token locks :
      take_lock (lock_key job) token (sj_lock_ttl job) (fl_now s) (fl_locks s) = (true, locks) ->
      flight_step job limit s (mkFlights (fl_now s) locks (fl_running s ++ [(token, fl_now s)]))
  | flight_skip s token :
      (take_lock (lock_key job) token (sj_lock_ttl job) (fl_now s) (fl_locks s)).1 = false -> flight_step job limit s s
  | flight_end s l1 token started l2 :
      fl_running s = l1 ++ (token, started) :: l2 ->
      flight_step job limit s (mkFlights (fl_now s) (release_lock (lock_key job) token (fl_now s) (fl_locks s)) (l1 ++ l2))
  | flight_crash s l1 x l2 :
      fl_running s = l1 ++ x :: l2 -> flight_step job limit s (mkFlights (fl_now s) (fl_locks s) (l1 ++ l2)).

(** ** Lemmas *)

Section flights.
Context (job : ScheduledJob) (limit : Z).

(** At most one execution, and then the lock is its own for longer than it may last. *)
Definition one_flight (s : Flights) : Prop :=
  fl_running s = [] \/
  exists token started, fl_running s = [(token, started)] /\ fl_now s - started <= limit /\
    fl_locks s !! lock_key job = Some (token, started + sj_lock_ttl job * SECOND).

Lemma flight_step_one s s' : 0 <= limit < sj_lock_ttl job * SECOND -> flight_step job limit s s' -> one_flight s -> one_flight s'.
Proof.
  intros Hlim [s0 n Hn Hb|s0 token locks Ht|s0 token _|s0 l1 token started l2 Hr|s0 l1 x l2 Hr] Hone; unfold one_flight in *; cbn in *.
  - destruct Hone as [Hn0|(token & started & Hr & Hd & Hl)]; [by left|]. right. exists token, started. split; [done|]. split; [|done].
    specialize (Hb (token, started)). rewrite Hr in Hb. apply Hb. by left.
  - right. exists token, (fl_now s0). destruct Hone as [Hn0|(t0 & started & Hr & Hd & Hl)].
    + rewrite Hn0. split; [done|]. split; [lia|]. unfold take_lock in Ht.
      destruct (fl_locks s0 !! lock_key job) as [[h e]|]; [destruct (e <=? fl_now s0)|]; simplify_eq; by rewrite lookup_insert_eq.
    + exfalso. unfold take_lock in Ht. rewrite Hl in Ht. destruct (Z.leb_spec (started + sj_lock_ttl job * SECOND) (fl_now s0)); [lia|done].
  - done.
  - left. destruct Hone as [Hn0|(t0 & st0 & Hr0 & _)]; [rewrite Hn0 in Hr; by destruct l1|].
    rewrite Hr0 in Hr. destruct l1 as [|? [|??]]; [by injection Hr as _ _ <-|done..].
  - left. destruct Hone as [Hn0|(t0 & st0 & Hr0 & _)]; [rewrite Hn0 in Hr; by destruct l1|].
    rewrite Hr0 in Hr. destruct l1 as [|? [|??]]; [by injection Hr as _ <-|done..].
Qed.
End flights.


Section runs.
Context (settings : WorkerSettings) (net : string -> string -> nat -> attempt_outcome).
Context (hmac : string -> string -> string) (sha256 : string -> string) (dumps : json -> string).
Context (response_text : content -> string) (describe_error : exn -> string) (redis_error : exn).
Let run' := run_sweep settings net hmac sha256 dumps response_text describe_error redis_error.

(** What an attempt counts as in the history. *)
Definition outcome_of (o : attempt_outcome) : RunOutcome.t :=
  match o with
  | Response status _ => if 400 <=? status then RunOutcome.FAILED else RunOutcome.SUCCEEDED
  | ReadTimeout | PoolTimeout | OtherTimeout => RunOutcome.TIMED_OUT
  | ConnectError | OtherHttpError => RunOutcome.FAILED
  end.

(** One attempt, or none when the circuit is open. *)
Lemma call_sweep_cases token job started ended c r c' : call_sweep settings net hmac sha256 dumps token job started ended c = (r, c') ->
  r = Raise (app_error ServiceUnavailableError "") /\ attempts_made c' = attempts_made c /\ br_state (breaker c) = BreakerState.OPEN \/
  exists rq, attempts_made c' = attempts_made c ++ [rq] /\ rq_method rq = sj_method job /\ rq_path rq = sj_path job /\
    forall d, rr_outcome (judge response_text describe_error job d r) = outcome_of (net token (sj_service job) (length (attempts_made c))).
Proof.
  unfold call_sweep, request. intros H. erewrite bind_ok in H by reflexivity. cbv beta in H.
  destruct (before_request _ _ _) as [b|e] eqn:Eb; cbn [of_result] in H.
  2:{ injection H as <- <-. left. unfold before_request in Eb. destruct (br_state (breaker c)); try done.
      destruct (_ <=? _); [done|]. by injection Eb as <-. }
  right. do 2 (erewrite bind_ok in H by reflexivity; cbv beta zeta in H). unfold attempt_once in H.
  erewrite bind_ok in H by reflexivity. cbv beta in H. cbn [attempts_made set_breaker] in H. eexists.
  destruct (net token (sj_service job) (length (attempts_made c))) as [st body| | | | |] eqn:En.
  1:{ destruct (500 <=? st); (erewrite bind_ok in H by reflexivity; cbv beta in H; injection H as <- <-);
        (split; [reflexivity|]; do 2 (split; [reflexivity|])); intros d; unfold judge; cbn [outcome_of]; by destruct (400 <=? st). }
  all: erewrite bind_ok in H by reflexivity; cbv beta in H; injection H as <- <-; (split; [reflexivity|]; do 2 (split; [reflexivity|])); done.
Qed.

Lemma release_frees key token started ttl now locks other ttl' :
  locks !! key = Some (token, started + ttl * SECOND) -> (take_lock key other ttl' now (release_lock key token now locks)).1 = true.
Proof.
  intros Hl. unfold release_lock. rewrite Hl, String.eqb_refl, andb_true_r.
  destruct (Z.ltb_spec now (started + ttl * SECOND)); unfold take_lock; [by rewrite lookup_delete_eq|].
  rewrite Hl. by destruct (Z.leb_spec (started + ttl * SECOND) now); [|lia].
Qed.

Lemma taken_lock key token ttl now locks locks' : take_lock key token ttl now locks = (true, locks') -> locks' !! key = Some (token, now + ttl * SECOND).
Proof.
  unfold take_lock. destruct (locks !! key) as [[h e]|]; [destruct (e <=? now)|]; intros H; simplify_eq; by rewrite lookup_insert_eq.
Qed.

(** a scheduled run of a job that is switched on always returns, while Redis
    answers: it was another replica's turn and nothing changed; or the circuit
    is open and nothing was sent; or exactly one request was sent, the job's
    own, never a second time, and the run is recorded as what that request met:
    succeeded below 400, timed out when no answer came in time, else failed.
    Unless it was skipped, the lock is free again when it ends. *)
Theorem sweep_is_sent_once token job started ended w :
  sj_name job ∉ disabled_job_set settings -> truthy (worker_service_url settings (sj_service job)) = true ->
  exists r w', run' token job false true started ended w = (Ok r, w') /\ ww_runs w' = ww_runs w /\
    let client w := default new_client (ww_clients w !! sj_service job) in
    (rr_outcome r = RunOutcome.SKIPPED_LOCKED /\ w' = w \/
     (rr_outcome r = RunOutcome.FAILED /\ attempts_made (client w') = attempts_made (client w) /\ br_state (breaker (client w)) = BreakerState.OPEN \/
      exists rq, attempts_made (client w') = attempts_made (client w) ++ [rq] /\ rq_method rq = sj_method job /\ rq_path rq = sj_path job /\
        rr_outcome r = outcome_of (net token (sj_service job) (length (attempts_made (client w))))) /\
     forall other ttl, (take_lock (lock_key job) other ttl ended (ww_locks w')).1 = true).
Proof.
  intros Hen Hurl. unfold run', run_sweep. rewrite bool_decide_eq_false_2 by done. cbn [negb]. cbv zeta.
  erewrite bind_ok by reflexivity. cbv beta. destruct (take_lock _ _ _ _ _) as [[|] locks] eqn:Et.
  2:{ eexists _, w. split; [reflexivity|]. split; [done|]. by left. }
  unfold execute_sweep. rewrite Hurl. cbn [negb]. cbv zeta. erewrite bind_ok by reflexivity. cbv beta. cbn [ww_clients set_locks].
  destruct (call_sweep _ _ _ _ _ _ _ _ _ _) as [r c] eqn:Ec. eexists _, _. split; [reflexivity|]. split; [done|]. right.
  cbn [ww_clients set_clients set_locks ww_locks]. rewrite lookup_insert_eq. cbn [default from_option id].
  apply call_sweep_cases in Ec as [(-> & Ha & Ho)|(rq & Ha & Hm & Hp & Hr)]; (split; [|intros other ttl]).
  - left. done.
  - apply (release_frees _ _ started (sj_lock_ttl job)). by eapply taken_lock.
  - right. exists rq. split; [done|]. split; [done|]. split; [done|]. apply Hr.
  - apply (release_frees _ _ started (sj_lock_ttl job)). by eapply taken_lock.
Qed.
End runs.

(** *** History *)

Lemma latest_run_head l r : head (by_latest_start l) = Some r -> r ∈ l /\ forall r', r' ∈ l -> tr_started_at r' <= tr_started_at r.
Proof.
  unfold by_latest_start. intros H. assert (Hs : StronglySorted later_run (merge_sort later_run l)).
  { apply StronglySorted_merge_sort; [intros a b c; unfold later_run; rewrite !Is_true_true, !Z.leb_le; lia|].
    intros a b. unfold later_run. rewrite !Is_true_true, !Z.leb_le. lia. }
  pose proof (merge_sort_Permutation later_run l) as Hp. destruct (merge_sort later_run l) as [|x l']; [done|]. injection H as ->.
  split; [rewrite <- Hp; by left|]. intros r' Hin. rewrite <- Hp in Hin. apply elem_of_cons in Hin as [->|Hin]; [lia|].
  apply StronglySorted_inv in Hs as [_ Hs]. rewrite Forall_forall in Hs. apply Hs in Hin. unfold later_run in Hin.
  by rewrite Is_true_true, Z.leb_le in Hin.
Qed.

Lemma elem_of_runs_of name l r : r ∈ runs_of name l <-> r ∈ l /\ tr_job_name r = name.
Proof.
  unfold runs_of. by rewrite list_elem_of_In, filter_In, String.eqb_eq, <- list_elem_of_In.
Qed.

Lemma oldest_start_spec l t : oldest_start l = Some t -> (exists r, r ∈ l /\ tr_started_at r = t) /\ forall r, r ∈ l -> t <= tr_started_at r.
Proof.
  destruct l as [|r0 l]; [done|]. cbn. intros [= <-]. induction l as [|r l [(x & Hx & Hxt) Hmin]]; cbn.
  - split; [exists r0; split; [by left|done]|]. intros r [->|[]%not_elem_of_nil]%elem_of_cons. lia.
  - set (m := foldr Z.min (tr_started_at r0) (map tr_started_at l)) in *. split.
    + destruct (Z.min_spec (tr_started_at r) m) as [[_ ->]|[_ ->]]; [exists r; split; [by right; left|done]|].
      exists x. split; [|done]. apply elem_of_cons in Hx as [->|Hx]; [by left|by right; right].
    + intros y [->|[->|Hy]%elem_of_cons]%elem_of_cons; [pose proof (Hmin r0 ltac:(by left)); lia|lia|].
      pose proof (Hmin y ltac:(by right)). lia.
Qed.

Lemma schedule_names_distinct j j' : j ∈ SCHEDULE -> j' ∈ SCHEDULE -> sj_name j = sj_name j' -> j = j'.
Proof.
  intros [i Hi]%list_elem_of_lookup [k Hk]%list_elem_of_lookup He.
  assert (Hnd : NoDup (map sj_name SCHEDULE)) by (apply (bool_decide_eq_true_1 _); vm_compute; reflexivity).
  assert (i = k) as ->; [|congruence]. eapply NoDup_lookup; [exact Hnd| |]; rewrite list_lookup_fmap.
  - by rewrite Hi. - by rewrite Hk, He.
Qed.

(** the health page lists a job as stale exactly when it is switched on,
    something was recorded longer ago than three of its intervals, and no run
    of it since: a scheduler that has stopped shows up for every job, and a job
    that ran in time is never reported. *)
Theorem stopped_scheduler_is_seen settings now l job : job ∈ SCHEDULE ->
  let window := interval_seconds job * STALE_INTERVALS * SECOND in
  sj_name job ∈ sh_stale_jobs (health settings now l) <->
    switched_on settings job = true /\ (exists r, r ∈ l /\ window < now - tr_started_at r) /\
    forall r, r ∈ l -> tr_job_name r = sj_name job -> window < now - tr_started_at r.
Proof.
  intros Hjob window. cbn [sh_stale_jobs health].
  assert (Hpos : 0 <= window).
  { unfold window. assert (0 <= interval_seconds job); [|unfold STALE_INTERVALS, SECOND; lia].
    unfold interval_seconds. repeat case_match; lia. }
  assert (Hs : sj_name job ∈ map sj_name (List.filter (stale_job settings now l) (List.filter (switched_on settings) SCHEDULE)) <->
    switched_on settings job = true /\ stale_job settings now l job = true).
  { rewrite list_elem_of_In, in_map_iff. split.
    - intros (j & Hn & [[Hj Ha]%filter_In Hst]%filter_In). by apply list_elem_of_In in Hj; rewrite <- (schedule_names_distinct _ _ Hj Hjob Hn).
    - intros [Ha Hst]. exists job. split; [done|]. apply filter_In. split; [|done]. apply filter_In. split; [by apply list_elem_of_In|done]. }
  rewrite Hs. apply and_iff_compat_l. unfold stale_job. cbn [jo_last_run_at describe]. fold window. unfold last_run.
  destruct (head (by_latest_start (runs_of (sj_name job) l))) as [r|] eqn:Eh; cbn [fmap option_fmap option_map].
  - apply latest_run_head in Eh as [Hin Hmax]. apply elem_of_runs_of in Hin as [Hin Hn]. rewrite Z.ltb_lt. split.
    + intros Hw. split; [by exists r|]. intros r' Hr' Hn'. specialize (Hmax r' ltac:(by apply elem_of_runs_of)). lia.
    + intros [_ Hall]. by apply Hall.
  - assert (Hnone : forall r, r ∈ l -> tr_job_name r = sj_name job -> False).
    { intros r Hr Hn. assert (Hin : r ∈ by_latest_start (runs_of (sj_name job) l)) by (unfold by_latest_start; rewrite merge_sort_Permutation; by apply elem_of_runs_of).
      destruct (by_latest_start _); [by apply not_elem_of_nil in Hin|done]. }
    destruct (oldest_start l) as [t|] eqn:Eo.
    + apply oldest_start_spec in Eo as [(r & Hr & <-) Hmin]. rewrite Z.ltb_lt. split.
      * intros Hw. split; [by exists r|]. intros r' Hr' Hn'. by destruct (Hnone r').
      * intros [(r' & Hr' & Hw) _]. specialize (Hmin _ Hr'). lia.
    + rewrite Z.ltb_lt. split; [lia|]. intros [(r & Hr & _) _]. destruct l; [by apply not_elem_of_nil in Hr|done].
Qed.

(** ** Concrete runs *)

Definition demo_worker : WorkerSettings := mkWorkerSettings ∅ 30 3 (fun name => Some (append "http://" name)) "k".
Definition demo_sweep : ScheduledJob := post_job "automation.prune" "automation" "/internal/maintenance/prune" "47" "4" 300 300.
Definition demo_mac (secret payload : string) : string := append "s" (append secret payload).
Definition demo_net (token service : string) (n : nat) : attempt_outcome :=
  if String.eqb token "slow" then ReadTimeout else Response 200 (JsonContent (JObj [("pruned", JInt 7); ("rows", JList [])])).
Definition demo_worker_run (token : string) :=
  run_sweep demo_worker demo_net demo_mac (fun s => s) (fun _ => "{}") (fun _ => "") (fun _ => "") RuntimeErr token demo_sweep.
Definition idle_worker : WorkerWorld := mkWorker ∅ ∅ [].

(** One replica has fired; two hundred seconds pass. *)
Definition under_way (now : datetime) : Flights := mkFlights now {[lock_key demo_sweep := ("a", 300 * SECOND)]} [("a", 0)].

Lemma sweep_is_sent_once_witness :
  exists r w', demo_worker_run "slow" false true 0 (300 * SECOND) idle_worker = (Ok r, w') /\ rr_outcome r = RunOutcome.TIMED_OUT /\
    length (attempts_made (default new_client (ww_clients w' !! "automation"))) = 1%nat.
Proof.
  destruct (sweep_is_sent_once demo_worker demo_net demo_mac (fun s => s) (fun _ => "{}") (fun _ => "") (fun _ => "") RuntimeErr
    "slow" demo_sweep 0 (300 * SECOND) idle_worker) as (r & w' & H & _ & Hc).
  - apply not_elem_of_empty.
  - reflexivity.
  - exists r, w'. split; [exact H|]. destruct Hc as [[Hs ->]|[Hc _]].
    + vm_compute in H. injection H as <-. discriminate.
    + destruct Hc as [(Ho & _ & Hb)|(rq & Ha & _ & _ & Ho)]; [discriminate Hb|]. split; [exact Ho|].
      change (sj_service demo_sweep) with "automation" in Ha. rewrite Ha. reflexivity.
Defined.

Definition demo_row (name : string) (o : RunOutcome.t) (t : datetime) : TaskRun := mkTaskRun name o None 0 [] None t (Some t) None None.
(** The reconcile ran an hour ago; beat then stopped, and six hours have passed since anything. *)
Definition quiet_history : list TaskRun :=
  [demo_row "search.reconcile" RunOutcome.SUCCEEDED (3600 * SECOND); demo_row "payment.expire-orders" RunOutcome.SUCCEEDED 0].
Lemma stopped_scheduler_is_seen_witness :
  "search.reconcile" ∈ sh_stale_jobs (health demo_worker (25000 * SECOND) quiet_history) /\
  "search.reconcile" ∉ sh_stale_jobs (health demo_worker (9000 * SECOND) quiet_history).
Proof.
  assert (Hj : with_payload [] (Some (JObj [("mode", JStr "reconcile")])) (post_job "search.reconcile" "search" "/internal/reindex" "13" "*" 900 1800) ∈ SCHEDULE).
  - do 8 right. left.
  - split.
    + apply (stopped_scheduler_is_seen demo_worker (25000 * SECOND) quiet_history _ Hj). split; [reflexivity|]. split.
      * eexists. split; [left|vm_compute; reflexivity].
      * intros r Hr Hn. unfold quiet_history in Hr. rewrite !elem_of_cons in Hr. destruct Hr as [-> |[-> |Hr]]; [vm_compute; reflexivity|discriminate Hn|].
        destruct (not_elem_of_nil r Hr).
    + intros H. apply (stopped_scheduler_is_seen demo_worker (9000 * SECOND) quiet_history _ Hj) in H as (_ & _ & H).
      specialize (H (demo_row "search.reconcile" RunOutcome.SUCCEEDED (3600 * SECOND)) ltac:(left) eq_refl). vm_compute in H. discriminate.
Defined.

(** "Execute one job. Never raises": a Redis that does not answer makes it raise, and no row is written. *)
Example redis_outage_raises :
  demo_worker_run "t" false false 0 1 idle_worker = (Raise RuntimeErr, idle_worker).
Proof. vm_compute. reflexivity. Qed.

(** The lock must outlast the run; for these it is the timeout itself. *)
Example locks_without_margin :
  map sj_name (List.filter (fun j => sj_lock_ttl j <=? sj_timeout j) SCHEDULE) =
  ["automation.prune"; "search.prune-analytics"; "ai.prune"; "auth.prune"].
Proof. vm_compute. reflexivity. Qed.

(** A job that is turned away eleven times for each failure never looks unhealthy. *)
Definition busy_history : list TaskRun :=
  concat (map (fun n => demo_row "payment.expire-orders" RunOutcome.FAILED (n * 300 * SECOND) ::
                        replicate 11 (demo_row "payment.expire-orders" RunOutcome.SKIPPED_LOCKED (n * 300 * SECOND + 1))) [5; 4; 3; 2; 1]).
Example many_replicas_hide_failures :
  consecutive_failures "payment.expire-orders" busy_history = 1 /\ sh_unhealthy_jobs (health demo_worker (1600 * SECOND) busy_history) = [].
Proof. vm_compute. done. Qed.

(** Without a scheduler at all the page reports nothing wrong. *)
Example absent_scheduler_looks_healthy :
  let h := health demo_worker (1000 * DAY) [] in (sh_stale_jobs h, sh_unhealthy_jobs h) = ([], []).
Proof. vm_compute. reflexivity. Qed.

Example sweep_report : summarise (fun _ => "") (JsonContent (JObj [("pruned", JInt 7); ("rows", JList [])])) = [("pruned", JInt 7)].
Proof. reflexivity. Qed.
