(* ===== verification/OAuth.v ===== *)
(** * Sign-in through Google and GitHub (apps/auth/services/oauth.py, routers/oauth.py)

    The signed state, what a provider's answers say about a person, the account
    that person gets, the callback and unlinking.  The providers and the network
    are the answers they give; the JSON library, HMAC and SHA-256 are
    parameters. *)

From S2P Require Import Prelude Store Json Pagination Security Http AuthDb Accounts Tokens AuthRoutes.

(** ** Rows (models.py) *)

Record OAuthAccount := mkOAuthAccount {
  oa_id : uuid;
  oa_user_id : uuid;
  oa_provider : string;
  oa_account_id : string;
  oa_email : option string;
  oa_profile : json;
  oa_linked_at : option datetime;
  oa_last_login_at : option datetime;
}.
#[export] Instance OAuthAccount_row : Row OAuthAccount := oa_id.
(** uq_oauth_accounts_provider_sub *)
Definition provider_sub (a : OAuthAccount) : option (string * string) := Some (oa_provider a, oa_account_id a).

Record OAuthDb := mkOAuthDb { oa_auth : AuthDb; oa_links : table OAuthAccount }.
Definition set_auth (a : AuthDb) (d : OAuthDb) : OAuthDb := mkOAuthDb a (oa_links d).
Definition set_links (l : table OAuthAccount) (d : OAuthDb) : OAuthDb := mkOAuthDb (oa_auth d) l.
(** A computation of the account or token service. *)
Definition on_auth {A} (m : M AuthDb A) : M OAuthDb A := lift oa_auth set_auth m.

Record OAuthProfile := mkOAuthProfile {
  op_provider : string;
  op_account_id : string;
  op_email : option string;
  op_email_verified : bool;
  op_full_name : option string;
  op_avatar_url : option string;
  op_raw : json;
}.

Record OAuthSettings := mkOAuthSettings {
  google_client : option (string * string);       (** id and secret, when both are set *)
  github_client : option (string * string);
  oauth_redirect_base_url : string;
  oauth_state_ttl : Z;
  oauth_secret : string;
  frontend_url : string;
}.

(** [s.rstrip(c)], [s.rsplit(".", 1)] *)
Fixpoint rstrip_char (c : ascii) (s : string) : string :=
  match s with
  | "" => ""
  | String d s' => match rstrip_char c s' with "" => if (d =? c)%char then "" else String d "" | t => String d t end
  end.
Fixpoint rsplit_dot (s : string) : option (string * string) :=
  match s with
  | "" => None
  | String c s' =>
      match rsplit_dot s' with
      | Some (a, b) => Some (String c a, b)
      | None => if (c =? ".")%char then Some ("", s') else None
      end
  end.

(** ** The providers' answers *)

(** [response.json()] and the checks on its shape. *)
Definition answer_json (failure : exn) (o : attempt_outcome) : result json :=
  match o with
  | Response status body =>
      if 400 <=? status then Raise failure else
      match body with JsonContent v => Ok v | _ => Raise ValueErr end
  | ReadTimeout | PoolTimeout | OtherTimeout => Raise TimeoutErr
  | ConnectError | OtherHttpError => Raise RuntimeErr
  end.
Definition require_key (k : string) (v : json) : result json :=
  match v with
  | JObj l => opt_result KeyErr (fields_get k l)
  | _ => Raise TypeErr
  end.

Definition post_token (o : attempt_outcome) : result string :=
  payload ← answer_json (app_error UpstreamError "") o;
  match require_key "access_token" payload with
  | Ok t => Ok (jstr t)
  | Raise KeyErr => Raise (app_error UpstreamError "")
  | Raise e => Raise e
  end.

Definition raw_of (keys : list string) (v : json) : json := JObj (map (fun k => (k, jget k v)) keys).

Definition google_exchange (token userinfo : attempt_outcome) : result OAuthProfile :=
  _ ← post_token token;
  data ← answer_json (app_error UpstreamError "") userinfo;
  sub ← require_key "sub" data;
  Ok (mkOAuthProfile "google" (jstr sub) (jopt_str (jget "email" data)) (jtruthy (jget "email_verified" data))
        (jopt_str (jget "name" data)) (jopt_str (jget "picture" data)) (raw_of ["sub"; "email"; "name"; "picture"; "locale"] data)).

(** The first entry that says it is the primary one. *)
Fixpoint primary_email (entries : list json) (found : option string * bool) : result (option string * bool) :=
  match entries with
  | [] => Ok found
  | e :: entries =>
      primary ← dict_get "primary" e;
      if jtruthy primary then Ok (jopt_str (jget "email" e), jtruthy (jget "verified" e)) else primary_email entries found
  end.
Definition github_exchange (token user emails : attempt_outcome) : result OAuthProfile :=
  _ ← post_token token;
  profile ← answer_json (app_error UpstreamError "") user;
  shown ← dict_get "email" profile;
  found ← (match emails with
           | Response status body =>
               if status <? 400 then
                 match body with
                 | JsonContent (JList l) => primary_email l (jopt_str shown, false)
                 | JsonContent _ => Raise AttributeErr
                 | _ => Raise ValueErr
                 end
               else Ok (jopt_str shown, false)
           | ReadTimeout | PoolTimeout | OtherTimeout => Raise TimeoutErr
           | ConnectError | OtherHttpError => Raise RuntimeErr
           end);
  id ← require_key "id" profile;
  Ok (mkOAuthProfile "github" (jstr id) found.1 found.2 (jopt_str (jor (jget "name" profile) (jget "login" profile)))
        (jopt_str (jget "avatar_url" profile)) (raw_of ["id"; "login"; "name"; "avatar_url"] profile)).

Definition available_logins (s : OAuthSettings) : list string :=
  (match github_client s with Some _ => ["github"] | None => [] end) ++ (match google_client s with Some _ => ["google"] | None => [] end).
Definition get_provider (s : OAuthSettings) (name : string) : result string :=
  if bool_decide (name ∈ available_logins s) then Ok name else Raise (app_error BadRequestError "").
Definition redirect_uri (s : OAuthSettings) (provider : string) : string :=
  append (rstrip_char "/" (oauth_redirect_base_url s)) (append "/v1/auth/oauth/" (append provider "/callback")).

Section oauth.
Context (osettings : OAuthSettings) (settings : AuthSettings).
Context (hash_token : string -> string) (jwt_encode : json -> string).
Context (hmac : string -> string -> string) (dumps : json -> list N) (loads : list N -> option json).
Context (publish : string -> list (string * json) -> result unit).
(** The profile the provider's answers to a code give. *)
Context (exchange : string -> string -> string -> result OAuthProfile).

(** ** PKCE and state *)

Definition pkce_challenge (digest : string -> list N) (verifier : string) : string := b64_encode (digest verifier).
Definition create_pkce_pair (digest : string -> list N) (random : list N) : string * string :=
  let verifier := b64_encode random in (verifier, pkce_challenge digest verifier).

Definition state_payload (provider verifier : string) (next_url : option string) (now : datetime) (nonce : string) : json :=
  JObj [("p", JStr provider); ("v", JStr verifier); ("n", JStr (default "" next_url)); ("t", JInt (now / SECOND)); ("r", JStr nonce)].
(** The body with the padding it is signed with. *)
Definition padded (body : string) : string := append body (pad (Z.to_nat (- Z.of_nat (String.length body) mod 4))).
Definition sign_state (provider verifier : string) (next_url : option string) (now : datetime) (nonce : string) : string :=
  let body := padded (b64_encode (dumps (state_payload provider verifier next_url now nonce))) in
  append (rstrip_char "=" body) (append "." (hmac (oauth_secret osettings) body)).

Definition checked_body (state : string) : option json :=
  '(body_part, signature) ← rsplit_dot state;
  let body := padded body_part in
  if String.eqb (hmac (oauth_secret osettings) body) signature then bytes ← b64_decode body_part; loads bytes else None.

Definition read_state (state provider : string) (now : datetime) : result (string * option string) :=
  payload ← opt_result (app_error UnauthorizedError "") (checked_body state);
  p ← dict_get "p" payload;
  if negb (match p with JStr p => String.eqb p provider | _ => false end) then Raise (app_error UnauthorizedError "") else
  t ← opt_result TypeErr (jint (jget_default "t" (JInt 0) payload));
  if oauth_state_ttl osettings * SECOND <? now - t * SECOND then Raise (app_error UnauthorizedError "") else
  v ← require_key "v" payload;
  Ok (jstr v, let n := jget "n" payload in if jtruthy n then Some (jstr n) else None).

(** ** Accounts *)

Definition find_link (provider account_id : string) : M OAuthDb (option OAuthAccount) :=
  rows ← gets (fun d => select (fun a => String.eqb (oa_provider a) provider && String.eqb (oa_account_id a) account_id) (oa_links d));
  of_result (one_or_none rows).
Definition touch_link (now : datetime) (email : option string) (a : OAuthAccount) : OAuthAccount :=
  mkOAuthAccount (oa_id a) (oa_user_id a) (oa_provider a) (oa_account_id a)
    (if truthy email then normalise_email <$> email else oa_email a) (oa_profile a) (oa_linked_at a) (Some now).
Definition update_link (k : uuid) (f : OAuthAccount -> OAuthAccount) : M OAuthDb unit :=
  modify (fun d => set_links (alter f k (oa_links d)) d).
Definition add_link (a : OAuthAccount) : M OAuthDb unit := fun d =>
  match insert_new provider_sub a (oa_links d) with
  | Ok t => (Ok tt, set_links t d)
  | Raise e => (Raise e, d)
  end.

Definition oauth_user (id : uuid) (now : datetime) (email : string) (p : OAuthProfile) : User :=
  mkUser id email (if op_email_verified p then Some now else None) None None
    (mkProfile (op_full_name p) (op_avatar_url p) None) ["user"] [] true None None 0 None false None None now None.

Definition resolve_user (now : datetime) (user_id link_id : uuid) (p : OAuthProfile) (ip : option string) : M OAuthDb User :=
  link ← find_link (op_provider p) (op_account_id p);
  match link with
  | Some a =>
      u ← on_auth (get_by_id (oa_user_id a));
      _ ← update_link (oa_id a) (touch_link now (op_email p));
      mret u
  | None =>
      _ ← raise_when (negb (truthy (op_email p))) (app_error BadRequestError "");
      let email := normalise_email (default "" (op_email p)) in
      existing ← on_auth (get_by_email email);
      u ← (match existing with
           | Some u =>
               if negb (op_email_verified p) then
                 _ ← on_auth (record_audit now (Some (u_id u)) None "oauth.link_blocked" "blocked" ip None
                                [("provider", JStr (op_provider p)); ("reason", JStr "email_unverified")]);
                 raise (app_error UnauthorizedError "oauth_link_requires_login")
               else
                 _ ← on_auth (record_audit now (Some (u_id u)) None "oauth.linked" "success" ip None [("provider", JStr (op_provider p))]);
                 mret u
           | None =>
               let u := oauth_user user_id now email p in
               _ ← on_auth (add_user u);
               _ ← on_auth (record_audit now (Some (u_id u)) None "register.oauth" "success" ip None [("provider", JStr (op_provider p))]);
               mret u
           end);
      _ ← add_link (mkOAuthAccount link_id (u_id u) (op_provider p) (op_account_id p) (Some email) (op_raw p) (Some now) (Some now));
      mret u
  end.

(** ** Routes *)

(** Only relative paths are followed. *)
Definition callback_target (next_url : option string) : string :=
  let frontend := rstrip_char "/" (frontend_url osettings) in
  match next_url with
  | Some n => if startswith "/" n && negb (startswith "//" n) then append frontend n else append frontend "/auth/callback"
  | None => append frontend "/auth/callback"
  end.

(** Where the browser goes, and the tokens it gets. *)
Record Callback := mkCallback { cb_location : string; cb_issued : option (User * IssuedTokens) }.

Record OAuthDraws := mkOAuthDraws { od_user : uuid; od_link : uuid; od_login : LoginDraws }.

Definition callback (now later : datetime) (dr : OAuthDraws) (provider : string) (code state error : option string) (ip agent : option string)
    : M OAuthDb Callback :=
  if truthy error then mret (mkCallback (append (rstrip_char "/" (frontend_url osettings)) "/login?error=oauth_declined") None) else
  _ ← raise_when (negb (truthy code && truthy state)) (app_error BadRequestError "");
  _ ← of_result (get_provider osettings provider);
  checked ← of_result (read_state (default "" state) provider now);
  profile ← of_result (exchange provider (default "" code) checked.1);
  u ← resolve_user now (od_user dr) (od_link dr) profile ip;
  issued ← on_auth (start_session settings hash_token jwt_encode now later (ld_tokens (od_login dr)) (ld_session (od_login dr))
                      (ld_family (od_login dr)) u ip agent None (append "oauth:" provider));
  _ ← on_auth (record_audit now (Some (u_id u)) None "login.oauth" "success" ip agent [("provider", JStr provider)]);
  _ ← of_result (publish "user.logged_in" [("user_id", JStr (string_of_uuid (u_id u))); ("provider", JStr provider); ("ip", match ip with Some i => JStr i | None => JNull end)]);
  mret (mkCallback (callback_target checked.2) (Some (u, issued))).

Definition links_of (user : uuid) (d : OAuthDb) : list OAuthAccount := select (fun a => bool_decide (oa_user_id a = user)) (oa_links d).
Definition unlink_checked (provider : string) (u : User) (found : list OAuthAccount) : result OAuthAccount :=
  match List.find (fun a => String.eqb (oa_provider a) provider) found with
  | None => Raise (app_error BadRequestError "")
  | Some a =>
      if bool_decide (length found = 1%nat) && negb (truthy (u_password_hash u)) then Raise (app_error BadRequestError "last_login_method")
      else Ok a
  end.
Definition delete_link (a : OAuthAccount) : M OAuthDb unit := modify (fun d => set_links (delete (oa_id a) (oa_links d)) d).
Definition unlink (now : datetime) (provider : string) (p : Principal) : M OAuthDb unit :=
  u ← on_auth (get_authed_user p);
  found ← gets (links_of (u_id u));
  a ← of_result (unlink_checked provider u found);
  _ ← delete_link a;
  on_auth (record_audit now (Some (u_id u)) None "oauth.unlinked" "success" None None [("provider", JStr provider)]).
End oauth.

(** ** Lemmas *)

Lemma on_auth_inv {A} (m : M AuthDb A) d r d' : on_auth m d = (r, d') -> exists a', m (oa_auth d) = (r, a') /\ d' = set_auth a' d.
Proof. unfold on_auth, lift. destruct (m (oa_auth d)) as [r1 a1]. intros [= <- <-]. eauto. Qed.

Lemma find_link_inv provider account_id d o d' : find_link provider account_id d = (Ok o, d') ->
  d' = d /\ match o with
            | Some a => oa_provider a = provider /\ oa_account_id a = account_id /\ exists k, oa_links d !! k = Some a
            | None => forall k a, oa_links d !! k = Some a -> oa_provider a = provider -> oa_account_id a <> account_id
            end.
Proof.
  intros (rs & d1 & [= <- <-] & [H ->]%of_result_inv)%bind_ok_inv. split; [done|]. destruct o as [a|].
  - symmetry in H. apply one_or_none_Some in H.
    assert (Ha : a ∈ [a]) by by left. rewrite <- H in Ha.
    apply elem_of_select in Ha as [Hk [->%String.eqb_eq ->%String.eqb_eq]%andb_prop]. done.
  - symmetry in H. apply one_or_none_None in H. intros k a Ha Hp Hi.
    apply (not_elem_of_nil a). rewrite <- H. apply elem_of_select. split; [by exists k|]. by rewrite Hp, Hi, !String.eqb_refl.
Qed.

Lemma add_link_inv a d d' : add_link a d = (Ok tt, d') -> oa_links d !! oa_id a = None /\ d' = set_links (save a (oa_links d)) d.
Proof. unfold add_link. destruct (insert_new _ _ _) as [t|e] eqn:E; intros [= <-]. by apply insert_new_ok in E as (? & _ & ->). Qed.

(** What an answer of the provider about a person lets them sign in as. *)
Inductive entitled (now : datetime) (user_id : uuid) (p : OAuthProfile) (d : OAuthDb) : User -> Prop :=
  | ent_linked u k a : oa_links d !! k = Some a -> oa_provider a = op_provider p -> oa_account_id a = op_account_id p ->
      users (oa_auth d) !! oa_user_id a = Some u -> u_deleted_at u = None -> entitled now user_id p d u
  | ent_same_address u k e : op_email p = Some e -> op_email_verified p = true -> users (oa_auth d) !! k = Some u ->
      lower (u_email u) = normalise_email e -> u_deleted_at u = None -> entitled now user_id p d u
  | ent_new e : op_email p = Some e -> users (oa_auth d) !! user_id = None ->
      (forall k v, users (oa_auth d) !! k = Some v -> u_deleted_at v = None -> lower (u_email v) <> normalise_email e) ->
      entitled now user_id p d (oauth_user user_id now (normalise_email e) p).

Lemma get_by_email_none e d d' : get_by_email e d = (Ok None, d') ->
  d' = d /\ forall k v, users d !! k = Some v -> u_deleted_at v = None -> lower (u_email v) <> normalise_email e.
Proof.
  intros (rs & d1 & [= <- <-] & [H ->]%of_result_inv)%bind_ok_inv. split; [done|]. symmetry in H. apply one_or_none_None in H.
  intros k v Hk Hd He. apply (not_elem_of_nil v). rewrite <- H. apply elem_of_select. split; [by exists k|].
  rewrite He, String.eqb_refl. by apply bool_decide_eq_true.
Qed.

Lemma audit_ok now user action status ip agent meta d r d' :
  on_auth (record_audit now user None action status ip agent meta) d = (r, d') ->
  r = Ok tt /\ oa_links d' = oa_links d /\ users (oa_auth d') = users (oa_auth d).
Proof. by intros [= <- <-]. Qed.


(** The identity is bound to the account, so it signs in to the same account the next time. *)
Definition bound_to (p : OAuthProfile) (u : User) (d : OAuthDb) : Prop :=
  exists k a, oa_links d !! k = Some a /\ oa_provider a = op_provider p /\ oa_account_id a = op_account_id p /\ oa_user_id a = u_id u.

Lemma bound_added p u link_id email raw now d d' :
  add_link (mkOAuthAccount link_id (u_id u) (op_provider p) (op_account_id p) email raw (Some now) (Some now)) d = (Ok tt, d') ->
  bound_to p u d' /\ users (oa_auth d') = users (oa_auth d).
Proof. intros [_ ->]%add_link_inv. split; [|done]. eexists _, _. split; [by apply lookup_save_same|]. done. Qed.

Lemma resolve_user_ok now user_id link_id p ip d u d' : keyed (users (oa_auth d)) ->
  resolve_user now user_id link_id p ip d = (Ok u, d') ->
  entitled now user_id p d u /\ bound_to p u d' /\
  (users (oa_auth d') = users (oa_auth d) \/
   users (oa_auth d) !! user_id = None /\ users (oa_auth d') = save (oauth_user user_id now (u_email u) p) (users (oa_auth d))).
Proof.
  intros Hkey (o & d1 & [-> Ho]%find_link_inv & H)%bind_ok_inv. destruct o as [a|].
  - destruct Ho as (Hp & Hi & k & Hk). apply bind_ok_inv in H as (u' & d2 & Hu & H).
    apply on_auth_inv in Hu as (a' & [-> [Hu Hd]]%get_by_id_inv & ->).
    apply bind_ok_inv in H as ([] & d3 & [= <-] & [= <- <-]).
    split; [by eapply ent_linked|]. split; [|by left]. cbn [oa_links set_links set_auth].
    assert (Hkeyu : u_id u' = oa_user_id a) by exact (keyed_lookup _ _ _ Hkey Hu).
    destruct (decide (k = oa_id a)) as [->|Hne].
    + exists (oa_id a), (touch_link now (op_email p) a). split; [|done]. cbn. by rewrite lookup_alter_eq, Hk.
    + exists k, a. split; [|done]. cbn. by rewrite lookup_alter_ne.
  - apply bind_ok_inv in H as ([] & d1 & [-> Hem]%raise_when_cases & H).
    apply bind_ok_inv in H as (ex & d1 & Hex & H). apply on_auth_inv in Hex as (a' & Hex & ->).
    destruct (op_email p) as [e|] eqn:Ee; [|done]. cbn [default] in *.
    destruct ex as [v|].
    + apply get_by_email_ok in Hex as (-> & [k Hk] & He & Hd). rewrite normalise_idem in He.
      apply bind_ok_inv in H as (u' & d2 & Hu & H). destruct (op_email_verified p) eqn:Ev; cbn [negb] in Hu.
      * apply bind_ok_inv in Hu as ([] & d3 & (_ & _ & H3)%audit_ok & [= <- <-]).
        apply bind_ok_inv in H as ([] & d4 & [Hb Hd4]%bound_added & [= <- <-]).
        split; [by eapply ent_same_address|]. split; [done|]. left. by rewrite Hd4, H3.
      * by apply bind_ok_inv in Hu as ([] & d3 & _ & [=]).
    + apply get_by_email_none in Hex as (-> & Hnone). rewrite normalise_idem in Hnone.
      apply bind_ok_inv in H as (u' & d2 & Hu & H). apply bind_ok_inv in Hu as ([] & d3 & Ha & Hu).
      apply on_auth_inv in Ha as (a' & [(_ & Hn & ->)|([=] & _)]%add_row_inv & ->).
      apply bind_ok_inv in Hu as ([] & d4 & (_ & _ & H4)%audit_ok & [= <- <-]).
      apply bind_ok_inv in H as ([] & d5 & [Hb Hd5]%bound_added & [= <- <-]).
      split; [by eapply ent_new|]. split; [done|]. right. split; [done|]. by rewrite Hd5, H4.
Qed.

Lemma start_session_users settings hash_token jwt_encode now later dr sid family u ip agent label method d r d' :
  start_session settings hash_token jwt_encode now later dr sid family u ip agent label method d = (r, d') -> users d' = users d.
Proof.
  intros [([] & d1 & H1 & H)|(e & H & ->)]%bind_inv.
  - apply add_row_inv in H1 as [(_ & _ & ->)|([=] & _)].
    by apply issue_pair_inv in H as [(i & _ & _ & _ & _ & _ & _ & _ & ->)|(e & _ & ->)].
  - by apply add_row_inv in H as [([=] & _)|(_ & ->)].
Qed.

Lemma callback_target_frontend s next : exists path, callback_target s next = append (rstrip_char "/" (frontend_url s)) (String "/" path).
Proof.
  unfold callback_target. destruct next as [n|]; [|by eexists]. case_match; [|by eexists]. apply andb_prop in H as [H _].
  destruct n as [|c n]; [done|]. exists n. unfold startswith in H. cbn [String.prefix] in H.
  destruct (ascii_dec "/" c) as [Hc|]; [by rewrite Hc|done].
Qed.

(** Only a body signed with the secret is read. *)
Lemma checked_body_signed osettings hmac loads state payload : checked_body osettings hmac loads state = Some payload ->
  exists body, rsplit_dot state = Some (body, hmac (oauth_secret osettings) (padded body)) /\
    exists bytes, b64_decode body = Some bytes /\ loads bytes = Some payload.
Proof.
  unfold checked_body. destruct (rsplit_dot state) as [[body sig]|]; [|done]. cbn.
  destruct (String.eqb_spec (hmac (oauth_secret osettings) (padded body)) sig) as [<-|]; [|done].
  intros H. exists body. split; [done|]. destruct (b64_decode body) as [bytes|]; [by exists bytes|done].
Qed.

Lemma read_state_signed osettings hmac loads state provider now r : read_state osettings hmac loads state provider now = Ok r ->
  exists body, rsplit_dot state = Some (body, hmac (oauth_secret osettings) (padded body)).
Proof.
  intros (payload & H & _)%result_bind_ok. destruct (checked_body _ _ _ _) as [v|] eqn:E; [|done].
  apply checked_body_signed in E as (body & Hb & _). by exists body.
Qed.

Section callback.
Context (osettings : OAuthSettings) (settings : AuthSettings).
Context (hash_token : string -> string) (jwt_encode : json -> string).
Context (hmac : string -> string -> string) (loads : list N -> option json).
Context (publish : string -> list (string * json) -> result unit).
Context (exchange : string -> string -> string -> result OAuthProfile).
Notation callback := (callback osettings settings hash_token jwt_encode hmac loads publish exchange).
Notation read_state := (read_state osettings hmac loads).

(** The callback that signs somebody in, step by step. *)
Lemma callback_issued now later dr provider code state error ip agent d cb d' u issued :
  callback now later dr provider code state error ip agent d = (Ok cb, d') -> cb_issued cb = Some (u, issued) ->
  exists verifier next p d1, read_state (default "" state) provider now = Ok (verifier, next) /\
    exchange provider (default "" code) verifier = Ok p /\
    resolve_user now (od_user dr) (od_link dr) p ip d = (Ok u, d1) /\
    issued_user_id issued = u_id u /\ cb_location cb = callback_target osettings next /\
    oa_links d' = oa_links d1 /\ users (oa_auth d') = users (oa_auth d1).
Proof.
  intros H Hi. unfold OAuth.callback in H. destruct (truthy error); [by injection H as <- <-|].
  apply bind_ok_inv in H as ([] & d1 & [-> _]%raise_when_cases & H).
  apply bind_ok_inv in H as (prov & d1 & [_ ->]%of_result_inv & H).
  apply bind_ok_inv in H as ([verifier next] & d1 & [Hr ->]%of_result_inv & H).
  apply bind_ok_inv in H as (p & d1 & [Hx ->]%of_result_inv & H).
  apply bind_ok_inv in H as (v & d1 & Hu & H). apply bind_ok_inv in H as (i & d2 & Hs & H).
  apply on_auth_inv in Hs as (a2 & Hs & ->). pose proof (start_session_users _ _ _ _ _ _ _ _ _ _ _ _ _ _ _ _ Hs) as Husers.
  apply start_session_ok in Hs as (Hid & _).
  apply bind_ok_inv in H as ([] & d3 & (_ & Hl & Hus)%audit_ok & H).
  apply bind_ok_inv in H as ([] & d4 & [_ ->]%of_result_inv & [= <- <-]). injection Hi as <- <-.
  exists verifier, next, p, d1. split; [done|]. split; [done|]. split; [done|]. split; [done|]. split; [done|].
  split; [by rewrite Hl|]. by rewrite Hus.
Qed.
End callback.

(** C25: What a provider says about a person decides which account they sign in
    to, and nothing else does.  A callback hands out tokens only on a state this
    service signed for that provider, and only for the account the identity is
    already bound to, for the live account at the address the provider calls
    verified, or for a new account at an address no live account has; the tokens
    are that account's, the identity stays bound to it, no other account's row
    changes, and the browser is sent to a path of the frontend's own origin
    whatever [next] says. *)
Theorem oauth_login_is_entitled osettings settings hash_token jwt_encode hmac loads publish exchange now later dr provider
    code state error ip agent d cb d' u issued
    (Hkey : keyed (users (oa_auth d)))
    (Hrun : in_transaction (callback osettings settings hash_token jwt_encode hmac loads publish exchange
              now later dr provider code state error ip agent) d = (Ok cb, d'))
    (Hissued : cb_issued cb = Some (u, issued)) :
  exists body verifier next p, rsplit_dot (default "" state) = Some (body, hmac (oauth_secret osettings) (padded body)) /\
    read_state osettings hmac loads (default "" state) provider now = Ok (verifier, next) /\
    exchange provider (default "" code) verifier = Ok p /\
    entitled now (od_user dr) p d u /\ issued_user_id issued = u_id u /\ bound_to p u d' /\
    (forall k v, users (oa_auth d) !! k = Some v -> users (oa_auth d') !! k = Some v) /\
    exists path, cb_location cb = append (rstrip_char "/" (frontend_url osettings)) (String "/" path).
Proof.
  apply in_transaction_ok in Hrun. eapply callback_issued in Hrun as (v & next & p & d1 & Hr & Hx & Hu & Hid & Hl & Hlinks & Hus); [|done].
  pose proof (read_state_signed _ _ _ _ _ _ _ Hr) as [body Hbody].
  exists body, v, next, p. split; [done|]. apply resolve_user_ok in Hu as (He & (i & a & Ha & Hp) & Hrows); [|done].
  split; [done|]. split; [done|]. split; [done|]. split; [done|]. split; [|split].
  - exists i, a. by rewrite Hlinks.
  - intros k w Hk. rewrite Hus. destruct Hrows as [->|[Hn ->]]; [done|]. rewrite lookup_save_other; [done|].
    intros <-. change (row_id _) with (od_user dr) in Hk. congruence.
  - rewrite Hl. apply callback_target_frontend.
Qed.

(** *** The state survives its trip through the provider *)

Lemma rstrip_char_id c s : sall (fun d => negb (d =? c)%char) s = true -> rstrip_char c s = s.
Proof.
  induction s as [|d s IH]; [done|]. cbn [sall rstrip_char]. intros [Hd Hs]%andb_true_iff. rewrite IH by done.
  apply negb_true_iff in Hd. by destruct s; rewrite ?Hd.
Qed.
Lemma rstrip_char_pad s n : rstrip_char "=" (append s (pad n)) = rstrip_char "=" s.
Proof.
  induction s as [|d s IH].
  - induction n as [|n IH]; [done|]. cbn [pad rstrip_char]. change (append "" (pad n)) with (pad n) in IH.
    change (append "" (String "=" (pad n))) with (String "=" (pad n)). cbn [rstrip_char]. by rewrite IH.
  - rewrite append_String. cbn [rstrip_char]. by rewrite IH.
Qed.
Lemma b64_encode_unpadded bytes : Forall (fun b => (b < 256)%N) bytes -> sall (fun d => negb (d =? "=")%char) (b64_encode bytes) = true.
Proof.
  assert (Hc : forall n, (n < 64)%N -> (b64_char n =? "=")%char = false) by (intros n Hn; by apply b64_char_ok).
  induction bytes as [|a|a b|a b c l IH] using triples_ind; intros H; [done|..].
  - apply Forall_cons in H as [Ha _]. destruct (sextet_small a 0 Ha ltac:(lia)) as (? & _ & _ & _ & ? & _).
    cbn [b64_encode sall]. by rewrite !Hc by lia.
  - apply Forall_cons in H as [Ha [Hb _]%Forall_cons]. destruct (sextet_small a b Ha Hb) as (? & ? & _ & _ & _ & ?).
    cbn [b64_encode sall]. by rewrite !Hc by lia.
  - apply Forall_cons in H as [Ha [Hb [Hc' Hl]%Forall_cons]%Forall_cons].
    destruct (sextet_small a b Ha Hb) as (? & ? & _). destruct (sextet_small c b Hc' Hb) as (_ & _ & ? & ? & _).
    cbn [b64_encode sall]. by rewrite !Hc, IH by (lia || done).
Qed.

Lemma rsplit_dot_app a b : sall (fun d => negb (d =? ".")%char) b = true -> rsplit_dot (append a (String "." b)) = Some (a, b).
Proof.
  intros Hb. assert (Hn : rsplit_dot b = None).
  { induction b as [|d b IH]; [done|]. cbn [sall rsplit_dot] in *. apply andb_prop in Hb as [Hd%negb_true_iff Hb].
    by rewrite (IH Hb), Hd. }
  induction a as [|d a IH]; [change (append "" ?x) with x; cbn [rsplit_dot]; by rewrite Hn|]. rewrite append_String. cbn [rsplit_dot]. by rewrite IH.
Qed.

Lemma checked_body_signs osettings hmac dumps loads provider verifier next now nonce :
  let payload := state_payload provider verifier next now nonce in
  Forall (fun b => (b < 256)%N) (dumps payload) -> loads (dumps payload) = Some payload ->
  (forall k m, sall (fun d => negb (d =? ".")%char) (hmac k m) = true) ->
  checked_body osettings hmac loads (sign_state osettings hmac dumps provider verifier next now nonce) = Some payload.
Proof.
  intros payload Hb Hl Hh. unfold checked_body, sign_state. fold payload. cbv zeta.
  assert (Hs : rstrip_char "=" (padded (b64_encode (dumps payload))) = b64_encode (dumps payload)).
  { unfold padded. by rewrite rstrip_char_pad, rstrip_char_id by (by apply b64_encode_unpadded). }
  rewrite Hs. change (append "." ?x) with (String "." x). rewrite rsplit_dot_app by apply Hh. cbn. rewrite String.eqb_refl, b64_decode_encode by done. done.
Qed.

(** C26: The state a sign-in starts with comes back from the provider whole.
    [read_state] returns the PKCE verifier and the page to go on to exactly for a
    state signed for the provider the callback names and at most
    [oauth_state_ttl] seconds old (counted from the second it was signed in), and
    answers 401 to it otherwise. *)
Theorem state_roundtrip osettings hmac dumps loads provider verifier next now nonce named later
    (Hbytes : Forall (fun b => (b < 256)%N) (dumps (state_payload provider verifier next now nonce)))
    (Hjson : loads (dumps (state_payload provider verifier next now nonce)) = Some (state_payload provider verifier next now nonce))
    (Hhex : forall k m, sall (fun d => negb (d =? ".")%char) (hmac k m) = true) :
  read_state osettings hmac loads (sign_state osettings hmac dumps provider verifier next now nonce) named later =
  if String.eqb provider named && (later - now / SECOND * SECOND <=? oauth_state_ttl osettings * SECOND)
  then Ok (verifier, if truthy next then next else None)
  else Raise (app_error UnauthorizedError "").
Proof.
  unfold read_state. rewrite (checked_body_signs osettings hmac dumps loads) by done. cbn -[SECOND].
  destruct (String.eqb provider named); [|done]. cbn -[SECOND]. rewrite Z.leb_antisym.
  destruct (_ <? _); [done|]. cbn. destruct next as [[|c n]|]; reflexivity.
Qed.

Lemma find_first {A} (f : A -> bool) l x : List.find f l = Some x -> x ∈ l /\ f x = true.
Proof. intros [Hin Hf]%List.find_some. split; [by apply list_elem_of_In|done]. Qed.

Lemma another_row {A} (l : list A) x : NoDup l -> x ∈ l -> length l <> 1%nat -> exists y, y ∈ l /\ y <> x.
Proof.
  intros Hnd Hx Hl. destruct l as [|a [|b l]]; [by apply not_elem_of_nil in Hx|done|].
  apply NoDup_cons in Hnd as [Ha _]. apply elem_of_cons in Hx as [->|Hx].
  - exists b. split; [right; by left|]. intros ->. apply Ha. by left.
  - exists a. split; [by left|]. by intros ->.
Qed.

Lemma get_authed_live p d u d' : get_authed_user p d = (Ok u, d') -> d' = d /\ exists k, users d !! k = Some u.
Proof.
  intros (k & d1 & [_ ->]%of_result_inv & H)%bind_ok_inv. apply bind_ok_inv in H as (v & d1 & [-> [Hv _]]%get_by_id_inv & H).
  case_match; [done|]. injection H as <- <-. by eauto.
Qed.

(** Unlinking never locks an account out: when [unlink] succeeds the account
    still has a password or another linked provider, exactly one link of its own
    to the named provider is gone, and no account and no other link changed. *)
Theorem unlink_keeps_a_way_in now provider p d d'
    (Hkey : keyed (oa_links d))
    (Hrun : in_transaction (unlink now provider p) d = (Ok tt, d')) :
  exists u a, (exists k, users (oa_auth d) !! k = Some u) /\
    oa_links d !! oa_id a = Some a /\ oa_user_id a = u_id u /\ oa_provider a = provider /\
    oa_links d' = delete (oa_id a) (oa_links d) /\ users (oa_auth d') = users (oa_auth d) /\
    (truthy (u_password_hash u) = true \/ links_of (u_id u) d' <> []).
Proof.
  apply in_transaction_ok in Hrun. apply bind_ok_inv in Hrun as (u & d1 & Hu & H).
  apply on_auth_inv in Hu as (a1 & [-> Hu]%get_authed_live & ->).
  apply bind_ok_inv in H as (found & d1 & [= <- <-] & H). apply bind_ok_inv in H as (a & d1 & [Hc ->]%of_result_inv & H).
  apply bind_ok_inv in H as ([] & d1 & [= <-] & (_ & Hl & Hus)%audit_ok). cbn in Hl, Hus.
  unfold unlink_checked in Hc. destruct (List.find _ _) as [b|] eqn:Ef; [|done].
  apply find_first in Ef as [Hin Hp%String.eqb_eq]. pose proof Hin as [Ha Hua%bool_decide_eq_true]%elem_of_select_keyed; [|done].
  destruct (bool_decide _ && _) eqn:Eb; [done|]. injection Hc as ->.
  exists u, b. split; [done|]. split; [done|]. split; [done|]. split; [done|]. split; [done|]. split; [done|].
  destruct (truthy (u_password_hash u)); [by left|]. right. rewrite andb_true_r in Eb. apply bool_decide_eq_false in Eb.
  apply another_row with (x := b) in Eb as (c & Hinc & Hne); [|by apply NoDup_select|done].
  intros Hnil. apply (not_elem_of_nil c). rewrite <- Hnil. apply elem_of_select_keyed in Hinc as [Hkc Hc]; [|done].
  apply elem_of_select. split; [|done]. exists (oa_id c). rewrite Hl, lookup_delete_ne; [done|].
  intros Heq. change (row_id c) with (oa_id c) in Hkc. change (row_id b) with (oa_id b) in Ha. congruence.
Qed.

(** ** Witnesses and examples *)

Definition sample_osettings : OAuthSettings :=
  mkOAuthSettings (Some ("client", "secret")) None "https://api.example.com/" 600 "internal" "https://app.example.com/".
Definition oauth_digest (s : string) : string := append "#" s.
(** A digest in hexadecimal, and a JSON library good for the states below. *)
Definition toy_hmac (k m : string) : string := if (String.length m <? 4)%nat then "0a" else "0b".
Definition toy_dumps (v : json) : list N :=
  match v with
  | JObj [("p", JStr "google"); ("v", JStr "V"); ("n", JStr "/home"); ("t", JInt t); ("r", JStr "N")] =>
      map Z.to_N [t / 16777216; t / 65536 mod 256; t / 256 mod 256; t mod 256]
  | _ => []
  end.
Definition toy_loads (b : list N) : option json :=
  match b with
  | [a; b; c; e] => Some (JObj [("p", JStr "google"); ("v", JStr "V"); ("n", JStr "/home");
                                ("t", JInt (Z.of_N (((a * 256 + b) * 256 + c) * 256 + e))); ("r", JStr "N")])
  | _ => None
  end.
Definition signed_state : string := sign_state sample_osettings toy_hmac toy_dumps "google" "V" (Some "/home") sample_time "N".

Lemma toy_hmac_hex k m : sall (fun d => negb (d =? ".")%char) (toy_hmac k m) = true.
Proof. unfold toy_hmac. by case_match. Qed.

Lemma state_roundtrip_witness :
  read_state sample_osettings toy_hmac toy_loads signed_state "google" (sample_time + 60 * SECOND) = Ok ("V", Some "/home") /\
  read_state sample_osettings toy_hmac toy_loads signed_state "google" (sample_time + 700 * SECOND) = Raise (app_error UnauthorizedError "") /\
  read_state sample_osettings toy_hmac toy_loads signed_state "github" sample_time = Raise (app_error UnauthorizedError "").
Proof.
  pose proof (fun named later => state_roundtrip sample_osettings toy_hmac toy_dumps toy_loads "google" "V" (Some "/home") sample_time "N" named later
    ltac:(vm_compute; repeat constructor) ltac:(vm_compute; reflexivity) toy_hmac_hex) as H.
  unfold signed_state. split; [|split]; rewrite H; vm_compute; reflexivity.
Defined.

(** The answers of Google about the person who holds the code. *)
Definition answers (verified : bool) (email sub : string) : result OAuthProfile :=
  google_exchange (Response 200 (JsonContent (JObj [("access_token", JStr "at")])))
    (Response 200 (JsonContent (JObj [("sub", JStr sub); ("email", JStr email); ("email_verified", JBool verified)]))).
Definition toy_exchange (_ code verifier : string) : result OAuthProfile :=
  match code with
  | "ada" => answers true "Ada@Example.com" "g-1"
  | "unverified" => answers false "ada@example.com" "g-2"
  | "new" => answers false "new@example.com" "g-3"
  | _ => Raise (app_error UpstreamError "")
  end.
Definition oauth_draws (n : N) (raw : string) : OAuthDraws := mkOAuthDraws (600 + n)%N (700 + n)%N (draws_of n raw).
Definition toy_callback now n raw code state :=
  in_transaction (callback sample_osettings sample_settings oauth_digest toy_encode toy_hmac toy_loads no_publisher toy_exchange now now
    (oauth_draws n raw) "google" (Some code) (Some state) None None None).
Definition with_ada : OAuthDb := mkOAuthDb one_user ∅.
Definition signed_by_google : OAuthDb := (toy_callback sample_time 1 "A" "ada" signed_state with_ada).2.

Lemma oauth_login_is_entitled_witness :
  exists u, entitled sample_time 601 (mkOAuthProfile "google" "g-1" (Some "Ada@Example.com") true None None
      (raw_of ["sub"; "email"; "name"; "picture"; "locale"]
         (JObj [("sub", JStr "g-1"); ("email", JStr "Ada@Example.com"); ("email_verified", JBool true)]))) with_ada u /\ u_id u = 7%N.
Proof.
  destruct (toy_callback sample_time 1 "A" "ada" signed_state with_ada) as [[cb|e] d'] eqn:E; [|vm_compute in E; discriminate].
  assert (Hu : exists u i, cb_issued cb = Some (u, i) /\ u_id u = 7%N) by (vm_compute in E; injection E as <- <-; by do 2 eexists).
  destruct Hu as (u & i & Hi & Hid). exists u. split; [|done].
  destruct (oauth_login_is_entitled sample_osettings sample_settings oauth_digest toy_encode toy_hmac toy_loads no_publisher toy_exchange
    sample_time sample_time (oauth_draws 1 "A") "google" (Some "ada") (Some signed_state) None None None with_ada cb d' u i)
    as (b & v & n & p & _ & _ & Hx & He & _); [solve_keyed|exact E|exact Hi|].
  vm_compute in Hx. injection Hx as <-. exact He.
Defined.


(** A sign-in through a provider asks neither for a second factor nor whether the
    account is banned: a banned account with MFA on gets a session. *)
Definition banned_user : User :=
  mkUser 7 "ada@example.com" None (Some "$2b$12$correct horse") None (mkProfile None None None) ["user"] [] false
    (Some sample_time) (Some "fraud") 0 None true None None sample_time None.
Definition with_banned : OAuthDb := mkOAuthDb (set_users {[ 7%N := banned_user ]} empty_auth) ∅.
Example banned_user_signs_in :
  match toy_callback sample_time 1 "A" "ada" signed_state with_banned with
  | (Ok cb, d) => exists i, cb_issued cb = Some (banned_user, i) /\ size (sessions (oa_auth d)) = 1%nat
  | _ => False
  end.
Proof. vm_compute. by eexists. Qed.

(** The address of an account that never verified it, linked to its real owner's
    identity: whoever registered it keeps the password. *)
Example unverified_owner_is_linked :
  u_email_verified_at sample_user = None /\
  (map oa_user_id (rows (oa_links signed_by_google)), truthy (u_password_hash sample_user)) = ([7%N], true).
Proof. split; [done|]. vm_compute. reflexivity. Qed.

(** The refusal to link raises, and its audit row goes with the transaction. *)
Example blocked_link_leaves_no_audit :
  toy_callback sample_time 1 "A" "unverified" signed_state with_ada = (Raise (app_error UnauthorizedError "oauth_link_requires_login"), with_ada).
Proof. vm_compute. reflexivity. Qed.

(** Nothing remembers a state: the same one is accepted again, from any browser. *)
Example state_is_replayable :
  match toy_callback (sample_time + SECOND) 2 "B" "ada" signed_state signed_by_google with
  | (Ok cb, d) => is_Some (cb_issued cb) /\ size (sessions (oa_auth d)) = 2%nat
  | _ => False
  end.
Proof. vm_compute. split; [by eexists|done]. Qed.

(** An unverified new address: the account is created, its address unverified. *)
Example unverified_address_registers :
  match toy_callback sample_time 1 "A" "new" signed_state with_ada with
  | (Ok cb, d) => (fun u => (u_email u, u_email_verified_at u)) <$> users (oa_auth d) !! 601%N = Some ("new@example.com", None)
  | _ => False
  end.
Proof. vm_compute. reflexivity. Qed.

Definition google_user : User :=
  mkUser 7 "ada@example.com" None None None (mkProfile None None None) ["user"] [] true None None 0 None false None None sample_time None.
Definition link_of (id : uuid) (provider : string) : OAuthAccount := mkOAuthAccount id 7 provider "1" None (JObj []) None None.
Definition two_links : OAuthDb :=
  mkOAuthDb (set_users {[ 7%N := google_user ]} empty_auth) {[ 1%N := link_of 1 "google"; 2%N := link_of 2 "github" ]}.
Definition google_principal : Principal := mkPrincipal (string_of_uuid 7) None ["user"] [] None None false.

Lemma unlink_keeps_a_way_in_witness :
  exists d', in_transaction (unlink sample_time "google" google_principal) two_links = (Ok tt, d') /\
    map oa_provider (links_of 7 d') = ["github"] /\
    exists u a, (exists k, users (oa_auth two_links) !! k = Some u) /\ oa_links two_links !! oa_id a = Some a /\
      oa_user_id a = u_id u /\ oa_provider a = "google" /\ oa_links d' = delete (oa_id a) (oa_links two_links) /\
      users (oa_auth d') = users (oa_auth two_links) /\ (truthy (u_password_hash u) = true \/ links_of (u_id u) d' <> []).
Proof.
  destruct (in_transaction (unlink sample_time "google" google_principal) two_links) as [[[]|e] d'] eqn:E; [|vm_compute in E; discriminate].
  exists d'. split; [done|]. split; [vm_compute in E; injection E as <-; vm_compute; reflexivity|].
  apply (unlink_keeps_a_way_in sample_time "google" google_principal two_links d'); [solve_keyed|exact E].
Defined.

(** The check reads the links without a lock: of an account without a password
    and two links, two requests that read them together each pass it. *)
Example concurrent_unlinks_leave_nothing :
  let found := links_of 7 two_links in
  (unlink_checked "google" google_user found, unlink_checked "github" google_user found) =
    (Ok (link_of 1 "google"), Ok (link_of 2 "github")) /\
  links_of 7 (snd (delete_link (link_of 2 "github") (snd (delete_link (link_of 1 "google") two_links)))) = [].
Proof. vm_compute. done. Qed.
