(* ===== verification/AuthAdmin.v ===== *)
(** * The retention sweep and the operators' view (apps/auth/services/maintenance.py, directory.py)

    What [prune] deletes, the foreign keys that act on it included, and the
    searches of the user directory and the audit log.  Text is compared with the
    database's collation, a parameter. *)

From S2P Require Import Prelude Store Json Pagination AuthDb Accounts Tokens Mfa AuthRoutes.

(** ** The sweep *)

Definition PROTECTED_ACTIONS : list string :=
  ["user.banned"; "user.unbanned"; "user.role_changed"; "token.reuse_detected"; "mfa.disabled"; "password.changed"].

Record PruneResult := mkPrune {
  pr_refresh_tokens : Z; pr_sessions : Z; pr_verification_tokens : Z; pr_reset_tokens : Z; pr_audit_logs : Z;
}.
Definition prune_total (r : PruneResult) : Z :=
  pr_refresh_tokens r + pr_sessions r + pr_verification_tokens r + pr_reset_tokens r + pr_audit_logs r.

(** [DELETE ... WHERE P] *)
Definition delete_where {V} (P : V -> bool) (t : table V) : table V := filter (fun kv => P kv.2 = false) t.
(** Rows of refresh_tokens go; [parent_id] is ON DELETE SET NULL. *)
Definition drop_tokens (P : RefreshToken -> bool) (m : table RefreshToken) : table RefreshToken :=
  (fun t => match rt_parent_id t ≫= (m !!.) with Some p => if P p then orphan t else t | None => t end) <$> delete_where P m.
(** Rows of sessions go; [session_id] of a refresh token is ON DELETE CASCADE. *)
Definition drop_sessions (P : Session -> bool) (d : AuthDb) : AuthDb :=
  set_sessions (delete_where P (sessions d))
    (set_refresh_tokens (drop_tokens (fun t => match sessions d !! rt_session_id t with Some s => P s | None => false end) (refresh_tokens d)) d).

(** The rows are counted, then deleted unless there are none or it is a dry run. *)
Definition count_or_delete (total : AuthDb -> Z) (delete : AuthDb -> AuthDb) (dry_run : bool) : M AuthDb Z :=
  n ← gets total;
  _ ← (if negb (n =? 0) && negb dry_run then modify delete else mret tt);
  mret n.

Definition stale_token (cutoff : datetime) (t : RefreshToken) : bool :=
  ((rt_expires_at t <? cutoff) || bool_decide (is_Some (rt_revoked_at t))) && (rt_created_at t <? cutoff).
Definition stale_session (cutoff : datetime) (s : Session) : bool := (s_expires_at s <? cutoff) && (s_created_at s <? cutoff).
Definition stale_log (cutoff : datetime) (l : AuditLog) : bool :=
  (al_created_at l <? cutoff) && bool_decide (al_action l ∉ PROTECTED_ACTIONS).

Definition prune (settings : AuthSettings) (now : datetime) (dry_run : bool) : M AuthDb PruneResult :=
  let token_cutoff := now - token_retention_days settings * DAY in
  let audit_cutoff := now - audit_retention_days settings * DAY in
  tokens ← count_or_delete (fun d => count (stale_token token_cutoff) (refresh_tokens d))
             (fun d => set_refresh_tokens (drop_tokens (stale_token token_cutoff) (refresh_tokens d)) d) dry_run;
  sessions ← count_or_delete (fun d => count (stale_session token_cutoff) (sessions d)) (drop_sessions (stale_session token_cutoff)) dry_run;
  verification ← count_or_delete (fun d => count (fun t => et_expires_at t <? now) (email_tokens d))
                   (fun d => set_email_tokens (delete_where (fun t => et_expires_at t <? now) (email_tokens d)) d) dry_run;
  reset ← count_or_delete (fun d => count (fun t => pt_expires_at t <? now) (reset_tokens d))
            (fun d => set_reset_tokens (delete_where (fun t => pt_expires_at t <? now) (reset_tokens d)) d) dry_run;
  logs ← count_or_delete (fun d => Z.of_nat (length (List.filter (stale_log audit_cutoff) (audit_logs d))))
           (fun d => set_audit_logs (List.filter (fun l => negb (stale_log audit_cutoff l)) (audit_logs d)) d) dry_run;
  mret (mkPrune tokens sessions verification reset logs).

(** ** The directory *)

Section directory.
Context (collate : string -> string -> comparison).

Definition like_any (term s : string) : bool := like (S (String.length term + String.length s)) term s.
Definition in_search (search : option string) (u : User) : bool :=
  match search with
  | None | Some "" => true
  | Some s =>
      let term := append "%" (append (lower (strip s)) "%") in
      like_any term (lower (u_email u)) ||
      match full_name (u_profile u) with Some n => like_any term (lower n) | None => false end
  end.
Definition in_status (status : option string) (u : User) : bool :=
  match status with
  | Some "banned" => bool_decide (is_Some (u_banned_at u))
  | Some "active" => bool_decide (u_banned_at u = None) && bool_decide (u_deleted_at u = None)
  | Some "unverified" => bool_decide (u_email_verified_at u = None)
  | Some "deleted" => bool_decide (is_Some (u_deleted_at u))
  | _ => true
  end.
Definition _filtered (search status : option string) (u : User) : bool := in_search search u && in_status status u.

(** Nulls are the greatest. *)
Definition compare_nullable (a b : option datetime) : comparison :=
  match a, b with Some x, Some y => x ?= y | None, None => Eq | None, Some _ => Gt | Some _, None => Lt end.
Definition SORTABLE (column : string) (a b : User) : comparison :=
  match column with
  | "last_login_at" => compare_nullable (u_last_login_at a) (u_last_login_at b)
  | "email" => collate (u_email a) (u_email b)
  | _ => u_created_at a ?= u_created_at b
  end.
Definition listed_before (sort_by sort_order : string) (a b : User) : bool :=
  let c := SORTABLE sort_by a b in
  match (if String.eqb sort_order "desc" then CompOpp c else c) with
  | Lt => true
  | Eq => (u_id a <=? u_id b)%N
  | Gt => false
  end.

Definition directory_rows (search status : option string) (sort_by sort_order : string) (d : AuthDb) : list User :=
  merge_sort (fun a b => Is_true (listed_before sort_by sort_order a b)) (select (_filtered search status) (users d)).
Definition list_users (limit offset : Z) (search status : option string) (sort_by sort_order : string) : M AuthDb (list User * Z) :=
  total ← gets (fun d => count (_filtered search status) (users d));
  rs ← gets (fun d => slice offset limit (directory_rows search status sort_by sort_order d));
  mret (rs, total).
End directory.

Definition not_deleted (u : User) : bool := bool_decide (u_deleted_at u = None).
Definition stats (now : datetime) (days : Z) (d : AuthDb) : list (string * Z) :=
  let since := now - days * DAY in
  [("total", count not_deleted (users d));
   ("new_in_window", count (fun u => (since <=? u_created_at u) && not_deleted u) (users d));
   ("verified", count (fun u => is_email_verified u && not_deleted u) (users d));
   ("banned", count (fun u => bool_decide (is_Some (u_banned_at u))) (users d));
   ("active_in_window", count (fun u => match u_last_login_at u with Some t => since <=? t | None => false end && not_deleted u) (users d))].

(** ** The audit log *)

Definition in_log (since : datetime) (user actor : option uuid) (action : option string) (l : AuditLog) : bool :=
  (since <=? al_created_at l) &&
  match user with Some u => bool_decide (al_user_id l = Some u) | None => true end &&
  match actor with Some a => bool_decide (al_actor_id l = Some a) | None => true end &&
  match action with None | Some "" => true | Some a => String.eqb (al_action l) a end.
(** Rows of one instant stay in the order they were written in. *)
Definition audit_search (now : datetime) (limit offset : Z) (user actor : option uuid) (action : option string) (days : Z) (d : AuthDb)
    : list AuditLog * Z :=
  let found := List.filter (in_log (now - days * DAY) user actor action) (audit_logs d) in
  (slice offset limit (latest_first al_created_at found), Z.of_nat (length found)).
Definition audit_actions (now : datetime) (days : Z) (d : AuthDb) : list string :=
  sorted_set (map al_action (List.filter (fun l => now - days * DAY <=? al_created_at l) (audit_logs d))).

(** ** Lemmas: what the sweep leaves *)

Lemma lookup_delete_where {V} (P : V -> bool) (t : table V) k v : delete_where P t !! k = Some v <-> t !! k = Some v /\ P v = false.
Proof. unfold delete_where. by rewrite map_lookup_filter_Some. Qed.

Lemma pruned_refl m : pruned_from m m.
Proof. intros k t Ht. exists t. by auto. Qed.
Lemma pruned_trans m1 m2 m3 : pruned_from m1 m2 -> pruned_from m2 m3 -> pruned_from m1 m3.
Proof.
  intros H12 H23 k t (t2 & (t1 & Ht1 & H1)%H12 & H2)%H23. exists t1. split; [done|].
  destruct H1 as [->| ->], H2 as [->| ->]; auto.
Qed.

(** A row that is kept, with its parent or without. *)
Definition stays (k : uuid) (t : RefreshToken) (m : table RefreshToken) : Prop := m !! k = Some t \/ m !! k = Some (orphan t).

Lemma drop_tokens_pruned P m : pruned_from m (drop_tokens P m).
Proof.
  intros k t. unfold drop_tokens. rewrite lookup_fmap, fmap_Some. intros (t0 & [H0 _]%lookup_delete_where & ->).
  exists t0. split; [done|]. repeat case_match; auto.
Qed.
Lemma drop_tokens_stays P m k t : m !! k = Some t -> P t = false -> stays k t (drop_tokens P m).
Proof.
  intros Hk HP. unfold stays, drop_tokens. rewrite lookup_fmap, (proj2 (lookup_delete_where P m k t)) by done. cbn.
  repeat case_match; auto.
Qed.
Lemma stays_trans k t m m' : stays k t m -> (forall t', (t' = t \/ t' = orphan t) -> m !! k = Some t' -> stays k t' m') -> stays k t m'.
Proof. intros [H|H] Hm; [by apply Hm; [left|]|]. destruct (Hm (orphan t) (or_intror eq_refl) H) as [H'|H']; by right. Qed.

Lemma count_or_delete_inv total delete dry d r d' : count_or_delete total delete dry d = (r, d') ->
  r = Ok (total d) /\ (d' = d \/ dry = false /\ d' = delete d).
Proof.
  unfold count_or_delete. intros [(n & d1 & [= <- <-] & H)|(e & [=] & _)]%bind_inv.
  destruct (negb (total d =? 0) && negb dry) eqn:E.
  - apply bind_inv in H as [([] & d2 & [= <-] & [= <- <-])|(e & [=] & _)]. apply andb_prop in E as [_ Hdry].
    apply negb_true_iff in Hdry. by auto.
  - apply bind_inv in H as [([] & d2 & [= <-] & [= <- <-])|(e & [=] & _)]. by auto.
Qed.

(** Everything the sweep at [now] must leave alone, from [d] to [d']. *)
Record swept (settings : AuthSettings) (now : datetime) (d d' : AuthDb) : Prop := {
  sw_accounts : users d' = users d /\ totp_secrets d' = totp_secrets d /\ recovery_codes d' = recovery_codes d;
  sw_pruned : pruned_from (refresh_tokens d) (refresh_tokens d');
  sw_tokens k t : refresh_tokens d !! k = Some t -> stale_token (now - token_retention_days settings * DAY) t = false ->
    (forall s, sessions d !! rt_session_id t = Some s -> stale_session (now - token_retention_days settings * DAY) s = false) ->
    stays k t (refresh_tokens d');
  sw_sessions k s : sessions d !! k = Some s -> stale_session (now - token_retention_days settings * DAY) s = false ->
    sessions d' !! k = Some s;
  sw_sessions_sub k s : sessions d' !! k = Some s -> sessions d !! k = Some s;
  sw_verification k t : email_tokens d !! k = Some t -> now <= et_expires_at t -> email_tokens d' !! k = Some t;
  sw_reset k t : reset_tokens d !! k = Some t -> now <= pt_expires_at t -> reset_tokens d' !! k = Some t;
  sw_logs l : l ∈ audit_logs d -> now - audit_retention_days settings * DAY <= al_created_at l \/ al_action l ∈ PROTECTED_ACTIONS ->
    l ∈ audit_logs d';
}.

Lemma kept_log cutoff l logs : l ∈ logs -> cutoff <= al_created_at l \/ al_action l ∈ PROTECTED_ACTIONS ->
  l ∈ List.filter (fun l => negb (stale_log cutoff l)) logs.
Proof.
  intros Hl Hk. apply list_elem_of_In, filter_In. split; [by apply list_elem_of_In|]. apply negb_true_iff. unfold stale_log.
  apply andb_false_iff. destruct Hk as [Hk|Hk]; [left; by apply Z.ltb_ge|right; apply bool_decide_eq_false; by intros Hn].
Qed.

Lemma swept_refl settings now d : swept settings now d d.
Proof. constructor; try done; [apply pruned_refl|]. intros. by left. Qed.

Lemma swept_trans settings now d1 d2 d3 : swept settings now d1 d2 -> swept settings now d2 d3 -> swept settings now d1 d3.
Proof.
  intros H12 H23. constructor.
  - destruct (sw_accounts _ _ _ _ H12) as (? & ? & ?), (sw_accounts _ _ _ _ H23) as (? & ? & ?). repeat split; congruence.
  - eapply pruned_trans; [apply H12|apply H23].
  - intros k t Ht Hst Hs. eapply stays_trans; [by apply H12|]. intros t' Heq Ht'. apply H23; [done|by destruct Heq as [->| ->]|].
    intros s Hs'. apply Hs. eapply sw_sessions_sub; [exact H12|]. by destruct Heq as [->| ->].
  - intros k s Hk Hst. apply H23; [by apply H12|done].
  - intros k s Hk. apply H12, H23, Hk.
  - intros k t Hk He. apply H23; [by apply H12|done].
  - intros k t Hk He. apply H23; [by apply H12|done].
  - intros l Hl Hk. apply H23; [by apply H12|done].
Qed.

Lemma sweep_tokens_ok settings now d :
  let stale := stale_token (now - token_retention_days settings * DAY) in
  swept settings now d (set_refresh_tokens (drop_tokens stale (refresh_tokens d)) d).
Proof. intros stale. constructor; try done; [apply drop_tokens_pruned|]. intros k t Ht Hst _. by apply drop_tokens_stays. Qed.

Lemma sweep_sessions_ok settings now d : swept settings now d (drop_sessions (stale_session (now - token_retention_days settings * DAY)) d).
Proof.
  constructor; try done.
  - apply drop_tokens_pruned.
  - intros k t Ht _ Hs. apply drop_tokens_stays; [done|]. destruct (sessions d !! rt_session_id t) as [s|]; [by apply Hs|done].
  - intros k s Hk Hs. by apply lookup_delete_where.
  - by intros k s [? _]%lookup_delete_where.
Qed.

(** Every run returns, and leaves alone what must be; a dry run leaves all. *)
Definition sweeps {A} (settings : AuthSettings) (now : datetime) (dry : bool) (m : M AuthDb A) : Prop :=
  forall d r d', m d = (r, d') -> (exists a, r = Ok a) /\ swept settings now d d' /\ (dry = true -> d' = d).

Lemma sweeps_ret {A} settings now dry (a : A) : sweeps settings now dry (mret a).
Proof. intros d r d' [= <- <-]. split; [by eexists|]. split; [apply swept_refl|done]. Qed.

Lemma sweeps_bind {A B} settings now dry (m : M AuthDb A) (k : A -> M AuthDb B) :
  sweeps settings now dry m -> (forall a, sweeps settings now dry (k a)) -> sweeps settings now dry (m ≫= k).
Proof.
  intros Hm Hk d r d' [(a & d1 & H1 & H)|(e & H & _)]%bind_inv; [|by apply Hm in H as ((a & [=]) & _)].
  apply Hm in H1 as (_ & Hs1 & Hd1). apply Hk in H as (Hr & Hs2 & Hd2). split; [done|].
  split; [by eapply swept_trans|]. intros Hdry. by rewrite Hd2, Hd1.
Qed.

Lemma sweeps_step settings now dry total delete : (forall d, swept settings now d (delete d)) ->
  sweeps settings now dry (count_or_delete total delete dry).
Proof.
  intros Hdel d r d' [-> [->|[-> ->]]]%count_or_delete_inv; (split; [by eexists|]); (split; [|done]); [apply swept_refl|done].
Qed.

Lemma prune_sweeps settings now dry : sweeps settings now dry (prune settings now dry).
Proof.
  unfold prune. apply sweeps_bind; [apply sweeps_step; intros d; apply sweep_tokens_ok|intros n1].
  apply sweeps_bind; [apply sweeps_step; intros d; apply sweep_sessions_ok|intros n2].
  apply sweeps_bind; [apply sweeps_step; intros d|intros n3].
  { constructor; try done; [apply pruned_refl|intros; by left|]. intros k t Hk He. apply lookup_delete_where. split; [done|by apply Z.ltb_ge]. }
  apply sweeps_bind; [apply sweeps_step; intros d|intros n4].
  { constructor; try done; [apply pruned_refl|intros; by left|]. intros k t Hk He. apply lookup_delete_where. split; [done|by apply Z.ltb_ge]. }
  apply sweeps_bind; [apply sweeps_step; intros d|intros n5; apply sweeps_ret].
  constructor; try done; [apply pruned_refl|intros; by left|]. intros l Hl Hk. by apply kept_log.
Qed.

(** A token that is found is found after the sweep, when it and its session stay. *)
Lemma find_token_swept settings now h d d' t :
  keyed (refresh_tokens d) -> swept settings now d d' ->
  select (fun t => String.eqb (rt_token_hash t) h) (refresh_tokens d) = [t] ->
  stale_token (now - token_retention_days settings * DAY) t = false ->
  (forall s, sessions d !! rt_session_id t = Some s -> stale_session (now - token_retention_days settings * DAY) s = false) ->
  exists t', (t' = t \/ t' = orphan t) /\ find_token h d' = (Ok (Some t'), d').
Proof.
  intros Hk Hsw Hsel Hst Hs.
  assert (Ht : t ∈ [t]) by by left. rewrite <- Hsel in Ht. apply elem_of_select_keyed in Ht as [Ht Hh]; [|done].
  assert (Huniq : forall i w, refresh_tokens d' !! i = Some w -> String.eqb (rt_token_hash w) h = true -> i = rt_id t).
  { intros i w (w0 & Hw & Heq)%(sw_pruned _ _ _ _ Hsw) Hwh.
    assert (Hin : w0 ∈ [t]). { rewrite <- Hsel. apply elem_of_select. split; [by exists i|]. by destruct Heq as [->| ->]. }
    apply list_elem_of_singleton in Hin as ->. symmetry. exact (Hk i t Hw). }
  assert (Hk' : keyed (refresh_tokens d')).
  { intros i w (w0 & Hw & [->| ->])%(sw_pruned _ _ _ _ Hsw); exact (Hk i w0 Hw). }
  assert (Hex : exists t', (t' = t \/ t' = orphan t) /\ refresh_tokens d' !! rt_id t = Some t')
    by (destruct (sw_tokens _ _ _ _ Hsw _ _ Ht Hst Hs); eauto).
  destruct Hex as (t' & Heq & Ht'). exists t'. split; [done|]. unfold find_token. erewrite bind_ok by reflexivity.
  rewrite (select_singleton _ _ t' (rt_id t)); [done|done|done|by destruct Heq as [->| ->]|].
  intros i w Hi Hw. rewrite (Huniq i w Hi Hw) in Hi. change (row_id t) with (rt_id t) in *. congruence.
Qed.

(** C24: The retention sweep never takes what is still in use.  It always
    returns; accounts and second factors are not touched; a refresh token that
    could still be exchanged, now or later, is found afterwards and can still be
    exchanged for the same session and user; a consumed or revoked one younger
    than the retention window, whose session is not past it either, is still
    recognised when it is replayed; unexpired verification and reset links and
    audit entries that are protected or young enough stay; no token appears or
    changes (but for a parent that is gone); and a dry run changes nothing. *)
Theorem sweep_spares_what_is_used settings hash_token now dry d r d'
    (Hkey : keyed (refresh_tokens d)) (Hretention : 0 <= token_retention_days settings)
    (Hrun : prune settings now dry d = (r, d')) :
  (exists pr, r = Ok pr) /\
  users d' = users d /\ totp_secrets d' = totp_secrets d /\ recovery_codes d' = recovery_codes d /\
  pruned_from (refresh_tokens d) (refresh_tokens d') /\
  (forall h later csrf t s u, now <= later -> find_token h d = (Ok (Some t), d) -> exchangeable hash_token later csrf t s u d ->
     exists t', (t' = t \/ t' = orphan t) /\ find_token h d' = (Ok (Some t'), d') /\ exchangeable hash_token later csrf t' s u d') /\
  (forall h t s, find_token h d = (Ok (Some t), d) -> now - token_retention_days settings * DAY <= rt_created_at t ->
     sessions d !! rt_session_id t = Some s -> now - token_retention_days settings * DAY <= s_expires_at s ->
     exists t', (t' = t \/ t' = orphan t) /\ find_token h d' = (Ok (Some t'), d')) /\
  (forall k t, email_tokens d !! k = Some t -> now <= et_expires_at t -> email_tokens d' !! k = Some t) /\
  (forall k t, reset_tokens d !! k = Some t -> now <= pt_expires_at t -> reset_tokens d' !! k = Some t) /\
  (forall l, l ∈ audit_logs d -> now - audit_retention_days settings * DAY <= al_created_at l \/ al_action l ∈ PROTECTED_ACTIONS ->
     l ∈ audit_logs d') /\
  (dry = true -> d' = d).
Proof.
  apply prune_sweeps in Hrun as (Hr & Hsw & Hdry). pose proof (sw_accounts _ _ _ _ Hsw) as (Hu & Ht & Hc).
  assert (Hday : 0 < DAY) by (unfold DAY, SECOND; lia).
  split; [done|]. split; [done|]. split; [done|]. split; [done|]. split; [by apply Hsw|]. split; [|split].
  - intros h later csrf t s u Hle Hf Hex. apply find_token_inv in Hf as [_ Hsel].
    destruct (ex_session_live _ _ _ _ _ _ _ Hex) as [Hsr Hse]. pose proof (ex_unexpired _ _ _ _ _ _ _ Hex) as Hte.
    pose proof (ex_unrevoked _ _ _ _ _ _ _ Hex) as Htr. pose proof (ex_session _ _ _ _ _ _ _ Hex) as Hs.
    assert (Hst : stale_session (now - token_retention_days settings * DAY) s = false) by (apply andb_false_iff; left; apply Z.ltb_ge; nia).
    destruct (find_token_swept settings now h d d' t) as (t' & Heq & Hf'); [done|done|done| | |].
    + apply andb_false_iff. left. rewrite Htr. apply orb_false_iff. split; [apply Z.ltb_ge; nia|done].
    + intros s' Hs'. by replace s' with s by congruence.
    + exists t'. split; [done|]. split; [done|]. destruct Hex. constructor; try (destruct Heq as [->| ->]; done).
      * destruct Heq as [->| ->]; by eapply sw_sessions.
      * rewrite Hu. by destruct Heq as [->| ->].
  - intros h t s Hf Hcr Hs Hse. apply find_token_inv in Hf as [_ Hsel]. eapply find_token_swept; [done|done|done| |].
    + apply andb_false_iff. right. by apply Z.ltb_ge.
    + intros s' Hs'. replace s' with s by congruence. apply andb_false_iff. left. by apply Z.ltb_ge.
  - destruct Hsw. done.
Qed.

(** *** The directory *)

(** The pages of a search, one after the other, hold every account that matches
    once, and each says how many there are. *)
Lemma directory_pages_complete collate limit search status sort_by sort_order d n :
  1 <= limit -> count (_filtered search status) (users d) <= Z.of_nat n * limit ->
  let page i := list_users collate limit (Z.of_nat i * limit) search status sort_by sort_order d in
  (forall i, exists rs, page i = (Ok (rs, count (_filtered search status) (users d)), d)) /\
  concat (map (fun i => match (page i).1 with Ok (rs, _) => rs | Raise _ => [] end) (seq 0 n)) ≡ₚ
    select (_filtered search status) (users d).
Proof.
  intros Hl Hn page. split; [intros i; by eexists|].
  rewrite (map_ext _ (fun i => take (Z.to_nat limit) (drop (i * Z.to_nat limit) (directory_rows collate search status sort_by sort_order d)))).
  2:{ intros i. change (slice (Z.of_nat i * limit) limit (directory_rows collate search status sort_by sort_order d) =
        take (Z.to_nat limit) (drop (i * Z.to_nat limit) (directory_rows collate search status sort_by sort_order d))).
      unfold slice. by replace (Z.to_nat (Z.of_nat i * limit)) with (i * Z.to_nat limit)%nat by (rewrite Z2Nat.inj_mul; lia). }
  rewrite concat_slices. unfold directory_rows. rewrite take_ge; [apply merge_sort_Permutation|].
  rewrite merge_sort_Permutation. apply Nat2Z.inj_le. rewrite Nat2Z.inj_mul, Z2Nat.id by lia. exact Hn.
Qed.

(** ** Witnesses and examples *)

Definition swept_signed_in : AuthDb := (prune sample_settings (sample_time + DAY) false signed_in).2.

Lemma sweep_spares_what_is_used_witness :
  exists t' s u, find_token (toy_digest "A") swept_signed_in = (Ok (Some t'), swept_signed_in) /\
    exchangeable toy_digest (sample_time + 2 * DAY) (Some "csrf-A") t' s u swept_signed_in /\ (rt_id t', s_id s, u_id u) = (301%N, 101%N, 7%N).
Proof.
  destruct (prune sample_settings (sample_time + DAY) false signed_in) as [r d'] eqn:E.
  assert (Hd : swept_signed_in = d') by (unfold swept_signed_in; by rewrite E). rewrite Hd.
  destruct (sweep_spares_what_is_used sample_settings toy_digest (sample_time + DAY) false signed_in r d'
    ltac:(solve_keyed) ltac:(vm_compute; discriminate) E) as (_ & _ & _ & _ & _ & H & _).
  destruct (find_token (toy_digest "A") signed_in) as [[[t|]|e] d1] eqn:Et; [|vm_compute in Et; discriminate..].
  destruct (sessions signed_in !! 101%N) as [s|] eqn:Es; [|vm_compute in Es; discriminate].
  destruct (users signed_in !! 7%N) as [u|] eqn:Eu; [|vm_compute in Eu; discriminate].
  pose proof Et as Ht. apply find_token_inv in Ht as [-> _].
  assert (Hex : exchangeable toy_digest (sample_time + 2 * DAY) (Some "csrf-A") t s u signed_in /\ (rt_id t, s_id s, u_id u) = (301%N, 101%N, 7%N)).
  { vm_compute in Et. injection Et as <-. vm_compute in Es. injection Es as <-. vm_compute in Eu. injection Eu as <-.
    split; [|done]. constructor; try (vm_compute; done); by intros c [= <-]. }
  destruct Hex as [Hex Hid]. destruct (H (toy_digest "A") (sample_time + 2 * DAY) (Some "csrf-A") t s u) as (t' & Heq & Hf & Hx);
    [vm_compute; discriminate|exact Et|exact Hex|].
  exists t', s, u. split; [exact Hf|]. split; [exact Hx|]. by destruct Heq as [->| ->].
Defined.

Definition log_of (action : string) (at_ : datetime) : AuditLog := mkAudit (Some 7%N) None action "success" None None [] at_.
(** The names protected and the names recorded differ: a password change is
    written as [password.change] (change_password) or [password.reset]. *)
Example password_changes_are_swept :
  let d := set_audit_logs [log_of "password.change" sample_time; log_of "password.reset" sample_time; log_of "user.banned" sample_time] signed_in in
  map al_action (audit_logs (prune sample_settings (sample_time + 400 * DAY) false d).2) = ["user.banned"].
Proof. vm_compute. reflexivity. Qed.

(** A session is dropped 45 days after it ends, and its tokens with it: one
    rotated on the last day is gone 16 days after its own expiry, and the result
    does not count it. *)
Definition last_day : AuthDb :=
  (in_transaction (refresh sample_settings toy_digest toy_encode (sample_time + 29 * DAY) (sample_time + 29 * DAY)
     (ld_tokens (draws_of 2 "B")) (Some "A") (Some "csrf-A") None) signed_in).2.
Example cascade_takes_recent_tokens :
  let run := prune sample_settings (sample_time + 76 * DAY) false last_day in
  (size (refresh_tokens last_day), size (refresh_tokens run.2)) = (2%nat, 0%nat) /\
  run.1 = Ok (mkPrune 1 1 0 0 0) /\
  (fun t => sample_time + 60 * DAY - 2 * DAY <? rt_expires_at t) <$> refresh_tokens last_day !! 302%N = Some true.
Proof. vm_compute. done. Qed.

(** A wildcard typed into the search is one. *)
Example wildcards_are_not_escaped : in_search (Some "a_a@") sample_user = true /\ in_search (Some "%.com") sample_user = true.
Proof. vm_compute. done. Qed.
