(* ===== verification/PaymentRoutes.v ===== *)
(** * Payment administration and billing (apps/payment/routers/admin.py, billing.py)

    What an operator, another service and a customer looking after their own
    account can do: the services of Orders.v, Refunds.v, Payments.v, Coupons.v,
    Subscriptions.v, Affiliates.v, Invoices.v and Webhooks.v composed in one
    database session per request, with the events a request publishes.  The
    permission checks are Security.v's and happen before the handler. *)

From S2P Require Import Prelude Store Json Coupons PaymentModels Db Dates Pagination Orders Invoices Affiliates Payments Gateways ReturnUrl Webhooks Refunds Subscriptions Reports Checkout.

(** One session per request, committed when the handler returns. *)
Definition serve {A} (m : M (session Db) A) : M (session Db) A :=
  try_except (a ← m; _ ← commit; mret a) (fun e => _ ← rollback; raise e).
(** A service method that commits. *)
Definition committing {A} (m : M Db A) : M (session Db) A := a ← in_session m; _ ← commit; mret a.

(** ** Service methods only these routes use *)

(** OrderService.list_all *)
Definition in_listing (status : option OrderStatus) (user_id : option uuid) (since until : option datetime) (o : Order) : bool :=
  match status with Some s => bool_decide (o_status o = s) | None => true end &&
  match user_id with Some u => (o_user_id o =? u)%N | None => true end &&
  match since with Some t => t <=? oc_created_at (o_cols o) | None => true end &&
  match until with Some t => oc_created_at (o_cols o) <=? t | None => true end.
Definition list_all (scan : list Order -> list Order) (status : option OrderStatus) (user_id : option uuid) (since until : option datetime)
    (limit offset : Z) (d : Db) : list Order * Z :=
  let wanted := in_listing status user_id since until in
  (slice offset limit (latest_first (fun o => oc_created_at (o_cols o)) (scan (select wanted (orders d)))), count wanted (orders d)).

Record CouponUpdate := mkCouponUpdate {
  cu_description : field string;
  cu_value : field Z;
  cu_max_discount_minor : field Z;
  cu_min_order_minor : field Z;
  cu_usage_limit : field Z;
  cu_per_user_limit : field Z;
  cu_valid_from : field datetime;
  cu_valid_until : field datetime;
  cu_is_active : field bool;
  cu_applicable_book_ids : field (list uuid);
  cu_applicable_category_ids : field (list uuid);
}.
(** The bounds its fields are declared with. *)
Definition at_least (n : Z) (f : field Z) : bool := match f with Some (Some v) => n <=? v | _ => true end.
Definition coupon_update_valid (p : CouponUpdate) : bool :=
  at_least 0 (cu_value p) && at_least 0 (cu_max_discount_minor p) && at_least 0 (cu_min_order_minor p) &&
  at_least 1 (cu_usage_limit p) && at_least 1 (cu_per_user_limit p).

(** [setattr] for each field that was sent: a nullable column and one that is not. *)
Definition sent {A} (f : field A) (current : option A) : option A := default current f.
Definition sent_value {A} (f : field A) (current : A) : A := match f with Some (Some v) => v | _ => current end.
Definition nulled {A} (f : field A) : bool := match f with Some None => true | _ => false end.
Definition updated_coupon (p : CouponUpdate) (c : Coupon) : Coupon :=
  {| cp_id := cp_id c; cp_code := cp_code c; cp_description := sent (cu_description p) (cp_description c);
     cp_coupon_type := cp_coupon_type c; cp_value := sent_value (cu_value p) (cp_value c);
     cp_max_discount_minor := sent (cu_max_discount_minor p) (cp_max_discount_minor c);
     cp_min_order_minor := sent_value (cu_min_order_minor p) (cp_min_order_minor c); cp_currency := cp_currency c;
     cp_usage_limit := sent (cu_usage_limit p) (cp_usage_limit c); cp_usage_count := cp_usage_count c;
     cp_per_user_limit := sent_value (cu_per_user_limit p) (cp_per_user_limit c);
     cp_valid_from := sent (cu_valid_from p) (cp_valid_from c); cp_valid_until := sent (cu_valid_until p) (cp_valid_until c);
     cp_is_active := sent_value (cu_is_active p) (cp_is_active c);
     cp_applicable_book_ids := sent_value (cu_applicable_book_ids p) (cp_applicable_book_ids c);
     cp_applicable_category_ids := sent_value (cu_applicable_category_ids p) (cp_applicable_category_ids c) |}.
(** A null in a column that has none, or a broken CHECK, fails the commit. *)
Definition update_coupon (c : Coupon) (p : CouponUpdate) : M CouponStore Coupon :=
  _ ← raise_when (nulled (cu_value p) || nulled (cu_min_order_minor p) || nulled (cu_per_user_limit p) || nulled (cu_is_active p) ||
                  nulled (cu_applicable_book_ids p) || nulled (cu_applicable_category_ids p)) IntegrityErr;
  _ ← raise_when (negb (coupon_checks (updated_coupon p c))) IntegrityErr;
  _ ← modify (fun s => set_coupons (alter (updated_coupon p) (cp_id c) (coupons s)) s);
  mret (updated_coupon p c).

(** [created]: the created_at column, which nothing else reads. *)
Definition list_coupons (created : Coupon -> datetime) (scan : list Coupon -> list Coupon) (active_only : bool) (limit offset : Z) (d : Db)
    : list Coupon * Z :=
  let wanted := fun c => negb active_only || cp_is_active c in
  (slice offset limit (latest_first created (scan (select wanted (coupons (coupon_store d))))), count wanted (coupons (coupon_store d))).

Section routes.
Context (settings : Settings) (http : PaymentProvider -> http_client) (hmac : string -> string -> string) (netloc_ok : string -> bool).
(** The order in which the database returns rows a query does not order. *)
Context (scan_orders : list Order -> list Order) (scan_refunds : list Refund -> list Refund) (scan_plans : list SubscriptionPlan -> list SubscriptionPlan)
        (scan_events : list WebhookEvent -> list WebhookEvent) (scan_invoices : list Invoice -> list Invoice)
        (scan_conversions : list AffiliateConversion -> list AffiliateConversion) (scan_subscriptions : list Subscription -> list Subscription).

(** ** Orders and refunds *)

Definition admin_list_orders status user_id since until limit offset : M (session Db) (list Order * Z) :=
  gets (fun s => list_all scan_orders status user_id since until limit offset (working s)).
Definition admin_get_order (order_id : uuid) : M (session Db) Order := in_session (get_order order_id).

(** [id] is the primary key drawn for the refund row. *)
Definition refund_order (now : datetime) (id order_id : uuid) (amount_minor : option Z) (reason : option string) (revoke_entitlements : bool)
    (principal : Principal) (pub : option publisher) : M (session Db) (Refund * list event) :=
  o ← in_session (get_order order_id);
  actor ← of_result (user_uuid principal);
  '(rf, o') ← in_session (Refunds.create settings http now id o amount_minor reason (Some actor));
  _ ← commit;
  mret (rf, announce_refunded pub o' (rf_amount_minor rf) revoke_entitlements).

Definition list_order_refunds (order_id : uuid) : M (session Db) (list Refund) :=
  gets (fun s => Refunds.list_for_order scan_refunds order_id (working s)).

Definition manual_reference (o : Order) (principal : Principal) : string :=
  append "manual_" (append (string_of_uuid (o_id o)) (append "_" (user_id principal))).
Definition mark_order_paid (now : datetime) (race : races) (order_id : uuid) (principal : Principal) (pub : option publisher)
    : M (session Db) (Order * list event) :=
  o ← in_session (get_order order_id);
  result ← in_session (settle settings now race o MANUAL (manual_reference o principal) None None None
                         (Some (JObj [("settled_by", JStr (user_id principal)); ("channel", JStr "manual")])));
  _ ← commit;
  mret (sr_order result, announce_paid pub result).

(** ** Coupons and plans *)

Definition create_coupon_route (payload : CouponCreate) : M (session Db) Coupon := committing (on_coupons (Coupons.create payload)).
Definition update_coupon_route (coupon_id : uuid) (payload : CouponUpdate) : M (session Db) Coupon :=
  c ← in_session (on_coupons (get_coupon coupon_id));
  committing (on_coupons (update_coupon c payload)).
Definition deactivate_coupon_route (coupon_id : uuid) : M (session Db) Coupon :=
  c ← in_session (on_coupons (get_coupon coupon_id));
  _ ← committing (on_coupons (Coupons.deactivate c));
  in_session (on_coupons (get_coupon coupon_id)).

Definition admin_list_plans : M (session Db) (list SubscriptionPlan) := gets (fun s => list_plans scan_plans false (working s)).
Definition create_plan_route (payload : PlanCreate) : M (session Db) SubscriptionPlan := committing (create_plan payload).
Definition update_plan_route (plan_id : uuid) (payload : PlanUpdate) : M (session Db) SubscriptionPlan :=
  p ← in_session (get_plan plan_id);
  committing (update_plan p payload).

(** ** Webhooks and reports *)

Definition list_webhooks provider processed limit offset : M (session Db) (list WebhookEvent) :=
  gets (fun s => list_events scan_events provider processed limit offset (working s)).

(** A settlement is announced without its payment and its invoice. *)
Definition replay_webhook (now : datetime) (race : races) (webhook_event_id : uuid) (pub : option publisher) : M (session Db) (list event) :=
  outcome ← Webhooks.replay settings now race webhook_event_id;
  _ ← raise_when (negb (wo_accepted outcome)) (app_error NotFoundError "");
  match wo_settled_order_id outcome with
  | None => mret []
  | Some order_id =>
      o ← in_session (get_order order_id);
      mret (announce_paid pub (mkSettlement o None None true))
  end.

Definition revenue_route (since until : option datetime) : M (session Db) RevenueSummary :=
  gets (fun s => Reports.revenue (default_currency settings) since until (working s)).
Definition admin_list_invoices (user : uuid) (limit offset : Z) : M (session Db) (list Invoice * Z) :=
  gets (fun s => list_invoices scan_invoices user limit offset (working s)).

(** ** For the other services *)

Record InternalOrderSummary := mkSummary {
  is_id : uuid; is_order_number : string; is_user_id : uuid; is_status : OrderStatus; is_total_minor : Z; is_currency : string;
  is_book_ids : list uuid; is_paid_at : option datetime;
}.
Definition internal_get_order (order_id : uuid) : M (session Db) InternalOrderSummary :=
  o ← in_session (get_order order_id);
  mret (mkSummary (o_id o) (oc_order_number (o_cols o)) (o_user_id o) (o_status o) (o_total_minor o) (oc_currency (o_cols o))
          (order_book_ids o) (o_paid_at o)).

Definition PURCHASE_LIMIT : Z := 500.
Definition purchased_from (rows : list Order) : list uuid :=
  fromkeys (concat (map order_book_ids (List.filter (fun o => bool_decide (o_status o ∈ [PAID; PARTIALLY_REFUNDED])) rows))).
Definition internal_purchased_books (user : uuid) : M (session Db) (list uuid) :=
  gets (fun s => purchased_from (list_all scan_orders None (Some user) None None PURCHASE_LIMIT 0 (working s)).1).
Definition internal_subscription_active (now : datetime) (user : uuid) : M (session Db) bool :=
  gets (fun s => negb (bool_decide (active_for_user now user (working s) = None))).

Definition internal_expire_orders (now : datetime) (batch : nat) : M (session Db) Z := committing (expire_stale scan_orders now batch).
Definition internal_approve_conversions (now : datetime) (batch : nat) : M (session Db) Z :=
  committing (approve_matured settings scan_conversions now batch).
Definition internal_expire_subscriptions (now : datetime) (batch : nat) : M (session Db) Z :=
  committing (expire_lapsed scan_subscriptions now batch).

(** ** The customer's own records *)

Definition my_invoices (principal : Principal) (limit offset : Z) : M (session Db) (list Invoice * Z) :=
  user ← of_result (user_uuid principal);
  gets (fun s => list_invoices scan_invoices user limit offset (working s)).
Definition my_invoice (invoice_id : uuid) (principal : Principal) : M (session Db) Invoice :=
  user ← of_result (user_uuid principal);
  in_session (get_invoice_for_user invoice_id user).

Definition public_plans : M (session Db) (list SubscriptionPlan) := gets (fun s => list_plans scan_plans true (working s)).
Definition my_subscriptions (principal : Principal) : M (session Db) (list Subscription) :=
  user ← of_result (user_uuid principal);
  gets (fun s => Subscriptions.list_for_user scan_subscriptions user (working s)).
Definition my_membership (now : datetime) (principal : Principal) : M (session Db) (option Subscription) :=
  user ← of_result (user_uuid principal);
  gets (fun s => active_for_user now user (working s)).

Definition subscribe (now : datetime) (plan_id : uuid) (provider : option PaymentProvider) (return_url : option string) (principal : Principal)
    : M (session Db) Subscription :=
  _ ← of_result (safe_return_url settings netloc_ok return_url);
  plan ← in_session (get_plan plan_id);
  gateway ← of_result (Gateways.resolve settings provider (pl_price_minor plan));
  user ← of_result (user_uuid principal);
  committing (Subscriptions.create now user plan gateway None).
Definition cancel_subscription (now : datetime) (subscription_id : uuid) (at_period_end : bool) (principal : Principal)
    : M (session Db) Subscription :=
  user ← of_result (user_uuid principal);
  s ← in_session (Subscriptions.get_for_user subscription_id user);
  committing (Subscriptions.cancel now s at_period_end).

Definition register_affiliate (race : Db -> Db) (token : string) (code : option string) (principal : Principal) : M (session Db) AffiliateAccount :=
  user ← of_result (user_uuid principal);
  committing (Affiliates.register settings race token user code).
Definition my_affiliate (principal : Principal) : M (session Db) (option AffiliateAccount) :=
  user ← of_result (user_uuid principal);
  in_session (Affiliates.for_user user).
Definition my_conversions (principal : Principal) (limit offset : Z) : M (session Db) (list AffiliateConversion * Z) :=
  user ← of_result (user_uuid principal);
  account ← in_session (Affiliates.for_user user);
  match account with
  | None => mret ([], 0)
  | Some a => gets (fun s => conversions_for scan_conversions (aa_id a) limit offset (working s))
  end.
End routes.

(** ** Lemmas: sessions *)

Lemma serve_inv {A} (m : M (session Db) A) s r s' : serve m s = (r, s') ->
  (exists a s1, m s = (Ok a, s1) /\ r = Ok a /\ s' = Session (working s1) (working s1)) \/
  (exists e s1, m s = (Raise e, s1) /\ r = Raise e /\ s' = Session (committed s1) (committed s1)).
Proof.
  unfold serve, try_except. destruct (m s) as [[a|e] s1] eqn:E.
  - rewrite (bind_ok _ _ _ _ _ E). intros [= <- <-]. left. eauto.
  - rewrite (bind_raise _ _ _ _ _ E). intros [= <- <-]. right. eauto.
Qed.

Lemma in_session_inv {A} (m : M Db A) s r s' : in_session m s = (r, s') ->
  exists d', m (working s) = (r, d') /\ s' = Session (committed s) d'.
Proof. unfold in_session, lift. destruct (m (working s)) as [r1 d1]. intros [= <- <-]. eauto. Qed.

Lemma get_order_inv k d r d' : get_order k d = (r, d') ->
  d' = d /\ match r with Ok o => orders d !! k = Some o | Raise e => orders d !! k = None /\ e = app_error NotFoundError "" end.
Proof.
  unfold get_order. intros [(x & d1 & [= <- <-] & H)|(e & [=] & _)]%bind_inv. destruct (orders d !! k) as [o|]; by injection H as <- <-.
Qed.

Lemma committing_inv {A} (m : M Db A) s r s' : committing m s = (r, s') ->
  exists d', m (working s) = (r, d') /\ match r with Ok _ => s' = Session d' d' | Raise _ => s' = Session (committed s) d' end.
Proof.
  intros [(a & s1 & Hm & H)|(e & Hm & ->)]%bind_inv.
  - apply in_session_inv in Hm as (d' & Hm & ->). apply bind_inv in H as [([] & s2 & [= <-] & [= <- <-])|(e & [=] & _)].
    eauto.
  - apply in_session_inv in Hm as (d' & Hm & ->). eauto.
Qed.

Section properties.
Context (settings : Settings) (http : PaymentProvider -> http_client).


(** Settling by hand is settling.  [mark-paid] on an order that is not yet
    settled commits it as PAID with a manual payment that names the order and the
    operator, an invoice of its own, and announces it once; on one that is
    settled, whoever asks, it announces nothing and no order changes. *)
Theorem manual_settlement_settles_once now order_id principal pub s r s' o
    (Hplain : escape_term (invoice_prefix settings) = invoice_prefix settings) (Hera : in_era now)
    (Hinv : ServiceInv settings (working s)) (Ho : orders (working s) !! order_id = Some o)
    (Hrun : serve (mark_order_paid settings now alone order_id principal pub) s = (r, s')) :
  ServiceInv settings (committed s') /\
  exists p, payments (committed s') !! p_id p = Some p /\ is_payment MANUAL (manual_reference o principal) p = true /\
    if settled o
    then r = Ok (o, []) /\ orders (committed s') = orders (working s)
    else exists i, r = Ok (set_paid now o, announce_paid pub (mkSettlement (set_paid now o) (Some p) (Some i) true)) /\
           orders (committed s') = <[order_id := set_paid now o]> (orders (working s)) /\
           invoices (committed s') !! iv_id i = Some i /\ iv_order_id i = order_id.
Proof.
  assert (Hid : o_id o = order_id) by exact (keyed_lookup _ _ _ (oi_keyed _ (si_orders _ _ Hinv)) Ho).
  destruct (settle settings now alone o MANUAL (manual_reference o principal) None None None
              (Some (JObj [("settled_by", JStr (user_id principal)); ("channel", JStr "manual")])) (working s)) as [rs d'] eqn:Hs.
  pose proof Hs as Hspec. apply settle_spec in Hspec as (Hinv' & p & Hp & His & Hcase); [|done..|by rewrite Hid].
  assert (Hmark : forall res, rs = Ok res ->
    serve (mark_order_paid settings now alone order_id principal pub) s = (Ok (sr_order res, announce_paid pub res), Session d' d')).
  { intros res ->. unfold serve, try_except, mark_order_paid. cbv [in_session lift get_order get mbind M_bind mret M_ret].
    rewrite Ho. cbn. rewrite Hs. done. }
  destruct (settled o).
  - destruct Hcase as [-> Honly]. rewrite (Hmark _ eq_refl) in Hrun. injection Hrun as <- <-. split; [done|].
    exists p. split; [done|]. split; [done|]. unfold announce_paid. cbn. split; [by destruct pub|]. by rewrite Honly.
  - destruct Hcase as (i & -> & Hord & _ & Hi & Hio & _). rewrite (Hmark _ eq_refl) in Hrun. injection Hrun as <- <-.
    split; [done|]. exists p. split; [done|]. split; [done|]. exists i. rewrite <- Hid. by repeat split.
Qed.

(** The books of a listing of the user's own paid orders, while they are within its limit. *)
Lemma purchased_books_exact scan user s (Hscan : forall l, scan l ≡ₚ l)
    (Hfew : count (fun o => (o_user_id o =? user)%N) (orders (working s)) <= PURCHASE_LIMIT) b :
  (exists books, internal_purchased_books scan user s = (Ok books, s) /\
    (b ∈ books <-> exists k o i, orders (working s) !! k = Some o /\ o_user_id o = user /\ (o_status o = PAID \/ o_status o = PARTIALLY_REFUNDED) /\
       i ∈ o_items o /\ it_book_id i = b)).
Proof.
  eexists. split; [reflexivity|]. unfold purchased_from. rewrite elem_of_fromkeys, list_elem_of_In, in_concat.
  assert (Hrows : (list_all scan None (Some user) None None PURCHASE_LIMIT 0 (working s)).1 ≡ₚ
                  select (fun o => (o_user_id o =? user)%N) (orders (working s))).
  { unfold list_all, slice, latest_first. cbn [fst]. rewrite drop_0, take_ge.
    - rewrite merge_sort_Permutation, Hscan. apply Permutation_refl'. unfold select. apply List.filter_ext. intros o. unfold in_listing. cbn. by rewrite !andb_true_r.
    - rewrite merge_sort_Permutation, Hscan. unfold count in Hfew. apply Nat2Z.inj_le. rewrite Z2Nat.id by done.
      etrans; [|exact Hfew]. unfold select. erewrite List.filter_ext; [reflexivity|]. intros o. unfold in_listing. cbn. by rewrite !andb_true_r. }
  split.
  - intros (l & (o & <- & Hin)%in_map_iff & Hb). apply filter_In in Hin as [Hin Hst%bool_decide_eq_true].
    apply list_elem_of_In in Hin. rewrite Hrows in Hin. apply elem_of_select in Hin as [[k Hk] Hu%N.eqb_eq].
    apply in_map_iff in Hb as (i & <- & Hi). exists k, o, i. split; [done|]. split; [done|]. split; [set_solver|].
    split; [by apply list_elem_of_In|done].
  - intros (k & o & i & Hk & Hu & Hst & Hi & <-). exists (order_book_ids o). split.
    + apply in_map_iff. exists o. split; [done|]. apply filter_In. split; [|apply bool_decide_eq_true; set_solver].
      apply list_elem_of_In. rewrite Hrows. apply elem_of_select. split; [by exists k|by apply N.eqb_eq].
    + apply in_map_iff. exists i. split; [done|]. by apply list_elem_of_In.
Qed.
End properties.

Section billing.
Context (scan_invoices : list Invoice -> list Invoice) (scan_conversions : list AffiliateConversion -> list AffiliateConversion)
        (scan_subscriptions : list Subscription -> list Subscription).
(** The database returns rows of the query, in some order. *)
Context (Hinvoices : forall l x, x ∈ scan_invoices l -> x ∈ l) (Hconversions : forall l x, x ∈ scan_conversions l -> x ∈ l)
        (Hsubscriptions : forall l x, x ∈ scan_subscriptions l -> x ∈ l).

Lemma for_user_inv user d r d' : Affiliates.for_user user d = (r, d') ->
  d' = d /\ match r with Ok (Some a) => exists k, accounts d !! k = Some a /\ aa_user_id a = user | _ => True end.
Proof.
  unfold Affiliates.for_user. intros [(x & d1 & [= <- <-] & [H ->]%of_result_inv)|(e & [=] & _)]%bind_inv. split; [done|].
  destruct r as [[a|]|]; [|done|done]. symmetry in H. apply one_or_none_Some in H.
  assert (Ha : a ∈ [a]) by by left. rewrite <- H in Ha. apply elem_of_select in Ha as [[k Hk] Hu%N.eqb_eq]. eauto.
Qed.

Lemma get_for_user_cases id user d r d' : Subscriptions.get_for_user id user d = (r, d') ->
  d' = d /\ match r with
            | Ok m => subscriptions d !! id = Some m /\ su_user_id m = user
            | Raise e => e = app_error NotFoundError "" /\ forall m, subscriptions d !! id = Some m -> su_user_id m <> user
            end.
Proof.
  unfold Subscriptions.get_for_user, get_subscription. cbv [get mbind M_bind mret M_ret raise].
  destruct (subscriptions d !! id) as [m|]; [|intros [= <- <-]; split; [done|split; [done|discriminate]]].
  destruct (N.eqb_spec (su_user_id m) user) as [Hu|Hu]; intros [= <- <-]; (split; [done|]); [done|]. split; [done|]. by intros ? [= <-].
Qed.

(** Each listing shows rows of the caller, and each look-up a row of the caller. *)
Lemma my_invoices_own user principal limit offset s rows n s' : user_uuid principal = Ok user ->
  my_invoices scan_invoices principal limit offset s = (Ok (rows, n), s') -> s' = s /\ forall i, i ∈ rows -> iv_user_id i = user.
Proof.
  intros Hu. unfold my_invoices. rewrite Hu. intros [= <- <- <-]. split; [done|].
  by intros i [_ Hi%N.eqb_eq]%(elem_of_page _ _ _ _ _ _ Hinvoices)%elem_of_select.
Qed.
Lemma my_invoice_own user principal id s i s' : user_uuid principal = Ok user ->
  my_invoice id principal s = (Ok i, s') -> s' = s /\ iv_user_id i = user.
Proof.
  intros Hu. unfold my_invoice. rewrite Hu. cbv [of_result in_session lift get_invoice_for_user get mbind M_bind mret M_ret raise].
  destruct (invoices (working s) !! id) as [j|]; [|done]. destruct (N.eqb_spec (iv_user_id j) user); [|done].
  intros [= <- <-]. split; [by destruct s|done].
Qed.
Lemma my_subscriptions_own user principal s rows s' : user_uuid principal = Ok user ->
  my_subscriptions scan_subscriptions principal s = (Ok rows, s') -> s' = s /\ forall m, m ∈ rows -> su_user_id m = user.
Proof.
  intros Hu. unfold my_subscriptions. rewrite Hu. intros [= <- <-]. split; [done|]. intros m Hm.
  unfold Subscriptions.list_for_user, latest_first in Hm. rewrite merge_sort_Permutation in Hm. apply Hsubscriptions in Hm.
  by apply elem_of_select in Hm as [_ Hm%N.eqb_eq].
Qed.
Lemma my_membership_own user principal now s m s' : user_uuid principal = Ok user ->
  my_membership now principal s = (Ok (Some m), s') -> s' = s /\ su_user_id m = user /\ grants now m = true.
Proof.
  intros Hu. unfold my_membership. rewrite Hu. intros [= H <-]. split; [done|]. apply first_by_elem in H.
  by apply elem_of_select in H as [_ [Hm%N.eqb_eq Hg]%andb_prop].
Qed.
Lemma my_conversions_own user principal limit offset s rows n s' : user_uuid principal = Ok user ->
  my_conversions scan_conversions principal limit offset s = (Ok (rows, n), s') ->
  s' = s /\ forall c, c ∈ rows -> exists k a, accounts (working s) !! k = Some a /\ aa_user_id a = user /\ ac_account_id c = aa_id a.
Proof.
  intros Hu. unfold my_conversions. rewrite Hu. intros (u & s1 & [= <- <-] & H)%bind_ok_inv.
  apply bind_ok_inv in H as (o & s2 & Ha & H). apply in_session_inv in Ha as (d & [-> Ha]%for_user_inv & ->).
  assert (Es : Session (committed s) (working s) = s) by by destruct s. rewrite Es in H.
  destruct o as [a|]; [|injection H as <- <- <-; split; [done|]; by intros c Hc%not_elem_of_nil].
  destruct Ha as (k & Hk & Hau). injection H as <- <- <-. split; [done|].
  intros c [_ Hc%N.eqb_eq]%(elem_of_page _ _ _ _ _ _ Hconversions)%elem_of_select. by exists k, a.
Qed.

(** C9: A customer's billing pages are about that customer.  Invoices,
    memberships and referred sales that are listed or looked up are the
    caller's own, and reading changes nothing; a subscription is cancelled only
    by its owner — anybody else gets the answer an unknown id gets and changes
    nothing — and cancelling changes no other row. *)
Theorem billing_is_scoped user principal now s
    (Huser : user_uuid principal = Ok user) (Hclean : committed s = working s) :
  (forall limit offset rows n s', my_invoices scan_invoices principal limit offset s = (Ok (rows, n), s') ->
     s' = s /\ forall i, i ∈ rows -> iv_user_id i = user) /\
  (forall id i s', my_invoice id principal s = (Ok i, s') -> s' = s /\ iv_user_id i = user) /\
  (forall rows s', my_subscriptions scan_subscriptions principal s = (Ok rows, s') ->
     s' = s /\ forall m, m ∈ rows -> su_user_id m = user) /\
  (forall m s', my_membership now principal s = (Ok (Some m), s') -> s' = s /\ su_user_id m = user /\ grants now m = true) /\
  (forall limit offset rows n s', my_conversions scan_conversions principal limit offset s = (Ok (rows, n), s') ->
     s' = s /\ forall c, c ∈ rows -> exists k a, accounts (working s) !! k = Some a /\ aa_user_id a = user /\ ac_account_id c = aa_id a) /\
  (forall id at_end r s', serve (cancel_subscription now id at_end principal) s = (r, s') ->
     match subscriptions (working s) !! id with
     | Some m =>
         if (su_user_id m =? user)%N
         then committed s' = working s \/ committed s' = set_subscriptions (alter (cancelled now at_end) (su_id m) (subscriptions (working s))) (working s)
         else r = Raise (app_error NotFoundError "") /\ committed s' = working s
     | None => r = Raise (app_error NotFoundError "") /\ committed s' = working s
     end).
Proof.
  split; [intros *; by apply my_invoices_own|]. split; [intros *; by apply my_invoice_own|].
  split; [intros *; by apply my_subscriptions_own|]. split; [intros *; by apply my_membership_own|].
  split; [intros *; by apply my_conversions_own|]. intros id at_end r s' Hrun.
  destruct (Subscriptions.get_for_user id user (working s)) as [rg d1] eqn:Hg. pose proof Hg as [-> Hcase]%get_for_user_cases.
  unfold serve, try_except, cancel_subscription in Hrun. rewrite Huser in Hrun.
  cbv [of_result in_session lift mbind M_bind mret M_ret] in Hrun. rewrite Hg in Hrun. destruct rg as [m|e].
  - destruct Hcase as [-> ->]. rewrite N.eqb_refl. unfold committing, Subscriptions.cancel in Hrun. case_bool_decide.
    + injection Hrun as _ <-. by left.
    + injection Hrun as _ <-. by right.
  - destruct Hcase as [-> Hno]. injection Hrun as <- <-. cbn. rewrite Hclean.
    destruct (subscriptions (working s) !! id) as [m|]; [|done]. by rewrite (proj2 (N.eqb_neq _ _) (Hno m eq_refl)).
Qed.
End billing.

(** An operator's update leaves the ledger of redemptions alone, and keeps it
    sound unless the limit is set below what was already redeemed. *)
Lemma update_coupon_sound c p st r st' : CouponInv st -> coupons st !! cp_id c = Some c -> update_coupon c p st = (r, st') ->
  redemptions st' = redemptions st /\ (forall k, is_Some (coupons st' !! k) <-> is_Some (coupons st !! k)) /\
  ((forall l, cp_usage_limit (updated_coupon p c) = Some l -> cp_usage_count c <= l) -> CouponInv st').
Proof.
  intros Hinv Hc. unfold update_coupon. intros [([] & s1 & [-> _]%raise_when_cases & H)|(e & [-> _]%raise_when_cases & _)]%bind_inv; [|done].
  apply bind_inv in H as [([] & s1 & [-> _]%raise_when_cases & H)|(e & [-> _]%raise_when_cases & _)]; [|done].
  apply bind_inv in H as [([] & s1 & [= <-] & [= _ <-])|(e & [=] & _)]. cbn [redemptions coupons set_coupons].
  split; [done|]. split; [intros k; apply lookup_alter_is_Some|]. intros Hlim. destruct Hinv as [Hk Hrk Hcode Hpair Href Hled Hl].
  assert (Hrow : forall k x, alter (updated_coupon p) (cp_id c) (coupons st) !! k = Some x ->
    exists x0, coupons st !! k = Some x0 /\ cp_usage_count x = cp_usage_count x0 /\ (x = x0 \/ (x0 = c /\ x = updated_coupon p c))).
  { intros k x (w & Hw & [[-> ->]|[_ ->]])%lookup_alter_cases; exists w; (split; [done|]); [|by auto].
    assert (w = c) as -> by congruence. split; [done|]. by right. }
  constructor; cbn [redemptions coupons set_coupons]; try done.
  - by apply keyed_alter.
  - by apply unique_alter.
  - intros k x Hx. apply lookup_alter_is_Some. by apply (Href k).
  - intros k x (x0 & Hx0 & -> & _)%Hrow. by apply Hled.
  - intros k x l (x0 & Hx0 & Hcount & [->|[-> ->]])%Hrow Hlx; [by apply (Hl k x0)|]. by apply Hlim.
Qed.

(** ** Witnesses and examples *)

Definition clean (d : Db) : session Db := Session d d.
Definition operator : Checkout.Principal := Checkout.mkPrincipal (string_of_uuid 3) None.


Lemma manual_settlement_settles_once_witness :
  exists s', serve (mark_order_paid default_settings sample_now alone 1 operator None) (clean sample_db) = (Ok (set_paid sample_now sample_order, []), s') /\
    orders (committed s') !! 1%N = Some (set_paid sample_now sample_order).
Proof.
  destruct (serve (mark_order_paid default_settings sample_now alone 1 operator None) (clean sample_db)) as [r s'] eqn:E.
  destruct (manual_settlement_settles_once default_settings sample_now 1 operator None (clean sample_db) r s' sample_order
    ltac:(by vm_compute) (proj1 sample_now_era) sample_service_inv eq_refl E) as (_ & p & _ & _ & H).
  change (settled sample_order) with false in H. cbn beta iota in H. destruct H as (i & -> & Ho & _).
  exists s'. split; [done|]. rewrite Ho. by rewrite lookup_insert_eq.
Defined.

Definition all_rows {A} (l : list A) : list A := l.
Definition other_customer : Checkout.Principal := Checkout.mkPrincipal (string_of_uuid 8) None.

Lemma billing_is_scoped_witness :
  (serve (cancel_subscription sample_now 1 true other_customer) (clean started.2)).1 = Raise (app_error NotFoundError "") /\
  exists s', my_subscriptions all_rows (Checkout.mkPrincipal (string_of_uuid 7) None) (clean started.2) = (Ok [trial_member], s') /\ s' = clean started.2.
Proof.
  assert (Hall : forall A (l : list A) x, x ∈ all_rows l -> x ∈ l) by done.
  split.
  - destruct (serve (cancel_subscription sample_now 1 true other_customer) (clean started.2)) as [r s'] eqn:E.
    destruct (billing_is_scoped all_rows all_rows all_rows (Hall _) (Hall _) (Hall _) 8 other_customer sample_now (clean started.2)
      ltac:(vm_compute; reflexivity) eq_refl) as (_ & _ & _ & _ & _ & H).
    specialize (H 1%N true r s' E). change (subscriptions (working (clean started.2)) !! 1%N) with (Some trial_member) in H.
    cbn beta iota in H. change (su_user_id trial_member =? 8)%N with false in H. cbn beta iota in H. by destruct H as [-> _].
  - destruct (my_subscriptions all_rows (Checkout.mkPrincipal (string_of_uuid 7) None) (clean started.2)) as [[l|e] s'] eqn:E;
      [|vm_compute in E; discriminate].
    destruct (billing_is_scoped all_rows all_rows all_rows (Hall _) (Hall _) (Hall _) 7 (Checkout.mkPrincipal (string_of_uuid 7) None) sample_now
      (clean started.2) ltac:(vm_compute; reflexivity) eq_refl) as (_ & _ & H & _).
    exists s'. destruct (H l s' E) as [-> _]. split; [|done]. f_equal. vm_compute in E. injection E as <-. reflexivity.
Defined.

(** An update is not checked as a creation is: a percentage above a hundred and
    a window that ends before it starts go through. *)
Definition no_change : CouponUpdate := mkCouponUpdate None None None None None None None None None None None.
Definition ten_percent : Coupon := updated_coupon no_change
  {| cp_id := 1; cp_code := "TEN"; cp_description := None; cp_coupon_type := Coupons.PERCENT; cp_value := 10; cp_max_discount_minor := None;
     cp_min_order_minor := 0; cp_currency := None; cp_usage_limit := None; cp_usage_count := 0; cp_per_user_limit := 1; cp_valid_from := None;
     cp_valid_until := None; cp_is_active := true; cp_applicable_book_ids := []; cp_applicable_category_ids := [] |}.
Example update_skips_the_checks :
  let p := mkCouponUpdate None (Some (Some 150)) None None None None (Some (Some 100)) (Some (Some 50)) None None None in
  coupon_update_valid p = true /\
  exists c st, update_coupon ten_percent p (mkCouponStore {[ 1%N := ten_percent ]} ∅) = (Ok c, st) /\
    cp_value c = 150 /\ cp_valid_from c = Some 100 /\ cp_valid_until c = Some 50.
Proof. split; [done|]. do 2 eexists. split; [vm_compute; reflexivity|done]. Qed.

(** A trial ends when it is cancelled, and the next one starts at once. *)
Example trials_can_be_repeated :
  match Subscriptions.cancel (13 * DAY) trial_member false started.2 with
  | (Ok _, d) => (fun m => (su_status m, su_trial_ends_at m)) <$> (fst (Subscriptions.create (13 * DAY) 7 trial_plan STRIPE None d) : result Subscription) =
      Ok (SubscriptionStatus.TRIALING, Some (27 * DAY))
  | _ => False
  end.
Proof. vm_compute. reflexivity. Qed.

(** The announcement of a replayed settlement names neither the payment nor the
    invoice, as the first delivery's would. *)
Example replay_announces_less :
  match serve (replay_webhook live_settings sample_now alone 1 (Some (fun _ => true))) (clean replay_db) with
  | (Ok ev, s') => map (fun e => (fst e, jget "payment_id" (snd e), jget "invoice_number" (snd e))) ev =
                     [("payment.succeeded", JNull, JNull); ("order.paid", JNull, JNull)] /\
                   size (invoices (committed s')) = 1%nat /\ size (payments (committed s')) = 1%nat
  | _ => False
  end.
Proof. vm_compute. done. Qed.

(** An order that went to Razorpay's checkout and was then settled by hand: its
    refund is asked of Razorpay, for a payment Razorpay never saw. *)
Definition sent_to_razorpay : Db := set_orders (save (set_gateway RAZORPAY "order_G1" None sample_order) ∅) empty_db.
Definition settled_by_hand : Db := committed (serve (mark_order_paid live_settings sample_now alone 1 operator None) (clean sent_to_razorpay)).2.
Definition razorpay_knows (p : PaymentProvider) : http_client := fun path _ _ =>
  if startswith "/payments/manual_" path then Failure (Ok (JObj [("error", JObj [("code", JStr "BAD_REQUEST_ERROR")])]))
  else Success (Ok (JObj [("id", JStr "rfnd_1"); ("status", JStr "processed")])).
Example manual_payment_cannot_be_refunded :
  (o_status <$> orders settled_by_hand !! 1%N = Some PAID) /\
  (serve (refund_order live_settings razorpay_knows (sample_now + 1) 5 1 None None true operator (Some (fun _ => true))) (clean settled_by_hand)).1 =
    Raise (app_error UpstreamError "bad_request_error").
Proof. vm_compute. done. Qed.

(** An order that was paid by card and is marked paid once more keeps its state,
    and has a second captured payment of the full amount. *)
Example second_capture_is_recorded :
  let s := serve (mark_order_paid live_settings sample_now alone 1 operator None) (clean captured_db) in
  (exists o, s.1 = Ok (o, [])) /\
  map (fun p => (p_provider p, p_status p, p_amount_minor p)) (rows (payments (committed s.2))) =
    [(MANUAL, PaymentStatus.CAPTURED, 49900); (RAZORPAY, PaymentStatus.CAPTURED, 49900)] /\
  (o_total_minor <$> orders captured_db !! 1%N) = Some 49900.
Proof. vm_compute. split; [by eexists|done]. Qed.
